(* ===== verification/_CoqProject ===== *)
-Q . S2P
Prelude.v
PyText.v
Errors.v
PyFloat.v
Circuit.v
Redis.v
ChatSlots.v
Tenancy.v
PyRe.v
PyUnicode.v
PySort.v
PyDict.v
OrderNo.v
Filters.v
Schemas.v
Policy.v
Window.v
Json.v
PyJson.v
State.v
Archive.v
Slots.v
Facts.v
Compress.v
Turn.v
Intent.v
OrderAccess.v
UserMemory.v
Orders.v
Escalation.v
ToolCache.v
Capability.v
OrderCapability.v
CourseCapability.v
Executors.v
Query.v
Documents.v
Retrieval.v
RagContext.v
Chunking.v
CourseAgent.v
Ingest.v
IngestApi.v
Harvest.v
Middleware.v
Supervisor.v
React.v
CacheUpdates.v
Graph.v
TurnArchive.v
QuotaStore.v
Gateway.v
CacheCodec.v
SessionLock.v
CheckpointCache.v
Runner.v
Concurrency.v
Sse.v
Metrics.v
Web.v
