(* ===== verification/Prelude.v ===== *)
(** * Verification of the customer-service backend: overview and prelude

    The program ([src/app]) is a multi-tenant customer-service agent: a LangGraph
    graph that checks a question, recognises its intent, routes it to course
    retrieval, an order lookup, a supervisor or small talk, and answers; around it, an
    LLM gateway with quotas, cache and circuit breaker, session locks, concurrency
    slots, tool caches and order permissions.

    ** Files and the code they model

    Foundations, with no code of their own:
    - [Prelude]: outcomes of calls ([res]), the state-and-exception monad [ST] (the
      state survives an exception, as in Python), [trace] (reflexive-transitive
      closure of a labelled step relation), list lemmas, automation ([crush],
      [bool_to_prop], the hint database [py]).
    - [PyText]: [str] as lists of code points, with [strip], [lower], [replace], [in],
      [\d] and [isspace] (Unicode 14.0 tables); [PyFloat]: binary64 arithmetic,
      [round], [int], [format(x, "g")], decimal text; [PyRe]: a backtracking matcher for
      the regular expressions; [Json]: the dictionaries of the graph's state; [PyJson]:
      [json.dumps] and [json.loads] on text, with decimal numbers; [PyUnicode]: case
      folding and letters; [PySort]: stable sorting, and the order of floats; [PyDict]:
      dictionaries whose order shows.
    - [Errors]: every exception the modelled code raises or tests for.
    - [Redis]: Redis commands as type classes with laws, and executable servers.

    Components, each a file with its data, operations, invariant and theorems:
    - [Circuit] (llm_gateway/circuit.py): the breaker; each function is an atomic step
      (the code holds a lock), and [step] is the system of concurrent callers.
    - [ChatSlots] (chat_slots.py): the in-process store ([Memory]) and the Lua scripts
      ([Cluster]) refine one specification of leases, through the class [SlotStore].
    - [Tenancy] (tenancy.py, thread_id.py): identities and thread ids.
    - [OrderNo] (services/order.py, agents/policy.py): order numbers in text.
    - [Schemas] (schemas.py), [Policy] (agents/policy.py): routing data, guards, graph
      edges, the supervisor's plan.
    - [Window] (context/window.py), [Slots] (context/slots.py), [Intent]
      (agents/intent.py): history selection under a token budget, what is remembered
      between turns, and recognition itself.
    - [Filters] (security/filters.py): injection detection, masking, the length limit.
    - [State] (graph/state), [Turn] (context/turn.py), [Graph] (graph/nodes.py,
      builder.py): the state of a conversation, its message channel, the nodes and the
      edges of a turn; [CacheUpdates]: what tools may write into that state.
    - [Facts] (context/summary/facts.py), [Compress] (the rest of context/summary): the
      rolling summary, and which messages are kept, folded into it or let go.
    - [Archive] (db/archive.py), [UserMemory] (memory.py): conversations and profiles that
      outlive the checkpoint; [TurnArchive] promises the runner what a turn leaves there.
    - [Runner] (graph/runner.py, stream.py, hydrate.py): a turn as a stream of events, over
      the class [TurnGraph]; [Concurrency] (concurrency.py, the chat endpoints of app.py):
      a request around it, over the class [SlotStore].
    - [OrderAccess] (security/order_access.py), [Orders] (services/order.py): who may
      read which order, and the report built from it.
    - [Escalation] (tool_escalation.py), [ToolCache] (tool_cache.py): failure counts and
      hand-over; cached reports, over the class [ToolCacheStore] with an in-process and
      a Redis instance.
    - [Capability] (capabilities/types.py, registry.py): the protocol between the
      supervisor and its tools, a record of operations; [OrderCapability]
      (capabilities/order.py) and [CourseCapability] (capabilities/course.py) implement
      it; [Supervisor] (agents/supervisor.py) is its client.
    - [QuotaStore] (llm_gateway/stores.py, types.py), [Gateway] (llm_gateway/gateway.py):
      counters and response cache, in process and in Redis; quota, cache, breaker,
      retries and accounting around a model call or stream.
    - [SessionLock] (session_cache.py): the session locks and the workers around them;
      [CheckpointCache] (the same file): the checkpointer the workers share, over the class
      [SessionCache].
    - [CacheCodec] (llm_gateway/cache_codec.py): what the response cache keeps of an answer.
    - [Query] (rag/rewrite.py, catalog.py, retrieval_plan.py), [Documents] (rag/lexical.py),
      [Retrieval] and [RagContext] (rag/vectorstore.py), [CourseAgent] (agents/rag.py): a
      question is rewritten, searched for by vectors and by words, fused, reranked, turned
      into a context, and answered; [Chunking] (rag/chunking.py): outlines cut into documents;
      [Ingest] (rag/vectorstore.py): the indexes on disk and in the memory of each
      worker; [IngestApi] (rag/ingest_api.py): uploading an outline.
    - [Middleware] (security/middleware.py), [React] (agents/react.py): what stands between
      the agent and its model and tools, and the agent around LangChain's loop.
    - [Executors] (executors.py): the pools that run tools, as a step relation.
    - [Harvest] (evals/harvest.py): samples for evaluation, in files that processes share.
    - [Metrics] (observability/metrics): counters and histograms of a process, snapshots,
      and a scrape over all processes.
    - [Sse] (app.py, static/index.html): the text of a stream, and the page that reads it;
      [Web] (app.py, the rest of observability): the middleware around every request,
      readiness, feedback, the order report, a line of the log.

    ** How state and operations correspond

    A class with mutable fields is a record, or a finite map, threaded through its
    operations; a function that raises returns [res exn A]; one that does both is in
    [ST].  A context variable is an argument (or a field of the threaded state where the
    code sets it).  Time is an argument of each operation that reads a clock: the
    breaker, the slots and the locks compare whole numbers, so theirs is [Z]; the tool
    cache stores [time.time()], so its is a binary64 number, next to the server's [Z].
    Dictionaries whose order is never observed are [gmap]s; where it is, association
    lists.  Calls that run concurrently are atomic steps of a step relation (locks,
    breaker, slots) or run in an order given as an argument ([Supervisor.gather]).

    ** What the theorems show

    Routing: recognition followed by the guards sends a question only where the rules
    allow ([Intent], [Policy]), a plan is well formed, and a missing order number is
    asked for.  Permissions: an order is handed out exactly when the rules allow, and
    refusals are indistinguishable; the order tool and its cache keep that guarantee
    through time-outs, stale answers and shared stores ([OrderCapability], [ToolCache]).
    Billing: what a turn and a tenant are charged is what was used ([Gateway],
    [QuotaStore]).  Concurrency: mutual exclusion of turns, limits on conversations,
    and the breaker's invariant hold over all interleavings.  Text: the order-number
    expression finds the first run of eight digits; history windows fit their budget.
    Degradation: failures hand over to a person at the threshold and nothing is
    retrieved by guesswork ([Supervisor], [Escalation]).  Defects found while modelling
    are theorems too (a wedged breaker, an unbilled stream, a lease shorter than its
    turn, overlapping checkpoint writes), or examples.

    Turns: every turn that completes leaves an answer, on one of seven paths through the
    graph; a refused question touches no model and leaves no message; the history a turn
    leaves is what was there, with the question and the answer, less what the summary took
    in, and compression loses nothing ([Graph], [Turn], [Compress]).  Memory: summary,
    archive and profile are read back as they were written, and a recalled order is one
    its reader may see ([Facts], [Archive], [UserMemory]).  Requests: a stream opens and
    closes as the client expects, both endpoints agree, locks and slots are given back
    ([Runner], [Concurrency]), and a conversation goes on from its checkpoint, on any
    worker, or from the archive ([CheckpointCache], [Runner]).  However the text of a stream
    is cut, the page ends on the answer ([Sse]); each request is counted once, and an order
    its caller may not read is to the caller no order ([Web]).

    Retrieval: a search yields documents of the tenant's knowledge only, whatever vector
    store and reranker return; the context fits its budget, and an answer refers to what
    was found ([Retrieval], [RagContext], [CourseAgent]).  Ingest: the states are those that
    searches and successful ingests of any workers lead to, one operation at a time, around
    one disk; a worker serves what the last ingest of a tenant found in its files
    ([Chunking], [Ingest]), an accepted upload among it, and an upload changes one file at
    most ([IngestApi]).  Agent: no text the model reads holds personal data, a failing tool
    does not end the turn, and a turn fails for few reasons only ([Middleware], [React]).
    Pools: slots are conserved and calls come to rest ([Executors]).  Metrics: a scrape adds
    up what all live processes counted ([Metrics]).  Samples are kept once ([Harvest]).

    ** Bounds and fuel

    [PyRe.star] runs with as much fuel as characters are left, which is enough because
    an iteration that consumes nothing stops it.  [PyFloat.dec] has a step per binary
    digit; [dec_exponent] searches from the number of digits down and a binary64 value
    has fewer than 700 decimal exponents to try.  Retry and acquisition loops run on
    their own budgets, and their theorems say that they end.  The progress score of an
    order is checked exhaustively up to seven steps.

    ** What is not modelled

    Code outside the repository is a parameter with its documented behaviour as laws:
    the language model, tokenizers, Redis, the database queries, the object store, FAISS
    (an index is taken to be its documents), LangChain's agent loop and its splitters,
    pydantic's validation, msgpack, the text of floating numbers in JSON.  The calls to the
    log, to the metrics and to the tracer are left out of the components that make them, as
    they have no effect on the rest.  Not modelled because they are wiring or input/output:
    the command line, the lifespan of the application and its pages, configuration, the
    application context, database sessions and demo data, the embedding client, spans and
    exporters, the evaluation scripts.  What is approximated: [exn_message] leaves out
    decimal fields; a message whose content is a list passes the masking as it is, as in
    the code; [isdigit] is taken to hold of decimal digits only.  A client is taken to read
    its stream to the end, and two calls of the checkpointer on one worker to follow one
    another, except where a theorem says otherwise. *)

From stdpp Require Import base list gmap sets.
From Stdlib Require Export ZArith Lia.

Create HintDb py.
Declare Scope py_scope.
Delimit Scope py_scope with py.

(** ** Results of Python calls *)

(** The outcome of a call: a value, or the exception it raised. *)
Inductive res (E A : Type) : Type :=
| Ok (a : A)
| Raise (e : E).
Arguments Ok {E A} a.
Arguments Raise {E A} e.

Definition is_ok {E A} (r : res E A) : bool :=
  match r with Ok _ => true | Raise _ => false end.

#[export] Instance res_eq_dec {E A} `{EqDecision E, EqDecision A} : EqDecision (res E A).
Proof. solve_decision. Defined.

Definition rbind {E A B} (m : res E A) (k : A -> res E B) : res E B :=
  match m with Ok a => k a | Raise e => Raise e end.

Notation "'let?' x ':=' m 'in' k" := (rbind m (fun x => k))
  (at level 10, x pattern, m at level 100, k at level 200,
   format "'[v' 'let?'  x  ':='  m  'in' '/' k ']'") : py_scope.

Lemma rbind_ok {E A B} (m : res E A) (k : A -> res E B) b :
  rbind m k = Ok b <-> exists a, m = Ok a /\ k a = Ok b.
Proof. destruct m; cbn; naive_solver. Qed.

(** ** A state-and-exception monad

    Mutations made before an exception is raised stay visible, as in Python:
    the final state is returned next to the outcome, not inside it. *)
Definition ST (S E A : Type) : Type := S -> res E A * S.

Section monad.
Context {S E : Type}.

Definition st_ret {A} (a : A) : ST S E A := fun s => (Ok a, s).
Definition st_bind {A B} (m : ST S E A) (k : A -> ST S E B) : ST S E B :=
  fun s => match m s with
           | (Ok a, s') => k a s'
           | (Raise e, s') => (Raise e, s')
           end.
Definition st_raise {A} (e : E) : ST S E A := fun s => (Raise e, s).
Definition st_get : ST S E S := fun s => (Ok s, s).
Definition st_modify (f : S -> S) : ST S E unit := fun s => (Ok tt, f s).

(** [try: m  except: h] where [h] declines (returns [None]) the exceptions
    no clause matches; a clause that ends in [raise] re-raises itself. *)
Definition st_except {A} (m : ST S E A) (h : E -> option (ST S E A)) : ST S E A :=
  fun s => match m s with
           | (Ok a, s') => (Ok a, s')
           | (Raise e, s') => match h e with
                              | Some k => k s'
                              | None => (Raise e, s')
                              end
           end.

(** [try: m  finally: f]: [f] runs on every path; an exception raised by [f]
    replaces the outcome of [m]. *)
Definition st_finally {A} (m : ST S E A) (f : ST S E unit) : ST S E A :=
  fun s => let (r, s') := m s in
           match f s' with
           | (Ok _, s'') => (r, s'')
           | (Raise e, s'') => (Raise e, s'')
           end.
End monad.

Notation "'let!' x ':=' m 'in' k" := (st_bind m (fun x => k))
  (at level 10, x pattern, m at level 100, k at level 200,
   format "'[v' 'let!'  x  ':='  m  'in' '/' k ']'") : py_scope.
Notation "'do!' m 'in' k" := (st_bind m (fun _ => k))
  (at level 10, m at level 100, k at level 200,
   format "'[v' 'do!'  m  'in' '/' k ']'") : py_scope.

(** A [finally] block that cannot raise is run exactly once on the state the
    body leaves, whatever the body's outcome. *)
Lemma st_finally_total {S E A} (m : ST S E A) (f : S -> S) s :
  st_finally m (st_modify f) s = ((m s).1, f (m s).2).
Proof. unfold st_finally, st_modify. by destruct (m s). Qed.

Lemma st_bind_ok {S E A B} (m : ST S E A) (k : A -> ST S E B) s a s' :
  m s = (Ok a, s') -> st_bind m k s = k a s'.
Proof. intros H. unfold st_bind. by rewrite H. Qed.

Lemma st_bind_raise {S E A B} (m : ST S E A) (k : A -> ST S E B) s e s' :
  m s = (Raise e, s') -> st_bind m k s = (Raise e, s').
Proof. intros H. unfold st_bind. by rewrite H. Qed.

Lemma st_bind_inv {S E A B} (m : ST S E A) (k : A -> ST S E B) s r s' :
  st_bind m k s = (r, s') ->
  (exists a s1, m s = (Ok a, s1) /\ k a s1 = (r, s')) \/
  (exists e, m s = (Raise e, s') /\ r = Raise e).
Proof. unfold st_bind. destruct (m s) as [[a|e] s1]; [eauto|]. intros [= <- <-]. eauto. Qed.

Lemma st_except_inv {S E A} (m : ST S E A) h s r s' :
  st_except m h s = (r, s') ->
  (exists a, m s = (Ok a, s') /\ r = Ok a) \/
  (exists e s1, m s = (Raise e, s1) /\
     match h e with Some k => k s1 = (r, s') | None => r = Raise e /\ s' = s1 end).
Proof.
  unfold st_except. destruct (m s) as [[a|e] s1]; [intros [= <- <-]; eauto|].
  intros H. right. exists e, s1. split; [done|]. destruct (h e); [done|]. by simplify_eq.
Qed.

(** ** Step relations: reflexive-transitive closure along a labelled trace *)
Section traces.
Context {S L : Type} (step : S -> L -> S -> Prop).

Inductive trace : S -> list L -> S -> Prop :=
| trace_nil s : trace s [] s
| trace_cons s l s' ls s'' : step s l s' -> trace s' ls s'' -> trace s (l :: ls) s''.

Lemma trace_inv (P : S -> Prop) :
  (forall s l s', P s -> step s l s' -> P s') ->
  forall s ls s', trace s ls s' -> P s -> P s'.
Proof. intros Hstep s ls s' Ht. induction Ht; eauto. Qed.

Lemma trace_app s ls s' ls' s'' :
  trace s ls s' -> trace s' ls' s'' -> trace s (ls ++ ls') s''.
Proof. induction 1; cbn; eauto using trace. Qed.
End traces.
#[export] Hint Constructors trace : py.

(** ** Shared automation *)

(** Split the conditionals of goal and hypotheses, keeping the equations, and
    turn boolean comparisons into propositions. *)
Ltac bool_to_prop :=
  repeat match goal with
  | H : (_ <=? _)%Z = true |- _ => apply Z.leb_le in H
  | H : (_ <=? _)%Z = false |- _ => apply Z.leb_gt in H
  | H : (_ <? _)%Z = true |- _ => apply Z.ltb_lt in H
  | H : (_ <? _)%Z = false |- _ => apply Z.ltb_ge in H
  | H : (_ =? _)%Z = true |- _ => apply Z.eqb_eq in H
  | H : (_ =? _)%Z = false |- _ => apply Z.eqb_neq in H
  | H : (_ <=? _)%nat = true |- _ => apply Nat.leb_le in H
  | H : (_ <=? _)%nat = false |- _ => apply Nat.leb_gt in H
  | H : (_ <? _)%nat = true |- _ => apply Nat.ltb_lt in H
  | H : (_ <? _)%nat = false |- _ => apply Nat.ltb_ge in H
  | H : _ && _ = true |- _ => apply andb_true_iff in H as [? ?]
  | H : _ || _ = false |- _ => apply orb_false_iff in H as [? ?]
  | H : negb _ = true |- _ => apply negb_true_iff in H
  | H : negb _ = false |- _ => apply negb_false_iff in H
  | H : bool_decide _ = true |- _ => apply bool_decide_eq_true in H
  | H : bool_decide _ = false |- _ => apply bool_decide_eq_false in H
  end.

Ltac split_match :=
  match goal with
  | |- context [match ?x with _ => _ end] => destruct x eqn:?
  | H : context [match ?x with _ => _ end] |- _ => destruct x eqn:?
  end.

Ltac crush := repeat (split_match; simplify_eq/=); bool_to_prop;
  try solve [lia | naive_solver lia].

(** ** Lists *)

Section lists.
Context {A : Type}.

(** Python's [xs[-n:]]: the whole list when [n = 0]. *)
Definition py_last (n : nat) (l : list A) : list A :=
  match n with
  | 0 => l
  | _ => drop (length l - n) l
  end.

Lemma length_py_last n (l : list A) :
  n <> 0 -> length (py_last n l) = n `min` length l.
Proof. destruct n; [done|]. intros _. cbn [py_last]. rewrite length_drop. lia. Qed.

Lemma forallb_elem (f : A -> bool) (l : list A) :
  forallb f l = true <-> forall x, x ∈ l -> f x = true.
Proof.
  rewrite List.forallb_forall. split; intros H x Hx; apply H; by apply list_elem_of_In.
Qed.

Lemma existsb_elem (f : A -> bool) (l : list A) :
  existsb f l = true <-> exists x, x ∈ l /\ f x = true.
Proof.
  rewrite List.existsb_exists. split; intros (x & Hx & H); exists x;
    (split; [by apply list_elem_of_In|done]).
Qed.

Lemma nth_error_lookup (l : list A) i : nth_error l i = l !! i.
Proof. revert i. induction l as [|x l IH]; intros [|i]; cbn; auto. Qed.

Lemma suffix_py_last n (l : list A) : py_last n l `suffix_of` l.
Proof.
  destruct n; [done|]. cbn [py_last].
  exists (take (length l - S n) l). by rewrite take_drop.
Qed.
End lists.

#[export] Hint Resolve suffix_py_last : py.
