(* ===== verification/PyText.v ===== *)
(** * Python text: code points, literals, and the [str] methods the program uses

    A Python [str] is its sequence of code points.  Literals of the source are
    written as Rocq strings (UTF-8 bytes) and decoded by [u].  Besides the
    [str] operations, this file fixes the two tables [str.isspace] and the [\d]
    class of [re] are defined from (Unicode 14.0, the data of Python 3.11), and
    the [float] comparisons of the program on IEEE binary64 values. *)

From stdpp Require Import base list gmap sets strings.
From Stdlib Require Import Floats.SpecFloat.
From S2P Require Import Prelude.

Abbreviation pystr := (list N).

(** ** UTF-8 literals *)

Definition byte_of (a : Ascii.ascii) : N := Ascii.N_of_ascii a.

Fixpoint bytes_of (s : string) : list N :=
  match s with
  | EmptyString => []
  | String a s => byte_of a :: bytes_of s
  end.

(** Decoder for well-formed UTF-8; a lone continuation byte decodes to itself. *)
Fixpoint utf8_decode (bs : list N) : pystr :=
  match bs with
  | [] => []
  | b :: bs1 =>
    if (b <? 128)%N then b :: utf8_decode bs1
    else match bs1 with
    | c1 :: bs2 =>
      if (b <? 224)%N then ((b - 192) * 64 + (c1 - 128))%N :: utf8_decode bs2
      else match bs2 with
      | c2 :: bs3 =>
        if (b <? 240)%N then
          ((b - 224) * 4096 + (c1 - 128) * 64 + (c2 - 128))%N :: utf8_decode bs3
        else match bs3 with
        | c3 :: bs4 =>
          ((b - 240) * 262144 + (c1 - 128) * 4096 + (c2 - 128) * 64 + (c3 - 128))%N
            :: utf8_decode bs4
        | [] => [b]
        end
      | [] => [b]
      end
    | [] => [b]
    end
  end.

(** A literal of the source. *)
Definition u (s : string) : pystr := utf8_decode (bytes_of s).
#[global] Arguments u : simpl never.

(** [":"], the separator of keys. *)
Definition colon : N := 58.

(** ** Character classes *)

(** [str.isspace] on one code point. *)
Definition space_table : list N :=
  [9; 10; 11; 12; 13; 28; 29; 30; 31; 32; 133; 160; 5760; 8192; 8193; 8194; 8195;
   8196; 8197; 8198; 8199; 8200; 8201; 8202; 8232; 8233; 8239; 8287; 12288]%N.
Definition is_space (c : N) : bool := bool_decide (c ∈ space_table).

(** The code points of category Nd come in 66 runs of ten; these are the zeros. *)
Definition digit_zeros : list N :=
  [48; 1632; 1776; 1984; 2406; 2534; 2662; 2790; 2918; 3046; 3174; 3302; 3430; 3558;
   3664; 3792; 3872; 4160; 4240; 6112; 6160; 6470; 6608; 6784; 6800; 6992; 7088; 7232;
   7248; 42528; 43216; 43264; 43472; 43504; 43600; 44016; 65296; 66720; 68912; 69734;
   69872; 69942; 70096; 70384; 70736; 70864; 71248; 71360; 71472; 71904; 72016; 72784;
   73040; 73120; 92768; 92864; 93008; 120782; 120792; 120802; 120812; 120822; 123200;
   123632; 125264; 130032]%N.

(** The class [\d] of a [str] pattern: any Unicode decimal digit. *)
Definition is_digit (c : N) : bool :=
  existsb (fun z => (z <=? c)%N && (c <? z + 10)%N) digit_zeros.

Definition is_ascii_digit (c : N) : bool := (48 <=? c)%N && (c <=? 57)%N.
Definition is_ascii_upper (c : N) : bool := (65 <=? c)%N && (c <=? 90)%N.
Definition is_ascii_lower (c : N) : bool := (97 <=? c)%N && (c <=? 122)%N.
Definition is_ascii_alnum (c : N) : bool :=
  is_ascii_digit c || is_ascii_upper c || is_ascii_lower c.

#[global] Arguments is_space : simpl never.
#[global] Arguments is_digit : simpl never.

Lemma is_ascii_digit_digit c : is_ascii_digit c = true -> is_digit c = true.
Proof.
  unfold is_ascii_digit, is_digit. intros [H1 H2]%andb_true_iff.
  apply N.leb_le in H1, H2. cbn [existsb digit_zeros].
  apply orb_true_iff. left. apply andb_true_iff.
  split; [apply N.leb_le|apply N.ltb_lt]; lia.
Qed.

(** ** Methods of [str] *)

Fixpoint lstrip (s : pystr) : pystr :=
  match s with
  | c :: s' => if is_space c then lstrip s' else s
  | [] => []
  end.
Definition rstrip (s : pystr) : pystr := reverse (lstrip (reverse s)).
(** [s.strip()]. *)
Definition strip (s : pystr) : pystr := rstrip (lstrip s).

Fixpoint is_prefix (p s : pystr) : bool :=
  match p, s with
  | [], _ => true
  | c :: p', d :: s' => (c =? d)%N && is_prefix p' s'
  | _ :: _, [] => false
  end.
(** [p in s]. *)
Fixpoint contains (p s : pystr) : bool :=
  is_prefix p s || match s with [] => false | _ :: s' => contains p s' end.
(** [any(token in s for token in tokens)]. *)
Definition contains_any (tokens : list pystr) (s : pystr) : bool :=
  existsb (fun t => contains t s) tokens.

(** [s.replace(a, b)] for one-character [a] and [b]. *)
Definition replace_char (a b : N) (s : pystr) : pystr :=
  map (fun c => if (c =? a)%N then b else c) s.

(** [str.join]. *)
Fixpoint join (sep : pystr) (l : list pystr) : pystr :=
  match l with
  | [] => []
  | [s] => s
  | s :: l' => s ++ sep ++ join sep l'
  end.

(** Truth value of a [str]. *)
Definition truthy (s : pystr) : bool := match s with [] => false | _ => true end.
(** Truth value of an optional [str]. *)
Definition otruthy (s : option pystr) : bool :=
  match s with Some s => truthy s | None => false end.
(** [s or d] on strings. *)
Definition str_or (s d : pystr) : pystr := if truthy s then s else d.
(** [(s or "")] on an optional string. *)
Definition opt_str (s : option pystr) : pystr := default [] s.
(** [s or t] on optional strings. *)
Definition ostr_or (s t : option pystr) : option pystr := if otruthy s then s else t.
(** [s or None]. *)
Definition str_or_none (s : pystr) : option pystr := if truthy s then Some s else None.

(** [a < b] on strings: lexicographic by code point. *)
Fixpoint str_ltb (a b : pystr) : bool :=
  match a, b with
  | _, [] => false
  | [], _ :: _ => true
  | c :: a', d :: b' => (c <? d)%N || ((c =? d)%N && str_ltb a' b')
  end.

(** ** [str.lower]

    The simple lower-case mappings of Unicode 14.0, as runs
    (first, last, stride, offset), and the one code point with a two-character
    image, U+0130.  The context rule for a word-final U+03A3 is not modelled. *)
Definition lower_runs : list (Z * Z * Z * Z) :=
  [(65,90,1,32); (192,214,1,32); (216,222,1,32); (256,302,2,1); (306,310,2,1);
   (313,327,2,1); (330,374,2,1); (376,376,1,(-121)); (377,381,2,1); (385,385,1,210);
   (386,388,2,1); (390,390,1,206); (391,391,1,1); (393,394,1,205); (395,395,1,1);
   (398,398,1,79); (399,399,1,202); (400,400,1,203); (401,401,1,1); (403,403,1,205);
   (404,404,1,207); (406,406,1,211); (407,407,1,209); (408,408,1,1); (412,412,1,211);
   (413,413,1,213); (415,415,1,214); (416,420,2,1); (422,422,1,218); (423,423,1,1);
   (425,425,1,218); (428,428,1,1); (430,430,1,218); (431,431,1,1); (433,434,1,217);
   (435,437,2,1); (439,439,1,219); (440,440,1,1); (444,444,1,1); (452,452,1,2);
   (453,453,1,1); (455,455,1,2); (456,456,1,1); (458,458,1,2); (459,475,2,1);
   (478,494,2,1); (497,497,1,2); (498,500,2,1); (502,502,1,(-97)); (503,503,1,(-56));
   (504,542,2,1); (544,544,1,(-130)); (546,562,2,1); (570,570,1,10795); (571,571,1,1);
   (573,573,1,(-163)); (574,574,1,10792); (577,577,1,1); (579,579,1,(-195));
   (580,580,1,69); (581,581,1,71); (582,590,2,1); (880,882,2,1); (886,886,1,1);
   (895,895,1,116); (902,902,1,38); (904,906,1,37); (908,908,1,64); (910,911,1,63);
   (913,929,1,32); (931,939,1,32); (975,975,1,8); (984,1006,2,1); (1012,1012,1,(-60));
   (1015,1015,1,1); (1017,1017,1,(-7)); (1018,1018,1,1); (1021,1023,1,(-130));
   (1024,1039,1,80); (1040,1071,1,32); (1120,1152,2,1); (1162,1214,2,1); (1216,1216,1,15);
   (1217,1229,2,1); (1232,1326,2,1); (1329,1366,1,48); (4256,4293,1,7264);
   (4295,4295,1,7264); (4301,4301,1,7264); (5024,5103,1,38864); (5104,5109,1,8);
   (7312,7354,1,(-3008)); (7357,7359,1,(-3008)); (7680,7828,2,1); (7838,7838,1,(-7615));
   (7840,7934,2,1); (7944,7951,1,(-8)); (7960,7965,1,(-8)); (7976,7983,1,(-8));
   (7992,7999,1,(-8)); (8008,8013,1,(-8)); (8025,8031,2,(-8)); (8040,8047,1,(-8));
   (8072,8079,1,(-8)); (8088,8095,1,(-8)); (8104,8111,1,(-8)); (8120,8121,1,(-8));
   (8122,8123,1,(-74)); (8124,8124,1,(-9)); (8136,8139,1,(-86)); (8140,8140,1,(-9));
   (8152,8153,1,(-8)); (8154,8155,1,(-100)); (8168,8169,1,(-8)); (8170,8171,1,(-112));
   (8172,8172,1,(-7)); (8184,8185,1,(-128)); (8186,8187,1,(-126)); (8188,8188,1,(-9));
   (8486,8486,1,(-7517)); (8490,8490,1,(-8383)); (8491,8491,1,(-8262)); (8498,8498,1,28);
   (8544,8559,1,16); (8579,8579,1,1); (9398,9423,1,26); (11264,11311,1,48);
   (11360,11360,1,1); (11362,11362,1,(-10743)); (11363,11363,1,(-3814));
   (11364,11364,1,(-10727)); (11367,11371,2,1); (11373,11373,1,(-10780));
   (11374,11374,1,(-10749)); (11375,11375,1,(-10783)); (11376,11376,1,(-10782));
   (11378,11378,1,1); (11381,11381,1,1); (11390,11391,1,(-10815)); (11392,11490,2,1);
   (11499,11501,2,1); (11506,11506,1,1); (42560,42604,2,1); (42624,42650,2,1);
   (42786,42798,2,1); (42802,42862,2,1); (42873,42875,2,1); (42877,42877,1,(-35332));
   (42878,42886,2,1); (42891,42891,1,1); (42893,42893,1,(-42280)); (42896,42898,2,1);
   (42902,42920,2,1); (42922,42922,1,(-42308)); (42923,42923,1,(-42319));
   (42924,42924,1,(-42315)); (42925,42925,1,(-42305)); (42926,42926,1,(-42308));
   (42928,42928,1,(-42258)); (42929,42929,1,(-42282)); (42930,42930,1,(-42261));
   (42931,42931,1,928); (42932,42946,2,1); (42948,42948,1,(-48)); (42949,42949,1,(-42307));
   (42950,42950,1,(-35384)); (42951,42953,2,1); (42960,42960,1,1); (42966,42968,2,1);
   (42997,42997,1,1); (65313,65338,1,32); (66560,66599,1,40); (66736,66771,1,40);
   (66928,66938,1,39); (66940,66954,1,39); (66956,66962,1,39); (66964,66965,1,39);
   (68736,68786,1,64); (71840,71871,1,32); (93760,93791,1,32); (125184,125217,1,34)]%Z.

Definition lower_char (c : N) : pystr :=
  if (c =? 304)%N then [105; 775]%N
  else
    match find (fun '(a, b, st, _) =>
                  (a <=? Z.of_N c)%Z && (Z.of_N c <=? b)%Z
                  && ((Z.of_N c - a) mod st =? 0)%Z) lower_runs with
    | Some (_, _, _, d) => [Z.to_N (Z.of_N c + d)]
    | None => [c]
    end.
Definition lower (s : pystr) : pystr := s ≫= lower_char.

Example lower_latin : lower (u "TimeOut: ÄΩ您") = u "timeout: äω您".
Proof. vm_compute. reflexivity. Qed.

(** ** Facts *)

Lemma lstrip_suffix s : lstrip s `suffix_of` s.
Proof.
  induction s as [|c s IH]; cbn; [done|].
  destruct (is_space c); [by apply suffix_cons_r|done].
Qed.

Lemma lstrip_idemp s : lstrip (lstrip s) = lstrip s.
Proof.
  induction s as [|c s IH]; cbn; [done|].
  destruct (is_space c) eqn:E; [done|]. cbn. by rewrite E.
Qed.

Lemma lstrip_head s c s' : lstrip s = c :: s' -> is_space c = false.
Proof.
  induction s as [|d s IH]; cbn; [done|].
  destruct (is_space d) eqn:E; [done|]. by intros [= -> ->].
Qed.

Lemma lstrip_app_nonspace s c : is_space c = false -> lstrip (s ++ [c]) = lstrip s ++ [c].
Proof.
  intros Hc. induction s as [|d s IH]; cbn; [by rewrite Hc|].
  destruct (is_space d); [done|]. done.
Qed.

Lemma rstrip_prefix s : rstrip s `prefix_of` s.
Proof.
  unfold rstrip. destruct (lstrip_suffix (reverse s)) as [k Hk].
  exists (reverse k).
  rewrite <-reverse_app, <-Hk. by rewrite reverse_involutive.
Qed.

Lemma lstrip_rstrip s : lstrip s = s -> lstrip (rstrip s) = rstrip s.
Proof.
  intros H. destruct (rstrip_prefix s) as [k Hk].
  destruct (rstrip s) as [|c r] eqn:E; [done|]. cbn.
  rewrite Hk in H. cbn in H. destruct (is_space c) eqn:Ec; [|done].
  pose proof (lstrip_suffix (r ++ k)) as [x Hx].
  rewrite H in Hx. apply (f_equal length) in Hx.
  rewrite !length_app in Hx. cbn in Hx. rewrite length_app in Hx. lia.
Qed.

Lemma strip_idemp s : strip (strip s) = strip s.
Proof.
  unfold strip at 1. unfold strip at 1.
  rewrite (lstrip_rstrip (lstrip s)) by apply lstrip_idemp.
  unfold strip, rstrip. by rewrite reverse_involutive, lstrip_idemp.
Qed.

Lemma length_strip s : length (strip s) <= length s.
Proof.
  unfold strip. pose proof (prefix_length _ _ (rstrip_prefix (lstrip s))).
  pose proof (suffix_length _ _ (lstrip_suffix s)). lia.
Qed.

Lemma elem_of_strip c s : c ∈ strip s -> c ∈ s.
Proof.
  unfold strip. intros H.
  eapply elem_of_prefix in H; [|apply rstrip_prefix].
  by eapply elem_of_suffix in H; [|apply lstrip_suffix].
Qed.

Lemma strip_id s : Forall (fun c => is_space c = false) s -> strip s = s.
Proof.
  intros H.
  assert (Hl : forall t, Forall (fun c => is_space c = false) t -> lstrip t = t).
  { intros t Ht. destruct Ht as [|c t Hc _]; cbn; [done|]. by rewrite Hc. }
  unfold strip, rstrip. rewrite (Hl s H).
  rewrite Hl; [by rewrite reverse_involutive|]. by apply Forall_reverse.
Qed.

Lemma is_prefix_spec p s : is_prefix p s = true <-> p `prefix_of` s.
Proof.
  revert s. induction p as [|c p IH]; intros s; cbn.
  - split; [intros _; apply prefix_nil|done].
  - destruct s as [|d s]; cbn.
    + split; [done|]. intros H. by apply prefix_nil_not in H.
    + rewrite andb_true_iff, N.eqb_eq, IH. split.
      * intros [-> H]. by apply prefix_cons.
      * intros H. split; [by eapply prefix_cons_inv_1|by eapply prefix_cons_inv_2].
Qed.

Lemma contains_spec p s : contains p s = true <-> exists a b, s = a ++ p ++ b.
Proof.
  induction s as [|d s IH]; cbn [contains]; rewrite orb_true_iff, is_prefix_spec.
  - split.
    + intros [[k H]|H]; [|done]. by exists [], k.
    + intros (a & b & H). symmetry in H.
      apply app_eq_nil in H as [-> H]. apply app_eq_nil in H as [-> ->].
      left. done.
  - rewrite IH. split.
    + intros [[k H]|(a & b & ->)]; [by exists [], k|by exists (d :: a), b].
    + intros (a & b & H). destruct a as [|e a]; cbn in H.
      * left. by exists b.
      * right. simplify_eq. by exists a, b.
Qed.

Lemma length_replace_char a b s : length (replace_char a b s) = length s.
Proof. apply length_map. Qed.

Lemma replace_char_absent a b s : a <> b -> a ∉ replace_char a b s.
Proof.
  intros Hab. unfold replace_char. rewrite list_elem_of_fmap.
  intros (c & H & _). destruct (N.eqb_spec c a); congruence.
Qed.

Lemma replace_char_id a b s : a ∉ s -> replace_char a b s = s.
Proof.
  intros H. unfold replace_char. induction s as [|c s IH]; cbn; [done|].
  apply not_elem_of_cons in H as [Hc Hs]. rewrite IH by done.
  destruct (N.eqb_spec c a); congruence.
Qed.

(** Splitting at the first separator is unambiguous. *)
Lemma app_sep_inj {A} (sep : A) (a b a' b' : list A) :
  sep ∉ a -> sep ∉ a' -> a ++ sep :: b = a' ++ sep :: b' -> a = a' /\ b = b'.
Proof.
  revert a'. induction a as [|x a IH]; intros [|y a'] Ha Ha' H; cbn in H;
    simplify_eq; [done|set_solver|set_solver|].
  destruct (IH a') as [-> ->]; set_solver.
Qed.

Lemma truthy_false s : truthy s = false <-> s = [].
Proof. by destruct s. Qed.

Lemma opt_str_Some s : opt_str (Some s) = s.
Proof. done. Qed.
Lemma ostr_or_true a b : otruthy a = true -> ostr_or a b = a.
Proof. unfold ostr_or. by intros ->. Qed.
Lemma ostr_or_false a b : otruthy a = false -> ostr_or a b = b.
Proof. unfold ostr_or. by intros ->. Qed.
Lemma otruthy_or a b : otruthy (ostr_or a b) = otruthy a || otruthy b.
Proof. unfold ostr_or. by destruct (otruthy a) eqn:E. Qed.
Lemma otruthy_str_or_none s : otruthy (str_or_none s) = truthy s.
Proof. by destruct s. Qed.

Lemma str_ltb_irrefl a : str_ltb a a = false.
Proof. induction a as [|c a IH]; cbn; [done|]. by rewrite N.ltb_irrefl, N.eqb_refl. Qed.

Lemma str_ltb_trans a b c : str_ltb a b = true -> str_ltb b c = true -> str_ltb a c = true.
Proof.
  revert b c. induction a as [|x a IH]; intros [|y b] [|z c]; cbn; try done.
  rewrite !orb_true_iff, !andb_true_iff, !N.ltb_lt, !N.eqb_eq.
  intros [H1|[-> H1]] [H2|[-> H2]]; [left; lia|left; lia|left; lia|right; eauto].
Qed.

Lemma str_ltb_total a b : str_ltb a b = false -> str_ltb b a = false -> a = b.
Proof.
  revert b. induction a as [|x a IH]; intros [|y b]; cbn; try done.
  rewrite !orb_false_iff, !andb_false_iff, !N.ltb_ge, !N.eqb_neq.
  intros [H1 H1'] [H2 H2']. assert (x = y) as -> by lia.
  f_equal. apply IH; naive_solver.
Qed.

#[export] Hint Resolve lstrip_suffix rstrip_prefix : py.
Create Rewrite HintDb py.
#[export] Hint Rewrite strip_idemp lstrip_idemp length_replace_char : py.

(** ** Python [float]: IEEE binary64, with its comparisons *)

Abbreviation pyfloat := spec_float.

(** [m * 2^e] for a positive mantissa. *)
Definition fl (m : positive) (e : Z) : pyfloat := S754_finite false m e.
Definition f_zero : pyfloat := S754_zero false.
Definition f_one : pyfloat := fl 4503599627370496 (-52).

Definition f_lt (a b : pyfloat) : bool := SFltb a b.
Definition f_le (a b : pyfloat) : bool := SFleb a b.
Definition f_ge (a b : pyfloat) : bool := SFleb b a.
(** Truth value of a [float]: every value but the zeros, NaN included. *)
Definition f_truthy (a : pyfloat) : bool :=
  match a with S754_zero _ => false | _ => true end.
(** [max(a, b)]: the first argument unless the second is larger. *)
Definition f_max (a b : pyfloat) : pyfloat := if f_lt a b then b else a.

(** ** Automation on literals *)

(** Two different literals. *)
Ltac key_ne := let H := fresh in intros H; vm_compute in H; discriminate H.

(** Decide the equality of two literals. *)
Ltac lit_eq :=
  repeat match goal with
  | |- context [@bool_decide (u ?a = u ?b) ?d] =>
    let r := eval vm_compute in (@bool_decide (u a = u b) d) in
    change (@bool_decide (u a = u b) d) with r
  end.

(** Resolve the tests of [lookup_insert] on literal keys. *)
Ltac lit_decide :=
  repeat match goal with
  | |- context [decide (u ?a = u ?a)] => rewrite (decide_True (P := u a = u a)) by reflexivity
  | |- context [decide (u ?a = u ?b)] => rewrite (decide_False (P := u a = u b)) by key_ne
  end.

(** ** Lines and pieces *)

(** The line boundaries of [str.splitlines]. *)
Definition is_linebreak (c : N) : bool :=
  bool_decide (c ∈ [10; 11; 12; 13; 28; 29; 30; 133; 8232; 8233]%N).
#[global] Arguments is_linebreak : simpl never.

(** [str.splitlines]: [cur] is the current line, reversed; a carriage return and a line
    feed together end one line. *)
Fixpoint lines_from (cur s : pystr) : list pystr :=
  match s with
  | [] => match cur with [] => [] | _ => [reverse cur] end
  | c :: s' =>
    if is_linebreak c then
      reverse cur :: match s' with
                     | d :: s'' => if (c =? 13)%N && (d =? 10)%N then lines_from [] s'' else lines_from [] s'
                     | [] => lines_from [] s'
                     end
    else lines_from (c :: cur) s'
  end.
Definition splitlines (s : pystr) : list pystr := lines_from [] s.

(** [re.split(r"[...]+", s)]: the pieces between runs of separators; [insep]: a separator
    has just been read. *)
Fixpoint pieces_from (sep : N -> bool) (insep : bool) (cur s : pystr) : list pystr :=
  match s with
  | [] => [reverse cur]
  | c :: s' =>
    if sep c then (if insep then pieces_from sep true cur s' else reverse cur :: pieces_from sep true [] s')
    else pieces_from sep false (c :: cur) s'
  end.
Definition re_split (sep : N -> bool) (s : pystr) : list pystr := pieces_from sep false [] s.

(** [s.strip(chars)], for one character. *)
Fixpoint lstrip_char (a : N) (s : pystr) : pystr :=
  match s with c :: s' => if (c =? a)%N then lstrip_char a s' else s | [] => [] end.
Definition strip_char (a : N) (s : pystr) : pystr :=
  reverse (lstrip_char a (reverse (lstrip_char a s))).

Lemma lines_from_plain t cur s : Forall (fun c => is_linebreak c = false) t ->
  lines_from cur (t ++ s) = lines_from (reverse t ++ cur) s.
Proof.
  intros Ht. revert cur. induction Ht as [|c t Hc _ IH]; intros cur; [done|]. cbn [app lines_from].
  by rewrite Hc, IH, reverse_cons, <-app_assoc.
Qed.

(** Lines without breaks, joined and split again. *)
Lemma splitlines_join l : Forall (fun t => t <> [] /\ Forall (fun c => is_linebreak c = false) t) l ->
  splitlines (join [10%N] l) = l.
Proof.
  unfold splitlines. induction 1 as [|t l [Hne Ht] Hl IH]; [done|]. cbn [join].
  assert (Hr : reverse (reverse t) = t) by apply reverse_involutive.
  destruct l as [|t' l].
  - rewrite <-(app_nil_r t) at 1. rewrite lines_from_plain by done. cbn [lines_from].
    rewrite app_nil_r. destruct (reverse t) as [|c w]; [by subst t|by rewrite Hr].
  - rewrite lines_from_plain by done. cbn [app lines_from]. rewrite app_nil_r, Hr.
    assert (is_linebreak 10 = true) as -> by (vm_compute; reflexivity). f_equal. rewrite <-IH at 2.
    change ((10 =? 13)%N) with false. cbn [andb]. by destruct (join [10%N] (t' :: l)).
Qed.

Lemma pieces_from_plain sep t insep cur s : Forall (fun c => sep c = false) t ->
  t <> [] -> pieces_from sep insep cur (t ++ s) = pieces_from sep false (reverse t ++ cur) s.
Proof.
  intros Ht Hne. revert insep cur. destruct Ht as [|c t Hc Ht]; [done|]. intros insep cur.
  cbn [app pieces_from]. rewrite Hc, reverse_cons, <-app_assoc. cbn [app]. clear Hne Hc. revert c cur.
  induction Ht as [|d t Hd _ IH]; intros c cur; [done|]. cbn [app pieces_from].
  rewrite Hd, IH. by rewrite reverse_cons, <-app_assoc.
Qed.

(** Pieces without separators, joined by one and split again. *)
Lemma re_split_join sep a l : sep a = true -> l <> [] ->
  Forall (fun t => t <> [] /\ Forall (fun c => sep c = false) t) l ->
  re_split sep (join [a] l) = l.
Proof.
  intros Ha Hne Hl. unfold re_split. generalize false as insep.
  induction Hl as [|t l [Htne Ht] Hl IH]; intros insep; [done|]. cbn [join]. destruct l as [|t' l].
  - rewrite <-(app_nil_r t) at 1. rewrite pieces_from_plain by done. cbn [pieces_from].
    by rewrite app_nil_r, reverse_involutive.
  - rewrite pieces_from_plain by done. cbn [app pieces_from]. rewrite Ha, app_nil_r, reverse_involutive.
    f_equal. by apply IH.
Qed.

(** ** Stripped texts *)

Lemma strip_iff s :
  strip s = s <-> match head s with Some c => is_space c = false | None => True end /\
                  match last s with Some c => is_space c = false | None => True end.
Proof.
  split.
  - intros Hs.
    assert (Hl : lstrip s = s).
    { destruct (lstrip_suffix s) as [k Hk]. destruct k as [|c k]; [by symmetry|].
      exfalso. assert (length (strip s) < length s); [|rewrite Hs in *; lia].
      unfold strip. pose proof (prefix_length _ _ (rstrip_prefix (lstrip s))).
      apply (f_equal length) in Hk. rewrite length_app in Hk. cbn in Hk. lia. }
    split.
    + destruct s as [|c s]; [done|]. cbn in Hl |- *. destruct (is_space c) eqn:E; [|done].
      exfalso. pose proof (suffix_length _ _ (lstrip_suffix s)). rewrite Hl in H. cbn in H. lia.
    + unfold strip, rstrip in Hs. rewrite Hl in Hs.
      destruct s as [|c s _] using rev_ind; [done|]. rewrite last_snoc.
      rewrite reverse_snoc in Hs. cbn [lstrip] in Hs. destruct (is_space c) eqn:E; [|done].
      exfalso. apply (f_equal length) in Hs. rewrite length_reverse, length_app in Hs.
      pose proof (suffix_length _ _ (lstrip_suffix (reverse s))) as Hle. rewrite length_reverse in Hle.
      cbn in Hs. lia.
  - intros [Hh Hl]. destruct s as [|c s]; [done|]. cbn [head hd_error] in Hh.
    assert (lstrip (c :: s) = c :: s) as Hls by (cbn; by rewrite Hh).
    unfold strip, rstrip. rewrite Hls. destruct (c :: s) as [|d t _] eqn:E using rev_ind; [done|].
    rewrite last_snoc in Hl. rewrite reverse_snoc. cbn [lstrip]. rewrite Hl, reverse_cons, reverse_involutive. done.
Qed.

Lemma last_join sep l t : t <> [] -> last (join sep (l ++ [t])) = last t.
Proof.
  intros Ht. induction l as [|s l IH]; [done|]. cbn [app join].
  destruct (l ++ [t]) eqn:E; [by destruct l|]. rewrite !last_app, IH. by destruct (last t) eqn:El; [|apply last_None in El].
Qed.

(** Stripped pieces, joined. *)
Lemma strip_join sep l : Forall (fun t => t <> [] /\ strip t = t) l -> strip (join sep l) = join sep l.
Proof.
  intros Hl. destruct l as [|t l]; [done|]. apply strip_iff. split.
  - apply Forall_cons in Hl as [[Hne Ht] _]. apply strip_iff in Ht as [Hh _].
    assert (head (join sep (t :: l)) = head t) as ->; [|done]. cbn [join]. destruct l, t; done.
  - destruct (t :: l) as [|x l' _] using rev_ind; [done|]. apply Forall_app in Hl as [_ Hx].
    rewrite Forall_singleton in Hx. destruct Hx as [Hne Hx]. rewrite last_join by done.
    by apply strip_iff in Hx as [_ ?].
Qed.

Lemma strip_app a b : a <> [] -> b <> [] -> strip a = a -> strip b = b -> strip (a ++ b) = a ++ b.
Proof.
  intros Ha Hb Hsa Hsb. change (a ++ b) with (a ++ [] ++ b). change (a ++ [] ++ b) with (join [] [a; b]).
  apply strip_join. by repeat constructor.
Qed.

Lemma join_ne sep l : Forall (fun t => t <> []) l -> l <> [] -> join sep l <> [].
Proof. intros [|t l' Ht _] Hne; [done|]. cbn [join]. destruct l'; [done|]. by destruct t. Qed.

Lemma join_Forall (P : N -> Prop) sep l : Forall P sep -> Forall (Forall P) l -> Forall P (join sep l).
Proof.
  intros Hs. induction 1 as [|t l Ht _ IH]; [constructor|]. cbn [join].
  destruct l; [done|]. repeat (apply Forall_app; split); done.
Qed.

(** ** Blank texts *)

(** Something other than spaces is there. *)
Definition visible (s : pystr) : Prop := Exists (fun c => is_space c = false) s.

Lemma visible_lstrip s : visible (lstrip s) <-> visible s.
Proof.
  induction s as [|c s IH]; [done|]. cbn [lstrip]. destruct (is_space c) eqn:E; [|done].
  rewrite IH. unfold visible. rewrite Exists_cons. split; [by right|]. intros [?|?]; [congruence|done].
Qed.

Lemma visible_reverse s : visible (reverse s) <-> visible s.
Proof. unfold visible. rewrite !Exists_exists. by setoid_rewrite elem_of_reverse. Qed.

Lemma visible_strip s : truthy (strip s) = true <-> visible s.
Proof.
  rewrite <-(visible_lstrip s), <-(visible_reverse (lstrip s)), <-visible_lstrip, <-visible_reverse.
  fold (rstrip (lstrip s)). fold (strip s). split; [|by destruct 1].
  intros Ht. pose proof (proj1 (proj1 (strip_iff _) (strip_idemp s))) as Hh.
  destruct (strip s) as [|c t]; [done|]. by left.
Qed.
