(* ===== verification/Errors.v ===== *)
(** * The exceptions of the program

    One inductive for every exception class the modelled code raises, catches
    or tests with [isinstance].  Exceptions of code outside the repository
    reach the model as [OtherExc], with the class name and the message the
    program inspects.  [CancelledError] and [GeneratorExit] derive from
    [BaseException] only: [except Exception] does not catch them. *)

From stdpp Require Import base list strings.
From S2P Require Import Prelude PyText.

Inductive busy_reason : Type := Cluster | Tenant.

(** [EscalationReason] and [EscalationDecision] of [app/tool_escalation.py]. *)
Inductive EscalationReason : Type := transient_exhausted | react_limit.
Record EscalationDecision := {
  escalate : bool;
  ed_reason : option EscalationReason;
  ed_message : option pystr;
}.

Inductive exn : Type :=
| TimeoutError (msg : pystr)
| ConnectionError (msg : pystr)
| OSError (msg : pystr)
| ValueError (msg : pystr)
| RuntimeError (msg : pystr)
| OtherExc (name msg : pystr)
| TenantQuotaExceededError (tenant : pystr) (used limit : Z)
| LlmCircuitOpenError (failures cooldown : Z)
| ChatSlotBusy (reason : busy_reason)
| ChatBusyError (reason : busy_reason)
| SessionBusyError (thread_id : pystr)
| ToolPoolBusyError (msg : pystr)
| ToolEscalationError (decision : EscalationDecision)
| RedisUnavailableError
| CancelledError
| GeneratorExit.

#[export] Instance busy_reason_eq_dec : EqDecision busy_reason.
Proof. solve_decision. Defined.
#[export] Instance escalation_reason_eq_dec : EqDecision EscalationReason.
Proof. solve_decision. Defined.
#[export] Instance escalation_decision_eq_dec : EqDecision EscalationDecision.
Proof. solve_decision. Defined.
#[export] Instance exn_eq_dec : EqDecision exn.
Proof. solve_decision. Defined.

(** [isinstance(exc, Exception)]. *)
Definition is_Exception (e : exn) : bool :=
  match e with CancelledError | GeneratorExit => false | _ => true end.

(** [type(exc).__name__]. *)
Definition exn_name (e : exn) : pystr :=
  match e with
  | TimeoutError _ => u "TimeoutError"
  | ConnectionError _ => u "ConnectionError"
  | OSError _ => u "OSError"
  | ValueError _ => u "ValueError"
  | RuntimeError _ => u "RuntimeError"
  | OtherExc name _ => name
  | TenantQuotaExceededError _ _ _ => u "TenantQuotaExceededError"
  | LlmCircuitOpenError _ _ => u "LlmCircuitOpenError"
  | ChatSlotBusy _ => u "ChatSlotBusy"
  | ChatBusyError _ => u "ChatBusyError"
  | SessionBusyError _ => u "SessionBusyError"
  | ToolPoolBusyError _ => u "ToolPoolBusyError"
  | ToolEscalationError _ => u "ToolEscalationError"
  | RedisUnavailableError => u "RedisUnavailableError"
  | CancelledError => u "CancelledError"
  | GeneratorExit => u "GeneratorExit"
  end.

(** [str(exc)].  The decimal fields of the program's own messages are left out:
    the program only searches messages for the words "timeout" and "connection",
    which digits cannot complete. *)
Definition exn_message (e : exn) : pystr :=
  match e with
  | TimeoutError m | ConnectionError m | OSError m | ValueError m
  | RuntimeError m | OtherExc _ m | ToolPoolBusyError m => m
  | TenantQuotaExceededError t _ _ =>
    u "租户 " ++ t ++ u " 当日 token 已达上限 used= limit="
  | LlmCircuitOpenError _ _ => u "LLM 熔断已打开 consecutive_failures= cooldown=s"
  | ChatSlotBusy Cluster => u "cluster"
  | ChatSlotBusy Tenant => u "tenant"
  | ChatBusyError _ => u "对话繁忙"
  | SessionBusyError t => u "会话繁忙 thread_id=" ++ t
  | ToolEscalationError d => str_or (opt_str (ed_message d)) (u "tool escalation")
  | RedisUnavailableError => u "Redis 不可用，禁止回退进程内存。"
  | CancelledError | GeneratorExit => []
  end.

(** [isinstance(exc, (TimeoutError, ConnectionError, OSError))]. *)
Definition is_os_error (e : exn) : bool :=
  match e with TimeoutError _ | ConnectionError _ | OSError _ => true | _ => false end.

(** [isinstance(exc, TenantQuotaExceededError)]; how [except] clauses pick it out. *)
Definition is_quota (e : exn) : bool :=
  match e with TenantQuotaExceededError _ _ _ => true | _ => false end.

Lemma quota_case {A} (e : exn) (x y : A) :
  match e with TenantQuotaExceededError _ _ _ => x | _ => y end = if is_quota e then x else y.
Proof. by destruct e. Qed.

Definition is_circuit_open (e : exn) : bool :=
  match e with LlmCircuitOpenError _ _ => true | _ => false end.

Lemma circuit_case {A} (e : exn) (x y z : A) :
  match e with
  | TenantQuotaExceededError _ _ _ => x
  | LlmCircuitOpenError _ _ => y
  | _ => z
  end = if is_quota e then x else if is_circuit_open e then y else z.
Proof. by destruct e. Qed.

(** The answer of a turn without a model ([app/llm_gateway/exceptions.py]). *)
Definition LLM_UNAVAILABLE_ANSWER : pystr :=
  u "当前智能助手暂时不可用。您可以稍后再试，" ++
  u "或直接提供订单号查询进度，也可以回复「转人工」由专员继续处理。".
