(* ===== verification/PyFloat.v ===== *)
(** * Float arithmetic and numbers as text

    The binary64 operations of the program ([+], [*], [/], [round]) on the
    standard library's [SpecFloat], and the decimal form of an [int]. *)

From stdpp Require Import base list strings.
From Stdlib Require Import Floats.SpecFloat.
From S2P Require Import Prelude PyText Errors.

Definition f_of_int (n : Z) : pyfloat := binary_normalize 53 1024 n 0 false.
Definition f_add (a b : pyfloat) : pyfloat := SFadd 53 1024 a b.
Definition f_mul (a b : pyfloat) : pyfloat := SFmul 53 1024 a b.
Definition f_sub (a b : pyfloat) : pyfloat := SFsub 53 1024 a b.
Definition f_div (a b : pyfloat) : pyfloat := SFdiv 53 1024 a b.
(** [m / n] for two [int]s small enough to be exact, [n <> 0]. *)
Definition f_div_int (m n : Z) : pyfloat := SFdiv 53 1024 (f_of_int m) (f_of_int n).

(** [n * x] for an [int] and a [float]. *)
Definition f_mul_int (n : Z) (x : pyfloat) : pyfloat :=
  f_mul (f_of_int n) x.

(** [round(x)]: to the nearest integer, ties to even. *)
Definition py_round (x : pyfloat) : res exn Z :=
  match x with
  | S754_zero _ => Ok 0
  | S754_infinity _ => Raise (OtherExc (u "OverflowError") [])
  | S754_nan => Raise (ValueError [])
  | S754_finite s m e =>
    let q :=
      if 0 <=? e then Z.pos m * 2 ^ e
      else
        let d := 2 ^ (- e) in
        let q := Z.pos m / d in
        let r := Z.pos m mod d in
        if 2 * r <? d then q
        else if d <? 2 * r then q + 1
        else if Z.even q then q else q + 1 in
    Ok (if s then - q else q)
  end%Z.

(** [int(x)]: towards zero. *)
Definition py_int (x : pyfloat) : res exn Z :=
  match x with
  | S754_zero _ => Ok 0
  | S754_infinity _ => Raise (OtherExc (u "OverflowError") [])
  | S754_nan => Raise (ValueError [])
  | S754_finite s m e =>
    let q := if 0 <=? e then Z.pos m * 2 ^ e else Z.pos m / 2 ^ (- e) in
    Ok (if s then - q else q)
  end%Z.

(** 0.5. *)
Definition f_half : pyfloat := fl 4503599627370496 (-53).

(** ** Decimal text *)

Fixpoint dec_digits (fuel : nat) (n : N) (acc : pystr) : pystr :=
  match fuel with
  | O => acc
  | S fuel =>
    let acc := (48 + n mod 10)%N :: acc in
    if (n / 10 =? 0)%N then acc else dec_digits fuel (n / 10)%N acc
  end.

(** [str(n)]; a number has no more decimal than binary digits. *)
Definition dec (n : Z) : pystr :=
  let m := Z.abs_N n in
  (if (n <? 0)%Z then u "-" else []) ++ dec_digits (S (N.to_nat (N.size m))) m [].

Example dec_example : (dec 0, dec 20251114001, dec (-7)) = (u "0", u "20251114001", u "-7").
Proof. vm_compute. reflexivity. Qed.

(** ** [format(x, "g")]

    Six significant digits of the exact value, ties to even, trailing zeros dropped,
    in positional form while the decimal exponent is in [-4, 6). *)

(** Quotient rounded to nearest, ties to even. *)
Definition div_even (n d : Z) : Z :=
  let q := (n / d)%Z in
  let r := (n mod d)%Z in
  if (2 * r <? d)%Z then q else if (d <? 2 * r)%Z then (q + 1)%Z else if Z.even q then q else (q + 1)%Z.

(** The decimal exponent of [n / d > 0], searched from [x] downwards; a binary64 value is
    at least [10^-324]. *)
Fixpoint dec_exponent (fuel : nat) (x n d : Z) : Z :=
  match fuel with
  | O => x
  | S fuel =>
    if (if 0 <=? x then (d * 10 ^ x <=? n) else (d <=? n * 10 ^ (- x)))%Z then x
    else dec_exponent fuel (x - 1)%Z n d
  end.

(** The six digits as a number in [[10^5, 10^6)], and the exponent they belong to. *)
Definition six_digits (n d : Z) : Z * Z :=
  let x := dec_exponent 700 (Z.of_nat (length (dec (n / d))))%Z n d in
  let k := (5 - x)%Z in
  let m := if (0 <=? k)%Z then div_even (n * 10 ^ k) d else div_even n (d * 10 ^ (- k)) in
  if (m =? 1000000)%Z then (100000, x + 1)%Z else (m, x).

Definition drop_zeros (s : pystr) : pystr :=
  reverse ((fix go s := match s with 48%N :: s => go s | _ => s end) (reverse s)).

(** [s] with a point before the last digits it keeps. *)
Definition with_point (whole frac : pystr) : pystr :=
  let frac := drop_zeros frac in
  if truthy frac then whole ++ u "." ++ frac else whole.

Definition pad2 (s : pystr) : pystr := if length s <? 2 then u "0" ++ s else s.

Definition fmt_pos_g (n d : Z) : pystr :=
  let '(m, x) := six_digits n d in
  let digits := dec m in
  if (x <? -4)%Z || (6 <=? x)%Z then
    with_point (take 1 digits) (drop 1 digits) ++ u "e" ++ (if (x <? 0)%Z then u "-" else u "+") ++
    pad2 (dec (Z.abs x))
  else if (x <? 0)%Z then with_point (u "0") (replicate (Z.to_nat (- x - 1)) 48%N ++ digits)
  else with_point (take (Z.to_nat (x + 1)) digits) (drop (Z.to_nat (x + 1)) digits).

Definition fmt_g (x : pyfloat) : pystr :=
  match x with
  | S754_zero s => if s then u "-0" else u "0"
  | S754_infinity s => if s then u "-inf" else u "inf"
  | S754_nan => u "nan"
  | S754_finite s m e =>
    (if s then u "-" else []) ++
    (if (0 <=? e)%Z then fmt_pos_g (Z.pos m * 2 ^ e) 1 else fmt_pos_g (Z.pos m) (2 ^ (- e)))
  end.

Example fmt_g_examples :
  map fmt_g [f_of_int 8; f_div (f_of_int 5) (f_of_int 2); f_of_int 1234567; f_div f_one (f_of_int 3);
             f_div f_one (f_of_int 40000); f_of_int 100]
  = map u ["8"; "2.5"; "1.23457e+06"; "0.333333"; "2.5e-05"; "100"]%string.
Proof. vm_compute. reflexivity. Qed.
