(* ===== verification/Circuit.v ===== *)
(** * The LLM circuit breaker ([app/llm_gateway/circuit.py])

    The module globals of [circuit.py] are the state; each function is one
    atomic step, since the source runs its body under [_LOCK].  Clock readings
    and the cooldown are [Z] counts of one time unit.  [System] puts the
    breaker in the middle of concurrent callers. *)

From stdpp Require Import base list gmap sets strings.
From S2P Require Import Prelude PyText Errors.
Local Open Scope Z_scope.
Local Open Scope py_scope.

(** ** State *)

Record BreakerState := {
  failures : Z;
  opened_at : option Z;
  probe_in_flight : bool;
}.

(** [_BreakerState()]. *)
Definition fresh_breaker : BreakerState :=
  {| failures := 0; opened_at := None; probe_in_flight := false |}.

(** [_STATE], and the labels passed to [inc_llm_circuit], oldest first. *)
Record circuit := {
  c_state : option BreakerState;
  c_metrics : list pystr;
}.

Record CircuitSnapshot := {
  snap_state : pystr;
  snap_failures : Z;
  cooldown_remaining : Z;
}.

#[export] Instance breaker_eq_dec : EqDecision BreakerState.
Proof. solve_decision. Defined.

Definition breaker_of (c : circuit) : BreakerState := default fresh_breaker (c_state c).
Definition set_breaker (b : BreakerState) (c : circuit) : circuit :=
  {| c_state := Some b; c_metrics := c_metrics c |}.
Definition inc_llm_circuit (label : pystr) (c : circuit) : circuit :=
  {| c_state := c_state c; c_metrics := c_metrics c ++ [label] |}.
Definition empty_circuit : circuit := {| c_state := None; c_metrics := [] |}.

(** ** Operations *)

Section operations.
(** [_settings()]: failure threshold and cooldown. *)
Context (threshold cooldown : Z).

Definition snapshot_locked (state : BreakerState) (now : Z) : CircuitSnapshot :=
  match opened_at state with
  | None => {| snap_state := u "closed"; snap_failures := failures state;
               cooldown_remaining := 0 |}
  | Some t =>
    let remaining := Z.max 0 (cooldown - (now - t)) in
    {| snap_state := if remaining <=? 0 then u "half_open" else u "open";
       snap_failures := failures state;
       cooldown_remaining := remaining |}
  end.

Definition snapshot_llm_breaker (now : Z) (c : circuit) : CircuitSnapshot :=
  snapshot_locked (breaker_of c) now.

Definition reset_llm_breaker : ST circuit exn unit := st_modify (set_breaker fresh_breaker).

Definition reject (n : Z) : ST circuit exn unit :=
  do! st_modify (inc_llm_circuit (u "reject")) in
  st_raise (LlmCircuitOpenError n cooldown).

Definition guard_llm_circuit (now : Z) : ST circuit exn unit :=
  if threshold <=? 0 then st_ret tt
  else
    let! c := st_get in
    let state := breaker_of c in
    do! st_modify (set_breaker state) in
    match opened_at state with
    | None => st_ret tt
    | Some t =>
      if now - t <? cooldown then reject (failures state)
      else if probe_in_flight state then reject (failures state)
      else st_modify (set_breaker {| failures := failures state;
                                     opened_at := opened_at state;
                                     probe_in_flight := true |})
    end.

Definition record_llm_success : ST circuit exn unit :=
  st_modify (set_breaker fresh_breaker).

Definition record_llm_failure (now : Z) : ST circuit exn unit :=
  let! c := st_get in
  let state := breaker_of c in
  if threshold <=? 0 then
    st_modify (set_breaker {| failures := failures state; opened_at := opened_at state;
                              probe_in_flight := false |})
  else
    let was_open := bool_decide (is_Some (opened_at state)) in
    let n := failures state + 1 in
    if threshold <=? n then
      do! st_modify (set_breaker {| failures := n; opened_at := Some now;
                                    probe_in_flight := false |}) in
      if was_open then st_ret tt else st_modify (inc_llm_circuit (u "open"))
    else
      st_modify (set_breaker {| failures := n; opened_at := opened_at state;
                                probe_in_flight := false |}).
End operations.

(** [record_llm_failure] of an enabled breaker, as one equation. *)
Lemma record_failure_eq threshold now c : 0 < threshold ->
  breaker_of (record_llm_failure threshold now c).2 =
  {| failures := failures (breaker_of c) + 1;
     opened_at := if threshold <=? failures (breaker_of c) + 1 then Some now
                  else opened_at (breaker_of c);
     probe_in_flight := false |}.
Proof.
  intros Ht. unfold record_llm_failure, st_bind, st_get, st_modify, st_ret.
  destruct (threshold <=? 0) eqn:E; bool_to_prop; [lia|].
  destruct (threshold <=? failures (breaker_of c) + 1); [|done]. by case_bool_decide.
Qed.

(** ** Invariant *)

Section invariant.
Context (threshold cooldown : Z).

(** What the counters mean: the breaker is open exactly when the failures
    counted since the last success have reached the threshold, and a probe is
    only outstanding while it is open. *)
Definition breaker_ok (b : BreakerState) : Prop :=
  0 <= failures b /\
  (is_Some (opened_at b) <-> threshold <= failures b) /\
  (probe_in_flight b = true -> is_Some (opened_at b)).
Definition circuit_ok (c : circuit) : Prop := breaker_ok (breaker_of c).

Hypothesis threshold_pos : 0 < threshold.

Lemma fresh_ok : breaker_ok fresh_breaker.
Proof using threshold_pos.
  unfold breaker_ok, fresh_breaker; cbn. split; [lia|]. split; [|done].
  split; [by intros [? ?]|intros ?; exfalso; lia].
Qed.

Lemma guard_ok now c : circuit_ok c -> circuit_ok (guard_llm_circuit threshold cooldown now c).2.
Proof using threshold_pos.
  unfold circuit_ok, guard_llm_circuit, reject, st_bind, st_get, st_modify, st_raise, st_ret.
  intros Hc. destruct (threshold <=? 0) eqn:E; bool_to_prop; [lia|].
  destruct (opened_at (breaker_of c)) as [t|] eqn:Eo; [|exact Hc].
  destruct (now - t <? cooldown); [exact Hc|].
  destruct (probe_in_flight (breaker_of c)); [exact Hc|].
  destruct Hc as (Hf & Hopen & _). unfold breaker_ok; cbn. rewrite Eo in *. split; [done|]. split; [done|]. intros _; by eexists.
Qed.

Lemma success_ok c : circuit_ok (record_llm_success c).2.
Proof using threshold_pos. apply fresh_ok. Qed.

Lemma failure_ok now c : circuit_ok c -> circuit_ok (record_llm_failure threshold now c).2.
Proof using threshold_pos.
  unfold circuit_ok. rewrite record_failure_eq by done. intros (Hf & Hopen & _).
  unfold breaker_ok. cbn [failures opened_at probe_in_flight].
  split; [lia|]. split; [|done].
  destruct (threshold <=? _) eqn:E; bool_to_prop.
  - split; [done|intros _; by eexists].
  - rewrite Hopen. lia.
Qed.
End invariant.
#[export] Hint Resolve fresh_ok guard_ok success_ok failure_ok : py.

(** ** Concurrent callers

    [GatewayChatModel._call_with_circuit] brackets an upstream call between
    [guard_llm_circuit] and one of the two [record] functions.  A caller that is
    cancelled, whose consumer abandons the stream, or whose call raises
    [TenantQuotaExceededError] leaves without calling either.  Callers interleave
    at the granularity of these locked functions. *)
Section system.
Context (threshold cooldown : Z).

Record system := {
  brk : circuit;
  inflight : gset nat;       (* callers past the guard, not yet recorded *)
  clock : Z;
}.

Inductive event :=
| Tick (d : Z)
| Admit (i : nat)
| Reject (i : nat)
| Succeed (i : nat)
| Fail_ (i : nat)
| Abandon (i : nat).

Definition initial : system := {| brk := empty_circuit; inflight := ∅; clock := 0 |}.

Inductive step : system -> event -> system -> Prop :=
| step_tick s d : 0 <= d ->
    step s (Tick d) {| brk := brk s; inflight := inflight s; clock := clock s + d |}
| step_admit s i c' : i ∉ inflight s ->
    guard_llm_circuit threshold cooldown (clock s) (brk s) = (Ok tt, c') ->
    step s (Admit i) {| brk := c'; inflight := {[i]} ∪ inflight s; clock := clock s |}
| step_reject s i e c' : i ∉ inflight s ->
    guard_llm_circuit threshold cooldown (clock s) (brk s) = (Raise e, c') ->
    step s (Reject i) {| brk := c'; inflight := inflight s; clock := clock s |}
| step_succeed s i : i ∈ inflight s ->
    step s (Succeed i) {| brk := (record_llm_success (brk s)).2;
                          inflight := inflight s ∖ {[i]}; clock := clock s |}
| step_fail s i : i ∈ inflight s ->
    step s (Fail_ i) {| brk := (record_llm_failure threshold (clock s) (brk s)).2;
                        inflight := inflight s ∖ {[i]}; clock := clock s |}
| step_abandon s i : i ∈ inflight s ->
    step s (Abandon i) {| brk := brk s; inflight := inflight s ∖ {[i]}; clock := clock s |}.

Definition records (e : event) : bool :=
  match e with Succeed _ | Fail_ _ => true | _ => false end.
Definition admits (e : event) : bool := match e with Admit _ => true | _ => false end.

Lemma circuit_step_ok s e s' : 0 < threshold ->
  circuit_ok threshold (brk s) -> step s e s' -> circuit_ok threshold (brk s').
Proof.
  intros Ht Hs Hstep. destruct Hstep as [| ? ? c' ? H | ? ? ? c' ? H | | | ]; cbn [brk]; eauto with py.
  - change c' with ((@Ok exn unit tt, c').2). rewrite <-H. eauto with py.
  - change c' with ((@Raise exn unit e, c').2). rewrite <-H. eauto with py.
Qed.

(** While a probe is outstanding the guard turns everyone away. *)
Lemma guard_blocked now c : 0 < threshold ->
  circuit_ok threshold c -> probe_in_flight (breaker_of c) = true ->
  exists c', guard_llm_circuit threshold cooldown now c =
    (Raise (LlmCircuitOpenError (failures (breaker_of c)) cooldown), c') /\
    breaker_of c' = breaker_of c.
Proof.
  intros Ht (_ & _ & Hp) Hprobe. destruct (Hp Hprobe) as [t Ho].
  unfold guard_llm_circuit, reject, st_bind, st_get, st_modify, st_raise.
  destruct (threshold <=? 0) eqn:E; bool_to_prop; [lia|].
  rewrite Ho, Hprobe. destruct (now - t <? cooldown); eexists; split; done.
Qed.

Definition wedged (s : system) : Prop :=
  circuit_ok threshold (brk s) /\ probe_in_flight (breaker_of (brk s)) = true.

Lemma step_probing s e s' : 0 < threshold ->
  wedged s -> step s e s' -> records e = false ->
  wedged s' /\ admits e = false /\ inflight s' ⊆ inflight s.
Proof.
  intros Ht [Hok Hp] Hstep Hr. unfold wedged.
  assert (Hok' := circuit_step_ok _ _ _ Ht Hok Hstep).
  split; [split; [done|]|];
    destruct Hstep as [| ? ? c' ? H | ? ? ? c' ? H | | | ];
    cbn [brk inflight admits records] in *; try done;
    destruct (guard_blocked (clock s) (brk s) Ht Hok Hp) as (c'' & Hg & Hb);
    try (rewrite Hg in H; simplify_eq; by rewrite Hb); try (split; [done|]; set_solver).
Qed.
End system.


(** [guard_llm_circuit] on every branch, for an enabled breaker: closed, it
    lets the call through and changes nothing; open, it lets exactly one caller
    through once the cooldown is over and marks the probe; everyone else fails
    fast with [LlmCircuitOpenError], leaving the breaker as it was and counting a
    rejection. *)
Theorem guard_llm_circuit_spec threshold cooldown now c :
  0 < threshold ->
  let b := breaker_of c in
  let (r, c') := guard_llm_circuit threshold cooldown now c in
  match opened_at b with
  | None => r = Ok tt /\ breaker_of c' = b /\ c_metrics c' = c_metrics c
  | Some t =>
    if (cooldown <=? now - t) && negb (probe_in_flight b) then
      r = Ok tt /\ c_metrics c' = c_metrics c /\
      breaker_of c' = {| failures := failures b; opened_at := Some t; probe_in_flight := true |}
    else
      r = Raise (LlmCircuitOpenError (failures b) cooldown) /\ breaker_of c' = b /\
      c_metrics c' = c_metrics c ++ [u "reject"]
  end.
Proof.
  intros Ht. cbn zeta.
  unfold guard_llm_circuit, reject, st_bind, st_get, st_modify, st_raise, st_ret.
  destruct (threshold <=? 0) eqn:E; bool_to_prop; [lia|].
  destruct (opened_at (breaker_of c)) as [t|] eqn:Eo; [|done].
  destruct (now - t <? cooldown) eqn:E1, (cooldown <=? now - t) eqn:E2;
    bool_to_prop; try lia; cbn; [done|].
  by destruct (probe_in_flight (breaker_of c)).
Qed.

(** [n] calls of [record_llm_failure] at the given times. *)
Fixpoint fail_all (threshold : Z) (times : list Z) (c : circuit) : circuit :=
  match times with
  | [] => c
  | now :: times => fail_all threshold times (record_llm_failure threshold now c).2
  end.

Lemma fail_all_eq threshold times c : 0 < threshold ->
  breaker_of (fail_all threshold times c) =
  match last times with
  | None => breaker_of c
  | Some t => {| failures := failures (breaker_of c) + Z.of_nat (length times);
                 opened_at := if threshold <=? failures (breaker_of c) + Z.of_nat (length times)
                              then Some t else opened_at (breaker_of c);
                 probe_in_flight := false |}
  end.
Proof.
  intros Ht. revert c. induction times as [|t times IH]; intros c; [done|].
  cbn [fail_all]. rewrite IH, record_failure_eq by done. cbn [failures opened_at].
  destruct times as [|t' times]; [done|].
  change (last (t :: t' :: times)) with (last (t' :: times)).
  change (length (t :: t' :: times)) with (S (length (t' :: times))).
  destruct (last (t' :: times)) as [t''|] eqn:El; [|by apply last_None in El].
  set (n := Z.of_nat (length (t' :: times))).
  replace (Z.of_nat (S (length (t' :: times)))) with (1 + n) by lia.
  rewrite (Z.add_assoc _ 1 n). f_equal.
  destruct (threshold <=? failures (breaker_of c) + 1) eqn:E1; [|done].
  destruct (threshold <=? failures (breaker_of c) + 1 + n) eqn:E2; bool_to_prop; [done|lia].
Qed.

(** Consecutive failures open the breaker exactly at the threshold: after any
    success, fewer than [threshold] failed calls leave it closed, and the call
    that reaches the threshold opens it at its own time. *)
Theorem opens_exactly_at_threshold threshold times c :
  0 < threshold -> times <> [] ->
  let b := breaker_of (fail_all threshold times (record_llm_success c).2) in
  failures b = Z.of_nat (length times) /\
  opened_at b = if threshold <=? Z.of_nat (length times) then last times else None.
Proof.
  intros Ht Hne. cbn zeta. rewrite fail_all_eq by done.
  destruct (last times) as [t|] eqn:E; [|by apply last_None in E].
  change (breaker_of (record_llm_success c).2) with fresh_breaker.
  cbn [failures opened_at fresh_breaker]. rewrite Z.add_0_l. done.
Qed.

(** A probe that is abandoned (cancelled, or its stream dropped) with no other
    call in flight wedges the breaker: whatever happens afterwards, however long
    the clock runs, no call is ever admitted again. *)
Theorem abandoned_probe_wedges threshold cooldown s ls s' :
  0 < threshold ->
  wedged threshold s -> inflight s = ∅ ->
  trace (step threshold cooldown) s ls s' ->
  Forall (fun e => admits e = false) ls /\ wedged threshold s'.
Proof.
  intros Ht Hw He Htr. revert Hw He.
  induction Htr as [s|s e s1 ls s2 Hstep Htr IH]; intros Hw He; [done|].
  assert (Hr : records e = false) by (destruct Hstep; cbn; set_solver).
  destruct (step_probing _ _ _ _ _ Ht Hw Hstep Hr) as (Hw1 & Ha & Hi).
  destruct IH as [IH1 IH2]; [done|set_solver|]. split; [by constructor|done].
Qed.

(** ** Concrete runs *)

(** A breaker opened at time 0 by its third failure. *)
Definition opened_three : circuit :=
  {| c_state := Some {| failures := 3; opened_at := Some 0; probe_in_flight := false |};
     c_metrics := [u "open"] |}.


Lemma guard_llm_circuit_spec_witness :
  let (r, c') := guard_llm_circuit 3 30 31 opened_three in
  r = Ok tt /\ c_metrics c' = [u "open"] /\
  breaker_of c' = {| failures := 3; opened_at := Some 0; probe_in_flight := true |}.
Proof. exact (guard_llm_circuit_spec 3 30 31 opened_three eq_refl). Defined.

Lemma opens_exactly_at_threshold_witness :
  opened_at (breaker_of (fail_all 3 [5; 6; 9] (record_llm_success empty_circuit).2)) = Some 9.
Proof.
  exact (proj2 (opens_exactly_at_threshold 3 [5; 6; 9] empty_circuit eq_refl ltac:(done))).
Defined.

Lemma abandoned_probe_wedges_witness :
  wedged 3 {| brk := (guard_llm_circuit 3 30 31 opened_three).2; inflight := ∅; clock := 1000000 |}.
Proof.
  assert (Hw : wedged 3 {| brk := (guard_llm_circuit 3 30 31 opened_three).2;
                           inflight := ∅; clock := 0 |}).
  { split; [|done]. apply guard_ok; [done|]. split; [done|]. split; [|done].
    by split; [|intros _; eexists]. }
  refine (proj2 (abandoned_probe_wedges 3 30 _ [Tick 1000000] _ eq_refl Hw eq_refl _)).
  eapply trace_cons; [apply (step_tick _ _ _ 1000000); lia|apply trace_nil].
Defined.
