(* ===== verification/Redis.v ===== *)
(** * Redis as the program uses it: interfaces

    Redis is not part of the repository, so it enters the development as type
    classes: operations on an abstract server state, and laws that state the
    documented effect of each command through what a later command observes.
    The stores are verified against the laws; the instances at the end are
    executable servers that satisfy them.  Redis runs a command, and an [EVAL]
    script, atomically. *)

From stdpp Require Import base list gmap sets fin_maps strings.
From S2P Require Import Prelude PyText.
Local Open Scope Z_scope.

(** ** Sorted sets *)

Class RedisZset (R : Type) := {
  zmembers : pystr -> R -> gmap pystr Z;      (* member to score *)
  zremrangebyscore : pystr -> Z -> R -> R;    (* ZREMRANGEBYSCORE key -inf max *)
  zcard : pystr -> R -> Z;
  zadd : pystr -> Z -> pystr -> R -> R;       (* ZADD key score member *)
  zrem : pystr -> pystr -> R -> R;            (* ZREM key member *)
}.

Class RedisZsetLaws (R : Type) `{RedisZset R} : Prop := {
  zmembers_zremrangebyscore k mx r k' :
    zmembers k' (zremrangebyscore k mx r) =
    if decide (k' = k) then filter (fun '(_, s) => mx < s) (zmembers k r) else zmembers k' r;
  zcard_spec k r : zcard k r = Z.of_nat (size (zmembers k r));
  zmembers_zadd k s m r k' :
    zmembers k' (zadd k s m r) =
    if decide (k' = k) then <[m := s]> (zmembers k r) else zmembers k' r;
  zmembers_zrem k m r k' :
    zmembers k' (zrem k m r) =
    if decide (k' = k) then delete m (zmembers k r) else zmembers k' r;
}.

(** ** Strings with expiry *)

(** [kv now k r]: what [GET k] returns at time [now]. *)
Class RedisKV (R V : Type) := {
  kv : Z -> pystr -> R -> option V;
  set_nx_px : Z -> pystr -> V -> Z -> R -> bool * R;   (* SET k v NX PX ms *)
  set_ex : Z -> pystr -> V -> option Z -> R -> R;      (* SET k v [EX s] *)
  del : pystr -> R -> R;
  expire : Z -> pystr -> Z -> R -> R;                  (* EXPIRE k s *)
}.

Definition unexpired (t : Z) (deadline : option Z) : bool :=
  match deadline with None => true | Some d => t <? d end.

Class RedisKVLaws (R V : Type) `{RedisKV R V} : Prop := {
  kv_mono now t k r : now <= t -> kv now k r = None -> kv t k r = None;
  set_nx_px_ok now k v px r : 0 < px ->
    (set_nx_px now k v px r).1 = bool_decide (kv now k r = None);
  kv_set_nx_px now k v px r t k' : 0 < px -> now <= t ->
    kv t k' (set_nx_px now k v px r).2 =
    if decide (k' = k /\ kv now k r = None)
    then (if t <? now + px then Some v else None) else kv t k' r;
  kv_set_ex now k v ex r t k' : now <= t ->
    kv t k' (set_ex now k v ex r) =
    if decide (k' = k) then (if unexpired t (Z.add now <$> ex) then Some v else None)
    else kv t k' r;
  kv_del k r t k' : kv t k' (del k r) = if decide (k' = k) then None else kv t k' r;
  kv_expire now k s r t k' : now <= t ->
    kv t k' (expire now k s r) =
    if decide (k' = k)
    then (if t <? now + s then kv now k r else None) else kv t k' r;
}.

(** ** Hashes of integers *)

Class RedisHash (R : Type) := {
  hgetall : pystr -> R -> gmap pystr Z;
  hincrby : pystr -> pystr -> Z -> R -> R;
  hexpire : pystr -> Z -> R -> R;                      (* EXPIRE on the hash's key *)
}.

(** Expiry of the hash is left to the server: the laws describe a run shorter
    than the 48 hours the program asks for. *)
Class RedisHashLaws (R : Type) `{RedisHash R} : Prop := {
  hgetall_hincrby k f d r k' :
    hgetall k' (hincrby k f d r) =
    if decide (k' = k) then <[f := default 0 (hgetall k r !! f) + d]> (hgetall k r)
    else hgetall k' r;
  hgetall_hexpire k s r k' : 0 < s -> hgetall k' (hexpire k s r) = hgetall k' r;
}.

(** ** Executable servers *)

Module Server.
(** Sorted sets: a map of maps. *)
Abbreviation zstate := (gmap pystr (gmap pystr Z)).
Definition zmembers_ (k : pystr) (r : zstate) : gmap pystr Z :=
  default ∅ (r !! k).

#[global] Instance zset : RedisZset zstate := {
  zmembers := zmembers_;
  zremrangebyscore k mx r :=
    <[k := filter (fun '(_, s) => mx < s) (zmembers_ k r)]> r;
  zcard k r := Z.of_nat (size (zmembers_ k r));
  zadd k s m r := <[k := <[m := s]> (zmembers_ k r)]> r;
  zrem k m r := <[k := delete m (zmembers_ k r)]> r;
}.

Lemma zmembers_insert (k : pystr) (z : gmap pystr Z) (r : zstate) (k' : pystr) :
  zmembers_ k' (<[k := z]> r) = if decide (k' = k) then z else zmembers_ k' r.
Proof.
  unfold zmembers_. rewrite lookup_insert. repeat case_decide; naive_solver.
Qed.

#[global] Instance zset_laws : RedisZsetLaws zstate.
Proof. split; intros; cbn; try apply zmembers_insert; done. Qed.

(** Strings: value and absolute deadline. *)
Abbreviation kvstate V := (gmap pystr (V * option Z)).

Section kv.
Context {V : Type}.
Definition kv_ (t : Z) (k : pystr) (r : kvstate V) : option V :=
  match r !! k with
  | Some (v, d) => if unexpired t d then Some v else None
  | None => None
  end.

#[global] Instance kvs : RedisKV (kvstate V) V := {
  kv := kv_;
  set_nx_px now k v px r :=
    match kv_ now k r with
    | Some _ => (false, r)
    | None => (true, <[k := (v, Some (now + px))]> r)
    end;
  set_ex now k v ex r :=
    <[k := (v, Z.add now <$> ex)]> r;
  del k r := delete k r;
  expire now k s r :=
    match kv_ now k r with
    | Some v => <[k := (v, Some (now + s))]> (r : gmap pystr (V * option Z))
    | None => delete k r
    end;
}.

Lemma kv_insert (t : Z) (k : pystr) (v : V) (d : option Z) (r : kvstate V) (k' : pystr) :
  kv_ t k' (<[k := (v, d)]> r) =
  if decide (k' = k) then (if unexpired t d then Some v else None) else kv_ t k' r.
Proof.
  unfold kv_. rewrite lookup_insert. repeat case_decide; naive_solver.
Qed.
Lemma kv_delete (t : Z) (k : pystr) (r : kvstate V) (k' : pystr) :
  kv_ t k' (delete k r) = if decide (k' = k) then None else kv_ t k' r.
Proof.
  unfold kv_. rewrite lookup_delete. repeat case_decide; naive_solver.
Qed.
Lemma kv_none_mono (now t : Z) (k : pystr) (r : kvstate V) :
  now <= t -> kv_ now k r = None -> kv_ t k r = None.
Proof.
  unfold kv_. intros Hle. destruct (r !! k) as [[v [d|]]|]; cbn;
    try done.
  destruct (Z.ltb_spec now d); [done|]. intros _. destruct (Z.ltb_spec t d); [lia|done].
Qed.

#[global] Instance kvs_laws : RedisKVLaws (kvstate V) V.
Proof.
  split; cbn.
  - apply kv_none_mono.
  - intros now k v px r Hpx. by destruct (kv_ now k r).
  - intros now k v px r t k' Hpx Ht. destruct (kv_ now k r) eqn:E; cbn.
    + case_decide; naive_solver.
    + rewrite kv_insert. repeat case_decide; naive_solver.
  - intros. apply kv_insert.
  - intros. apply kv_delete.
  - intros now k s r t k' Ht. destruct (kv_ now k r) eqn:E.
    + by rewrite kv_insert.
    + rewrite kv_delete. case_decide; [|done]. by case_match.
Qed.
End kv.

(** Hashes of integers, without expiry. *)
Abbreviation hstate := (gmap pystr (gmap pystr Z)).
#[global] Instance hashes : RedisHash hstate := {
  hgetall := zmembers_;
  hincrby k f d r :=
    <[k := <[f := default 0 (zmembers_ k r !! f) + d]> (zmembers_ k r)]> r;
  hexpire _ _ r := r;
}.
#[global] Instance hashes_laws : RedisHashLaws hstate.
Proof. split; intros; cbn; try apply zmembers_insert; done. Qed.
End Server.
