(* ===== verification/ChatSlots.v ===== *)
(** * Conversation slots ([app/chat_slots.py])

    A cluster-wide cap and a per-tenant cap on conversations in flight, as leases
    that expire.  [Memory] is [MemoryChatSlotStore], [Cluster] is
    [RedisChatSlotStore] with its Lua scripts over the Redis sorted-set
    interface.  [SlotStore] is what both promise to [app/concurrency.py]: they
    implement one abstract table of leases.  Times and TTLs are [Z] counts of one
    unit; a token is the argument [uuid.uuid4().hex] supplies. *)

From stdpp Require Import base list gmap sets fin_maps strings.
From S2P Require Import Prelude PyText Errors Redis.
Local Open Scope Z_scope.

(** ** The abstract lease table *)

(** token to (tenant, expiry). *)
Abbreviation leases := (gmap pystr (pystr * Z)).

Definition live (now : Z) (L : leases) : leases := filter (fun '(_, (_, e)) => now < e) L.
Definition held_by (tenant : pystr) (L : leases) : leases :=
  filter (fun '(_, (tn, _)) => tn = tenant) L.

(** [now + max(1, int(ttl_seconds))]. *)
Definition expire_at (now ttl : Z) : Z := now + Z.max 1 ttl.

Definition spec_acquire (tenant : pystr) (global_limit tenant_limit ttl now : Z)
    (token : pystr) (L : leases) : res exn pystr * leases :=
  if global_limit <=? Z.of_nat (size (live now L)) then (Raise (ChatSlotBusy Errors.Cluster), L)
  else if tenant_limit <=? Z.of_nat (size (held_by tenant (live now L)))
  then (Raise (ChatSlotBusy Tenant), L)
  else (Ok token, <[token := (tenant, expire_at now ttl)]> L).

(** ** The interface of a slot store *)

Class SlotStore (S : Type) := {
  acquire : pystr -> Z -> Z -> Z -> Z -> pystr -> ST S exn pystr;
  release : pystr -> pystr -> ST S exn unit;
  in_flight : Z -> ST S exn Z;
  (** [rep t s L]: at time [t] the store [s] represents the leases [L]. *)
  rep : Z -> S -> leases -> Prop;
}.

Class SlotStoreLaws (S : Type) `{SlotStore S} : Prop := {
  rep_mono t t' s L : t <= t' -> rep t s L -> rep t' s L;
  acquire_refines tenant gl tl ttl now token s L :
    rep now s L -> L !! token = None ->
    let (r, s') := acquire tenant gl tl ttl now token s in
    r = (spec_acquire tenant gl tl ttl now token L).1 /\
    rep now s' (spec_acquire tenant gl tl ttl now token L).2;
  release_refines t tenant token s L :
    rep t s L -> (forall tn e, L !! token = Some (tn, e) -> tn = tenant) ->
    let (r, s') := release tenant token s in
    r = Ok tt /\ rep t s' (delete token L);
  in_flight_refines now s L :
    rep now s L ->
    let (r, s') := in_flight now s in
    r = Ok (Z.of_nat (size (live now L))) /\ rep now s' L;
}.

(** ** The in-process store *)

Module Memory.
Record store := {
  m_global : gmap pystr Z;                  (* _global: token to expiry *)
  m_tenants : gmap pystr (gmap pystr Z);    (* _tenants: tenant to its tokens *)
}.
Definition init : store := {| m_global := ∅; m_tenants := ∅ |}.

Definition held (tenant : pystr) (s : store) : gmap pystr Z :=
  default ∅ (m_tenants s !! tenant).

(** [_purge]: drop the expired tokens of [_global], and those same tokens from
    every tenant. *)
Definition stale (now : Z) (s : store) : gset pystr :=
  dom (filter (fun '(_, exp) => exp <= now) (m_global s)).
Definition purge (now : Z) (s : store) : store :=
  {| m_global := filter (fun '(token, _) => token ∉ stale now s) (m_global s);
     m_tenants := (fun h : gmap pystr Z =>
                     filter (fun '(token, _) => token ∉ stale now s) h) <$> m_tenants s |}.

Definition acquire (tenant : pystr) (global_limit tenant_limit ttl now : Z)
    (token : pystr) : ST store exn pystr := fun s =>
  let s1 := purge now s in
  if global_limit <=? Z.of_nat (size (m_global s1)) then
    (Raise (ChatSlotBusy Errors.Cluster), s1)
  else
    let h := held tenant s1 in
    let s2 := {| m_global := m_global s1; m_tenants := <[tenant := h]> (m_tenants s1) |} in
    if tenant_limit <=? Z.of_nat (size h) then (Raise (ChatSlotBusy Tenant), s2)
    else
      (Ok token,
       {| m_global := <[token := expire_at now ttl]> (m_global s2);
          m_tenants := <[tenant := <[token := expire_at now ttl]> h]> (m_tenants s2) |}).

Definition release (tenant token : pystr) : ST store exn unit := fun s =>
  (Ok tt,
   {| m_global := delete token (m_global s);
      m_tenants := match m_tenants s !! tenant with
                   | Some h => <[tenant := delete token h]> (m_tenants s)
                   | None => m_tenants s
                   end |}).

Definition in_flight (now : Z) : ST store exn Z := fun s =>
  let s1 := purge now s in (Ok (Z.of_nat (size (m_global s1))), s1).
End Memory.

(** ** The Redis store *)

Module Cluster.
Section cluster.
Context {R : Type} `{RedisZset R}.

(** The client: the server's state, and whether it answers. *)
Record store := { server : R; reachable : bool }.

Definition GLOBAL_KEY : pystr := u "cs:chat:inflight:{cs:chat}".
Definition TENANT_KEY_PREFIX : pystr := u "cs:chat:tenant:{cs:chat}:".
Definition tenant_slot_key (tenant : pystr) : pystr := TENANT_KEY_PREFIX ++ tenant.

(** [_ACQUIRE_LUA]. *)
Definition acquire_lua (k1 k2 : pystr) (now global_limit tenant_limit expire_at : Z)
    (token : pystr) (r : R) : Z * R :=
  let r := zremrangebyscore k1 now r in
  let r := zremrangebyscore k2 now r in
  if global_limit <=? zcard k1 r then (-1, r)
  else if tenant_limit <=? zcard k2 r then (-2, r)
  else (1, zadd k2 expire_at token (zadd k1 expire_at token r)).

(** [_RELEASE_LUA]. *)
Definition release_lua (k1 k2 token : pystr) (r : R) : R := zrem k2 token (zrem k1 token r).

(** [_COUNT_LUA]. *)
Definition count_lua (k1 : pystr) (now : Z) (r : R) : Z * R :=
  let r := zremrangebyscore k1 now r in (zcard k1 r, r).

Definition acquire (tenant : pystr) (global_limit tenant_limit ttl now : Z)
    (token : pystr) : ST store exn pystr := fun s =>
  if reachable s then
    let (code, r) := acquire_lua GLOBAL_KEY (tenant_slot_key tenant) now
                       global_limit tenant_limit (expire_at now ttl) token (server s) in
    let s' := {| server := r; reachable := true |} in
    if code =? -1 then (Raise (ChatSlotBusy Errors.Cluster), s')
    else if code =? -2 then (Raise (ChatSlotBusy Tenant), s')
    else (Ok token, s')
  else (Raise (ConnectionError []), s).

(** A failed release is logged and swallowed. *)
Definition release (tenant token : pystr) : ST store exn unit := fun s =>
  if reachable s then
    (Ok tt, {| server := release_lua GLOBAL_KEY (tenant_slot_key tenant) token (server s);
               reachable := true |})
  else (Ok tt, s).

Definition in_flight (now : Z) : ST store exn Z := fun s =>
  if reachable s then
    let (n, r) := count_lua GLOBAL_KEY now (server s) in
    (Ok n, {| server := r; reachable := true |})
  else (Raise (ConnectionError []), s).
End cluster.
Arguments store : clear implicits.
End Cluster.

(** ** Both stores implement the lease table *)

Lemma lookup_live (now : Z) (L : leases) (token : pystr) (p : pystr * Z) :
  live now L !! token = Some p <-> L !! token = Some p /\ now < p.2.
Proof. unfold live. rewrite map_lookup_filter_Some. by destruct p. Qed.

Lemma lookup_held (tenant : pystr) (L : leases) (token : pystr) (p : pystr * Z) :
  held_by tenant L !! token = Some p <-> L !! token = Some p /\ p.1 = tenant.
Proof. unfold held_by. rewrite map_lookup_filter_Some. by destruct p. Qed.

(** Two maps that agree after projecting the second's values have one size. *)
Lemma size_proj {V W} (f : W -> V) (m : gmap pystr V) (m' : gmap pystr W) :
  (forall k v, m !! k = Some v <-> exists w, m' !! k = Some w /\ f w = v) -> size m = size m'.
Proof.
  intros Hm. rewrite <-(map_size_fmap f m'). f_equal. apply map_eq. intros k.
  apply option_eq. intros v. rewrite Hm, lookup_fmap, fmap_Some. naive_solver.
Qed.

(** What a table of tokens must contain to account for the leases satisfying
    [P]: nothing else, and all those still live. *)
Definition accounts (t : Z) (P : pystr -> Prop) (m : gmap pystr Z) (L : leases) : Prop :=
  (forall token e, m !! token = Some e -> exists tn, L !! token = Some (tn, e) /\ P tn) /\
  (forall token tn e, L !! token = Some (tn, e) -> P tn -> t < e -> m !! token = Some e).

Section accounts.
Context (P : pystr -> Prop) `{forall x, Decision (P x)}.
Implicit Types (t e : Z) (token tn : pystr) (m : gmap pystr Z) (L : leases).

Lemma accounts_mono t t' m L : t <= t' -> accounts t P m L -> accounts t' P m L.
Proof. intros Ht [H1 H2]. split; [done|]. intros. eapply H2; eauto; lia. Qed.

(** Dropping expired tokens changes nothing the table accounts for. *)
Lemma accounts_purge t m m' L :
  accounts t P m L ->
  (forall token e, m' !! token = Some e <-> m !! token = Some e /\ t < e) ->
  accounts t P m' L.
Proof.
  intros [H1 H2] Hm. split.
  - intros token e [He _]%Hm. eauto.
  - intros token tn e HL HP Ht. apply Hm. eauto.
Qed.

Lemma accounts_size t m L :
  accounts t P m L -> (forall token e, m !! token = Some e -> t < e) ->
  size m = size (filter (fun '(_, (tn, _)) => P tn) (live t L)).
Proof.
  intros [H1 H2] Hl. apply (size_proj snd). intros token e. split.
  - intros Hm. destruct (H1 _ _ Hm) as (tn & HL & HP). exists (tn, e). split; [|done].
    apply map_lookup_filter_Some. split; [|done]. apply lookup_live. eauto.
  - intros ([tn e'] & [Hw HP]%map_lookup_filter_Some & <-).
    apply lookup_live in Hw as [HL Ht]. cbn in *. eauto.
Qed.

Lemma accounts_insert t m L token tn e :
  L !! token = None -> accounts t P m L -> P tn ->
  accounts t P (<[token := e]> m) (<[token := (tn, e)]> L).
Proof.
  intros HL [H1 H2] HP. split.
  - intros k e'. rewrite !lookup_insert. case_decide; naive_solver.
  - intros k tn' e'. rewrite !lookup_insert. case_decide; naive_solver.
Qed.

(** A lease of a tenant outside [P] does not concern this table. *)
Lemma accounts_insert_other t m L token tn e :
  L !! token = None -> accounts t P m L -> ~ P tn ->
  accounts t P m (<[token := (tn, e)]> L).
Proof.
  intros HL [H1 H2] HP. split.
  - intros k e' Hk. destruct (H1 _ _ Hk) as (tn' & HL' & ?). exists tn'.
    rewrite lookup_insert. case_decide; naive_solver.
  - intros k tn' e'. rewrite !lookup_insert. case_decide; naive_solver.
Qed.

Lemma accounts_delete t m L token :
  accounts t P m L -> accounts t P (delete token m) (delete token L).
Proof.
  intros [H1 H2]. split; intros k; intros *; rewrite !lookup_delete;
    case_decide; naive_solver.
Qed.

Lemma accounts_delete_other t m L token :
  accounts t P m L -> (forall tn e, L !! token = Some (tn, e) -> ~ P tn) ->
  accounts t P m (delete token L).
Proof.
  intros [H1 H2] HP. split.
  - intros k e Hk. destruct (H1 _ _ Hk) as (tn & HL & ?). exists tn.
    rewrite lookup_delete. case_decide; naive_solver.
  - intros k tn e. rewrite lookup_delete. case_decide; naive_solver.
Qed.
End accounts.

Lemma size_filter_true (L : leases) : size (filter (fun '(_, (_, _)) => True) L) = size L.
Proof. f_equal. apply map_filter_id. by intros ? []. Qed.

Module MemoryRep.
Import Memory.

Definition rep (t : Z) (s : store) (L : leases) : Prop :=
  accounts t (fun _ => True) (m_global s) L /\
  (forall tenant, accounts t (fun tn => tn = tenant) (held tenant s) L) /\
  (forall tenant token e, held tenant s !! token = Some e -> m_global s !! token = Some e).

Lemma elem_stale (now : Z) (s : store) (token : pystr) :
  token ∈ stale now s <-> exists e, m_global s !! token = Some e /\ e <= now.
Proof.
  unfold stale. rewrite elem_of_dom. split.
  - intros [e [He Hle]%map_lookup_filter_Some]. eauto.
  - intros (e & He & Hle). exists e. by apply map_lookup_filter_Some.
Qed.

Lemma lookup_purge_global (now : Z) (s : store) (token : pystr) (e : Z) :
  m_global (purge now s) !! token = Some e <-> m_global s !! token = Some e /\ now < e.
Proof.
  cbn. rewrite map_lookup_filter_Some, elem_stale. split.
  - intros [He Hn]. split; [done|]. destruct (Z.lt_ge_cases now e); [done|]. naive_solver.
  - intros [He Hlt]. split; [done|]. intros (e' & ? & ?). simplify_eq. lia.
Qed.

Lemma lookup_purge_held (now : Z) (s : store) (tenant token : pystr) (e : Z) :
  held tenant (purge now s) !! token = Some e <->
  held tenant s !! token = Some e /\ token ∉ stale now s.
Proof.
  unfold held, purge. cbn [m_tenants]. rewrite lookup_fmap.
  destruct (m_tenants s !! tenant) as [h|]; cbn; [apply map_lookup_filter_Some|].
  rewrite lookup_empty. naive_solver.
Qed.

Lemma purge_rep (now : Z) (s : store) (L : leases) :
  rep now s L ->
  rep now (purge now s) L /\
  size (m_global (purge now s)) = size (live now L) /\
  (forall tenant, size (held tenant (purge now s)) = size (held_by tenant (live now L))).
Proof.
  intros (Hg & Hh & Hsub).
  assert (Hheld : forall tenant token e, held tenant (purge now s) !! token = Some e <->
            held tenant s !! token = Some e /\ now < e).
  { intros tenant token e. rewrite lookup_purge_held, elem_stale. split.
    - intros [He Hn]. split; [done|]. destruct (Z.lt_ge_cases now e); naive_solver.
    - intros [He Hlt]. split; [done|]. intros (e' & He' & Hle).
      specialize (Hsub _ _ _ He). simplify_eq. lia. }
  assert (Hg' : accounts now (fun _ => True) (m_global (purge now s)) L)
    by (eapply accounts_purge; [done|]; intros; apply lookup_purge_global).
  assert (Hh' : forall tenant, accounts now (fun tn => tn = tenant) (held tenant (purge now s)) L)
    by (intros tenant; eapply accounts_purge; [done|]; intros; apply Hheld).
  split; [split; [done|split; [done|]]|split].
  - intros tenant token e [He Hlt]%Hheld. apply lookup_purge_global. eauto.
  - rewrite <-(size_filter_true (live now L)).
    apply (accounts_size (fun _ => True)); [done|]. intros ? ? []%lookup_purge_global; done.
  - intros tenant. apply (accounts_size (fun tn => tn = tenant)); [done|].
    intros ? ? []%Hheld; done.
Qed.

(** Touching the tenant's entry without changing it is invisible. *)
Lemma held_set (s : store) (g : gmap pystr Z) (tenant tenant' : pystr) (h : gmap pystr Z) :
  held tenant' {| m_global := g; m_tenants := <[tenant := h]> (m_tenants s) |} =
  if decide (tenant = tenant') then h else held tenant' s.
Proof. unfold held. cbn. rewrite lookup_insert. by case_decide. Qed.

Lemma acquire_refines (tenant : pystr) (gl tl ttl now : Z) (token : pystr) s L :
  rep now s L -> L !! token = None ->
  let (r, s') := acquire tenant gl tl ttl now token s in
  r = (spec_acquire tenant gl tl ttl now token L).1 /\
  rep now s' (spec_acquire tenant gl tl ttl now token L).2.
Proof.
  intros Hrep Hfresh. destruct (purge_rep _ _ _ Hrep) as (Hrep' & Hsg & Hsh).
  unfold acquire, spec_acquire. rewrite Hsg, Hsh.
  destruct (gl <=? Z.of_nat (size (live now L))); [done|].
  set (s1 := purge now s) in *. destruct Hrep' as (Hg & Hh & Hsub).
  destruct (tl <=? Z.of_nat (size (held_by tenant (live now L)))); (split; [done|]).
  - split; [done|]. split; intros tenant'; [|intros k e; cbn [m_global]];
      rewrite held_set; case_decide; subst; eauto.
  - split; [|split]; cbn [m_global m_tenants fst snd].
    + by apply accounts_insert.
    + intros tenant'. rewrite insert_insert_eq, held_set. case_decide; subst.
      * by apply accounts_insert.
      * by apply accounts_insert_other.
    + intros tenant' k e. rewrite insert_insert_eq, held_set, lookup_insert.
      case_decide; subst; [rewrite lookup_insert; case_decide; eauto|].
      intros Hk. case_decide; subst; [|eauto].
      destruct (Hh tenant') as [H1 _]. destruct (H1 _ _ Hk) as (? & ? & ?). congruence.
Qed.

Lemma release_refines t (tenant token : pystr) s L :
  rep t s L -> (forall tn e, L !! token = Some (tn, e) -> tn = tenant) ->
  rep t (release tenant token s).2 (delete token L).
Proof.
  intros (Hg & Hh & Hsub) Hown.
  assert (Hheld : forall tenant', held tenant' (release tenant token s).2 =
    if decide (tenant = tenant') then delete token (held tenant' s) else held tenant' s).
  { intros tenant'. unfold held, release. cbn [snd m_tenants].
    destruct (m_tenants s !! tenant) as [h|] eqn:E.
    - rewrite lookup_insert. case_decide; subst; [by rewrite E|done].
    - case_decide; subst; [|done]. rewrite E. cbn. by rewrite delete_empty. }
  split; [|split].
  - by apply accounts_delete.
  - intros tenant'. rewrite Hheld. case_decide; subst; [by apply accounts_delete|].
    apply accounts_delete_other; [done|]. intros tn e Hk ->. by specialize (Hown _ _ Hk).
  - intros tenant' k e. rewrite Hheld. cbn [snd m_global release].
    rewrite lookup_delete. case_decide; subst; [rewrite lookup_delete|];
      case_decide; subst; try done; eauto. intros Hk.
    destruct (Hh tenant') as [H1 _]. destruct (H1 _ _ Hk) as (tn & HL & ->).
    by specialize (Hown _ _ HL).
Qed.
End MemoryRep.

#[export] Instance memory_store : SlotStore Memory.store := {
  acquire := Memory.acquire;
  release := Memory.release;
  in_flight := Memory.in_flight;
  rep := MemoryRep.rep;
}.

#[export] Instance memory_store_laws : SlotStoreLaws Memory.store.
Proof.
  split; cbn.
  - intros t t' s L Ht (Hg & Hh & Hsub).
    split; [|split]; [by eapply accounts_mono|intros; by eapply accounts_mono|done].
  - apply MemoryRep.acquire_refines.
  - intros t tenant token s L Hrep Hown. split; [done|]. by apply MemoryRep.release_refines.
  - intros now s L Hrep. destruct (MemoryRep.purge_rep _ _ _ Hrep) as (Hrep' & <- & _). done.
Qed.

Section cluster_rep.
Context {R : Type} `{RedisZsetLaws R}.
Import Cluster.
Implicit Types (r : R) (tenant token : pystr) (now t : Z).

Lemma tenant_slot_key_inj tenant tenant' :
  tenant_slot_key tenant = tenant_slot_key tenant' -> tenant = tenant'.
Proof. apply app_inv_head. Qed.

Lemma tenant_slot_key_global tenant : tenant_slot_key tenant <> GLOBAL_KEY.
Proof. by vm_compute. Qed.

Definition cluster_rep (t : Z) (s : store R) (L : leases) : Prop :=
  reachable s = true /\
  accounts t (fun _ => True) (zmembers GLOBAL_KEY (server s)) L /\
  (forall tenant, accounts t (fun tn => tn = tenant)
                    (zmembers (tenant_slot_key tenant) (server s)) L).

Lemma zmembers_zremrange_live k now r k' token (e : Z) :
  zmembers k' (zremrangebyscore k now r) !! token = Some e <->
  zmembers k' r !! token = Some e /\ (k' = k -> now < e).
Proof.
  rewrite zmembers_zremrangebyscore. case_decide; subst; [|naive_solver].
  rewrite map_lookup_filter_Some. naive_solver.
Qed.

(** Purging any key leaves the table of every key accounted for. *)
Lemma accounts_zremrange (P : pystr -> Prop) k now r k' L :
  accounts now P (zmembers k' r) L ->
  accounts now P (zmembers k' (zremrangebyscore k now r)) L.
Proof.
  intros [H1 H2]. split.
  - intros token e [He _]%zmembers_zremrange_live. eauto.
  - intros token tn e HL HP Ht. apply zmembers_zremrange_live. eauto.
Qed.

(** The size of a purged table is the number of live leases it is about. *)
Lemma zcard_purged (P : pystr -> Prop) `{forall x, Decision (P x)} k now r L :
  accounts now P (zmembers k r) L ->
  (forall token e, zmembers k r !! token = Some e -> now < e) ->
  zcard k r = Z.of_nat (size (filter (fun '(_, (tn, _)) => P tn) (live now L))).
Proof. intros Ha Hl. rewrite zcard_spec. f_equal. by apply accounts_size. Qed.

Lemma acquire_lua_refines tenant (gl tl ttl now : Z) token r L :
  cluster_rep now {| server := r; reachable := true |} L -> L !! token = None ->
  let (code, r') := acquire_lua GLOBAL_KEY (tenant_slot_key tenant) now gl tl
                      (expire_at now ttl) token r in
  cluster_rep now {| server := r'; reachable := true |}
    (spec_acquire tenant gl tl ttl now token L).2 /\
  (spec_acquire tenant gl tl ttl now token L).1 =
    (if code =? -1 then Raise (ChatSlotBusy Errors.Cluster)
     else if code =? -2 then Raise (ChatSlotBusy Tenant) else Ok token).
Proof.
  intros (_ & Hg & Hh) Hfresh. unfold acquire_lua, spec_acquire. cbn [server] in *.
  set (r1 := zremrangebyscore (tenant_slot_key tenant) now (zremrangebyscore GLOBAL_KEY now r)).
  assert (Hg1 : accounts now (fun _ => True) (zmembers GLOBAL_KEY r1) L)
    by (by do 2 apply accounts_zremrange).
  assert (Hh1 : forall tn, accounts now (fun x => x = tn) (zmembers (tenant_slot_key tn) r1) L)
    by (intros tn; by do 2 apply accounts_zremrange).
  rewrite (zcard_purged (fun _ => True) _ _ _ _ Hg1).
  2:{ intros k e [[He Hlt]%zmembers_zremrange_live _]%zmembers_zremrange_live. eauto. }
  rewrite size_filter_true. destruct (gl <=? Z.of_nat (size (live now L))); [done|].
  rewrite (zcard_purged (fun x => x = tenant) _ _ _ _ (Hh1 tenant)).
  2:{ intros k e [_ Hlt]%zmembers_zremrange_live. eauto. }
  fold (held_by tenant (live now L)).
  destruct (tl <=? Z.of_nat (size (held_by tenant (live now L)))); [done|].
  split; [|done]. split; [done|]. cbn [server fst snd].
  pose proof (tenant_slot_key_global tenant) as Hne.
  split; [|intros tn]; rewrite !zmembers_zadd.
  - rewrite decide_False by congruence. rewrite decide_True by done. by apply accounts_insert.
  - rewrite (decide_False (P := tenant_slot_key tn = GLOBAL_KEY))
      by apply tenant_slot_key_global.
    destruct (decide (tn = tenant)) as [->|Hn].
    + rewrite decide_True by done. rewrite decide_False by done. by apply accounts_insert.
    + rewrite decide_False by (intros ?%tenant_slot_key_inj; done).
      by apply accounts_insert_other.
Qed.

Lemma release_lua_refines t tenant token r L :
  cluster_rep t {| server := r; reachable := true |} L ->
  (forall tn e, L !! token = Some (tn, e) -> tn = tenant) ->
  cluster_rep t {| server := release_lua GLOBAL_KEY (tenant_slot_key tenant) token r;
                   reachable := true |} (delete token L).
Proof.
  intros (_ & Hg & Hh) Hown. split; [done|]. unfold release_lua. cbn [server] in *.
  pose proof (tenant_slot_key_global tenant) as Hne.
  split; [|intros tn]; rewrite !zmembers_zrem.
  - rewrite decide_False by congruence. rewrite decide_True by done. by apply accounts_delete.
  - rewrite (decide_False (P := tenant_slot_key tn = GLOBAL_KEY))
      by apply tenant_slot_key_global.
    case_decide as Hk.
    + apply tenant_slot_key_inj in Hk as ->. rewrite decide_False by done.
      by apply accounts_delete.
    + apply accounts_delete_other; [done|]. intros tn' e HL ->.
      specialize (Hown _ _ HL). congruence.
Qed.

#[export] Instance cluster_store : SlotStore (store R) := {
  ChatSlots.acquire := Cluster.acquire;
  ChatSlots.release := Cluster.release;
  ChatSlots.in_flight := Cluster.in_flight;
  rep := cluster_rep;
}.

#[export] Instance cluster_store_laws : SlotStoreLaws (store R).
Proof.
  split; cbn.
  - intros t t' s L Ht (Hup & Hg & Hh).
    split; [done|split]; [by eapply accounts_mono|intros; by eapply accounts_mono].
  - intros tenant gl tl ttl now token [r up] L Hrep Hfresh.
    assert (up = true) as -> by apply Hrep. unfold Cluster.acquire. cbn [reachable server].
    pose proof (acquire_lua_refines tenant gl tl ttl now token r L Hrep Hfresh) as Ha.
    destruct (acquire_lua _ _ _ _ _ _ _ _) as [code r']. destruct Ha as [Ha1 Ha2].
    rewrite Ha2. destruct (code =? -1), (code =? -2); done.
  - intros t tenant token [r up] L Hrep Hown. assert (up = true) as -> by apply Hrep.
    split; [done|]. by apply release_lua_refines.
  - intros now [r up] L Hrep. assert (up = true) as -> by apply Hrep.
    destruct Hrep as (_ & Hg & Hh). cbn [server] in *.
    unfold Cluster.in_flight, count_lua. cbn [reachable server].
    split.
    + rewrite (zcard_purged (fun _ => True) _ now _ L), size_filter_true; [done| |].
      * by apply accounts_zremrange.
      * intros k e [_ Hlt]%zmembers_zremrange_live. eauto.
    + split; [done|]. split; [|intros tn]; by apply accounts_zremrange.
Qed.
End cluster_rep.

(** ** Any store, over time *)

Section over_time.
Context {S : Type} `{SlotStoreLaws S} (global_limit tenant_limit : Z).
Implicit Types (tenant token tn : pystr) (e t now ttl : Z) (L : leases) (p : pystr * Z).

(** The store, the leases granted and not yet released, and the last time. *)
Record world := { store_of : S; ledger : leases; time_of : Z }.

Inductive slot_event :=
| EvAcquire (tenant : pystr) (ttl now : Z) (token : pystr) (r : res exn pystr)
| EvRelease (tenant token : pystr)
| EvCount (now : Z) (n : Z).

(** Callers acquire with a token never granted before, and release a lease under
    the tenant that acquired it. *)
Inductive slot_step : world -> slot_event -> world -> Prop :=
| slot_acquire w tenant ttl now token r s' :
    time_of w <= now -> ledger w !! token = None ->
    acquire tenant global_limit tenant_limit ttl now token (store_of w) = (r, s') ->
    slot_step w (EvAcquire tenant ttl now token r)
      {| store_of := s';
         ledger := if is_ok r then <[token := (tenant, expire_at now ttl)]> (ledger w)
                   else ledger w;
         time_of := now |}
| slot_release w tenant token s' :
    (forall tn e, ledger w !! token = Some (tn, e) -> tn = tenant) ->
    release tenant token (store_of w) = (Ok tt, s') ->
    slot_step w (EvRelease tenant token)
      {| store_of := s'; ledger := delete token (ledger w); time_of := time_of w |}
| slot_count w now n s' :
    time_of w <= now -> in_flight now (store_of w) = (Ok n, s') ->
    slot_step w (EvCount now n) {| store_of := s'; ledger := ledger w; time_of := now |}.

Definition within_limits (w : world) : Prop :=
  rep (time_of w) (store_of w) (ledger w) /\
  forall t, time_of w <= t ->
    Z.of_nat (size (live t (ledger w))) <= Z.max 0 global_limit /\
    forall tenant, Z.of_nat (size (held_by tenant (live t (ledger w)))) <= Z.max 0 tenant_limit.

Lemma live_mono (t t' : Z) (L : leases) : t <= t' -> live t' L ⊆ live t L.
Proof.
  intros Ht. apply map_subseteq_spec. intros k p [Hk Hlt]%lookup_live.
  apply lookup_live. split; [done|lia].
Qed.

Lemma held_mono (tenant : pystr) (L L' : leases) : L ⊆ L' -> held_by tenant L ⊆ held_by tenant L'.
Proof.
  intros HL. apply map_subseteq_spec. intros k p [Hk Htn]%lookup_held.
  apply lookup_held. split; [|done]. by eapply lookup_weaken.
Qed.

(** Leases that all stay in [L'] once live at [t] are no more than those of [L']. *)
Lemma sizes_mono (L L' : leases) :
  L ⊆ L' -> (size L <= size L')%nat /\
  forall tenant, (size (held_by tenant L) <= size (held_by tenant L'))%nat.
Proof. intros HL. split; [|intros tenant]; apply map_subseteq_size; by try apply held_mono. Qed.

Lemma live_insert_subseteq (t now : Z) (L : leases) token tn e :
  now <= t -> live t (<[token := (tn, e)]> L) ⊆ <[token := (tn, e)]> (live now L).
Proof.
  intros Ht. apply map_subseteq_spec. intros k p [Hk Hlt]%lookup_live.
  rewrite lookup_insert in Hk |- *. case_decide; [done|].
  apply lookup_live. split; [done|lia].
Qed.

Lemma held_insert tenant (L : leases) token tn e :
  held_by tenant (<[token := (tn, e)]> L) ⊆
  if decide (tn = tenant) then <[token := (tn, e)]> (held_by tenant L) else held_by tenant L.
Proof.
  apply map_subseteq_spec. intros k p [Hk Htn]%lookup_held.
  destruct (decide (k = token)) as [->|Hne].
  - rewrite lookup_insert_eq in Hk. simplify_eq/=.
    rewrite decide_True by done. by rewrite lookup_insert_eq.
  - rewrite lookup_insert_ne in Hk by done.
    case_decide; rewrite ?lookup_insert_ne by done; by apply lookup_held.
Qed.

Lemma size_insert_le (L : leases) token p : (size (<[token := p]> L) <= size L + 1)%nat.
Proof.
  destruct (L !! token) eqn:E.
  - rewrite map_size_insert_Some by done. lia.
  - rewrite map_size_insert_None by done. lia.
Qed.

(** The ledger after a spec acquire stays within the limits. *)
Lemma spec_acquire_limits tenant ttl now token (L : leases) t :
  now <= t ->
  (forall t, now <= t ->
    Z.of_nat (size (live t L)) <= Z.max 0 global_limit /\
    forall tn, Z.of_nat (size (held_by tn (live t L))) <= Z.max 0 tenant_limit) ->
  let L' := (spec_acquire tenant global_limit tenant_limit ttl now token L).2 in
  Z.of_nat (size (live t L')) <= Z.max 0 global_limit /\
  forall tn, Z.of_nat (size (held_by tn (live t L'))) <= Z.max 0 tenant_limit.
Proof.
  intros Ht HL. cbn zeta. unfold spec_acquire.
  destruct (global_limit <=? _) eqn:E1; [by apply HL|].
  destruct (tenant_limit <=? _) eqn:E2; [by apply HL|]. bool_to_prop. cbn [snd].
  destruct (sizes_mono _ _ (live_insert_subseteq t now L token tenant (expire_at now ttl) Ht))
    as [Hs Hh].
  split.
  - pose proof (size_insert_le (live now L) token (tenant, expire_at now ttl)). lia.
  - intros tn. specialize (Hh tn).
    pose proof (map_subseteq_size _ _ (held_insert tn (live now L) token tenant (expire_at now ttl))).
    destruct (HL now (Z.le_refl _)) as [_ Htn]. specialize (Htn tn).
    case_decide; subst; [|lia].
    pose proof (size_insert_le (held_by tn (live now L)) token (tn, expire_at now ttl)). lia.
Qed.

Lemma slot_step_within w ev w' : within_limits w -> slot_step w ev w' -> within_limits w'.
Proof.
  intros [Hrep Hlim] Hstep.
  destruct Hstep as [w tenant ttl now token r s' Ht Hf Ha|w tenant token s' Hown Hr|w now n s' Ht Hc].
  - pose proof (acquire_refines tenant global_limit tenant_limit ttl now token _ _
      (rep_mono _ _ _ _ Ht Hrep) Hf) as Hr. rewrite Ha in Hr. destruct Hr as [Hr Hrep'].
    assert ((if is_ok r then <[token := (tenant, expire_at now ttl)]> (ledger w) else ledger w) =
      (spec_acquire tenant global_limit tenant_limit ttl now token (ledger w)).2) as HL.
    { rewrite Hr. unfold spec_acquire. by repeat case_match. }
    unfold within_limits. cbn [store_of ledger time_of]. rewrite HL. split; [done|].
    intros t Hnow. apply spec_acquire_limits; [done|]. intros t' Ht'. apply Hlim. lia.
  - pose proof (release_refines _ _ _ _ _ Hrep Hown) as Hr'. rewrite Hr in Hr'.
    split; [apply Hr'|]. intros t Ht. cbn [ledger time_of] in *.
    assert (live t (delete token (ledger w)) ⊆ live t (ledger w)) as Hsub.
    { apply map_subseteq_spec. intros k p [Hk Hlt]%lookup_live.
      apply lookup_delete_Some in Hk as [_ Hk]. by apply lookup_live. }
    destruct (sizes_mono _ _ Hsub) as [Hs Hh], (Hlim t Ht) as [H1 H2].
    split; [lia|]. intros tn. specialize (Hh tn). specialize (H2 tn). lia.
  - pose proof (in_flight_refines now _ _ (rep_mono _ _ _ _ Ht Hrep)) as Hr'.
    rewrite Hc in Hr'. split; [apply Hr'|]. cbn [ledger time_of]. intros t Hnow. apply Hlim. lia.
Qed.
End over_time.
Arguments world : clear implicits.

(** C23.  Capacity: for any slot store that meets the interface (both do), along any
    sequence of acquisitions, releases and counts with a forward clock, the leases
    granted, unexpired and not released never exceed the global limit, nor any
    tenant's its own limit; and [in_flight] reports exactly how many there are. *)
Theorem slots_within_limits {S} `{SlotStoreLaws S} (gl tl t0 : Z) (s0 : S) evs w :
  rep t0 s0 ∅ ->
  trace (slot_step gl tl) {| store_of := s0; ledger := ∅; time_of := t0 |} evs w ->
  Z.of_nat (size (live (time_of w) (ledger w))) <= Z.max 0 gl /\
  (forall tenant, Z.of_nat (size (held_by tenant (live (time_of w) (ledger w)))) <= Z.max 0 tl) /\
  (in_flight (time_of w) (store_of w)).1 = Ok (Z.of_nat (size (live (time_of w) (ledger w)))).
Proof.
  intros Hinit Htr.
  assert (within_limits gl tl w) as [Hrep Hlim].
  { eapply trace_inv; [apply slot_step_within|done|].
    split; [done|]. cbn [ledger]. intros t _. unfold live, held_by.
    rewrite map_filter_empty, map_size_empty. split; [lia|].
    intros tenant. rewrite map_filter_empty, map_size_empty. lia. }
  destruct (Hlim (time_of w) (Z.le_refl _)) as [H1 H2]. split; [done|]. split; [done|].
  pose proof (in_flight_refines _ _ _ Hrep) as Hf.
  destruct (in_flight (time_of w) (store_of w)). by destruct Hf.
Qed.

(** The Redis store and the in-process store decide alike: representing the
    same leases, they give the same answer to the same request, and represent the
    same leases afterwards. *)
Theorem cluster_memory_agree {R} `{RedisZsetLaws R}
    (tenant : pystr) (gl tl ttl now : Z) (token : pystr) (c : Cluster.store R) (m : Memory.store) (L : leases) :
  rep now c L -> rep now m L -> L !! token = None ->
  (Cluster.acquire tenant gl tl ttl now token c).1 = (Memory.acquire tenant gl tl ttl now token m).1
  /\ exists L', rep now (Cluster.acquire tenant gl tl ttl now token c).2 L' /\
                rep now (Memory.acquire tenant gl tl ttl now token m).2 L'.
Proof.
  intros Hc Hm Hf.
  pose proof (acquire_refines tenant gl tl ttl now token _ _ Hc Hf) as Hac.
  pose proof (acquire_refines tenant gl tl ttl now token _ _ Hm Hf) as Ham.
  cbn [acquire cluster_store memory_store] in Hac, Ham.
  destruct (Cluster.acquire _ _ _ _ _ _ _), (Memory.acquire _ _ _ _ _ _ _).
  destruct Hac as [-> ?], Ham as [-> ?]. split; [done|]. eauto.
Qed.

(** ** Concrete runs *)

Lemma memory_rep_init (t : Z) : rep t Memory.init ∅.
Proof. split; [|split]; [by split|by split|done]. Qed.

Lemma server_rep_init (t : Z) :
  rep t {| Cluster.server := (∅ : Server.zstate); Cluster.reachable := true |} ∅.
Proof. split; [done|]. by split; [|intros tenant]; split. Qed.

Lemma slots_within_limits_witness :
  exists w : world Memory.store,
    trace (slot_step 1 1) {| store_of := Memory.init; ledger := ∅; time_of := 0 |}
      [EvAcquire (u "demo") 5 1 (u "t1") (Ok (u "t1"));
       EvAcquire (u "demo") 5 2 (u "t2") (Raise (ChatSlotBusy Errors.Cluster))] w /\
    Z.of_nat (size (live (time_of w) (ledger w))) <= 1.
Proof.
  eexists. assert (forall w : world Memory.store, trace (slot_step 1 1) {| store_of := Memory.init; ledger := ∅; time_of := 0 |}
      [EvAcquire (u "demo") 5 1 (u "t1") (Ok (u "t1"));
       EvAcquire (u "demo") 5 2 (u "t2") (Raise (ChatSlotBusy Errors.Cluster))] w ->
     Z.of_nat (size (live (time_of w) (ledger w))) <= 1) as Hlim.
  { intros w Hw. exact (proj1 (slots_within_limits 1 1 0 Memory.init _ w (memory_rep_init 0) Hw)). }
  assert (forall P Q : Prop, P -> (P -> Q) -> P /\ Q) as Hboth by tauto.
  apply Hboth; [|apply Hlim].
  eapply trace_cons; [eapply slot_acquire; [by vm_compute|done|vm_compute; reflexivity]|].
  eapply trace_cons; [eapply slot_acquire; [by vm_compute|by vm_compute|vm_compute; reflexivity]|].
  apply trace_nil.
Defined.

Lemma cluster_memory_agree_witness :
  (Cluster.acquire (u "demo") 1 1 5 0 (u "t1")
     {| Cluster.server := (∅ : Server.zstate); Cluster.reachable := true |}).1 =
  (Memory.acquire (u "demo") 1 1 5 0 (u "t1") Memory.init).1.
Proof.
  exact (proj1 (cluster_memory_agree (u "demo") 1 1 5 0 (u "t1") _ _ ∅
    (server_rep_init 0) (memory_rep_init 0) eq_refl)).
Defined.
