(* ===== verification/Tenancy.v ===== *)
(** * Identities: tenants, users and thread ids ([app/tenancy.py],
    [app/thread_id.py])

    Who a request speaks for, how the two context variables that carry it are
    set, and the key under which a conversation is stored and locked. *)

From stdpp Require Import base list gmap sets strings.
From S2P Require Import Prelude PyText Errors.
Local Open Scope py_scope.

(** ** Tenants *)

(** One character of [^[a-zA-Z0-9_-]{1,64}$]. *)
Definition tenant_char (c : N) : bool :=
  is_ascii_alnum c || (c =? 95)%N || (c =? 45)%N.

(** [TENANT_RE.fullmatch(value)]. *)
Definition tenant_re_fullmatch (value : pystr) : bool :=
  forallb tenant_char value && (1 <=? length value) && (length value <=? 64).

(** The request's context variables. *)
Record identity := {
  current_tenant : pystr;
  current_user : pystr;
}.

Definition ANONYMOUS : pystr := u "anonymous".
Definition default_identity : identity :=
  {| current_tenant := u "demo"; current_user := ANONYMOUS |}.

Section tenancy.
(** [settings.default_tenant]. *)
Context (default_tenant : pystr).

Definition normalize_tenant_id (raw : option pystr) : res exn pystr :=
  let value := str_or (strip (opt_str raw)) default_tenant in
  if tenant_re_fullmatch value then Ok value
  else Raise (ValueError (u "非法租户 ID：" ++ value)).

Definition get_current_tenant : ST identity exn pystr :=
  fun s => (Ok (current_tenant s), s).

Definition set_current_tenant (tenant_id : pystr) : ST identity exn unit := fun s =>
  match normalize_tenant_id (Some tenant_id) with
  | Ok t => (Ok tt, {| current_tenant := t; current_user := current_user s |})
  | Raise e => (Raise e, s)
  end.

Definition get_current_user : ST identity exn pystr :=
  fun s => (Ok (str_or (current_user s) ANONYMOUS), s).

Definition set_current_user (user_id : option pystr) : ST identity exn unit := fun s =>
  (Ok tt, {| current_tenant := current_tenant s;
             current_user := str_or (strip (opt_str user_id)) ANONYMOUS |}).

(** [get_tenant_id]: an illegal header is the HTTP 400 of the source. *)
Definition get_tenant_id (x_tenant_id : option pystr) : ST identity exn pystr :=
  fun s =>
  match normalize_tenant_id x_tenant_id with
  | Ok tenant => (do! set_current_tenant tenant in st_ret tenant) s
  | Raise e => (Raise (OtherExc (u "HTTPException") (u "400")), s)
  end.

Fixpoint resolve_request_user (candidates : list (option pystr)) : ST identity exn pystr :=
  match candidates with
  | [] => do! set_current_user (Some ANONYMOUS) in st_ret ANONYMOUS
  | raw :: rest =>
    let value := strip (opt_str raw) in
    if truthy value then do! set_current_user (Some value) in st_ret value
    else resolve_request_user rest
  end.

Definition get_user_id (x_user_id : option pystr) : ST identity exn pystr :=
  resolve_request_user [x_user_id].
End tenancy.

(** ** Thread ids *)

Definition underscore : N := 95.

Definition thread_part (value fallback : pystr) : pystr :=
  replace_char colon underscore (str_or (strip value) fallback).

Definition make_thread_id (tenant_id session_id user_id : pystr) : pystr :=
  let tenant := thread_part tenant_id (u "demo") in
  let user := thread_part user_id (u "anonymous") in
  let session := thread_part session_id (u "session") in
  tenant ++ [colon] ++ user ++ [colon] ++ session.

(** ** Properties *)

Lemma thread_part_no_colon v f : colon ∉ thread_part v f.
Proof. by apply replace_char_absent. Qed.

(** The components of a thread id can be read back. *)
Lemma make_thread_id_parts t s w t' s' w' :
  make_thread_id t s w = make_thread_id t' s' w' ->
  thread_part t (u "demo") = thread_part t' (u "demo") /\
  thread_part w (u "anonymous") = thread_part w' (u "anonymous") /\
  thread_part s (u "session") = thread_part s' (u "session").
Proof.
  unfold make_thread_id. intros H.
  apply app_sep_inj in H as [H1 H']; [|apply thread_part_no_colon..].
  apply app_sep_inj in H' as [H2 H3]; [done|apply thread_part_no_colon..].
Qed.

(** A clean part is one [thread_part] keeps as it is: no surrounding blanks, not
    empty, no colon. *)
Definition clean_part (v : pystr) : bool :=
  bool_decide (strip v = v) && truthy v && bool_decide (colon ∉ v).

Lemma thread_part_clean v f : clean_part v = true -> thread_part v f = v.
Proof.
  unfold clean_part, thread_part, str_or. intros [[Hs Ht]%andb_true_iff Hc]%andb_true_iff.
  apply bool_decide_eq_true in Hs, Hc. rewrite Hs, Ht. by apply replace_char_id.
Qed.

(** Isolation: conversations whose tenant, user and session ids contain no
    colon (and are stripped and non-empty) share a thread id only if all three are
    the same. *)
Theorem make_thread_id_inj t s w t' s' w' :
  forallb clean_part [t; s; w; t'; s'; w'] = true ->
  make_thread_id t s w = make_thread_id t' s' w' <-> t = t' /\ s = s' /\ w = w'.
Proof.
  cbn [forallb]. rewrite !andb_true_iff. intros (? & ? & ? & ? & ? & ? & _).
  split; [|by intros (-> & -> & ->)].
  intros Heq%make_thread_id_parts. rewrite !thread_part_clean in Heq by done. naive_solver.
Qed.

(** Without that restriction two different users do share a conversation: a
    user id arrives unvalidated, and [_thread_part] maps ":" to "_". *)
Theorem make_thread_id_collision (tenant session : pystr) :
  make_thread_id tenant session (u "a:b") = make_thread_id tenant session (u "a_b").
Proof. reflexivity. Qed.

Lemma str_or_truthy v d : truthy d = true -> truthy (str_or v d) = true.
Proof. unfold str_or. by destruct (truthy v) eqn:E. Qed.

(** [resolve_request_user] returns the first candidate that is not blank,
    stripped, or "anonymous" when there is none, and the context variable holds
    the user it returned. *)
Theorem resolve_request_user_spec cs id0 :
  let v := match filter (fun c => truthy (strip (opt_str c)) = true) cs with
           | c :: _ => strip (opt_str c)
           | [] => ANONYMOUS
           end in
  resolve_request_user cs id0 =
  (Ok v, {| current_tenant := current_tenant id0; current_user := v |}).
Proof.
  cbn zeta. induction cs as [|c cs IH]; cbn [resolve_request_user]; [done|].
  rewrite filter_cons. destruct (truthy (strip (opt_str c))) eqn:E.
  - rewrite decide_True by done.
    unfold st_bind, set_current_user, st_ret.
    change (opt_str (Some (strip (opt_str c)))) with (strip (opt_str c)).
    rewrite strip_idemp. unfold str_or. by rewrite E.
  - by rewrite decide_False.
Qed.

(** A tenant id that [normalize_tenant_id] accepts is made of at most 64
    letters, digits, "_" and "-"; in particular it has no colon, so a thread id
    always starts with the tenant it belongs to.  A second normalisation changes
    nothing. *)
Theorem normalize_tenant_id_ok d raw t :
  normalize_tenant_id d raw = Ok t ->
  tenant_re_fullmatch t = true /\ colon ∉ t /\ t <> [] /\
  normalize_tenant_id d (Some t) = Ok t /\
  forall s w, (t ++ [colon]) `prefix_of` make_thread_id t s w.
Proof.
  unfold normalize_tenant_id. set (v := str_or (strip (opt_str raw)) d).
  destruct (tenant_re_fullmatch v) eqn:E; [|done]. intros [= <-].
  assert (Hv := E). unfold tenant_re_fullmatch in Hv.
  rewrite !andb_true_iff in Hv. destruct Hv as [[Hchars Hlen] _].
  rewrite forallb_elem in Hchars.
  assert (Hns : Forall (fun c => is_space c = false) v).
  { apply Forall_forall. intros c Hc. specialize (Hchars c Hc). apply not_true_iff_false.
    unfold is_space. rewrite bool_decide_eq_true. intros Hsp. revert Hchars.
    repeat (apply elem_of_cons in Hsp as [->|Hsp]; [by vm_compute|]). by apply elem_of_nil in Hsp. }
  assert (Hco : colon ∉ v) by (intros Hc; by specialize (Hchars _ Hc)).
  assert (Hne : v <> []) by (intros ->; done).
  assert (Htr : truthy v = true) by (by destruct v).
  assert (Hst : strip v = v) by by apply strip_id.
  split; [done|]. split; [done|]. split; [done|]. split.
  - change (opt_str (Some v)) with v. unfold str_or. by rewrite Hst, Htr, E.
  - intros s w. unfold make_thread_id. rewrite (thread_part_clean v).
    + rewrite (app_assoc v). apply prefix_app_r. done.
    + unfold clean_part. rewrite bool_decide_eq_true_2, Htr by done.
      by rewrite bool_decide_eq_true_2.
Qed.

Lemma make_thread_id_inj_witness :
  make_thread_id (u "demo") (u "s1") (u "ann") = make_thread_id (u "demo") (u "s1") (u "bob")
  <-> u "demo" = u "demo" /\ u "s1" = u "s1" /\ u "ann" = u "bob".
Proof. apply make_thread_id_inj. vm_compute. reflexivity. Defined.

Lemma normalize_tenant_id_ok_witness :
  (u "acme" ++ [colon]) `prefix_of` make_thread_id (u "acme") (u "s") (u "w").
Proof.
  exact (proj2 (proj2 (proj2 (proj2
    (normalize_tenant_id_ok (u "demo") (Some (u " acme ")) (u "acme") eq_refl))))
    (u "s") (u "w")).
Defined.
