(* ===== verification/PyRe.v ===== *)
(** * Regular expressions: the backtracking semantics of [re]

    The patterns of the program, as trees, and the matcher of Python's [re]
    module: ordered alternatives, greedy repetition, numbered groups, and the
    one-character lookarounds.  A matcher takes the text read so far (reversed)
    and the text to come, and passes what is left to a continuation. *)

From stdpp Require Import base list gmap strings.
From S2P Require Import Prelude PyText.

Inductive re : Type :=
| REps
| RChar (p : N -> bool)            (* one character of a class *)
| RSeq (a b : re)
| RAlt (a b : re)                  (* a|b, a tried first *)
| RStar (a : re)                   (* greedy a* *)
| RGroup (n : nat) (a : re)        (* a capturing group *)
| RNotBehind (p : N -> bool)       (* (?<!c) *)
| RNotAhead (p : N -> bool).       (* (?!c) *)

Abbreviation groups := (list (nat * pystr)).

Section matcher.
Context {X : Type}.

(** Greedy repetition of [body]: an iteration that reads nothing ends the loop, as
    in [re]; [fuel] bounds the iterations by the characters left. *)
Fixpoint star (body : pystr -> pystr -> groups -> (pystr -> pystr -> groups -> option X) -> option X)
    (fuel : nat) (pre s : pystr) (g : groups) (k : pystr -> pystr -> groups -> option X) : option X :=
  match fuel with
  | O => k pre s g
  | S fuel =>
    match body pre s g (fun pre' s' g' =>
            if length s' <? length s then star body fuel pre' s' g' k else None) with
    | Some x => Some x
    | None => k pre s g
    end
  end.

Fixpoint mt (r : re) (pre s : pystr) (g : groups) (k : pystr -> pystr -> groups -> option X)
    : option X :=
  match r with
  | REps => k pre s g
  | RChar p =>
    match s with
    | c :: s' => if p c then k (c :: pre) s' g else None
    | [] => None
    end
  | RSeq a b => mt a pre s g (fun pre' s' g' => mt b pre' s' g' k)
  | RAlt a b =>
    match mt a pre s g k with
    | Some x => Some x
    | None => mt b pre s g k
    end
  | RStar a => star (mt a) (length s) pre s g k
  | RGroup n a =>
    mt a pre s g (fun pre' s' g' => k pre' s' ((n, take (length s - length s') s) :: g'))
  | RNotBehind p =>
    match pre with
    | c :: _ => if p c then None else k pre s g
    | [] => k pre s g
    end
  | RNotAhead p =>
    match s with
    | c :: _ => if p c then None else k pre s g
    | [] => k pre s g
    end
  end.
End matcher.

(** A match: text before it (reversed), text after it, and its groups. *)
Record rmatch := { m_pre : pystr; m_rest : pystr; m_groups : groups }.

Definition match_here (r : re) (pre s : pystr) : option rmatch :=
  mt r pre s [] (fun pre' s' g => Some {| m_pre := pre'; m_rest := s'; m_groups := g |}).

(** [re.search]: the leftmost position where the pattern matches. *)
Fixpoint search_from (r : re) (pre s : pystr) : option rmatch :=
  match match_here r pre s with
  | Some m => Some m
  | None => match s with
            | [] => None
            | c :: s' => search_from r (c :: pre) s'
            end
  end.
Definition search (r : re) (s : pystr) : option rmatch := search_from r [] s.

(** [re.fullmatch]. *)
Definition fullmatch (r : re) (s : pystr) : bool :=
  bool_decide (is_Some (mt r [] s [] (fun _ s' _ => match s' with [] => Some tt | _ => None end))).

(** [match.group(n)]. *)
Definition group (n : nat) (m : rmatch) : option pystr :=
  snd <$> find (fun '(i, _) => Nat.eqb i n) (m_groups m).

(** Derived forms. *)
Fixpoint rlit (s : pystr) : re :=
  match s with
  | [] => REps
  | c :: s' => RSeq (RChar (N.eqb c)) (rlit s')
  end.
Definition ropt (r : re) : re := RAlt r REps.
Fixpoint rrep (n : nat) (r : re) : re :=
  match n with O => REps | S n => RSeq r (rrep n r) end.
(** [r{n,}]. *)
Definition rmin (n : nat) (r : re) : re := RSeq (rrep n r) (RStar r).

(** ** Runs of one character class *)

Section runs.
Context (p : N -> bool).

(** The longest prefix of characters in the class. *)
Fixpoint run (s : pystr) : pystr :=
  match s with
  | c :: s' => if p c then c :: run s' else []
  | [] => []
  end.

Lemma run_prefix s : s = run s ++ drop (length (run s)) s.
Proof.
  induction s as [|c s IH]; cbn; [done|]. destruct (p c); cbn; [by f_equal|done].
Qed.

Lemma take_run s : take (length (run s)) s = run s.
Proof. induction s as [|c s IH]; cbn; [done|]. destruct (p c); cbn; [by f_equal|done]. Qed.

Lemma length_run s : length (run s) <= length s.
Proof. induction s as [|c s IH]; cbn; [done|]. destruct (p c); cbn; lia. Qed.

Lemma run_class s : Forall (fun c => p c = true) (run s).
Proof. induction s as [|c s IH]; cbn; [done|]. destruct (p c) eqn:E; by constructor. Qed.

Lemma run_app_class t s : Forall (fun c => p c = true) t -> run (t ++ s) = t ++ run s.
Proof. induction 1 as [|c t Hc _ IH]; cbn; [done|]. by rewrite Hc, IH. Qed.

Lemma run_drop n s : n <= length (run s) -> run (drop n s) = drop n (run s).
Proof.
  revert s. induction n as [|n IH]; intros [|c s]; cbn; try done.
  destruct (p c) eqn:E; cbn; [|lia]. intros Hn. apply IH. lia.
Qed.

Lemma run_not s : match s with c :: _ => p c | [] => false end = false -> run s = [].
Proof. destruct s as [|c s]; cbn; [done|]. by intros ->. Qed.

(** A greedy star over a class, whose continuation accepts wherever the whole run
    has been read: it reads the whole run. *)
Lemma star_class {X} (fuel : nat) (pre s : pystr) (g : groups)
    (k : pystr -> pystr -> groups -> option X) x :
  length s <= fuel ->
  k (reverse (run s) ++ pre) (drop (length (run s)) s) g = Some x ->
  star (mt (RChar p)) fuel pre s g k = Some x.
Proof.
  revert pre s. induction fuel as [|fuel IH]; intros pre s Hf Hk; cbn -[reverse].
  - by destruct s; cbn -[reverse] in *; [|lia].
  - destruct s as [|c s]; cbn -[reverse] in *; [done|]. destruct (p c) eqn:E.
    + rewrite Nat.leb_refl.
      rewrite (IH (c :: pre) s); [done|lia|].
      cbn -[reverse] in Hk. by rewrite reverse_cons, <-app_assoc in Hk.
    + done.
Qed.

(** If the continuation fails at every point of the run, the star fails. *)
Lemma star_class_fail {X} (fuel : nat) (pre s : pystr) (g : groups)
    (k : pystr -> pystr -> groups -> option X) :
  length s <= fuel ->
  (forall n, n <= length (run s) -> k (reverse (take n s) ++ pre) (drop n s) g = None) ->
  star (mt (RChar p)) fuel pre s g k = None.
Proof.
  revert pre s. induction fuel as [|fuel IH]; intros pre s Hf Hk; cbn -[reverse].
  - by apply (Hk 0); lia.
  - destruct s as [|c s]; cbn -[reverse] in *; [by apply (Hk 0); lia|].
    destruct (p c) eqn:E; [|by apply (Hk 0); lia].
    rewrite Nat.leb_refl.
    rewrite (IH (c :: pre) s); [by apply (Hk 0); lia|lia|].
    intros n Hn. specialize (Hk (S n)). cbn -[reverse] in Hk.
    rewrite reverse_cons, <-app_assoc in Hk. apply Hk. lia.
Qed.

(** [n] copies of the class, then a continuation. *)
Lemma rrep_class {X} n (pre s : pystr) (g : groups) (k : pystr -> pystr -> groups -> option X) :
  mt (rrep n (RChar p)) pre s g k =
  if n <=? length (run s) then k (reverse (take n s) ++ pre) (drop n s) g else None.
Proof.
  revert pre s. induction n as [|n IH]; intros pre s; cbn [rrep mt]; [done|].
  destruct s as [|c s]; cbn -[reverse]; [done|]. destruct (p c) eqn:E; cbn -[reverse]; [|done].
  rewrite IH. cbn -[reverse]. by rewrite reverse_cons, <-app_assoc.
Qed.

(** [class{n,}] in front of an accepting end reads the whole run, provided the run
    is long enough. *)
Lemma rmin_class {X} n (pre s : pystr) (g : groups) (k : pystr -> pystr -> groups -> option X) x :
  (n <= length (run s) ->
   k (reverse (run s) ++ pre) (drop (length (run s)) s) g = Some x) ->
  mt (rmin n (RChar p)) pre s g k = if n <=? length (run s) then Some x else None.
Proof.
  intros Hk. cbn [rmin mt]. rewrite rrep_class.
  destruct (Nat.leb_spec n (length (run s))) as [Hn|]; [|done].
  apply star_class; [done|]. rewrite run_drop by done.
  rewrite length_drop, drop_drop, app_assoc, <-reverse_app.
  replace (n + (length (run s) - n)) with (length (run s)) by lia.
  replace (take n s ++ drop n (run s)) with (run s); [by apply Hk|].
  rewrite <-(take_drop n (run s)) at 1. f_equal.
  rewrite (run_prefix s) at 2. by rewrite take_app_le by done.
Qed.
End runs.

(** A literal matches where the text starts with it. *)
Lemma rlit_match {X} (l pre s : pystr) (g : groups) (k : pystr -> pystr -> groups -> option X) :
  mt (rlit l) pre s g k =
  if is_prefix l s then k (reverse l ++ pre) (drop (length l) s) g else None.
Proof.
  revert pre s. induction l as [|c l IH]; intros pre s; cbn [rlit mt is_prefix]; [done|].
  destruct s as [|d s]; [done|]. destruct (N.eqb_spec c d) as [->|]; cbn -[reverse]; [|done].
  rewrite IH. by rewrite reverse_cons, <-app_assoc.
Qed.

(** ** What a pattern accepts

    [reads r pre s g pre' s' g']: from the text [s], with [pre] before it, [r] can read
    up to [s'].  The matcher tries these in its order of preference; whether it
    succeeds does not depend on that order. *)
Inductive reads : re -> pystr -> pystr -> groups -> pystr -> pystr -> groups -> Prop :=
| reads_eps pre s g : reads REps pre s g pre s g
| reads_char (p : N -> bool) c pre s g : p c = true -> reads (RChar p) pre (c :: s) g (c :: pre) s g
| reads_seq a b pre s g p1 s1 g1 p2 s2 g2 :
    reads a pre s g p1 s1 g1 -> reads b p1 s1 g1 p2 s2 g2 -> reads (RSeq a b) pre s g p2 s2 g2
| reads_alt_l a b pre s g p1 s1 g1 : reads a pre s g p1 s1 g1 -> reads (RAlt a b) pre s g p1 s1 g1
| reads_alt_r a b pre s g p1 s1 g1 : reads b pre s g p1 s1 g1 -> reads (RAlt a b) pre s g p1 s1 g1
| reads_star_nil a pre s g : reads (RStar a) pre s g pre s g
| reads_star_cons a pre s g p1 s1 g1 p2 s2 g2 :
    reads a pre s g p1 s1 g1 -> length s1 < length s ->
    reads (RStar a) p1 s1 g1 p2 s2 g2 -> reads (RStar a) pre s g p2 s2 g2
| reads_group n a pre s g p1 s1 g1 :
    reads a pre s g p1 s1 g1 ->
    reads (RGroup n a) pre s g p1 s1 ((n, take (length s - length s1) s) :: g1)
| reads_not_behind (p : N -> bool) pre s g :
    match pre with c :: _ => p c = false | [] => True end -> reads (RNotBehind p) pre s g pre s g
| reads_not_ahead (p : N -> bool) pre s g :
    match s with c :: _ => p c = false | [] => True end -> reads (RNotAhead p) pre s g pre s g.
#[export] Hint Constructors reads : py.

Section accepts.
Context {X : Type}.
Implicit Types (k : pystr -> pystr -> groups -> option X).

Lemma star_reads a fuel : (forall pre s g k x, mt a pre s g k = Some x ->
    exists pre' s' g', reads a pre s g pre' s' g' /\ k pre' s' g' = Some x) ->
  forall pre s g k x, star (mt a) fuel pre s g k = Some x ->
  exists pre' s' g', reads (RStar a) pre s g pre' s' g' /\ k pre' s' g' = Some x.
Proof.
  intros Ha. induction fuel as [|fuel IH]; intros pre s g k x; cbn [star]; [eauto 10 with py|].
  destruct (mt a _ _ _ _) as [y|] eqn:E; [|eauto 10 with py]. intros [= ->].
  apply Ha in E as (p1 & s1 & g1 & Hr & E).
  destruct (Nat.ltb_spec (length s1) (length s)); [|done].
  apply IH in E as (p2 & s2 & g2 & Hr2 & E). eauto 10 with py.
Qed.

(** Soundness: what the matcher hands to its continuation has been read. *)
Lemma mt_reads r : forall pre s g k x, mt r pre s g k = Some x ->
  exists pre' s' g', reads r pre s g pre' s' g' /\ k pre' s' g' = Some x.
Proof.
  induction r as [|p|a IHa b IHb|a IHa b IHb|a IHa|n a IHa|p|p]; intros pre s g k x; cbn [mt].
  - eauto 10 with py.
  - destruct s as [|c s]; [done|]. destruct (p c) eqn:E; [|done]. eauto 10 with py.
  - intros (p1 & s1 & g1 & H1 & (p2 & s2 & g2 & H2 & Hk)%IHb)%IHa. eauto 10 with py.
  - destruct (mt a _ _ _ _) as [y|] eqn:E.
    + intros [= ->]. apply IHa in E as (p1 & s1 & g1 & ? & ?). eauto 10 with py.
    + intros (p1 & s1 & g1 & ? & ?)%IHb. eauto 10 with py.
  - by apply star_reads.
  - intros (p1 & s1 & g1 & H1 & Hk)%IHa. eauto 10 with py.
  - destruct pre as [|c pre]; [eauto 10 with py|]. destruct (p c) eqn:E; [done|]. eauto 10 with py.
  - destruct s as [|c s]; [eauto 10 with py|]. destruct (p c) eqn:E; [done|]. eauto 10 with py.
Qed.

(** Completeness: if something can be read and continued, the matcher finds something. *)
Lemma reads_mt r pre s g p1 s1 g1 : reads r pre s g p1 s1 g1 ->
  match r with
  | RStar a => forall fuel k, length s <= fuel -> is_Some (k p1 s1 g1) -> is_Some (star (mt a) fuel pre s g k)
  | _ => forall k, is_Some (k p1 s1 g1) -> is_Some (mt r pre s g k)
  end.
Proof.
  assert (Hmt : forall r pre s g p1 s1 g1,
    match r with
    | RStar a => forall fuel k, length s <= fuel -> is_Some (k p1 s1 g1) -> is_Some (star (mt a) fuel pre s g k)
    | _ => forall k, is_Some (k p1 s1 g1) -> is_Some (mt r pre s g k)
    end -> forall k, is_Some (k p1 s1 g1) -> is_Some (mt r pre s g k)).
  { intros [] ? ? ? ? ? ?; try done. intros Hr k Hk. by apply Hr. }
  induction 1 as [| |a b pre s g p1 s1 g1 p2 s2 g2 Ha IHa Hb IHb|a b pre s g p1 s1 g1 Ha IHa
    |a b pre s g p1 s1 g1 Ha IHa|a pre s g|a pre s g p1 s1 g1 p2 s2 g2 Ha IHa Hlt Hb IHb
    |n a pre s g p1 s1 g1 Ha IHa|p pre s g Hp|p pre s g Hp]; cbn [mt].
  - done.
  - intros k Hk. by rewrite H.
  - intros k Hk. apply (Hmt _ _ _ _ _ _ _ IHa), (Hmt _ _ _ _ _ _ _ IHb), Hk.
  - intros k Hk. apply (Hmt _ _ _ _ _ _ _ IHa) in Hk as [x ->]. by eexists.
  - intros k Hk. destruct (mt a _ _ _ _); [by eexists|]. by apply (Hmt _ _ _ _ _ _ _ IHa).
  - intros [|fuel] k Hf Hk; cbn [star]; [done|]. destruct (mt a _ _ _ _); [by eexists|done].
  - intros [|fuel] k Hf Hk; [lia|]. cbn [star].
    assert (Hs : is_Some (mt a pre s g (fun pre' s' g' =>
              if length s' <? length s then star (mt a) fuel pre' s' g' k else None))).
    { apply (Hmt _ _ _ _ _ _ _ IHa). rewrite (proj2 (Nat.ltb_lt _ _)) by done. apply IHb; [lia|done]. }
    destruct Hs as [x ->]. by eexists.
  - intros k Hk. by apply (Hmt _ _ _ _ _ _ _ IHa).
  - intros k Hk. destruct pre as [|c pre]; [done|]. by rewrite Hp.
  - intros k Hk. destruct s as [|c s]; [done|]. by rewrite Hp.
Qed.
End accepts.

(** What is read is a prefix of the text. *)
Lemma reads_text r pre s g p1 s1 g1 : reads r pre s g p1 s1 g1 ->
  exists w, s = w ++ s1 /\ p1 = reverse w ++ pre.
Proof.
  assert (Happ : forall (w w' : pystr) (s2 pre0 : pystr),
    exists v, w ++ w' ++ s2 = v ++ s2 /\ reverse w' ++ reverse w ++ pre0 = reverse v ++ pre0).
  { intros w w' s2 pre0. exists (w ++ w'). by rewrite reverse_app, <-!app_assoc. }
  assert (Hnil : forall (s0 pre0 : pystr), exists w, s0 = w ++ s0 /\ pre0 = reverse w ++ pre0)
    by (intros; by exists []).
  induction 1 as [| | ? ? ? ? ? ? ? ? ? ? ? _ IH1 _ IH2| | | |? ? ? ? ? ? ? ? ? ? _ IH1 _ _ IH2| | |];
    try apply Hnil; try done.
  - by exists [c].
  - destruct IH1 as (w & -> & ->), IH2 as (w' & -> & ->). apply Happ.
  - destruct IH1 as (w & -> & ->), IH2 as (w' & -> & ->). apply Happ.
Qed.

(** A match here, and the match found. *)
Definition matches (r : re) (pre s pre' s' : pystr) : Prop := exists g, reads r pre s [] pre' s' g.

Lemma match_here_matches r pre s m : match_here r pre s = Some m -> matches r pre s (m_pre m) (m_rest m).
Proof. intros (pre' & s' & g & Hr & [= <-])%mt_reads. by exists g. Qed.

Lemma no_match_here r pre s : match_here r pre s = None <-> forall pre' s', ~ matches r pre s pre' s'.
Proof.
  split.
  - intros Hn pre' s' [g Hr]. assert (is_Some (match_here r pre s)) as Hs; [|rewrite Hn in Hs; by destruct Hs].
    unfold match_here. pose proof (reads_mt (X := rmatch) _ _ _ _ _ _ _ Hr) as Hm.
    destruct r; try (apply Hm; by eexists). cbn [mt]. apply Hm; [done|by eexists].
  - intros Hno. destruct (match_here r pre s) as [m|] eqn:E; [|done].
    apply match_here_matches in E. by apply Hno in E.
Qed.

(** [re.search] fails where no position has a match. *)
Lemma search_from_none r pre s :
  search_from r pre s = None <->
  forall a b, s = a ++ b -> forall pre' s', ~ matches r (reverse a ++ pre) b pre' s'.
Proof.
  revert pre. induction s as [|c s IH]; intros pre; cbn [search_from].
  - destruct (match_here r pre []) eqn:E.
    + split; [done|]. intros Hno. apply match_here_matches in E. by apply (Hno [] []) in E.
    + pose proof (proj1 (no_match_here _ _ _) E) as E1. clear E. rename E1 into E. split; [|done]. intros _ a b Hab.
      symmetry in Hab. apply app_eq_nil in Hab as [-> ->]. apply E.
  - destruct (match_here r pre (c :: s)) eqn:E.
    + split; [done|]. intros Hno. apply match_here_matches in E. by apply (Hno [] (c :: s)) in E.
    + pose proof (proj1 (no_match_here _ _ _) E) as E1. clear E. rename E1 into E. rewrite IH. split.
      * intros Hs [|d a] b Hab; cbn in Hab; [subst b; exact E|]. injection Hab as <- Hab.
        specialize (Hs a b Hab). by rewrite reverse_cons, <-app_assoc.
      * intros Hs a b ->. specialize (Hs (c :: a) b eq_refl). by rewrite reverse_cons, <-app_assoc in Hs.
Qed.

(** ** Replacement *)

(** [pattern.sub(repl, s)], from a position on: the leftmost match is replaced and the
    scan goes on behind it; a match that reads nothing is followed by one character
    copied.  Every round reads a character, so [length s] rounds are enough. *)
Fixpoint sub_from (r : re) (repl : pystr) (fuel : nat) (pre s : pystr) : pystr :=
  match fuel with
  | O => s
  | S fuel =>
    match match_here r pre s with
    | Some m =>
      if length (m_rest m) <? length s then repl ++ sub_from r repl fuel (m_pre m) (m_rest m)
      else repl ++ match s with [] => [] | c :: s => c :: sub_from r repl fuel (c :: pre) s end
    | None => match s with [] => [] | c :: s => c :: sub_from r repl fuel (c :: pre) s end
    end
  end.
Definition sub (r : re) (repl s : pystr) : pystr := sub_from r repl (S (length s)) [] s.

(** [pattern.finditer(s)], for a pattern that reads at least a character. *)
Fixpoint finditer_from (r : re) (fuel : nat) (pre s : pystr) : list rmatch :=
  match fuel with
  | O => []
  | S fuel =>
    match match_here r pre s with
    | Some m =>
      m :: (if length (m_rest m) <? length s then finditer_from r fuel (m_pre m) (m_rest m)
            else match s with [] => [] | c :: s => finditer_from r fuel (c :: pre) s end)
    | None => match s with [] => [] | c :: s => finditer_from r fuel (c :: pre) s end
    end
  end.
Definition finditer (r : re) (s : pystr) : list rmatch := finditer_from r (S (length s)) [] s.

(** [r{m,n}], greedy, with [n = m + k]. *)
Fixpoint rupto (k : nat) (r : re) : re :=
  match k with O => REps | S k => ropt (RSeq r (rupto k r)) end.
Definition rrange (m k : nat) (r : re) : re := RSeq (rrep m r) (rupto k r).

(** A pattern that is not found leaves the text as it is. *)
Lemma sub_from_none r repl fuel pre s : search_from r pre s = None -> sub_from r repl fuel pre s = s.
Proof.
  revert pre s. induction fuel as [|fuel IH]; intros pre s Hs; cbn [sub_from]; [done|].
  destruct s as [|c s]; cbn [search_from] in Hs; destruct (match_here r pre _); try done.
  by rewrite IH.
Qed.

(** ** Reading characters of one class *)

(** [r] reads [w] in front of [s1]. *)
Definition reads_word (r : re) (pre s : pystr) (g : groups) (p1 s1 : pystr) (g1 : groups)
    (P : pystr -> Prop) : Prop :=
  reads r pre s g p1 s1 g1 <-> exists w, P w /\ s = w ++ s1 /\ p1 = reverse w ++ pre /\ g1 = g.

Lemma reads_one (p : N -> bool) pre s g p1 s1 g1 :
  reads_word (RChar p) pre s g p1 s1 g1 (fun w => exists c, w = [c] /\ p c = true).
Proof.
  split.
  - inversion 1 as [|? c| | | | | | | |]; subst. exists [c]. split; [by exists c|done].
  - intros (w & (c & -> & Hc) & -> & -> & ->). by constructor.
Qed.

Section class.
Context (p : N -> bool).
Abbreviation all := (Forall (fun c => p c = true)).

Lemma reads_rrep n : forall pre s g p1 s1 g1,
  reads_word (rrep n (RChar p)) pre s g p1 s1 g1 (fun w => all w /\ length w = n).
Proof.
  induction n as [|n IH]; intros pre s g p1 s1 g1; split; cbn [rrep].
  - inversion 1; subst. exists []. split; [by repeat constructor|done].
  - intros (w & [_ Hw] & -> & -> & ->). destruct w; [|done]. constructor.
  - inversion 1 as [| |? ? ? ? ? ? ? ? ? ? ? Ha Hb| | | | | | |]; subst.
    apply reads_one in Ha as (? & (c & -> & Hc) & -> & -> & ->).
    apply IH in Hb as (w & [Hw <-] & -> & -> & ->). exists ([c] ++ w).
    rewrite reverse_app, <-!app_assoc. split; [split; [by constructor|done]|done].
  - intros (w & [Hw Hn] & -> & -> & ->). destruct w as [|c w]; [done|]. injection Hn as Hn.
    apply Forall_cons in Hw as [Hc Hw]. econstructor; [by constructor|]. apply IH. exists w.
    by rewrite reverse_cons, <-app_assoc.
Qed.

Lemma reads_star pre s g p1 s1 g1 : reads_word (RStar (RChar p)) pre s g p1 s1 g1 (fun w => all w).
Proof.
  split.
  - intros Hr. remember (RStar (RChar p)) as r eqn:Er.
    induction Hr as [| | | | | |? ? ? ? ? ? ? ? ? ? Ha _ Hlt Hb IH| | |]; try done.
    + exists []. split; [by repeat constructor|done].
    + injection Er as ->. apply reads_one in Ha as (? & (c & -> & Hc) & -> & -> & ->).
      destruct (IH eq_refl) as (w & Hw & -> & -> & ->). exists ([c] ++ w).
      rewrite reverse_app, <-!app_assoc. split; [by constructor|done].
  - intros (w & Hw & -> & -> & ->). revert pre. induction Hw as [|c w Hc _ IH]; intros pre; [constructor|].
    rewrite reverse_cons, <-app_assoc.
    apply (reads_star_cons _ _ _ _ (c :: pre) (w ++ s1) g); [by constructor|cbn; lia|apply IH].
Qed.

Lemma reads_rmin n pre s g p1 s1 g1 :
  reads_word (rmin n (RChar p)) pre s g p1 s1 g1 (fun w => all w /\ n <= length w).
Proof.
  split.
  - inversion 1 as [| |? ? ? ? ? ? ? ? ? ? ? Ha Hb| | | | | | |]; subst.
    apply reads_rrep in Ha as (w & [Hw <-] & -> & -> & ->).
    apply reads_star in Hb as (w' & Hw' & -> & -> & ->). exists (w ++ w').
    rewrite reverse_app, <-!app_assoc, length_app. split; [|done]. split; [by apply Forall_app|lia].
  - intros (w & [Hw Hn] & -> & -> & ->). rewrite <-(take_drop n w) in Hw |- *.
    apply Forall_app in Hw as [Hw1 Hw2]. rewrite reverse_app, <-!app_assoc. econstructor.
    + apply reads_rrep. exists (take n w). by rewrite length_take_le.
    + apply reads_star. by exists (drop n w).
Qed.

Lemma reads_rupto k : forall pre s g p1 s1 g1,
  reads_word (rupto k (RChar p)) pre s g p1 s1 g1 (fun w => all w /\ length w <= k).
Proof.
  induction k as [|k IH]; intros pre s g p1 s1 g1; split; cbn [rupto].
  - inversion 1; subst. exists []. split; [by repeat constructor|done].
  - intros (w & [_ Hw] & -> & -> & ->). destruct w; [|cbn in Hw; lia]. constructor.
  - inversion 1 as [| | |? ? ? ? ? ? ? ? Ho|? ? ? ? ? ? ? ? Ho| | | | |]; subst.
    + inversion Ho as [| |? ? ? ? ? ? ? ? ? ? ? Ha Hb| | | | | | |]; subst.
      apply reads_one in Ha as (? & (c & -> & Hc) & -> & -> & ->).
      apply IH in Hb as (w & [Hw Hn] & -> & -> & ->). exists ([c] ++ w).
      rewrite reverse_app, <-!app_assoc. split; [|done]. split; [by constructor|cbn; lia].
    + inversion Ho; subst. exists []. cbn. split; [split; [constructor|lia]|done].
  - intros (w & [Hw Hn] & -> & -> & ->). destruct w as [|c w]; [apply reads_alt_r; constructor|].
    apply Forall_cons in Hw as [Hc Hw]. apply reads_alt_l. econstructor; [by constructor|]. apply IH. exists w.
    cbn in Hn. rewrite reverse_cons, <-app_assoc. split; [split; [done|lia]|done].
Qed.

Lemma reads_rrange m k pre s g p1 s1 g1 :
  reads_word (rrange m k (RChar p)) pre s g p1 s1 g1 (fun w => all w /\ m <= length w <= m + k).
Proof.
  split.
  - inversion 1 as [| |? ? ? ? ? ? ? ? ? ? ? Ha Hb| | | | | | |]; subst.
    apply reads_rrep in Ha as (w & [Hw <-] & -> & -> & ->).
    apply reads_rupto in Hb as (w' & [Hw' Hn] & -> & -> & ->). exists (w ++ w').
    rewrite reverse_app, <-!app_assoc, length_app. split; [|done]. split; [by apply Forall_app|lia].
  - intros (w & [Hw Hn] & -> & -> & ->). rewrite <-(take_drop m w) in Hw |- *.
    apply Forall_app in Hw as [Hw1 Hw2]. rewrite reverse_app, <-!app_assoc. econstructor.
    + apply reads_rrep. exists (take m w). rewrite length_take_le by lia. done.
    + apply reads_rupto. exists (drop m w). rewrite length_drop. split; [split; [done|lia]|done].
Qed.

(** A word of the class that nothing of the class follows is the whole run. *)
Lemma run_word w s : all w -> match s with c :: _ => p c = false | [] => True end -> run p (w ++ s) = w.
Proof.
  intros Hw Hs. rewrite run_app_class by done. rewrite run_not; [apply app_nil_r|]. by destruct s.
Qed.
End class.

Lemma reads_rseq_inv a b pre s g p2 s2 g2 : reads (RSeq a b) pre s g p2 s2 g2 ->
  exists p1 s1 g1, reads a pre s g p1 s1 g1 /\ reads b p1 s1 g1 p2 s2 g2.
Proof. inversion 1; subst. eauto. Qed.

Lemma reads_not_ahead_inv p pre s g p1 s1 g1 : reads (RNotAhead p) pre s g p1 s1 g1 ->
  p1 = pre /\ s1 = s /\ g1 = g /\ match s with c :: _ => p c = false | [] => True end.
Proof. by inversion 1; subst. Qed.

Lemma reads_not_behind_inv p pre s g p1 s1 g1 : reads (RNotBehind p) pre s g p1 s1 g1 ->
  p1 = pre /\ s1 = s /\ g1 = g /\ match pre with c :: _ => p c = false | [] => True end.
Proof. by inversion 1; subst. Qed.

Lemma reads_eps_inv pre s g p1 s1 g1 : reads REps pre s g p1 s1 g1 -> p1 = pre /\ s1 = s /\ g1 = g.
Proof. by inversion 1; subst. Qed.

(** What replacement leaves consists of the text's characters and the replacement's. *)
Lemma sub_from_Forall (P : N -> Prop) r repl fuel pre s :
  Forall P repl -> Forall P s -> Forall P (sub_from r repl fuel pre s).
Proof.
  intros Hr. revert pre s. induction fuel as [|fuel IH]; intros pre s Hs; cbn [sub_from]; [done|].
  assert (Hc : Forall P match s with [] => [] | c :: s => c :: sub_from r repl fuel (c :: pre) s end).
  { destruct Hs; constructor; [done|by apply IH]. }
  destruct (match_here r pre s) as [m|] eqn:E; [|exact Hc].
  apply match_here_matches in E as [g (w & Hw & _)%reads_text].
  destruct (length (m_rest m) <? length s); apply Forall_app; (split; [done|]); [|exact Hc].
  apply IH. rewrite Hw in Hs. by apply Forall_app in Hs as [_ ?].
Qed.

Lemma reads_group_inv n a pre s g p1 s1 g1 : reads (RGroup n a) pre s g p1 s1 g1 ->
  exists g2, reads a pre s g p1 s1 g2 /\ g1 = (n, take (length s - length s1) s) :: g2.
Proof. inversion 1; subst. eauto. Qed.

(** What a group has read, when it stands in front of what is left. *)
Lemma taken_app (w s : pystr) : take (length (w ++ s) - length s) (w ++ s) = w.
Proof. rewrite length_app. replace (length w + length s - length s) with (length w) by lia. by rewrite take_app_length. Qed.

(** A visible replacement cannot make a text blank. *)
Lemma visible_sub r repl s : visible repl -> visible s -> visible (sub r repl s).
Proof.
  intros Hr. unfold sub. generalize (S (length s)) as fuel, (@nil N) as pre. intros fuel.
  revert s. induction fuel as [|fuel IH]; intros s pre Hs; cbn [sub_from]; [done|].
  destruct (match_here r pre s) as [m|].
  - destruct (length (m_rest m) <? length s); apply Exists_app; by left.
  - destruct s as [|c s]; [by destruct (proj1 (Exists_nil _) Hs)|].
    apply Exists_cons. apply Exists_cons in Hs as [?|Hs]; [by left|right]. by apply IH.
Qed.
