(* ===== verification/PySort.v ===== *)
(** * [sorted]

    Python's sort is stable, also in reverse.  A key is compared by a strict order [lt] of
    its type, so [sorted(xs, key=k)] is [py_sorted (fun a b => lt (k a) (k b)) xs], and with
    [reverse=True] the arguments of [lt] change places. *)

From stdpp Require Import base list strings.
From Stdlib Require Import Floats.SpecFloat.
From S2P Require Import Prelude PyText.

Section sort.
Context {A : Type} (lt : A -> A -> bool).

(** [x] goes before the first element that is not smaller. *)
Fixpoint insort (x : A) (l : list A) : list A :=
  match l with
  | [] => [x]
  | y :: l' => if lt y x then y :: insort x l' else x :: l
  end.
Definition py_sorted (l : list A) : list A := foldr insort [] l.

Lemma insort_perm x l : insort x l ≡ₚ x :: l.
Proof. induction l as [|y l IH]; cbn; [done|]. destruct (lt y x); [|done]. by rewrite IH, Permutation_swap. Qed.

Lemma py_sorted_perm l : py_sorted l ≡ₚ l.
Proof. induction l as [|x l IH]; cbn; [done|]. by rewrite insort_perm, IH. Qed.

Lemma length_py_sorted l : length (py_sorted l) = length l.
Proof. by rewrite py_sorted_perm. Qed.

Lemma elem_of_py_sorted x l : x ∈ py_sorted l <-> x ∈ l.
Proof. by rewrite py_sorted_perm. Qed.

(** On elements where [lt] is a strict weak order, nothing precedes a smaller element, and
    elements that compare equal keep their order. *)
Context (P : A -> Prop).
Context (asym : forall a b, P a -> P b -> lt a b = true -> lt b a = false).
Context (negtrans : forall a b c, P a -> P b -> P c -> lt b a = false -> lt c b = false -> lt c a = false).

Definition in_order (l : list A) : Prop := forall i j a b, i < j -> l !! i = Some a -> l !! j = Some b -> lt b a = false.

Lemma in_order_cons x l : in_order (x :: l) <-> (forall y, y ∈ l -> lt y x = false) /\ in_order l.
Proof.
  split.
  - intros H. split.
    + intros y [i Hi]%list_elem_of_lookup. apply (H 0 (S i)); [lia|done|done].
    + intros i j a b Hij Ha Hb. apply (H (S i) (S j)); [lia|done|done].
  - intros [Hx Hl] [|i] [|j] a b Hij Ha Hb; try lia.
    + injection Ha as ->. apply Hx. by eapply list_elem_of_lookup_2.
    + apply (Hl i j); [lia|done|done].
Qed.

Lemma insort_order x l : P x -> Forall P l -> in_order l -> in_order (insort x l).
Proof.
  intros Hx. induction l as [|y l IH]; intros HP Hl; cbn [insort].
  - apply in_order_cons. split; [|done]. by intros y ?%elem_of_nil.
  - apply Forall_cons in HP as [Hy HP]. apply in_order_cons in Hl as [Hyl Hl]. destruct (lt y x) eqn:E.
    + apply in_order_cons. split; [|by apply IH]. intros z. rewrite insort_perm. intros [->|Hz]%elem_of_cons; [by apply asym|by apply Hyl].
    + apply in_order_cons. split; [|by apply in_order_cons]. intros z [->|Hz]%elem_of_cons; [done|].
      rewrite Forall_forall in HP. apply (negtrans x y z); auto.
Qed.

Lemma py_sorted_order l : Forall P l -> in_order (py_sorted l).
Proof.
  induction l as [|x l IH]; intros HP; cbn; [by intros [] ? ? ? ? ?|]. apply Forall_cons in HP as [Hx HP].
  apply insort_order; [done|by rewrite py_sorted_perm|by apply IH].
Qed.

(** The [k] smallest: an element left out is not smaller than one taken. *)
Lemma py_sorted_take k l a b : Forall P l -> a ∈ take k (py_sorted l) -> b ∈ drop k (py_sorted l) -> lt b a = false.
Proof.
  intros HP Ha Hb. apply list_elem_of_lookup in Ha as [i Hi]. apply list_elem_of_lookup in Hb as [j Hj].
  rewrite lookup_drop in Hj. apply lookup_take_Some in Hi as [Hi Hik].
  eapply (py_sorted_order l HP i (k + j)); [lia|done|done].
Qed.
End sort.

(** A list in order is left as it is. *)
Lemma py_sorted_id {A} (lt : A -> A -> bool) l : in_order lt l -> py_sorted lt l = l.
Proof.
  induction l as [|x l IH]; [done|]. intros [Hx Hl]%in_order_cons. cbn. change (foldr (insort lt) [] l) with (py_sorted lt l).
  rewrite IH by done. destruct l as [|y l]; [done|]. cbn. rewrite (Hx y) by by left. done.
Qed.

(** ** Floats as keys *)

(** Not a number. *)
Definition f_nan (x : pyfloat) : bool := match x with S754_nan => true | _ => false end.

(** The order of the other floats, as one of triples. *)
Definition f_key (x : pyfloat) : Z * Z * Z :=
  match x with
  | S754_zero _ | S754_nan => (0, 0, 0)
  | S754_infinity s => (if s then -2 else 2, 0, 0)
  | S754_finite s m e => if s then (-1, - e, - Z.pos m) else (1, e, Z.pos m)
  end%Z.
Definition key_lt (a b : Z * Z * Z) : Prop :=
  let '(t1, e1, m1) := a in
  let '(t2, e2, m2) := b in
  (t1 < t2 \/ t1 = t2 /\ (e1 < e2 \/ e1 = e2 /\ m1 < m2))%Z.

Lemma f_lt_key x y : f_nan x = false -> f_nan y = false -> (f_lt x y = true <-> key_lt (f_key x) (f_key y)).
Proof.
  intros Hx Hy. unfold f_lt, SFltb.
  destruct x as [sx|sx| |sx mx ex], y as [sy|sy| |sy my ey]; try done; try (destruct sx); try (destruct sy); cbn;
    try (split; [intros ?|intros ?]; (done || lia)).
  all: change (Pos.compare_cont Eq mx my) with (Pos.compare mx my);
    destruct (Z.compare_spec ex ey); cbn; try destruct (Pos.compare_spec mx my); cbn; split; (done || lia).
Qed.

Lemma f_lt_asym x y : f_nan x = false -> f_nan y = false -> f_lt x y = true -> f_lt y x = false.
Proof.
  intros Hx Hy H. apply f_lt_key in H; [|done..]. apply not_true_iff_false. rewrite f_lt_key by done.
  unfold key_lt in *. destruct (f_key x) as [[? ?] ?], (f_key y) as [[? ?] ?]. lia.
Qed.

Lemma f_lt_negtrans x y z : f_nan x = false -> f_nan y = false -> f_nan z = false ->
  f_lt y x = false -> f_lt z y = false -> f_lt z x = false.
Proof.
  intros Hx Hy Hz. rewrite <- !not_true_iff_false, !f_lt_key by done.
  unfold key_lt. destruct (f_key x) as [[? ?] ?], (f_key y) as [[? ?] ?], (f_key z) as [[? ?] ?]. lia.
Qed.

(** Descending by a float key. *)
Definition by_score_desc {A} (score : A -> pyfloat) (a b : A) : bool := f_lt (score b) (score a).
Definition by_score_asc {A} (score : A -> pyfloat) (a b : A) : bool := f_lt (score a) (score b).

Lemma sorted_desc {A} (score : A -> pyfloat) (l : list A) : Forall (fun a => f_nan (score a) = false) l ->
  in_order (by_score_desc score) (py_sorted (by_score_desc score) l).
Proof.
  apply (py_sorted_order (by_score_desc score) (fun a => f_nan (score a) = false)); unfold by_score_desc; intros; eauto using f_lt_asym, f_lt_negtrans.
Qed.
Lemma sorted_asc {A} (score : A -> pyfloat) (l : list A) : Forall (fun a => f_nan (score a) = false) l ->
  in_order (by_score_asc score) (py_sorted (by_score_asc score) l).
Proof.
  apply (py_sorted_order (by_score_asc score) (fun a => f_nan (score a) = false)); unfold by_score_asc; intros; eauto using f_lt_asym, f_lt_negtrans.
Qed.
