(* ===== verification/PyDict.v ===== *)
(** * Dictionaries in insertion order

    Where the program iterates over a dictionary, or sorts its items, their order is the
    order of first insertion: an association list without duplicate keys. *)

From stdpp Require Import base list.
From S2P Require Import Prelude.

Section dict.
Context {K V : Type} `{EqDecision K}.
Implicit Types (d : list (K * V)) (k : K) (v : V).

(** [d.get(k)]. *)
Fixpoint dget k d : option V :=
  match d with
  | [] => None
  | (k', v) :: d' => if decide (k' = k) then Some v else dget k d'
  end.
(** [d[k] = v]: in place, or at the end. *)
Fixpoint dset k v d : list (K * V) :=
  match d with
  | [] => [(k, v)]
  | (k', v') :: d' => if decide (k' = k) then (k', v) :: d' else (k', v') :: dset k v d'
  end.
(** A display, entry by entry. *)
Definition dict_of (l : list (K * V)) : list (K * V) := foldl (fun d '(k, v) => dset k v d) [] l.

Lemma dget_dset k v d k' : dget k' (dset k v d) = if decide (k = k') then Some v else dget k' d.
Proof.
  induction d as [|[k1 v1] d IH]; cbn; [done|].
  destruct (decide (k1 = k)) as [->|Hne]; cbn; [by repeat case_decide|]. rewrite IH. by repeat case_decide; subst.
Qed.

Lemma elem_of_dset_keys k v d k' : k' ∈ (dset k v d).*1 <-> k' = k \/ k' ∈ d.*1.
Proof.
  induction d as [|[k1 v1] d IH]; cbn; [by rewrite list_elem_of_singleton, elem_of_nil; naive_solver|].
  destruct (decide (k1 = k)) as [->|Hne]; cbn; rewrite !elem_of_cons; [naive_solver|]. rewrite IH. naive_solver.
Qed.

Lemma NoDup_dset k v d : NoDup d.*1 -> NoDup (dset k v d).*1.
Proof.
  induction d as [|[k1 v1] d IH]; cbn; intros Hnd; [by apply NoDup_singleton|].
  apply NoDup_cons in Hnd as [Hk Hnd]. destruct (decide (k1 = k)) as [->|Hne]; cbn; apply NoDup_cons; split; auto.
  rewrite elem_of_dset_keys. naive_solver.
Qed.

Lemma NoDup_dict_of l : NoDup (dict_of l).*1.
Proof.
  unfold dict_of. assert (H : NoDup ([] : list (K * V)).*1) by constructor. revert H. generalize ([] : list (K * V)).
  induction l as [|[k v] l IH]; intros d Hd; cbn; [done|]. by apply IH, NoDup_dset.
Qed.

Lemma dget_Some_elem k v d : dget k d = Some v -> (k, v) ∈ d.
Proof.
  induction d as [|[k1 v1] d IH]; cbn; [done|]. case_decide; [intros [= ->]; subst; by left|]. intros H'. right. auto.
Qed.

Lemma elem_dget k v d : NoDup d.*1 -> (k, v) ∈ d -> dget k d = Some v.
Proof.
  induction d as [|[k1 v1] d IH]; cbn; [by intros _ ?%elem_of_nil|]. intros [Hk Hnd]%NoDup_cons [[= -> ->]|Hin]%elem_of_cons.
  - by rewrite decide_True.
  - case_decide; [|by apply IH]. subst. destruct Hk. apply list_elem_of_fmap. by exists (k, v).
Qed.

Lemma dget_is_Some k d : is_Some (dget k d) <-> k ∈ d.*1.
Proof.
  induction d as [|[k1 v1] d IH]; cbn; [rewrite elem_of_nil; split; [by intros []|done]|].
  rewrite elem_of_cons. case_decide; [split; [by left|eauto]|]. rewrite IH. naive_solver.
Qed.

(** A property of the values that every assignment keeps. *)
Lemma Forall_dset (P : K * V -> Prop) k v d : P (k, v) -> Forall P d -> Forall P (dset k v d).
Proof.
  intros Hp. induction d as [|[k1 v1] d IH]; intros Hd; cbn; [by repeat constructor|].
  apply Forall_cons in Hd as [H1 Hd]. case_decide; [subst|]; apply Forall_cons; auto.
Qed.
End dict.
