(* ===== verification/OrderNo.v ===== *)
(** * Order numbers in free text

    [extract_query_order_no] of [app/agents/policy.py] and [extract_order_no] of
    [app/services/order.py] search the same pattern; here it is, and what it
    finds. *)

From stdpp Require Import base list strings.
From S2P Require Import Prelude PyText PyRe.

(** A literal letter under [re.IGNORECASE]; N and O have no other case variants. *)
Definition letter_ci (upper : N) : re :=
  RChar (fun c => (c =? upper)%N || (c =? upper + 32)%N).

(** [(?:订单|#|NO\.?)?] *)
Definition order_prefix_re : re :=
  ropt (RAlt (rlit (u "订单"))
       (RAlt (rlit (u "#"))
             (RSeq (letter_ci 78) (RSeq (letter_ci 79) (ropt (rlit (u ".")))))  )).

(** [\s*(\d{8,})] *)
Definition order_tail_re : re :=
  RSeq (RStar (RChar is_space)) (RGroup 1 (rmin 8 (RChar is_digit))).

(** [_ORDER_NO_RE]. *)
Definition order_no_re : re := RSeq order_prefix_re order_tail_re.

Definition extract_query_order_no (text : pystr) : option pystr :=
  match search order_no_re text with
  | Some m => group 1 m
  | None => None
  end.

(** [app/services/order.py] compiles the same pattern in place. *)
Definition extract_order_no (text : pystr) : option pystr :=
  match search order_no_re text with
  | Some m => group 1 m
  | None => None
  end.

(** ** Reference: the first maximal run of at least eight digits *)

Fixpoint first_digit_run (s : pystr) : option pystr :=
  if 8 <=? length (run is_digit s) then Some (run is_digit s)
  else match s with
       | [] => None
       | _ :: s' => first_digit_run s'
       end.

Definition nondigits (s : pystr) : Prop := Forall (fun c => is_digit c = false) s.

Lemma space_not_digit c : is_space c = true -> is_digit c = false.
Proof.
  unfold is_space. rewrite bool_decide_eq_true. intros Hc.
  assert (Hall : forallb (fun c => negb (is_digit c)) space_table = true) by by vm_compute.
  rewrite forallb_elem in Hall. by apply negb_true_iff, Hall.
Qed.

Lemma first_digit_run_skip t s : nondigits t -> first_digit_run (t ++ s) = first_digit_run s.
Proof. induction 1 as [|c t Hc _ IH]; [done|]. cbn. by rewrite Hc. Qed.

Lemma first_digit_run_here s :
  8 <= length (run is_digit s) -> first_digit_run s = Some (run is_digit s).
Proof.
  intros H. destruct s as [|c s]; [cbn in H; lia|]. unfold first_digit_run; fold first_digit_run.
  by rewrite (proj2 (Nat.leb_le _ _)).
Qed.

Definition accept : pystr -> pystr -> groups -> option rmatch :=
  fun pre' s' g => Some {| m_pre := pre'; m_rest := s'; m_groups := g |}.

(** The match [m] has captured the first run of [s]. *)
Definition captures (m : rmatch) (s : pystr) : Prop :=
  exists d, group 1 m = Some d /\ first_digit_run s = Some d.

Lemma captures_skip m t s : nondigits t -> captures m s -> captures m (t ++ s).
Proof. intros Ht (d & Hg & Hd). exists d. by rewrite first_digit_run_skip. Qed.

Lemma nondigits_lit s : forallb (fun c => negb (is_digit c)) s = true -> nondigits s.
Proof.
  rewrite forallb_elem. intros H. apply Forall_forall. intros c Hc. by apply negb_true_iff, H.
Qed.

(** The digits, without anything in front. *)
Definition digits_re : re := RGroup 1 (rmin 8 (RChar is_digit)).

Lemma digits_match pre s :
  mt digits_re pre s [] accept =
  if 8 <=? length (run is_digit s)
  then Some {| m_pre := reverse (run is_digit s) ++ pre;
               m_rest := drop (length (run is_digit s)) s;
               m_groups := [(1, run is_digit s)] |}
  else None.
Proof.
  unfold digits_re. cbn [mt]. apply rmin_class. intros _. unfold accept. do 4 f_equal.
  rewrite length_drop. pose proof (length_run is_digit s).
  replace (length s - (length s - length (run is_digit s))) with (length (run is_digit s)) by lia.
  apply take_run.
Qed.

(** Blanks, then the digits. *)
Lemma tail_match pre s :
  let s' := drop (length (run is_space s)) s in
  mt order_tail_re pre s [] accept = mt digits_re (reverse (run is_space s) ++ pre) s' [] accept.
Proof.
  cbn zeta. set (s' := drop _ s).
  set (k := fun pre' s' g' => mt digits_re pre' s' g' accept).
  change (mt order_tail_re pre s [] accept)
    with (star (mt (RChar is_space)) (length s) pre s [] k).
  change (mt digits_re (reverse (run is_space s) ++ pre) s' [] accept)
    with (k (reverse (run is_space s) ++ pre) s' []).
  destruct (k (reverse (run is_space s) ++ pre) s' []) as [m|] eqn:Ek.
  - by apply star_class.
  - apply star_class_fail; [done|]. intros n Hn.
    destruct (decide (n = length (run is_space s))) as [->|Hne]; [by rewrite take_run|].
    unfold k. rewrite digits_match. rewrite run_not; [done|].
    pose proof (run_drop is_space n s ltac:(lia)) as Hrd.
    destruct (drop n s) as [|c r] eqn:Edr; [done|].
    cbn in Hrd. destruct (is_space c) eqn:Esp; [by apply space_not_digit|].
    apply (f_equal length) in Hrd. rewrite length_drop in Hrd. cbn in Hrd. lia.
Qed.

Lemma run_spaces_nondigits s : nondigits (run is_space s).
Proof. eapply Forall_impl; [apply run_class|]. apply space_not_digit. Qed.

Lemma first_digit_run_spaces s :
  first_digit_run s = first_digit_run (drop (length (run is_space s)) s).
Proof.
  rewrite (run_prefix is_space s) at 1.
  apply first_digit_run_skip, run_spaces_nondigits.
Qed.

(** When the tail matches, it has captured the first run of the text. *)
Lemma tail_captures pre s m : mt order_tail_re pre s [] accept = Some m -> captures m s.
Proof.
  rewrite tail_match. cbn zeta. rewrite digits_match.
  destruct (Nat.leb_spec 8 (length (run is_digit (drop (length (run is_space s)) s)))) as [H8|];
    [|done].
  intros [= <-]. eexists. split; [done|]. rewrite first_digit_run_spaces.
  by apply first_digit_run_here.
Qed.

(** When it does not, no run of eight digits starts here. *)
Lemma tail_none pre s :
  mt order_tail_re pre s [] accept = None -> length (run is_digit s) < 8.
Proof.
  rewrite tail_match. cbn zeta. rewrite digits_match. intros H.
  destruct (Nat.lt_ge_cases (length (run is_digit s)) 8) as [|H8]; [done|]. exfalso.
  assert (run is_space s = []) as Hr.
  { apply run_not. destruct s as [|c s]; [done|]. cbn in H8.
    destruct (is_digit c) eqn:Hc; [|cbn in H8; lia].
    destruct (is_space c) eqn:E; [|done]. apply space_not_digit in E. congruence. }
  rewrite Hr in H. cbn [length drop] in H. by rewrite (proj2 (Nat.leb_le _ _)) in H.
Qed.

(** A literal prefix without digits changes nothing. *)
Lemma lit_captures l pre s m : nondigits l ->
  mt (RSeq (rlit l) order_tail_re) pre s [] accept = Some m -> captures m s.
Proof.
  intros Hl. cbn [mt]. rewrite rlit_match. destruct (is_prefix l s) eqn:E; [|done].
  apply is_prefix_spec in E as [r ->]. rewrite drop_app_length. intros H.
  apply captures_skip; [done|]. by eapply tail_captures.
Qed.

(** Nor does [NO] with its optional dot. *)
Lemma no_captures pre s m :
  mt (RSeq (RSeq (letter_ci 78) (RSeq (letter_ci 79) (ropt (rlit (u "."))))) order_tail_re)
     pre s [] accept = Some m -> captures m s.
Proof.
  unfold letter_ci, ropt. cbn [mt]. destruct s as [|c [|c' s]]; [done|by destruct orb|].
  destruct ((c =? 78) || (c =? 78 + 32))%N eqn:Hc; [|done].
  destruct ((c' =? 79) || (c' =? 79 + 32))%N eqn:Hc'; [|done].
  assert (Hn : nondigits [c; c']).
  { apply orb_true_iff in Hc, Hc'. rewrite !N.eqb_eq in Hc, Hc'. apply nondigits_lit.
    by destruct Hc as [->| ->], Hc' as [->| ->]. }
  intros H. apply (captures_skip m [c; c'] s Hn).
  destruct (mt (rlit (u ".")) (c' :: c :: pre) s [] _) as [m'|] eqn:E.
  - simplify_eq. eapply (lit_captures (u ".")); [by apply nondigits_lit|done].
  - by eapply tail_captures.
Qed.

Lemma match_here_captures pre s m : match_here order_no_re pre s = Some m -> captures m s.
Proof.
  change (match_here order_no_re pre s) with (mt order_no_re pre s [] accept).
  unfold order_no_re, order_prefix_re, ropt at 1. cbn [mt].
  destruct (mt (rlit (u "订单")) pre s [] _) as [m1|] eqn:E1.
  { intros [= <-]. by eapply (lit_captures (u "订单")); [apply nondigits_lit|]. }
  destruct (mt (rlit (u "#")) pre s [] _) as [m2|] eqn:E2.
  { intros [= <-]. by eapply (lit_captures (u "#")); [apply nondigits_lit|]. }
  destruct (mt (letter_ci 78) pre s [] _) as [m3|] eqn:E3.
  { intros [= <-]. by eapply no_captures. }
  apply tail_captures.
Qed.

Lemma match_here_none pre s :
  match_here order_no_re pre s = None -> length (run is_digit s) < 8.
Proof.
  change (match_here order_no_re pre s) with (mt order_no_re pre s [] accept).
  unfold order_no_re, order_prefix_re, ropt at 1. cbn [mt]. repeat (case_match; [done|]).
  apply tail_none.
Qed.

Lemma search_captures pre s :
  match search_from order_no_re pre s with Some m => group 1 m | None => None end =
  first_digit_run s.
Proof.
  revert pre. induction s as [|c s IH]; intros pre; cbn [search_from].
  - destruct (match_here order_no_re pre []) as [m|] eqn:E; [|done].
    by destruct (match_here_captures _ _ _ E) as (d & ? & ?).
  - destruct (match_here order_no_re pre (c :: s)) as [m|] eqn:E.
    + by destruct (match_here_captures _ _ _ E) as (d & -> & ->).
    + rewrite IH. apply match_here_none in E. cbn [first_digit_run].
      by rewrite (proj2 (Nat.leb_gt _ _)).
Qed.

(** The backtracking search for the order-number pattern returns the first
    maximal run of at least eight decimal digits of the text, whatever stands
    before it, and nothing when the text has no such run; the two copies of the
    pattern in the program agree. *)
Theorem extract_order_no_spec text :
  extract_query_order_no text = first_digit_run text /\
  extract_order_no text = first_digit_run text.
Proof. split; apply search_captures. Qed.

(** The number returned is a run of at least eight digits of the text. *)
Lemma first_digit_run_sound s d :
  first_digit_run s = Some d ->
  Forall (fun c => is_digit c = true) d /\ 8 <= length d /\ exists a b, s = a ++ d ++ b.
Proof.
  induction s as [|c s IH]; [done|]. unfold first_digit_run; fold first_digit_run.
  destruct (Nat.leb_spec 8 (length (run is_digit (c :: s)))) as [H8|H8].
  - intros Hd. apply (inj Some) in Hd as <-. split; [apply run_class|]. split; [done|].
    exists [], (drop (length (run is_digit (c :: s))) (c :: s)). apply run_prefix.
  - intros H. destruct (IH H) as (? & ? & a & b & ->).
    split; [done|]. split; [done|]. by exists (c :: a), b.
Qed.

Lemma extract_query_order_no_truthy text d :
  extract_query_order_no text = Some d -> truthy d = true.
Proof.
  rewrite (proj1 (conj (search_captures [] text) I) : extract_query_order_no text = _).
  intros (_ & Hlen & _)%first_digit_run_sound. by destruct d; [cbn in Hlen; lia|].
Qed.

Example extract_prefixed :
  extract_query_order_no (u "查询 no. 20251114001 的退款进度") = Some (u "20251114001").
Proof. vm_compute. reflexivity. Qed.
Example extract_short : extract_query_order_no (u "订单1234567") = None.
Proof. vm_compute. reflexivity. Qed.
