(* ===== verification/Schemas.v ===== *)
(** * Routing data ([app/schemas.py])

    Intents, graph targets, and the records routing passes around.  Pydantic
    validates them, so the [Literal] fields are inductives here; where the program
    handles the same values as plain strings, [intent_str] and [target_str] give
    the string. *)

From stdpp Require Import base list gmap strings.
From Stdlib Require Import Floats.SpecFloat.
From S2P Require Import Prelude PyText.

Inductive Intent : Type :=
| course_consult | order | mixed | ambiguous | chitchat | handoff.

Inductive RouteTarget : Type :=
| T_rag | T_tool | T_handoff | T_chitchat | T_supervisor.

#[export] Instance intent_eq_dec : EqDecision Intent.
Proof. solve_decision. Defined.
#[export] Instance target_eq_dec : EqDecision RouteTarget.
Proof. solve_decision. Defined.

Definition intent_str (i : Intent) : pystr :=
  match i with
  | course_consult => u "course_consult"
  | order => u "order"
  | mixed => u "mixed"
  | ambiguous => u "ambiguous"
  | chitchat => u "chitchat"
  | handoff => u "handoff"
  end.

Definition target_str (t : RouteTarget) : pystr :=
  match t with
  | T_rag => u "rag"
  | T_tool => u "tool"
  | T_handoff => u "handoff"
  | T_chitchat => u "chitchat"
  | T_supervisor => u "supervisor"
  end.

(** [_INTENT_TARGET], [intent_to_target]: total on the intents, so the default
    branch of [.get] is not reached. *)
Definition intent_to_target (i : Intent) : RouteTarget :=
  match i with
  | course_consult => T_rag
  | order => T_tool
  | mixed => T_supervisor
  | ambiguous => T_supervisor
  | handoff => T_handoff
  | chitchat => T_chitchat
  end.

Record RouteDecision := {
  rd_intent : Intent;
  rd_target : RouteTarget;
  rd_confidence : pyfloat;
  rd_order_no : option pystr;
  rd_course_query : option pystr;
  rd_needs_clarification : bool;
  rd_clarification_question : option pystr;
  rd_reason : pystr;
}.

(** [model_copy(update={...})], one field at a time. *)
Definition with_intent (i : Intent) (d : RouteDecision) : RouteDecision :=
  {| rd_intent := i; rd_target := rd_target d; rd_confidence := rd_confidence d;
     rd_order_no := rd_order_no d; rd_course_query := rd_course_query d;
     rd_needs_clarification := rd_needs_clarification d;
     rd_clarification_question := rd_clarification_question d; rd_reason := rd_reason d |}.
Definition with_target (t : RouteTarget) (d : RouteDecision) : RouteDecision :=
  {| rd_intent := rd_intent d; rd_target := t; rd_confidence := rd_confidence d;
     rd_order_no := rd_order_no d; rd_course_query := rd_course_query d;
     rd_needs_clarification := rd_needs_clarification d;
     rd_clarification_question := rd_clarification_question d; rd_reason := rd_reason d |}.
Definition with_confidence (c : pyfloat) (d : RouteDecision) : RouteDecision :=
  {| rd_intent := rd_intent d; rd_target := rd_target d; rd_confidence := c;
     rd_order_no := rd_order_no d; rd_course_query := rd_course_query d;
     rd_needs_clarification := rd_needs_clarification d;
     rd_clarification_question := rd_clarification_question d; rd_reason := rd_reason d |}.
Definition with_order_no (o : option pystr) (d : RouteDecision) : RouteDecision :=
  {| rd_intent := rd_intent d; rd_target := rd_target d; rd_confidence := rd_confidence d;
     rd_order_no := o; rd_course_query := rd_course_query d;
     rd_needs_clarification := rd_needs_clarification d;
     rd_clarification_question := rd_clarification_question d; rd_reason := rd_reason d |}.
Definition with_reason (r : pystr) (d : RouteDecision) : RouteDecision :=
  {| rd_intent := rd_intent d; rd_target := rd_target d; rd_confidence := rd_confidence d;
     rd_order_no := rd_order_no d; rd_course_query := rd_course_query d;
     rd_needs_clarification := rd_needs_clarification d;
     rd_clarification_question := rd_clarification_question d; rd_reason := r |}.

(** The actions of a supervisor plan. *)
Inductive SupervisorAction : Type := ask_user | execute | react.

#[export] Instance action_eq_dec : EqDecision SupervisorAction.
Proof. solve_decision. Defined.

(** [U] is the type of the values in [cache_state_updates]. *)
Record SupervisorDecision (U : Type) := {
  sd_action : SupervisorAction;
  sd_final_intent : Intent;
  sd_tools_to_call : list pystr;
  sd_parallel : bool;
  sd_clarification_question : option pystr;
  sd_bound_order_no : option pystr;
  sd_bound_course_query : option pystr;
  sd_resolved_from_ambiguous : bool;
  sd_answer : option pystr;
  sd_reason : option pystr;
  sd_cache_state_updates : gmap pystr U;
}.
Arguments sd_action {U}.
Arguments sd_final_intent {U}.
Arguments sd_tools_to_call {U}.
Arguments sd_answer {U}.
Arguments sd_bound_order_no {U}.
Arguments sd_bound_course_query {U}.
Arguments sd_reason {U}.
Arguments sd_cache_state_updates {U}.
Arguments sd_clarification_question {U}.
