(* ===== verification/Policy.v ===== *)
(** * The routing policy ([app/agents/policy.py])

    Everything that decides where a request goes once its intent has been
    recognised: the guards on a [RouteDecision], the edges of the graph, the
    upgrade out of the course node, and the supervisor's plan. *)

From stdpp Require Import base list gmap strings.
From Stdlib Require Import Floats.SpecFloat.
From S2P Require Import Prelude PyText PyRe OrderNo Schemas.

(** ** Constants *)

Definition FORCE_ORDER_HINTS : list pystr :=
  map u ["订单"; "退款"; "物流"; "单号"; "查单"]%string.

(** 0.7, 0.9, 0.65, 0.35 as binary64. *)
Definition CONFIDENCE_RAG_MIN : pyfloat := fl 6305039478318694 (-53).
Definition CONFIDENCE_DIRECT : pyfloat := fl 8106479329266893 (-53).
Definition CONFIDENCE_MIXED : pyfloat := fl 5854679515581645 (-53).
Definition CONFIDENCE_AMBIGUOUS : pyfloat := fl 6305039478318694 (-54).

Definition MISSING_ORDER_CLARIFY : pystr :=
  u "请提供完整订单编号，我再帮您查询退款或进度。".

(** [COURSE_HINTS] of [app/agents/intent.py]. *)
Definition COURSE_HINTS : list pystr :=
  map u ["课程"; "大纲"; "包含"; "学什么"; "模块"; "学习路径"; "入门课"; "讲什么"; "新手";
         "能学"; "适合"; "零基础"; "难吗"; "售前"; "售后"]%string.

Definition EXPLICIT_COURSE_HINTS : list pystr :=
  map u ["课程"; "大纲"; "模块"; "学习路径"; "入门课"; "讲什么"; "学什么"; "包含哪些"; "适合";
         "零基础"; "难吗"]%string.

Inductive GraphNode : Type :=
| N_rag | N_tool | N_supervisor | N_handoff | N_chitchat | N_respond.

#[export] Instance node_eq_dec : EqDecision GraphNode.
Proof. solve_decision. Defined.

(** [_TARGET_BY_KEY]. *)
Definition target_by_key : list (pystr * GraphNode) :=
  [(u "rag", N_rag); (u "tool", N_tool); (u "supervisor", N_supervisor);
   (u "handoff", N_handoff); (u "chitchat", N_chitchat); (u "course_consult", N_rag);
   (u "order", N_tool); (u "order_query", N_tool); (u "mixed", N_supervisor);
   (u "ambiguous", N_supervisor)].

Definition dict_get {A} (key : pystr) (d : list (pystr * A)) : option A :=
  snd <$> find (fun '(k, _) => bool_decide (k = key)) d.

(** ** Records *)

Record RagUpgradeDecision := {
  ru_reason : pystr;
  ru_intent : Intent;
  ru_target : RouteTarget;
  ru_order_no : option pystr;
  ru_course_query : option pystr;
}.

(** [course_source] of a course step. *)
Inductive course_source_t : Type := bound | from_order_product.

Record PlanStep := {
  ps_capability : pystr;
  ps_parallel_group : nat;
  ps_course_source : option course_source_t;
}.

Record SupervisorPlan := {
  sp_action : SupervisorAction;
  sp_final_intent : Intent;
  sp_clarification_question : option pystr;
  sp_steps : list PlanStep;
  sp_reason : pystr;
  sp_resolved_from_ambiguous : bool;
  sp_bound_course_name : option pystr;
}.

Definition ORDER_QUERY : pystr := u "order_query".
Definition COURSE_RETRIEVE : pystr := u "course_retrieve".

(** [tools_to_call], over the registry's [tool_name_for]: names in step order,
    blanks and repetitions dropped. *)
Definition tools_to_call (tool_name_for : pystr -> pystr) (p : SupervisorPlan) : list pystr :=
  fold_left (fun names step =>
    let name := tool_name_for (ps_capability step) in
    if truthy name && negb (bool_decide (name ∈ names)) then names ++ [name] else names)
    (sp_steps p) [].

(** [parallel]: two steps share a group. *)
Definition parallel (p : SupervisorPlan) : bool :=
  if length (sp_steps p) <? 2 then false
  else existsb (fun g => 1 <? length (filter (fun s => ps_parallel_group s = g) (sp_steps p)))
         (map ps_parallel_group (sp_steps p)).

(** ** Signals *)

Definition query_has_order_signal (text : pystr) : bool :=
  otruthy (extract_query_order_no text) || contains_any FORCE_ORDER_HINTS text.

(** [finalize_route]. *)
Definition finalize_route (d : RouteDecision) : RouteDecision :=
  with_confidence (if f_le (rd_confidence d) f_zero then f_one else rd_confidence d) d.

(** The module's [_decision]. *)
Definition mk_decision (i : Intent) (reason : pystr) (confidence : pyfloat)
    (order_no course_query : option pystr) (needs : bool) (question : option pystr)
    : RouteDecision :=
  finalize_route
    {| rd_intent := i; rd_target := intent_to_target i; rd_confidence := confidence;
       rd_order_no := order_no; rd_course_query := course_query;
       rd_needs_clarification := needs; rd_clarification_question := question;
       rd_reason := reason |}.

Definition looks_like_course (text : pystr) (d : RouteDecision) : bool :=
  if decide (rd_intent d = course_consult) then true else contains_any COURSE_HINTS text.

(** ** The policy *)

Record RoutingPolicy := {
  confidence_rag_min : pyfloat;
  confidence_direct : pyfloat;
  confidence_mixed : pyfloat;
  confidence_ambiguous : pyfloat;
  missing_order_clarify : pystr;
}.

Definition DEFAULT_POLICY : RoutingPolicy :=
  {| confidence_rag_min := CONFIDENCE_RAG_MIN;
     confidence_direct := CONFIDENCE_DIRECT;
     confidence_mixed := CONFIDENCE_MIXED;
     confidence_ambiguous := CONFIDENCE_AMBIGUOUS;
     missing_order_clarify := MISSING_ORDER_CLARIFY |}.

Section policy.
Context (policy : RoutingPolicy).

(** [_ORDER_SIGNAL_PASSTHROUGH]. *)
Definition passthrough (i : Intent) : bool :=
  match i with handoff | order | mixed | ambiguous => true | _ => false end.

Definition apply_order_signal (text : pystr) (d : RouteDecision) : RouteDecision :=
  if passthrough (rd_intent d) then
    if otruthy (rd_order_no d) then d
    else
      let found := extract_query_order_no text in
      if otruthy found then with_order_no found d else d
  else if negb (query_has_order_signal text) then d
  else
    let order_no := ostr_or (rd_order_no d) (extract_query_order_no text) in
    if looks_like_course text d then
      mk_decision mixed (u "order-signal-force") (confidence_mixed policy) order_no
        (ostr_or (rd_course_query d) (Some text)) false None
    else
      mk_decision order (u "order-signal-force") (confidence_direct policy) order_no
        (rd_course_query d) false None.

Definition apply_low_confidence (d : RouteDecision) : RouteDecision :=
  if decide (rd_intent d = course_consult) then
    if f_ge (rd_confidence d) (confidence_rag_min policy) then d
    else mk_decision mixed (u "low-confidence-upgrade") (rd_confidence d)
           (rd_order_no d) (rd_course_query d) false None
  else d.

Definition downgrade_missing_order (d : RouteDecision) : RouteDecision :=
  if decide (rd_intent d = order) then
    if otruthy (rd_order_no d) then d
    else mk_decision ambiguous (u "missing-order-no") (confidence_ambiguous policy)
           None (rd_course_query d) true (Some (missing_order_clarify policy))
  else d.

Definition finalize (text : pystr) (d : RouteDecision) : RouteDecision :=
  let guarded := apply_low_confidence (apply_order_signal text d) in
  finalize_route (downgrade_missing_order guarded).

Definition next_after_router (blocked : bool) (target intent : option pystr)
    (confidence : pyfloat) : GraphNode :=
  if blocked then N_respond
  else
    let key := default (u "chitchat")
                 (ostr_or (ostr_or target intent) (Some (u "chitchat"))) in
    let dest := default N_chitchat (dict_get key target_by_key) in
    let conf := if f_truthy confidence then confidence else f_zero in
    if decide (dest = N_rag) then
      if f_lt conf (confidence_rag_min policy) then N_supervisor else N_rag
    else dest.

Definition next_after_rag (upgraded : bool) (target : option pystr) : GraphNode :=
  if upgraded || bool_decide (target = Some (u "supervisor")) then N_supervisor else N_respond.

Definition decide_rag_upgrade (query : pystr) (order_no course_query : option pystr)
    : option RagUpgradeDecision :=
  if negb (query_has_order_signal query) then None
  else Some {| ru_reason := u "order_signal"; ru_intent := mixed; ru_target := T_supervisor;
               ru_order_no := ostr_or order_no (extract_query_order_no query);
               ru_course_query := course_query |}.

(** [_bound_course_name]. *)
Definition bound_course_name (query : pystr) (course_query last_course_name order_no : option pystr)
    : option pystr :=
  let name := strip (opt_str last_course_name) in
  if truthy name && negb (bool_decide (name = u "未找到课程")) then Some name
  else
    let cq := strip (opt_str course_query) in
    let q := strip query in
    if negb (truthy cq) then None
    else
      let has_order_ctx := truthy (strip (opt_str order_no)) || otruthy (extract_query_order_no q) in
      if bool_decide (cq = q) then
        if has_order_ctx then None
        else if contains_any EXPLICIT_COURSE_HINTS cq && (length cq <=? 40) then Some cq
        else None
      else if 80 <? length cq then None
      else if otruthy (extract_query_order_no cq) && (24 <? length cq) then None
      else Some cq.

(** [intent if intent in _SUPERVISOR_INTENTS else "mixed"]. *)
Definition supervisor_intent (intent : option pystr) : Intent :=
  if decide (intent = Some (u "order")) then order
  else if decide (intent = Some (u "course_consult")) then course_consult
  else mixed.

Definition plan_supervisor (intent : option pystr) (needs_clarification : bool)
    (clarification_question query order_no course_query last_course_name : option pystr)
    : SupervisorPlan :=
  if needs_clarification && otruthy clarification_question then
    {| sp_action := ask_user; sp_final_intent := ambiguous;
       sp_clarification_question := clarification_question; sp_steps := [];
       sp_reason := u "needs-clarification"; sp_resolved_from_ambiguous := false;
       sp_bound_course_name := None |}
  else
    let final_intent := supervisor_intent intent in
    let from_ambiguous := bool_decide (intent = Some (u "ambiguous")) in
    let resolved_order := str_or_none (strip (opt_str order_no)) in
    let bound_course :=
      bound_course_name (opt_str query) course_query last_course_name resolved_order in
    let order_step := {| ps_capability := ORDER_QUERY; ps_parallel_group := 0;
                         ps_course_source := None |} in
    if otruthy resolved_order && otruthy bound_course then
      {| sp_action := execute; sp_final_intent := final_intent;
         sp_clarification_question := None;
         sp_steps := [order_step;
                      {| ps_capability := COURSE_RETRIEVE; ps_parallel_group := 0;
                         ps_course_source := Some bound |}];
         sp_reason := u "parallel-bound"; sp_resolved_from_ambiguous := from_ambiguous;
         sp_bound_course_name := bound_course |}
    else if otruthy resolved_order && bool_decide (final_intent = mixed) then
      {| sp_action := execute; sp_final_intent := mixed; sp_clarification_question := None;
         sp_steps := [order_step;
                      {| ps_capability := COURSE_RETRIEVE; ps_parallel_group := 1;
                         ps_course_source := Some from_order_product |}];
         sp_reason := u "serial-order-then-course";
         sp_resolved_from_ambiguous := from_ambiguous; sp_bound_course_name := None |}
    else if otruthy resolved_order && bool_decide (final_intent = order) then
      {| sp_action := execute; sp_final_intent := order; sp_clarification_question := None;
         sp_steps := [order_step]; sp_reason := u "order-only";
         sp_resolved_from_ambiguous := from_ambiguous; sp_bound_course_name := None |}
    else if otruthy bound_course && negb (otruthy resolved_order)
            && bool_decide (final_intent = course_consult \/ final_intent = mixed) then
      {| sp_action := execute; sp_final_intent := course_consult;
         sp_clarification_question := None;
         sp_steps := [{| ps_capability := COURSE_RETRIEVE; ps_parallel_group := 0;
                         ps_course_source := Some bound |}];
         sp_reason := u "course-only"; sp_resolved_from_ambiguous := from_ambiguous;
         sp_bound_course_name := bound_course |}
    else
      {| sp_action := react; sp_final_intent := final_intent;
         sp_clarification_question := None; sp_steps := []; sp_reason := u "unbound-fallback";
         sp_resolved_from_ambiguous := from_ambiguous; sp_bound_course_name := bound_course |}.
End policy.

(** [to_supervisor_decision]. *)
Definition to_supervisor_decision {U} (tool_name_for : pystr -> pystr) (plan : SupervisorPlan)
    (answer order_no course_query : option pystr) (cache_updates : gmap pystr U) (escalated : bool)
    (escalation_reason : option pystr) : SupervisorDecision U :=
  let bound_course := ostr_or course_query (sp_bound_course_name plan) in
  if escalated then
    {| sd_action := sp_action plan; sd_final_intent := handoff;
       sd_tools_to_call := tools_to_call tool_name_for plan; sd_parallel := parallel plan;
       sd_clarification_question := None; sd_bound_order_no := order_no;
       sd_bound_course_query := bound_course;
       sd_resolved_from_ambiguous := sp_resolved_from_ambiguous plan; sd_answer := answer;
       sd_reason := ostr_or escalation_reason (Some (u "tool-escalation"));
       sd_cache_state_updates := cache_updates |}
  else if decide (sp_action plan = ask_user) then
    {| sd_action := ask_user; sd_final_intent := sp_final_intent plan;
       sd_tools_to_call := []; sd_parallel := false;
       sd_clarification_question := sp_clarification_question plan;
       sd_bound_order_no := order_no; sd_bound_course_query := bound_course;
       sd_resolved_from_ambiguous := false;
       sd_answer := ostr_or answer (Some (opt_str (sp_clarification_question plan)));
       sd_reason := Some (sp_reason plan); sd_cache_state_updates := ∅ |}
  else
    {| sd_action := sp_action plan; sd_final_intent := sp_final_intent plan;
       sd_tools_to_call := tools_to_call tool_name_for plan; sd_parallel := parallel plan;
       sd_clarification_question := None; sd_bound_order_no := order_no;
       sd_bound_course_query := bound_course;
       sd_resolved_from_ambiguous := sp_resolved_from_ambiguous plan; sd_answer := answer;
       sd_reason := Some (sp_reason plan); sd_cache_state_updates := cache_updates |}.

(** ** Properties *)

(** Comparisons on binary64. *)
Lemma SFcompare_opp a b c : SFcompare a b = Some c -> SFcompare b a = Some (CompOpp c).
Proof.
  intros H. change (Some (CompOpp c)) with (option_map CompOpp (Some c)). rewrite <-H. clear H.
  destruct a as [sa|sa| |sa ma ea], b as [sb|sb| |sb mb eb]; cbn;
    repeat match goal with s : bool |- _ => destruct s end; try done;
    rewrite (Z.compare_antisym ea eb); destruct (ea ?= eb)%Z; try done;
    change (Pos.compare_cont Eq) with Pos.compare; rewrite (Pos.compare_antisym ma mb);
    by destruct (ma ?= mb)%positive.
Qed.

Lemma f_le_not_lt a b : f_le a b = true -> f_lt b a = false.
Proof.
  unfold f_le, f_lt, SFleb, SFltb. destruct (SFcompare a b) as [c|] eqn:E; [|done].
  rewrite (SFcompare_opp _ _ _ E). by destruct c.
Qed.

Lemma rag_min_pos c : f_le CONFIDENCE_RAG_MIN c = true -> f_le c f_zero = false /\ f_truthy c = true.
Proof. destruct c as [s|s| |s m e]; try destruct s; by cbn. Qed.

Definition consistent (d : RouteDecision) : Prop := rd_target d = intent_to_target (rd_intent d).

Lemma finalize_route_consistent d : consistent d -> consistent (finalize_route d).
Proof. done. Qed.
Lemma mk_decision_consistent i r c o q n k : consistent (mk_decision i r c o q n k).
Proof. done. Qed.
#[export] Hint Resolve finalize_route_consistent mk_decision_consistent : py.

Lemma finalize_consistent pol text d : consistent d -> consistent (finalize pol text d).
Proof.
  intros Hd. unfold finalize. apply finalize_route_consistent.
  assert (Hs : consistent (apply_order_signal pol text d)).
  { unfold apply_order_signal. repeat case_match; auto with py. }
  assert (Hl : consistent (apply_low_confidence pol (apply_order_signal pol text d))).
  { unfold apply_low_confidence. repeat case_match; auto with py. }
  unfold downgrade_missing_order. repeat case_match; auto with py.
Qed.

(** Where the graph sends a decision whose target is [t]. *)
Lemma next_after_router_target pol t i c :
  next_after_router pol false (Some (target_str t)) i c =
  match t with
  | T_rag => if f_lt (if f_truthy c then c else f_zero) (confidence_rag_min pol)
             then N_supervisor else N_rag
  | T_tool => N_tool
  | T_handoff => N_handoff
  | T_chitchat => N_chitchat
  | T_supervisor => N_supervisor
  end.
Proof. by destruct t. Qed.

(** A question that mentions an order is not course advice or small talk. *)
Lemma finalize_signal pol text d :
  query_has_order_signal text = true ->
  rd_intent (finalize pol text d) <> course_consult /\ rd_intent (finalize pol text d) <> chitchat.
Proof.
  intros Hs. unfold finalize, finalize_route. cbn [rd_intent with_confidence].
  assert (Ha : rd_intent (apply_order_signal pol text d) <> course_consult /\
               rd_intent (apply_order_signal pol text d) <> chitchat).
  { unfold apply_order_signal. rewrite Hs. cbn [negb].
    destruct (rd_intent d) eqn:Hi; cbn [passthrough]; repeat case_match; cbn; rewrite ?Hi; done. }
  destruct Ha as [Hc Hch]. unfold apply_low_confidence. rewrite decide_False by done.
  unfold downgrade_missing_order. repeat case_match; done.
Qed.

(** An order intent that survives the guards has its number. *)
Lemma finalize_order pol text d :
  rd_intent (finalize pol text d) = order -> otruthy (rd_order_no (finalize pol text d)) = true.
Proof.
  unfold finalize, finalize_route. cbn [rd_intent rd_order_no with_confidence].
  generalize (apply_low_confidence pol (apply_order_signal pol text d)). intros e.
  unfold downgrade_missing_order. repeat case_match; done.
Qed.

(** A number found before the guards goes through them. *)
Lemma finalize_keeps_order pol text d :
  otruthy (rd_order_no d) = true -> rd_order_no (finalize pol text d) = rd_order_no d.
Proof.
  intros Ho. unfold finalize, finalize_route. cbn [rd_order_no with_confidence].
  assert (Ha : rd_order_no (apply_order_signal pol text d) = rd_order_no d).
  { unfold apply_order_signal. rewrite Ho. repeat case_match; try done;
      cbn; by rewrite ostr_or_true. }
  assert (Hl : rd_order_no (apply_low_confidence pol (apply_order_signal pol text d)) = rd_order_no d).
  { unfold apply_low_confidence. by repeat case_match. }
  unfold downgrade_missing_order. rewrite Hl, Ho. by repeat case_match.
Qed.

(** The node a decision reaches, through the guards and the graph edge. *)
Definition route_to (pol : RoutingPolicy) (text : pystr) (d : RouteDecision) : GraphNode :=
  let r := finalize pol text d in
  next_after_router pol false (Some (target_str (rd_target r))) (Some (intent_str (rd_intent r)))
    (rd_confidence r).

(** The routing rules, as the project states them. *)
Definition route_spec (text : pystr) (d : RouteDecision) : GraphNode :=
  let numbered := otruthy (rd_order_no d) || otruthy (extract_query_order_no text) in
  match rd_intent d with
  | handoff => N_handoff
  | mixed | ambiguous => N_supervisor
  | order => if numbered then N_tool else N_supervisor
  | course_consult =>
    if query_has_order_signal text then N_supervisor
    else if f_ge (rd_confidence d) CONFIDENCE_RAG_MIN then N_rag else N_supervisor
  | chitchat =>
    if query_has_order_signal text then
      if contains_any COURSE_HINTS text then N_supervisor
      else if numbered then N_tool else N_supervisor
    else N_chitchat
  end.

(** Downgrading and the final defaults, once the intent is settled. *)
Lemma route_order pol d :
  rd_intent d = order -> consistent d ->
  let r := finalize_route (downgrade_missing_order pol (apply_low_confidence pol d)) in
  next_after_router pol false (Some (target_str (rd_target r))) (Some (intent_str (rd_intent r)))
    (rd_confidence r) = if otruthy (rd_order_no d) then N_tool else N_supervisor.
Proof.
  intros Hi Hc. unfold consistent in Hc. rewrite Hi in Hc.
  unfold apply_low_confidence, downgrade_missing_order.
  rewrite (decide_False (P := rd_intent d = course_consult)) by congruence.
  rewrite decide_True by done.
  destruct (otruthy (rd_order_no d)) eqn:E; cbn zeta; [|by rewrite next_after_router_target].
  unfold finalize_route. rewrite next_after_router_target. cbn [rd_target with_confidence].
  by rewrite Hc.
Qed.

Lemma route_other pol d :
  rd_intent d <> order -> rd_intent d <> course_consult -> consistent d ->
  let r := finalize_route (downgrade_missing_order pol (apply_low_confidence pol d)) in
  next_after_router pol false (Some (target_str (rd_target r))) (Some (intent_str (rd_intent r)))
    (rd_confidence r) =
  match rd_intent d with handoff => N_handoff | chitchat => N_chitchat | _ => N_supervisor end.
Proof.
  intros Ho Hcc Hc. unfold apply_low_confidence, downgrade_missing_order.
  rewrite (decide_False (P := rd_intent d = course_consult)) by done.
  rewrite (decide_False (P := rd_intent d = order)) by done.
  cbn zeta. rewrite next_after_router_target. cbn [finalize_route rd_target with_confidence].
  rewrite Hc. by destruct (rd_intent d).
Qed.

(** Routing, exactly: for a decision whose target agrees with its intent, the
    guards followed by the graph edge send it where the rules say.  A confident
    course question goes straight to the course node, an order question with a
    number straight to the order node; mixed, ambiguous and low-confidence ones to
    the supervisor; a question that mentions an order never to the course node or
    to small talk. *)
Theorem route_to_spec text d :
  consistent d -> route_to DEFAULT_POLICY text d = route_spec text d.
Proof.
  intros Hc. unfold route_to, route_spec, finalize, apply_order_signal.
  destruct (rd_intent d) eqn:Hi; cbn [passthrough].
  - destruct (query_has_order_signal text); cbn [negb].
    + unfold looks_like_course. rewrite Hi, decide_True by done. by rewrite route_other.
    + unfold apply_low_confidence. rewrite Hi, decide_True by done.
      change (confidence_rag_min DEFAULT_POLICY) with CONFIDENCE_RAG_MIN. unfold f_ge.
      destruct (SFleb CONFIDENCE_RAG_MIN (rd_confidence d)) eqn:Ec; [|done].
      destruct (rag_min_pos _ Ec) as [Hp Ht]. apply f_le_not_lt in Ec.
      unfold downgrade_missing_order. rewrite Hi, decide_False by done.
      rewrite next_after_router_target. unfold finalize_route.
      cbn [rd_target rd_confidence with_confidence]. rewrite Hp, Hc, Hi, Ht.
      change (confidence_rag_min DEFAULT_POLICY) with CONFIDENCE_RAG_MIN. by rewrite Ec.
  - destruct (otruthy (rd_order_no d)) eqn:Eo; [by rewrite route_order, Eo|].
    destruct (otruthy (extract_query_order_no text)) eqn:Ee.
    + rewrite route_order; [|done|done]. cbn [rd_order_no with_order_no]. by rewrite Ee.
    + by rewrite route_order, Eo.
  - rewrite route_other by (repeat case_match; cbn; rewrite ?Hi; done).
    repeat case_match; cbn in *; congruence.
  - rewrite route_other by (repeat case_match; cbn; rewrite ?Hi; done).
    repeat case_match; cbn in *; congruence.
  - destruct (query_has_order_signal text); cbn [negb]; [|by rewrite route_other, Hi by (rewrite ?Hi; done)].
    unfold looks_like_course. rewrite Hi, decide_False by done.
    destruct (contains_any COURSE_HINTS text); [by rewrite route_other|].
    rewrite route_order by done. cbn [rd_order_no mk_decision finalize_route with_confidence].
    by rewrite otruthy_or.
  - rewrite route_other by (repeat case_match; cbn; rewrite ?Hi; done).
    repeat case_match; cbn in *; congruence.
Qed.

Lemma route_to_spec_witness :
  route_to DEFAULT_POLICY (u "退款") (mk_decision chitchat [] f_one None None false None)
  = N_supervisor.
Proof. rewrite (route_to_spec (u "退款")); [vm_compute; reflexivity|reflexivity]. Defined.

(** A plan read off a routed decision, as the supervisor node reads the state. *)
Definition plan_of (r : RouteDecision) (query last_course_name : option pystr) : SupervisorPlan :=
  plan_supervisor (Some (intent_str (rd_intent r))) (rd_needs_clarification r)
    (rd_clarification_question r) query (rd_order_no r) (rd_course_query r) last_course_name.

(** An order question with no order number anywhere is never answered from a
    guessed order: it reaches the supervisor, whose plan calls no tool and asks the
    customer for the number. *)
Theorem missing_order_asks text d query last_course_name :
  rd_intent d = order -> consistent d ->
  otruthy (rd_order_no d) = false -> otruthy (extract_query_order_no text) = false ->
  let r := finalize DEFAULT_POLICY text d in
  route_to DEFAULT_POLICY text d = N_supervisor /\
  sp_action (plan_of r query last_course_name) = ask_user /\
  sp_steps (plan_of r query last_course_name) = [] /\
  sp_clarification_question (plan_of r query last_course_name) = Some MISSING_ORDER_CLARIFY.
Proof.
  intros Hi Hc Ho He r.
  assert (Hr : r = mk_decision ambiguous (u "missing-order-no") CONFIDENCE_AMBIGUOUS None
                     (rd_course_query d) true (Some MISSING_ORDER_CLARIFY)).
  { subst r. unfold finalize, apply_order_signal. rewrite Hi. cbn [passthrough].
    rewrite Ho, He. unfold apply_low_confidence.
    rewrite decide_False by congruence. unfold downgrade_missing_order.
    by rewrite decide_True, Ho by done. }
  split; [|by rewrite Hr].
  rewrite route_to_spec by done. unfold route_spec. by rewrite Hi, Ho, He.
Qed.

Lemma missing_order_asks_witness :
  let d := mk_decision order [] f_one None None false None in
  sp_action (plan_of (finalize DEFAULT_POLICY (u "查一下") d) (Some (u "查一下")) None) = ask_user.
Proof.
  apply (missing_order_asks (u "查一下") (mk_decision order [] f_one None None false None)
           (Some (u "查一下")) None); vm_compute; reflexivity.
Defined.

(** What a plan promises its executor. *)
Record plan_ok (p : SupervisorPlan) (order_no : option pystr) : Prop := {
  (** There is something to run exactly when the plan says to run it. *)
  plan_execute : sp_action p = execute <-> sp_steps p <> [];
  plan_caps : Forall (fun s => ps_capability s = ORDER_QUERY \/ ps_capability s = COURSE_RETRIEVE)
                (sp_steps p);
  plan_nodup : NoDup (ps_capability <$> sp_steps p);
  (** The order step has a number to look up. *)
  plan_order : Forall (fun s => ps_capability s = ORDER_QUERY ->
    truthy (strip (opt_str order_no)) = true) (sp_steps p);
  (** A course step knows its course, or takes it from an order step of an
      earlier group. *)
  plan_course : Forall (fun s => ps_capability s = COURSE_RETRIEVE ->
    (ps_course_source s = Some bound /\ otruthy (sp_bound_course_name p) = true) \/
    (ps_course_source s = Some from_order_product /\
     Exists (fun s' => ps_capability s' = ORDER_QUERY /\
       ps_parallel_group s' < ps_parallel_group s) (sp_steps p))) (sp_steps p);
}.

(** Whatever the state holds, the supervisor's plan is well formed: it runs
    steps exactly when it says [execute], each capability at most once, never an
    order lookup without an order number, never a course lookup without a course
    name unless an order step of an earlier group provides it; and it asks the
    customer exactly when a clarification with a question is pending. *)
Theorem plan_supervisor_ok intent needs question query order_no course_query last_name :
  let p := plan_supervisor intent needs question query order_no course_query last_name in
  plan_ok p order_no /\
  (sp_action p = ask_user <-> needs && otruthy question = true) /\
  (sp_action p = ask_user -> sp_clarification_question p = question).
Proof.
  cbn zeta. unfold plan_supervisor.
  rewrite !otruthy_str_or_none.
  assert (Hne : ORDER_QUERY <> COURSE_RETRIEVE) by (vm_compute; done).
  destruct (needs && otruthy question) eqn:En.
  { split; [|done]. split; cbn; [split; done|constructor..]. }
  set (bc := bound_course_name _ _ _ _).
  assert (Hor : forall i, bool_decide (i = course_consult \/ i = mixed) =
                       match i with course_consult | mixed => true | _ => false end)
    by (by intros []).
  rewrite Hor. clear Hor.
  destruct (supervisor_intent intent), (truthy (strip (opt_str order_no))) eqn:Eo,
    (otruthy bc) eqn:Eb; cbn [andb negb];
    repeat match goal with
    | |- context [bool_decide (?a = ?b)] =>
      first [rewrite (bool_decide_eq_true_2 (a = b)) by done
            |rewrite (bool_decide_eq_false_2 (a = b)) by done]
    end; cbn [andb negb].
  all: cbn [sp_action sp_steps sp_clarification_question].
  all: (split; [split|split; done]).
  all: cbn [sp_action sp_steps sp_bound_course_name fmap list_fmap].
  all: try done.
  all: try (repeat constructor; cbn [ps_capability ps_course_source]; by auto).
  all: apply (bool_decide_unpack _); vm_compute; exact I.
Qed.

Lemma tools_to_call_spec f p :
  NoDup (tools_to_call f p) /\
  forall n, n ∈ tools_to_call f p <->
    truthy n = true /\ exists s, s ∈ sp_steps p /\ n = f (ps_capability s).
Proof.
  unfold tools_to_call. set (P := fun (n : pystr) (acc : list pystr) (l : list PlanStep) => n ∈ acc \/
    truthy n = true /\ exists s, s ∈ l /\ n = f (ps_capability s)).
  assert (H : forall l acc, NoDup acc ->
    let r := fold_left (fun names step =>
      let name := f (ps_capability step) in
      if truthy name && negb (bool_decide (name ∈ names)) then names ++ [name] else names) l acc in
    NoDup r /\ forall n, n ∈ r <-> P n acc l).
  { subst P. induction l as [|s l IH]; intros acc Hacc; cbn [fold_left].
    { split; [done|]. intros n. set_solver. }
    cbn zeta. set (nm := f (ps_capability s)).
    destruct (truthy nm) eqn:Et; cbn [andb].
    2:{ destruct (IH acc Hacc) as [H1 H2]. split; [done|]. intros n. rewrite H2.
        split; [set_solver|]. intros [?|(Hn & s' & [->|Hs']%elem_of_cons & ->)];
          [by left|by unfold nm in Et; rewrite Hn in Et|right; eauto]. }
    destruct (decide (nm ∈ acc)) as [Hin|Hin].
    - rewrite bool_decide_eq_true_2 by done. cbn [negb].
      destruct (IH acc Hacc) as [H1 H2]. split; [done|]. intros n. rewrite H2.
      split; [set_solver|]. intros [?|(Hn & s' & [->|Hs']%elem_of_cons & ->)];
          [by left|by left|right; eauto].
    - rewrite bool_decide_eq_false_2 by done. cbn [negb].
      destruct (IH (acc ++ [nm])) as [H1 H2].
      { apply NoDup_app. split; [done|]. split; [set_solver|]. apply NoDup_singleton. }
      split; [done|]. intros n. rewrite H2. set_solver. }
  destruct (H (sp_steps p) [] NoDup_nil_2) as [H1 H2]. split; [done|].
  intros n. rewrite H2. subst P. set_solver.
Qed.

(** What the supervisor node reports: an escalation ends at a human whatever the
    plan was; a pending question is asked verbatim and no tool is claimed to have
    run; otherwise the plan's intent is kept, and the tools listed are those of its
    steps, each named and listed once. *)
Theorem to_supervisor_decision_spec {U} (tool_name_for : pystr -> pystr)
    (plan : SupervisorPlan) (answer order_no course_query : option pystr)
    (cache_updates : gmap pystr U) (escalated : bool) (escalation_reason : option pystr) :
  let d := to_supervisor_decision tool_name_for plan answer order_no course_query cache_updates
             escalated escalation_reason in
  sd_final_intent d = (if escalated then handoff else sp_final_intent plan) /\
  (if negb escalated && bool_decide (sp_action plan = ask_user)
   then sd_answer d = (if otruthy answer then answer
                       else Some (opt_str (sp_clarification_question plan))) /\
        sd_tools_to_call d = [] /\ sd_cache_state_updates d = ∅
   else sd_answer d = answer /\ sd_cache_state_updates d = cache_updates /\
        NoDup (sd_tools_to_call d) /\
        forall n, n ∈ sd_tools_to_call d <->
          truthy n = true /\ exists s, s ∈ sp_steps plan /\ n = tool_name_for (ps_capability s)).
Proof.
  cbn zeta. unfold to_supervisor_decision. destruct escalated; cbn [negb andb].
  - cbn. split; [done|]. split; [done|]. split; [done|]. apply tools_to_call_spec.
  - destruct (decide (sp_action plan = ask_user)) as [Ha|Ha].
    + rewrite bool_decide_eq_true_2 by done. done.
    + rewrite bool_decide_eq_false_2 by done. cbn. split; [done|]. split; [done|].
      split; [done|]. apply tools_to_call_spec.
Qed.
