(* ===== verification/Window.v ===== *)
(** * The context window ([app/context/window.py])

    Which messages of the history go into a prompt: token counts, the newest
    messages that fit a budget, what falls out of the window, and the text
    pieces built from them.  The tokenizer (tiktoken) is a parameter, and may
    raise, as its [encode] does on a text holding one of its special tokens. *)

From stdpp Require Import base list strings.
From Stdlib Require Import Floats.SpecFloat.
From S2P Require Import Prelude PyText Errors PyFloat PyRe OrderNo.

Open Scope py_scope.

Definition DEFAULT_HISTORY_TOKEN_BUDGET : Z := 8000.
Definition DEFAULT_HISTORY_MIN_MESSAGES : Z := 10.
Definition MESSAGE_TOKEN_OVERHEAD : Z := 4.
Definition SUMMARY_PROMPT_PREFIX : pystr := u "更早对话摘要：".
Definition SHORT_QUERY_CHARS : nat := 12.

(** The message classes the program tells apart. *)
Inductive role : Type := HumanMessage | AIMessage | SystemMessage | OtherMessage.

#[export] Instance role_eq_dec : EqDecision role.
Proof. solve_decision. Defined.

(** [msg_text] is what [message_text] returns. *)
Record message := {
  msg_role : role;
  msg_text : pystr;
  msg_id : option pystr;
}.

(** ** Token counts *)

(** Length of the UTF-8 form of one code point; a surrogate has none. *)
Definition utf8_width (c : N) : option Z :=
  if (c <? 128)%N then Some 1%Z
  else if (c <? 2048)%N then Some 2%Z
  else if (55296 <=? c)%N && (c <=? 57343)%N then None
  else if (c <? 65536)%N then Some 3%Z
  else Some 4%Z.

(** [len(text.encode("utf-8"))]. *)
Fixpoint utf8_length (s : pystr) : res exn Z :=
  match s with
  | [] => Ok 0
  | c :: s' =>
    match utf8_width c with
    | Some w => let? n := utf8_length s' in Ok (w + n)
    | None => Raise (OtherExc (u "UnicodeEncodeError") (u "surrogates not allowed"))
    end
  end%Z.

(** 0.01. *)
Definition RATIO_MIN : pyfloat := fl 5764607523034235 (-59).

(** What [_load_encoding] and the settings give: the [encode] method of the
    encoding, when one could be loaded, and the calibration ratio. *)
Record tokenizer := {
  tk_encode : option (pystr -> res exn (list N));
  tk_ratio : pyfloat;
}.

Section window.
Context (tk : tokenizer).

Definition count_tokens (text : pystr) : res exn Z :=
  if negb (truthy text) then Ok 0%Z
  else
    let? raw := match tk_encode tk with
                | Some encode => let? ids := encode text in Ok (Z.of_nat (length ids))
                | None => let? n := utf8_length text in Ok (Z.max 1 ((n + 3) / 4))
                end in
    let? scaled := py_round (f_mul_int raw (f_max RATIO_MIN (tk_ratio tk))) in
    Ok (Z.max 1 scaled).

Definition message_token_count (m : message) : res exn Z :=
  let? n := count_tokens (msg_text m) in Ok (n + MESSAGE_TOKEN_OVERHEAD)%Z.

Definition prompt_summary_line (summary : option pystr) : pystr :=
  let text := strip (opt_str summary) in
  if truthy text then SUMMARY_PROMPT_PREFIX ++ text else [].

Definition prompt_summary_tokens (summary : option pystr) : res exn Z :=
  let line := prompt_summary_line summary in
  if truthy line then count_tokens line else Ok 0%Z.

(** The two limits of the settings; [None] when they cannot be read. *)
Context (settings : option (Z * Z)).

Definition history_limits (token_budget min_keep : option Z) : Z * Z :=
  let '(budget, keep) := default (DEFAULT_HISTORY_TOKEN_BUDGET, DEFAULT_HISTORY_MIN_MESSAGES)
                           settings in
  (Z.max 1 (default budget token_budget), Z.max 1 (default keep min_keep)).

(** The loop of [select_messages_by_tokens], over the messages newest first. *)
Fixpoint select_loop (budget keep : Z) (newest_first selected : list message) (total : Z)
    : res exn (list message) :=
  match newest_first with
  | [] => Ok selected
  | message :: rest =>
    let? cost := message_token_count message in
    if negb (bool_decide (selected = [])) && (budget <? total + cost)%Z
       && (keep <=? Z.of_nat (length selected))%Z
    then Ok selected
    else select_loop budget keep rest (message :: selected) (total + cost)%Z
  end.

Definition select_messages_by_tokens (messages : list message) (token_budget min_keep : option Z)
    : res exn (list message) :=
  match messages with
  | [] => Ok []
  | _ =>
    let '(budget, keep) := history_limits token_budget min_keep in
    select_loop budget keep (reverse messages) [] 0
  end.

(** [recent_messages]; [selected[-limit:]] is the whole list when [limit = 0]. *)
Definition recent_messages (messages : list message) (limit : option Z)
    (token_budget min_keep : option Z) : res exn (list message) :=
  let? selected := select_messages_by_tokens messages token_budget min_keep in
  match limit with
  | Some limit => Ok (if (0 <=? limit)%Z then py_last (Z.to_nat limit) selected else selected)
  | None => Ok selected
  end.

Definition recent_human_texts (messages : list message) (exclude_last : bool) : list pystr :=
  let items := msg_text <$> filter (fun m => msg_role m = HumanMessage) messages in
  let items := if exclude_last then take (length items - 1) items else items in
  reverse items.

Definition order_no_from_history (messages : list message) : option pystr :=
  list_find (fun text => otruthy (extract_order_no text) = true) (recent_human_texts messages false)
    ≫= fun '(_, text) => extract_order_no text.

Definition overflow_messages (messages : list message) (token_budget min_keep : option Z)
    : res exn (list message) :=
  match messages with
  | [] => Ok []
  | _ =>
    let? selected := select_messages_by_tokens messages token_budget min_keep in
    if length messages <=? length selected then Ok []
    else Ok (take (length messages - length selected) messages)
  end.

(** One line of the prompt's history; [None] for a message that gives none. *)
Definition history_line (m : message) : option pystr :=
  let line (name : pystr) :=
    let text := strip (msg_text m) in
    if truthy text then Some (name ++ u "：" ++ text) else None in
  match msg_role m with
  | HumanMessage => line (u "用户")
  | AIMessage => line (u "助手")
  | SystemMessage | OtherMessage => None
  end.

Definition format_history_for_prompt (messages : list message) (limit token_budget : option Z)
    (session_summary : option pystr) : res exn pystr :=
  let summary_line := prompt_summary_line session_summary in
  let? token_budget :=
    if truthy summary_line then
      let '(budget, _) := history_limits token_budget None in
      let? used := prompt_summary_tokens session_summary in
      Ok (Some (Z.max 1 (budget - used)))
    else Ok token_budget in
  let? recent := recent_messages messages limit token_budget None in
  Ok (join (u "
") ((if truthy summary_line then [summary_line] else []) ++ omap history_line recent)).

Definition expand_query (query : pystr) (messages : list message)
    (last_course_query last_course_name : option pystr) : pystr :=
  let text := strip query in
  if SHORT_QUERY_CHARS <=? length text then text
  else
    let course_hint := strip (opt_str (ostr_or last_course_name last_course_query)) in
    if truthy course_hint then
      if truthy text then strip (course_hint ++ u " " ++ text) else course_hint
    else
      match recent_human_texts messages true with
      | [] => text
      | priors =>
        let context := join (u " ") (reverse (take 2 priors)) in
        if truthy text then strip (context ++ u " " ++ text) else context
      end.

(** [trim_message_updates]: the ids of the [RemoveMessage] list. *)
Definition trim_message_updates (messages : list message) (keep token_budget min_keep : option Z)
    : res exn (list pystr) :=
  match messages with
  | [] => Ok []
  | _ =>
    let min_keep := match keep with Some _ => keep | None => min_keep end in
    let? selected := select_messages_by_tokens messages token_budget min_keep in
    if length messages <=? length selected then Ok []
    else Ok (filter (fun i => truthy i = true)
               (omap msg_id (take (length messages - length selected) messages)))
  end.
End window.

(** ** What is selected *)

(** The token cost of a message, and of a list of them. *)
Definition nocost (tk : tokenizer) (m : message) : Z :=
  match message_token_count tk m with Ok c => c | Raise _ => 0 end.
Definition costs (tk : tokenizer) (l : list message) : Z := foldr (fun m n => nocost tk m + n)%Z 0%Z l.

Lemma message_token_count_pos tk m c : message_token_count tk m = Ok c -> (4 <= c)%Z.
Proof.
  unfold message_token_count. rewrite rbind_ok. intros (n & Hn & [= <-]).
  unfold count_tokens in Hn. unfold MESSAGE_TOKEN_OVERHEAD.
  destruct (truthy (msg_text m)); cbn [negb] in Hn; [|by simplify_eq].
  rewrite rbind_ok in Hn. destruct Hn as (raw & _ & Hn).
  rewrite rbind_ok in Hn. destruct Hn as (sc & _ & [= <-]). lia.
Qed.

(** The window a budget allows: the newest messages, at least [keep] of them, within
    the budget unless it takes more to keep [keep], and as many as that. *)
Record window_ok (tk : tokenizer) (budget keep : Z) (messages selected : list message) : Prop := {
  win_suffix : selected `suffix_of` messages;
  win_keep : (keep `min` Z.of_nat (length messages) <= Z.of_nat (length selected))%Z;
  win_budget : (costs tk selected <= budget)%Z \/
               Z.of_nat (length selected) = (keep `min` Z.of_nat (length messages))%Z;
  win_max : forall pre m, messages = pre ++ m :: selected ->
              (budget < nocost tk m + costs tk selected)%Z;
}.

Definition countable (tk : tokenizer) (l : list message) : Prop :=
  Forall (fun m => is_ok (message_token_count tk m) = true) l.

Lemma select_loop_spec tk budget keep nf sel :
  (1 <= keep)%Z -> countable tk nf ->
  (costs tk sel <= budget)%Z \/ (Z.of_nat (length sel) <= keep)%Z ->
  exists r, select_loop tk budget keep nf sel (costs tk sel) = Ok r /\
            window_ok tk budget keep (reverse nf ++ sel) r.
Proof.
  intros Hk. revert sel. induction nf as [|m nf IH]; intros sel Hc Hb; cbn [select_loop].
  - exists sel. split; [done|]. rewrite reverse_nil. cbn [app]. split; [done|lia|lia|].
    intros pre m Heq%(f_equal length).
    rewrite length_app in Heq. cbn in Heq. lia.
  - inversion_clear Hc as [|? ? Hm Hnf].
    assert (Hcost : message_token_count tk m = Ok (nocost tk m)).
    { unfold nocost. by destruct (message_token_count tk m). }
    rewrite Hcost. cbn [rbind].
    destruct (negb _ && _ && _) eqn:E.
    + bool_to_prop. exists sel. split; [done|].
      rewrite reverse_cons, <-app_assoc. cbn [app].
      split; [by exists (reverse nf ++ [m]); rewrite <-app_assoc| | |].
      * rewrite length_app. cbn [length]. lia.
      * rewrite length_app. cbn [length]. lia.
      * intros pre m' Heq. rewrite (cons_middle m'), (cons_middle m), !app_assoc in Heq.
        apply app_inv_tail in Heq.
        apply app_inj_tail in Heq as [_ <-]. lia.
    + rewrite reverse_cons, <-app_assoc. cbn [app].
      replace (costs tk sel + nocost tk m)%Z with (costs tk (m :: sel)) by (unfold costs; cbn [foldr]; lia).
      apply IH; [done|]. unfold costs at 1. cbn [foldr length]. fold (costs tk sel).
      destruct (decide (sel = [])) as [->|Hne]; [right; cbn; lia|].
      rewrite bool_decide_eq_false_2 in E by done. cbn [negb andb] in E.
      apply andb_false_iff in E as [E|E]; bool_to_prop; [|lia].
      left. lia.
Qed.

Lemma history_limits_pos s b k :
  (1 <= (history_limits s b k).1)%Z /\ (1 <= (history_limits s b k).2)%Z.
Proof. unfold history_limits. destruct (default _ s). cbn. lia. Qed.

(** The window: when every message can be counted, the selection returns the
    newest messages that fit the token budget, as many as fit, and more than fit
    only to reach the minimum number of messages. *)
Theorem select_messages_by_tokens_spec tk settings messages token_budget min_keep :
  countable tk messages ->
  let '(budget, keep) := history_limits settings token_budget min_keep in
  exists selected,
    select_messages_by_tokens tk settings messages token_budget min_keep = Ok selected /\
    window_ok tk budget keep messages selected.
Proof.
  intros Hc. pose proof (history_limits_pos settings token_budget min_keep) as [Hb Hk].
  unfold select_messages_by_tokens.
  destruct (history_limits settings token_budget min_keep) as [budget keep]. cbn in Hb, Hk.
  destruct (select_loop_spec tk budget keep (reverse messages) []) as (r & Hr & Hw);
    [done|by apply Forall_reverse|left; cbn; lia|].
  rewrite reverse_involutive, app_nil_r in Hw.
  exists r. split; [|done]. destruct messages; [|done].
  destruct Hw as [[k Hs] _ _ _]. symmetry in Hs. by apply app_eq_nil in Hs as [_ ->].
Qed.

(** A tokenizer for the examples: one token per character. *)
Definition char_tokenizer : tokenizer :=
  {| tk_encode := Some (fun s => Ok s); tk_ratio := f_one |}.
Definition msg (r : role) (s : string) : message :=
  {| msg_role := r; msg_text := u s; msg_id := None |}.

Lemma select_messages_by_tokens_spec_witness :
  exists selected,
    select_messages_by_tokens char_tokenizer None
      [msg HumanMessage "aaaaaaaaaa"; msg AIMessage "bbbb"; msg HumanMessage "cccc"]
      (Some 17%Z) (Some 1%Z) = Ok selected /\
    window_ok char_tokenizer 17 1
      [msg HumanMessage "aaaaaaaaaa"; msg AIMessage "bbbb"; msg HumanMessage "cccc"] selected.
Proof.
  apply (select_messages_by_tokens_spec char_tokenizer None
    [msg HumanMessage "aaaaaaaaaa"; msg AIMessage "bbbb"; msg HumanMessage "cccc"]
    (Some 17%Z) (Some 1%Z)).
  repeat constructor.
Defined.

Example select_example :
  select_messages_by_tokens char_tokenizer None
    [msg HumanMessage "aaaaaaaaaa"; msg AIMessage "bbbb"; msg HumanMessage "cccc"]
    (Some 17%Z) (Some 1%Z) = Ok [msg AIMessage "bbbb"; msg HumanMessage "cccc"].
Proof. vm_compute. reflexivity. Qed.

Lemma window_length tk budget keep messages selected :
  window_ok tk budget keep messages selected ->
  take (length messages - length selected) messages ++ selected = messages /\
  (length messages <= length selected <-> selected = messages).
Proof.
  intros [[k ->] _ _ _]. rewrite length_app.
  replace (length k + length selected - length selected) with (length k) by lia.
  rewrite take_app_length. split; [done|]. split.
  - intros H. by destruct k; [|cbn in H; lia].
  - intros H%(f_equal length). rewrite length_app in H. lia.
Qed.

(** Nothing is lost between the window and what is left out of it: the overflow
    and the selection, in that order, are the history; and the trimming removes
    from the checkpoint exactly the messages of the overflow (those with an id). *)
Theorem overflow_partition tk settings messages token_budget min_keep :
  countable tk messages ->
  exists selected overflow,
    select_messages_by_tokens tk settings messages token_budget min_keep = Ok selected /\
    overflow_messages tk settings messages token_budget min_keep = Ok overflow /\
    overflow ++ selected = messages /\
    trim_message_updates tk settings messages None token_budget min_keep =
      Ok (filter (fun i => truthy i = true) (omap msg_id overflow)).
Proof.
  intros Hc. unfold overflow_messages, trim_message_updates.
  pose proof (select_messages_by_tokens_spec tk settings messages token_budget min_keep Hc) as H.
  destruct (history_limits settings token_budget min_keep) as [budget keep].
  destruct H as (sel & Hsel & Hw). apply window_length in Hw as [Hp Hlen].
  destruct messages as [|m0 ms] eqn:E.
  { exists [], []. cbn. cbn in Hsel. done. }
  rewrite <-E in *. exists sel. rewrite Hsel. cbn [rbind].
  destruct (Nat.leb_spec (length messages) (length sel)) as [Hle|Hgt].
  - exists []. rewrite (proj1 Hlen Hle). done.
  - eexists. done.
Qed.

Lemma overflow_partition_witness :
  exists selected overflow,
    select_messages_by_tokens char_tokenizer None
      [msg HumanMessage "aaaaaaaaaa"; msg AIMessage "bb"] (Some 8%Z) (Some 1%Z) = Ok selected /\
    overflow_messages char_tokenizer None
      [msg HumanMessage "aaaaaaaaaa"; msg AIMessage "bb"] (Some 8%Z) (Some 1%Z) = Ok overflow /\
    overflow ++ selected = [msg HumanMessage "aaaaaaaaaa"; msg AIMessage "bb"] /\
    trim_message_updates char_tokenizer None
      [msg HumanMessage "aaaaaaaaaa"; msg AIMessage "bb"] None (Some 8%Z) (Some 1%Z) =
      Ok (filter (fun i => truthy i = true) (omap msg_id overflow)).
Proof. apply overflow_partition. repeat constructor. Defined.

(** [limit] caps the number of messages returned, except that [limit = 0] does
    not: [selected[-0:]] is the whole selection. *)
Theorem recent_messages_limit tk settings messages limit token_budget min_keep selected :
  select_messages_by_tokens tk settings messages token_budget min_keep = Ok selected ->
  recent_messages tk settings messages (Some 0%Z) token_budget min_keep = Ok selected /\
  ((0 < limit)%Z -> exists r,
     recent_messages tk settings messages (Some limit) token_budget min_keep = Ok r /\
     r `suffix_of` selected /\ Z.of_nat (length r) = (limit `min` Z.of_nat (length selected))%Z).
Proof.
  intros H. unfold recent_messages. rewrite H. cbn [rbind]. split; [done|].
  intros Hl. eexists. rewrite (proj2 (Z.leb_le 0 limit)) by lia. split; [done|].
  split; [apply suffix_py_last|]. rewrite length_py_last by lia. lia.
Qed.

Lemma recent_messages_limit_witness :
  recent_messages char_tokenizer None [msg HumanMessage "a"; msg AIMessage "b"] (Some 0%Z)
    (Some 90%Z) (Some 1%Z) = Ok [msg HumanMessage "a"; msg AIMessage "b"].
Proof.
  apply (recent_messages_limit char_tokenizer None [msg HumanMessage "a"; msg AIMessage "b"] 1
    (Some 90%Z) (Some 1%Z) [msg HumanMessage "a"; msg AIMessage "b"]).
  vm_compute. reflexivity.
Defined.

Lemma select_loop_raise tk budget keep newer m older sel total e :
  countable tk newer -> message_token_count tk m = Raise e ->
  (Z.of_nat (length sel + length newer) <= keep)%Z ->
  select_loop tk budget keep (newer ++ m :: older) sel total = Raise e.
Proof.
  intros Hn Hm. revert sel total. induction Hn as [|x newer Hx _ IH]; intros sel total Hk;
    cbn [app select_loop]; [by rewrite Hm|].
  destruct (message_token_count tk x) as [c|]; [|done]. cbn [rbind].
  destruct (negb _ && _ && _) eqn:E; [|apply IH; cbn in *; lia].
  bool_to_prop. cbn [length] in Hk. lia.
Qed.

(** The marker tiktoken's encodings reserve; [encode] raises [ValueError] on a text
    that holds it, unless told otherwise. *)
Definition ENDOFTEXT : pystr := u "<|endoftext|>".

(** One message is enough to make a conversation unusable: with an encoding that
    rejects its special token, a history that holds the token's text within its
    newest [min_keep + 1] messages cannot be windowed at all, so the router, which
    asks for the window first, raises on every such turn. *)
Theorem special_token_blocks_window encode ratio settings newer m older limit token_budget min_keep :
  (forall s, contains ENDOFTEXT s = true -> encode s = Raise (ValueError ENDOFTEXT)) ->
  contains ENDOFTEXT (msg_text m) = true ->
  countable {| tk_encode := Some encode; tk_ratio := ratio |} newer ->
  (Z.of_nat (length newer) <= (history_limits settings token_budget min_keep).2)%Z ->
  recent_messages {| tk_encode := Some encode; tk_ratio := ratio |} settings
    (older ++ m :: newer) limit token_budget min_keep = Raise (ValueError ENDOFTEXT).
Proof.
  intros Henc Hm Hn Hk. unfold recent_messages, select_messages_by_tokens.
  destruct (history_limits settings token_budget min_keep) as [budget keep]. cbn in Hk.
  assert (Hraise : message_token_count {| tk_encode := Some encode; tk_ratio := ratio |} m
                   = Raise (ValueError ENDOFTEXT)).
  { unfold message_token_count, count_tokens. destruct (truthy (msg_text m)) eqn:Et.
    - cbn [negb tk_encode]. by rewrite Henc.
    - apply truthy_false in Et. by rewrite Et in Hm. }
  destruct (older ++ m :: newer) eqn:E; [by destruct older|]. rewrite <-E.
  rewrite reverse_app, reverse_cons, <-app_assoc. cbn [app].
  rewrite (select_loop_raise _ _ _ _ _ _ _ _ _ (proj2 (Forall_reverse _ _) Hn) Hraise); [done|].
  rewrite length_reverse. cbn. lia.
Qed.

Lemma special_token_blocks_window_witness :
  recent_messages
    {| tk_encode := Some (fun s => if contains ENDOFTEXT s then Raise (ValueError ENDOFTEXT) else Ok s);
       tk_ratio := f_one |} (Some (8000, 10)%Z)
    ([msg AIMessage "您好"] ++ msg HumanMessage "<|endoftext|>" :: [msg AIMessage "好的"])
    None None None = Raise (ValueError ENDOFTEXT).
Proof.
  apply (special_token_blocks_window
    (fun s => if contains ENDOFTEXT s then Raise (ValueError ENDOFTEXT) else Ok s)).
  - intros s H. by rewrite H.
  - vm_compute. reflexivity.
  - repeat constructor.
  - vm_compute. discriminate.
Defined.

(** A rolling summary and the messages share one token budget: what the summary
    line costs is taken off before the messages are selected, so together they stay
    within it, unless keeping the minimum number of messages (or a single token for
    them) needs more. *)
Theorem format_history_for_prompt_budget tk settings messages token_budget summary used :
  countable tk messages ->
  truthy (prompt_summary_line summary) = true ->
  prompt_summary_tokens tk summary = Ok used ->
  let budget := (history_limits settings token_budget None).1 in
  let keep := (history_limits settings token_budget None).2 in
  exists selected,
    format_history_for_prompt tk settings messages None token_budget summary =
      Ok (join (u "
") (prompt_summary_line summary :: omap history_line selected)) /\
    selected `suffix_of` messages /\
    ((used + costs tk selected <= budget `max` (used + 1))%Z \/
     Z.of_nat (length selected) = (keep `min` Z.of_nat (length messages))%Z).
Proof.
  intros Hc Hl Hu budget keep. unfold format_history_for_prompt.
  rewrite Hl. fold budget. unfold budget, keep in *. clear budget keep.
  destruct (history_limits settings token_budget None) as [budget keep] eqn:Elim. cbn [fst snd].
  rewrite Hu. cbn [rbind].
  pose proof (select_messages_by_tokens_spec tk settings messages
                (Some (Z.max 1 (budget - used))) None Hc) as H.
  assert (Elim' : history_limits settings (Some (Z.max 1 (budget - used))) None =
                  (Z.max 1 (budget - used), keep)%Z).
  { revert Elim. unfold history_limits. destruct (default _ settings). cbn.
    intros [= <- <-]. f_equal. lia. }
  rewrite Elim' in H. destruct H as (sel & Hsel & [Hs _ Hb _]).
  exists sel. unfold recent_messages. rewrite Hsel. cbn [rbind app].
  split; [done|]. split; [done|]. destruct Hb; [left; lia|by right].
Qed.

Lemma format_history_for_prompt_budget_witness :
  exists selected,
    format_history_for_prompt char_tokenizer None [msg HumanMessage "a"; msg AIMessage "b"]
      None (Some 30%Z) (Some (u "s")) =
      Ok (join (u "
") (prompt_summary_line (Some (u "s")) :: omap history_line selected)) /\
    selected `suffix_of` [msg HumanMessage "a"; msg AIMessage "b"] /\
    ((8 + costs char_tokenizer selected <= 30 `max` (8 + 1))%Z \/
     Z.of_nat (length selected) = (10 `min` 2)%Z).
Proof.
  apply (format_history_for_prompt_budget char_tokenizer None
           [msg HumanMessage "a"; msg AIMessage "b"] (Some 30%Z) (Some (u "s")) 8%Z);
    [repeat constructor|vm_compute; reflexivity|vm_compute; reflexivity].
Defined.
