(* ===== verification/Json.v ===== *)
(** * JSON-like values

    The values of the dictionaries the program passes around: graph state, node
    updates, cached reports.  A dictionary is a finite map where only lookups and
    updates matter; inside a value, an object is its list of entries. *)

From stdpp Require Import base list gmap strings.
From Stdlib Require Import Floats.SpecFloat.
From S2P Require Import Prelude PyText Errors.

Inductive json : Type :=
| JNull
| JBool (b : bool)
| JInt (n : Z)
| JFloat (x : pyfloat)
| JStr (s : pystr)
| JList (l : list json)
| JObj (d : list (pystr * json)).

Abbreviation dict := (@gmap (list N) (@list_eq_dec N numbers.N.eq_dec)
  (@list_countable N numbers.N.eq_dec N_countable) json).

(** [None if x is None else x], for an optional string. *)
Definition jopt (s : option pystr) : json :=
  match s with Some s => JStr s | None => JNull end.

(** Truth value. *)
Definition jtruthy (v : json) : bool :=
  match v with
  | JNull => false
  | JBool b => b
  | JInt n => negb (n =? 0)%Z
  | JFloat x => f_truthy x
  | JStr s => truthy s
  | JList l => match l with [] => false | _ => true end
  | JObj d => match d with [] => false | _ => true end
  end.

Definition get (k : pystr) (d : dict) : json := default JNull (d !! k).

(** [d.get(k) or None] for a key that holds a string or [None]. *)
Definition get_ostr (k : pystr) (d : dict) : option pystr :=
  match get k d with JStr s => str_or_none s | _ => None end.
(** [d.get(k)], kept as it is, for such a key. *)
Definition get_raw_ostr (k : pystr) (d : dict) : option pystr :=
  match get k d with JStr s => Some s | _ => None end.
(** [str(d.get(k) or "")], for such a key. *)
Definition get_str (k : pystr) (d : dict) : pystr :=
  match get k d with JStr s => s | _ => [] end.
(** [bool(d.get(k))]. *)
Definition get_bool (k : pystr) (d : dict) : bool := jtruthy (get k d).
(** [d.get(k)] if it is a [dict]. *)
Definition get_obj (k : pystr) (d : dict) : option (list (pystr * json)) :=
  match get k d with JObj o => Some o | _ => None end.

(** A dictionary display; a later entry for the same key wins. *)
Definition mkdict (l : list (pystr * json)) : dict :=
  foldl (fun d '(k, v) => <[k:=v]> d) ∅ l.

(** [{**d, **e}]. *)
Definition dmerge (d e : dict) : dict := e ∪ d.

Lemma get_ostr_truthy k d s : get_ostr k d = Some s -> truthy s = true.
Proof.
  unfold get_ostr, str_or_none. destruct (get k d); try done.
  destruct (truthy s0) eqn:E; by intros [= <-].
Qed.

Lemma dmerge_lookup k d e :
  dmerge d e !! k = match e !! k with Some v => Some v | None => d !! k end.
Proof. unfold dmerge. rewrite lookup_union. by destruct (e !! k), (d !! k). Qed.

Lemma get_dmerge (k : pystr) (d e : dict) :
  get k (dmerge d e) = match e !! k with Some v => v | None => get k d end.
Proof. unfold get. rewrite dmerge_lookup. by destruct (e !! k). Qed.

(** [json.dumps] and [json.loads], on a type [T] of texts.  A [JObj] stands for a
    dictionary, so its keys are distinct. *)
Class JsonText (T : Type) := {
  dumps : json -> T;
  loads : T -> res exn json;
  text_truthy : T -> bool;
}.
Class JsonTextLaws (T : Type) `{JsonText T} : Prop := {
  loads_dumps j : loads (dumps j) = Ok j;
  dumps_truthy j : text_truthy (dumps j) = true;
}.

(** Values as their own text: an instance for the examples. *)
#[global] Instance json_text : JsonText json :=
  { dumps j := j; loads := Ok; text_truthy _ := true }.
#[global] Instance json_text_laws : JsonTextLaws json.
Proof. by split. Qed.

(** Reading a dictionary built from literal keys, entry by entry. *)
Lemma mkdict_if (b : bool) k v l (j : pystr) :
  mkdict (l ++ (if b then [(k, v)] else [])) !! j =
  if b then (if bool_decide (k = j) then Some v else mkdict l !! j) else mkdict l !! j.
Proof.
  unfold mkdict. rewrite foldl_app. destruct b; [|done]. cbn [foldl].
  case_bool_decide as Hk; [subst; apply lookup_insert_eq|by apply lookup_insert_ne].
Qed.

Lemma mkdict_one k v (j : pystr) :
  mkdict [(k, v)] !! j = if bool_decide (k = j) then Some v else None.
Proof. exact (mkdict_if true k v [] j). Qed.
