(* ===== verification/PyJson.v ===== *)
(** * JSON text ([json.dumps] with [ensure_ascii=False], [json.loads])

    The text of a value and the value of a text, as Python's [json] has them.  The text of
    a float, and the float of a text, are parameters. *)

From stdpp Require Import base list gmap strings.
From Stdlib Require Import Floats.SpecFloat.
From S2P Require Import Prelude PyText PyFloat PyDict Errors Json.
Open Scope py_scope.

(** ** Numbers *)

Definition digits_value (acc : Z) (ds : pystr) : Z := foldl (fun a c => a * 10 + Z.of_N (c - 48))%Z acc ds.
(** The digits of a number: none too many in front. *)
Record decimal (ds : pystr) (n : Z) : Prop := {
  de_some : ds <> [];
  de_digits : Forall (fun c => is_ascii_digit c = true) ds;
  de_value : digits_value 0 ds = n;
  de_leading : ds = [48%N] \/ head ds <> Some 48%N;
}.

Lemma dec_digits_spec fuel : forall n acc, (n < 2 ^ N.of_nat fuel)%N -> fuel <> 0 ->
  exists ds, dec_digits fuel n acc = ds ++ acc /\ decimal ds (Z.of_N n) /\ (n <> 0%N -> head ds <> Some 48%N).
Proof.
  induction fuel as [|fuel IH]; intros n acc Hn Hf; [done|]. cbn [dec_digits].
  assert (Hd : is_ascii_digit (48 + n mod 10) = true).
  { clear. pose proof (N.mod_upper_bound n 10 ltac:(lia)) as Hm. unfold is_ascii_digit. apply andb_true_iff. revert Hm. generalize (n mod 10)%N. intros r Hr.
    split; apply N.leb_le; lia. }
  pose proof (N.div_mod n 10 ltac:(lia)) as Hdm. destruct (N.eqb_spec (n / 10) 0) as [H0|H0].
  - rewrite H0 in Hdm. assert (Hm : (n mod 10)%N = n) by (revert Hdm; generalize (n mod 10)%N; lia). rewrite Hm in *.
    assert (Hnz : n <> 0%N -> head [(48 + n)%N] <> Some 48%N) by (intros Hnz [= ?]; lia).
    exists [(48 + n)%N]. split; [done|]. split; [|done]. split; [done|by repeat constructor|cbn; lia|].
    destruct (N.eq_dec n 0) as [->|Hne]; [by left|right; by apply Hnz].
  - assert (Hq : (n / 10 < 2 ^ N.of_nat fuel)%N).
    { rewrite Nat2N.inj_succ, N.pow_succ_r' in Hn. apply N.Div0.div_lt_upper_bound. lia. }
    destruct (IH (n / 10)%N ((48 + n mod 10)%N :: acc) Hq) as (ds & E & [Hne Hds Hv _] & Hh); [intros ->; change (2 ^ N.of_nat 0)%N with 1%N in Hq; by apply H0, N.lt_1_r|].
    specialize (Hh H0). exists (ds ++ [(48 + n mod 10)%N]). split; [by rewrite E, <- app_assoc|].
    assert (Hhead : head (ds ++ [(48 + n mod 10)%N]) <> Some 48%N) by (by destruct ds). split; [|done]. split; [by destruct ds| | |by right].
    + apply Forall_app; split; [done|by repeat constructor].
    + unfold digits_value in *. rewrite foldl_app, Hv. cbn [foldl]. revert Hdm. generalize (n / 10)%N (n mod 10)%N. lia.
Qed.

Lemma dec_decimal n : (0 <= n)%Z -> decimal (dec n) n.
Proof.
  intros Hn. unfold dec. destruct (Z.ltb_spec n 0); [lia|]. cbn [app].
  destruct (dec_digits_spec (S (N.to_nat (N.size (Z.abs_N n)))) (Z.abs_N n) []) as (ds & -> & Hds & _); [|done|].
  - rewrite Nat2N.inj_succ, N2Nat.id, N.pow_succ_r'. pose proof (N.size_gt (Z.abs_N n)). lia.
  - rewrite app_nil_r. by rewrite N2Z.inj_abs_N, Z.abs_eq in Hds.
Qed.
Lemma dec_negative n : (n < 0)%Z -> exists ds, dec n = 45%N :: ds /\ decimal ds (- n).
Proof.
  intros Hn. unfold dec. destruct (Z.ltb_spec n 0); [|lia].
  destruct (dec_digits_spec (S (N.to_nat (N.size (Z.abs_N n)))) (Z.abs_N n) []) as (ds & -> & Hds & _); [|done|].
  - rewrite Nat2N.inj_succ, N2Nat.id, N.pow_succ_r'. pose proof (N.size_gt (Z.abs_N n)). lia.
  - exists ds. rewrite app_nil_r. split; [done|]. rewrite N2Z.inj_abs_N, Z.abs_neq in Hds by lia. done.
Qed.

(** ** Writing *)

Definition hex_digit (n : N) : N := (if n <? 10 then 48 + n else 87 + n)%N.
Definition json_esc (c : N) : pystr :=
  (if c =? 34 then [92; 34] else if c =? 92 then [92; 92] else if c =? 10 then [92; 110] else if c =? 13 then [92; 114]
   else if c =? 9 then [92; 116] else if c =? 12 then [92; 102] else if c =? 8 then [92; 98]
   else if c <? 32 then [92; 117; 48; 48; hex_digit (c / 16); hex_digit (c mod 16)] else [c])%N.
Definition json_quote (s : pystr) : pystr := 34%N :: (s ≫= json_esc) ++ [34%N].

Section json_text.
Context (float_repr : pyfloat -> pystr) (float_of : pystr -> pyfloat).

Fixpoint json_dumps (v : json) : pystr :=
  match v with
  | JNull => u "null"
  | JBool b => if b then u "true" else u "false"
  | JInt n => dec n
  | JFloat x => float_repr x
  | JStr s => json_quote s
  | JList l => 91%N :: join (u ", ") (map json_dumps l) ++ [93%N]
  | JObj d => 123%N :: join (u ", ") (map (fun '(k, v) => json_quote k ++ u ": " ++ json_dumps v) d) ++ [125%N]
  end.

(** ** Reading *)

Definition is_ws (c : N) : bool := ((c =? 32) || (c =? 9) || (c =? 10) || (c =? 13))%N.
Fixpoint skip_ws (s : pystr) : pystr := match s with c :: s' => if is_ws c then skip_ws s' else s | [] => [] end.

Definition hex_value (c : N) : option N :=
  (if (48 <=? c) && (c <=? 57) then Some (c - 48) else if (97 <=? c) && (c <=? 102) then Some (c - 87)
   else if (65 <=? c) && (c <=? 70) then Some (c - 55) else None)%N.
Definition hex4 (s : pystr) : option (N * pystr) :=
  match s with
  | a :: b :: c :: d :: s => a ← hex_value a; b ← hex_value b; c ← hex_value c; d ← hex_value d; Some ((((a * 16 + b) * 16 + c) * 16 + d)%N, s)
  | _ => None
  end.
(** Behind [\u]: a code point, of two escapes when they are a surrogate pair. *)
Definition unicode_escape (s : pystr) : option (N * pystr) :=
  hr ← hex4 s;
  let '(hi, rest) := hr in
  if ((55296 <=? hi) && (hi <=? 56319))%N then
    match rest with
    | 92%N :: 117%N :: rest' =>
      match hex4 rest' with
      | Some (lo, rest'') => if ((56320 <=? lo) && (lo <=? 57343))%N then Some ((65536 + (hi - 55296) * 1024 + (lo - 56320))%N, rest'') else Some (hi, rest)
      | None => None
      end
    | _ => Some (hi, rest)
    end
  else Some (hi, rest).
Definition simple_escape (c : N) : option N :=
  (if c =? 34 then Some 34 else if c =? 92 then Some 92 else if c =? 47 then Some 47 else if c =? 98 then Some 8
   else if c =? 102 then Some 12 else if c =? 110 then Some 10 else if c =? 114 then Some 13 else if c =? 116 then Some 9 else None)%N.

(** The rest of a string, behind its quote. *)
Fixpoint read_string (fuel : nat) (s : pystr) : option (pystr * pystr) :=
  match fuel, s with
  | S fuel, c :: s =>
    if (c =? 34)%N then Some ([], s)
    else if (c =? 92)%N then
      match s with
      | e :: s =>
        cr ← (if (e =? 117)%N then unicode_escape s else c ← simple_escape e; Some (c, s));
        tr ← read_string fuel cr.2; Some (cr.1 :: tr.1, tr.2)
      | [] => None
      end
    else if (c <? 32)%N then None
    else tr ← read_string fuel s; Some (c :: tr.1, tr.2)
  | _, _ => None
  end.

Fixpoint ascii_digits (s : pystr) : pystr * pystr :=
  match s with c :: s' => if is_ascii_digit c then let (ds, r) := ascii_digits s' in (c :: ds, r) else ([], s) | [] => ([], []) end.
Definition fraction (s : pystr) : pystr * pystr :=
  match s with
  | 46%N :: s' => let (ds, r) := ascii_digits s' in match ds with [] => ([], s) | _ => (46%N :: ds, r) end
  | _ => ([], s)
  end.
Definition exponent (s : pystr) : pystr * pystr :=
  match s with
  | c :: s' =>
    if ((c =? 101) || (c =? 69))%N then
      let (sign, t) := match s' with d :: t => if ((d =? 43) || (d =? 45))%N then ([d], t) else ([], s') | [] => ([], []) end in
      let (ds, r) := ascii_digits t in match ds with [] => ([], s) | _ => (c :: sign ++ ds, r) end
    else ([], s)
  | [] => ([], [])
  end.
(** A number that is not negative, and the sign before it. *)
Definition read_unsigned (negative : bool) (s : pystr) : option (json * pystr) :=
  match s with
  | c :: s' =>
    if negb (is_ascii_digit c) then None
    else
      let (ds, r) := if (c =? 48)%N then ([c], s') else ascii_digits s in
      let (f, r1) := fraction r in
      let (e, r2) := exponent r1 in
      match f ++ e with
      | [] => Some (JInt (if negative then - digits_value 0 ds else digits_value 0 ds), r)
      | fe => Some (JFloat (float_of ((if negative then [45%N] else []) ++ ds ++ fe)), r2)
      end
  | [] => None
  end.

Section items.
Context (value : pystr -> option (json * pystr)).
(** The elements of an array, and the members of an object, behind the bracket. *)
Fixpoint read_elements (fuel : nat) (s : pystr) : option (list json * pystr) :=
  match fuel with
  | O => None
  | S fuel =>
    vr ← value (skip_ws s);
    match skip_ws vr.2 with
    | 93%N :: r => Some ([vr.1], r)
    | 44%N :: r => lr ← read_elements fuel r; Some (vr.1 :: lr.1, lr.2)
    | _ => None
    end
  end.
Fixpoint read_members (fuel : nat) (s : pystr) : option (list (pystr * json) * pystr) :=
  match fuel with
  | O => None
  | S fuel =>
    match skip_ws s with
    | 34%N :: s =>
      kr ← read_string (length s) s;
      match skip_ws kr.2 with
      | 58%N :: s =>
        vr ← value (skip_ws s);
        match skip_ws vr.2 with
        | 125%N :: r => Some ([(kr.1, vr.1)], r)
        | 44%N :: r => mr ← read_members fuel r; Some ((kr.1, vr.1) :: mr.1, mr.2)
        | _ => None
        end
      | _ => None
      end
    | _ => None
    end
  end.
End items.

Definition literals : list (pystr * json) :=
  [(u "null", JNull); (u "true", JBool true); (u "false", JBool false); (u "NaN", JFloat S754_nan); (u "Infinity", JFloat (S754_infinity false));
   (u "-Infinity", JFloat (S754_infinity true))].
Definition read_literal (s : pystr) : option (json * pystr) :=
  lv ← find (fun lv => is_prefix lv.1 s) literals; Some (lv.2, drop (length lv.1) s).

Fixpoint read_value (fuel : nat) (s : pystr) : option (json * pystr) :=
  match fuel with
  | O => None
  | S fuel =>
    match s with
    | [] => None
    | c :: s' =>
      if (c =? 34)%N then tr ← read_string (length s') s'; Some (JStr tr.1, tr.2)
      else if (c =? 91)%N then
        match skip_ws s' with
        | 93%N :: r => Some (JList [], r)
        | _ => lr ← read_elements (read_value fuel) fuel s'; Some (JList lr.1, lr.2)
        end
      else if (c =? 123)%N then
        match skip_ws s' with
        | 125%N :: r => Some (JObj [], r)
        | _ => mr ← read_members (read_value fuel) fuel s'; Some (JObj (dict_of mr.1), mr.2)
        end
      else match read_literal s with
           | Some r => Some r
           | None => if (c =? 45)%N then read_unsigned true s' else read_unsigned false s
           end
    end
  end.

(** Nothing, where Python raises [JSONDecodeError]. *)
Definition json_loads (s : pystr) : option json :=
  match s with
  | 65279%N :: _ => None
  | _ => vr ← read_value (S (length s)) (skip_ws s); match skip_ws vr.2 with [] => Some vr.1 | _ => None end
  end.
End json_text.

Definition no_floats (x : pyfloat) : pystr := u "0.0".
Definition some_float (s : pystr) : pyfloat := f_zero.
Definition sample : json :=
  JObj [(u "id", JStr (u "第1行" ++ [10; 34; 92; 8232; 1]%N)); (u "meta", JObj [(u "n", JList [JInt 0; JInt (-17); JNull]); (u "o", JObj []); (u "l", JList [])]); (u "ok", JBool true)].
Example sample_back : json_loads some_float (json_dumps no_floats sample) = Some sample.
Proof. vm_compute. reflexivity. Qed.
Example foreign_text : json_loads some_float (u "  [1, true ,{ }, -0 , [ ]] ") = Some (JList [JInt 1; JBool true; JObj []; JInt 0; JList []]) /\
  json_loads some_float (u "[1,]") = None /\ json_loads some_float (u "01") = None /\ json_loads some_float (u "{} x") = None.
Proof. vm_compute. split_and!; reflexivity. Qed.

(** ** Reading what was written *)

(** With floats of a kind only, and as a dictionary has them, without repeated keys. *)
Section kinds.
Context (fine : pyfloat -> Prop).
Fixpoint json_over (v : json) : Prop :=
  match v with
  | JFloat x => fine x
  | JList l => (fix all (l : list json) : Prop := match l with [] => True | x :: l => json_over x /\ all l end) l
  | JObj d => NoDup d.*1 /\ (fix all (d : list (pystr * json)) : Prop := match d with [] => True | (_, x) :: d => json_over x /\ all d end) d
  | _ => True
  end.

Lemma over_list l : json_over (JList l) <-> Forall json_over l.
Proof. induction l as [|x l IH]; [by split|]. rewrite Forall_cons, <- IH. done. Qed.
Lemma over_obj d : json_over (JObj d) <-> NoDup d.*1 /\ Forall (fun kv => json_over kv.2) d.
Proof.
  assert (H : forall d : list (pystr * json), (fix all (d : list (pystr * json)) : Prop := match d with [] => True | (_, x) :: d => json_over x /\ all d end) d
    <-> Forall (fun kv => json_over kv.2) d).
  { clear. induction d as [|[k x] d IH]; [by split|]. rewrite Forall_cons, <- IH. done. }
  cbn. by rewrite H.
Qed.
End kinds.
(** Without floats. *)
Abbreviation plain_json := (json_over (fun _ => False)).

Fixpoint json_size (v : json) : nat :=
  match v with
  | JList l => S (list_sum (map json_size l))
  | JObj d => S (list_sum (map (fun '(_, x) => json_size x) d))
  | _ => 1
  end.

Lemma plain_list l : plain_json (JList l) <-> Forall plain_json l.
Proof. apply over_list. Qed.
Lemma plain_obj d : plain_json (JObj d) <-> NoDup d.*1 /\ Forall (fun kv => plain_json kv.2) d.
Proof. apply over_obj. Qed.

Lemma read_escaped f c t : read_string (S f) (json_esc c ++ t) = (tr ← read_string f t; Some (c :: tr.1, tr.2)).
Proof.
  destruct (N.ltb_spec c 32) as [Hc|Hc].
  - assert (exists i, i < 32 /\ c = N.of_nat i) as (i & Hi & ->) by (exists (N.to_nat c); lia).
    do 32 (destruct i as [|i]; [reflexivity|]). lia.
  - unfold json_esc. destruct (N.eqb_spec c 34) as [->|H34]; [done|]. destruct (N.eqb_spec c 92) as [->|H92]; [done|].
    assert (H : forall k, (k < 32)%N -> (c =? k)%N = false) by (intros k Hk; apply N.eqb_neq; lia). rewrite !H by done.
    destruct (N.ltb_spec c 32); [lia|]. cbn [app read_string]. apply N.eqb_neq in H34, H92. rewrite H34, H92. destruct (N.ltb_spec c 32); [lia|done].
Qed.
Lemma read_quoted s rest f : length s < f -> read_string f ((s ≫= json_esc) ++ 34%N :: rest) = Some (s, rest).
Proof.
  revert f. induction s as [|c s IH]; intros [|f] Hf; cbn [length] in Hf; try lia; [done|]. rewrite bind_cons, <- app_assoc, read_escaped, IH by lia. done.
Qed.
Lemma escaped_length s : length s <= length (s ≫= json_esc).
Proof.
  induction s as [|c s IH]; [done|]. rewrite bind_cons, length_app. cbn [length]. assert (1 <= length (json_esc c)); [|lia].
  unfold json_esc. repeat case_match; cbn; lia.
Qed.
Lemma read_json_quote s rest : read_string (length ((s ≫= json_esc) ++ 34%N :: rest)) ((s ≫= json_esc) ++ 34%N :: rest) = Some (s, rest).
Proof. apply read_quoted. rewrite length_app. pose proof (escaped_length s). cbn. lia. Qed.

Lemma ascii_digits_app ds rest : Forall (fun c => is_ascii_digit c = true) ds -> (forall c t, rest = c :: t -> is_ascii_digit c = false) ->
  ascii_digits (ds ++ rest) = (ds, rest).
Proof.
  intros Hd Hr. induction Hd as [|c ds Hc _ IH]; cbn [app ascii_digits].
  - destruct rest as [|c t]; [done|]. cbn. by rewrite (Hr c t eq_refl).
  - by rewrite Hc, IH.
Qed.

(** What may follow a value inside an array or an object. *)
Definition closes (rest : pystr) : Prop := match rest with [] => True | c :: _ => c ∈ [44; 93; 125]%N end.
Lemma closes_plain rest c t : closes rest -> rest = c :: t -> is_ascii_digit c = false /\ c <> 46%N /\ c <> 101%N /\ c <> 69%N.
Proof.
  intros Hr ->. cbn in Hr. rewrite !elem_of_cons, elem_of_nil in Hr. by destruct Hr as [->|[->|[->|[]]]].
Qed.
Lemma closes_fraction rest : closes rest -> fraction rest = ([], rest) /\ exponent rest = ([], rest).
Proof.
  intros Hr. destruct rest as [|c t]; [done|]. destruct (closes_plain _ c t Hr eq_refl) as (_ & H1 & H2 & H3). split.
  - unfold fraction. destruct c as [|p]; [done|]. repeat (destruct p as [p|p|]; try done).
  - unfold exponent. apply N.eqb_neq in H2, H3. by rewrite H2, H3.
Qed.

(** The text of a number with a fraction or an exponent, and its floating value. *)
Inductive float_literal : pystr -> Prop :=
| float_literal_ negative ds n frac ex : decimal ds n ->
  (frac = [] \/ exists fs, frac = 46%N :: fs /\ fs <> [] /\ Forall (fun c => is_ascii_digit c = true) fs) ->
  (ex = [] \/ exists e sign es, ex = e :: sign ++ es /\ e ∈ [101; 69]%N /\ sign ∈ [[]; [43]; [45]]%N /\ es <> [] /\ Forall (fun c => is_ascii_digit c = true) es) ->
  frac ++ ex <> [] ->
  float_literal ((if negative : bool then [45%N] else []) ++ ds ++ frac ++ ex).
(** What Python promises of [float.__repr__] for a finite number. *)
Record float_text (float_repr : pyfloat -> pystr) (float_of : pystr -> pyfloat) (x : pyfloat) : Prop := {
  ft_literal : float_literal (float_repr x);
  ft_value : float_of (float_repr x) = x;
}.

(** Without the end of a line. *)
Definition unfeed (s : pystr) : Prop := Forall (fun c => c <> 10%N) s.

Section back.
Context (float_repr : pyfloat -> pystr) (float_of : pystr -> pyfloat).
Context (fine : pyfloat -> Prop) (float_texts : forall x, fine x -> float_text float_repr float_of x).
Abbreviation dumps := (json_dumps float_repr).
Abbreviation value := (read_value float_of).
Abbreviation over := (json_over fine).

Lemma read_unsigned_back negative ds n rest : decimal ds n -> closes rest ->
  read_unsigned float_of negative (ds ++ rest) = Some (JInt (if negative then - n else n), rest).
Proof.
  intros [Hne Hds Hv Hlead] Hr. unfold read_unsigned. destruct ds as [|c ds]; [done|]. pose proof Hds as Hall. apply Forall_cons in Hds as [Hc Hds].
  cbn [app]. rewrite Hc. cbn [negb].
  assert (E : (if (c =? 48)%N then ([c], ds ++ rest) else ascii_digits (c :: ds ++ rest)) = (c :: ds, rest)).
  { destruct (N.eqb_spec c 48) as [->|Hc48].
    - destruct Hlead as [[= ->]|Hlead]; [done|by destruct Hlead].
    - change (c :: ds ++ rest) with ((c :: ds) ++ rest). apply ascii_digits_app; [done|]. intros c' t Ht. by apply (closes_plain rest c' t). }
  rewrite E. destruct (closes_fraction rest Hr) as [Ef Ee]. rewrite Ef, Ee. cbn [app]. rewrite <- Hv. by destruct negative.
Qed.

Lemma literals_text : literals =
  [([110; 117; 108; 108], JNull); ([116; 114; 117; 101], JBool true); ([102; 97; 108; 115; 101], JBool false); ([78; 97; 78], JFloat S754_nan);
   ([73; 110; 102; 105; 110; 105; 116; 121], JFloat (S754_infinity false)); ([45; 73; 110; 102; 105; 110; 105; 116; 121], JFloat (S754_infinity true))]%N.
Proof. reflexivity. Qed.

(** The reader at a digit, and at a minus before one. *)
Lemma digit_value fuel c s : is_ascii_digit c = true -> value (S fuel) (c :: s) = read_unsigned float_of false (c :: s).
Proof.
  intros Hc. assert (Hk : forall k, is_ascii_digit k = false -> (c =? k)%N = false) by (intros k Hk; apply N.eqb_neq; intros ->; by rewrite Hk in Hc).
  cbn [read_value]. rewrite !Hk by done.
  assert (El : read_literal (c :: s) = None).
  { unfold read_literal. rewrite literals_text. cbn [find fst]. assert (Hp' : forall k w s, is_ascii_digit k = false -> is_prefix (k :: w) (c :: s) = false).
    { intros k w t Hk'. cbn. by rewrite N.eqb_sym, Hk. }
    by rewrite !Hp'. }
  by rewrite El.
Qed.
Lemma minus_value fuel c s : is_ascii_digit c = true -> value (S fuel) (45%N :: c :: s) = read_unsigned float_of true (c :: s).
Proof.
  intros Hc. cbn [read_value]. change (45 =? 34)%N with false. change (45 =? 91)%N with false. change (45 =? 123)%N with false. cbv iota.
  assert (El : read_literal (45%N :: c :: s) = None).
  { unfold read_literal. rewrite literals_text. cbn [find fst].
    assert (Hp' : forall k w s, (k =? 45)%N = false -> is_prefix (k :: w) (45%N :: s) = false) by (intros k w t Hk'; cbn; by rewrite Hk').
    assert (Hi : forall w s, is_prefix (45%N :: 73%N :: w) (45%N :: c :: s) = false).
    { intros w t. change (is_prefix (45%N :: 73%N :: w) (45%N :: c :: t)) with ((73 =? c)%N && is_prefix w t).
      destruct (N.eqb_spec 73 c) as [<-|]; [vm_compute in Hc; discriminate Hc|done]. }
    rewrite 5!Hp' by done. cbn iota beta. by rewrite Hi. }
  by rewrite El.
Qed.
Lemma signed_value fuel (negative : bool) ds n t : decimal ds n ->
  value (S fuel) ((if negative then [45%N] else []) ++ ds ++ t) = read_unsigned float_of negative (ds ++ t).
Proof.
  intros [Hne Hall _ _]. destruct ds as [|c ds]; [done|]. apply Forall_cons in Hall as [Hc _]. destruct negative; cbn [app]; [by apply minus_value|by apply digit_value].
Qed.

(** How a text begins. *)
Record begins (s : pystr) (c : N) (t : pystr) : Prop := { be_text : s = c :: t; be_ws : is_ws c = false; be_close : c <> 93%N; be_ascii : (c < 128)%N }.
Lemma digit_begins c t : is_ascii_digit c = true -> begins (c :: t) c t.
Proof.
  intros Hc. assert (Hc' : c <> 93%N) by (intros E; rewrite E in Hc; vm_compute in Hc; discriminate Hc). unfold is_ascii_digit in Hc. apply andb_true_iff in Hc as [H1 H2]. apply N.leb_le in H1, H2. split; [done| |done|lia]. unfold is_ws.
  assert (H : forall k, (k < 48)%N -> (c =? k)%N = false) by (intros k Hk; apply N.eqb_neq; lia). by rewrite !H.
Qed.
Lemma float_begins x : float_text float_repr float_of x -> exists c t, begins (float_repr x) c t.
Proof.
  intros [Hl _]. destruct Hl as [negative ds n frac ex [Hne Hall _ _] _ _ _]. destruct negative; [by eexists _, _|].
  destruct ds as [|c ds]; [done|]. apply Forall_cons in Hall as [Hc _]. exists c. eexists. by apply digit_begins.
Qed.
Lemma dumps_begins v : over v -> exists c t, begins (dumps v) c t.
Proof.
  destruct v as [|[]|n|x|s|l|d]; intros Hp; try (eexists _, _; split; [reflexivity|done|done|by apply N.ltb_lt]); [|by apply float_begins, float_texts].
  destruct (Z_lt_le_dec n 0) as [Hn|Hn].
  - destruct (dec_negative n Hn) as (ds & E & _). exists 45%N, ds. by split.
  - destruct (dec_decimal n Hn) as [Hne Hd _ _]. cbn [json_dumps]. destruct (dec n) as [|c ds]; [done|]. apply Forall_cons in Hd as [Hc _]. exists c, ds. by apply digit_begins.
Qed.
Lemma skip_begins s c t rest : begins s c t -> skip_ws (s ++ rest) = s ++ rest.
Proof. intros [-> Hw _ _]. cbn. by rewrite Hw. Qed.

(** A value is read back, and the rest of the text is left. *)
Definition reads (fuel : nat) (v : json) : Prop := forall rest, closes rest -> value fuel (dumps v ++ rest) = Some (v, rest).

(** What may follow the digits of a number. *)
Definition no_digit (t : pystr) : Prop := forall c r, t = c :: r -> is_ascii_digit c = false.
Lemma exponent_back ex rest : closes rest ->
  (ex = [] \/ exists e sign es, ex = e :: sign ++ es /\ e ∈ [101; 69]%N /\ sign ∈ [[]; [43]; [45]]%N /\ es <> [] /\ Forall (fun c => is_ascii_digit c = true) es) ->
  exponent (ex ++ rest) = (ex, rest) /\ no_digit (ex ++ rest) /\ fraction (ex ++ rest) = ([], ex ++ rest).
Proof.
  intros Hr [->|(e & sign & es & -> & He & Hs & Hne & Hes)].
  { destruct (closes_fraction rest Hr). split_and!; [done| |done]. intros c r Hc. by apply (closes_plain rest c r). }
  assert (Ha : ascii_digits (es ++ rest) = (es, rest)) by (apply ascii_digits_app; [done|]; intros c t Ht; by apply (closes_plain rest c t)).
  assert (Hx : exponent ((e :: sign ++ es) ++ rest) = (e :: sign ++ es, rest)).
  { unfold exponent. cbn [app]. rewrite <- app_assoc. assert (E : ((e =? 101) || (e =? 69))%N = true) by (by apply list_elem_of_In in He as [<-|[<-|[]]]). rewrite E.
    apply list_elem_of_In in Hs as [<-|[<-|[<-|[]]]]; cbn [app].
    - destruct es as [|c es]; [done|]. apply Forall_cons in Hes as [Hc _]. cbn [app].
      assert (E' : ((c =? 43) || (c =? 45))%N = false).
      { apply orb_false_iff. split; apply N.eqb_neq; intros ->; vm_compute in Hc; discriminate Hc. }
      rewrite E'. cbn [app] in Ha. by rewrite Ha.
    - change ((43 =? 43) || (43 =? 45))%N with true. cbv iota. rewrite Ha. by destruct es.
    - change ((45 =? 43) || (45 =? 45))%N with true. cbv iota. rewrite Ha. by destruct es. }
  split; [exact Hx|]. apply list_elem_of_In in He as [<-|[<-|[]]]; (split; [by intros c r [= <- _]|done]).
Qed.
Lemma fraction_back frac ex rest :
  (frac = [] \/ exists fs, frac = 46%N :: fs /\ fs <> [] /\ Forall (fun c => is_ascii_digit c = true) fs) -> no_digit (ex ++ rest) -> fraction (ex ++ rest) = ([], ex ++ rest) ->
  fraction (frac ++ ex ++ rest) = (frac, ex ++ rest) /\ no_digit (frac ++ ex ++ rest).
Proof.
  intros [->|(fs & -> & Hne & Hfs)] Hn Hf; [done|]. split; [|by intros c r [= <- _]].
  unfold fraction. cbn [app]. rewrite (ascii_digits_app fs (ex ++ rest) Hfs Hn). by destruct fs.
Qed.
Lemma float_back x fuel rest : float_text float_repr float_of x -> closes rest -> value (S fuel) (float_repr x ++ rest) = Some (JFloat x, rest).
Proof.
  intros [Hl Hv] Hr. revert Hv. destruct Hl as [negative ds n frac ex Hd Hf He Hfe]. intros Hv. rewrite <- !app_assoc, (signed_value _ _ _ _ _ Hd).
  destruct (exponent_back ex rest Hr He) as (Ee & Hn & Ef). destruct (fraction_back frac ex rest Hf Hn Ef) as [Ef' Hn'].
  destruct Hd as [Hne Hall _ Hlead]. unfold read_unsigned. destruct ds as [|c ds]; [done|]. pose proof Hall as Hall0. apply Forall_cons in Hall as [Hc _].
  cbn [app]. rewrite Hc. cbn [negb].
  assert (E : (if (c =? 48)%N then ([c], ds ++ frac ++ ex ++ rest) else ascii_digits (c :: ds ++ frac ++ ex ++ rest)) = (c :: ds, frac ++ ex ++ rest)).
  { destruct (N.eqb_spec c 48) as [->|Hc48].
    - destruct Hlead as [[= ->]|Hlead]; [done|by destruct Hlead].
    - change (c :: ds ++ frac ++ ex ++ rest) with ((c :: ds) ++ frac ++ ex ++ rest). by apply ascii_digits_app. }
  rewrite E, Ef', Ee. revert Hv Hfe. generalize (frac ++ ex). intros [|a l] Hv Hfe; [done|]. cbn [app] in Hv |- *. by rewrite Hv.
Qed.

Lemma elements_back fuel l rest : forall n, l <> [] -> length l <= n -> Forall (fun v => over v /\ reads fuel v) l ->
  read_elements (value fuel) n (join (u ", ") (map dumps l) ++ 93%N :: rest) = Some (l, rest).
Proof.
  induction l as [|v l IH]; intros [|n] Hne Hn Hl; try done; cbn [length] in Hn; [lia|]. apply Forall_cons in Hl as [[Hp Hv] Hl].
  destruct (dumps_begins v Hp) as (c & t & Hb). cbn [map read_elements]. destruct l as [|v' l].
  - change (join (u ", ") (dumps v :: map dumps [])) with (dumps v). rewrite (skip_begins _ _ _ _ Hb), Hv by (cbn; set_solver). done.
  - change (join (u ", ") (dumps v :: map dumps (v' :: l))) with (dumps v ++ u ", " ++ join (u ", ") (map dumps (v' :: l))).
    rewrite <- !app_assoc, (skip_begins _ _ _ _ Hb). change (u ", ") with [44; 32]%N at 1. cbn [app]. rewrite Hv by (cbn; set_solver).
    cbn [mbind option_bind fst snd]. change (skip_ws (44%N :: ?x)) with (44%N :: x). cbv iota.
    destruct n as [|n]; [cbn in Hn; lia|].
    assert (E : forall s, read_elements (value fuel) (S n) (32%N :: s) = read_elements (value fuel) (S n) s) by done.
    rewrite E, (IH (S n)) by (done || lia). done.
Qed.
Definition member (kv : pystr * json) : pystr := let '(k, v) := kv in json_quote k ++ u ": " ++ dumps v.
Lemma member_text k v rest : member (k, v) ++ rest = 34%N :: (k ≫= json_esc) ++ 34%N :: 58%N :: 32%N :: dumps v ++ rest.
Proof. unfold member, json_quote. change (u ": ") with [58; 32]%N. cbn [app]. by rewrite <- !app_assoc. Qed.

Lemma members_back fuel d rest : forall n, d <> [] -> length d <= n -> Forall (fun kv => over kv.2 /\ reads fuel kv.2) d ->
  read_members (value fuel) n (join (u ", ") (map member d) ++ 125%N :: rest) = Some (d, rest).
Proof.
  induction d as [|[k v] d IH]; intros [|n] Hne Hn Hd; try done; cbn [length] in Hn; [lia|]. apply Forall_cons in Hd as [[Hp Hv] Hd]. cbn [snd] in Hp, Hv.
  destruct (dumps_begins v Hp) as (c & t & Hb). cbn [map read_members]. destruct d as [|kv d].
  - change (join (u ", ") (member (k, v) :: map member [])) with (member (k, v)). rewrite member_text. change (skip_ws (34%N :: ?x)) with (34%N :: x). cbv iota.
    rewrite read_json_quote. cbn [mbind option_bind fst snd]. change (skip_ws (58%N :: ?x)) with (58%N :: x). cbv iota. change (skip_ws (32%N :: ?x)) with (skip_ws x).
    rewrite (skip_begins _ _ _ _ Hb), Hv by (cbn; set_solver). done.
  - change (join (u ", ") (member (k, v) :: map member (kv :: d))) with (member (k, v) ++ u ", " ++ join (u ", ") (map member (kv :: d))).
    rewrite <- !app_assoc, member_text. change (skip_ws (34%N :: ?x)) with (34%N :: x). cbv iota.
    rewrite read_json_quote. cbn [mbind option_bind fst snd]. change (skip_ws (58%N :: ?x)) with (58%N :: x). cbv iota. change (skip_ws (32%N :: ?x)) with (skip_ws x).
    rewrite (skip_begins _ _ _ _ Hb). change (u ", ") with [44; 32]%N at 1. cbn [app]. rewrite Hv by (cbn; set_solver).
    cbn [mbind option_bind fst snd]. change (skip_ws (44%N :: ?x)) with (44%N :: x). cbv iota.
    destruct n as [|n]; [cbn in Hn; lia|].
    assert (E : forall s, read_members (value fuel) (S n) (32%N :: s) = read_members (value fuel) (S n) s) by done.
    rewrite E, (IH (S n)) by (done || lia). done.
Qed.

Lemma dict_of_same (d : list (pystr * json)) : NoDup d.*1 -> dict_of d = d.
Proof.
  unfold dict_of. assert (H : forall acc, NoDup (acc ++ d).*1 -> foldl (fun d '(k, v) => dset k v d) acc d = acc ++ d).
  { induction d as [|[k v] d IH]; intros acc Hn; cbn [foldl]; [by rewrite app_nil_r|].
    assert (Hs : dset k v acc = acc ++ [(k, v)]).
    { rewrite fmap_app in Hn. apply NoDup_app in Hn as (_ & Hn & _). clear IH. induction acc as [|[k1 v1] acc IH]; [done|]. cbn [dset app].
      rewrite decide_False; [|intros ->; apply (Hn k); left]. f_equal. apply IH. intros x Hx. apply Hn. by right. }
    rewrite Hs, IH; rewrite <- app_assoc; done. }
  intros Hn. by apply (H []).
Qed.

Lemma size_pos v : 1 <= json_size v.
Proof. destruct v; cbn; lia. Qed.
Lemma sizes_bound {A} (f : A -> nat) (l : list A) : (forall x, 1 <= f x) -> length l <= list_sum (map f l) /\ Forall (fun x => f x <= list_sum (map f l)) l.
Proof.
  intros Hf. induction l as [|x l [IH1 IH2]]; [by split|]. cbn [map length]. change (list_sum (f x :: map f l)) with (f x + list_sum (map f l)).
  specialize (Hf x). split; [lia|]. constructor; [lia|]. eapply Forall_impl; [exact IH2|]. cbn. lia.
Qed.

(** Enough fuel reads back every value. *)
Lemma value_back n : forall v fuel, json_size v <= n -> n <= fuel -> over v -> reads fuel v.
Proof.
  induction n as [|n IH]; intros v [|fuel] Hs Hf Hp rest Hr; try (pose proof (size_pos v); lia).
  destruct v as [|[]|z|x|s|l|d]; try done.
  - cbn [json_dumps]. destruct (Z_lt_le_dec z 0) as [Hz|Hz].
    + destruct (dec_negative z Hz) as (ds & -> & Hd). change ((45%N :: ds) ++ rest) with ([45%N] ++ ds ++ rest).
      rewrite (signed_value fuel true ds (- z) rest Hd), (read_unsigned_back true _ (- z)) by done. by rewrite Z.opp_involutive.
    + pose proof (dec_decimal z Hz) as Hd. rewrite <- (app_nil_l (dec z ++ rest)). rewrite (signed_value fuel false _ z rest Hd). by apply (read_unsigned_back false).
  - apply float_back; [by apply float_texts|done].
  - cbn [json_dumps json_quote app read_value]. change (34 =? 34)%N with true. cbv iota. rewrite <- app_assoc. cbn [app]. by rewrite read_json_quote.
  - apply over_list in Hp. cbn [json_size] in Hs. destruct (sizes_bound json_size l size_pos) as [Hl Hl'].
    cbn [json_dumps app read_value]. change (91 =? 34)%N with false. change (91 =? 91)%N with true. cbv iota. rewrite <- app_assoc. cbn [app].
    destruct l as [|v l]; [done|].
    assert (Hread : Forall (fun v => over v /\ reads fuel v) (v :: l)).
    { apply Forall_forall. intros w Hw. rewrite Forall_forall in Hp. rewrite Forall_forall in Hl'. split; [by apply Hp|]. apply IH; [specialize (Hl' w Hw); lia|lia|by apply Hp]. }
    pose proof (elements_back fuel (v :: l) rest fuel ltac:(done) ltac:(lia) Hread) as He.
    pose proof Hp as Hp0. apply Forall_cons in Hp0 as [Hpv _]. destruct (dumps_begins v Hpv) as (c & t & [Et Hw Hc93 _]).
    set (body := join (u ", ") (map dumps (v :: l)) ++ 93%N :: rest) in *.
    assert (Hbody : exists r, body = c :: r). { unfold body. cbn [map]. destruct l; cbn [map join]; rewrite Et; by eexists. }
    destruct Hbody as [r Hbody]. rewrite He. rewrite Hbody. cbn [skip_ws]. rewrite Hw.
    destruct c as [|p]; [done|]. repeat (destruct p as [p|p|]; try done).
  - apply over_obj in Hp as [Hnd Hp]. cbn [json_size] in Hs.
    destruct (sizes_bound (fun '(_, x) => json_size x) d ltac:(intros [? x]; apply size_pos)) as [Hl Hl'].
    cbn [json_dumps app read_value]. change (123 =? 34)%N with false. change (123 =? 91)%N with false. change (123 =? 123)%N with true. cbv iota. rewrite <- app_assoc. cbn [app].
    change (fun '(k, v) => json_quote k ++ u ": " ++ json_dumps float_repr v) with member.
    destruct d as [|[k v] d]; [done|].
    assert (Hread : Forall (fun kv => over kv.2 /\ reads fuel kv.2) ((k, v) :: d)).
    { apply Forall_forall. intros [k' w] Hw. rewrite Forall_forall in Hp. rewrite Forall_forall in Hl'. specialize (Hl' _ Hw).
      change (json_size w <= list_sum (map (fun '(_, x) => json_size x) ((k, v) :: d))) in Hl'. split; [by apply (Hp (k', w))|].
      apply IH; [cbn [snd] in *; lia|lia|by apply (Hp (k', w))]. }
    rewrite (members_back fuel _ rest fuel) by (done || lia). cbn [mbind option_bind fst snd]. rewrite dict_of_same by done.
    assert (Hq : exists r, join (u ", ") (map member ((k, v) :: d)) ++ 125%N :: rest = 34%N :: r). { cbn [map]. destruct d; cbn [map join]; unfold member at 1, json_quote; by eexists. }
    destruct Hq as [r ->]. done.
Qed.

Lemma size_length v : over v -> json_size v <= length (dumps v).
Proof.
  assert (Hj : forall (A : Type) (f : A -> pystr) (l : list A), list_sum (map (fun x => length (f x)) l) <= length (join (u ", ") (map f l))).
  { intros A f l. induction l as [|x [|y l] IH]; [cbn; lia|change (length (f x) + 0 <= length (f x)); lia|].
    change (join (u ", ") (map f (x :: y :: l))) with (f x ++ u ", " ++ join (u ", ") (map f (y :: l))).
    change (list_sum (map (fun x => length (f x)) (x :: y :: l))) with (length (f x) + list_sum (map (fun x => length (f x)) (y :: l))). rewrite !length_app. lia. }
  assert (Hm : forall (A : Type) (f g : A -> nat) (l : list A), Forall (fun x => f x <= g x) l -> list_sum (map f l) <= list_sum (map g l)).
  { intros A f g l Hl. induction Hl as [|x l Hx _ IH]; [done|].
    change (f x + list_sum (map f l) <= g x + list_sum (map g l)). lia. }
  assert (H : forall n v, json_size v <= n -> over v -> json_size v <= length (dumps v)); [|by apply (H (json_size v))].
  clear v. induction n as [|n IH]; intros v Hn Hp; [pose proof (size_pos v); lia|].
  destruct v as [|[]|z|x|s|l|d]; try done.
  - by apply Nat.leb_le.
  - by apply Nat.leb_le.
  - by apply Nat.leb_le.
  - destruct (dumps_begins (JInt z) I) as (c & t & [E _ _ _]). rewrite E. cbn. lia.
  - destruct (dumps_begins (JFloat x) Hp) as (c & t & [E _ _ _]). rewrite E. cbn. lia.
  - cbn. lia.
  - apply over_list in Hp. cbn [json_size] in *. destruct (sizes_bound json_size l size_pos) as [_ Hl]. cbn [json_dumps length]. rewrite length_app.
    specialize (Hj _ dumps l). assert (list_sum (map json_size l) <= list_sum (map (fun x => length (dumps x)) l)); [|lia].
    apply Hm. apply Forall_forall. intros x Hx. rewrite Forall_forall in Hl, Hp. apply IH; [specialize (Hl x Hx); lia|by apply Hp].
  - apply over_obj in Hp as [_ Hp]. cbn [json_size] in *.
    destruct (sizes_bound (fun '(_, x) => json_size x) d ltac:(intros [? x]; apply size_pos)) as [_ Hl]. cbn [json_dumps length]. rewrite length_app.
    change (fun '(k, v) => json_quote k ++ u ": " ++ json_dumps float_repr v) with member.
    specialize (Hj _ member d). assert (list_sum (map (fun '(_, x) => json_size x) d) <= list_sum (map (fun x => length (member x)) d)); [|lia].
    apply Hm. apply Forall_forall. intros [k x] Hx. rewrite Forall_forall in Hl, Hp. specialize (Hl _ Hx).
    change (json_size x <= list_sum (map (fun '(_, x) => json_size x) d)) in Hl. unfold member. rewrite !length_app.
    assert (json_size x <= length (dumps x)); [|lia]. apply IH; [lia|by apply (Hp (k, x))].
Qed.

(** What [json.dumps] wrote, [json.loads] gives back. *)
Lemma json_loads_over v : over v -> json_loads float_of (dumps v) = Some v.
Proof.
  intros Hp. destruct (dumps_begins v Hp) as (c & t & Hb). pose proof (value_back (S (length (dumps v))) v (S (length (dumps v)))) as H.
  pose proof (size_length v Hp) as Hs. specialize (H ltac:(lia) ltac:(lia) Hp [] I). rewrite app_nil_r in H. pose proof (skip_begins _ _ _ [] Hb) as Hsk. rewrite app_nil_r in Hsk.
  unfold json_loads. rewrite Hsk, H. destruct Hb as [-> Hw _ Hasc]. cbn [mbind option_bind fst snd skip_ws].
  assert (Hbom : c <> 65279%N) by lia.
  destruct c as [|p]; [done|]. repeat (destruct p as [p|p|]; try (reflexivity || by destruct Hbom)).
Qed.

(** A text is on one line. *)
Lemma digits_unfeed ds : Forall (fun c => is_ascii_digit c = true) ds -> unfeed ds.
Proof. intros Hds. eapply Forall_impl; [exact Hds|]. intros c Hc ->. vm_compute in Hc. discriminate Hc. Qed.
Lemma unfeed_lit s : forallb (fun c => negb (c =? 10)%N) s = true -> unfeed s.
Proof. intros H. apply Forall_forall. intros c Hc. rewrite forallb_elem in H. specialize (H c Hc). by apply negb_true_iff, N.eqb_neq in H. Qed.
Lemma literal_unfeed s : float_literal s -> unfeed s.
Proof.
  destruct 1 as [negative ds n frac ex [_ Hd _ _] Hf He _]. apply Forall_app. split; [by destruct negative; apply unfeed_lit|].
  apply Forall_app. split; [by apply digits_unfeed|]. apply Forall_app. split.
  - destruct Hf as [->|(fs & -> & _ & Hfs)]; [by constructor|]. constructor; [done|by apply digits_unfeed].
  - destruct He as [->|(e & sign & es & -> & He & Hs & _ & Hes)]; [by constructor|]. constructor.
    + intros ->. by apply list_elem_of_In in He as [[=]|[[=]|[]]].
    + apply Forall_app. split; [|by apply digits_unfeed]. apply list_elem_of_In in Hs as [<-|[<-|[<-|[]]]]; by apply unfeed_lit.
Qed.
Lemma hex_unfeed n : (n < 16)%N -> hex_digit n <> 10%N.
Proof. intros Hn. unfold hex_digit. destruct (n <? 10)%N; lia. Qed.
Lemma quote_unfeed s : unfeed (json_quote s).
Proof.
  constructor; [done|]. apply Forall_app. split; [|by repeat constructor].
  induction s as [|c s IH]; [by constructor|]. change ((c :: s) ≫= json_esc) with (json_esc c ++ (s ≫= json_esc)). apply Forall_app. split; [|exact IH].
  unfold json_esc. destruct (c =? 34)%N; [by repeat constructor|]. destruct (c =? 92)%N; [by repeat constructor|].
  destruct (N.eqb_spec c 10) as [_|Hc]; [by repeat constructor|]. do 4 (destruct (_ =? _)%N; [by repeat constructor|]).
  destruct (c <? 32)%N eqn:E; [|by repeat constructor]. apply N.ltb_lt in E. do 4 (constructor; [done|]).
  assert (Hq : (c / 16 < 16)%N) by (apply N.Div0.div_lt_upper_bound; lia). pose proof (N.mod_upper_bound c 16 ltac:(lia)) as Hm.
  constructor; [by apply hex_unfeed|]. constructor; [by apply hex_unfeed|by constructor].
Qed.
Lemma dumps_unfeed v : over v -> unfeed (dumps v).
Proof.
  assert (Hsep : unfeed (u ", ") /\ unfeed (u ": ")) by (split; apply unfeed_lit; vm_compute; reflexivity). destruct Hsep as [Hsep Hsep'].
  assert (H : forall n v, json_size v <= n -> over v -> unfeed (dumps v)); [|by apply (H (json_size v))].
  clear v. induction n as [|n IH]; intros v Hn Hp; [pose proof (size_pos v); lia|].
  destruct v as [|[]|z|x|s|l|d]; try (apply unfeed_lit; vm_compute; reflexivity).
  - cbn [json_dumps]. destruct (Z_lt_le_dec z 0) as [Hz|Hz].
    + destruct (dec_negative z Hz) as (ds & -> & [_ Hd _ _]). constructor; [done|by apply digits_unfeed].
    + destruct (dec_decimal z Hz) as [_ Hd _ _]. by apply digits_unfeed.
  - destruct (float_texts x Hp) as [Hl _]. by apply literal_unfeed.
  - apply quote_unfeed.
  - apply over_list in Hp. cbn [json_size] in Hn. destruct (sizes_bound json_size l size_pos) as [_ Hl]. cbn [json_dumps].
    constructor; [done|]. apply Forall_app. split; [|by repeat constructor]. apply join_Forall; [exact Hsep|].
    apply Forall_forall. intros t (x & -> & Hx)%list_elem_of_fmap. rewrite Forall_forall in Hp, Hl. apply IH; [specialize (Hl x Hx); lia|by apply Hp].
  - apply over_obj in Hp as [_ Hp]. cbn [json_size] in Hn.
    destruct (sizes_bound (fun '(_, x) => json_size x) d ltac:(intros [? x]; apply size_pos)) as [_ Hl]. cbn [json_dumps].
    constructor; [done|]. apply Forall_app. split; [|by repeat constructor]. apply join_Forall; [exact Hsep|].
    apply Forall_forall. intros t ([k x] & -> & Hx)%list_elem_of_fmap. rewrite Forall_forall in Hp, Hl. specialize (Hl _ Hx).
    change (json_size x <= list_sum (map (fun '(_, x) => json_size x) d)) in Hl.
    apply Forall_app. split; [by apply quote_unfeed|]. apply Forall_app. split; [exact Hsep'|]. apply IH; [lia|by apply (Hp (k, x))].
Qed.
End back.

Lemma json_loads_dumps float_repr float_of v : plain_json v -> json_loads float_of (json_dumps float_repr v) = Some v.
Proof. by apply (json_loads_over float_repr float_of (fun _ => False)). Qed.
