(* ===== verification/State.v ===== *)
(** * The graph's state ([app/graph/state])

    The flat dictionary a conversation is checkpointed as, the message list next to
    it, and the views the nodes read it through. *)

From stdpp Require Import base list gmap strings.
From Stdlib Require Import Floats.SpecFloat.
From S2P Require Import Prelude PyText Json Window.

(** [CSState]: the scalar keys, and the [messages] channel. *)
Record CSState := {
  cs_fields : dict;
  cs_messages : list message;
}.

(** ** Views ([views.py]) *)

Record IdentityView := {
  iv_query : pystr;
  iv_user_id : pystr;
  iv_tenant_id : pystr;
  iv_session_id : pystr;
}.

Definition identity_from_state (default_tenant : pystr) (state : dict) : IdentityView :=
  {| iv_query := get_str (u "query") state;
     iv_user_id := str_or (strip (get_str (u "user_id") state)) (u "anonymous");
     iv_tenant_id := str_or (strip (get_str (u "tenant_id") state)) default_tenant;
     iv_session_id := strip (get_str (u "session_id") state) |}.

(** [float(d.get(k) or 0.0)], for a number. *)
Definition get_float (k : pystr) (d : dict) : pyfloat :=
  match get k d with JFloat x => if f_truthy x then x else f_zero | _ => f_zero end.

Record RouteView := {
  rv_intent : pystr;
  rv_target : pystr;
  rv_confidence : pyfloat;
  rv_needs_clarification : bool;
  rv_clarification_question : option pystr;
  rv_order_no : option pystr;
  rv_course_query : option pystr;
  rv_blocked : bool;
  rv_block_reason : pystr;
  rv_rag_upgraded_to_supervisor : bool;
}.

Definition route_from_state (state : dict) : RouteView :=
  {| rv_intent := get_str (u "intent") state;
     rv_target := get_str (u "target") state;
     rv_confidence := get_float (u "confidence") state;
     rv_needs_clarification := get_bool (u "needs_clarification") state;
     rv_clarification_question := get_raw_ostr (u "clarification_question") state;
     rv_order_no := get_ostr (u "order_no") state;
     rv_course_query := get_ostr (u "course_query") state;
     rv_blocked := get_bool (u "blocked") state;
     rv_block_reason := get_str (u "block_reason") state;
     rv_rag_upgraded_to_supervisor := get_bool (u "rag_upgraded_to_supervisor") state |}.

Record MemoryView := {
  mv_last_intent : option pystr;
  mv_last_order_no : option pystr;
  mv_last_course_query : option pystr;
  mv_last_course_name : option pystr;
  mv_handoff_pending : bool;
  mv_last_order_structured : option (list (pystr * json));
  mv_last_course_structured : option (list (pystr * json));
  mv_last_course_structured_key : option pystr;
  mv_session_summary : pystr;
}.

Definition memory_from_state (state : dict) : MemoryView :=
  {| mv_last_intent := get_ostr (u "last_intent") state;
     mv_last_order_no := get_ostr (u "last_order_no") state;
     mv_last_course_query := get_ostr (u "last_course_query") state;
     mv_last_course_name := get_ostr (u "last_course_name") state;
     mv_handoff_pending := get_bool (u "handoff_pending") state;
     mv_last_order_structured := get_obj (u "last_order_structured") state;
     mv_last_course_structured := get_obj (u "last_course_structured") state;
     mv_last_course_structured_key := get_ostr (u "last_course_structured_key") state;
     mv_session_summary := get_str (u "session_summary") state |}.

Definition jobj (o : option (list (pystr * json))) : json :=
  match o with Some d => JObj d | None => JNull end.

(** [as_state]. *)
Definition memory_as_state (m : MemoryView) : list (pystr * json) :=
  [(u "last_intent", jopt (mv_last_intent m)); (u "last_order_no", jopt (mv_last_order_no m));
   (u "last_course_query", jopt (mv_last_course_query m));
   (u "last_course_name", jopt (mv_last_course_name m));
   (u "handoff_pending", JBool (mv_handoff_pending m));
   (u "last_order_structured", jobj (mv_last_order_structured m));
   (u "last_course_structured", jobj (mv_last_course_structured m));
   (u "last_course_structured_key", jopt (mv_last_course_structured_key m));
   (u "session_summary", JStr (mv_session_summary m))].

Record ResultView := {
  res_answer : pystr;
  res_structured : option (list (pystr * json));
  res_visualization : option pystr;
  res_oss_url : option pystr;
}.

Definition result_from_state (state : dict) : ResultView :=
  {| res_answer := get_str (u "answer") state;
     res_structured := get_obj (u "structured") state;
     res_visualization := get_raw_ostr (u "visualization") state;
     res_oss_url := get_raw_ostr (u "oss_url") state |}.

(** ** The turn's fields ([route.py], [result.py], [turn.py]) *)

Definition ROUTE_TURN_RESET : list (pystr * json) :=
  [(u "blocked", JBool false); (u "block_reason", JStr []); (u "intent", JStr []);
   (u "target", JStr []); (u "confidence", JFloat f_zero); (u "needs_clarification", JBool false);
   (u "clarification_question", JNull); (u "order_no", JNull); (u "course_query", JNull);
   (u "rag_upgraded_to_supervisor", JBool false)].

Definition RESULT_TURN_RESET : list (pystr * json) :=
  [(u "answer", JStr []); (u "structured", JNull); (u "visualization", JNull); (u "oss_url", JNull)].

Definition reset_turn_fields : list (pystr * json) := ROUTE_TURN_RESET ++ RESULT_TURN_RESET.

Definition MEMORY_SLOT_KEYS : list pystr :=
  map u ["last_intent"; "last_order_no"; "last_course_query"; "last_course_name"; "handoff_pending";
         "last_order_structured"; "last_course_structured"; "last_course_structured_key"]%string.

(** ** Properties *)

(** A display of distinct keys, read back. *)
Lemma lookup_mkdict_app (l l' : list (pystr * json)) (k : pystr) :
  mkdict (l ++ l') !! k = match mkdict l' !! k with Some v => Some v | None => mkdict l !! k end.
Proof.
  unfold mkdict. rewrite foldl_app. generalize (foldl (fun (d : dict) '(k, v) => <[k:=v]> d) ∅ l) as d.
  induction l' as [|[k' v'] l' IH] using rev_ind; intros d; cbn [foldl].
  - by rewrite lookup_empty.
  - rewrite !foldl_app. cbn [foldl]. rewrite !lookup_insert.
    destruct (decide (k' = k)); [done|]. apply IH.
Qed.

Lemma lookup_mkdict_cons k v (l : list (pystr * json)) (j : pystr) :
  mkdict ((k, v) :: l) !! j =
  match mkdict l !! j with Some w => Some w | None => if bool_decide (k = j) then Some v else None end.
Proof.
  change ((k, v) :: l) with ([(k, v)] ++ l). rewrite lookup_mkdict_app, mkdict_one. done.
Qed.

(** Look a literal key up in a display of literal keys. *)
Ltac read_display :=
  repeat (rewrite lookup_mkdict_cons); change (mkdict []) with (∅ : dict); rewrite ?lookup_empty;
  lit_eq; cbn iota.

Lemma get_mkdict (k : pystr) (l : list (pystr * json)) : get k (mkdict l) = default JNull (mkdict l !! k).
Proof. done. Qed.

Lemma get_ostr_jopt (o : option pystr) k d :
  d !! k = Some (jopt (o ≫= str_or_none)) -> get_ostr k d = o ≫= str_or_none.
Proof.
  unfold get_ostr, get. intros ->. destruct o as [s|]; cbn; [|done].
  unfold str_or_none. by destruct (truthy s) eqn:E; cbn; rewrite ?E.
Qed.

Lemma get_ostr_idem k d : get_ostr k d = get_ostr k d ≫= str_or_none.
Proof.
  unfold get_ostr. destruct (get k d); try done. unfold str_or_none.
  destruct (truthy s) eqn:E; cbn; by rewrite ?E.
Qed.

Lemma memory_roundtrip (state : dict) :
  let m := memory_from_state state in
  memory_from_state (mkdict (memory_as_state m)) = m.
Proof.
  cbn zeta. unfold memory_from_state at 1.
  assert (Hs : forall k k' v, get_ostr k (mkdict (memory_as_state (memory_from_state state))) = v ->
            mkdict (memory_as_state (memory_from_state state)) !! k = Some (jopt (get_ostr k' state)) ->
            v = get_ostr k' state).
  { intros k k' v <- Hk. rewrite (get_ostr_idem k') in Hk |- *. by apply get_ostr_jopt. }
  set (d := mkdict _) in *.
  assert (H1 : d !! u "last_intent" = Some (jopt (get_ostr (u "last_intent") state)))
    by (unfold d, memory_as_state; read_display; done).
  assert (H2 : d !! u "last_order_no" = Some (jopt (get_ostr (u "last_order_no") state)))
    by (unfold d, memory_as_state; read_display; done).
  assert (H3 : d !! u "last_course_query" = Some (jopt (get_ostr (u "last_course_query") state)))
    by (unfold d, memory_as_state; read_display; done).
  assert (H4 : d !! u "last_course_name" = Some (jopt (get_ostr (u "last_course_name") state)))
    by (unfold d, memory_as_state; read_display; done).
  assert (H5 : d !! u "last_course_structured_key" =
      Some (jopt (get_ostr (u "last_course_structured_key") state)))
    by (unfold d, memory_as_state; read_display; done).
  assert (H6 : get_bool (u "handoff_pending") d = get_bool (u "handoff_pending") state)
    by (unfold d, memory_as_state, get_bool at 1, get at 1; read_display; done).
  assert (H7 : get_obj (u "last_order_structured") d = get_obj (u "last_order_structured") state).
  { unfold d, memory_as_state, get_obj at 1, get at 1. read_display. cbn.
    by destruct (get_obj (u "last_order_structured") state). }
  assert (H8 : get_obj (u "last_course_structured") d = get_obj (u "last_course_structured") state).
  { unfold d, memory_as_state, get_obj at 1, get at 1. read_display. cbn.
    by destruct (get_obj (u "last_course_structured") state). }
  assert (H9 : get_str (u "session_summary") d = get_str (u "session_summary") state)
    by (unfold d, memory_as_state, get_str at 1, get at 1; read_display; done).
  unfold memory_from_state. f_equal; try assumption; by eapply Hs.
Qed.

(** A leading entry that is no memory key is not seen. *)
Lemma memory_other_key v (m : MemoryView) :
  memory_from_state (mkdict ((u "messages", v) :: memory_as_state m)) =
  memory_from_state (mkdict (memory_as_state m)).
Proof.
  unfold memory_from_state, get_ostr, get_str, get_bool, get_obj, get.
  rewrite !(lookup_mkdict_cons (u "messages")). lit_eq. cbn iota.
  by repeat match goal with |- context [mkdict (memory_as_state m) !! ?k] =>
    destruct (mkdict (memory_as_state m) !! k) end.
Qed.

(** A new turn starts clean: after the reset every field of the previous turn's route
    and result reads as unset, and identity and memory read as before. *)
Theorem reset_starts_clean (state : dict) (default_tenant : pystr) :
  let state' := dmerge state (mkdict reset_turn_fields) in
  route_from_state state' =
    {| rv_intent := []; rv_target := []; rv_confidence := f_zero; rv_needs_clarification := false;
       rv_clarification_question := None; rv_order_no := None; rv_course_query := None;
       rv_blocked := false; rv_block_reason := []; rv_rag_upgraded_to_supervisor := false |} /\
  result_from_state state' =
    {| res_answer := []; res_structured := None; res_visualization := None; res_oss_url := None |} /\
  memory_from_state state' = memory_from_state state /\
  identity_from_state default_tenant state' = identity_from_state default_tenant state.
Proof.
  cbn zeta.
  assert (Hget : forall k, get k (dmerge state (mkdict reset_turn_fields)) =
    match mkdict reset_turn_fields !! k with Some v => v | None => get k state end)
    by (intros; apply get_dmerge).
  unfold route_from_state, result_from_state, memory_from_state, identity_from_state, get_str, get_bool,
    get_float, get_ostr, get_raw_ostr, get_obj.
  rewrite !Hget.
  repeat match goal with
  | |- context [mkdict reset_turn_fields !! ?k] =>
    let r := eval vm_compute in (mkdict reset_turn_fields !! k) in
    replace (mkdict reset_turn_fields !! k) with r by (vm_compute; reflexivity)
  end.
  done.
Qed.
