(* ===== verification/Archive.v ===== *)
(** * Cold storage of conversations and profiles ([app/db/archive.py])

    Two tables of JSON text: a row per conversation and a row per user.  A database
    error is logged and swallowed: [up] says whether the call reaches the table. *)

From stdpp Require Import base list gmap strings.
From S2P Require Import Prelude PyText Errors Json Window State.

Open Scope py_scope.

(** ** Messages *)

Definition encode_messages (messages : list message) : list json :=
  omap (fun m =>
    let entry (role : pystr) := Some (JObj [(u "role", JStr role); (u "content", JStr (msg_text m))]) in
    match msg_role m with
    | HumanMessage => entry (u "human")
    | AIMessage => entry (u "ai")
    | SystemMessage | OtherMessage => None
    end) messages.

Definition new_message (r : role) (text : pystr) : message :=
  {| msg_role := r; msg_text := text; msg_id := None |}.

(** [d.get(k)] on a decoded object. *)
Definition entry_get (k : pystr) (d : list (pystr * json)) : json :=
  match find (fun kv => bool_decide (kv.1 = k)) d with Some kv => kv.2 | None => JNull end.
Definition as_text (v : json) : pystr := match v with JStr s => s | _ => [] end.

Definition decode_message (item : json) : option message :=
  match item with
  | JObj d =>
    let role := as_text (entry_get (u "role") d) in
    let text := as_text (entry_get (u "content") d) in
    if bool_decide (role = u "human") then Some (new_message HumanMessage text)
    else if bool_decide (role = u "ai") then Some (new_message AIMessage text)
    else None
  | _ => None
  end.

Definition decode_messages (raw : json) : list message :=
  match raw with JList l => omap decode_message l | _ => [] end.

(** ** Rows *)

Definition build_session_state_payload (state : CSState) : list (pystr * json) :=
  (u "messages", JList (encode_messages (cs_messages state)))
    :: memory_as_state (memory_from_state (cs_fields state)).

Definition archive_to_graph_inputs (archived : list (pystr * json)) : CSState :=
  {| cs_fields := mkdict (memory_as_state (memory_from_state (mkdict archived)));
     cs_messages := decode_messages (entry_get (u "messages") archived) |}.

Record session_row (T : Type) := { row_thread_id : pystr; row_state_json : T }.
Arguments row_thread_id {T}.
Arguments row_state_json {T}.
Arguments Build_session_row {T}.

Section archive.
Context {T : Type} `{JsonText T}.

(** The unique keys of the two tables. *)
Abbreviation sessions := (gmap (pystr * pystr * pystr) (session_row T)).
Abbreviation profiles := (gmap (pystr * pystr) T).

Definition session_key (tenant_id user_id session_id : pystr) : pystr * pystr * pystr :=
  (str_or (strip tenant_id) (u "demo"), str_or (strip user_id) (u "anonymous"), strip session_id).

(** The statement of the [try]: the row is replaced, or added. *)
Definition put_session (thread_id : pystr) (blob : T) (key : pystr * pystr * pystr) (db : sessions) : sessions :=
  match db !! key with
  | None => <[key := Build_session_row thread_id blob]> db
  | Some row =>
    <[key := Build_session_row (if truthy thread_id then thread_id else row_thread_id row) blob]> db
  end.

Definition upsert_session_archive (up : bool) (tenant_id user_id session_id thread_id : pystr)
    (state : CSState) (db : sessions) : sessions :=
  let key := session_key tenant_id user_id session_id in
  if negb (truthy (strip session_id)) then db
  else if negb up then db
  else put_session thread_id (dumps (JObj (build_session_state_payload state))) key db.

(** The decoded text of a row: an object, or nothing. *)
Definition decode_blob (blob : T) : option (list (pystr * json)) :=
  if negb (text_truthy blob) then None
  else match loads blob with Ok (JObj d) => Some d | _ => None end.

Definition load_session_archive (up : bool) (tenant_id user_id session_id : pystr) (db : sessions)
    : option (list (pystr * json)) :=
  if negb (truthy (strip session_id)) then None
  else if negb up then None
  else match db !! session_key tenant_id user_id session_id with
       | None => None
       | Some row => decode_blob (row_state_json row)
       end.

Definition profile_key (tenant_id user_id : pystr) : pystr * pystr :=
  (str_or (strip tenant_id) (u "demo"), strip user_id).

Definition upsert_user_profile (up : bool) (tenant_id user_id : pystr) (profile : list (pystr * json))
    (db : profiles) : profiles :=
  if negb (truthy (strip user_id)) then db
  else if negb up then db
  else <[profile_key tenant_id user_id := dumps (JObj profile)]> db.

Definition load_user_profile (up : bool) (tenant_id user_id : pystr) (db : profiles)
    : option (list (pystr * json)) :=
  if negb (truthy (strip user_id)) then None
  else if negb up then None
  else match db !! profile_key tenant_id user_id with
       | None => None
       | Some blob => decode_blob blob
       end.
End archive.

(** ** Properties *)

(** What the archive keeps of a message list. *)
Definition archived_messages (l : list message) : list message :=
  omap (fun m => match msg_role m with
                 | SystemMessage | OtherMessage => None
                 | r => Some (new_message r (msg_text m))
                 end) l.

Lemma decode_encode l : decode_messages (JList (encode_messages l)) = archived_messages l.
Proof.
  induction l as [|[r t i] l IH]; [done|].
  unfold encode_messages, archived_messages in *. cbn [omap list_omap msg_role msg_text].
  destruct r; cbn [decode_messages] in *; cbn [omap list_omap]; [| |exact IH|exact IH];
    unfold decode_message at 1, entry_get; cbn [find fst snd]; lit_eq; cbn [as_text snd]; lit_eq;
    by rewrite IH.
Qed.

Section roundtrip.
Context {T : Type} `{JsonTextLaws T}.
Abbreviation sessions := (gmap (pystr * pystr * pystr) (session_row T)).

Lemma decode_dumps d : decode_blob (dumps (JObj d)) = Some d.
Proof using All. unfold decode_blob. by rewrite dumps_truthy, loads_dumps. Qed.

Lemma put_session_row (thread : pystr) (blob : T) (key : pystr * pystr * pystr) (db : sessions) :
  exists row, put_session thread blob key db = <[key := row]> db /\ row_state_json row = blob.
Proof using Type. unfold put_session. destruct (db !! key); eauto. Qed.

(** A row that was written is read back. *)
Lemma load_upserted (tenant user session thread : pystr) (state : CSState) (db : sessions)
    (tenant' user' session' : pystr) : truthy (strip session) = true ->
  session_key tenant' user' session' = session_key tenant user session ->
  exists d, load_session_archive true tenant' user' session'
              (upsert_session_archive true tenant user session thread state db) = Some d /\
    memory_from_state (cs_fields (archive_to_graph_inputs d)) = memory_from_state (cs_fields state) /\
    cs_messages (archive_to_graph_inputs d) = archived_messages (cs_messages state).
Proof using All.
  intros Hs Hk. unfold upsert_session_archive, load_session_archive. rewrite Hs. cbn [negb].
  set (payload := build_session_state_payload state).
  destruct (put_session_row thread (dumps (JObj payload)) (session_key tenant user session) db) as (row & -> & Hrow).
  assert (Hs' : truthy (strip session') = true).
  { unfold session_key in Hk. by injection Hk as _ _ ->. }
  rewrite Hs'. cbn [negb]. rewrite Hk, lookup_insert_eq, Hrow, decode_dumps.
  exists payload. split; [done|]. split; [|apply decode_encode].
  unfold archive_to_graph_inputs. cbn [cs_fields].
  etransitivity; [apply (memory_roundtrip (mkdict payload))|].
  etransitivity; [apply memory_other_key|apply memory_roundtrip].
Qed.

(** A conversation restored from the archive is the one that was archived: its slots and
    summary, and its customer and assistant messages in order (other messages, and
    message ids, are not kept).  No other conversation is touched. *)
Theorem archive_roundtrip (tenant user session thread : pystr) (state : CSState) (db : sessions)
    (tenant' user' session' : pystr) :
  truthy (strip session) = true ->
  let db' := upsert_session_archive true tenant user session thread state db in
  if decide (session_key tenant' user' session' = session_key tenant user session)
  then exists d, load_session_archive true tenant' user' session' db' = Some d /\
       memory_from_state (cs_fields (archive_to_graph_inputs d)) = memory_from_state (cs_fields state) /\
       cs_messages (archive_to_graph_inputs d) = archived_messages (cs_messages state)
  else load_session_archive true tenant' user' session' db' =
       load_session_archive true tenant' user' session' db.
Proof using All.
  intros Hs. cbn zeta. destruct (decide _) as [Hk|Hk]; [by apply load_upserted|].
  unfold upsert_session_archive, load_session_archive. rewrite Hs. cbn [negb].
  destruct (put_session_row thread (dumps (JObj (build_session_state_payload state)))
    (session_key tenant user session) db) as (row & -> & _).
  destruct (negb (truthy (strip session'))); [done|]. by rewrite lookup_insert_ne by done.
Qed.
End roundtrip.

(** ** Examples *)

Module Demo.
Definition said (r : role) (s : string) (i : string) : message :=
  {| msg_role := r; msg_text := u s; msg_id := Some (u i) |}.
Definition state : CSState :=
  {| cs_fields := mkdict [(u "last_intent", JStr (u "order")); (u "last_order_no", JStr (u "20251114001"));
                          (u "answer", JStr (u "已支付")); (u "handoff_pending", JBool true)];
     cs_messages := [said HumanMessage "查订单" "1"; said OtherMessage "tool" "2";
                     said AIMessage "已支付" "3"] |}.
End Demo.

Lemma archive_roundtrip_witness :
  exists d, load_session_archive true (u "demo") (u " alice ") (u "s1")
      (upsert_session_archive (T := json) true (u "demo") (u "alice") (u "s1") (u "t") Demo.state ∅) = Some d /\
    memory_from_state (cs_fields (archive_to_graph_inputs d)) = memory_from_state (cs_fields Demo.state) /\
    cs_messages (archive_to_graph_inputs d) = [new_message HumanMessage (u "查订单"); new_message AIMessage (u "已支付")].
Proof.
  pose proof (archive_roundtrip (T := json) (u "demo") (u "alice") (u "s1") (u "t") Demo.state ∅ (u "demo")
    (u " alice ") (u "s1") eq_refl) as H.
  cbv zeta in H. rewrite decide_True in H by (vm_compute; reflexivity). exact H.
Defined.
