(* ===== verification/Slots.v ===== *)
(** * Conversation slots ([app/context/slots.py])

    What a conversation remembers between turns (intent, order, course), and how a
    short follow-up question takes it up again. *)

From stdpp Require Import base list gmap strings.
From Stdlib Require Import Floats.SpecFloat.
From S2P Require Import Prelude PyText PyRe OrderNo Schemas Window Json.

(** [BUSINESS_INTENTS], as the parse of a stored intent. *)
Definition business_intent (s : option pystr) : option Intent :=
  find (fun i => bool_decide (s = Some (intent_str i))) [course_consult; order; mixed; handoff].

Definition is_business (i : Intent) : bool :=
  match i with course_consult | order | mixed | handoff => true | _ => false end.

(** [intent in BUSINESS_INTENTS]. *)
Definition is_business_str (intent : pystr) : bool :=
  match business_intent (Some intent) with Some _ => true | None => false end.

Definition CONTINUE_HINTS : list pystr :=
  map u ["继续"; "还有"; "然后呢"; "接着"; "再问"; "补充一下"]%string.
Definition DEICTIC_HINTS : list pystr := map u ["这"; "那"; "它"; "该"; "此"]%string.
Definition ORDER_FOLLOWUP_HINTS : list pystr :=
  map u ["进度"; "退款"; "到哪"; "怎么样"; "何时"; "什么时候"; "开课"]%string.
Definition COURSE_FOLLOWUP_HINTS : list pystr :=
  map u ["难"; "适合"; "多少钱"; "内容"; "大纲"; "模块"; "能学"]%string.
Definition MISSING_COURSE_NAMES : list pystr := map u [""; "未找到课程"]%string.

Record SessionSlots := {
  last_intent : option pystr;
  last_order_no : option pystr;
  last_course_query : option pystr;
  last_course_name : option pystr;
  handoff_pending : bool;
}.

Definition no_slots : SessionSlots :=
  {| last_intent := None; last_order_no := None; last_course_query := None;
     last_course_name := None; handoff_pending := false |}.

(** [SessionSlots.from_state], through [MemoryView]. *)
Definition slots_from_state (state : dict) : SessionSlots :=
  {| last_intent := get_ostr (u "last_intent") state;
     last_order_no := get_ostr (u "last_order_no") state;
     last_course_query := get_ostr (u "last_course_query") state;
     last_course_name := get_ostr (u "last_course_name") state;
     handoff_pending := get_bool (u "handoff_pending") state |}.

Definition is_followup (text : pystr) : bool :=
  let query := strip text in
  if negb (truthy query) then false
  else if contains_any CONTINUE_HINTS query then true
  else if (length query <=? 20) && contains_any DEICTIC_HINTS query then true
  else if (length query <=? 10) && contains_any ORDER_FOLLOWUP_HINTS query then true
  else if (length query <=? 10) && contains_any COURSE_FOLLOWUP_HINTS query then true
  else false.

(** 0.85. *)
Definition CONFIDENCE_FOLLOWUP : pyfloat := fl 7656119366529843 (-53).

(** The follow-up branch: the stored intent takes over. *)
Definition resume_intent (slots : SessionSlots) (text : pystr) (d : RouteDecision) : RouteDecision :=
  match rd_intent d, is_followup text, business_intent (last_intent slots) with
  | (chitchat | ambiguous), true, Some intent =>
    {| rd_intent := intent; rd_target := rd_target d;
       rd_confidence := f_max (rd_confidence d) CONFIDENCE_FOLLOWUP;
       rd_order_no := rd_order_no d;
       rd_course_query :=
         if bool_decide (intent = course_consult \/ intent = mixed)
            && negb (otruthy (rd_course_query d))
         then ostr_or (last_course_name slots) (last_course_query slots)
         else rd_course_query d;
       rd_needs_clarification := false; rd_clarification_question := None;
       rd_reason := u "slot-followup" |}
  | _, _, _ => d
  end.

Definition apply_session_slots (text : pystr) (decision : RouteDecision) (slots : SessionSlots)
    : RouteDecision :=
  let d := resume_intent slots text decision in
  let order_no :=
    if bool_decide (rd_intent d = order \/ rd_intent d = mixed) && negb (otruthy (rd_order_no d))
    then last_order_no slots else rd_order_no d in
  let course_query :=
    if bool_decide (rd_intent d = course_consult \/ rd_intent d = mixed) then
      let short := length (strip text) <? SHORT_QUERY_CHARS in
      if short || negb (otruthy (rd_course_query d)) then
        ostr_or (ostr_or (ostr_or (rd_course_query d) (last_course_name slots))
                   (last_course_query slots)) (Some text)
      else rd_course_query d
    else rd_course_query d in
  {| rd_intent := rd_intent d; rd_target := intent_to_target (rd_intent d);
     rd_confidence := rd_confidence d; rd_order_no := order_no;
     rd_course_query := course_query; rd_needs_clarification := rd_needs_clarification d;
     rd_clarification_question := rd_clarification_question d; rd_reason := rd_reason d |}.

(** The updates a finished turn writes back; a key not recognised is left alone. *)
Definition slot_updates_after_turn (intent : pystr) (order_no course_query course_name : option pystr)
    : dict :=
  let name := strip (opt_str course_name) in
  mkdict ([(u "handoff_pending", JBool (bool_decide (intent = u "handoff")))]
    ++ (if is_business_str intent then [(u "last_intent", JStr intent)] else [])
    ++ (if otruthy order_no then [(u "last_order_no", jopt order_no)] else [])
    ++ (if otruthy course_query then [(u "last_course_query", jopt course_query)] else [])
    ++ (if truthy name && negb (bool_decide (name ∈ MISSING_COURSE_NAMES))
        then [(u "last_course_name", JStr name)] else [])).

(** ** Properties *)

Lemma business_intent_some s i :
  business_intent s = Some i <-> s = Some (intent_str i) /\ is_business i = true.
Proof.
  split.
  - intros [Hin Hs%bool_decide_eq_true]%List.find_some. split; [done|].
    repeat destruct Hin as [<-|Hin]; done.
  - intros [-> Hb]. by destruct i; vm_compute.
Qed.

Lemma resume_order_no slots text d : rd_order_no (resume_intent slots text d) = rd_order_no d.
Proof.
  unfold resume_intent.
  by destruct (rd_intent d), (is_followup text), (business_intent (last_intent slots)).
Qed.

(** A number the decision already has is kept. *)
Lemma apply_session_slots_order text d slots :
  otruthy (rd_order_no d) = true -> rd_order_no (apply_session_slots text d slots) = rd_order_no d.
Proof.
  intros Ho. cbn [apply_session_slots rd_order_no]. rewrite resume_order_no, Ho.
  by rewrite andb_false_r.
Qed.

(** A new topic is never overwritten: the slots change the recognised intent only
    when it is small talk or ambiguous, the question reads as a follow-up, and the
    remembered intent is a business one, which then takes over with no
    clarification pending; in every case the target is the intent's. *)
Theorem apply_session_slots_intent text d slots :
  let r := apply_session_slots text d slots in
  rd_target r = intent_to_target (rd_intent r) /\
  (rd_intent r = rd_intent d \/
   ((rd_intent d = chitchat \/ rd_intent d = ambiguous) /\ is_followup text = true /\
    last_intent slots = Some (intent_str (rd_intent r)) /\ is_business (rd_intent r) = true /\
    rd_needs_clarification r = false /\ rd_clarification_question r = None)).
Proof.
  cbn zeta. split; [done|]. cbn [apply_session_slots rd_intent rd_needs_clarification
    rd_clarification_question]. unfold resume_intent.
  destruct (is_followup text); [|destruct (rd_intent d) eqn:Ed; left; congruence].
  destruct (business_intent (last_intent slots)) as [i|] eqn:Ei;
    [|destruct (rd_intent d) eqn:Ed; left; congruence].
  apply business_intent_some in Ei as [Hl Hb].
  destruct (rd_intent d) eqn:Ed; cbn [rd_intent]; rewrite ?Ed; try (by left);
    right; repeat split; auto.
Qed.

(** Filling in: a number or course the question itself gives is never replaced;
    an order question without one takes the conversation's, and a course question
    without one takes the conversation's course, or the question itself. *)
Theorem apply_session_slots_fill text d slots :
  let r := apply_session_slots text d slots in
  let slot_course := ostr_or (last_course_name slots) (last_course_query slots) in
  (otruthy (rd_order_no d) = true -> rd_order_no r = rd_order_no d) /\
  (otruthy (rd_course_query d) = true -> rd_course_query r = rd_course_query d) /\
  (otruthy (rd_order_no d) = false ->
     rd_order_no r = if bool_decide (rd_intent r = order \/ rd_intent r = mixed)
                     then last_order_no slots else rd_order_no d) /\
  (otruthy (rd_course_query d) = false ->
     (rd_intent r = course_consult \/ rd_intent r = mixed) ->
     rd_course_query r = ostr_or slot_course (Some text)).
Proof.
  cbn zeta. cbn [apply_session_slots rd_intent rd_order_no rd_course_query].
  set (r := resume_intent slots text d).
  assert (Ho : rd_order_no r = rd_order_no d).
  { apply resume_order_no. }
  assert (Hc : rd_course_query r = rd_course_query d \/
               rd_intent r <> order /\ otruthy (rd_course_query d) = false /\
               rd_course_query r = ostr_or (last_course_name slots) (last_course_query slots)).
  { subst r. unfold resume_intent.
    destruct (rd_intent d), (is_followup text), (business_intent (last_intent slots)) as [[]|]; cbn; auto;
      destruct (otruthy (rd_course_query d)) eqn:E; cbn; auto; right; done. }
  rewrite Ho. repeat split.
  - intros ->. by rewrite andb_false_r.
  - intros Ht. destruct Hc as [->|(_ & ? & _)]; [|congruence].
    by rewrite !(ostr_or_true (rd_course_query d)), Ht by done; repeat case_match.
  - intros ->. by rewrite andb_true_r.
  - intros Ht Hi. rewrite (bool_decide_eq_true_2 _ Hi).
    destruct Hc as [->|(_ & _ & ->)].
    + rewrite Ht, orb_true_r. by rewrite (ostr_or_false (rd_course_query d)).
    + destruct (otruthy (last_course_name slots)) eqn:E1.
      * rewrite !(ostr_or_true (last_course_name slots)) by done. by rewrite E1; case_match.
      * rewrite (ostr_or_false (last_course_name slots)) by done.
        destruct (otruthy (last_course_query slots)) eqn:E2.
        -- rewrite !(ostr_or_true (last_course_query slots)) by done. by case_match.
        -- rewrite orb_true_r.
           by repeat first [rewrite (ostr_or_false (last_course_query slots)) by done
                           |rewrite (ostr_or_false (last_course_name slots)) by done].
Qed.

Lemma business_str_truthy intent : is_business_str intent = true -> truthy intent = true.
Proof.
  unfold is_business_str. destruct (business_intent _) as [i|] eqn:E; [|done].
  apply business_intent_some in E as [[= ->] _]. by destruct i.
Qed.

(** What a turn leaves behind: a slot is written only with a real value, so an
    unrecognised field keeps its old one; small talk and clarifications never
    overwrite the topic, nor an empty retrieval's placeholder the course; and a
    handoff is pending exactly after a handoff turn. *)
Theorem slot_updates_after_turn_spec intent order_no course_query course_name (state : dict) :
  let s := slots_from_state state in
  let s' := slots_from_state
              (dmerge state (slot_updates_after_turn intent order_no course_query course_name)) in
  let name := strip (opt_str course_name) in
  last_intent s' = (if is_business_str intent then Some intent else last_intent s) /\
  last_order_no s' = (if otruthy order_no then order_no else last_order_no s) /\
  last_course_query s' = (if otruthy course_query then course_query else last_course_query s) /\
  last_course_name s' = (if truthy name && negb (bool_decide (name ∈ MISSING_COURSE_NAMES))
                         then Some name else last_course_name s) /\
  handoff_pending s' = bool_decide (intent = u "handoff").
Proof.
  cbn zeta. unfold slots_from_state. cbn [last_intent last_order_no last_course_query
    last_course_name handoff_pending]. unfold get_ostr, get_bool. rewrite !get_dmerge.
  unfold slot_updates_after_turn. set (name := strip _). set (bi := is_business_str intent).
  pose proof (business_str_truthy intent : bi = true -> _) as Hi.
  rewrite !app_assoc, !mkdict_if, !mkdict_one. lit_eq. unfold str_or_none, jopt.
  destruct (truthy name) eqn:Et, (negb (bool_decide (name ∈ MISSING_COURSE_NAMES)));
    cbn [andb]; destruct bi;
    destruct order_no as [[|? ?]|], course_query as [[|? ?]|]; cbn [otruthy truthy];
    repeat split; rewrite ?(Hi eq_refl); repeat case_match; done.
Qed.
