(* ===== verification/Facts.v ===== *)
(** * The rolling summary ([app/context/summary/facts.py])

    Facts read off the messages a conversation lets go of, merged into a structured
    summary that is stored as text: rendered each turn, parsed back the next. *)

From stdpp Require Import base list sets strings.
From S2P Require Import Prelude PyText PyRe OrderNo Window Filters Slots.

Definition DEFAULT_SESSION_SUMMARY_MAX_CHARS : Z := 800.

(** ** Patterns *)

Definition ORDER_NO_RE : re := order_no_re.
Definition not_newline (c : N) : bool := negb (c =? 10)%N.
(** [^] and [$] under [(?m)]. *)
Definition line_start : re := RNotBehind not_newline.
Definition line_end : re := RNotAhead not_newline.
Definition any_colon : re := RChar (fun c => (c =? 65306)%N || (c =? 58)%N).
Definition blanks : re := RStar (RChar is_space).
Definition is_cjk (c : N) : bool := (19968 <=? c)%N && (c <=? 40959)%N.

(** [(?m)^##\s+(.+)$] *)
Definition _COURSE_HEADING_RE : re :=
  rseq [line_start; rlit (u "##"); spaces1; RGroup 1 (rmin 1 (RChar not_newline)); line_end].
(** [《([^》]{2,30})》] *)
Definition _COURSE_BOOK_RE : re :=
  rseq [rlit (u "《"); RGroup 1 (rrange 2 28 (RChar (fun c => negb (c =? 12299)%N))); rlit (u "》")].
(** [课程名称[：:]\s*([^\n]{2,30})] *)
Definition _COURSE_LABEL_RE : re :=
  rseq [rlit (u "课程名称"); any_colon; blanks; RGroup 1 (rrange 2 28 (RChar not_newline))].
(** [课程\s*([A-Za-z0-9一-鿿]{2,20})] *)
Definition _COURSE_INLINE_RE : re :=
  rseq [rlit (u "课程"); blanks; RGroup 1 (rrange 2 18 (RChar (fun c => is_ascii_alnum c || is_cjk c)))].

Definition _SKIP_COURSE_NAMES : list pystr := map u ["模块"; "名称"; "咨询"; "大纲"; "未找到课程"]%string.

Definition SECTION_KEYS : list pystr := map u ["订单"; "课程"; "意图"; "已确认"; "未决"]%string.
(** [^(订单|课程|意图|已确认|未决)[：:]\s* and then ( .* )$], on a single line. *)
Definition _SECTION_RE : re :=
  rseq [RGroup 1 (ralt (map rlit SECTION_KEYS)); any_colon; blanks;
        RGroup 2 (RStar (RChar not_newline)); RNotAhead (fun _ => true)].

Definition _INTENT_LABELS : list (pystr * pystr) :=
  [(u "order", u "查订单"); (u "course_consult", u "课程咨询"); (u "mixed", u "课程+订单");
   (u "handoff", u "转人工")].
Definition intent_label (intent : pystr) : option pystr :=
  snd <$> find (fun kv => bool_decide (kv.1 = intent)) _INTENT_LABELS.

Definition lits (l : list string) : re := ralt (map (fun s => rlit (u s)) l).

Definition _ORDER_CONSTRAINTS : list (re * pystr) :=
  [(lits ["退款"], u "用户要退款"); (lits ["物流"; "快递"; "发货"; "到哪"; "到货"], u "在追物流");
   (lits ["取消"], u "要取消订单"); (lits ["进度"], u "在问进度")]%string.
Definition _COURSE_CONSTRAINTS : list (re * pystr) :=
  [(RAlt (rseq [rlit (u "不适合"); anything; rlit (u "零基础")]) (rseq [rlit (u "零基础"); anything; rlit (u "不")]),
    u "已确认不适合零基础");
   (ralt [RSeq (RNotBehind (fun c => bool_decide (c ∈ u "不"))) (rlit (u "适合零基础")); rlit (u "零基础可以");
          rlit (u "零基础友好")], u "适合零基础");
   (lits ["太难"; "很难"; "偏难"], u "用户觉得难"); (lits ["多少钱"; "价格"; "学费"], u "在问价格");
   (lits ["大纲"; "模块"; "学什么"; "讲什么"], u "在问大纲")]%string.
Definition _PENDING_ORDER_NO : pystr := u "待提供订单号".
Definition _PENDING_COURSE : pystr := u "待确认课程".
Definition _PENDING_PATTERNS : list (re * pystr) :=
  [(lits ["请提供订单号"; "需要订单号"; "完整订单编号"], _PENDING_ORDER_NO);
   (RAlt (rseq [rlit (u "请"); anything; rlit (u "课程名")]) (rlit (u "哪门课")), _PENDING_COURSE);
   (lits ["转接人工"; "已为您转接"], u "等待人工")]%string.
Definition _EXCLUSIVE_LABEL_GROUPS : list (list pystr) :=
  [map u ["已确认不适合零基础"; "适合零基础"]; map u ["退款已完成"; "退款审核中"]]%string.
Definition _ASSISTANT_CONCLUSIONS : list (re * pystr) :=
  [(lits ["已退款"], u "退款已完成"); (lits ["退款审核"], u "退款审核中"); (lits ["已发货"], u "已发货");
   (lits ["已开通"], u "课程已开通"); (lits ["已取消"], u "订单已取消")]%string.

(** ** Lists of facts *)

Definition _split_facts (raw : pystr) : list pystr :=
  filter (fun p => truthy p = true) (map strip (re_split (fun c => (c =? 65307)%N || (c =? 59)%N) raw)).

Definition _prepend_unique (existing incoming : list pystr) (cap : nat) : list pystr :=
  py_last cap (foldl (fun out item =>
    let text := strip item in
    if truthy text then filter (fun x => x <> text) out ++ [text] else out) existing incoming).

Definition _rivals_of (label : pystr) : list pystr :=
  match find (fun group => bool_decide (label ∈ group)) _EXCLUSIVE_LABEL_GROUPS with
  | Some group => filter (fun x => x <> label) group
  | None => []
  end.

Definition add_exclusive (out : list pystr) (item : pystr) : list pystr :=
  let text := strip item in
  if truthy text then filter (fun x => x <> text /\ x ∉ _rivals_of text) out ++ [text] else out.
Definition _apply_exclusive_sequence (labels : list pystr) (cap : option nat) : list pystr :=
  let out := foldl add_exclusive [] labels in
  match cap with Some cap => py_last cap out | None => out end.

(** ** The structured summary *)

Record StructuredSummary := {
  ss_orders : list pystr;
  ss_courses : list pystr;
  ss_intent : pystr;
  ss_confirmed : list pystr;
  ss_pending : list pystr;
}.
Definition no_summary : StructuredSummary :=
  {| ss_orders := []; ss_courses := []; ss_intent := []; ss_confirmed := []; ss_pending := [] |}.

Definition merge (self other : StructuredSummary) : StructuredSummary :=
  {| ss_orders := _prepend_unique (ss_orders self) (ss_orders other) 3;
     ss_courses := _prepend_unique (ss_courses self) (ss_courses other) 3;
     ss_intent := strip (str_or (ss_intent other) (ss_intent self));
     ss_confirmed := _apply_exclusive_sequence (ss_confirmed self ++ ss_confirmed other) (Some 6);
     ss_pending := _prepend_unique (ss_pending self) (ss_pending other) 4 |}.

(** A slot's text, [(slots.x or "").strip() if slots else ""]. *)
Definition slot_text (field : SessionSlots -> option pystr) (slots : option SessionSlots) : pystr :=
  match slots with Some s => strip (opt_str (field s)) | None => [] end.

Definition nonempty {A} (l : list A) : bool := match l with [] => false | _ => true end.

Definition resolve (self : StructuredSummary) (slots : option SessionSlots) : StructuredSummary :=
  let has_order := nonempty (ss_orders self) || truthy (slot_text last_order_no slots) in
  let has_course := nonempty (ss_courses self) || truthy (slot_text last_course_name slots) in
  let pending := ss_pending self in
  let pending := if has_order then filter (fun item => item <> _PENDING_ORDER_NO) pending else pending in
  let pending := if has_course then filter (fun item => item <> _PENDING_COURSE) pending else pending in
  {| ss_orders := ss_orders self; ss_courses := ss_courses self; ss_intent := ss_intent self;
     ss_confirmed := _apply_exclusive_sequence (ss_confirmed self) (Some 6); ss_pending := pending |}.

Definition has_content (s : StructuredSummary) : bool :=
  nonempty (ss_orders s) || nonempty (ss_courses s) || truthy (ss_intent s)
  || nonempty (ss_confirmed s) || nonempty (ss_pending s).

Definition any_new (items known : list pystr) : bool := existsb (fun i => negb (bool_decide (i ∈ known))) items.
Definition novel_against (self existing : StructuredSummary) : bool :=
  any_new (ss_orders self) (ss_orders existing) || any_new (ss_courses self) (ss_courses existing)
  || (truthy (ss_intent self) && negb (bool_decide (ss_intent self = ss_intent existing)))
  || any_new (ss_confirmed self) (ss_confirmed existing) || any_new (ss_pending self) (ss_pending existing).

(** *** Rendering *)

Definition SEP : pystr := u "；".
Definition row (label : string) (facts : list pystr) : list pystr :=
  if nonempty facts then [u label ++ join SEP facts] else [].
Definition rows (s : StructuredSummary) : list pystr :=
  row "订单：" (ss_orders s) ++ row "课程：" (ss_courses s)
  ++ (if truthy (ss_intent s) then [u "意图：" ++ ss_intent s] else [])
  ++ row "已确认：" (ss_confirmed s) ++ row "未决：" (ss_pending s).
Definition _lines (s : StructuredSummary) : pystr := join [10%N] (rows s).

(** One turn of the loop of [render]: the oldest fact of the first list that has two. *)
Definition shorten (s : StructuredSummary) : option StructuredSummary :=
  let '{| ss_orders := o; ss_courses := c; ss_intent := i; ss_confirmed := f; ss_pending := p |} := s in
  if 1 <? length f then Some {| ss_orders := o; ss_courses := c; ss_intent := i; ss_confirmed := drop 1 f; ss_pending := p |}
  else if 1 <? length p then Some {| ss_orders := o; ss_courses := c; ss_intent := i; ss_confirmed := f; ss_pending := drop 1 p |}
  else if 1 <? length o then Some {| ss_orders := drop 1 o; ss_courses := c; ss_intent := i; ss_confirmed := f; ss_pending := p |}
  else if 1 <? length c then Some {| ss_orders := o; ss_courses := drop 1 c; ss_intent := i; ss_confirmed := f; ss_pending := p |}
  else None.

Definition facts_count (s : StructuredSummary) : nat :=
  length (ss_orders s) + length (ss_courses s) + length (ss_confirmed s) + length (ss_pending s).

(** The loop; each turn drops a fact, so [facts_count] turns are enough. *)
Fixpoint render_loop (fuel limit : nat) (s : StructuredSummary) : pystr :=
  let text := _lines s in
  if length text <=? limit then text
  else match fuel with
       | O => text
       | S fuel => match shorten s with
                   | Some s' => render_loop fuel limit s'
                   | None => py_last limit text
                   end
       end.

(** ** The settings' limit *)
Section summary.
(** [get_settings().session_summary_max_chars], [None] when they cannot be read. *)
Context (settings_max : option Z).

Definition _resolve_summary_max_chars (max_chars : option Z) : nat :=
  let max_chars := match max_chars with
                   | Some n => n
                   | None => default DEFAULT_SESSION_SUMMARY_MAX_CHARS settings_max
                   end in
  Z.to_nat (Z.max 80 max_chars).

Definition _clip_summary (text : pystr) (max_chars : option Z) : pystr :=
  let combined := strip text in
  let limit := _resolve_summary_max_chars max_chars in
  if length combined <=? limit then combined else py_last limit combined.

Definition render (self : StructuredSummary) (max_chars : option Z) : pystr :=
  match max_chars with
  | None => _lines self
  | Some _ => render_loop (S (facts_count self)) (_resolve_summary_max_chars max_chars) self
  end.
End summary.

(** *** Parsing *)

Definition with_section (key value : pystr) (s : StructuredSummary) : StructuredSummary :=
  let '{| ss_orders := o; ss_courses := c; ss_intent := i; ss_confirmed := f; ss_pending := p |} := s in
  let facts := _split_facts value in
  if bool_decide (key = u "订单") then {| ss_orders := facts; ss_courses := c; ss_intent := i; ss_confirmed := f; ss_pending := p |}
  else if bool_decide (key = u "课程") then {| ss_orders := o; ss_courses := facts; ss_intent := i; ss_confirmed := f; ss_pending := p |}
  else if bool_decide (key = u "意图") then {| ss_orders := o; ss_courses := c; ss_intent := value; ss_confirmed := f; ss_pending := p |}
  else if bool_decide (key = u "已确认") then {| ss_orders := o; ss_courses := c; ss_intent := i; ss_confirmed := facts; ss_pending := p |}
  else if bool_decide (key = u "未决") then {| ss_orders := o; ss_courses := c; ss_intent := i; ss_confirmed := f; ss_pending := facts |}
  else s.

(** The loop's variables: the summary, the lines no section claims, and whether a
    section has been seen. *)
Definition parse_line (acc : StructuredSummary * list pystr * bool) (line : pystr)
    : StructuredSummary * list pystr * bool :=
  let '(parsed, leftover, saw_section) := acc in
  let line := strip line in
  if negb (truthy line) then acc
  else match match_here _SECTION_RE [] line with
       | None => (parsed, leftover ++ [line], saw_section)
       | Some m => (with_section (opt_str (group 1 m)) (strip (opt_str (group 2 m))) parsed, leftover, true)
       end.

Definition with_confirmed (facts : list pystr) (s : StructuredSummary) : StructuredSummary :=
  {| ss_orders := ss_orders s; ss_courses := ss_courses s; ss_intent := ss_intent s;
     ss_confirmed := facts; ss_pending := ss_pending s |}.

Definition parse (text : option pystr) : StructuredSummary :=
  let raw := strip (opt_str text) in
  if negb (truthy raw) then no_summary
  else
    let '(parsed, leftover, saw_section) := foldl parse_line (no_summary, [], false) (splitlines raw) in
    if nonempty leftover && negb saw_section then with_confirmed leftover parsed
    else if nonempty leftover then with_confirmed (_prepend_unique (ss_confirmed parsed) leftover 6) parsed
    else parsed.

(** ** Reading messages *)

Definition _extract_order_no (text : pystr) : option pystr := search ORDER_NO_RE text ≫= group 1.

(** [match.group(1).strip().strip("#").strip()]. *)
Definition course_name_of (m : rmatch) : pystr := strip (strip_char 35 (strip (opt_str (group 1 m)))).
Definition add_name (names : list pystr) (m : rmatch) : list pystr :=
  let name := course_name_of m in
  if truthy name && negb (bool_decide (name ∈ MISSING_COURSE_NAMES))
     && negb (bool_decide (name ∈ _SKIP_COURSE_NAMES)) && negb (bool_decide (name ∈ names))
  then names ++ [name] else names.
Definition extract_course_names (text : pystr) : list pystr :=
  foldl (fun names pattern => foldl add_name names (finditer pattern text)) []
    [_COURSE_HEADING_RE; _COURSE_BOOK_RE; _COURSE_LABEL_RE; _COURSE_INLINE_RE].

Definition _match_labels (text : pystr) (patterns : list (re * pystr)) : list pystr :=
  foldl (fun labels '(pattern, label) =>
    if found pattern text && negb (bool_decide (label ∈ labels)) then labels ++ [label] else labels) [] patterns.

(** [f"{name} {suffix}".strip() if suffix else name], with the first two constraints. *)
Definition with_suffix (name : pystr) (constraints : list pystr) : pystr :=
  let suffix := join SEP (take 2 constraints) in
  if truthy suffix then strip (name ++ u " " ++ suffix) else name.

Definition label_of (intent : string) : pystr := opt_str (intent_label (u intent)).

Definition _facts_from_one (text : pystr) (slots : option SessionSlots) : StructuredSummary :=
  let slot_order := slot_text last_order_no slots in
  let slot_course := slot_text last_course_name slots in
  let order_constraints := _match_labels text _ORDER_CONSTRAINTS in
  let course_constraints := _match_labels text _COURSE_CONSTRAINTS in
  let conclusions := _match_labels text _ASSISTANT_CONCLUSIONS in
  let pending := _match_labels text _PENDING_PATTERNS in
  let orders := match _extract_order_no text with
                | Some n => if truthy n && negb (bool_decide (n = slot_order))
                            then [with_suffix n order_constraints] else []
                | None => []
                end in
  let courses := omap (fun name =>
    if truthy slot_course && bool_decide (name = slot_course) then None
    else Some (with_suffix name course_constraints)) (extract_course_names text) in
  {| ss_orders := orders; ss_courses := courses;
     ss_intent := if nonempty order_constraints && nonempty course_constraints then label_of "mixed"
                  else if nonempty order_constraints then label_of "order"
                  else if nonempty course_constraints then label_of "course_consult" else [];
     ss_confirmed := _apply_exclusive_sequence (course_constraints ++ order_constraints ++ conclusions) None;
     ss_pending := pending |}.

Definition _infer_intent (summary : StructuredSummary) : pystr :=
  let any (labels : list string) := existsb (fun l => bool_decide (u l ∈ ss_confirmed summary)) labels in
  let has_order := nonempty (ss_orders summary) || any ["用户要退款"; "在追物流"; "要取消订单"; "在问进度"]%string in
  let has_course := nonempty (ss_courses summary)
    || any ["已确认不适合零基础"; "适合零基础"; "用户觉得难"; "在问价格"; "在问大纲"]%string in
  if has_order && has_course then label_of "mixed"
  else if has_order then label_of "order"
  else if has_course then label_of "course_consult" else [].

Definition with_summary_intent (intent : pystr) (s : StructuredSummary) : StructuredSummary :=
  {| ss_orders := ss_orders s; ss_courses := ss_courses s; ss_intent := intent;
     ss_confirmed := ss_confirmed s; ss_pending := ss_pending s |}.

Definition extract_summary_facts (overflow : list message) (slots : option SessionSlots) : StructuredSummary :=
  let acc := foldl (fun acc message =>
    let text := strip (msg_text message) in
    if truthy text then merge acc (_facts_from_one text slots) else acc) no_summary overflow in
  let slot_intent := slot_text last_intent slots in
  let acc :=
    match (if truthy slot_intent then intent_label slot_intent else None) with
    | Some label => with_summary_intent label acc
    | None => if truthy (ss_intent acc) then acc else with_summary_intent (_infer_intent acc) acc
    end in
  resolve acc slots.

(** ** Folding *)
Section folding.
Context (settings_max : option Z).

Definition finalize_structured (summary : StructuredSummary) (slots : option SessionSlots) (max_chars : option Z)
    : pystr :=
  let resolved := resolve summary slots in
  if has_content resolved then render settings_max resolved max_chars else [].

Definition finalize_summary (text : pystr) (slots : option SessionSlots) (max_chars : option Z) : pystr :=
  finalize_structured (parse (Some text)) slots max_chars.

Definition fold_session_summary (existing : option pystr) (overflow : list message)
    (max_chars : option Z) (slots : option SessionSlots) : pystr :=
  let current := parse existing in
  let delta := extract_summary_facts overflow slots in
  finalize_structured (merge current delta) slots max_chars.
End folding.

(** ** Examples *)

Definition human (s : string) : message := {| msg_role := HumanMessage; msg_text := u s; msg_id := None |}.

Example folded :
  fold_session_summary None None [human "我想退款"; human "《Python入门课》适合零基础吗"] (Some 800%Z) None =
  u "课程：Python入门课 适合零基础" ++ [10%N] ++ u "意图：课程咨询" ++ [10%N] ++ u "已确认：用户要退款；适合零基础".
Proof. vm_compute. reflexivity. Qed.

(** Two constraints on one order are written with the separator of facts, so the next
    turn reads the second one as an order of its own. *)
Example constraint_becomes_order :
  let stored := fold_session_summary None None [human "订单20251114001要退款，进度如何"] (Some 800%Z) None in
  ss_orders (parse (Some stored)) = map u ["20251114001 用户要退款"; "在问进度"]%string.
Proof. vm_compute. reflexivity. Qed.

(** ** Lists of facts, specified *)

(** The last word on a label. *)
Lemma add_exclusive_elem x out item :
  x ∈ add_exclusive out item <->
  (x ∈ out /\ x ∉ _rivals_of (strip item)) \/ (x = strip item /\ truthy (strip item) = true).
Proof.
  unfold add_exclusive. destruct (truthy (strip item)) eqn:E.
  - rewrite elem_of_app, list_elem_of_filter, list_elem_of_singleton.
    destruct (decide (x = strip item)) as [->|]; [naive_solver|naive_solver].
  - split; [|naive_solver]. intros Hx. left. split; [done|].
    destruct (strip item); [|done]. assert (_rivals_of [] = []) as -> by (vm_compute; reflexivity).
    by intros ?%elem_of_nil.
Qed.

Lemma sequence_elem x labels : forall out,
  x ∈ foldl add_exclusive out labels <->
  (x ∈ out /\ forall y, y ∈ labels -> x ∉ _rivals_of (strip y)) \/
  (exists pre item post, labels = pre ++ item :: post /\ strip item = x /\ truthy x = true /\
     forall y, y ∈ post -> x ∉ _rivals_of (strip y)).
Proof.
  induction labels as [|item labels IH]; intros out; cbn [foldl].
  - split; [intros ?; left; split; [done|]; by intros ? ?%elem_of_nil|].
    intros [[? _]|(pre & i & post & Hl & _)]; [done|]. by destruct pre.
  - rewrite IH, add_exclusive_elem. split.
    + intros [[[[Hx Hr]|[-> Ht]] Hl]|(pre & i & post & -> & Hi & Ht & Hp)].
      * left. split; [done|]. intros y [->|Hy]%elem_of_cons; [done|by apply Hl].
      * right. by exists [], item, labels.
      * right. by exists (item :: pre), i, post.
    + intros [[Hx Hl]|(pre & i & post & Hl & Hi & Ht & Hp)].
      * left. split; [left; split; [done|]; apply Hl; by left|]. intros y Hy. apply Hl. by right.
      * destruct pre as [|j pre]; injection Hl as -> ->.
        -- left. split; [right; by subst|]. exact Hp.
        -- right. by exists pre, i, post.
Qed.

Lemma rivals_sym x y : x ∈ _rivals_of y -> y ∈ _rivals_of x.
Proof.
  unfold _rivals_of. destruct (find _ _) as [g|] eqn:E; [|by intros ?%elem_of_nil].
  apply List.find_some in E as [Hg Hy]. apply bool_decide_eq_true in Hy.
  intros [Hne Hx]%list_elem_of_filter.
  assert (Hdisj : forall g g', In g _EXCLUSIVE_LABEL_GROUPS -> In g' _EXCLUSIVE_LABEL_GROUPS ->
            x ∈ g -> x ∈ g' -> g = g').
  { cbn. intros h h' [<-|[<-|[]]] [<-|[<-|[]]] H1 H2; try done; exfalso;
      repeat (apply elem_of_cons in H1 as [->|H1]; [vm_compute in H2; by set_unfold in H2; naive_solver lia|]);
      by apply elem_of_nil in H1. }
  destruct (find (fun group => bool_decide (x ∈ group)) _EXCLUSIVE_LABEL_GROUPS) as [g'|] eqn:E'.
  - apply List.find_some in E' as [Hg' Hx']. apply bool_decide_eq_true in Hx'.
    rewrite (Hdisj g g') in Hy by done. apply list_elem_of_filter. split; [by symmetry|done].
  - pose proof (List.find_none _ _ E' g Hg) as Hno. cbv beta in Hno.
    by apply bool_decide_eq_false in Hno.
Qed.

Lemma sequence_NoDup labels : forall out, NoDup out -> NoDup (foldl add_exclusive out labels).
Proof.
  induction labels as [|item labels IH]; intros out Ho; cbn [foldl]; [done|]. apply IH.
  unfold add_exclusive. destruct (truthy (strip item)); [|done].
  apply NoDup_app. split; [by apply NoDup_filter|]. split; [|apply NoDup_singleton].
  intros y [[Hy _] _]%list_elem_of_filter ->%list_elem_of_singleton. done.
Qed.

Lemma not_own_rival x : x ∉ _rivals_of x.
Proof.
  unfold _rivals_of. destruct (find _ _); [|apply not_elem_of_nil]. by intros [? _]%list_elem_of_filter.
Qed.

(** Two labels that exclude each other are never both in a sequence. *)
Lemma sequence_exclusive labels x y :
  x ∈ foldl add_exclusive [] labels -> y ∈ foldl add_exclusive [] labels -> x ∉ _rivals_of y.
Proof.
  rewrite !sequence_elem. intros [[H _]|(p1 & i1 & q1 & H1 & <- & _ & Hx)]; [by apply elem_of_nil in H|].
  intros [[H _]|(p2 & i2 & q2 & H2 & <- & _ & Hy)] Hr; [by apply elem_of_nil in H|].
  rewrite H1 in H2. apply app_eq_inv in H2 as [(k & Hk1 & Hk2)|(k & Hk1 & Hk2)].
  - destruct k as [|j k]; cbn in Hk2; injection Hk2 as Hj Hk2.
    + rewrite Hj in Hr. by apply not_own_rival in Hr.
    + apply (Hy i1); [|by apply rivals_sym]. rewrite Hk2. apply elem_of_app. right. by left.
  - destruct k as [|j k]; cbn in Hk2; injection Hk2 as Hj Hk2.
    + rewrite Hj in Hr. by apply not_own_rival in Hr.
    + apply (Hx i2); [|exact Hr]. rewrite Hk2. apply elem_of_app. right. by left.
Qed.

Lemma elem_py_last {A} n (l : list A) x : x ∈ py_last n l -> x ∈ l.
Proof. intros H. eapply elem_of_suffix; [exact H|apply suffix_py_last]. Qed.

Lemma NoDup_py_last {A} n (l : list A) : NoDup l -> NoDup (py_last n l).
Proof. intros H. destruct (suffix_py_last n l) as [k Hk]. rewrite Hk in H. by apply NoDup_app in H as (_ & _ & ?). Qed.

(** ** Rendering *)

(** [s'] keeps the newest facts of [s]. *)
Record newest (s' s : StructuredSummary) : Prop := {
  nw_orders : ss_orders s' `suffix_of` ss_orders s;
  nw_courses : ss_courses s' `suffix_of` ss_courses s;
  nw_confirmed : ss_confirmed s' `suffix_of` ss_confirmed s;
  nw_pending : ss_pending s' `suffix_of` ss_pending s;
  nw_intent : ss_intent s' = ss_intent s;
}.

#[export] Instance newest_preorder : PreOrder newest.
Proof.
  split.
  - intros s. by split.
  - intros a b c [] []. split; (by etransitivity) || congruence.
Qed.

(** The text is one of whole lines, or the tail of the shortest summary there is. *)
Lemma shorten_newest s s' : shorten s = Some s' -> newest s' s /\ facts_count s' < facts_count s.
Proof.
  assert (Hd : forall l : list pystr, 1 < length l -> drop 1 l `suffix_of` l /\ length (drop 1 l) < length l).
  { intros [|x l] H; cbn in *; [lia|]. split; [by exists [x]|rewrite drop_0; lia]. }
  destruct s as [o c i f p]. unfold shorten. unfold facts_count.
  destruct (Nat.ltb_spec 1 (length f)) as [H|_].
  { intros [= <-]. destruct (Hd _ H) as [? Hl]. split; [by split|]. cbn [ss_orders ss_courses ss_confirmed ss_pending]. lia. }
  destruct (Nat.ltb_spec 1 (length p)) as [H|_].
  { intros [= <-]. destruct (Hd _ H) as [? Hl]. split; [by split|]. cbn [ss_orders ss_courses ss_confirmed ss_pending]. lia. }
  destruct (Nat.ltb_spec 1 (length o)) as [H|_].
  { intros [= <-]. destruct (Hd _ H) as [? Hl]. split; [by split|]. cbn [ss_orders ss_courses ss_confirmed ss_pending]. lia. }
  destruct (Nat.ltb_spec 1 (length c)) as [H|_]; [|done].
  intros [= <-]. destruct (Hd _ H) as [? Hl]. split; [by split|]. cbn [ss_orders ss_courses ss_confirmed ss_pending]. lia.
Qed.

Lemma render_loop_spec fuel limit : forall s, facts_count s < fuel -> limit <> 0 ->
  exists s', newest s' s /\ length (render_loop fuel limit s) <= limit /\
    (render_loop fuel limit s = _lines s' \/
     shorten s' = None /\ render_loop fuel limit s = py_last limit (_lines s')).
Proof.
  induction fuel as [|fuel IH]; intros s Hf Hlim; [lia|]. cbn [render_loop].
  destruct (Nat.leb_spec (length (_lines s)) limit) as [Hle|Hgt]; [exists s; split; [done|]; eauto|].
  destruct (shorten s) as [s1|] eqn:E.
  - destruct (shorten_newest _ _ E) as [Hn Hc]. destruct (IH s1) as (s' & Hn' & ?); [lia|done|].
    exists s'. split; [by transitivity s1|done].
  - exists s. split; [done|]. split; [|by right]. rewrite length_py_last by done. lia.
Qed.

(** The stored summary stays within its limit, which is never below 80: what fits is
    written in full; what does not loses its oldest facts, whole lines first, and is cut
    only when a single fact per line is still too long. *)
Theorem render_bounded (settings_max : option Z) (s : StructuredSummary) (n : Z) :
  let limit := Z.to_nat (Z.max 80 n) in
  let text := render settings_max s (Some n) in
  length text <= limit /\
  (length (_lines s) <= limit -> text = _lines s) /\
  exists s', newest s' s /\ (text = _lines s' \/ shorten s' = None /\ text = py_last limit (_lines s')).
Proof.
  cbn zeta. unfold render, _resolve_summary_max_chars. set (limit := Z.to_nat (Z.max 80 n)).
  destruct (render_loop_spec (S (facts_count s)) limit s) as (s' & Hn & Hl & Ht); [lia|lia|].
  split; [done|]. split; [|by exists s'].
  intros Hle. cbn [render_loop]. by rewrite (proj2 (Nat.leb_le _ _)).
Qed.

(** ** Parsing what was rendered *)

Definition fact_sep (c : N) : bool := (c =? 65307)%N || (c =? 59)%N.

(** A fact that can be stored: not blank at its ends, on one line, without separators. *)
Definition fact_ok (t : pystr) : Prop :=
  t <> [] /\ strip t = t /\ Forall (fun c => is_linebreak c = false) t /\ Forall (fun c => fact_sep c = false) t.
#[export] Instance fact_ok_dec t : Decision (fact_ok t).
Proof. unfold fact_ok. apply _. Defined.
Record summary_ok (s : StructuredSummary) : Prop := {
  so_orders : Forall fact_ok (ss_orders s);
  so_courses : Forall fact_ok (ss_courses s);
  so_confirmed : Forall fact_ok (ss_confirmed s);
  so_pending : Forall fact_ok (ss_pending s);
  so_intent : strip (ss_intent s) = ss_intent s /\ Forall (fun c => is_linebreak c = false) (ss_intent s);
}.

Lemma split_facts_join l : l <> [] -> Forall fact_ok l -> _split_facts (join SEP l) = l.
Proof.
  intros Hne Hl. unfold _split_facts, SEP.
  assert (u "；" = [65307%N]) as -> by (vm_compute; reflexivity). fold fact_sep.
  rewrite re_split_join; [|done|done|].
  - clear Hne. induction Hl as [|t l (Hne & Hs & _) _ IH]; [done|]. cbn [map]. rewrite Hs.
    rewrite filter_cons_True by by destruct t. by rewrite IH.
  - eapply Forall_impl; [exact Hl|]. by intros t (? & _ & _ & ?).
Qed.

Lemma reads_rlit l : forall pre s g p1 s1 g1, reads_word (rlit l) pre s g p1 s1 g1 (fun w => w = l).
Proof.
  induction l as [|c l IH]; intros pre s g p1 s1 g1; split; cbn [rlit].
  - intros (-> & -> & ->)%reads_eps_inv. by exists [].
  - intros (w & -> & -> & -> & ->). constructor.
  - intros (p & s' & g' & Ha & Hb)%reads_rseq_inv.
    apply reads_one in Ha as (? & (d & -> & <-%N.eqb_eq) & -> & -> & ->).
    apply IH in Hb as (w & -> & -> & -> & ->). exists (c :: l). split; [done|]. split; [done|].
    split; [|done]. change (c :: l) with ([c] ++ l). by rewrite reverse_app, <-app_assoc.
  - intros (w & -> & -> & -> & ->). rewrite reverse_cons, <-app_assoc.
    econstructor; [constructor; apply N.eqb_refl|]. apply IH. by exists l.
Qed.

Lemma reads_ralt l pre s g p1 s1 g1 : l <> [] ->
  reads (ralt l) pre s g p1 s1 g1 <-> exists r, r ∈ l /\ reads r pre s g p1 s1 g1.
Proof.
  induction l as [|r l IH]; intros Hne; [done|]. cbn [ralt]. destruct l as [|r' l].
  - split; [intros ?; exists r; split; [by left|done]|]. by intros (? & ->%list_elem_of_singleton & ?).
  - split.
    + inversion 1 as [| | |? ? ? ? ? ? ? ? Ho|? ? ? ? ? ? ? ? Ho| | | | |]; subst.
      * exists r. split; [by left|done].
      * apply IH in Ho as (x & ? & ?); [|done]. exists x. split; [by right|done].
    + intros (x & [->|Hx]%elem_of_cons & Ho); [by apply reads_alt_l|]. apply reads_alt_r, IH; [done|]. eauto.
Qed.

Lemma section_key key : key ∈ SECTION_KEYS ->
  key <> [] /\ strip key = key /\ Forall (fun c => is_linebreak c = false) key /\
  forall key' s1 s2, key' ∈ SECTION_KEYS -> key ++ s1 = key' ++ s2 -> key = key'.
Proof.
  intros Hk.
  assert (Hall : forallb (fun k => truthy k && bool_decide (strip k = k) &&
      forallb (fun c => negb (is_linebreak c)) k &&
      forallb (fun k' => bool_decide (k = k') || negb (bool_decide (head k = head k'))) SECTION_KEYS) SECTION_KEYS = true)
    by (vm_compute; reflexivity).
  rewrite forallb_elem in Hall. apply Hall in Hk. apply andb_true_iff in Hk as [[[H1 H2]%andb_true_iff H3]%andb_true_iff H4].
  apply bool_decide_eq_true in H2. split; [by destruct key|]. split; [done|]. split.
  - rewrite forallb_elem in H3. apply Forall_forall. intros c Hc. by apply negb_true_iff, H3.
  - intros key' s1 s2 Hk' He. rewrite forallb_elem in H4. pose proof (Hall _ Hk') as Hk2.
    apply H4 in Hk'. apply orb_true_iff in Hk' as [Heq|Hh]; [by apply bool_decide_eq_true in Heq|].
    apply negb_true_iff, bool_decide_eq_false in Hh.
    destruct key as [|c key]; [done|]. destruct key' as [|c' key']; [done|]. injection He as -> _. done.
Qed.

Lemma no_newline content : Forall (fun c => is_linebreak c = false) content ->
  Forall (fun c => not_newline c = true) content.
Proof.
  intros H. eapply Forall_impl; [exact H|]. intros c Hc. unfold not_newline.
  apply negb_true_iff, N.eqb_neq. intros ->. by vm_compute in Hc.
Qed.

(** The section pattern on a section's line. *)
Lemma section_match key content :
  key ∈ SECTION_KEYS -> match head content with Some c => is_space c = false | None => True end ->
  Forall (fun c => is_linebreak c = false) content ->
  exists m, match_here _SECTION_RE [] (key ++ [65306%N] ++ content) = Some m /\
            group 1 m = Some key /\ group 2 m = Some content.
Proof.
  intros Hk Hhead Hb. destruct (section_key _ Hk) as (Hkne & _ & _ & Hpre).
  destruct (match_here _SECTION_RE [] (key ++ [65306%N] ++ content)) as [m|] eqn:Em.
  - exists m. split; [done|].
    apply mt_reads in Em as (pre' & s' & g & Hr & [= <-]). unfold _SECTION_RE in Hr. inv_reads.
    repeat match goal with H : reads (RGroup _ _) _ _ _ _ _ _ |- _ => apply reads_group_inv in H as (? & H & ->) end.
    match goal with H : reads (ralt _) _ _ _ _ _ _ |- _ => apply reads_ralt in H as (r & Hin & H); [|done] end.
    apply list_elem_of_fmap in Hin as (key' & -> & Hin).
    match goal with H : reads (rlit _) _ _ _ _ _ _ |- _ => apply reads_rlit in H as (? & -> & Hsp & -> & ->) end.
    pose proof (Hpre _ _ _ Hin Hsp) as <-. apply app_inv_head in Hsp as <-.
    match goal with H : reads any_colon _ _ _ _ _ _ |- _ => apply reads_one in H as (? & (c & -> & Hc) & Hsp & -> & ->) end.
    injection Hsp as <- Hsp.
    match goal with H : reads blanks _ _ _ _ _ _ |- _ => apply reads_star in H as (b & Hb' & Hsp' & -> & ->) end.
    match goal with H : reads (RStar _) _ _ _ _ _ _ |- _ => apply reads_star in H as (w & Hw & -> & -> & ->) end.
    match goal with H : match ?t with _ => _ end |- _ => destruct t; [|done] end.
    assert (b = []) as ->.
    { destruct b as [|x b]; [done|]. subst content. rewrite Hsp' in Hhead. cbn in Hhead.
      apply Forall_cons in Hb' as [? _]. congruence. }
    cbn [app] in Hsp'. rewrite app_nil_r in Hsp'. subst.
    unfold group. cbn [find m_groups Nat.eqb fmap option_fmap option_map snd fst].
    by rewrite !taken_app.
  - exfalso. pose proof (proj1 (no_match_here _ _ _) Em) as Hno.
    eapply Hno. eexists. unfold _SECTION_RE. cbn [rseq].
    econstructor; [constructor; apply reads_ralt; [done|]; exists (rlit key); split;
      [apply list_elem_of_fmap; by exists key|apply reads_rlit; by exists key]|].
    econstructor; [apply reads_one; exists [65306%N]; split; [by eexists|done]|].
    econstructor; [apply reads_star; exists []; split; [constructor|done]|].
    econstructor; [constructor; apply reads_star; exists content;
      split; [by apply no_newline|]; split; [symmetry; apply app_nil_r|done]|].
    econstructor; [by constructor|constructor].
Qed.

(** A section's line, with its value. *)
Lemma section_line key content acc left saw :
  key ∈ SECTION_KEYS -> content <> [] -> strip content = content -> Forall (fun c => is_linebreak c = false) content ->
  parse_line (acc, left, saw) (key ++ [65306%N] ++ content) = (with_section key content acc, left, true).
Proof.
  intros Hk Hne Hs Hb. destruct (section_key _ Hk) as (Hkne & Hks & _ & _).
  assert (Hcs : strip [65306%N] = [65306%N]) by (vm_compute; reflexivity).
  assert (Hst : strip (key ++ [65306%N] ++ content) = key ++ [65306%N] ++ content).
  { apply strip_app; [done|done|done|]. by apply strip_app. }
  unfold parse_line. rewrite Hst. pose proof (proj1 (proj1 (strip_iff _) Hs)) as Hhead.
  destruct (section_match key content Hk Hhead Hb) as (m & -> & -> & ->). cbn [opt_str default from_option id].
  rewrite Hs. by destruct key.
Qed.

(** The line of a list of facts, if there is one. *)
Lemma row_line label key l acc left saw : u label = key ++ [65306%N] -> key ∈ SECTION_KEYS -> Forall fact_ok l ->
  foldl parse_line (acc, left, saw) (row label l) =
  (if nonempty l then with_section key (join SEP l) acc else acc, left, saw || nonempty l).
Proof.
  intros Hlab Hk Hl. unfold row. destruct l as [|t l]; [by rewrite orb_false_r|]. cbn [nonempty foldl].
  rewrite Hlab, <-app_assoc, orb_true_r. apply section_line; [done| | |].
  - apply join_ne; [|done]. eapply Forall_impl; [exact Hl|]. by intros ? (? & _).
  - apply strip_join. eapply Forall_impl; [exact Hl|]. by intros ? (? & ? & _).
  - apply join_Forall; [by repeat constructor|]. eapply Forall_impl; [exact Hl|]. by intros ? (_ & _ & ? & _).
Qed.

(** A line of the rendered text. *)
Definition line_ok (t : pystr) : Prop :=
  t <> [] /\ strip t = t /\ Forall (fun c => is_linebreak c = false) t.

Lemma row_ok label key l : u label = key ++ [65306%N] -> key ∈ SECTION_KEYS -> Forall fact_ok l ->
  Forall line_ok (row label l).
Proof.
  intros Hlab Hk Hl. unfold row. destruct l as [|t l]; [constructor|]. cbn [nonempty].
  constructor; [|constructor]. destruct (section_key _ Hk) as (Hkne & Hks & Hkb & _).
  assert (Hcs : strip [65306%N] = [65306%N]) by (vm_compute; reflexivity).
  assert (Hj : join SEP (t :: l) <> []).
  { apply join_ne; [|done]. eapply Forall_impl; [exact Hl|]. by intros ? (? & _). }
  rewrite Hlab, <-app_assoc. split; [by destruct key|]. split.
  - apply strip_app; [done|done|done|]. apply strip_app; [done|done|done|].
    apply strip_join. eapply Forall_impl; [exact Hl|]. by intros ? (? & ? & _).
  - apply Forall_app. split; [done|]. constructor; [done|].
    apply join_Forall; [by repeat constructor|]. eapply Forall_impl; [exact Hl|]. by intros ? (_ & _ & ? & _).
Qed.

Lemma intent_ok i : strip i = i -> Forall (fun c => is_linebreak c = false) i ->
  Forall line_ok (if truthy i then [u "意图：" ++ i] else []).
Proof.
  intros Hs Hb. destruct i as [|c i]; [constructor|]. cbn [truthy]. constructor; [|constructor].
  assert (Hl : u "意图：" = u "意图" ++ [65306%N]) by (vm_compute; reflexivity).
  rewrite Hl, <-app_assoc. split; [done|]. split.
  - apply strip_app; [done|done|by vm_compute|]. apply strip_app; [done|done|by vm_compute|done].
  - apply Forall_app. split; [by repeat constructor|]. by constructor.
Qed.

Lemma section_label_check label key :
  bool_decide (u label = key ++ [65306%N]) && bool_decide (key ∈ SECTION_KEYS) = true ->
  u label = key ++ [65306%N] /\ key ∈ SECTION_KEYS.
Proof. intros [H1 H2]%andb_true_iff. by apply bool_decide_eq_true in H1, H2. Qed.

(** The stored text is read back: what one turn renders in full is what the next turn
    parses, provided the facts hold no separator. *)
Lemma parse_lines s : summary_ok s -> parse (Some (_lines s)) = s.
Proof.
  intros [Ho Hc Hf Hp [Hi Hib]].
  pose proof (section_label_check "订单：" (u "订单") eq_refl) as [Ho1 Ho2].
  pose proof (section_label_check "课程：" (u "课程") eq_refl) as [Hc1 Hc2].
  pose proof (section_label_check "意图：" (u "意图") eq_refl) as [Hi1 Hi2].
  pose proof (section_label_check "已确认：" (u "已确认") eq_refl) as [Hf1 Hf2].
  pose proof (section_label_check "未决：" (u "未决") eq_refl) as [Hp1 Hp2].
  assert (Hrows : Forall line_ok (rows s)).
  { unfold rows. repeat (apply Forall_app; split); try (by eapply row_ok). by apply intent_ok. }
  unfold parse. cbn [opt_str default from_option id]. unfold _lines.
  rewrite strip_join; [|eapply Forall_impl; [exact Hrows|]; by intros ? (? & ? & _)].
  rewrite splitlines_join; [|eapply Forall_impl; [exact Hrows|]; by intros ? (? & _ & ?)].
  assert (Hrun : foldl parse_line (no_summary, [], false) (rows s) = (s, [], nonempty (rows s))).
  { unfold rows. rewrite !foldl_app.
    rewrite (row_line _ _ _ _ _ _ Ho1 Ho2 Ho), (row_line _ _ _ _ _ _ Hc1 Hc2 Hc).
    assert (Hint : forall acc left saw, foldl parse_line (acc, left, saw) (if truthy (ss_intent s) then [u "意图：" ++ ss_intent s] else []) =
      (if truthy (ss_intent s) then with_section (u "意图") (ss_intent s) acc else acc, left, saw || truthy (ss_intent s))).
    { intros acc left saw. destruct (ss_intent s) as [|x i]; [by rewrite orb_false_r|]. cbn [truthy foldl].
      rewrite Hi1, <-app_assoc, orb_true_r. by apply section_line. }
    rewrite Hint, (row_line _ _ _ _ _ _ Hf1 Hf2 Hf), (row_line _ _ _ _ _ _ Hp1 Hp2 Hp).
    f_equal; [f_equal|].
    - assert (Hnil : forall l, Forall fact_ok l -> if nonempty l then _split_facts (join SEP l) = l else l = []).
      { intros [|t l] Hl; [done|]. by apply split_facts_join. }
      apply Hnil in Ho, Hc, Hf, Hp. clear -Ho Hc Hf Hp. destruct s as [o c i f p].
      cbn [ss_orders ss_courses ss_intent ss_confirmed ss_pending] in *. unfold with_section. lit_eq.
      destruct (nonempty o), (nonempty c), (nonempty f), (nonempty p), i; cbn [truthy no_summary ss_orders ss_courses ss_intent ss_confirmed ss_pending];
        by rewrite ?Ho, ?Hc, ?Hf, ?Hp.
    - destruct s as [o c i f p]. cbn [ss_orders ss_courses ss_intent ss_confirmed ss_pending].
      destruct o, c, i, f, p; reflexivity. }
  destruct (rows s) as [|r rs] eqn:Er.
  - cbn [join truthy negb]. cbn [foldl] in Hrun. congruence.
  - rewrite Hrun. cbn [nonempty andb]. destruct (truthy (join [10%N] (r :: rs))) eqn:E; [done|].
    destruct (join [10%N] (r :: rs)) eqn:Ej; [|done]. exfalso. revert Ej. apply join_ne; [|done].
    eapply Forall_impl; [exact Hrows|]. by intros ? (? & _).
Qed.

(** C35.  The summary survives being stored: a summary of well-formed facts that fits its limit
    is parsed back, next turn, as it was; one that does not fit is parsed back as a
    summary of its newest facts, unless a single fact per line is too long already. *)
Theorem summary_roundtrip (settings_max : option Z) (s : StructuredSummary) (n : Z) :
  summary_ok s ->
  let limit := Z.to_nat (Z.max 80 n) in
  let text := render settings_max s (Some n) in
  (length (_lines s) <= limit -> parse (Some text) = s) /\
  ((exists s', newest s' s /\ parse (Some text) = s') \/
   exists s', newest s' s /\ shorten s' = None /\ limit < length (_lines s')).
Proof.
  intros Hs. cbn zeta. unfold render, _resolve_summary_max_chars. set (limit := Z.to_nat (Z.max 80 n)).
  assert (Hok : forall s', newest s' s -> summary_ok s').
  { intros s' [[? Ho] [? Hc] [? Hf] [? Hp] Hi]. destruct Hs as [Hso Hsc Hsf Hsp Hsi].
    rewrite Ho in Hso. rewrite Hc in Hsc. rewrite Hf in Hsf. rewrite Hp in Hsp.
    apply Forall_app in Hso as [_ ?], Hsc as [_ ?], Hsf as [_ ?], Hsp as [_ ?].
    split; [done..|]. by rewrite Hi. }
  split.
  - intros Hle. cbn [render_loop]. rewrite (proj2 (Nat.leb_le _ _)) by done. by apply parse_lines.
  - destruct (render_loop_spec (S (facts_count s)) limit s) as (s' & Hn & Hl & Ht); [lia|lia|].
    destruct Ht as [Ht|[Hsh Ht]].
    + left. exists s'. split; [done|]. rewrite Ht. by apply parse_lines, Hok.
    + destruct (Nat.le_gt_cases (length (_lines s')) limit) as [Hle|Hgt]; [|right; by exists s'].
      left. exists s'. split; [done|]. rewrite Ht.
      assert (py_last limit (_lines s') = _lines s') as ->; [|by apply parse_lines, Hok].
      unfold py_last. destruct limit; [done|].
      by replace (length (_lines s') - S limit) with 0 by lia.
Qed.

(** The last word wins: a label is in the sequence exactly if it was said and nothing said
    after its last mention excludes it; each label is there once, no two that exclude
    each other are, and a cap keeps the latest. *)
Theorem exclusive_last_word (labels : list pystr) (cap : nat) :
  let out := _apply_exclusive_sequence labels None in
  (forall x, x ∈ out <-> exists before item after, labels = before ++ item :: after /\
     strip item = x /\ truthy x = true /\ forall y, y ∈ after -> x ∉ _rivals_of (strip y)) /\
  NoDup out /\ (forall x y, x ∈ out -> y ∈ out -> x ∉ _rivals_of y) /\
  _apply_exclusive_sequence labels (Some cap) `suffix_of` out /\
  (cap <> 0 -> length (_apply_exclusive_sequence labels (Some cap)) <= cap).
Proof.
  cbn zeta. unfold _apply_exclusive_sequence. split; [|split; [|split; [|split]]].
  - intros x. rewrite sequence_elem. split; [intros [[H _]|H]; [by apply elem_of_nil in H|exact H]|by right].
  - by apply sequence_NoDup, NoDup_nil.
  - intros x y. apply sequence_exclusive.
  - apply suffix_py_last.
  - intros Hc. rewrite length_py_last by done. lia.
Qed.

Lemma length_prepend existing incoming cap : cap <> 0 -> length (_prepend_unique existing incoming cap) <= cap.
Proof. intros Hc. unfold _prepend_unique. rewrite length_py_last by done. lia. Qed.

Lemma confirmed_seq labels :
  NoDup (_apply_exclusive_sequence labels (Some 6)) /\ length (_apply_exclusive_sequence labels (Some 6)) <= 6 /\
  forall x y, x ∈ _apply_exclusive_sequence labels (Some 6) -> y ∈ _apply_exclusive_sequence labels (Some 6) ->
    x ∉ _rivals_of y.
Proof.
  unfold _apply_exclusive_sequence. split; [by apply NoDup_py_last, sequence_NoDup, NoDup_nil|].
  split; [rewrite length_py_last by done; lia|]. intros x y Hx%elem_py_last Hy%elem_py_last.
  by eapply sequence_exclusive.
Qed.

(** What a fold is about to write, whatever the stored text and whatever was said: at most
    three orders, three courses, six conclusions and four open points; no conclusion twice
    and no two that contradict each other; and nothing is open that is known: no request
    for an order number while one is known, none for a course while one is. *)
Theorem summary_tidy (existing : option pystr) (overflow : list message) (slots : option SessionSlots) :
  let s := resolve (merge (parse existing) (extract_summary_facts overflow slots)) slots in
  length (ss_orders s) <= 3 /\ length (ss_courses s) <= 3 /\
  length (ss_confirmed s) <= 6 /\ length (ss_pending s) <= 4 /\
  NoDup (ss_confirmed s) /\
  (forall x y, x ∈ ss_confirmed s -> y ∈ ss_confirmed s -> x ∉ _rivals_of y) /\
  (ss_orders s <> [] \/ truthy (slot_text last_order_no slots) = true -> _PENDING_ORDER_NO ∉ ss_pending s) /\
  (ss_courses s <> [] \/ truthy (slot_text last_course_name slots) = true -> _PENDING_COURSE ∉ ss_pending s).
Proof.
  cbn zeta. set (m := merge _ _).
  destruct (confirmed_seq (ss_confirmed m)) as (Hnd & Hlen & Hex).
  assert (Hp : length (ss_pending m) <= 4) by (apply length_prepend; lia).
  unfold resolve. cbn [ss_orders ss_courses ss_confirmed ss_pending].
  split; [by apply length_prepend|]. split; [by apply length_prepend|]. split; [done|].
  set (has_order := nonempty (ss_orders m) || _). set (has_course := nonempty (ss_courses m) || _).
  split.
  { destruct has_course, has_order; try done;
      repeat (etransitivity; [apply length_filter|]); exact Hp. }
  split; [done|]. split; [done|].
  assert (Ho : ss_orders m <> [] \/ truthy (slot_text last_order_no slots) = true -> has_order = true).
  { unfold has_order. destruct (ss_orders m); [|done]. intros [?|Ht]; [done|exact Ht]. }
  assert (Hc : ss_courses m <> [] \/ truthy (slot_text last_course_name slots) = true -> has_course = true).
  { unfold has_course. destruct (ss_courses m); [|done]. intros [?|Ht]; [done|exact Ht]. }
  split.
  - intros ->%Ho. clear -has_course. destruct has_course; rewrite ?list_elem_of_filter; [intros (_ & ? & _)|intros [? _]]; done.
  - intros ->%Hc. rewrite list_elem_of_filter. by intros [? _].
Qed.

Lemma summary_roundtrip_witness :
  let s := {| ss_orders := [u "TN20250601001 用户要退款"]; ss_courses := [u "Python课"]; ss_intent := u "查订单";
              ss_confirmed := [u "在追物流"; u "已发货"]; ss_pending := [] |} in
  let limit := Z.to_nat (Z.max 80 200) in
  let text := render None s (Some 200%Z) in
  length (_lines s) <= limit /\
  (length (_lines s) <= limit -> parse (Some text) = s) /\
  ((exists s', newest s' s /\ parse (Some text) = s') \/
   exists s', newest s' s /\ shorten s' = None /\ limit < length (_lines s')).
Proof.
  intros s limit text. split; [apply Nat.leb_le; vm_compute; reflexivity|].
  apply (summary_roundtrip None s 200).
  split; [..|split]; try (eapply bool_decide_eq_true_1; vm_compute; reflexivity).
Defined.
