(* ===== verification/Compress.v ===== *)
(** * History compression ([app/context/summary])

    What a conversation keeps verbatim, what it folds into the summary and what it lets
    go: long course outlines are cut in place ([rag_compact.py]), messages are scored
    and grouped by turn ([scoring.py]), turns are graded and trimmed to the token budget
    ([compress.py]), and what overflows becomes facts, by rules or by the model
    ([llm.py]).  Messages are objects: where the code compares [id(m)], the position in
    the list stands for the object. *)

From stdpp Require Import base list gmap sets strings.
From Stdlib Require Import Floats.SpecFloat.
From S2P Require Import Prelude PyText Errors PyFloat PyRe OrderNo Window Filters Slots Facts.

Open Scope py_scope.

#[export] Instance message_eq_dec : EqDecision message.
Proof. solve_decision. Defined.

(** ** Course outlines ([rag_compact.py]) *)

Definition RAG_COMPACT_MIN_CHARS : nat := 400.
Definition RAG_COMPACT_SUMMARY_CHARS : nat := 180.

(** [(?m)^##\s+\S] *)
Definition rag_title_re : re :=
  rseq [line_start; rlit (u "##"); spaces1; RChar (fun c => negb (is_space c))].

Definition _is_long_rag_reply (text : pystr) : bool :=
  if length text <? RAG_COMPACT_MIN_CHARS then false
  else
    let has_title := found rag_title_re text in
    let has_outline := contains (u "### 课程模块") text || contains (u "### 学习路径") text in
    has_title && has_outline.

(** The loop over the lines: the title, and the parts of the summary. *)
Fixpoint compact_lines (lines : list pystr) (title : pystr) (summary_parts : list pystr) : pystr * list pystr :=
  match lines with
  | [] => (title, summary_parts)
  | line :: lines =>
    let stripped := strip line in
    if negb (truthy title) && is_prefix (u "## ") stripped then
      compact_lines lines (strip (drop 3 stripped)) summary_parts
    else if is_prefix (u "###") stripped then (title, summary_parts)
    else if truthy stripped then
      let summary_parts := summary_parts ++ [stripped] in
      if RAG_COMPACT_SUMMARY_CHARS <=? length (join (u " ") summary_parts) then (title, summary_parts)
      else compact_lines lines title summary_parts
    else compact_lines lines title summary_parts
  end.

Definition _compact_rag_text (text : pystr) : pystr :=
  let (title, summary_parts) := compact_lines (splitlines text) [] [] in
  let body := take RAG_COMPACT_SUMMARY_CHARS (join (u " ") summary_parts) in
  let head := if truthy title then u "## " ++ title else u "## 课程咨询" in
  if truthy body then strip (head ++ [10%N] ++ body) else head.

Definition compact_rag_history (text : pystr) : pystr :=
  if negb (_is_long_rag_reply text) then text else _compact_rag_text text.

(** [None]: the message itself. *)
Definition compact_rag_message (message : message) : option Window.message :=
  match msg_role message with
  | AIMessage =>
    let text := msg_text message in
    let stub := compact_rag_history text in
    if bool_decide (stub = text) then None
    else Some {| msg_role := AIMessage; msg_text := stub; msg_id := msg_id message |}
  | _ => None
  end.

Definition has_id (m : message) : bool := otruthy (msg_id m).

Definition apply_rag_compact (messages : list message) : list message * list message :=
  (map (fun m => default m (compact_rag_message m)) messages,
   filter (fun m => has_id m = true) (omap compact_rag_message messages)).

(** ** Scores ([scoring.py]) *)

Definition SCORE_WEIGHT_RELEVANCE : pyfloat := fl 7205759403792794 (-54).
Definition SCORE_WEIGHT_RECENCY : pyfloat := fl 5404319552844595 (-54).
Definition SCORE_WEIGHT_FREQUENCY : pyfloat := fl 7205759403792794 (-55).
Definition SCORE_WEIGHT_MARKED : pyfloat := fl 7205759403792794 (-56).
Definition f_min (a b : pyfloat) : pyfloat := if f_lt b a then b else a.

(** [[一-鿿]+] and [[A-Za-z0-9]{2,}]; group 0 is the whole match. *)
Definition _CJK_PATTERN : re := RGroup 0 (rmin 1 (RChar is_cjk)).
Definition _WORD_PATTERN : re := RGroup 0 (rmin 2 (RChar is_ascii_alnum)).
Definition findall (r : re) (s : pystr) : list pystr := omap (group 0) (finditer r s).

Fixpoint bigrams (run : pystr) : list pystr :=
  match run with
  | a :: (b :: _) as rest => [a; b] :: bigrams rest
  | _ => []
  end.

Definition _text_tokens (text : pystr) : gset pystr :=
  if negb (truthy text) then ∅
  else
    list_to_set (findall _CJK_PATTERN text ≫= fun run => if length run =? 1 then [run] else bigrams run)
    ∪ list_to_set (map lower (findall _WORD_PATTERN text)).

Definition _relevance_score (message_text_value current_query : pystr) : pyfloat :=
  if negb (truthy current_query) || negb (truthy message_text_value) then f_zero
  else
    let msg_tokens := _text_tokens message_text_value in
    let query_tokens := _text_tokens current_query in
    let union := msg_tokens ∪ query_tokens in
    if bool_decide (union = ∅) then f_zero
    else f_div_int (Z.of_nat (size (msg_tokens ∩ query_tokens))) (Z.of_nat (size union)).

Definition _recency_score (msg_index total : Z) : pyfloat :=
  if (total <=? 0)%Z then f_zero
  else
    let distance := Z.max 0 (total - 1 - msg_index) in
    f_max f_zero (f_sub f_one (f_mul (f_div_int distance 5) SCORE_WEIGHT_MARKED)).

Definition _frequency_score (msg_text : pystr) (later_messages : list message) (slots : option SessionSlots)
    : pyfloat :=
  if negb (truthy msg_text) || negb (nonempty later_messages) then f_zero
  else
    let keywords :=
      match slots with
      | None => []
      | Some s =>
        filter (fun val => truthy val && (2 <=? length val) && contains val msg_text = true)
          (map (fun v => strip (opt_str v)) [last_order_no s; last_course_name s; last_course_query s])
      end in
    if negb (nonempty keywords) then f_zero
    else
      let refs := length (filter (fun later => existsb (fun kw => contains kw (Window.msg_text later)) keywords = true)
                            later_messages) in
      f_min f_one (f_mul_int (Z.of_nat refs) SCORE_WEIGHT_FREQUENCY).

(** [messages.index(message)], by equality. *)
Definition index_of (message : message) (messages : list Window.message) : nat :=
  match list_find (fun m => m = message) messages with
  | Some (i, _) => i
  | None => length messages - 1
  end.

Definition score_message (message : message) (messages : list Window.message) (current_query : pystr)
    (slots : option SessionSlots) (marked_important : bool) : pyfloat :=
  let text := msg_text message in
  if negb (truthy (strip text)) then f_zero
  else
    let msg_index := index_of message messages in
    let relevance := _relevance_score text current_query in
    let recency := _recency_score (Z.of_nat msg_index) (Z.of_nat (length messages)) in
    let later := drop (msg_index + 1) messages in
    let frequency := _frequency_score text later slots in
    let marked := if marked_important then f_one else f_zero in
    f_add (f_add (f_add (f_mul relevance SCORE_WEIGHT_RELEVANCE) (f_mul recency SCORE_WEIGHT_RECENCY))
                 (f_mul frequency SCORE_WEIGHT_FREQUENCY))
          (f_mul marked SCORE_WEIGHT_MARKED).

(** *** Turns *)

Abbreviation at_pos := (nat * message)%type.

Definition role_is (r : role) (p : at_pos) : bool := bool_decide (msg_role p.2 = r).
Definition close_turn (current : list at_pos) (turns : list (list at_pos)) : list (list at_pos) :=
  if nonempty current then turns ++ [current] else turns.

(** The loop's variables: system messages, turns, and the turn being read. *)
Record partition := { pt_systems : list at_pos; pt_turns : list (list at_pos); pt_current : list at_pos }.

Definition partition_step (acc : partition) (p : at_pos) : partition :=
  let '{| pt_systems := systems; pt_turns := turns; pt_current := current |} := acc in
  if role_is SystemMessage p then
    {| pt_systems := systems ++ [p]; pt_turns := close_turn current turns; pt_current := [] |}
  else if role_is HumanMessage p && nonempty current && existsb (role_is AIMessage) current then
    {| pt_systems := systems; pt_turns := turns ++ [current]; pt_current := [p] |}
  else if role_is AIMessage p && nonempty current && forallb (fun q => negb (role_is HumanMessage q)) current then
    {| pt_systems := systems; pt_turns := turns ++ [current]; pt_current := [p] |}
  else {| pt_systems := systems; pt_turns := turns; pt_current := current ++ [p] |}.

Definition numbered (messages : list message) : list at_pos := zip (seq 0 (length messages)) messages.

Definition partition_turns (messages : list message) : list at_pos * list (list at_pos) :=
  let acc := foldl partition_step {| pt_systems := []; pt_turns := []; pt_current := [] |} (numbered messages) in
  (pt_systems acc, close_turn (pt_current acc) (pt_turns acc)).

(** ** The budget ([_split_kept_by_budget]) *)

Section compress.
Context (tk : tokenizer).

Fixpoint sum_tokens (l : list message) : res exn Z :=
  match l with
  | [] => Ok 0%Z
  | m :: l => let? n := message_token_count tk m in let? rest := sum_tokens l in Ok (n + rest)%Z
  end.

(** The loop over the turns, newest first: the turns selected, and those older than the
    one that broke the loop, oldest first again. *)
Fixpoint select_turns (rest_budget min_keep : Z) (newest_first selected : list (list at_pos)) (total : Z)
    : res exn (list (list at_pos) * list (list at_pos)) :=
  match newest_first with
  | [] => Ok (selected, [])
  | turn :: older =>
    let? cost := sum_tokens (map snd turn) in
    let n_selected := Z.of_nat (length (concat selected)) in
    if nonempty selected && (rest_budget <? total + cost)%Z && (min_keep <=? n_selected)%Z
    then Ok (selected, reverse (turn :: older))
    else select_turns rest_budget min_keep older (turn :: selected) (total + cost)%Z
  end.

(** The messages whose position is among these. *)
Definition at_positions (keep : list nat) (messages : list message) : list message :=
  map snd (filter (fun p => p.1 ∈ keep) (numbered messages)).

Definition _split_kept_by_budget (kept : list message) (token_budget : Z) (summary : pystr) (always_keep_recent : Z)
    : res exn (list message * list message) :=
  if negb (nonempty kept) then Ok ([], [])
  else
    let? used := prompt_summary_tokens tk (Some summary) in
    let budget := Z.max 1 (token_budget - used) in
    let (systems, turns) := partition_turns kept in
    let system_msgs := map snd systems in
    let? pinned_cost := sum_tokens system_msgs in
    let rest_budget := Z.max 1 (budget - pinned_cost) in
    let body_count := Z.max 1 (Z.of_nat (length kept) - Z.of_nat (length system_msgs)) in
    let min_keep := Z.min (Z.max 1 always_keep_recent) body_count in
    let? split := select_turns rest_budget min_keep (reverse turns) [] 0 in
    let (selected, overflow_head) := split in
    Ok (at_positions (map fst (concat selected) ++ map fst systems) kept,
        map snd (concat overflow_head)).

(** ** The plan *)

Record CompressResult := {
  cr_kept : list message;
  cr_summarized : list message;
  cr_discarded : list message;
  cr_summary : pystr;
  cr_updated : list message;
}.

Record _CompressionPlan := {
  cp_kept : list message;
  cp_summarized : list message;
  cp_discarded : list message;
  cp_fact_overflow : list message;
  cp_updated : list message;
}.

Record limits := {
  token_budget : Z;
  always_keep_recent : Z;
  discard_score : pyfloat;
  summarize_score : pyfloat;
  max_messages : Z;
  use_llm_summary : bool;
  max_summary_chars : option Z;
}.
Context (lim : limits) (settings_max : option Z).
Context (current_query : pystr) (slots : option SessionSlots).

(** [_drop_updated]: the ids of [overflow], [None] aside. *)
Definition _drop_updated (updated overflow : list message) : list message :=
  filter (fun m => match msg_id m with Some i => negb (bool_decide (i ∈ omap msg_id overflow)) | None => true end = true)
    updated.

(** What becomes of one turn. *)
Inductive fate := Keep | Summarize | Discard.

Definition py_max (l : list pyfloat) : pyfloat :=
  match l with [] => f_zero | x :: l => foldl f_max x l end.

Definition grade (scores : list pyfloat) (recent_start : Z) (turn : list at_pos) : fate :=
  let last_idx := match last turn with Some p => Z.of_nat p.1 | None => 0%Z end in
  if (recent_start <=? last_idx)%Z then Keep
  else
    let score := py_max (omap (fun p => scores !! p.1) turn) in
    if f_lt score (discard_score lim) then Discard
    else if f_lt score (summarize_score lim) then Summarize
    else Keep.

Definition compacted (m : message) : message := default m (compact_rag_message m).

Definition fate_eqb (a b : fate) : bool :=
  match a, b with Keep, Keep | Summarize, Summarize | Discard, Discard => true | _, _ => false end.

(** The turns of one fate. *)
Definition graded (f : fate) (grades : list at_pos -> fate) (turns : list (list at_pos)) : list (list at_pos) :=
  filter (fun t => fate_eqb (grades t) f = true) turns.

Definition _plan_compression (messages : list message) (existing_summary : pystr)
    : res exn (CompressResult + _CompressionPlan) :=
  let finished := finalize_summary settings_max existing_summary slots (max_summary_chars lim) in
  if negb (nonempty messages) then
    Ok (inl {| cr_kept := []; cr_summarized := []; cr_discarded := []; cr_summary := finished; cr_updated := [] |})
  else
    let? costs := sum_tokens messages in
    let? used := prompt_summary_tokens tk (Some existing_summary) in
    if (costs + used <=? token_budget lim)%Z && (Z.of_nat (length messages) <=? max_messages lim)%Z then
      let (kept, updated) := apply_rag_compact messages in
      Ok (inl {| cr_kept := kept; cr_summarized := []; cr_discarded := []; cr_summary := finished;
                 cr_updated := updated |})
    else
      let scores := map (fun m => score_message m messages current_query slots false) messages in
      let recent_start := Z.max 0 (Z.of_nat (length messages) - always_keep_recent lim) in
      let (systems, turns) := partition_turns messages in
      let grades := grade scores recent_start in
      let keep_pos := map fst systems ++ map fst (concat (graded Keep grades turns)) in
      let summarized := map (fun p => compacted p.2) (concat (graded Summarize grades turns)) in
      let discarded := map snd (concat (graded Discard grades turns)) in
      (* in the order the turns are visited *)
      let fact_overflow := concat (map (fun t => match grades t with
        | Discard => map snd t
        | Summarize => map (fun p => compacted p.2) t
        | Keep => []
        end) turns) in
      let turn_pos := map fst (concat turns) in
      let kept := map (fun p => if decide (p.1 ∈ turn_pos) then compacted p.2 else p.2)
                    (filter (fun p => p.1 ∈ keep_pos) (numbered messages)) in
      let updated := omap (fun p => if decide (p.1 ∈ turn_pos) then compact_rag_message p.2 else None)
                       (filter (fun p => p.1 ∈ keep_pos) (numbered messages)) in
      let? split := _split_kept_by_budget kept (token_budget lim) existing_summary (always_keep_recent lim) in
      let (kept, fallback_overflow) := split in
      Ok (inr {| cp_kept := kept; cp_summarized := summarized ++ fallback_overflow; cp_discarded := discarded;
                 cp_fact_overflow := fact_overflow ++ fallback_overflow;
                 cp_updated := _drop_updated updated fallback_overflow |}).

Definition _finalize_compression (plan : _CompressionPlan) (summary : pystr) : res exn CompressResult :=
  let? split := _split_kept_by_budget (cp_kept plan) (token_budget lim) summary (always_keep_recent lim) in
  let (kept, extra) := split in
  let '(summarized, updated, summary) :=
    if nonempty extra then
      (cp_summarized plan ++ extra, _drop_updated (cp_updated plan) extra,
       fold_session_summary settings_max (Some summary) extra (max_summary_chars lim) slots)
    else (cp_summarized plan, cp_updated plan, summary) in
  Ok {| cr_kept := kept; cr_summarized := summarized; cr_discarded := cp_discarded plan;
        cr_summary := finalize_summary settings_max summary slots (max_summary_chars lim);
        cr_updated := updated |}.

(** ** The model's summary ([llm.py]) *)

(** [_BUSINESS_SIGNAL_RE]. *)
Definition BUSINESS_SIGNALS : list pystr :=
  map u ["订单"; "退款"; "退钱"; "物流"; "快递"; "发货"; "取消"; "进度"; "课程"; "大纲"; "模块"; "学费"; "价格";
         "多少钱"; "零基础"; "适合"; "付费"; "推荐"; "太难"; "很难"; "偏难"; "转人工"; "转接"; "开课"; "学什么";
         "讲什么"; "不想学"; "改主意"; "别推"; "不要推"; "别推荐"; "不要推荐"]%string.
Definition _BUSINESS_SIGNAL_RE : re := ralt (map rlit BUSINESS_SIGNALS).

Definition _overflow_has_business_signal (messages : list message) : bool :=
  existsb (fun m =>
    let text := strip (msg_text m) in
    truthy text && (found ORDER_NO_RE text || found _BUSINESS_SIGNAL_RE text || nonempty (extract_course_names text)))
    messages.

Definition should_invoke_llm_summary (messages : list message) (existing delta : StructuredSummary) : bool :=
  if negb (nonempty messages) then false
  else if novel_against delta existing then true
  else _overflow_has_business_signal messages.

(** [_LlmSummaryPrepared]. *)
Inductive prepared :=
| Done (result : pystr)
| Invoke (existing delta : StructuredSummary) (user_block : pystr).

(** [text.replace("\n", " ")]. *)
Definition one_line (text : pystr) : pystr := replace_char 10 32 text.

Definition or_none (s : option pystr) : pystr := opt_str (ostr_or s (Some (u "无"))).

Definition _prepare_llm_summary (messages : list message) (existing_summary : pystr) (max_chars : option Z) : prepared :=
  let existing := parse (Some existing_summary) in
  let delta := extract_summary_facts messages slots in
  if negb (nonempty messages) then Done (finalize_summary settings_max existing_summary slots max_chars)
  else if negb (should_invoke_llm_summary messages existing delta) then
    Done (fold_session_summary settings_max (Some existing_summary) messages max_chars slots)
  else
    let lines := omap (fun m =>
      let text := one_line (strip (msg_text m)) in
      if truthy text
      then Some ((if bool_decide (msg_role m = HumanMessage) then u "用户" else u "助手") ++ u "：" ++ take 200 text)
      else None) messages in
    if negb (nonempty lines) then Done (finalize_structured settings_max existing slots max_chars)
    else
      let slot_hint :=
        match slots with
        | Some s => u "槽位已有：订单=" ++ or_none (last_order_no s) ++ u "；课程=" ++ or_none (last_course_name s)
                    ++ u "；意图=" ++ or_none (last_intent s) ++ u "。" ++ [10%N]
        | None => []
        end in
      Invoke existing delta
        (slot_hint ++ u "已有摘要：" ++ [10%N] ++ str_or (render settings_max existing None) (u "（空）") ++ [10%N; 10%N]
         ++ u "溢出消息：" ++ [10%N] ++ join [10%N] lines).

Definition _merge_llm_summary_text (summary_text : pystr) (existing delta : StructuredSummary)
    (existing_summary : pystr) (messages : list message) (max_chars : option Z) : pystr :=
  if negb (truthy summary_text) then
    fold_session_summary settings_max (Some existing_summary) messages max_chars slots
  else
    let llm_delta := parse (Some summary_text) in
    let llm_delta :=
      if has_content llm_delta then llm_delta
      else {| ss_orders := []; ss_courses := []; ss_intent := [];
              ss_confirmed := [take 120 (strip (one_line summary_text))]; ss_pending := [] |} in
    finalize_structured settings_max (merge (merge existing llm_delta) delta) slots max_chars.

(** [_invoke_llm_summary]: the model's answer to the block, stripped. *)
Context (llm : pystr -> res exn pystr).

Definition _llm_batch_summarize (messages : list message) (existing_summary : pystr) (max_chars : option Z)
    : res exn pystr :=
  match _prepare_llm_summary messages existing_summary max_chars with
  | Done result => Ok result
  | Invoke existing delta user_block =>
    match llm user_block with
    | Ok text => Ok (_merge_llm_summary_text (strip text) existing delta existing_summary messages max_chars)
    | Raise e =>
      if is_Exception e
      then Ok (fold_session_summary settings_max (Some existing_summary) messages max_chars slots)
      else Raise e
    end
  end.

(** ** [compress_by_importance] *)

Definition compress_by_importance (messages : list message) (existing_summary : pystr) : res exn CompressResult :=
  let? planned := _plan_compression messages existing_summary in
  match planned with
  | inl result => Ok result
  | inr plan =>
    let? summary :=
      if nonempty (cp_fact_overflow plan) then
        if use_llm_summary lim
        then _llm_batch_summarize (cp_fact_overflow plan) existing_summary (max_summary_chars lim)
        else Ok (fold_session_summary settings_max (Some existing_summary) (cp_fact_overflow plan)
                   (max_summary_chars lim) slots)
      else Ok existing_summary in
    _finalize_compression plan summary
  end.
End compress.

(** ** Turns, specified *)

Definition is_system (p : at_pos) : Prop := msg_role p.2 = SystemMessage.
#[export] Instance is_system_dec p : Decision (is_system p).
Proof. unfold is_system. apply _. Defined.

Lemma close_turn_concat c turns : concat (close_turn c turns) = concat turns ++ c.
Proof. unfold close_turn. destruct c; cbn [nonempty]; [by rewrite app_nil_r|]. by rewrite concat_app; cbn; rewrite app_nil_r. Qed.

Lemma close_turn_nonempty c turns : Forall (fun t => t <> []) turns -> Forall (fun t => t <> []) (close_turn c turns).
Proof. intros H. unfold close_turn. destruct c; [done|]. apply Forall_app. by repeat constructor. Qed.

Lemma partition_step_spec acc p :
  let acc' := partition_step acc p in
  Forall (fun t => t <> []) (pt_turns acc) ->
  Forall (fun t => t <> []) (pt_turns acc') /\
  pt_systems acc' = pt_systems acc ++ filter is_system [p] /\
  concat (pt_turns acc') ++ pt_current acc' = (concat (pt_turns acc) ++ pt_current acc) ++ filter (fun q => ~ is_system q) [p].
Proof.
  cbn zeta. intros Hne. destruct acc as [systems turns current]. unfold partition_step.
  cbn [pt_turns pt_systems pt_current] in *. rewrite !filter_cons, !filter_nil.
  assert (Hsys : role_is SystemMessage p = bool_decide (is_system p)) by done. rewrite Hsys.
  destruct (decide (is_system p)) as [Hp|Hp].
  - rewrite bool_decide_eq_true_2, decide_False by (done || tauto).
    cbn [pt_turns pt_systems pt_current]. split; [by apply close_turn_nonempty|]. split; [done|].
    by rewrite close_turn_concat, !app_nil_r.
  - rewrite bool_decide_eq_false_2, decide_True by done. rewrite app_nil_r.
    assert (Hnew : Forall (fun t => t <> []) (turns ++ [current]) <-> current <> []).
    { rewrite Forall_app, Forall_singleton. naive_solver. }
    destruct (role_is HumanMessage p && nonempty current && existsb (role_is AIMessage) current) eqn:E1.
    { cbn [pt_turns pt_systems pt_current]. rewrite concat_app. cbn. rewrite app_nil_r.
      split; [|done]. apply Hnew. by destruct current; [rewrite andb_false_r in E1|]. }
    destruct (role_is AIMessage p && nonempty current && forallb _ current) eqn:E2.
    { cbn [pt_turns pt_systems pt_current]. rewrite concat_app. cbn. rewrite app_nil_r.
      split; [|done]. apply Hnew. by destruct current; [rewrite andb_false_r in E2|]. }
    cbn [pt_turns pt_systems pt_current]. by rewrite <-app_assoc.
Qed.

Lemma partition_fold l : forall acc, Forall (fun t => t <> []) (pt_turns acc) ->
  let r := foldl partition_step acc l in
  Forall (fun t => t <> []) (pt_turns r) /\
  pt_systems r = pt_systems acc ++ filter is_system l /\
  concat (pt_turns r) ++ pt_current r = (concat (pt_turns acc) ++ pt_current acc) ++ filter (fun q => ~ is_system q) l.
Proof.
  induction l as [|p l IH]; intros acc Hne; cbn zeta; cbn [foldl].
  - rewrite !filter_nil, !app_nil_r. done.
  - destruct (partition_step_spec acc p Hne) as (H1 & H2 & H3). destruct (IH _ H1) as (H4 & H5 & H6).
    split; [done|]. rewrite H5, H6, H2, H3, <-!app_assoc.
    change (p :: l) with ([p] ++ l). rewrite !filter_app. done.
Qed.

(** The turns are the other messages, in order, cut into non-empty pieces. *)
Lemma partition_turns_spec messages systems turns : partition_turns messages = (systems, turns) ->
  systems = filter is_system (numbered messages) /\
  concat turns = filter (fun q => ~ is_system q) (numbered messages) /\
  Forall (fun t => t <> []) turns.
Proof.
  unfold partition_turns. intros [= <- <-].
  destruct (partition_fold (numbered messages) {| pt_systems := []; pt_turns := []; pt_current := [] |})
    as (H1 & H2 & H3); [constructor|].
  split; [exact H2|]. split; [|by apply close_turn_nonempty]. by rewrite close_turn_concat, H3.
Qed.

Lemma numbered_snd messages : map snd (numbered messages) = messages.
Proof. unfold numbered. apply snd_zip. by rewrite length_seq. Qed.

Lemma numbered_fst messages : map fst (numbered messages) = seq 0 (length messages).
Proof. unfold numbered. apply fst_zip. by rewrite length_seq. Qed.

Lemma numbered_NoDup messages : NoDup (numbered messages).
Proof. apply (NoDup_fmap_1 fst). fold (map (fst (A := nat) (B := message))). rewrite numbered_fst. apply NoDup_seq. Qed.

(** Positions tell messages apart. *)
Lemma numbered_inj messages p q : p ∈ numbered messages -> q ∈ numbered messages -> p.1 = q.1 -> p = q.
Proof.
  intros Hp Hq Heq. apply list_elem_of_lookup in Hp as [i Hi], Hq as [j Hj].
  assert (Hfst : forall k x, numbered messages !! k = Some x -> x.1 = k).
  { intros k x Hk. apply (f_equal (fmap fst)) in Hk. rewrite <-list_lookup_fmap in Hk.
    change (fst <$> numbered messages) with (map fst (numbered messages)) in Hk.
    rewrite numbered_fst in Hk. apply lookup_seq in Hk as [? _]. lia. }
  rewrite (Hfst _ _ Hi), (Hfst _ _ Hj) in Heq. subst j. congruence.
Qed.

Lemma filter_split {A} (P : A -> Prop) `{forall x, Decision (P x)} (l : list A) :
  filter P l ++ filter (fun x => ~ P x) l ≡ₚ l.
Proof.
  induction l as [|x l IH]; [done|]. rewrite !filter_cons.
  destruct (decide (P x)); [rewrite decide_False by tauto|rewrite decide_True by done]; cbn; [by rewrite IH|].
  by rewrite <-Permutation_middle, IH.
Qed.

(** Selecting by position selects the messages themselves. *)
Lemma positions_perm messages (A : list at_pos) : NoDup A -> (forall p, p ∈ A -> p ∈ numbered messages) ->
  filter (fun p => p.1 ∈ map fst A) (numbered messages) ≡ₚ A.
Proof.
  intros Hnd HA. apply NoDup_Permutation; [apply NoDup_filter, numbered_NoDup|done|]. intros p.
  rewrite list_elem_of_filter. split.
  - intros [Hp Hin]. apply list_elem_of_fmap in Hp as (q & Hq & Hqa).
    by rewrite (numbered_inj messages p q Hin (HA _ Hqa) Hq).
  - intros Hp. split; [|by apply HA]. apply list_elem_of_fmap. by exists p.
Qed.

Lemma numbered_snoc messages m : numbered (messages ++ [m]) = numbered messages ++ [(length messages, m)].
Proof.
  unfold numbered. rewrite length_app. cbn [length]. rewrite Nat.add_1_r, seq_S, zip_with_app; [done|].
  by rewrite length_seq.
Qed.

Lemma map_sublist {A B} (f : A -> B) (l k : list A) : l `sublist_of` k -> map f l `sublist_of` map f k.
Proof. induction 1; cbn; by constructor. Qed.

(** The newest message ends the last turn. *)
Lemma newest_turn pre m systems turns : partition_turns (pre ++ [m]) = (systems, turns) ->
  msg_role m <> SystemMessage -> exists turns' q, turns = turns' ++ [q ++ [(length pre, m)]].
Proof.
  intros (_ & Hturns & Hne)%partition_turns_spec Hm. rewrite numbered_snoc, filter_app in Hturns.
  rewrite (filter_cons_True _ (length pre, m)), filter_nil in Hturns by done.
  destruct turns as [|t turns _] using rev_ind; [by destruct (filter _ (numbered pre))|].
  apply Forall_app in Hne as [_ Hne]. rewrite Forall_singleton in Hne.
  destruct t as [|x q _] using rev_ind; [done|]. exists turns, q.
  rewrite concat_app in Hturns. cbn [concat] in Hturns. rewrite app_nil_r, app_assoc in Hturns.
  by apply app_inj_tail in Hturns as [_ ->].
Qed.

(** What is selected and what is left over, with the newest turn selected. *)
Lemma select_turns_spec tk budget keep l : forall sel total r, select_turns tk budget keep l sel total = Ok r ->
  r.2 ++ r.1 = reverse l ++ sel /\ (sel <> [] \/ l <> [] -> exists t, last r.1 = Some t /\ (t ∈ sel \/ head l = Some t)) /\
  (sel <> [] -> last r.1 = last sel).
Proof.
  induction l as [|turn l IH]; intros sel total r; cbn [select_turns].
  - intros [= <-]. cbn. split; [done|]. split; [|done]. intros [Hs|]; [|done].
    destruct (last sel) as [t|] eqn:E; [|by apply last_None in E].
    exists t. split; [done|]. left. by apply last_Some in E as [? ->]; apply elem_of_app; right; left.
  - rewrite rbind_ok. intros (cost & _ & Hr). destruct (nonempty sel && _ && _) eqn:E.
    + injection Hr as <-. cbn [fst snd]. split; [by rewrite reverse_cons|].
      assert (sel <> []) by by destruct sel. split; [|done]. intros _.
      destruct (last sel) as [t|] eqn:E2; [|by apply last_None in E2].
      exists t. split; [done|]. left. apply last_Some in E2 as [? ->]. apply elem_of_app. right. by left.
    + apply IH in Hr as (H1 & H2 & H3). split; [by rewrite H1, reverse_cons, <-app_assoc|]. split.
      * intros _. specialize (H3 ltac:(done)). destruct sel as [|s sel].
        -- exists turn. rewrite H3. cbn. split; [done|by right].
        -- rewrite H3, last_cons_cons. destruct (last (s :: sel)) as [t|] eqn:E2; [|by apply last_None in E2].
           exists t. split; [done|]. left. apply last_Some in E2 as [k ->]. apply elem_of_app. right. by left.
      * intros Hs. rewrite H3 by done. by destruct sel.
Qed.

(** Splitting by the budget loses nothing, keeps the order, and never lets the newest
    message go. *)
Lemma split_spec tk kept budget summary keep out over :
  _split_kept_by_budget tk kept budget summary keep = Ok (out, over) ->
  out ++ over ≡ₚ kept /\ out `sublist_of` kept /\
  forall pre m, kept = pre ++ [m] -> msg_role m <> SystemMessage -> last out = Some m.
Proof.
  unfold _split_kept_by_budget. destruct (nonempty kept) eqn:Ene; cbn [negb].
  2:{ intros [= <- <-]. destruct kept; [|done]. split; [done|]. split; [done|]. by intros [] ? ?. }
  rewrite rbind_ok. intros (used & _ & Hr). destruct (partition_turns kept) as [systems turns] eqn:Ep.
  apply rbind_ok in Hr as (pinned & _ & Hr). apply rbind_ok in Hr as ([sel ov] & Hsel & [= <- <-]).
  destruct (partition_turns_spec _ _ _ Ep) as (Hsys & Hturns & Hne).
  apply select_turns_spec in Hsel as (Hall & Hlast & _). cbn [fst snd] in *.
  rewrite reverse_involutive, app_nil_r in Hall.
  assert (Hperm : (concat sel ++ systems) ++ concat ov ≡ₚ numbered kept).
  { rewrite <-(filter_split is_system (numbered kept)), <-Hsys, <-Hturns, <-Hall, concat_app.
    rewrite (Permutation_app_comm (concat sel)), <-app_assoc. apply Permutation_app_head, Permutation_app_comm. }
  assert (Hnd : NoDup ((concat sel ++ systems) ++ concat ov)) by (rewrite Hperm; apply numbered_NoDup).
  assert (Hkeep : filter (fun p => p.1 ∈ map fst (concat sel) ++ map fst systems) (numbered kept) ≡ₚ concat sel ++ systems).
  { rewrite <-map_app. apply positions_perm; [by apply NoDup_app in Hnd as (? & _)|].
    intros p Hp. rewrite <-Hperm. apply elem_of_app. by left. }
  unfold at_positions. split; [|split].
  - transitivity (map snd ((concat sel ++ systems) ++ concat ov)).
    + rewrite (map_app _ (concat sel ++ systems)). apply Permutation_app_tail, Permutation_map. exact Hkeep.
    + etransitivity; [apply Permutation_map, Hperm|by rewrite numbered_snd].
  - rewrite <-(numbered_snd kept) at 2. apply map_sublist, sublist_filter.
  - intros pre m -> Hm. rewrite numbered_snoc, filter_app, map_app.
    assert (Hin : (length pre, m) ∈ concat sel).
    { destruct (newest_turn _ _ _ _ Ep Hm) as (turns' & q & ->). rewrite reverse_snoc in Hlast.
      destruct Hlast as (t & Hl & [[]%elem_of_nil|[= <-]]); [by right|].
      apply last_Some in Hl as [sel' ->]. rewrite concat_app. cbn. rewrite app_nil_r, elem_of_app. right.
      apply elem_of_app. right. by left. }
    rewrite filter_cons_True.
    + rewrite filter_nil. cbn. by rewrite last_snoc.
    + cbn. apply elem_of_app. left. apply list_elem_of_fmap. by exists (length pre, m).
Qed.

(** ** The plan, specified *)

(** What compaction leaves of a message: who said it, and its id. *)
Definition key (m : message) : role * option pystr := (msg_role m, msg_id m).

Lemma key_compacted m : key (compacted m) = key m.
Proof.
  unfold compacted, compact_rag_message, key. destruct m as [[] t i]; cbn [msg_role msg_id msg_text]; try done.
  by case_bool_decide.
Qed.

Lemma graded_perm grades turns :
  concat (graded Keep grades turns) ++ concat (graded Summarize grades turns) ++ concat (graded Discard grades turns)
  ≡ₚ concat turns.
Proof.
  unfold graded. induction turns as [|t turns IH]; [done|]. rewrite !filter_cons. cbn [concat].
  rewrite <-IH.
  generalize (filter (fun t => fate_eqb (grades t) Keep = true) turns) as K.
  generalize (filter (fun t => fate_eqb (grades t) Summarize = true) turns) as S.
  generalize (filter (fun t => fate_eqb (grades t) Discard = true) turns) as D. intros D S K.
  destruct (grades t); cbn [fate_eqb]; repeat case_decide; try done;
    cbn [concat]; rewrite <-?app_assoc; [done|apply Permutation_app_swap_app|].
  by rewrite (Permutation_app_swap_app (concat S) t), (Permutation_app_swap_app (concat K) t).
Qed.

Section plan.
Context (tk : tokenizer) (lim : limits) (settings_max : option Z) (current_query : pystr) (slots : option SessionSlots).

(** Compaction tells system messages apart by itself. *)
Lemma system_kept p : is_system p -> compact_rag_message p.2 = None.
Proof. unfold is_system, compact_rag_message. by intros ->. Qed.

Lemma compacted_some m u : compact_rag_message m = Some u -> compacted m = u.
Proof. unfold compacted. by intros ->. Qed.

(** The messages a plan keeps, before compaction: [turn_pos] are the positions of the
    turns, and no other message is compacted anyway. *)
Lemma compact_where (turn_pos : list nat) (l : list at_pos) :
  (forall p, p ∈ l -> p.1 ∈ turn_pos \/ is_system p) ->
  map (fun p => if decide (p.1 ∈ turn_pos) then compacted p.2 else p.2) l = map compacted (map snd l) /\
  omap (fun p => if decide (p.1 ∈ turn_pos) then compact_rag_message p.2 else None) l =
    omap compact_rag_message (map snd l).
Proof.
  induction l as [|p l IH]; intros Hl; [done|]. cbn [map omap].
  destruct IH as [IH1 IH2]; [intros; apply Hl; by right|]. rewrite IH1. cbn. unfold omap in IH2. rewrite IH2.
  case_decide as Hp; [done|]. destruct (Hl p) as [?|Hs]; [left|done|]. unfold compacted. by rewrite system_kept.
Qed.

(** What a plan is made of: [orig], the messages it keeps, of which [over] do not fit the
    budget; [sum] and [dis], the others. *)
Lemma plan_shape messages existing p :
  _plan_compression tk lim settings_max current_query slots messages existing = Ok (inr p) ->
  exists orig sum dis over,
    orig `sublist_of` messages /\ map key (orig ++ sum ++ dis) ≡ₚ map key messages /\
    _split_kept_by_budget tk (map compacted orig) (token_budget lim) existing (always_keep_recent lim) =
      Ok (cp_kept p, over) /\
    cp_summarized p = sum ++ over /\ cp_discarded p = dis /\
    cp_updated p = _drop_updated (omap compact_rag_message orig) over /\
    forall pre m, messages = pre ++ [m] -> msg_role m <> SystemMessage -> (1 <= always_keep_recent lim)%Z ->
      exists pre', orig = pre' ++ [m].
Proof.
  unfold _plan_compression. destruct (nonempty messages); cbn [negb]; [|done].
  rewrite rbind_ok. intros (costs & _ & Hr). apply rbind_ok in Hr as (used & _ & Hr).
  destruct (_ && _); [by destruct (apply_rag_compact messages)|].
  destruct (partition_turns messages) as [systems turns] eqn:Ep.
  set (recent_start := Z.max 0 _) in Hr. set (grades := grade lim _ recent_start) in Hr.
  set (K := concat (graded Keep grades turns)) in *.
  set (chosen := filter _ (numbered messages)) in *.
  destruct (partition_turns_spec _ _ _ Ep) as (Hsys & Hturns & Hne).
  assert (Hperm : (systems ++ K) ++ concat (graded Summarize grades turns) ++ concat (graded Discard grades turns)
                  ≡ₚ numbered messages).
  { rewrite <-(filter_split is_system (numbered messages)), <-Hsys, <-Hturns, <-(graded_perm grades turns).
    by rewrite <-app_assoc. }
  assert (Hchosen : chosen ≡ₚ systems ++ K).
  { unfold chosen. rewrite <-map_app. apply positions_perm.
    - assert (Hn : NoDup (numbered messages)) by apply numbered_NoDup. rewrite <-Hperm in Hn. by apply NoDup_app in Hn as (? & _).
    - intros q Hq. rewrite <-Hperm. apply elem_of_app. by left. }
  destruct (compact_where (map fst (concat turns)) chosen) as [Hc1 Hc2].
  { intros q Hq. rewrite Hchosen in Hq. apply elem_of_app in Hq as [Hq|Hq].
    - right. rewrite Hsys in Hq. by apply list_elem_of_filter in Hq as [? _].
    - left. apply list_elem_of_fmap. exists q. split; [done|]. unfold K in Hq.
      rewrite <-(graded_perm grades turns). apply elem_of_app. by left. }
  rewrite Hc1, Hc2 in Hr. apply rbind_ok in Hr as ([out over] & Hsplit & [= <-]).
  cbn [cp_kept cp_summarized cp_discarded cp_updated].
  exists (map snd chosen). do 3 eexists. split; [|split; [|split; [exact Hsplit|split; [reflexivity|split; [reflexivity|split; [reflexivity|]]]]]].
  - assert (Hsub : map snd chosen `sublist_of` map snd (numbered messages)) by apply map_sublist, sublist_filter.
    by rewrite numbered_snd in Hsub.
  - rewrite !map_app, !map_map.
    rewrite (map_ext (fun p => key (compacted p.2)) (fun p => key p.2)) by (intros; apply key_compacted).
    rewrite (Permutation_map _ Hchosen), <-!map_app, (Permutation_map _ Hperm). by rewrite <-map_map, numbered_snd.
  - intros pre m -> Hm Hrec. destruct (newest_turn _ _ _ _ Ep Hm) as (turns' & q & Ht).
    assert (Hg : grades (q ++ [(length pre, m)]) = Keep).
    { unfold grades, grade. rewrite last_snoc. cbn [fst]. rewrite (proj2 (Z.leb_le _ _)); [done|].
      unfold recent_start. rewrite length_app. cbn. lia. }
    assert (HinK : (length pre, m) ∈ K).
    { unfold K, graded. rewrite Ht, filter_app, concat_app. apply elem_of_app. right.
      rewrite filter_cons_True by by rewrite Hg. cbn. rewrite app_nil_r. apply elem_of_app. right. by left. }
    unfold chosen. rewrite numbered_snoc, filter_app, map_app. rewrite (filter_cons_True _ (length pre, m)).
    + rewrite filter_nil. by eexists.
    + cbn. apply elem_of_app. right. apply list_elem_of_fmap. by exists (length pre, m).
Qed.

(** The plan that changes nothing but outlines. *)
Lemma plan_whole messages existing r :
  _plan_compression tk lim settings_max current_query slots messages existing = Ok (inl r) ->
  cr_kept r = map compacted messages /\ cr_summarized r = [] /\ cr_discarded r = [] /\
  cr_summary r = finalize_summary settings_max existing slots (max_summary_chars lim) /\
  cr_updated r = filter (fun m => has_id m = true) (omap compact_rag_message messages).
Proof.
  unfold _plan_compression. destruct (nonempty messages) eqn:Ene; cbn [negb].
  2:{ intros [= <-]. by destruct messages. }
  rewrite rbind_ok. intros (costs & _ & Hr). apply rbind_ok in Hr as (used & _ & Hr).
  destruct (_ && _); [by injection Hr as <-|]. destruct (partition_turns messages).
  by apply rbind_ok in Hr as ([out over] & _ & Hr).
Qed.
End plan.

Lemma finalize_length settings_max text slots n :
  length (finalize_summary settings_max text slots (Some n)) <= Z.to_nat (Z.max 80 n).
Proof.
  unfold finalize_summary, finalize_structured. destruct (has_content _); [|cbn; lia].
  unfold render, _resolve_summary_max_chars.
  destruct (render_loop_spec (S (facts_count (resolve (parse (Some text)) slots))) (Z.to_nat (Z.max 80 n))
              (resolve (parse (Some text)) slots)) as (s' & _ & Hl & _); [lia|lia|done].
Qed.

Lemma finalize_spec tk lim settings_max slots plan summary r :
  _finalize_compression tk lim settings_max slots plan summary = Ok r ->
  exists over, cr_kept r ++ over ≡ₚ cp_kept plan /\
    cr_summarized r = cp_summarized plan ++ over /\ cr_discarded r = cp_discarded plan /\
    cr_updated r = _drop_updated (cp_updated plan) over /\ cr_kept r `sublist_of` cp_kept plan /\
    (forall pre m, cp_kept plan = pre ++ [m] -> msg_role m <> SystemMessage -> last (cr_kept r) = Some m) /\
    exists text, cr_summary r = finalize_summary settings_max text slots (max_summary_chars lim).
Proof.
  unfold _finalize_compression. rewrite rbind_ok. intros ([out over] & Hsplit & Hr).
  apply split_spec in Hsplit as (H1 & H2 & H3). exists over.
  destruct (nonempty over) eqn:Eo; injection Hr as <-; cbn [cr_kept cr_summarized cr_discarded cr_summary cr_updated];
    (split; [done|split; [|split; [done|split; [|split; [done|split; [done|by eexists]]]]]]); try done;
    destruct over; try done.
  - by rewrite app_nil_r.
  - unfold _drop_updated. cbn. induction (cp_updated plan) as [|m l IH]; [done|].
    rewrite filter_cons_True; [by rewrite IH at 1|]. by destruct (msg_id m).
Qed.

(** *** The messages to write back *)

(** [updated] are, among those with an id, the kept messages that compaction changed. *)
Definition tracks (messages kept updated : list message) : Prop :=
  forall u, has_id u = true -> u ∈ updated <-> u ∈ omap compact_rag_message messages /\ u ∈ kept.

Lemma id_compacted m : msg_id (compacted m) = msg_id m.
Proof. pose proof (key_compacted m) as Hk. unfold key in Hk. by injection Hk. Qed.

Lemma ids_compacted l : omap msg_id (map compacted l) = omap msg_id l.
Proof. induction l as [|m l IH]; [done|]. cbn. rewrite id_compacted. destruct (msg_id m); [f_equal|]; exact IH. Qed.

Lemma same_id_same (l : list message) m m' i : NoDup (omap msg_id l) -> m ∈ l -> m' ∈ l ->
  msg_id m = Some i -> msg_id m' = Some i -> m = m'.
Proof.
  induction l as [|x l IH]; [intros _ H; by apply elem_of_nil in H|]. cbn [omap list_omap].
  intros Hnd Hm Hm' Hi Hi'.
  assert (Hx : forall y, y ∈ l -> msg_id y = Some i -> msg_id x <> Some i).
  { intros y Hy Hyi Hxi. cbn in Hnd. rewrite Hxi in Hnd. apply NoDup_cons in Hnd as [Hnot _]. apply Hnot.
    apply list_elem_of_omap. by exists y. }
  assert (Hl : NoDup (omap msg_id l)).
  { cbn in Hnd. destruct (msg_id x); [by apply NoDup_cons in Hnd as [_ ?]|done]. }
  apply elem_of_cons in Hm as [->|Hm], Hm' as [->|Hm']; [done|by destruct (Hx m')|by destruct (Hx m)|by apply IH].
Qed.

Lemma has_id_some m : has_id m = true -> exists i, msg_id m = Some i.
Proof. unfold has_id. destruct (msg_id m); [eauto|done]. Qed.

Lemma drop_tracks messages kept over updated : NoDup (omap msg_id (kept ++ over)) ->
  tracks messages (kept ++ over) updated -> tracks messages kept (_drop_updated updated over).
Proof.
  intros Hnd Ht u Hu. destruct (has_id_some _ Hu) as [i Hi]. unfold _drop_updated. rewrite list_elem_of_filter, Hi.
  rewrite negb_true_iff, bool_decide_eq_false, (Ht u Hu), elem_of_app, list_elem_of_omap. split.
  - intros (Hno & Hc & [Hk|Ho]); [done|]. exfalso. apply Hno. eauto.
  - intros [Hc Hk]. split; [|by split; [|left]]. intros (v & Hv & Hvi). rewrite omap_app, NoDup_app in Hnd.
    destruct Hnd as (_ & Hdis & _). apply (Hdis i); apply list_elem_of_omap; eauto.
Qed.

Lemma tracks_perm messages kept kept' updated : kept ≡ₚ kept' ->
  tracks messages kept updated -> tracks messages kept' updated.
Proof. intros Hp Ht u Hu. rewrite (Ht u Hu). by rewrite Hp. Qed.

(** The selection a plan starts from. *)
Lemma select_tracks messages orig : NoDup (omap msg_id messages) -> orig `sublist_of` messages ->
  tracks messages (map compacted orig) (omap compact_rag_message orig).
Proof.
  intros Hnd Hsub u Hu. destruct (has_id_some _ Hu) as [i Hi]. rewrite !list_elem_of_omap, list_elem_of_fmap. split.
  - intros (m & Hm & Hc). pose proof (compacted_some _ _ Hc) as Hcu.
    split; [exists m; split; [by eapply elem_of_sublist|done]|by exists m].
  - intros [(m & Hm & Hc) (m' & -> & Hm')]. exists m'. split; [done|].
    assert (m' = m) as ->; [|done]. rewrite id_compacted in Hi.
    apply (same_id_same messages m' m i); [done|by eapply elem_of_sublist|done|done|].
    by rewrite <-(id_compacted m), (compacted_some _ _ Hc), id_compacted.
Qed.

Section compression.
Context (tk : tokenizer) (lim : limits) (settings_max : option Z) (query : pystr) (slots : option SessionSlots).
Context (llm : pystr -> res exn pystr) (messages : list message) (existing : pystr) (r : CompressResult).
Context (Hr : compress_by_importance tk lim settings_max query slots llm messages existing = Ok r).

Lemma compress_cases :
  (cr_kept r = map compacted messages /\ cr_summarized r = [] /\ cr_discarded r = [] /\
   cr_summary r = finalize_summary settings_max existing slots (max_summary_chars lim) /\
   cr_updated r = filter (fun m => has_id m = true) (omap compact_rag_message messages)) \/
  exists p summary, _plan_compression tk lim settings_max query slots messages existing = Ok (inr p) /\
    _finalize_compression tk lim settings_max slots p summary = Ok r.
Proof using Hr.
  revert Hr. unfold compress_by_importance. rewrite rbind_ok. intros ([r'|p] & Hp & Hf).
  - left. injection Hf as ->. by eapply plan_whole.
  - right. apply rbind_ok in Hf as (summary & _ & Hf). eauto.
Qed.

(** What is kept, in order. *)
Lemma compress_kept : cr_kept r `sublist_of` map compacted messages.
Proof using Hr.
  destruct compress_cases as [(-> & _)|(p & summary & Hp & Hf)]; [done|].
  apply finalize_spec in Hf as (over & _ & _ & _ & _ & Hs & _).
  apply plan_shape in Hp as (orig & sum & dis & over' & Ho & _ & Hsp & _). apply split_spec in Hsp as (_ & Hsp & _).
  etransitivity; [exact Hs|]. etransitivity; [exact Hsp|]. by apply map_sublist.
Qed.

Lemma compress_partition :
  map key (cr_kept r ++ cr_summarized r ++ cr_discarded r) ≡ₚ map key messages.
Proof using Hr.
  destruct compress_cases as [(-> & -> & -> & _)|(p & summary & Hp & Hf)].
  - rewrite !app_nil_r, map_map. by rewrite (map_ext _ key key_compacted).
  - apply finalize_spec in Hf as (over & Hk & -> & -> & _).
    apply plan_shape in Hp as (orig & sum & dis & over' & _ & Hperm & Hsp & -> & -> & _).
    apply split_spec in Hsp as (Hsp & _ & _).
    transitivity (map key ((cr_kept r ++ over) ++ over' ++ sum ++ dis)).
    { apply Permutation_map. rewrite <-!app_assoc. apply Permutation_app_head. solve_Permutation. }
    rewrite Hk, app_assoc, Hsp, map_app, map_map, (map_ext _ key key_compacted), <-map_app. done.
Qed.

Lemma compress_newest pre m : messages = pre ++ [m] -> msg_role m <> SystemMessage ->
  (1 <= always_keep_recent lim)%Z -> last (cr_kept r) = Some (compacted m).
Proof using Hr.
  intros Hm Hrole Hrec. destruct compress_cases as [(-> & _)|(p & summary & Hp & Hf)].
  - rewrite Hm, map_app. cbn [map]. by rewrite last_snoc.
  - apply finalize_spec in Hf as (over & _ & _ & _ & _ & _ & Hlast & _).
    apply plan_shape in Hp as (orig & sum & dis & over' & _ & _ & Hsp & _ & _ & _ & Hnew).
    destruct (Hnew pre m Hm Hrole Hrec) as [pre' ->]. apply split_spec in Hsp as (_ & _ & Hsp).
    assert (Hc : msg_role (compacted m) <> SystemMessage).
    { pose proof (key_compacted m) as Hk. unfold key in Hk. injection Hk as Hk _. by rewrite Hk. }
    rewrite map_app in Hsp. specialize (Hsp _ _ eq_refl Hc). apply last_Some in Hsp as [k Hk]. by eapply Hlast.
Qed.

Lemma sublist_omap {A B} (f : A -> option B) (l k : list A) : l `sublist_of` k -> omap f l `sublist_of` omap f k.
Proof. induction 1; cbn; repeat case_match; try done; by constructor. Qed.

Lemma compress_updated : cr_updated r `sublist_of` omap compact_rag_message messages.
Proof using Hr.
  destruct compress_cases as [(_ & _ & _ & _ & ->)|(p & summary & Hp & Hf)]; [apply sublist_filter|].
  apply finalize_spec in Hf as (over & _ & _ & _ & -> & _).
  apply plan_shape in Hp as (orig & sum & dis & over' & Ho & _ & _ & _ & _ & -> & _).
  unfold _drop_updated. repeat (etransitivity; [apply sublist_filter|]). by apply sublist_omap.
Qed.

(** Exactly the kept messages that were cut are to be rewritten. *)
Lemma compress_tracks : NoDup (omap msg_id messages) -> tracks messages (cr_kept r) (cr_updated r).
Proof using Hr.
  intros Hnd. destruct compress_cases as [(-> & _ & _ & _ & ->)|(p & summary & Hp & Hf)].
  - intros u Hu. rewrite list_elem_of_filter. pose proof (select_tracks messages messages Hnd (reflexivity _) u Hu) as Hs. tauto.
  - apply finalize_spec in Hf as (over & Hk & _ & _ & -> & _).
    apply plan_shape in Hp as (orig & sum & dis & over' & Ho & _ & Hsp & _ & _ & -> & _).
    apply split_spec in Hsp as (Hsp & _).
    assert (Hnd' : NoDup (omap msg_id (cp_kept p ++ over'))).
    { rewrite Hsp, ids_compacted. eapply sublist_NoDup; [exact Hnd|]. by apply sublist_omap. }
    assert (Hnd'' : NoDup (omap msg_id (cr_kept r ++ over))).
    { rewrite Hk. rewrite omap_app in Hnd'. by apply NoDup_app in Hnd' as (? & _). }
    apply drop_tracks; [done|]. eapply tracks_perm; [symmetry; exact Hk|]. apply drop_tracks; [done|].
    eapply tracks_perm; [symmetry; exact Hsp|]. by apply select_tracks.
Qed.

Lemma compress_summary n : max_summary_chars lim = Some n -> length (cr_summary r) <= Z.to_nat (Z.max 80 n).
Proof using Hr.
  intros Hn. destruct compress_cases as [(_ & _ & _ & -> & _)|(p & summary & _ & Hf)].
  - rewrite Hn. apply finalize_length.
  - apply finalize_spec in Hf as (over & _ & _ & _ & _ & _ & _ & text & ->). rewrite Hn. apply finalize_length.
Qed.
End compression.

(** C12.  Compression loses nothing silently.  Every message ends up in exactly one of three
    places (kept, folded into the summary, or let go); what is kept stays in order, as
    it was or with its course outline cut, and exactly the kept messages that were cut
    are written back; the answer just given is always kept; and the summary stays within
    its limit, whoever wrote it. *)
Theorem compress_loses_nothing (tk : tokenizer) (lim : limits) (settings_max : option Z) (query : pystr)
    (slots : option SessionSlots) (llm : pystr -> res exn pystr) (messages : list message) (existing : pystr)
    (r : CompressResult) :
  compress_by_importance tk lim settings_max query slots llm messages existing = Ok r ->
  map key (cr_kept r ++ cr_summarized r ++ cr_discarded r) ≡ₚ map key messages /\
  cr_kept r `sublist_of` map compacted messages /\
  (NoDup (omap msg_id messages) -> tracks messages (cr_kept r) (cr_updated r)) /\
  (forall pre m, messages = pre ++ [m] -> msg_role m <> SystemMessage -> (1 <= always_keep_recent lim)%Z ->
     last (cr_kept r) = Some (compacted m)) /\
  (forall n, max_summary_chars lim = Some n -> length (cr_summary r) <= Z.to_nat (Z.max 80 n)).
Proof.
  intros Hr. split; [by eapply compress_partition|]. split; [by eapply compress_kept|].
  split; [by eapply compress_tracks|]. split; intros; [by eapply compress_newest|by eapply compress_summary].
Qed.

(** ** Termination with a result *)

Section total.
Context (tk : tokenizer) (Htk : forall text, is_ok (count_tokens tk text) = true).

Lemma count_ok text : exists n, count_tokens tk text = Ok n.
Proof using Htk. specialize (Htk text). destruct (count_tokens tk text); [by eexists|done]. Qed.

Lemma sum_ok l : exists n, sum_tokens tk l = Ok n.
Proof using Htk.
  induction l as [|m l [n IH]]; [by eexists|]. cbn [sum_tokens]. unfold message_token_count.
  destruct (count_ok (msg_text m)) as [k ->]. cbn [rbind]. rewrite IH. by eexists.
Qed.

Lemma summary_tokens_ok s : exists n, prompt_summary_tokens tk s = Ok n.
Proof using Htk. unfold prompt_summary_tokens. destruct (truthy _); [apply count_ok|by eexists]. Qed.

Lemma select_ok budget keep l : forall sel total, exists r, select_turns tk budget keep l sel total = Ok r.
Proof using Htk.
  induction l as [|t l IH]; intros sel total; cbn [select_turns]; [by eexists|].
  destruct (sum_ok (map snd t)) as [n ->]. cbn [rbind]. destruct (_ && _); [by eexists|apply IH].
Qed.

Lemma split_ok kept budget summary keep : exists out over,
  _split_kept_by_budget tk kept budget summary keep = Ok (out, over).
Proof using Htk.
  unfold _split_kept_by_budget. destruct (negb _); [by do 2 eexists|].
  destruct (summary_tokens_ok (Some summary)) as [n ->]. cbn [rbind]. destruct (partition_turns kept) as [systems turns].
  destruct (sum_ok (map snd systems)) as [k ->]. cbn [rbind].
  match goal with |- context [select_turns tk ?b ?k ?l [] 0%Z] => destruct (select_ok b k l [] 0%Z) as [[sel ov] ->] end.
  cbn [rbind]. by do 2 eexists.
Qed.

(** Compression always gives a result: when texts can be counted, neither a failing
    model nor an overfull history costs the turn its answer. *)
Theorem compress_total (lim : limits) (settings_max : option Z) (query : pystr) (slots : option SessionSlots)
    (llm : pystr -> res exn pystr) (messages : list message) (existing : pystr) :
  (forall block e, llm block = Raise e -> is_Exception e = true) ->
  exists r, compress_by_importance tk lim settings_max query slots llm messages existing = Ok r.
Proof using Htk.
  intros Hllm. unfold compress_by_importance.
  assert (Hplan : exists planned, _plan_compression tk lim settings_max query slots messages existing = Ok planned).
  { unfold _plan_compression. destruct (negb _); [by eexists|].
    destruct (sum_ok messages) as [n ->], (summary_tokens_ok (Some existing)) as [k ->]. cbn [rbind].
    destruct (_ && _); [destruct (apply_rag_compact messages); by eexists|].
    destruct (partition_turns messages) as [systems turns].
    match goal with |- context [_split_kept_by_budget tk ?a ?b ?c ?d] =>
      destruct (split_ok a b c d) as (out & over & ->) end. by eexists. }
  destruct Hplan as [[r|plan] ->]; cbn [rbind]; [by eexists|].
  assert (Hsum : forall l, exists summary, _llm_batch_summarize settings_max slots llm l existing (max_summary_chars lim) = Ok summary).
  { intros l. unfold _llm_batch_summarize. destruct (_prepare_llm_summary _ _ _ _ _) as [|? ? block]; [by eexists|].
    destruct (llm block) as [text|e] eqn:El; [by eexists|]. rewrite (Hllm _ _ El). by eexists. }
  assert (Hfin : forall summary, exists r, _finalize_compression tk lim settings_max slots plan summary = Ok r).
  { intros summary. unfold _finalize_compression. match goal with |- context [_split_kept_by_budget tk ?a ?b ?c ?d] =>
      destruct (split_ok a b c d) as (out & over & ->) end. cbn [rbind].
    destruct (nonempty over); by eexists. }
  destruct (nonempty (cp_fact_overflow plan)); [|cbn [rbind]; apply Hfin].
  destruct (use_llm_summary lim); [|cbn [rbind]; apply Hfin].
  destruct (Hsum (cp_fact_overflow plan)) as [summary ->]. cbn [rbind]. apply Hfin.
Qed.
End total.

(** ** Examples *)

Module Demo.
Definition tk : tokenizer := {| tk_encode := Some (fun s => Ok (take 1000 s)); tk_ratio := f_one |}.
Definition lim : limits :=
  {| token_budget := 60; always_keep_recent := 2; discard_score := fl 5404319552844595 (-54);
     summarize_score := fl 5404319552844595 (-53); max_messages := 50; use_llm_summary := true;
     max_summary_chars := Some 200%Z |}.
Definition said (r : role) (s : string) (i : string) : message :=
  {| msg_role := r; msg_text := u s; msg_id := Some (u i) |}.
Definition answer : message := {| msg_role := AIMessage; msg_text := u "请提供订单号"; msg_id := None |}.
Definition history : list message :=
  [said HumanMessage "《Python入门课》适合零基础吗，我完全没有基础，想知道要学多久" "1";
   said AIMessage "适合零基础，每周两次直播，配有练习与答疑，学完可以独立完成小项目" "2";
   said HumanMessage "我想退款" "3"].
(** A model that is down. *)
Definition llm (block : pystr) : res exn pystr := Raise (TimeoutError []).
Definition run : res exn CompressResult := compress_by_importance tk lim None (u "我想退款") None llm (history ++ [answer]) [].
End Demo.

Example demo_compressed :
  match Demo.run with
  | Ok r => map msg_id (cr_kept r) = [Some (u "3"); None] /\
            map msg_id (cr_summarized r ++ cr_discarded r) = [Some (u "1"); Some (u "2")] /\
            cr_summary r = u "课程：Python入门课 适合零基础" ++ [10%N] ++ u "意图：课程咨询" ++ [10%N] ++ u "已确认：适合零基础"
  | Raise _ => False
  end.
Proof. vm_compute. done. Qed.

Lemma compress_loses_nothing_witness :
  exists r, compress_by_importance Demo.tk Demo.lim None (u "我想退款") None Demo.llm (Demo.history ++ [Demo.answer]) [] = Ok r /\
    map key (cr_kept r ++ cr_summarized r ++ cr_discarded r) ≡ₚ map key (Demo.history ++ [Demo.answer]) /\
    last (cr_kept r) = Some (compacted Demo.answer) /\ length (cr_summary r) <= 200.
Proof.
  assert (Hok : is_ok (compress_by_importance Demo.tk Demo.lim None (u "我想退款") None Demo.llm (Demo.history ++ [Demo.answer]) []) = true) by (vm_compute; reflexivity).
  pose proof (compress_loses_nothing Demo.tk Demo.lim None (u "我想退款") None Demo.llm (Demo.history ++ [Demo.answer])
                []) as Hall.
  revert Hok Hall. generalize (compress_by_importance Demo.tk Demo.lim None (u "我想退款") None Demo.llm (Demo.history ++ [Demo.answer]) []) as run. intros run Hok Hall.
  destruct run as [r|e]; [|discriminate]. exists r. split; [reflexivity|].
  destruct (Hall r eq_refl) as (H1 & _ & _ & H3 & H4).
  split; [exact H1|]. split; [|exact (H4 200%Z eq_refl)].
  refine (H3 Demo.history Demo.answer eq_refl _ _); [discriminate|vm_compute; discriminate].
Defined.

Lemma demo_counts text : is_ok (count_tokens Demo.tk text) = true.
Proof.
  unfold count_tokens. destruct (negb (truthy text)); [done|]. cbn [Demo.tk tk_encode tk_ratio rbind].
  assert (Hall : forallb (fun n => is_ok (py_round (f_mul_int (Z.of_nat n) (f_max RATIO_MIN f_one)))) (seq 0 1001) = true)
    by (vm_compute; reflexivity).
  rewrite forallb_elem in Hall. specialize (Hall (length (take 1000 text))).
  destruct (py_round _); [done|]. cbv beta in Hall. cbn [is_ok] in Hall. apply Hall.
  apply elem_of_seq. rewrite length_take. lia.
Qed.

Lemma compress_total_witness :
  (forall text, is_ok (count_tokens Demo.tk text) = true) /\ exists r, compress_by_importance Demo.tk Demo.lim None (u "我想退款") None Demo.llm (Demo.history ++ [Demo.answer]) [] = Ok r.
Proof.
  split; [exact demo_counts|].
  refine (compress_total Demo.tk demo_counts Demo.lim None (u "我想退款") None Demo.llm
    (Demo.history ++ [Demo.answer]) [] _).
  intros block e He. injection He as <-. reflexivity.
Defined.
