(* ===== verification/Turn.v ===== *)
(** * The end of a turn ([app/context/turn.py])

    What the [respond] node does with an answer: the text that leaves, the shorter one
    that is stored, the compressed history written back to the conversation's messages,
    and the row of the archive.  The messages are LangGraph's [add_messages] channel, an
    interface here. *)

From stdpp Require Import base list gmap strings.
From S2P Require Import Prelude PyText Errors Json Window Filters State Slots Archive Tenancy Compress.

Open Scope py_scope.

(** ** The messages channel

    [add_messages] merges a list of patches into the messages: [RemoveMessage] deletes by
    id, a message with a known id replaces the one that has it, any other is appended and
    gets an id of its own if it has none. *)

Inductive patch : Type :=
| RemoveMessage (id : pystr)
| PutMessage (m : message).

Class MessageChannel := { add_messages : list message -> list patch -> res exn (list message) }.

Definition removed (ps : list patch) : list pystr :=
  omap (fun p => match p with RemoveMessage i => Some i | _ => None end) ps.
(** The messages put, by whether they have an id. *)
Definition puts (b : bool) (ps : list patch) : list message :=
  omap (fun p => match p with PutMessage m => if bool_decide (has_id m = b) then Some m else None | _ => None end) ps.
Definition replaced_by (ps : list patch) (m : message) : message :=
  default m (find (fun r => bool_decide (msg_id r = msg_id m)) (puts true ps)).

(** Every message has an id, and no two the same. *)
Definition identified (l : list message) : Prop :=
  Forall (fun m => has_id m = true) l /\ NoDup (omap msg_id l).

#[export] Instance identified_dec l : Decision (identified l).
Proof. unfold identified. apply _. Defined.

(** The patches speak of messages that are there, and of each only once. *)
Definition applicable (l : list message) (ps : list patch) : Prop :=
  NoDup (removed ps ++ omap msg_id (puts true ps)) /\
  Forall (fun i => i ∈ omap msg_id l) (removed ps ++ omap msg_id (puts true ps)).

Definition same_but_id (m m' : message) : Prop := msg_role m = msg_role m' /\ msg_text m = msg_text m'.

(** What a graph counts on ([langgraph.graph.message.add_messages]). *)
Class MessageChannelLaws `{MessageChannel} : Prop := {
  add_messages_spec l ps : identified l -> applicable l ps -> exists fresh,
    add_messages l ps =
      Ok (filter (fun m => msg_id m ∉ map Some (removed ps)) (map (replaced_by ps) l) ++ fresh) /\
    Forall2 same_but_id (puts false ps) fresh /\
    identified (filter (fun m => msg_id m ∉ map Some (removed ps)) (map (replaced_by ps) l) ++ fresh);
}.

(** ** Operations *)

Record RespondTurnUpdate := {
  up_answer : pystr;
  up_stored_answer : pystr;
  up_message_updates : list patch;
  up_session_summary : pystr;
  up_kept_messages : list message;
}.

Definition build_stored_answer (answer : pystr) : pystr * pystr :=
  let full := inspect_output answer in
  let stored := compact_rag_history full in
  (full, stored).

Definition ai_message (content : pystr) : message :=
  {| msg_role := AIMessage; msg_text := content; msg_id := None |}.

Definition build_message_updates (result : CompressResult) (stored_answer : pystr) : list patch :=
  let to_remove := cr_discarded result ++ cr_summarized result in
  let removals := omap (fun m => if has_id m then RemoveMessage <$> msg_id m else None) to_remove in
  let replacements := map PutMessage (filter (fun m => has_id m = true) (cr_updated result)) in
  let turn_ai :=
    match last (cr_kept result) with
    | Some m => if bool_decide (msg_role m = AIMessage) && negb (has_id m) then m else ai_message stored_answer
    | None => ai_message stored_answer
    end in
  removals ++ replacements ++ [PutMessage turn_ai].

Definition BLOCKED_ANSWER : pystr := u "请求已被安全中间件拦截。".

Definition resolve_respond_answer (state : dict) : pystr :=
  let result := result_from_state state in
  if truthy (strip (res_answer result)) then res_answer result
  else if rv_blocked (route_from_state state) then str_or (res_answer result) BLOCKED_ANSWER
  else LLM_UNAVAILABLE_ANSWER.

Section turn.
(** The tokenizer, the settings, and the model that writes summaries. *)
Context (tk : tokenizer) (default_tenant : pystr) (lim : limits) (settings_max : option Z).
Context (llm : pystr -> res exn pystr).

Definition finalize_respond_turn (state : CSState) : res exn RespondTurnUpdate :=
  let (answer, stored_answer) := build_stored_answer (resolve_respond_answer (cs_fields state)) in
  let projected := cs_messages state ++ [ai_message stored_answer] in
  let ident := identity_from_state default_tenant (cs_fields state) in
  let memory := memory_from_state (cs_fields state) in
  let? result := compress_by_importance tk lim settings_max (iv_query ident)
                   (Some (slots_from_state (cs_fields state))) llm projected (mv_session_summary memory) in
  Ok {| up_answer := answer; up_stored_answer := stored_answer;
        up_message_updates := build_message_updates result stored_answer;
        up_session_summary := cr_summary result; up_kept_messages := cr_kept result |}.

Context {T : Type} `{JsonText T}.

(** [db_up]: whether the database can be reached. *)
Definition persist_respond_turn (db_up : bool) (state : CSState) (update : RespondTurnUpdate)
    (db : gmap (pystr * pystr * pystr) (session_row T)) : gmap (pystr * pystr * pystr) (session_row T) :=
  let ident := identity_from_state default_tenant (cs_fields state) in
  upsert_session_archive db_up (iv_tenant_id ident) (iv_user_id ident) (iv_session_id ident)
    (if truthy (iv_session_id ident)
     then make_thread_id (iv_tenant_id ident) (iv_session_id ident) (iv_user_id ident) else [])
    {| cs_fields := dmerge (cs_fields state) (mkdict [(u "session_summary", JStr (up_session_summary update))]);
       cs_messages := up_kept_messages update |} db.
End turn.

(** ** Properties *)

(** An answer leaves the turn: it is not blank, unless a refusal was; and no personal
    data is found in it. *)
Lemma resolved_visible state :
  rv_blocked (route_from_state state) = false \/ res_answer (result_from_state state) = [] ->
  visible (resolve_respond_answer state).
Proof.
  intros Hb. unfold resolve_respond_answer.
  destruct (truthy (strip _)) eqn:E; [by apply visible_strip|].
  destruct Hb as [-> | ->]; [by apply visible_strip; vm_compute|].
  destruct (rv_blocked _); by apply visible_strip; vm_compute.
Qed.

(** A sublist without repetitions is what its members select. *)
Lemma sublist_is_filter {A} (P : A -> Prop) `{forall x, Decision (P x)} (k l : list A) :
  k `sublist_of` l -> NoDup l -> (forall x, x ∈ l -> x ∈ k <-> P x) -> k = filter P l.
Proof.
  induction 1 as [|x k l Hs IH|x k l Hs IH]; intros Hnd HP; [done| |];
    apply NoDup_cons in Hnd as [Hx Hnd]; rewrite filter_cons.
  - rewrite decide_True by (apply HP; by left). f_equal. apply IH; [done|]. intros y Hy.
    rewrite <-HP by (by right). rewrite elem_of_cons. split; [by right|]. intros [->|?]; [done|done].
  - rewrite decide_False.
    + apply IH; [done|]. intros y Hy. apply HP. by right.
    + intros HPx. apply Hx. eapply elem_of_sublist; [|exact Hs]. apply HP; [by left|done].
Qed.

Lemma removed_app ps qs : removed (ps ++ qs) = removed ps ++ removed qs.
Proof. apply omap_app. Qed.
Lemma puts_app b ps qs : puts b (ps ++ qs) = puts b ps ++ puts b qs.
Proof. apply omap_app. Qed.

(** The patches of a turn. *)
Section updates.
Context (result : CompressResult) (stored : pystr) (ai : message).
Context (Hai : last (cr_kept result) = Some ai) (Hrole : msg_role ai = AIMessage) (Hid : msg_id ai = None).

Lemma updates_removed :
  Forall (fun m => has_id m = true) (cr_discarded result ++ cr_summarized result) ->
  removed (build_message_updates result stored) = omap msg_id (cr_discarded result ++ cr_summarized result).
Proof using Hai Hrole Hid.
  intros Hl. unfold build_message_updates. rewrite !removed_app.
  assert (removed (map PutMessage (filter (fun m => has_id m = true) (cr_updated result))) = []) as ->.
  { generalize (filter (fun m => has_id m = true) (cr_updated result)) as l. by induction l. }
  cbn [removed omap list_omap]. rewrite !app_nil_r.
  induction Hl as [|m l Hm _ IH]; [done|]. cbn. rewrite Hm. unfold has_id in Hm.
  destruct (msg_id m) as [i|]; [|done]. cbn. f_equal. exact IH.
Qed.

Lemma updates_puts :
  puts true (build_message_updates result stored) = filter (fun m => has_id m = true) (cr_updated result) /\
  puts false (build_message_updates result stored) = [ai].
Proof using Hai Hrole Hid.
  assert (Hno : has_id ai = false) by (unfold has_id; by rewrite Hid).
  unfold build_message_updates. rewrite Hai, Hrole, Hno. cbn [negb andb]. rewrite !puts_app.
  assert (Hrem : forall b l, puts b (omap (fun m => if has_id m then RemoveMessage <$> msg_id m else None) l) = []).
  { intros b l. induction l as [|m l IH]; [done|]. cbn. destruct (has_id m), (msg_id m); cbn; exact IH. }
  rewrite !Hrem. cbn [app].
  assert (Hput : forall b, puts b (map PutMessage (filter (fun m => has_id m = true) (cr_updated result))) =
            if b then filter (fun m => has_id m = true) (cr_updated result) else []).
  { intros b. induction (cr_updated result) as [|m l IH]; [by destruct b|]. rewrite filter_cons. case_decide as Hm; [|exact IH].
    cbn. rewrite Hm. destruct b; cbn; [f_equal|]; exact IH. }
  assert (Hlast : forall b, puts b [PutMessage ai] = if b then [] else [ai]).
  { intros []; cbn -[has_id]; by rewrite Hno. }
  by rewrite !Hput, !Hlast, app_nil_r.
Qed.
End updates.

Section history.
Context (tk : tokenizer) (lim : limits) (settings_max : option Z) (query : pystr) (slots : option SessionSlots).
Context (llm : pystr -> res exn pystr) (existing : list message) (summary stored : pystr) (result : CompressResult).
Context (Hr : compress_by_importance tk lim settings_max query slots llm (existing ++ [ai_message stored]) summary = Ok result).
Context (Hex : identified existing) (Hrec : (1 <= always_keep_recent lim)%Z).

Abbreviation answer := (compacted (ai_message stored)).

Lemma answer_id : msg_id answer = None.
Proof using. by rewrite id_compacted. Qed.
Lemma answer_role : msg_role answer = AIMessage.
Proof using. pose proof (key_compacted (ai_message stored)) as Hk. unfold key in Hk. injection Hk as Hk _. done. Qed.

Lemma has_id_compacted m : has_id (compacted m) = has_id m.
Proof using. unfold has_id. by rewrite id_compacted. Qed.

Lemma kept_last : last (cr_kept result) = Some answer.
Proof using Hr Hrec. by apply (compress_newest _ _ _ _ _ _ _ _ _ Hr existing). Qed.

Lemma kept_split : exists k, cr_kept result = k ++ [answer] /\ k `sublist_of` map compacted existing.
Proof using Hr Hrec Hex.
  pose proof (compress_kept _ _ _ _ _ _ _ _ _ Hr) as Hk. pose proof kept_last as Hl.
  rewrite map_app in Hk. apply sublist_app_r in Hk as (l1 & l2 & Heq & H1 & H2).
  exists l1. split; [|done]. rewrite Heq in Hl |- *. f_equal. cbn [map] in H2.
  destruct l2 as [|x l2].
  - exfalso. rewrite app_nil_r in Hl. apply last_Some in Hl as [l1' ->].
    assert (Hin : answer ∈ map compacted existing) by (eapply elem_of_sublist, H1; apply elem_of_app; right; by left).
    apply list_elem_of_fmap in Hin as (m & Hm & Hin). destruct Hex as [Hids _].
    rewrite Forall_forall in Hids. specialize (Hids m Hin). rewrite <-has_id_compacted, <-Hm in Hids.
    unfold has_id in Hids. by rewrite answer_id in Hids.
  - pose proof (sublist_length _ _ H2) as Hlen. destruct l2; [|cbn in Hlen; lia].
    apply sublist_cons_l in H2 as (k1 & k2 & Heq2 & _). destruct k1 as [|? [|]]; by simplify_eq/=.
Qed.
Context (k : list message) (Hk : cr_kept result = k ++ [answer]) (Hks : k `sublist_of` map compacted existing).

Abbreviation gone := (cr_discarded result ++ cr_summarized result).

(** The messages kept and those gone are all there were. *)
Lemma kept_gone : map key (k ++ gone) ≡ₚ map key existing.
Proof using Hr Hk.
  pose proof (compress_partition _ _ _ _ _ _ _ _ _ Hr) as Hp. rewrite Hk in Hp.
  rewrite (map_app _ existing) in Hp. cbn [map] in Hp. rewrite <-(key_compacted (ai_message stored)) in Hp.
  apply (Permutation_cons_inv (a := key answer)). rewrite (Permutation_cons_append (map key existing)), <-Hp.
  change (key answer :: map key (k ++ gone)) with (map key (answer :: k ++ gone)). apply Permutation_map.
  rewrite <-!app_assoc. cbn [app]. rewrite <-Permutation_middle. constructor.
  apply Permutation_app_head, Permutation_app_comm.
Qed.

Lemma gone_ids : Forall (fun m => has_id m = true) gone.
Proof using Hr Hk Hex.
  apply Forall_forall. intros m Hm. destruct Hex as [Hids _].
  assert (Hin : key m ∈ map key existing).
  { rewrite <-kept_gone. apply list_elem_of_fmap. exists m. split; [done|]. apply elem_of_app. by right. }
  apply list_elem_of_fmap in Hin as (m' & Heq & Hin). rewrite Forall_forall in Hids. specialize (Hids m' Hin).
  unfold key in Heq. injection Heq as _ Heq. unfold has_id in *. by rewrite Heq.
Qed.

Lemma ids_perm : omap msg_id k ++ omap msg_id gone ≡ₚ omap msg_id existing.
Proof using Hr Hk.
  assert (Hkey : forall l, omap msg_id l = omap snd (map key l)).
  { induction l as [|m l IH]; [done|]. cbn. destruct (msg_id m); [f_equal|]; exact IH. }
  rewrite <-omap_app, !Hkey. apply omap_Permutation. exact kept_gone.
Qed.
Lemma existing_id m : m ∈ existing -> exists i, msg_id m = Some i.
Proof using Hex. intros Hm. destruct Hex as [Hids _]. rewrite Forall_forall in Hids. by apply has_id_some, Hids. Qed.

Lemma elem_ids i (l : list message) : i ∈ omap msg_id l <-> exists m, m ∈ l /\ msg_id m = Some i.
Proof using. apply list_elem_of_omap. Qed.

Lemma cut_ids l : omap msg_id (omap compact_rag_message l) `sublist_of` omap msg_id l.
Proof using.
  induction l as [|m l IH]; [done|]. cbn. destruct (compact_rag_message m) as [u|] eqn:Ec.
  - pose proof (id_compacted m) as Hid. rewrite (compacted_some _ _ Ec) in Hid. cbn. rewrite Hid.
    destruct (msg_id m); [constructor|]; exact IH.
  - destruct (msg_id m); [apply sublist_cons|]; exact IH.
Qed.

(** No id is both kept and gone. *)
Lemma kept_not_gone i : i ∈ omap msg_id k -> i ∈ omap msg_id gone -> False.
Proof using Hr Hk Hex.
  intros H1 H2. destruct Hex as [_ Hnd]. rewrite <-ids_perm in Hnd. apply NoDup_app in Hnd as (_ & Hd & _). by apply (Hd i).
Qed.

(** A rewritten message is a kept one, cut. *)
Lemma rewritten u : u ∈ filter (fun m => has_id m = true) (cr_updated result) <->
  u ∈ k /\ exists m, m ∈ existing /\ compact_rag_message m = Some u.
Proof using Hr Hk Hks Hex.
  assert (Hnd : NoDup (omap msg_id (existing ++ [ai_message stored]))).
  { rewrite omap_app. cbn. rewrite app_nil_r. by destruct Hex. }
  pose proof (compress_tracks _ _ _ _ _ _ _ _ _ Hr Hnd u) as Ht. rewrite Hk, elem_of_app, list_elem_of_singleton in Ht.
  rewrite list_elem_of_filter. split.
  - intros [Hu Hin]. apply (Ht Hu) in Hin as [(m & Hm & Hc)%list_elem_of_omap Hkept].
    assert (Hid : exists i, msg_id m = Some i) by (apply has_id_some; by rewrite <-has_id_compacted, (compacted_some _ _ Hc)).
    destruct Hid as [i Hi]. split.
    + destruct Hkept as [?| ->]; [done|]. unfold has_id in Hu. by rewrite answer_id in Hu.
    + exists m. split; [|done]. apply elem_of_app in Hm as [?| ->%list_elem_of_singleton]; done.
  - intros (Hu & m & Hm & Hc). destruct (existing_id m Hm) as [i Hi].
    assert (Hh : has_id u = true).
    { rewrite <-(compacted_some _ _ Hc), has_id_compacted. destruct Hex as [Hids _]. rewrite Forall_forall in Hids. by apply Hids. }
    split; [done|]. apply (Ht Hh). split; [|by left]. apply list_elem_of_omap. exists m. split; [|done].
    apply elem_of_app. by left.
Qed.

Abbreviation ps := (build_message_updates result stored).

Lemma patches_removed : removed ps = omap msg_id gone.
Proof using Hr Hk Hex Hrec. eapply updates_removed; [apply kept_last|apply answer_role|apply answer_id|apply gone_ids]. Qed.
Lemma patches_put : puts true ps = filter (fun m => has_id m = true) (cr_updated result) /\ puts false ps = [answer].
Proof using Hr Hk Hex Hrec. eapply updates_puts; [apply kept_last|apply answer_role|apply answer_id]. Qed.

Lemma patches_applicable : applicable existing ps.
Proof using Hr Hk Hks Hex Hrec.
  destruct patches_put as [Hput _]. unfold applicable. rewrite patches_removed, Hput. destruct Hex as [Hids Hnd].
  assert (Hin : forall u, u ∈ filter (fun m => has_id m = true) (cr_updated result) -> forall i, msg_id u = Some i ->
            i ∈ omap msg_id k /\ i ∈ omap msg_id existing).
  { intros u (Hu & m & Hm & Hc)%rewritten i Hi. split; apply elem_ids; [by exists u|exists m].
    by rewrite <-(id_compacted m), (compacted_some _ _ Hc). }
  split.
  - apply NoDup_app. split; [|split].
    + rewrite <-ids_perm in Hnd. by apply NoDup_app in Hnd as (_ & _ & ?).
    + intros i Hg (u & Hu & Hi)%elem_ids. eapply kept_not_gone; [|exact Hg]. by eapply Hin.
    + eapply sublist_NoDup; [exact Hnd|]. etransitivity; [apply sublist_omap, sublist_filter|].
      etransitivity; [apply sublist_omap, (compress_updated _ _ _ _ _ _ _ _ _ Hr)|].
      rewrite !omap_app. assert (Hnone : omap msg_id (omap compact_rag_message [ai_message stored]) = []).
      { pose proof (cut_ids [ai_message stored]) as Hs. cbn in Hs. by apply sublist_nil_r in Hs. }
      rewrite Hnone, app_nil_r. apply cut_ids.
  - apply Forall_forall. intros i [Hi|(u & Hu & Hi)%elem_ids]%elem_of_app; [|by eapply Hin].
    rewrite <-ids_perm. apply elem_of_app. by right.
Qed.

(** Patched, a message that stays is the kept one. *)
Lemma patched m : m ∈ existing ->
  msg_id (replaced_by ps m) = msg_id m /\ (msg_id m ∉ map Some (removed ps) -> replaced_by ps m = compacted m).
Proof using Hr Hk Hks Hex Hrec.
  intros Hm. destruct patches_put as [Hput _]. unfold replaced_by. rewrite Hput, patches_removed.
  destruct (existing_id m Hm) as [i Hi].
  assert (Hsame : forall m', m' ∈ existing -> msg_id m' = msg_id m -> m' = m).
  { intros m' Hm' Hid. destruct Hex as [_ Hnd]. apply (same_id_same existing m' m i); congruence. }
  destruct (find _ _) as [r|] eqn:Ef; cbn [default from_option id].
  - apply List.find_some in Ef as [Hin Hid]. apply bool_decide_eq_true in Hid. split; [done|]. intros _.
    apply list_elem_of_In in Hin. apply rewritten in Hin as (_ & m' & Hm' & Hc). pose proof (compacted_some _ _ Hc) as Hcm.
    rewrite <-(Hsame m'); [done|done|]. by rewrite <-(id_compacted m'), Hcm.
  - split; [done|]. intros Hstay. unfold compacted. destruct (compact_rag_message m) as [u|] eqn:Ec; [|done].
    exfalso. pose proof (compacted_some _ _ Ec) as Hcm.
    assert (Hkept : i ∈ omap msg_id k).
    { assert (Hi' : i ∈ omap msg_id existing) by (apply elem_ids; by exists m).
      rewrite <-ids_perm in Hi'. apply elem_of_app in Hi' as [?|Hg]; [done|]. exfalso. apply Hstay.
      apply list_elem_of_fmap. by exists i. }
    apply elem_ids in Hkept as (x & Hx & Hxi).
    assert (Hxm : x = u).
    { pose proof (elem_of_sublist _ _ _ Hx Hks) as (m' & -> & Hm')%list_elem_of_fmap. rewrite id_compacted in Hxi.
      rewrite (Hsame m'); [done|done|congruence]. }
    subst x. assert (Hu : u ∈ filter (fun m => has_id m = true) (cr_updated result)) by (apply rewritten; eauto).
    pose proof (List.find_none _ _ Ef u (proj1 (list_elem_of_In _ _) Hu)) as Hn. cbn beta in Hn.
    apply bool_decide_eq_false in Hn. congruence.
Qed.

Lemma patched_history : filter (fun m => msg_id m ∉ map Some (removed ps)) (map (replaced_by ps) existing) = k.
Proof using Hr Hk Hks Hex Hrec.
  transitivity (filter (fun m => msg_id m ∉ map Some (removed ps)) (map compacted existing)).
  - assert (Hall : forall m, m ∈ existing ->
      msg_id (replaced_by ps m) = msg_id m /\ (msg_id m ∉ map Some (removed ps) -> replaced_by ps m = compacted m))
      by apply patched.
    revert Hall. generalize (removed ps) (replaced_by ps). clear. intros R f. induction existing as [|m l IH]; intros Hall; [done|].
    cbn [map]. rewrite !filter_cons, id_compacted. destruct (Hall m) as [-> Hf]; [by left|].
    rewrite IH by (intros; apply Hall; by right). case_decide as Hd; [|done]. by rewrite (Hf Hd).
  - symmetry. apply sublist_is_filter; [done| |].
    + destruct Hex as [_ Hnd]. rewrite <-ids_compacted in Hnd.
      assert (Hall : Forall (fun m => has_id m = true) (map compacted existing)).
      { apply Forall_forall. intros x (m & -> & Hm)%list_elem_of_fmap. rewrite has_id_compacted.
        destruct Hex as [Hids _]. rewrite Forall_forall in Hids. by apply Hids. }
      revert Hnd. clear -Hall. induction Hall as [|m l Hm Hl IH]; intros Hnd; [constructor|].
      cbn in Hnd. destruct (has_id_some _ Hm) as [i Hi]. rewrite Hi in Hnd. apply NoDup_cons in Hnd as [Hn Hnd].
      constructor; [|by apply IH]. intros Hin. apply Hn. apply elem_ids. by exists m.
    + intros x (m & -> & Hm)%list_elem_of_fmap. rewrite patches_removed. destruct (existing_id m Hm) as [i Hi].
      rewrite id_compacted, Hi. split.
      * intros Hx (j & [= <-] & Hj)%list_elem_of_fmap. apply (kept_not_gone i); [|done]. apply elem_ids.
        exists (compacted m). by rewrite id_compacted.
      * intros Hstay. assert (Hi' : i ∈ omap msg_id existing) by (apply elem_ids; by exists m).
        rewrite <-ids_perm in Hi'. apply elem_of_app in Hi' as [(x & Hx & Hxi)%elem_ids|Hg].
        -- pose proof (elem_of_sublist _ _ _ Hx Hks) as (m' & -> & Hm')%list_elem_of_fmap. rewrite id_compacted in Hxi.
           destruct Hex as [_ Hnd]. by rewrite (same_id_same existing m m' i).
        -- exfalso. apply Hstay. apply list_elem_of_fmap. by exists i.
Qed.
(** What the channel makes of the patches: the kept messages, and the answer with an id. *)
Lemma responded `{MessageChannelLaws} : exists ai,
  add_messages existing ps = Ok (k ++ [ai]) /\ cr_kept result = k ++ [ai_message (msg_text ai)] /\
  msg_role ai = AIMessage /\ msg_text ai = compact_rag_history stored /\ identified (k ++ [ai]).
Proof using Hr Hk Hks Hex Hrec.
  destruct (add_messages_spec existing ps) as (fresh & Hadd & Hf & Hid); [done|apply patches_applicable|].
  rewrite patched_history in Hadd, Hid. destruct patches_put as [_ Hput]. rewrite Hput in Hf.
  apply Forall2_cons_inv_l in Hf as (ai & rest & [Hrole Htext] & ->%Forall2_nil_inv_l & ->).
  assert (Hans : answer = ai_message (compact_rag_history stored)).
  { unfold compacted, compact_rag_message. cbn [msg_role msg_text ai_message msg_id]. case_bool_decide as Hc; [by rewrite Hc|done]. }
  rewrite Hans in Hrole, Htext. cbn in Hrole, Htext. exists ai. rewrite Hk, Hans, <-Htext. repeat (split; [done|]). done.
Qed.
End history.

(** C9.  What a conversation remembers.  Whatever compression kept of a turn is exactly what
    its messages are afterwards, in the same order: no message that was let go or folded
    into the summary stays behind, none of the kept ones is lost or left uncut, and the
    last one is the answer just given, in its stored form, with an id of its own. *)
Theorem respond_history `{MessageChannelLaws} (tk : tokenizer) (default_tenant : pystr) (lim : limits)
    (settings_max : option Z) (llm : pystr -> res exn pystr) (state : CSState) (up : RespondTurnUpdate) :
  identified (cs_messages state) -> (1 <= always_keep_recent lim)%Z ->
  finalize_respond_turn tk default_tenant lim settings_max llm state = Ok up ->
  exists kept ai,
    add_messages (cs_messages state) (up_message_updates up) = Ok (kept ++ [ai]) /\
    up_kept_messages up = kept ++ [ai_message (msg_text ai)] /\
    kept `sublist_of` map compacted (cs_messages state) /\
    msg_role ai = AIMessage /\ msg_text ai = compact_rag_history (up_stored_answer up) /\
    identified (kept ++ [ai]).
Proof.
  intros Hex Hrec. unfold finalize_respond_turn. destruct (build_stored_answer _) as [full stored].
  rewrite rbind_ok. intros (result & Hr & [= <-]). cbn [up_message_updates up_kept_messages up_stored_answer].
  destruct (kept_split _ _ _ _ _ _ _ _ _ _ Hr Hex Hrec) as (k & Hk & Hks).
  destruct (responded _ _ _ _ _ _ _ _ _ _ Hr Hex Hrec k Hk Hks) as (ai & Hadd & Hkept & Hrole & Htext & Hid).
  exists k, ai. by repeat (split; [done|]).
Qed.

(** What leaves the turn: an answer, never blank unless a refusal was, in which no
    personal data is found. *)
Theorem respond_answer (tk : tokenizer) (default_tenant : pystr) (lim : limits) (settings_max : option Z)
    (llm : pystr -> res exn pystr) (state : CSState) (up : RespondTurnUpdate) :
  finalize_respond_turn tk default_tenant lim settings_max llm state = Ok up ->
  (rv_blocked (route_from_state (cs_fields state)) = false \/ res_answer (result_from_state (cs_fields state)) = [] ->
   truthy (strip (up_answer up)) = true) /\
  (ascii_digits (res_answer (result_from_state (cs_fields state))) ->
   Forall (fun p => PyRe.search p.1.2 (up_answer up) = None) PII_PATTERNS) /\
  up_stored_answer up = compact_rag_history (up_answer up).
Proof.
  unfold finalize_respond_turn. cbn [build_stored_answer]. rewrite rbind_ok. intros (result & _ & [= <-]).
  cbn [up_answer up_stored_answer]. split; [|split; [|done]].
  - intros Hb. by apply visible_strip, visible_mask, resolved_visible.
  - intros Ha. apply masked_clean. unfold resolve_respond_answer. destruct (truthy (strip _)); [done|].
    destruct (rv_blocked _); [unfold str_or; destruct (truthy _); [done|]|];
      apply ascii_digits_check; vm_compute; reflexivity.
Qed.

(** ** A channel *)

Module ReferenceChannel.
Definition fresh_id (used : list pystr) : pystr := 120%N :: concat used.
Definition with_id (i : pystr) (m : message) : message :=
  {| msg_role := msg_role m; msg_text := msg_text m; msg_id := Some i |}.
Fixpoint assign (used : list pystr) (ms : list message) : list message :=
  match ms with
  | [] => []
  | m :: ms => let i := fresh_id used in with_id i m :: assign (i :: used) ms
  end.

Definition staying (l : list message) (ps : list patch) : list message :=
  filter (fun m => msg_id m ∉ map Some (removed ps)) (map (replaced_by ps) l).

#[export] Instance applicable_dec l ps : Decision (applicable l ps).
Proof. unfold applicable. apply _. Defined.

Definition add (l : list message) (ps : list patch) : res exn (list message) :=
  if decide (applicable l ps)
  then Ok (staying l ps ++ assign (omap msg_id (staying l ps)) (puts false ps))
  else Raise (ValueError []).

#[export] Instance reference_channel : MessageChannel := { add_messages := add }.

Lemma replaced_id ps m : msg_id (replaced_by ps m) = msg_id m.
Proof.
  unfold replaced_by. destruct (find _ _) as [r|] eqn:E; [|done].
  apply List.find_some in E as [_ E]. by apply bool_decide_eq_true in E.
Qed.

Lemma fresh_unused used : fresh_id used ∉ used.
Proof.
  intros Hin. assert (Hlen : forall i, i ∈ used -> length i <= length (concat used)).
  { clear. induction used as [|x used IH]; intros i Hi; [by apply elem_of_nil in Hi|]. cbn. rewrite length_app.
    apply elem_of_cons in Hi as [->|Hi]; [lia|]. specialize (IH _ Hi). lia. }
  specialize (Hlen _ Hin). unfold fresh_id in Hlen. cbn in Hlen. lia.
Qed.

Lemma assign_spec ms used : Forall2 same_but_id ms (assign used ms) /\
  Forall (fun m => has_id m = true) (assign used ms) /\
  NoDup (omap msg_id (assign used ms)) /\ forall i, i ∈ omap msg_id (assign used ms) -> i ∉ used.
Proof.
  revert used. induction ms as [|m ms IH]; intros used; cbn [assign].
  - split; [constructor|]. split; [constructor|]. split; [constructor|]. intros i Hi. by apply elem_of_nil in Hi.
  - destruct (IH (fresh_id used :: used)) as (H1 & H2 & H3 & H4). split; [by constructor|]. split; [by constructor|].
    assert (Hids : omap msg_id (with_id (fresh_id used) m :: assign (fresh_id used :: used) ms) =
      fresh_id used :: omap msg_id (assign (fresh_id used :: used) ms)) by done.
    rewrite Hids. split.
    + constructor; [|done]. intros Hin. apply (H4 _ Hin). by left.
    + intros i [->|Hi]%elem_of_cons; [apply fresh_unused|]. intros Hu. apply (H4 _ Hi). by right.
Qed.

#[export] Instance reference_channel_laws : MessageChannelLaws.
Proof.
  split. intros l ps [Hids Hnd] Happ. cbn [add_messages reference_channel]. unfold add.
  rewrite decide_True by done. fold (staying l ps).
  destruct (assign_spec (puts false ps) (omap msg_id (staying l ps))) as (H1 & H2 & H3 & H4).
  exists (assign (omap msg_id (staying l ps)) (puts false ps)). split; [done|]. split; [done|]. split.
  - apply Forall_app. split; [|done]. apply Forall_forall. intros m Hm. unfold staying in Hm.
    apply list_elem_of_filter in Hm as [_ (m' & -> & Hm')%list_elem_of_fmap]. rewrite Forall_forall in Hids.
    specialize (Hids _ Hm'). unfold has_id in *. by rewrite replaced_id.
  - rewrite omap_app. apply NoDup_app. split; [|split; [|done]].
    + eapply sublist_NoDup; [exact Hnd|]. etransitivity; [apply sublist_omap, sublist_filter|].
      clear. induction l as [|m l IH]; [done|]. cbn. rewrite replaced_id. destruct (msg_id m); [constructor|]; exact IH.
    + intros i Hi Hin. by apply (H4 _ Hin).
Qed.
End ReferenceChannel.
Import ReferenceChannel.

Lemma respond_history_witness :
  let state := {| cs_fields := mkdict [(u "query", JStr (u "我想退款"))]; cs_messages := Demo.history |} in
  let run := finalize_respond_turn Demo.tk (u "demo") Demo.lim None Demo.llm state in
  exists up kept ai, run = Ok up /\
    add_messages (cs_messages state) (up_message_updates up) = Ok (kept ++ [ai]) /\
    up_kept_messages up = kept ++ [ai_message (msg_text ai)].
Proof.
  intros state run. assert (Hok : is_ok run = true) by (vm_compute; reflexivity).
  pose proof (respond_history Demo.tk (u "demo") Demo.lim None Demo.llm state) as Hall.
  revert Hok Hall. change (finalize_respond_turn Demo.tk (u "demo") Demo.lim None Demo.llm state) with run.
  generalize run. clear run. intros run Hok Hall. destruct run as [up|e]; [|discriminate].
  destruct (Hall up) as (kept & ai & H1 & H2 & _); [|discriminate|reflexivity|].
  - apply (bool_decide_eq_true_1 (identified Demo.history)). vm_compute. reflexivity.
  - exists up, kept, ai. split; [reflexivity|]. split; [exact H1|exact H2].
Defined.

Lemma respond_answer_witness :
  let state := {| cs_fields := mkdict [(u "query", JStr (u "我想退款")); (u "answer", JStr (u "请联系13812345678"))];
                  cs_messages := Demo.history |} in
  let run := finalize_respond_turn Demo.tk (u "demo") Demo.lim None Demo.llm state in
  exists up, run = Ok up /\ truthy (strip (up_answer up)) = true /\
    Forall (fun p => PyRe.search p.1.2 (up_answer up) = None) PII_PATTERNS.
Proof.
  intros state run. assert (Hok : is_ok run = true) by (vm_compute; reflexivity).
  pose proof (respond_answer Demo.tk (u "demo") Demo.lim None Demo.llm state) as Hall.
  revert Hok Hall. change (finalize_respond_turn Demo.tk (u "demo") Demo.lim None Demo.llm state) with run.
  generalize run. clear run. intros run Hok Hall. destruct run as [up|e]; [|discriminate].
  exists up. split; [reflexivity|]. destruct (Hall up eq_refl) as (H1 & H2 & _). split.
  - apply H1. left. vm_compute. reflexivity.
  - apply H2, ascii_digits_check. vm_compute. reflexivity.
Defined.
