(* ===== verification/Intent.v ===== *)
(** * Intent recognition ([app/agents/intent.py])

    Keywords first; then the conversation's slots; the language model only for what
    the keywords call small talk.  The model's structured reply is a parameter: a
    function of the user prompt that returns a decision, something that is not one,
    or raises. *)

From stdpp Require Import base list gmap strings.
From Stdlib Require Import Floats.SpecFloat.
From S2P Require Import Prelude PyText Errors PyRe OrderNo Schemas Policy Window Json Slots.

Open Scope py_scope.

Definition HANDOFF_HINTS : list pystr :=
  map u ["转人工"; "人工客服"; "找人工"; "人工服务"; "联系人工"]%string.
Definition ORDER_HINTS : list pystr := map u ["订单"; "退款"; "物流"; "进度"; "支付"; "开通"]%string.
Definition GREETING_HINTS : list pystr :=
  map u ["你好"; "您好"; "在吗"; "嗨"; "hello"; "hi"; "早上好"; "晚上好"]%string.
Definition PURE_CHITCHAT : list pystr :=
  map u ["你好"; "您好"; "在吗"; "嗨"; "hello"; "hi"; "早上好"; "晚上好"; "谢谢"; "感谢"; "好的"; "嗯"]%string.

(** The module's own [SHORT_QUERY_CHARS]. *)
Definition SHORT_KEYWORD_CHARS : nat := 4.
(** 0.99, 0.8, 0.5, 0.3. *)
Definition CONFIDENCE_HANDOFF : pyfloat := fl 8917127262193582 (-53).
Definition CONFIDENCE_CHITCHAT : pyfloat := fl 7205759403792794 (-53).
Definition CONFIDENCE_UNSET_COURSE : pyfloat := fl 4503599627370496 (-53).
Definition CONFIDENCE_SHORT : pyfloat := fl 5404319552844595 (-54).

Definition GENERIC_CLARIFY : pystr :=
  u "您想咨询课程内容，还是查询订单进度？请补充一下具体问题。".

Definition _has_course (text : pystr) : bool := contains_any COURSE_HINTS text.
Definition _has_order_keywords (text : pystr) : bool := contains_any ORDER_HINTS text.

Definition _is_greeting_mixed (text : pystr) (has_course has_order : bool) : bool :=
  if negb (has_course || has_order) then false else contains_any GREETING_HINTS (lower text).

Definition _is_pure_chitchat (text : pystr) : bool :=
  bool_decide (lower (strip text) ∈ PURE_CHITCHAT).

Definition _enough_context (slots : SessionSlots) : bool :=
  match business_intent (last_intent slots) with
  | Some _ => true
  | None => otruthy (last_order_no slots) || otruthy (last_course_query slots)
            || otruthy (last_course_name slots)
  end.

Definition _recognize_by_keyword (text : pystr) : RouteDecision :=
  let query := strip text in
  if contains_any HANDOFF_HINTS query then
    mk_decision handoff (u "keyword-intent") CONFIDENCE_HANDOFF None None false None
  else
    let order_no := extract_query_order_no query in
    let has_course := _has_course query in
    let has_order := _has_order_keywords query || otruthy order_no in
    if has_course && has_order then
      mk_decision mixed (u "keyword-mixed") CONFIDENCE_MIXED order_no (Some query) false None
    else if _is_greeting_mixed query has_course has_order then
      mk_decision ambiguous (u "ambiguous-query") CONFIDENCE_AMBIGUOUS order_no
        (if has_course then Some query else None) true (Some GENERIC_CLARIFY)
    else if has_order then
      mk_decision order (u "keyword-intent") CONFIDENCE_DIRECT order_no None false None
    else if has_course then
      mk_decision course_consult (u "keyword-intent") CONFIDENCE_DIRECT None (Some query) false None
    else if (length query <? SHORT_KEYWORD_CHARS) && negb (_is_pure_chitchat query) then
      mk_decision ambiguous (u "short-query") CONFIDENCE_SHORT None None true (Some GENERIC_CLARIFY)
    else mk_decision chitchat (u "keyword-intent") CONFIDENCE_CHITCHAT None None false None.

Definition _finalize_decision (text : pystr) (d : RouteDecision) : RouteDecision :=
  finalize DEFAULT_POLICY text d.

Section recognize.
Context (tk : tokenizer) (settings : option (Z * Z)).
(** [get_settings().llm_enabled]. *)
Context (llm_enabled : bool).
(** The model's reply to a user prompt; [Ok None] when it is not a [RouteDecision]. *)
Context (llm : pystr -> res exn (option RouteDecision)).

Definition _recognize_by_llm (text : pystr) (history : list message) (session_summary : option pystr)
    : res exn (option RouteDecision) :=
  let? history_text := format_history_for_prompt tk settings history None None session_summary in
  let user_content :=
    if truthy history_text
    then u "对话历史：
" ++ history_text ++ u "

当前用户问题：" ++ text
    else text in
  match llm user_content with
  | Raise e =>
    match e with
    | TenantQuotaExceededError _ _ _ => Raise e
    | _ => if is_Exception e then Ok None else Raise e
    end
  | Ok None => Ok None
  | Ok (Some d) =>
    let d := with_reason (str_or (rd_reason d) (u "llm-intent")) d in
    let d := if bool_decide (rd_target d = T_chitchat) && bool_decide (rd_intent d <> chitchat)
             then with_target (intent_to_target (rd_intent d)) d else d in
    let d := if f_le (rd_confidence d) f_zero
             then with_confidence (if decide (rd_intent d = course_consult)
                                   then CONFIDENCE_UNSET_COURSE else CONFIDENCE_DIRECT) d
             else d in
    Ok (Some (finalize_route d))
  end.

Definition recognize_intent (text : pystr) (history : list message) (slots : SessionSlots)
    (session_summary : option pystr) : res exn RouteDecision :=
  let keyword := _recognize_by_keyword text in
  let keyword :=
    if otruthy (rd_order_no keyword) then keyword
    else with_order_no (ostr_or (last_order_no slots) (order_no_from_history history)) keyword in
  if negb (bool_decide (rd_intent keyword = chitchat \/ rd_intent keyword = ambiguous)) then
    Ok (_finalize_decision text (apply_session_slots text keyword slots))
  else
    let resumed :=
      if bool_decide (rd_intent keyword = ambiguous) && _enough_context slots then
        let decision := apply_session_slots text (with_intent chitchat keyword) slots in
        if bool_decide (rd_intent decision <> chitchat) then Some decision else None
      else None in
    match resumed with
    | Some decision => Ok (_finalize_decision text decision)
    | None =>
      if negb llm_enabled then
        let decision := apply_session_slots text keyword slots in
        let decision :=
          if bool_decide (rd_intent decision = chitchat) && bool_decide (rd_intent keyword = ambiguous)
          then keyword else decision in
        Ok (_finalize_decision text decision)
      else if bool_decide (rd_intent keyword = ambiguous) then
        let decision := apply_session_slots text keyword slots in
        if bool_decide (rd_intent decision = ambiguous)
           || (bool_decide (rd_intent decision = order) && negb (otruthy (rd_order_no decision)))
        then Ok (_finalize_decision text
                   (if bool_decide (rd_intent decision = ambiguous) then keyword else decision))
        else Ok (_finalize_decision text decision)
      else
        let? reply := _recognize_by_llm text history session_summary in
        match reply with
        | None => Ok (_finalize_decision text (apply_session_slots text keyword slots))
        | Some decision =>
          let decision := if otruthy (rd_order_no decision) then decision
                          else with_order_no (rd_order_no keyword) decision in
          Ok (_finalize_decision text (apply_session_slots text decision slots))
        end
    end.
End recognize.

Definition arecognize_intent := recognize_intent.

(** ** Properties *)

(** The keyword pass agrees with itself: target from intent. *)
Lemma keyword_consistent text : consistent (_recognize_by_keyword text).
Proof. unfold _recognize_by_keyword. repeat case_match; done. Qed.

(** The keyword decision with the order number the conversation remembers. *)
Definition keyword_decision (text : pystr) (history : list message) (slots : SessionSlots)
    : RouteDecision :=
  let keyword := _recognize_by_keyword text in
  if otruthy (rd_order_no keyword) then keyword
  else with_order_no (ostr_or (last_order_no slots) (order_no_from_history history)) keyword.

(** Every decision returned has passed the policy's guards, and came to them from
    the keywords or the model, with or without the slots. *)
Inductive recognized (text : pystr) (slots : SessionSlots) (keyword : RouteDecision)
    : RouteDecision -> Prop :=
| from_keyword : recognized text slots keyword (_finalize_decision text keyword)
| from_slots : recognized text slots keyword
    (_finalize_decision text (apply_session_slots text keyword slots))
| from_resume : rd_intent keyword = ambiguous -> recognized text slots keyword
    (_finalize_decision text (apply_session_slots text (with_intent chitchat keyword) slots))
| from_llm d : rd_intent keyword = chitchat -> recognized text slots keyword
    (_finalize_decision text (apply_session_slots text d slots)).

Lemma recognize_cases tk settings en llm text history slots summary d :
  recognize_intent tk settings en llm text history slots summary = Ok d ->
  recognized text slots (keyword_decision text history slots) d.
Proof.
  unfold recognize_intent. fold (keyword_decision text history slots).
  set (keyword := keyword_decision text history slots).
  destruct (bool_decide (rd_intent keyword = chitchat \/ _)) eqn:Ek; cbn [negb];
    [|intros [= <-]; constructor].
  apply bool_decide_eq_true in Ek.
  destruct (bool_decide (rd_intent keyword = ambiguous)) eqn:Ea; cbn [andb].
  - apply bool_decide_eq_true in Ea. rewrite andb_true_r. cbn zeta.
    destruct (if _enough_context slots then _ else None) as [r|] eqn:Er.
    { intros [= <-]. destruct (_enough_context slots); [|done].
      destruct (bool_decide _) in Er; simplify_eq. by constructor. }
    destruct en; cbn [negb].
    + destruct (bool_decide (rd_intent (apply_session_slots text keyword slots) = ambiguous));
        cbn [orb]; [|destruct (_ && _)]; intros [= <-]; constructor.
    + destruct (bool_decide (rd_intent (apply_session_slots text keyword slots) = chitchat));
        intros [= <-]; constructor.
  - apply bool_decide_eq_false in Ea. destruct Ek as [Ek|Ek]; [|done]. rewrite andb_false_r.
    destruct en; cbn [negb]; [|intros [= <-]; constructor].
    rewrite rbind_ok. intros ([e|] & _ & [= <-]); by constructor.
Qed.

Lemma recognized_finalized text slots keyword d :
  consistent keyword -> recognized text slots keyword d ->
  exists d', consistent d' /\ d = finalize DEFAULT_POLICY text d'.
Proof. intros Hk []; eexists; (split; [|reflexivity]); done. Qed.

Lemma keyword_decision_consistent text history slots :
  consistent (keyword_decision text history slots).
Proof.
  unfold keyword_decision. pose proof (keyword_consistent text). by destruct (otruthy _).
Qed.

(** Where the graph goes from a recognised decision. *)
Definition next_node (d : RouteDecision) : GraphNode :=
  next_after_router DEFAULT_POLICY false (Some (target_str (rd_target d)))
    (Some (intent_str (rd_intent d))) (rd_confidence d).

(** C18.  Recognition routes safely, whatever the history, the slots and the language
    model answer: a question that mentions an order never goes to course retrieval
    or to small talk; the order node is only reached with an order number; and
    retrieval only for a course question that is not low-confidence. *)
Theorem recognize_routes_safely tk settings en llm text history slots summary d :
  recognize_intent tk settings en llm text history slots summary = Ok d ->
  (query_has_order_signal text = true -> next_node d <> N_rag /\ next_node d <> N_chitchat) /\
  (next_node d = N_tool -> otruthy (rd_order_no d) = true) /\
  (next_node d = N_rag -> rd_intent d = course_consult /\
     f_lt (if f_truthy (rd_confidence d) then rd_confidence d else f_zero) CONFIDENCE_RAG_MIN = false).
Proof.
  intros Hr%recognize_cases.
  apply recognized_finalized in Hr as (d' & Hd' & ->); [|apply keyword_decision_consistent].
  pose proof (finalize_consistent DEFAULT_POLICY text d' Hd') as Hc.
  pose proof (finalize_signal DEFAULT_POLICY text d') as Hs.
  pose proof (finalize_order DEFAULT_POLICY text d') as Ho.
  set (d := finalize DEFAULT_POLICY text d') in *. clearbody d.
  unfold next_node. rewrite next_after_router_target, Hc.
  change (confidence_rag_min DEFAULT_POLICY) with CONFIDENCE_RAG_MIN.
  destruct (rd_intent d) eqn:Ei; cbn [intent_to_target]; try (destruct (f_lt _ _) eqn:El);
    (split; [intros Hq; destruct (Hs Hq); split; congruence|]);
    (split; [intros Heq; first [by apply Ho|congruence]|]); intros Heq; try done; congruence.
Qed.

Lemma recognize_routes_safely_witness :
  next_node (mk_decision order (u "keyword-intent") CONFIDENCE_DIRECT (Some (u "20251114001"))
               None false None) <> N_rag.
Proof.
  apply (recognize_routes_safely char_tokenizer None true
           (fun _ => Raise (TimeoutError [])) (u "订单20251114001退款") [] no_slots None);
    vm_compute; reflexivity.
Defined.

(** A number in the question wins: unless the customer asks for a human, the
    number recognised in the current question is the one the turn uses, over the
    model's, the slots' and the history's. *)
Theorem current_number_wins tk settings en llm text history slots summary d n :
  recognize_intent tk settings en llm text history slots summary = Ok d ->
  contains_any HANDOFF_HINTS (strip text) = false ->
  extract_query_order_no (strip text) = Some n -> truthy n = true ->
  rd_order_no d = Some n.
Proof.
  intros Hr%recognize_cases Hh Hn Ht.
  assert (Hk : rd_order_no (keyword_decision text history slots) = Some n /\
               rd_intent (keyword_decision text history slots) <> chitchat).
  { unfold keyword_decision, _recognize_by_keyword. rewrite Hh, Hn. cbn [otruthy].
    rewrite Ht, orb_true_r. cbn zeta.
    repeat (case_match; cbn [mk_decision finalize_route with_confidence rd_order_no rd_intent
      otruthy andb] in *; try done; try congruence). }
  destruct Hk as [Hk Hi]. set (k := keyword_decision text history slots) in *.
  destruct Hr as [| |_|]; try done; unfold _finalize_decision;
    rewrite finalize_keeps_order; rewrite ?apply_session_slots_order; cbn [with_intent rd_order_no];
    rewrite Hk; done.
Qed.

Lemma current_number_wins_witness :
  rd_order_no (mk_decision order (u "keyword-intent") CONFIDENCE_DIRECT (Some (u "20251114001"))
                 None false None) = Some (u "20251114001").
Proof.
  apply (current_number_wins char_tokenizer None false (fun _ => Ok None) (u "订单20251114001") []
           {| last_intent := None; last_order_no := Some (u "20990101001");
              last_course_query := None; last_course_name := None; handoff_pending := false |}
           None); vm_compute; reflexivity.
Defined.

(** The language model is optional: it is asked only about what the keywords call
    small talk; and when it is asked and fails (any exception but an exhausted
    quota, or a reply that is no decision), the outcome is the one without it. *)
Theorem llm_is_optional tk settings llm text history slots summary :
  (rd_intent (_recognize_by_keyword text) <> chitchat ->
     forall llm', recognize_intent tk settings true llm text history slots summary =
                  recognize_intent tk settings true llm' text history slots summary) /\
  (forall history_text,
     format_history_for_prompt tk settings history None None summary = Ok history_text ->
     (forall prompt, llm prompt = Ok None \/
        exists e, llm prompt = Raise e /\ is_Exception e = true /\
                  forall t used limit, e <> TenantQuotaExceededError t used limit) ->
     rd_intent (_recognize_by_keyword text) = chitchat ->
     recognize_intent tk settings true llm text history slots summary =
     recognize_intent tk settings false llm text history slots summary).
Proof.
  assert (Hi : rd_intent (keyword_decision text history slots) = rd_intent (_recognize_by_keyword text)).
  { unfold keyword_decision. by destruct (otruthy _). }
  unfold recognize_intent. fold (keyword_decision text history slots).
  set (keyword := keyword_decision text history slots) in *. rewrite <-Hi. split.
  - intros Hk llm'.
    destruct (bool_decide (rd_intent keyword = ambiguous)) eqn:Ea.
    + done.
    + apply bool_decide_eq_false in Ea.
      rewrite (bool_decide_eq_false_2 (_ \/ _)) by tauto. done.
  - intros ht Hf Hllm Hk.
    rewrite (bool_decide_eq_true_2 (_ \/ _)) by tauto. cbn [negb].
    rewrite (bool_decide_eq_false_2 (rd_intent keyword = ambiguous)) by congruence.
    cbn [andb]. rewrite andb_false_r. unfold _recognize_by_llm. rewrite Hf. cbn [rbind].
    set (prompt := if truthy ht then _ else _).
    destruct (Hllm prompt) as [->|(e & -> & He & Hq)]; [done|].
    destruct e; try done; by destruct (Hq tenant used limit).
Qed.

Lemma llm_is_optional_witness :
  recognize_intent char_tokenizer None true (fun _ => Raise (TimeoutError [])) (u "今天天气不错") []
    no_slots None =
  recognize_intent char_tokenizer None false (fun _ => Raise (TimeoutError [])) (u "今天天气不错") []
    no_slots None.
Proof.
  apply (llm_is_optional char_tokenizer None (fun _ => Raise (TimeoutError [])) (u "今天天气不错") []
           no_slots None) with (history_text := []).
  - vm_compute. reflexivity.
  - intros prompt. right. exists (TimeoutError []). done.
  - vm_compute. reflexivity.
Defined.

(** The greeting test looks for substrings: "hi" is found inside "machine", so this
    course question is met with a clarification. *)
Example greeting_substring :
  (fun d => (rd_intent d, rd_reason d)) (_recognize_by_keyword (u "Machine Learning 课程大纲"))
  = (ambiguous, u "ambiguous-query").
Proof. vm_compute. reflexivity. Qed.
