(* ===== verification/OrderAccess.v ===== *)
(** * Order permissions ([app/security/order_access.py])

    The single entry for order data: format, tenant, owner, and the anonymous
    rules.  The database is a parameter with the laws of the two queries the module
    runs; denials leave an audit record. *)

From stdpp Require Import base list gmap strings.
From Stdlib Require Import Floats.SpecFloat.
From S2P Require Import Prelude PyText Errors PyRe OrderNo.

Open Scope py_scope.

(** ** Rows ([app/db/models.py]) *)

Record OrderEvent := {
  event_name : pystr;
  event_status : pystr;
  (** [occurred_at.strftime("%Y-%m-%d %H:%M")]. *)
  event_time : option pystr;
  event_note : option pystr;
}.

Record Order := {
  order_id : Z;
  order_tenant_id : pystr;
  order_order_no : pystr;
  order_user_id : pystr;
  order_course_name : pystr;
  order_course_code : option pystr;
  order_order_type : pystr;
  order_status : pystr;
  order_amount : pyfloat;
  order_events : list OrderEvent;
}.

(** The two queries, on a table: the order with this number in this tenant, and the
    id of an order with this number in any tenant. *)
Record OrderDB := {
  db_rows : list Order;
  db_order : pystr -> pystr -> option Order;
  db_order_id : pystr -> option Z;
}.

Record OrderDBLaws (db : OrderDB) : Prop := {
  db_order_sound : forall n t o, db_order db n t = Some o ->
    o ∈ db_rows db /\ order_order_no o = n /\ order_tenant_id o = t;
  db_order_complete : forall n t o, db_order db n t = None -> o ∈ db_rows db ->
    order_order_no o = n -> order_tenant_id o <> t;
  db_order_id_sound : forall n i, db_order_id db n = Some i ->
    exists o, o ∈ db_rows db /\ order_order_no o = n /\ order_id o = i;
  db_order_id_complete : forall n o, db_order_id db n = None -> o ∈ db_rows db ->
    order_order_no o <> n;
  (** Ids are auto-incremented from 1. *)
  db_ids : forall o, o ∈ db_rows db -> (0 < order_id o)%Z;
}.

(** A table read from the top. *)
Definition table_db (rows : list Order) : OrderDB :=
  {| db_rows := rows;
     db_order := fun n t =>
       find (fun o => bool_decide (order_order_no o = n) && bool_decide (order_tenant_id o = t)) rows;
     db_order_id := fun n => order_id <$> find (fun o => bool_decide (order_order_no o = n)) rows |}.

(** ** Identifiers *)

Inductive AccessContext : Type := DIRECT_QUERY | SLOT_FOLLOWUP | MEMORY_RECALL | REACT_BINDING.
Inductive OrderDenyReason : Type :=
| ORDER_NOT_FOUND | CROSS_TENANT | NOT_ORDER_OWNER | ANONYMOUS_UNBOUND | MALFORMED_ORDER_NO.

#[export] Instance context_eq_dec : EqDecision AccessContext.
Proof. solve_decision. Defined.
#[export] Instance deny_eq_dec : EqDecision OrderDenyReason.
Proof. solve_decision. Defined.

Record OrderAccessDecision := {
  allowed : bool;
  reason_code : option OrderDenyReason;
  decision_order_id : option Z;
  decision_order : option Order;
}.

(** What [_record_deny] writes to the log and the counter. *)
Record deny_event := {
  de_order_no : pystr;
  de_tenant : pystr;
  de_user : pystr;
  de_context : AccessContext;
  de_reason : OrderDenyReason;
}.

(** [EPHEMERAL_USERS] and [is_persistent_user] of [app/memory.py]. *)
Definition EPHEMERAL_USERS : list pystr := map u [""; "anonymous"; "anon"]%string.
Definition is_persistent_user (user_id : option pystr) : bool :=
  let uid := strip (opt_str user_id) in
  truthy uid && negb (bool_decide (uid ∈ EPHEMERAL_USERS)).

Definition _normalize_user_id (user_id : option pystr) : pystr :=
  str_or (strip (opt_str user_id)) (u "anonymous").

Definition _user_visible_deny (order_no : pystr) : pystr := u "未找到订单 " ++ order_no.

(** [ORDER_NO_RE.fullmatch]: at least eight digits and nothing else. *)
Definition order_no_wellformed (number : pystr) : bool := fullmatch (rmin 8 (RChar is_digit)) number.

Definition is_anon (uid : pystr) : bool := bool_decide (uid ∈ EPHEMERAL_USERS) || bool_decide (uid = []).

(** ** Decisions *)

Section access.
Context (db : OrderDB).

Definition _decide_access (order_no tenant_id user_id : pystr) (context : AccessContext)
    : bool * option OrderDenyReason * option Order :=
  let number := strip order_no in
  if negb (order_no_wellformed number) then (false, Some MALFORMED_ORDER_NO, None)
  else
    let uid := _normalize_user_id (Some user_id) in
    let anon := is_anon uid in
    if anon && bool_decide (context = MEMORY_RECALL) then (false, Some ANONYMOUS_UNBOUND, None)
    else
      match db_order db number tenant_id with
      | None =>
        let any_tenant := match db_order_id db number with Some i => negb (i =? 0)%Z | None => false end in
        (false, Some (if any_tenant then CROSS_TENANT else ORDER_NOT_FOUND), None)
      | Some order =>
        if negb anon && negb (bool_decide (order_user_id order = uid))
        then (false, Some NOT_ORDER_OWNER, None)
        else (true, None, Some order)
      end.

(** The tenant and user of the current request. *)
Context (current_tenant current_user : pystr).

Definition deny (order_no tid uid : pystr) (ctx : AccessContext) (reason : OrderDenyReason)
    : OrderAccessDecision * list deny_event :=
  ({| allowed := false; reason_code := Some reason; decision_order_id := None;
      decision_order := None |},
   [{| de_order_no := order_no; de_tenant := tid; de_user := uid; de_context := ctx;
       de_reason := reason |}]).

(** [authorize], with the audit records it leaves. *)
Definition authorize (order_no : pystr) (ctx : AccessContext) (tenant_id user_id : option pystr)
    (session_bound_order_no : option pystr) : OrderAccessDecision * list deny_event :=
  let tid := opt_str (ostr_or tenant_id (Some current_tenant)) in
  let uid := _normalize_user_id (ostr_or user_id (Some current_user)) in
  let bound := strip (opt_str session_bound_order_no) in
  if is_anon uid && bool_decide (ctx = SLOT_FOLLOWUP)
     && truthy bound && negb (bool_decide (strip order_no = bound))
  then deny order_no tid uid ctx ANONYMOUS_UNBOUND
  else
    match _decide_access order_no tid uid ctx with
    | (true, _, Some order) =>
      ({| allowed := true; reason_code := None; decision_order_id := Some (order_id order);
          decision_order := Some order |}, [])
    | (_, reason, _) => deny order_no tid uid ctx (default ORDER_NOT_FOUND reason)
    end.

(** [ensure_access]. *)
Definition ensure_access (order_no : pystr) (ctx : AccessContext) (tenant_id user_id : option pystr)
    (session_bound_order_no : option pystr) : res exn Order :=
  let decision := (authorize order_no ctx tenant_id user_id session_bound_order_no).1 in
  if negb (allowed decision) then Raise (ValueError (_user_visible_deny order_no))
  else match decision_order decision with
       | Some order => Ok order
       | None => Raise (OtherExc (u "AssertionError") [])
       end.

(** [can_access_order]. *)
Definition can_access_order (order_no tenant_id : pystr) (user_id : option pystr)
    (ctx : AccessContext) : bool :=
  allowed (authorize order_no ctx (Some tenant_id) user_id None).1.
End access.

(** [make_order_scope_filters]: the [WHERE] clause, as a predicate on rows. *)
Definition make_order_scope_filters (order_no tenant_id : pystr) (user_id : option pystr)
    (o : Order) : bool :=
  let number := strip order_no in
  let uid := _normalize_user_id user_id in
  bool_decide (order_order_no o = number) && bool_decide (order_tenant_id o = tenant_id)
  && (if is_persistent_user (Some uid) then bool_decide (order_user_id o = uid) else true).

(** ** Properties *)

Lemma table_db_laws rows :
  (forall o, o ∈ rows -> (0 < order_id o)%Z) -> OrderDBLaws (table_db rows).
Proof.
  intros Hids. split; cbn.
  - intros n t o [Hin Hp]%List.find_some. bool_to_prop. split; [by apply list_elem_of_In|done].
  - intros n t o Hf Hin Hn Ht. apply list_elem_of_In in Hin.
    pose proof (List.find_none _ _ Hf o Hin) as Hno. cbn in Hno.
    rewrite !bool_decide_eq_true_2 in Hno by done. done.
  - intros n i Hi. apply fmap_Some in Hi as (o & [Hin Hp]%List.find_some & ->).
    bool_to_prop. exists o. split; [by apply list_elem_of_In|done].
  - intros n o Hf Hin Hn. apply fmap_None in Hf. apply list_elem_of_In in Hin.
    pose proof (List.find_none _ _ Hf o Hin) as Hno. cbn in Hno.
    by rewrite bool_decide_eq_true_2 in Hno.
  - done.
Qed.

Lemma run_full (p : N -> bool) s : forallb p s = true -> run p s = s.
Proof. induction s as [|c s IH]; cbn; [done|]. intros [-> ?]%andb_true_iff. by rewrite IH. Qed.

(** The format check, read off the pattern. *)
Lemma order_no_wellformed_spec s :
  order_no_wellformed s = (8 <=? length s) && forallb is_digit s.
Proof.
  unfold order_no_wellformed, fullmatch. destruct (forallb is_digit s) eqn:Ef.
  - rewrite (rmin_class is_digit 8 [] s [] _ tt); rewrite (run_full _ s Ef).
    + rewrite andb_true_r. by destruct (8 <=? length s).
    + intros _. by rewrite drop_all.
  - rewrite andb_false_r. apply bool_decide_eq_false. cbn [rmin mt]. rewrite rrep_class.
    destruct (Nat.leb_spec 8 (length (run is_digit s))) as [Hr|]; [|by intros []].
    apply eq_None_not_Some. apply star_class_fail; [done|]. intros n Hn.
    rewrite run_drop, length_drop in Hn by done. rewrite drop_drop.
    destruct (drop (8 + n) s) eqn:Ed; [|done]. exfalso.
    apply (f_equal length) in Ed. rewrite length_drop in Ed. cbn in Ed.
    pose proof (run_prefix is_digit s) as Hp.
    rewrite (drop_ge s (length (run is_digit s))), app_nil_r in Hp by lia.
    pose proof (run_class is_digit s) as Hc. rewrite <-Hp in Hc.
    rewrite <-not_true_iff_false, forallb_elem in Ef. apply Ef.
    intros c Hin. by eapply Forall_forall in Hc.
Qed.

Section spec.
Context (db : OrderDB) (current_tenant current_user : pystr).

Lemma decide_access_some order_no tid uid ctx r o :
  _decide_access db order_no tid uid ctx = (true, r, o) ->
  exists o', o = Some o' /\ r = None /\ db_order db (strip order_no) tid = Some o'.
Proof.
  unfold _decide_access. cbn zeta. destruct (negb (order_no_wellformed _)); [done|].
  destruct (_ && _); [done|]. destruct (db_order db (strip order_no) tid) as [o'|]; [|done].
  destruct (_ && _); [done|]. intros [= <- <-]. by exists o'.
Qed.

(** Who may read an order: the rules, as the module's table states them. *)
Record may_read (order_no tid uid : pystr) (ctx : AccessContext) (bound : pystr) (o : Order) : Prop := {
  mr_format : order_no_wellformed (strip order_no) = true;
  mr_found : db_order db (strip order_no) tid = Some o;
  mr_owner : is_anon uid = false -> order_user_id o = uid;
  mr_memory : is_anon uid = true -> ctx <> MEMORY_RECALL;
  mr_slot : is_anon uid = true -> ctx = SLOT_FOLLOWUP -> bound = [] \/ strip order_no = bound;
}.

Lemma normalize_user_idem uid : _normalize_user_id (Some (_normalize_user_id uid)) = _normalize_user_id uid.
Proof.
  unfold _normalize_user_id. rewrite opt_str_Some. unfold str_or.
  destruct (truthy (strip (opt_str uid))) eqn:E; [|done]. by rewrite strip_idemp, E.
Qed.
End spec.

(** The entry point grants exactly what the rules allow, and audits the rest. *)
Lemma authorize_correct db ct cu order_no ctx tenant_id user_id session_bound o :
  let tid := opt_str (ostr_or tenant_id (Some ct)) in
  let uid := _normalize_user_id (ostr_or user_id (Some cu)) in
  let '(d, audit) := authorize db ct cu order_no ctx tenant_id user_id session_bound in
  (decision_order d = Some o <-> may_read db order_no tid uid ctx (strip (opt_str session_bound)) o) /\
  (allowed d = true <-> is_Some (decision_order d)) /\
  length audit = (if allowed d then 0 else 1).
Proof.
  intros tid uid. unfold authorize. fold tid uid.
  set (bound := strip (opt_str session_bound)).
  assert (Hidem : _normalize_user_id (Some uid) = uid) by apply normalize_user_idem.
  destruct (is_anon uid && bool_decide (ctx = SLOT_FOLLOWUP) && truthy bound
            && negb (bool_decide (strip order_no = bound))) eqn:Eslot.
  { unfold deny. cbn. bool_to_prop. split; [|split; [|done]].
    - split; [done|]. intros [_ _ _ _ Hs]. exfalso. destruct Hs as [Hb|Hb]; try done.
      by rewrite Hb in *.
    - split; [done|]. by intros []. }
  assert (Hslot : is_anon uid = true -> ctx = SLOT_FOLLOWUP -> bound = [] \/ strip order_no = bound).
  { intros Ha ->. rewrite Ha in Eslot. rewrite bool_decide_eq_true_2 in Eslot by done.
    cbn [andb] in Eslot. destruct bound as [|c b]; [by left|]. right. cbn [truthy andb] in Eslot.
    by bool_to_prop. }
  destruct (_decide_access db order_no tid uid ctx) as [[[|] r] o'] eqn:Ed.
  - destruct (decide_access_some _ _ _ _ _ _ _ Ed) as (o'' & -> & -> & Hf). cbn.
    split; [|split; [naive_solver|done]].
    { split.
      * intros [= ->]. revert Ed. unfold _decide_access. cbn zeta.
        rewrite Hidem, Hf.
        destruct (order_no_wellformed _) eqn:Ew; [|done]. cbn [negb].
        destruct (is_anon uid) eqn:Ea; cbn [andb negb].
        -- destruct (bool_decide (ctx = MEMORY_RECALL)) eqn:Em; [done|]. bool_to_prop. intros _. split; auto; congruence.
        -- destruct (bool_decide (order_user_id o = uid)) eqn:Eo; [|done].
           bool_to_prop. intros _. split; auto; congruence.
      * intros [_ Hf' _ _ _]. congruence. }
  - assert (Hnone : forall o, ~ may_read db order_no tid uid ctx bound o).
    { intros x [Hw Hf Ho Hm Hs]. revert Ed. unfold _decide_access. cbn zeta.
      rewrite Hidem, Hw, Hf. cbn [negb].
      destruct (is_anon uid) eqn:Ea; cbn [andb negb].
      - by rewrite bool_decide_eq_false_2 by auto.
      - by rewrite bool_decide_eq_true_2 by auto. }
    unfold deny. cbn. split; [|split; [|done]].
    + split; [done|]. intros Hm. by destruct (Hnone o).
    + split; [done|]. by intros [].
Qed.


(** A small table for the examples. *)
Definition demo_order (id : Z) (tenant no user : string) : Order :=
  {| order_id := id; order_tenant_id := u tenant; order_order_no := u no;
     order_user_id := u user; order_course_name := u "Python入门课"; order_course_code := None;
     order_order_type := u "purchase"; order_status := u "paid"; order_amount := f_one;
     order_events := [] |}.
Definition demo_db : OrderDB :=
  table_db [demo_order 1 "demo" "20251114001" "alice"; demo_order 2 "acme" "20251114002" "bob"].

Lemma demo_db_laws : OrderDBLaws demo_db.
Proof.
  apply table_db_laws. intros o Ho.
  repeat (apply elem_of_cons in Ho as [->|Ho]; [done|]). by apply elem_of_nil in Ho.
Qed.


(** A refusal tells the customer nothing: [ensure_access] always answers with the
    order or one same message about the number asked for, so two requests for the
    same number that are refused, for whatever reasons, by whatever databases,
    cannot be told apart; the internal assertion never fails. *)
Theorem ensure_access_uniform db db' ct ct' cu cu' order_no ctx ctx' t t' w w' b b' :
  let r := ensure_access db ct cu order_no ctx t w b in
  let r' := ensure_access db' ct' cu' order_no ctx' t' w' b' in
  (is_ok r = false -> r = Raise (ValueError (_user_visible_deny order_no))) /\
  (is_ok r = false -> is_ok r' = false -> r = r').
Proof.
  assert (H : forall db ct cu ctx t w b, is_ok (ensure_access db ct cu order_no ctx t w b) = false ->
    ensure_access db ct cu order_no ctx t w b = Raise (ValueError (_user_visible_deny order_no))).
  { clear. intros db ct cu ctx t w b. unfold ensure_access, authorize. cbn zeta.
    destruct (is_anon _ && _ && _ && _); [done|].
    by destruct (_decide_access _ _ _ _ _) as [[[|] ?] [|]]. }
  cbn zeta. split; [apply H|]. intros H1 H2. by rewrite (H _ _ _ _ _ _ _ H1), (H _ _ _ _ _ _ _ H2).
Qed.

Lemma ensure_access_uniform_witness :
  ensure_access demo_db (u "demo") (u "mallory") (u "20251114001") DIRECT_QUERY None None None =
  ensure_access (table_db []) (u "demo") (u "mallory") (u "20251114001") DIRECT_QUERY None None None.
Proof.
  apply (ensure_access_uniform demo_db (table_db []) (u "demo") (u "demo") (u "mallory") (u "mallory")
           (u "20251114001") DIRECT_QUERY DIRECT_QUERY None None None None None None);
    vm_compute; reflexivity.
Defined.

(** Numbers are unique in a tenant ([uq_orders_tenant_order_no]). *)
Definition unique_numbers (db : OrderDB) : Prop := forall o o', o ∈ db_rows db -> o' ∈ db_rows db ->
  order_order_no o = order_order_no o' -> order_tenant_id o = order_tenant_id o' -> o = o'.

Lemma is_anon_persistent w :
  is_persistent_user (Some (_normalize_user_id w)) = negb (is_anon (_normalize_user_id w)).
Proof.
  unfold is_persistent_user, is_anon. rewrite opt_str_Some. unfold _normalize_user_id, str_or.
  destruct (truthy (strip (opt_str w))) eqn:E; [|by vm_compute].
  rewrite strip_idemp, E. cbn [andb]. destruct (strip (opt_str w)); [done|]. by rewrite orb_false_r.
Qed.

(** The [WHERE] clause and the decision apply the same rule, for a user named
    explicitly: outside long-term recall, a well-formed number is granted exactly
    the row the clause selects. *)
Theorem scope_filters_agree db order_no tid uid ctx o :
  OrderDBLaws db -> unique_numbers db ->
  order_no_wellformed (strip order_no) = true -> ctx <> MEMORY_RECALL ->
  _decide_access db order_no tid uid ctx = (true, None, Some o) <->
  o ∈ db_rows db /\ make_order_scope_filters order_no tid (Some uid) o = true.
Proof.
  intros Hdb Hu Hw Hctx. unfold _decide_access, make_order_scope_filters. cbn zeta.
  rewrite is_anon_persistent, Hw. cbn [negb].
  rewrite (bool_decide_eq_false_2 (ctx = MEMORY_RECALL)), andb_false_r by done.
  set (n := strip order_no). set (w := _normalize_user_id (Some uid)).
  rewrite !andb_true_iff, !bool_decide_eq_true. split.
  - destruct (db_order db n tid) as [o'|] eqn:Ef; [|done].
    apply (db_order_sound db Hdb) in Ef as (Hin & Hn & Ht).
    destruct (is_anon w); cbn [andb negb]; [by intros [= ->]|].
    destruct (bool_decide (order_user_id o' = w)) eqn:Eo; [|done]. bool_to_prop.
    intros [= ->]. by rewrite bool_decide_eq_true_2.
  - intros (Hin & [Hn Ht] & Ho). destruct (db_order db n tid) as [o'|] eqn:Ef.
    + apply (db_order_sound db Hdb) in Ef as (Hin' & Hn' & Ht').
      rewrite (Hu o' o) in * by congruence.
      destruct (is_anon w); cbn [andb negb] in *; [done|]. by rewrite Ho.
    + by destruct (db_order_complete db Hdb n tid o Ef Hin Hn).
Qed.

Lemma demo_db_unique : unique_numbers demo_db.
Proof.
  intros o o' Ho Ho' Hn Ht.
  repeat (apply elem_of_cons in Ho as [->|Ho]); [| |by apply elem_of_nil in Ho];
  repeat (apply elem_of_cons in Ho' as [->|Ho']); try done; by apply elem_of_nil in Ho'.
Qed.

Lemma scope_filters_agree_witness :
  _decide_access demo_db (u "20251114001") (u "demo") (u "alice") DIRECT_QUERY
  = (true, None, Some (demo_order 1 "demo" "20251114001" "alice")).
Proof.
  apply (scope_filters_agree demo_db (u "20251114001") (u "demo") (u "alice") DIRECT_QUERY
           (demo_order 1 "demo" "20251114001" "alice") demo_db_laws demo_db_unique);
    [vm_compute; reflexivity|done|].
  split; [by left|vm_compute; reflexivity].
Defined.

(** They part when no user is named: the decision then judges the current user,
    while the clause, which does not look it up, drops the owner condition and
    selects anybody's order. *)
Theorem scope_filters_without_user order_no tid ct cu o :
  is_persistent_user (Some (_normalize_user_id (Some cu))) = true -> truthy cu = true ->
  truthy tid = true ->
  order_order_no o = strip order_no -> order_tenant_id o = tid ->
  order_user_id o <> _normalize_user_id (Some cu) -> (0 < order_id o)%Z ->
  make_order_scope_filters order_no tid None o = true /\
  allowed (authorize (table_db [o]) ct cu order_no DIRECT_QUERY (Some tid) None None).1 = false.
Proof.
  intros Hp Hcu Htid Hn Ht Hne Hid. split.
  - unfold make_order_scope_filters. rewrite Hn, Ht, !bool_decide_eq_true_2 by done. done.
  - rewrite is_anon_persistent in Hp. unfold authorize. cbn zeta.
    rewrite (ostr_or_true (Some tid)), (ostr_or_false None), !opt_str_Some by done.
    set (w := _normalize_user_id (Some cu)) in *. bool_to_prop. rewrite Hp. cbn [andb].
    unfold _decide_access. cbn zeta. 
    replace (_normalize_user_id (Some w)) with w by (symmetry; apply normalize_user_idem).
    destruct (order_no_wellformed _); [|done]. rewrite Hp. cbn [negb andb table_db db_order find].
    rewrite Hn, Ht, !bool_decide_eq_true_2 by done. cbn [andb].
    by rewrite bool_decide_eq_false_2.
Qed.

Lemma scope_filters_without_user_witness :
  make_order_scope_filters (u "20251114001") (u "demo") None (demo_order 1 "demo" "20251114001" "alice")
  = true.
Proof.
  apply (scope_filters_without_user (u "20251114001") (u "demo") (u "demo") (u "bob")
           (demo_order 1 "demo" "20251114001" "alice")); vm_compute; done.
Defined.
