(* ===== verification/UserMemory.v ===== *)
(** * Long-term memory ([app/memory.py])

    What is remembered of a signed-in user across conversations: a profile in a
    key-value store (Redis, shared by all workers), with the user table behind it. *)

From stdpp Require Import base list gmap strings.
From S2P Require Import Prelude PyText Errors Redis Json Window State Archive Slots OrderAccess.

Open Scope py_scope.

Definition PROFILE_KEY : pystr := u "profile".
Definition MAX_RECENT : nat := 5.
Definition MEMORY_KEY_PREFIX : pystr := u "cs:memory:".

Abbreviation namespace := (list pystr).

Definition memory_namespace (tenant_id user_id : pystr) : namespace :=
  [u "tenants"; tenant_id; u "users"; user_id].

(** ** Profiles *)

Record UserMemory := {
  um_last_intent : option pystr;
  um_last_order_no : option pystr;
  um_last_course_query : option pystr;
  um_last_course_name : option pystr;
  um_handoff_pending : bool;
  um_recent_order_nos : list pystr;
  um_recent_course_names : list pystr;
  um_updated_at : option pystr;
}.

Definition no_memory : UserMemory :=
  {| um_last_intent := None; um_last_order_no := None; um_last_course_query := None;
     um_last_course_name := None; um_handoff_pending := false; um_recent_order_nos := [];
     um_recent_course_names := []; um_updated_at := None |}.

Definition to_value (m : UserMemory) : list (pystr * json) :=
  [(u "last_intent", jopt (um_last_intent m)); (u "last_order_no", jopt (um_last_order_no m));
   (u "last_course_query", jopt (um_last_course_query m));
   (u "last_course_name", jopt (um_last_course_name m));
   (u "handoff_pending", JBool (um_handoff_pending m));
   (u "recent_order_nos", JList (map JStr (take MAX_RECENT (um_recent_order_nos m))));
   (u "recent_course_names", JList (map JStr (take MAX_RECENT (um_recent_course_names m))));
   (u "updated_at", jopt (um_updated_at m))].

(** [list(data.get(k) or [])], for a list of strings. *)
Definition get_strs (k : pystr) (d : dict) : list pystr :=
  match get k d with JList l => map as_text l | _ => [] end.

Definition from_value (value : option (list (pystr * json))) : UserMemory :=
  let data := mkdict (default [] value) in
  {| um_last_intent := get_ostr (u "last_intent") data;
     um_last_order_no := get_ostr (u "last_order_no") data;
     um_last_course_query := get_ostr (u "last_course_query") data;
     um_last_course_name := get_ostr (u "last_course_name") data;
     um_handoff_pending := get_bool (u "handoff_pending") data;
     um_recent_order_nos := get_strs (u "recent_order_nos") data;
     um_recent_course_names := get_strs (u "recent_course_names") data;
     um_updated_at := get_raw_ostr (u "updated_at") data |}.

Definition overlay_user_memory (slots : SessionSlots) (memory : UserMemory) : SessionSlots :=
  {| last_intent := ostr_or (last_intent slots) (um_last_intent memory);
     last_order_no := ostr_or (last_order_no slots) (um_last_order_no memory);
     last_course_query := ostr_or (last_course_query slots) (um_last_course_query memory);
     last_course_name := ostr_or (last_course_name slots) (um_last_course_name memory);
     handoff_pending := handoff_pending slots || um_handoff_pending memory |}.

Definition _prepend_unique (items : list pystr) (value : option pystr) : list pystr :=
  match value with
  | Some v =>
    if truthy v then take MAX_RECENT (v :: filter (fun item => item <> v) items)
    else take MAX_RECENT items
  | None => take MAX_RECENT items
  end.

(** ** The store *)

(** [BaseStore], on profiles: [us_get] and [us_put] at a time. *)
Class UserStore (S : Type) := {
  us_get : Z -> namespace -> pystr -> S -> res exn (option (list (pystr * json))) * S;
  us_put : Z -> namespace -> pystr -> list (pystr * json) -> option Z -> S -> res exn unit * S;
  supports_ttl : bool;
  (** An entry put at the first time with these minutes has not expired at the second. *)
  us_alive : Z -> option Z -> Z -> Prop;
}.

(** Tenants are normalised, users stripped. *)
Definition clean_owner (tenant user : pystr) : Prop :=
  colon ∉ tenant /\ 47%N ∉ tenant /\ strip tenant = tenant /\ truthy tenant = true /\
  strip user = user /\ truthy user = true.

#[export] Instance clean_owner_dec tenant user : Decision (clean_owner tenant user).
Proof. unfold clean_owner. apply _. Defined.

Class UserStoreLaws (S : Type) `{UserStore S} : Prop := {
  us_get_put now t tenant user v minutes s s' :
    clean_owner tenant user -> (now <= t)%Z -> us_alive now minutes t ->
    us_put now (memory_namespace tenant user) PROFILE_KEY v minutes s = (Ok tt, s') ->
    (us_get t (memory_namespace tenant user) PROFILE_KEY s').1 = Ok (Some v);
  us_put_other now t tenant user v minutes s s' r tenant' user' :
    clean_owner tenant user -> clean_owner tenant' user' -> (tenant, user) <> (tenant', user') ->
    (now <= t)%Z ->
    us_put now (memory_namespace tenant user) PROFILE_KEY v minutes s = (r, s') ->
    (us_get t (memory_namespace tenant' user') PROFILE_KEY s').1 =
    (us_get t (memory_namespace tenant' user') PROFILE_KEY s).1;
  us_get_other now t tenant user s s' r tenant' user' :
    clean_owner tenant user -> clean_owner tenant' user' -> (tenant, user) <> (tenant', user') ->
    (now <= t)%Z ->
    us_get now (memory_namespace tenant user) PROFILE_KEY s = (r, s') ->
    (us_get t (memory_namespace tenant' user') PROFILE_KEY s').1 =
    (us_get t (memory_namespace tenant' user') PROFILE_KEY s).1;
  us_put_raises now ns v minutes s s' e :
    us_put now ns PROFILE_KEY v minutes s = (Raise e, s') -> is_Exception e = true;
}.

(** *** [RedisUserStore] *)

Module RedisUserStore.
Section store.
Context {T R : Type} `{JsonText T} `{RedisKV R T}.
(** [self._ttl_minutes], [op.refresh_ttl], and the time as ISO text. *)
Context (ttl_minutes : Z) (refresh_ttl : bool) (now_iso : pystr).

Definition braces (s : pystr) : pystr := u "{" ++ s ++ u "}".

Definition _hash_tag_for_namespace (ns : namespace) : pystr :=
  let fallback :=
    match reverse ns with
    | last :: prev :: _ => braces (prev ++ [colon] ++ last)
    | [only] => braces only
    | [] => u "{default}"
    end in
  match ns with
  | n0 :: n1 :: n2 :: n3 :: _ =>
    if bool_decide (n0 = u "tenants") && bool_decide (n2 = u "users") then
      let tenant := str_or (strip n1) (u "unknown") in
      let user := str_or (strip n3) (u "unknown") in
      braces (tenant ++ [colon] ++ user)
    else fallback
  | _ => fallback
  end.

Definition _key (ns : namespace) (key : pystr) : pystr :=
  let parts := join (u "/") (map (replace_char 47 95) ns) in
  let tag := _hash_tag_for_namespace ns in
  MEMORY_KEY_PREFIX ++ tag ++ parts ++ [colon] ++ key.

Definition _ttl_seconds (op_ttl : option Z) : Z :=
  let minutes := default (Z.max 0 ttl_minutes) op_ttl in
  if (minutes <=? 0)%Z then 0%Z else Z.max 1 (minutes * 60).

Definition bad_format : exn := OtherExc (u "TypeError") (u "长期记忆格式无效").

Definition _get (now : Z) (ns : namespace) (key : pystr) (r : R)
    : res exn (option (list (pystr * json))) * R :=
  let redis_key := _key ns key in
  match kv now redis_key r with
  | None => (Ok None, r)
  | Some raw =>
    if negb (text_truthy raw) then (Ok None, r)
    else
      match loads raw with
      | Raise e => (Raise e, r)
      | Ok (JObj payload) =>
        match find (fun kv => bool_decide (kv.1 = u "value")) payload with
        | None => (Raise bad_format, r)
        | Some (_, value) =>
          let ttl_seconds := _ttl_seconds None in
          let r := if refresh_ttl && (0 <? ttl_seconds)%Z then expire now redis_key ttl_seconds r else r in
          (match value with
           | JObj v => Ok (Some v)
           | JNull => Ok (Some [])
           | _ => Raise (OtherExc (u "AttributeError") [])
           end, r)
        end
      | Ok _ => (Raise bad_format, r)
      end
  end.

(** [old.get("created_at") or now], when the old text can be read. *)
Definition created_at (existing : option T) : json :=
  match existing with
  | Some raw =>
    if text_truthy raw then
      match loads raw with
      | Ok (JObj old) =>
        let c := entry_get (u "created_at") old in if jtruthy c then c else JStr now_iso
      | _ => JStr now_iso
      end
    else JStr now_iso
  | None => JStr now_iso
  end.

Definition _put (now : Z) (ns : namespace) (key : pystr) (value : option (list (pystr * json)))
    (ttl : option Z) (r : R) : R :=
  let redis_key := _key ns key in
  match value with
  | None => del redis_key r
  | Some value =>
    let created := created_at (kv now redis_key r) in
    let payload := dumps (JObj [(u "value", JObj value); (u "created_at", created);
                                (u "updated_at", JStr now_iso)]) in
    let ttl_seconds := _ttl_seconds ttl in
    if (0 <? ttl_seconds)%Z then set_ex now redis_key payload (Some ttl_seconds) r
    else set_ex now redis_key payload None r
  end.

#[global] Instance redis_user_store : UserStore R := {
  us_get := _get;
  us_put now ns key value ttl r := (Ok tt, _put now ns key (Some value) ttl r);
  supports_ttl := true;
  us_alive now minutes t := (0 < _ttl_seconds minutes)%Z -> (t < now + _ttl_seconds minutes)%Z;
}.

Lemma owner_key tenant user : clean_owner tenant user ->
  _key (memory_namespace tenant user) PROFILE_KEY =
  MEMORY_KEY_PREFIX ++ u "{" ++ tenant ++ colon :: user ++
    u "}" ++ join (u "/") [replace_char 47 95 (u "tenants"); replace_char 47 95 tenant;
                           replace_char 47 95 (u "users"); replace_char 47 95 user] ++
    [colon] ++ PROFILE_KEY.
Proof using.
  intros (_ & _ & Ht & Ht' & Hu & Hu'). unfold _key, memory_namespace, _hash_tag_for_namespace.
  rewrite !bool_decide_eq_true_2 by done. cbn [andb]. unfold str_or, braces.
  rewrite Ht, Hu, Ht', Hu'. rewrite <-!app_assoc. reflexivity.
Qed.

(** Different users, different keys. *)
Lemma owner_key_inj tenant user tenant' user' :
  clean_owner tenant user -> clean_owner tenant' user' ->
  _key (memory_namespace tenant user) PROFILE_KEY = _key (memory_namespace tenant' user') PROFILE_KEY ->
  (tenant, user) = (tenant', user').
Proof using.
  intros Hc Hc' Hk. rewrite !owner_key in Hk by done.
  apply app_inv_head in Hk. apply app_inv_head in Hk.
  apply app_sep_inj in Hk as [-> Hk]; [|by destruct Hc|by destruct Hc'].
  f_equal. assert (Hlen : length user = length user').
  { apply (f_equal length) in Hk. cbn [join] in Hk. rewrite !length_app, !length_replace_char in Hk. lia. }
  by apply app_inj_1 in Hk as [? _].
Qed.

Lemma owner_key_ne tenant user tenant' user' :
  clean_owner tenant user -> clean_owner tenant' user' -> (tenant, user) <> (tenant', user') ->
  _key (memory_namespace tenant' user') PROFILE_KEY <> _key (memory_namespace tenant user) PROFILE_KEY.
Proof using. intros Hc Hc' Hne Hk. apply Hne. symmetry. by apply owner_key_inj. Qed.

(** What a read returns depends on its own key only. *)
Lemma get_ext t ns r r' : kv t (_key ns PROFILE_KEY) r = kv t (_key ns PROFILE_KEY) r' ->
  (_get t ns PROFILE_KEY r).1 = (_get t ns PROFILE_KEY r').1.
Proof using. intros Hk. unfold _get. rewrite Hk. repeat (case_match; try done). Qed.

#[global] Instance redis_user_store_laws `{!JsonTextLaws T, !RedisKVLaws R T} : UserStoreLaws R.
Proof using All.
  split; cbn [us_get us_put us_alive redis_user_store].
  - intros now t tenant user v minutes s s' Hc Hle Hal Hput.
    assert (s' = _put now (memory_namespace tenant user) PROFILE_KEY (Some v) minutes s) as -> by congruence.
    set (k := _key (memory_namespace tenant user) PROFILE_KEY). unfold _get. cbn zeta. fold k.
    assert (Hkv : exists c, kv t k (_put now (memory_namespace tenant user) PROFILE_KEY (Some v) minutes s) =
      Some (dumps (JObj [(u "value", JObj v); (u "created_at", c); (u "updated_at", JStr now_iso)]))).
    { unfold _put. cbn zeta. fold k. eexists.
      destruct (Z.ltb_spec 0 (_ttl_seconds minutes)) as [Hp|Hp];
        rewrite kv_set_ex, decide_True by done; cbn [fmap option_fmap option_map unexpired]; [|reflexivity].
      destruct (Z.ltb_spec t (now + _ttl_seconds minutes)); [reflexivity|]. specialize (Hal Hp). lia. }
    destruct Hkv as [c ->]. rewrite dumps_truthy, loads_dumps. cbn [negb find fst]. lit_eq. reflexivity.
  - intros now t tenant user v minutes s s' r tenant' user' Hc Hc' Hne Hle Hput.
    apply (f_equal snd) in Hput. cbn [snd] in Hput. subst s'. apply get_ext.
    unfold _put. destruct (0 <? _ttl_seconds minutes)%Z; rewrite kv_set_ex by done;
      by rewrite decide_False by by apply owner_key_ne.
  - intros now t tenant user s s' r tenant' user' Hc Hc' Hne Hle Hget.
    apply (f_equal snd) in Hget. cbn [snd] in Hget. subst s'. apply get_ext.
    unfold _get. repeat (case_match; try done). all: cbn [snd]; rewrite kv_expire by done;
      by rewrite decide_False by by apply owner_key_ne.
  - done.
Qed.
End store.
End RedisUserStore.

(** ** Reading and writing *)

(** The store and the user table. *)
Record memory_world (T S : Type) := {
  mw_store : S;
  mw_profiles : gmap (pystr * pystr) T;
}.
Arguments mw_store {T S}.
Arguments mw_profiles {T S}.
Arguments Build_memory_world {T S}.

Record memory_settings := {
  user_memory_enabled : bool;
  user_memory_ttl_minutes : Z;
}.

(** What a call depends on besides its arguments: the time, whether the database answers,
    and the time as ISO text. *)
Record memory_env := {
  me_now : Z;
  me_db_up : bool;
  me_now_iso : pystr;
}.

Section memory.
Context {T S : Type} `{JsonText T} `{UserStore S}.
Context (settings : memory_settings) (env : memory_env).
Abbreviation mem := (ST (memory_world T S) exn).

Definition store_get (ns : namespace) (key : pystr) : mem (option (list (pystr * json))) := fun w =>
  let (r, s) := us_get (me_now env) ns key (mw_store w) in
  (r, Build_memory_world s (mw_profiles w)).

(** [store.put(ns, key, value, **kwargs)]. *)
Definition store_put (ns : namespace) (key : pystr) (value : list (pystr * json)) : mem unit := fun w =>
  let ttl := if supports_ttl && (0 <? user_memory_ttl_minutes settings)%Z
             then Some (user_memory_ttl_minutes settings) else None in
  let (r, s) := us_put (me_now env) ns key value ttl (mw_store w) in
  (r, Build_memory_world s (mw_profiles w)).

Definition load_user_memory (tenant_id user_id : pystr) : mem UserMemory :=
  if negb (is_persistent_user (Some user_id)) then st_ret no_memory
  else
    let ns := memory_namespace tenant_id user_id in
    let! item := store_get ns PROFILE_KEY in
    match item with
    | Some value => st_ret (from_value (Some value))
    | None =>
      let! w := st_get in
      match load_user_profile (me_db_up env) tenant_id user_id (mw_profiles w) with
      | None | Some [] => st_ret no_memory
      | Some archived =>
        let memory := from_value (Some archived) in
        do! st_except (store_put ns PROFILE_KEY (to_value memory))
              (fun e => if is_Exception e then Some (st_ret tt) else None) in
        st_ret memory
      end
    end.

(** The profile with this turn's facts. *)
Definition merge_facts (current : UserMemory) (intent order_no course_query course_name : option pystr)
    (handoff_pending : option bool) : UserMemory :=
  let name := strip (opt_str course_name) in
  let name := if bool_decide (name ∈ MISSING_COURSE_NAMES) then [] else name in
  {| um_last_intent := ostr_or intent (um_last_intent current);
     um_last_order_no := ostr_or order_no (um_last_order_no current);
     um_last_course_query := ostr_or course_query (um_last_course_query current);
     um_last_course_name := if truthy name then Some name else um_last_course_name current;
     um_handoff_pending := default (um_handoff_pending current) handoff_pending;
     um_recent_order_nos :=
       if otruthy order_no then _prepend_unique (um_recent_order_nos current) order_no
       else um_recent_order_nos current;
     um_recent_course_names :=
       if truthy name then _prepend_unique (um_recent_course_names current) (Some name)
       else um_recent_course_names current;
     um_updated_at := Some (me_now_iso env) |}.

Definition save_user_memory (tenant_id user_id : pystr) (intent order_no course_query course_name : option pystr)
    (handoff_pending : option bool) : mem (option UserMemory) :=
  if negb (is_persistent_user (Some user_id)) then st_ret None
  else if negb (user_memory_enabled settings) then st_ret None
  else
    let! current := load_user_memory tenant_id user_id in
    let current := merge_facts current intent order_no course_query course_name handoff_pending in
    let value := to_value current in
    do! store_put (memory_namespace tenant_id user_id) PROFILE_KEY value in
    do! st_modify (fun w => Build_memory_world (mw_store w)
          (upsert_user_profile (me_db_up env) tenant_id user_id value (mw_profiles w))) in
    st_ret (Some current).

(** [persist_from_state]: the order table and the request's identity are
    [can_access_order]'s. *)
Definition persist_from_state (db : OrderDB) (current_tenant current_user : pystr) (state : dict)
    : mem (option UserMemory) :=
  let ident := identity_from_state (u "demo") state in
  let route := route_from_state state in
  let memory := memory_from_state state in
  let order_no := ostr_or (rv_order_no route) (mv_last_order_no memory) in
  let order_no :=
    if otruthy order_no && is_persistent_user (Some (iv_user_id ident))
       && negb (can_access_order db current_tenant current_user (opt_str order_no) (iv_tenant_id ident)
                  (Some (iv_user_id ident)) DIRECT_QUERY)
    then None else order_no in
  save_user_memory (iv_tenant_id ident) (iv_user_id ident) (str_or_none (rv_intent route)) order_no
    (ostr_or (rv_course_query route) (mv_last_course_query memory)) (mv_last_course_name memory)
    (if bool_decide (rv_intent route = u "handoff") then Some (mv_handoff_pending memory) else None).
End memory.

(** ** Properties *)

(** Every profile the program has written: texts are non-empty or missing, the lists
    hold at most five entries and none twice, and lead with the remembered value. *)
Record profile_ok (m : UserMemory) : Prop := {
  po_intent : um_last_intent m ≫= str_or_none = um_last_intent m;
  po_order : um_last_order_no m ≫= str_or_none = um_last_order_no m;
  po_query : um_last_course_query m ≫= str_or_none = um_last_course_query m;
  po_course : um_last_course_name m ≫= str_or_none = um_last_course_name m;
  po_orders : length (um_recent_order_nos m) <= MAX_RECENT /\ NoDup (um_recent_order_nos m) /\
              head (um_recent_order_nos m) = um_last_order_no m;
  po_courses : length (um_recent_course_names m) <= MAX_RECENT /\ NoDup (um_recent_course_names m) /\
               head (um_recent_course_names m) = um_last_course_name m;
}.

Lemma as_text_strs (l : list pystr) : map as_text (map JStr l) = l.
Proof. induction l as [|x l IH]; cbn; [done|by rewrite IH]. Qed.

(** A written profile is read back. *)
Lemma profile_roundtrip m : profile_ok m -> from_value (Some (to_value m)) = m.
Proof.
  intros [Hi Ho Hq Hc [Hol _] [Hcl _]]. unfold from_value. cbn [default from_option id].
  assert (Hs : forall k o, mkdict (to_value m) !! k = Some (jopt o) -> o ≫= str_or_none = o ->
            get_ostr k (mkdict (to_value m)) = o).
  { intros k o Hk Hn. rewrite <-Hn. apply get_ostr_jopt. by rewrite Hn. }
  destruct m as [i o q c h ors crs up]. cbn [um_last_intent um_last_order_no um_last_course_query
    um_last_course_name um_handoff_pending um_recent_order_nos um_recent_course_names um_updated_at] in *.
  f_equal.
  1-4: apply Hs; [unfold to_value; read_display; done|done].
  - unfold get_strs, get, to_value. read_display. cbn [default from_option id um_recent_order_nos].
    by rewrite as_text_strs, take_ge.
  - unfold get_strs, get, to_value. read_display. cbn [default from_option id um_recent_course_names].
    by rewrite as_text_strs, take_ge.
  - unfold get_raw_ostr, get, to_value. read_display. by destruct up.
Qed.

(** The reference for [_prepend_unique]: the entries mentioned, each once, newest first. *)
Fixpoint distinct (l : list pystr) : list pystr :=
  match l with
  | [] => []
  | x :: l => x :: filter (fun y => y <> x) (distinct l)
  end.

Lemma distinct_NoDup l : NoDup (distinct l).
Proof.
  induction l as [|x l IH]; cbn; constructor; [|by apply NoDup_filter].
  by intros [? _]%list_elem_of_filter.
Qed.

Lemma elem_of_distinct x l : x ∈ distinct l <-> x ∈ l.
Proof.
  induction l as [|y l IH]; cbn; [done|]. rewrite !elem_of_cons, list_elem_of_filter, IH.
  destruct (decide (x = y)); naive_solver.
Qed.

Lemma filter_ne_absent (x : pystr) (l : list pystr) : x ∉ l -> filter (fun y => y <> x) l = l.
Proof.
  induction l as [|y l IH]; [done|]. rewrite not_elem_of_cons. intros [Hy Hl].
  by rewrite filter_cons_True, IH.
Qed.

(** Dropping a value and cutting, in either order, when one more is kept. *)
Lemma take_filter_ne (x : pystr) n (l : list pystr) : NoDup l ->
  take n (filter (fun y => y <> x) (take (S n) l)) = take n (filter (fun y => y <> x) l).
Proof.
  revert n. induction l as [|y l IH]; intros n Hl; [done|]. apply NoDup_cons in Hl as [Hy Hl].
  cbn [take]. rewrite !filter_cons. destruct (decide (y <> x)) as [Hyx|Hyx].
  - destruct n as [|n]; [done|]. cbn [take]. f_equal. by apply IH.
  - assert (y = x) as -> by (destruct (decide (y = x)); [done|by destruct Hyx]).
    rewrite (filter_ne_absent x l Hy), filter_ne_absent.
    + by rewrite take_take, Nat.min_id.
    + intros Hin. apply Hy. rewrite <-(take_drop n l), elem_of_app. by left.
Qed.

Lemma prepend_unique_distinct x l : truthy x = true ->
  _prepend_unique (take MAX_RECENT (distinct l)) (Some x) = take MAX_RECENT (distinct (x :: l)).
Proof.
  intros Hx. unfold _prepend_unique, MAX_RECENT. rewrite Hx. cbn [distinct].
  change 5 with (S 4). cbn [take]. f_equal. apply take_filter_ne, distinct_NoDup.
Qed.

(** One turn's facts, as [save_user_memory] takes them. *)
Record facts := {
  fa_intent : option pystr;
  fa_order_no : option pystr;
  fa_course_query : option pystr;
  fa_course_name : option pystr;
  fa_handoff : option bool;
}.

Definition merge (env : memory_env) (m : UserMemory) (f : facts) : UserMemory :=
  merge_facts env m (fa_intent f) (fa_order_no f) (fa_course_query f) (fa_course_name f) (fa_handoff f).

(** The profile after some turns, written and read back after each. *)
Definition profile_after (turns : list (memory_env * facts)) : UserMemory :=
  foldl (fun m ef => from_value (Some (to_value (merge ef.1 m ef.2)))) no_memory turns.

(** The order numbers and course names the turns mention, newest first. *)
Definition mentioned_orders (turns : list (memory_env * facts)) : list pystr :=
  omap (fun ef => fa_order_no ef.2 ≫= str_or_none) (reverse turns).
Definition usable_name (name : option pystr) : option pystr :=
  let name := strip (opt_str name) in
  if bool_decide (name ∈ MISSING_COURSE_NAMES) then None else str_or_none name.
Definition mentioned_courses (turns : list (memory_env * facts)) : list pystr :=
  omap (fun ef => usable_name (fa_course_name ef.2)) (reverse turns).

Lemma ostr_or_norm a b : b ≫= str_or_none = b -> ostr_or a b ≫= str_or_none = ostr_or a b.
Proof.
  unfold ostr_or. destruct a as [s|]; cbn [otruthy]; [|done].
  destruct (truthy s) eqn:E; [|done]. intros _. cbn. unfold str_or_none. by rewrite E.
Qed.

Lemma prepend_ok x l : truthy x = true -> NoDup l ->
  length (_prepend_unique l (Some x)) <= MAX_RECENT /\ NoDup (_prepend_unique l (Some x)) /\
  head (_prepend_unique l (Some x)) = Some x.
Proof.
  intros Hx Hl. unfold _prepend_unique. rewrite Hx. split; [rewrite length_take; lia|]. split; [|done].
  apply (sublist_NoDup _ (x :: filter (fun item => item <> x) l)); [|apply sublist_take].
  constructor; [by intros [? _]%list_elem_of_filter|by apply NoDup_filter].
Qed.

Lemma otruthy_some o : otruthy o = true -> exists s, o = Some s /\ truthy s = true.
Proof. destruct o; [eauto|done]. Qed.

Lemma otruthy_norm o : o ≫= str_or_none = if otruthy o then o else None.
Proof. destruct o as [s|]; [|done]. cbn. unfold str_or_none. by destruct (truthy s). Qed.

(** The course name a turn's facts carry. *)
Lemma merge_course env m f :
  um_last_course_name (merge env m f) = ostr_or (usable_name (fa_course_name f)) (um_last_course_name m) /\
  um_recent_course_names (merge env m f) =
    match usable_name (fa_course_name f) with
    | Some name => _prepend_unique (um_recent_course_names m) (Some name)
    | None => um_recent_course_names m
    end /\ usable_name (fa_course_name f) ≫= str_or_none = usable_name (fa_course_name f).
Proof.
  unfold merge, merge_facts, usable_name. cbn [um_last_course_name um_recent_course_names].
  unfold ostr_or, str_or_none. set (name := strip _). case_bool_decide; [done|].
  destruct (truthy name) eqn:E; [|done]. cbn [otruthy]. rewrite E.
  split; [done|]. split; [done|]. exact (f_equal (fun b : bool => if b then Some name else None) E).
Qed.

Lemma recent_ok (o : option pystr) (last : option pystr) (l : list pystr) :
  length l <= MAX_RECENT /\ NoDup l /\ head l = last ->
  let l' := if otruthy o then _prepend_unique l o else l in
  length l' <= MAX_RECENT /\ NoDup l' /\ head l' = ostr_or o last.
Proof.
  intros (? & ? & ?). cbn zeta. unfold ostr_or. destruct (otruthy o) eqn:E; [|done].
  apply otruthy_some in E as (s & -> & ?). by apply prepend_ok.
Qed.

Lemma merge_ok env m f : profile_ok m -> profile_ok (merge env m f).
Proof.
  intros [Hi Ho Hq Hc Hrec Hcrs]. destruct (merge_course env m f) as (Hn & Hl & Hu). split.
  1-3: by apply ostr_or_norm.
  - rewrite Hn. by apply ostr_or_norm.
  - by apply (recent_ok (fa_order_no f)).
  - rewrite Hn, Hl. pose proof (recent_ok (usable_name (fa_course_name f)) _ _ Hcrs) as Hr. cbn zeta in Hr.
    rewrite otruthy_norm in Hu. destruct (usable_name (fa_course_name f)) as [x|]; [|done].
    by destruct (otruthy (Some x)).
Qed.

Lemma no_memory_ok : profile_ok no_memory.
Proof.
  split; try reflexivity; (split; [unfold MAX_RECENT; cbn; lia|]); (split; [constructor|reflexivity]).
Qed.

Lemma profile_after_snoc turns env f :
  profile_ok (profile_after turns) ->
  profile_after (turns ++ [(env, f)]) = merge env (profile_after turns) f.
Proof.
  intros Hok. unfold profile_after. rewrite foldl_app. cbn [foldl fst snd].
  by apply profile_roundtrip, merge_ok.
Qed.

(** What remembering comes to: after any turns, each written and read back, the profile
    is well formed; its recent orders are the five most recently mentioned order
    numbers, each once, newest first, and likewise its courses; the last order and
    course are the newest of them. *)
Theorem profile_history (turns : list (memory_env * facts)) :
  let m := profile_after turns in
  profile_ok m /\
  um_recent_order_nos m = take MAX_RECENT (distinct (mentioned_orders turns)) /\
  um_recent_course_names m = take MAX_RECENT (distinct (mentioned_courses turns)) /\
  um_last_order_no m = head (mentioned_orders turns) /\
  um_last_course_name m = head (mentioned_courses turns).
Proof.
  cbn zeta. induction turns as [|[env f] turns (Hok & Ho & Hc & Hlo & Hlc)] using rev_ind.
  { split; [apply no_memory_ok|done]. }
  rewrite (profile_after_snoc _ _ _ Hok). split; [by apply merge_ok|].
  unfold mentioned_orders, mentioned_courses in *. rewrite !reverse_app. cbn [reverse rev_append app].
  change (reverse [(env, f)]) with [(env, f)]. cbn [app omap list_omap snd].
  destruct (merge_course env (profile_after turns) f) as (Hn & Hl & Hu).
  rewrite Hn, Hl. rewrite otruthy_norm in Hu |- *. unfold merge, merge_facts at 1 2.
  cbn [um_recent_order_nos um_last_order_no]. unfold ostr_or.
  assert (Hcs : forall o, otruthy o = true ->
    exists x, o = Some x /\ forall l, _prepend_unique (take MAX_RECENT (distinct l)) (Some x) =
       take MAX_RECENT (distinct (x :: l))).
  { intros o (x & -> & Hx)%otruthy_some. eauto using prepend_unique_distinct. }
  split; [|split; [|split]].
  - destruct (otruthy (fa_order_no f)) eqn:E; [|done]. apply Hcs in E as (x & -> & E). by rewrite Ho, E.
  - destruct (usable_name (fa_course_name f)) as [x|]; [|done].
    destruct (otruthy (Some x)) eqn:E; [|done]. apply Hcs in E as (? & [= <-] & E). by rewrite Hc, E.
  - destruct (otruthy (fa_order_no f)) eqn:E; [|done]. by apply Hcs in E as (x & -> & _).
  - destruct (usable_name (fa_course_name f)) as [x|]; [|done].
    destruct (otruthy (Some x)) eqn:E; [|done]. done.
Qed.

Section world.
Context {T S : Type} `{JsonText T} `{UserStore S}.
Context (settings : memory_settings).
Abbreviation world := (memory_world T S).

Lemma load_persistent env tenant user (w : world) : is_persistent_user (Some user) = false ->
  load_user_memory settings env tenant user w = (Ok no_memory, w).
Proof using. intros Hu. unfold load_user_memory. by rewrite Hu. Qed.

Lemma get_run env ns (w : world) :
  store_get env ns PROFILE_KEY w =
  ((us_get (me_now env) ns PROFILE_KEY (mw_store w)).1,
   Build_memory_world (us_get (me_now env) ns PROFILE_KEY (mw_store w)).2 (mw_profiles w)).
Proof using. unfold store_get. by destruct (us_get _ _ _ _). Qed.

Definition put_ttl : option Z :=
  if supports_ttl && (0 <? user_memory_ttl_minutes settings)%Z
  then Some (user_memory_ttl_minutes settings) else None.

Lemma put_run env ns v (w : world) :
  store_put settings env ns PROFILE_KEY v w =
  ((us_put (me_now env) ns PROFILE_KEY v put_ttl (mw_store w)).1,
   Build_memory_world (us_put (me_now env) ns PROFILE_KEY v put_ttl (mw_store w)).2 (mw_profiles w)).
Proof using. unfold store_put. fold put_ttl. by destruct (us_put _ _ _ _ _ _). Qed.

(** A save is a load, a merge, a put and an upsert. *)
Lemma save_run env tenant user f (w : world) r (w' : world) :
  save_user_memory settings env tenant user (fa_intent f) (fa_order_no f) (fa_course_query f)
    (fa_course_name f) (fa_handoff f) w = (r, w') ->
  if is_persistent_user (Some user) && user_memory_enabled settings then
    match r with
    | Ok None => False
    | Ok (Some m) =>
      exists current w1 s,
        load_user_memory settings env tenant user w = (Ok current, w1) /\
        m = merge env current f /\
        us_put (me_now env) (memory_namespace tenant user) PROFILE_KEY (to_value m) put_ttl
          (mw_store w1) = (Ok tt, s) /\
        w' = Build_memory_world s (upsert_user_profile (me_db_up env) tenant user (to_value m) (mw_profiles w1))
    | Raise _ => True
    end
  else r = Ok None /\ w' = w.
Proof using.
  unfold save_user_memory. destruct (is_persistent_user (Some user)); [|by intros [= <- <-]].
  destruct (user_memory_enabled settings); [|by intros [= <- <-]]. cbn [negb andb].
  intros [(current & w1 & Hl & Hs)|(e & _ & ->)]%st_bind_inv; [|done].
  fold (merge env current f) in Hs.
  apply st_bind_inv in Hs as [([] & w2 & Hp & Hs)|(e & _ & ->)]; [|done].
  rewrite put_run in Hp.
  destruct (us_put _ _ _ _ _ _) as [r' s] eqn:Eu. cbn [fst snd] in Hp. injection Hp as -> <-.
  injection Hs as <- <-. by exists current, w1, s.
Qed.

(** A load leaves the table as it is. *)
Lemma load_profiles env tenant user (w : world) :
  mw_profiles (load_user_memory settings env tenant user w).2 = mw_profiles w.
Proof using.
  unfold load_user_memory. destruct (negb _); [done|]. unfold st_bind at 1. rewrite get_run.
  destruct (us_get _ _ _ _).1 as [[v|]|e]; [done| |done]. unfold st_bind at 1, st_get. cbn [mw_profiles].
  destruct (load_user_profile _ _ _ _) as [[|kv l]|]; [done| |done].
  unfold st_bind, st_except. rewrite put_run.
  destruct (us_put _ _ _ _ _ _).1 as [[]|e]; [done|]. by destruct (is_Exception e).
Qed.

Context `{!JsonTextLaws T, !UserStoreLaws S}.

(** What a load answers. *)
Lemma load_result env tenant user (w : world) : is_persistent_user (Some user) = true ->
  (load_user_memory settings env tenant user w).1 =
  match (us_get (me_now env) (memory_namespace tenant user) PROFILE_KEY (mw_store w)).1 with
  | Raise e => Raise e
  | Ok (Some v) => Ok (from_value (Some v))
  | Ok None => Ok (from_value (load_user_profile (me_db_up env) tenant user (mw_profiles w)))
  end.
Proof using All.
  intros Hu. unfold load_user_memory. rewrite Hu. cbn [negb]. unfold st_bind at 1. rewrite get_run.
  destruct (us_get _ _ _ _).1 as [[v|]|e]; [done| |done]. unfold st_bind at 1, st_get. cbn [mw_profiles].
  destruct (load_user_profile _ _ _ _) as [[|kv l]|]; [done| |done].
  unfold st_bind, st_except. rewrite put_run.
  destruct (us_put _ _ _ _ _ _) as [[[]|e] s] eqn:E; [done|]. apply us_put_raises in E. cbn [fst snd].
  by rewrite E.
Qed.

Lemma load_other_store env tenant user (w : world) tenant' user' t :
  clean_owner tenant user -> clean_owner tenant' user' -> (tenant, user) <> (tenant', user') ->
  (me_now env <= t)%Z ->
  (us_get t (memory_namespace tenant' user') PROFILE_KEY
     (mw_store (load_user_memory settings env tenant user w).2)).1 =
  (us_get t (memory_namespace tenant' user') PROFILE_KEY (mw_store w)).1.
Proof using All.
  intros Hc Hc' Hne Ht. unfold load_user_memory. destruct (negb _); [done|].
  unfold st_bind at 1. rewrite get_run.
  destruct (us_get (me_now env) (memory_namespace tenant user) PROFILE_KEY (mw_store w)) as [rg sg] eqn:Eg.
  assert (Hg : (us_get t (memory_namespace tenant' user') PROFILE_KEY sg).1 =
               (us_get t (memory_namespace tenant' user') PROFILE_KEY (mw_store w)).1)
    by (eapply us_get_other; [exact Hc|exact Hc'|exact Hne|exact Ht|exact Eg]).
  cbn [fst snd]. destruct rg as [[v|]|e]; [done| |done]. unfold st_bind at 1, st_get. cbn [mw_profiles].
  destruct (load_user_profile _ _ _ _) as [[|kv l]|]; [done| |done].
  unfold st_bind, st_except. rewrite put_run. cbn [mw_store].
  destruct (us_put _ _ _ _ _ _) as [rp sp] eqn:Ep.
  assert (Hp : (us_get t (memory_namespace tenant' user') PROFILE_KEY sp).1 =
               (us_get t (memory_namespace tenant' user') PROFILE_KEY sg).1)
    by (eapply us_put_other; [exact Hc|exact Hc'|exact Hne|exact Ht|exact Ep]).
  cbn [fst snd]. destruct rp as [[]|e]; [|destruct (is_Exception e)]; exact (eq_trans Hp Hg).
Qed.

(** Whose row is whose. *)
Lemma profile_row (up up' : bool) (tenant user tenant' user' : pystr) (v : list (pystr * json))
    (db : gmap (pystr * pystr) T) :
  clean_owner tenant user -> clean_owner tenant' user' ->
  load_user_profile up' tenant' user' (upsert_user_profile up tenant user v db) =
  if decide ((tenant', user') = (tenant, user)) then (if up' then if up then Some v else load_user_profile up' tenant' user' db else None)
  else load_user_profile up' tenant' user' db.
Proof using All.
  intros (_ & _ & Ht & Ht' & Hu & Hu') (_ & _ & Ht1 & Ht1' & Hu1 & Hu1').
  unfold load_user_profile, upsert_user_profile, profile_key, str_or.
  rewrite Ht, Ht', Hu, Hu', Ht1, Ht1', Hu1, Hu1'. cbn [negb].
  destruct up', up; cbn [negb]; try by case_decide.
  case_decide as Hd.
  - rewrite Hd, lookup_insert_eq. apply decode_dumps.
  - by rewrite lookup_insert_ne by congruence.
Qed.
End world.

(** What was saved is what is recalled, and by its owner only.  While the store keeps the
    entry, a later load reads the saved profile; once the store has lost it, a load reads
    it from the table, if the database answered both times.  The profile saved is the
    loaded one with the turn's facts, and no other user's recall changes. *)
Theorem memory_recalled {T S : Type} `{JsonTextLaws T} `{UserStoreLaws S} (settings : memory_settings)
    (env env' : memory_env) (tenant user tenant' user' : pystr) (f : facts) (w w' : memory_world T S)
    (m : UserMemory) :
  clean_owner tenant user -> clean_owner tenant' user' ->
  (me_now env <= me_now env')%Z ->
  (forall current, (load_user_memory settings env tenant user w).1 = Ok current -> profile_ok current) ->
  save_user_memory settings env tenant user (fa_intent f) (fa_order_no f) (fa_course_query f)
    (fa_course_name f) (fa_handoff f) w = (Ok (Some m), w') ->
  (exists current, (load_user_memory settings env tenant user w).1 = Ok current /\ m = merge env current f) /\
  (us_alive (me_now env) (put_ttl (S := S) settings) (me_now env') ->
     (load_user_memory settings env' tenant user w').1 = Ok m) /\
  (forall s, (us_get (me_now env') (memory_namespace tenant user) PROFILE_KEY s).1 = Ok None ->
     me_db_up env = true -> me_db_up env' = true ->
     (load_user_memory settings env' tenant user (Build_memory_world s (mw_profiles w'))).1 = Ok m) /\
  ((tenant', user') <> (tenant, user) ->
     (load_user_memory settings env' tenant' user' w').1 = (load_user_memory settings env' tenant' user' w).1).
Proof.
  intros Hc Hc' Hle Hok Hs. pose proof (save_run _ _ _ _ _ _ _ _ Hs) as Hr.
  destruct (is_persistent_user (Some user)) eqn:Eu; [|by destruct Hr].
  destruct (user_memory_enabled settings); [|by destruct Hr]. cbn [andb] in Hr.
  destruct Hr as (current & w1 & s1 & Hl & Hm & Hp & ->).
  assert (Hcur : (load_user_memory settings env tenant user w).1 = Ok current) by by rewrite Hl.
  assert (Hback : from_value (Some (to_value m)) = m).
  { apply profile_roundtrip. rewrite Hm. by apply merge_ok, Hok. }
  assert (Hw1 : mw_profiles w1 = mw_profiles w).
  { pose proof (load_profiles settings env tenant user w) as Hpr. by rewrite Hl in Hpr. }
  split; [by exists current|]. split; [|split].
  - intros Hal. rewrite load_result by done. cbn [mw_store].
    rewrite (us_get_put _ _ _ _ _ _ _ _ Hc Hle Hal Hp). by rewrite Hback.
  - intros s Hnone Hup Hup'. rewrite load_result by done. cbn [mw_store mw_profiles].
    rewrite Hnone, (profile_row (S := S) settings), decide_True, Hup, Hup' by done. by rewrite Hback.
  - intros Hne. destruct (is_persistent_user (Some user')) eqn:Eu'; [|by rewrite !load_persistent].
    rewrite !load_result by done. cbn [mw_store mw_profiles].
    rewrite (us_put_other _ _ _ _ _ _ _ _ _ _ _ Hc Hc' (not_eq_sym Hne) Hle Hp).
    rewrite (profile_row (S := S) settings), decide_False, Hw1 by done.
    pose proof (load_other_store settings env tenant user w tenant' user' (me_now env') Hc Hc'
                  (not_eq_sym Hne) Hle) as Ho.
    rewrite Hl in Ho. cbn [snd] in Ho. by rewrite Ho.
Qed.

Lemma strip_truthy_ident d s : truthy (strip d) = true -> strip d = d ->
  strip (str_or (strip s) d) = str_or (strip s) d /\ truthy (str_or (strip s) d) = true.
Proof.
  intros Hd Hd'. unfold str_or. destruct (truthy (strip s)) eqn:E; [by rewrite strip_idemp|].
  by rewrite <-Hd' at 3.
Qed.

(** An order the identity may read, as its row says. *)
Lemma can_access_owner db ct cu n tid user :
  truthy tid = true -> strip user = user -> truthy user = true -> is_persistent_user (Some user) = true ->
  can_access_order db ct cu n tid (Some user) DIRECT_QUERY = true ->
  exists o, db_order db (strip n) tid = Some o /\ order_user_id o = user.
Proof.
  intros Ht Hu Hu' Hp. unfold can_access_order.
  pose proof (authorize_correct db ct cu n DIRECT_QUERY (Some tid) (Some user) None) as Ha. cbn zeta in Ha.
  assert (Hid : _normalize_user_id (Some user) = user)
    by (unfold _normalize_user_id, str_or; by rewrite opt_str_Some, Hu, Hu').
  unfold ostr_or in Ha. cbn [otruthy] in Ha. rewrite Ht, Hu', Hid, opt_str_Some in Ha.
  destruct (authorize _ _ _ _ _ _ _ _) as [d audit]. cbn [fst]. intros Hd.
  assert (exists o, decision_order d = Some o) as [o Ho] by by destruct (Ha (demo_order 1 "" "" "")) as (_ & [Hs _] & _); apply Hs.
  exists o. destruct (Ha o) as ([Hm _] & _). destruct (Hm Ho) as [_ Hf Hown _ _]. split; [done|]. apply Hown.
  pose proof (is_anon_persistent (Some user)) as Hap. rewrite Hid, Hp in Hap. by destruct (is_anon user).
Qed.

(** An order number of the new profile is an old one, or the turn's. *)
Lemma merge_orders env m f n :
  Some n = um_last_order_no (merge env m f) \/ n ∈ um_recent_order_nos (merge env m f) ->
  (Some n = um_last_order_no m \/ n ∈ um_recent_order_nos m) \/ fa_order_no f = Some n /\ truthy n = true.
Proof.
  unfold merge, merge_facts, ostr_or. cbn [um_last_order_no um_recent_order_nos].
  destruct (otruthy (fa_order_no f)) eqn:E; [|by left].
  apply otruthy_some in E as (x & -> & Hx). intros [[= ->]|Hn]; [by right|].
  unfold _prepend_unique in Hn. rewrite Hx in Hn.
  apply elem_of_take in Hn as (i & Hi & _). apply list_elem_of_lookup_2 in Hi.
  apply elem_of_cons in Hi as [->|[_ Hi]%list_elem_of_filter]; [by right|left; by right].
Qed.

(** Remembering keeps to the rules.  For an anonymous user, or with long-term memory
    switched off, a turn leaves no trace; for a signed-in user the remembered profile
    gains no order number but one the tenant's table lists as this user's own. *)
Theorem persist_keeps_to_own_orders {T S : Type} `{JsonText T} `{UserStore S} (settings : memory_settings)
    (env : memory_env) (db : OrderDB) (ct cu : pystr) (state : dict) (w : memory_world T S) :
  let ident := identity_from_state (u "demo") state in
  match persist_from_state settings env db ct cu state w with
  | (Ok None, w') =>
      is_persistent_user (Some (iv_user_id ident)) && user_memory_enabled settings = false /\ w' = w
  | (Ok (Some m), _) =>
      is_persistent_user (Some (iv_user_id ident)) && user_memory_enabled settings = true /\
      exists current, (load_user_memory settings env (iv_tenant_id ident) (iv_user_id ident) w).1 = Ok current /\
        forall n, Some n = um_last_order_no m \/ n ∈ um_recent_order_nos m ->
          (Some n = um_last_order_no current \/ n ∈ um_recent_order_nos current) \/
          exists o, db_order db (strip n) (iv_tenant_id ident) = Some o /\ order_user_id o = iv_user_id ident
  | (Raise _, _) => is_persistent_user (Some (iv_user_id ident)) && user_memory_enabled settings = true
  end.
Proof.
  cbn zeta. unfold persist_from_state. set (ident := identity_from_state _ _).
  set (route := route_from_state state). set (mv := memory_from_state state).
  set (order_no := ostr_or (rv_order_no route) (mv_last_order_no mv)).
  set (allowed_no := if otruthy order_no && _ && _ then None else order_no).
  match goal with |- context [save_user_memory _ _ _ _ ?i ?o ?q ?c ?h w] =>
    set (f := {| fa_intent := i; fa_order_no := o; fa_course_query := q; fa_course_name := c; fa_handoff := h |})
  end.
  change (save_user_memory _ _ _ _ _ _ _ _ _ w) with
    (save_user_memory settings env (iv_tenant_id ident) (iv_user_id ident) (fa_intent f) (fa_order_no f)
       (fa_course_query f) (fa_course_name f) (fa_handoff f) w).
  destruct (save_user_memory _ _ _ _ _ _ _ _ _ w) as [r w'] eqn:Hs. apply save_run in Hs.
  destruct (is_persistent_user (Some (iv_user_id ident)) && user_memory_enabled settings) eqn:Eu;
    [|by destruct Hs as [-> ->]].
  destruct r as [[m|]|e]; [|done|done].
  destruct Hs as (current & w1 & s & Hl & -> & _). split; [done|]. exists current. split; [by rewrite Hl|].
  intros n [Hn|[Hx Htn]]%merge_orders; [by left|right]. change (allowed_no = Some n) in Hx.
  unfold allowed_no in Hx. apply andb_true_iff in Eu as [Hp _]. rewrite Hp, andb_true_r in Hx.
  destruct (otruthy order_no) eqn:Eo; [|cbn [andb] in Hx; by rewrite Hx in Eo; cbn in Eo; congruence].
  cbn [andb] in Hx. destruct (can_access_order _ _ _ _ _ _ _) eqn:Ec; cbn [negb] in Hx; [|done].
  rewrite Hx, opt_str_Some in Ec.
  pose proof (strip_truthy_ident (u "anonymous") (get_str (u "user_id") state) eq_refl eq_refl) as [? ?].
  pose proof (strip_truthy_ident (u "demo") (get_str (u "tenant_id") state) eq_refl eq_refl) as [? ?].
  by eapply can_access_owner.
Qed.

(** ** Examples *)

Module Demo.
Abbreviation server := (Server.kvstate json).
#[export] Instance store : UserStore server := RedisUserStore.redis_user_store 60 true (u "2025-11-14").
#[export] Instance store_laws : UserStoreLaws server :=
  RedisUserStore.redis_user_store_laws 60 true (u "2025-11-14").
Definition settings : memory_settings := {| user_memory_enabled := true; user_memory_ttl_minutes := 60 |}.
Definition env (now : Z) : memory_env :=
  {| me_now := now; me_db_up := true; me_now_iso := u "2025-11-14" |}.
Definition turn : facts :=
  {| fa_intent := Some (u "order"); fa_order_no := Some (u "20251114001"); fa_course_query := None;
     fa_course_name := None; fa_handoff := None |}.
Definition world : memory_world json server := Build_memory_world ∅ ∅.
Definition saved : UserMemory := merge (env 0) no_memory turn.
End Demo.

Import Demo.

Lemma demo_alice : clean_owner (u "demo") (u "alice").
Proof. apply (bool_decide_eq_true_1 _). vm_compute. reflexivity. Qed.
Lemma demo_bob : clean_owner (u "demo") (u "bob").
Proof. apply (bool_decide_eq_true_1 _). vm_compute. reflexivity. Qed.

(** Alice's order is recalled an hour later from the table, and not for Bob. *)
Lemma memory_recalled_witness :
  um_last_order_no Demo.saved = Some (u "20251114001") /\
  exists w', save_user_memory (S := Demo.server) (T := json) Demo.settings (Demo.env 0) (u "demo") (u "alice")
      (Some (u "order")) (Some (u "20251114001")) None None None Demo.world = (Ok (Some Demo.saved), w') /\
    (load_user_memory Demo.settings (Demo.env 10) (u "demo") (u "alice") w').1 = Ok Demo.saved /\
    (load_user_memory Demo.settings (Demo.env 9999) (u "demo") (u "alice")
       (Build_memory_world (∅ : Demo.server) (mw_profiles w'))).1 = Ok Demo.saved /\
    (load_user_memory Demo.settings (Demo.env 10) (u "demo") (u "bob") w').1 =
    (load_user_memory Demo.settings (Demo.env 10) (u "demo") (u "bob") Demo.world).1.
Proof.
  split; [vm_compute; reflexivity|].
  set (w' := (save_user_memory (S := Demo.server) (T := json) Demo.settings (Demo.env 0) (u "demo") (u "alice")
      (Some (u "order")) (Some (u "20251114001")) None None None Demo.world).2).
  exists w'.
  assert (Hs : save_user_memory (S := Demo.server) (T := json) Demo.settings (Demo.env 0) (u "demo") (u "alice")
      (Some (u "order")) (Some (u "20251114001")) None None None Demo.world = (Ok (Some Demo.saved), w'))
    by (vm_compute; reflexivity).
  split; [exact Hs|].
  pose proof demo_alice as Hal. pose proof demo_bob as Hbob.
  assert (Hok : forall current, (load_user_memory (S := Demo.server) Demo.settings (Demo.env 0) (u "demo")
             (u "alice") Demo.world).1 = Ok current -> profile_ok current).
  { intros c Hc. assert (Ok c = (Ok no_memory : res exn UserMemory)) as Heq by (rewrite <-Hc; vm_compute; reflexivity).
    injection Heq as ->. exact no_memory_ok. }
  split; [|split].
  - refine (proj1 (proj2 (memory_recalled Demo.settings (Demo.env 0) (Demo.env 10) (u "demo") (u "alice")
      (u "demo") (u "bob") Demo.turn Demo.world w' Demo.saved _ _ _ Hok Hs)) _);
      [exact Hal|exact Hbob|vm_compute; discriminate|vm_compute; reflexivity].
  - refine (proj1 (proj2 (proj2 (memory_recalled Demo.settings (Demo.env 0) (Demo.env 9999) (u "demo") (u "alice")
      (u "demo") (u "bob") Demo.turn Demo.world w' Demo.saved _ _ _ Hok Hs))) _ _ _ _);
      [exact Hal|exact Hbob|vm_compute; discriminate|vm_compute; reflexivity..].
  - refine (proj2 (proj2 (proj2 (memory_recalled Demo.settings (Demo.env 0) (Demo.env 10) (u "demo") (u "alice")
      (u "demo") (u "bob") Demo.turn Demo.world w' Demo.saved _ _ _ Hok Hs))) _);
      [exact Hal|exact Hbob|vm_compute; discriminate|vm_compute; discriminate].
Defined.

(** Nothing but another transfer turn writes the flag, so a customer who was handed over
    once is reported as waiting for a person in every later conversation. *)
Example handoff_stays_pending :
  let turn h := {| fa_intent := None; fa_order_no := None; fa_course_query := None; fa_course_name := None;
                   fa_handoff := h |} in
  um_handoff_pending (profile_after [(Demo.env 0, turn (Some true)); (Demo.env 1, turn None)]) = true.
Proof. vm_compute. reflexivity. Qed.
