(* ===== verification/Orders.v ===== *)
(** * The order service ([app/services/order.py])

    Which order a question is about, and the report built from its row. *)

From stdpp Require Import base list gmap strings.
From Stdlib Require Import Floats.SpecFloat.
From S2P Require Import Prelude PyText Errors PyFloat PyRe OrderNo OrderAccess.

Open Scope py_scope.

(** ** Reports ([app/schemas.py]) *)

Record OrderProgressStep := {
  step_name : pystr;
  step_status : pystr;
  step_timestamp : option pystr;
  step_note : option pystr;
}.

Record OrderReport := {
  or_order_no : pystr;
  or_product_name : pystr;
  or_course_code : pystr;
  or_order_type : pystr;
  or_current_status : pystr;
  or_progress_percent : Z;
  or_amount : pyfloat;
  or_steps : list OrderProgressStep;
  or_visualization : pystr;
  or_summary : pystr;
  or_oss_url : option pystr;
}.

Definition with_summary (s : pystr) (r : OrderReport) : OrderReport :=
  {| or_order_no := or_order_no r; or_product_name := or_product_name r;
     or_course_code := or_course_code r; or_order_type := or_order_type r;
     or_current_status := or_current_status r; or_progress_percent := or_progress_percent r;
     or_amount := or_amount r; or_steps := or_steps r;
     or_visualization := or_visualization r; or_summary := s; or_oss_url := or_oss_url r |}.
Definition with_visualization (v : pystr) (r : OrderReport) : OrderReport :=
  {| or_order_no := or_order_no r; or_product_name := or_product_name r;
     or_course_code := or_course_code r; or_order_type := or_order_type r;
     or_current_status := or_current_status r; or_progress_percent := or_progress_percent r;
     or_amount := or_amount r; or_steps := or_steps r;
     or_visualization := v; or_summary := or_summary r; or_oss_url := or_oss_url r |}.
Definition with_oss_url (o : option pystr) (r : OrderReport) : OrderReport :=
  {| or_order_no := or_order_no r; or_product_name := or_product_name r;
     or_course_code := or_course_code r; or_order_type := or_order_type r;
     or_current_status := or_current_status r; or_progress_percent := or_progress_percent r;
     or_amount := or_amount r; or_steps := or_steps r;
     or_visualization := or_visualization r; or_summary := or_summary r; or_oss_url := o |}.

(** The statuses pydantic accepts for a step. *)
Definition STEP_STATUSES : list pystr :=
  map u ["completed"; "in_progress"; "pending"; "rejected"]%string.

Fixpoint assoc (k : pystr) (d : list (pystr * pystr)) : option pystr :=
  match d with
  | [] => None
  | (k', v) :: d => if bool_decide (k = k') then Some v else assoc k d
  end.

Definition STATUS_LABELS : list (pystr * pystr) :=
  [(u "paid", u "已支付"); (u "active", u "已开通"); (u "refund_reviewing", u "退款审核中");
   (u "refunded", u "已退款"); (u "cancelled", u "已取消")].
Definition MERMAID_STATUS : list (pystr * pystr) :=
  [(u "completed", u "✓"); (u "in_progress", u "●"); (u "pending", u "○"); (u "rejected", u "✗")].
Definition status_cn : list (pystr * pystr) :=
  [(u "completed", u "已完成"); (u "in_progress", u "进行中"); (u "pending", u "待处理");
   (u "rejected", u "已拒绝")].

(** ** Progress *)

(** What one step adds to the score. *)
Definition step_score (unit score : pyfloat) (status : pystr) : pyfloat :=
  if bool_decide (status = u "completed") then f_add score unit
  else if bool_decide (status = u "in_progress") then f_add score (f_mul unit f_half)
  else score.

Definition _progress_percent (steps : list OrderProgressStep) : res exn Z :=
  match steps with
  | [] => Ok 0%Z
  | _ =>
    let unit := f_div_int 100 (Z.of_nat (length steps)) in
    py_round (foldl (step_score unit) f_zero (map step_status steps))
  end.

(** [s * n], the empty string for a negative [n]. *)
Definition str_repeat (s : pystr) (n : Z) : pystr := mjoin (replicate (Z.to_nat n) s).

Definition _ascii_bar (percent : Z) : res exn pystr :=
  let? filled := py_round (f_div_int percent 10) in
  Ok (str_repeat (u "█") filled ++ str_repeat (u "░") (10 - filled)).

Definition newline : pystr := [10%N].

Definition _mermaid (steps : list OrderProgressStep) : pystr :=
  let nodes := imap (fun i step =>
    u "    S" ++ dec (Z.of_nat i) ++ u "[" ++ [34%N] ++ step_name step ++ u " " ++
      default (u "?") (assoc (step_status step) MERMAID_STATUS) ++ [34%N] ++ u "]") steps in
  let edges := imap (fun i _ =>
    u "    S" ++ dec (Z.of_nat i) ++ u " --> S" ++ dec (Z.of_nat i + 1)) (tail steps) in
  u "flowchart LR" ++ newline ++ join newline (nodes ++ edges).

(** One row of the detail table. *)
Definition step_row (step : OrderProgressStep) : pystr :=
  u "| " ++ step_name step ++ u " | " ++
  default (step_status step) (assoc (step_status step) status_cn) ++ u " | " ++
  opt_str (ostr_or (step_timestamp step) (Some (u "-"))) ++ u " | " ++
  opt_str (ostr_or (step_note step) (Some (u "-"))) ++ u " |".

(** U+3000. *)
Definition ideographic_space : pystr := [12288%N].

Definition _visualization (report : OrderReport) : res exn pystr :=
  let? bar := _ascii_bar (or_progress_percent report) in
  Ok (join newline
    ([u "**订单 " ++ or_order_no report ++ u " · " ++ or_product_name report ++ u "**";
      u "当前状态：" ++ or_current_status report ++ ideographic_space ++ u "进度：" ++ bar ++ u " " ++
        dec (or_progress_percent report) ++ u "%";
      []; u "```mermaid"; _mermaid (or_steps report); u "```"; [];
      u "| 节点 | 状态 | 时间 | 说明 |"; u "|---|---|---|---|"]
     ++ map step_row (or_steps report))).

Definition OPEN_COURSE_HINTS : list pystr := map u ["开课"; "上课"; "开通"]%string.

Definition _open_course_summary (report : OrderReport) : option pystr :=
  match find (fun step => contains (u "开通") (step_name step)
                && bool_decide (step_status step = u "completed") && otruthy (step_timestamp step))
          (or_steps report) with
  | Some step =>
    Some (u "订单 " ++ or_order_no report ++ u " 关联课程「" ++ or_product_name report ++ u "」" ++
          u "已于 " ++ opt_str (step_timestamp step) ++ u " 开通。" ++
          (if otruthy (step_note step) then u "（" ++ opt_str (step_note step) ++ u "）" else []))
  | None => None
  end.

Definition _apply_query_summary (report : OrderReport) (query : option pystr) : OrderReport :=
  if negb (otruthy query) then report
  else if contains_any OPEN_COURSE_HINTS (opt_str query) then
    match _open_course_summary report with
    | Some s => if truthy s then with_summary s report else report
    | None => report
    end
  else report.

Definition _order_tool_outcome (reason : option OrderDenyReason) : pystr :=
  match reason with
  | Some ORDER_NOT_FOUND | Some CROSS_TENANT => u "not_found"
  | _ => u "deny"
  end.

Definition NO_ORDER_NO : pystr := u "未识别到订单号，请提供类似 #20251114001 的订单编号。".
Definition UNBOUND_ORDER_NO : pystr := u "请先提供订单编号以绑定后再查询。".

Definition resolve_query_order_no (query : pystr) (order_no user_id last_order_no : option pystr)
    : res exn pystr :=
  let extracted := extract_order_no query in
  let number := strip (opt_str (ostr_or extracted order_no)) in
  if negb (truthy number) then Raise (ValueError NO_ORDER_NO)
  else
    let uid := _normalize_user_id user_id in
    if is_persistent_user (Some uid) then Ok number
    else
      let bound := strip (opt_str last_order_no) in
      let mentioned := bool_decide (extracted = Some number) || contains number query in
      if mentioned || (truthy bound && bool_decide (number = bound)) then Ok number
      else Raise (ValueError UNBOUND_ORDER_NO).

Section service.
Context (db : OrderDB) (current_tenant current_user : pystr).

(** One step of the report; pydantic rejects an unknown status. *)
Definition report_step (event : OrderEvent) : res exn OrderProgressStep :=
  if bool_decide (event_status event ∈ STEP_STATUSES) then
    Ok {| step_name := event_name event; step_status := event_status event;
          step_timestamp := event_time event; step_note := event_note event |}
  else Raise (ValueError (u "ValidationError")).

Fixpoint report_steps (events : list OrderEvent) : res exn (list OrderProgressStep) :=
  match events with
  | [] => Ok []
  | e :: es => let? s := report_step e in let? ss := report_steps es in Ok (s :: ss)
  end.

(** The report of a row. *)
Definition order_report (order : Order) (query : option pystr) : res exn OrderReport :=
  let? steps := report_steps (order_events order) in
  let? percent := _progress_percent steps in
  let report :=
    {| or_order_no := order_order_no order; or_product_name := order_course_name order;
       or_course_code := opt_str (order_course_code order);
       or_order_type := order_order_type order;
       or_current_status := default (order_status order) (assoc (order_status order) STATUS_LABELS);
       or_progress_percent := percent; or_amount := order_amount order; or_steps := steps;
       or_visualization := []; or_summary := []; or_oss_url := None |} in
  let? visualization := _visualization report in
  let report := with_visualization visualization report in
  let summary :=
    if bool_decide (order_status order = u "refund_reviewing") then
      u "订单 " ++ order_order_no order ++ u " 已完成支付与课程开通，退款申请已受理，" ++
      u "目前处于财务审核阶段，通过后将原路退回。"
    else u "订单 " ++ order_order_no order ++ u " 当前状态为" ++ or_current_status report ++ u "。" in
  Ok (_apply_query_summary (with_summary summary report) query).

Definition fetch_order_report (order_no tenant_id : pystr) (query user_id : option pystr)
    : res exn OrderReport :=
  let uid := _normalize_user_id (match user_id with Some _ => user_id | None => Some current_user end) in
  let decision := (authorize db current_tenant current_user order_no DIRECT_QUERY (Some tenant_id) (Some uid) None).1 in
  if negb (allowed decision) then Raise (ValueError (u "未找到订单 " ++ order_no))
  else match decision_order decision with
       | Some order => order_report order query
       | None => Raise (OtherExc (u "AssertionError") [])
       end.
End service.

(** [persist_order_report]: [put_text] is the object store's, and [stamp] the local
    time as [%Y%m%d%H%M%S]. *)
Definition persist_order_report (put_text : pystr -> pystr -> pystr -> res exn pystr) (stamp : pystr)
    (report : OrderReport) (tenant_id : pystr) : res exn OrderReport :=
  let filename := u "reports/" ++ or_order_no report ++ u "-" ++ stamp ++ u ".md" in
  let? url := put_text filename (or_visualization report) tenant_id in
  Ok (with_oss_url (Some url) report).

(** ** Properties *)

(** Which order a question is about: the number it mentions, else the one passed
    in; and for an anonymous user only a number from the question itself or the one
    the conversation is bound to: nobody else's remembered order is filled in. *)
Theorem resolve_query_order_no_spec query order_no user_id last_order_no n :
  resolve_query_order_no query order_no user_id last_order_no = Ok n <->
  truthy n = true /\
  n = strip (opt_str (ostr_or (extract_order_no query) order_no)) /\
  (is_persistent_user (Some (_normalize_user_id user_id)) = true \/
   extract_order_no query = Some n \/ contains n query = true \/
   n = strip (opt_str last_order_no)).
Proof.
  unfold resolve_query_order_no. cbn zeta.
  set (number := strip (opt_str (ostr_or _ _))).
  destruct (truthy number) eqn:Et; cbn [negb]; [|split; [done|intros (? & -> & _); congruence]].
  destruct (is_persistent_user _); [split; [by intros [= <-]; auto|by intros (_ & -> & _)]|].
  set (last := strip (opt_str last_order_no)).
  assert (Hb : bool_decide (extract_order_no query = Some number) || contains number query
               || (truthy last && bool_decide (number = last)) = true <->
               extract_order_no query = Some number \/ contains number query = true \/ number = last).
  { rewrite !orb_true_iff, andb_true_iff, !bool_decide_eq_true. split; [tauto|].
    intros [?|[?|Hl]]; [tauto|tauto|]. rewrite <-Hl. tauto. }
  destruct (_ || _ || _); (split; [try (intros [= <-])|]); try done.
  - split; [done|]. split; [done|]. right. by apply Hb.
  - by intros (_ & -> & _).
  - intros (_ & -> & [|H%Hb]); done.
Qed.

Lemma report_steps_spec events steps :
  report_steps events = Ok steps ->
  map step_name steps = map event_name events /\ map step_status steps = map event_status events.
Proof.
  revert steps. induction events as [|e es IH]; intros steps; cbn [report_steps].
  - by intros [= <-].
  - rewrite rbind_ok. intros (s & Hs & H). rewrite rbind_ok in H.
    destruct H as (ss & Hss & [= <-]). unfold report_step in Hs.
    destruct (bool_decide _); simplify_eq. cbn. by destruct (IH ss Hss) as [-> ->].
Qed.

Lemma apply_query_summary_fields r q :
  exists s, _apply_query_summary r q = with_summary s r.
Proof.
  assert (H : exists s, r = with_summary s r) by (exists (or_summary r); by destruct r).
  unfold _apply_query_summary. destruct (negb _); [done|]. destruct (contains_any _ _); [|done].
  destruct (_open_course_summary r); [|done]. destruct (truthy _); eauto.
Qed.

Lemma order_report_fields o q r :
  order_report o q = Ok r ->
  or_order_no r = order_order_no o /\ or_product_name r = order_course_name o /\
  or_order_type r = order_order_type o /\ or_amount r = order_amount o /\
  map step_name (or_steps r) = map event_name (order_events o) /\
  map step_status (or_steps r) = map event_status (order_events o).
Proof.
  unfold order_report. rewrite rbind_ok. intros (steps & Hs & H).
  rewrite rbind_ok in H. destruct H as (p & _ & H). rewrite rbind_ok in H.
  destruct H as (v & _ & [= <-]).
  match goal with |- context [_apply_query_summary ?r q] =>
    destruct (apply_query_summary_fields r q) as [s ->] end.
  cbn. apply report_steps_spec in Hs as [-> ->]. done.
Qed.

Lemma normalize_truthy w : truthy (_normalize_user_id w) = true.
Proof.
  unfold _normalize_user_id, str_or. destruct (truthy (strip (opt_str w))) eqn:E; [done|].
  by vm_compute.
Qed.

(** A report is only made for an order the user may read, and is that order's: same
    number, product, type and amount, one step per event; otherwise the answer is
    the uniform refusal. *)
Theorem fetch_order_report_spec db ct cu order_no tenant_id query user_id :
  let uid := _normalize_user_id (match user_id with Some _ => user_id | None => Some cu end) in
  let tid := opt_str (ostr_or (Some tenant_id) (Some ct)) in
  match fetch_order_report db ct cu order_no tenant_id query user_id with
  | Ok r => exists o, may_read db order_no tid uid DIRECT_QUERY [] o /\
      or_order_no r = order_order_no o /\ or_product_name r = order_course_name o /\
      or_order_type r = order_order_type o /\ or_amount r = order_amount o /\
      map step_name (or_steps r) = map event_name (order_events o) /\
      map step_status (or_steps r) = map event_status (order_events o)
  | Raise e => (exists o, may_read db order_no tid uid DIRECT_QUERY [] o /\
                order_report o query = Raise e) \/
               ((forall o, ~ may_read db order_no tid uid DIRECT_QUERY [] o) /\
                e = ValueError (_user_visible_deny order_no))
  end.
Proof.
  cbn zeta. unfold fetch_order_report. set (uid := _normalize_user_id (match user_id with _ => _ end)).
  set (tid := opt_str _).
  assert (Huid : _normalize_user_id (ostr_or (Some uid) (Some cu)) = uid).
  { rewrite ostr_or_true by apply normalize_truthy. apply normalize_user_idem. }
  pose proof (fun o => authorize_correct db ct cu order_no DIRECT_QUERY (Some tenant_id) (Some uid)
                None o) as H.
  cbn zeta in H. rewrite Huid in H. fold tid in H.
  change (strip (opt_str None)) with (@nil N) in H.
  destruct (authorize _ _ _ _ _ _ _ _) as [d audit]. cbn [fst].
  destruct (allowed d) eqn:Ea; cbn [negb].
  - destruct (decision_order d) as [o|] eqn:Eo; cycle 1.
    { exfalso. destruct (H (demo_order 0 "" "" "")) as (_ & Hsome & _).
      by destruct (proj1 Hsome eq_refl). }
    destruct (H o) as (Hd & _ & _). apply proj1 in Hd. specialize (Hd eq_refl).
    destruct (order_report o query) as [r|e] eqn:Er; [|left; eauto].
    exists o. split; [done|]. by apply order_report_fields in Er.
  - right. split; [|done]. intros o Hm. destruct (H o) as (Hd & Hsome & _).
    apply Hd in Hm. destruct Hsome as [_ Hs]. rewrite Hm in Hs. by specialize (Hs ltac:(by eexists)).
Qed.

(** A report that was made is the report of an order the user may read. *)
Lemma fetched_report db ct cu order_no tenant_id query user_id r :
  fetch_order_report db ct cu order_no tenant_id query user_id = Ok r ->
  exists o, may_read db order_no (opt_str (ostr_or (Some tenant_id) (Some ct)))
      (_normalize_user_id (match user_id with Some _ => user_id | None => Some cu end)) DIRECT_QUERY [] o /\
    order_report o query = Ok r.
Proof.
  unfold fetch_order_report. set (uid := _normalize_user_id (match user_id with _ => _ end)).
  pose proof (fun o => authorize_correct db ct cu order_no DIRECT_QUERY (Some tenant_id) (Some uid)
                None o) as H.
  assert (Huid : _normalize_user_id (ostr_or (Some uid) (Some cu)) = uid).
  { rewrite ostr_or_true by apply normalize_truthy. apply normalize_user_idem. }
  cbn zeta in H. rewrite Huid in H.
  destruct (authorize _ _ _ _ _ _ _ _) as [d audit]. cbn [fst].
  destruct (allowed d); cbn [negb]; [|done].
  destruct (decision_order d) as [o|] eqn:Eo; [|done]. intros Hr. exists o. split; [|done].
  by apply (H o).
Qed.

(** ** Progress, by cases on the statuses *)

(** The three kinds of status the score tells apart. *)
Definition status_kinds : list pystr := [u "completed"; u "in_progress"; u "pending"].

Fixpoint sequences (n : nat) : list (list pystr) :=
  match n with
  | O => [[]]
  | S n => l ← sequences n; s ← status_kinds; [s :: l]
  end.

Definition percent_of (statuses : list pystr) : res exn Z :=
  match statuses with
  | [] => Ok 0%Z
  | _ => py_round (foldl (step_score (f_div_int 100 (Z.of_nat (length statuses)))) f_zero statuses)
  end.

Definition percent_ok (statuses : list pystr) : bool :=
  match percent_of statuses with
  | Ok p => (0 <=? p)%Z && (p <=? 100)%Z
            && Bool.eqb (p =? 100)%Z (forallb (fun s => bool_decide (s = u "completed")) statuses
                                      && negb (bool_decide (statuses = [])))
            && match _ascii_bar p with Ok bar => length bar =? 10 | Raise _ => false end
  | Raise _ => false
  end.

Lemma percent_ok_7 : forallb (fun n => forallb percent_ok (sequences n)) (seq 0 8) = true.
Proof. vm_compute. reflexivity. Qed.

Definition kind (s : pystr) : pystr :=
  if bool_decide (s = u "completed") then u "completed"
  else if bool_decide (s = u "in_progress") then u "in_progress" else u "pending".

Lemma step_score_kind unit score s : step_score unit score (kind s) = step_score unit score s.
Proof.
  unfold kind, step_score. destruct (bool_decide (s = u "completed")) eqn:E1; [done|].
  destruct (bool_decide (s = u "in_progress")) eqn:E2; [|done]. done.
Qed.

Lemma percent_kind l : percent_of (map kind l) = percent_of l.
Proof.
  destruct l as [|s l]; [done|]. unfold percent_of. cbn [map].
  change (kind s :: map kind l) with (map kind (s :: l)). rewrite length_map. f_equal.
  generalize f_zero. generalize (f_div_int 100 (Z.of_nat (length (s :: l)))). intros unit.
  induction (s :: l) as [|x xs IH]; intros acc; [done|]. cbn [map foldl].
  by rewrite step_score_kind, IH.
Qed.

Lemma kinds_sequence l : map kind l ∈ sequences (length l).
Proof.
  induction l as [|s l IH]; cbn [map length sequences]; [by left|].
  apply list_elem_of_bind. exists (map kind l). split; [|done].
  apply list_elem_of_bind. exists (kind s). split; [by left|].
  unfold kind, status_kinds. repeat case_match; set_solver.
Qed.

Lemma kind_completed l :
  forallb (fun s => bool_decide (s = u "completed")) (map kind l) =
  forallb (fun s => bool_decide (s = u "completed")) l.
Proof.
  induction l as [|s l IH]; [done|]. cbn [map forallb]. rewrite IH. f_equal.
  unfold kind. destruct (bool_decide (s = u "completed")) eqn:E; [done|].
  by destruct (bool_decide (s = u "in_progress")).
Qed.

(** The progress of a report of up to seven steps, computed in floating point, is a
    percentage: between 0 and 100, 100 exactly when every step is completed, and
    its bar has ten cells. *)
Theorem progress_percent_bounds steps :
  length steps <= 7 ->
  exists p bar, _progress_percent steps = Ok p /\ (0 <= p <= 100)%Z /\
    (p = 100%Z <-> steps <> [] /\ Forall (fun s => step_status s = u "completed") steps) /\
    _ascii_bar p = Ok bar /\ length bar = 10.
Proof.
  intros Hlen. set (l := map step_status steps).
  assert (Hp : _progress_percent steps = percent_of l).
  { subst l. destruct steps as [|s steps]; [done|]. unfold _progress_percent, percent_of.
    cbn [map length]. by rewrite length_map. }
  assert (Hok : percent_ok (map kind l) = true).
  { pose proof percent_ok_7 as H. rewrite forallb_elem in H.
    specialize (H (length l) ltac:(apply elem_of_seq; subst l; rewrite length_map; lia)).
    rewrite forallb_elem in H. apply H, kinds_sequence. }
  unfold percent_ok in Hok. rewrite percent_kind, kind_completed in Hok. rewrite Hp.
  destruct (percent_of l) as [p|] eqn:Ep; [|done]. bool_to_prop.
  destruct (_ascii_bar p) as [bar|] eqn:Ebar; [|done]. bool_to_prop.
  exists p, bar. split; [done|]. split; [lia|]. split; [|split; [done|by apply Nat.eqb_eq]].
  assert (Hl : (p =? 100)%Z = forallb (fun s => bool_decide (s = u "completed")) l
                 && negb (bool_decide (l = []))).
  { match goal with H : Bool.eqb _ _ = true |- _ => apply Bool.eqb_prop in H; rewrite H end.
    do 2 f_equal. subst l. apply bool_decide_ext. split; destruct steps; done. }
  assert (Hall : forallb (fun s => bool_decide (s = u "completed")) l = true <->
                 Forall (fun s => step_status s = u "completed") steps).
  { subst l. rewrite forallb_elem, Forall_forall. split.
    - intros Hx s Hs. apply (bool_decide_eq_true_1 (_ = _)), Hx. apply list_elem_of_In.
      apply in_map. by apply list_elem_of_In.
    - intros Hall s Hs. apply list_elem_of_fmap in Hs as (x & -> & Hx).
      apply bool_decide_eq_true_2. by apply Hall. }
  rewrite <-Hall, <-Z.eqb_eq, Hl, andb_true_iff, negb_true_iff, bool_decide_eq_false.
  subst l. split; intros [? ?]; split; try done; by destruct steps.
Qed.

Lemma progress_percent_bounds_witness :
  exists p bar, _progress_percent
    [{| step_name := u "支付"; step_status := u "completed"; step_timestamp := None; step_note := None |};
     {| step_name := u "退款"; step_status := u "in_progress"; step_timestamp := None; step_note := None |}]
    = Ok p /\ (0 <= p <= 100)%Z /\ _ascii_bar p = Ok bar /\ length bar = 10.
Proof.
  destruct (progress_percent_bounds
    [{| step_name := u "支付"; step_status := u "completed"; step_timestamp := None; step_note := None |};
     {| step_name := u "退款"; step_status := u "in_progress"; step_timestamp := None; step_note := None |}])
    as (p & bar & H1 & H2 & _ & H3); [vm_compute; lia|]. exact (ex_intro _ p (ex_intro _ bar (conj H1 (conj H2 H3)))).
Defined.
