(* ===== verification/Escalation.v ===== *)
(** * Tool failures within a turn ([app/tool_escalation.py])

    A turn counts the transient failures of each tool and resource; enough of them
    hand the conversation over to a person. *)

From stdpp Require Import base list gmap strings.
From S2P Require Import Prelude PyText Errors.

Definition _is_transient_error (exc : exn) : bool :=
  if is_os_error exc then true
  else
    let name := lower (exn_name exc) in
    let message := lower (exn_message exc) in
    contains (u "timeout") name || contains (u "timeout") message || contains (u "connection") name.

(** The settings the module reads. *)
Record escalation_settings := {
  tool_escalation_enabled : bool;
  tool_escalation_transient_threshold : Z;
}.

(** [ToolFailureTracker.counts]. *)
Abbreviation counts := (@gmap (list N * list N)
  (@prod_eq_dec (list N) (@list_eq_dec N numbers.N.eq_dec) (list N) (@list_eq_dec N numbers.N.eq_dec))
  (@prod_countable (list N) (@list_eq_dec N numbers.N.eq_dec) (@list_countable N numbers.N.eq_dec N_countable)
     (list N) (@list_eq_dec N numbers.N.eq_dec) (@list_countable N numbers.N.eq_dec N_countable)) Z).

Definition tracker_key (tool resource_key : pystr) : pystr * pystr :=
  (tool, str_or (strip resource_key) (u "__default__")).

Definition count_of (tool resource_key : pystr) (t : counts) : Z :=
  default 0%Z (t !! tracker_key tool resource_key).

Definition record_transient (tool resource_key : pystr) (t : counts) : Z * counts :=
  let n := (count_of tool resource_key t + 1)%Z in
  (n, <[tracker_key tool resource_key := n]> t).

Section escalation.
Context (settings : escalation_settings).

Definition should_escalate (tool resource_key : pystr) (t : counts) : bool :=
  if negb (tool_escalation_enabled settings) then false
  else (tool_escalation_transient_threshold settings <=? count_of tool resource_key t)%Z.

Definition build_handoff_answer (auto_escalated : bool) (reason : option EscalationReason) : pystr :=
  let lead :=
    match auto_escalated, reason with
    | true, Some transient_exhausted =>
      u "多次未能获取最新查询结果，已为您转接人工客服。" ++
      u "当前为演示环境，请稍候；工作时间（09:00-21:00）内会有专员继续跟进。"
    | true, Some react_limit =>
      u "处理步骤较多且未能完成自动查询，已为您转接人工客服。" ++
      u "当前为演示环境，请稍候；工作时间（09:00-21:00）内会有专员继续跟进。"
    | _, _ =>
      u "已为您转接人工客服。当前为演示环境，请稍候；" ++
      u "工作时间（09:00-21:00）内会有专员继续跟进您的问题。"
    end in
  lead ++ u "您也可以继续描述问题，我会先记录在会话中。".

Definition is_transient_tool_failure (exc : option exn) (status : option pystr) : bool :=
  if bool_decide (status = Some (u "busy")) then true
  else match exc with
       | None => false
       | Some (ToolPoolBusyError _) => true
       | Some e => _is_transient_error e
       end.

(** [t] is [None] outside a tracker's scope. *)
Definition escalation_for_transient (tool resource_key : pystr) (t : option counts)
    : option EscalationDecision * option counts :=
  match t with
  | None => (None, None)
  | Some t =>
    let (count, t) := record_transient tool resource_key t in
    if negb (tool_escalation_enabled settings) then (None, Some t)
    else if (count <? tool_escalation_transient_threshold settings)%Z then (None, Some t)
    else
      (Some {| escalate := true; ed_reason := Some transient_exhausted;
               ed_message := Some (build_handoff_answer true (Some transient_exhausted)) |}, Some t)
  end.

Definition escalation_for_react_limit : EscalationDecision :=
  {| escalate := true; ed_reason := Some react_limit;
     ed_message := Some (build_handoff_answer true (Some react_limit)) |}.

Definition raise_if_escalated (decision : option EscalationDecision) : res exn unit :=
  match decision with
  | Some d => if escalate d then Raise (ToolEscalationError d) else Ok tt
  | None => Ok tt
  end.

(** ** Properties *)

(** The failures of a turn, in order, and what the last of them decides. *)
Definition record_all (fs : list (pystr * pystr)) (t : counts) : counts :=
  foldl (fun t '(tool, key) => (record_transient tool key t).2) t fs.

Definition same_key (tool key : pystr) (f : pystr * pystr) : bool :=
  bool_decide (tracker_key f.1 f.2 = tracker_key tool key).

Lemma count_record tool key tool' key' t :
  count_of tool key (record_transient tool' key' t).2 =
  (count_of tool key t + if same_key tool key (tool', key') then 1 else 0)%Z.
Proof.
  unfold count_of, record_transient, same_key. cbn [snd fst].
  destruct (bool_decide _) eqn:E; bool_to_prop.
  - rewrite <-E, lookup_insert_eq. done.
  - rewrite lookup_insert_ne by done. cbn. lia.
Qed.

Lemma count_record_all tool key fs t :
  count_of tool key (record_all fs t) =
  (count_of tool key t + Z.of_nat (length (filter (fun f => same_key tool key f) fs)))%Z.
Proof.
  revert t. induction fs as [|[tool' key'] fs IH]; intros t; cbn [record_all foldl].
  - cbn. lia.
  - fold (record_all fs (record_transient tool' key' t).2). rewrite IH, count_record, filter_cons.
    destruct (same_key tool key (tool', key')).
    + rewrite decide_True by done. cbn [length]. lia.
    + rewrite decide_False by naive_solver. lia.
Qed.

(** A turn hands over to a person exactly at the configured number of failures of one
    tool on one resource: after any failures [fs], one more of [tool] on [key]
    escalates if and only if escalation is on and the failures of that tool on that
    resource, this one included, have reached the threshold.  Failures of other
    tools and resources do not count, and outside a turn nothing escalates. *)
Theorem escalates_at_threshold fs tool key :
  let failures := Z.of_nat (length (filter (fun f => same_key tool key f) (fs ++ [(tool, key)]))) in
  let '(d, t) := escalation_for_transient tool key (Some (record_all fs ∅)) in
  t = Some (record_all (fs ++ [(tool, key)]) ∅) /\
  raise_if_escalated d =
    (if tool_escalation_enabled settings && (tool_escalation_transient_threshold settings <=? failures)%Z
     then Raise (ToolEscalationError
       {| escalate := true; ed_reason := Some transient_exhausted;
          ed_message := Some (build_handoff_answer true (Some transient_exhausted)) |})
     else Ok tt) /\
  (escalation_for_transient tool key None).1 = None.
Proof.
  intros failures.
  assert (Hn : (record_transient tool key (record_all fs ∅)).1 = failures).
  { unfold record_transient. cbn [fst]. rewrite count_record_all. subst failures.
    rewrite filter_app, length_app, filter_cons, decide_True.
    - cbn. unfold count_of. rewrite lookup_empty. cbn. lia.
    - unfold same_key. by rewrite bool_decide_eq_true_2. }
  assert (Ht : (record_transient tool key (record_all fs ∅)).2 = record_all (fs ++ [(tool, key)]) ∅).
  { unfold record_all. by rewrite foldl_app. }
  unfold escalation_for_transient. destruct (record_transient _ _ _) as [n t]. cbn [fst snd] in Hn, Ht.
  rewrite Hn, Ht. destruct (tool_escalation_enabled settings); cbn [negb andb]; [|done].
  destruct (Z.ltb_spec failures (tool_escalation_transient_threshold settings)),
    (Z.leb_spec (tool_escalation_transient_threshold settings) failures); done || lia.
Qed.
End escalation.
