(* ===== verification/ToolCache.v ===== *)
(** * Cached tool results ([app/tool_cache.py])

    The last good order report and course answer, kept in the conversation's state
    and in a shared store with a time to live, to answer with when the tool itself
    is unavailable. *)

From stdpp Require Import base list gmap strings.
From Stdlib Require Import Floats.SpecFloat.
From S2P Require Import Prelude PyText Errors PyFloat Json Redis OrderAccess Orders.

Open Scope py_scope.

(** ** Course answers ([app/schemas.py]) *)

Record CourseModule := {
  cm_name : pystr;
  cm_topics : list pystr;
  cm_duration_hours : pyfloat;
  cm_outcome : pystr;
}.

Record LearningStage := {
  ls_stage : pystr;
  ls_modules : list pystr;
  ls_goal : pystr;
}.

Record EvidenceSection := {
  ev_source : pystr;
  ev_section_path : pystr;
  ev_module_name : pystr;
  ev_excerpt : pystr;
}.

Record CourseConsultResult := {
  cr_course_name : pystr;
  cr_summary : pystr;
  cr_modules : list CourseModule;
  cr_learning_path : list LearningStage;
  cr_prerequisites : list pystr;
  cr_sources : list pystr;
  cr_evidence : list EvidenceSection;
}.

Definition with_course_summary (s : pystr) (r : CourseConsultResult) : CourseConsultResult :=
  {| cr_course_name := cr_course_name r; cr_summary := s; cr_modules := cr_modules r;
     cr_learning_path := cr_learning_path r; cr_prerequisites := cr_prerequisites r;
     cr_sources := cr_sources r; cr_evidence := cr_evidence r |}.

(** [model_dump(mode="json")]: an entry per field, in the order they are declared. *)
Definition jstrs (l : list pystr) : json := JList (map JStr l).

Definition step_dump (s : OrderProgressStep) : json :=
  JObj [(u "name", JStr (step_name s)); (u "status", JStr (step_status s));
        (u "timestamp", jopt (step_timestamp s)); (u "note", jopt (step_note s))].

Definition order_dump (r : OrderReport) : list (pystr * json) :=
  [(u "order_no", JStr (or_order_no r)); (u "product_name", JStr (or_product_name r));
   (u "course_code", JStr (or_course_code r)); (u "order_type", JStr (or_order_type r));
   (u "current_status", JStr (or_current_status r));
   (u "progress_percent", JInt (or_progress_percent r)); (u "amount", JFloat (or_amount r));
   (u "steps", JList (map step_dump (or_steps r)));
   (u "visualization", JStr (or_visualization r)); (u "summary", JStr (or_summary r));
   (u "oss_url", jopt (or_oss_url r))].

Definition module_dump (m : CourseModule) : json :=
  JObj [(u "name", JStr (cm_name m)); (u "topics", jstrs (cm_topics m));
        (u "duration_hours", JFloat (cm_duration_hours m)); (u "outcome", JStr (cm_outcome m))].
Definition stage_dump (s : LearningStage) : json :=
  JObj [(u "stage", JStr (ls_stage s)); (u "modules", jstrs (ls_modules s));
        (u "goal", JStr (ls_goal s))].
Definition evidence_dump (e : EvidenceSection) : json :=
  JObj [(u "source", JStr (ev_source e)); (u "section_path", JStr (ev_section_path e));
        (u "module_name", JStr (ev_module_name e)); (u "excerpt", JStr (ev_excerpt e))].

Definition course_dump (r : CourseConsultResult) : list (pystr * json) :=
  [(u "course_name", JStr (cr_course_name r)); (u "summary", JStr (cr_summary r));
   (u "modules", JList (map module_dump (cr_modules r)));
   (u "learning_path", JList (map stage_dump (cr_learning_path r)));
   (u "prerequisites", jstrs (cr_prerequisites r)); (u "sources", jstrs (cr_sources r));
   (u "evidence", JList (map evidence_dump (cr_evidence r)))].

(** ** What the module relies on *)

(** A report whose steps pydantic accepts: every report the program builds. *)
Definition report_valid (r : OrderReport) : bool :=
  forallb (fun s => bool_decide (step_status s ∈ STEP_STATUSES)) (or_steps r).

Definition CACHED_AT : pystr := u "_cached_at".

(** [model_validate]: reads back what [model_dump] wrote, and ignores an entry that is
    not a field. *)
Class Validators := {
  order_validate : list (pystr * json) -> res exn OrderReport;
  course_validate : list (pystr * json) -> res exn CourseConsultResult;
}.
Class ValidatorsLaws `{Validators} : Prop := {
  order_validate_dump r : report_valid r = true -> order_validate (order_dump r) = Ok r;
  order_validate_extra r v : report_valid r = true ->
    order_validate (order_dump r ++ [(CACHED_AT, v)]) = Ok r;
  course_validate_dump r : course_validate (course_dump r) = Ok r;
  course_validate_extra r v : course_validate (course_dump r ++ [(CACHED_AT, v)]) = Ok r;
}.

(** [time.time()], and the time of the Redis server. *)
Record clock := { wall : pyfloat; server_now : Z }.

(** [_ToolCacheStore]. *)
Class ToolCacheStore (T S : Type) := {
  ts_get : clock -> pystr -> S -> option T * S;
  ts_set : clock -> pystr -> T -> Z -> S -> S;
  (** What was set at the first time for these seconds is still there at the second. *)
  ts_fresh : clock -> Z -> clock -> bool;
}.

(** What a store promises: it invents nothing, reads disturb nothing, and a fresh entry
    is there. *)
Class ToolCacheStoreLaws (T S : Type) `{ToolCacheStore T S} : Prop := {
  ts_get_frame c c' k k' s v :
    (ts_get c' k' (ts_get c k s).2).1 = Some v -> (ts_get c' k' s).1 = Some v;
  ts_set_sound c c' k v ttl k' s w : (server_now c <= server_now c')%Z -> (0 < ttl)%Z ->
    (ts_get c' k' (ts_set c k v ttl s)).1 = Some w ->
    (k' = k /\ w = v) \/ (ts_get c' k' s).1 = Some w;
  ts_set_get c c' k v ttl s : (server_now c <= server_now c')%Z -> (0 < ttl)%Z ->
    ts_fresh c ttl c' = true -> (ts_get c' k (ts_set c k v ttl s)).1 = Some v;
}.

(** ** [_MemoryToolCacheStore] *)

Module Memory.
Section memory.
Context {T : Type}.

Abbreviation store := (@gmap (list N) (@list_eq_dec N numbers.N.eq_dec)
  (@list_countable N numbers.N.eq_dec N_countable) (T * spec_float)).

Definition expired (now expires : pyfloat) : bool := f_truthy expires && f_lt expires now.

Definition get (c : clock) (key : pystr) (s : store) : option T * store :=
  match s !! key with
  | None => (None, s)
  | Some (value, expires) =>
    if expired (wall c) expires then (None, delete key s) else (Some value, s)
  end.

Definition set (c : clock) (key : pystr) (value : T) (ttl : Z) (s : store) : store :=
  let expires := if (0 <? ttl)%Z then f_add (wall c) (f_of_int ttl) else f_zero in
  <[key := (value, expires)]> s.

#[global] Instance memory_store : ToolCacheStore T store := {
  ts_get := get;
  ts_set := set;
  ts_fresh c ttl c' := negb (expired (wall c') (f_add (wall c) (f_of_int ttl)));
}.

Lemma get_some c (k : pystr) (s : store) v :
  (get c k s).1 = Some v <-> exists e, s !! k = Some (v, e) /\ expired (wall c) e = false.
Proof.
  unfold get. destruct (s !! k) as [[w e]|]; [|split; [done|by intros (? & ? & ?)]].
  destruct (expired (wall c) e) eqn:E; cbn; split; try done.
  - intros (e' & [= <- <-] & ?). congruence.
  - intros [= <-]. by exists e.
  - by intros (e' & [= <- <-] & ?).
Qed.

#[global] Instance memory_store_laws : ToolCacheStoreLaws T store.
Proof.
  split.
  - intros c c' k k' s v. cbn [ts_get memory_store]. rewrite !get_some. unfold get.
    destruct (s !! k) as [[w e]|]; [|done]. destruct (expired (wall c) e); cbn [snd]; [|done].
    intros (e' & H & Hx). exists e'. split; [|done]. by apply lookup_delete_Some in H as [_ ?].
  - intros c c' k v ttl k' s w _ Httl. cbn [ts_get ts_set memory_store]. rewrite !get_some.
    unfold set. intros (e & H & Hx). rewrite lookup_insert in H.
    destruct (decide (k = k')) as [->|]; [left; by simplify_eq|right; eauto].
  - intros c c' k v ttl s _ Httl Hf. cbn [ts_get ts_set memory_store] in *. rewrite get_some.
    unfold set. rewrite lookup_insert_eq. apply Z.ltb_lt in Httl. rewrite Httl.
    eexists. split; [done|]. by apply negb_true_iff.
Qed.
End memory.
End Memory.

(** ** [_RedisToolCacheStore] *)

Module Shared.
Section shared.
Context {T R : Type} `{RedisKV R T, !RedisKVLaws R T}.

Definition get (c : clock) (key : pystr) (r : R) : option T * R := (kv (server_now c) key r, r).

Definition set (c : clock) (key : pystr) (value : T) (ttl : Z) (r : R) : R :=
  if (0 <? ttl)%Z then set_ex (server_now c) key value (Some ttl) r
  else set_ex (server_now c) key value None r.

#[global] Instance shared_store : ToolCacheStore T R := {
  ts_get := get;
  ts_set := set;
  ts_fresh c ttl c' := (server_now c' <? server_now c + ttl)%Z;
}.

#[global] Instance shared_store_laws : ToolCacheStoreLaws T R.
Proof using All.
  split; cbn [ts_get ts_set shared_store get fst snd].
  - done.
  - intros c c' k v ttl k' s w Hle Httl. unfold set. apply Z.ltb_lt in Httl. rewrite Httl.
    rewrite kv_set_ex by done. destruct (decide (k' = k)) as [->|]; [|by right].
    case_match; [|done]. intros [= <-]. by left.
  - intros c c' k v ttl s Hle Httl Hf. unfold set. apply Z.ltb_lt in Httl. rewrite Httl.
    rewrite kv_set_ex by done. rewrite decide_True by done. cbn [ts_fresh shared_store] in Hf.
    cbn. by rewrite Hf.
Qed.
End shared.
End Shared.

(** ** Operations *)

Definition TOOL_ORDER : pystr := u "order_query".
Definition TOOL_COURSE : pystr := u "course_retrieve".
Definition CACHE_PREFIX : pystr := u "cs:tool:result:".

Inductive ToolCacheSource : Type := session | redis.

Record CachedToolResult (P : Type) := {
  payload : P;
  cached_at : pyfloat;
  source : ToolCacheSource;
}.
Arguments payload {P}.
Arguments cached_at {P}.
Arguments source {P}.
Arguments Build_CachedToolResult {P}.

Record SessionToolCacheState := {
  last_order_structured : option (list (pystr * json));
  last_course_structured : option (list (pystr * json));
  last_course_structured_key : option pystr;
}.
Definition _EMPTY_SESSION : SessionToolCacheState :=
  {| last_order_structured := None; last_course_structured := None;
     last_course_structured_key := None |}.

(** [_strip], for a string or [None]. *)
Definition _strip (value : option pystr) : option pystr := str_or_none (strip (opt_str value)).

(** What [get_session_tool_cache] returns in the body of
    [with session_tool_cache_scope(state)]; [outer] is its value outside. *)
Definition session_tool_cache_scope (outer : SessionToolCacheState) (state : dict)
    : SessionToolCacheState :=
  if bool_decide (state = ∅) then outer
  else
    {| last_order_structured := get_obj (u "last_order_structured") state;
       last_course_structured := get_obj (u "last_course_structured") state;
       last_course_structured_key := _strip (get_raw_ostr (u "last_course_structured_key") state) |}.

(** [re.sub(r"\s+", " ", s)]: [space] is set inside a run. *)
Fixpoint collapse (space : bool) (s : pystr) : pystr :=
  match s with
  | [] => []
  | c :: s =>
    if is_space c then (if space then collapse true s else 32%N :: collapse true s)
    else c :: collapse false s
  end.

Definition normalize_course_cache_key (query : pystr) (course_code : option pystr) : pystr :=
  match _strip course_code with
  | Some code => u "code:" ++ code
  | None =>
    let text := collapse false (lower (strip query)) in
    if truthy text then u "q:" ++ take 120 text else u "q:unknown"
  end.

Definition UNCACHEABLE_STATUS : list pystr := map u ["busy"; "error"; "not_found"]%string.
Definition is_cacheable_order_report (report : OrderReport) : bool :=
  negb (bool_decide (or_current_status report ∈ UNCACHEABLE_STATUS)).

Definition NO_COURSE : list pystr := map u [""; "未找到课程"]%string.
Definition is_cacheable_course_result (result : CourseConsultResult) : bool :=
  negb (bool_decide (strip (cr_course_name result) ∈ NO_COURSE)).

Definition stale_prefix (age_seconds : pyfloat) : res exn pystr :=
  let? minutes := py_int (f_div age_seconds (f_of_int 60)) in
  Ok (u "以下为约 " ++ dec (Z.max 1 minutes) ++ u " 分钟前的查询结果，当前服务繁忙/超时，" ++
      u "信息可能已有变化。" ++ newline ++ newline).

Definition annotate_stale_order (report : OrderReport) (age_seconds : pyfloat) : res exn OrderReport :=
  let? prefix := stale_prefix age_seconds in
  Ok (with_summary (strip (prefix ++ or_summary report)) report).

Definition annotate_stale_course (result : CourseConsultResult) (age_seconds : pyfloat)
    : res exn CourseConsultResult :=
  let? prefix := stale_prefix age_seconds in
  Ok (with_course_summary (strip (prefix ++ cr_summary result)) result).

(** [payload["_cached_at"] = time.time()] on a dumped model. *)
Definition stamped (fields : list (pystr * json)) (now : pyfloat) : json :=
  JObj (fields ++ [(CACHED_AT, JFloat now)]).

Definition session_updates_for_order (now : pyfloat) (report : OrderReport) : list (pystr * json) :=
  if negb (is_cacheable_order_report report) then []
  else [(u "last_order_structured", stamped (order_dump report) now)].

Definition session_updates_for_course (now : pyfloat) (result : CourseConsultResult)
    (resource_key : pystr) : list (pystr * json) :=
  if negb (is_cacheable_course_result result) then []
  else [(u "last_course_structured", stamped (course_dump result) now);
        (u "last_course_structured_key", JStr resource_key)].

Definition _redis_key (tenant_id user_id tool resource_key : pystr) : pystr :=
  let safe := replace_char colon 95 resource_key in
  CACHE_PREFIX ++ tenant_id ++ [colon] ++ user_id ++ [colon] ++ tool ++ [colon] ++ safe.

(** [d.get(k)] and [d[k]] on the entries of a decoded object. *)
Definition obj_get (k : pystr) (d : list (pystr * json)) : json :=
  match find (fun kv => bool_decide (kv.1 = k)) d with Some kv => kv.2 | None => JNull end.

(** [float(v or time.time())], for the numbers stored there. *)
Definition stamp_of (now : pyfloat) (v : json) : res exn pyfloat :=
  if negb (jtruthy v) then Ok now
  else match v with
       | JFloat x => Ok x
       | JInt n => Ok (f_of_int n)
       | JBool _ => Ok f_one
       | _ => Raise (OtherExc (u "TypeError") [])
       end.

(** [str(v or "")], for the strings stored there. *)
Definition json_str (v : json) : pystr := match v with JStr s => s | _ => [] end.

Record cache_settings := {
  tool_cache_enabled : bool;
  tool_cache_order_ttl_seconds : Z;
  tool_cache_course_ttl_seconds : Z;
}.

Section operations.
Context {T S : Type} `{JsonText T} `{Validators} `{ToolCacheStore T S}.
Context (settings : cache_settings).
(** The order table and the request's identity, for [can_access_order]. *)
Context (db : OrderDB) (current_tenant current_user : pystr).

Definition parse_session {P} (validate : list (pystr * json) -> res exn P) (now : pyfloat)
    (structured : list (pystr * json)) : res exn (CachedToolResult P) :=
  let? report := validate structured in
  let? at_ := stamp_of now (obj_get CACHED_AT structured) in
  Ok (Build_CachedToolResult report at_ session).

(** The body of the [try] that reads the shared store's text. *)
Definition parse_stored {P} (validate : list (pystr * json) -> res exn P) (now : pyfloat) (raw : T)
    : res exn (CachedToolResult P) :=
  let? blob := loads raw in
  match blob with
  | JObj blob =>
    match obj_get (u "payload") blob with
    | JObj fields =>
      let? report := validate fields in
      let? at_ := stamp_of now (obj_get (u "cached_at") blob) in
      Ok (Build_CachedToolResult report at_ redis)
    | _ => Raise (OtherExc (u "KeyError") [])
    end
  | _ => Raise (OtherExc (u "TypeError") [])
  end.

(** [try: ... except Exception: None]. *)
Definition ok_or_none {A} (r : res exn A) : option A :=
  match r with Ok a => Some a | Raise _ => None end.

(** The second half of both lookups. *)
Definition read_shared {P} (validate : list (pystr * json) -> res exn P) (c : clock) (key : pystr)
    (s : S) : option (CachedToolResult P) * S :=
  let (raw, s) := ts_get c key s in
  match raw with
  | None => (None, s)
  | Some raw =>
    if negb (text_truthy raw) then (None, s)
    else (ok_or_none (parse_stored validate (wall c) raw), s)
  end.

Definition get_cached_order (c : clock) (sess : SessionToolCacheState) (order_no tenant_id user_id : pystr)
    (s : S) : option (CachedToolResult OrderReport) * S :=
  if negb (tool_cache_enabled settings) then (None, s)
  else
    let number := strip order_no in
    if negb (truthy number) then (None, s)
    else if negb (can_access_order db current_tenant current_user number tenant_id (Some user_id) DIRECT_QUERY)
    then (None, s)
    else
      let from_session :=
        match last_order_structured sess with
        | Some structured =>
          if bool_decide (structured <> []) &&
             bool_decide (strip (json_str (obj_get (u "order_no") structured)) = number)
          then ok_or_none (parse_session order_validate (wall c) structured) else None
        | None => None
        end in
      match from_session with
      | Some r => (Some r, s)
      | None => read_shared order_validate c (_redis_key tenant_id user_id TOOL_ORDER number) s
      end.

Definition put_cached_order (c : clock) (report : OrderReport) (tenant_id user_id : pystr) (s : S) : S :=
  if negb (tool_cache_enabled settings) || negb (is_cacheable_order_report report) then s
  else
    let number := strip (or_order_no report) in
    if negb (truthy number) then s
    else
      let ttl := tool_cache_order_ttl_seconds settings in
      if (ttl <=? 0)%Z then s
      else ts_set c (_redis_key tenant_id user_id TOOL_ORDER number)
             (dumps (JObj [(u "payload", JObj (order_dump report)); (u "cached_at", JFloat (wall c))]))
             ttl s.

Definition get_cached_course (c : clock) (sess : SessionToolCacheState) (resource_key tenant_id user_id : pystr)
    (s : S) : option (CachedToolResult CourseConsultResult) * S :=
  if negb (tool_cache_enabled settings) then (None, s)
  else
    let key := strip resource_key in
    if negb (truthy key) then (None, s)
    else
      let from_session :=
        match last_course_structured sess with
        | Some structured =>
          if bool_decide (structured <> []) && bool_decide (last_course_structured_key sess = Some key)
          then ok_or_none (parse_session course_validate (wall c) structured) else None
        | None => None
        end in
      match from_session with
      | Some r => (Some r, s)
      | None => read_shared course_validate c (_redis_key tenant_id user_id TOOL_COURSE key) s
      end.

Definition put_cached_course (c : clock) (result : CourseConsultResult) (resource_key tenant_id user_id : pystr)
    (s : S) : S :=
  if negb (tool_cache_enabled settings) || negb (is_cacheable_course_result result) then s
  else
    let key := strip resource_key in
    if negb (truthy key) then s
    else
      let ttl := tool_cache_course_ttl_seconds settings in
      if (ttl <=? 0)%Z then s
      else ts_set c (_redis_key tenant_id user_id TOOL_COURSE key)
             (dumps (JObj [(u "payload", JObj (course_dump result)); (u "cached_at", JFloat (wall c))]))
             ttl s.
End operations.

(** ** Keys *)

Lemma app_sep_inj_r {A} (sep : A) (a b a' b' : list A) :
  sep ∉ b -> sep ∉ b' -> a ++ sep :: b = a' ++ sep :: b' -> a = a' /\ b = b'.
Proof.
  intros Hb Hb' H. apply (f_equal reverse) in H.
  rewrite !reverse_app, !reverse_cons, <-!app_assoc in H. cbn in H.
  apply app_sep_inj in H as [H1 H2]; [|by rewrite elem_of_reverse..].
  apply (f_equal reverse) in H1, H2. by rewrite !reverse_involutive in *.
Qed.

Lemma replace_char_inv a b s n : replace_char a b s = n -> b ∉ n -> s = n.
Proof.
  intros <- Hb. symmetry. apply replace_char_id. intros Ha. apply Hb. unfold replace_char.
  apply list_elem_of_fmap. exists a. by rewrite N.eqb_refl.
Qed.

Definition tool_name (tool : pystr) : Prop := tool = TOOL_ORDER \/ tool = TOOL_COURSE.

Lemma tool_no_colon tool : tool_name tool -> colon ∉ tool.
Proof.
  intros [-> | ->]; apply (bool_decide_eq_true_1 (colon ∉ _)); vm_compute; reflexivity.
Qed.

(** Within colon-free tenants, a key determines the tenant, the user, the tool, and the
    resource up to the replaced characters. *)
Lemma redis_key_inj t w tool k t' w' tool' k' :
  colon ∉ t -> colon ∉ t' -> tool_name tool -> tool_name tool' ->
  _redis_key t w tool k = _redis_key t' w' tool' k' ->
  t = t' /\ w = w' /\ tool = tool' /\ replace_char colon 95 k = replace_char colon 95 k'.
Proof.
  intros Ht Ht' Htool Htool'. unfold _redis_key. intros H%app_inv_head.
  cbn in H. apply app_sep_inj in H as [-> H]; [|done..]. split; [done|].
  assert (Hassoc : forall a b c : pystr, a ++ colon :: b ++ colon :: c = (a ++ colon :: b) ++ colon :: c).
  { intros. by rewrite <-app_assoc. }
  rewrite !Hassoc in H.
  apply app_sep_inj_r in H as [H ->]; [|by apply replace_char_absent..].
  apply app_sep_inj_r in H as [-> ->]; [done|by apply tool_no_colon..].
Qed.

Lemma digits_plain s : forallb is_digit s = true -> 95%N ∉ s.
Proof.
  rewrite forallb_elem. intros H Hin. apply H in Hin. vm_compute in Hin. discriminate.
Qed.

(** A number the table grants access to is made of digits. *)
Lemma access_digits db ct cu number tid w ctx :
  can_access_order db ct cu number tid w ctx = true -> forallb is_digit (strip number) = true.
Proof.
  unfold can_access_order.
  pose proof (fun o => authorize_correct db ct cu number ctx (Some tid) w None o) as Ha.
  cbn zeta in Ha. destruct (authorize _ _ _ _ _ _ _ _) as [d audit]. cbn [fst]. intros Hd.
  destruct (Ha (demo_order 0 "" "" "")) as (_ & [Hs _] & _).
  destruct (Hs Hd) as [o Ho]. destruct (Ha o) as ([Hm _] & _).
  destruct (Hm Ho) as [Hw _ _ _ _]. rewrite order_no_wellformed_spec in Hw.
  by apply andb_true_iff in Hw as [_ ?].
Qed.

(** ** Properties *)

Inductive cache_op : Type :=
| PutOrder (report : OrderReport) (tenant user : pystr)
| PutCourse (result : CourseConsultResult) (key tenant user : pystr)
| GetOrder (sess : SessionToolCacheState) (order_no tenant user : pystr)
| GetCourse (sess : SessionToolCacheState) (key tenant user : pystr).

(** Tenants are normalised and reports were built by pydantic. *)
Definition op_ok (op : cache_op) : Prop :=
  match op with
  | PutOrder r t _ => report_valid r = true /\ colon ∉ t
  | PutCourse _ _ t _ | GetOrder _ _ t _ | GetCourse _ _ t _ => colon ∉ t
  end.

(** The clock of the server does not go back. *)
Fixpoint clocks_ok (before : clock) (ops : list (clock * cache_op)) (after : clock) : Prop :=
  match ops with
  | [] => (server_now before <= server_now after)%Z
  | (c, _) :: ops => (server_now before <= server_now c)%Z /\ clocks_ok c ops after
  end.

Section properties.
Context {T S : Type} `{JsonTextLaws T} `{ValidatorsLaws} `{ToolCacheStoreLaws T S}.
Context (settings : cache_settings) (db : OrderDB) (ct cu : pystr).

Definition do_cache_op (op : clock * cache_op) (s : S) : S :=
  let '(c, op) := op in
  match op with
  | PutOrder r t w => put_cached_order settings c r t w s
  | PutCourse r k t w => put_cached_course settings c r k t w s
  | GetOrder sess n t w => (get_cached_order settings db ct cu c sess n t w s).2
  | GetCourse sess k t w => (get_cached_course settings c sess k t w s).2
  end.

Definition run_cache (ops : list (clock * cache_op)) (s : S) : S := foldl (fun s op => do_cache_op op s) s ops.

Definition order_text (c : clock) (r : OrderReport) : T :=
  dumps (JObj [(u "payload", JObj (order_dump r)); (u "cached_at", JFloat (wall c))]).
Definition course_text (c : clock) (r : CourseConsultResult) : T :=
  dumps (JObj [(u "payload", JObj (course_dump r)); (u "cached_at", JFloat (wall c))]).

(** What an operation may have left under a key. *)
Definition wrote (op : clock * cache_op) (k : pystr) (v : T) : Prop :=
  match op with
  | (c, PutOrder r t w) =>
    k = _redis_key t w TOOL_ORDER (strip (or_order_no r)) /\ v = order_text c r /\
    is_cacheable_order_report r = true
  | (c, PutCourse r key t w) =>
    k = _redis_key t w TOOL_COURSE (strip key) /\ v = course_text c r /\
    is_cacheable_course_result r = true
  | _ => False
  end.

(** From [c] on, the store holds nothing but what [ops] wrote. *)
Definition explained (c : clock) (ops : list (clock * cache_op)) (s : S) : Prop :=
  forall c' k v, (server_now c <= server_now c')%Z -> (ts_get c' k s).1 = Some v ->
  exists op, op ∈ ops /\ wrote op k v.

Lemma read_shared_store {P} (validate : list (pystr * json) -> res exn P) c key s :
  (read_shared validate c key s).2 = (ts_get c key s).2.
Proof using.
  unfold read_shared. destruct (ts_get c key s) as [[raw|] s']; [|done]. by case_match.
Qed.

Lemma get_order_store c sess n t w s :
  let s' := (get_cached_order settings db ct cu c sess n t w s).2 in
  s' = s \/ exists key, s' = (ts_get c key s).2.
Proof using.
  cbn zeta. unfold get_cached_order. repeat (case_match; auto); rewrite read_shared_store; eauto.
Qed.

Lemma get_course_store c sess key t w s :
  let s' := (get_cached_course settings c sess key t w s).2 in
  s' = s \/ exists key', s' = (ts_get c key' s).2.
Proof using.
  cbn zeta. unfold get_cached_course. repeat (case_match; auto); rewrite read_shared_store; eauto.
Qed.

Lemma do_cache_op_explained c0 ops op s :
  explained c0 ops s -> (server_now c0 <= server_now op.1)%Z -> explained op.1 (ops ++ [op]) (do_cache_op op s).
Proof using All.
  intros Hs Hle c' k v Hle' Hv. destruct op as [c op]. cbn [fst] in *.
  assert (Hold : (ts_get c' k s).1 = Some v -> exists op', op' ∈ ops ++ [(c, op)] /\ wrote op' k v).
  { intros Hg. destruct (Hs c' k v ltac:(lia) Hg) as (op' & Hin & Hw). exists op'. set_solver. }
  assert (Hget : forall k0, (ts_get c' k (ts_get c k0 s).2).1 = Some v -> (ts_get c' k s).1 = Some v)
    by (intros k0; apply ts_get_frame).
  assert (Hself : (c, op) ∈ ops ++ [(c, op)]) by set_solver.
  destruct op as [r t w|r key t w|sess n t w|sess key t w]; cbn [do_cache_op] in Hv.
  - unfold put_cached_order in Hv. destruct (negb _ || negb _) eqn:E; [by apply Hold|].
    destruct (negb (truthy _)); [by apply Hold|]. destruct (Z.leb_spec (tool_cache_order_ttl_seconds settings) 0);
      [by apply Hold|].
    apply ts_set_sound in Hv as [[-> ->]|Hv]; [|by apply Hold|done|done].
    bool_to_prop. exists (c, PutOrder r t w). by split.
  - unfold put_cached_course in Hv. destruct (negb _ || negb _) eqn:E; [by apply Hold|].
    destruct (negb (truthy _)); [by apply Hold|]. destruct (Z.leb_spec (tool_cache_course_ttl_seconds settings) 0);
      [by apply Hold|].
    apply ts_set_sound in Hv as [[-> ->]|Hv]; [|by apply Hold|done|done].
    bool_to_prop. exists (c, PutCourse r key t w). by split.
  - destruct (get_order_store c sess n t w s) as [Hg|[key Hg]]; rewrite Hg in Hv; eauto.
  - destruct (get_course_store c sess key t w s) as [Hg|[key' Hg]]; rewrite Hg in Hv; eauto.
Qed.

Lemma explained_later c c' ops ops' s :
  explained c ops s -> (server_now c <= server_now c')%Z -> ops ⊆ ops' -> explained c' ops' s.
Proof using.
  intros Hs Hle Hsub c0 k v Hle' Hv. destruct (Hs c0 k v ltac:(lia) Hv) as (op & Hin & Hw).
  exists op. split; [by apply Hsub|done].
Qed.

Lemma explained_get_order c c0 ops sess n t w s :
  explained c0 ops s -> explained c0 ops (get_cached_order settings db ct cu c sess n t w s).2.
Proof using All.
  intros Hs c' k v Hle Hv. apply (Hs c' k v Hle).
  destruct (get_order_store c sess n t w s) as [Hg|[key Hg]]; rewrite Hg in Hv; [done|].
  by apply ts_get_frame in Hv.
Qed.

Lemma run_cache_explained ops : forall c0 ops0 s c,
  explained c0 ops0 s -> clocks_ok c0 ops c -> explained c (ops0 ++ ops) (run_cache ops s).
Proof using All.
  induction ops as [|op ops IH]; intros c0 ops0 s c Hs Hc; cbn [run_cache foldl].
  - rewrite app_nil_r. intros c' k v Hle. apply Hs. cbn in Hc. lia.
  - destruct op as [c1 op]. destruct Hc as [Hle Hc].
    replace (ops0 ++ (c1, op) :: ops) with ((ops0 ++ [(c1, op)]) ++ ops) by (by rewrite <-app_assoc).
    apply (IH c1); [|done]. by apply (do_cache_op_explained c0 ops0 (c1, op)).
Qed.

Lemma parse_order_text c c' r : report_valid r = true ->
  parse_stored order_validate (wall c) (order_text c' r) =
  Ok (Build_CachedToolResult r (if f_truthy (wall c') then wall c' else wall c) redis).
Proof using All.
  intros Hv. unfold parse_stored, order_text. rewrite loads_dumps. cbn [rbind].
  change (obj_get (u "payload") _) with (JObj (order_dump r)). cbn iota.
  rewrite order_validate_dump by done. cbn [rbind].
  change (obj_get (u "cached_at") _) with (JFloat (wall c')).
  unfold stamp_of. cbn [jtruthy]. by destruct (f_truthy (wall c')).
Qed.

(** The shared half of an order lookup, when the store is explained. *)
Lemma read_shared_order c ops s n t w r :
  explained c ops s -> Forall (fun op => op_ok op.2) ops -> colon ∉ t -> forallb is_digit n = true ->
  (read_shared order_validate c (_redis_key t w TOOL_ORDER n) s).1 = Some r ->
  source r = redis /\
  exists c', (c', PutOrder (payload r) t w) ∈ ops /\ strip (or_order_no (payload r)) = n /\
    is_cacheable_order_report (payload r) = true /\
    cached_at r = (if f_truthy (wall c') then wall c' else wall c).
Proof using All.
  intros Hs Hops Ht Hn. unfold read_shared.
  destruct (ts_get c _ s) as [[raw|] s'] eqn:Eg; [|done].
  destruct (Hs c (_redis_key t w TOOL_ORDER n) raw) as ([c' op] & Hin & Hw); [done|by rewrite Eg|].
  rewrite Forall_forall in Hops. specialize (Hops _ Hin). cbn [snd] in Hops.
  destruct op as [rep t' w'|res key t' w'| |]; cbn [wrote] in Hw; try done.
  - destruct Hw as (Hk & -> & Hc), Hops as [Hv Ht'].
    apply redis_key_inj in Hk as (-> & -> & _ & Hk); [|done|done|by left|by left].
    rewrite (replace_char_id _ _ n) in Hk.
    + symmetry in Hk. apply replace_char_inv in Hk; [|by apply digits_plain].
      unfold order_text at 1. rewrite dumps_truthy. cbn [negb fst]. rewrite parse_order_text by done.
      cbn [ok_or_none]. intros [= <-]. cbn. split; [done|]. by exists c'.
    + intros Hc'. assert (Hd : forall x, x ∈ n -> is_digit x = true) by by apply forallb_elem.
      apply Hd in Hc'. vm_compute in Hc'. discriminate.
  - destruct Hw as (Hk & _). apply redis_key_inj in Hk as (_ & _ & Hk & _); [|done|done|by left|by right].
    vm_compute in Hk. discriminate.
Qed.

(** Where a cached report may come from: the conversation's own report of the order, or
    a report cached as a success for this tenant, this user and this number. *)
Definition report_source (ops : list (clock * cache_op)) (c : clock) (sess : SessionToolCacheState)
    (n t w : pystr) (r : CachedToolResult OrderReport) : Prop :=
  match source r with
  | session => exists st, last_order_structured sess = Some st /\ order_validate st = Ok (payload r) /\
                 strip (json_str (obj_get (u "order_no") st)) = strip n
  | redis => exists c', (c', PutOrder (payload r) t w) ∈ ops /\
               strip (or_order_no (payload r)) = strip n /\
               is_cacheable_order_report (payload r) = true /\
               cached_at r = (if f_truthy (wall c') then wall c' else wall c)
  end.

Lemma get_cached_order_ok ops s c sess n t w r :
  explained c ops s -> Forall (fun op => op_ok op.2) ops -> colon ∉ t ->
  (get_cached_order settings db ct cu c sess n t w s).1 = Some r ->
  can_access_order db ct cu (strip n) t (Some w) DIRECT_QUERY = true /\ report_source ops c sess n t w r.
Proof using All.
  intros Hs Hops Ht Hr. unfold get_cached_order in Hr. cbn zeta in Hr.
  destruct (negb (tool_cache_enabled settings)); [done|].
  destruct (negb (truthy (strip n))); [done|].
  destruct (can_access_order _ _ _ _ _ _ _) eqn:Ea; [|done]. split; [done|]. cbn [negb] in Hr.
  assert (Hd : forallb is_digit (strip n) = true).
  { apply access_digits in Ea. by rewrite strip_idemp in Ea. }
  assert (Hshared : forall r', (read_shared order_validate c (_redis_key t w TOOL_ORDER (strip n))
      s).1 = Some r' -> _) by
    exact (fun r' => read_shared_order c ops _ (strip n) t w r' Hs Hops Ht Hd).
  unfold report_source.
  destruct (last_order_structured sess) as [st|]; [|by destruct (Hshared _ Hr) as [-> ?]].
  destruct (bool_decide (st <> []) && _) eqn:Eb; [|by destruct (Hshared _ Hr) as [-> ?]].
  destruct (parse_session order_validate (wall c) st) as [rep|] eqn:Ep; cbn [ok_or_none] in Hr;
    [|by destruct (Hshared _ Hr) as [-> ?]].
  injection Hr as <-. unfold parse_session in Ep. rewrite rbind_ok in Ep. destruct Ep as (p & Hp & Ep).
  rewrite rbind_ok in Ep. destruct Ep as (a & _ & [= <-]). cbn. bool_to_prop. by exists st.
Qed.

Lemma run_cache_from_empty ops (s0 : S) c0 c :
  (forall c k, (ts_get c k s0).1 = None) -> clocks_ok c0 ops c -> explained c ops (run_cache ops s0).
Proof using All.
  intros Hempty Hc. apply (run_cache_explained ops c0 []); [|done].
  intros c' k v _ Hv. by rewrite Hempty in Hv.
Qed.

(** Whatever reports and answers have been cached, for any tenants and users, an order
    lookup answers only a user who may read that order now, and what it answers is
    the conversation's own report of that order, or a report that was cached, as a
    success, for this tenant, this user and this order number, with the time it was
    cached. *)
Theorem cached_order_isolated ops (s0 : S) c0 c sess n t w r :
  (forall c k, (ts_get c k s0).1 = None) ->
  Forall (fun op => op_ok op.2) ops -> colon ∉ t -> clocks_ok c0 ops c ->
  (get_cached_order settings db ct cu c sess n t w (run_cache ops s0)).1 = Some r ->
  can_access_order db ct cu (strip n) t (Some w) DIRECT_QUERY = true /\ report_source ops c sess n t w r.
Proof using All.
  intros Hempty Hops Ht Hc. apply get_cached_order_ok; [|done|done].
  by apply (run_cache_from_empty ops s0 c0).
Qed.

Lemma parse_course_text c c' r :
  parse_stored course_validate (wall c) (course_text c' r) =
  Ok (Build_CachedToolResult r (if f_truthy (wall c') then wall c' else wall c) redis).
Proof using All.
  unfold parse_stored, course_text. rewrite loads_dumps. cbn [rbind].
  change (obj_get (u "payload") _) with (JObj (course_dump r)). cbn iota.
  rewrite course_validate_dump. cbn [rbind].
  change (obj_get (u "cached_at") _) with (JFloat (wall c')).
  unfold stamp_of. cbn [jtruthy]. by destruct (f_truthy (wall c')).
Qed.

(** The same for course answers, up to what the key forgets: the shared answer was
    cached for this tenant and user under a key equal to the requested one once
    [":"] is read as ["_"]. *)
Theorem cached_course_isolated ops (s0 : S) c0 c sess key t w r :
  (forall c k, (ts_get c k s0).1 = None) ->
  Forall (fun op => op_ok op.2) ops -> colon ∉ t -> clocks_ok c0 ops c ->
  (get_cached_course settings c sess key t w (run_cache ops s0)).1 = Some r ->
  match source r with
  | session => exists st, last_course_structured sess = Some st /\ course_validate st = Ok (payload r) /\
                 last_course_structured_key sess = Some (strip key)
  | redis => exists c' key', (c', PutCourse (payload r) key' t w) ∈ ops /\
               replace_char colon 95 (strip key) = replace_char colon 95 (strip key') /\
               is_cacheable_course_result (payload r) = true
  end.
Proof using All.
  intros Hempty Hops Ht Hc Hr.
  assert (Hs := run_cache_from_empty ops s0 c0 c Hempty Hc).
  assert (Hshared : (read_shared course_validate c (_redis_key t w TOOL_COURSE (strip key))
      (run_cache ops s0)).1 = Some r -> source r = redis /\ exists c' key',
      (c', PutCourse (payload r) key' t w) ∈ ops /\
      replace_char colon 95 (strip key) = replace_char colon 95 (strip key') /\
      is_cacheable_course_result (payload r) = true).
  { unfold read_shared. destruct (ts_get c _ _) as [[raw|] s'] eqn:Eg; [|done].
    destruct (Hs c (_redis_key t w TOOL_COURSE (strip key)) raw) as ([c' op] & Hin & Hw);
      [done|by rewrite Eg|].
    rewrite Forall_forall in Hops. specialize (Hops _ Hin). cbn [snd] in Hops.
    destruct op as [rep t' w'|res key' t' w'| |]; cbn [wrote] in Hw; try done.
    - destruct Hw as (Hk & _), Hops as [_ Ht'].
      apply redis_key_inj in Hk as (_ & _ & Hk & _); [|done|done|by right|by left].
      vm_compute in Hk. discriminate.
    - destruct Hw as (Hk & -> & Hca).
      apply redis_key_inj in Hk as (-> & -> & _ & Hk); [|done|done|by right|by right].
      unfold course_text at 1. rewrite dumps_truthy. cbn [negb fst]. rewrite parse_course_text.
      cbn [ok_or_none]. intros [= <-]. split; [done|]. by exists c', key'. }
  unfold get_cached_course in Hr. cbn zeta in Hr.
  destruct (negb (tool_cache_enabled settings)); [done|].
  destruct (negb (truthy (strip key))); [done|].
  destruct (last_course_structured sess) as [st|]; [|by destruct (Hshared Hr) as [-> ?]].
  destruct (bool_decide (st <> []) && _) eqn:Eb; [|by destruct (Hshared Hr) as [-> ?]].
  destruct (parse_session course_validate (wall c) st) as [rep|] eqn:Ep; cbn [ok_or_none] in Hr;
    [|by destruct (Hshared Hr) as [-> ?]].
  injection Hr as <-. unfold parse_session in Ep. rewrite rbind_ok in Ep. destruct Ep as (p & Hp & Ep).
  rewrite rbind_ok in Ep. destruct Ep as (a & _ & [= <-]). cbn. bool_to_prop. by exists st.
Qed.

(** A good report is there until its time runs out: what [put_cached_order] caches,
    [get_cached_order] answers in a conversation with no report of its own, to a user
    who may still read the order, while the entry is fresh. *)
Theorem cached_order_roundtrip c c' sess r t w (s : S) :
  tool_cache_enabled settings = true -> (0 < tool_cache_order_ttl_seconds settings)%Z ->
  report_valid r = true -> is_cacheable_order_report r = true -> truthy (strip (or_order_no r)) = true ->
  can_access_order db ct cu (strip (or_order_no r)) t (Some w) DIRECT_QUERY = true ->
  last_order_structured sess = None -> (server_now c <= server_now c')%Z ->
  ts_fresh c (tool_cache_order_ttl_seconds settings) c' = true ->
  (get_cached_order settings db ct cu c' sess (or_order_no r) t w
     (put_cached_order settings c r t w s)).1 =
  Some (Build_CachedToolResult r (if f_truthy (wall c) then wall c else wall c') redis).
Proof using All.
  intros Hen Httl Hv Hca Htr Hacc Hsess Hle Hf.
  unfold get_cached_order, put_cached_order. rewrite Hen, Hca, Htr, Hacc, Hsess. cbn [negb orb].
  destruct (Z.leb_spec (tool_cache_order_ttl_seconds settings) 0); [lia|].
  unfold read_shared.
  set (key := _redis_key _ _ _ _). fold (order_text c r).
  pose proof (ts_set_get c c' key (order_text c r) _ s Hle Httl Hf) as Hg.
  destruct (ts_get c' key _) as [raw s']. cbn [fst] in Hg. subst raw.
  unfold order_text at 1. rewrite dumps_truthy. cbn [negb fst].
  by rewrite parse_order_text.
Qed.
End properties.

(** What the key forgets: two different questions share an entry. *)
Example course_key_collision t w :
  _redis_key t w TOOL_COURSE (normalize_course_cache_key (u "C:语言入门") None) =
  _redis_key t w TOOL_COURSE (normalize_course_cache_key (u "c_语言入门") None).
Proof. vm_compute. reflexivity. Qed.

(** ** Executable instances, for the examples *)

Module Strict.
Definition invalid {A} : res exn A := Raise (ValueError (u "ValidationError")).

Definition field_s (k : pystr) (d : list (pystr * json)) : res exn pystr :=
  match obj_get k d with JStr s => Ok s | _ => invalid end.
Definition field_o (k : pystr) (d : list (pystr * json)) : res exn (option pystr) :=
  match obj_get k d with JStr s => Ok (Some s) | JNull => Ok None | _ => invalid end.
Definition field_z (k : pystr) (d : list (pystr * json)) : res exn Z :=
  match obj_get k d with JInt n => Ok n | _ => invalid end.
Definition field_f (k : pystr) (d : list (pystr * json)) : res exn pyfloat :=
  match obj_get k d with JFloat x => Ok x | _ => invalid end.

Fixpoint all_ok {A B} (f : A -> res exn B) (l : list A) : res exn (list B) :=
  match l with
  | [] => Ok []
  | a :: l => let? b := f a in let? bs := all_ok f l in Ok (b :: bs)
  end.

Definition field_l {A} (parse : json -> res exn A) (k : pystr) (d : list (pystr * json)) : res exn (list A) :=
  match obj_get k d with JList l => all_ok parse l | _ => invalid end.
Definition as_str (v : json) : res exn pystr := match v with JStr s => Ok s | _ => invalid end.
Definition as_obj {A} (f : list (pystr * json) -> res exn A) (v : json) : res exn A :=
  match v with JObj d => f d | _ => invalid end.

Definition parse_step : json -> res exn OrderProgressStep := as_obj (fun d =>
  let? name := field_s (u "name") d in
  let? status := field_s (u "status") d in
  let? timestamp := field_o (u "timestamp") d in
  let? note := field_o (u "note") d in
  if bool_decide (status ∈ STEP_STATUSES) then
    Ok {| step_name := name; step_status := status; step_timestamp := timestamp; step_note := note |}
  else invalid).

Definition parse_order (d : list (pystr * json)) : res exn OrderReport :=
  let? order_no := field_s (u "order_no") d in
  let? product_name := field_s (u "product_name") d in
  let? course_code := field_s (u "course_code") d in
  let? order_type := field_s (u "order_type") d in
  let? current_status := field_s (u "current_status") d in
  let? progress_percent := field_z (u "progress_percent") d in
  let? amount := field_f (u "amount") d in
  let? steps := field_l parse_step (u "steps") d in
  let? visualization := field_s (u "visualization") d in
  let? summary := field_s (u "summary") d in
  let? oss_url := field_o (u "oss_url") d in
  Ok {| or_order_no := order_no; or_product_name := product_name; or_course_code := course_code;
        or_order_type := order_type; or_current_status := current_status;
        or_progress_percent := progress_percent; or_amount := amount; or_steps := steps;
        or_visualization := visualization; or_summary := summary; or_oss_url := oss_url |}.

Definition parse_module : json -> res exn CourseModule := as_obj (fun d =>
  let? name := field_s (u "name") d in
  let? topics := field_l as_str (u "topics") d in
  let? hours := field_f (u "duration_hours") d in
  let? outcome := field_s (u "outcome") d in
  Ok {| cm_name := name; cm_topics := topics; cm_duration_hours := hours; cm_outcome := outcome |}).
Definition parse_stage : json -> res exn LearningStage := as_obj (fun d =>
  let? stage := field_s (u "stage") d in
  let? modules := field_l as_str (u "modules") d in
  let? goal := field_s (u "goal") d in
  Ok {| ls_stage := stage; ls_modules := modules; ls_goal := goal |}).
Definition parse_evidence : json -> res exn EvidenceSection := as_obj (fun d =>
  let? source := field_s (u "source") d in
  let? section := field_s (u "section_path") d in
  let? module := field_s (u "module_name") d in
  let? excerpt := field_s (u "excerpt") d in
  Ok {| ev_source := source; ev_section_path := section; ev_module_name := module;
        ev_excerpt := excerpt |}).

Definition parse_course (d : list (pystr * json)) : res exn CourseConsultResult :=
  let? course_name := field_s (u "course_name") d in
  let? summary := field_s (u "summary") d in
  let? modules := field_l parse_module (u "modules") d in
  let? learning_path := field_l parse_stage (u "learning_path") d in
  let? prerequisites := field_l as_str (u "prerequisites") d in
  let? sources := field_l as_str (u "sources") d in
  let? evidence := field_l parse_evidence (u "evidence") d in
  Ok {| cr_course_name := course_name; cr_summary := summary; cr_modules := modules;
        cr_learning_path := learning_path; cr_prerequisites := prerequisites;
        cr_sources := sources; cr_evidence := evidence |}.

#[global] Instance strict : Validators :=
  { order_validate := parse_order; course_validate := parse_course }.

Lemma all_ok_map {A B} (f : A -> res exn B) (g : B -> A) l :
  (forall b, b ∈ l -> f (g b) = Ok b) -> all_ok f (map g l) = Ok l.
Proof.
  induction l as [|b l IH]; intros H; cbn [map all_ok]; [done|].
  rewrite (H b) by (by left). cbn [rbind]. rewrite IH by (intros; apply H; by right). done.
Qed.

Lemma all_str l : all_ok as_str (map JStr l) = Ok l.
Proof. by apply all_ok_map. Qed.

Lemma obj_get_cons k k' v d :
  obj_get k ((k', v) :: d) = if bool_decide (k' = k) then v else obj_get k d.
Proof. unfold obj_get. cbn [find fst]. by destruct (bool_decide (k' = k)). Qed.

(** Read the fields of an object whose keys are literals. *)
Ltac read_fields :=
  unfold field_s, field_o, field_z, field_f, field_l;
  repeat (rewrite obj_get_cons; lit_eq; cbn iota);
  cbn [rbind].

Lemma step_parse s : bool_decide (step_status s ∈ STEP_STATUSES) = true -> parse_step (step_dump s) = Ok s.
Proof.
  destruct s as [n st [t|] [o|]]; cbn [step_status]; intros Hs;
    unfold parse_step, step_dump, as_obj; cbn [step_name step_status step_timestamp step_note jopt];
    read_fields; by rewrite Hs.
Qed.

Lemma order_parse r extra : report_valid r = true ->
  parse_order (order_dump r ++ extra) = Ok r.
Proof.
  intros Hv. destruct r as [a b c d e f g steps i j [o|]]; unfold parse_order, order_dump; cbn [app
    or_order_no or_product_name or_course_code or_order_type or_current_status or_progress_percent
    or_amount or_steps or_visualization or_summary or_oss_url jopt];
    read_fields; (rewrite all_ok_map; [|intros s Hs; apply step_parse; by eapply forallb_elem in Hv]);
    cbn [rbind]; read_fields; done.
Qed.

Lemma module_parse m : parse_module (module_dump m) = Ok m.
Proof.
  destruct m. unfold parse_module, module_dump, as_obj, jstrs.
  cbn [cm_name cm_topics cm_duration_hours cm_outcome].
  read_fields. rewrite all_str. cbn [rbind]. by read_fields.
Qed.
Lemma stage_parse s : parse_stage (stage_dump s) = Ok s.
Proof.
  destruct s. unfold parse_stage, stage_dump, as_obj, jstrs. cbn [ls_stage ls_modules ls_goal].
  read_fields. rewrite all_str. cbn [rbind]. by read_fields.
Qed.
Lemma evidence_parse e : parse_evidence (evidence_dump e) = Ok e.
Proof.
  destruct e. unfold parse_evidence, evidence_dump, as_obj.
  cbn [ev_source ev_section_path ev_module_name ev_excerpt]. by read_fields.
Qed.

Lemma course_parse r extra : parse_course (course_dump r ++ extra) = Ok r.
Proof.
  destruct r. unfold parse_course, course_dump, jstrs. cbn [app cr_course_name cr_summary cr_modules
    cr_learning_path cr_prerequisites cr_sources cr_evidence].
  read_fields. rewrite all_ok_map by (intros; apply module_parse). cbn [rbind].
  read_fields. rewrite all_ok_map by (intros; apply stage_parse). cbn [rbind].
  read_fields. rewrite all_str. cbn [rbind].
  read_fields. rewrite all_str. cbn [rbind].
  read_fields. by rewrite all_ok_map by (intros; apply evidence_parse).
Qed.

#[global] Instance strict_laws : ValidatorsLaws.
Proof.
  split; cbn.
  - intros r Hr. rewrite <-(app_nil_r (order_dump r)). by apply order_parse.
  - intros r v Hr. by apply order_parse.
  - intros r. rewrite <-(app_nil_r (course_dump r)). apply course_parse.
  - intros r v. apply course_parse.
Qed.
End Strict.

(** ** Examples *)

Module Demo.
Definition settings : cache_settings :=
  {| tool_cache_enabled := true; tool_cache_order_ttl_seconds := 600;
     tool_cache_course_ttl_seconds := 1800 |}.
Definition report : OrderReport :=
  {| or_order_no := u "20251114001"; or_product_name := u "Python入门课"; or_course_code := [];
     or_order_type := u "purchase"; or_current_status := u "已支付"; or_progress_percent := 100;
     or_amount := f_one;
     or_steps := [{| step_name := u "支付"; step_status := u "completed"; step_timestamp := None;
                     step_note := Some (u "微信") |}];
     or_visualization := []; or_summary := u "订单已支付。"; or_oss_url := None |}.
Definition course : CourseConsultResult :=
  {| cr_course_name := u "Python入门课"; cr_summary := u "三个模块。"; cr_modules := [];
     cr_learning_path := []; cr_prerequisites := []; cr_sources := [u "python.md"]; cr_evidence := [] |}.
Definition at_ (n : Z) : clock := {| wall := f_of_int n; server_now := n |}.
Definition ops : list (clock * cache_op) :=
  [(at_ 1000, PutOrder report (u "demo") (u "alice"));
   (at_ 1010, GetOrder _EMPTY_SESSION (u "20251114001") (u "demo") (u "bob"));
   (at_ 1020, PutCourse course (u "q:python") (u "demo") (u "alice"))].
Abbreviation store := (@gmap (list N) (@list_eq_dec N numbers.N.eq_dec)
  (@list_countable N numbers.N.eq_dec N_countable) (json * spec_float)).
Definition after : store :=
  run_cache (T := json) settings demo_db (u "demo") (u "alice") ops ∅.

Lemma ops_ok : Forall (fun op => op_ok op.2) ops.
Proof.
  repeat constructor; try (vm_compute; reflexivity); apply (bool_decide_eq_true_1 (colon ∉ _));
    vm_compute; reflexivity.
Qed.
Lemma clocks : clocks_ok (at_ 0) ops (at_ 1300).
Proof. vm_compute. repeat split; discriminate. Qed.
Lemma tenant_ok : colon ∉ u "demo".
Proof. apply (bool_decide_eq_true_1 (colon ∉ _)). vm_compute. reflexivity. Qed.
End Demo.

Lemma cached_order_isolated_witness :
  can_access_order demo_db (u "demo") (u "alice") (strip (u " 20251114001")) (u "demo")
    (Some (u "alice")) DIRECT_QUERY = true /\
  exists c', (c', PutOrder Demo.report (u "demo") (u "alice")) ∈ Demo.ops /\
    strip (or_order_no Demo.report) = strip (u " 20251114001") /\
    is_cacheable_order_report Demo.report = true /\
    f_of_int 1000 = (if f_truthy (wall c') then wall c' else f_of_int 1300).
Proof.
  exact (cached_order_isolated (T := json) (S := Demo.store) Demo.settings demo_db (u "demo") (u "alice")
    Demo.ops ∅ (Demo.at_ 0) (Demo.at_ 1300) _EMPTY_SESSION (u " 20251114001") (u "demo") (u "alice")
    (Build_CachedToolResult Demo.report (f_of_int 1000) redis)
    (fun _ _ => eq_refl) Demo.ops_ok Demo.tenant_ok Demo.clocks ltac:(vm_compute; reflexivity)).
Defined.

Lemma cached_course_isolated_witness :
  exists c' key', (c', PutCourse Demo.course key' (u "demo") (u "alice")) ∈ Demo.ops /\
    replace_char colon 95 (strip (u "q_python")) = replace_char colon 95 (strip key') /\
    is_cacheable_course_result Demo.course = true.
Proof.
  exact (cached_course_isolated (T := json) (S := Demo.store) Demo.settings demo_db (u "demo") (u "alice")
    Demo.ops ∅ (Demo.at_ 0) (Demo.at_ 1300) _EMPTY_SESSION (u "q_python") (u "demo") (u "alice")
    (Build_CachedToolResult Demo.course (f_of_int 1020) redis)
    (fun _ _ => eq_refl) Demo.ops_ok Demo.tenant_ok Demo.clocks ltac:(vm_compute; reflexivity)).
Defined.

Lemma cached_order_roundtrip_witness :
  (get_cached_order (T := json) (S := Demo.store) Demo.settings demo_db (u "demo") (u "alice")
     (Demo.at_ 1599) _EMPTY_SESSION (u "20251114001") (u "demo") (u "alice")
     (put_cached_order Demo.settings (Demo.at_ 1000) Demo.report (u "demo") (u "alice") ∅)).1 =
  Some (Build_CachedToolResult Demo.report (f_of_int 1000) redis).
Proof.
  exact (cached_order_roundtrip (T := json) (S := Demo.store) Demo.settings demo_db (u "demo") (u "alice")
    (Demo.at_ 1000) (Demo.at_ 1599) _EMPTY_SESSION Demo.report (u "demo") (u "alice") ∅ eq_refl eq_refl
    ltac:(vm_compute; reflexivity) ltac:(vm_compute; reflexivity) eq_refl ltac:(vm_compute; reflexivity)
    eq_refl ltac:(vm_compute; discriminate) ltac:(vm_compute; reflexivity)).
Defined.
