(* ===== verification/Capability.v ===== *)
(** * Capabilities and their registry ([app/capabilities/types.py],
    [app/capabilities/registry.py])

    What the supervisor's loop knows of a tool: its declaration, how it takes its
    arguments from the turn and from what earlier steps observed, and its call. *)

From stdpp Require Import base list gmap strings.
From S2P Require Import Prelude PyText Errors Json Schemas Policy Window Orders Escalation ToolCache.

Open Scope py_scope.

(** The state the tools of a turn share: the cache's store and the failures counted so
    far ([None] outside [tool_failure_tracker_scope]). *)
Record tool_world (S : Type) := {
  tw_store : S;
  tw_tracker : option counts;
}.
Arguments tw_store {S}.
Arguments tw_tracker {S}.
Arguments Build_tool_world {S}.

Definition with_tracker {S} (t : option counts) (w : tool_world S) : tool_world S :=
  Build_tool_world (tw_store w) t.
Definition with_tool_store {S} (s : S) (w : tool_world S) : tool_world S :=
  Build_tool_world s (tw_tracker w).

Record CapabilitySpec := {
  spec_id : pystr;
  spec_tool_name : pystr;
  spec_description : pystr;
  spec_accepts : list pystr;
  spec_provides : list pystr;
}.

Record ExecutionContext := {
  ctx_query : pystr;
  ctx_tenant_id : pystr;
  ctx_user_id : pystr;
  ctx_history : list message;
  ctx_session_summary : option pystr;
  ctx_order_no : option pystr;
  ctx_last_order_no : option pystr;
  ctx_course_query : option pystr;
  ctx_last_course_query : option pystr;
  ctx_last_course_name : option pystr;
  ctx_bound_course_name : option pystr;
  ctx_persist : bool;
}.

Inductive capability_data : Type :=
| NoData
| OrderData (report : OrderReport)
| CourseData (result : CourseConsultResult).

Record CapabilityResult := {
  cap_capability_id : pystr;
  cap_ok : bool;
  cap_text : option pystr;
  cap_data : capability_data;
  cap_observations : dict;
  cap_error : option pystr;
  cap_escalated : bool;
}.

(** The [Capability] protocol, for tools acting on a state [W]. *)
Record Capability (W : Type) := {
  spec : CapabilitySpec;
  bind : PlanStep -> ExecutionContext -> dict -> res exn (option dict);
  ainvoke : ExecutionContext -> dict -> ST W exn CapabilityResult;
}.
Arguments spec {W}.
Arguments bind {W}.
Arguments ainvoke {W}.

(** [_REGISTRY], in registration order. *)
Section registry.
Context {W : Type}.

Definition registry : Type := list (pystr * Capability W).

(** A dictionary keeps the place of a key it already has. *)
Fixpoint registry_set (k : pystr) (v : Capability W) (r : registry) : registry :=
  match r with
  | [] => [(k, v)]
  | (k', v') :: r => if bool_decide (k = k') then (k', v) :: r else (k', v') :: registry_set k v r
  end.

Definition register (capability : Capability W) (r : registry) : res exn (Capability W) * registry :=
  let id := spec_id (spec capability) in
  if negb (truthy id) then (Raise (ValueError (u "CapabilitySpec.id 不能为空")), r)
  else (Ok capability, registry_set id capability r).

Definition lookup_capability (capability_id : pystr) (r : registry) : option (Capability W) :=
  snd <$> find (fun kv => bool_decide (capability_id = kv.1)) r.

Definition get_capability (capability_id : pystr) (r : registry) : res exn (Capability W) :=
  match lookup_capability capability_id r with
  | Some c => Ok c
  | None => Raise (OtherExc (u "KeyError") (u "未注册的能力：" ++ capability_id))
  end.

Definition list_capabilities (r : registry) : list (Capability W) := map snd r.
Definition spec_for (capability_id : pystr) (r : registry) : option CapabilitySpec :=
  spec <$> lookup_capability capability_id r.

Definition _FALLBACK_TOOL_NAME : list (pystr * pystr) :=
  [(u "order_query", u "tool_order_query"); (u "course_retrieve", u "retrieve_course_knowledge")].

Definition tool_name_for (capability_id : pystr) (r : registry) : pystr :=
  match spec_for capability_id r with
  | Some s => spec_tool_name s
  | None => default capability_id (assoc capability_id _FALLBACK_TOOL_NAME)
  end.

Definition unregister (capability_id : pystr) (r : registry) : registry :=
  filter (fun kv => negb (bool_decide (capability_id = kv.1))) r.
Definition reset_registry (r : registry) : registry := [].

(** ** Lookups after an update *)

Lemma lookup_registry_set k v k' r :
  lookup_capability k' (registry_set k v r) = if bool_decide (k' = k) then Some v else lookup_capability k' r.
Proof.
  unfold lookup_capability. induction r as [|[k0 v0] r IH]; cbn [registry_set find fst].
  - by case_bool_decide.
  - destruct (bool_decide (k = k0)) eqn:E; cbn [find fst]; bool_to_prop.
    + subst. by case_bool_decide.
    + destruct (bool_decide (k' = k0)) eqn:E'; bool_to_prop.
      * subst. by rewrite bool_decide_eq_false_2.
      * done.
Qed.
End registry.
Arguments registry : clear implicits.
