(* ===== verification/OrderCapability.v ===== *)
(** * The order tool ([app/capabilities/order.py])

    One entry for graph, supervisor, HTTP and ReACT: resolve the number, look the
    order up with access control, and when the lookup is busy or times out answer
    from the cache, hand over to a person, or say so. *)

From stdpp Require Import base list gmap strings.
From Stdlib Require Import Floats.SpecFloat.
From S2P Require Import Prelude PyText Errors PyFloat Json OrderNo Schemas Policy OrderAccess Orders Escalation ToolCache Capability.

Open Scope py_scope.

Definition BUSY_PRODUCT : pystr := u "查单服务繁忙".
Definition MISSING_ORDER_NO : pystr := u "未识别到订单号".

Definition format_order_answer (report : OrderReport) : pystr :=
  if truthy (or_visualization report)
  then or_summary report ++ newline ++ newline ++ or_visualization report
  else or_summary report.

Definition unusable_status (report : OrderReport) : bool :=
  bool_decide (or_current_status report ∈ UNCACHEABLE_STATUS).

Definition usable_product_name (report : OrderReport) : option pystr :=
  let name := strip (or_product_name report) in
  if negb (truthy name) || bool_decide (name = BUSY_PRODUCT) then None
  else if unusable_status report then None
  else Some name.

Definition usable_course_code (report : OrderReport) : option pystr :=
  let code := strip (or_course_code report) in
  if negb (truthy code) then None
  else if unusable_status report then None
  else if bool_decide (strip (or_product_name report) = BUSY_PRODUCT) then None
  else Some code.

Definition _busy_report (order_no : option pystr) (exc : exn) : OrderReport :=
  {| or_order_no := opt_str (ostr_or order_no (Some (u "unknown"))); or_product_name := BUSY_PRODUCT;
     or_course_code := []; or_order_type := []; or_current_status := u "busy";
     or_progress_percent := 0; or_amount := f_zero; or_steps := []; or_visualization := [];
     or_summary := u "当前查询订单请求较集中，建议 1 分钟后重试。（" ++ exn_message exc ++ u "）";
     or_oss_url := None |}.

(** [json.dumps] of a string, with [ensure_ascii=False]. *)
Definition hex_digit (n : N) : N := if (n <? 10)%N then (48 + n)%N else (87 + n)%N.
Definition json_escape (c : N) : pystr :=
  if (c =? 34)%N then [92; 34]%N
  else if (c =? 92)%N then [92; 92]%N
  else if (c =? 10)%N then [92; 110]%N
  else if (c =? 13)%N then [92; 114]%N
  else if (c =? 9)%N then [92; 116]%N
  else if (c =? 8)%N then [92; 98]%N
  else if (c =? 12)%N then [92; 102]%N
  else if (c <? 32)%N then [92; 117; 48; 48; hex_digit (c / 16); hex_digit (c mod 16)]%N
  else [c].
Definition json_quote (s : pystr) : pystr := [34%N] ++ (s ≫= json_escape) ++ [34%N].

Definition _tool_json (error hint : pystr) : pystr :=
  u "{" ++ json_quote (u "error") ++ u ": " ++ json_quote error ++ u ", " ++
  json_quote (u "hint") ++ u ": " ++ json_quote hint ++ u "}".

(** [(extract_order_no(order_no or "") or (order_no or "").strip()) or None]. *)
Definition explicit_number (order_no : option pystr) : option pystr :=
  str_or_none (opt_str (ostr_or (extract_order_no (opt_str order_no)) (Some (strip (opt_str order_no))))).

Definition _resolve_order_number (query : pystr) (order_no : option pystr) (user_id : pystr)
    (last_order_no : option pystr) (require_explicit_order_no : bool) : res exn (option pystr) :=
  if require_explicit_order_no then Ok (explicit_number order_no)
  else
    let? number := resolve_query_order_no query order_no (Some user_id) last_order_no in
    Ok (Some number).

(** How [run_order] ends: the pool ran the call, had no room in time, or gave up waiting
    (the call may still run). *)
Inductive pool_outcome : Type :=
| PoolRan
| PoolBusy (msg : pystr)
| PoolTimeout (msg : pystr).

Definition run_order {A} (pool : pool_outcome) (call : res exn A) : res exn A :=
  match pool with
  | PoolRan => call
  | PoolBusy msg => Raise (ToolPoolBusyError msg)
  | PoolTimeout msg => Raise (TimeoutError msg)
  end.

(** What a call depends on besides its arguments: the clock at the cache lookup, at the
    age computation, and at the end; the pool; the formatted local time; and the
    conversation's cached results. *)
Record call_env := {
  at_lookup : clock;
  at_age : clock;
  at_end : clock;
  pool : pool_outcome;
  stamp : pystr;
  session_cache : SessionToolCacheState;
}.

Section order_tool.
Context {T S : Type} `{JsonText T} `{Validators} `{ToolCacheStore T S}.
Context (settings : cache_settings) (esettings : escalation_settings).
Context (db : OrderDB) (current_tenant current_user : pystr).
(** [oss.put_text]. *)
Context (put_text : pystr -> pystr -> pystr -> res exn pystr).
Context (env : call_env).

Abbreviation tool := (ST (tool_world S) exn).

Definition lift {A} (r : res exn A) : tool A := fun w => (r, w).

(** [raise_if_escalated(escalation_for_transient(tool, key))]. *)
Definition escalate_if_needed (tool_id key : pystr) : tool unit := fun w =>
  let (d, t) := escalation_for_transient esettings tool_id key (tw_tracker w) in
  (raise_if_escalated d, with_tracker t w).

Definition lookup_cached_order (number tenant_id user_id : pystr)
    : tool (option (CachedToolResult OrderReport)) := fun w =>
  let (r, s) := get_cached_order settings db current_tenant current_user (at_lookup env) (session_cache env)
                  number tenant_id user_id (tw_store w) in
  (Ok r, with_tool_store s w).

Definition annotate_cached (cached : CachedToolResult OrderReport) : res exn OrderReport :=
  let age := f_max f_zero (f_sub (wall (at_age env)) (cached_at cached)) in
  annotate_stale_order (payload cached) age.

(** [busy] carries the exception of the busy branch. *)
Definition _handle_order_transient_failure (order_no : option pystr) (tenant_id user_id : pystr)
    (busy : option exn) : tool OrderReport :=
  let number := str_or (strip (opt_str order_no)) (u "unknown") in
  let! cached := lookup_cached_order number tenant_id user_id in
  match cached with
  | Some cached => lift (annotate_cached cached)
  | None =>
    do! escalate_if_needed TOOL_ORDER number in
    match busy with
    | Some exc => st_ret (_busy_report order_no exc)
    | None => st_raise (TimeoutError (u "订单查询超时，请稍后重试"))
    end
  end.

Definition _persist_success_cache (report : OrderReport) (tenant_id user_id : pystr) : tool unit :=
  if negb (is_cacheable_order_report report) then st_ret tt
  else st_modify (fun w =>
    with_tool_store (put_cached_order settings (at_end env) report tenant_id user_id (tw_store w)) w).

Definition _query_order_inner (query : pystr) (order_no : option pystr) (tenant_id user_id : pystr)
    (last_order_no : option pystr) (persist require_explicit_order_no : bool) : res exn OrderReport :=
  let? number :=
    (if require_explicit_order_no then
       match explicit_number order_no with
       | Some number => Ok number
       | None => Raise (ValueError MISSING_ORDER_NO)
       end
     else resolve_query_order_no query order_no (Some user_id) last_order_no) in
  let? report := fetch_order_report db current_tenant current_user number tenant_id (str_or_none query)
                   (Some user_id) in
  if persist then persist_order_report put_text (stamp env) report tenant_id else Ok report.

Definition query_order (query : pystr) (order_no : option pystr) (tenant_id user_id : pystr)
    (last_order_no : option pystr) (persist require_explicit_order_no use_order_pool : bool)
    : tool OrderReport :=
  let! resolved := lift (_resolve_order_number query order_no user_id last_order_no
                           require_explicit_order_no) in
  let number := ostr_or (ostr_or resolved order_no) last_order_no in
  let call := _query_order_inner query order_no tenant_id user_id last_order_no persist
                require_explicit_order_no in
  match (if use_order_pool then run_order (pool env) call else call) with
  | Ok report =>
    do! _persist_success_cache report tenant_id user_id in
    st_ret report
  | Raise (ToolPoolBusyError msg) =>
    _handle_order_transient_failure number tenant_id user_id (Some (ToolPoolBusyError msg))
  | Raise (TimeoutError _) => _handle_order_transient_failure number tenant_id user_id None
  | Raise e => st_raise e
  end.

Definition cache_state_updates_for_order (now : pyfloat) (report : OrderReport) : list (pystr * json) :=
  session_updates_for_order now report.

(** The [except] clauses of [order_to_tool_observation], in order. *)
Definition observation_error (e : exn) : option (tool pystr) :=
  match e with
  | ToolEscalationError _ => None
  | ValueError message =>
    Some (st_ret
      (if contains MISSING_ORDER_NO message
       then _tool_json MISSING_ORDER_NO (u "请向用户确认完整订单编号，不要编造")
       else _tool_json message (u "请核对订单编号，不要编造新单号")))
  | TimeoutError _ => Some (st_ret (_tool_json (u "订单查询超时") (u "请稍后重试，不要连续重复调用")))
  | e => if is_Exception e
         then Some (st_ret (_tool_json (u "订单查询失败") (take 120 (exn_message e))))
         else None
  end.

Definition order_to_tool_observation (order_no query : pystr) (tenant_id user_id : option pystr)
    : tool pystr :=
  let tenant := opt_str (ostr_or tenant_id (Some current_tenant)) in
  let uid := opt_str (ostr_or user_id (Some current_user)) in
  st_except
    (let! report := query_order query (Some order_no) tenant uid None false true false in
     st_ret (if bool_decide (or_current_status report = u "busy")
             then _tool_json (u "订单服务繁忙") (u "请求队列已满，请稍后再试，不要连续重复调用")
             else format_order_answer report))
    observation_error.

(** The LangChain tool: what the model may fill in is the number and the question. *)
Definition tool_order_query (order_no query : pystr) : tool pystr :=
  order_to_tool_observation order_no query None None.

(** ** [OrderCapability] *)

Definition order_spec : CapabilitySpec :=
  {| spec_id := u "order_query"; spec_tool_name := u "tool_order_query";
     spec_description := u "按订单号查询支付/开通/退款进度，并生成可视化报告。";
     spec_accepts := [u "order_no"];
     spec_provides := [u "product_name"; u "order_no"; u "course_code"] |}.

Definition order_bind (step : PlanStep) (ctx : ExecutionContext) (observations : dict)
    : res exn (option dict) :=
  Ok (Some (mkdict
    [(u "order_no", jopt (ctx_order_no ctx));
     (u "last_order_no", jopt (ostr_or (ctx_last_order_no ctx) (ctx_order_no ctx)));
     (u "query", JStr (ctx_query ctx)); (u "persist", JBool (ctx_persist ctx))])).

(** What a report lets later steps use. *)
Definition order_observations (report : OrderReport) : dict :=
  mkdict
    ((match usable_product_name report with Some p => [(u "product_name", JStr p)] | None => [] end) ++
     (match usable_course_code report with Some c => [(u "course_code", JStr c)] | None => [] end) ++
     (if truthy (or_order_no report) then [(u "order_no", JStr (or_order_no report))] else []) ++
     [(u "_cache_state_updates", JObj (session_updates_for_order (wall (at_end env)) report))]).

Definition order_failure (text error : option pystr) (escalated : bool) : CapabilityResult :=
  {| cap_capability_id := spec_id order_spec; cap_ok := false; cap_text := text; cap_data := NoData;
     cap_observations := ∅; cap_error := error; cap_escalated := escalated |}.

Definition order_result (report : OrderReport) : CapabilityResult :=
  {| cap_capability_id := spec_id order_spec; cap_ok := negb (unusable_status report);
     cap_text := Some (format_order_answer report); cap_data := OrderData report;
     cap_observations := order_observations report; cap_error := None; cap_escalated := false |}.

Definition order_ainvoke (ctx : ExecutionContext) (kwargs : dict) : tool CapabilityResult :=
  st_except
    (let! report := query_order (str_or (get_str (u "query") kwargs) (ctx_query ctx))
       (ostr_or (get_raw_ostr (u "order_no") kwargs) (ctx_order_no ctx))
       (ctx_tenant_id ctx) (ctx_user_id ctx)
       (ostr_or (ostr_or (get_raw_ostr (u "last_order_no") kwargs) (ctx_last_order_no ctx))
          (ctx_order_no ctx))
       (match kwargs !! u "persist" with Some v => jtruthy v | None => ctx_persist ctx end)
       false true in
     st_ret (order_result report))
    (fun e => match e with
     | ToolEscalationError d => Some (st_ret (order_failure (ed_message d) (Some (u "escalated")) true))
     | ValueError _ | TimeoutError _ =>
       Some (st_ret (order_failure (Some (exn_message e)) (Some (exn_message e)) false))
     | _ => None
     end).

Definition OrderCapability : Capability (tool_world S) :=
  {| spec := order_spec; bind := order_bind; ainvoke := order_ainvoke |}.
End order_tool.

(** ** Properties *)

Section properties.
Context {T S : Type} `{JsonTextLaws T} `{ValidatorsLaws} `{ToolCacheStoreLaws T S}.
Context (settings : cache_settings) (esettings : escalation_settings).
Context (db : OrderDB) (ct cu : pystr).
Context (put_text : pystr -> pystr -> pystr -> res exn pystr).
Context (env : call_env).

Abbreviation query_order_ := (query_order settings esettings db ct cu put_text env).

(** Where a report the tool returns may come from, when [ops] wrote the cache. *)
Inductive answered (ops : list (clock * cache_op)) (query tenant user : pystr) (s' : S)
    : OrderReport -> Prop :=
| answered_fresh number o r0 r :
  may_read db number (opt_str (ostr_or (Some tenant) (Some ct))) (_normalize_user_id (Some user))
    DIRECT_QUERY [] o ->
  order_report o (str_or_none query) = Ok r0 -> (r = r0 \/ exists url, r = with_oss_url (Some url) r0) ->
  explained (at_end env) (ops ++ [(at_end env, PutOrder r tenant user)]) s' ->
  answered ops query tenant user s' r
| answered_stale number cached r :
  can_access_order db ct cu (strip number) tenant (Some user) DIRECT_QUERY = true ->
  report_source ops (at_lookup env) (session_cache env) number tenant user cached ->
  annotate_cached env cached = Ok r -> explained (at_end env) ops s' ->
  answered ops query tenant user s' r
| answered_busy number msg :
  explained (at_end env) ops s' ->
  answered ops query tenant user s' (_busy_report number (ToolPoolBusyError msg)).

Lemma transient_failure_ok ops number tenant user busy w r w' query :
  explained (at_lookup env) ops (tw_store w) -> Forall (fun op => op_ok op.2) ops -> colon ∉ tenant ->
  (server_now (at_lookup env) <= server_now (at_end env))%Z ->
  (forall e, busy = Some e -> exists msg, e = ToolPoolBusyError msg) ->
  _handle_order_transient_failure settings esettings db ct cu env number tenant user busy w = (Ok r, w') ->
  answered ops query tenant user (tw_store w') r.
Proof using All.
  intros Hs Hops Ht Hle Hbusy. unfold _handle_order_transient_failure. cbn zeta.
  set (n := str_or _ _). intros Hq.
  apply st_bind_inv in Hq as [(cached & w1 & Hl & Hq)|(e & _ & [=])].
  unfold lookup_cached_order in Hl. destruct (get_cached_order _ _ _ _ _ _ _ _ _ _) as [c s1] eqn:Eg.
  injection Hl as <- <-.
  assert (Hs1 : explained (at_end env) ops s1).
  { eapply (explained_later _ _ _ ops); [|exact Hle|done].
    pose proof (explained_get_order settings db ct cu (at_lookup env) (at_lookup env) ops
      (session_cache env) n tenant user (tw_store w) Hs) as Hx. by rewrite Eg in Hx. }
  destruct c as [cached|].
  - injection Hq as Ha <-.
    destruct (get_cached_order_ok settings db ct cu ops (tw_store w) (at_lookup env) (session_cache env)
      n tenant user cached Hs Hops Ht ltac:(by rewrite Eg)) as [Hacc Hsrc].
    by eapply (answered_stale _ _ _ _ _ n).
  - apply st_bind_inv in Hq as [([] & w2 & He & Hq)|(e & _ & [=])].
    assert (Hw2 : tw_store w2 = s1).
    { unfold escalate_if_needed in He. destruct (escalation_for_transient _ _ _ _). by injection He as _ <-. }
    destruct busy as [e|]; [|done]. injection Hq as <- <-.
    destruct (Hbusy e eq_refl) as [msg ->]. rewrite Hw2. by apply answered_busy.
Qed.

(** C25.  Whatever state the cache is in, a report the tool returns was made from an order the
    user may read now; or is a cached report of the order asked about, which the user
    may read now and which this tenant's user had cached, marked as stale; or is the
    placeholder of a busy pool.  What it leaves in the cache is the fresh report, for
    this tenant and user. *)
Theorem query_order_safe ops query order_no tenant user last_order_no persist explicit use_pool w r w' :
  explained (at_lookup env) ops (tw_store w) -> Forall (fun op => op_ok op.2) ops -> colon ∉ tenant ->
  (server_now (at_lookup env) <= server_now (at_end env))%Z ->
  query_order_ query order_no tenant user last_order_no persist explicit use_pool w = (Ok r, w') ->
  answered ops query tenant user (tw_store w') r.
Proof using All.
  intros Hs Hops Ht Hle Hq. unfold query_order in Hq.
  apply st_bind_inv in Hq as [(resolved & w1 & Hl & Hq)|(e & _ & [=])].
  injection Hl as _ <-. cbn zeta in Hq.
  set (call := _query_order_inner _ _ _ _ _ _ _ _ _ _ _ _) in Hq.
  destruct (if use_pool then run_order (pool env) call else call) as [rep|e] eqn:Ec.
  - apply st_bind_inv in Hq as [([] & w2 & Hp & Hq)|(e & _ & [=])]. injection Hq as <- <-.
    assert (Hcall : call = Ok rep) by (destruct use_pool; [by destruct (pool env)|done]).
    unfold call, _query_order_inner in Hcall. rewrite rbind_ok in Hcall.
    destruct Hcall as (number & _ & Hcall). rewrite rbind_ok in Hcall. destruct Hcall as (r0 & Hf & Hr).
    apply fetched_report in Hf as (o & Hm & Ho).
    eapply answered_fresh; [exact Hm|exact Ho| |].
    + destruct persist; [right|left; by injection Hr].
      unfold persist_order_report in Hr. rewrite rbind_ok in Hr. destruct Hr as (url & _ & [= <-]). eauto.
    + unfold _persist_success_cache in Hp. destruct (negb (is_cacheable_order_report rep)).
      * injection Hp as <-. eapply explained_later; [exact Hs|done|set_solver].
      * injection Hp as <-. cbn [tw_store with_tool_store].
        exact (do_cache_op_explained settings db ct cu (at_lookup env) ops
          (at_end env, PutOrder rep tenant user) (tw_store w) Hs Hle).
  - destruct e; try done; (eapply transient_failure_ok; [exact Hs|done..| |exact Hq]); [done|].
    intros e [= <-]. by exists msg.
Qed.

(** When the pool refuses a call or times out and nothing is cached, the failure is
    counted; the turn hands over to a person once the failures of this order reach
    the threshold, and before that answers with the busy placeholder or the timeout. *)
Theorem query_order_degrades query order_no tenant user last_order_no persist explicit w t resolved :
  let number := ostr_or (ostr_or resolved order_no) last_order_no in
  let key := str_or (strip (opt_str number)) (u "unknown") in
  let failures := (count_of TOOL_ORDER key t + 1)%Z in
  _resolve_order_number query order_no user last_order_no explicit = Ok resolved ->
  pool env <> PoolRan -> tw_tracker w = Some t ->
  (get_cached_order settings db ct cu (at_lookup env) (session_cache env) key tenant user (tw_store w)).1 = None ->
  let '(r, w') := query_order_ query order_no tenant user last_order_no persist explicit true w in
  tw_tracker w' = Some (record_transient TOOL_ORDER key t).2 /\
  r = if tool_escalation_enabled esettings && (tool_escalation_transient_threshold esettings <=? failures)%Z
      then Raise (ToolEscalationError
        {| escalate := true; ed_reason := Some transient_exhausted;
           ed_message := Some (build_handoff_answer true (Some transient_exhausted)) |})
      else match pool env with
           | PoolBusy msg => Ok (_busy_report number (ToolPoolBusyError msg))
           | _ => Raise (TimeoutError (u "订单查询超时，请稍后重试"))
           end.
Proof using All.
  intros number key failures Hres Hpool Htr Hnone. unfold query_order, st_bind at 1, lift at 1.
  rewrite Hres. cbn zeta. fold number.
  assert (Hhandle : forall busy, _handle_order_transient_failure settings esettings db ct cu env number
      tenant user busy w =
    (if tool_escalation_enabled esettings && (tool_escalation_transient_threshold esettings <=? failures)%Z
     then Raise (ToolEscalationError
        {| escalate := true; ed_reason := Some transient_exhausted;
           ed_message := Some (build_handoff_answer true (Some transient_exhausted)) |})
     else match busy with
          | Some e => Ok (_busy_report number e)
          | None => Raise (TimeoutError (u "订单查询超时，请稍后重试"))
          end,
     Build_tool_world (get_cached_order settings db ct cu (at_lookup env) (session_cache env) key tenant
       user (tw_store w)).2 (Some (record_transient TOOL_ORDER key t).2))).
  { intros busy. unfold _handle_order_transient_failure, lookup_cached_order, st_bind. cbn zeta. fold key.
    destruct (get_cached_order _ _ _ _ _ _ _ _ _ _) as [c s1]. cbn [fst] in Hnone. subst c. cbn iota.
    unfold escalate_if_needed, escalation_for_transient, with_tool_store, with_tracker.
    cbn [tw_tracker tw_store]. rewrite Htr. cbn [record_transient]. fold failures.
    destruct (tool_escalation_enabled esettings); cbn [negb andb]; [|by destruct busy].
    destruct (Z.ltb_spec failures (tool_escalation_transient_threshold esettings)),
      (Z.leb_spec (tool_escalation_transient_threshold esettings) failures); try lia; [|done].
    by destruct busy. }
  destruct (pool env) as [|msg|msg]; [done|..]; cbn [run_order]; by rewrite Hhandle.
Qed.

Lemma observation_error_cases e :
  (exists s, observation_error (S := S) e = Some (st_ret s)) \/
  (observation_error (S := S) e = None /\
   ((exists d, e = ToolEscalationError d) \/ is_Exception e = false)).
Proof using.
  destruct e; try (left; eexists; reflexivity); right; (split; [reflexivity|]); eauto.
Qed.

Lemma missing_in_missing : contains MISSING_ORDER_NO MISSING_ORDER_NO = true.
Proof using. vm_compute. reflexivity. Qed.

Lemma query_no_number query tenant uid w {order_no} : explicit_number (Some order_no) = None ->
  query_order_ query (Some order_no) tenant uid None false true false w = (Raise (ValueError MISSING_ORDER_NO), w).
Proof using.
  intros Hn. unfold query_order, _query_order_inner. unfold st_bind at 1, lift, _resolve_order_number.
  rewrite Hn. reflexivity.
Qed.

(** The ReACT tool never guesses and never crashes the agent: without a number in its own
    argument it reports the number missing, whatever the question says, and touches
    nothing; and the only errors that leave it are the hand-over and a cancellation. *)
Theorem tool_order_query_contained order_no query w :
  let '(r, w') := tool_order_query settings esettings db ct cu put_text env order_no query w in
  (forall e, r = Raise e -> (exists d, e = ToolEscalationError d) \/ is_Exception e = false) /\
  (explicit_number (Some order_no) = None ->
   w' = w /\ r = Ok (_tool_json MISSING_ORDER_NO (u "请向用户确认完整订单编号，不要编造"))).
Proof using All.
  unfold tool_order_query, order_to_tool_observation.
  set (m := st_bind _ _). destruct (st_except m _ w) as [r w'] eqn:E. split.
  - intros e ->. apply st_except_inv in E as [(a & _ & [=])|(e0 & s1 & _ & E)].
    destruct (observation_error_cases e0) as [(s & Hs)|[Hs He]]; rewrite Hs in E.
    + unfold st_ret in E. discriminate E.
    + destruct E as [He' _]. assert (e = e0) as -> by congruence. exact He.
  - intros Hn. unfold st_except, m in E. rewrite (st_bind_raise _ _ _ _ _ (query_no_number _ _ _ w Hn)) in E.
    unfold observation_error in E. rewrite missing_in_missing in E. unfold st_ret in E.
    apply pair_equal_spec in E as [<- <-]. done.
Qed.
End properties.

(** ** Examples *)

Module Demo.
Definition esettings : escalation_settings :=
  {| tool_escalation_enabled := true; tool_escalation_transient_threshold := 2 |}.
Definition put_text (filename text tenant : pystr) : res exn pystr := Ok (u "/oss/" ++ filename).
Definition env (p : pool_outcome) : call_env :=
  {| at_lookup := ToolCache.Demo.at_ 1300; at_age := ToolCache.Demo.at_ 1300;
     at_end := ToolCache.Demo.at_ 1301; pool := p; stamp := u "20251114120000";
     session_cache := _EMPTY_SESSION |}.
Definition world : tool_world ToolCache.Demo.store :=
  Build_tool_world ToolCache.Demo.after (Some ∅).
Definition query_order_ (p : pool_outcome) (query : pystr) :=
  query_order (T := json) (S := ToolCache.Demo.store) ToolCache.Demo.settings esettings demo_db (u "demo")
    (u "alice") put_text (env p) query None (u "demo") (u "alice") None true false true.

Lemma world_explained : explained (T := json) (at_lookup (env PoolRan)) ToolCache.Demo.ops (tw_store world).
Proof.
  exact (run_cache_from_empty (T := json) (S := ToolCache.Demo.store) ToolCache.Demo.settings demo_db
    (u "demo") (u "alice") ToolCache.Demo.ops ∅ (ToolCache.Demo.at_ 0) (ToolCache.Demo.at_ 1300)
    (fun _ _ => eq_refl) ToolCache.Demo.clocks).
Qed.
End Demo.

(** A timeout answered from the cache. *)
Lemma query_order_safe_witness :
  match Demo.query_order_ (PoolTimeout []) (u "查询订单20251114001") Demo.world with
  | (Ok r, w) =>
    answered (T := json) demo_db (u "demo") (u "alice") (Demo.env (PoolTimeout [])) ToolCache.Demo.ops
      (u "查询订单20251114001") (u "demo") (u "alice") (tw_store w) r
  | (Raise _, _) => False
  end.
Proof.
  assert (Hok : is_ok (Demo.query_order_ (PoolTimeout []) (u "查询订单20251114001") Demo.world).1 = true)
    by (vm_compute; reflexivity).
  unfold Demo.query_order_ in *.
  pose proof (fun r w => query_order_safe (T := json) (S := ToolCache.Demo.store) ToolCache.Demo.settings
    Demo.esettings demo_db (u "demo") (u "alice") Demo.put_text (Demo.env (PoolTimeout []))
    ToolCache.Demo.ops (u "查询订单20251114001") None (u "demo") (u "alice") None true false true Demo.world
    r w Demo.world_explained ToolCache.Demo.ops_ok ToolCache.Demo.tenant_ok
    ltac:(vm_compute; discriminate)) as H.
  revert Hok H. generalize (query_order (T := json) (S := ToolCache.Demo.store) ToolCache.Demo.settings
    Demo.esettings demo_db (u "demo") (u "alice") Demo.put_text (Demo.env (PoolTimeout []))
    (u "查询订单20251114001") None (u "demo") (u "alice") None true false true Demo.world).
  intros [[r|e] w] Hok H; [exact (H r w eq_refl)|discriminate Hok].
Defined.

(** Two timeouts on an uncached order hand over. *)
Lemma query_order_degrades_witness :
  let w1 := (Demo.query_order_ (PoolTimeout []) (u "订单20251114003") Demo.world).2 in
  (Demo.query_order_ (PoolTimeout []) (u "订单20251114003") w1).1 =
  Raise (ToolEscalationError
    {| escalate := true; ed_reason := Some transient_exhausted;
       ed_message := Some (build_handoff_answer true (Some transient_exhausted)) |}).
Proof.
  cbv zeta.
  pose proof (query_order_degrades (T := json) (S := ToolCache.Demo.store) ToolCache.Demo.settings
    Demo.esettings demo_db (u "demo") (u "alice") Demo.put_text (Demo.env (PoolTimeout []))
    (u "订单20251114003") None (u "demo") (u "alice") None true false
    (Demo.query_order_ (PoolTimeout []) (u "订单20251114003") Demo.world).2
    (record_transient TOOL_ORDER (u "20251114003") ∅).2 (Some (u "20251114003"))
    ltac:(vm_compute; reflexivity) ltac:(discriminate) ltac:(vm_compute; reflexivity)
    ltac:(vm_compute; reflexivity)) as H.
  cbv zeta in H. unfold Demo.query_order_ in *.
  match type of H with let '(r, w') := ?x in _ => destruct x as [r w'] end.
  destruct H as [_ Hr]. cbn [fst]. rewrite Hr. vm_compute. reflexivity.
Defined.

Lemma tool_order_query_contained_witness :
  (tool_order_query (T := json) (S := ToolCache.Demo.store) ToolCache.Demo.settings Demo.esettings demo_db
    (u "demo") (u "alice") Demo.put_text (Demo.env PoolRan) (u "  ") (u "查询订单20251114001")
    Demo.world).1 =
  Ok (_tool_json MISSING_ORDER_NO (u "请向用户确认完整订单编号，不要编造")).
Proof.
  pose proof (tool_order_query_contained (T := json) (S := ToolCache.Demo.store) ToolCache.Demo.settings
    Demo.esettings demo_db (u "demo") (u "alice") Demo.put_text (Demo.env PoolRan) (u "  ")
    (u "查询订单20251114001") Demo.world) as H.
  match type of H with let '(r, w') := ?x in _ => destruct x as [r w'] end.
  destruct H as [_ H]. exact (proj2 (H ltac:(vm_compute; reflexivity))).
Defined.
