(* ===== verification/CourseCapability.v ===== *)
(** * The course tool ([app/capabilities/course.py])

    Course retrieval for supervisor and ReACT: what to search for, the search (the
    retrieval agent of [app/agents/rag.py], a parameter here), and the fallbacks when
    it fails. *)

From stdpp Require Import base list gmap strings.
From Stdlib Require Import Floats.SpecFloat.
From S2P Require Import Prelude PyText Errors PyFloat Json Schemas Policy Window OrderAccess Orders Escalation ToolCache Capability.

Open Scope py_scope.

#[export] Instance course_source_eq_dec : EqDecision course_source_t.
Proof. solve_decision. Defined.

Definition NOT_FOUND_COURSE : pystr := u "未找到课程".

(** ** [format_course_answer] ([app/agents/rag.py]) *)

Definition evidence_line (item : EvidenceSection) : pystr :=
  let label := str_or (str_or (ev_module_name item) (ev_section_path item)) (ev_source item) in
  u "- " ++ ev_source item ++ u " · " ++ label ++ u "：" ++ ev_excerpt item.

Definition module_lines (index : nat) (module : CourseModule) : list pystr :=
  let topics := match cm_topics module with [] => u "见大纲" | topics => join (u "、") topics end in
  let extra := if f_truthy (cm_duration_hours module)
               then u "（约 " ++ fmt_g (cm_duration_hours module) ++ u " 小时）" else [] in
  [dec (Z.of_nat (S index)) ++ u ". **" ++ cm_name module ++ u "**" ++ extra ++ u "：" ++ topics] ++
  (if truthy (cm_outcome module) then [u "   - 学习目标：" ++ cm_outcome module] else []).

Definition stage_line (stage : LearningStage) : pystr :=
  u "- **" ++ ls_stage stage ++ u "**：" ++ join (u " → ") (ls_modules stage) ++ u "。目标：" ++
  ls_goal stage.

(** A heading and its lines, when there are any. *)
Definition section (title : pystr) (lines : list pystr) : list pystr :=
  match lines with [] => [] | _ => (newline ++ title) :: lines end.

Definition format_course_answer (result : CourseConsultResult) : pystr :=
  match cr_modules result with
  | [] =>
    match cr_evidence result with
    | [] => cr_summary result
    | evidence =>
      join newline ([cr_summary result; []; u "### 参考依据"] ++ map evidence_line evidence)
    end
  | modules =>
    join newline
      ([u "## " ++ cr_course_name result; cr_summary result; []; u "### 课程模块"]
       ++ concat (imap module_lines modules)
       ++ section (u "### 学习路径") (map stage_line (cr_learning_path result))
       ++ section (u "### 前置要求") (map (fun item => u "- " ++ item) (cr_prerequisites result))
       ++ section (u "### 参考依据") (map evidence_line (cr_evidence result)))
  end.

(** ** What to search for *)

Definition _course_search_query (step : PlanStep) (ctx : ExecutionContext) (observations : dict)
    : option pystr :=
  if decide (ps_course_source step = Some from_order_product) then
    let name := strip (get_str (u "product_name") observations) in
    let code := strip (get_str (u "course_code") observations) in
    str_or_none (str_or name code)
  else
    str_or_none (opt_str (ostr_or (ostr_or (ostr_or (ctx_bound_course_name ctx)
      (ctx_last_course_name ctx)) (ctx_course_query ctx)) (Some (ctx_query ctx)))).

(** A row of the course table ([app/db/courses.py]). *)
Record Course := { course_tenant_id : pystr; course_code : pystr; course_name : pystr }.

(** [load_course_catalog]: the table's rows, in its order; [None] is a table that cannot be
    read, which counts as empty. *)
Definition load_course_catalog (table : option (list Course)) (tenant_id : option pystr)
    : list Course :=
  filter (fun c => negb (otruthy tenant_id) || bool_decide (course_tenant_id c = opt_str tenant_id))
    (default [] table).

Definition resolve_course_code (table : option (list Course)) (tenant_id : pystr)
    (code name : option pystr) : option pystr :=
  let stripped_code := strip (opt_str code) in
  if truthy stripped_code then Some stripped_code
  else
    let stripped_name := strip (opt_str name) in
    if negb (truthy stripped_name) then None
    else
      let catalog := load_course_catalog table (Some tenant_id) in
      course_code <$> find (fun c => bool_decide (course_tenant_id c = tenant_id)
                                     && bool_decide (course_name c = stripped_name)) catalog.

Definition _bound_course_code (table : option (list Course)) (ctx : ExecutionContext)
    (observations : dict) (step : PlanStep) : pystr :=
  let code := strip (get_str (u "course_code") observations) in
  if truthy code then code
  else if decide (ps_course_source step = Some from_order_product) then
    opt_str (resolve_course_code table (ctx_tenant_id ctx) None
               (get_raw_ostr (u "product_name") observations))
  else [].

(** The clock at the cache lookup, at the age computation, and at the end; and the
    conversation's cached results. *)
Record course_env := {
  ce_lookup : clock;
  ce_age : clock;
  ce_end : clock;
  ce_session : SessionToolCacheState;
}.

Section course_tool.
Context {T S : Type} `{JsonText T} `{Validators} `{ToolCacheStore T S}.
Context (settings : cache_settings) (esettings : escalation_settings).
Context (current_tenant current_user : pystr).
(** The course table. *)
Context (courses : option (list Course)).
(** [consult_course(query, tenant, history, last_course_query, last_course_name,
    session_summary, course_code)]. *)
Context (consult_course : pystr -> pystr -> list message -> option pystr -> option pystr ->
  option pystr -> option pystr -> res exn CourseConsultResult).
Context (env : course_env).

Abbreviation tool := (ST (tool_world S) exn).

(** [raise_if_escalated(escalation_for_transient(TOOL_COURSE, key))]. *)
Definition escalate_course (key : pystr) : tool unit := fun w =>
  let (d, t) := escalation_for_transient esettings TOOL_COURSE key (tw_tracker w) in
  (raise_if_escalated d, with_tracker t w).

(** The handler of a failed search; [exc] is re-raised when nothing else answers. *)
Definition course_failure (resource_key tenant uid : pystr) (exc : exn) : tool CourseConsultResult := fun w =>
  let (cached, s) := get_cached_course settings (ce_lookup env) (ce_session env) resource_key tenant uid
                       (tw_store w) in
  let w := with_tool_store s w in
  match cached with
  | Some cached =>
    (annotate_stale_course (payload cached)
       (f_max f_zero (f_sub (wall (ce_age env)) (cached_at cached))), w)
  | None => (do! escalate_course resource_key in st_raise exc) w
  end.

Definition retrieve_course (query : pystr) (tenant_id : option pystr) (history : list message)
    (last_course_query last_course_name session_summary course_code user_id : option pystr)
    : tool CourseConsultResult :=
  let tenant := opt_str (ostr_or tenant_id (Some current_tenant)) in
  let uid := opt_str (ostr_or user_id (Some current_user)) in
  let resource_key := normalize_course_cache_key query course_code in
  match consult_course query tenant history last_course_query last_course_name session_summary course_code with
  | Raise exc => if is_Exception exc then course_failure resource_key tenant uid exc else st_raise exc
  | Ok result =>
    if is_cacheable_course_result result then
      do! st_modify (fun w => with_tool_store
        (put_cached_course settings (ce_end env) result resource_key tenant uid (tw_store w)) w) in
      st_ret result
    else st_ret result
  end.

(** [ToolContext], the turn's context the ReACT tool reads ([app/tool_context.py]). *)
Record ToolContext := {
  tc_history : list message;
  tc_last_course_query : option pystr;
  tc_last_course_name : option pystr;
  tc_session_summary : option pystr;
  tc_course_code : option pystr;
}.

(** What [get_tool_context] returns inside [tool_context_scope]. *)
Definition tool_context_scope (history : list message)
    (last_course_query last_course_name session_summary course_code : option pystr) : ToolContext :=
  {| tc_history := history; tc_last_course_query := _strip last_course_query;
     tc_last_course_name := _strip last_course_name; tc_session_summary := _strip session_summary;
     tc_course_code := _strip course_code |}.

(** The LangChain tool. *)
Definition retrieve_course_knowledge (ctx : ToolContext) (question : pystr) : tool pystr :=
  let! result := retrieve_course question (Some current_tenant) (tc_history ctx)
    (tc_last_course_query ctx) (tc_last_course_name ctx) (tc_session_summary ctx) (tc_course_code ctx)
    (Some current_user) in
  st_ret (format_course_answer result).

(** ** [CourseCapability] *)

Definition course_spec : CapabilitySpec :=
  {| spec_id := u "course_retrieve"; spec_tool_name := u "retrieve_course_knowledge";
     spec_description := u "检索课程大纲，返回模块与学习路径。";
     spec_accepts := [u "course_query"; u "product_name"; u "course_code"];
     spec_provides := [u "course_name"] |}.

Definition course_bind (step : PlanStep) (ctx : ExecutionContext) (observations : dict)
    : res exn (option dict) :=
  let search_query := _course_search_query step ctx observations in
  let code := _bound_course_code courses ctx observations step in
  let kwargs (query : pystr) : dict :=
    mkdict
      ([(u "query", JStr query);
        (u "last_course_query", jopt (ostr_or (ctx_course_query ctx) (ctx_bound_course_name ctx)));
        (u "last_course_name",
          jopt (ostr_or (ostr_or (ctx_last_course_name ctx) (ctx_bound_course_name ctx))
                  (get_raw_ostr (u "product_name") observations)))] ++
       (if truthy code then [(u "course_code", JStr code)] else [])) in
  if decide (ps_course_source step = Some from_order_product) then
    if negb (otruthy search_query) && negb (truthy code) then Ok None
    else Ok (Some (kwargs (opt_str (ostr_or search_query (Some code)))))
  else if negb (otruthy search_query) then Ok None
  else Ok (Some (kwargs (opt_str search_query))).

Definition course_failed (text error : option pystr) (escalated : bool) : CapabilityResult :=
  {| cap_capability_id := spec_id course_spec; cap_ok := false; cap_text := text; cap_data := NoData;
     cap_observations := ∅; cap_error := error; cap_escalated := escalated |}.

Definition course_result (search_query resource_key : pystr) (course : CourseConsultResult)
    : CapabilityResult :=
  if bool_decide (cr_course_name course = NOT_FOUND_COURSE) then
    {| cap_capability_id := spec_id course_spec; cap_ok := false; cap_text := None;
       cap_data := CourseData course;
       cap_observations := mkdict [(u "course_name", JStr search_query)];
       cap_error := None; cap_escalated := false |}
  else
    {| cap_capability_id := spec_id course_spec; cap_ok := true;
       cap_text := Some (format_course_answer course); cap_data := CourseData course;
       cap_observations := mkdict
         [(u "course_name", JStr (str_or (cr_course_name course) search_query));
          (u "_cache_state_updates",
            JObj (session_updates_for_course (wall (ce_end env)) course resource_key))];
       cap_error := None; cap_escalated := false |}.

Definition course_ainvoke (ctx : ExecutionContext) (kwargs : dict) : tool CapabilityResult :=
  let search_query := get_str (u "query") kwargs in
  let course_code := get_raw_ostr (u "course_code") kwargs in
  let resource_key := normalize_course_cache_key search_query course_code in
  st_except
    (let! course := retrieve_course search_query (Some (ctx_tenant_id ctx)) (ctx_history ctx)
       (get_raw_ostr (u "last_course_query") kwargs) (get_raw_ostr (u "last_course_name") kwargs)
       (ctx_session_summary ctx) course_code (Some (ctx_user_id ctx)) in
     st_ret (course_result search_query resource_key course))
    (fun e => match e with
     | ToolEscalationError d => Some (st_ret (course_failed (ed_message d) (Some (u "escalated")) true))
     | _ => None
     end).

Definition CourseCapability : Capability (tool_world S) :=
  {| spec := course_spec; bind := course_bind; ainvoke := course_ainvoke |}.
End course_tool.
