(* ===== verification/Executors.v ===== *)
(** * The pool of the order tool ([app/executors.py])

    A lookup runs on a pool of threads behind a semaphore that bounds what runs and what
    waits.  Callers, workers and the pool act in any order: an action is one of their
    steps, between which the others may act. *)

From stdpp Require Import base list strings.
From S2P Require Import Prelude PyText Errors OrderCapability.
Open Scope py_scope.

(** ** Making the pool *)

Definition _pool_capacity (workers queue_factor : Z) : Z := Z.max 1 (Z.max 1 workers * Z.max 1 queue_factor).

(** The module's variables: the pool and the semaphore, by number, and the capacity. *)
Record globals := { g_pool : option nat; g_semaphore : option nat; g_capacity : Z; g_next : nat }.
Definition no_globals : globals := {| g_pool := None; g_semaphore := None; g_capacity := 0; g_next := 0 |}.

(** Where a thread is in [_get_order_pool]: nothing holds a lock there. *)
Inductive getting : Type :=
| Entered
| Unmade             (* it has seen no pool *)
| PoolMade (cap : Z)
| SemaphoreMade (cap : Z)
| Made               (* the pool is there *)
| Got (pool semaphore : option nat).

Definition get_step (workers queue_factor : Z) (at_ : getting) (g : globals) : getting * globals :=
  match at_ with
  | Entered =>
    if (workers <=? 0)%Z then (Got None None, g)
    else match g_pool g with None => (Unmade, g) | Some _ => (Made, g) end
  | Unmade =>
    (PoolMade (_pool_capacity workers queue_factor),
     {| g_pool := Some (g_next g); g_semaphore := g_semaphore g; g_capacity := g_capacity g; g_next := S (g_next g) |})
  | PoolMade cap =>
    (SemaphoreMade cap, {| g_pool := g_pool g; g_semaphore := Some (g_next g); g_capacity := g_capacity g; g_next := S (g_next g) |})
  | SemaphoreMade cap => (Made, {| g_pool := g_pool g; g_semaphore := g_semaphore g; g_capacity := cap; g_next := g_next g |})
  | Made => (Got (g_pool g) (g_semaphore g), g)
  | Got p s => (Got p s, g)
  end.

(** A thread alone, and threads in turns. *)
Fixpoint get_alone (workers queue_factor : Z) (fuel : nat) (at_ : getting) (g : globals) : getting * globals :=
  match fuel with
  | O => (at_, g)
  | S fuel => let (at_, g) := get_step workers queue_factor at_ g in get_alone workers queue_factor fuel at_ g
  end.
Definition _get_order_pool (workers queue_factor : Z) (g : globals) : getting * globals := get_alone workers queue_factor 5 Entered g.

Fixpoint get_turns (workers queue_factor : Z) (turns : list nat) (threads : list getting) (g : globals) : list getting * globals :=
  match turns with
  | [] => (threads, g)
  | i :: turns =>
    match threads !! i with
    | Some at_ => let (at_, g) := get_step workers queue_factor at_ g in get_turns workers queue_factor turns (<[i := at_]> threads) g
    | None => (threads, g)
    end
  end.

(** ** Calls on the pool *)

Inductive future_state : Type := FPending | FRunning | FDone | FCancelled.
Inductive call_outcome : Type :=
| Answered (o : pool_outcome)
| NotSubmitted (e : exn).
(** Where the caller is in [_submit], with the future of its call, once there is one. *)
Inductive pool_call : Type :=
| Acquiring
| Acquired
| Awaiting (f : future_state)
| Finished (o : call_outcome) (f : option future_state).

Record tool_pool := { po_workers : nat; po_capacity : nat; po_available : nat; po_calls : list pool_call }.

Definition _occupied (p : option tool_pool) : Z :=
  match p with
  | None => 0
  | Some p => if (Z.of_nat (po_capacity p) <=? 0)%Z then 0 else Z.max 0 (Z.of_nat (po_capacity p) - Z.of_nat (po_available p))
  end.
Definition tool_pool_in_flight_counts (p : option tool_pool) : list (pystr * Z) := [(u "order", _occupied p); (u "course", 0%Z)].

Definition is_running (c : pool_call) : bool := match c with Awaiting FRunning | Finished _ (Some FRunning) => true | _ => false end.
Definition running (p : tool_pool) : nat := length (filter (fun c => is_running c = true) (po_calls p)).

(** Whether [_submit] runs the function in place: without a pool, and on the pool's own
    threads. *)
Definition runs_in_place (pool_there : bool) (thread_key : option pystr) (pool_key : pystr) : bool :=
  negb pool_there || bool_decide (thread_key = Some pool_key).

Inductive action : Type :=
| Arrive                        (* a caller enters [_submit] *)
| Acquire (i : nat)             (* [semaphore.acquire] returns *)
| GiveUp (i : nat) (msg : pystr)  (* it has waited in vain *)
| Submit (i : nat)              (* [pool.submit], and the callback that releases *)
| SubmitFails (i : nat) (e : exn)
| Start (i : nat)               (* a worker takes the future up *)
| Finish (i : nat)              (* the function has returned or raised; the callback runs *)
| Return (i : nat)              (* [future.result] *)
| TimesOut (i : nat) (msg : pystr).  (* it has waited in vain: [future.cancel] *)

Definition po_update (p : tool_pool) (i : nat) (c : pool_call) (available : nat) : tool_pool :=
  {| po_workers := po_workers p; po_capacity := po_capacity p; po_available := available; po_calls := <[i := c]> (po_calls p) |}.

Definition pool_step (a : action) (p : tool_pool) : option tool_pool :=
  let free := po_available p in
  match a with
  | Arrive => Some {| po_workers := po_workers p; po_capacity := po_capacity p; po_available := free; po_calls := po_calls p ++ [Acquiring] |}
  | Acquire i => match po_calls p !! i, free with Some Acquiring, S free => Some (po_update p i Acquired free) | _, _ => None end
  | GiveUp i msg => match po_calls p !! i, free with Some Acquiring, O => Some (po_update p i (Finished (Answered (PoolBusy msg)) None) O) | _, _ => None end
  | Submit i => match po_calls p !! i with Some Acquired => Some (po_update p i (Awaiting FPending) free) | _ => None end
  | SubmitFails i e => match po_calls p !! i with Some Acquired => Some (po_update p i (Finished (NotSubmitted e) None) (S free)) | _ => None end
  | Start i =>
    match po_calls p !! i with
    | Some (Awaiting FPending) => if running p <? po_workers p then Some (po_update p i (Awaiting FRunning) free) else None
    | _ => None
    end
  | Finish i =>
    match po_calls p !! i with
    | Some (Awaiting FRunning) => Some (po_update p i (Awaiting FDone) (S free))
    | Some (Finished o (Some FRunning)) => Some (po_update p i (Finished o (Some FDone)) (S free))
    | _ => None
    end
  | Return i => match po_calls p !! i with Some (Awaiting FDone) => Some (po_update p i (Finished (Answered PoolRan) (Some FDone)) free) | _ => None end
  | TimesOut i msg =>
    match po_calls p !! i with
    | Some (Awaiting FPending) => Some (po_update p i (Finished (Answered (PoolTimeout msg)) (Some FCancelled)) (S free))
    | Some (Awaiting FRunning) => Some (po_update p i (Finished (Answered (PoolTimeout msg)) (Some FRunning)) free)
    | Some (Awaiting FDone) => Some (po_update p i (Finished (Answered (PoolTimeout msg)) (Some FDone)) free)
    | _ => None
    end
  end.

Fixpoint pool_run (actions : list action) (p : tool_pool) : option tool_pool :=
  match actions with
  | [] => Some p
  | a :: actions => p ← pool_step a p; pool_run actions p
  end.

Definition new_pool (workers queue_factor : Z) : tool_pool :=
  let cap := Z.to_nat (_pool_capacity workers queue_factor) in
  {| po_workers := Z.to_nat workers; po_capacity := cap; po_available := cap; po_calls := [] |}.

(** ** Counting *)

Fixpoint total {A} (w : A -> nat) (l : list A) : nat := match l with [] => 0 | x :: l => w x + total w l end.
Definition b2n (b : bool) : nat := if b then 1 else 0.

Lemma total_insert {A} (w : A -> nat) (l : list A) i c c' : l !! i = Some c -> total w (<[i := c']> l) + w c = total w l + w c'.
Proof.
  revert i. induction l as [|x l IH]; intros [|i] Hi; try done.
  - injection Hi as ->. change (w c' + total w l + w c = w c + total w l + w c'). lia.
  - specialize (IH i Hi). change (w x + total w (<[i := c']> l) + w c = w x + total w l + w c'). lia.
Qed.
Lemma total_app {A} (w : A -> nat) (l l' : list A) : total w (l ++ l') = total w l + total w l'.
Proof. induction l as [|x l IH]; cbn; lia. Qed.
Lemma total_count {A} (f : A -> bool) (l : list A) : length (filter (fun c => f c = true) l) = total (fun c => b2n (f c)) l.
Proof.
  induction l as [|x l IH]; [done|]. rewrite filter_cons. cbn. destruct (f x); [rewrite decide_True by done|rewrite decide_False by done]; cbn; lia.
Qed.
Lemma total_zero {A} (w : A -> nat) (l : list A) : (forall c, c ∈ l -> w c = 0) -> total w l = 0.
Proof.
  induction l as [|x l IH]; intros Hz; [done|]. cbn. rewrite (Hz x) by left. apply IH. intros c Hc. apply Hz. by right.
Qed.
Lemma total_elem {A} (w : A -> nat) (l : list A) c : c ∈ l -> w c <= total w l.
Proof. induction 1 as [x l|x y l _ IH]; cbn; lia. Qed.
Lemma total_pos {A} (w : A -> nat) (l : list A) : 0 < total w l -> exists i c, l !! i = Some c /\ 0 < w c.
Proof.
  induction l as [|x l IH]; cbn; [lia|]. intros Hp. destruct (w x) eqn:E; [|exists 0, x; split; [done|lia]].
  destruct (IH Hp) as (i & c & Hi & Hc). by exists (S i), c.
Qed.

(** ** Slots *)

(** The calls that hold a slot. *)
Definition holds (c : pool_call) : bool :=
  match c with Acquired | Awaiting FPending | Awaiting FRunning | Finished _ (Some FRunning) => true | _ => false end.
Definition held (p : tool_pool) : nat := total (fun c => b2n (holds c)) (po_calls p).
(** The steps a call has left at most. *)
Definition steps_left (c : pool_call) : nat :=
  match c with
  | Acquiring => 5
  | Acquired => 4
  | Awaiting FPending => 3
  | Awaiting FRunning => 2
  | Awaiting FDone => 1
  | Awaiting FCancelled => 0
  | Finished _ (Some FRunning) => 1
  | Finished _ _ => 0
  end.

(** What an action other than an arrival does, to one call and the semaphore. *)
Lemma pool_step_cases a p p' : pool_step a p = Some p' -> a <> Arrive ->
  exists i c c' free, po_calls p !! i = Some c /\ p' = po_update p i c' free /\ steps_left c' < steps_left c /\
    free + b2n (holds c') = po_available p + b2n (holds c) /\
    (is_running c' = true -> is_running c = true \/ running p < po_workers p) /\ c' <> Awaiting FCancelled.
Proof.
  intros Hs Ha. destruct a as [|i|i msg|i|i e|i|i|i|i msg]; [done|..]; cbn [pool_step] in Hs; destruct (po_calls p !! i) as [c|] eqn:Ei; try done.
  all: destruct c as [| |f|o f]; try done; try (destruct f as [[]|]); try (destruct f as []); try done.
  all: try (destruct (po_available p) as [|free] eqn:Ef; [try done|]); try done.
  all: try (destruct (Nat.ltb_spec (running p) (po_workers p)) as [Hlt|]; [|done]).
  all: injection Hs as <-; eexists i, _, _, _; (split; [exact Ei|]); (split; [reflexivity|]); cbn [steps_left holds is_running b2n]; rewrite ?Ef; split_and!; try lia; try done; auto.
Qed.

#[export] Instance action_eq_dec : EqDecision action.
Proof. solve_decision. Defined.

Record pool_ok (p : tool_pool) : Prop := {
  pk_slots : po_available p + held p = po_capacity p;
  pk_workers : running p <= po_workers p;
  pk_live : Awaiting FCancelled ∉ po_calls p;
}.

Lemma pool_step_keeps a p p' : pool_step a p = Some p' -> po_workers p' = po_workers p /\ po_capacity p' = po_capacity p.
Proof.
  destruct (decide (a = Arrive)) as [->|Ha]; [by intros [= <-]|]. intros Hp. by destruct (pool_step_cases a p p' Hp Ha) as (i & c & c' & free & _ & -> & _).
Qed.

Lemma pool_step_ok a p p' : pool_ok p -> pool_step a p = Some p' -> pool_ok p'.
Proof.
  intros [Hs Hw Hl] Hp. destruct (decide (a = Arrive)) as [->|Ha].
  - injection Hp as <-. split; unfold held, running in *; cbn [po_available po_capacity po_calls po_workers].
    + rewrite total_app. cbn. lia.
    + rewrite total_count in *. rewrite total_app. cbn. lia.
    + rewrite elem_of_app, list_elem_of_singleton. by intros [?|?].
  - destruct (pool_step_cases a p p' Hp Ha) as (i & c & c' & free & Hi & -> & _ & Hf & Hr & Hlive). split; cbn [po_update po_available po_capacity po_workers].
    + pose proof (total_insert (fun c => b2n (holds c)) _ _ _ c' Hi) as Ht. unfold held in *. cbn [po_update po_calls]. lia.
    + pose proof (total_insert (fun c => b2n (is_running c)) _ _ _ c' Hi) as Ht. unfold running in *. cbn [po_update po_calls]. rewrite !total_count in *.
      destruct (is_running c') eqn:Ec'; cbn [b2n] in *; [|lia]. destruct (Hr eq_refl) as [Hc|Hlt]; [rewrite Hc in Ht; cbn [b2n] in Ht; lia|lia].
    + intros (j & Hj)%list_elem_of_lookup. apply list_lookup_insert_Some in Hj as [(_ & Hc & _)|[_ Hj]]; [done|].
      apply Hl. by eapply list_elem_of_lookup_2.
Qed.

Lemma pool_run_ok actions p p' : pool_ok p -> pool_run actions p = Some p' ->
  pool_ok p' /\ po_workers p' = po_workers p /\ po_capacity p' = po_capacity p.
Proof.
  revert p. induction actions as [|a actions IH]; intros p Hp; cbn [pool_run]; [by intros [= <-]|].
  intros (p1 & H1 & H2)%bind_Some. destruct (pool_step_keeps _ _ _ H1) as [<- <-]. eapply IH; [by eapply pool_step_ok|done].
Qed.
Lemma new_pool_ok workers queue_factor : pool_ok (new_pool workers queue_factor).
Proof. split; cbn; [lia|lia|by intros ?%elem_of_nil]. Qed.

(** C19.  Slots are conserved, whatever callers, workers and the pool do, in any order: those
    free and those of the calls that wait for a thread or run add up to the capacity, no
    more calls run than there are threads, and what the gauge shows are the slots held. *)
Theorem slots_conserved (workers queue_factor : Z) (actions : list action) (p : tool_pool) :
  pool_run actions (new_pool workers queue_factor) = Some p ->
  po_available p + held p = Z.to_nat (_pool_capacity workers queue_factor) /\
  running p <= Z.to_nat workers /\
  _occupied (Some p) = Z.of_nat (held p) /\ (held p = 0 -> po_available p = Z.to_nat (_pool_capacity workers queue_factor)).
Proof.
  intros Hr. destruct (pool_run_ok _ _ _ (new_pool_ok workers queue_factor) Hr) as ([Hs Hw _] & Hk & Hc).
  rewrite Hk in Hw. rewrite Hc in Hs. cbn [po_capacity po_workers new_pool] in *. split_and!; [done|done| |lia].
  unfold _occupied. rewrite Hc. cbn [po_capacity new_pool]. destruct (Z.leb_spec (Z.of_nat (Z.to_nat (_pool_capacity workers queue_factor))) 0); unfold _pool_capacity in *; lia.
Qed.

Definition arrivals (actions : list action) : nat := length (filter (fun a => a = Arrive) actions).

Lemma pool_run_length actions p p' : pool_run actions p = Some p' ->
  length actions + total steps_left (po_calls p') <= total steps_left (po_calls p) + 6 * arrivals actions.
Proof.
  unfold arrivals. revert p. induction actions as [|a actions IH]; intros p; cbn [pool_run]; [intros [= <-]; cbn; lia|].
  intros (p1 & H1 & H2)%bind_Some. specialize (IH _ H2). cbn [length]. rewrite filter_cons. destruct (decide (a = Arrive)) as [->|Ha].
  - injection H1 as <-. cbn [po_calls] in IH. rewrite total_app in IH. cbn in IH. cbn [length]. lia.
  - destruct (pool_step_cases a p p1 H1 Ha) as (i & c & c' & free & Hi & -> & Hl & _).
    cbn [po_update po_calls] in IH. pose proof (total_insert steps_left _ _ _ c' Hi). lia.
Qed.

(** Nothing that waits is stuck. *)
Lemma pool_progress p : pool_ok p -> 0 < po_workers p -> 0 < total steps_left (po_calls p) -> exists a, a <> Arrive /\ is_Some (pool_step a p).
Proof.
  intros [_ Hw _] Hpos (i & c & Hi & Hc)%total_pos. destruct c as [| |[]|o [[]|]]; cbn in Hc; try lia.
  - destruct (po_available p) eqn:Ef; [exists (GiveUp i [])|exists (Acquire i)]; (split; [done|]); cbn; rewrite Hi, Ef; by eexists.
  - exists (Submit i). split; [done|]. cbn [pool_step]. cbv zeta. rewrite Hi. by eexists.
  - destruct (Nat.ltb_spec (running p) (po_workers p)) as [Hlt|Hge].
    { exists (Start i). split; [done|]. cbn [pool_step]. cbv zeta. rewrite Hi, (proj2 (Nat.ltb_lt _ _) Hlt). by eexists. }
    unfold running in *. rewrite total_count in *.
    destruct (total_pos (fun c => b2n (is_running c)) (po_calls p) ltac:(lia)) as (j & c & Hj & Hcj).
    exists (Finish j). split; [done|]. cbn [pool_step]. cbv zeta. rewrite Hj. destruct c as [| |[]|o [[]|]]; cbn in Hcj; try lia; by eexists.
  - exists (Finish i). split; [done|]. cbn [pool_step]. cbv zeta. rewrite Hi. by eexists.
  - exists (Return i). split; [done|]. cbn [pool_step]. cbv zeta. rewrite Hi. by eexists.
  - exists (Finish i). split; [done|]. cbn [pool_step]. cbv zeta. rewrite Hi. by eexists.
Qed.

(** C20.  The pool drains.  However the steps interleave, [n] calls come to rest after [6 n]
    steps at most, arrivals included; and where nothing but an arrival can happen, every
    call has its outcome, nothing runs, and all slots are free again. *)
Theorem pool_drains (workers queue_factor : Z) (actions : list action) (p : tool_pool) :
  (0 < workers)%Z -> pool_run actions (new_pool workers queue_factor) = Some p ->
  length actions <= 6 * arrivals actions /\
  ((forall a : action, a <> Arrive -> pool_step a p = None) ->
   Forall (fun c => match c with Finished _ f => f <> Some FRunning | _ => False end) (po_calls p) /\
   running p = 0 /\ po_available p = Z.to_nat (_pool_capacity workers queue_factor)).
Proof.
  intros Hw Hr. pose proof (pool_run_length _ _ _ Hr) as Hl. cbn [new_pool po_calls total] in Hl. split; [lia|]. intros Hstuck.
  destruct (pool_run_ok _ _ _ (new_pool_ok workers queue_factor) Hr) as (Hok & Hk & Hc).
  assert (Hz : total steps_left (po_calls p) = 0).
  { destruct (Nat.eq_0_gt_0_cases (total steps_left (po_calls p))) as [?|Hpos]; [done|].
    destruct (pool_progress p Hok) as (a & Ha & Hs); [rewrite Hk; cbn; lia|done|]. rewrite (Hstuck a Ha) in Hs. by destruct Hs. }
  assert (Hall : forall c, c ∈ po_calls p -> steps_left c = 0).
  { intros c Hc'. pose proof (total_elem steps_left _ _ Hc'). lia. }
  assert (Hheld : held p = 0) by (apply total_zero; intros c Hin; specialize (Hall c Hin); by destruct c as [| |[]|o [[]|]]).
  split_and!.
  - apply Forall_forall. intros c Hin. specialize (Hall c Hin). destruct c as [| |[]|o [[]|]]; try done. by destruct (pk_live p Hok).
  - unfold running. rewrite total_count. apply total_zero. intros c Hin. specialize (Hall c Hin). by destruct c as [| |[]|o [[]|]].
  - destruct Hok as [Hs _ _]. rewrite Hc in Hs. cbn [po_capacity new_pool] in Hs. lia.
Qed.

(** What an outcome says of the call's future. *)
Definition outcome_ok (c : pool_call) : Prop :=
  match c with
  | Finished (Answered PoolRan) f => f = Some FDone
  | Finished (Answered (PoolBusy _)) f | Finished (NotSubmitted _) f => f = None
  | Finished (Answered (PoolTimeout _)) f => f = Some FCancelled \/ f = Some FRunning \/ f = Some FDone
  | _ => True
  end.

Lemma pool_step_outcome a p p' : pool_step a p = Some p' -> Forall outcome_ok (po_calls p) -> Forall outcome_ok (po_calls p').
Proof.
  intros Hs Hall. assert (Hin : forall i c, po_calls p !! i = Some c -> outcome_ok c) by (intros i c; by apply Forall_lookup_1).
  destruct a as [|i|i msg|i|i e|i|i|i|i msg]; cbn [pool_step] in Hs.
  { injection Hs as <-. apply Forall_app. split; [done|]. by repeat constructor. }
  all: destruct (po_calls p !! i) as [c|] eqn:Ei; try done; specialize (Hin i c Ei).
  all: destruct c as [| |f|o f]; try done; try (destruct f as [[]|]); try (destruct f as []); try done.
  all: try (destruct (po_available p) as [|free]; try done); try (destruct (running p <? po_workers p); [|done]).
  all: injection Hs as <-; cbn [po_update po_calls]; apply Forall_insert; [done|]; cbn in *; auto.
  all: destruct o as [[]|]; cbn in *; try done; auto.
Qed.

Lemma settled_stays actions p p' i o f : f <> Some FRunning -> po_calls p !! i = Some (Finished o f) -> pool_run actions p = Some p' ->
  po_calls p' !! i = Some (Finished o f).
Proof.
  intros Hf. revert p. induction actions as [|a actions IH]; intros p Hi; cbn [pool_run]; [by intros [= <-]|].
  intros (p1 & H1 & H2)%bind_Some. apply (IH p1); [|done]. destruct (decide (a = Arrive)) as [->|Ha].
  - injection H1 as <-. cbn [po_calls]. by apply lookup_app_l_Some.
  - destruct (pool_step_cases a p p1 H1 Ha) as (j & c & c' & free & Hj & -> & Hl & _). cbn [po_update po_calls]. destruct (decide (i = j)) as [<-|].
    + rewrite Hi in Hj. injection Hj as <-. cbn in Hl. destruct f as [[]|]; cbn in Hl; lia || done.
    + by rewrite list_lookup_insert_ne.
Qed.

(** What the caller is told is true: an answer only of a function that has returned, a
    refusal only of a call that has not been handed to the pool, a timeout of one that was
    cancelled before it ran, or runs on, or has just returned; and what was refused or
    cancelled never runs later. *)
Theorem outcomes_are_true (workers queue_factor : Z) (actions more : list action) (p p' : tool_pool) (i : nat) (o : call_outcome)
    (f : option future_state) :
  pool_run actions (new_pool workers queue_factor) = Some p -> po_calls p !! i = Some (Finished o f) -> pool_run more p = Some p' ->
  outcome_ok (Finished o f) /\ (f <> Some FRunning -> po_calls p' !! i = Some (Finished o f)).
Proof.
  intros Hr Hi Hmore. split; [|intros Hf; by eapply settled_stays].
  assert (Hall : Forall outcome_ok (po_calls p)).
  { assert (Hnil : Forall outcome_ok (po_calls (new_pool workers queue_factor))) by constructor. revert Hr Hnil. clear.
    generalize (new_pool workers queue_factor). induction actions as [|a actions IH]; intros p0; cbn [pool_run]; [by intros [= <-]|].
    intros (p1 & H1 & H2)%bind_Some Hn. eapply IH; [done|]. by eapply pool_step_outcome. }
  by apply (Forall_lookup_1 _ _ _ _ Hall Hi).
Qed.

(** A thread alone makes the pool once: later calls get the same pool and semaphore. *)
Theorem pool_made_once (workers queue_factor : Z) : (0 < workers)%Z ->
  let '(got, g) := _get_order_pool workers queue_factor no_globals in
  got = Got (g_pool g) (g_semaphore g) /\ is_Some (g_pool g) /\ is_Some (g_semaphore g) /\
  g_capacity g = _pool_capacity workers queue_factor /\
  _get_order_pool workers queue_factor g = (got, g).
Proof.
  intros Hw. unfold _get_order_pool. cbn [get_alone get_step]. rewrite (proj2 (Z.leb_gt _ _)) by lia. cbn.
  split_and!; eauto.
Qed.

(** ** Examples *)

Module Demo.
(** Two threads at once: the second sees the pool before its semaphore is there, and
    nothing bounds what it hands over. *)
Example pool_without_semaphore :
  get_turns 4 2 [0; 0; 1; 1] [Entered; Entered] no_globals =
  ([PoolMade 8; Got (Some 0) None], {| g_pool := Some 0; g_semaphore := None; g_capacity := 0; g_next := 1 |}).
Proof. vm_compute. reflexivity. Qed.

(** One thread, two slots, three callers. *)
Definition morning : list action :=
  [Arrive; Arrive; Arrive; Acquire 0; Submit 0; Start 0; Acquire 2; GiveUp 1 (u "busy"); Submit 2; TimesOut 2 (u "slow"); TimesOut 0 (u "slow")].
Example three_callers :
  po_calls <$> pool_run morning (new_pool 1 2) =
    Some [Finished (Answered (PoolTimeout (u "slow"))) (Some FRunning); Finished (Answered (PoolBusy (u "busy"))) None;
          Finished (Answered (PoolTimeout (u "slow"))) (Some FCancelled)] /\
  (fun p => (po_available p, _occupied (Some p))) <$> pool_run morning (new_pool 1 2) = Some (1, 1%Z) /\
  po_available <$> pool_run (morning ++ [Finish 0]) (new_pool 1 2) = Some 2.
Proof. vm_compute. done. Qed.
End Demo.

Lemma slots_conserved_witness :
  match pool_run Demo.morning (new_pool 1 2) with Some p => po_available p + held p = 2 | None => False end.
Proof.
  destruct (pool_run Demo.morning (new_pool 1 2)) as [p|] eqn:E; [|vm_compute in E; discriminate E].
  destruct (slots_conserved 1 2 Demo.morning p E) as [Hs _]. exact Hs.
Defined.

Lemma pool_drains_witness :
  length (Demo.morning ++ [Finish 0]) <= 18 /\
  match pool_run (Demo.morning ++ [Finish 0]) (new_pool 1 2) with Some p => running p = 0 | None => False end.
Proof.
  destruct (pool_run (Demo.morning ++ [Finish 0]) (new_pool 1 2)) as [p|] eqn:E; [|vm_compute in E; discriminate E].
  destruct (pool_drains 1 2 (Demo.morning ++ [Finish 0]) p ltac:(lia) E) as [Hl Hr]. split; [exact Hl|]. apply Hr. clear Hl Hr.
  vm_compute in E. injection E as <-. intros a Ha. destruct a as [|i|i msg|i|i e|i|i|i|i msg]; [done|..];
    destruct i as [|[|[|i]]]; vm_compute; reflexivity.
Defined.

Lemma outcomes_are_true_witness :
  match pool_run Demo.morning (new_pool 1 2) with
  | Some p => outcome_ok (Finished (Answered (PoolTimeout (u "slow"))) (Some FCancelled))
  | None => False
  end.
Proof.
  destruct (pool_run Demo.morning (new_pool 1 2)) as [p|] eqn:E; [|vm_compute in E; discriminate E].
  assert (Hi : po_calls p !! 2 = Some (Finished (Answered (PoolTimeout (u "slow"))) (Some FCancelled))) by (vm_compute in E; injection E as <-; reflexivity).
  destruct (outcomes_are_true 1 2 Demo.morning [] p p 2 _ _ E Hi eq_refl) as [Ho _]. exact Ho.
Defined.

Lemma pool_made_once_witness : (_get_order_pool 4 2 no_globals).1 = Got (Some 0) (Some 1).
Proof.
  pose proof (pool_made_once 4 2 ltac:(lia)) as Hp. destruct (_get_order_pool 4 2 no_globals) as [got g] eqn:E. destruct Hp as [Hg _].
  vm_compute in E. injection E as <- <-. exact Hg.
Defined.
