(* ===== verification/Query.v ===== *)
(** * What a course question searches for ([app/rag/rewrite.py], [catalog.py],
      [retrieval_plan.py], [llm_rewrite.py], and [_prepare_search_query] of [app/agents/rag.py])

    Before the knowledge base is searched, a question is expanded from the conversation
    ([Window.expand_query]), rewritten by rules, put behind the course's name when it uses
    an alias, and split into parts; and the number of candidates is chosen. *)

From stdpp Require Import base list gmap strings.
From S2P Require Import Prelude PyText PyUnicode PySort PyDict Errors Json Window ToolCache CourseCapability.
Open Scope py_scope.

(** ** Rewriting by rules ([rewrite.py]) *)

Definition _ANAPHORA_HINTS : list pystr := map u ["这个"; "那个"; "它"; "这门"; "那门"; "这门课"; "那门课"]%string.
(** The alternatives of each pattern, and the words it adds. *)
Definition _ABSTRACT_PATTERNS : list (list pystr * pystr) :=
  [(map u ["难不难"; "难吗"; "好不好学"; "好学吗"]%string, u "课程难度 学习要求");
   (map u ["适合谁"; "适合什么人"; "什么人适合"; "零基础"]%string, u "适合人群 前置要求");
   (map u ["学到什么"; "能学到什么"; "学什么"; "有什么用"; "收获"]%string, u "课程模块 学习目标")].
Definition _SHORT_QUERY_CHARS : nat := 12.

Inductive rewrite_reason := followup | abstract | none_reason.
Record RewriteResult := { rw_query : pystr; rw_rewritten : bool; rw_reason : rewrite_reason }.

Definition maybe_rewrite_query (query original_query : pystr) (last_course_name last_course_query : option pystr) : RewriteResult :=
  let text := strip query in
  if negb (truthy text) then {| rw_query := text; rw_rewritten := false; rw_reason := none_reason |}
  else
    let original := strip original_query in
    let course_hint := strip (opt_str (ostr_or last_course_name last_course_query)) in
    if (length original <? _SHORT_QUERY_CHARS) && contains_any _ANAPHORA_HINTS original
       && truthy course_hint && negb (contains course_hint text) then
      {| rw_query := strip (course_hint ++ u " " ++ text); rw_rewritten := true; rw_reason := followup |}
    else
      match find (fun p => contains_any p.1 text) _ABSTRACT_PATTERNS with
      | Some (_, keywords) =>
        if contains keywords text then {| rw_query := text; rw_rewritten := false; rw_reason := none_reason |}
        else {| rw_query := strip (text ++ u " " ++ keywords); rw_rewritten := true; rw_reason := abstract |}
      | None => {| rw_query := text; rw_rewritten := false; rw_reason := none_reason |}
      end.

(** ** Course aliases ([catalog.py]) *)

Definition _EXTRA_ALIASES : list (pystr * list pystr) :=
  [(u "python-intro", map u ["Python入门"; "python入门"; "py入门"; "Python零基础"]%string);
   (u "ml-basics", map u ["机器学习基础课"; "机器学习导论"; "ML入门"; "机器学习课"]%string);
   (u "data-analysis", map u ["数据分析课"; "Pandas课"; "pandas课程"; "NumPy课"]%string);
   (u "acme-onboarding", map u ["Acme入职"; "入职培训课"]%string)].

Definition _normalize_key (text : pystr) : pystr := lower (filter (fun c => negb (is_space c) = true) text).
Definition aliases_for_course_code (code : pystr) : list pystr := default [] (dget code _EXTRA_ALIASES).

Section catalog.
(** The course table. *)
Context (courses : option (list Course)).

Definition load_course_aliases (tenant_id : pystr) : list (pystr * pystr) :=
  dict_of
    (c ← load_course_catalog courses (Some tenant_id);
     if bool_decide (course_tenant_id c <> tenant_id) || negb (truthy (course_name c)) then []
     else map (fun key => (_normalize_key key, course_name c))
            (course_name c :: course_code c :: aliases_for_course_code (course_code c))).

Definition enrich_query_with_course_aliases (query tenant_id : pystr) : pystr :=
  let text := strip query in
  if negb (truthy text) then text
  else
    let normalized_query := _normalize_key text in
    let longest_first := py_sorted (fun a b : pystr * pystr => length b.1 <? length a.1) (load_course_aliases tenant_id) in
    match find (fun '(alias_key, name) => truthy alias_key && contains alias_key normalized_query && negb (contains name text))
            longest_first with
    | Some (_, name) => strip (name ++ u " " ++ text)
    | None => text
    end.
End catalog.

(** ** How many candidates ([retrieval_plan.py]) *)

Definition _FOLLOWUP_HINTS : list pystr := map u ["这个"; "那个"; "难吗"; "怎么样"; "如何"; "可以吗"]%string.
Definition _COMPLEX_HINTS : list pystr :=
  map u ["哪些"; "包含"; "区别"; "对比"; "适合"; "路径"; "模块"; "大纲"; "学习"; "内容"]%string.
Definition PLAN_SHORT_QUERY_CHARS : nat := 8.

Inductive profile := explicit_course | followup_profile | complex | default_profile.
Record RetrievalPlan := { rp_fetch_k : Z; rp_result_k : Z; rp_profile : profile }.

Definition _clamp (value low high : Z) : Z := Z.max low (Z.min high value).

Definition resolve_retrieval_plan (k_min k_max : Z) (query : pystr) (result_k : Z) (course_code : option pystr) : RetrievalPlan :=
  let text := strip query in
  let plan k p := {| rp_fetch_k := k; rp_result_k := result_k; rp_profile := p |} in
  if otruthy course_code then plan (_clamp (Z.max (result_k * 2) k_min) k_min k_max) explicit_course
  else if (length text <? PLAN_SHORT_QUERY_CHARS) || contains_any _FOLLOWUP_HINTS text then
    plan (_clamp (Z.max (result_k * 3) k_min) k_min k_max) followup_profile
  else if (16 <=? length text) || contains_any _COMPLEX_HINTS text then plan k_max complex
  else plan (_clamp (Z.max (result_k * 3) k_min) k_min k_max) default_profile.

(** ** Several queries from one ([llm_rewrite.py]) *)

Definition _SPLIT_PATTERN : list pystr :=
  map u ["，"; ","; "、"; "；"; ";"; "以及"; "还有"; "同时"; "和"; "与"]%string.
Definition DECOMPOSE_HINTS : list pystr :=
  map u ["模块"; "大纲"; "路径"; "对比"; "区别"; "包含"; "学习"; "内容"; "讲什么"; "哪些"]%string.

(** [re.split] on a pattern of literal alternatives; [skip] characters of the separator
    are still to come. *)
Fixpoint split_from (seps : list pystr) (skip : nat) (cur s : pystr) : list pystr :=
  match s with
  | [] => [reverse cur]
  | c :: s' =>
    match skip with
    | S skip' => split_from seps skip' cur s'
    | O =>
      match find (fun p => is_prefix p s) seps with
      | Some p => reverse cur :: split_from seps (pred (length p)) [] s'
      | None => split_from seps 0 (c :: cur) s'
      end
    end
  end.
Definition split_any (seps : list pystr) (s : pystr) : list pystr := split_from seps 0 [] s.

(** The loop over the parts: those whose folding was not [seen]. *)
Fixpoint dedupe (seen : list pystr) (parts : list pystr) : list pystr :=
  match parts with
  | [] => []
  | part :: rest =>
    let key := casefold part in
    if bool_decide (key ∈ seen) then dedupe seen rest else part :: dedupe (key :: seen) rest
  end.

Definition _rule_decompose (query : pystr) (max_queries : Z) : list pystr :=
  let text := strip query in
  if negb (truthy text) then []
  else if (length text <? 16) || negb (contains_any DECOMPOSE_HINTS text) then [text]
  else
    let parts := filter (fun p => truthy p = true) (map strip (split_any _SPLIT_PATTERN text)) in
    if length parts <? 2 then [text]
    else match dedupe [] (take (Z.to_nat max_queries) parts) with [] => [text] | deduped => deduped end.

Section decompose.
(** [str()] of a value that is no text, and [json.loads] of a text that opens with a
    bracket. *)
Context (repr : json -> pystr) (loads_list : pystr -> res exn (list json)).
(** The model's reply to the system prompt for this many queries and the question: its content. *)
Context (ask_model : Z -> pystr -> res exn json).
(** [rag_llm_rewrite_enabled and llm_enabled], and the limit. *)
Context (llm_rewrite : bool) (max_queries : Z).

Definition as_str (v : json) : pystr := match v with JStr s => s | v => repr v end.
Definition _parse_items (l : list json) : list pystr := filter (fun s => truthy s = true) (map (fun v => strip (as_str v)) l).
Definition _parse_query_list (raw : json) : res exn (list pystr) :=
  match raw with
  | JList l => Ok (_parse_items l)
  | JStr s =>
    let text := strip s in
    if is_prefix (u "[") text then
      match loads_list text with
      | Ok l => Ok (_parse_items l)
      | Raise (OtherExc name m) => if decide (name = u "JSONDecodeError") then Ok [] else Raise (OtherExc name m)
      | Raise e => Raise e
      end
    else if truthy text then Ok [text]
    else Ok []
  | _ => Ok []
  end.

Definition _llm_decompose (query : pystr) : res exn (list pystr) :=
  let? content := ask_model max_queries query in
  let content := match content with JStr s => JStr s | v => JStr (if jtruthy v then repr v else []) end in
  let? items := _parse_query_list content in
  if length items <? 2 then Ok [] else Ok (take (Z.to_nat max_queries) items).

Definition decompose_retrieval_queries (query : pystr) : res exn (list pystr) :=
  let text := strip query in
  if negb (truthy text) then Ok []
  else if llm_rewrite then
    match _llm_decompose text with
    | Ok llm_queries => if 2 <=? length llm_queries then Ok llm_queries else Ok (_rule_decompose text max_queries)
    | Raise e => if is_Exception e then Ok (_rule_decompose text max_queries) else Raise e
    end
  else Ok (_rule_decompose text max_queries).

(** ** [_prepare_search_query] ([app/agents/rag.py]) *)

Record SearchQueryContext := {
  sq_original_query : pystr;
  sq_search_query : pystr;
  sq_rewrite_applied : bool;
  sq_rewrite_reason : rewrite_reason;
  sq_retrieval_queries : list pystr;
}.

Context (courses : option (list Course)) (rag_rewrite_enabled : bool).

(** The query, and the context variable it leaves. *)
Definition _prepare_search_query (query : pystr) (history : list message) (tenant_id : pystr)
    (last_course_query last_course_name : option pystr) : res exn (pystr * SearchQueryContext) :=
  let expanded := expand_query query history last_course_query last_course_name in
  let rewrite := if rag_rewrite_enabled then maybe_rewrite_query expanded query last_course_name last_course_query
                 else {| rw_query := expanded; rw_rewritten := false; rw_reason := none_reason |} in
  let final := enrich_query_with_course_aliases courses (rw_query rewrite) tenant_id in
  let? retrieval_queries := decompose_retrieval_queries final in
  Ok (final, {| sq_original_query := query; sq_search_query := final; sq_rewrite_applied := rw_rewritten rewrite;
                sq_rewrite_reason := rw_reason rewrite; sq_retrieval_queries := retrieval_queries |}).
End decompose.

(** ** The customer's words stay *)

Lemma lstrip_app_head a t : (match head t with Some c => is_space c = false | None => False end) ->
  exists a', lstrip (a ++ t) = a' ++ t.
Proof.
  intros Ht. induction a as [|c a [a' IH]]; cbn [app].
  - exists []. destruct t as [|c t]; [done|]. cbn in Ht |- *. by rewrite Ht.
  - cbn [lstrip]. destruct (is_space c); [by exists a'|]. by exists (c :: a).
Qed.

Lemma contains_strip t s : strip t = t -> contains t s = true -> contains t (strip s) = true.
Proof.
  intros Ht Hc. destruct t as [|c0 t0] eqn:Et; [apply contains_spec; by exists [], (strip s)|]. rewrite <- Et in *.
  assert (Hne : t <> []) by by rewrite Et. apply strip_iff in Ht as [Hh Hl]. apply contains_spec in Hc as (a & b & ->).
  assert (Hhd : match head (t ++ b) with Some c => is_space c = false | None => False end) by by rewrite Et in *.
  destruct (lstrip_app_head a (t ++ b) Hhd) as [a' Ha]. unfold strip. rewrite Ha. unfold rstrip.
  rewrite app_assoc, !reverse_app.
  assert (Hrh : match head (reverse t ++ reverse a') with Some c => is_space c = false | None => False end).
  { destruct t as [|d t _] using rev_ind; [done|]. rewrite last_snoc in Hl. by rewrite reverse_snoc. }
  destruct (lstrip_app_head (reverse b) _ Hrh) as [b' Hb]. rewrite Hb, <- reverse_app, reverse_app, reverse_involutive.
  apply contains_spec. exists a', (reverse b'). by rewrite app_assoc.
Qed.

Lemma contains_trans a b c : contains a b = true -> contains b c = true -> contains a c = true.
Proof.
  rewrite !contains_spec. intros (x & y & ->) (x' & y' & ->). exists (x' ++ x), (y ++ y'). by rewrite !app_assoc.
Qed.
Lemma contains_refl t : contains t t = true.
Proof. apply contains_spec. exists [], []. by rewrite app_nil_r. Qed.
Lemma contains_nil t : contains [] t = true.
Proof. apply contains_spec. by exists [], t. Qed.
Lemma contains_before t a b : contains t (a ++ b ++ t) = true.
Proof. apply contains_spec. exists (a ++ b), []. by rewrite app_nil_r, app_assoc. Qed.
Lemma contains_after t a : contains t (t ++ a) = true.
Proof. apply contains_spec. by exists [], a. Qed.

Lemma expand_keeps query history lq ln : contains (strip query) (expand_query query history lq ln) = true.
Proof.
  unfold expand_query. set (text := strip query).
  assert (Ht : strip text = text) by apply strip_idemp.
  destruct (_ <=? _); [apply contains_refl|]. destruct (truthy text) eqn:E; repeat case_match;
    try apply contains_refl; try (by apply contains_strip, contains_before);
    apply truthy_false in E; rewrite E; apply contains_nil.
Qed.

Lemma rewrite_keeps query original ln lq : contains (strip query) (rw_query (maybe_rewrite_query query original ln lq)) = true.
Proof.
  unfold maybe_rewrite_query. set (text := strip query). assert (Ht : strip text = text) by apply strip_idemp.
  destruct (negb _); [apply contains_refl|]. destruct (_ && _ && _ && _); [apply contains_strip, contains_before; done|].
  destruct (find _ _) as [[ws keywords]|]; [|apply contains_refl].
  destruct (contains keywords text); [apply contains_refl|]. apply contains_strip; [done|apply contains_after].
Qed.

Lemma enrich_keeps courses query tenant_id : contains (strip query) (enrich_query_with_course_aliases courses query tenant_id) = true.
Proof.
  unfold enrich_query_with_course_aliases. set (text := strip query). assert (Ht : strip text = text) by apply strip_idemp.
  destruct (negb _); [apply contains_refl|]. destruct (find _ _) as [[k name]|]; [|apply contains_refl].
  apply contains_strip, contains_before; done.
Qed.

(** ** The parts *)

Lemma split_from_pieces seps skip cur s p : skip = 0 \/ cur = [] -> p ∈ split_from seps skip cur s ->
  exists a b, reverse cur ++ s = a ++ p ++ b.
Proof.
  revert skip cur. induction s as [|c s IH]; intros skip cur Hc; cbn [split_from].
  - intros ->%list_elem_of_singleton. exists [], []. by rewrite !app_nil_r.
  - destruct skip as [|skip].
    + destruct (find _ seps) as [sep|].
      * intros [->|Hp]%elem_of_cons; [by exists [], (c :: s)|]. apply IH in Hp as (a & b & Hs); [|by right]. cbn in Hs.
        exists (reverse cur ++ c :: a), b. by rewrite Hs, <- app_assoc.
      * intros Hp. apply IH in Hp as (a & b & Hs); [|by left]. exists a, b. by rewrite reverse_cons, <- app_assoc in Hs.
    + destruct Hc as [| ->]; [done|]. intros Hp. apply IH in Hp as (a & b & Hs); [|by right]. cbn in Hs.
      exists (c :: a), b. cbn. by rewrite Hs.
Qed.

Lemma contains_stripped s : contains (strip s) s = true.
Proof.
  destruct (rstrip_prefix (lstrip s)) as [b Hb], (lstrip_suffix s) as [a Ha]. apply contains_spec.
  exists a, b. unfold strip. by rewrite <- Hb.
Qed.

Lemma dedupe_spec seen parts : sublist (dedupe seen parts) parts /\ NoDup (map casefold (dedupe seen parts)) /\
  (forall p, p ∈ dedupe seen parts -> casefold p ∉ seen).
Proof.
  revert seen. induction parts as [|p parts IH]; intros seen; cbn [dedupe].
  - split; [done|]. split; [constructor|]. by intros p ?%elem_of_nil.
  - case_bool_decide as Hp.
    + destruct (IH seen) as (Hs & Hn & Hin). split; [by constructor|]. done.
    + destruct (IH (casefold p :: seen)) as (Hs & Hn & Hin). split; [by constructor|]. split.
      * cbn. apply NoDup_cons. split; [|done]. intros (q & Heq & Hq)%list_elem_of_fmap. apply Hin in Hq. rewrite <- Heq in Hq.
        apply Hq. by left.
      * intros q [->|Hq]%elem_of_cons; [done|]. apply Hin in Hq. intros Hse. apply Hq. by right.
Qed.

(** A part of a question: neither blank nor padded. *)
Definition neat (p : pystr) : Prop := truthy p = true /\ strip p = p.

Lemma rule_decompose_spec query max_queries : (2 <= max_queries)%Z ->
  let text := strip query in
  let l := _rule_decompose query max_queries in
  (truthy text = true -> l <> []) /\ (Z.of_nat (length l) <= max_queries)%Z /\ Forall neat l /\
  Forall (fun p => contains p text = true) l /\ (length l < 2 \/ NoDup (map casefold l)).
Proof.
  intros Hmax text l. subst l. unfold _rule_decompose. fold text.
  destruct (truthy text) eqn:E; cbn [negb]; [|split; [done|]; cbn; repeat split; try constructor; lia].
  assert (Hone : (true = true -> [text] <> []) /\ (Z.of_nat (length [text]) <= max_queries)%Z /\ Forall neat [text] /\
    Forall (fun p => contains p text = true) [text] /\ (length [text] < 2 \/ NoDup (map casefold [text]))).
  { split; [done|]. cbn [length]. repeat split; try lia; try (left; lia); rewrite Forall_singleton.
    - split; [done|apply strip_idemp].
    - apply contains_refl. }
  destruct (_ || _); [exact Hone|]. set (parts := filter _ _). destruct (length parts <? 2); [exact Hone|].
  destruct (dedupe_spec [] (take (Z.to_nat max_queries) parts)) as (Hsub & Hnd & _).
  destruct (dedupe _ _) as [|p l] eqn:Ed; [exact Hone|]. rewrite <- Ed in *.
  assert (Hin : forall q, q ∈ dedupe [] (take (Z.to_nat max_queries) parts) -> q ∈ parts).
  { intros q Hq. apply sublist_submseteq in Hsub. eapply elem_of_submseteq in Hq; [|exact Hsub]. by eapply elem_of_prefix in Hq; [|apply prefix_take]. }
  split; [by rewrite Ed|]. split.
  { apply sublist_length in Hsub. rewrite length_take in Hsub. lia. }
  split; [|split; [|by right]]; apply Forall_forall; intros q Hq%Hin; subst parts; apply list_elem_of_filter in Hq as [Hq Hm];
    apply list_elem_of_fmap in Hm as (piece & -> & Hp).
  - split; [done|apply strip_idemp].
  - apply split_from_pieces in Hp as (a & b & Hs); [|by left]. cbn in Hs.
    eapply contains_trans; [apply contains_stripped|]. apply contains_spec. by exists a, b.
Qed.

Lemma parse_items_neat repr l : Forall neat (_parse_items repr l).
Proof.
  apply Forall_forall. intros q. unfold _parse_items. intros [Hq Hin]%list_elem_of_filter. split; [done|].
  apply list_elem_of_fmap in Hin as (v & -> & _). apply strip_idemp.
Qed.

Lemma parse_query_list_neat repr loads_list raw l : _parse_query_list repr loads_list raw = Ok l -> Forall neat l.
Proof.
  unfold _parse_query_list. destruct raw as [| | | |s|items|]; try (intros [= <-]; constructor).
  - destruct (is_prefix _ _).
    + destruct (loads_list _) as [items|[]]; try done; [intros [= <-]; apply parse_items_neat|]. case_decide; [|done].
      intros [= <-]. constructor.
    + destruct (truthy (strip s)) eqn:E; intros [= <-]; [|constructor]. apply Forall_singleton. split; [done|apply strip_idemp].
  - intros [= <-]. apply parse_items_neat.
Qed.

Section prepared.
Context (repr : json -> pystr) (loads_list : pystr -> res exn (list json)).
Context (ask_model : Z -> pystr -> res exn json) (llm_rewrite : bool) (max_queries : Z).

Lemma decompose_spec query : (2 <= max_queries)%Z ->
  match decompose_retrieval_queries repr loads_list ask_model llm_rewrite max_queries query with
  | Ok l =>
    (truthy (strip query) = true -> l <> []) /\ (Z.of_nat (length l) <= max_queries)%Z /\ Forall neat l /\
    (llm_rewrite = false -> Forall (fun p => contains p (strip query) = true) l)
  | Raise e => llm_rewrite = true /\ is_Exception e = false
  end.
Proof.
  intros Hmax. unfold decompose_retrieval_queries. destruct (truthy (strip query)) eqn:E; cbn [negb].
  2:{ split; [done|]. cbn. repeat split; try constructor; lia. }
  pose proof (rule_decompose_spec (strip query) max_queries Hmax) as Hr. rewrite strip_idemp in Hr.
  destruct Hr as (Hne & Hlen & Hneat & Hin & _).
  assert (Hrule : forall b : bool, (true = true -> _rule_decompose (strip query) max_queries <> []) /\
    (Z.of_nat (length (_rule_decompose (strip query) max_queries)) <= max_queries)%Z /\
    Forall neat (_rule_decompose (strip query) max_queries) /\
    (b = false -> Forall (fun p => contains p (strip query) = true) (_rule_decompose (strip query) max_queries))) by auto.
  destruct llm_rewrite; [|apply (Hrule false)].
  destruct (_llm_decompose _ _ _ _ _) as [l|e] eqn:El; [|destruct (is_Exception e) eqn:Ee; [apply (Hrule true)|done]].
  destruct (Nat.leb_spec 2 (length l)); [|apply (Hrule true)].
  unfold _llm_decompose in El. apply rbind_ok in El as (content & _ & El). apply rbind_ok in El as (items & Hp & El).
  apply parse_query_list_neat in Hp. destruct (_ <? 2); injection El as <-; [by cbn in *; lia|].
  split; [intros _ Hn; rewrite Hn in H; cbn in H; lia|]. rewrite length_take in *. split; [lia|]. split; [by apply Forall_take|done].
Qed.

(** A search never loses the customer's words.  What the knowledge base is asked still
    contains the question, trimmed, whatever the conversation, the rules and the aliases
    added; it is asked in at least one and at most [max_queries] parts, none blank or
    padded, and without the model every part is a piece of it.  Only a cancellation, while
    the model was asked for the parts, stops it. *)
Theorem search_keeps_the_question (courses : option (list Course)) (rag_rewrite_enabled : bool) (query : pystr)
    (history : list message) (tenant_id : pystr) (last_course_query last_course_name : option pystr) :
  (2 <= max_queries)%Z ->
  match _prepare_search_query repr loads_list ask_model llm_rewrite max_queries courses rag_rewrite_enabled
          query history tenant_id last_course_query last_course_name with
  | Ok (final, ctx) =>
    contains (strip query) final = true /\ sq_search_query ctx = final /\
    (truthy (strip query) = true -> sq_retrieval_queries ctx <> []) /\
    (Z.of_nat (length (sq_retrieval_queries ctx)) <= max_queries)%Z /\ Forall neat (sq_retrieval_queries ctx) /\
    (llm_rewrite = false -> Forall (fun p => contains p final = true) (sq_retrieval_queries ctx))
  | Raise e => llm_rewrite = true /\ is_Exception e = false
  end.
Proof.
  intros Hmax. unfold _prepare_search_query. cbn zeta.
  set (expanded := expand_query _ _ _ _). set (rewrite_ := if rag_rewrite_enabled then _ else _).
  set (final := enrich_query_with_course_aliases _ _ _).
  assert (Hkeep : contains (strip query) (strip final) = true).
  { apply contains_strip; [apply strip_idemp|]. apply (contains_trans _ (strip (rw_query rewrite_))); [|apply enrich_keeps].
    apply contains_strip; [apply strip_idemp|]. subst rewrite_. destruct rag_rewrite_enabled; [|apply expand_keeps].
    apply (contains_trans _ (strip expanded)); [|apply rewrite_keeps]. apply contains_strip; [apply strip_idemp|apply expand_keeps]. }
  pose proof (decompose_spec final Hmax) as Hd. destruct (decompose_retrieval_queries _ _ _ _ _ _) as [l|e]; cbn; [|done].
  destruct Hd as (Hne & Hlen & Hneat & Hin). split; [eapply contains_trans; [exact Hkeep|apply contains_stripped]|].
  split; [done|]. split; [|split; [done|]; split; [done|]].
  - intros Ht. apply Hne. apply contains_spec in Hkeep as (a & b & Hs). rewrite Hs. apply not_false_iff_true.
    rewrite truthy_false. apply not_false_iff_true in Ht. rewrite truthy_false in Ht. intros [_ [Hc _]%app_eq_nil]%app_eq_nil. done.
  - intros Hl. specialize (Hin Hl). eapply Forall_impl; [exact Hin|]. intros p Hp.
    eapply contains_trans; [exact Hp|apply contains_stripped].
Qed.
End prepared.

(** The number of candidates stays within the configured bounds, and is at least twice
    the number of results asked for, as far as the upper bound lets it. *)
Theorem retrieval_plan_bounds (k_min k_max : Z) (query : pystr) (result_k : Z) (course_code : option pystr) :
  (k_min <= k_max)%Z -> (0 <= result_k)%Z ->
  let plan := resolve_retrieval_plan k_min k_max query result_k course_code in
  (k_min <= rp_fetch_k plan <= k_max)%Z /\ (Z.min k_max (2 * result_k) <= rp_fetch_k plan)%Z /\ rp_result_k plan = result_k.
Proof.
  intros Hk Hr. unfold resolve_retrieval_plan, _clamp. destruct (otruthy _); [cbn; lia|].
  destruct (_ || _); [cbn; lia|]. destruct (_ || _); cbn; lia.
Qed.

Module Demo.
Definition courses : option (list Course) :=
  Some [{| course_tenant_id := u "demo"; course_code := u "python-intro"; course_name := u "Python入门课" |};
        {| course_tenant_id := u "demo"; course_code := u "ml-basics"; course_name := u "机器学习基础" |}].
Definition prepare := _prepare_search_query (fun _ => []) (fun _ => Ok []) (fun _ _ => Ok JNull) false 3 courses true.

Example demo_queries :
  map (fun '(q, name) => match prepare q [] (u "demo") None name with
                         | Ok (final, ctx) => (final, sq_rewrite_reason ctx, sq_retrieval_queries ctx)
                         | Raise _ => ([], none_reason, [])
                         end)
    [(u "这门课难吗", Some (u "Python入门课")); (u "py入门包含哪些模块，以及和机器学习基础的区别是什么", None); (u "  ", None)] =
  [(u "Python入门课 这门课难吗 课程难度 学习要求", abstract, [u "Python入门课 这门课难吗 课程难度 学习要求"]);
   (u "Python入门课 py入门包含哪些模块，以及和机器学习基础的区别是什么", none_reason,
    [u "Python入门课 py入门包含哪些模块"; u "机器学习基础的区别是什么"]);
   ([], none_reason, [])].
Proof. vm_compute. reflexivity. Qed.
End Demo.

Lemma search_keeps_the_question_witness :
  (2 <= 3)%Z /\
  match Demo.prepare (u "这门课难吗") [] (u "demo") None (Some (u "Python入门课")) with
  | Ok (final, ctx) => contains (u "这门课难吗") final = true /\ sq_retrieval_queries ctx <> []
  | Raise _ => False
  end.
Proof.
  split; [lia|].
  pose proof (search_keeps_the_question (fun _ => []) (fun _ => Ok []) (fun _ _ => Ok JNull) false 3 Demo.courses true (u "这门课难吗")
    [] (u "demo") None (Some (u "Python入门课")) ltac:(lia)) as H.
  change (_prepare_search_query _ _ _ _ _ _ _ _ _ _ _ _) with (Demo.prepare (u "这门课难吗") [] (u "demo") None (Some (u "Python入门课"))) in H.
  assert (Ht : strip (u "这门课难吗") = u "这门课难吗") by (vm_compute; reflexivity).
  rewrite Ht in H. revert H. generalize (Demo.prepare (u "这门课难吗") [] (u "demo") None (Some (u "Python入门课"))). intros [[final ctx]|e].
  - intros (Hc & _ & Hne & _). split; [exact Hc|]. apply Hne. vm_compute. reflexivity.
  - by intros [? _].
Defined.

Lemma retrieval_plan_bounds_witness :
  (12 <= rp_fetch_k (resolve_retrieval_plan 12 32 (u "这门课") 8 None) <= 32)%Z /\ (0 <= 8)%Z.
Proof. split; [apply (retrieval_plan_bounds 12 32 (u "这门课") 8 None); lia|lia]. Defined.
