(* ===== verification/Documents.v ===== *)
(** * Slices of the knowledge base ([app/rag/lexical.py], and the document helpers of
      [app/rag/vectorstore.py] and [chunking.py])

    A document is a text with a dictionary of metadata; the program tells documents apart
    by object identity in one place, by source and text everywhere else. *)

From stdpp Require Import base list gmap strings.
From Stdlib Require Import Floats.SpecFloat.
From S2P Require Import Prelude PyText PyUnicode PyFloat PySort PyDict Errors Json.
Open Scope py_scope.

Record Document := { doc_ref : Z; page_content : pystr; metadata : dict }.
Definition meta (k : pystr) (d : Document) : json := get k (metadata d).

(** ** Values as text and as numbers *)

Section values.
(** [repr] of a value that is no text, number or constant. *)
Context (repr : json -> pystr).

Definition py_str (v : json) : pystr :=
  match v with
  | JStr s => s
  | JNull => u "None"
  | JBool b => u (if b then "True" else "False")
  | JInt n => dec n
  | v => repr v
  end.
(** [str(v or "")]. *)
Definition str_or_empty (v : json) : pystr := if jtruthy v then py_str v else [].

(** [document_key]. *)
Definition document_key (d : Document) : pystr * pystr := (py_str (meta (u "source") d), page_content d).

Definition _is_deleted (d : Document) : bool := jtruthy (meta (u "deleted") d).
Definition is_retrieval_chunk (d : Document) : bool :=
  negb (bool_decide (str_or (str_or_empty (meta (u "chunk_role") d)) (u "child") = u "parent")).

(** [Path] has no [removesuffix]. *)
Definition NO_REMOVESUFFIX : exn := OtherExc (u "AttributeError") (u "'PosixPath' object has no attribute 'removesuffix'").
Definition is_suffix (p s : pystr) : bool := is_prefix (reverse p) (reverse s).
Definition document_course_code (d : Document) : res exn pystr :=
  let value := if jtruthy (meta (u "course_code") d) then meta (u "course_code") d else meta (u "course_file") d in
  let code := str_or_empty value in
  if truthy code then Ok code
  else
    let source := str_or_empty (meta (u "source") d) in
    if is_suffix (u ".md") source then Raise NO_REMOVESUFFIX else Ok [].

Definition _matches_course (d : Document) (course_code : option pystr) : res exn bool :=
  if negb (otruthy course_code) then Ok true
  else let? code := document_course_code d in Ok (bool_decide (code = opt_str course_code)).
End values.

(** [int(s)] of a text: digits of any script in groups, a single underscore between two. *)
Definition digit_value (c : N) : option Z :=
  z ← find (fun z => (z <=? c)%N && (c <? z + 10)%N) digit_zeros; Some (Z.of_N (c - z)).
Fixpoint int_digits (after_digit : bool) (acc : Z) (s : pystr) : option Z :=
  match s with
  | [] => if after_digit then Some acc else None
  | c :: s' =>
    if (c =? 95)%N then (if after_digit then int_digits false acc s' else None)
    else d ← digit_value c; int_digits true (acc * 10 + d) s'
  end.
Definition int_of_str (s : pystr) : option Z :=
  match strip s with
  | 43%N :: s' => int_digits false 0 s'
  | 45%N :: s' => n ← int_digits false 0 s'; Some (- n)%Z
  | s' => int_digits false 0 s'
  end.
Example int_of_str_examples : map int_of_str (map u [" -12 "; "1_000"; "1__0"; "_1"; "x"; ""]%string) =
  [Some (-12)%Z; Some 1000%Z; None; None; None; None].
Proof. vm_compute. reflexivity. Qed.

(** [_chunk_index]; an infinite number, which no chunk has, would raise. *)
Definition _chunk_index (d : Document) : option Z :=
  match meta (u "chunk") d with
  | JInt n => Some n
  | JBool b => Some (if b then 1 else 0)%Z
  | JFloat x => match py_int x with Ok n => Some n | Raise _ => None end
  | JStr s => int_of_str s
  | _ => None
  end.

(** ** Words ([lexical.py]) *)

Section lexical.
Context (repr : json -> pystr).
(** [jieba.lcut], with the words of the domain. *)
Context (lcut : pystr -> list pystr).

Definition is_ascii (s : pystr) : bool := forallb (fun c => (c <? 128)%N) s.
Definition is_alnum (s : pystr) : bool := truthy s && forallb (fun c => is_word c && negb (c =? 95)%N) s.

Definition keeps_token (token : pystr) : bool :=
  truthy token
  && negb (forallb (fun c => negb (is_word c) || (c =? 95)%N) token)
  && negb (is_ascii token && is_alnum token && (length token <? 2))
  && negb (negb (is_ascii token) && (length token <? 2)).
Definition tokenize (text : pystr) : list pystr :=
  let raw := strip text in
  if negb (truthy raw) then []
  else filter (fun t => keeps_token t = true) (map (fun piece => lower (strip piece)) (lcut raw)).

(** ** Fusion of rankings *)

Definition rrf_term (rrf_k rank : Z) : pyfloat := f_div f_one (f_of_int (rrf_k + rank)).

(** One document of one ranking, counted from [rank]. *)
Fixpoint rrf_ranking (rrf_k rank : Z) (ranking : list Document)
    (acc : list ((pystr * pystr) * pyfloat) * list ((pystr * pystr) * Document)) :=
  match ranking with
  | [] => acc
  | d :: rest =>
    let key := document_key repr d in
    rrf_ranking rrf_k (rank + 1) rest
      (dset key (f_add (default f_zero (dget key acc.1)) (rrf_term rrf_k rank)) acc.1, dset key d acc.2)
  end.
Definition rrf_scores (rrf_k : Z) (ranked_lists : list (list Document)) :=
  foldl (fun acc ranking => rrf_ranking rrf_k 1 ranking acc) ([], []) ranked_lists.

Definition reciprocal_rank_fusion (ranked_lists : list (list Document)) (rrf_k : Z) (limit : nat) : list (Document * pyfloat) :=
  let '(scores, docs) := rrf_scores rrf_k ranked_lists in
  let ordered := py_sorted (by_score_desc snd) scores in
  omap (fun '(key, score) => d ← dget key docs; Some (d, score)) (take limit ordered).

(** ** [Bm25Index] *)

(** [rank_bm25.BM25Plus(corpus).get_scores(query)]: a score for each text of the corpus. *)
Context (bm25_scores : list (list pystr) -> list pystr -> list pyfloat).

Record Bm25Index := { bm_documents : list Document; bm_corpus : list (list pystr) }.
Definition build (documents : list Document) : option Bm25Index :=
  match documents with
  | [] => None
  | _ =>
    Some {| bm_documents := documents;
            bm_corpus := map (fun d => match tokenize (page_content d) with [] => [[]] | ts => ts end) documents |}
  end.
Definition bm25_search (index : Bm25Index) (query : pystr) (k : Z) : list (Document * pyfloat) :=
  let tokens := tokenize query in
  match tokens with
  | [] => []
  | _ =>
    if (k <=? 0)%Z then []
    else
      let scores := bm25_scores (bm_corpus index) tokens in
      let ranked := filter (fun ds => f_lt f_zero ds.2 = true) (zip (bm_documents index) scores) in
      take (Z.to_nat k) (py_sorted (by_score_desc snd) ranked)
  end.
End lexical.

(** ** What a fusion is *)

Section fusion.
Context (repr : json -> pystr).
Abbreviation key := (document_key repr).

(** The reference: the terms a key earns in a ranking, and their sum over the rankings. *)
Definition rrf_terms (rrf_k : Z) (k : pystr * pystr) (ranking : list Document) : list pyfloat :=
  concat (imap (fun i d => if decide (key d = k) then [rrf_term rrf_k (Z.of_nat (S i))] else []) ranking).
Definition rrf_score (rrf_k : Z) (k : pystr * pystr) (ranked_lists : list (list Document)) : option pyfloat :=
  match ranked_lists ≫= rrf_terms rrf_k k with
  | [] => None
  | terms => Some (foldl f_add f_zero terms)
  end.

(** The terms from some rank on. *)
Definition terms_from (rrf_k rank : Z) (k : pystr * pystr) (ranking : list Document) : list pyfloat :=
  concat (imap (fun i d => if decide (key d = k) then [rrf_term rrf_k (rank + Z.of_nat i)] else []) ranking).

Lemma terms_from_cons rrf_k rank k d ranking :
  terms_from rrf_k rank k (d :: ranking) =
  (if decide (key d = k) then [rrf_term rrf_k rank] else []) ++ terms_from rrf_k (rank + 1) k ranking.
Proof.
  unfold terms_from. cbn [imap concat]. rewrite Z.add_0_r. f_equal. f_equal. apply imap_ext. intros i x _. cbn.
  case_decide; [|done]. by replace (rank + Z.of_nat (S i))%Z with (rank + 1 + Z.of_nat i)%Z by lia.
Qed.

(** The sum so far, for the keys that have one. *)
Definition sum_from (start : option pyfloat) (terms : list pyfloat) : option pyfloat :=
  foldl (fun acc t => Some (f_add (default f_zero acc) t)) start terms.

Lemma rrf_ranking_scores rrf_k rank ranking acc k :
  dget k (rrf_ranking repr rrf_k rank ranking acc).1 = sum_from (dget k acc.1) (terms_from rrf_k rank k ranking).
Proof.
  revert rank acc. induction ranking as [|d ranking IH]; intros rank acc; [done|].
  cbn [rrf_ranking]. rewrite IH, terms_from_cons. cbn [fst]. rewrite dget_dset.
  case_decide as Hk; [|done]. by subst.
Qed.

Lemma sum_from_app start ts ts' : sum_from start (ts ++ ts') = sum_from (sum_from start ts) ts'.
Proof. apply foldl_app. Qed.

Lemma sum_from_Some x ts : sum_from (Some x) ts = Some (foldl f_add x ts).
Proof. revert x. induction ts as [|t ts IH]; intros x; cbn; [done|apply IH]. Qed.

Lemma rrf_scores_spec rrf_k ranked_lists k : dget k (rrf_scores repr rrf_k ranked_lists).1 = rrf_score rrf_k k ranked_lists.
Proof.
  unfold rrf_scores, rrf_score.
  assert (Hg : forall acc, dget k (foldl (fun acc ranking => rrf_ranking repr rrf_k 1 ranking acc) acc ranked_lists).1 =
    sum_from (dget k acc.1) (ranked_lists ≫= rrf_terms rrf_k k)).
  { induction ranked_lists as [|r ranked_lists IH]; intros acc; [done|]. cbn [foldl]. rewrite IH, rrf_ranking_scores.
    cbn [mbind list_bind]. rewrite sum_from_app. do 2 f_equal.
    unfold rrf_terms, terms_from. f_equal. apply imap_ext. intros i d _. case_decide; [|done].
    by replace (1 + Z.of_nat i)%Z with (Z.of_nat (S i)) by lia. }
  rewrite Hg. cbn [fst dget]. destruct (ranked_lists ≫= _) as [|t ts]; [done|]. cbn [sum_from foldl]. by rewrite sum_from_Some.
Qed.

(** What the two dictionaries are, at any time. *)
Record rrf_ok (P : Document -> Prop) (acc : list ((pystr * pystr) * pyfloat) * list ((pystr * pystr) * Document)) : Prop := {
  ro_scores : NoDup acc.1.*1;
  ro_docs : NoDup acc.2.*1;
  ro_same : forall k, k ∈ acc.1.*1 <-> k ∈ acc.2.*1;
  ro_key : Forall (fun kd => key kd.2 = kd.1 /\ P kd.2) acc.2;
}.

Lemma rrf_ranking_ok P rrf_k rank ranking acc : Forall P ranking -> rrf_ok P acc -> rrf_ok P (rrf_ranking repr rrf_k rank ranking acc).
Proof.
  revert rank acc. induction ranking as [|d ranking IH]; intros rank acc HP Hok; [done|]. apply Forall_cons in HP as [Hd HP].
  cbn [rrf_ranking]. apply IH; [done|]. destruct Hok as [Hs Hd' Hsame Hkey]. split; cbn [fst snd].
  - by apply NoDup_dset.
  - by apply NoDup_dset.
  - intros k. by rewrite !elem_of_dset_keys, Hsame.
  - by apply Forall_dset.
Qed.

Lemma rrf_scores_ok P rrf_k ranked_lists : Forall (Forall P) ranked_lists -> rrf_ok P (rrf_scores repr rrf_k ranked_lists).
Proof.
  unfold rrf_scores. intros HP. assert (Hok : rrf_ok P ([], [])) by (split; try constructor; done). revert Hok.
  generalize (([], []) : list ((pystr * pystr) * pyfloat) * list ((pystr * pystr) * Document)).
  induction HP as [|r ranked_lists Hr _ IH]; intros acc Hok; [done|]. cbn [foldl]. by apply IH, rrf_ranking_ok.
Qed.

(** The fused list is the sorted scores, each with a document of its key. *)
Lemma fusion_entries P rrf_k ranked_lists limit : Forall (Forall P) ranked_lists ->
  let sorted := py_sorted (by_score_desc snd) (rrf_scores repr rrf_k ranked_lists).1 in
  Forall2 (fun ds ks => key ds.1 = ks.1 /\ P ds.1 /\ ds.2 = ks.2)
    (reciprocal_rank_fusion repr ranked_lists rrf_k limit) (take limit sorted).
Proof.
  intros HP sorted. subst sorted. unfold reciprocal_rank_fusion. pose proof (rrf_scores_ok P rrf_k ranked_lists HP) as [Hs Hd Hsame Hkey].
  destruct (rrf_scores _ _ _) as [scores docs]. cbn [fst snd] in *.
  assert (Hin : Forall (fun ks => ks.1 ∈ docs.*1) (take limit (py_sorted (by_score_desc snd) scores))).
  { apply Forall_take, Forall_forall. intros [k s] Hk. rewrite elem_of_py_sorted in Hk. apply Hsame. apply list_elem_of_fmap. by exists (k, s). }
  induction Hin as [|[k s] l Hk _ IH]; [constructor|]. cbn [omap list_omap]. cbn in Hk. apply dget_is_Some in Hk as [d Hd'].
  rewrite Hd'. cbn. constructor; [|exact IH]. rewrite Forall_forall in Hkey. destruct (Hkey (k, d) (dget_Some_elem _ _ _ Hd')). done.
Qed.

(** [P] of every document, and keys without repetition. *)
Lemma fusion_ok P rrf_k ranked_lists limit : Forall (Forall P) ranked_lists ->
  Forall (fun ds => P ds.1) (reciprocal_rank_fusion repr ranked_lists rrf_k limit) /\
  NoDup (map (fun ds => key ds.1) (reciprocal_rank_fusion repr ranked_lists rrf_k limit)) /\
  length (reciprocal_rank_fusion repr ranked_lists rrf_k limit) = limit `min` length (rrf_scores repr rrf_k ranked_lists).1.
Proof.
  intros HP. pose proof (fusion_entries P rrf_k ranked_lists limit HP) as Hf. cbn zeta in Hf.
  pose proof (rrf_scores_ok P rrf_k ranked_lists HP) as [Hs _ _ _]. split; [|split].
  - eapply Forall2_Forall_l; [exact Hf|]. apply Forall_true. naive_solver.
  - assert (Hk : map (fun ds => key ds.1) (reciprocal_rank_fusion repr ranked_lists rrf_k limit) =
      (take limit (py_sorted (by_score_desc snd) (rrf_scores repr rrf_k ranked_lists).1)).*1).
    { revert Hf. generalize (reciprocal_rank_fusion repr ranked_lists rrf_k limit) as l.
      generalize (take limit (py_sorted (by_score_desc snd) (rrf_scores repr rrf_k ranked_lists).1)) as l'.
      intros l' l Hf. induction Hf as [|x y l l' (Hxy & _) _ IH]; [done|]. cbn. by rewrite Hxy, IH. }
    rewrite Hk. eapply sublist_NoDup; [|apply fmap_sublist, sublist_take]. by rewrite py_sorted_perm.
  - apply Forall2_length in Hf. by rewrite Hf, length_take, length_py_sorted.
Qed.

Lemma rrf_score_listed rrf_k ranked_lists d ranking : ranking ∈ ranked_lists -> d ∈ ranking ->
  is_Some (rrf_score rrf_k (key d) ranked_lists).
Proof.
  intros Hr Hd. unfold rrf_score. destruct (ranked_lists ≫= _) as [|t ts] eqn:E; [|eauto]. exfalso.
  apply list_elem_of_lookup in Hd as [i Hi].
  assert (Ht : rrf_term rrf_k (Z.of_nat (S i)) ∈ ranked_lists ≫= rrf_terms rrf_k (key d)); [|by rewrite E in Ht; apply elem_of_nil in Ht].
  apply list_elem_of_bind. exists ranking. split; [|done]. unfold rrf_terms. apply list_elem_of_In, in_concat.
  exists [rrf_term rrf_k (Z.of_nat (S i))]. split; [|by left]. apply list_elem_of_In, elem_of_lookup_imap. exists i, d.
  by rewrite decide_True.
Qed.

(** Reciprocal rank fusion.  The candidates of several rankings are merged without
    duplicates: a document's score is the sum of [1 / (k + rank)] over its occurrences,
    added in their order; the result is ordered by score, greatest first, and what is cut
    off at the limit scores no more than anything that is kept. *)
Theorem fusion_is_rrf (ranked_lists : list (list Document)) (rrf_k : Z) (limit : nat) :
  (forall k s, rrf_score rrf_k k ranked_lists = Some s -> f_nan s = false) ->
  let fused := reciprocal_rank_fusion repr ranked_lists rrf_k limit in
  NoDup (map (fun ds => key ds.1) fused) /\ length fused <= limit /\
  in_order (by_score_desc snd) fused /\
  (forall d s, (d, s) ∈ fused ->
    (exists ranking, ranking ∈ ranked_lists /\ d ∈ ranking) /\ rrf_score rrf_k (key d) ranked_lists = Some s) /\
  (forall ranking d, ranking ∈ ranked_lists -> d ∈ ranking -> key d ∉ map (fun ds => key ds.1) fused ->
    length fused = limit /\
    exists s, rrf_score rrf_k (key d) ranked_lists = Some s /\ forall ds, ds ∈ fused -> f_lt ds.2 s = false).
Proof.
  intros Hnan fused. set (P := fun d => exists ranking, ranking ∈ ranked_lists /\ d ∈ ranking).
  assert (HP : Forall (Forall P) ranked_lists) by (apply Forall_forall; intros r Hr; apply Forall_forall; intros d Hd; by exists r).
  destruct (fusion_ok P rrf_k ranked_lists limit HP) as (_ & Hnd & Hlen).
  pose proof (fusion_entries P rrf_k ranked_lists limit HP) as Hf. cbn zeta in Hf. fold fused in Hnd, Hlen, Hf.
  set (scores := (rrf_scores repr rrf_k ranked_lists).1) in *. set (sorted := py_sorted (by_score_desc snd) scores) in *.
  assert (Hsc : forall ks, ks ∈ sorted -> rrf_score rrf_k ks.1 ranked_lists = Some ks.2).
  { intros [k s] Hk. subst sorted. rewrite elem_of_py_sorted in Hk. cbn. rewrite <- rrf_scores_spec. apply elem_dget; [|done].
    apply (ro_scores _ _ (rrf_scores_ok P rrf_k ranked_lists HP)). }
  assert (Hno : Forall (fun ks : (pystr * pystr) * pyfloat => f_nan ks.2 = false) scores).
  { apply Forall_forall. intros ks Hk. apply (Hnan ks.1), Hsc. subst sorted. by rewrite elem_of_py_sorted. }
  split; [done|]. split; [lia|]. split; [|split].
  - intros i j a b Hij Ha Hb.
    destruct (Forall2_lookup_l _ _ _ _ _ Hf Ha) as (a' & Ha' & _ & _ & Hsa), (Forall2_lookup_l _ _ _ _ _ Hf Hb) as (b' & Hb' & _ & _ & Hsb).
    unfold by_score_desc. rewrite Hsa, Hsb. apply lookup_take_Some in Ha' as [Ha' _], Hb' as [Hb' _].
    exact (sorted_desc snd scores Hno i j a' b' Hij Ha' Hb').
  - intros d s Hds. apply list_elem_of_lookup in Hds as [i Hi].
    destruct (Forall2_lookup_l _ _ _ _ _ Hf Hi) as (ks & Hks & Hkey & Hp & Hs). cbn in *. split; [exact Hp|].
    apply lookup_take_Some in Hks as [Hks _]. rewrite Hkey, Hs. apply Hsc. by eapply list_elem_of_lookup_2.
  - intros ranking d Hr Hd Hout. destruct (rrf_score_listed rrf_k ranked_lists d ranking Hr Hd) as [s Hs].
    pose proof Hs as Hget. rewrite <- rrf_scores_spec in Hget. apply dget_Some_elem in Hget.
    assert (Hin : (key d, s) ∈ take limit sorted ++ drop limit sorted) by (rewrite take_drop; subst sorted; by rewrite elem_of_py_sorted).
    apply elem_of_app in Hin as [Hin|Hin].
    { exfalso. apply Hout. apply list_elem_of_lookup in Hin as [i Hi]. destruct (Forall2_lookup_r _ _ _ _ _ Hf Hi) as (ds & Hds & Hk & _).
      cbn in Hk. rewrite <- Hk. apply list_elem_of_fmap. exists ds. split; [done|]. by eapply list_elem_of_lookup_2. }
    split.
    { pose proof (list_elem_of_lookup_1 _ _ Hin) as [i Hi]. apply lookup_lt_Some in Hi. rewrite length_drop in Hi.
      subst sorted. rewrite length_py_sorted in Hi. lia. }
    exists s. split; [done|]. intros ds Hds. apply list_elem_of_lookup in Hds as [i Hi].
    destruct (Forall2_lookup_l _ _ _ _ _ Hf Hi) as (ks & Hks & _ & _ & ->).
    refine (py_sorted_take (by_score_desc snd) (fun ks => f_nan ks.2 = false) _ _ limit scores ks (key d, s) Hno _ Hin);
      unfold by_score_desc; eauto using f_lt_asym, f_lt_negtrans. by eapply list_elem_of_lookup_2.
Qed.
End fusion.

(** Three documents in two rankings: the one in both comes first. *)
Module Demo.
Definition doc (n : Z) (text : pystr) : Document := {| doc_ref := n; page_content := text; metadata := mkdict [(u "source", JStr (u "a.md"))] |}.
Definition rankings : list (list Document) := [[doc 1 (u "x"); doc 2 (u "y")]; [doc 2 (u "y"); doc 3 (u "z")]].
Example demo_fusion :
  map (fun ds => (page_content ds.1, fmt_g ds.2)) (reciprocal_rank_fusion (fun _ => []) rankings 60 2) =
  [(u "y", u "0.0325225"); (u "x", u "0.0163934")].
Proof. vm_compute. reflexivity. Qed.
End Demo.

Lemma fusion_is_rrf_witness :
  rrf_score (fun _ => []) 60 (u "a.md", u "z") Demo.rankings = Some (rrf_term 60 2) /\
  in_order (by_score_desc snd) (reciprocal_rank_fusion (fun _ => []) Demo.rankings 60 2).
Proof.
  split; [vm_compute; reflexivity|].
  apply (fusion_is_rrf (fun _ => []) Demo.rankings 60 2).
  intros k s Hs. rewrite <- rrf_scores_spec in Hs. apply dget_Some_elem in Hs.
  assert (Hall : forallb (fun ks => negb (f_nan ks.2)) (rrf_scores (fun _ => []) 60 Demo.rankings).1 = true) by (vm_compute; reflexivity).
  rewrite forallb_elem in Hall. apply Hall in Hs. by apply negb_true_iff in Hs.
Defined.
