(* ===== verification/Retrieval.v ===== *)
(** * Searching the knowledge base ([app/rag/vectorstore.py], search; [reranker.py])

    A tenant's question is looked up in the tenant's own index and the platform's, by
    vectors and by words; the two rankings are fused, perhaps re-ranked, and cut.  The
    vector index, the word index's scores and the re-ranking model are parameters.  The
    indexes on disk are taken not to change during a search, which holds their lock. *)

From stdpp Require Import base list gmap strings.
From Stdlib Require Import Floats.SpecFloat.
From S2P Require Import Prelude PyText PyUnicode PyFloat PySort PyDict Errors Json Window ToolCache CourseCapability Query Documents.
Open Scope py_scope.

Definition PLATFORM_TENANT : pystr := u "platform".

(** ** Hits *)

Record SearchHit := {
  sh_document : Document;
  sh_score : pyfloat;
  sh_vector_sim : pyfloat;
  sh_bm25_score : pyfloat;
  sh_low_confidence : bool;
}.
Definition passes_min_score (min_score : pyfloat) (h : SearchHit) : bool :=
  f_le min_score f_zero || f_ge (sh_vector_sim h) min_score || f_lt f_zero (sh_bm25_score h).

Record TenantSearchResult := {
  ts_hits : list SearchHit;
  ts_fetch_k : Z;
  ts_query_profile : profile;
  ts_fused_count : Z;
  ts_rerank_enabled : bool;
  ts_rerank_top_k : Z;
  ts_low_confidence_fallback : bool;
  ts_retrieval_queries : list pystr;
}.

Record rag_settings := {
  rag_hybrid_enabled : bool;
  rag_rrf_k : Z;
  rag_dynamic_k_enabled : bool;
  rag_fetch_k_min : Z;
  rag_fetch_k_max : Z;
  rag_rerank_enabled : bool;
  rag_rerank_fetch_k : Z;
  rag_rerank_top_k : Z;
  rag_min_score : pyfloat;
  rag_neighbor_chunks : Z;
  rag_context_token_budget : Z;
}.

(** ** Services *)

(** What the re-ranking model does with the pairs within its time. *)
Inductive predicted : Type :=
| Scores (l : list pyfloat)
| TimedOut
| Failed (e : exn).

Class RetrievalServices := {
  repr : json -> pystr;
  lcut : pystr -> list pystr;
  bm25_scores : list (list pystr) -> list pystr -> list pyfloat;
  (* FAISS.similarity_search_with_score of an index of these documents: documents and distances *)
  similarity_search : list Document -> pystr -> Z -> list (Document * pyfloat);
  predict : list (pystr * pystr) -> predicted;
}.
(** The vector index answers with documents it holds. *)
Class RetrievalLaws `{RetrievalServices} : Prop := {
  similarity_search_in docs q k : Forall (fun ds => ds.1 ∈ docs) (similarity_search docs q k);
}.

Section search.
Context `{RetrievalServices}.
Abbreviation key := (document_key repr).
Abbreviation matches_course := (_matches_course repr).

(** ** Scopes *)

(** The tenants' indexes, each the documents of its store in order. *)
Context (indexes : gmap pystr (list Document)).

Definition search_scopes (tenant_id : pystr) (course_code : option pystr) : list pystr :=
  if otruthy course_code then filter (fun s => is_Some (indexes !! s)) [tenant_id]
  else
    filter (fun s => is_Some (indexes !! s))
      ([tenant_id] ++ (if bool_decide (is_Some (indexes !! PLATFORM_TENANT)) && negb (bool_decide (tenant_id = PLATFORM_TENANT))
                       then [PLATFORM_TENANT] else [])).

Definition store_of (scope : pystr) : list Document := default [] (indexes !! scope).
Definition _iter_store_documents (store : list Document) (include_deleted : bool) : list Document :=
  filter (fun d => include_deleted || negb (_is_deleted d) = true) store.

(** [[x for x in l if await p(x)]], when the test can raise. *)
Fixpoint filter_res {A} (p : A -> res exn bool) (l : list A) : res exn (list A) :=
  match l with
  | [] => Ok []
  | x :: l' => let? b := p x in let? r := filter_res p l' in Ok (if (b : bool) then x :: r else r)
  end.

Definition iter_tenant_documents (tenant_id : pystr) (course_code : option pystr) : res exn (list Document) :=
  let documents := scope ← search_scopes tenant_id course_code; _iter_store_documents (store_of scope) false in
  if otruthy course_code then filter_res (fun d => matches_course d course_code) documents else Ok documents.

(** ** By vectors *)

Definition l2_to_similarity (distance : pyfloat) : pyfloat :=
  f_max f_zero (f_sub f_one (f_div distance (f_of_int 2))).
Definition _fetch_k (k : Z) : Z := Z.max (k * 3) 12.
Definition _vector_inner_k (fetch_k : Z) (course_code : option pystr) (total : Z) : Z :=
  Z.min total (Z.max (fetch_k * (if otruthy course_code then 8 else 4)) (if otruthy course_code then 32 else 16)).

(** The loop over the candidates, nearest first. *)
Fixpoint vector_loop (fetch_k : Z) (course_code : option pystr) (seen : list (pystr * pystr)) (ranked : list (Document * pyfloat))
    (candidates : list (Document * pyfloat)) : res exn (list (Document * pyfloat)) :=
  match candidates with
  | [] => Ok ranked
  | (d, distance) :: rest =>
    let continue := vector_loop fetch_k course_code seen ranked rest in
    if _is_deleted d then continue
    else
      let? matching := matches_course d course_code in
      if negb matching then continue
      else if negb (is_retrieval_chunk repr d) then continue
      else if bool_decide (key d ∈ seen) then continue
      else
        let ranked := ranked ++ [(d, l2_to_similarity distance)] in
        if (fetch_k <=? Z.of_nat (length ranked))%Z then Ok ranked
        else vector_loop fetch_k course_code (key d :: seen) ranked rest
  end.

Definition _search_vector (query tenant_id : pystr) (fetch_k : Z) (course_code : option pystr) : res exn (list (Document * pyfloat)) :=
  let scored := scope ← search_scopes tenant_id course_code;
                match store_of scope with
                | [] => []
                | store => similarity_search store query (_vector_inner_k fetch_k course_code (Z.of_nat (length store)))
                end in
  vector_loop fetch_k course_code [] [] (py_sorted (by_score_asc snd) scored).

(** ** By words *)

(** [_lexical]: the indexes built so far. *)
Abbreviation lexical := (gmap pystr (option Bm25Index)).
Abbreviation act := (ST lexical exn).

Definition built_index (scope : pystr) : option Bm25Index :=
  match indexes !! scope with
  | Some store => build lcut (filter (fun d => is_retrieval_chunk repr d = true) (_iter_store_documents store false))
  | None => None
  end.
Definition _bm25_index (scope : pystr) : act (option Bm25Index) := fun cache =>
  match cache !! scope with
  | Some index => (Ok index, cache)
  | None => (Ok (built_index scope), <[scope := built_index scope]> cache)
  end.

(** The best score of each document, over the hits of one scope. *)
Fixpoint bm25_loop (course_code : option pystr) (best : list ((pystr * pystr) * (Document * pyfloat)))
    (hits : list (Document * pyfloat)) : res exn (list ((pystr * pystr) * (Document * pyfloat))) :=
  match hits with
  | [] => Ok best
  | (d, score) :: rest =>
    let? matching := matches_course d course_code in
    if negb matching then bm25_loop course_code best rest
    else
      let better := match dget (key d) best with None => true | Some previous => f_lt previous.2 score end in
      bm25_loop course_code (if better then dset (key d) (d, score) best else best) rest
  end.
Fixpoint bm25_scopes (query : pystr) (lexical_fetch : Z) (course_code : option pystr) (scopes : list pystr)
    (best : list ((pystr * pystr) * (Document * pyfloat))) : act (list ((pystr * pystr) * (Document * pyfloat))) :=
  match scopes with
  | [] => st_ret best
  | scope :: rest =>
    let! index := _bm25_index scope in
    match index with
    | None => bm25_scopes query lexical_fetch course_code rest best
    | Some index =>
      let! best := (fun cache => (bm25_loop course_code best (bm25_search lcut bm25_scores index query lexical_fetch), cache)) in
      bm25_scopes query lexical_fetch course_code rest best
    end
  end.

Definition _search_bm25 (query tenant_id : pystr) (fetch_k : Z) (course_code : option pystr) : act (list (Document * pyfloat)) :=
  let lexical_fetch := if otruthy course_code then Z.max (fetch_k * 4) 16 else fetch_k in
  let! best := bm25_scopes query lexical_fetch course_code (search_scopes tenant_id course_code) [] in
  st_ret (take (Z.to_nat fetch_k) (py_sorted (by_score_desc snd) best.*2)).

(** ** Fusion *)

Definition score_map (ranked : list (Document * pyfloat)) : list ((pystr * pystr) * pyfloat) :=
  dict_of (map (fun '(d, s) => (key d, s)) ranked).
Definition fused_hits (vector_map bm25_map : list ((pystr * pystr) * pyfloat)) (fused : list (Document * pyfloat)) : list SearchHit :=
  map (fun '(d, rrf) => {| sh_document := d; sh_score := rrf;
                           sh_vector_sim := default f_zero (dget (key d) vector_map);
                           sh_bm25_score := default f_zero (dget (key d) bm25_map); sh_low_confidence := false |}) fused.

Definition _fuse_hits (vector_ranked bm25_ranked : list (Document * pyfloat)) (rrf_k : Z) (limit : nat) : list SearchHit :=
  fused_hits (score_map vector_ranked) (score_map bm25_ranked)
    (reciprocal_rank_fusion repr [vector_ranked.*1; bm25_ranked.*1] rrf_k limit).

(** The greatest score of each key over several maps. *)
Definition merge_maps (maps : list (list ((pystr * pystr) * pyfloat))) : list ((pystr * pystr) * pyfloat) :=
  foldl (fun acc item => foldl (fun acc '(k, v) => dset k (f_max (default f_zero (dget k acc)) v) acc) acc item) [] maps.
Definition _hits_from_ranked_lists (ranked_lists : list (list Document))
    (vector_maps bm25_maps : list (list ((pystr * pystr) * pyfloat))) (rrf_k : Z) (limit : nat) : list SearchHit :=
  fused_hits (merge_maps vector_maps) (merge_maps bm25_maps) (reciprocal_rank_fusion repr ranked_lists rrf_k limit).

(** Without the word index, a hit is scored by its similarity. *)
Definition vector_hit (ds : Document * pyfloat) : SearchHit :=
  {| sh_document := ds.1; sh_score := ds.2; sh_vector_sim := ds.2; sh_bm25_score := f_zero; sh_low_confidence := false |}.

Context (settings : rag_settings).
Abbreviation ranking := (list (Document * pyfloat)).

(** The two rankings of one query. *)
Definition rankings (query tenant_id : pystr) (fetch_k : Z) (course_code : option pystr) : act (ranking * ranking) :=
  let! vector_ranked := (fun cache => (_search_vector query tenant_id fetch_k course_code, cache)) in
  let! bm25_ranked := (if rag_hybrid_enabled settings then _search_bm25 query tenant_id fetch_k course_code else st_ret []) in
  st_ret (vector_ranked, bm25_ranked).
Definition hits_of (limit : nat) (r : ranking * ranking) : list SearchHit :=
  if rag_hybrid_enabled settings then _fuse_hits r.1 r.2 (rag_rrf_k settings) limit
  else map vector_hit (take limit r.1).

Definition _single_query_hits (query tenant_id : pystr) (fetch_k fuse_limit : Z) (course_code : option pystr)
    : act (list SearchHit * (ranking * ranking)) :=
  let! r := rankings query tenant_id fetch_k course_code in
  st_ret (hits_of (Z.to_nat fuse_limit) r, r).

Fixpoint all_rankings (queries : list pystr) (tenant_id : pystr) (fetch_k : Z) (course_code : option pystr)
    : act (list (ranking * ranking)) :=
  match queries with
  | [] => st_ret []
  | q :: rest =>
    let! r := rankings q tenant_id fetch_k course_code in
    let! rs := all_rankings rest tenant_id fetch_k course_code in
    st_ret (r :: rs)
  end.
Definition _multi_query_hits (queries : list pystr) (tenant_id : pystr) (fetch_k fuse_limit : Z) (course_code : option pystr)
    : act (list SearchHit * (ranking * ranking)) :=
  let! rs := all_rankings queries tenant_id fetch_k course_code in
  let ranked_lists := map (fun r => map sh_document (hits_of (Z.to_nat fuse_limit) r)) rs in
  let hits := _hits_from_ranked_lists ranked_lists (map (fun r => score_map r.1) rs) (map (fun r => score_map r.2) rs)
                (rag_rrf_k settings) (Z.to_nat fuse_limit) in
  st_ret (hits, default ([], []) (last rs)).

(** ** Re-ranking ([reranker.py]) *)

Definition with_score (score : pyfloat) (h : SearchHit) : SearchHit :=
  {| sh_document := sh_document h; sh_score := score; sh_vector_sim := sh_vector_sim h; sh_bm25_score := sh_bm25_score h;
     sh_low_confidence := sh_low_confidence h |}.
Definition rerank_hits (query : pystr) (hits : list SearchHit) (top_k : Z) : res exn (list SearchHit) :=
  match hits with
  | [] => Ok []
  | _ =>
    if (top_k <=? 0)%Z then Ok []
    else if bool_decide (length hits = 1) then Ok hits
    else
      match predict (map (fun h => (query, page_content (sh_document h))) hits) with
      | TimedOut => Ok (take (Z.to_nat top_k) hits)
      | Failed e => if is_Exception e then Ok (take (Z.to_nat top_k) hits) else Raise e
      | Scores scores =>
        if negb (bool_decide (length scores = length hits)) then Raise (ValueError (u "zip() arguments of different lengths"))
        else
          let ranked := py_sorted (by_score_desc snd) (zip hits scores) in
          Ok (map (fun '(h, score) => with_score score h) (take (Z.to_nat top_k) ranked))
      end
  end.

(** ** The search *)

Definition low_confidence (h : SearchHit) : SearchHit :=
  {| sh_document := sh_document h; sh_score := sh_score h; sh_vector_sim := sh_vector_sim h; sh_bm25_score := sh_bm25_score h;
     sh_low_confidence := true |}.
Definition py_take {A} (k : Z) (l : list A) : list A :=
  if (0 <=? k)%Z then take (Z.to_nat k) l else take (length l - Z.to_nat (- k)) l.

Definition active_queries (query : pystr) (retrieval_queries : list pystr) : list pystr :=
  let given := match retrieval_queries with [] => [query] | _ => retrieval_queries end in
  match filter (fun q => truthy q = true) (map strip given) with [] => [query] | l => l end.

Definition search_tenant_documents (query tenant_id : pystr) (k : Z) (course_code : option pystr) (retrieval_queries : list pystr)
    : act TenantSearchResult :=
  let plan := resolve_retrieval_plan (rag_fetch_k_min settings) (rag_fetch_k_max settings) query k course_code in
  let fetch_k := if rag_dynamic_k_enabled settings then rp_fetch_k plan else _fetch_k k in
  let fuse_limit := if rag_rerank_enabled settings then Z.max fetch_k (rag_rerank_fetch_k settings) else fetch_k in
  let queries := active_queries query retrieval_queries in
  let! found := (if 1 <? length queries then _multi_query_hits queries tenant_id fetch_k fuse_limit course_code
                 else _single_query_hits query tenant_id fetch_k fuse_limit course_code) in
  let '(fused, r) := found in
  let rerank_enabled := rag_rerank_enabled settings && negb (bool_decide (fused = [])) in
  let rerank_top_k := if rerank_enabled then Z.min (rag_rerank_top_k settings) k else 0%Z in
  let! hits := (if rerank_enabled then fun cache => (rerank_hits query fused rerank_top_k, cache) else st_ret (py_take k fused)) in
  let relaxed := hits_of (Z.to_nat k) r in
  let fallback := otruthy course_code && bool_decide (hits = []) && negb (bool_decide (relaxed = [])) in
  let hits := if fallback then map low_confidence relaxed else hits in
  st_ret {| ts_hits := py_take k hits; ts_fetch_k := fetch_k; ts_query_profile := rp_profile plan;
            ts_fused_count := Z.of_nat (length fused); ts_rerank_enabled := rerank_enabled; ts_rerank_top_k := rerank_top_k;
            ts_low_confidence_fallback := fallback; ts_retrieval_queries := queries |}.
End search.

(** ** What a search may find *)

Section scope.
Context `{!RetrievalServices, !RetrievalLaws} (indexes : gmap pystr (list Document)).
Abbreviation key := (document_key repr).
Abbreviation lexical := (gmap pystr (option Bm25Index)).
Context (tenant_id : pystr) (course_code : option pystr).

(** A slice the tenant may be shown: live, from one of the scopes, for the course. *)
Definition in_scope (d : Document) : Prop := exists scope, scope ∈ search_scopes indexes tenant_id course_code /\ d ∈ store_of indexes scope.
Record admissible (d : Document) : Prop := {
  ad_scope : in_scope d;
  ad_live : _is_deleted d = false;
  ad_chunk : is_retrieval_chunk repr d = true;
  ad_course : _matches_course repr d course_code = Ok true;
}.

Lemma search_scopes_spec scope : scope ∈ search_scopes indexes tenant_id course_code ->
  is_Some (indexes !! scope) /\ (scope = tenant_id \/ scope = PLATFORM_TENANT /\ otruthy course_code = false).
Proof.
  unfold search_scopes. destruct (otruthy course_code); intros [Hs Hin]%list_elem_of_filter.
  - apply list_elem_of_singleton in Hin as ->. auto.
  - split; [done|]. destruct (_ && _); [|apply list_elem_of_singleton in Hin as ->; auto].
    apply elem_of_cons in Hin as [->|Hin]; [by left|]. apply list_elem_of_singleton in Hin as ->. by right.
Qed.

(** A ranking without repetition, of admissible documents. *)
Definition ranking_ok (r : list (Document * pyfloat)) : Prop :=
  Forall (fun ds => admissible ds.1) r /\ NoDup (map (fun ds => key ds.1) r).

Lemma vector_loop_ok fetch_k seen ranked candidates r :
  Forall (fun ds => in_scope ds.1) candidates -> ranking_ok ranked -> (forall ds, ds ∈ ranked -> key ds.1 ∈ seen) ->
  vector_loop fetch_k course_code seen ranked candidates = Ok r -> ranking_ok r.
Proof.
  revert seen ranked. induction candidates as [|[d dist] rest IH]; intros seen ranked Hc Hr Hseen; cbn [vector_loop].
  - by intros [= <-].
  - apply Forall_cons in Hc as [Hd Hc]. cbn in Hd. destruct (_is_deleted d) eqn:Hdel; [by apply IH|].
    rewrite rbind_ok. intros (matching & Hm & Hrest). destruct matching; cbn [negb] in Hrest; [|by eapply IH].
    destruct (is_retrieval_chunk repr d) eqn:Hch; cbn [negb] in Hrest; [|by eapply IH].
    case_bool_decide as Hk; [by eapply IH|].
    assert (Hr' : ranking_ok (ranked ++ [(d, l2_to_similarity dist)])).
    { destruct Hr as [Ha Hn]. split.
      - apply Forall_app. split; [done|]. apply Forall_singleton. by split.
      - rewrite map_app. apply NoDup_app. split; [done|]. split; [|by apply NoDup_singleton].
        intros k (ds & -> & Hds)%list_elem_of_fmap Hk2%list_elem_of_singleton. cbn in Hk2. apply Hk. rewrite <- Hk2. by apply Hseen. }
    destruct (_ <=? _)%Z; [by injection Hrest as <-|]. eapply IH; [exact Hc|exact Hr'| |exact Hrest].
    intros ds [Hds| ->%list_elem_of_singleton]%elem_of_app; [right; by apply Hseen|by left].
Qed.

Lemma search_vector_ok query fetch_k r : _search_vector indexes query tenant_id fetch_k course_code = Ok r -> ranking_ok r.
Proof.
  unfold _search_vector. apply vector_loop_ok; [|split; [constructor|apply NoDup_nil_2]|by intros ds ?%elem_of_nil].
  apply Forall_forall. intros ds. rewrite elem_of_py_sorted, list_elem_of_bind. intros (scope & Hds & Hs).
  exists scope. split; [done|]. destruct (store_of indexes scope) as [|d0 store] eqn:E; [by apply elem_of_nil in Hds|].
  pose proof (similarity_search_in (d0 :: store) query (_vector_inner_k fetch_k course_code (Z.of_nat (length (d0 :: store))))) as Hf.
  rewrite Forall_forall in Hf. by apply Hf.
Qed.

(** The word indexes that are cached are those of the stores. *)
Definition lexical_ok (cache : lexical) : Prop := forall scope i, cache !! scope = Some i -> i = built_index indexes scope.

Lemma bm25_index_ok scope cache r cache' : lexical_ok cache -> _bm25_index indexes scope cache = (r, cache') ->
  lexical_ok cache' /\ r = Ok (built_index indexes scope).
Proof.
  unfold _bm25_index. intros Hok. destruct (cache !! scope) as [i|] eqn:E; intros [= <- <-].
  - split; [done|]. by rewrite (Hok _ _ E).
  - split; [|done]. intros s i [[<- <-]|[_ Hi]]%lookup_insert_Some; [done|by apply Hok].
Qed.

Lemma bm25_search_in index query k : Forall (fun ds => ds.1 ∈ bm_documents index) (bm25_search lcut bm25_scores index query k).
Proof.
  unfold bm25_search. destruct (tokenize _ _); [constructor|]. destruct (_ <=? _)%Z; [constructor|]. apply Forall_take, Forall_forall.
  intros ds. rewrite elem_of_py_sorted, list_elem_of_filter. intros [_ Hz]. destruct ds as [d s]. cbn.
  by apply elem_of_zip_l in Hz.
Qed.

Lemma built_index_in scope index : built_index indexes scope = Some index -> is_Some (indexes !! scope) ->
  Forall (fun d => d ∈ store_of indexes scope /\ _is_deleted d = false /\ is_retrieval_chunk repr d = true) (bm_documents index).
Proof.
  unfold built_index, build, store_of. intros Hb [store Hs]. rewrite Hs in Hb |- *. cbn. apply Forall_forall. intros d Hd.
  assert (Hin : d ∈ filter (fun d => is_retrieval_chunk repr d = true) (_iter_store_documents store false)).
  { destruct (filter _ _) as [|d0 l] eqn:E; [done|]. injection Hb as <-. exact Hd. }
  unfold _iter_store_documents in Hin. apply list_elem_of_filter in Hin as [Hc Hin]. apply list_elem_of_filter in Hin as [Hl Hin].
  split; [done|]. split; [|done]. cbn in Hl. by apply negb_true_iff in Hl.
Qed.

(** The dictionary of best hits. *)
Definition best_ok (best : list ((pystr * pystr) * (Document * pyfloat))) : Prop :=
  Forall (fun kd => key kd.2.1 = kd.1 /\ admissible kd.2.1) best /\ NoDup best.*1.

Lemma bm25_loop_ok best hits best' :
  Forall (fun ds => in_scope ds.1 /\ _is_deleted ds.1 = false /\ is_retrieval_chunk repr ds.1 = true) hits ->
  best_ok best -> bm25_loop course_code best hits = Ok best' -> best_ok best'.
Proof.
  revert best. induction hits as [|[d s] hits IH]; intros best Hh Hb; cbn [bm25_loop]; [by intros [= <-]|].
  apply Forall_cons in Hh as [(Hs & Hl & Hc) Hh]. rewrite rbind_ok. intros (matching & Hm & Hrest).
  destruct matching; cbn [negb] in Hrest; [|by eapply IH]. eapply IH; [exact Hh| |exact Hrest].
  case_match; [|done]. destruct Hb as [Ha Hn]. split; [|by apply NoDup_dset]. apply Forall_dset; [|done]. by repeat split.
Qed.

Lemma bm25_scopes_ok query lf scopes best cache best' cache' :
  (forall s, s ∈ scopes -> s ∈ search_scopes indexes tenant_id course_code) -> best_ok best -> lexical_ok cache ->
  bm25_scopes indexes query lf course_code scopes best cache = (best', cache') ->
  lexical_ok cache' /\ match best' with Ok best' => best_ok best' | Raise _ => True end.
Proof.
  revert best cache. induction scopes as [|scope scopes IH]; intros best cache Hs Hb Hok; cbn [bm25_scopes].
  - by intros [= <- <-].
  - intros Hrun. assert (Hsc : scope ∈ search_scopes indexes tenant_id course_code) by (apply Hs; by left).
    assert (Hs' : forall s, s ∈ scopes -> s ∈ search_scopes indexes tenant_id course_code) by (intros s Hin; apply Hs; by right).
    unfold st_bind at 1 in Hrun. destruct (_bm25_index _ _ _) as [r c1] eqn:E. destruct (bm25_index_ok _ _ _ _ Hok E) as [Hok1 ->].
    destruct (built_index indexes scope) as [index|] eqn:Ei; [|by eapply IH].
    unfold st_bind in Hrun. destruct (bm25_loop _ _ _) as [best1|e] eqn:El; [|injection Hrun as <- <-; done].
    refine (IH _ _ Hs' _ Hok1 Hrun). refine (bm25_loop_ok _ _ _ _ Hb El).
    eapply Forall_impl; [apply bm25_search_in|]. intros ds Hds. cbn in Hds.
    pose proof (built_index_in scope index Ei (proj1 (search_scopes_spec _ Hsc))) as Hbi. rewrite Forall_forall in Hbi.
    destruct (Hbi _ Hds) as (Hin & ? & ?). split; [by exists scope|done].
Qed.

Lemma search_bm25_ok query fetch_k cache r cache' : lexical_ok cache ->
  _search_bm25 indexes query tenant_id fetch_k course_code cache = (r, cache') ->
  lexical_ok cache' /\ match r with Ok r => ranking_ok r | Raise _ => True end.
Proof.
  unfold _search_bm25. intros Hok Hrun. unfold st_bind in Hrun. destruct (bm25_scopes _ _ _ _ _ _ _) as [b c1] eqn:E.
  assert (Hnil : best_ok []) by (split; [constructor|apply NoDup_nil_2]).
  destruct (bm25_scopes_ok _ _ _ _ _ _ _ (fun s H => H) Hnil Hok E) as [Hok1 Hb].
  destruct b as [best|e]; injection Hrun as <- <-; split; try done. destruct Hb as [Ha Hn].
  assert (Hp : py_sorted (by_score_desc snd) best.*2 ≡ₚ best.*2) by apply py_sorted_perm.
  assert (Hkeys : map (fun ds => key ds.1) best.*2 = best.*1).
  { clear -Ha. induction Ha as [|[k [d s]] best (Hk & _) _ IH]; [done|]. cbn in *. by rewrite Hk, IH. }
  split.
  - apply Forall_take. rewrite Hp. apply Forall_fmap. eapply Forall_impl; [exact Ha|]. by intros ? [_ ?].
  - eapply sublist_NoDup; [|apply fmap_sublist, sublist_take]. rewrite Hp. change (NoDup (map (fun ds => key ds.1) best.*2)). by rewrite Hkeys.
Qed.

Lemma sublist_map {A B} (f : A -> B) (l l' : list A) : sublist l l' -> sublist (map f l) (map f l').
Proof. apply fmap_sublist. Qed.

(** Hits without repetition, of admissible documents. *)
Definition hits_ok (hs : list SearchHit) : Prop :=
  Forall (fun h => admissible (sh_document h)) hs /\ NoDup (map (fun h => key (sh_document h)) hs).

Lemma hits_ok_sub hs hs' : sublist hs' hs -> hits_ok hs -> hits_ok hs'.
Proof.
  intros Hs [Ha Hn]. split.
  - apply Forall_forall. intros h Hh. rewrite Forall_forall in Ha. apply Ha. by eapply elem_of_sublist.
  - eapply sublist_NoDup; [exact Hn|]. by apply sublist_map.
Qed.

Lemma hits_ok_documents hs hs' : map sh_document hs ≡ₚ map sh_document hs' -> hits_ok hs -> hits_ok hs'.
Proof.
  intros Hp [Ha Hn]. split.
  - assert (Hf : Forall admissible (map sh_document hs)) by (apply Forall_map; exact Ha). rewrite Hp in Hf. rewrite Forall_map in Hf. exact Hf.
  - assert (Hm : forall l, map (fun h => key (sh_document h)) l = map key (map sh_document l)) by (intros l; by rewrite map_map).
    rewrite Hm in *. eapply NoDup_Permutation_proper; [|exact Hn]. symmetry. by apply Permutation_map.
Qed.

Lemma fused_documents vm bm fused : map sh_document (fused_hits vm bm fused) = fused.*1.
Proof. unfold fused_hits. rewrite map_map. apply map_ext. by intros [d s]. Qed.

Lemma fused_hits_ok vm bm ranked_lists rrf_k limit : Forall (Forall admissible) ranked_lists ->
  hits_ok (fused_hits vm bm (reciprocal_rank_fusion repr ranked_lists rrf_k limit)).
Proof.
  intros HP. destruct (fusion_ok repr admissible rrf_k ranked_lists limit HP) as (Ha & Hn & _).
  assert (Hd : map sh_document (fused_hits vm bm (reciprocal_rank_fusion repr ranked_lists rrf_k limit)) =
    map fst (reciprocal_rank_fusion repr ranked_lists rrf_k limit)) by apply fused_documents.
  split.
  - rewrite <- (Forall_map fst admissible) in Ha. assert (Hf : Forall admissible (map sh_document (fused_hits vm bm (reciprocal_rank_fusion repr ranked_lists rrf_k limit)))).
    { rewrite Hd. exact Ha. } rewrite Forall_map in Hf; exact Hf.
  - assert (Hm : forall l, map (fun h => key (sh_document h)) l = map key (map sh_document l)) by (intros l; by rewrite map_map).
    rewrite Hm, Hd, map_map. exact Hn.
Qed.

Context (settings : rag_settings).

Lemma ranking_documents r : ranking_ok r -> Forall admissible r.*1.
Proof. intros [Ha _]. by apply Forall_map. Qed.

Lemma hits_of_ok limit r : ranking_ok r.1 -> ranking_ok r.2 -> hits_ok (hits_of settings limit r).
Proof.
  intros H1 H2. unfold hits_of. destruct (rag_hybrid_enabled settings).
  - apply fused_hits_ok. repeat constructor; by apply ranking_documents.
  - destruct H1 as [Ha Hn]. split.
    + apply Forall_map, Forall_take. exact Ha.
    + rewrite map_map. eapply sublist_NoDup; [exact Hn|]. apply sublist_map, sublist_take.
Qed.

Lemma rankings_ok query fetch_k cache r cache' : lexical_ok cache ->
  rankings indexes settings query tenant_id fetch_k course_code cache = (r, cache') ->
  lexical_ok cache' /\ match r with Ok r => ranking_ok r.1 /\ ranking_ok r.2 | Raise _ => True end.
Proof.
  intros Hok. unfold rankings, st_bind. destruct (_search_vector _ _ _ _ _) as [v|e] eqn:Ev; [|by intros [= <- <-]].
  apply search_vector_ok in Ev. destruct (rag_hybrid_enabled settings).
  - destruct (_search_bm25 _ _ _ _ _ _) as [b c1] eqn:Eb. destruct (search_bm25_ok _ _ _ _ _ Hok Eb) as [Hok1 Hb].
    destruct b; by intros [= <- <-].
  - intros [= <- <-]. split; [done|]. split; [done|]. split; [constructor|apply NoDup_nil_2].
Qed.

Lemma all_rankings_ok queries fetch_k cache rs cache' : lexical_ok cache ->
  all_rankings indexes settings queries tenant_id fetch_k course_code cache = (rs, cache') ->
  lexical_ok cache' /\ match rs with Ok rs => Forall (fun r => ranking_ok r.1 /\ ranking_ok r.2) rs | Raise _ => True end.
Proof.
  revert cache rs cache'. induction queries as [|q queries IH]; intros cache rs cache' Hok; cbn [all_rankings]; [by intros [= <- <-]|].
  unfold st_bind at 1. destruct (rankings _ _ _ _ _ _ _) as [r c1] eqn:Er. destruct (rankings_ok _ _ _ _ _ Hok Er) as [Hok1 Hr].
  destruct r as [r|e]; [|by intros [= <- <-]]. unfold st_bind. destruct (all_rankings _ _ _ _ _ _ c1) as [rs' c2] eqn:Ers.
  destruct (IH _ _ _ Hok1 Ers) as [Hok2 Hrs]. destruct rs'; intros [= <- <-]; split; try done. by constructor.
Qed.

(** What a search has before re-ranking: the fused hits, and the last query's rankings; no
    hits means those were empty. *)
Definition found_ok (limit : Z) (found : list SearchHit * (list (Document * pyfloat) * list (Document * pyfloat))) : Prop :=
  hits_ok found.1 /\ ranking_ok found.2.1 /\ ranking_ok found.2.2 /\
  ((1 <= limit)%Z -> found.1 = [] -> forall l, hits_of settings l found.2 = []).

Lemma fusion_nil ranked_lists rrf_k limit : 1 <= limit -> reciprocal_rank_fusion repr ranked_lists rrf_k limit = [] ->
  Forall (fun r => r = []) ranked_lists.
Proof.
  intros Hl Hn. destruct (fusion_ok repr (fun _ => True) rrf_k ranked_lists limit) as (_ & _ & Hlen).
  { apply Forall_forall. intros r _. by apply Forall_true. }
  rewrite Hn in Hlen. cbn in Hlen. apply Forall_forall. intros r Hr. destruct r as [|d r]; [done|]. exfalso.
  destruct (rrf_score_listed repr rrf_k ranked_lists d (d :: r) Hr) as [s Hs]; [by left|].
  rewrite <- rrf_scores_spec in Hs. apply dget_Some_elem in Hs. destruct (rrf_scores _ _ _).1; [by apply elem_of_nil in Hs|cbn in Hlen; lia].
Qed.

Lemma hits_of_all_nil l r : r.1 = [] -> r.2 = [] -> hits_of settings l r = [].
Proof. intros H1 H2. unfold hits_of, _fuse_hits. rewrite H1, H2. by destruct (rag_hybrid_enabled settings), l. Qed.

Lemma hits_of_nil limit r : 1 <= limit -> hits_of settings limit r = [] -> forall l, hits_of settings l r = [].
Proof.
  intros Hl. destruct (rag_hybrid_enabled settings) eqn:Eh.
  - intros Hn l. unfold hits_of, _fuse_hits in Hn. rewrite Eh in Hn. apply map_eq_nil, fusion_nil in Hn; [|done].
    pose proof (Forall_inv Hn) as H1. pose proof (Forall_inv (Forall_inv_tail Hn)) as H2. cbn in H1, H2.
    apply map_eq_nil in H1. apply map_eq_nil in H2. by apply hits_of_all_nil.
  - unfold hits_of. rewrite Eh. intros Hn%map_eq_nil l. destruct limit as [|limit]; [lia|]. destruct r.1; [by destruct l|done].
Qed.

Lemma single_ok query fetch_k limit cache found cache' : lexical_ok cache ->
  _single_query_hits indexes settings query tenant_id fetch_k limit course_code cache = (found, cache') ->
  lexical_ok cache' /\ match found with Ok found => found_ok limit found | Raise _ => True end.
Proof.
  intros Hok. unfold _single_query_hits, st_bind. destruct (rankings _ _ _ _ _ _ _) as [r c1] eqn:Er.
  destruct (rankings_ok _ _ _ _ _ Hok Er) as [Hok1 Hr]. destruct r as [r|e]; intros [= <- <-]; split; try done. destruct Hr as [H1 H2].
  split; [by apply hits_of_ok|]. split; [done|]. split; [done|]. cbn. intros Hl. apply hits_of_nil. lia.
Qed.

Lemma multi_ok queries fetch_k limit cache found cache' : lexical_ok cache ->
  _multi_query_hits indexes settings queries tenant_id fetch_k limit course_code cache = (found, cache') ->
  lexical_ok cache' /\ match found with Ok found => found_ok limit found | Raise _ => True end.
Proof.
  intros Hok. unfold _multi_query_hits, st_bind. destruct (all_rankings _ _ _ _ _ _ _) as [rs c1] eqn:Er.
  destruct (all_rankings_ok _ _ _ _ _ Hok Er) as [Hok1 Hr]. destruct rs as [rs|e]; intros [= <- <-]; split; try done.
  assert (Hlast : ranking_ok (default ([], []) (last rs)).1 /\ ranking_ok (default ([], []) (last rs)).2).
  { destruct (last rs) as [r|] eqn:El; [|split; (split; [constructor|apply NoDup_nil_2])].
    apply last_Some_elem_of in El. rewrite Forall_forall in Hr. by apply Hr. }
  split; [|split; [apply Hlast|split; [apply Hlast|]]].
  - apply fused_hits_ok. apply Forall_map. eapply Forall_impl; [exact Hr|]. intros r [H1 H2]. cbn.
    destruct (hits_of_ok (Z.to_nat limit) r H1 H2) as [Ha _]. by apply Forall_map.
  - cbn. intros Hl Hn l. destruct (last rs) as [r|] eqn:El; [|by apply hits_of_all_nil]. cbn.
    apply (hits_of_nil (Z.to_nat limit)); [lia|]. unfold _hits_from_ranked_lists in Hn. apply map_eq_nil, fusion_nil in Hn; [|lia].
    rewrite Forall_map in Hn. apply last_Some_elem_of in El. rewrite Forall_forall in Hn. apply Hn in El. cbn in El. by apply map_eq_nil in El.
Qed.

(** Re-ranking changes order and scores only, and leaves something. *)
Lemma rescored_documents (hits : list SearchHit) (scores : list pyfloat) : length scores = length hits ->
  map sh_document (map (fun '(h, score) => with_score score h) (zip hits scores)) = map sh_document hits.
Proof.
  revert scores. induction hits as [|h hits IH]; intros [|x scores] Hl; try done. cbn in *. f_equal. apply IH. lia.
Qed.

Lemma rerank_ok query hits top_k hits' : rerank_hits query hits top_k = Ok hits' -> hits_ok hits ->
  hits_ok hits' /\ ((1 <= top_k)%Z -> hits <> [] -> hits' <> []).
Proof.
  unfold rerank_hits. intros Hr Hok.
  assert (Hpre : hits_ok (take (Z.to_nat top_k) hits) /\ ((1 <= top_k)%Z -> hits <> [] -> take (Z.to_nat top_k) hits <> [])).
  { split; [by eapply hits_ok_sub; [apply sublist_take|]|]. intros Hk Hne. destruct (Z.to_nat top_k) eqn:Ek; [lia|]. by destruct hits. }
  destruct hits as [|h hits]; [by injection Hr as <-|].
  destruct (Z.leb_spec top_k 0) as [Hk|Hk]. { injection Hr as <-. split; [split; [constructor|apply NoDup_nil_2]|lia]. }
  case_bool_decide as H1; [by injection Hr as <-|].
  destruct (predict _) as [scores| |e]; [|by injection Hr as <-|by destruct (is_Exception e); [injection Hr as <-|]].
  destruct (negb _) eqn:Hl; [done|]. injection Hr as <-. bool_to_prop.
  set (ranked := py_sorted (by_score_desc snd) (zip (h :: hits) scores)).
  assert (Hp : ranked ≡ₚ zip (h :: hits) scores) by apply py_sorted_perm. split.
  - eapply (hits_ok_sub (map (fun '(h, score) => with_score score h) ranked)); [apply sublist_map, sublist_take|].
    apply (hits_ok_documents (h :: hits)); [|done]. rewrite <- (rescored_documents _ scores Hl). by rewrite Hp.
  - intros _ _ Hn. apply map_eq_nil in Hn. apply (f_equal length) in Hn. rewrite length_take in Hn. subst ranked. rewrite length_py_sorted in Hn. destruct scores; [done|]. cbn in Hn. lia.
Qed.

Lemma py_take_sublist {A} k (l : list A) : sublist (py_take k l) l.
Proof. unfold py_take. destruct (_ <=? _)%Z; apply sublist_take. Qed.
Lemma length_py_take {A} k (l : list A) : (0 <= k)%Z -> (Z.of_nat (length (py_take k l)) <= k)%Z.
Proof. intros Hk. unfold py_take. destruct (Z.leb_spec 0 k); [|lia]. rewrite length_take. lia. Qed.
Lemma py_take_nil {A} k (l : list A) : (1 <= k)%Z -> py_take k l = [] -> l = [].
Proof. intros Hk. unfold py_take. destruct (Z.leb_spec 0 k); [|lia]. destruct (Z.to_nat k) eqn:E; [lia|]. by destruct l. Qed.

Lemma low_confidence_ok hs : hits_ok hs -> hits_ok (map low_confidence hs).
Proof. apply hits_ok_documents. by rewrite map_map. Qed.

(** The bounds the settings are validated against. *)
Record settings_ok : Prop := {
  so_min : (1 <= rag_fetch_k_min settings)%Z;
  so_max : (rag_fetch_k_min settings <= rag_fetch_k_max settings)%Z;
  so_top : (1 <= rag_rerank_top_k settings)%Z;
}.

Lemma search_spec query k retrieval_queries cache r cache' : settings_ok -> (1 <= k)%Z -> lexical_ok cache ->
  search_tenant_documents indexes settings query tenant_id k course_code retrieval_queries cache = (r, cache') ->
  lexical_ok cache' /\
  match r with
  | Ok r => hits_ok (ts_hits r) /\ (Z.of_nat (length (ts_hits r)) <= k)%Z /\ ts_low_confidence_fallback r = false
  | Raise _ => True
  end.
Proof.
  intros [Hmin Hmax Htop] Hk Hok. unfold search_tenant_documents.
  set (plan := resolve_retrieval_plan _ _ _ _ _). set (fetch_k := if rag_dynamic_k_enabled settings then _ else _).
  set (fuse_limit := if rag_rerank_enabled settings then _ else _). set (queries := active_queries _ _).
  assert (Hlimit : (1 <= fuse_limit)%Z).
  { assert (1 <= fetch_k)%Z; [|subst fuse_limit; destruct (rag_rerank_enabled settings); lia]. subst fetch_k.
    destruct (rag_dynamic_k_enabled settings); [|unfold _fetch_k; lia]. subst plan. unfold resolve_retrieval_plan, _clamp.
    destruct (otruthy _); [cbn; lia|]. destruct (_ || _); [cbn; lia|]. destruct (_ || _); cbn; lia. }
  unfold st_bind at 1. lazymatch goal with |- context [let (_, _) := ?run cache in _] => destruct (run cache) as [found c1] eqn:Ef end.
  assert (Hfound : lexical_ok c1 /\ match found with Ok found => found_ok fuse_limit found | Raise _ => True end).
  { destruct (1 <? _); [by eapply multi_ok|by eapply single_ok]. }
  destruct Hfound as [Hok1 Hfound]. destruct found as [[fused rs]|e]; [|by intros [= <- <-]].
  destruct Hfound as (Hf & H1 & H2 & Hnil). cbn [fst snd] in *.
  set (rerank_enabled := rag_rerank_enabled settings && _). set (top := if rerank_enabled then _ else _).
  unfold st_bind. lazymatch goal with |- context [let (_, _) := ?run c1 in _] => destruct (run c1) as [hits c2] eqn:Eh end.
  assert (Hh : c2 = c1 /\ match hits with Ok hs => hits_ok hs /\ (hs = [] -> fused = []) | Raise _ => True end).
  { subst top. destruct rerank_enabled eqn:Er.
    - injection Eh as Eh ->. split; [done|]. subst hits. destruct (rerank_hits _ _ _) as [hs|e] eqn:Eq; [|done].
      destruct (rerank_ok _ _ _ _ Eq Hf) as [Hhs Hne]. split; [done|]. intros ->.
      destruct (decide (fused = [])) as [|Hd]; [done|]. exfalso. apply Hne; [lia|done|done].
    - injection Eh as <- <-. split; [done|]. split; [by eapply hits_ok_sub; [apply py_take_sublist|]|]. by apply py_take_nil. }
  destruct Hh as [-> Hh]. destruct hits as [hs|e]; [|by intros [= <- <-]]. destruct Hh as [Hhs Hempty].
  intros [= <- <-]. split; [done|]. cbn [ts_hits ts_low_confidence_fallback].
  assert (Hfb : otruthy course_code && bool_decide (hs = []) && negb (bool_decide (hits_of settings (Z.to_nat k) rs = [])) = false).
  { case_bool_decide as Hn; [|by rewrite andb_false_r]. rewrite (Hnil Hlimit (Hempty Hn)), bool_decide_true by done. by rewrite andb_false_r. }
  rewrite Hfb. split; [by eapply hits_ok_sub; [apply py_take_sublist|]|]. split; [apply length_py_take; lia|done].
Qed.
End scope.

(** C15.  Tenants are separate.  Every hit of a search comes from the tenant's own index, or,
    unless the search is bound to a course, from the platform's; it is a live slice, not a
    parent block, and of the course the search is bound to; hits do not repeat, and there
    are at most as many as asked for.  The word indexes kept for the next search stay those
    of the stores.  And the low-confidence fallback of a search that is bound to a course
    never has anything to fall back on. *)
Theorem search_stays_in_scope `{!RetrievalServices, !RetrievalLaws} (indexes : gmap pystr (list Document)) (settings : rag_settings)
    (query tenant_id : pystr) (k : Z) (course_code : option pystr) (retrieval_queries : list pystr)
    (cache cache' : gmap pystr (option Bm25Index)) (r : res exn TenantSearchResult) :
  settings_ok settings -> (1 <= k)%Z -> lexical_ok indexes cache ->
  search_tenant_documents indexes settings query tenant_id k course_code retrieval_queries cache = (r, cache') ->
  lexical_ok indexes cache' /\
  match r with
  | Ok r =>
    Forall (fun h => let d := sh_document h in exists scope store,
      (scope = tenant_id \/ scope = PLATFORM_TENANT /\ otruthy course_code = false) /\
      indexes !! scope = Some store /\ d ∈ store /\ _is_deleted d = false /\ is_retrieval_chunk repr d = true /\
      _matches_course repr d course_code = Ok true) (ts_hits r) /\
    NoDup (map (fun h => document_key repr (sh_document h)) (ts_hits r)) /\
    (Z.of_nat (length (ts_hits r)) <= k)%Z /\ ts_low_confidence_fallback r = false
  | Raise _ => True
  end.
Proof.
  intros Hs Hk Hok Hrun. destruct (search_spec _ _ _ _ _ _ _ _ _ _ Hs Hk Hok Hrun) as [Hok' Hr]. split; [done|].
  destruct r as [r|e]; [|done]. destruct Hr as ([Ha Hn] & Hlen & Hfb). split; [|done].
  eapply Forall_impl; [exact Ha|]. intros h [[scope [Hin Hd]] Hl Hc Hm]. cbn zeta.
  destruct (search_scopes_spec _ _ _ _ Hin) as [[store Hst] Hsc]. exists scope, store. unfold store_of in Hd. rewrite Hst in Hd. done.
Qed.

(** ** A knowledge base to search *)
Module Demo.
Definition slice (n : Z) (source text : pystr) (chunk : Z) (role : pystr) (deleted : bool) : Document :=
  {| doc_ref := n; page_content := text;
     metadata := mkdict [(u "source", JStr source); (u "course_code", JStr (take (length source - 3) source)); (u "chunk", JInt chunk);
                         (u "chunk_role", JStr role); (u "parent_id", JStr (source ++ u "::p")); (u "deleted", JBool deleted)] |}.
Definition indexes : gmap pystr (list Document) :=
  {[u "demo" := [slice 1 (u "python.md") (u "Python 课程 变量 函数 类") (-1) (u "parent") false;
                 slice 2 (u "python.md") (u "Python 变量") 0 (u "child") false;
                 slice 3 (u "python.md") (u "Python 函数") 1 (u "child") false;
                 slice 4 (u "python.md") (u "Python 旧版") 2 (u "child") true];
    u "acme" := [slice 5 (u "secret.md") (u "Python 变量 内部资料") 0 (u "child") false];
    PLATFORM_TENANT := [slice 6 (u "help.md") (u "平台 帮助 变量") 0 (u "child") false]]}.

(** Words between spaces; a score per word in common; a distance of one half with a word in
    common, of three halves without; a re-ranking model that is always too slow. *)
Definition words : pystr -> list pystr := re_split is_space.
Definition common (a b : list pystr) : nat := length (filter (fun t => t ∈ b) a).
#[export] Instance services : RetrievalServices := {
  repr _ := [];
  lcut := words;
  bm25_scores corpus query := map (fun text => f_of_int (Z.of_nat (common query text))) corpus;
  similarity_search docs q k :=
    take (Z.to_nat k) (map (fun d => (d, f_div_int (if common (words q) (words (page_content d)) =? 0 then 3 else 1) 2)) docs);
  predict _ := TimedOut;
}.
#[export] Instance laws : RetrievalLaws.
Proof.
  split. intros docs q k. cbn. apply Forall_take, Forall_forall. intros ds (d & -> & Hd)%list_elem_of_fmap. exact Hd.
Qed.
Definition settings : rag_settings :=
  {| rag_hybrid_enabled := true; rag_rrf_k := 60; rag_dynamic_k_enabled := true; rag_fetch_k_min := 12; rag_fetch_k_max := 32;
     rag_rerank_enabled := false; rag_rerank_fetch_k := 24; rag_rerank_top_k := 6; rag_min_score := f_div_int 1 5;
     rag_neighbor_chunks := 1; rag_context_token_budget := 4096 |}.
Definition found (course_code : option pystr) (query : pystr) : res exn (list pystr) :=
  let? r := (search_tenant_documents indexes settings query (u "demo") 8 course_code [] ∅).1 in
  Ok (map (fun h => page_content (sh_document h)) (ts_hits r)).

Example demo_search :
  found None (u "变量 是什么") = Ok [u "Python 变量"; u "平台 帮助 变量"; u "Python 函数"] /\
  found (Some (u "python")) (u "变量 是什么") = Ok [u "Python 变量"; u "Python 函数"].
Proof. vm_compute. split; reflexivity. Qed.

(** A slice of an index older than course codes has only its source. *)
Definition unstamped : Document := {| doc_ref := 9; page_content := u "x"; metadata := mkdict [(u "source", JStr (u "python.md"))] |}.
Example old_slice_raises : document_course_code repr unstamped = Raise NO_REMOVESUFFIX.
Proof. vm_compute. reflexivity. Qed.
End Demo.

Lemma search_stays_in_scope_witness :
  settings_ok Demo.settings /\ lexical_ok (H := Demo.services) Demo.indexes ∅ /\
  let run := search_tenant_documents (H := Demo.services) Demo.indexes Demo.settings (u "变量 是什么") (u "demo") 8 None [] ∅ in
  is_ok run.1 = true /\ lexical_ok (H := Demo.services) Demo.indexes run.2.
Proof.
  assert (Hs : settings_ok Demo.settings) by (split; vm_compute; done).
  assert (Hl : lexical_ok (H := Demo.services) Demo.indexes ∅) by (intros s i Hi; by rewrite lookup_empty in Hi).
  split; [exact Hs|]. split; [exact Hl|].
  assert (Hok : is_ok (search_tenant_documents (H := Demo.services) Demo.indexes Demo.settings (u "变量 是什么") (u "demo") 8 None [] ∅).1 = true)
    by (vm_compute; reflexivity).
  pose proof (fun r c => search_stays_in_scope (H := Demo.services) (H0 := Demo.laws) Demo.indexes Demo.settings (u "变量 是什么") (u "demo") 8 None [] ∅ c r Hs ltac:(lia) Hl) as H.
  cbv zeta. revert Hok H. generalize (search_tenant_documents (H := Demo.services) Demo.indexes Demo.settings (u "变量 是什么") (u "demo") 8 None [] ∅).
  intros [r c] Hok H. split; [exact Hok|]. exact (proj1 (H r c eq_refl)).
Defined.
