(* ===== verification/RagContext.v ===== *)
(** * From hits to context ([app/rag/vectorstore.py], expansion and trimming; and
      [retrieve_course_docs] of [app/agents/rag.py])

    A hit is replaced by its parent block and joined by the slices of its section and its
    neighbours; then whole pieces are dropped, the least important first, until the rest
    fits the token budget. *)

From stdpp Require Import base list gmap strings.
From Stdlib Require Import Floats.SpecFloat.
From S2P Require Import Prelude PyText PyFloat PySort PyDict Errors Json Window ToolCache CourseCapability Query Documents Retrieval.
Open Scope py_scope.

(** ** Expansion *)

Record RagContextItem := { ri_document : Document; ri_hit_rank : Z; ri_tier : Z; ri_distance : Z }.
Definition sort_key (i : RagContextItem) : Z * Z * Z := (ri_hit_rank i, ri_tier i, ri_distance i).
(** [<] on tuples. *)
Definition key_ltb (a b : Z * Z * Z) : bool :=
  let '(a1, a2, a3) := a in
  let '(b1, b2, b3) := b in
  ((a1 <? b1) || ((a1 =? b1) && ((a2 <? b2) || ((a2 =? b2) && (a3 <? b3)))))%Z.
Definition item_lt (a b : RagContextItem) : bool := key_ltb (sort_key a) (sort_key b).
Definition _better_item (current : option RagContextItem) (candidate : RagContextItem) : bool :=
  match current with None => true | Some c => item_lt candidate c end.

Section expand.
Context `{RetrievalServices}.
Abbreviation key := (document_key repr).
Abbreviation str_of k d := (str_or_empty repr (meta (u k) d)).

Definition _section_key (d : Document) : option (pystr * pystr) :=
  let source := str_of "source" d in
  let section := strip (str_of "section" d) in
  if negb (truthy source) || negb (truthy section) then None else Some (source, section).

Definition format_rag_context_chunk (d : Document) : pystr :=
  u "来源:" ++ py_str repr (meta (u "source") d) ++ u "
" ++ page_content d.

(** [str(v)] of the role, where a missing one reads ["None"]. *)
Definition chunk_role (d : Document) : pystr := py_str repr (meta (u "chunk_role") d).
Definition _parent_lookup (corpus : list Document) : gmap pystr Document :=
  foldl (fun parents d =>
    if bool_decide (chunk_role d <> u "parent") then parents
    else let parent_id := str_of "parent_id" d in
         if truthy parent_id then <[parent_id := d]> parents else parents) ∅ corpus.

Definition _context_document (parents : gmap pystr Document) (hit : Document) : Document :=
  if bool_decide (chunk_role hit <> u "child") then hit
  else
    let parent_id := str_of "parent_id" hit in
    if truthy parent_id then default hit (parents !! parent_id) else hit.

(** The lookups by place and by section, of the slices that are searched. *)
Definition by_source_chunk (corpus : list Document) : gmap (pystr * Z) Document :=
  foldl (fun m d =>
    if negb (is_retrieval_chunk repr d) then m
    else match _chunk_index d with
         | Some index => if truthy (str_of "source" d) then <[(str_of "source" d, index) := d]> m else m
         | None => m
         end) ∅ corpus.
Definition by_section (corpus : list Document) (k : pystr * pystr) : list Document :=
  filter (fun d => is_retrieval_chunk repr d = true /\ _section_key d = Some k) corpus.

Abbreviation selection := (list ((pystr * pystr) * RagContextItem)).
Definition consider (selected : selection) (item : RagContextItem) : selection :=
  let k := key (ri_document item) in
  if _better_item (dget k selected) item then dset k item selected else selected.

(** [range(-window, window + 1)] without zero. *)
Definition offsets (window : Z) : list Z :=
  filter (fun o => o <> 0)%Z (map (fun i => Z.of_nat i - window)%Z (seq 0 (Z.to_nat (2 * window + 1)))).

(** What one hit adds, in order. *)
Definition hit_items (corpus : list Document) (window hit_rank : Z) (hit : Document) : list RagContextItem :=
  let parents := _parent_lookup corpus in
  let item d tier distance :=
    {| ri_document := _context_document parents d; ri_hit_rank := hit_rank; ri_tier := tier; ri_distance := distance |} in
  let hit_index := _chunk_index hit in
  [item hit 0 0]%Z
  ++ match _section_key hit, hit_index with
     | Some section_key, Some index =>
       map (fun d => item d 1 (match _chunk_index d with Some doc_index => Z.abs (doc_index - index) | None => 0 end))%Z
         (filter (fun d => doc_ref d <> doc_ref hit) (by_section corpus section_key))
     | _, _ => []
     end
  ++ match hit_index with
     | Some index =>
       if truthy (str_of "source" hit) && (0 <=? index)%Z then
         omap (fun offset => d ← by_source_chunk corpus !! (str_of "source" hit, (index + offset)%Z);
                             Some (item d 2 (Z.abs offset))%Z) (offsets window)
       else []
     | None => []
     end.

Definition expand_hit_documents_scored (hits corpus : list Document) (neighbor : Z) : list RagContextItem :=
  match hits with
  | [] => []
  | _ =>
    let window := Z.max 0 neighbor in
    let candidates := concat (imap (fun rank hit => hit_items corpus window (Z.of_nat rank) hit) hits) in
    py_sorted item_lt (foldl consider [] candidates).*2
  end.

(** ** Trimming *)

(** [(source, index)], where a slice without an index comes last. *)
Definition place (d : Document) : pystr * Z := (str_of "source" d, default 1000000000%Z (_chunk_index d)).
Definition place_lt (a b : Document) : bool :=
  str_ltb (place a).1 (place b).1 || (bool_decide ((place a).1 = (place b).1) && ((place a).2 <? (place b).2)%Z).
Definition _sort_rag_documents (documents : list Document) : list Document := py_sorted place_lt documents.
Definition expand_hit_documents (hits corpus : list Document) (neighbor : Z) : list Document :=
  _sort_rag_documents (map ri_document (expand_hit_documents_scored hits corpus neighbor)).

Record trim_stats := { tm_context_tokens : Z; tm_context_trimmed : Z; tm_context_budget_exceeded : bool }.

Context (tk : tokenizer).
Definition cost (d : Document) : res exn Z := count_tokens tk (format_rag_context_chunk d).

(** The sum over a list, and the loop that keeps what fits. *)
Fixpoint total_cost (documents : list Document) : res exn Z :=
  match documents with
  | [] => Ok 0%Z
  | d :: rest => let? c := cost d in let? t := total_cost rest in Ok (c + t)%Z
  end.
Fixpoint keep_loop (budget : Z) (kept : list RagContextItem) (total : Z) (items : list RagContextItem) : res exn (list RagContextItem * Z) :=
  match items with
  | [] => Ok (kept, total)
  | item :: rest =>
    let? c := cost (ri_document item) in
    if negb (bool_decide (kept = [])) && (budget <? total + c)%Z then keep_loop budget kept total rest
    else keep_loop budget (kept ++ [item]) (total + c)%Z rest
  end.

(** Items of one selection differ in source or text, so equal items are the same. *)
Definition same_item (a b : RagContextItem) : bool :=
  bool_decide (sort_key a = sort_key b) && bool_decide (key (ri_document a) = key (ri_document b)).

Definition trim_rag_context_by_budget (items : list RagContextItem) (budget : Z) : res exn (list Document * trim_stats) :=
  match items with
  | [] => Ok ([], {| tm_context_tokens := 0; tm_context_trimmed := 0; tm_context_budget_exceeded := false |})
  | _ =>
    let ordered := py_sorted item_lt items in
    if (budget <=? 0)%Z then
      let docs := _sort_rag_documents (map ri_document ordered) in
      let? tokens := total_cost docs in
      Ok (docs, {| tm_context_tokens := tokens; tm_context_trimmed := 0; tm_context_budget_exceeded := false |})
    else
      let? kept := keep_loop budget [] 0 ordered in
      let '(kept, total) := kept in
      let top_hit := find (fun i => (ri_tier i =? 0) && (ri_hit_rank i =? 0))%Z ordered in
      let? final := match top_hit with
                    | Some top =>
                      if existsb (same_item top) kept then Ok (kept, total, (budget <? total)%Z)
                      else let? alone := cost (ri_document top) in Ok ([top], alone, (budget <? alone)%Z)
                    | None => Ok (kept, total, false)
                    end in
      let '(kept, total, exceeded) := final in
      Ok (_sort_rag_documents (map ri_document kept),
          {| tm_context_tokens := total; tm_context_trimmed := Z.of_nat (length ordered) - Z.of_nat (length kept);
             tm_context_budget_exceeded := exceeded |})
  end.

(** ** [retrieve_course_docs] *)

Context (indexes : gmap pystr (list Document)) (settings : rag_settings).
(** [decompose_retrieval_queries], and the query context of this turn. *)
Context (decompose : pystr -> res exn (list pystr)) (search_ctx : option SearchQueryContext).

Abbreviation act := (ST (gmap pystr (option Bm25Index)) exn).

(** The parts to search for: those prepared with the query, or its own. *)
Definition parts_of (query : pystr) : res exn (list pystr) :=
  let own := let? decomposed := decompose query in Ok (if 1 <? length decomposed then decomposed else []) in
  match search_ctx with
  | Some ctx =>
    if negb (bool_decide (sq_retrieval_queries ctx = [])) && bool_decide (sq_search_query ctx = query)
    then Ok (sq_retrieval_queries ctx) else own
  | None => own
  end.

(** The hits that pass the gate; bound to a course, when none does, all of them. *)
Definition accepted (course_code : option pystr) (k : Z) (ranked : list SearchHit) : list Document :=
  let hits := py_take k (map sh_document (filter (fun h => passes_min_score (rag_min_score settings) h = true) ranked)) in
  if bool_decide (hits = []) && otruthy course_code then
    py_take k (map sh_document (filter (fun h => sh_low_confidence h || passes_min_score f_zero h = true) ranked))
  else hits.

Definition retrieve_course_docs (query : pystr) (k : Z) (tenant : pystr) (course_code : option pystr) : act (list Document) :=
  let! retrieval_queries := (fun cache => (parts_of query, cache)) in
  let! search_result := search_tenant_documents indexes settings query tenant k course_code retrieval_queries in
  let hits := accepted course_code k (ts_hits search_result) in
  let! corpus := (fun cache => (iter_tenant_documents indexes tenant course_code, cache)) in
  let scored := expand_hit_documents_scored hits corpus (rag_neighbor_chunks settings) in
  let! trimmed := (fun cache => (trim_rag_context_by_budget scored (rag_context_token_budget settings), cache)) in
  st_ret (if bool_decide (hits = []) then [] else trimmed.1).
End expand.

(** ** The order of items *)

Lemma item_lt_asym a b : item_lt a b = true -> item_lt b a = false.
Proof.
  unfold item_lt, key_ltb, sort_key. destruct a, b; cbn. rewrite !orb_true_iff, !andb_true_iff, !orb_true_iff, !andb_true_iff.
  rewrite <- not_true_iff_false, !orb_true_iff, !andb_true_iff, !orb_true_iff, !andb_true_iff. lia.
Qed.
Lemma item_lt_negtrans a b c : item_lt b a = false -> item_lt c b = false -> item_lt c a = false.
Proof.
  unfold item_lt, key_ltb, sort_key. destruct a, b, c; cbn. rewrite <- !not_true_iff_false, !orb_true_iff, !andb_true_iff, !orb_true_iff, !andb_true_iff.
  lia.
Qed.
Lemma item_lt_irrefl a : item_lt a a = false.
Proof. destruct (item_lt a a) eqn:E; [|done]. by rewrite (item_lt_asym a a) in E. Qed.

Lemma items_in_order l : in_order item_lt (py_sorted item_lt l).
Proof.
  apply (py_sorted_order item_lt (fun _ => True)); [intros; by apply item_lt_asym|intros; by eapply item_lt_negtrans|by apply Forall_true].
Qed.

(** ** What expansion selects *)

Section expansion.
Context `{RetrievalServices}.
Abbreviation key := (document_key repr).
Abbreviation selection := (list ((pystr * pystr) * RagContextItem)).

(** After some candidates: every key's item is one of them, and the best of its key. *)
Record selected_ok (seen : list RagContextItem) (s : selection) : Prop := {
  se_keys : NoDup s.*1;
  se_from : Forall (fun ki => key (ri_document ki.2) = ki.1 /\ ki.2 ∈ seen) s;
  se_best : forall c, c ∈ seen -> exists i, dget (key (ri_document c)) s = Some i /\ item_lt c i = false;
}.

Lemma consider_ok seen s c : selected_ok seen s -> selected_ok (seen ++ [c]) (consider s c).
Proof.
  intros [Hk Hf Hb]. unfold consider. set (kc := key (ri_document c)).
  assert (Hf' : Forall (fun ki => key (ri_document ki.2) = ki.1 /\ ki.2 ∈ seen ++ [c]) s).
  { eapply Forall_impl; [exact Hf|]. intros ki [? ?]. split; [done|]. apply elem_of_app. by left. }
  destruct (_better_item (dget kc s) c) eqn:E; split.
  - by apply NoDup_dset.
  - apply Forall_dset; [|done]. split; [done|]. apply elem_of_app. right. by left.
  - intros x [Hx| ->%list_elem_of_singleton]%elem_of_app; rewrite dget_dset.
    + destruct (Hb x Hx) as (i & Hi & Hlt). case_decide as Heq; [|by exists i]. exists c. split; [done|].
      fold kc in Heq. rewrite <- Heq in Hi. fold kc in Hi. rewrite Hi in E. cbn in E. eapply item_lt_negtrans; [|exact Hlt]. by apply item_lt_asym.
    + fold kc. rewrite decide_True by done. exists c. split; [done|apply item_lt_irrefl].
  - done.
  - done.
  - intros x [Hx| ->%list_elem_of_singleton]%elem_of_app; [by apply Hb|]. fold kc. unfold _better_item in E.
    destruct (dget kc s) as [i|]; [|done]. by exists i.
Qed.

Lemma selection_ok candidates : selected_ok candidates (foldl consider [] candidates).
Proof.
  assert (H0 : selected_ok [] []) by (split; [apply NoDup_nil_2|constructor|by intros c ?%elem_of_nil]).
  assert (Hg : forall seen s, selected_ok seen s -> selected_ok (seen ++ candidates) (foldl consider s candidates)).
  { induction candidates as [|c candidates IH]; intros seen s Hs; cbn [foldl]; [by rewrite app_nil_r|].
    apply (consider_ok _ _ c) in Hs. apply IH in Hs. by rewrite <- app_assoc in Hs. }
  exact (Hg [] [] H0).
Qed.

(** Parents come from the corpus. *)
Lemma parent_lookup_in corpus i d : _parent_lookup corpus !! i = Some d -> d ∈ corpus.
Proof.
  unfold _parent_lookup.
  assert (Hg : forall (m : gmap pystr Document), (forall i d, m !! i = Some d -> d ∈ corpus) -> forall l, (forall d, d ∈ l -> d ∈ corpus) ->
    forall i d, foldl (fun parents d => if bool_decide (chunk_role d <> u "parent") then parents
      else let parent_id := str_or_empty repr (meta (u "parent_id") d) in if truthy parent_id then <[parent_id := d]> parents else parents) m l !! i = Some d -> d ∈ corpus).
  { intros m Hm l. revert m Hm. induction l as [|x l IH]; intros m Hm Hl j e; cbn [foldl]; [apply Hm|].
    apply IH; [|intros y Hy; apply Hl; by right]. intros j' e'. case_bool_decide; [apply Hm|]. cbn zeta. destruct (truthy _); [|apply Hm].
    intros [[_ <-]|[_ He]]%lookup_insert_Some; [apply Hl; by left|by eapply Hm]. }
  apply (Hg ∅); [by intros ? ? ?%lookup_empty_Some|done].
Qed.

Lemma by_source_chunk_in corpus k d : by_source_chunk corpus !! k = Some d -> d ∈ corpus.
Proof.
  unfold by_source_chunk.
  assert (Hg : forall (m : gmap (pystr * Z) Document), (forall k d, m !! k = Some d -> d ∈ corpus) -> forall l, (forall d, d ∈ l -> d ∈ corpus) ->
    forall k d, foldl (fun m d => if negb (is_retrieval_chunk repr d) then m else match _chunk_index d with
      | Some index => if truthy (str_or_empty repr (meta (u "source") d)) then <[(str_or_empty repr (meta (u "source") d), index) := d]> m else m
      | None => m end) m l !! k = Some d -> d ∈ corpus).
  { intros m Hm l. revert m Hm. induction l as [|x l IH]; intros m Hm Hl j e; cbn [foldl]; [apply Hm|].
    apply IH; [|intros y Hy; apply Hl; by right]. intros j' e'. destruct (negb _); [apply Hm|]. destruct (_chunk_index x); [|apply Hm].
    destruct (truthy _); [|apply Hm]. intros [[_ <-]|[_ He]]%lookup_insert_Some; [apply Hl; by left|by eapply Hm]. }
  apply (Hg ∅); [by intros ? ? ?%lookup_empty_Some|done].
Qed.

Lemma context_document_in corpus d : _context_document (_parent_lookup corpus) d = d \/ _context_document (_parent_lookup corpus) d ∈ corpus.
Proof.
  unfold _context_document. destruct (bool_decide _); [by left|]. cbn zeta. destruct (truthy _); [|by left].
  destruct (_parent_lookup corpus !! _) as [p|] eqn:E; [|by left]. right. by eapply parent_lookup_in.
Qed.

(** What a hit adds: its context first; from the corpus or the hit itself; ranked behind. *)
Lemma hit_items_spec corpus window rank hit i : (0 <= rank)%Z -> i ∈ hit_items corpus window rank hit ->
  (ri_document i = hit \/ ri_document i ∈ corpus) /\ ri_hit_rank i = rank /\ (0 <= ri_tier i)%Z /\ (0 <= ri_distance i)%Z /\
  (ri_tier i = 0%Z -> ri_document i = _context_document (_parent_lookup corpus) hit).
Proof.
  intros Hr. unfold hit_items. cbn zeta. rewrite !elem_of_app, list_elem_of_singleton.
  assert (Hc : forall d, d ∈ corpus -> _context_document (_parent_lookup corpus) d = hit \/ _context_document (_parent_lookup corpus) d ∈ corpus).
  { intros d Hd. destruct (context_document_in corpus d) as [->|?]; by right. }
  intros [->|[Hi|Hi]].
  - cbn. split; [apply context_document_in|]. by repeat split.
  - destruct (_section_key hit); [|by apply elem_of_nil in Hi]. destruct (_chunk_index hit); [|by apply elem_of_nil in Hi].
    apply list_elem_of_fmap in Hi as (d & -> & Hd). apply list_elem_of_filter in Hd as [_ Hd]. apply list_elem_of_filter in Hd as [_ Hd].
    cbn. split; [by apply Hc|]. split; [done|]. split; [done|]. split; [destruct (_chunk_index d); lia|done].
  - destruct (_chunk_index hit); [|by apply elem_of_nil in Hi]. destruct (_ && _); [|by apply elem_of_nil in Hi].
    apply list_elem_of_omap in Hi as (o & _ & Ho). destruct (by_source_chunk corpus !! _) as [d|] eqn:E; [|done]. injection Ho as <-. cbn.
    split; [by apply Hc, (by_source_chunk_in _ _ _ E)|]. split; [done|]. split; [done|]. split; [lia|done].
Qed.

Lemma expand_selection hits corpus neighbor i : i ∈ expand_hit_documents_scored hits corpus neighbor ->
  exists rank hit, hits !! rank = Some hit /\ i ∈ hit_items corpus (Z.max 0 neighbor) (Z.of_nat rank) hit.
Proof.
  unfold expand_hit_documents_scored. destruct hits as [|h hs] eqn:E; [by intros ?%elem_of_nil|]. rewrite <- E.
  rewrite elem_of_py_sorted. intros ([k i'] & -> & Hi)%list_elem_of_fmap. cbn.
  pose proof (se_from _ _ (selection_ok (concat (imap (fun rank hit => hit_items corpus (Z.max 0 neighbor) (Z.of_nat rank) hit) hits)))) as Hf.
  rewrite Forall_forall in Hf. destruct (Hf _ Hi) as [_ Hin]. apply list_elem_of_In, in_concat in Hin as (l & Hl & Hin).
  apply list_elem_of_In, elem_of_lookup_imap in Hl as (rank & hit & -> & Hhit). exists rank, hit. split; [done|]. by apply list_elem_of_In.
Qed.

Lemma expand_in_order hits corpus neighbor : in_order item_lt (expand_hit_documents_scored hits corpus neighbor).
Proof. unfold expand_hit_documents_scored. destruct hits; [by intros i j a b|apply items_in_order]. Qed.

Lemma expand_keys hits corpus neighbor : NoDup (map (fun i => key (ri_document i)) (expand_hit_documents_scored hits corpus neighbor)).
Proof.
  unfold expand_hit_documents_scored. destruct hits as [|h hits]; [apply NoDup_nil_2|].
  set (candidates := concat _). pose proof (selection_ok candidates) as [Hk Hf _].
  set (s := foldl consider [] candidates) in *.
  assert (Hkeys : map (fun i => key (ri_document i)) s.*2 = s.*1).
  { clear -Hf. induction Hf as [|[k i] s (Hk & _) _ IH]; [done|]. cbn in *. by rewrite Hk, IH. }
  change (NoDup (map (fun i => key (ri_document i)) (py_sorted item_lt s.*2))).
  eapply NoDup_Permutation_proper; [apply Permutation_map, py_sorted_perm|]. by rewrite Hkeys.
Qed.

(** The best hit's context leads, and nothing is there twice. *)
Lemma expand_head h hits corpus neighbor : exists i items,
  expand_hit_documents_scored (h :: hits) corpus neighbor = i :: items /\ sort_key i = (0, 0, 0)%Z /\
  ri_document i = _context_document (_parent_lookup corpus) h.
Proof.
  set (items := expand_hit_documents_scored (h :: hits) corpus neighbor).
  assert (Hnonneg : forall i, i ∈ items -> (0 <= ri_hit_rank i)%Z /\ (0 <= ri_tier i)%Z /\ (0 <= ri_distance i)%Z).
  { intros i Hi. apply expand_selection in Hi as (rank & hit & _ & Hi). apply hit_items_spec in Hi; [|lia]. lia. }
  set (top := {| ri_document := _context_document (_parent_lookup corpus) h; ri_hit_rank := 0; ri_tier := 0; ri_distance := 0 |}).
  assert (Htop : exists t, t ∈ items /\ item_lt top t = false).
  { pose proof (selection_ok (concat (imap (fun rank hit => hit_items corpus (Z.max 0 neighbor) (Z.of_nat rank) hit) (h :: hits)))) as Hs.
    destruct (se_best _ _ Hs top) as (t & Ht & Hlt); [cbn; by left|]. exists t. split; [|done]. subst items.
    unfold expand_hit_documents_scored. rewrite elem_of_py_sorted. apply list_elem_of_fmap. eexists. split; [|by eapply dget_Some_elem]. done. }
  destruct Htop as (t & Ht & Hlt). destruct items as [|i rest] eqn:E; [by apply elem_of_nil in Ht|]. exists i, rest. split; [done|].
  assert (Hi : i ∈ i :: rest) by by left.
  assert (Hti : item_lt t i = false).
  { apply elem_of_cons in Ht as [->|Ht]; [apply item_lt_irrefl|]. pose proof (expand_in_order (h :: hits) corpus neighbor) as Ho.
    change (in_order item_lt items) in Ho. rewrite E in Ho.
    apply in_order_cons in Ho as [Ho _]. by apply Ho. }
  assert (Hsk : sort_key i = (0, 0, 0)%Z).
  { pose proof (item_lt_negtrans _ _ _ Hti Hlt) as Hz. destruct (Hnonneg i Hi) as (? & ? & ?). unfold item_lt, key_ltb, sort_key in *. subst top. cbn [ri_hit_rank ri_tier ri_distance] in Hz.
    rewrite <- not_true_iff_false, !orb_true_iff, !andb_true_iff, !orb_true_iff, !andb_true_iff in Hz. f_equal; [f_equal|]; lia. }
  split; [done|]. injection Hsk as Hr Htier Hd. rewrite <- E in Hi. apply expand_selection in Hi as (rank & hit & Hhit & Hi).
  apply hit_items_spec in Hi as (_ & Hrank & _ & _ & Hdoc); [|lia]. rewrite Hr in Hrank. destruct rank; [|lia]. injection Hhit as ->. by apply Hdoc.
Qed.
End expansion.

(** ** What trimming keeps *)

Section trimming.
Context `{RetrievalServices} (tk : tokenizer).

Lemma cost_nonneg d c : cost tk d = Ok c -> (0 <= c)%Z.
Proof.
  unfold cost, count_tokens. destruct (truthy _); cbn [negb]; [|by intros [= <-]].
  intros (raw & _ & Hs)%rbind_ok. apply rbind_ok in Hs as (sc & _ & [= <-]). lia.
Qed.

Lemma total_cost_nonneg l t : total_cost tk l = Ok t -> (0 <= t)%Z.
Proof.
  revert t. induction l as [|d l IH]; intros t; cbn [total_cost]; [by intros [= <-]|].
  intros (c & Hc & Ht)%rbind_ok. apply rbind_ok in Ht as (t' & Ht & [= <-]). apply cost_nonneg in Hc. specialize (IH _ Ht). lia.
Qed.

Lemma total_cost_app l l' t : total_cost tk (l ++ l') = Ok t <->
  exists a b, total_cost tk l = Ok a /\ total_cost tk l' = Ok b /\ t = (a + b)%Z.
Proof.
  revert t. induction l as [|d l IH]; intros t; cbn [app total_cost].
  - split; [intros Ht; by exists 0%Z, t|]. by intros (a & b & [= <-] & Hb & ->).
  - split.
    + intros (c & Hc & Ht)%rbind_ok. apply rbind_ok in Ht as (t' & Ht & [= <-]). apply IH in Ht as (a & b & Ha & Hb & ->).
      exists (c + a)%Z, b. rewrite Hc, Ha. cbn. repeat split; [done|lia].
    + intros (a & b & Ha & Hb & ->). apply rbind_ok in Ha as (c & Hc & Ha). apply rbind_ok in Ha as (a' & Ha & [= <-]).
      rewrite Hc. cbn. rewrite (proj2 (IH (a' + b)%Z)); [cbn; f_equal; lia|]. by exists a', b.
Qed.

Lemma total_cost_perm l l' t : l ≡ₚ l' -> total_cost tk l = Ok t -> total_cost tk l' = Ok t.
Proof.
  intros Hp. revert t. induction Hp as [|d l l' _ IH|d d' l|l1 l2 l3 _ IH1 _ IH2]; intros t; cbn [total_cost]; [done| | |auto].
  - intros (c & Hc & Ht)%rbind_ok. apply rbind_ok in Ht as (t' & Ht & [= <-]). apply rbind_ok. exists c. split; [done|].
    apply rbind_ok. exists t'. auto.
  - intros (c & Hc & Ht)%rbind_ok. apply rbind_ok in Ht as (t' & Ht & [= <-]). apply rbind_ok in Ht as (c' & Hc' & Ht).
    apply rbind_ok in Ht as (t & Ht & [= <-]). apply rbind_ok. exists c'. split; [done|]. apply rbind_ok. exists (c + t)%Z.
    split; [apply rbind_ok; exists c; split; [done|]; apply rbind_ok; by exists t|]. f_equal. lia.
Qed.

Abbreviation docs_of := (map ri_document).
Definition fits (budget total : Z) (kept : list RagContextItem) : Prop := kept = [] \/ (total <= budget)%Z \/ length kept = 1.

(** The loop keeps part of the items, the first among them, within the budget or alone; all
    of them when they fit together. *)
Lemma keep_loop_spec budget kept total items kept' total' :
  keep_loop tk budget kept total items = Ok (kept', total') ->
  total_cost tk (docs_of kept) = Ok total -> fits budget total kept ->
  exists added, sublist added items /\ kept' = kept ++ added /\ total_cost tk (docs_of kept') = Ok total' /\ fits budget total' kept' /\
    (kept = [] -> head added = head items) /\
    (forall t, total_cost tk (docs_of items) = Ok t -> (total + t <= budget)%Z -> added = items).
Proof.
  revert kept total. induction items as [|i items IH]; intros kept total; cbn [keep_loop].
  - intros [= <- <-] Hc Hf. exists []. rewrite app_nil_r. by repeat split.
  - intros (c & Hcost & Hrest)%rbind_ok Hc Hf. destruct (negb _ && _) eqn:E.
    + apply andb_true_iff in E as [Hne Hbig]. bool_to_prop.
      destruct (IH _ _ Hrest Hc Hf) as (added & Hs & -> & Ht & Hf' & Hhd & Hall). exists added. split; [by constructor|].
      split; [done|]. split; [done|]. split; [done|]. split; [by intros ->|]. intros t Ht' Hle. exfalso.
      cbn [map total_cost] in Ht'. apply rbind_ok in Ht' as (c' & Hc' & Ht'). apply rbind_ok in Ht' as (t' & Ht' & [= <-]).
      apply total_cost_nonneg in Ht'. rewrite Hcost in Hc'. injection Hc' as <-. lia.
    + assert (Hc' : total_cost tk (docs_of (kept ++ [i])) = Ok (total + c)%Z).
      { rewrite map_app. apply total_cost_app. exists total, c. split; [done|]. split; [|done]. cbn. rewrite Hcost. cbn. f_equal. lia. }
      assert (Hf' : fits budget (total + c) (kept ++ [i])).
      { unfold fits. destruct kept as [|k kept]; [by right; right|]. cbn in E. right. left. by apply Z.ltb_ge in E. }
      destruct (IH _ _ Hrest Hc' Hf') as (added & Hs & -> & Ht & Hfin & _ & Hall). exists (i :: added). split; [by constructor|].
      split; [by rewrite <- app_assoc|]. split; [done|]. split; [done|]. split; [done|]. intros t Ht' Hle. f_equal.
      cbn [map total_cost] in Ht'. apply rbind_ok in Ht' as (c' & Hc2 & Ht'). apply rbind_ok in Ht' as (t' & Ht' & [= <-]).
      rewrite Hcost in Hc2. injection Hc2 as <-. apply (Hall t'); [done|lia].
Qed.

Lemma sort_documents_perm l : _sort_rag_documents l ≡ₚ l.
Proof. apply py_sorted_perm. Qed.

Lemma trimmed_context (h : Document) (hits corpus : list Document) (neighbor budget : Z) (docs : list Document) (stats : trim_stats) :
  let items := expand_hit_documents_scored (h :: hits) corpus neighbor in
  let best := _context_document (_parent_lookup corpus) h in
  trim_rag_context_by_budget tk items budget = Ok (docs, stats) ->
  total_cost tk docs = Ok (tm_context_tokens stats) /\ best ∈ docs /\
  exists kept, sublist kept items /\ docs ≡ₚ docs_of kept /\
    (tm_context_trimmed stats = Z.of_nat (length items) - Z.of_nat (length kept))%Z /\
    ((0 < budget)%Z -> (tm_context_tokens stats <= budget)%Z \/ docs = [best]) /\
    (tm_context_budget_exceeded stats = true <-> 0 < budget < tm_context_tokens stats)%Z /\
    (forall t, total_cost tk (docs_of items) = Ok t -> (budget <= 0 \/ t <= budget)%Z -> kept = items).
Proof.
  intros items best. destruct (expand_head h hits corpus neighbor) as (i & rest & Hitems & Hsk & Hdoc). fold items in Hitems. fold best in Hdoc.
  pose proof (expand_in_order (h :: hits) corpus neighbor) as Ho. fold items in Ho. apply py_sorted_id in Ho.
  unfold trim_rag_context_by_budget. rewrite Ho. rewrite Hitems at 1. cbn zeta.
  assert (Hbest : best ∈ docs_of items) by (rewrite Hitems, <- Hdoc; by left).
  destruct (Z.leb_spec budget 0) as [Hb|Hb].
  - intros (t & Ht & [= <- <-])%rbind_ok. cbn [tm_context_tokens tm_context_trimmed tm_context_budget_exceeded]. split; [done|]. split; [by rewrite sort_documents_perm|]. exists items. split; [done|].
    split; [apply sort_documents_perm|]. split; [lia|]. split; [lia|]. split; [split; [done|lia]|done].
  - intros ([kept total] & Hk & Hrest)%rbind_ok.
    destruct (keep_loop_spec _ _ _ _ _ _ Hk eq_refl (or_introl eq_refl)) as (added & Hs & -> & Ht & Hf & Hhd & Hall). cbn [app] in *.
    rewrite Hitems in Hhd. cbn [head hd_error] in Hhd. specialize (Hhd eq_refl). destruct added as [|i' added]; [done|]. injection Hhd as ->.
    injection Hsk as Hr Htier Hd. rewrite Hitems in Hrest at 1. cbn [find] in Hrest. rewrite Hr, Htier in Hrest. cbn [Z.eqb andb] in Hrest.
    assert (Hsame : existsb (same_item i) (i :: added) = true) by (cbn [existsb]; unfold same_item; by rewrite !bool_decide_true).
    rewrite Hsame in Hrest. cbn in Hrest. injection Hrest as <- <-. cbn [tm_context_tokens tm_context_trimmed tm_context_budget_exceeded].
    assert (Hperm : _sort_rag_documents (docs_of (i :: added)) ≡ₚ docs_of (i :: added)) by apply sort_documents_perm.
    split; [eapply total_cost_perm; [symmetry; exact Hperm|done]|]. split; [rewrite Hperm, <- Hdoc; by left|].
    exists (i :: added). split; [done|]. split; [done|]. split; [done|]. split; [|split].
    + intros _. destruct Hf as [?|[Hf|Hf]]; [done|by left|]. right. destruct added; [|done]. by rewrite <- Hdoc.
    + rewrite Z.ltb_lt. lia.
    + intros t Ht' [?|Hle]; [lia|]. apply (Hall t); [done|lia].
Qed.

Lemma context_spec h hits corpus neighbor budget docs stats :
  trim_rag_context_by_budget tk (expand_hit_documents_scored (h :: hits) corpus neighbor) budget = Ok (docs, stats) ->
  total_cost tk docs = Ok (tm_context_tokens stats) /\ exists kept,
    sublist kept (expand_hit_documents_scored (h :: hits) corpus neighbor) /\ docs ≡ₚ docs_of kept /\
    ((0 < budget)%Z -> (tm_context_tokens stats <= budget)%Z \/ docs = [_context_document (_parent_lookup corpus) h]).
Proof.
  intros Ht. destruct (trimmed_context _ _ _ _ _ _ _ Ht) as (Hc & _ & kept & Hs & Hp & _ & Hf & _). split; [done|]. by exists kept.
Qed.

End trimming.

(** ** What reaches the model *)

Lemma filter_res_spec {A} (p : A -> res exn bool) l r : filter_res p l = Ok r -> forall x, x ∈ r -> x ∈ l /\ p x = Ok true.
Proof.
  revert r. induction l as [|y l IH]; intros r; cbn [filter_res]; [by intros [= <-] x ?%elem_of_nil|].
  intros (b & Hb & Hr)%rbind_ok x. apply rbind_ok in Hr as (r' & Hr & [= <-]). destruct b.
  - intros [->|Hx]%elem_of_cons; [split; [by left|done]|]. destruct (IH _ Hr _ Hx). split; [by right|done].
  - intros Hx. destruct (IH _ Hr _ Hx). split; [by right|done].
Qed.

(** A piece of the tenant's or the platform's knowledge: live, of the course. *)
Definition in_knowledge `{RetrievalServices} (indexes : gmap pystr (list Document)) (tenant_id : pystr) (course_code : option pystr)
    (d : Document) : Prop :=
  exists scope store, (scope = tenant_id \/ scope = PLATFORM_TENANT /\ otruthy course_code = false) /\
    indexes !! scope = Some store /\ d ∈ store /\ _is_deleted d = false /\ _matches_course repr d course_code = Ok true.

Section retrieved.
Context `{!RetrievalServices, !RetrievalLaws} (tk : tokenizer) (indexes : gmap pystr (list Document)) (settings : rag_settings).
Context (decompose : pystr -> res exn (list pystr)) (search_ctx : option SearchQueryContext).

Lemma scope_store tenant_id course_code scope d : scope ∈ search_scopes indexes tenant_id course_code -> d ∈ store_of indexes scope ->
  exists store, (scope = tenant_id \/ scope = PLATFORM_TENANT /\ otruthy course_code = false) /\ indexes !! scope = Some store /\ d ∈ store.
Proof.
  intros Hs Hd. destruct (search_scopes_spec _ _ _ _ Hs) as [[store Hst] Hsc]. exists store. unfold store_of in Hd. by rewrite Hst in Hd.
Qed.

Lemma corpus_in_knowledge tenant_id course_code corpus d : iter_tenant_documents indexes tenant_id course_code = Ok corpus ->
  d ∈ corpus -> in_knowledge indexes tenant_id course_code d.
Proof.
  unfold iter_tenant_documents. set (documents := scope ← _; _). intros Hc Hd.
  assert (Hin : d ∈ documents /\ _matches_course repr d course_code = Ok true).
  { destruct (otruthy course_code) eqn:E; [by apply (filter_res_spec _ _ _ Hc)|]. injection Hc as <-. split; [done|].
    unfold _matches_course. by rewrite E. }
  destruct Hin as [Hin Hm]. subst documents. apply list_elem_of_bind in Hin as (scope & Hin & Hs).
  apply list_elem_of_filter in Hin as [Hl Hin]. cbn in Hl. apply negb_true_iff in Hl.
  destruct (scope_store _ _ _ _ Hs Hin) as (store & ? & ? & ?). by exists scope, store.
Qed.

Lemma accepted_in course_code k ranked d : d ∈ accepted settings course_code k ranked -> exists h, h ∈ ranked /\ sh_document h = d.
Proof.
  unfold accepted. cbn zeta.
  assert (Hsub : forall P `{forall h, Decision (P h)}, d ∈ py_take k (map sh_document (filter P ranked)) -> exists h, h ∈ ranked /\ sh_document h = d).
  { intros P HP Hd. eapply elem_of_sublist in Hd; [|apply py_take_sublist]. apply list_elem_of_fmap in Hd as (h & -> & Hh).
    apply list_elem_of_filter in Hh as [_ Hh]. by exists h. }
  destruct (_ && _); apply Hsub.
Qed.

Lemma course_context_spec (query : pystr) (k : Z) (tenant_id : pystr) (course_code : option pystr)
    (cache cache' : gmap pystr (option Bm25Index)) (r : res exn (list Document)) :
  settings_ok settings -> (1 <= k)%Z -> lexical_ok indexes cache ->
  retrieve_course_docs tk indexes settings decompose search_ctx query k tenant_id course_code cache = (r, cache') ->
  lexical_ok indexes cache' /\
  match r with
  | Ok docs =>
    Forall (in_knowledge indexes tenant_id course_code) docs /\
    ((0 < rag_context_token_budget settings)%Z -> docs <> [] -> exists t,
      total_cost tk docs = Ok t /\ ((t <= rag_context_token_budget settings)%Z \/ length docs = 1))
  | Raise _ => True
  end.
Proof.
  intros Hset Hk Hok. unfold retrieve_course_docs, st_bind, st_ret.
  destruct (parts_of _ _ _) as [parts|e]; [|by intros [= <- <-]].
  destruct (search_tenant_documents _ _ _ _ _ _ _ _) as [found c1] eqn:Es.
  destruct (search_spec _ _ _ _ _ _ _ _ _ _ Hset Hk Hok Es) as [Hok1 Hfound]. destruct found as [found|e]; [|by intros [= <- <-]].
  destruct Hfound as ([Ha _] & _ & _). cbn zeta. destruct (iter_tenant_documents _ _ _) as [corpus|e] eqn:Ec; [|by intros [= <- <-]].
  destruct (accepted _ _ _ _) as [|h hits] eqn:Eacc.
  { cbn [expand_hit_documents_scored trim_rag_context_by_budget]. intros [= <- <-]. split; [done|]. split; [constructor|done]. }
  destruct (trim_rag_context_by_budget _ _ _) as [[docs stats]|e] eqn:Et; [|by intros [= <- <-]].
  intros [= <- <-]. split; [done|]. cbn [fst].
  destruct (context_spec tk h hits corpus _ _ _ _ Et) as (Hcost & kept & Hsub & Hperm & Hfit). split.
  - apply Forall_forall. intros d Hd. rewrite Hperm in Hd. apply list_elem_of_fmap in Hd as (i & -> & Hi).
    eapply elem_of_sublist in Hi; [|exact Hsub]. apply expand_selection in Hi as (rank & hit & Hhit & Hi).
    apply hit_items_spec in Hi as ([->|Hin] & _); [|by eapply corpus_in_knowledge|lia].
    assert (Hacc : hit ∈ accepted settings course_code k (ts_hits found)) by (rewrite Eacc; by eapply list_elem_of_lookup_2).
    apply accepted_in in Hacc as (sh & Hsh & <-). rewrite Forall_forall in Ha. destruct (Ha _ Hsh) as [[scope [Hs Hd]] Hl _ Hm].
    destruct (scope_store _ _ _ _ Hs Hd) as (store & ? & ? & ?). by exists scope, store.
  - intros Hb _. exists (tm_context_tokens stats). split; [done|]. destruct (Hfit Hb) as [?| ->]; [by left|by right].
Qed.

(** What reaches the model is the tenant's to see.  Every piece of context of
    [retrieve_course_docs] lies live in the tenant's index, or, unless a course is bound, in
    the platform's, and belongs to the bound course; the pieces cost at most the token
    budget, unless a single piece is all there is; and the word indexes stay those of the
    stores. *)
Theorem course_context_in_knowledge (query : pystr) (k : Z) (tenant_id : pystr) (course_code : option pystr)
    (cache cache' : gmap pystr (option Bm25Index)) (r : res exn (list Document)) :
  settings_ok settings -> (1 <= k)%Z -> lexical_ok indexes cache ->
  retrieve_course_docs tk indexes settings decompose search_ctx query k tenant_id course_code cache = (r, cache') ->
  lexical_ok indexes cache' /\
  match r with
  | Ok docs =>
    Forall (in_knowledge indexes tenant_id course_code) docs /\
    ((0 < rag_context_token_budget settings)%Z -> docs <> [] -> exists t,
      total_cost tk docs = Ok t /\ ((t <= rag_context_token_budget settings)%Z \/ length docs = 1))
  | Raise _ => True
  end.
Proof. exact (course_context_spec query k tenant_id course_code cache cache' r). Qed.
End retrieved.

Module Demo.
Import Retrieval.Demo.
Definition tk : tokenizer := {| tk_encode := None; tk_ratio := f_one |}.
Definition retrieve (budget : Z) (query : pystr) (course_code : option pystr) :=
  retrieve_course_docs tk indexes
    {| rag_hybrid_enabled := true; rag_rrf_k := 60; rag_dynamic_k_enabled := true; rag_fetch_k_min := 12; rag_fetch_k_max := 32;
       rag_rerank_enabled := false; rag_rerank_fetch_k := 24; rag_rerank_top_k := 6; rag_min_score := f_div_int 1 5;
       rag_neighbor_chunks := 1; rag_context_token_budget := budget |}
    (fun q => Ok [q]) None query 8 (u "demo") course_code ∅.
Definition texts (r : res exn (list Document)) : res exn (list pystr) := let? docs := r in Ok (map page_content docs).

(** The hits' parent block stands for both of them; a tight budget keeps the best piece. *)
Example demo_context :
  texts (retrieve 4096 (u "变量 是什么") None).1 = Ok [u "平台 帮助 变量"; u "Python 课程 变量 函数 类"] /\
  texts (retrieve 5 (u "变量 是什么") None).1 = Ok [u "Python 课程 变量 函数 类"].
Proof. vm_compute. split; reflexivity. Qed.
End Demo.


Lemma course_context_in_knowledge_witness :
  match (Demo.retrieve 4096 (u "变量 是什么") None).1 with
  | Ok docs => length docs = 2 /\ Forall (in_knowledge (H := Retrieval.Demo.services) Retrieval.Demo.indexes (u "demo") None) docs
  | Raise _ => False
  end.
Proof.
  assert (Hs : settings_ok {| rag_hybrid_enabled := true; rag_rrf_k := 60; rag_dynamic_k_enabled := true; rag_fetch_k_min := 12; rag_fetch_k_max := 32;
       rag_rerank_enabled := false; rag_rerank_fetch_k := 24; rag_rerank_top_k := 6; rag_min_score := f_div_int 1 5;
       rag_neighbor_chunks := 1; rag_context_token_budget := 4096 |}) by (split; vm_compute; done).
  assert (Hl : lexical_ok (H := Retrieval.Demo.services) Retrieval.Demo.indexes ∅) by (intros s i Hi; by rewrite lookup_empty in Hi).
  pose proof (fun r c => course_context_in_knowledge (H := Retrieval.Demo.services) (H0 := Retrieval.Demo.laws) Demo.tk
    Retrieval.Demo.indexes _ (fun q => Ok [q]) None (u "变量 是什么") 8 (u "demo") None ∅ c r Hs ltac:(lia) Hl) as H.
  assert (Hn : match (Demo.retrieve 4096 (u "变量 是什么") None).1 with Ok docs => length docs = 2 | Raise _ => False end) by (vm_compute; reflexivity).
  revert H Hn. fold (Demo.retrieve 4096 (u "变量 是什么") None). generalize (Demo.retrieve 4096 (u "变量 是什么") None).
  intros [[docs|e] c] H Hn; [|exact Hn]. split; [exact Hn|]. exact (proj1 (proj2 (H (Ok docs) c eq_refl))).
Defined.
