(* ===== verification/Chunking.v ===== *)
(** * From a course outline to documents ([app/rag/chunking.py])

    A Markdown file is cut at its headings; each section becomes a parent block, a summary
    and small slices, which are searched, and stand for their block.  The two text splitters
    are LangChain's, and parameters. *)

From stdpp Require Import base list gmap strings.
From S2P Require Import Prelude PyText PyFloat PyRe PyDict Errors Json Orders ToolCache Filters Documents Retrieval RagContext.
Open Scope py_scope.

(** ** [bytes.decode("utf-8")] *)

Definition NOT_UTF8 : exn := ValueError (u "'utf-8' codec can't decode").
Definition cont (b : N) : bool := ((128 <=? b) && (b <=? 191))%N.
Definition six (b : N) : N := N.land b 63.

Fixpoint utf8_decode (raw : list N) : res exn pystr :=
  let more (c : N) (rest : res exn pystr) := let? s := rest in Ok (c :: s) in
  match raw with
  | [] => Ok []
  | a :: raw =>
    if (a <? 128)%N then more a (utf8_decode raw)
    else match raw with
    | b :: raw =>
      if ((194 <=? a) && (a <=? 223))%N && cont b then more (N.land a 31 * 64 + six b)%N (utf8_decode raw)
      else match raw with
      | c :: raw =>
        if ((224 <=? a) && (a <=? 239))%N && cont b && cont c
           && (negb (a =? 224) || (160 <=? b))%N && (negb (a =? 237) || (b <=? 159))%N
        then more (N.land a 15 * 4096 + six b * 64 + six c)%N (utf8_decode raw)
        else match raw with
        | d :: raw =>
          if ((240 <=? a) && (a <=? 244))%N && cont b && cont c && cont d
             && (negb (a =? 240) || (144 <=? b))%N && (negb (a =? 244) || (b <=? 143))%N
          then more (N.land a 7 * 262144 + six b * 4096 + six c * 64 + six d)%N (utf8_decode raw)
          else Raise NOT_UTF8
        | [] => Raise NOT_UTF8
        end
      | [] => Raise NOT_UTF8
      end
    | [] => Raise NOT_UTF8
    end
  end.

(** ** Texts *)

Definition _SUMMARY_MAX_CHARS : nat := 280.
Definition slash_join (parts : list pystr) : pystr := join (u " / ") parts.

(** A file name without its last suffix, for names that end in [.md]. *)
Definition stem (name : pystr) : pystr := if bool_decide (name = u ".md") then name else take (length name - 3) name.

(** [re.split(pattern, s)], for a pattern without groups that reads at least a character:
    the text before, between and behind the matches. *)
Fixpoint split_from (r : re) (fuel : nat) (cur pre s : pystr) : list pystr :=
  match fuel with
  | O => [reverse cur ++ s]
  | S fuel =>
    match match_here r pre s with
    | Some m => if length (m_rest m) <? length s then reverse cur :: split_from r fuel [] (m_pre m) (m_rest m)
                else match s with [] => [reverse cur] | c :: s => split_from r fuel (c :: cur) (c :: pre) s end
    | None => match s with [] => [reverse cur] | c :: s => split_from r fuel (c :: cur) (c :: pre) s end
    end
  end.
Definition re_split_on (r : re) (s : pystr) : list pystr := split_from r (S (length s)) [] [] s.

(** [\n\s*\n]. *)
Definition PARAGRAPH_RE : re := rseq [RChar (N.eqb 10); RStar (RChar is_space); RChar (N.eqb 10)].
Definition SPACES_RE : re := rmin 1 (RChar is_space).

Definition _parent_id (source section : pystr) : pystr :=
  let slug := str_or (sub SPACES_RE (u "_") (strip section)) (u "root") in
  source ++ u "::" ++ slug.

(** The loop over the paragraphs finds one in every text that is not blank. *)
Definition _first_paragraph (max_chars : nat) (body : pystr) : pystr :=
  let text := strip body in
  if negb (truthy text) then []
  else match filter (fun p => truthy p = true) (map strip (re_split_on PARAGRAPH_RE text)) with
       | paragraph :: _ => if max_chars <? length paragraph then rstrip (take max_chars paragraph) ++ u "…" else paragraph
       | [] => rstrip (take max_chars text) ++ (if max_chars <? length text then u "…" else [])
       end.

Definition _build_section_summary (section_path parent_body : pystr) : pystr :=
  let intro := _first_paragraph _SUMMARY_MAX_CHARS parent_body in
  if truthy section_path && truthy intro then section_path ++ newline ++ intro else str_or section_path intro.

Section chunking.
Context (repr : json -> pystr).
(** [MarkdownHeaderTextSplitter.split_text]: the sections, each with the headings above it;
    the splitters for a text without sections and for a section; and the hash of a file. *)
Context (markdown_split : pystr -> list (pystr * dict)) (fallback_split child_split : pystr -> list pystr).
Context (sha256 : list N -> pystr).

Definition heading (k : string) (metadata : dict) : pystr := strip (str_or_empty repr (get (u k) metadata)).
Definition _section_path (metadata : dict) : pystr :=
  slash_join (filter (fun p => truthy p = true) [heading "title" metadata; heading "section" metadata; heading "subsection" metadata]).

Definition _with_prefix (metadata : dict) (body : pystr) : pystr :=
  let prefix := _section_path metadata in
  let body := strip body in
  if truthy prefix && truthy body then prefix ++ newline ++ body else str_or prefix body.

Definition _base_metadata (name tenant_id digest : pystr) : list (pystr * json) :=
  [(u "source", JStr name); (u "course_file", JStr (stem name)); (u "course_code", JStr (stem name)); (u "tenant_id", JStr tenant_id);
   (u "content_hash", JStr digest); (u "deleted", JBool false); (u "doc_type", JStr (u "outline"))].

(** [str(metadata.get("section") or metadata.get("title") or f"part-{index}")]. *)
Definition section_name_of (metadata : dict) (index : Z) : pystr :=
  let value := if jtruthy (get (u "section") metadata) then get (u "section") metadata else get (u "title") metadata in
  if jtruthy value then py_str repr value else u "part-" ++ dec index.

Definition made (text : pystr) (fields : list (pystr * json)) (headings : dict) : Document :=
  {| doc_ref := 0; page_content := text; metadata := dmerge (mkdict fields) headings |}.

(** What the documents of a section share. *)
Record block := {
  bl_fields : list (pystr * json);   (* of the file *)
  bl_index : Z;
  bl_headings : dict;
  bl_parent_id : pystr;
  bl_path : pystr;
  bl_name : pystr;
  bl_body : pystr;
}.
Definition block_of (name tenant_id digest : pystr) (index : Z) (section : pystr * dict) : block :=
  let '(content, metadata) := section in
  let section_name := section_name_of metadata index in
  {| bl_fields := _base_metadata name tenant_id digest; bl_index := index; bl_headings := metadata;
     bl_parent_id := _parent_id name section_name; bl_path := _section_path metadata; bl_name := section_name;
     bl_body := _with_prefix metadata content |}.

Definition placed (b : block) : list (pystr * json) :=
  [(u "parent_id", JStr (bl_parent_id b)); (u "section_path", JStr (bl_path b)); (u "module_name", JStr (bl_name b))].
Definition parent_document (b : block) : Document :=
  made (bl_body b) (bl_fields b ++ [(u "chunk", JInt (- (bl_index b + 1))); (u "chunk_role", JStr (u "parent"))] ++ placed b) ∅.
Definition summary_document (b : block) (chunk : Z) (text : pystr) : Document :=
  made text (bl_fields b ++ [(u "chunk", JInt chunk); (u "chunk_role", JStr (u "child")); (u "chunk_kind", JStr (u "section_summary"))] ++ placed b)
    (bl_headings b).
Definition child_document (b : block) (chunk : Z) (text : pystr) : Document :=
  made text (bl_fields b ++ [(u "chunk", JInt chunk); (u "chunk_role", JStr (u "child"))] ++ placed b) (bl_headings b).

(** The slices of a section, numbered from [chunk]. *)
Definition slices (b : block) (chunk : Z) : list Document :=
  let summary_body := _build_section_summary (bl_path b) (bl_body b) in
  let summary := if truthy summary_body then [summary_document b chunk summary_body] else [] in
  let bodies := match child_split (bl_body b) with [] => [bl_body b] | bodies => bodies end in
  summary ++ imap (fun i body => child_document b (chunk + Z.of_nat (length summary + i)) body) bodies.

Fixpoint block_documents (blocks : list block) (child_index : Z) : list Document :=
  match blocks with
  | [] => []
  | b :: blocks =>
    let children := slices b child_index in
    parent_document b :: children ++ block_documents blocks (child_index + Z.of_nat (length children))
  end.

Definition sections_of (text : pystr) : list (pystr * dict) :=
  match markdown_split text with [] => map (fun part => (part, ∅)) (fallback_split text) | sections => sections end.
Definition blocks_of (name tenant_id digest text : pystr) : list block :=
  imap (fun i section => block_of name tenant_id digest (Z.of_nat i) section) (sections_of text).

Definition build_parent_child_documents (name : pystr) (raw : list N) (tenant_id : pystr) : res exn (list Document) :=
  let digest := sha256 raw in
  let? text := utf8_decode raw in
  Ok (block_documents (blocks_of name tenant_id digest text) 0).
End chunking.

(** ** What the slices say of themselves *)

Section slices.
Context `{RetrievalServices}.
Context (markdown_split : pystr -> list (pystr * dict)) (fallback_split child_split : pystr -> list pystr).
Context (sha256 : list N -> pystr).
(** The headings of a section are a title, a section and a subsection. *)
Definition HEADINGS : list pystr := map u ["title"; "section"; "subsection"]%string.
Definition only_headings : Prop := forall text content (metadata : dict) k,
  (content, metadata) ∈ markdown_split text -> is_Some (metadata !! k) -> k ∈ HEADINGS.
Context (Hheadings : only_headings).

Abbreviation slices := (slices child_split).
Abbreviation block_documents := (block_documents child_split).
Abbreviation blocks_of := (blocks_of repr markdown_split fallback_split).

Record block_ok (name tenant_id digest : pystr) (b : block) : Prop := {
  bo_fields : bl_fields b = _base_metadata name tenant_id digest;
  bo_headings k : is_Some (bl_headings b !! k) -> k ∈ HEADINGS;
  bo_parent : truthy (bl_parent_id b) = true;
}.
Lemma parent_id_truthy source section : truthy (_parent_id source section) = true.
Proof. unfold _parent_id. cbv zeta. by destruct source. Qed.


Lemma blocks_ok name tenant_id digest text : Forall (block_ok name tenant_id digest) (blocks_of name tenant_id digest text).
Proof.
  apply Forall_forall. intros b (i & Hb)%list_elem_of_lookup. unfold Chunking.blocks_of in Hb. rewrite list_lookup_imap in Hb.
  destruct (_ !! i) as [[content metadata]|] eqn:E; [|done]. injection Hb as <-. split; [done| |apply parent_id_truthy]. cbn [bl_headings block_of].
  apply list_elem_of_lookup_2 in E. unfold sections_of in E. destruct (markdown_split text) as [|s sections] eqn:Em.
  - intros k. apply list_elem_of_fmap in E as (part & [= -> ->] & _). rewrite lookup_empty. by intros [].
  - intros k Hk. rewrite <- Em in E. by eapply Hheadings.
Qed.

Lemma get_made text fields (headings : dict) k : headings !! k = None -> meta k (made text fields headings) = get k (mkdict fields).
Proof. intros Hk. unfold meta, made. cbn [metadata]. by rewrite get_dmerge, Hk. Qed.

Lemma no_heading (headings : dict) k : (forall k, is_Some (headings !! k) -> k ∈ HEADINGS) -> bool_decide (k ∈ HEADINGS) = false ->
  headings !! k = None.
Proof. intros Hh Hk%bool_decide_eq_false. apply eq_None_not_Some. intros Hs. by apply Hk, Hh. Qed.

(** A document of a block, a slice or the block itself. *)
Record of_block (name tenant_id digest : pystr) (b : block) (role : pystr) (chunk : Z) (d : Document) : Prop := {
  ob_source : meta (u "source") d = JStr name;
  ob_code : meta (u "course_code") d = JStr (stem name);
  ob_tenant : meta (u "tenant_id") d = JStr tenant_id;
  ob_hash : meta (u "content_hash") d = JStr digest;
  ob_deleted : meta (u "deleted") d = JBool false;
  ob_chunk : meta (u "chunk") d = JInt chunk;
  ob_role : meta (u "chunk_role") d = JStr role;
  ob_parent : meta (u "parent_id") d = JStr (bl_parent_id b);
}.

Lemma made_of_block name tenant_id digest b (headings : dict) role chunk text extra :
  block_ok name tenant_id digest b -> (forall k, is_Some (headings !! k) -> k ∈ HEADINGS) ->
  extra = [] \/ extra = [(u "chunk_kind", JStr (u "section_summary"))] ->
  of_block name tenant_id digest b role chunk
    (made text (bl_fields b ++ ([(u "chunk", JInt chunk); (u "chunk_role", JStr role)] ++ extra) ++ placed b) headings).
Proof.
  intros [-> _ _] Hh He. unfold _base_metadata, placed.
  split; (rewrite get_made; [destruct He as [-> | ->]; vm_compute; reflexivity|apply no_heading; [exact Hh|vm_compute; reflexivity]]).
Qed.

Lemma parent_of_block name tenant_id digest b : block_ok name tenant_id digest b ->
  of_block name tenant_id digest b (u "parent") (- (bl_index b + 1)) (parent_document b).
Proof.
  intros Hb. unfold parent_document. apply (made_of_block name tenant_id digest b ∅ (u "parent") _ _ []); [done| |by left].
  intros k. rewrite lookup_empty. by intros [].
Qed.

(** The slices of a block are numbered from [chunk] on. *)
Lemma slices_of_block name tenant_id digest b chunk i d : block_ok name tenant_id digest b -> slices b chunk !! i = Some d ->
  of_block name tenant_id digest b (u "child") (chunk + Z.of_nat i) d.
Proof.
  intros Hb. unfold Chunking.slices. cbv zeta. set (bodies := match child_split _ with [] => _ | _ => _ end).
  destruct (truthy _) eqn:Et; cbn [app length].
  - rewrite lookup_cons. destruct i as [|i].
    + intros [= <-]. rewrite Z.add_0_r. unfold summary_document.
      apply (made_of_block name tenant_id digest b _ (u "child") chunk _ [(u "chunk_kind", JStr (u "section_summary"))]); [done|apply Hb|by right].
    + rewrite list_lookup_imap. destruct (bodies !! i); [|done]. intros [= <-].
      apply (made_of_block name tenant_id digest b _ (u "child") _ _ []); [done|apply Hb|by left].
  - rewrite list_lookup_imap. destruct (bodies !! i); [|done]. intros [= <-].
    apply (made_of_block name tenant_id digest b _ (u "child") _ _ []); [done|apply Hb|by left].
Qed.

Lemma slices_some b chunk : 1 <= length (slices b chunk).
Proof.
  unfold Chunking.slices. cbv zeta. rewrite length_app, length_imap. destruct (child_split _); cbn [length]; lia.
Qed.

(** The children among the documents. *)
Definition is_child (d : Document) : Prop := meta (u "chunk_role") d = JStr (u "child").
#[export] Instance is_child_dec d : Decision (is_child d).
Proof.
  unfold is_child. destruct (meta (u "chunk_role") d) as [ | | | |s| |]; try (right; discriminate).
  destruct (decide (s = u "child")) as [-> |Hs]; [by left|right; congruence].
Defined.
Lemma child_of name tenant_id digest b c d : of_block name tenant_id digest b (u "child") c d -> is_child d.
Proof. intros Hd. apply Hd. Qed.
Lemma parent_no_child name tenant_id digest b c d : of_block name tenant_id digest b (u "parent") c d -> ~ is_child d.
Proof. intros Hd. unfold is_child. rewrite (ob_role _ _ _ _ _ _ _ Hd). by intros [=]. Qed.

Lemma block_documents_elem blocks n d : d ∈ block_documents blocks n ->
  exists b, b ∈ blocks /\ (d = parent_document b \/ exists c i, slices b c !! i = Some d).
Proof.
  revert n. induction blocks as [|b blocks IH]; intros n; cbn [Chunking.block_documents]; [by intros ?%elem_of_nil|]. cbv zeta.
  rewrite elem_of_cons, elem_of_app. intros [->|[(i & Hi)%list_elem_of_lookup|Hd]].
  - exists b. split; [by left|by left].
  - exists b. split; [by left|]. right. by exists n, i.
  - destruct (IH _ Hd) as (b' & ? & ?). exists b'. split; [by right|done].
Qed.

Lemma filter_all {A} (P : A -> Prop) `{forall x, Decision (P x)} l : Forall P l -> filter P l = l.
Proof. induction 1 as [|x l Hx _ IH]; [done|]. by rewrite filter_cons, decide_True, IH. Qed.

Lemma children_numbered name tenant_id digest blocks n : Forall (block_ok name tenant_id digest) blocks ->
  let children := filter is_child (block_documents blocks n) in
  map (meta (u "chunk")) children = map JInt (seqZ n (Z.of_nat (length children))).
Proof.
  intros Hb. cbv zeta. revert n. induction Hb as [|b blocks Hb _ IH]; intros n; cbn [Chunking.block_documents]; [done|]. cbv zeta.
  rewrite filter_cons, decide_False by (eapply parent_no_child, parent_of_block, Hb).
  rewrite filter_app, (filter_all is_child (slices b n)).
  2:{ apply Forall_forall. intros d (i & Hi)%list_elem_of_lookup. eapply child_of, slices_of_block; done. }
  rewrite map_app, IH, length_app, Nat2Z.inj_add, seqZ_app, map_app by lia. f_equal.
  apply list_eq. intros i. rewrite !list_lookup_fmap. destruct (slices b n !! i) as [d|] eqn:E; cbn.
  - rewrite (ob_chunk _ _ _ _ _ _ _ (slices_of_block _ _ _ _ _ _ _ Hb E)). rewrite (lookup_seqZ_lt _ _ i); [done|].
    apply lookup_lt_Some in E. lia.
  - apply lookup_ge_None in E. by rewrite lookup_seqZ_ge by lia.
Qed.

(** What a build yields. *)
Lemma build_inv name raw tenant_id docs : build_parent_child_documents repr markdown_split fallback_split child_split sha256 name raw tenant_id = Ok docs ->
  exists text, utf8_decode raw = Ok text /\ docs = block_documents (blocks_of name tenant_id (sha256 raw) text) 0.
Proof. unfold build_parent_child_documents. cbv zeta. intros (text & Ht & [= <-])%rbind_ok. by exists text. Qed.

Lemma built_of_block name raw tenant_id docs d :
  build_parent_child_documents repr markdown_split fallback_split child_split sha256 name raw tenant_id = Ok docs -> d ∈ docs ->
  exists b role c, of_block name tenant_id (sha256 raw) b role c d.
Proof.
  intros (text & _ & ->)%build_inv (b & Hb & Hd)%block_documents_elem.
  pose proof (blocks_ok name tenant_id (sha256 raw) text) as Hok. rewrite Forall_forall in Hok. specialize (Hok _ Hb).
  destruct Hd as [->|(c & i & Hi)]; [exists b, (u "parent"), (- (bl_index b + 1))%Z; by apply parent_of_block|].
  exists b, (u "child"), (c + Z.of_nat i)%Z. by eapply slices_of_block.
Qed.

Lemma role_of name tenant_id digest b role c d : of_block name tenant_id digest b role c d -> chunk_role d = role.
Proof. intros Hd. unfold chunk_role. by rewrite (ob_role _ _ _ _ _ _ _ Hd). Qed.
Lemma str_made {s d k} : meta (u k) d = JStr s -> str_or_empty repr (meta (u k) d) = s.
Proof. intros ->. unfold str_or_empty. cbn [jtruthy py_str]. destruct (truthy s) eqn:E; [done|]. symmetry. by apply truthy_false. Qed.

Lemma is_suffix_app p s : is_suffix p s = true -> exists t, s = t ++ p.
Proof.
  unfold is_suffix. intros [t Ht]%is_prefix_spec. exists (reverse t). rewrite <- (reverse_involutive s), Ht, reverse_app. by rewrite reverse_involutive.
Qed.

Lemma stem_truthy name : is_suffix (u ".md") name = true -> truthy (stem name) = true.
Proof.
  intros (t & ->)%is_suffix_app. unfold stem. case_bool_decide as Hn; [by rewrite Hn|]. destruct t as [|c t]; [done|].
  rewrite length_app. change (length (u ".md")) with 3. cbn [length]. replace (S (length t) + 3 - 3) with (S (length t)) by lia. done.
Qed.

Lemma parent_in b blocks n : b ∈ blocks -> parent_document b ∈ block_documents blocks n.
Proof.
  revert n. induction blocks as [|b' blocks IH]; intros n Hin; cbn [Chunking.block_documents]; [by apply elem_of_nil in Hin|].
  cbv zeta. rewrite elem_of_cons, elem_of_app. apply elem_of_cons in Hin as [->|Hin]; [by left|]. right; right. by apply IH.
Qed.

(** C30.  How an outline is cut.  Every document of it knows its file, course, tenant and version
    and is live, so the course it belongs to can always be told; the slices that are
    searched are numbered from zero without gaps, in order; and each of them names a parent
    block that is there. *)
Theorem outline_is_cut (name : pystr) (raw : list N) (tenant_id : pystr) (docs : list Document) :
  is_suffix (u ".md") name = true ->
  build_parent_child_documents repr markdown_split fallback_split child_split sha256 name raw tenant_id = Ok docs ->
  let children := filter is_child docs in
  Forall (fun d => meta (u "source") d = JStr name /\ meta (u "tenant_id") d = JStr tenant_id /\ meta (u "content_hash") d = JStr (sha256 raw) /\
    _is_deleted d = false /\ document_course_code repr d = Ok (stem name)) docs /\
  map (meta (u "chunk")) children = map JInt (seqZ 0 (Z.of_nat (length children))) /\
  (forall d, d ∈ children -> exists p, p ∈ docs /\ chunk_role p = u "parent" /\ meta (u "parent_id") p = meta (u "parent_id") d) /\
  (docs <> [] -> children <> []).
Proof.
  intros Hmd Hb. cbv zeta. split_and!.
  - apply Forall_forall. intros d Hd. destruct (built_of_block _ _ _ _ _ Hb Hd) as (b & role & c & []). split_and!; try done.
    + unfold _is_deleted. by rewrite ob_deleted0.
    + unfold document_course_code. rewrite ob_code0. cbn [jtruthy]. rewrite (stem_truthy _ Hmd). cbv zeta. unfold str_or_empty. cbn [jtruthy py_str].
      by rewrite (stem_truthy _ Hmd), (stem_truthy _ Hmd).
  - destruct (build_inv _ _ _ _ Hb) as (text & _ & ->). by eapply children_numbered, blocks_ok.
  - destruct (build_inv _ _ _ _ Hb) as (text & _ & ->). pose proof (blocks_ok name tenant_id (sha256 raw) text) as Hok. rewrite Forall_forall in Hok.
    intros d [Hc Hd]%list_elem_of_filter. apply block_documents_elem in Hd as (b & Hin & Hd). specialize (Hok _ Hin).
    destruct Hd as [->|(c & i & Hi)]; [by destruct (parent_no_child _ _ _ _ _ _ (parent_of_block _ _ _ _ Hok))|].
    exists (parent_document b). split_and!.
    + by apply parent_in.
    + apply (role_of _ _ _ _ _ _ _ (parent_of_block _ _ _ _ Hok)).
    + by rewrite (ob_parent _ _ _ _ _ _ _ (parent_of_block _ _ _ _ Hok)), (ob_parent _ _ _ _ _ _ _ (slices_of_block _ _ _ _ _ _ _ Hok Hi)).
  - destruct (build_inv _ _ _ _ Hb) as (text & _ & ->). pose proof (blocks_ok name tenant_id (sha256 raw) text) as Hok.
    destruct (blocks_of _ _ _ _) as [|b blocks]; [done|]. intros _. cbn [Chunking.block_documents]. cbv zeta. apply Forall_cons in Hok as [Hok _].
    rewrite filter_cons, decide_False by (eapply parent_no_child, parent_of_block, Hok). rewrite filter_app.
    pose proof (slices_some b 0) as Hs. destruct (slices b 0) as [|d l] eqn:E; [cbn in Hs; lia|].
    rewrite filter_cons, decide_True; [done|]. eapply child_of, (slices_of_block _ _ _ _ 0 0); [exact Hok|by rewrite E].
Qed.

Lemma parent_lookup_unique corpus p i : p ∈ corpus -> chunk_role p = u "parent" -> str_or_empty repr (meta (u "parent_id") p) = i ->
  truthy i = true ->
  (forall p', p' ∈ corpus -> chunk_role p' = u "parent" -> str_or_empty repr (meta (u "parent_id") p') = i -> p' = p) ->
  _parent_lookup corpus !! i = Some p.
Proof.
  intros Hp Hr Hi Ht Hu. unfold _parent_lookup. set (f := fun parents d => _).
  assert (Hg : forall l (m : gmap pystr Document), (forall d, d ∈ l -> d ∈ corpus) -> (p ∈ l \/ m !! i = Some p) -> foldl f m l !! i = Some p).
  { induction l as [|x l IH]; intros m Hl Hm; cbn [foldl]; [by destruct Hm as [?%elem_of_nil|?]|].
    apply IH; [intros y Hy; apply Hl; by right|]. rewrite elem_of_cons in Hm.
    assert (Hx : f m x !! i = Some p \/ f m x !! i = m !! i /\ x <> p).
    { unfold f. case_bool_decide as Hxr; [right; split; [done|by intros ->]|]. cbv zeta.
      destruct (decide (str_or_empty repr (meta (u "parent_id") x) = i)) as [Hxi|Hxi].
      - rewrite Hxi, Ht. left. rewrite lookup_insert_eq. f_equal. apply Hu; [apply Hl; by left|done|done].
      - right. split; [|intros ->; done]. destruct (truthy (str_or_empty repr (meta (u "parent_id") x))); [by apply lookup_insert_ne|done]. }
    destruct Hx as [Hx|[Hx Hne]]; [by right|]. rewrite Hx. destruct Hm as [[->|?]|?]; [done|by left|by right]. }
  apply Hg; [done|by left].
Qed.


(** A hit is read with its own section around it, as long as no two sections of the outline
    share a parent id, which is made of the section's name only. *)
Theorem hits_expand_to_their_block (name : pystr) (raw : list N) (tenant_id text : pystr) (docs : list Document) :
  utf8_decode raw = Ok text ->
  build_parent_child_documents repr markdown_split fallback_split child_split sha256 name raw tenant_id = Ok docs ->
  let blocks := blocks_of name tenant_id (sha256 raw) text in
  NoDup (map bl_parent_id blocks) ->
  forall b chunk d, b ∈ blocks -> d ∈ slices b chunk -> _context_document (_parent_lookup docs) d = parent_document b.
Proof.
  intros Ht Hb. cbv zeta. intros Hnd b chunk d Hin (i & Hi)%list_elem_of_lookup.
  destruct (build_inv _ _ _ _ Hb) as (text' & Ht' & ->). rewrite Ht in Ht'. injection Ht' as <-.
  pose proof (blocks_ok name tenant_id (sha256 raw) text) as Hok. rewrite Forall_forall in Hok.
  pose proof (slices_of_block _ _ _ _ _ _ _ (Hok _ Hin) Hi) as Hd. pose proof (parent_of_block _ _ _ _ (Hok _ Hin)) as Hp.
  unfold _context_document. rewrite bool_decide_false by (intros Hx; apply Hx, (role_of _ _ _ _ _ _ _ Hd)). cbv zeta. rewrite (str_made (ob_parent _ _ _ _ _ _ _ Hd)), (bo_parent _ _ _ _ (Hok _ Hin)).
  rewrite (parent_lookup_unique _ (parent_document b) (bl_parent_id b)); [done|by apply parent_in| |apply (str_made (ob_parent _ _ _ _ _ _ _ Hp))|apply (Hok _ Hin)|].
  - apply (role_of _ _ _ _ _ _ _ Hp).
  - intros p' Hp' Hr Hpi. apply block_documents_elem in Hp' as (b' & Hb' & Hp'). destruct Hp' as [->|(c & j & Hj)].
    + rewrite (str_made (ob_parent _ _ _ _ _ _ _ (parent_of_block _ _ _ _ (Hok _ Hb')))) in Hpi.
      f_equal. apply list_elem_of_lookup in Hin as (x & Hx), Hb' as (y & Hy).
      assert (x = y) as <-; [|congruence]. apply (NoDup_lookup _ _ _ (bl_parent_id b) Hnd); rewrite list_lookup_fmap; [by rewrite Hx|by rewrite Hy; cbn; rewrite Hpi].
    + exfalso. pose proof (slices_of_block _ _ _ _ _ _ _ (Hok _ Hb') Hj) as Hs. apply (parent_no_child _ _ _ _ _ _ Hp).
      rewrite (role_of _ _ _ _ _ _ _ Hs) in Hr. unfold is_child.
      rewrite (ob_role _ _ _ _ _ _ _ Hp). by rewrite Hr.
Qed.
End slices.

(** ** Examples *)

Module Demo.
(** A section for each line, named by its first two characters; texts are not cut. *)
Definition lines_split (text : pystr) : list (pystr * dict) := map (fun l => (l, {[u "section" := JStr (take 2 l)]})) (splitlines text).
Definition whole (text : pystr) : list pystr := [text].
Definition no_hash (raw : list N) : pystr := raw.
Definition outline : list N := [228; 184; 128; 97; 10; 228; 186; 140; 98]%N.
Definition build : list N -> res exn (list Document) := fun raw =>
  build_parent_child_documents (fun _ => []) lines_split whole whole no_hash (u "c.md") raw (u "demo").
Definition shown (r : res exn (list Document)) : res exn (list (pystr * json)) :=
  let? docs := r in Ok (map (fun d => (page_content d, meta (u "chunk") d)) docs).

Example demo_outline :
  utf8_decode outline = Ok (u "一a
二b") /\
  shown (build outline) = Ok [(u "一a
一a", JInt (-1)); (u "一a
一a
一a", JInt 0); (u "一a
一a", JInt 1); (u "二b
二b", JInt (-2)); (u "二b
二b
二b", JInt 2); (u "二b
二b", JInt 3)].
Proof. vm_compute. split; reflexivity. Qed.

(** Two sections of one name: the slice of the first is read with the second around it. *)
Definition twice : list N := u "ab1
ab2".
Example same_section_name :
  match build twice with
  | Ok docs => map (fun d => page_content (_context_document (H := Retrieval.Demo.services) (_parent_lookup (H := Retrieval.Demo.services) docs) d))
                 (filter (fun d => contains (u "ab1") (page_content d) = true) docs)
  | Raise _ => []
  end = [u "ab
ab1"; u "ab
ab2"; u "ab
ab2"].
Proof. vm_compute. reflexivity. Qed.

Lemma lines_headings : only_headings lines_split.
Proof.
  intros text content metadata k Hin Hk. unfold lines_split in Hin. apply list_elem_of_fmap in Hin as (l & [= -> ->] & _).
  destruct Hk as [v Hv]. apply lookup_singleton_Some in Hv as [<- _].
  apply (bool_decide_eq_true_1 (u "section" ∈ HEADINGS)). vm_compute. reflexivity.
Qed.
End Demo.

Lemma outline_is_cut_witness :
  match Demo.build Demo.outline with
  | Ok docs => length docs = 6 /\
      (forall d, d ∈ filter is_child docs -> exists p, p ∈ docs /\ chunk_role (H := Retrieval.Demo.services) p = u "parent" /\
        meta (u "parent_id") p = meta (u "parent_id") d)
  | Raise _ => False
  end.
Proof.
  pose proof (fun docs => outline_is_cut (H := Retrieval.Demo.services) Demo.lines_split Demo.whole Demo.whole Demo.no_hash Demo.lines_headings
    (u "c.md") Demo.outline (u "demo") docs ltac:(vm_compute; reflexivity)) as Ho.
  assert (Hl : match Demo.build Demo.outline with Ok docs => length docs = 6 | Raise _ => False end) by (vm_compute; reflexivity).
  change (build_parent_child_documents repr Demo.lines_split Demo.whole Demo.whole Demo.no_hash (u "c.md") Demo.outline (u "demo"))
    with (Demo.build Demo.outline) in Ho.
  revert Ho Hl. generalize (Demo.build Demo.outline). intros [docs|e] Ho Hl; [|exact Hl]. split; [exact Hl|].
  exact (proj1 (proj2 (proj2 (Ho docs eq_refl)))).
Defined.

Lemma hits_expand_to_their_block_witness :
  let blocks := blocks_of (fun _ => []) Demo.lines_split Demo.whole (u "c.md") (u "demo") Demo.outline (u "一a
二b") in
  match Demo.build Demo.outline with
  | Ok docs => NoDup (map bl_parent_id blocks) /\
      forall b chunk d, b ∈ blocks -> d ∈ slices Demo.whole b chunk ->
        _context_document (H := Retrieval.Demo.services) (_parent_lookup (H := Retrieval.Demo.services) docs) d = parent_document b
  | Raise _ => False
  end.
Proof.
  cbv zeta.
  assert (Hnd : NoDup (map bl_parent_id (blocks_of (fun _ => []) Demo.lines_split Demo.whole (u "c.md") (u "demo") Demo.outline (u "一a
二b")))) by (apply (bool_decide_eq_true_1 _); vm_compute; reflexivity).
  pose proof (fun docs => hits_expand_to_their_block (H := Retrieval.Demo.services) Demo.lines_split Demo.whole Demo.whole Demo.no_hash Demo.lines_headings
    (u "c.md") Demo.outline (u "demo") (u "一a
二b") docs ltac:(vm_compute; reflexivity)) as Ho.
  change (build_parent_child_documents repr Demo.lines_split Demo.whole Demo.whole Demo.no_hash (u "c.md") Demo.outline (u "demo"))
    with (Demo.build Demo.outline) in Ho.
  assert (Hl : is_ok (Demo.build Demo.outline) = true) by (vm_compute; reflexivity).
  revert Ho Hl. generalize (Demo.build Demo.outline). intros [docs|e] Ho Hl; [|discriminate Hl]. split; [exact Hnd|].
  exact (Ho docs eq_refl Hnd).
Defined.
