(* ===== verification/CourseAgent.v ===== *)
(** * The course agent ([app/agents/rag.py])

    A course question is prepared, searched for, and answered by the language model from
    the context found, as a structured result or as a stream of tokens.  Without the model,
    or when it fails, an earlier answer or one put together by rules stands in. *)

From stdpp Require Import base list gmap strings.
From Stdlib Require Import Floats.SpecFloat.
From S2P Require Import Prelude PyText PyFloat PyRe PySort PyDict Errors Json Window Filters Orders Escalation ToolCache Capability CourseCapability Query Documents Retrieval RagContext.
Open Scope py_scope.

Definition NOT_FOUND_SUMMARY : pystr := u "知识库中没有匹配内容，请换个课程名称再试。".
Definition _EVIDENCE_EXCERPT_CHARS : nat := 120.

Definition RAG_STRUCTURED_SYSTEM : pystr :=
  u "你是课程咨询助手。只根据检索到的大纲作答，不要编造。" ++
  u "输出课程模块列表和学习路径（入门/巩固/实战）。" ++
  u "可结合对话历史理解指代，但答案必须以检索结果为准。".
Definition RAG_MARKDOWN_SYSTEM : pystr :=
  u "你是课程咨询助手。只根据检索到的大纲作答，不要编造。" ++
  u "用 Markdown 回复：先写课程标题与摘要，再列课程模块，再写学习路径（入门/巩固/实战）。" ++
  u "可结合对话历史理解指代，但答案必须以检索结果为准。".

(** [TenantQuotaExceededError] is the one failure of the model that nothing stands in for
    ([app/llm_gateway/exceptions.py]). *)
Definition is_llm_degradable (exc : exn) : bool := match exc with TenantQuotaExceededError _ _ _ => false | _ => true end.

(** What the agent is given besides the knowledge: the text of a prompt in Langfuse, when it
    is on and answers, and the gateway's two ways to ask the model: for a structured result
    ([None]: a reply of another type), and for a stream, the content of each chunk and how
    it ended. *)
Class CourseModel := {
  langfuse_prompt : pystr -> option pystr;
  ask_structured : pystr -> pystr -> res exn (option CourseConsultResult);
  ask_stream : pystr -> pystr -> list json * option exn;
}.

Definition PROMPT_RAG_STRUCTURED : pystr := u "cs.rag_structured".
Definition PROMPT_RAG_MARKDOWN : pystr := u "cs.rag_markdown".

Definition get_text_prompt `{CourseModel} (name fallback : pystr) : pystr :=
  let text := strip fallback in
  match langfuse_prompt name with
  | Some compiled => str_or (strip compiled) text
  | None => text
  end.

(** The distinct values of a list, first occurrences, in order. *)
Fixpoint uniq (seen l : list pystr) : list pystr :=
  match l with
  | [] => []
  | x :: l => if bool_decide (x ∈ seen) then uniq seen l else x :: uniq (x :: seen) l
  end.

(** [课程名称[：:]\s*(.+)], and the lines that open a module. *)
Definition _COURSE_NAME_RE : re :=
  rseq [rlit (u "课程名称"); RChar (fun c => bool_decide (c ∈ u "：:")); RStar (RChar is_space);
        RGroup 1 (rmin 1 (RChar (fun c => negb (c =? 10)%N)))].
Definition MODULE_RE : re :=
  rseq [rlit (u "模块"); RStar (RChar is_space); RGroup 1 (rmin 1 (RChar is_digit));
        RStar (RChar (fun c => bool_decide (c ∈ u "：:.") || is_space c));
        RGroup 2 (rmin 1 (RChar (fun c => negb (c =? 10)%N)))].

(** ** What a document says of itself *)

Section documents.
Context `{RetrievalServices}.

Definition field (k : string) (d : Document) : pystr := strip (str_or_empty repr (meta (u k) d)).

Definition excerpt_of (d : Document) : pystr :=
  let excerpt := strip (replace_char 10 32 (page_content d)) in
  if _EVIDENCE_EXCERPT_CHARS <? length excerpt then take _EVIDENCE_EXCERPT_CHARS excerpt ++ u "…" else excerpt.
Definition evidence_of (d : Document) : EvidenceSection :=
  {| ev_source := field "source" d; ev_section_path := field "section_path" d; ev_module_name := field "module_name" d;
     ev_excerpt := excerpt_of d |}.
(** Where a piece of evidence comes from. *)
Definition evidence_key (e : EvidenceSection) : pystr * pystr := (ev_source e, str_or (ev_section_path e) (ev_module_name e)).

Fixpoint evidence_loop (seen : list (pystr * pystr)) (docs : list Document) : list EvidenceSection :=
  match docs with
  | [] => []
  | d :: docs =>
    let e := evidence_of d in
    if bool_decide (evidence_key e ∈ seen) then evidence_loop seen docs
    else e :: evidence_loop (evidence_key e :: seen) docs
  end.
Definition build_evidence_from_docs (docs : list Document) : list EvidenceSection := evidence_loop [] docs.

Definition _with_evidence (result : CourseConsultResult) (docs : list Document) : CourseConsultResult :=
  {| cr_course_name := cr_course_name result; cr_summary := cr_summary result; cr_modules := cr_modules result;
     cr_learning_path := cr_learning_path result; cr_prerequisites := cr_prerequisites result;
     cr_sources := cr_sources result; cr_evidence := build_evidence_from_docs docs |}.

(** [sorted({str(doc.metadata.get("source")) for doc in docs})]. *)
Definition sources_of (docs : list Document) : list pystr :=
  py_sorted str_ltb (uniq [] (map (fun d => py_str repr (meta (u "source") d)) docs)).

Definition course_named (name summary : pystr) : CourseConsultResult :=
  {| cr_course_name := name; cr_summary := summary; cr_modules := []; cr_learning_path := []; cr_prerequisites := [];
     cr_sources := []; cr_evidence := [] |}.
Definition _not_found_result : CourseConsultResult := course_named NOT_FOUND_COURSE NOT_FOUND_SUMMARY.

(** ** Which course the documents are about *)

Fixpoint map_res {A B} (f : A -> res exn B) (l : list A) : res exn (list B) :=
  match l with
  | [] => Ok []
  | x :: l => let? y := f x in let? ys := map_res f l in Ok (y :: ys)
  end.

(** Each document with its course code. *)
Definition coded (docs : list Document) : res exn (list (pystr * Document)) :=
  map_res (fun d => let? code := document_course_code repr d in Ok (code, d)) docs.
Definition of_code (code : pystr) (docs : list (pystr * Document)) : list Document :=
  map snd (filter (fun cd => cd.1 = code) docs).

Definition _course_code_query_overlap (query : pystr) (docs : list Document) (course_code : pystr) : res exn Z :=
  let tokens := filter (fun t => 2 <= length t) (tokenize lcut query) in
  match tokens with
  | [] => Ok 0%Z
  | _ =>
    let? docs := coded docs in
    Ok (foldl (fun score d =>
          let text := lower (page_content d) in
          (score + Z.of_nat (length (filter (fun t => contains t text = true) tokens)))%Z) 0%Z (of_code course_code docs))
  end.

(** [Counter(...)]. *)
Definition counter (l : list pystr) : list (pystr * Z) :=
  foldl (fun counts code => dset code (default 0 (dget code counts) + 1)%Z counts) [] l.
(** [(-count, -overlap)], ascending. *)
Definition code_lt (a b : pystr * Z * Z) : bool :=
  ((b.1.2 <? a.1.2) || ((b.1.2 =? a.1.2) && (b.2 <? a.2)))%Z.
Definition ranked_codes (query : pystr) (docs : list Document) : res exn (list (pystr * Z * Z)) :=
  let? codes := coded docs in
  let counts := counter (filter (fun c => truthy c = true) codes.*1) in
  let? keyed := map_res (fun '(code, n) => let? o := _course_code_query_overlap query docs code in Ok (code, n, o)) counts in
  Ok (py_sorted code_lt keyed).

(** [match.group(n)] of a group every match has, stripped. *)
Definition group_text (n : nat) (m : rmatch) : pystr := strip (opt_str (group n m)).

(** [load_course_catalog().get((tenant, code))]. *)
Definition catalog_name (table : option (list Course)) (tenant code : pystr) : option pystr :=
  dget (tenant, code) (dict_of (map (fun c => ((course_tenant_id c, course_code c), course_name c)) (load_course_catalog table None))).

(** The names the documents are stamped with, and those their text states. *)
Definition catalog_names (docs : list Document) : list pystr :=
  uniq [] (filter (fun n => truthy n = true) (map (field "course_name") docs)).
Definition stated_names (docs : list Document) : list pystr :=
  uniq [] (filter (fun n => truthy n = true) (d ← docs; map (group_text 1) (finditer _COURSE_NAME_RE (page_content d)))).

(** The name of the course most of the documents belong to. *)
Definition dominant_name (table : option (list Course)) (tenant query : pystr) (docs : list Document) : res exn (option pystr) :=
  let? ranked := ranked_codes query docs in
  match ranked with
  | [] => Ok None
  | (dominant, _, _) :: _ =>
    let? codes := coded docs in
    match filter (fun n => truthy n = true) (map (field "course_name") (of_code dominant codes)) with
    | stamped :: _ => Ok (Some stamped)
    | [] => Ok (str_or_none (opt_str (catalog_name table tenant dominant)))
    end
  end.

Definition _course_title_from_docs (table : option (list Course)) (tenant query : pystr) (docs : list Document) : res exn pystr :=
  match find (fun name => contains name query) (catalog_names docs) with
  | Some name => Ok name
  | None =>
    let? dominant := dominant_name table tenant query docs in
    match dominant with
    | Some name => Ok name
    | None =>
      let names := stated_names docs in
      match find (fun name => contains name query) names, names, catalog_names docs with
      | Some name, _, _ => Ok name
      | None, name :: _, _ => Ok name
      | None, [], name :: _ => Ok name
      | None, [], [] =>
        if contains (u "Python入门") (join newline (map page_content docs)) then Ok (u "Python入门课") else Ok (u "相关课程")
      end
    end
  end.

(** ** Answers without the model *)

Definition plain_module (name : pystr) : CourseModule :=
  {| cm_name := name; cm_topics := []; cm_duration_hours := f_zero; cm_outcome := [] |}.

(** Stages without modules are left out. *)
Definition stages (names : list pystr) : list LearningStage :=
  filter (fun s => ls_modules s <> [])
    [{| ls_stage := u "入门"; ls_modules := take 2 names; ls_goal := u "建立语法与环境基础" |};
     {| ls_stage := u "巩固"; ls_modules := take 2 (drop 2 names); ls_goal := u "掌握常用数据结构与函数" |};
     {| ls_stage := u "实战"; ls_modules := drop 4 names; ls_goal := u "独立完成小项目" |}].

Definition _fallback_structure (table : option (list Course)) (tenant query : pystr) (docs : list Document) : res exn CourseConsultResult :=
  let joined := join (newline ++ newline) (map page_content docs) in
  let? title := _course_title_from_docs table tenant query docs in
  let names := map (fun m => u "模块" ++ opt_str (group 1 m) ++ u " " ++ group_text 2 m) (finditer MODULE_RE joined) in
  let modules := match names with [] => [u "课程模块详见知识库"] | _ => names end in
  Ok {| cr_course_name := title; cr_summary := replace_char 10 32 (take 180 joined); cr_modules := map plain_module modules;
        cr_learning_path := stages names; cr_prerequisites := []; cr_sources := sources_of docs;
        cr_evidence := build_evidence_from_docs docs |}.

Definition _retrieval_stub (docs : list Document) : CourseConsultResult :=
  let joined := join newline (map page_content docs) in
  let title := match search _COURSE_NAME_RE joined with Some m => group_text 1 m | None => [] end in
  {| cr_course_name := title; cr_summary := []; cr_modules := []; cr_learning_path := []; cr_prerequisites := [];
     cr_sources := sources_of docs; cr_evidence := build_evidence_from_docs docs |}.

(** The text of a chunk's content. *)
Definition _chunk_text (content : json) : pystr :=
  match content with
  | JStr s => s
  | JList items =>
    concat (map (fun item => match item with
                             | JStr s => s
                             | JObj fields =>
                               match obj_get (u "type") fields with
                               | JStr t => if bool_decide (t = u "text") then str_or_empty repr (obj_get (u "text") fields) else []
                               | _ => []
                               end
                             | _ => []
                             end) items)
  | _ => []
  end.
End documents.

(** ** Asking *)

(** The word indexes, the tools' cache and failure counts, the query this turn searches for
    ([_search_query_ctx]), and what was sent to the stream. *)
Record agent_world (S : Type) := {
  aw_lexical : gmap pystr (option Bm25Index);
  aw_tools : tool_world S;
  aw_query : option SearchQueryContext;
  aw_sent : list json;
}.
Arguments aw_lexical {S}.
Arguments aw_tools {S}.
Arguments aw_query {S}.
Arguments aw_sent {S}.
Arguments Build_agent_world {S}.

(** What a question comes with. *)
Record course_question := {
  cq_query : pystr;
  cq_tenant_id : option pystr;
  cq_history : list message;
  cq_last_course_query : option pystr;
  cq_last_course_name : option pystr;
  cq_session_summary : option pystr;
  cq_course_code : option pystr;
}.

Section agent.
Context `{RetrievalServices} `{CourseModel} {T S : Type} `{JsonText T} `{Validators} `{ToolCacheStore T S}.
Context (indexes : gmap pystr (list Document)) (courses : option (list Course)).
Context (settings : rag_settings) (csettings : cache_settings) (esettings : escalation_settings).
Context (tk : tokenizer) (history_settings : option (Z * Z)).
Context (rag_rewrite_enabled llm_enabled : bool).
(** [decompose_retrieval_queries], as [Query] has it. *)
Context (loads_list : pystr -> res exn (list json)) (ask_parts : Z -> pystr -> res exn json) (llm_rewrite : bool) (max_queries : Z).
Context (current_tenant current_user : pystr) (env : course_env).
(** A stream writer is there: the agent runs inside the graph. *)
Context (streaming : bool).

Abbreviation agent := (ST (agent_world S) exn).

Definition decompose : pystr -> res exn (list pystr) := decompose_retrieval_queries repr loads_list ask_parts llm_rewrite max_queries.

Definition on_tools {A} (m : ST (tool_world S) exn A) : agent A := fun w =>
  let (r, t) := m (aw_tools w) in (r, Build_agent_world (aw_lexical w) t (aw_query w) (aw_sent w)).
Definition lift {A} (r : res exn A) : agent A := fun w => (r, w).

Definition tenant_of (q : course_question) : pystr := opt_str (ostr_or (cq_tenant_id q) (Some current_tenant)).

(** [_prepare_search_query], which leaves the context variable behind. *)
Definition prepare_search (q : course_question) : agent pystr := fun w =>
  match _prepare_search_query repr loads_list ask_parts llm_rewrite max_queries courses rag_rewrite_enabled (cq_query q)
          (cq_history q) (tenant_of q) (cq_last_course_query q) (cq_last_course_name q) with
  | Ok (final, ctx) => (Ok final, Build_agent_world (aw_lexical w) (aw_tools w) (Some ctx) (aw_sent w))
  | Raise e => (Raise e, w)
  end.
Definition retrieve (q : course_question) (search_query : pystr) : agent (list Document) := fun w =>
  let (r, cache) := retrieve_course_docs tk indexes settings decompose (aw_query w) search_query 8 (tenant_of q) (cq_course_code q)
                      (aw_lexical w) in
  (r, Build_agent_world cache (aw_tools w) (aw_query w) (aw_sent w)).

(** The documents for a question. *)
Definition documents_for (q : course_question) : agent (list Document) :=
  let! search_query := prepare_search q in retrieve q search_query.

(** The model's prompt. *)
Definition user_block (q : course_question) (docs : list Document) : res exn pystr :=
  let context := join (newline ++ newline ++ u "---" ++ newline ++ newline) (map format_rag_context_chunk docs) in
  let? history_text := format_history_for_prompt tk history_settings (cq_history q) None None (cq_session_summary q) in
  let block := u "用户问题：" ++ cq_query q ++ newline ++ newline ++ u "检索结果：" ++ newline ++ context in
  Ok (if truthy history_text then u "对话历史：" ++ newline ++ history_text ++ newline ++ newline ++ block else block).

Definition fallback (q : course_question) (docs : list Document) : res exn CourseConsultResult :=
  _fallback_structure courses current_tenant (cq_query q) docs.

Definition _on_llm_failure (q : course_question) (docs : list Document) (exc : exn) : agent CourseConsultResult :=
  if negb (is_llm_degradable exc) then st_raise exc
  else
    let resource_key := normalize_course_cache_key (cq_query q) None in
    let! cached := on_tools (fun w =>
      let (cached, s) := get_cached_course csettings (ce_lookup env) (ce_session env) resource_key current_tenant current_user (tw_store w) in
      (Ok cached, with_tool_store s w)) in
    match cached with
    | Some cached => lift (annotate_stale_course (payload cached) (f_max f_zero (f_sub (wall (ce_age env)) (cached_at cached))))
    | None => do! on_tools (escalate_course esettings resource_key) in lift (fallback q docs)
    end.

(** [except Exception as exc], and the evidence of this turn's documents. *)
Definition recover (q : course_question) (docs : list Document) (exc : exn) : agent CourseConsultResult :=
  if is_Exception exc then let! result := _on_llm_failure q docs exc in st_ret (_with_evidence result docs) else st_raise exc.

Definition with_sources (sources : list pystr) (r : CourseConsultResult) : CourseConsultResult :=
  {| cr_course_name := cr_course_name r; cr_summary := cr_summary r; cr_modules := cr_modules r;
     cr_learning_path := cr_learning_path r; cr_prerequisites := cr_prerequisites r; cr_sources := sources;
     cr_evidence := cr_evidence r |}.

Definition _consult_course (q : course_question) : agent CourseConsultResult :=
  let! docs := documents_for q in
  match docs with
  | [] => st_ret _not_found_result
  | _ =>
    if negb llm_enabled then let! result := lift (fallback q docs) in st_ret (_with_evidence result docs)
    else
      let! block := lift (user_block q docs) in
      match ask_structured (get_text_prompt PROMPT_RAG_STRUCTURED RAG_STRUCTURED_SYSTEM) block with
      | Raise exc => recover q docs exc
      | Ok None => st_ret (_with_evidence (_retrieval_stub docs) docs)
      | Ok (Some result) => st_ret (_with_evidence (with_sources (sources_of docs) result) docs)
      end
  end.

(** The ReACT tool's JSON text. *)
Definition consult_course_json (query : pystr) (tenant_id : option pystr) : agent T :=
  let! result := _consult_course
    {| cq_query := query; cq_tenant_id := tenant_id; cq_history := []; cq_last_course_query := None; cq_last_course_name := None;
       cq_session_summary := None; cq_course_code := None |} in
  st_ret (dumps (JObj (course_dump result))).

(** ** Streaming *)

Definition _emit_token (content : pystr) : agent unit := fun w =>
  let masked := (mask_pii content).1 in
  (Ok tt,
   if streaming && truthy content && truthy masked then
     Build_agent_world (aw_lexical w) (aw_tools w) (aw_query w)
       (aw_sent w ++ [JObj [(u "event", JStr (u "token")); (u "content", JStr masked)]])
   else w).

(** The chunks that came, and how the stream ended; the parts of the answer. *)
Fixpoint read_chunks (parts : list pystr) (chunks : list json) : agent (list pystr) :=
  match chunks with
  | [] => st_ret parts
  | chunk :: chunks =>
    let delta := _chunk_text chunk in
    if negb (truthy delta) then read_chunks parts chunks
    else do! _emit_token delta in read_chunks (parts ++ [delta]) chunks
  end.

Definition NO_ANSWER : pystr := u "已检索到相关资料，但未能生成说明，请稍后重试。".

Definition astream_course_answer (q : course_question) : agent (pystr * CourseConsultResult) :=
  let! docs := documents_for q in
  match docs with
  | [] => st_ret (cr_summary _not_found_result, _not_found_result)
  | _ =>
    let formatted (result : CourseConsultResult) := (format_course_answer result, result) in
    if negb llm_enabled then
      let! result := lift (fallback q docs) in st_ret (formatted (_with_evidence result docs))
    else
      let structured := _with_evidence (_retrieval_stub docs) docs in
      let! block := lift (user_block q docs) in
      let (chunks, failure) := ask_stream (get_text_prompt PROMPT_RAG_MARKDOWN RAG_MARKDOWN_SYSTEM) block in
      let! parts := read_chunks [] chunks in
      match failure with
      | Some exc => let! result := recover q docs exc in st_ret (formatted result)
      | None => st_ret (str_or (strip (concat parts)) NO_ANSWER, structured)
      end
  end.
End agent.

(** ** Evidence *)

Section evidence.
Context `{RetrievalServices}.

Lemma evidence_loop_spec (seen : list (pystr * pystr)) (docs : list Document) :
  Forall (fun e => evidence_key e ∉ seen /\ exists d, d ∈ docs /\ e = evidence_of d) (evidence_loop seen docs) /\
  NoDup (map evidence_key (evidence_loop seen docs)) /\
  (forall d, d ∈ docs -> evidence_key (evidence_of d) ∈ seen ++ map evidence_key (evidence_loop seen docs)).
Proof.
  revert seen. induction docs as [|d docs IH]; intros seen; cbn [evidence_loop].
  { split_and!; [constructor|constructor|by intros d ?%elem_of_nil]. }
  cbv zeta. case_bool_decide as Hs.
  - destruct (IH seen) as (Hf & Hn & Hc). split_and!; [|done|].
    + eapply Forall_impl; [exact Hf|]. intros e (? & d' & Hd & ->). split; [done|]. exists d'. split; [by right|done].
    + intros d' [->|Hd]%elem_of_cons; [apply elem_of_app; by left|by apply Hc].
  - destruct (IH (evidence_key (evidence_of d) :: seen)) as (Hf & Hn & Hc). cbn [map]. split_and!.
    + constructor; [split; [done|]; exists d; split; [by left|done]|].
      eapply Forall_impl; [exact Hf|]. intros e (Hk & d' & Hd & ->). split; [|exists d'; split; [by right|done]].
      intros ?. apply Hk. by right.
    + constructor; [|done]. intros (e & He & Hin)%list_elem_of_fmap.
      rewrite Forall_forall in Hf. destruct (Hf _ Hin) as [Hk _]. apply Hk. rewrite <- He. by left.
    + intros d' [->|Hd]%elem_of_cons; rewrite elem_of_app, elem_of_cons; [right; left; reflexivity|].
      specialize (Hc _ Hd). rewrite elem_of_app, elem_of_cons in Hc. destruct Hc as [[->|?]|?]; [right; by left|by left|right; by right].
Qed.

Lemma excerpt_short d : length (excerpt_of d) <= 121.
Proof.
  unfold excerpt_of, _EVIDENCE_EXCERPT_CHARS. cbv zeta. destruct (120 <? _) eqn:E; [|apply Nat.ltb_ge in E; lia].
  rewrite length_app, length_take. change (length (u "…")) with 1. lia.
Qed.

(** What a reader can check of an answer's references, when it was given from these
    documents: each says where a document is from and quotes it, and no place twice. *)
Record cites (docs : list Document) (evidence : list EvidenceSection) : Prop := {
  ct_from : Forall (fun e => exists d, d ∈ docs /\ e = evidence_of d /\ length (ev_excerpt e) <= 121) evidence;
  ct_once : NoDup (map evidence_key evidence);
  ct_all : forall d, d ∈ docs -> evidence_key (evidence_of d) ∈ map evidence_key evidence;
}.

Lemma build_evidence_cites docs : cites docs (build_evidence_from_docs docs).
Proof.
  destruct (evidence_loop_spec [] docs) as (Hf & Hn & Hc). split; [|exact Hn|exact Hc].
  eapply Forall_impl; [exact Hf|]. intros e (_ & d & Hd & ->). exists d. split_and!; [done|done|apply excerpt_short].
Qed.

(** ** Answers are not blank *)

Lemma visible_app_l a b : visible a -> visible (a ++ b).
Proof. unfold visible. rewrite Exists_app. by left. Qed.
Lemma visible_join sep a l : visible a -> visible (join sep (a :: l)).
Proof. intros Ha. destruct l; [done|]. cbn [join]. by apply visible_app_l. Qed.

Lemma format_visible r : cr_modules r <> [] \/ visible (cr_summary r) -> visible (format_course_answer r).
Proof.
  intros Hr. unfold format_course_answer. destruct (cr_modules r) as [|m ms].
  - destruct Hr as [?|Hr]; [done|]. destruct (cr_evidence r); [done|by apply visible_join].
  - cbn [app]. apply visible_join, visible_app_l, visible_strip. by vm_compute.
Qed.

Lemma stale_prefix_visible age : match stale_prefix age with Ok p => visible p | Raise _ => True end.
Proof.
  unfold stale_prefix. destruct (py_int _) as [n|e]; [|done]. cbn [rbind].
  apply visible_app_l, visible_strip. by vm_compute.
Qed.
Lemma stale_visible r age r' : annotate_stale_course r age = Ok r' -> visible (cr_summary r').
Proof.
  unfold annotate_stale_course. pose proof (stale_prefix_visible age) as Hp. destruct (stale_prefix age) as [p|e]; [|done].
  cbn [rbind]. intros [= <-]. cbn [with_course_summary cr_summary]. apply visible_strip. rewrite strip_idemp.
  by apply visible_strip, visible_app_l.
Qed.

Lemma fallback_modules table tenant query docs r : _fallback_structure table tenant query docs = Ok r -> cr_modules r <> [].
Proof.
  unfold _fallback_structure. destruct (_course_title_from_docs _ _ _ _) as [t|e]; [|done]. cbn [rbind]. intros [= <-].
  cbn [cr_modules]. by destruct (map _ (finditer _ _)).
Qed.

(** ** Documents that say which course they are of *)

Definition stamped (d : Document) : Prop := is_ok (document_course_code repr d) = true.

Lemma map_res_ok {A B} (f : A -> res exn B) l : (forall x, x ∈ l -> is_ok (f x) = true) -> exists l', map_res f l = Ok l'.
Proof.
  induction l as [|x l IH]; intros Hf; cbn [map_res]; [by eexists|].
  specialize (Hf x ltac:(by left)) as Hx. destruct (f x) as [y|e]; [|done]. cbn [rbind].
  destruct IH as [ys ->]; [intros; apply Hf; by right|]. cbn. by eexists.
Qed.

Lemma map_res_spec {A B} (f : A -> res exn B) l l' : map_res f l = Ok l' -> Forall2 (fun x y => f x = Ok y) l l'.
Proof.
  revert l'. induction l as [|x l IH]; intros l'; cbn [map_res]; [intros [= <-]; constructor|].
  destruct (f x) as [y|e] eqn:E; [|done]. cbn [rbind]. intros (ys & Hys & [= <-])%rbind_ok. constructor; [done|by apply IH].
Qed.

Lemma coded_ok docs : Forall stamped docs -> exists codes, coded docs = Ok codes.
Proof.
  intros Hd. apply map_res_ok. intros d Hin. rewrite Forall_forall in Hd. specialize (Hd _ Hin). unfold stamped in Hd.
  by destruct (document_course_code _ d).
Qed.

Lemma overlap_ok query docs code : Forall stamped docs -> is_ok (_course_code_query_overlap query docs code) = true.
Proof.
  intros Hd. unfold _course_code_query_overlap. cbv zeta. destruct (filter _ _); [done|].
  by destruct (coded_ok docs Hd) as [codes ->].
Qed.

Lemma ranked_codes_ok query docs : Forall stamped docs -> exists ranked, ranked_codes query docs = Ok ranked.
Proof.
  intros Hd. unfold ranked_codes. destruct (coded_ok docs Hd) as [codes ->]. cbn [rbind].
  destruct (map_res_ok (fun '(code, n) => let? o := _course_code_query_overlap query docs code in Ok (code, n, o))
              (counter (filter (fun c => truthy c = true) codes.*1))) as [keyed ->]; [|by eexists].
  intros [code n] _. pose proof (overlap_ok query docs code Hd). by destruct (_course_code_query_overlap _ _ _).
Qed.

Lemma title_ok table tenant query docs : Forall stamped docs -> exists title, _course_title_from_docs table tenant query docs = Ok title.
Proof.
  intros Hd. unfold _course_title_from_docs. destruct (find _ _); [by eexists|]. unfold dominant_name.
  destruct (ranked_codes_ok query docs Hd) as [ranked ->]. cbn [rbind].
  assert (Hdn : forall r : res exn (option pystr), is_ok r = true -> exists o, r = Ok o) by (intros [o|e]; [by exists o|done]).
  match goal with |- context [rbind ?m _] => destruct (Hdn m) as [o ->] end.
  { destruct ranked as [|[[code n] o] ranked]; [done|]. destruct (coded_ok docs Hd) as [codes ->]. cbn [rbind].
    by destruct (filter _ _). }
  cbn [rbind]. destruct o; [by eexists|]. repeat case_match; by eexists.
Qed.

Lemma fallback_ok table tenant query docs : Forall stamped docs -> exists r, _fallback_structure table tenant query docs = Ok r.
Proof.
  intros Hd. unfold _fallback_structure. destruct (title_ok table tenant query docs Hd) as [t ->]. cbn [rbind]. by eexists.
Qed.
End evidence.

(** ** The agent *)

Section answers.
Context `{!RetrievalServices, !RetrievalLaws} `{CourseModel} {T S : Type} `{JsonText T} `{Validators} `{ToolCacheStore T S}.
Context (indexes : gmap pystr (list Document)) (courses : option (list Course)).
Context (settings : rag_settings) (csettings : cache_settings) (esettings : escalation_settings).
Context (tk : tokenizer) (history_settings : option (Z * Z)).
Context (rag_rewrite_enabled llm_enabled : bool).
Context (loads_list : pystr -> res exn (list json)) (ask_parts : Z -> pystr -> res exn json) (llm_rewrite : bool) (max_queries : Z).
Context (current_tenant current_user : pystr) (env : course_env) (streaming : bool).

Abbreviation world := (agent_world S).
Abbreviation documents_for := (documents_for (S := S) indexes courses settings tk rag_rewrite_enabled loads_list ask_parts llm_rewrite
  max_queries current_tenant).
Abbreviation user_block := (user_block tk history_settings).
Abbreviation fallback := (fallback courses current_tenant).
Abbreviation recover := (recover courses csettings esettings current_tenant current_user env).
Abbreviation consult := (_consult_course indexes courses settings csettings esettings tk history_settings rag_rewrite_enabled llm_enabled
  loads_list ask_parts llm_rewrite max_queries current_tenant current_user env).
Abbreviation stream := (astream_course_answer indexes courses settings csettings esettings tk history_settings rag_rewrite_enabled llm_enabled
  loads_list ask_parts llm_rewrite max_queries current_tenant current_user env streaming).
Abbreviation knowledge q := (in_knowledge indexes (tenant_of current_tenant q) (cq_course_code q)).

Lemma documents_spec q (w w' : world) r : settings_ok settings -> lexical_ok indexes (aw_lexical w) ->
  documents_for q w = (r, w') ->
  lexical_ok indexes (aw_lexical w') /\ aw_tools w' = aw_tools w /\ aw_sent w' = aw_sent w /\
  match r with Ok docs => Forall (knowledge q) docs | Raise _ => True end.
Proof.
  intros Hset Hok Hr. apply st_bind_inv in Hr as [(s & w1 & Hp & Hr)|(e & Hp & ->)]; unfold prepare_search in Hp.
  - destruct (_prepare_search_query _ _ _ _ _ _ _ _ _ _ _ _) as [[final ctx]|e]; [|done]. injection Hp as <- <-.
    unfold retrieve in Hr. destruct (retrieve_course_docs _ _ _ _ _ _ _ _ _ _) as [r1 cache] eqn:Ec.
    apply course_context_spec in Ec as [Hl Hd]; [|done|lia|done]. cbn [aw_lexical aw_tools aw_query aw_sent] in Hr.
    injection Hr as <- <-. split_and!; try done. destruct r1; [apply Hd|done].
  - destruct (_prepare_search_query _ _ _ _ _ _ _ _ _ _ _ _) as [[final ctx]|e']; [done|]. by injection Hp as _ <-.
Qed.

Lemma returned {W A} (a : A) (w w' : W) (r : res exn A) : st_ret a w = (r, w') -> r = Ok a /\ w' = w.
Proof. by intros [= <- <-]. Qed.

(** What a failed answer can raise. *)
Inductive failure (q : course_question) (docs : list Document) (exc : exn) : exn -> Prop :=
| F_model : is_Exception exc = false \/ is_llm_degradable exc = false -> failure q docs exc exc
| F_handed_over d : escalate d = true -> failure q docs exc (ToolEscalationError d)
| F_clock age e : stale_prefix age = Raise e -> failure q docs exc e
| F_unstamped e : fallback q docs = Raise e -> failure q docs exc e.

Lemma recover_spec q docs exc (w w' : world) r : recover q docs exc w = (r, w') ->
  aw_lexical w' = aw_lexical w /\ aw_sent w' = aw_sent w /\
  match r with
  | Ok result => cr_evidence result = build_evidence_from_docs docs /\ visible (format_course_answer result)
  | Raise e => failure q docs exc e
  end.
Proof.
  unfold recover. destruct (is_Exception exc) eqn:Hx; [|intros [= <- <-]; split_and!; [done..|by apply F_model; left]].
  unfold _on_llm_failure, st_bind, on_tools, lift, st_ret, st_raise.
  destruct (negb (is_llm_degradable exc)) eqn:Hg.
  { intros [= <- <-]. split_and!; [done..|]. apply F_model. right. by apply negb_true_iff. }
  destruct (get_cached_course _ _ _ _ _ _ _) as [[cached|] s]; cbn [aw_lexical aw_tools aw_query aw_sent].
  - destruct (annotate_stale_course _ _) as [r'|e] eqn:Ea; intros [= <- <-]; (split_and!; [done..|]).
    + apply format_visible. right. exact (stale_visible _ _ _ Ea).
    + unfold annotate_stale_course in Ea. destruct (stale_prefix _) as [p|e'] eqn:Es; [done|]. injection Ea as ->.
      by eapply F_clock.
  - unfold escalate_course. destruct (escalation_for_transient _ _ _ _) as [d t]. destruct d as [d|]; cbn [raise_if_escalated].
    1: destruct (escalate d) eqn:Hd; [intros [= <- <-]; split_and!; [done..|by apply F_handed_over]|].
    all: destruct (fallback q docs) as [r'|e] eqn:Ef; intros [= <- <-]; (split_and!; [done..|]); [|by apply F_unstamped].
    all: apply format_visible; left; exact (fallback_modules _ _ _ _ _ Ef).
Qed.

(** The chunks that say something, and the tokens sent for them. *)
Definition deltas (chunks : list json) : list pystr := filter (fun t => truthy t = true) (map _chunk_text chunks).
Definition token (content : pystr) : json := JObj [(u "event", JStr (u "token")); (u "content", JStr content)].
Definition tokens (chunks : list json) : list json :=
  map token (filter (fun t => truthy t = true) (map (fun t => (mask_pii t).1) (deltas chunks))).

Lemma read_chunks_spec parts chunks (w : world) : exists w',
  read_chunks streaming parts chunks w = (Ok (parts ++ deltas chunks), w') /\
  aw_lexical w' = aw_lexical w /\ aw_tools w' = aw_tools w /\
  aw_sent w' = aw_sent w ++ (if streaming then tokens chunks else []).
Proof.
  revert parts w. unfold tokens, deltas. induction chunks as [|c chunks IH]; intros parts w; cbn [read_chunks map].
  { exists w. rewrite !filter_nil. cbn [map]. rewrite !app_nil_r. by destruct streaming; rewrite ?app_nil_r. }
  cbv zeta. rewrite filter_cons. destruct (truthy (_chunk_text c)) eqn:Ec; cbn [negb].
  - rewrite decide_True by done. unfold st_bind, _emit_token. cbn [map]. rewrite Ec, andb_true_r, filter_cons.
    match goal with |- context [read_chunks streaming _ chunks ?w0] => destruct (IH (parts ++ [_chunk_text c]) w0) as (w' & -> & Hl & Ht & Hs) end.
    exists w'. rewrite <- app_assoc. split; [done|]. rewrite Hl, Ht, Hs.
    destruct streaming; cbn [andb]; [|by rewrite app_nil_r].
    destruct (truthy (mask_pii (_chunk_text c)).1) eqn:Em.
    + rewrite decide_True by done. cbn [aw_lexical aw_tools aw_sent map]. by rewrite <- app_assoc.
    + done.
  - apply IH.
Qed.

(** What an answer stands on. *)
Definition grounded (q : course_question) (result : CourseConsultResult) : Prop :=
  result = _not_found_result \/
  exists docs, docs <> [] /\ Forall (knowledge q) docs /\ cites docs (cr_evidence result).

Lemma grounded_with docs q result : docs <> [] -> Forall (knowledge q) docs ->
  cr_evidence result = build_evidence_from_docs docs -> grounded q result.
Proof. intros Hd Hk He. right. exists docs. split_and!; [done|done|]. rewrite He. apply build_evidence_cites. Qed.

(** How a question can fail: in preparing and searching, in counting the history's tokens,
    or as [failure] says behind the model. *)
Inductive fails (q : course_question) (w : world) : exn -> Prop :=
| In_search e : (documents_for q w).1 = Raise e -> fails q w e
| In_history docs e : user_block q docs = Raise e -> fails q w e
| In_fallback docs e : Forall (knowledge q) docs -> fallback q docs = Raise e -> fails q w e
| In_model docs exc e : Forall (knowledge q) docs -> llm_enabled = true -> failure q docs exc e -> fails q w e.

Lemma consult_spec q (w w' : world) r : settings_ok settings -> lexical_ok indexes (aw_lexical w) -> consult q w = (r, w') ->
  lexical_ok indexes (aw_lexical w') /\ aw_sent w' = aw_sent w /\
  match r with Ok result => grounded q result | Raise e => fails q w e end.
Proof.
  intros Hset Hok. unfold _consult_course. intros [(docs & w1 & Hd & Hr)|(e & Hd & ->)]%st_bind_inv.
  2:{ destruct (documents_spec _ _ _ _ Hset Hok Hd) as (? & _ & ? & _). split_and!; [done..|]. apply In_search. by rewrite Hd. }
  destruct (documents_spec _ _ _ _ Hset Hok Hd) as (Hl & _ & Hs & Hk). destruct docs as [|d docs].
  { apply returned in Hr as [-> ->]. split_and!; [exact Hl|exact Hs|by left]. }
  set (ds := d :: docs) in *. assert (Hds : ds <> []) by done. revert Hr.
  destruct llm_enabled eqn:El; cbn [negb]; unfold st_bind, lift, st_ret.
  - destruct (user_block q ds) as [block|e] eqn:Eb; [|intros [= <- <-]; split_and!; [done..|by eapply In_history]].
    destruct (ask_structured _ block) as [[result|]|exc].
    1,2: intros [= <- <-]; split_and!; [done..|]; by eapply grounded_with.
    intros Hr. destruct (recover_spec _ _ _ _ _ _ Hr) as (-> & -> & Hx). split_and!; [done..|].
    destruct r as [result|e]; [eapply grounded_with; [done..|apply Hx]|by eapply In_model].
  - destruct (fallback q ds) as [result|e] eqn:Ef; intros [= <- <-]; (split_and!; [done..|]).
    + by eapply grounded_with.
    + by eapply In_fallback.
Qed.

Lemma not_found_visible : visible (cr_summary _not_found_result).
Proof. apply visible_strip. by vm_compute. Qed.

Lemma no_answer_visible parts : visible (str_or (strip (concat parts)) NO_ANSWER).
Proof.
  unfold str_or. destruct (truthy (strip _)) eqn:E; [by apply visible_strip; rewrite strip_idemp|].
  apply visible_strip. by vm_compute.
Qed.

Lemma stream_spec q (w w' : world) r : settings_ok settings -> lexical_ok indexes (aw_lexical w) -> stream q w = (r, w') ->
  lexical_ok indexes (aw_lexical w') /\
  (exists chunks, aw_sent w' = aw_sent w ++ (if streaming then tokens chunks else [])) /\
  match r with Ok (answer, result) => visible answer /\ grounded q result | Raise e => fails q w e end.
Proof.
  intros Hset Hok. unfold astream_course_answer. intros [(docs & w1 & Hd & Hr)|(e & Hd & ->)]%st_bind_inv.
  2:{ destruct (documents_spec _ _ _ _ Hset Hok Hd) as (? & _ & Hs & _). split_and!; [done| |apply In_search; by rewrite Hd].
      exists []. rewrite Hs. destruct streaming; by rewrite app_nil_r. }
  destruct (documents_spec _ _ _ _ Hset Hok Hd) as (Hl & _ & Hs & Hk).
  assert (Hnone : exists chunks, aw_sent w1 = aw_sent w ++ (if streaming then tokens chunks else [])).
  { exists []. rewrite Hs. destruct streaming; by rewrite app_nil_r. }
  destruct docs as [|d docs].
  { apply returned in Hr as [-> ->]. split_and!; [exact Hl|exact Hnone|apply not_found_visible|by left]. }
  set (ds := d :: docs) in *. assert (Hds : ds <> []) by done. revert Hr.
  destruct llm_enabled eqn:El; cbn [negb].
  - cbv zeta. unfold st_bind at 1, lift. destruct (user_block q ds) as [block|e] eqn:Eb; [|intros [= <- <-]; split_and!; [done..|by eapply In_history]].
    destruct (ask_stream _ block) as [chunks ended]. destruct (read_chunks_spec [] chunks w1) as (w2 & Hw2 & Hl2 & _ & Hs2).
    rewrite Hs in Hs2. unfold st_bind at 1. rewrite Hw2. destruct ended as [exc|].
    + intros [(result & w3 & Hrec & Hr)|(e & Hrec & ->)]%st_bind_inv; apply recover_spec in Hrec as (Hl3 & Hs3 & Hx).
      * apply returned in Hr as [-> ->]. rewrite Hl3, Hs3, Hl2, Hs2. destruct Hx as [He Hv].
        split_and!; [done|by eexists|done|by eapply grounded_with].
      * rewrite Hl3, Hs3, Hl2, Hs2. split_and!; [done|by eexists|by eapply In_model].
    + intros [-> ->]%returned. rewrite Hl2, Hs2. split_and!; [done|by eexists|apply no_answer_visible|by eapply grounded_with].
  - unfold st_bind, lift, st_ret. destruct (fallback q ds) as [result|e] eqn:Ef; intros [= <- <-].
    + split_and!; [done|done|apply format_visible; left; exact (fallback_modules _ _ _ _ _ Ef)|by eapply grounded_with].
    + split_and!; [done|done|by eapply In_fallback].
Qed.


Definition all_stamped : Prop := forall scope store d, indexes !! scope = Some store -> d ∈ store -> stamped d.

Lemma fallback_total q docs e : all_stamped -> Forall (knowledge q) docs -> fallback q docs <> Raise e.
Proof.
  intros Hall Hk. destruct (fallback_ok courses current_tenant (cq_query q) docs) as [r Hr].
  - eapply Forall_impl; [exact Hk|]. intros d (scope & store & _ & Hi & Hd & _). by eapply Hall.
  - unfold CourseAgent.fallback. by rewrite Hr.
Qed.

(** A failing model does not fail the customer.  When every document says which course it
    is of, a question fails only while it is prepared and searched, or the history's tokens
    are counted, or, behind that, with a cancellation, with the tenant's quota, by handing
    over to a human, or because a cached answer's age is no number. *)
Theorem course_question_fails_only (q : course_question) (w : agent_world S) (e : exn) :
  settings_ok settings -> lexical_ok indexes (aw_lexical w) -> all_stamped ->
  (stream q w).1 = Raise e \/ (consult q w).1 = Raise e ->
  (documents_for q w).1 = Raise e \/ (exists docs, user_block q docs = Raise e) \/
  (llm_enabled = true /\
   (is_Exception e = false \/ is_llm_degradable e = false \/ (exists d, e = ToolEscalationError d /\ escalate d = true) \/
    exists age, stale_prefix age = Raise e)).
Proof.
  intros Hset Hok Hall Hr. assert (Hf : fails q w e).
  { destruct Hr as [Hr|Hr].
    - destruct (stream q w) as [r w'] eqn:Er. cbn in Hr. subst r. exact (proj2 (proj2 (stream_spec _ _ _ _ Hset Hok Er))).
    - destruct (consult q w) as [r w'] eqn:Er. cbn in Hr. subst r. exact (proj2 (proj2 (consult_spec _ _ _ _ Hset Hok Er))). }
  destruct Hf as [e ?|docs e ?|docs e Hk Hx|docs exc e Hk Hm Hx]; [by left|right; left; by exists docs|by destruct (fallback_total q docs e)|].
  right; right. split; [done|].
  destruct Hx as [[?|?]|d Hd|age e Ha|e Hx]; [by left|by right; left| | |by destruct (fallback_total q docs e)].
  - right; right; left. by exists d.
  - right; right; right. by exists age.
Qed.

Lemma format_not_found : format_course_answer _not_found_result = cr_summary _not_found_result.
Proof. reflexivity. Qed.

(** Without the model the graph's course node answers exactly what the tools are told: the
    text is the result of the other entry point, rendered, and both leave the same state. *)
Theorem offline_paths_agree (q : course_question) (w : agent_world S) : llm_enabled = false ->
  stream q w = (match (consult q w).1 with Ok result => Ok (format_course_answer result, result) | Raise e => Raise e end,
                (consult q w).2).
Proof.
  intros ->. unfold astream_course_answer, _consult_course, st_bind, lift, st_ret.
  destruct (documents_for q w) as [[[|d docs]|e] w1]; cbn [fst snd negb]; [by rewrite format_not_found| |reflexivity].
  destruct (fallback q (d :: docs)); reflexivity.
Qed.

(** When the model's stream ends well, the answer is what its chunks say, and each chunk was
    sent as it came, masked by itself. *)
Lemma stream_tokens q (w w1 : agent_world S) d docs block chunks :
  documents_for q w = (Ok (d :: docs), w1) -> llm_enabled = true -> user_block q (d :: docs) = Ok block ->
  ask_stream (get_text_prompt PROMPT_RAG_MARKDOWN RAG_MARKDOWN_SYSTEM) block = (chunks, None) ->
  exists w' result, stream q w = (Ok (str_or (strip (concat (deltas chunks))) NO_ANSWER, result), w') /\
    aw_sent w' = aw_sent w1 ++ (if streaming then tokens chunks else []).
Proof.
  intros Hd Hl Hb Ha. unfold astream_course_answer. rewrite Hl. cbn [negb]. rewrite (st_bind_ok _ _ _ _ _ Hd).
  unfold st_bind, lift. rewrite Hb, Ha. destruct (read_chunks_spec [] chunks w1) as (w2 & -> & _ & _ & Hs). cbn [app] in *.
  exists w2. by eexists.
Qed.
End answers.

(** ** Titles *)

Section titles.
Context `{RetrievalServices}.

Definition occurrences (code : pystr) (codes : list pystr) : Z := Z.of_nat (length (filter (fun c => c = code) codes)).

Lemma counter_spec codes code :
  default 0%Z (dget code (counter codes)) = occurrences code codes /\ (code ∈ (counter codes).*1 <-> code ∈ codes).
Proof.
  unfold counter, occurrences. induction codes as [|c codes [IHd IHk]] using rev_ind.
  { split; [done|]. cbn. by rewrite elem_of_nil. }
  rewrite foldl_app. cbn [foldl]. rewrite filter_app, length_app, dget_dset, elem_of_dset_keys, IHk, elem_of_app, list_elem_of_singleton.
  split; [|tauto]. rewrite filter_cons. destruct (decide (c = code)) as [->|Hc].
  all: rewrite IHd; cbn; lia.
Qed.

Lemma NoDup_counter codes : NoDup (counter codes).*1.
Proof.
  unfold counter. assert (H0 : forall acc : list (pystr * Z), NoDup acc.*1 ->
    NoDup (foldl (fun counts code => dset code (default 0 (dget code counts) + 1)%Z counts) acc codes).*1); [|by apply H0, NoDup_nil].
  induction codes as [|c codes IH]; intros acc Ha; [done|]. cbn [foldl]. by apply IH, NoDup_dset.
Qed.

Lemma code_lt_asym a b : code_lt a b = true -> code_lt b a = false.
Proof. unfold code_lt. destruct a as [[a n] x], b as [[b m] y]. cbn. lia. Qed.
Lemma code_lt_negtrans a b c : code_lt b a = false -> code_lt c b = false -> code_lt c a = false.
Proof. unfold code_lt. destruct a as [[a n] x], b as [[b m] y], c as [[c k] z]. cbn. lia. Qed.

Lemma ranked_codes_spec query docs codes ranked : coded docs = Ok codes -> ranked_codes query docs = Ok ranked ->
  in_order code_lt ranked /\
  (forall code n o, (code, n, o) ∈ ranked ->
     code ∈ codes.*1 /\ truthy code = true /\ n = occurrences code codes.*1 /\ _course_code_query_overlap query docs code = Ok o) /\
  (forall code, code ∈ codes.*1 -> truthy code = true -> exists n o, (code, n, o) ∈ ranked).
Proof.
  intros Hc. unfold ranked_codes. rewrite Hc. cbn [rbind]. cbv zeta. set (named := filter _ _).
  assert (Hnamed : forall code, code ∈ named <-> code ∈ codes.*1 /\ truthy code = true).
  { intros code. subst named. rewrite list_elem_of_filter. tauto. }
  assert (Hocc : forall code, truthy code = true -> occurrences code named = occurrences code codes.*1).
  { intros code Ht. unfold occurrences, named. rewrite list_filter_filter. do 2 f_equal. apply list_filter_iff. intros c. naive_solver. }
  intros (keyed & Hk & [= <-])%rbind_ok. apply map_res_spec in Hk.
  assert (Hin : forall code n o, (code, n, o) ∈ keyed <->
    (code, n) ∈ counter named /\ _course_code_query_overlap query docs code = Ok o).
  { intros code n o. split.
    - intros (i & Hi)%list_elem_of_lookup. destruct (Forall2_lookup_r _ _ _ _ _ Hk Hi) as ([code' n'] & Hi' & Ho).
      apply rbind_ok in Ho as (o' & Ho & [= -> -> ->]). split; [by eapply list_elem_of_lookup_2|done].
    - intros [Hi Ho]. apply list_elem_of_lookup in Hi as (i & Hi). destruct (Forall2_lookup_l _ _ _ _ _ Hk Hi) as (y & Hy & Hf).
      rewrite Ho in Hf. injection Hf as <-. by eapply list_elem_of_lookup_2. }
  assert (Hcount : forall code n, (code, n) ∈ counter named <-> code ∈ named /\ n = occurrences code named).
  { intros code n. destruct (counter_spec named code) as [Hd He].
    pose proof (NoDup_counter named) as Hnd.
    split.
    - intros Hi. rewrite (elem_dget _ _ _ Hnd Hi) in Hd. cbn in Hd. split; [|done]. apply He. apply list_elem_of_fmap. by exists (code, n).
    - intros [Hi ->]. apply He, dget_is_Some in Hi as [m Hm]. rewrite Hm in Hd. cbn in Hd. subst m. by apply dget_Some_elem. }
  split_and!.
  - apply (py_sorted_order _ (fun _ => True)); [|intros; by eapply code_lt_negtrans|by apply Forall_true]. intros; by apply code_lt_asym.
  - intros code n o. rewrite elem_of_py_sorted, Hin, Hcount, Hnamed. intros [[[Hi Ht] ->] Ho]. by rewrite Hocc.
  - intros code Hi Ht. assert (Hcn : (code, occurrences code named) ∈ counter named) by (apply Hcount; split; [by apply Hnamed|done]).
    pose proof Hcn as (i & Hl)%list_elem_of_lookup. destruct (Forall2_lookup_l _ _ _ _ _ Hk Hl) as (y & _ & Hf).
    destruct (_course_code_query_overlap query docs code) as [o|] eqn:Ho; [|done]. exists (occurrences code named), o.
    by rewrite elem_of_py_sorted, Hin.
Qed.
Lemma uniq_elem seen l x : x ∈ uniq seen l <-> x ∈ l /\ x ∉ seen.
Proof.
  revert seen. induction l as [|y l IH]; intros seen; cbn [uniq]; [by rewrite !elem_of_nil; tauto|].
  case_bool_decide as Hy; rewrite ?elem_of_cons, IH, ?not_elem_of_cons.
  - split; [tauto|]. intros [[->|?] ?]; tauto.
  - split; [|destruct (decide (x = y)); tauto]. intros [->|(? & ? & ?)]; tauto.
Qed.

Lemma catalog_names_elem docs name : name ∈ catalog_names docs <-> truthy name = true /\ exists d, d ∈ docs /\ name = field "course_name" d.
Proof.
  unfold catalog_names. rewrite uniq_elem, list_elem_of_filter, list_elem_of_fmap.
  split; [intros [[? (d & -> & ?)] _]; eauto|]. intros [? (d & ? & ->)]. split; [eauto|apply not_elem_of_nil].
Qed.

Lemma coded_elem docs codes code d : coded docs = Ok codes -> (code, d) ∈ codes -> d ∈ docs /\ document_course_code repr d = Ok code.
Proof.
  intros Hc (i & Hi)%list_elem_of_lookup. apply map_res_spec in Hc. destruct (Forall2_lookup_r _ _ _ _ _ Hc Hi) as (d' & Hd & Hf).
  apply rbind_ok in Hf as (code' & Hcode & [= -> ->]). split; [by eapply list_elem_of_lookup_2|done].
Qed.

(** What an answer put together by rules calls the course.  A name the documents carry and
    the question mentions wins.  Otherwise, when documents that know their course also know
    its name, it is the name on a document of the course that most of the documents belong
    to, and among equals of one whose documents share the most words with the question. *)
Theorem title_names_the_course (table : option (list Course)) (tenant query : pystr) (docs : list Document)
    (codes : list (pystr * Document)) (title : pystr) :
  coded docs = Ok codes -> _course_title_from_docs table tenant query docs = Ok title ->
  ((exists name, name ∈ catalog_names docs /\ contains name query = true) ->
     title ∈ catalog_names docs /\ contains title query = true) /\
  ((forall name, name ∈ catalog_names docs -> contains name query = false) ->
   (forall code d, (code, d) ∈ codes -> truthy code = true -> truthy (field "course_name" d) = true) ->
   (exists code, code ∈ codes.*1 /\ truthy code = true) ->
   exists code d overlap, (code, d) ∈ codes /\ truthy code = true /\ title = field "course_name" d /\
     _course_code_query_overlap query docs code = Ok overlap /\
     forall other overlap', other ∈ codes.*1 -> truthy other = true -> _course_code_query_overlap query docs other = Ok overlap' ->
       (occurrences other codes.*1 <= occurrences code codes.*1)%Z /\
       (occurrences other codes.*1 = occurrences code codes.*1 -> (overlap' <= overlap)%Z)).
Proof.
  intros Hc. unfold _course_title_from_docs. destruct (find _ _) as [name|] eqn:Ef.
  { apply find_some in Ef as [Hin Hq]. intros [= <-]. split; [split; [by apply list_elem_of_In|done]|].
    intros Hno. apply list_elem_of_In, Hno in Hin. congruence. }
  intros Ht. split.
  { intros (name & Hin & Hq). apply list_elem_of_In in Hin. by rewrite (find_none _ _ Ef _ Hin) in Hq. }
  intros _ Hnamed (code0 & Hin0 & Ht0). unfold dominant_name in Ht.
  destruct (ranked_codes query docs) as [ranked|e] eqn:Er; [|done]. cbn [rbind] in Ht.
  destruct (ranked_codes_spec _ _ _ _ Hc Er) as (Hord & Hval & Hall).
  destruct ranked as [|[[code n] o] ranked].
  { destruct (Hall _ Hin0 Ht0) as (? & ? & []%elem_of_nil). }
  rewrite Hc in Ht. cbn [rbind] in Ht.
  destruct (Hval code n o ltac:(by left)) as (Hcode & Htc & -> & Ho).
  assert (Hsome : exists d, (code, d) ∈ codes).
  { apply list_elem_of_fmap in Hcode as ([code' d] & -> & ?). by exists d. }
  destruct (filter _ (map _ (of_code code codes))) as [|stamped rest] eqn:Es.
  { destruct Hsome as (d & Hd). exfalso. apply (not_elem_of_nil (field "course_name" d)). rewrite <- Es. apply list_elem_of_filter.
    split; [by eapply Hnamed|]. apply list_elem_of_fmap. exists d. split; [done|]. unfold of_code. apply list_elem_of_fmap.
    exists (code, d). split; [done|]. by apply list_elem_of_filter. }
  cbn [rbind] in Ht. injection Ht as <-.
  assert (Hst : stamped ∈ filter (fun n => truthy n = true) (map (field "course_name") (of_code code codes))) by (rewrite Es; by left).
  apply list_elem_of_filter in Hst as [_ Hst]. apply list_elem_of_fmap in Hst as (d & -> & Hd).
  unfold of_code in Hd. apply list_elem_of_fmap in Hd as ([code' d'] & -> & Hd). apply list_elem_of_filter in Hd as [Heq Hd]. cbn in Heq. subst code'.
  exists code, d', o. split_and!; [done..|]. intros other o' Hin Hto Hov. destruct (Hall _ Hin Hto) as (m & p & Hp).
  destruct (Hval _ _ _ Hp) as (_ & _ & -> & Hp'). rewrite Hov in Hp'. injection Hp' as <-.
  rewrite elem_of_cons in Hp. destruct Hp as [Heq|Hp]; [injection Heq; intros; subst; lia|].
  apply list_elem_of_lookup in Hp as (i & Hi). specialize (Hord 0 (S i) (code, _, o) (other, _, o') ltac:(lia) eq_refl Hi).
  unfold code_lt in Hord. cbn in Hord. lia.
Qed.
End titles.

(** ** Examples *)

Module Demo.
Import Retrieval.Demo.
Definition tk : tokenizer := {| tk_encode := None; tk_ratio := f_one |}.
Definition model (structured : res exn (option CourseConsultResult)) (chunks : list json) (ended : option exn) : CourseModel :=
  {| langfuse_prompt _ := None; ask_structured _ _ := structured; ask_stream _ _ := (chunks, ended) |}.
Definition env : course_env :=
  {| ce_lookup := ToolCache.Demo.at_ 1300; ce_age := ToolCache.Demo.at_ 1300; ce_end := ToolCache.Demo.at_ 1300; ce_session := _EMPTY_SESSION |}.
Definition esettings : escalation_settings :=
  {| tool_escalation_enabled := true; tool_escalation_transient_threshold := 2 |}.
Definition question (query : pystr) (code : option pystr) : course_question :=
  {| cq_query := query; cq_tenant_id := Some (u "demo"); cq_history := []; cq_last_course_query := None; cq_last_course_name := None;
     cq_session_summary := None; cq_course_code := code |}.
Abbreviation store := ToolCache.Demo.store.
Definition world (s : store) : agent_world store := Build_agent_world ∅ (Build_tool_world s (Some ∅)) None [].

Definition run_stream (m : CourseModel) (llm_enabled : bool) (q : course_question) (s : store) :=
  astream_course_answer (H := services) (H0 := m) (T := json) indexes None settings ToolCache.Demo.settings esettings tk None true llm_enabled
    (fun _ => Ok []) (fun _ _ => Ok JNull) false 3 (u "demo") (u "alice") env true q (world s).
Definition run_consult (m : CourseModel) (llm_enabled : bool) (q : course_question) (s : store) :=
  _consult_course (H := services) (H0 := m) (T := json) indexes None settings ToolCache.Demo.settings esettings tk None true llm_enabled
    (fun _ => Ok []) (fun _ _ => Ok JNull) false 3 (u "demo") (u "alice") env q (world s).

Definition sent_text (w : agent_world store) : pystr :=
  concat (map (fun p => match p with JObj fields => json_str (obj_get (u "content") fields) | _ => [] end) (aw_sent w)).

(** Each chunk is masked by itself: a phone number that comes in two chunks reaches the
    customer whole, while the answer as a whole would be masked. *)
Example split_number_leaks :
  let split := model (Ok None) [JStr (u "变量一节，老师电话 1381234"); JStr (u "5678")] None in
  let '(r, w) := run_stream split true (question (u "变量 是什么") None) ∅ in
  match r with
  | Ok (answer, _) => contains (u "13812345678") (sent_text w) = true /\ contains (u "13812345678") (mask_pii answer).1 = false
  | Raise _ => False
  end.
Proof. vm_compute. split; reflexivity. Qed.

(** The answer kept for a question asked without a course stands in for the same question
    about another course. *)
Example another_courses_answer :
  let down := model (Raise (TimeoutError [])) [] None in
  let kept := put_cached_course (T := json) (S := store) ToolCache.Demo.settings (ToolCache.Demo.at_ 1000) ToolCache.Demo.course
                (normalize_course_cache_key (u "变量 是什么") None) (u "demo") (u "alice") ∅ in
  (let? r := (run_consult down true (question (u "变量 是什么") (Some (u "python"))) kept).1 in Ok (cr_course_name r)) = Ok (u "Python入门课") /\
  (let? r := (run_consult down true (question (u "变量 是什么") (Some (u "python"))) ∅).1 in Ok (cr_course_name r, cr_sources r)) =
    Ok (u "相关课程", [u "python.md"]).
Proof. vm_compute. split; reflexivity. Qed.
End Demo.

Lemma demo_settings_ok : settings_ok Retrieval.Demo.settings.
Proof. split; vm_compute; done. Qed.
Lemma demo_lexical_ok : lexical_ok (H := Retrieval.Demo.services) Retrieval.Demo.indexes ∅.
Proof. intros s i Hi. by rewrite lookup_empty in Hi. Qed.

Module Asked.
Definition q : course_question := Demo.question (u "变量 是什么") (Some (u "python")).
Definition answering : CourseModel := Demo.model (Ok None) [JStr (u "变量是名字。")] None.
Definition quota : exn := TenantQuotaExceededError (u "demo") 10 10.
Definition exhausted : CourseModel := Demo.model (Raise quota) [] None.
End Asked.


Lemma demo_all_stamped : all_stamped (H := Retrieval.Demo.services) Retrieval.Demo.indexes.
Proof.
  assert (Hb : map_Forall (fun _ store => Forall (fun d => is_ok (document_course_code (fun _ => []) d) = true) store) Retrieval.Demo.indexes)
    by (apply (bool_decide_eq_true_1 _); vm_compute; reflexivity).
  intros scope store d Hs Hd. specialize (Hb _ _ Hs). cbn in Hb. rewrite Forall_forall in Hb. exact (Hb _ Hd).
Qed.

Lemma course_question_fails_only_witness :
  let e := Asked.quota in
  (Demo.run_consult Asked.exhausted true Asked.q ∅).1 = Raise e /\
  ((documents_for (H := Retrieval.Demo.services) Retrieval.Demo.indexes None Retrieval.Demo.settings Demo.tk true (fun _ => Ok []) (fun _ _ => Ok JNull)
      false 3 (u "demo") Asked.q (Demo.world ∅)).1 = Raise e \/
   (exists docs, user_block (H := Retrieval.Demo.services) Demo.tk None Asked.q docs = Raise e) \/
   (true = true /\ (is_Exception e = false \/ is_llm_degradable e = false \/ (exists d, e = ToolEscalationError d /\ escalate d = true) \/
    exists age, stale_prefix age = Raise e))).
Proof.
  cbv zeta. assert (Hr : (Demo.run_consult Asked.exhausted true Asked.q ∅).1 = Raise Asked.quota) by (vm_compute; reflexivity). split; [exact Hr|].
  pose proof (course_question_fails_only (H := Retrieval.Demo.services) (H0 := Retrieval.Demo.laws) (H1 := Asked.exhausted) (T := json) (S := Demo.store) Retrieval.Demo.indexes None
    Retrieval.Demo.settings ToolCache.Demo.settings Demo.esettings Demo.tk None true true (fun _ => Ok []) (fun _ _ => Ok JNull) false 3
    (u "demo") (u "alice") Demo.env true Asked.q (Demo.world ∅) Asked.quota demo_settings_ok demo_lexical_ok demo_all_stamped) as Hf.
  fold (Demo.run_consult Asked.exhausted true Asked.q ∅) in Hf. exact (Hf (or_intror Hr)).
Defined.

Lemma offline_paths_agree_witness :
  is_ok (Demo.run_consult Asked.answering false Asked.q ∅).1 = true /\
  Demo.run_stream Asked.answering false Asked.q ∅ =
    (match (Demo.run_consult Asked.answering false Asked.q ∅).1 with Ok result => Ok (format_course_answer result, result) | Raise e => Raise e end,
     (Demo.run_consult Asked.answering false Asked.q ∅).2).
Proof.
  split; [vm_compute; reflexivity|].
  exact (offline_paths_agree (H := Retrieval.Demo.services) (H1 := Asked.answering) (T := json) (S := Demo.store) Retrieval.Demo.indexes None
    Retrieval.Demo.settings ToolCache.Demo.settings Demo.esettings Demo.tk None true false (fun _ => Ok []) (fun _ _ => Ok JNull) false 3
    (u "demo") (u "alice") Demo.env true Asked.q (Demo.world ∅) eq_refl).
Defined.

Module Titles.
Definition named (n : Z) (code name text : pystr) : Document :=
  {| doc_ref := n; page_content := text; metadata := mkdict [(u "course_code", JStr code); (u "course_name", JStr name)] |}.
Definition docs : list Document :=
  [named 1 (u "ml") (u "机器学习") (u "梯度"); named 2 (u "py") (u "Python入门") (u "变量"); named 3 (u "py") (u "Python入门") (u "函数")].
Definition codes : list (pystr * Document) := map (fun d => (json_str (meta (u "course_code") d), d)) docs.
End Titles.

Lemma title_names_the_course_witness :
  _course_title_from_docs (H := Retrieval.Demo.services) None (u "demo") (u "这门课讲什么") Titles.docs = Ok (u "Python入门") /\
  exists code d overlap, (code, d) ∈ Titles.codes /\ truthy code = true /\
    u "Python入门" = field (H := Retrieval.Demo.services) "course_name" d /\
    _course_code_query_overlap (H := Retrieval.Demo.services) (u "这门课讲什么") Titles.docs code = Ok overlap.
Proof.
  assert (Ht : _course_title_from_docs (H := Retrieval.Demo.services) None (u "demo") (u "这门课讲什么") Titles.docs = Ok (u "Python入门"))
    by (vm_compute; reflexivity).
  split; [exact Ht|].
  assert (Hcodes : coded (H := Retrieval.Demo.services) Titles.docs = Ok Titles.codes) by (vm_compute; reflexivity).
  destruct (proj2 (title_names_the_course (H := Retrieval.Demo.services) None (u "demo") (u "这门课讲什么") Titles.docs Titles.codes (u "Python入门") Hcodes Ht))
    as (code & d & o & Hin & Hc & He & Ho & _).
  - apply Forall_forall, (bool_decide_eq_true_1 _). vm_compute. reflexivity.
  - intros code d Hin _. revert d Hin. intros d Hin. change d with (code, d).2. revert Hin. generalize (code, d). apply Forall_forall, (bool_decide_eq_true_1 _).
    vm_compute. reflexivity.
  - exists (u "py"). split; [|vm_compute; reflexivity]. apply (bool_decide_eq_true_1 (u "py" ∈ Titles.codes.*1)). vm_compute. reflexivity.
  - exists code, d, o. split; [exact Hin|]. split; [exact Hc|]. split; [exact He|exact Ho].
Defined.
