(* ===== verification/Ingest.v ===== *)
(** * The index of the knowledge base ([app/rag/vectorstore.py], loading, generations, ingest)

    A process keeps the tenants' indexes in memory, with the generation they were read at;
    the disk keeps them for all processes.  Ingest brings the index to what the knowledge
    directory holds now: changed files are added, their old slices marked deleted. *)

From stdpp Require Import base list gmap strings.
From Stdlib Require Import Floats.SpecFloat.
From S2P Require Import Prelude PyText PyFloat PySort PyDict Errors Json Orders ToolCache CourseCapability Query Documents Retrieval RagContext Chunking CourseAgent.
Open Scope py_scope.

(** A tenant's index, the documents it holds in order; and the indexes by tenant. *)
Abbreviation store := (list Document).
Abbreviation stores := (list (pystr * list Document)).
(** As [Retrieval] reads them. *)
Definition indexes_of (s : stores) : gmap pystr (list Document) := list_to_map s.

Record md_file := { mf_name : pystr; mf_raw : list N }.
(** [data/knowledge]: its files, and its directories with theirs. *)
Record knowledge_dir := { kd_files : list md_file; kd_subdirs : list (pystr * list md_file) }.

Record EmbeddingSpec := { es_backend : pystr; es_model : pystr; es_dim : Z }.

(** A file that is there: its JSON object, when it can be read, and its time in ns. *)
Record json_file := { jf_payload : option dict; jf_mtime : Z }.
(** The index directory: the tenants' directories, the index at its root of older versions,
    the dimension of the first index file, and the two small files. *)
Record disk := {
  dk_stores : stores;
  dk_legacy : option store;
  dk_dim : Z;
  dk_embedding : option json_file;
  dk_generation : option json_file;
}.
(** The module's variables; and the number of the next object. *)
Record process := {
  pr_indexes : option stores;
  pr_pinned : bool;
  pr_revision : option pystr;
  pr_lexical : gmap pystr (option Bm25Index);
  pr_next : Z;
}.
Record index_world := { iw_disk : disk; iw_process : process }.

Definition MISMATCH : pystr := u "EmbeddingIndexMismatchError".
Definition UNAVAILABLE : pystr := u "IndexUnavailableError".
Definition is_mismatch (e : exn) : bool := match e with OtherExc name _ => bool_decide (name = MISMATCH) | _ => false end.

Definition int_of_json (v : json) : res exn Z :=
  match v with
  | JInt n => Ok n
  | JBool b => Ok (if b then 1 else 0)%Z
  | JFloat x => py_int x
  | JStr s => match int_of_str s with Some n => Ok n | None => Raise (ValueError (u "invalid literal for int()")) end
  | _ => Raise (OtherExc (u "TypeError") [])
  end.

Section ingest.
Context `{RetrievalServices}.
Context (markdown_split : pystr -> list (pystr * dict)) (fallback_split child_split : pystr -> list pystr).
Context (sha256 : list N -> pystr).
(** The course table, the default tenant, and what the configured embedding is. *)
Context (courses : option (list Course)) (default_tenant : pystr) (spec : EmbeddingSpec).
(** How embedding these documents, and saving a tenant's index, fail, when they do. *)
Context (embed_fails : list Document -> option exn) (save_fails : pystr -> option exn).
(** [time.time_ns()], and the time files written now get. *)
Context (now_ns : Z).

Abbreviation act := (ST index_world exn).
Definition on_disk (f : disk -> disk) : act unit := st_modify (fun w => {| iw_disk := f (iw_disk w); iw_process := iw_process w |}).
Definition on_process (f : process -> process) : act unit := st_modify (fun w => {| iw_disk := iw_disk w; iw_process := f (iw_process w) |}).
Definition lift_res {A} (r : res exn A) : act A := fun w => (r, w).

(** ** Reading the knowledge directory *)

Definition _tenant_of (d : Document) : pystr :=
  py_str repr (if jtruthy (meta (u "tenant_id") d) then meta (u "tenant_id") d else JStr default_tenant).

Definition with_meta (entries : list (pystr * json)) (d : Document) : Document :=
  {| doc_ref := doc_ref d; page_content := page_content d; metadata := dmerge (metadata d) (mkdict entries) |}.

Definition stamp_document (d : Document) : res exn Document :=
  let? code := document_course_code repr d in
  if negb (truthy code) then Ok d
  else match catalog_name courses (_tenant_of d) code with
       | Some name =>
         if truthy name then
           let extras := aliases_for_course_code code in
           Ok (with_meta ([(u "course_code", JStr code); (u "course_name", JStr name)] ++
                          (match extras with [] => [] | _ => [(u "course_aliases", JStr (join (u ",") extras))] end)) d)
         else Ok d
       | None => Ok d
       end.
Definition _stamp_catalog (documents : list Document) : res exn (list Document) :=
  match load_course_catalog courses None with
  | [] => Ok documents
  | _ => map_res stamp_document documents
  end.

Definition md_files (files : list md_file) : list md_file :=
  py_sorted (fun a b => str_ltb (mf_name a) (mf_name b)) (filter (fun f => is_suffix (u ".md") (mf_name f) = true) files).
(** The outlines, each with its tenant, in the order they are read. *)
Definition outlines (kd : knowledge_dir) : list (pystr * md_file) :=
  map (pair default_tenant) (md_files (kd_files kd)) ++
  (d ← py_sorted (fun a b : pystr * list md_file => str_ltb a.1 b.1) (kd_subdirs kd); map (pair d.1) (md_files d.2)).

Definition _chunk_markdown (f : pystr * md_file) : res exn (list Document) :=
  build_parent_child_documents repr markdown_split fallback_split child_split sha256 (mf_name f.2) (mf_raw f.2) f.1.
Definition load_knowledge_documents (kd : knowledge_dir) : res exn (list Document) :=
  let? docs := map_res _chunk_markdown (outlines kd) in _stamp_catalog (concat docs).

Definition _group_documents (documents : list Document) : stores :=
  foldl (fun grouped d => dset (_tenant_of d) (default [] (dget (_tenant_of d) grouped) ++ [d]) grouped) [] documents.

(** ** Indexes *)

(** New objects for documents that enter a store or are read from disk. *)
Definition adopt (docs : list Document) : act (list Document) := fun w =>
  let p := iw_process w in
  (Ok (imap (fun i d => {| doc_ref := pr_next p + Z.of_nat i; page_content := page_content d; metadata := metadata d |}) docs),
   {| iw_disk := iw_disk w;
      iw_process := {| pr_indexes := pr_indexes p; pr_pinned := pr_pinned p; pr_revision := pr_revision p; pr_lexical := pr_lexical p;
                       pr_next := pr_next p + Z.of_nat (length docs) |} |}).

(** [FAISS.from_documents]. *)
Definition from_documents (docs : list Document) : act store :=
  match embed_fails docs with Some e => st_raise e | None => adopt docs end.

Fixpoint _stores_from_groups (grouped : stores) : act stores :=
  match grouped with
  | [] => st_ret []
  | (tenant_id, docs) :: grouped =>
    match docs with
    | [] => _stores_from_groups grouped
    | _ =>
      let! s := from_documents docs in
      let! rest := _stores_from_groups grouped in
      st_ret ((tenant_id, s) :: rest)
    end
  end.

Definition format_embedding_spec (s : EmbeddingSpec) : pystr :=
  es_backend s ++ u "/" ++ es_model s ++ u " dim=" ++ dec (es_dim s).

Definition spec_eqb (a b : EmbeddingSpec) : bool :=
  bool_decide (es_backend a = es_backend b) && bool_decide (es_model a = es_model b) && (es_dim a =? es_dim b)%Z.

Definition assert_embedding_compatible (d : disk) : res exn unit :=
  match dk_stores d, dk_legacy d with
  | [], None => Ok tt
  | _, _ =>
    match dk_embedding d ≫= jf_payload with
    | None =>
      if negb (dk_dim d =? es_dim spec)%Z || negb (bool_decide (es_backend spec = u "ngram")) then
        Raise (OtherExc MISMATCH (u "现有 FAISS 索引未记录 embedding 元数据（维度 " ++ dec (dk_dim d) ++ u "），当前配置为 " ++
                                  format_embedding_spec spec ++ u "。换模型或换维度必须重建索引：python main.py ingest"))
      else Ok tt
    | Some stored =>
      let? dim := int_of_json (let v := get (u "dim") stored in if jtruthy v then v else JInt 0) in
      let norm := {| es_backend := str_or_empty repr (get (u "backend") stored); es_model := str_or_empty repr (get (u "model") stored);
                     es_dim := dim |} in
      if negb (spec_eqb norm spec) then
        Raise (OtherExc MISMATCH (u "FAISS 索引由 " ++ format_embedding_spec norm ++ u " 构建，当前配置为 " ++
                                  format_embedding_spec spec ++ u "。换模型或换维度必须重建索引：python main.py ingest"))
      else Ok tt
    end
  end.

Definition disk_index_revision (d : disk) : pystr :=
  match dk_generation d with
  | Some f =>
    let ident := match jf_payload f with Some payload => strip (str_or_empty repr (get (u "id") payload)) | None => [] end in
    if truthy ident then ident else u "mtime:" ++ dec (jf_mtime f)
  | None => match dk_embedding d with Some f => u "mtime:" ++ dec (jf_mtime f) | None => u "0" end
  end.

(** ** Saving *)

Fixpoint save_stores (s : stores) : act unit :=
  match s with
  | [] => st_ret tt
  | (tenant_id, docs) :: s =>
    match save_fails tenant_id with
    | Some e => st_raise e
    | None =>
      do! on_disk (fun d => {| dk_stores := dset tenant_id docs (dk_stores d); dk_legacy := dk_legacy d; dk_dim := es_dim spec;
                               dk_embedding := dk_embedding d; dk_generation := dk_generation d |}) in
      save_stores s
    end
  end.

Definition _write_embedding_meta (d : disk) : disk :=
  {| dk_stores := dk_stores d; dk_legacy := dk_legacy d; dk_dim := dk_dim d;
     dk_embedding := Some {| jf_payload := Some (mkdict [(u "backend", JStr (es_backend spec)); (u "model", JStr (es_model spec));
                                                         (u "dim", JInt (es_dim spec))]); jf_mtime := now_ns |};
     dk_generation := dk_generation d |}.
Definition _write_generation (d : disk) : disk :=
  {| dk_stores := dk_stores d; dk_legacy := dk_legacy d; dk_dim := dk_dim d; dk_embedding := dk_embedding d;
     dk_generation := Some {| jf_payload := Some (mkdict [(u "id", JStr (dec now_ns))]); jf_mtime := now_ns |} |}.

Definition _persist_indexes (s : stores) : act unit :=
  do! on_disk (fun d => {| dk_stores := filter (fun ts => ts.1 ∈ s.*1) (dk_stores d); dk_legacy := None; dk_dim := dk_dim d;
                           dk_embedding := dk_embedding d; dk_generation := dk_generation d |}) in
  do! save_stores s in
  do! on_disk _write_embedding_meta in
  on_disk _write_generation.

(** ** Loading *)

Fixpoint load_stores (s : stores) : act stores :=
  match s with
  | [] => st_ret []
  | (tenant_id, docs) :: s =>
    let! docs := adopt docs in
    let! rest := load_stores s in
    st_ret ((tenant_id, docs) :: rest)
  end.

(** The tenants' directories, sorted. *)
Definition _tenant_index_dirs (d : disk) : stores := py_sorted (fun a b : pystr * list Document => str_ltb a.1 b.1) (dk_stores d).

Definition _partition_store (s : store) : act stores := _stores_from_groups (_group_documents (_iter_store_documents s false)).

Definition _read_indexes : act (option stores) := fun w =>
  let d := iw_disk w in
  match dk_stores d, dk_legacy d with
  | [], None => (Ok None, w)
  | _, _ =>
    match assert_embedding_compatible d with
    | Raise e => (Raise e, w)
    | Ok _ =>
      match dk_stores d, dk_legacy d with
      | [], Some legacy => (let! s := _partition_store legacy in st_ret (Some s)) w
      | _, _ => (let! s := load_stores (_tenant_index_dirs d) in st_ret (Some s)) w
      end
    end
  end.

Definition faiss_index_status (d : disk) : res exn pystr :=
  match dk_stores d, dk_legacy d with
  | [], None => Ok (u "missing")
  | _, _ =>
    match assert_embedding_compatible d with
    | Ok _ => Ok (u "ok")
    | Raise e => if is_mismatch e then Ok (u "mismatch") else Raise e
    end
  end.

Definition require_index_for_serve (d : disk) : res exn unit :=
  let? status := faiss_index_status d in
  if bool_decide (status = u "ok") then Ok tt
  else if bool_decide (status = u "missing") then Raise (OtherExc UNAVAILABLE (u "FAISS 索引不存在。请先执行 python main.py ingest"))
  else Raise (OtherExc UNAVAILABLE (u "FAISS 索引与当前 embedding 配置不兼容。请执行 python main.py ingest --rebuild")).

Definition _install_indexes (s : option stores) (pinned : bool) (revision : option pystr) : act unit :=
  on_process (fun p => {| pr_indexes := s; pr_pinned := pinned && bool_decide (s <> None); pr_revision := revision; pr_lexical := ∅;
                          pr_next := pr_next p |}).

(** [except EmbeddingIndexMismatchError]. *)
Definition on_mismatch {A} (h : exn -> act A) (e : exn) : option (act A) := if is_mismatch e then Some (h e) else None.

Definition _read_indexes_or_rebuild : act (option stores) := st_except _read_indexes (on_mismatch (fun _ => st_ret None)).

Definition msg_of (e : exn) : pystr := match e with OtherExc _ m => m | _ => [] end.
Definition get_indexes : act stores :=
  let! w := st_get in
  let p := iw_process w in
  let revision := disk_index_revision (iw_disk w) in
  match pr_indexes p with
  | Some s => if pr_pinned p || bool_decide (pr_revision p = Some revision) then st_ret s
              else
                let! loaded := st_except _read_indexes (on_mismatch (fun e => st_raise (OtherExc UNAVAILABLE (msg_of e)))) in
                match loaded with
                | Some s => do! _install_indexes (Some s) false (Some revision) in st_ret s
                | None => st_raise (OtherExc UNAVAILABLE (u "FAISS 索引不存在或无法加载"))
                end
  | None =>
    let! loaded := st_except _read_indexes (on_mismatch (fun e => st_raise (OtherExc UNAVAILABLE (msg_of e)))) in
    match loaded with
    | Some s => do! _install_indexes (Some s) false (Some revision) in st_ret s
    | None => st_raise (OtherExc UNAVAILABLE (u "FAISS 索引不存在或无法加载"))
    end
  end.

Definition faiss_index_ready (d : disk) : res exn bool := let? status := faiss_index_status d in Ok (bool_decide (status = u "ok")).
Definition reset_indexes : act unit := _install_indexes None false None.
Definition set_indexes (s : option stores) : act unit := _install_indexes s (bool_decide (s <> None)) None.
Definition replace_index_cache (s : option stores) (revision : option pystr) (pinned : bool) : act unit := _install_indexes s pinned revision.
Definition current_index_revision (p : process) : option pystr := pr_revision p.

(** ** Ingest *)

Definition source_of (d : Document) : pystr := str_or_empty repr (meta (u "source") d).
Definition hash_of (d : Document) : pystr := str_or_empty repr (meta (u "content_hash") d).

Definition _live_source_hashes (s : store) : list (pystr * pystr) :=
  dict_of (map (fun d => (source_of d, hash_of d)) (filter (fun d => truthy (source_of d) = true) (_iter_store_documents s false))).

(** Which documents are marked deleted. *)
Definition is_stale (sources : list pystr) (keep_hash : list (pystr * pystr)) (d : Document) : bool :=
  bool_decide (source_of d ∈ sources) && negb (_is_deleted d)
  && negb (otruthy (dget (source_of d) keep_hash) && bool_decide (dget (source_of d) keep_hash = Some (hash_of d))).
Definition _soft_delete_stale (sources : list pystr) (keep_hash : list (pystr * pystr)) (s : store) : store * Z :=
  (map (fun d => if is_stale sources keep_hash d then with_meta [(u "deleted", JBool true)] d else d) s,
   Z.of_nat (length (filter (fun d => is_stale sources keep_hash d = true) s))).

(** What a tenant's files ask for: the version of each source; what to add; what to retire. *)
Definition wanted_hash (wanted : list Document) : list (pystr * pystr) := dict_of (map (fun d => (source_of d, hash_of d)) wanted).
Definition up_to_date (live_hash : list (pystr * pystr)) (sd : pystr * pystr) : bool :=
  truthy sd.2 && bool_decide (dget sd.1 live_hash = Some sd.2).
Definition new_docs (wanted : list Document) (live_hash : list (pystr * pystr)) : list Document :=
  sd ← wanted_hash wanted; if up_to_date live_hash sd then [] else filter (fun d => source_of d = sd.1) wanted.
Definition retire_sources (wanted : list Document) (live_hash : list (pystr * pystr)) : list pystr :=
  (map fst (filter (fun sd => up_to_date live_hash sd = false /\ sd.1 ∈ live_hash.*1) (wanted_hash wanted))) ++
  filter (fun source => source ∉ (wanted_hash wanted).*1) live_hash.*1.

(** A store changes in place: in the module's indexes too, when the ingest works on those. *)
Definition write_store (shared : bool) (tenant_id : pystr) (s : store) (working : stores) : act stores :=
  do! on_process (fun p =>
    if shared then {| pr_indexes := (fun i => match dget tenant_id i with Some _ => dset tenant_id s i | None => i end) <$> pr_indexes p;
                      pr_pinned := pr_pinned p; pr_revision := pr_revision p; pr_lexical := pr_lexical p; pr_next := pr_next p |}
    else p) in
  st_ret (dset tenant_id s working).

Definition ingest_tenant (shared : bool) (grouped : stores) (tenant_id : pystr) (state : stores * Z) : act (stores * Z) :=
  let '(working, changes) := state in
  let wanted := default [] (dget tenant_id grouped) in
  let live_hash := match dget tenant_id working with Some s => _live_source_hashes s | None => [] end in
  let new := new_docs wanted live_hash in
  let retire := retire_sources wanted live_hash in
  match new, retire with
  | [], [] => st_ret state
  | _, _ =>
    match dget tenant_id working with
    | None => let! s := from_documents new in st_ret (dset tenant_id s working, (changes + Z.of_nat (length new))%Z)
    | Some s =>
      let! added := match new with
                    | [] => st_ret s
                    | _ => match embed_fails new with Some e => st_raise e | None => let! docs := adopt new in st_ret (s ++ docs) end
                    end in
      let! working := write_store shared tenant_id added working in
      let (kept, retired) := _soft_delete_stale retire (wanted_hash wanted) added in
      let! working := write_store shared tenant_id kept working in
      st_ret (working, (changes + Z.of_nat (length new) + (match retire with [] => 0 | _ => retired end))%Z)
    end
  end.

Fixpoint ingest_tenants (shared : bool) (grouped : stores) (tenants : list pystr) (state : stores * Z) : act (stores * Z) :=
  match tenants with
  | [] => st_ret state
  | tenant_id :: tenants => let! state := ingest_tenant shared grouped tenant_id state in ingest_tenants shared grouped tenants state
  end.

(** [sorted(set(working) | set(grouped))]. *)
Definition all_tenants (working grouped : stores) : list pystr := py_sorted str_ltb (uniq [] (working.*1 ++ grouped.*1)).

Definition EMPTY_KNOWLEDGE : exn := RuntimeError (u "知识库为空").
Definition memory_revision : pystr := u "memory:" ++ dec now_ns.
Definition install_persisted (s : stores) : act unit :=
  let! w := st_get in _install_indexes (Some s) false (Some (disk_index_revision (iw_disk w))).

Definition build_faiss_index (persist : bool) (kd : knowledge_dir) : act stores :=
  let! documents := lift_res (load_knowledge_documents kd) in
  match documents with
  | [] => st_raise EMPTY_KNOWLEDGE
  | _ =>
    let! s := _stores_from_groups (_group_documents documents) in
    do! (if persist then do! _persist_indexes s in install_persisted s
         else _install_indexes (Some s) true (Some memory_revision)) in
    st_ret s
  end.

Definition ingest_indexes (persist rebuild : bool) (kd : knowledge_dir) : act stores :=
  if rebuild then build_faiss_index persist kd
  else
    let! w := st_get in
    let! existing := match pr_indexes (iw_process w) with Some s => st_ret (Some s) | None => _read_indexes_or_rebuild end in
    match existing with
    | None | Some [] => build_faiss_index persist kd
    | Some existing =>
      let shared := bool_decide (pr_indexes (iw_process w) <> None) in
      let! fresh := lift_res (load_knowledge_documents kd) in
      match fresh with
      | [] => st_raise EMPTY_KNOWLEDGE
      | _ =>
        let grouped := _group_documents fresh in
        let! state := ingest_tenants shared grouped (all_tenants existing grouped) (existing, 0%Z) in
        let '(working, changes) := state in
        do! (if persist then
               if (0 <? changes)%Z then do! _persist_indexes working in install_persisted working
               else install_persisted working
             else _install_indexes (Some working) true (Some memory_revision)) in
        st_ret working
      end
    end.
End ingest.

(** ** What a store holds, objects aside *)

(** A document without its identity, and back. *)
Definition plain (d : Document) : pystr * dict := (page_content d, metadata d).
Definition mk (p : pystr * dict) : Document := {| doc_ref := 0; page_content := p.1; metadata := p.2 |}.

Lemma filter_map {A B} (f : A -> B) (P : B -> Prop) `{forall b, Decision (P b)} (Q : A -> Prop) `{forall a, Decision (Q a)} (l : list A) :
  (forall a, a ∈ l -> Q a <-> P (f a)) -> filter P (map f l) = map f (filter Q l).
Proof.
  induction l as [|a l IH]; intros Hl; [done|]. cbn [map]. rewrite !filter_cons.
  destruct (decide (P (f a))) as [Hp|Hp].
  - rewrite decide_True by (apply Hl; [by left|done]). cbn [map]. f_equal. apply IH. intros; apply Hl; by right.
  - rewrite decide_False by (rewrite (Hl a); [done|by left]). apply IH. intros; apply Hl; by right.
Qed.

Lemma filter_none {A} (P : A -> Prop) `{forall x, Decision (P x)} l : (forall x, x ∈ l -> ~ P x) -> filter P l = [].
Proof.
  induction l as [|x l IH]; intros Hl; [done|]. rewrite filter_cons, decide_False by (apply Hl; by left). apply IH. intros; apply Hl; by right.
Qed.

Lemma dict_of_keys {K V} `{EqDecision K} (l : list (K * V)) k : k ∈ (dict_of l).*1 <-> k ∈ l.*1.
Proof.
  unfold dict_of. assert (Hg : forall acc : list (K * V), k ∈ (foldl (fun d '(k, v) => dset k v d) acc l).*1 <-> k ∈ acc.*1 \/ k ∈ l.*1).
  { induction l as [|[k' v] l IH]; intros acc; cbn [foldl fmap list_fmap]; [rewrite elem_of_nil; tauto|].
    rewrite IH, elem_of_dset_keys, elem_of_cons. cbn [fst]. tauto. }
  rewrite Hg. cbn. rewrite elem_of_nil. tauto.
Qed.

(** The value of a key that has only one. *)
Lemma dict_of_uniform {K V} `{EqDecision K} (l : list (K * V)) k v : (forall v', (k, v') ∈ l -> v' = v) -> k ∈ l.*1 ->
  dget k (dict_of l) = Some v.
Proof.
  intros Hu Hk. apply (dict_of_keys l k), dget_is_Some in Hk as [v' Hv]. rewrite Hv. f_equal. apply Hu.
  apply dget_Some_elem in Hv. unfold dict_of in Hv.
  assert (Hg : forall acc : list (K * V), (k, v') ∈ foldl (fun d '(k, v) => dset k v d) acc l -> (k, v') ∈ acc \/ (k, v') ∈ l).
  { clear. induction l as [|[k1 v1] l IH]; intros acc; cbn [foldl]; [by left|]. intros [Hin|Hin]%IH; [|right; by right].
    assert (Hd : forall d : list (K * V), (k, v') ∈ dset k1 v1 d -> (k, v') = (k1, v1) \/ (k, v') ∈ d).
    { induction d as [|[k2 v2] d IHd]; cbn; [rewrite list_elem_of_singleton; by left|]. case_decide.
      - subst. rewrite !elem_of_cons. tauto.
      - rewrite !elem_of_cons. intros [?|?]; [by right; left|]. destruct (IHd ltac:(done)); tauto. }
    destruct (Hd _ Hin) as [->|?]; [right; by left|by left]. }
  by destruct (Hg [] Hv) as [?%elem_of_nil|?].
Qed.

Section stores.
Context `{RetrievalServices} (default_tenant : pystr).
Abbreviation tenant_of := (_tenant_of default_tenant).
Abbreviation group := (_group_documents default_tenant).

Lemma group_spec docs t : default [] (dget t (group docs)) = filter (fun d => tenant_of d = t) docs /\
  (t ∈ (group docs).*1 <-> exists d, d ∈ docs /\ tenant_of d = t) /\ NoDup (group docs).*1.
Proof.
  unfold _group_documents. induction docs as [|d docs (IHg & IHk & IHn)] using rev_ind.
  { split_and!; [done| |constructor]. cbn. split; [by intros ?%elem_of_nil|]. by intros (d & ?%elem_of_nil & _). }
  rewrite foldl_app. cbn [foldl]. rewrite filter_app, filter_cons, filter_nil, dget_dset, elem_of_dset_keys, IHk. split_and!.
  - destruct (decide (tenant_of d = t)) as [Ht|Ht]; cbn [default]; [by rewrite Ht, IHg|by rewrite app_nil_r].
  - setoid_rewrite elem_of_app. setoid_rewrite list_elem_of_singleton. naive_solver.
  - by apply NoDup_dset.
Qed.

(** What is live of a source, and what the files ask for. *)
Definition live_of (s : pystr) (p : list (pystr * dict)) : list (pystr * dict) :=
  filter (fun x => _is_deleted (mk x) = false /\ source_of (mk x) = s) p.
Definition content (t s : pystr) (st : stores) : list (pystr * dict) := live_of s (map plain (default [] (dget t st))).
Definition wanted_content (t s : pystr) (docs : list Document) : list (pystr * dict) :=
  map plain (filter (fun d => tenant_of d = t /\ source_of d = s) docs).
(** The indexes hold, live, the documents, source by source. *)
Definition mirrors (docs : list Document) (st : stores) : Prop := forall t s, content t s st = wanted_content t s docs.

(** Documents as they are read from files: of one version for each tenant and source. *)
Record versioned (docs : list Document) : Prop := {
  vd_doc d : d ∈ docs -> truthy (source_of d) = true /\ truthy (hash_of d) = true /\ _is_deleted d = false;
  vd_one d d' : d ∈ docs -> d' ∈ docs -> tenant_of d = tenant_of d' -> source_of d = source_of d' -> hash_of d = hash_of d';
}.
(** The same version of a source is the same documents. *)
Definition same_versions (docs docs' : list Document) : Prop := forall d d', d ∈ docs -> d' ∈ docs' ->
  tenant_of d = tenant_of d' -> source_of d = source_of d' -> hash_of d = hash_of d' ->
  wanted_content (tenant_of d) (source_of d) docs = wanted_content (tenant_of d) (source_of d) docs'.

Lemma wanted_elem t s docs x : x ∈ wanted_content t s docs <-> exists d, d ∈ docs /\ tenant_of d = t /\ source_of d = s /\ x = plain d.
Proof. unfold wanted_content. rewrite list_elem_of_fmap. setoid_rewrite list_elem_of_filter. naive_solver. Qed.

(** Marking what is stale, on documents without identity. *)
Definition mark (sources : list pystr) (keep : list (pystr * pystr)) (x : pystr * dict) : pystr * dict :=
  if is_stale sources keep (mk x) then plain (with_meta [(u "deleted", JBool true)] (mk x)) else x.

Lemma soft_delete_plain sources keep s : map plain (_soft_delete_stale sources keep s).1 = map (mark sources keep) (map plain s).
Proof.
  cbn [_soft_delete_stale fst]. rewrite !map_map. apply map_ext. intros d. unfold mark. change (is_stale sources keep (mk (plain d))) with (is_stale sources keep d).
  by destruct (is_stale sources keep d).
Qed.

Lemma deleted_marked x : _is_deleted (mk (plain (with_meta [(u "deleted", JBool true)] x))) = true.
Proof. unfold _is_deleted, meta. cbn [with_meta plain mk metadata snd]. by rewrite get_dmerge. Qed.

Lemma live_mark sources keep s p : live_of s (map (mark sources keep) p) = filter (fun x => is_stale sources keep (mk x) = false) (live_of s p).
Proof.
  unfold live_of. rewrite list_filter_filter. induction p as [|x p IH]; [done|]. cbn [map]. rewrite !filter_cons, IH. unfold mark.
  destruct (is_stale sources keep (mk x)) eqn:E.
  - rewrite decide_False by (by rewrite deleted_marked; intros []). by rewrite (decide_False (P := _ /\ _)) by (intros [? ?]; congruence).
  - destruct (decide (_is_deleted (mk x) = false /\ source_of (mk x) = s)); [by rewrite decide_True|by rewrite decide_False by tauto].
Qed.

Lemma live_source_hash s src h : truthy src = true -> (forall d, d ∈ s -> _is_deleted d = false -> source_of d = src -> hash_of d = h) ->
  live_of src (map plain s) <> [] -> dget src (_live_source_hashes s) = Some h.
Proof.
  intros Ht Hu Hne. unfold _live_source_hashes. apply dict_of_uniform.
  - intros h' Hin. apply list_elem_of_fmap in Hin as (d & [= -> ->] & Hd). apply list_elem_of_filter in Hd as [_ Hd].
    apply list_elem_of_filter in Hd as [Hl Hd]. cbn in Hl. apply Hu; [done|by apply negb_true_iff in Hl|done].
  - destruct (live_of src (map plain s)) as [|x l] eqn:E; [done|].
    assert (Hx : x ∈ live_of src (map plain s)) by (rewrite E; by left). unfold live_of in Hx. apply list_elem_of_filter in Hx as [[Hl Hs] Hx].
    apply list_elem_of_fmap in Hx as (d & -> & Hd). apply list_elem_of_fmap. exists (src, hash_of d). split; [done|].
    apply list_elem_of_fmap. exists d. split; [by rewrite <- Hs|]. apply list_elem_of_filter. split; [by change (source_of d) with (source_of (mk (plain d))); rewrite Hs|].
    apply list_elem_of_filter. split; [|done]. cbn. apply negb_true_iff. exact Hl.
Qed.

Lemma live_source_key s src : src ∈ (_live_source_hashes s).*1 <-> truthy src = true /\ live_of src (map plain s) <> [].
Proof.
  unfold _live_source_hashes. rewrite dict_of_keys, <- list_fmap_compose, list_elem_of_fmap. setoid_rewrite list_elem_of_filter. unfold _iter_store_documents.
  setoid_rewrite list_elem_of_filter. cbn. split.
  - intros (d & -> & Ht & Hl & Hd). split; [done|]. intros Hn. apply (not_elem_of_nil (plain d)). rewrite <- Hn. unfold live_of.
    apply list_elem_of_filter. split; [split; [by apply negb_true_iff in Hl|done]|]. by apply list_elem_of_fmap_2.
  - intros [Ht Hne]. destruct (live_of src (map plain s)) as [|x l] eqn:E; [done|].
    assert (Hx : x ∈ live_of src (map plain s)) by (rewrite E; by left). unfold live_of in Hx. apply list_elem_of_filter in Hx as [[Hl Hs] Hx].
    apply list_elem_of_fmap in Hx as (d & -> & Hd). exists d. split_and!; [done| |by apply negb_true_iff|done]. by rewrite <- Hs in Ht.
Qed.

Lemma new_docs_of wanted live_hash src :
  filter (fun d => source_of d = src) (new_docs wanted live_hash) =
  match dget src (wanted_hash wanted) with
  | Some h => if up_to_date live_hash (src, h) then [] else filter (fun d => source_of d = src) wanted
  | None => []
  end.
Proof.
  unfold new_docs. pose proof (NoDup_dict_of (map (fun d => (source_of d, hash_of d)) wanted)) as Hnd. fold (wanted_hash wanted) in Hnd.
  induction (wanted_hash wanted) as [|[k h] l IH]; [done|]. cbn [fmap list_fmap fst] in Hnd. apply NoDup_cons in Hnd as [Hk Hnd].
  rewrite bind_cons, filter_app, IH by done. cbn [dget fst snd]. destruct (decide (k = src)) as [->|Hne].
  - assert (dget src l = None) as ->.
    { destruct (dget src l) eqn:E; [|done]. destruct Hk. apply dget_is_Some. by eexists. }
    rewrite app_nil_r. destruct (up_to_date live_hash (src, h)); [done|]. rewrite list_filter_filter. apply list_filter_iff. intros d. tauto.
  - destruct (up_to_date live_hash (k, h)); cbn; [done|]. rewrite list_filter_filter, filter_none; [done|]. intros d _ []. congruence.
Qed.

(** One tenant's store, brought from what one set of documents asks for to what another
    does. *)
Section step.
Context (docs0 docs : list Document) (t : pystr) (s : store).
Context (Hv0 : versioned docs0) (Hv : versioned docs) (Hsame : same_versions docs0 docs).
Context (Hs : forall src, live_of src (map plain s) = wanted_content t src docs0).
Abbreviation wanted := (filter (fun d => tenant_of d = t) docs).
Abbreviation live_hash := (_live_source_hashes s).
Abbreviation retire := (retire_sources wanted live_hash).
Abbreviation asked := (wanted_hash wanted).

Lemma wanted_in d : d ∈ wanted <-> d ∈ docs /\ tenant_of d = t.
Proof. rewrite list_elem_of_filter. tauto. Qed.

Lemma live_from d : d ∈ s -> _is_deleted d = false ->
  exists d0, d0 ∈ docs0 /\ tenant_of d0 = t /\ source_of d0 = source_of d /\ hash_of d0 = hash_of d.
Proof.
  intros Hd Hl. assert (Hin : plain d ∈ live_of (source_of d) (map plain s)).
  { unfold live_of. apply list_elem_of_filter. split; [done|by apply list_elem_of_fmap_2]. }
  rewrite Hs in Hin. apply wanted_elem in Hin as (d0 & ? & ? & ? & Hp). exists d0. split_and!; [done..|].
  change (hash_of d) with (hash_of (mk (plain d))). by rewrite Hp.
Qed.

Lemma asked_hash d : d ∈ wanted -> dget (source_of d) asked = Some (hash_of d).
Proof.
  intros Hd. unfold wanted_hash. apply dict_of_uniform.
  - intros h' Hin. apply list_elem_of_fmap in Hin as (d' & [= E ->] & Hd'). apply wanted_in in Hd as [? ?], Hd' as [? ?].
    apply (vd_one _ Hv); congruence.
  - apply list_elem_of_fmap. exists (source_of d, hash_of d). split; [done|]. apply list_elem_of_fmap. by exists d.
Qed.

Lemma asked_key src : src ∈ asked.*1 <-> exists d, d ∈ wanted /\ source_of d = src.
Proof. unfold wanted_hash. rewrite dict_of_keys, <- list_fmap_compose, list_elem_of_fmap. cbn. naive_solver. Qed.

Lemma live_new src : live_of src (map plain (new_docs wanted live_hash)) = map plain (filter (fun d => source_of d = src) (new_docs wanted live_hash)).
Proof.
  unfold live_of. rewrite (filter_map _ _ (fun d => source_of d = src)); [done|]. intros d Hd.
  change (source_of (mk (plain d))) with (source_of d). change (_is_deleted (mk (plain d))) with (_is_deleted d).
  unfold new_docs in Hd. apply list_elem_of_bind in Hd as (sd & Hd & _). destruct (up_to_date _ _); [by apply elem_of_nil in Hd|].
  apply list_elem_of_filter in Hd as [_ Hd]. apply wanted_in in Hd as [Hd _]. destruct (vd_doc _ Hv _ Hd) as (_ & _ & ?). tauto.
Qed.

Lemma wanted_by_source src : wanted_content t src docs = map plain (filter (fun d => source_of d = src) wanted).
Proof. unfold wanted_content. rewrite list_filter_filter. f_equal. apply list_filter_iff. intros d. tauto. Qed.

(** What is live of a source, after the marking: what was and stays, and what is new. *)
Lemma step_split src : live_of src (map (mark retire asked) (map plain (s ++ new_docs wanted live_hash))) =
  filter (fun x => is_stale retire asked (mk x) = false) (live_of src (map plain s)) ++
  filter (fun x => is_stale retire asked (mk x) = false) (map plain (filter (fun d => source_of d = src) (new_docs wanted live_hash))).
Proof.
  rewrite live_mark, map_app. unfold live_of at 1. rewrite filter_app. fold (live_of src (map plain s)) (live_of src (map plain (new_docs wanted live_hash))).
  by rewrite filter_app, live_new.
Qed.

Lemma live_uniform src x : x ∈ live_of src (map plain s) ->
  source_of (mk x) = src /\ _is_deleted (mk x) = false /\ dget src live_hash = Some (hash_of (mk x)).
Proof.
  intros Hx. pose proof Hx as [[Hdel Hsrc] _]%list_elem_of_filter. split_and!; [done|done|].
  pose proof Hx as Hx0. rewrite Hs in Hx. apply wanted_elem in Hx as (d0 & Hd0 & Ht0 & Hs0 & ->).
  destruct (vd_doc _ Hv0 _ Hd0) as (Hts & _ & _). rewrite Hs0 in Hts. change (hash_of (mk (plain d0))) with (hash_of d0).
  apply live_source_hash; [done| |intros Hn; rewrite Hn in Hx0; by apply elem_of_nil in Hx0].
  intros d Hd Hl Hsd. destruct (live_from _ Hd Hl) as (d1 & Hd1 & Ht1 & Hs1 & <-). apply (vd_one _ Hv0); congruence.
Qed.

Lemma stale_of src x : source_of (mk x) = src -> _is_deleted (mk x) = false -> is_stale retire asked (mk x) =
  bool_decide (src ∈ retire) && negb (otruthy (dget src asked) && bool_decide (dget src asked = Some (hash_of (mk x)))).
Proof. intros Hsx Hdx. unfold is_stale. by rewrite Hsx, Hdx, andb_true_r. Qed.

Lemma retired_iff src h : dget src asked = Some h -> src ∈ retire <-> up_to_date live_hash (src, h) = false /\ src ∈ live_hash.*1.
Proof.
  intros Hh. assert (Hin : src ∈ asked.*1) by (apply dget_is_Some; by eexists). unfold retire_sources. rewrite elem_of_app. split.
  - intros [Hr|Hr]; [|apply list_elem_of_filter in Hr as [Hn _]; done]. apply list_elem_of_fmap in Hr as ([k h'] & Hk1 & Hk).
    cbn [fst] in Hk1. subst k. apply list_elem_of_filter in Hk as [[Hu Hl] Hk]. cbn [fst] in *.
    apply (elem_dget _ _ _ (NoDup_dict_of _)) in Hk. fold asked in Hk. rewrite Hh in Hk. by injection Hk as ->.
  - intros [Hu Hl]. left. apply list_elem_of_fmap. exists (src, h). split; [done|]. apply list_elem_of_filter. split; [done|]. by apply dget_Some_elem.
Qed.

(** A source that is as it was keeps its documents. *)
Lemma step_kept d : d ∈ wanted -> up_to_date live_hash (source_of d, hash_of d) = true ->
  filter (fun x => is_stale retire asked (mk x) = false) (live_of (source_of d) (map plain s)) = wanted_content t (source_of d) docs.
Proof.
  intros Hd Eu. pose proof Hd as [Hdd Hdt]%wanted_in. destruct (vd_doc _ Hv _ Hdd) as (_ & Hth & _). set (src := source_of d) in *. rewrite filter_all.
  - unfold up_to_date in Eu. cbn [fst snd] in Eu. rewrite Hth in Eu. cbn [andb] in Eu. apply bool_decide_eq_true in Eu.
    assert (Hk : src ∈ live_hash.*1) by (apply dget_is_Some; by eexists).
    apply live_source_key in Hk as [_ Hne]. destruct (live_of src (map plain s)) as [|x l] eqn:E0; [done|]. rewrite <- E0 in *. clear Hne.
    assert (Hx : x ∈ live_of src (map plain s)) by (rewrite E0; by left). destruct (live_uniform _ _ Hx) as (_ & _ & Hux). rewrite Eu in Hux. injection Hux as Hux.
    rewrite Hs in Hx |- *. apply wanted_elem in Hx as (d0 & Hd0 & Ht0 & Hs0 & ->). change (hash_of (mk (plain d0))) with (hash_of d0) in Hux.
    pose proof (Hsame d0 d Hd0 Hdd ltac:(congruence) Hs0 ltac:(congruence)) as Hw. by rewrite Ht0, Hs0 in Hw.
  - apply Forall_forall. intros x Hx. destruct (live_uniform _ _ Hx) as (Hsx & Hdx & _). rewrite (stale_of _ _ Hsx Hdx).
    rewrite bool_decide_false; [done|]. rewrite (retired_iff src _ (asked_hash d Hd)). intros [Hn _]. subst src. by rewrite Eu in Hn.
Qed.

(** A source that changed loses them all, and none of its new ones. *)
Lemma step_changed d : d ∈ wanted -> up_to_date live_hash (source_of d, hash_of d) = false ->
  filter (fun x => is_stale retire asked (mk x) = false) (live_of (source_of d) (map plain s)) = [] /\
  filter (fun x => is_stale retire asked (mk x) = false) (map plain (filter (fun d' => source_of d' = source_of d) wanted)) =
    wanted_content t (source_of d) docs.
Proof.
  intros Hd Eu. pose proof Hd as [Hdd Hdt]%wanted_in. destruct (vd_doc _ Hv _ Hdd) as (_ & Hth & _). pose proof (asked_hash d Hd) as Hh.
  set (src := source_of d) in *. split.
  - apply filter_none. intros x Hx Hst. destruct (live_uniform _ _ Hx) as (Hsx & Hdx & Hux). rewrite (stale_of _ _ Hsx Hdx), Hh in Hst. cbn [otruthy] in Hst.
    rewrite Hth in Hst. cbn [andb] in Hst. rewrite bool_decide_true in Hst by (apply (retired_iff _ _ Hh); split; [done|apply dget_is_Some; by eexists]).
    apply negb_false_iff, bool_decide_eq_true in Hst. unfold up_to_date in Eu. cbn [fst snd] in Eu.
    rewrite Hth, Hux, Hst, bool_decide_true in Eu by done. done.
  - rewrite filter_all; [by rewrite wanted_by_source|]. apply Forall_forall.
    intros x (d' & -> & [Hs' Hd']%list_elem_of_filter)%list_elem_of_fmap. pose proof Hd' as [Hd'' _]%wanted_in.
    destruct (vd_doc _ Hv _ Hd'') as (_ & Hth' & Hl'). rewrite (stale_of src) by done. rewrite Hh. pose proof (asked_hash d' Hd') as Hh'.
    rewrite Hs', Hh in Hh'. injection Hh' as Hh'. change (hash_of (mk (plain d'))) with (hash_of d'). cbn [otruthy]. rewrite Hth, Hh'.
    rewrite (bool_decide_true (Some _ = Some _)) by reflexivity. by rewrite andb_false_r.
Qed.

(** A source nothing asks for any more loses them. *)
Lemma step_gone src : src ∉ asked.*1 -> filter (fun x => is_stale retire asked (mk x) = false) (live_of src (map plain s)) = [].
Proof.
  intros Hout. assert (dget src asked = None) as Hn.
  { destruct (dget src asked) eqn:E; [|done]. destruct Hout. apply dget_is_Some. by eexists. }
  apply filter_none. intros x Hx Hst. destruct (live_uniform _ _ Hx) as (Hsx & Hdx & Hux). rewrite (stale_of _ _ Hsx Hdx), Hn in Hst. cbn [otruthy] in Hst.
  rewrite bool_decide_true in Hst; [done|]. unfold retire_sources. apply elem_of_app. right. apply list_elem_of_filter.
  split; [done|]. apply dget_is_Some. by eexists.
Qed.

Lemma step_content src : live_of src (map (mark retire asked) (map plain (s ++ new_docs wanted live_hash))) = wanted_content t src docs.
Proof.
  rewrite step_split, new_docs_of. destruct (decide (src ∈ asked.*1)) as [(d & Hd & <-)%asked_key|Hout].
  - rewrite (asked_hash d Hd). destruct (up_to_date live_hash (source_of d, hash_of d)) eqn:Eu.
    + cbn [map]. rewrite filter_nil, app_nil_r. by apply step_kept.
    + destruct (step_changed d Hd Eu) as [-> ->]. done.
  - rewrite (step_gone _ Hout). destruct (dget src asked) eqn:E; [destruct Hout; apply dget_is_Some; by eexists|]. cbn [map app]. rewrite filter_nil.
    rewrite wanted_by_source, filter_none; [done|]. intros d Hd Hsrc. apply Hout, asked_key. by exists d.
Qed.
End step.


Lemma mark_none keep p : map (mark [] keep) p = p.
Proof.
  rewrite <- (map_id p) at 2. apply map_ext. intros x. unfold mark, is_stale. by rewrite bool_decide_false by apply not_elem_of_nil.
Qed.
Lemma mark_unstale sources keep s : filter (fun d => is_stale sources keep d = true) s = [] -> map (mark sources keep) (map plain s) = map plain s.
Proof.
  intros Hf. rewrite map_map. apply map_ext_in. intros d Hd%list_elem_of_In. unfold mark. change (is_stale sources keep (mk (plain d))) with (is_stale sources keep d).
  destruct (is_stale sources keep d) eqn:E; [|done]. exfalso. apply (not_elem_of_nil d). rewrite <- Hf. by apply list_elem_of_filter.
Qed.

Lemma mirrors_proper docs st st' : (forall t, map plain (default [] (dget t st)) = map plain (default [] (dget t st'))) -> mirrors docs st -> mirrors docs st'.
Proof. intros He Hm t s. unfold content. rewrite <- He. apply Hm. Qed.

(** Stores built from nothing. *)
Lemma groups_mirror docs st : versioned docs ->
  (forall t, map plain (default [] (dget t st)) = map plain (default [] (dget t (group docs)))) -> mirrors docs st.
Proof.
  intros Hv He t s. unfold content. rewrite He. destruct (group_spec docs t) as (-> & _). unfold live_of, wanted_content.
  rewrite (filter_map _ _ (fun d => source_of d = s)), list_filter_filter.
  - f_equal. apply list_filter_iff. intros d. tauto.
  - intros d [_ Hd]%list_elem_of_filter. change (source_of (mk (plain d))) with (source_of d). change (_is_deleted (mk (plain d))) with (_is_deleted d).
    destruct (vd_doc _ Hv _ Hd) as (_ & _ & ?). tauto.
Qed.
End stores.

(** ** The operations *)

Section operations.
Context `{RetrievalServices} (default_tenant : pystr) (spec : EmbeddingSpec).
Context (embed_fails : list Document -> option exn) (save_fails : pystr -> option exn) (now_ns : Z).
Abbreviation group := (_group_documents default_tenant).
Abbreviation ingest_tenant := (ingest_tenant embed_fails).
Abbreviation plain_store t st := (map plain (default [] (dget t st))).

Lemma adopt_spec docs w docs' w' : adopt docs w = (Ok docs', w') -> map plain docs' = map plain docs /\ iw_disk w' = iw_disk w.
Proof.
  intros [= <- <-]. split; [|done]. apply list_eq. intros i. rewrite !list_lookup_fmap, list_lookup_imap. by destruct (docs !! i).
Qed.

Lemma from_documents_spec docs w r w' : from_documents embed_fails docs w = (r, w') ->
  iw_disk w' = iw_disk w /\ match r with Ok docs' => map plain docs' = map plain docs | Raise _ => True end.
Proof.
  unfold from_documents. destruct (embed_fails docs); [by intros [= <- <-]|]. intros Ha. destruct r as [docs'|]; [|by unfold adopt in Ha].
  by apply adopt_spec in Ha as [? ?].
Qed.

Lemma write_store_spec shared t s working w r w' : write_store shared t s working w = (r, w') -> r = Ok (dset t s working) /\ iw_disk w' = iw_disk w.
Proof. intros [= <- <-]. done. Qed.

(** What an ingest does to a tenant, objects aside, and whether it counts as a change. *)
Definition stepped (wanted s : list Document) : list (pystr * dict) :=
  map (mark (retire_sources wanted (_live_source_hashes s)) (wanted_hash wanted)) (map plain (s ++ new_docs wanted (_live_source_hashes s))).

Lemma dset_ne t (s : store) (st : stores) : dset t s st <> [].
Proof. intros Hd. apply (not_elem_of_nil t). change [] with (([] : stores).*1). rewrite <- Hd. apply elem_of_dset_keys. by left. Qed.

Lemma retire_nil wanted : retire_sources wanted [] = [].
Proof.
  apply elem_of_nil_inv. intros x. unfold retire_sources. rewrite elem_of_app. intros [Hx|Hx].
  - apply list_elem_of_fmap in Hx as (sd & _ & Hx). apply list_elem_of_filter in Hx as [[_ Hn] _]. by apply elem_of_nil in Hn.
  - apply list_elem_of_filter in Hx as [_ Hn]. by apply elem_of_nil in Hn.
Qed.

(** The additions and the marks, in place. *)
Lemma changed_store shared t s new retire keep working c r w w' :
  (let! added := match new with
                 | [] => st_ret s
                 | _ => match embed_fails new with Some e => st_raise e | None => let! docs := adopt new in st_ret (s ++ docs) end
                 end in
   let! working := write_store shared t added working in
   let (kept, retired) := _soft_delete_stale retire keep added in
   let! working := write_store shared t kept working in
   st_ret (working, (c + Z.of_nat (length new) + (match retire with [] => 0 | _ => retired end))%Z)) w = (Ok r, w') ->
  iw_disk w' = iw_disk w /\ exists added kept retired, r = (dset t kept (dset t added working), (c + Z.of_nat (length new) + retired)%Z) /\
    map plain kept = map (mark retire keep) (map plain (s ++ new)) /\ (0 <= retired)%Z /\
    (new = [] -> retired = 0%Z -> map plain kept = map plain s).
Proof.
  intros [(added & w1 & Ha & Hr)|(e & _ & [=])]%st_bind_inv.
  assert (Hadd : map plain added = map plain (s ++ new) /\ iw_disk w1 = iw_disk w).
  { destruct new as [|d new]; [injection Ha as <- <-; by rewrite app_nil_r|]. destruct (embed_fails _); [done|].
    apply st_bind_inv in Ha as [(docs & w2 & Hd & [= <- <-])|(e & _ & [=])]. apply adopt_spec in Hd as [Hd ->]. by rewrite !map_app, Hd. }
  destruct Hadd as [Hadd Hw1]. apply st_bind_inv in Hr as [(working1 & w2 & Hw & Hr)|(e & _ & [=])].
  apply write_store_spec in Hw as [[= ->] Hw2]. destruct (_soft_delete_stale retire keep added) as [kept retired] eqn:Ek.
  apply st_bind_inv in Hr as [(working2 & w3 & Hw & [= <- <-])|(e & _ & [=])]. apply write_store_spec in Hw as [[= ->] Hw3].
  split; [congruence|]. pose proof (soft_delete_plain retire keep added) as Hp. rewrite Ek in Hp. cbn [fst] in Hp.
  injection Ek as _ Hret. exists added, kept. eexists. split; [reflexivity|]. rewrite Hp, Hadd. split_and!; [done|destruct retire; lia|].
  intros -> Hz. rewrite app_nil_r in Hadd |- *. destruct retire as [|x retire]; [by rewrite mark_none|]. rewrite <- Hadd. apply mark_unstale.
  subst retired. destruct (filter _ added); [done|cbn in Hz; lia].
Qed.

Lemma ingest_tenant_spec shared grouped t working c working' c' w w' :
  ingest_tenant shared grouped t (working, c) w = (Ok (working', c'), w') ->
  iw_disk w' = iw_disk w /\ (forall t', t' <> t -> dget t' working' = dget t' working) /\
  plain_store t working' = stepped (default [] (dget t grouped)) (default [] (dget t working)) /\
  (NoDup working.*1 -> NoDup working'.*1) /\ (0 <= c' - c)%Z /\ (c' = c -> plain_store t working' = plain_store t working) /\
  (working <> [] -> working' <> []).
Proof.
  unfold Ingest.ingest_tenant. cbv zeta. set (wanted := default [] (dget t grouped)).
  assert (Hlh : match dget t working with Some s => _live_source_hashes s | None => [] end = _live_source_hashes (default [] (dget t working))) by (by destruct (dget t working)).
  rewrite Hlh. unfold stepped. set (new := new_docs wanted _). set (retire := retire_sources wanted _).
  destruct (decide (new = [] /\ retire = [])) as [[-> ->]|Hc].
  { intros [= <- <- <-]. rewrite mark_none, app_nil_r. split_and!; try done; lia. }
  intros Hr. assert (Hr' : (match dget t working with
    | None => let! s := from_documents embed_fails new in st_ret (dset t s working, (c + Z.of_nat (length new))%Z)
    | Some s =>
      let! added := match new with
                    | [] => st_ret s
                    | _ => match embed_fails new with Some e => st_raise e | None => let! docs := adopt new in st_ret (s ++ docs) end
                    end in
      let! working := write_store shared t added working in
      let (kept, retired) := _soft_delete_stale retire (wanted_hash wanted) added in
      let! working := write_store shared t kept working in
      st_ret (working, (c + Z.of_nat (length new) + (match retire with [] => 0 | _ => retired end))%Z)
    end) w = (Ok (working', c'), w')) by (destruct new; [destruct retire; [tauto|exact Hr]|exact Hr]).
  clear Hr. destruct (dget t working) as [s|] eqn:Et; cbn [default] in *.
  - apply changed_store in Hr' as (Hd & added & kept & retired & [= -> ->] & Hk & Hn & Hz). rewrite !dget_dset, decide_True by done. cbn [default].
    split_and!; [done| |done|intros ?; by do 2 apply NoDup_dset|lia| |intros _; apply dset_ne].
    + intros t' Ht. by rewrite !dget_dset, !decide_False by congruence.
    + intros Hcc. apply Hz; [|lia]. destruct new; [done|cbn [length] in Hcc; lia].
  - apply st_bind_inv in Hr' as [(s & w1 & Hf & [= <- <- <-])|(e & _ & [=])]. apply from_documents_spec in Hf as [Hd Hs].
    rewrite dget_dset, decide_True by done. cbn [default app].
    assert (retire = []) as -> by apply retire_nil. rewrite mark_none.
    split_and!; [done| |done|apply NoDup_dset|lia| |intros _; apply dset_ne].
    + intros t' Ht. by rewrite dget_dset, decide_False by congruence.
    + intros Hcc. change (map plain s = []). rewrite Hs. destruct new; [done|cbn [length] in Hcc; lia].
Qed.

Lemma ingest_tenants_spec shared grouped tenants working c working' c' w w' : NoDup tenants ->
  ingest_tenants embed_fails shared grouped tenants (working, c) w = (Ok (working', c'), w') ->
  iw_disk w' = iw_disk w /\
  (forall t, plain_store t working' =
     if decide (t ∈ tenants) then stepped (default [] (dget t grouped)) (default [] (dget t working)) else plain_store t working) /\
  (NoDup working.*1 -> NoDup working'.*1) /\ (0 <= c' - c)%Z /\ (c' = c -> forall t, plain_store t working' = plain_store t working) /\
  (working <> [] -> working' <> []).
Proof.
  revert working c w. induction tenants as [|t tenants IH]; intros working c w Hnd; cbn [ingest_tenants].
  { intros [= <- <- <-]. split_and!; try done; lia. }
  apply NoDup_cons in Hnd as [Ht Hnd]. intros [([working1 c1] & w1 & Hs & Hr)|(e & _ & [=])]%st_bind_inv.
  apply ingest_tenant_spec in Hs as (Hd1 & Ho1 & Hp1 & Hn1 & Hc1 & Hz1 & Hne1). apply IH in Hr as (Hd & Hp & Hn & Hc & Hz & Hne); [|done].
  split_and!; [congruence| |auto|lia| |auto].
  - intros t'. rewrite Hp. destruct (decide (t' = t)) as [->|Hne'].
    + rewrite decide_False by done. rewrite (decide_True (P := t ∈ t :: tenants)) by by left. exact Hp1.
    + rewrite (Ho1 _ Hne'). destruct (decide (t' ∈ tenants)); [by rewrite decide_True by by right|].
      rewrite decide_False; [done|]. by rewrite elem_of_cons; intros [?|?].
  - intros Hcc t'. assert (c1 = c) as Hc1' by lia. assert (c' = c1) as Hc' by lia. rewrite (Hz Hc').
    destruct (decide (t' = t)) as [->|Hne']; [by apply Hz1|by rewrite Ho1].
Qed.

Lemma all_tenants_spec (working grouped : stores) : NoDup (all_tenants working grouped) /\
  forall t, t ∈ all_tenants working grouped <-> t ∈ working.*1 \/ t ∈ grouped.*1.
Proof.
  unfold all_tenants. split.
  - rewrite py_sorted_perm. assert (Hu : forall (l seen : list pystr), NoDup (uniq seen l)).
    { induction l as [|x l IH]; intros seen; cbn [uniq]; [constructor|]. case_bool_decide; [done|]. constructor; [|done].
      rewrite uniq_elem. intros [_ Hn]. apply Hn. by left. }
    apply Hu.
  - intros t. rewrite elem_of_py_sorted, uniq_elem, elem_of_app. split; [tauto|]. intros ?. split; [tauto|apply not_elem_of_nil].
Qed.

Lemma dget_none {V} (t : pystr) (d : list (pystr * V)) : t ∉ d.*1 -> dget t d = None.
Proof. intros Hn. destruct (dget t d) eqn:E; [|done]. destruct Hn. apply dget_is_Some. by eexists. Qed.

(** An incremental ingest brings the indexes to what the files hold now. *)
Lemma ingest_mirrors docs0 docs shared (existing working : stores) c w w' :
  versioned default_tenant docs0 -> versioned default_tenant docs -> same_versions default_tenant docs0 docs -> mirrors default_tenant docs0 existing ->
  ingest_tenants embed_fails shared (group docs) (all_tenants existing (group docs)) (existing, 0%Z) w = (Ok (working, c), w') ->
  mirrors default_tenant docs working.
Proof.
  intros Hv0 Hv Hsame Hm Hr. destruct (all_tenants_spec existing (group docs)) as [Hnd Hall].
  apply ingest_tenants_spec in Hr as (_ & Hp & _); [|done]. intros t s. unfold content. rewrite Hp. destruct (group_spec default_tenant docs t) as (Hg & Hk & _).
  case_decide as Ht.
  - unfold stepped. rewrite Hg. apply (step_content default_tenant docs0); [done..|]. intros src. apply Hm.
  - rewrite Hall in Ht. rewrite (dget_none t existing) by tauto. cbn [default]. unfold id. cbn [map]. unfold live_of. rewrite filter_nil.
    unfold wanted_content. rewrite filter_none; [done|]. intros d Hd [Hdt _]. apply Ht. right. apply Hk. by exists d.
Qed.

(** ** The disk *)

Lemma dget_filter_in (s : stores) (d : stores) t : t ∈ s.*1 -> dget t (filter (fun ts => ts.1 ∈ s.*1) d) = dget t d.
Proof.
  intros Ht. induction d as [|[t' x] d IH]; [done|]. rewrite filter_cons. cbn [fst dget]. destruct (decide (t' ∈ s.*1)) as [Hi|Hi].
  - cbn [dget]. by destruct (decide (t' = t)).
  - rewrite IH. by rewrite (decide_False (P := t' = t)) by congruence.
Qed.

Lemma save_stores_spec (s : stores) w r w' : NoDup s.*1 -> save_stores spec save_fails s w = (Ok r, w') ->
  (forall t, dget t (dk_stores (iw_disk w')) = match dget t s with Some x => Some x | None => dget t (dk_stores (iw_disk w)) end) /\
  (NoDup (dk_stores (iw_disk w)).*1 -> NoDup (dk_stores (iw_disk w')).*1) /\ dk_legacy (iw_disk w') = dk_legacy (iw_disk w) /\
  (forall t, t ∈ (dk_stores (iw_disk w')).*1 -> t ∈ s.*1 \/ t ∈ (dk_stores (iw_disk w)).*1).
Proof.
  revert w. induction s as [|[t x] s IH]; intros w Hnd; cbn [save_stores]; [intros [= _ <-]; split_and!; auto|].
  cbn [fmap list_fmap fst] in Hnd. apply NoDup_cons in Hnd as [Ht Hnd]. destruct (save_fails t); [done|].
  intros [(? & w1 & [= <- <-] & Hr)|(e & _ & [=])]%st_bind_inv. apply IH in Hr as (Hg & Hn & Hl & Hk); [|done]. cbn [iw_disk dk_stores dk_legacy] in *.
  split_and!; [|intros ?; by apply Hn, NoDup_dset|done|].
  - intros t'. rewrite Hg. cbn [dget]. rewrite dget_dset. destruct (decide (t = t')) as [<-|]; [|done]. by rewrite dget_none.
  - intros t' [?|Hin]%Hk; cbn [fmap list_fmap fst]; rewrite elem_of_cons; [tauto|]. apply elem_of_dset_keys in Hin. tauto.
Qed.

(** The embedding's file says what is configured. *)
Definition our_meta (d : disk) : Prop := exists t, dk_embedding d = Some {| jf_payload :=
  Some (mkdict [(u "backend", JStr (es_backend spec)); (u "model", JStr (es_model spec)); (u "dim", JInt (es_dim spec))]); jf_mtime := t |}.

Lemma our_meta_compatible d : our_meta d -> assert_embedding_compatible spec d = Ok tt.
Proof.
  intros [t Ht]. unfold assert_embedding_compatible. rewrite Ht. cbn [option_bind mbind jf_payload].
  set (stored := mkdict _).
  assert (Hd : get (u "dim") stored = JInt (es_dim spec)) by (vm_compute; reflexivity).
  assert (Hb : get (u "backend") stored = JStr (es_backend spec)) by (vm_compute; reflexivity).
  assert (Hm : get (u "model") stored = JStr (es_model spec)) by (vm_compute; reflexivity).
  assert (Hs : forall s, str_or_empty repr (JStr s) = s) by (intros s; unfold str_or_empty; cbn; by destruct s).
  rewrite Hd, Hb, Hm, !Hs.
  assert (Hi : int_of_json (if jtruthy (JInt (es_dim spec)) then JInt (es_dim spec) else JInt 0) = Ok (es_dim spec)).
  { destruct (jtruthy _) eqn:E; [done|]. cbn [jtruthy] in E. cbn [int_of_json]. f_equal. lia. }
  cbv zeta. rewrite Hi. cbn [rbind]. unfold spec_eqb. cbn [es_backend es_model es_dim]. rewrite !bool_decide_true, Z.eqb_refl by done. cbn.
  by destruct (dk_stores d), (dk_legacy d).
Qed.

Lemma persist_spec (s : stores) w r w' : NoDup s.*1 -> _persist_indexes spec save_fails now_ns s w = (Ok r, w') ->
  let d := iw_disk w' in
  (forall t, dget t (dk_stores d) = dget t s) /\ (NoDup (dk_stores (iw_disk w)).*1 -> NoDup (dk_stores d).*1) /\ dk_legacy d = None /\ our_meta d.
Proof.
  intros Hnd. unfold _persist_indexes. intros [(? & w1 & [= <- <-] & Hr)|(e & _ & [=])]%st_bind_inv.
  apply st_bind_inv in Hr as [(? & w2 & Hs & Hr)|(e & _ & [=])]. apply save_stores_spec in Hs as (Hg & Hn & Hl & Hk); [|done].
  cbn [iw_disk dk_stores dk_legacy] in *. apply st_bind_inv in Hr as [(? & w3 & [= <- <-] & [= _ <-])|(e & _ & [=])].
  cbn [iw_disk _write_generation _write_embedding_meta dk_stores dk_legacy dk_embedding]. split_and!; [| |done|by eexists].
  - intros t. rewrite Hg. destruct (dget t s) eqn:E; [done|]. apply dget_none. intros (ts & -> & Hin)%list_elem_of_fmap.
    apply list_elem_of_filter in Hin as [Hin _]. apply dget_is_Some in Hin as [? ?]. congruence.
  - intros Hd. apply Hn. eapply sublist_NoDup; [exact Hd|]. apply (sublist_map fst), sublist_filter.
Qed.

Lemma load_stores_spec (s s' : stores) w w' : load_stores s w = (Ok s', w') ->
  iw_disk w' = iw_disk w /\ s'.*1 = s.*1 /\ forall t, plain_store t s' = plain_store t s.
Proof.
  revert s' w. induction s as [|[t x] s IH]; intros s' w; cbn [load_stores]; [by intros [= <- <-]|].
  intros [(docs & w1 & Ha & Hr)|(e & _ & [=])]%st_bind_inv. apply adopt_spec in Ha as [Hp Hd].
  apply st_bind_inv in Hr as [(rest & w2 & Hl & [= <- <-])|(e & _ & [=])]. apply IH in Hl as (Hd2 & Hk & Hps).
  split_and!; [congruence|cbn; by rewrite Hk|]. intros t'. cbn [dget]. destruct (decide (t = t')); [done|apply Hps].
Qed.
End operations.

(** ** What the files ask for *)

Section files.
Context `{RetrievalServices}.
Context (markdown_split : pystr -> list (pystr * dict)) (fallback_split child_split : pystr -> list pystr) (sha256 : list N -> pystr).
Context (courses : option (list Course)) (default_tenant : pystr).
Abbreviation load := (load_knowledge_documents markdown_split fallback_split child_split sha256 courses default_tenant).
Abbreviation chunk := (_chunk_markdown markdown_split fallback_split child_split sha256).
Abbreviation stamp := (_stamp_catalog courses default_tenant).
Abbreviation outlines := (outlines default_tenant).
Abbreviation wanted_content := (wanted_content default_tenant).

(** The splitter's headings are headings; the hash is a text, and no two files in play
    collide. *)
Class OutlineLaws : Prop := {
  ol_headings : only_headings markdown_split;
  ol_digest raw : truthy (sha256 raw) = true;
  ol_collision raw raw' : sha256 raw = sha256 raw' -> raw = raw';
}.
Context `{OutlineLaws}.

(** A tenant's files have names of their own, and the tenants have names. *)
Record kd_ok (kd : knowledge_dir) : Prop := {
  ko_names : NoDup (map (fun f => (f.1, mf_name f.2)) (outlines kd));
  ko_tenants f : f ∈ outlines kd -> truthy f.1 = true;
}.

Definition file_documents (f : pystr * md_file) : res exn (list Document) := let? docs := chunk f in stamp docs.

Lemma map_res_app {A B} (f : A -> res exn B) l l' : map_res f (l ++ l') = (let? a := map_res f l in let? b := map_res f l' in Ok (a ++ b)).
Proof.
  induction l as [|x l IH]; cbn [map_res app]; [by destruct (map_res f l')|]. destruct (f x); [|done]. cbn [rbind]. rewrite IH.
  destruct (map_res f l); [|done]. cbn [rbind]. by destruct (map_res f l').
Qed.

Lemma stamp_app l l' : stamp (l ++ l') = (let? a := stamp l in let? b := stamp l' in Ok (a ++ b)).
Proof. unfold _stamp_catalog. destruct (load_course_catalog courses None); [done|apply map_res_app]. Qed.
Lemma stamp_nil : stamp [] = Ok [].
Proof. unfold _stamp_catalog. by destruct (load_course_catalog courses None). Qed.

Lemma load_files kd docs : load kd = Ok docs -> exists dss, map_res file_documents (outlines kd) = Ok dss /\ docs = concat dss.
Proof.
  unfold load_knowledge_documents. intros (raw & Hr & Hs)%rbind_ok. revert raw docs Hr Hs.
  induction (outlines kd) as [|f fs IH]; intros raw docs; cbn [map_res].
  { intros [= <-]. cbn [concat]. rewrite stamp_nil. intros [= <-]. by exists []. }
  unfold file_documents at 1. destruct (chunk f) as [ds|e]; [|done]. cbn [rbind]. intros (rest & Hr & [= <-])%rbind_ok. cbn [concat]. rewrite stamp_app.
  intros (a & -> & (b & Hb & [= <-])%rbind_ok)%rbind_ok. destruct (IH _ _ Hr Hb) as (dss & -> & ->). cbn [rbind]. by exists (a :: dss).
Qed.

Lemma outline_md kd f : f ∈ outlines kd -> is_suffix (u ".md") (mf_name f.2) = true.
Proof.
  assert (Hm : forall files g, g ∈ md_files files -> is_suffix (u ".md") (mf_name g) = true).
  { intros files g. unfold md_files. rewrite elem_of_py_sorted, list_elem_of_filter. tauto. }
  unfold Ingest.outlines. rewrite elem_of_app. intros [Hf|Hf].
  - apply list_elem_of_fmap in Hf as (g & -> & Hg). by eapply Hm.
  - apply list_elem_of_bind in Hf as (d & Hf & _). apply list_elem_of_fmap in Hf as (g & -> & Hg). by eapply Hm.
Qed.

Lemma md_truthy name : is_suffix (u ".md") name = true -> truthy name = true.
Proof. intros (t & ->)%is_suffix_app. by destruct t. Qed.

(** What stamping leaves alone. *)
Lemma stamp_document_meta d d' k : stamp_document courses default_tenant d = Ok d' ->
  bool_decide (k ∈ map u ["course_code"; "course_name"; "course_aliases"]%string) = false -> meta k d' = meta k d.
Proof.
  intros Hd Hk%bool_decide_eq_false. unfold stamp_document in Hd. apply rbind_ok in Hd as (code & _ & Hd).
  destruct (negb (truthy code)); [by injection Hd as <-|]. destruct (catalog_name _ _ _) as [name|]; [|by injection Hd as <-].
  destruct (truthy name); [|by injection Hd as <-]. cbv zeta in Hd. injection Hd as <-. unfold meta, with_meta. cbn [metadata]. rewrite get_dmerge.
  assert (Hnone : forall l : list (pystr * json), k ∉ l.*1 -> mkdict l !! k = None).
  { intros l. unfold mkdict. assert (Hg : forall m : dict, m !! k = None -> k ∉ l.*1 -> foldl (fun d '(k, v) => <[k:=v]> d) m l !! k = None).
    { induction l as [|[k' v] l IH]; intros m Hm Hn; [done|]. cbn [foldl]. cbn [fmap list_fmap fst] in Hn. apply not_elem_of_cons in Hn as [? ?].
      apply IH; [by rewrite lookup_insert_ne|done]. }
    apply Hg, lookup_empty. }
  rewrite Hnone; [done|]. intros Hin. apply Hk. revert Hin. destruct (aliases_for_course_code code) as [|a l];
    rewrite ?fmap_app, ?elem_of_app; cbn [fmap list_fmap fst map]; rewrite !elem_of_cons, ?elem_of_nil; tauto.
Qed.

Lemma file_documents_spec kd f docs d : kd_ok kd -> f ∈ outlines kd -> file_documents f = Ok docs -> d ∈ docs ->
  _tenant_of default_tenant d = f.1 /\ source_of d = mf_name f.2 /\ hash_of d = sha256 (mf_raw f.2) /\ _is_deleted d = false /\
  document_course_code repr d = Ok (stem (mf_name f.2)).
Proof.
  intros Hkd Hf Hd Hin. pose proof (outline_md _ _ Hf) as Hmd. apply rbind_ok in Hd as (ds & Hc & Hs).
  assert (Hx : exists d0, d0 ∈ ds /\ (d = d0 \/ stamp_document courses default_tenant d0 = Ok d)).
  { unfold _stamp_catalog in Hs. destruct (load_course_catalog courses None); [injection Hs as <-; exists d; by split; [|left]|].
    apply map_res_spec in Hs. apply list_elem_of_lookup in Hin as (i & Hi). destruct (Forall2_lookup_r _ _ _ _ _ Hs Hi) as (d0 & Hd0 & Hst).
    exists d0. split; [by eapply list_elem_of_lookup_2|by right]. }
  destruct Hx as (d0 & Hd0 & Hx). pose proof (ol_headings) as Hh. destruct (built_of_block _ _ _ _ Hh _ _ _ _ _ Hc Hd0) as (b & role & c & [Hsrc Hcd Htn Hha Hdl _ _ _]).
  assert (Hm : forall k, bool_decide (k ∈ map u ["course_code"; "course_name"; "course_aliases"]%string) = false -> meta k d = meta k d0).
  { intros k Hk. destruct Hx as [->|Hx]; [done|by apply (stamp_document_meta d0)]. }
  unfold _tenant_of, source_of, hash_of, _is_deleted. rewrite !Hm by (vm_compute; reflexivity).
  rewrite Hsrc, Htn, Hha, Hdl. unfold str_or_empty. cbn [jtruthy py_str].
  rewrite (ko_tenants _ Hkd _ Hf), (md_truthy _ Hmd), ol_digest. split_and!; try done.
  assert (Hcode : document_course_code repr d0 = Ok (stem (mf_name f.2))).
  { unfold document_course_code. rewrite Hcd. cbn [jtruthy]. rewrite (stem_truthy _ Hmd). cbv zeta. unfold str_or_empty. cbn [jtruthy py_str].
    by rewrite !(stem_truthy _ Hmd). }
  destruct Hx as [->|Hx]; [done|]. unfold stamp_document in Hx. rewrite Hcode in Hx. cbn [rbind] in Hx. rewrite (stem_truthy _ Hmd) in Hx. cbn [negb] in Hx.
  destruct (catalog_name _ _ _) as [name|]; [|by injection Hx as <-]. destruct (truthy name); [|by injection Hx as <-]. cbv zeta in Hx. injection Hx as <-.
  unfold document_course_code, meta, with_meta. cbn [metadata]. rewrite !get_dmerge.
  assert (Hl : forall l : list (pystr * json), Forall (fun kv => kv.1 <> u "course_code") l ->
    mkdict ((u "course_code", JStr (stem (mf_name f.2))) :: (u "course_name", JStr name) :: l) !! u "course_code" = Some (JStr (stem (mf_name f.2)))).
  { intros l. change (mkdict _) with (mkdict ([(u "course_code", JStr (stem (mf_name f.2))); (u "course_name", JStr name)] ++ l)).
    unfold mkdict. rewrite foldl_app. induction l as [|[k v] l IH] using rev_ind; intros Hl; [vm_compute; reflexivity|].
    apply Forall_app in Hl as [Hl [Hk _]%Forall_cons]. rewrite foldl_app. cbn [foldl]. rewrite lookup_insert_ne by done. by apply IH. }
  rewrite Hl; [|destruct (aliases_for_course_code _); [constructor|constructor; [|constructor]]; cbn; by intros [=]].
  cbn [jtruthy]. rewrite (stem_truthy _ Hmd). cbv zeta. unfold str_or_empty. cbn [jtruthy py_str]. by rewrite !(stem_truthy _ Hmd).
Qed.

(** A document of the load is of one of its files. *)
Lemma loaded_file kd docs d : load kd = Ok docs -> d ∈ docs -> exists f ds, f ∈ outlines kd /\ file_documents f = Ok ds /\ d ∈ ds.
Proof.
  intros (dss & Hm & ->)%load_files Hd. apply map_res_spec in Hm. apply list_elem_of_In, in_concat in Hd as (ds & Hds & Hd).
  apply list_elem_of_In, list_elem_of_lookup in Hds as (i & Hi). destruct (Forall2_lookup_r _ _ _ _ _ Hm Hi) as (f & Hf & Hfd).
  exists f, ds. split_and!; [by eapply list_elem_of_lookup_2|done|by apply list_elem_of_In].
Qed.

Lemma loaded_versioned kd docs : kd_ok kd -> load kd = Ok docs -> versioned default_tenant docs.
Proof.
  intros Hkd Hl. split.
  - intros d Hd. destruct (loaded_file _ _ _ Hl Hd) as (f & ds & Hf & Hfd & Hin).
    destruct (file_documents_spec _ _ _ _ Hkd Hf Hfd Hin) as (_ & -> & -> & -> & _). split_and!; [|apply ol_digest|done].
    by eapply md_truthy, outline_md.
  - intros d d' Hd Hd' Ht Hs. destruct (loaded_file _ _ _ Hl Hd) as (f & ds & Hf & Hfd & Hin), (loaded_file _ _ _ Hl Hd') as (f' & ds' & Hf' & Hfd' & Hin').
    destruct (file_documents_spec _ _ _ _ Hkd Hf Hfd Hin) as (Ht1 & Hs1 & -> & _), (file_documents_spec _ _ _ _ Hkd Hf' Hfd' Hin') as (Ht2 & Hs2 & -> & _).
    assert (f = f') as ->; [|done]. apply list_elem_of_lookup in Hf as (i & Hi), Hf' as (j & Hj).
    assert (i = j) as <-; [|congruence]. apply (NoDup_lookup _ _ _ (f.1, mf_name f.2) (ko_names _ Hkd)); rewrite list_lookup_fmap; [by rewrite Hi|].
    rewrite Hj. cbn. congruence.
Qed.

(** What is asked for of a file. *)
Lemma wanted_file kd docs f ds : kd_ok kd -> load kd = Ok docs -> f ∈ outlines kd -> file_documents f = Ok ds ->
  wanted_content f.1 (mf_name f.2) docs = map plain ds.
Proof.
  intros Hkd (dss & Hm & ->)%load_files Hf Hfd. unfold Ingest.wanted_content. f_equal. apply map_res_spec in Hm.
  pose proof (ko_names _ Hkd) as Hnd. assert (Hall : forall g, g ∈ outlines kd -> g ∈ outlines kd) by done. revert Hm Hnd Hf Hall.
  generalize (outlines kd) at 1 2 3 4. intros fs. induction 1 as [|g gs fs dss Hg Hm IH]; intros Hnd Hf Hall; [by apply elem_of_nil in Hf|].
  cbn [concat map]. rewrite filter_app. cbn [map] in Hnd. apply NoDup_cons in Hnd as [Hn Hnd].
  assert (Hother : forall f' ds', f' ∈ outlines kd -> file_documents f' = Ok ds' -> (f'.1, mf_name f'.2) <> (f.1, mf_name f.2) ->
    filter (fun d => _tenant_of default_tenant d = f.1 /\ source_of d = mf_name f.2) ds' = []).
  { intros f' ds' Hf' Hd' Hne. apply filter_none. intros d Hd [Ht Hs]. destruct (file_documents_spec _ _ _ _ Hkd Hf' Hd' Hd) as (Ht' & Hs' & _). congruence. }
  apply elem_of_cons in Hf as [<-|Hf].
  - rewrite Hfd in Hg. injection Hg as <-. rewrite filter_all.
    + rewrite filter_none; [by rewrite app_nil_r|]. intros d Hd Hd'. apply list_elem_of_In, in_concat in Hd as (ds' & Hds & Hd).
      apply list_elem_of_In, list_elem_of_lookup in Hds as (i & Hi). destruct (Forall2_lookup_r _ _ _ _ _ Hm Hi) as (g & Hgi & Hgd).
      apply list_elem_of_lookup_2 in Hgi. apply (not_elem_of_nil d). rewrite <- (Hother g ds'); [|apply Hall; by right|done|].
      * apply list_elem_of_filter. split; [done|by apply list_elem_of_In].
      * intros He. apply Hn. rewrite <- He. by apply (list_elem_of_fmap_2 (fun f => (f.1, mf_name f.2))).
    + apply Forall_forall. intros d Hd. destruct (file_documents_spec kd f ds d Hkd) as (? & ? & _); [apply Hall; by left|done|done|done].
  - rewrite (Hother g gs); [|apply Hall; by left|done|].
    + apply IH; [done|done|]. intros g' Hg'. apply Hall. by right.
    + intros He. apply Hn. rewrite He. by apply (list_elem_of_fmap_2 (fun f => (f.1, mf_name f.2))).
Qed.

Lemma loaded_same kd kd' docs docs' : kd_ok kd -> kd_ok kd' -> load kd = Ok docs -> load kd' = Ok docs' -> same_versions default_tenant docs docs'.
Proof.
  intros Hkd Hkd' Hl Hl' d d' Hd Hd' Ht Hs Hh.
  destruct (loaded_file _ _ _ Hl Hd) as (f & ds & Hf & Hfd & Hin), (loaded_file _ _ _ Hl' Hd') as (f' & ds' & Hf' & Hfd' & Hin').
  destruct (file_documents_spec _ _ _ _ Hkd Hf Hfd Hin) as (Ht1 & Hs1 & Hh1 & _), (file_documents_spec _ _ _ _ Hkd' Hf' Hfd' Hin') as (Ht2 & Hs2 & Hh2 & _).
  assert (f = f') as <-.
  { assert (mf_raw f.2 = mf_raw f'.2) by (apply ol_collision; congruence). destruct f as [t [n r]], f' as [t' [n' r']]. cbn in *. congruence. }
  rewrite Hfd in Hfd'. injection Hfd' as <-. rewrite Ht1, Hs1. by rewrite (wanted_file kd docs f ds), (wanted_file kd' docs' f ds).
Qed.

(** Everything loaded says which course it is of. *)
Lemma loaded_stamped kd docs d : kd_ok kd -> load kd = Ok docs -> d ∈ docs -> stamped d.
Proof.
  intros Hkd Hl Hd. destruct (loaded_file _ _ _ Hl Hd) as (f & ds & Hf & Hfd & Hin). unfold stamped.
  by destruct (file_documents_spec _ _ _ _ Hkd Hf Hfd Hin) as (_ & _ & _ & _ & ->).
Qed.
End files.

(** ** Processes around one disk *)

Record system := { sy_disk : disk; sy_workers : list process }.
(** One worker acts. *)
Definition at_worker {A} (i : nat) (m : ST index_world exn A) (sys : system) : option (res exn A * system) :=
  match sy_workers sys !! i with
  | Some p => let (r, w) := m {| iw_disk := sy_disk sys; iw_process := p |} in
              Some (r, {| sy_disk := iw_disk w; sy_workers := <[i := iw_process w]> (sy_workers sys) |})
  | None => None
  end.

Section system.
Context `{!RetrievalServices, !RetrievalLaws}.
Context (markdown_split : pystr -> list (pystr * dict)) (fallback_split child_split : pystr -> list pystr) (sha256 : list N -> pystr).
Context (courses : option (list Course)) (default_tenant : pystr) (spec : EmbeddingSpec).
Context `{!OutlineLaws markdown_split sha256}.
Context (settings : rag_settings) (Hsettings : settings_ok settings).
Abbreviation load := (load_knowledge_documents markdown_split fallback_split child_split sha256 courses default_tenant).
Abbreviation mirrors := (mirrors default_tenant).
Abbreviation plain_store t st := (map plain (default [] (dget t st))).
Abbreviation get_indexes embed_fails := (get_indexes default_tenant spec embed_fails).
Abbreviation ingest embed_fails save_fails now rebuild kd := (ingest_indexes markdown_split fallback_split child_split sha256 courses default_tenant
  spec embed_fails save_fails now true rebuild kd).

(** A search, from the indexes to the hits. *)
Definition search (embed_fails : list Document -> option exn) (query tenant_id : pystr) (k : Z) (course_code : option pystr) (parts : list pystr) :
    ST index_world exn TenantSearchResult :=
  let! s := get_indexes embed_fails in fun w =>
    let p := iw_process w in
    let (r, cache) := search_tenant_documents (indexes_of s) settings query tenant_id k course_code parts (pr_lexical p) in
    (r, {| iw_disk := iw_disk w; iw_process := {| pr_indexes := pr_indexes p; pr_pinned := pr_pinned p; pr_revision := pr_revision p;
                                                  pr_lexical := cache; pr_next := pr_next p |} |}).

(** The disk holds what the documents ask for, and can be read. *)
Record disk_ok (docs : list Document) (d : disk) : Prop := {
  do_keys : NoDup (dk_stores d).*1;
  do_legacy : dk_legacy d = None;
  do_meta : our_meta spec d;
  do_some : dk_stores d <> [];
  do_mirrors : mirrors docs (dk_stores d);
}.
(** Memory read at the disk's generation is what the disk holds; word indexes are those of
    the memory. *)
Record worker_ok (docs : list Document) (d : disk) (p : process) : Prop := {
  wo_pinned : pr_pinned p = false;
  wo_indexes s : pr_indexes p = Some s -> NoDup s.*1 /\ s <> [] /\ lexical_ok (indexes_of s) (pr_lexical p);
  wo_current s : pr_indexes p = Some s -> pr_revision p = Some (disk_index_revision d) -> mirrors docs s;
}.

Lemma dget_perm {V} (l l' : list (pystr * V)) t : NoDup l.*1 -> l ≡ₚ l' -> dget t l = dget t l'.
Proof.
  intros Hnd Hp. destruct (dget t l) as [x|] eqn:E.
  - symmetry. apply elem_dget; [by rewrite <- Hp|]. rewrite <- Hp. by apply dget_Some_elem.
  - symmetry. apply dget_none. rewrite <- Hp. intros Hin. apply dget_is_Some in Hin as [? ?]. congruence.
Qed.

Lemma load_stores_total (s : stores) w : exists s' w', load_stores s w = (Ok s', w').
Proof.
  revert w. induction s as [|[t x] s IH]; intros w; cbn [load_stores]; [by do 2 eexists|].
  unfold st_bind, adopt. match goal with |- context [load_stores s ?w1] => destruct (IH w1) as (s' & w' & ->) end. by do 2 eexists.
Qed.

Lemma read_indexes_spec embed_fails docs w : disk_ok docs (iw_disk w) ->
  exists s w', _read_indexes default_tenant spec embed_fails w = (Ok (Some s), w') /\ iw_disk w' = iw_disk w /\
    mirrors docs s /\ NoDup s.*1 /\ s <> [].
Proof.
  intros [Hk Hl Hm Hs Hmi]. unfold _read_indexes. cbv zeta. rewrite (our_meta_compatible spec _ Hm).
  destruct (load_stores_total (_tenant_index_dirs (iw_disk w)) w) as (s & w' & Hr). exists s, w'.
  destruct (dk_stores (iw_disk w)) as [|x l] eqn:E; [done|]. rewrite <- E in *.
  rewrite (st_bind_ok _ _ _ _ _ Hr). apply load_stores_spec in Hr as (Hd & Hkeys & Hp).
  assert (Hperm : _tenant_index_dirs (iw_disk w) ≡ₚ dk_stores (iw_disk w)) by apply py_sorted_perm.
  split_and!; [done|done| |rewrite Hkeys, Hperm; done|].
  - apply (mirrors_proper default_tenant docs (dk_stores (iw_disk w))); [|done]. intros t. rewrite Hp. by rewrite <- (dget_perm _ _ t Hk (symmetry Hperm)).
  - intros ->. symmetry in Hkeys. apply fmap_nil_inv in Hkeys. rewrite Hkeys in Hperm. apply Permutation_nil in Hperm. done.
Qed.

Definition installed (docs : list Document) (s : stores) (w : index_world) : Prop :=
  pr_indexes (iw_process w) = Some s /\ worker_ok docs (iw_disk w) (iw_process w).

Lemma install_spec docs s d p w' : mirrors docs s -> NoDup s.*1 -> s <> [] ->
  _install_indexes (Some s) false (Some (disk_index_revision d)) {| iw_disk := d; iw_process := p |} = (Ok tt, w') ->
  iw_disk w' = d /\ installed docs s w' /\ pr_lexical (iw_process w') = ∅.
Proof.
  intros Hm Hn Hs [= <-]. split_and!; [done| |done]. split; [done|]. split; cbn; [done| |by intros ? [= ->]].
  intros ? [= ->]. split_and!; [done|done|]. intros scope i. by rewrite lookup_empty.
Qed.

(** An unpinned worker gets what the disk holds. *)
Lemma get_spec embed_fails docs w : disk_ok docs (iw_disk w) -> worker_ok docs (iw_disk w) (iw_process w) ->
  exists s w', get_indexes embed_fails w = (Ok s, w') /\ iw_disk w' = iw_disk w /\ mirrors docs s /\ installed docs s w'.
Proof.
  intros Hd [Hp Hi Hc]. unfold Ingest.get_indexes, st_bind at 1, st_get. cbv zeta.
  assert (Hload : exists s w', (let! loaded := st_except (_read_indexes default_tenant spec embed_fails)
             (on_mismatch (fun e => st_raise (OtherExc UNAVAILABLE (msg_of e)))) in
           match loaded with
           | Some s => do! _install_indexes (Some s) false (Some (disk_index_revision (iw_disk w))) in st_ret s
           | None => st_raise (OtherExc UNAVAILABLE (u "FAISS 索引不存在或无法加载"))
           end) w = (Ok s, w') /\ iw_disk w' = iw_disk w /\ mirrors docs s /\ installed docs s w').
  { destruct (read_indexes_spec embed_fails docs w Hd) as (s & w1 & Hr & Hd1 & Hm & Hn & Hs).
    unfold st_bind at 1, st_except. rewrite Hr. destruct w1 as [d1 p1]. cbn [iw_disk] in Hd1. subst d1.
    unfold st_bind. destruct (_install_indexes _ _ _ _) as [[[]|e] w2] eqn:Ei; [|done].
    destruct (install_spec docs _ _ _ _ Hm Hn Hs Ei) as (? & ? & _). exists s, w2. by split_and!. }
  destruct (pr_indexes (iw_process w)) as [s|] eqn:Es; [|exact Hload]. rewrite Hp. cbn [orb]. case_bool_decide as Hrev; [|exact Hload].
  exists s, w. split_and!; [done|done|exact (Hc s eq_refl Hrev)|]. split; [done|]. by split; [|rewrite Es|rewrite Es].
Qed.

Lemma stores_from_groups_spec embed_fails (grouped s : stores) w w' : NoDup grouped.*1 -> _stores_from_groups embed_fails grouped w = (Ok s, w') ->
  iw_disk w' = iw_disk w /\ sublist s.*1 grouped.*1 /\ forall t, plain_store t s = plain_store t grouped.
Proof.
  revert s w. induction grouped as [|[t docs] grouped IH]; intros s w Hnd; cbn [_stores_from_groups]; [intros [= <- <-]; split_and!; [reflexivity|apply sublist_nil|reflexivity]|].
  cbn [fmap list_fmap fst] in Hnd. apply NoDup_cons in Hnd as [Ht Hnd]. destruct docs as [|d docs].
  - intros Hr. apply IH in Hr as (Hd & Hs & Hp); [|done]. split_and!; [done|by constructor|]. intros t'. rewrite Hp. cbn [dget].
    destruct (decide (t = t')) as [<-|]; [|done]. by rewrite dget_none.
  - intros [(x & w1 & Hf & Hr)|(e & _ & [=])]%st_bind_inv. apply from_documents_spec in Hf as [Hd1 Hx].
    apply st_bind_inv in Hr as [(rest & w2 & Hg & [= <- <-])|(e & _ & [=])]. apply IH in Hg as (Hd & Hs & Hp); [|done].
    split_and!; [congruence|by apply sublist_skip|]. intros t'. cbn [dget]. destruct (decide (t = t')); [exact Hx|apply Hp].
Qed.

Lemma persist_install docs (s : stores) save_fails now w w' u : NoDup (dk_stores (iw_disk w)).*1 -> NoDup s.*1 -> s <> [] -> mirrors docs s ->
  (do! _persist_indexes spec save_fails now s in install_persisted s) w = (Ok u, w') ->
  disk_ok docs (iw_disk w') /\ installed docs s w'.
Proof.
  intros Hdk Hn Hs Hm [([] & w1 & Hp & Hr)|(e & _ & [=])]%st_bind_inv. apply (persist_spec spec (fun _ => None)) in Hp as (Hg & Hk & Hl & Hme); [|done].
  unfold install_persisted, st_bind at 1, st_get in Hr. destruct w1 as [d1 p1]. cbn [iw_disk] in *. destruct u.
  apply (install_spec docs) in Hr as (-> & Hin & _); [|done..]. split; [|done]. split; [by apply Hk|done|done| |].
  - destruct s as [|[t x] s]; [done|]. specialize (Hg t). cbn [dget] in Hg. rewrite decide_True in Hg by done. by intros He; rewrite He in Hg.
  - apply (mirrors_proper default_tenant docs s); [|done]. intros t. by rewrite Hg.
Qed.

Lemma build_spec embed_fails save_fails now kd docs s w w' : load kd = Ok docs -> versioned default_tenant docs -> NoDup (dk_stores (iw_disk w)).*1 ->
  build_faiss_index markdown_split fallback_split child_split sha256 courses default_tenant spec embed_fails save_fails now true kd w = (Ok s, w') ->
  docs <> [] /\ disk_ok docs (iw_disk w') /\ installed docs s w'.
Proof.
  intros Hl Hv Hdk. unfold build_faiss_index. unfold st_bind at 1, lift_res. rewrite Hl. destruct docs as [|d docs]; [done|]. set (ds := d :: docs) in *.
  intros [(st & w1 & Hg & Hr)|(e & _ & [=])]%st_bind_inv. destruct (group_spec default_tenant ds (_tenant_of default_tenant d)) as (Hgd & _ & Hgn).
  apply stores_from_groups_spec in Hg as (Hd & Hsub & Hp); [|done].
  apply st_bind_inv in Hr as [([] & w2 & Hpi & [= <- <-])|(e & _ & [=])].
  assert (Hne : st <> []).
  { intros ->. specialize (Hp (_tenant_of default_tenant d)). rewrite Hgd in Hp. unfold ds in Hp. rewrite filter_cons, decide_True in Hp by done. done. }
  split; [done|]. eapply persist_install; [|by eapply sublist_NoDup|done| |exact Hpi]; [by rewrite Hd|].
  apply (groups_mirror default_tenant ds); [done|exact Hp].
Qed.

(** Two sets of documents that one index mirrors are mirrored by the same indexes. *)
Lemma mirrors_both docs0 docs st st' : mirrors docs0 st -> mirrors docs st -> mirrors docs0 st' -> mirrors docs st'.
Proof. intros Ha Hb Hc t s. by rewrite Hc, <- Ha, Hb. Qed.

(** What a successful ingest leaves, when the worker's memory is current or empty. *)
Lemma ingest_spec embed_fails save_fails now rebuild kd docs0 docs s w w' :
  load kd = Ok docs -> versioned default_tenant docs -> versioned default_tenant docs0 -> same_versions default_tenant docs0 docs ->
  disk_ok docs0 (iw_disk w) -> worker_ok docs0 (iw_disk w) (iw_process w) ->
  rebuild = true \/ pr_indexes (iw_process w) = None \/ pr_revision (iw_process w) = Some (disk_index_revision (iw_disk w)) ->
  ingest embed_fails save_fails now rebuild kd w = (Ok s, w') ->
  docs <> [] /\ disk_ok docs (iw_disk w') /\ installed docs s w'.
Proof.
  intros Hl Hv Hv0 Hsame Hd [Hp Hi Hc] Hcur. unfold ingest_indexes. destruct rebuild; [apply build_spec; [done|done|apply Hd]|].
  unfold st_bind at 1, st_get. intros [(existing & w1 & He & Hr)|(e & _ & [=])]%st_bind_inv.
  assert (Hex : exists st, existing = Some st /\ iw_disk w1 = iw_disk w /\ mirrors docs0 st /\ NoDup st.*1 /\ st <> []).
  { destruct (pr_indexes (iw_process w)) as [st|] eqn:Es.
    - injection He as <- <-. exists st. destruct (Hi st eq_refl) as (? & ? & _). destruct Hcur as [?|[?|?]]; [done|done|]. by split_and!; [| |apply Hc| |].
    - destruct (read_indexes_spec embed_fails docs0 w Hd) as (st & w2 & Hr2 & Hd2 & Hm & Hn & Hs). unfold _read_indexes_or_rebuild, st_except in He.
      rewrite Hr2 in He. injection He as <- <-. exists st. by split_and!. }
  destruct Hex as (st & -> & Hd1 & Hm & Hn & Hs). set (shared := bool_decide _) in Hr. clearbody shared.
  destruct st as [|x st0]; [done|]. set (st := x :: st0) in *. unfold st_bind at 1, lift_res in Hr. rewrite Hl in Hr.
  destruct docs as [|d ds]; [done|]. set (docs := d :: ds) in *.
  apply st_bind_inv in Hr as [([working c] & w2 & Hg & Hr)|(e & _ & [=])].
  pose proof (ingest_mirrors default_tenant embed_fails save_fails docs0 docs shared st working c w1 w2 Hv0 Hv Hsame Hm Hg) as Hmw.
  destruct (all_tenants_spec default_tenant save_fails st (_group_documents default_tenant docs)) as [Hnd _].
  apply (ingest_tenants_spec default_tenant embed_fails save_fails) in Hg as (Hd2 & _ & Hnw & Hcc & Hz & Hne); [|done].
  apply st_bind_inv in Hr as [([] & w3 & Hpi & [= <- <-])|(e & _ & [=])]. split; [done|]. revert Hpi.
  destruct (0 <? c)%Z eqn:Ec; intros Hpi.
  - eapply persist_install; [|by apply Hnw|by apply Hne|done|exact Hpi]. rewrite Hd2, Hd1. apply Hd.
  - unfold install_persisted, st_bind at 1, st_get in Hpi. destruct w2 as [d2 p2]. cbn [iw_disk] in *.
    apply (install_spec docs) in Hpi as (-> & Hin & _); [|done|by apply Hnw|by apply Hne]. rewrite Hd2, Hd1 in *. split; [|done].
    destruct Hd as [Hk Hle Hme Hso Hmi]. split; try done. apply (mirrors_both docs0 docs st); [done| |done].
    apply (mirrors_proper default_tenant docs working); [|done]. apply Hz. lia.
Qed.

(** ** Any workers, any time *)

(** What can happen: the processes start with nothing indexed; a worker searches; a worker
    ingests what the directory holds now, successfully, from scratch, as its first use of
    the index, or with the disk's generation in memory.  The generation an ingest writes is
    new to the other workers. *)
Inductive reached : option knowledge_dir -> system -> Prop :=
| Booted sys : dk_stores (sy_disk sys) = [] -> dk_legacy (sy_disk sys) = None ->
    Forall (fun p => pr_indexes p = None /\ pr_pinned p = false) (sy_workers sys) -> reached None sys
| Searched kd sys i embed_fails query tenant_id k course_code parts r sys' :
    reached kd sys -> (1 <= k)%Z ->
    at_worker i (search embed_fails query tenant_id k course_code parts) sys = Some (r, sys') -> reached kd sys'
| Ingested kd0 kd sys i embed_fails save_fails now rebuild s sys' :
    reached kd0 sys -> kd_ok default_tenant kd ->
    (forall p, sy_workers sys !! i = Some p ->
       rebuild = true \/ pr_indexes p = None \/ pr_revision p = Some (disk_index_revision (sy_disk sys))) ->
    at_worker i (ingest embed_fails save_fails now rebuild kd) sys = Some (Ok s, sys') ->
    sy_disk sys' = sy_disk sys \/
      (forall j p, j <> i -> sy_workers sys !! j = Some p -> pr_revision p <> Some (disk_index_revision (sy_disk sys'))) ->
    reached (Some kd) sys'.

Definition system_ok (kd : option knowledge_dir) (sys : system) : Prop :=
  match kd with
  | None => dk_stores (sy_disk sys) = [] /\ dk_legacy (sy_disk sys) = None /\
      Forall (fun p => pr_indexes p = None /\ pr_pinned p = false) (sy_workers sys)
  | Some kd => kd_ok default_tenant kd /\ exists docs, load kd = Ok docs /\ docs <> [] /\ disk_ok docs (sy_disk sys) /\
      Forall (worker_ok docs (sy_disk sys)) (sy_workers sys)
  end.

(** What the other workers know after the disk changed, or did not. *)
Lemma others_ok docs0 docs d d' p : disk_ok docs0 d -> disk_ok docs d' -> worker_ok docs0 d p ->
  (d' = d \/ pr_revision p <> Some (disk_index_revision d')) -> worker_ok docs d' p.
Proof.
  intros Hd Hd' [Hp Hi Hc] Hrev. split; [done|done|]. intros st Hst Hr. destruct Hrev as [->|]; [|done].
  apply (mirrors_both docs0 docs (dk_stores d)); [apply Hd|apply Hd'|by apply Hc].
Qed.

(** A search changes no index, and finds what the disk holds. *)
Lemma search_keeps docs embed_fails query tenant_id k course_code parts w r w' : disk_ok docs (iw_disk w) ->
  worker_ok docs (iw_disk w) (iw_process w) -> (1 <= k)%Z -> search embed_fails query tenant_id k course_code parts w = (r, w') ->
  iw_disk w' = iw_disk w /\ worker_ok docs (iw_disk w') (iw_process w').
Proof.
  intros Hd Hw Hk. destruct (get_spec embed_fails docs w Hd Hw) as (s & w1 & Hg & Hd1 & Hm & Hs & [Hp Hi Hc]).
  unfold search. rewrite (st_bind_ok _ _ _ _ _ Hg). cbv zeta. destruct (Hi s Hs) as (Hn & Hne & Hl).
  destruct (search_tenant_documents _ _ _ _ _ _ _ _) as [r' cache] eqn:Er. intros [= <- <-].
  apply (search_spec (H0 := H0)) in Er as [Hl' _]; [|done..]. cbn [iw_disk iw_process pr_indexes pr_pinned pr_revision pr_lexical].
  split; [done|]. split; cbn [iw_disk iw_process pr_indexes pr_pinned pr_revision pr_lexical]; [done| |exact Hc].
  intros s'. rewrite Hs. intros [= <-]. by split_and!.
Qed.

Lemma search_nothing embed_fails query tenant_id k course_code parts w r w' : dk_stores (iw_disk w) = [] -> dk_legacy (iw_disk w) = None ->
  pr_indexes (iw_process w) = None -> search embed_fails query tenant_id k course_code parts w = (r, w') -> w' = w.
Proof.
  intros Hs Hl Hi. unfold search, st_bind at 1, Ingest.get_indexes, st_bind at 1, st_get. cbv zeta. rewrite Hi.
  unfold st_bind, st_except, _read_indexes. cbv zeta. rewrite Hs, Hl. by intros [= _ <-].
Qed.

(** The first ingest builds the index. *)
Lemma first_ingest_spec embed_fails save_fails now rebuild kd docs s w w' : load kd = Ok docs -> versioned default_tenant docs ->
  dk_stores (iw_disk w) = [] -> dk_legacy (iw_disk w) = None -> pr_indexes (iw_process w) = None ->
  ingest embed_fails save_fails now rebuild kd w = (Ok s, w') -> docs <> [] /\ disk_ok docs (iw_disk w') /\ installed docs s w'.
Proof.
  intros Hl Hv Hs Hleg Hi. assert (Hnd : NoDup (dk_stores (iw_disk w)).*1) by (rewrite Hs; constructor).
  unfold ingest_indexes. destruct rebuild; [by apply build_spec|]. unfold st_bind at 1, st_get. rewrite Hi.
  assert (Hr : _read_indexes_or_rebuild default_tenant spec embed_fails w = (Ok None, w)).
  { unfold _read_indexes_or_rebuild, st_except, _read_indexes. cbv zeta. by rewrite Hs, Hleg. }
  rewrite (st_bind_ok _ _ _ _ _ Hr). by apply build_spec.
Qed.

Lemma lift_inv {A B} (m : res exn A) (k : A -> ST index_world exn B) w b w' : st_bind (lift_res m) k w = (Ok b, w') -> exists a, m = Ok a /\ k a w = (Ok b, w').
Proof. unfold st_bind, lift_res. destruct m as [a|]; [by exists a|done]. Qed.

Lemma ingest_loads embed_fails save_fails now rebuild kd s w w' : ingest embed_fails save_fails now rebuild kd w = (Ok s, w') ->
  exists docs, load kd = Ok docs.
Proof.
  unfold ingest_indexes. assert (Hb : forall w1, build_faiss_index markdown_split fallback_split child_split sha256 courses default_tenant spec
    embed_fails save_fails now true kd w1 = (Ok s, w') -> exists docs, load kd = Ok docs).
  { intros w1. unfold build_faiss_index. intros (docs & Hl & _)%lift_inv. by exists docs. }
  destruct rebuild; [apply Hb|]. unfold st_bind at 1, st_get. intros [(existing & w1 & _ & Hr)|(e & _ & [=])]%st_bind_inv.
  destruct existing as [[|x st]|]; [by eapply Hb| |by eapply Hb]. cbv zeta in Hr. apply lift_inv in Hr as (docs & Hl & _). by exists docs.
Qed.

Lemma ingested_ok docs i (sys : system) w s : disk_ok docs (iw_disk w) -> installed docs s w ->
  (forall j p, j <> i -> sy_workers sys !! j = Some p -> worker_ok docs (iw_disk w) p) ->
  Forall (worker_ok docs (iw_disk w)) (<[i := iw_process w]> (sy_workers sys)).
Proof.
  intros Hd [_ Hw] Hothers. apply Forall_lookup. intros j p. destruct (decide (i = j)) as [<-|].
  - by intros [(_ & <- & _)|[? _]]%list_lookup_insert_Some.
  - rewrite list_lookup_insert_ne by done. intros Hp. by eapply Hothers.
Qed.

Lemma reached_ok kd sys : reached kd sys -> system_ok kd sys.
Proof.
  induction 1 as [sys Hs Hl Hw|kd sys i embed_fails query tenant_id k course_code parts r sys' Hr IH Hk Ha|
                  kd0 kd sys i embed_fails save_fails now rebuild s sys' Hr IH Hkd Hcur Ha Hrev]; [done| |].
  - unfold at_worker in Ha. destruct (sy_workers sys !! i) as [p|] eqn:Ep; [|done].
    destruct (search _ _ _ _ _ _ _) as [r' w] eqn:Es. injection Ha as <- <-. destruct kd as [kd|].
    + destruct IH as (Hkd & docs & Hload & Hne & Hd & Hw). split; [done|]. exists docs. pose proof (Forall_lookup_1 _ _ _ _ Hw Ep) as Hp.
      apply (search_keeps docs) in Es as [Hd' Hw']; [|done..]. cbn [sy_disk sy_workers iw_disk] in *. rewrite Hd' in *.
      split_and!; [done|done|done|]. by apply Forall_insert.
    + destruct IH as (Hs & Hl & Hw). pose proof (Forall_lookup_1 _ _ _ _ Hw Ep) as [Hi Hpin].
      apply search_nothing in Es as ->; [|done..]. cbn. split_and!; [done|done|]. by apply Forall_insert.
  - unfold at_worker in Ha. destruct (sy_workers sys !! i) as [p|] eqn:Ep; [|done].
    destruct (ingest _ _ _ _ _ _) as [r' w] eqn:Ei. injection Ha as -> <-.
    destruct (ingest_loads _ _ _ _ _ _ _ _ Ei) as (docs & Hl). pose proof (loaded_versioned _ _ _ _ _ _ _ _ Hkd Hl) as Hv.
    cbn [sy_disk sy_workers] in *. split; [done|]. exists docs. split; [done|]. destruct kd0 as [kd0|].
    + destruct IH as (Hkd0 & docs0 & Hl0 & _ & Hd & Hw). pose proof (Forall_lookup_1 _ _ _ _ Hw Ep) as Hp.
      apply (ingest_spec _ _ _ _ _ docs0 docs) in Ei as (Hne & Hd' & Hin); [|done|done| | |done|done|by apply Hcur].
      * split_and!; [done|done|]. eapply ingested_ok; [done|done|]. intros j q Hj Hq. pose proof (Forall_lookup_1 _ _ _ _ Hw Hq) as Hwq.
        eapply others_ok; [done|done|done|]. destruct Hrev as [?|Hrev]; [by left|right; by eapply Hrev].
      * by eapply loaded_versioned.
      * by eapply (loaded_same _ _ _ _ _ _ kd0 kd).
    + destruct IH as (Hs & Hleg & Hw). pose proof (Forall_lookup_1 _ _ _ _ Hw Ep) as [Hi _].
      apply (first_ingest_spec _ _ _ _ _ docs) in Ei as (Hne & Hd' & Hin); [|done..].
      split_and!; [done|done|]. eapply ingested_ok; [done|done|]. intros j q Hj Hq. pose proof (Forall_lookup_1 _ _ _ _ Hw Hq) as [Hqi Hqp].
      split; [done| |]; intros ?; by rewrite Hqi.
Qed.

Lemma live_content st t d : NoDup st.*1 -> d ∈ store_of (indexes_of st) t -> _is_deleted d = false -> plain d ∈ content t (source_of d) st.
Proof.
  intros Hn Hd Hl. unfold content, live_of. apply list_elem_of_filter. split; [by destruct d|]. apply list_elem_of_In, in_map, list_elem_of_In.
  unfold store_of, indexes_of in Hd. destruct (list_to_map st !! t) as [l|] eqn:E; [|by apply elem_of_nil in Hd].
  apply elem_of_list_to_map_2 in E. by rewrite (elem_dget _ _ _ Hn E).
Qed.

(** What is live in an index that mirrors the documents is a document. *)
Lemma live_wanted docs st t d : mirrors docs st -> NoDup st.*1 -> d ∈ store_of (indexes_of st) t -> _is_deleted d = false ->
  exists d0, d0 ∈ docs /\ _tenant_of default_tenant d0 = t /\ plain d0 = plain d.
Proof.
  intros Hm Hn Hd Hl. pose proof (live_content st t d Hn Hd Hl) as Hc. rewrite Hm in Hc.
  apply wanted_elem in Hc as (d0 & ? & ? & _ & ->). by exists d0.
Qed.


End system.

(** ** Serving *)

Section serving.
Context `{RetrievalServices} (default_tenant : pystr) (spec : EmbeddingSpec) (embed_fails : list Document -> option exn).

Lemma stores_from_groups_total (grouped : stores) w : (forall docs, embed_fails docs = None) ->
  exists s w', _stores_from_groups embed_fails grouped w = (Ok s, w').
Proof.
  intros Hf. revert w. induction grouped as [|[t [|d docs]] grouped IH]; intros w; cbn [_stores_from_groups]; [by do 2 eexists|apply IH|].
  unfold st_bind at 1, from_documents. rewrite Hf. unfold adopt. cbv zeta.
  unfold st_bind.
  match goal with |- context [_stores_from_groups embed_fails grouped ?w1] => destruct (IH w1) as (s & w' & ->) end. by do 2 eexists.
Qed.

(** Reading the indexes goes as the check at start-up says. *)
Lemma read_indexes_status w : (forall docs, embed_fails docs = None) ->
  (faiss_index_status spec (iw_disk w) = Ok (u "missing") /\ _read_indexes default_tenant spec embed_fails w = (Ok None, w)) \/
  (faiss_index_status spec (iw_disk w) = Ok (u "ok") /\ exists s w', _read_indexes default_tenant spec embed_fails w = (Ok (Some s), w')) \/
  (exists e, _read_indexes default_tenant spec embed_fails w = (Raise e, w) /\
    faiss_index_status spec (iw_disk w) = if is_mismatch e then Ok (u "mismatch") else Raise e).
Proof.
  intros Hf. unfold _read_indexes, faiss_index_status. cbv zeta.
  destruct (dk_stores (iw_disk w)) as [|x l] eqn:Es, (dk_legacy (iw_disk w)) as [legacy|] eqn:El; [|by left| |].
  all: destruct (assert_embedding_compatible _ _) as [[]|err]; [right; left; split; [done|]|right; right; exists err; split; reflexivity].
  - unfold _partition_store, st_bind. destruct (stores_from_groups_total (_group_documents default_tenant (_iter_store_documents legacy false)) w Hf) as (s & w' & ->).
    by do 2 eexists.
  - unfold st_bind. destruct (load_stores_total (_tenant_index_dirs (iw_disk w)) w) as (s & w' & ->). by do 2 eexists.
  - unfold st_bind. destruct (load_stores_total (_tenant_index_dirs (iw_disk w)) w) as (s & w' & ->). by do 2 eexists.
Qed.

Lemma get_unread w : pr_indexes (iw_process w) = None ->
  get_indexes default_tenant spec embed_fails w =
  match _read_indexes default_tenant spec embed_fails w with
  | (Ok (Some s), w') => (do! _install_indexes (Some s) false (Some (disk_index_revision (iw_disk w))) in st_ret s) w'
  | (Ok None, w') => (Raise (OtherExc UNAVAILABLE (u "FAISS 索引不存在或无法加载")), w')
  | (Raise e, w') => (Raise (if is_mismatch e then OtherExc UNAVAILABLE (msg_of e) else e), w')
  end.
Proof.
  intros Hi. unfold get_indexes, st_bind at 1, st_get. cbv beta iota zeta. rewrite Hi. unfold st_bind at 1, st_except.
  destruct (_read_indexes _ _ _ w) as [[[s|]|e] w']; [reflexivity..|]. unfold on_mismatch. by destruct (is_mismatch e).
Qed.

End serving.

(** ** Two workers *)

Module Demo.
#[local] Existing Instance Retrieval.Demo.services.
#[local] Existing Instance Retrieval.Demo.laws.
Definition digest (raw : list N) : pystr := 49%N :: raw.
#[export] Instance outline_laws : OutlineLaws Chunking.Demo.lines_split digest.
Proof. split; [exact Chunking.Demo.lines_headings|done|by intros raw raw' [= ->]]. Qed.

Definition spec : EmbeddingSpec := {| es_backend := u "ngram"; es_model := u "char"; es_dim := 512 |}.
Definition no_failure {A} (_ : A) : option exn := None.
Definition disk_full (_ : pystr) : option exn := Some (OtherExc (u "OSError") (u "No space left on device")).
Definition file (name text : pystr) : md_file := {| mf_name := name; mf_raw := text |}.
Definition dir (text : pystr) : knowledge_dir :=
  {| kd_files := [file (u "c.md") text; file (u "notes.txt") (u "zz")]; kd_subdirs := [(u "acme", [file (u "s.md") (u "xy")])] |}.
Definition before : knowledge_dir := dir (u "ab one").
Definition after : knowledge_dir := dir (u "cd two").

Definition empty_disk : disk := {| dk_stores := []; dk_legacy := None; dk_dim := 512; dk_embedding := None; dk_generation := None |}.
Definition fresh : process := {| pr_indexes := None; pr_pinned := false; pr_revision := None; pr_lexical := ∅; pr_next := 1 |}.
Definition boot : system := {| sy_disk := empty_disk; sy_workers := [fresh; fresh] |}.

Definition ingests (i : nat) (save_fails : pystr -> option exn) (now : Z) (kd : knowledge_dir) : system -> option (res exn stores * system) :=
  at_worker i (ingest_indexes Chunking.Demo.lines_split Chunking.Demo.whole Chunking.Demo.whole digest
    None (u "demo") spec no_failure save_fails now true false kd).
Definition asks (i : nat) (query : pystr) : system -> option (res exn TenantSearchResult * system) :=
  at_worker i (search (u "demo") spec Retrieval.Demo.settings no_failure query (u "demo") 4 None []).

Definition then_ {A} (sys : system) (f : system -> option (res exn A * system)) : system := match f sys with Some (_, sys') => sys' | None => sys end.
Definition succeeds {A} (m : option (res exn A * system)) : bool := match m with Some (r, _) => is_ok r | None => false end.

Lemma succeeded {A} (sys : system) (f : system -> option (res exn A * system)) : succeeds (f sys) = true -> exists a, f sys = Some (Ok a, then_ sys f).
Proof. unfold succeeds, then_. destruct (f sys) as [[[a|e] sys']|]; [by exists a|done..]. Qed.

(** The texts a worker finds, and those live on the disk. *)
Definition found (i : nat) (query : pystr) (sys : system) : option (list pystr) :=
  match asks i query sys with Some (Ok r, _) => Some (map (fun h => page_content (sh_document h)) (ts_hits r)) | _ => None end.
Definition live (st : stores) : list pystr := ts ← st; map page_content (_iter_store_documents ts.2 false).

Definition first : system := then_ boot (ingests 0 no_failure 5 before).
Definition asked : system := then_ first (asks 1 (u "ab")).
Definition second : system := then_ asked (ingests 0 no_failure 6 after).

Example workers_follow :
  found 1 (u "ab") boot = None /\
  found 1 (u "ab one") first = Some [u "ab
ab
ab one"; u "ab
ab one"] /\
  found 1 (u "cd two") second = Some [u "cd
cd
cd two"; u "cd
cd two"].
Proof. vm_compute. split_and!; reflexivity. Qed.

(** An ingest that could not write has changed the indexes in memory already: tried again,
    it finds nothing to do, and the other worker keeps the old version for ever. *)
Definition refused : system := then_ first (ingests 0 disk_full 6 after).
Definition retried : system := then_ refused (ingests 0 no_failure 7 after).
Example retry_writes_nothing :
  succeeds (ingests 0 disk_full 6 after first) = false /\ succeeds (ingests 0 no_failure 7 after refused) = true /\
  found 0 (u "cd two") retried = Some [u "cd
cd
cd two"; u "cd
cd two"] /\
  found 1 (u "cd two") retried = Some [u "ab
ab
ab one"; u "ab
ab one"].
Proof. vm_compute. split_and!; reflexivity. Qed.

(** A worker whose memory is of an older generation ingests what it has already: it writes
    nothing, but takes the generation of the disk, which holds another version. *)
Definition held : system := then_ second (asks 1 (u "ab")).
Definition stale : system := then_ held (ingests 0 no_failure 7 before).
Example revert_writes_nothing :
  succeeds (ingests 1 no_failure 8 after stale) = true /\
  found 1 (u "ab one") (then_ stale (ingests 1 no_failure 8 after)) = Some [u "cd
cd
cd two"; u "cd
cd two"] /\
  found 0 (u "ab one") (then_ stale (ingests 1 no_failure 8 after)) = Some [u "ab
ab
ab one"; u "ab
ab one"].
Proof. vm_compute. split_and!; reflexivity. Qed.
(** What is asked of the worker that ingests, and of the others. *)
Definition may_ingest (i : nat) (sys : system) : bool :=
  match sy_workers sys !! i with
  | Some p => bool_decide (pr_indexes p = None) || bool_decide (pr_revision p = Some (disk_index_revision (sy_disk sys)))
  | None => false
  end.
Definition news_to_others (i : nat) (sys sys' : system) : bool :=
  bool_decide (Forall (fun jp : nat * process => jp.1 = i \/ pr_revision jp.2 <> Some (disk_index_revision (sy_disk sys')))
    (zip (seq 0 (length (sy_workers sys))) (sy_workers sys))).

Abbreviation reaches := (reached Chunking.Demo.lines_split Chunking.Demo.whole Chunking.Demo.whole digest
  None (u "demo") spec Retrieval.Demo.settings).

Lemma may_ingest_ok i sys rebuild : may_ingest i sys = true -> forall p, sy_workers sys !! i = Some p ->
  rebuild = true \/ pr_indexes p = None \/ pr_revision p = Some (disk_index_revision (sy_disk sys)).
Proof.
  intros Hmay p Hp. unfold may_ingest in Hmay. rewrite Hp in Hmay. apply orb_true_iff in Hmay as [H|H]; apply bool_decide_eq_true_1 in H; auto.
Qed.
Lemma news_ok i sys sys' : news_to_others i sys sys' = true -> forall j p, j <> i -> sy_workers sys !! j = Some p ->
  pr_revision p <> Some (disk_index_revision (sy_disk sys')).
Proof.
  intros Hnews j p Hj Hp. unfold news_to_others in Hnews. apply bool_decide_eq_true_1 in Hnews. rewrite Forall_forall in Hnews.
  destruct (Hnews (j, p)) as [?|?]; [|done|done]. apply list_elem_of_lookup. exists j. rewrite lookup_zip_with, lookup_seq_lt by by eapply lookup_lt_Some.
  by rewrite Hp.
Qed.
Lemma ingests_reaches kd0 kd sys i now : reaches kd0 sys -> kd_ok (u "demo") kd -> may_ingest i sys = true ->
  succeeds (ingests i no_failure now kd sys) = true -> news_to_others i sys (then_ sys (ingests i no_failure now kd)) = true ->
  reaches (Some kd) (then_ sys (ingests i no_failure now kd)).
Proof.
  intros Hr Hkd Hmay (s & Hs)%succeeded Hnews. eapply Ingested; [exact Hr|exact Hkd|by apply may_ingest_ok|exact Hs|]. right. by apply news_ok.
Qed.

Lemma dir_ok text : kd_ok (u "demo") (dir text).
Proof.
  split.
  - apply (bool_decide_eq_true_1 _). vm_compute. reflexivity.
  - intros f. assert (Hb : forallb (fun f => truthy f.1) (outlines (u "demo") (dir text)) = true) by (vm_compute; reflexivity).
    rewrite forallb_forall in Hb. intros Hf%list_elem_of_In. by apply Hb.
Qed.

Lemma second_reached : reaches (Some after) second.
Proof.
  apply (ingests_reaches (Some before)); [|apply dir_ok|vm_compute; reflexivity..].
  destruct (succeeded first (asks 1 (u "ab"))) as (r & Hr); [vm_compute; reflexivity|].
  eapply Searched; [|by apply (Z.leb_le 1 4)|exact Hr].
  apply (ingests_reaches None); [|apply dir_ok|vm_compute; reflexivity..].
  apply Booted; [done|done|]. by repeat constructor.
Qed.
End Demo.



