(* ===== verification/IngestApi.v ===== *)
(** * Uploading an outline ([app/rag/ingest_api.py])

    The administrator's endpoint: a Markdown file is stored in the knowledge directory,
    and an ingest is started that brings every worker's index to it. *)

From stdpp Require Import base list gmap strings.
From S2P Require Import Prelude PyText PyFloat PySort PyDict Errors Json Orders ToolCache CourseCapability Query Documents Retrieval RagContext Chunking CourseAgent Tenancy Ingest.
Open Scope py_scope.

(** [HTTPException], and any other. *)
Inductive api_exn : Type :=
| HTTPException (status_code : Z) (detail : pystr)
| Exc (e : exn).

Record upload := { up_filename : pystr; up_body : list N }.
Record KnowledgeIngestResponse := { ki_status : pystr; ki_tenant_id : pystr; ki_rebuild : bool; ki_saved_path : option pystr; ki_message : pystr }.

(** What writing a file comes to: it could not be opened, or only some of it was written. *)
Inductive written : Type :=
| Wrote
| NotOpened (e : exn)
| Broke (e : exn) (left_ : list N).

(** ** Paths *)

(** The text between slashes; [Path(s).name]. *)
Fixpoint split_on (sep : N) (cur s : pystr) : list pystr :=
  match s with
  | [] => [reverse cur]
  | c :: s => if (c =? sep)%N then reverse cur :: split_on sep [] s else split_on sep (c :: cur) s
  end.
Definition path_name (s : pystr) : pystr :=
  default [] (last (filter (fun part => part <> [] /\ part <> u ".") (split_on 47 [] s))).
Example path_names : map path_name (map u ["a.md"; "../../etc/x.md"; "a/b/"; "a/."; ".."; "/"; ""]%string) =
  map u ["a.md"; "x.md"; "b"; "a"; ".."; ""; ""]%string.
Proof. vm_compute. reflexivity. Qed.

(** [body.strip()] of bytes leaves something. *)
Definition bytes_visible (body : list N) : bool := existsb (fun b => negb (bool_decide (b ∈ [9; 10; 11; 12; 13; 32]%N))) body.

(** A directory of the knowledge directory: its root, or a tenant's. *)
Fixpoint put_file (f : md_file) (files : list md_file) : list md_file :=
  match files with
  | [] => [f]
  | g :: files => if decide (mf_name g = mf_name f) then f :: files else g :: put_file f files
  end.
Definition files_in (dir : option pystr) (kd : knowledge_dir) : list md_file :=
  match dir with None => kd_files kd | Some t => default [] (dget t (kd_subdirs kd)) end.
Definition store_file (dir : option pystr) (f : md_file) (kd : knowledge_dir) : knowledge_dir :=
  match dir with
  | None => {| kd_files := put_file f (kd_files kd); kd_subdirs := kd_subdirs kd |}
  | Some t => {| kd_files := kd_files kd; kd_subdirs := dset t (put_file f (files_in dir kd)) (kd_subdirs kd) |}
  end.
(** [mkdir(exist_ok=True)]. *)
Definition make_dir (dir : option pystr) (kd : knowledge_dir) : knowledge_dir :=
  match dir with
  | None => kd
  | Some t => {| kd_files := kd_files kd; kd_subdirs := if bool_decide (t ∈ (kd_subdirs kd).*1) then kd_subdirs kd else kd_subdirs kd ++ [(t, [])] |}
  end.

(** ** The endpoint *)

Section api.
(** The settings; and what writing that file comes to. *)
Context (admin_ingest_token default_tenant : pystr) (write_result : option pystr -> pystr -> written).
Abbreviation act := (ST knowledge_dir api_exn).

Definition _require_admin_token (x_admin_token : option pystr) : res api_exn unit :=
  let expected := strip admin_ingest_token in
  if negb (truthy expected) then Raise (HTTPException 503 (u "未配置 ADMIN_INGEST_TOKEN，ingest API 已禁用"))
  else if negb (bool_decide (strip (opt_str x_admin_token) = expected)) then Raise (HTTPException 401 (u "无效的管理员令牌"))
  else Ok tt.

Definition _safe_markdown_name (filename : pystr) : res api_exn pystr :=
  let name := strip (path_name filename) in
  if negb (truthy name) || bool_decide (name ∈ [u "."; u ".."]) then Raise (HTTPException 422 (u "文件名无效"))
  else if negb (is_suffix (u ".md") (lower name)) then Raise (HTTPException 422 (u "仅支持 .md 文件"))
  else Ok name.

Definition normalized (tenant_id : pystr) : res api_exn pystr :=
  match normalize_tenant_id default_tenant (Some (str_or tenant_id default_tenant)) with Ok t => Ok t | Raise e => Raise (Exc e) end.
Definition lift {A} (r : res api_exn A) : act A := fun kd => (r, kd).

Definition dir_of (tenant : pystr) : option pystr := if bool_decide (tenant = default_tenant) then None else Some tenant.
Definition _target_dir (tenant_id : pystr) : act (option pystr) :=
  let! tenant := lift (normalized tenant_id) in
  do! st_modify (make_dir (dir_of tenant)) in st_ret (dir_of tenant).

Definition write_bytes (dir : option pystr) (name : pystr) (body : list N) : act unit :=
  match write_result dir name with
  | Wrote => st_modify (store_file dir {| mf_name := name; mf_raw := body |})
  | NotOpened e => st_raise (Exc e)
  | Broke e left_ => do! st_modify (store_file dir {| mf_name := name; mf_raw := left_ |}) in st_raise (Exc e)
  end.
Definition relative_path (dir : option pystr) (name : pystr) : pystr :=
  match dir with None => name | Some t => t ++ u "/" ++ name end.

Definition save_upload (tenant_id : pystr) (file : option upload) : act (option pystr) :=
  match file with
  | Some file =>
    if truthy (up_filename file) then
      let! target_dir := _target_dir tenant_id in
      let! filename := lift (_safe_markdown_name (up_filename file)) in
      if negb (bytes_visible (up_body file)) then st_raise (HTTPException 422 (u "文件内容为空"))
      else do! write_bytes target_dir filename (up_body file) in st_ret (Some (relative_path target_dir filename))
    else st_ret None
  | None => st_ret None
  end.

(** The response; the ingest runs behind it, and only behind a response. *)
Definition ingest_knowledge (x_admin_token : option pystr) (tenant_id : pystr) (rebuild : bool) (file : option upload) : act KnowledgeIngestResponse :=
  do! lift (_require_admin_token x_admin_token) in
  let! saved_path := save_upload tenant_id file in
  let! tenant := lift (normalized tenant_id) in
  st_ret {| ki_status := u "accepted"; ki_tenant_id := tenant; ki_rebuild := rebuild; ki_saved_path := saved_path;
            ki_message := u "ingest 已在后台启动，完成后各 worker 将自动热加载索引" |}.
End api.

Section background.
Context `{RetrievalServices}.
Context (markdown_split : pystr -> list (pystr * dict)) (fallback_split child_split : pystr -> list pystr) (sha256 : list N -> pystr).
Context (courses : option (list Course)) (default_tenant : pystr) (spec : EmbeddingSpec).
Context (embed_fails : list Document -> option exn) (save_fails : pystr -> option exn) (now_ns : Z).

(** A failure is logged and raised again, where nobody waits for it. *)
Definition _run_ingest (rebuild : bool) (kd : knowledge_dir) : ST index_world exn unit :=
  do! ingest_indexes markdown_split fallback_split child_split sha256 courses default_tenant spec embed_fails save_fails now_ns true rebuild kd in
  st_ret tt.
End background.

(** ** Files *)

Fixpoint get_file (name : pystr) (files : list md_file) : option (list N) :=
  match files with [] => None | f :: files => if decide (mf_name f = name) then Some (mf_raw f) else get_file name files end.
Definition file_at (dir : option pystr) (name : pystr) (kd : knowledge_dir) : option (list N) := get_file name (files_in dir kd).

Lemma get_put f files n : get_file n (put_file f files) = if decide (mf_name f = n) then Some (mf_raw f) else get_file n files.
Proof.
  induction files as [|g files IH]; cbn [put_file get_file]; [done|]. destruct (decide (mf_name g = mf_name f)) as [Hg|Hg]; cbn [get_file].
  - rewrite Hg. by destruct (decide (mf_name f = n)).
  - rewrite IH. destruct (decide (mf_name g = n)) as [<-|]; [by rewrite decide_False|done].
Qed.
Lemma elem_put f g files : g ∈ put_file f files -> g = f \/ g ∈ files.
Proof.
  induction files as [|h files IH]; cbn [put_file]; [intros ->%list_elem_of_singleton; by left|].
  destruct (decide _); rewrite !elem_of_cons; [naive_solver|]. intros [->|H]; [by right; left|]. destruct (IH H); tauto.
Qed.
Lemma get_file_elem name files raw : get_file name files = Some raw -> {| mf_name := name; mf_raw := raw |} ∈ files.
Proof.
  induction files as [|[n r] files IH]; cbn [get_file]; [done|]. cbn [mf_name mf_raw]. destruct (decide (n = name)) as [->|]; [intros [= ->]; by left|].
  intros H. right. by apply IH.
Qed.
Lemma put_names f files : NoDup (map mf_name files) -> NoDup (map mf_name (put_file f files)).
Proof.
  induction files as [|g files IH]; cbn [put_file map]; intros Hn; [by apply NoDup_singleton|]. apply NoDup_cons in Hn as [Hg Hn].
  destruct (decide (mf_name g = mf_name f)) as [E|E]; cbn [map]; apply NoDup_cons; [by rewrite <- E|]. split; [|by apply IH].
  intros (h & Hh & [->|Hin]%elem_put)%list_elem_of_fmap; [done|]. apply Hg. rewrite Hh. apply list_elem_of_fmap. by exists h.
Qed.

Lemma files_in_store d f kd d' : files_in d' (store_file d f kd) = if decide (d = d') then put_file f (files_in d kd) else files_in d' kd.
Proof.
  destruct d as [t|], d' as [t'|]; cbn [store_file files_in kd_files kd_subdirs]; [|by rewrite decide_False|by rewrite decide_False|by rewrite decide_True].
  rewrite dget_dset. destruct (decide (t = t')) as [->|]; [by rewrite decide_True|]. by rewrite decide_False by congruence.
Qed.
Lemma dget_app_none {V} (t t' : pystr) (d : list (pystr * V)) v : t ∉ d.*1 -> dget t' (d ++ [(t, v)]) = if decide (t = t') then Some v else dget t' d.
Proof.
  induction d as [|[t1 v1] d IH]; intros Ht; [done|]. apply not_elem_of_cons in Ht as [Ht1 Ht]. cbn [app dget]. rewrite IH by done. cbn [fst] in Ht1.
  destruct (decide (t1 = t')) as [<-|]; [by rewrite decide_False|done].
Qed.
Lemma files_in_make d kd d' : files_in d' (make_dir d kd) = files_in d' kd.
Proof.
  destruct d as [t|]; [|done]. destruct d' as [t'|]; [|done]. cbn [make_dir files_in kd_subdirs]. case_bool_decide as Ht; [done|].
  rewrite dget_app_none by done. destruct (decide (t = t')) as [<-|]; [|done]. by rewrite dget_none.
Qed.
Lemma make_dir_dirs d kd : (kd_subdirs (make_dir d kd)).*1 = (kd_subdirs kd).*1 \/ exists t, d = Some t /\ t ∉ (kd_subdirs kd).*1 /\ (kd_subdirs (make_dir d kd)).*1 = (kd_subdirs kd).*1 ++ [t].
Proof.
  destruct d as [t|]; [|by left]. cbn [make_dir kd_subdirs]. case_bool_decide; [by left|]. right. exists t. by rewrite fmap_app.
Qed.

(** A name of a Markdown file, and of nothing outside its directory. *)
Record plain_name (name : pystr) : Prop := {
  pn_slash : 47%N ∉ name;
  pn_dots : name <> u "." /\ name <> u "..";
  pn_markdown : is_suffix (u ".md") (lower name) = true;
}.

Lemma split_on_no_sep sep s : forall cur part, sep ∉ cur -> part ∈ split_on sep cur s -> sep ∉ part.
Proof.
  induction s as [|c s IH]; intros cur part Hcur; cbn [split_on]; [intros ->%list_elem_of_singleton; by rewrite elem_of_reverse|].
  destruct (N.eqb_spec c sep) as [->|Hc].
  - intros [->|Hp]%elem_of_cons; [by rewrite elem_of_reverse|]. apply (IH [] part); [by apply not_elem_of_nil|done].
  - apply IH. by apply not_elem_of_cons.
Qed.
Lemma path_name_no_slash s : 47%N ∉ path_name s.
Proof.
  unfold path_name. destruct (last _) as [part|] eqn:E; [|by apply not_elem_of_nil]. cbn [default]. apply last_Some in E as [l E].
  assert (Hp : part ∈ l ++ [part]) by (apply elem_of_app; right; by left). rewrite <- E in Hp. apply list_elem_of_filter in Hp as [_ Hp].
  eapply split_on_no_sep; [|exact Hp]. by apply not_elem_of_nil.
Qed.

Lemma safe_name_plain filename name : _safe_markdown_name filename = Ok name -> plain_name name.
Proof.
  unfold _safe_markdown_name. cbv zeta. destruct (negb (truthy _) || _) eqn:E; [done|]. destruct (negb (is_suffix _ _)) eqn:E'; [done|]. intros [= <-].
  apply orb_false_iff in E as [_ E]. apply bool_decide_eq_false_1 in E. apply negb_false_iff in E'.
  split; [|split; intros Hn; apply E; rewrite Hn; rewrite !elem_of_cons; tauto|done].
  intros H%elem_of_strip. by apply path_name_no_slash in H.
Qed.

(** ** Where an upload goes *)

Section confined.
Context (admin_ingest_token default_tenant : pystr) (write_result : option pystr -> pystr -> written).
Abbreviation ingest_knowledge := (ingest_knowledge admin_ingest_token default_tenant write_result).
Abbreviation dir_of := (dir_of default_tenant).

(** As the endpoint keeps it: a directory for each tenant but the default one, whose files
    lie at the root, and a file for each name. *)
Record tidy (kd : knowledge_dir) : Prop := {
  td_dirs : NoDup (kd_subdirs kd).*1;
  td_default : default_tenant ∉ (kd_subdirs kd).*1;
  td_tenants : Forall (fun t => tenant_re_fullmatch t = true) (kd_subdirs kd).*1;
  td_names dir : NoDup (map mf_name (files_in dir kd));
}.

Lemma tidy_make t kd : tenant_re_fullmatch t = true -> tidy kd -> tidy (make_dir (dir_of t) kd).
Proof.
  intros Ht [Hd Hdef Hts Hn]. destruct (make_dir_dirs (dir_of t) kd) as [E|(t' & Et & Hni & E)].
  - split; [by rewrite E..|]. intros dir. by rewrite files_in_make.
  - unfold IngestApi.dir_of in Et. case_bool_decide as Hdt; [done|]. injection Et as ->. unfold IngestApi.dir_of in E. rewrite bool_decide_eq_false_2 in E by done.
    unfold IngestApi.dir_of. rewrite bool_decide_eq_false_2 by done. split; try rewrite E.
    + apply NoDup_app. split; [done|]. split; [|apply NoDup_singleton]. by intros x Hx ->%list_elem_of_singleton.
    + rewrite elem_of_app, list_elem_of_singleton. intros [?|?]; congruence.
    + apply Forall_app. split; [done|]. by repeat constructor.
    + intros dir. by rewrite files_in_make.
Qed.
Lemma tidy_store d f kd : (match d with None => True | Some t => t ∈ (kd_subdirs kd).*1 end) -> tidy kd -> tidy (store_file d f kd).
Proof.
  intros Hd [Hnd Hdef Hts Hn].
  assert (Hsame : forall x, x ∈ (kd_subdirs (store_file d f kd)).*1 <-> x ∈ (kd_subdirs kd).*1).
  { intros x. destruct d as [t|]; [|done]. cbn [store_file kd_subdirs]. rewrite elem_of_dset_keys. naive_solver. }
  split.
  - destruct d; [by apply NoDup_dset|done].
  - by rewrite Hsame.
  - apply Forall_forall. intros x Hx%Hsame. rewrite Forall_forall in Hts. by apply Hts.
  - intros d'. rewrite files_in_store. destruct (decide (d = d')); [apply put_names, Hn|apply Hn].
Qed.
Lemma made_there tenant kd : match dir_of tenant with None => True | Some t => t ∈ (kd_subdirs (make_dir (dir_of tenant) kd)).*1 end.
Proof.
  destruct (dir_of tenant) as [t|]; [|done]. cbn [make_dir kd_subdirs]. case_bool_decide as Hin; [done|].
  rewrite fmap_app. apply elem_of_app. right. by left.
Qed.

(** What storing an upload comes to: the directory made, and perhaps a file written. *)
Lemma write_spec d name body kd r kd' : write_bytes write_result d name body kd = (r, kd') ->
  (r = Ok tt /\ kd' = store_file d {| mf_name := name; mf_raw := body |} kd) \/
  (exists e, r = Raise (Exc e)) /\ (kd' = kd \/ exists left_, kd' = store_file d {| mf_name := name; mf_raw := left_ |} kd).
Proof.
  unfold write_bytes. destruct (write_result d name) as [|e|e left_]; intros [= <- <-]; [by left|right..]; split; eauto.
Qed.

Definition stored (tenant name : pystr) (kd kd' : knowledge_dir) : Prop :=
  kd' = make_dir (dir_of tenant) kd \/
  exists raw, kd' = store_file (dir_of tenant) {| mf_name := name; mf_raw := raw |} (make_dir (dir_of tenant) kd).

(** The file a request brings, and what is answered when it was stored. *)
Definition saved (tenant_id : pystr) (file : option upload) (kd' : knowledge_dir) (path : option pystr) : Prop :=
  match file with
  | Some f =>
    if truthy (up_filename f) then
      exists tenant name, normalized default_tenant tenant_id = Ok tenant /\ _safe_markdown_name (up_filename f) = Ok name /\ bytes_visible (up_body f) = true /\
        path = Some (relative_path (dir_of tenant) name) /\ file_at (dir_of tenant) name kd' = Some (up_body f)
    else path = None
  | None => path = None
  end.

Lemma save_spec tenant_id file kd r kd' : save_upload default_tenant write_result tenant_id file kd = (r, kd') ->
  (kd' = kd \/ exists f tenant name, file = Some f /\ normalized default_tenant tenant_id = Ok tenant /\
     (kd' = make_dir (dir_of tenant) kd \/ _safe_markdown_name (up_filename f) = Ok name /\ stored tenant name kd kd')) /\
  (forall path, r = Ok path -> saved tenant_id file kd' path).
Proof.
  unfold save_upload, saved. destruct file as [f|]; [|intros [= <- <-]; split; [by left|by intros path [= <-]]].
  destruct (truthy (up_filename f)); [|intros [= <- <-]; split; [by left|by intros path [= <-]]].
  unfold _target_dir, st_bind, lift, st_modify, st_ret, st_raise. destruct (normalized default_tenant tenant_id) as [tenant|e] eqn:Et; [|intros [= <- <-]; split; [by left|done]].
  destruct (_safe_markdown_name (up_filename f)) as [name|e] eqn:En; [|intros [= <- <-]; split; [right; exists f, tenant, []; eauto|done]].
  destruct (bytes_visible (up_body f)) eqn:Eb; cbn [negb]; [|intros [= <- <-]; split; [right; exists f, tenant, name; eauto|done]].
  destruct (write_bytes _ _ _ _ _) as [r1 kd1] eqn:Ew. apply write_spec in Ew as [[-> ->]|[[e ->] Hw]].
  - intros [= <- <-]. split; [right; exists f, tenant, name; unfold stored; eauto 10|]. intros path [= <-]. exists tenant, name. split_and!; [done..|].
    unfold file_at. rewrite files_in_store, decide_True by done. by rewrite get_put, decide_True.
  - intros [= <- <-]. split; [|done]. right. exists f, tenant, name. split_and!; [done..|]. unfold stored. destruct Hw as [->|[l ->]]; eauto.
Qed.

Definition token_ok (x_admin_token : option pystr) : Prop :=
  truthy (strip admin_ingest_token) = true /\ strip (opt_str x_admin_token) = strip admin_ingest_token.

Lemma ingest_knowledge_spec token tenant_id rebuild file kd r kd' : ingest_knowledge token tenant_id rebuild file kd = (r, kd') ->
  (~ token_ok token /\ kd' = kd /\ r = Raise (HTTPException (if truthy (strip admin_ingest_token) then 401 else 503)
      (if truthy (strip admin_ingest_token) then u "无效的管理员令牌" else u "未配置 ADMIN_INGEST_TOKEN，ingest API 已禁用"))) \/
  (token_ok token /\ exists r0, save_upload default_tenant write_result tenant_id file kd = (r0, kd') /\
     (forall resp, r = Ok resp -> exists path tenant, r0 = Ok path /\ normalized default_tenant tenant_id = Ok tenant /\
        ki_tenant_id resp = tenant /\ ki_rebuild resp = rebuild /\ ki_saved_path resp = path)).
Proof.
  unfold IngestApi.ingest_knowledge, st_bind at 1, lift at 1, _require_admin_token, token_ok. cbv zeta.
  destruct (truthy (strip admin_ingest_token)); cbn [negb]; [|intros [= <- <-]; left; split_and!; [by intros []|done..]].
  case_bool_decide as Ht; cbn [negb]; [|intros [= <- <-]; left; split_and!; [by intros []|done..]].
  unfold st_bind at 1. destruct (save_upload _ _ _ _ _) as [[path|e] kd1] eqn:Es; intros Hr; right; (split; [done|]).
  - exists (Ok path). unfold st_bind, lift, st_ret in Hr. destruct (normalized default_tenant tenant_id) as [t|e] eqn:Et; injection Hr as <- <-.
    + split; [done|]. intros resp [= <-]. by exists path, t.
    + by split.
  - injection Hr as <- <-. exists (Raise e). by split.
Qed.

Lemma normalized_legal tenant_id t : normalized default_tenant tenant_id = Ok t -> tenant_re_fullmatch t = true.
Proof.
  unfold normalized, normalize_tenant_id. cbv zeta. destruct (tenant_re_fullmatch (str_or _ default_tenant)) eqn:E; [|done]. by intros [= <-].
Qed.

Lemma save_tidy tenant_id file kd r kd' : save_upload default_tenant write_result tenant_id file kd = (r, kd') -> tidy kd -> tidy kd'.
Proof.
  intros Hs Htidy. apply save_spec in Hs as [[->|(f & tenant & name & -> & Hn & Hkd)] _]; [done|].
  pose proof (tidy_make tenant kd (normalized_legal _ _ Hn) Htidy) as Hmade.
  destruct Hkd as [->|[_ [->|[raw ->]]]]; [done..|]. by apply tidy_store; [exact (made_there tenant kd)|].
Qed.

(** The stored file, as the ingest looks for it. *)
Lemma upload_stored token tenant_id rebuild f kd kd' resp tenant name : ingest_knowledge token tenant_id rebuild (Some f) kd = (Ok resp, kd') ->
  normalized default_tenant tenant_id = Ok tenant -> _safe_markdown_name (up_filename f) = Ok name -> truthy (up_filename f) = true ->
  {| mf_name := name; mf_raw := up_body f |} ∈ files_in (dir_of tenant) kd'.
Proof.
  intros Hup Ht Hn Hf. apply ingest_knowledge_spec in Hup as [(_ & _ & ?)|(_ & r0 & Hs & Hr)]; [done|].
  destruct (Hr resp eq_refl) as (path & t & -> & _). apply save_spec in Hs as [_ Hs]. specialize (Hs path eq_refl). unfold saved in Hs. rewrite Hf in Hs.
  destruct Hs as (tenant' & name' & Ht' & Hn' & _ & _ & Hat). rewrite Ht in Ht'. injection Ht' as <-. rewrite Hn in Hn'. injection Hn' as <-.
  by apply get_file_elem.
Qed.

(** C32.  Whatever is uploaded, under whatever name and tenant: nothing changes without the
    token; with it at most one file does, named like a Markdown file of one directory,
    which is the tenant's own; the knowledge directory stays tidy; and when the answer
    is that the upload was accepted, that file holds what was sent. *)
Theorem upload_confined (token : option pystr) (tenant_id : pystr) (rebuild : bool) (file : option upload) (kd kd' : knowledge_dir)
    (r : res api_exn KnowledgeIngestResponse) :
  ingest_knowledge token tenant_id rebuild file kd = (r, kd') -> tidy kd ->
  tidy kd' /\
  (kd' <> kd -> token_ok token) /\
  (kd' = kd \/ exists tenant name, normalized default_tenant tenant_id = Ok tenant /\
     forall dir n, file_at dir n kd' <> file_at dir n kd -> (dir, n) = (dir_of tenant, name) /\ plain_name name) /\
  (forall resp, r = Ok resp -> saved tenant_id file kd' (ki_saved_path resp)).
Proof.
  intros [(Ht & -> & ->)|(Ht & r0 & Hs & Hr)]%ingest_knowledge_spec Htidy; [split_and!; [done|done|by left|done]|].
  pose proof (save_tidy _ _ _ _ _ Hs Htidy) as Htidy'. apply save_spec in Hs as [Hkd Hsaved].
  assert (Hok : forall resp, r = Ok resp -> saved tenant_id file kd' (ki_saved_path resp)).
  { intros resp Hresp. destruct (Hr resp Hresp) as (path & t & Hp & _ & _ & _ & <-). by apply Hsaved. }
  destruct Hkd as [->|(f & tenant & name & -> & Hn & Hkd)]; [split_and!; [done|done|by left|done]|].
  destruct Hkd as [->|[Hname [->|[raw ->]]]]; (split_and!; [done|done|right; exists tenant, name; split; [done|]|done]);
    intros dir n; unfold file_at; rewrite ?files_in_store, ?files_in_make; [done..|].
  destruct (decide (dir_of tenant = dir)) as [<-|]; [|done]. rewrite get_put. cbn [mf_name mf_raw].
  destruct (decide (name = n)) as [<-|]; [|done]. intros _. split; [done|]. by eapply safe_name_plain.
Qed.
End confined.

(** ** What becomes of it *)

Lemma md_names files : NoDup (map mf_name files) -> NoDup (map mf_name (md_files files)).
Proof.
  intros Hn. unfold md_files. rewrite py_sorted_perm. induction files as [|f files IH]; [constructor|]. cbn [map] in Hn. apply NoDup_cons in Hn as [Hf Hn].
  rewrite filter_cons. destruct (decide _); [|by apply IH]. cbn [map]. apply NoDup_cons. split; [|by apply IH].
  intros (g & Hg & Hin)%list_elem_of_fmap. apply list_elem_of_filter in Hin as [_ Hin]. apply Hf, list_elem_of_fmap. by exists g.
Qed.

Lemma bind_keys_NoDup (key : pystr * md_file -> pystr * pystr) (ds : list (pystr * list md_file)) : (forall t f, key (t, f) = (t, mf_name f)) ->
  NoDup ds.*1 -> (forall d, d ∈ ds -> NoDup (map mf_name d.2)) -> NoDup (map key (d ← ds; map (pair d.1) (md_files d.2))).
Proof.
  intros Hkey. induction ds as [|[t files] ds IH]; intros Hn Hf; [constructor|]. rewrite fmap_cons in Hn. apply NoDup_cons in Hn as [Ht Hn]. rewrite bind_cons, map_app. cbn [fst snd].
  apply NoDup_app. split; [|split; [|apply IH; [done|intros d Hd; apply Hf; by right]]].
  - rewrite map_map. assert (map (fun x => key (t, x)) (md_files files) = map (pair t) (map mf_name (md_files files))) as ->.
    { rewrite map_map. apply map_ext. intros x. apply Hkey. }
    apply (NoDup_fmap_2_strong (pair t)); [by intros ? ? _ _ [=]|]. by apply md_names, (Hf (t, files)); left.
  - intros x (y & -> & (f & -> & _)%list_elem_of_fmap)%list_elem_of_fmap (z & Hz & Hin)%list_elem_of_fmap. rewrite Hkey in Hz.
    apply list_elem_of_bind in Hin as (d & (g & -> & _)%list_elem_of_fmap & Hd). rewrite Hkey in Hz. injection Hz as Hz _. apply Ht.
    apply list_elem_of_fmap. by exists d.
Qed.

Lemma in_outlines default_tenant kd dir f : tidy default_tenant kd -> f ∈ files_in dir kd -> is_suffix (u ".md") (mf_name f) = true ->
  (default default_tenant dir, f) ∈ outlines default_tenant kd.
Proof.
  intros [Hd _ _ _] Hf Hmd. unfold outlines. apply elem_of_app.
  assert (Hm : forall files, f ∈ files -> f ∈ md_files files) by (intros files Hin; unfold md_files; rewrite elem_of_py_sorted, list_elem_of_filter; done).
  destruct dir as [t|]; cbn [files_in default] in *.
  - right. destruct (dget t (kd_subdirs kd)) as [files|] eqn:E; [|by apply elem_of_nil in Hf]. apply list_elem_of_bind. exists (t, files). cbn [fst snd].
    split; [by apply list_elem_of_fmap_2, Hm|]. rewrite elem_of_py_sorted. by apply dget_Some_elem.
  - left. by apply list_elem_of_fmap_2, Hm.
Qed.

Lemma tidy_kd_ok default_tenant kd : truthy default_tenant = true -> tidy default_tenant kd -> kd_ok default_tenant kd.
Proof.
  intros Htr [Hd Hdef Hts Hn].
  assert (Hsub : forall d, d ∈ py_sorted (fun a b : pystr * list md_file => str_ltb a.1 b.1) (kd_subdirs kd) -> d ∈ kd_subdirs kd /\ NoDup (map mf_name d.2)).
  { intros [t files] Hin. rewrite elem_of_py_sorted in Hin. split; [done|]. pose proof (Hn (Some t)) as Hnt. cbn [files_in] in Hnt.
    by rewrite (elem_dget _ _ _ Hd Hin) in Hnt. }
  split.
  - unfold outlines. rewrite map_app. apply NoDup_app. split; [|split].
    + rewrite map_map. cbn [fst snd]. rewrite <- (map_map mf_name (pair default_tenant)).
      apply (NoDup_fmap_2_strong (pair default_tenant)); [by intros ? ? _ _ [=]|]. apply md_names, (Hn None).
    + intros x (y & -> & (f & -> & _)%list_elem_of_fmap)%list_elem_of_fmap (z & Hz & Hin)%list_elem_of_fmap. cbn [fst snd] in Hz. injection Hz as Hz _.
      apply list_elem_of_bind in Hin as (d & (g & -> & _)%list_elem_of_fmap & Hdin). cbn [fst] in Hz. apply Hsub in Hdin as [Hdin _]. apply Hdef. rewrite Hz.
      apply list_elem_of_fmap. by exists d.
    + apply bind_keys_NoDup; [done| |by intros d Hdin; apply Hsub]. by rewrite py_sorted_perm.
  - intros f. unfold outlines. rewrite elem_of_app. intros [(g & -> & _)%list_elem_of_fmap|Hin]; [done|].
    apply list_elem_of_bind in Hin as (d & (g & -> & _)%list_elem_of_fmap & Hdin). cbn [fst]. apply Hsub in Hdin as [Hdin _].
    rewrite Forall_forall in Hts. specialize (Hts d.1 ltac:(apply list_elem_of_fmap; by exists d)). unfold tenant_re_fullmatch in Hts.
    by destruct d.1 as [|c t].
Qed.

Lemma default_dir default_tenant tenant : default default_tenant (dir_of default_tenant tenant) = tenant.
Proof. unfold dir_of. by case_bool_decide. Qed.

Section served.
Context `{!RetrievalServices, !RetrievalLaws}.
Context (markdown_split : pystr -> list (pystr * dict)) (fallback_split child_split : pystr -> list pystr) (sha256 : list N -> pystr).
Context (courses : option (list Course)) (default_tenant : pystr) (spec : EmbeddingSpec).
Context `{!OutlineLaws markdown_split sha256}.
Context (settings : rag_settings) (Hsettings : settings_ok settings) (Hdefault : truthy default_tenant = true).
Context (admin_ingest_token : pystr) (write_result : option pystr -> pystr -> written).
Abbreviation ingest_knowledge := (ingest_knowledge admin_ingest_token default_tenant write_result).
Abbreviation reached := (reached markdown_split fallback_split child_split sha256 courses default_tenant spec settings).
Abbreviation run_ingest := (_run_ingest markdown_split fallback_split child_split sha256 courses default_tenant spec).
Abbreviation file_documents := (file_documents markdown_split fallback_split child_split sha256 courses default_tenant).

Lemma run_ingests embed_fails save_fails now rebuild kd i sys sys' :
  at_worker i (run_ingest embed_fails save_fails now rebuild kd) sys = Some (Ok tt, sys') ->
  exists s, at_worker i (ingest_indexes markdown_split fallback_split child_split sha256 courses default_tenant spec embed_fails save_fails now true rebuild kd) sys
    = Some (Ok s, sys').
Proof.
  unfold at_worker, _run_ingest, st_bind, st_ret. destruct (sy_workers sys !! i); [|done]. destruct (ingest_indexes _ _ _ _ _ _ _ _ _ _ _ _ _ _) as [[s|e] w]; [|done].
  intros [= <-]. by exists s.
Qed.

Lemma loaded_parts kd docs f : load_knowledge_documents markdown_split fallback_split child_split sha256 courses default_tenant kd = Ok docs ->
  f ∈ outlines default_tenant kd -> exists ds, file_documents f = Ok ds.
Proof.
  intros (dss & Hm & ->)%load_files Hf. apply map_res_spec in Hm. apply list_elem_of_lookup in Hf as [j Hj].
  destruct (Forall2_lookup_l _ _ _ _ _ Hm Hj) as (ds & _ & Hds). by exists ds.
Qed.

End served.

(** ** Some uploads *)

Module Demo.
#[local] Existing Instance Retrieval.Demo.services.
#[local] Existing Instance Retrieval.Demo.laws.
#[local] Existing Instance Ingest.Demo.outline_laws.

Definition TOKEN : pystr := u "s3cret".
Definition all_written (_ : option pystr) (_ : pystr) : written := Wrote.
Definition uploads (tenant_id : pystr) (f : upload) (kd : knowledge_dir) : res api_exn KnowledgeIngestResponse * knowledge_dir :=
  ingest_knowledge TOKEN (u "demo") all_written (Some (u " s3cret ")) tenant_id false (Some f) kd.
Definition outline (name text : pystr) : upload := {| up_filename := name; up_body := text |}.
Definition runs (now : Z) (kd : knowledge_dir) : system -> option (res exn unit * system) :=
  at_worker 0 (_run_ingest Chunking.Demo.lines_split Chunking.Demo.whole Chunking.Demo.whole Ingest.Demo.digest None (u "demo") Ingest.Demo.spec
    Ingest.Demo.no_failure Ingest.Demo.no_failure now false kd).

Definition third_file : upload := outline (u "../up/c.md") (u "ef three").
Definition third_dir : knowledge_dir := (uploads [] third_file Ingest.Demo.after).2.
Definition third : system := Ingest.Demo.then_ Ingest.Demo.second (runs 9 third_dir).

Definition answered (r : res api_exn KnowledgeIngestResponse) : option (pystr * option pystr) :=
  match r with Ok resp => Some (ki_tenant_id resp, ki_saved_path resp) | Raise _ => None end.

Example third_is_stored : answered (uploads [] third_file Ingest.Demo.after).1 = Some (u "demo", Some (u "c.md")) /\ third_dir = Ingest.Demo.dir (u "ef three").
Proof. split; vm_compute; reflexivity. Qed.

(** A file named in capitals is accepted and stored, and never read by an ingest. *)
Example capitals_are_not_read :
  let (r, kd') := uploads (u "acme") (outline (u "NEW.MD") (u "ef three")) Ingest.Demo.after in
  answered r = Some (u "acme", Some (u "acme/NEW.MD")) /\ file_at (Some (u "acme")) (u "NEW.MD") kd' = Some (u "ef three") /\
  outlines (u "demo") kd' = outlines (u "demo") Ingest.Demo.after.
Proof. vm_compute. split_and!; reflexivity. Qed.

(** A file that is no UTF-8 is accepted, and from then on every ingest fails, also of the
    other tenants. *)
Example bad_bytes_stop_ingest :
  let (r, kd') := uploads (u "acme") (outline (u "new.md") [255%N]) Ingest.Demo.after in
  answered r = Some (u "acme", Some (u "acme/new.md")) /\ Ingest.Demo.succeeds (runs 9 kd' Ingest.Demo.second) = false /\
  Ingest.Demo.succeeds (runs 9 (uploads [] third_file kd').2 Ingest.Demo.second) = false.
Proof. vm_compute. split_and!; reflexivity. Qed.

(** A tenant that is no legal name is not refused: the error leaves the endpoint. *)
Example illegal_tenant_is_an_error :
  uploads (u "a/b") third_file Ingest.Demo.after = (Raise (Exc (ValueError (u "非法租户 ID：" ++ u "a/b"))), Ingest.Demo.after).
Proof. vm_compute. reflexivity. Qed.

Lemma after_tidy : tidy (u "demo") Ingest.Demo.after.
Proof.
  split.
  - apply (bool_decide_eq_true_1 _). vm_compute. reflexivity.
  - apply (bool_decide_eq_false_1 _). vm_compute. reflexivity.
  - repeat constructor.
  - intros [t|]; [|apply (bool_decide_eq_true_1 _); vm_compute; reflexivity].
    cbn [files_in Ingest.Demo.after Ingest.Demo.dir kd_subdirs dget]. case_decide; [|constructor]. cbn. repeat constructor. by apply not_elem_of_nil.
Qed.
Lemma third_run : exists a, runs 9 third_dir Ingest.Demo.second = Some (Ok a, third).
Proof. unfold third. exact (Ingest.Demo.succeeded Ingest.Demo.second (runs 9 third_dir) ltac:(vm_compute; reflexivity)). Qed.
End Demo.

Lemma upload_confined_witness :
  (exists resp, (Demo.uploads [] Demo.third_file Ingest.Demo.after).1 = Ok resp /\ saved (u "demo") [] (Some Demo.third_file) Demo.third_dir (ki_saved_path resp)) /\
  tidy (u "demo") Demo.third_dir.
Proof.
  destruct (upload_confined Demo.TOKEN (u "demo") Demo.all_written (Some (u " s3cret ")) [] false (Some Demo.third_file) Ingest.Demo.after Demo.third_dir
    (Demo.uploads [] Demo.third_file Ingest.Demo.after).1 ltac:(vm_compute; reflexivity) Demo.after_tidy) as (Ht & _ & _ & Hs).
  split; [|exact Ht]. destruct (Demo.uploads [] Demo.third_file Ingest.Demo.after).1 as [resp|e] eqn:E; [|vm_compute in E; discriminate E].
  exists resp. split; [reflexivity|exact (Hs resp eq_refl)].
Defined.

