(* ===== verification/Harvest.v ===== *)
(** * Samples for the evaluation ([app/evals/harvest.py])

    Questions that found nothing, answers that customers marked down, and failed
    evaluations are kept, one line of JSON each, in files that wait for a person to merge
    them into the evaluation sets.  Processes share the files; each remembers which
    samples it has seen, and the turns a mark may still come for. *)

From stdpp Require Import base list gmap strings.
From S2P Require Import Prelude PyText PyFloat PySort PyDict Errors Json PyJson Documents.
Open Scope py_scope.

Inductive PendingKind : Type := Rag | Faithfulness.

Record TurnSnapshot := {
  ts_trace_id : pystr;
  ts_tenant_id : pystr;
  ts_original_query : pystr;
  ts_search_query : pystr;
  ts_intent : pystr;
  ts_rag_empty : bool;
  ts_sources : list pystr;
  ts_course_name : pystr;
  ts_rewrite_reason : pystr;
  ts_answer_preview : pystr;
  ts_session_id : pystr;
  ts_request_id : pystr;
}.

(** A process's memory, and the files by name that processes share: those that wait, and
    the evaluation sets. *)
Abbreviation snapshot_cache := (list (pystr * (pyfloat * TurnSnapshot))).
Record harvest_process := { hp_cache : list (pystr * (pyfloat * TurnSnapshot)); hp_seen : list pystr }.
Abbreviation text_files := (list (pystr * pystr)).
Record harvest_world := { hw_process : harvest_process; hw_pending : list (pystr * pystr); hw_evals : list (pystr * pystr) }.

(** A row of a file: a dictionary in order. *)
Abbreviation row := (list (pystr * json)).
Definition jget (k : string) (case : row) : json := default JNull (dget (u k) case).

Definition file_name (kind : PendingKind) : pystr := match kind with Rag => u "rag.jsonl" | Faithfulness => u "faithfulness.jsonl" end.
Definition file_text (name : pystr) (files : text_files) : pystr := default [] (dget name files).
Definition append_text (name text : pystr) (files : text_files) : text_files := dset name (file_text name files ++ text) files.
Definition NL : pystr := [10%N].

Section harvest.
(** The settings; the digest of a text, in hexadecimal digits; the texts of floats and of
    values that are no text; and how writing a file fails, when it does. *)
Context (rag_eval_harvest_enabled : bool) (rag_eval_snapshot_ttl_seconds : Z) (eval_dir : pystr).
Context (sha256 : pystr -> pystr) (float_repr : pyfloat -> pystr) (float_of : pystr -> pyfloat) (repr : json -> pystr) (write_fails : pystr -> option exn).
Abbreviation act := (ST harvest_world exn).
Abbreviation dumps := (json_dumps float_repr).
Abbreviation loads := (json_loads float_of).

Definition on_harvest (f : harvest_process -> harvest_process) : act unit :=
  st_modify (fun w => {| hw_process := f (hw_process w); hw_pending := hw_pending w; hw_evals := hw_evals w |}).

(** ** Turns *)

Definition ttl : Z := Z.max 60 rag_eval_snapshot_ttl_seconds.
Definition expired (now : pyfloat) (entry : pystr * (pyfloat * TurnSnapshot)) : bool := f_lt (f_of_int ttl) (f_sub now entry.2.1).
Definition MAX_SNAPSHOTS : nat := 1000.
Definition _prune_snapshot_cache (now : pyfloat) (cache : snapshot_cache) : snapshot_cache :=
  let live := filter (fun entry => expired now entry = false) cache in drop (length live - MAX_SNAPSHOTS) live.
Definition dpop {V} (k : pystr) (d : list (pystr * V)) : list (pystr * V) := filter (fun kv => kv.1 <> k) d.
(** The entry, written and moved to the end. *)
Definition cache_turn_snapshot (now : pyfloat) (s : TurnSnapshot) (cache : snapshot_cache) : snapshot_cache :=
  let tid := strip (ts_trace_id s) in
  if negb (truthy tid) then cache else _prune_snapshot_cache now (dpop tid cache ++ [(tid, (now, s))]).
Definition get_turn_snapshot (now : pyfloat) (trace_id : pystr) (cache : snapshot_cache) : option TurnSnapshot * snapshot_cache :=
  let tid := strip trace_id in
  if negb (truthy tid) then (None, cache)
  else match dget tid cache with
       | None => (None, cache)
       | Some entry => if expired now (tid, entry) then (None, dpop tid cache) else (Some entry.2, cache)
       end.

(** ** Samples that wait *)

Definition joined_key (tenant query reason : pystr) : pystr := tenant ++ u "|" ++ query ++ u "|" ++ reason.
Definition _case_id (tenant query reason : pystr) : pystr := u "pending-" ++ take 12 (sha256 (joined_key tenant query reason)).
Definition _dedupe_key (tenant query reason : pystr) : pystr := sha256 (joined_key tenant query reason).

Definition jor (v w : json) : json := if jtruthy v then v else w.
Definition tenant_of_row (case : row) : pystr := py_str repr (jor (jget "tenant_id" case) (JStr (u "demo"))).
Definition query_of_row (case : row) : pystr := py_str repr (jor (jget "query" case) (JStr [])).
Definition reason_of_row (other : string) (case : row) : pystr := py_str repr (jor (jor (jget "source" case) (jget "id" case)) (JStr (u other))).

Definition existing_key (r : row) : pystr := _dedupe_key (tenant_of_row r) (query_of_row r) (reason_of_row "" r).
Fixpoint scan (key : pystr) (lines : list pystr) : res exn bool :=
  match lines with
  | [] => Ok false
  | line :: lines =>
    let text := strip line in
    if negb (truthy text) || is_prefix (u "#") text then scan key lines
    else match loads text with
         | None => scan key lines
         | Some (JObj r) => if bool_decide (existing_key r = key) then Ok true else scan key lines
         | Some _ => Raise (OtherExc (u "AttributeError") [])
         end
  end.

Definition see (key : pystr) : act unit := on_harvest (fun p => {| hp_cache := hp_cache p; hp_seen := key :: hp_seen p |}).
Definition with_id (id : pystr) (case : row) : row := match dget (u "id") case with Some _ => case | None => dset (u "id") (JStr id) case end.

Definition append_pending (case : row) (kind : PendingKind) : act bool :=
  if negb rag_eval_harvest_enabled then st_ret false
  else
    let tenant := tenant_of_row case in
    let query := query_of_row case in
    let reason := reason_of_row "unknown" case in
    let key := _dedupe_key tenant query reason in
    let! w := st_get in
    if bool_decide (key ∈ hp_seen (hw_process w)) then st_ret false
    else
      let! found := (fun w => (scan key (splitlines (file_text (file_name kind) (hw_pending w))), w)) in
      if found : bool then do! see key in st_ret false
      else
        match write_fails (file_name kind) with
        | Some e => st_raise e
        | None =>
          let case := with_id (_case_id tenant query reason) case in
          do! st_modify (fun w => {| hw_process := hw_process w; hw_pending := append_text (file_name kind) (dumps (JObj case) ++ NL) (hw_pending w);
                                     hw_evals := hw_evals w |}) in
          do! see key in
          st_ret true
        end.

Definition miss_case (tenant_id query search_query reason trace_id rewrite_reason : pystr) : row :=
  [(u "source", JStr reason); (u "query", JStr query); (u "tenant_id", JStr tenant_id); (u "expect_empty", JBool true);
   (u "meta", JObj [(u "trace_id", JStr trace_id); (u "search_query", JStr search_query); (u "rewrite_reason", JStr rewrite_reason)])].
Definition record_retrieval_miss (tenant_id query search_query reason trace_id rewrite_reason : pystr) : act bool :=
  append_pending (miss_case tenant_id query search_query reason trace_id rewrite_reason) Rag.

Definition down_case (s : TurnSnapshot) (trace_id comment : pystr) : row :=
  [(u "source", JStr (u "user_feedback_down")); (u "query", JStr (ts_original_query s)); (u "tenant_id", JStr (ts_tenant_id s))] ++
  (if truthy (ts_course_name s) then [(u "expect_course_contains", JStr (ts_course_name s))] else []) ++
  [(u "meta", JObj [(u "trace_id", JStr trace_id); (u "search_query", JStr (ts_search_query s)); (u "rewrite_reason", JStr (ts_rewrite_reason s));
                    (u "sources", JList (map JStr (ts_sources s))); (u "comment", JStr comment); (u "rag_empty", JBool (ts_rag_empty s))])].
Definition record_feedback_down (now : pyfloat) (trace_id : pystr) (comment : option pystr) : act bool :=
  let! s := (fun w => let (s, cache) := get_turn_snapshot now trace_id (hp_cache (hw_process w)) in
                      (Ok s, {| hw_process := {| hp_cache := cache; hp_seen := hp_seen (hw_process w) |}; hw_pending := hw_pending w; hw_evals := hw_evals w |})) in
  match s with
  | None => st_ret false
  | Some s => append_pending (down_case s trace_id (opt_str comment)) Faithfulness
  end.

Definition failure_case (test_name case_id : pystr) (r : row) (message : pystr) : row :=
  let flag k := if jtruthy (jget k r) then [(u k, JBool true)] else [] in
  [(u "source", JStr (u "eval_fail:" ++ test_name)); (u "query", match dget (u "query") r with Some v => v | None => JStr [] end);
   (u "tenant_id", JStr (tenant_of_row r)); (u "meta", JObj [(u "case_id", JStr case_id); (u "message", JStr message); (u "original", JObj r)])] ++
  flag "expect_empty" ++ (if jtruthy (jget "expect_sources" r) then [(u "expect_sources", jget "expect_sources" r)] else []) ++ flag "expect_not_found".
Definition export_eval_failure (test_name case_id : pystr) (r : row) (message : pystr) : act bool :=
  append_pending (failure_case test_name case_id r message) (if bool_decide (test_name = u "faithfulness") then Faithfulness else Rag).
Definition maybe_harvest_eval_failure (eval_harvest : option pystr) (test_name case_id : pystr) (r : row) (message : pystr) : act unit :=
  if negb (bool_decide (eval_harvest = Some (u "1"))) then st_ret tt
  else do! export_eval_failure test_name case_id r message in st_ret tt.

(** ** Merging *)

Definition list_pending_files (pending : text_files) : list pystr :=
  py_sorted str_ltb (filter (fun name => is_suffix (u ".jsonl") name = true) pending.*1).
Definition rows_of (text : pystr) : list pystr :=
  filter (fun line => truthy line = true /\ is_prefix (u "#") line = false) (map strip (splitlines text)).
Fixpoint merge_files (apply : bool) (names : list pystr) (w : harvest_world) : list pystr * harvest_world :=
  match names with
  | [] => ([], w)
  | name :: names =>
    let rows := rows_of (file_text name (hw_pending w)) in
    match rows with
    | [] => merge_files apply names w
    | _ =>
      let w := if apply then {| hw_process := hw_process w; hw_pending := dset name [] (hw_pending w);
                                hw_evals := append_text name (concat (map (fun r => r ++ NL) rows)) (hw_evals w) |} else w in
      let (previews, w) := merge_files apply names w in
      ((name ++ u ": +" ++ dec (Z.of_nat (length rows)) ++ u " rows -> " ++ eval_dir ++ u "/" ++ name) :: previews, w)
    end
  end.
Definition merge_pending (apply : bool) (w : harvest_world) : list pystr * harvest_world :=
  merge_files apply (list_pending_files (hw_pending w)) w.
Definition reset_harvest_state_for_tests : act unit := on_harvest (fun _ => {| hp_cache := []; hp_seen := [] |}).
End harvest.

(** ** Lines *)

(** Without the line breaks that JSON leaves as they are. *)
Definition calm_text (s : pystr) : Prop := Forall (fun c => c ∉ [133; 8232; 8233]%N) s.
Fixpoint calm (v : json) : Prop :=
  match v with
  | JStr s => calm_text s
  | JList l => (fix all (l : list json) : Prop := match l with [] => True | x :: l => calm x /\ all l end) l
  | JObj d => (fix all (d : list (pystr * json)) : Prop := match d with [] => True | (k, x) :: d => (calm_text k /\ calm x) /\ all d end) d
  | _ => True
  end.
Lemma calm_list l : calm (JList l) <-> Forall calm l.
Proof. induction l as [|x l IH]; [by split|]. rewrite Forall_cons, <- IH. done. Qed.
Lemma calm_obj d : calm (JObj d) <-> Forall (fun kv => calm_text kv.1 /\ calm kv.2) d.
Proof. induction d as [|[k x] d IH]; [by split|]. rewrite Forall_cons, <- IH. done. Qed.

Definition unbroken (s : pystr) : Prop := Forall (fun c => is_linebreak c = false) s.
Lemma ascii_unbroken c : (32 <= c)%N -> (c < 128)%N -> is_linebreak c = false.
Proof.
  intros H1 H2. unfold is_linebreak. apply bool_decide_eq_false_2. intros H.
  repeat (apply elem_of_cons in H as [->|H]; [lia|]). by apply elem_of_nil in H.
Qed.
Lemma unbroken_lit s : forallb (fun c => (32 <=? c)%N && (c <? 128)%N) s = true -> unbroken s.
Proof.
  intros H. apply Forall_forall. intros c Hc. rewrite forallb_forall in H. specialize (H c ltac:(by apply list_elem_of_In)).
  apply andb_true_iff in H as [H1 H2]. apply N.leb_le in H1. apply N.ltb_lt in H2. by apply ascii_unbroken.
Qed.
Lemma quote_unbroken s : calm_text s -> unbroken (json_quote s).
Proof.
  intros Hs. unfold json_quote. apply Forall_cons. split; [done|]. apply Forall_app. split; [|by repeat constructor].
  induction Hs as [|c s Hc _ IH]; [constructor|]. rewrite bind_cons. apply Forall_app. split; [|done]. clear IH.
  destruct (N.ltb_spec c 32) as [Hlt|Hge].
  - assert (exists i, i < 32 /\ c = N.of_nat i) as (i & Hi & ->) by (exists (N.to_nat c); lia).
    do 32 (destruct i as [|i]; [apply unbroken_lit; vm_compute; reflexivity|]). lia.
  - unfold json_esc. repeat (case_match; [apply unbroken_lit; vm_compute; reflexivity|]). destruct (N.ltb_spec c 32); [lia|].
    repeat constructor. unfold is_linebreak. apply bool_decide_eq_false_2. intros Hin. apply Hc. clear -Hin Hge.
    repeat (apply elem_of_cons in Hin as [->|Hin]; [first [lia|(rewrite !elem_of_cons; tauto)]|]). by apply elem_of_nil in Hin.
Qed.
Lemma dec_unbroken n : unbroken (dec n).
Proof.
  assert (H : forall ds m, decimal ds m -> unbroken ds).
  { intros ds m [_ Hd _ _]. eapply Forall_impl; [exact Hd|]. intros c Hc. cbn beta in *. unfold is_ascii_digit in Hc. apply andb_true_iff in Hc as [H1 H2].
    apply N.leb_le in H1, H2. apply ascii_unbroken; lia. }
  destruct (Z_lt_le_dec n 0) as [Hn|Hn]; [|by eapply H, dec_decimal].
  destruct (dec_negative n Hn) as (ds & -> & Hd). apply Forall_cons. split; [done|by eapply H].
Qed.

Section kept.
Context (sha256 : pystr -> pystr) (float_repr : pyfloat -> pystr) (float_of : pystr -> pyfloat) (repr : json -> pystr) (write_fails : pystr -> option exn).
(** The digest is of hexadecimal digits. *)
Context (Hsha : forall s, calm_text (sha256 s)).
Abbreviation dumps := (json_dumps float_repr).
Abbreviation existing_key := (existing_key sha256 repr).
Abbreviation scan := (scan sha256 float_of repr).
Abbreviation append_pending := (append_pending true sha256 float_repr float_of repr write_fails).

Lemma dumps_unbroken v : plain_json v -> calm v -> unbroken (dumps v).
Proof.
  assert (Hsep : unbroken (u ", ") /\ unbroken (u ": ")) by (split; apply unbroken_lit; vm_compute; reflexivity). destruct Hsep as [Hsep Hsep'].
  assert (H : forall n v, json_size v <= n -> plain_json v -> calm v -> unbroken (dumps v)); [|by apply (H (json_size v))].
  clear v. induction n as [|n IH]; intros v Hn Hp Hc; [pose proof (size_pos v); lia|].
  destruct v as [|[]|z|x|s|l|d]; try (apply unbroken_lit; vm_compute; reflexivity); try done.
  - apply dec_unbroken.
  - by apply quote_unbroken.
  - apply plain_list in Hp. apply calm_list in Hc. cbn [json_size] in Hn. destruct (sizes_bound json_size l size_pos) as [_ Hl]. cbn [json_dumps].
    apply Forall_cons. split; [done|]. apply Forall_app. split; [|by repeat constructor]. apply join_Forall; [exact Hsep|].
    apply Forall_forall. intros t (x & -> & Hx)%list_elem_of_fmap. rewrite Forall_forall in Hp, Hc, Hl. apply IH; [specialize (Hl x Hx); lia|by apply Hp|by apply Hc].
  - apply plain_obj in Hp as [_ Hp]. apply calm_obj in Hc. cbn [json_size] in Hn.
    destruct (sizes_bound (fun '(_, x) => json_size x) d ltac:(intros [? x]; apply size_pos)) as [_ Hl]. cbn [json_dumps].
    apply Forall_cons. split; [done|]. apply Forall_app. split; [|by repeat constructor]. apply join_Forall; [exact Hsep|].
    apply Forall_forall. intros t ([k x] & -> & Hx)%list_elem_of_fmap. rewrite Forall_forall in Hp, Hc, Hl. specialize (Hl _ Hx).
    change (json_size x <= list_sum (map (fun '(_, x) => json_size x) d)) in Hl. destruct (Hc _ Hx) as [Hk Hcx]. cbn [fst snd] in *.
    apply Forall_app. split; [by apply quote_unbroken|]. apply Forall_app. split; [exact Hsep'|]. apply IH; [lia|by apply (Hp (k, x))|done].
Qed.

(** A row as the files keep it, and the text of rows. *)
Definition row_ok (r : row) : Prop := plain_json (JObj r) /\ calm (JObj r).
Definition line_of (r : row) : pystr := dumps (JObj r).
Definition text_of (rows : list row) : pystr := concat (map (fun r => line_of r ++ NL) rows).

Lemma lines_split cur t rest : unbroken t -> lines_from cur (t ++ 10%N :: rest) = (reverse cur ++ t) :: lines_from [] rest.
Proof.
  intros Ht. revert cur. induction Ht as [|c t Hc _ IH]; intros cur.
  - cbn [app lines_from]. change (is_linebreak 10) with true. cbv iota. rewrite app_nil_r. by destruct rest.
  - cbn [app lines_from]. rewrite Hc, IH. by rewrite reverse_cons, <- app_assoc.
Qed.
Lemma text_lines rows : Forall row_ok rows -> splitlines (text_of rows) = map line_of rows.
Proof.
  unfold splitlines, text_of. induction 1 as [|r rows [Hp Hc] _ IH]; [done|]. cbn [map concat]. rewrite <- app_assoc. change (NL ++ ?x) with (10%N :: x).
  rewrite lines_split by by apply dumps_unbroken. by rewrite IH.
Qed.
Lemma line_stripped r : strip (line_of r) = line_of r /\ truthy (line_of r) = true /\ is_prefix (u "#") (line_of r) = false.
Proof.
  unfold line_of. cbn [json_dumps]. set (body := join _ _). split; [|done]. apply strip_iff. split; [done|].
  change (123%N :: body ++ [125%N]) with ((123%N :: body) ++ [125%N]). by rewrite last_snoc.
Qed.

Lemma scan_rows key rows : Forall row_ok rows -> scan key (map line_of rows) = Ok (bool_decide (key ∈ map existing_key rows)).
Proof.
  induction 1 as [|r rows [Hp Hc] _ IH]; cbn [map Harvest.scan]; [by rewrite bool_decide_eq_false_2 by apply not_elem_of_nil|].
  destruct (line_stripped r) as (Es & Et & Eh). rewrite Es, Et, Eh. cbn [negb orb]. unfold line_of at 1. rewrite json_loads_dumps by done.
  destruct (bool_decide_reflect (existing_key r = key)) as [Hk|Hk].
  - by rewrite bool_decide_eq_true_2 by (apply elem_of_cons; by left).
  - rewrite IH. f_equal. apply bool_decide_ext. rewrite elem_of_cons. split; [by right|]. intros [->|?]; [by destruct Hk|done].
Qed.

(** A sample as the program makes them. *)
Definition case_ok (case : row) : Prop := row_ok case /\ jtruthy (jget "source" case) = true.
Definition id_of (case : row) : pystr := _case_id sha256 (tenant_of_row repr case) (query_of_row repr case) (reason_of_row repr "unknown" case).
Definition row_of (case : row) : row := with_id (id_of case) case.

Lemma jget_id (k : string) id case : u "id" <> u k -> jget k (with_id id case) = jget k case.
Proof. intros Hk. unfold jget, with_id. destruct (dget (u "id") case); [done|]. by rewrite dget_dset, decide_False. Qed.
Lemma key_of_row case : case_ok case -> existing_key (row_of case) = existing_key case /\
  _dedupe_key sha256 (tenant_of_row repr case) (query_of_row repr case) (reason_of_row repr "unknown" case) = existing_key case.
Proof.
  intros [_ Hs]. unfold Harvest.existing_key, row_of, tenant_of_row, query_of_row, reason_of_row. rewrite !jget_id by (vm_compute; discriminate).
  unfold jor. by rewrite !Hs.
Qed.
Lemma row_of_ok case : case_ok case -> row_ok (row_of case).
Proof.
  intros [[Hp Hc] _]. unfold row_of, with_id. destruct (dget (u "id") case); [done|]. apply plain_obj in Hp as [Hn Hp]. apply calm_obj in Hc. split.
  - apply plain_obj. split; [by apply NoDup_dset|]. by apply Forall_dset.
  - apply calm_obj. apply Forall_dset; [|done]. split; [apply (bool_decide_unpack _); vm_compute; exact I|].
    cbn [calm snd]. unfold id_of, _case_id. apply Forall_app. split.
    + apply (bool_decide_unpack _). vm_compute. exact I.
    + apply Forall_take, Hsha.
Qed.

(** One call, where the files are of rows. *)
Lemma append_spec case kind rows w : case_ok case -> Forall row_ok rows -> file_text (file_name kind) (hw_pending w) = text_of rows ->
  match append_pending case kind w with
  | (Ok b, w') =>
    hw_evals w' = hw_evals w /\ existing_key case ∈ hp_seen (hw_process w') /\
    (forall key, key ∈ hp_seen (hw_process w') -> key = existing_key case \/ key ∈ hp_seen (hw_process w)) /\
    (if b then existing_key case ∉ map existing_key rows /\ existing_key case ∉ hp_seen (hw_process w) /\
               hw_pending w' = dset (file_name kind) (text_of (rows ++ [row_of case])) (hw_pending w)
     else (existing_key case ∈ map existing_key rows \/ existing_key case ∈ hp_seen (hw_process w)) /\ hw_pending w' = hw_pending w)
  | (Raise _, w') => w' = w
  end.
Proof.
  intros Hcase Hrows Hfile. pose proof (key_of_row case Hcase) as [_ Hkey]. unfold Harvest.append_pending. cbn [negb]. cbv zeta. rewrite Hkey.
  unfold st_bind, st_get. destruct (bool_decide_reflect (existing_key case ∈ hp_seen (hw_process w))) as [Hin|Hin].
  { cbn. split_and!; [done|done|by right|by right|done]. }
  rewrite Hfile, text_lines, scan_rows by done. destruct (bool_decide_reflect (existing_key case ∈ map existing_key rows)) as [Hr|Hr].
  { cbn. split_and!; [done|by left|by intros key [->|?]%elem_of_cons; [left|right]|by left|done]. }
  destruct (write_fails (file_name kind)); [done|]. cbn. split_and!; [done|by left|by intros key [->|?]%elem_of_cons; [left|right]|done|done|].
  unfold append_text. rewrite Hfile. f_equal. unfold text_of. rewrite map_app, concat_app. cbn [map concat]. rewrite app_nil_r. done.
Qed.

Lemma text_empty rows : text_of rows = [] -> rows = [].
Proof. destruct rows as [|r rows]; [done|]. unfold text_of. cbn [map concat]. unfold NL. intros H. apply (f_equal length) in H. rewrite !length_app in H. cbn in H. lia. Qed.

Lemma rows_of_text rows : Forall row_ok rows -> rows_of (text_of rows) = map line_of rows.
Proof.
  intros Hr. unfold rows_of. rewrite text_lines by done. clear Hr. induction rows as [|r rows IH]; [done|]. cbn [map]. destruct (line_stripped r) as (Es & Et & Eh).
  rewrite Es, filter_cons, decide_True by done. by rewrite IH.
Qed.

(** ** Processes around the files *)

Record harvest_system := { hs_pending : text_files; hs_evals : text_files; hs_processes : list harvest_process }.
Definition at_process {A} (i : nat) (m : ST harvest_world exn A) (sys : harvest_system) : option (res exn A * harvest_system) :=
  match hs_processes sys !! i with
  | Some p => let (r, w) := m {| hw_process := p; hw_pending := hs_pending sys; hw_evals := hs_evals sys |} in
              Some (r, {| hs_pending := hw_pending w; hs_evals := hw_evals w; hs_processes := <[i := hw_process w]> (hs_processes sys) |})
  | None => None
  end.

Context (eval_dir : pystr) (evals0 : text_files).
(** What happens to the samples: calls that do not raise, in any process; a process that
    forgets or starts again; merges. *)
Inductive sampled : list (PendingKind * row) -> harvest_system -> Prop :=
| Opened processes : Forall (fun p => hp_seen p = []) processes -> sampled [] {| hs_pending := []; hs_evals := evals0; hs_processes := processes |}
| Sampled calls sys i case kind b sys' : sampled calls sys -> case_ok case ->
    at_process i (append_pending case kind) sys = Some (Ok b, sys') -> sampled ((kind, case) :: calls) sys'
| Remembered calls sys i p cache : sampled calls sys -> hs_processes sys !! i = Some p ->
    sampled calls {| hs_pending := hs_pending sys; hs_evals := hs_evals sys; hs_processes := <[i := {| hp_cache := cache; hp_seen := hp_seen p |}]> (hs_processes sys) |}
| Restarted calls sys i : sampled calls sys ->
    sampled calls {| hs_pending := hs_pending sys; hs_evals := hs_evals sys; hs_processes := <[i := {| hp_cache := []; hp_seen := [] |}]> (hs_processes sys) |}
| Merged calls sys p w lines : sampled calls sys ->
    merge_pending eval_dir true {| hw_process := p; hw_pending := hs_pending sys; hw_evals := hs_evals sys |} = (lines, w) ->
    sampled calls {| hs_pending := hw_pending w; hs_evals := hw_evals w; hs_processes := hs_processes sys |}.

(** Every call's sample is there, of a call, and waits at most once. *)
Record kept (calls : list (PendingKind * row)) (sys : harvest_system) (waiting merged : PendingKind -> list row) : Prop := {
  kp_waiting kind : file_text (file_name kind) (hs_pending sys) = text_of (waiting kind);
  kp_merged kind : file_text (file_name kind) (hs_evals sys) = file_text (file_name kind) evals0 ++ text_of (merged kind);
  kp_once kind : NoDup (map existing_key (waiting kind));
  kp_all kind case : (kind, case) ∈ calls -> exists kind' r, r ∈ merged kind' ++ waiting kind' /\ existing_key r = existing_key case;
  kp_only kind r : r ∈ merged kind ++ waiting kind -> exists case, (kind, case) ∈ calls /\ case_ok case /\ r = row_of case;
}.
Record kept_by (sys : harvest_system) (waiting merged : PendingKind -> list row) : Prop := {
  kb_seen p key : p ∈ hs_processes sys -> key ∈ hp_seen p -> exists kind r, r ∈ merged kind ++ waiting kind /\ existing_key r = key;
  kb_names name : name ∈ (hs_pending sys).*1 -> exists kind, name = file_name kind;
  kb_keys : NoDup (hs_pending sys).*1;
}.
End kept.

(** The files, kind by kind. *)
#[export] Instance PendingKind_eq_dec : EqDecision PendingKind.
Proof. solve_decision. Defined.
Lemma file_name_inj kind kind' : file_name kind = file_name kind' -> kind = kind'.
Proof. destruct kind, kind'; try done; intros H; exfalso; revert H; vm_compute; discriminate. Qed.
Lemma file_text_dset name name' text files : file_text name (dset name' text files) = if decide (name' = name) then text else file_text name files.
Proof. unfold file_text. rewrite dget_dset. by destruct (decide (name' = name)). Qed.
Lemma kind_text kind kind' text files : file_text (file_name kind) (dset (file_name kind') text files) = if decide (kind' = kind) then text else file_text (file_name kind) files.
Proof.
  rewrite file_text_dset. destruct (decide (kind' = kind)) as [->|Hne]; [by rewrite decide_True|]. rewrite decide_False; [done|]. by intros H%file_name_inj.
Qed.

Section kept_invariant.
Context (sha256 : pystr -> pystr) (float_repr : pyfloat -> pystr) (float_of : pystr -> pyfloat) (repr : json -> pystr) (write_fails : pystr -> option exn).
Context (Hsha : forall s, calm_text (sha256 s)) (eval_dir : pystr) (evals0 : text_files).
Abbreviation existing_key := (existing_key sha256 repr).
Abbreviation text_of := (text_of float_repr).
Abbreviation row_of := (row_of sha256 repr).
Abbreviation kept := (kept sha256 float_repr repr evals0).
Abbreviation kept_by := (kept_by sha256 repr).
Abbreviation sampled := (sampled sha256 float_repr float_of repr write_fails eval_dir evals0).

Lemma merge_spec (waiting : PendingKind -> list row) names : forall w lines w', (forall kind, Forall row_ok (waiting kind)) -> NoDup names ->
  (forall kind, file_text (file_name kind) (hw_pending w) = text_of (waiting kind)) -> (forall name, name ∈ names -> exists kind, name = file_name kind) ->
  merge_files eval_dir true names w = (lines, w') ->
  (forall kind, file_text (file_name kind) (hw_pending w') = if decide (file_name kind ∈ names) then [] else text_of (waiting kind)) /\
  (forall kind, file_text (file_name kind) (hw_evals w') = file_text (file_name kind) (hw_evals w) ++ if decide (file_name kind ∈ names) then text_of (waiting kind) else []) /\
  (forall name, name ∈ (hw_pending w').*1 -> name ∈ (hw_pending w).*1 \/ name ∈ names) /\ (NoDup (hw_pending w).*1 -> NoDup (hw_pending w').*1).
Proof.
  revert waiting. induction names as [|name names IH]; intros waiting w lines w' Hok Hn Hfiles Hnames; cbn [merge_files].
  - intros [= <- <-]. split_and!; [intros kind; by rewrite decide_False by apply not_elem_of_nil|intros kind; rewrite decide_False by apply not_elem_of_nil; by rewrite app_nil_r|by left|done].
  - apply NoDup_cons in Hn as [Hname Hn]. destruct (Hnames name ltac:(by left)) as [kind0 ->].
    assert (Hnames' : forall name, name ∈ names -> exists kind, name = file_name kind) by (intros n Hin; apply Hnames; by right).
    rewrite Hfiles, (rows_of_text float_repr) by done.
    set (waiting' := fun kind => if decide (kind0 = kind) then [] else waiting kind).
    assert (Hok' : forall kind, Forall row_ok (waiting' kind)) by (intros kind; unfold waiting'; by destruct (decide _)).
    assert (Hsplit : forall kind (a b : pystr), (if decide (file_name kind ∈ file_name kind0 :: names) then a else b) =
      if decide (kind0 = kind) then a else if decide (file_name kind ∈ names) then a else b).
    { intros kind a b. destruct (decide (kind0 = kind)) as [<-|Hne]; [by rewrite decide_True by left|].
      destruct (decide (file_name kind ∈ names)) as [Hin|Hni]; [by rewrite decide_True by by right|]. rewrite decide_False; [done|].
      intros [E|?]%elem_of_cons; [by apply file_name_inj in E as ->|done]. }
    assert (Hcase : forall w0, (forall kind, file_text (file_name kind) (hw_pending w0) = text_of (waiting' kind)) ->
      (forall kind, file_text (file_name kind) (hw_evals w0) = file_text (file_name kind) (hw_evals w) ++ if decide (kind0 = kind) then text_of (waiting kind) else []) ->
      (forall name, name ∈ (hw_pending w0).*1 -> name ∈ (hw_pending w).*1 \/ name = file_name kind0) -> (NoDup (hw_pending w).*1 -> NoDup (hw_pending w0).*1) ->
      forall lines0, merge_files eval_dir true names w0 = (lines0, w') ->
      (forall kind, file_text (file_name kind) (hw_pending w') = if decide (file_name kind ∈ file_name kind0 :: names) then [] else text_of (waiting kind)) /\
      (forall kind, file_text (file_name kind) (hw_evals w') = file_text (file_name kind) (hw_evals w) ++ if decide (file_name kind ∈ file_name kind0 :: names) then text_of (waiting kind) else []) /\
      (forall name, name ∈ (hw_pending w').*1 -> name ∈ (hw_pending w).*1 \/ name ∈ file_name kind0 :: names) /\ (NoDup (hw_pending w).*1 -> NoDup (hw_pending w').*1)).
    { intros w0 Hf0 He0 Hin0 Hn0 lines0 Hm. destruct (IH waiting' w0 lines0 w' Hok' Hn Hf0 Hnames' Hm) as (H1 & H2 & H3 & H4). split_and!.
      - intros kind. rewrite H1, Hsplit. unfold waiting'. destruct (decide (kind0 = kind)); [by destruct (decide _)|done].
      - intros kind. rewrite H2, He0, Hsplit, <- app_assoc. f_equal. unfold waiting'. destruct (decide (kind0 = kind)) as [<-|]; [|done].
        rewrite decide_False by done. by rewrite app_nil_r.
      - intros n Hin. destruct (H3 n Hin) as [Hin'|?]; [|right; by right]. destruct (Hin0 n Hin') as [?| ->]; [by left|right; by left].
      - auto. }
    destruct (map (line_of float_repr) (waiting kind0)) as [|l ls] eqn:El.
    + assert (Hempty : waiting kind0 = []) by by destruct (waiting kind0). apply Hcase.
      * intros kind. rewrite Hfiles. unfold waiting'. destruct (decide (kind0 = kind)) as [<-|]; [by rewrite Hempty|done].
      * intros kind. destruct (decide (kind0 = kind)) as [<-|]; [rewrite Hempty; cbn; by rewrite app_nil_r|by rewrite app_nil_r].
      * by left.
      * done.
    + cbv zeta. destruct (merge_files eval_dir true names _) as [previews w1] eqn:Em. intros [= <- <-]. eapply Hcase; [| | | |exact Em]; cbn [hw_pending hw_evals].
      * intros kind. rewrite kind_text. unfold waiting'. by destruct (decide (kind0 = kind)).
      * intros kind. unfold append_text. rewrite kind_text. destruct (decide (kind0 = kind)) as [<-|]; [|by rewrite app_nil_r]. f_equal.
        rewrite <- El. unfold Harvest.text_of. by rewrite map_map.
      * intros n [->|?]%elem_of_dset_keys; [by right|by left].
      * apply NoDup_dset.
Qed.

Lemma rows_ok_kept calls sys waiting merged kind : kept calls sys waiting merged -> Forall row_ok (waiting kind).
Proof.
  intros Hk. apply Forall_forall. intros r Hr. destruct (kp_only _ _ _ _ _ _ _ _ Hk kind r) as (case & _ & Hc & ->); [apply elem_of_app; by right|].
  by apply (row_of_ok sha256 repr Hsha).
Qed.

Lemma grows (waiting merged : PendingKind -> list row) kind case k r : r ∈ merged k ++ waiting k ->
  r ∈ merged k ++ (if decide (k = kind) then waiting k ++ [row_of case] else waiting k).
Proof. rewrite !elem_of_app. destruct (decide (k = kind)); [rewrite elem_of_app|]; tauto. Qed.
Lemma seen_of (l : list harvest_process) i p q q' k : l !! i = Some p -> q ∈ <[i := q']> l -> (forall key, key ∈ hp_seen q' -> key = k \/ key ∈ hp_seen p) ->
  forall key, key ∈ hp_seen q -> key = k \/ exists p', p' ∈ l /\ key ∈ hp_seen p'.
Proof.
  intros Hp Hq Hs key Hkey. apply list_elem_of_lookup in Hq as [j Hj]. apply list_lookup_insert_Some in Hj as [(-> & <- & _)|[_ Hj]].
  - destruct (Hs key Hkey) as [->|?]; [by left|right]. exists p. split; [by eapply list_elem_of_lookup_2|done].
  - right. exists q. split; [by eapply list_elem_of_lookup_2|done].
Qed.
Lemma dget_none_out {V} (k : pystr) (d : list (pystr * V)) : k ∉ d.*1 -> dget k d = None.
Proof. intros Hk. destruct (dget k d) eqn:E; [|done]. destruct Hk. apply dget_is_Some. by rewrite E. Qed.
Lemma NoDup_pending (files : text_files) : NoDup files.*1 -> NoDup (list_pending_files files).
Proof. intros Hn. unfold list_pending_files. rewrite py_sorted_perm. by apply NoDup_filter. Qed.

Definition holds (calls : list (PendingKind * row)) (sys : harvest_system) : Prop :=
  exists waiting merged, kept calls sys waiting merged /\ kept_by sys waiting merged.

(** A call. *)
Lemma holds_sampled calls sys i case kind b sys' : holds calls sys -> case_ok case ->
  at_process i (append_pending true sha256 float_repr float_of repr write_fails case kind) sys = Some (Ok b, sys') -> holds ((kind, case) :: calls) sys'.
Proof.
  intros (waiting & merged & Hk & Hb) Hcase Hrun. unfold at_process in Hrun. destruct (hs_processes sys !! i) as [p|] eqn:Ep; [|done].
  pose proof (append_spec sha256 float_repr float_of repr write_fails case kind (waiting kind)
    {| hw_process := p; hw_pending := hs_pending sys; hw_evals := hs_evals sys |} Hcase (rows_ok_kept _ _ _ _ _ Hk) (kp_waiting _ _ _ _ _ _ _ _ Hk kind)) as Hs.
  destruct (append_pending _ _ _ _ _ _ _ _ _) as [r w] eqn:Ea. injection Hrun as -> <-. cbn [hw_process hw_pending hw_evals] in Hs.
  destruct Hs as (He & Hin & Hseen & Hrest). pose proof (key_of_row sha256 repr case Hcase) as [Hkey _]. destruct b.
  - destruct Hrest as (Hnew & _ & Hpend). exists (fun k => if decide (k = kind) then waiting k ++ [row_of case] else waiting k), merged.
    split; split; cbn [hs_pending hs_evals hs_processes]; rewrite ?He, ?Hpend.
    + intros k. rewrite kind_text. destruct (decide (kind = k)) as [<-|]; [by rewrite decide_True|]. rewrite decide_False by done. apply Hk.
    + apply Hk.
    + intros k. destruct (decide (k = kind)) as [->|]; [|apply Hk]. rewrite map_app. apply NoDup_app. split; [apply Hk|]. cbn [map]. rewrite Hkey.
      split; [|apply NoDup_singleton]. by intros x Hx ->%list_elem_of_singleton.
    + intros k c [[= -> ->]|Hc]%elem_of_cons.
      * exists kind, (row_of case). split; [|done]. rewrite decide_True by done. rewrite !elem_of_app. right. right. by left.
      * destruct (kp_all _ _ _ _ _ _ _ _ Hk k c Hc) as (k' & r & Hr & E). exists k', r. split; [|done]. by apply grows.
    + intros k r. destruct (decide (k = kind)) as [->|].
      * rewrite app_assoc, elem_of_app, list_elem_of_singleton. intros [Hr| ->].
         -- destruct (kp_only _ _ _ _ _ _ _ _ Hk kind r Hr) as (c & Hc & ?). exists c. split; [by right|done].
         -- exists case. split; [by left|done].
      * intros Hr. destruct (kp_only _ _ _ _ _ _ _ _ Hk k r Hr) as (c & Hc & ?). exists c. split; [by right|done].
    + intros q key Hq Hkq. destruct (seen_of _ _ _ _ _ _ Ep Hq Hseen key Hkq) as [->|(q' & Hq' & Hkq')].
      * exists kind, (row_of case). split; [|done]. rewrite decide_True by done. rewrite !elem_of_app. right. right. by left.
      * destruct (kb_seen _ _ _ _ _ Hb q' key Hq' Hkq') as (k' & r & Hr & E). exists k', r. split; [|done]. by apply grows.
    + intros name [->|Hn]%elem_of_dset_keys; [by exists kind|by apply Hb].
    + by apply NoDup_dset, Hb.
  - destruct Hrest as (Hold & Hpend). exists waiting, merged. split; split; cbn [hs_pending hs_evals hs_processes]; rewrite ?He, ?Hpend; try apply Hk; try apply Hb.
    + intros k c [[= -> ->]|Hc]%elem_of_cons; [|exact (kp_all _ _ _ _ _ _ _ _ Hk k c Hc)]. destruct Hold as [Hold|Hold].
      * apply list_elem_of_fmap in Hold as (r & -> & Hr). exists kind, r. split; [apply elem_of_app; by right|done].
      * apply (kb_seen _ _ _ _ _ Hb p); [by eapply list_elem_of_lookup_2|done].
    + intros k r Hr. destruct (kp_only _ _ _ _ _ _ _ _ Hk k r Hr) as (c & Hc & ?). exists c. split; [by right|done].
    + intros q key Hq Hkq. destruct (seen_of _ _ _ _ _ _ Ep Hq Hseen key Hkq) as [->|(q' & Hq' & Hkq')]; [|by apply (kb_seen _ _ _ _ _ Hb q')].
      destruct Hold as [Hold|Hold].
      * apply list_elem_of_fmap in Hold as (r & -> & Hr). exists kind, r. split; [apply elem_of_app; by right|done].
      * apply (kb_seen _ _ _ _ _ Hb p); [by eapply list_elem_of_lookup_2|done].
Qed.

(** A process that forgets. *)
Lemma holds_forgotten calls sys i q : holds calls sys -> (forall p key, hs_processes sys !! i = Some p -> key ∈ hp_seen q -> key ∈ hp_seen p) ->
  holds calls {| hs_pending := hs_pending sys; hs_evals := hs_evals sys; hs_processes := <[i := q]> (hs_processes sys) |}.
Proof.
  intros (waiting & merged & Hk & Hb) Hq. exists waiting, merged. split; [by split; apply Hk|]. split; cbn [hs_pending hs_evals hs_processes]; try apply Hb.
  intros p key Hp Hkey. apply list_elem_of_lookup in Hp as [j Hj]. apply list_lookup_insert_Some in Hj as [(-> & <- & Hlt)|[_ Hj]].
  - apply lookup_lt_is_Some in Hlt as [p0 Hp0]. apply (kb_seen _ _ _ _ _ Hb p0); [by eapply list_elem_of_lookup_2|by eapply Hq].
  - apply (kb_seen _ _ _ _ _ Hb p); [by eapply list_elem_of_lookup_2|done].
Qed.

(** A merge. *)
Lemma holds_merged calls sys p w lines : holds calls sys ->
  merge_pending eval_dir true {| hw_process := p; hw_pending := hs_pending sys; hw_evals := hs_evals sys |} = (lines, w) ->
  holds calls {| hs_pending := hw_pending w; hs_evals := hw_evals w; hs_processes := hs_processes sys |}.
Proof.
  intros (waiting & merged & Hk & Hb) Hm.
  unfold merge_pending in Hm. cbn [hw_pending] in Hm.
  assert (Hnames : forall name, name ∈ list_pending_files (hs_pending sys) <-> name ∈ (hs_pending sys).*1 /\ is_suffix (u ".jsonl") name = true).
  { intros name. unfold list_pending_files. rewrite elem_of_py_sorted, list_elem_of_filter. tauto. }
  destruct (merge_spec waiting _ {| hw_process := p; hw_pending := hs_pending sys; hw_evals := hs_evals sys |} lines w (fun kind => rows_ok_kept _ _ _ _ kind Hk) (NoDup_pending _ (kb_keys _ _ _ _ _ Hb)) (kp_waiting _ _ _ _ _ _ _ _ Hk)
    (fun name Hin => kb_names _ _ _ _ _ Hb name (proj1 (proj1 (Hnames name) Hin))) Hm) as (H1 & H2 & H3 & H4). cbn [hw_pending hw_evals] in H1, H2, H3, H4.
  assert (Hall : forall kind, file_name kind ∉ list_pending_files (hs_pending sys) -> waiting kind = []).
  { intros kind Hni. apply (text_empty float_repr). rewrite <- (kp_waiting _ _ _ _ _ _ _ _ Hk kind). unfold file_text. rewrite dget_none_out; [done|].
    intros Hin. apply Hni, Hnames. split; [done|]. by destruct kind. }
  assert (Hmem : forall kind r, r ∈ (merged kind ++ waiting kind) ++ [] <-> r ∈ merged kind ++ waiting kind) by (intros kind r; by rewrite app_nil_r).
  exists (fun _ => []), (fun kind => merged kind ++ waiting kind). split; split; cbn [hs_pending hs_evals hs_processes].
  - intros kind. rewrite H1. destruct (decide _) as [|Hni]; [done|]. by rewrite (Hall kind Hni).
  - intros kind. rewrite H2, (kp_merged _ _ _ _ _ _ _ _ Hk kind). unfold Harvest.text_of. rewrite map_app, concat_app, app_assoc. f_equal.
    destruct (decide _) as [|Hni]; [done|]. by rewrite (Hall kind Hni).
  - intros kind. constructor.
  - intros kind c Hc. destruct (kp_all _ _ _ _ _ _ _ _ Hk kind c Hc) as (k' & r & Hr & E). exists k', r. by rewrite Hmem.
  - intros kind r. rewrite Hmem. apply Hk.
  - intros q key Hq Hkq. destruct (kb_seen _ _ _ _ _ Hb q key Hq Hkq) as (k' & r & Hr & E). exists k', r. by rewrite Hmem.
  - intros name Hin. apply (kb_names _ _ _ _ _ Hb). destruct (H3 name Hin) as [?|Hin']; [done|by apply Hnames in Hin' as [? _]].
  - apply H4, Hb.
Qed.

Lemma sampled_holds calls sys : sampled calls sys -> holds calls sys.
Proof.
  induction 1 as [processes Hp|calls sys i case kind b sys' _ IH Hcase Hrun|calls sys i p cache _ IH Hp|calls sys i _ IH|calls sys p w lines _ IH Hm].
  - exists (fun _ => []), (fun _ => []). split; split; cbn; try done.
    + intros kind. by rewrite app_nil_r.
    + intros kind. constructor.
    + intros kind case Hin. by apply elem_of_nil in Hin.
    + intros kind r Hin. by apply elem_of_nil in Hin.
    + intros p key Hin. rewrite Forall_forall in Hp. rewrite (Hp p Hin). by intros ?%elem_of_nil.
    + intros name Hin. by apply elem_of_nil in Hin.
    + constructor.
  - by eapply holds_sampled.
  - apply holds_forgotten; [done|]. intros p' key Hp'. rewrite Hp in Hp'. by injection Hp' as ->.
  - apply holds_forgotten; [done|]. intros p' key _ Hin. by apply elem_of_nil in Hin.
  - by eapply holds_merged.
Qed.

End kept_invariant.

(** ** The samples of the program *)

Lemma texts_ok (d : row) : NoDup d.*1 -> Forall (fun kv => calm_text kv.1 /\ (exists s, kv.2 = JStr s /\ calm_text s) \/ calm_text kv.1 /\ exists b, kv.2 = JBool b) d ->
  plain_json (JObj d) /\ calm (JObj d).
Proof.
  intros Hn Hd. rewrite plain_obj, calm_obj. split; [split; [done|]|]; (eapply Forall_impl; [exact Hd|]); intros [k v]; cbn;
    intros [(Hk & s & -> & Hs)|(Hk & b & ->)]; done.
Qed.

Lemma miss_case_ok tenant_id query search_query reason trace_id rewrite_reason : Forall calm_text [tenant_id; query; search_query; reason; trace_id; rewrite_reason] ->
  truthy reason = true -> case_ok (miss_case tenant_id query search_query reason trace_id rewrite_reason).
Proof.
  intros Hc Hr. apply Forall_cons in Hc as [H1 Hc]. apply Forall_cons in Hc as [H2 Hc]. apply Forall_cons in Hc as [H3 Hc]. apply Forall_cons in Hc as [H4 Hc].
  apply Forall_cons in Hc as [H5 Hc]. apply Forall_cons in Hc as [H6 _].
  assert (Hk : forall k : string, forallb (fun c => (c <? 128)%N) (u k) = true -> calm_text (u k)).
  { intros k Hk. apply Forall_forall. intros c Hin. rewrite forallb_forall in Hk. specialize (Hk c ltac:(by apply list_elem_of_In)). apply N.ltb_lt in Hk.
    rewrite !elem_of_cons, elem_of_nil. lia. }
  split; [|unfold jget, miss_case; cbn [dget]; by rewrite decide_True].
  assert (Hmeta : plain_json (JObj [(u "trace_id", JStr trace_id); (u "search_query", JStr search_query); (u "rewrite_reason", JStr rewrite_reason)]) /\
                  calm (JObj [(u "trace_id", JStr trace_id); (u "search_query", JStr search_query); (u "rewrite_reason", JStr rewrite_reason)])).
  { apply texts_ok; [apply (bool_decide_unpack _); vm_compute; exact I|]. 
    repeat (apply Forall_cons; split; [left; split; [by apply Hk|by eexists]|]). constructor. }
  unfold row_ok, miss_case. rewrite plain_obj, calm_obj. split; [split; [apply (bool_decide_unpack _); vm_compute; exact I|]|].
  - repeat (apply Forall_cons; split; [done|]). apply Forall_cons. split; [apply Hmeta|constructor].
  - repeat (apply Forall_cons; split; [split; [by apply Hk|done]|]). apply Forall_cons. split; [split; [by apply Hk|apply Hmeta]|constructor].
Qed.

(** ** Turns that are remembered *)

Inductive turn_op : Type :=
| CacheTurn (now : pyfloat) (s : TurnSnapshot)
| Recall (now : pyfloat) (trace_id : pystr).
Definition op_time (op : turn_op) : pyfloat := match op with CacheTurn now _ | Recall now _ => now end.
Definition other_turn (tid : pystr) (op : turn_op) : Prop := match op with CacheTurn _ s => strip (ts_trace_id s) <> tid | Recall _ _ => True end.
Definition caches (op : turn_op) : bool := match op with CacheTurn _ _ => true | Recall _ _ => false end.

Section turns.
Context (ttl_seconds : Z).
Abbreviation expired := (expired ttl_seconds).
Abbreviation get_turn_snapshot := (get_turn_snapshot ttl_seconds).
Abbreviation cache_turn_snapshot := (cache_turn_snapshot ttl_seconds).
Definition turn_step (cache : snapshot_cache) (op : turn_op) : snapshot_cache :=
  match op with CacheTurn now s => cache_turn_snapshot now s cache | Recall now trace_id => (get_turn_snapshot now trace_id cache).2 end.

(** The entry is there, with at most [m] behind it. *)
Definition recent (e : pystr * (pyfloat * TurnSnapshot)) (m : nat) (cache : snapshot_cache) : Prop :=
  exists pre post, cache = pre ++ e :: post /\ e.1 ∉ pre.*1 /\ length post <= m.

Lemma recent_filter e m cache (P : pystr * (pyfloat * TurnSnapshot) -> Prop) `{forall x, Decision (P x)} : P e -> recent e m cache -> recent e m (filter P cache).
Proof.
  intros Hp (pre & post & -> & Hpre & Hl). exists (filter P pre), (filter P post). rewrite filter_app, filter_cons, decide_True by done. split_and!; [done| |].
  - intros (x & Hx & Hin)%list_elem_of_fmap. apply list_elem_of_filter in Hin as [_ Hin]. apply Hpre. apply list_elem_of_fmap. by exists x.
  - etrans; [apply length_filter|done].
Qed.
Lemma recent_drop e m cache : m < MAX_SNAPSHOTS -> recent e m cache -> recent e m (drop (length cache - MAX_SNAPSHOTS) cache).
Proof.
  intros Hm (pre & post & -> & Hpre & Hl). rewrite length_app. cbn [length].
  exists (drop (length pre + S (length post) - MAX_SNAPSHOTS) pre), post. split_and!; [|intros Hin; apply Hpre|done].
  - rewrite drop_app_le; [done|]. lia.
  - apply list_elem_of_fmap in Hin as (x & Hx & Hin). apply list_elem_of_fmap. exists x. split; [done|].
    rewrite <- (take_drop (length pre + S (length post) - MAX_SNAPSHOTS) pre). apply elem_of_app. by right.
Qed.
Lemma recent_prune e now m cache : m < MAX_SNAPSHOTS -> expired now e = false -> recent e m cache -> recent e m (_prune_snapshot_cache ttl_seconds now cache).
Proof. intros Hm He Hr. unfold _prune_snapshot_cache. apply recent_drop; [done|]. by apply recent_filter. Qed.

Lemma dget_app_out {V} k (d d' : list (pystr * V)) : k ∉ d.*1 -> dget k (d ++ d') = dget k d'.
Proof.
  induction d as [|[k1 v1] d IH]; intros Hk; [done|]. rewrite fmap_cons in Hk. apply not_elem_of_cons in Hk as [Hk1 Hk]. cbn [app dget].
  rewrite decide_False; [by apply IH|]. by intros ->.
Qed.

Lemma recent_step e m cache op : S m < MAX_SNAPSHOTS -> expired (op_time op) e = false -> truthy e.1 = true -> other_turn e.1 op -> recent e m cache ->
  recent e (if caches op then S m else m) (turn_step cache op).
Proof.
  intros Hm He Ht Ho Hr. destruct op as [now s|now trace_id]; cbn [turn_step caches op_time other_turn] in *.
  - unfold Harvest.cache_turn_snapshot. cbv zeta. destruct (truthy (strip (ts_trace_id s))) eqn:Es; cbn [negb].
    + apply recent_prune; [done|done|]. destruct (recent_filter e m cache (fun kv => kv.1 <> strip (ts_trace_id s)) ltac:(by intros ?) Hr) as (pre & post & E & Hpre & Hl).
      exists pre, (post ++ [(strip (ts_trace_id s), (now, s))]). unfold dpop. rewrite E, <- app_assoc, length_app. cbn. split_and!; [done|done|lia].
    + destruct Hr as (pre & post & ? & ? & ?). exists pre, post. split_and!; [done|done|lia].
  - unfold Harvest.get_turn_snapshot. cbv zeta. destruct (truthy (strip trace_id)); [|done]. cbn [negb]. destruct (dget (strip trace_id) cache) as [x|] eqn:Eg; [|done].
    destruct (Harvest.expired ttl_seconds now (strip trace_id, x)) eqn:Ex; [|exact Hr]. cbn [snd]. apply recent_filter; [|done]. intros Htid. rewrite <- Htid in *. destruct Hr as (pre & post & -> & Hpre & _).
    destruct e as [k v]. cbn [fst] in *. rewrite dget_app_out in Eg by done. cbn [dget] in Eg. rewrite decide_True in Eg by done. injection Eg as <-. by rewrite He in Ex.
Qed.

Lemma recent_steps e m cache ops : m + length (filter (fun op => caches op = true) ops) + 1 < MAX_SNAPSHOTS -> truthy e.1 = true -> Forall (other_turn e.1) ops ->
  Forall (fun t => expired t e = false) (map op_time ops) -> recent e m cache ->
  recent e (m + length (filter (fun op => caches op = true) ops)) (foldl turn_step cache ops).
Proof.
  revert m cache. induction ops as [|op ops IH]; intros m cache Hm Ht Ho He Hr; cbn [foldl]; [by rewrite Nat.add_0_r|].
  cbn [map] in He. apply Forall_cons in Ho as [Ho Hos]. apply Forall_cons in He as [He Hes]. rewrite filter_cons in *.
  pose proof (recent_step e m cache op ltac:(destruct (decide _); cbn [length] in Hm; lia) He Ht Ho Hr) as Hs.
  destruct (decide (caches op = true)) as [Hc|Hc]; cbn [length] in *.
  - rewrite Hc in Hs. rewrite Nat.add_succ_r. apply (IH (S m)); [lia|done..].
  - apply not_true_is_false in Hc. rewrite Hc in Hs. by apply IH.
Qed.

Lemma pop_bounded {V} k (d : list (pystr * V)) : length (dpop k d) <= length d.
Proof. apply length_filter. Qed.
Lemma step_bounded cache op : length cache <= MAX_SNAPSHOTS -> length (turn_step cache op) <= MAX_SNAPSHOTS.
Proof.
  intros Hl. destruct op as [now s|now trace_id]; cbn [turn_step].
  - unfold Harvest.cache_turn_snapshot. cbv zeta. destruct (negb _); [done|]. unfold _prune_snapshot_cache. rewrite length_drop. lia.
  - unfold Harvest.get_turn_snapshot. cbv zeta. destruct (negb _); [done|]. destruct (dget _ _); [|done]. destruct (Harvest.expired _ _ _); [|done]. cbn [snd].
    etrans; [apply pop_bounded|done].
Qed.
Lemma steps_bounded cache now s ops : length cache <= MAX_SNAPSHOTS -> length (foldl turn_step (cache_turn_snapshot now s cache) ops) <= MAX_SNAPSHOTS.
Proof.
  intros Hl. pose proof (step_bounded cache (CacheTurn now s) Hl) as H. cbn [turn_step] in H. revert H. generalize (cache_turn_snapshot now s cache).
  induction ops as [|op ops IH]; intros c Hc; [done|]. cbn [foldl]. by apply IH, step_bounded.
Qed.
(** A turn is remembered for the mark of the customer: unless a thousand others follow, or
    its time is over, what is recalled under its trace is what was cached last; and never
    are more than a thousand remembered. *)
Theorem turn_is_recalled (cache : snapshot_cache) (now now' : pyfloat) (s : TurnSnapshot) (trace_id : pystr) (ops : list turn_op) :
  strip trace_id = strip (ts_trace_id s) -> truthy (strip trace_id) = true ->
  Forall (other_turn (strip trace_id)) ops -> length (filter (fun op => caches op = true) ops) + 1 < MAX_SNAPSHOTS ->
  Forall (fun t => expired t (strip trace_id, (now, s)) = false) (now :: now' :: map op_time ops) ->
  let cache' := foldl turn_step (cache_turn_snapshot now s cache) ops in
  get_turn_snapshot now' trace_id cache' = (Some s, cache') /\ (length cache <= MAX_SNAPSHOTS -> length cache' <= MAX_SNAPSHOTS).
Proof.
  intros Htid Ht Hops Hlen Htimes cache'. apply Forall_cons in Htimes as [H0 Htimes]. apply Forall_cons in Htimes as [H1 Htimes].
  assert (Hr : recent (strip trace_id, (now, s)) (length (filter (fun op => caches op = true) ops)) cache').
  { assert (Hstart : recent (strip trace_id, (now, s)) 0 (cache_turn_snapshot now s cache)).
    { unfold Harvest.cache_turn_snapshot. rewrite <- Htid, Ht. cbn [negb]. apply recent_prune; [unfold MAX_SNAPSHOTS; lia|done|]. exists (dpop (strip trace_id) cache), [].
      split_and!; [done| |cbn; lia]. intros (x & Hx & Hin)%list_elem_of_fmap. apply list_elem_of_filter in Hin as [Hne _]. by apply Hne. }
    subst cache'. apply (recent_steps _ 0); [lia|done|done|done|done]. }
  split; [|by apply steps_bounded].
  destruct Hr as (pre & post & E & Hpre & _). unfold Harvest.get_turn_snapshot. rewrite Ht. cbn [negb]. rewrite E.
  rewrite dget_app_out by done. cbn [dget]. rewrite decide_True by done. by rewrite H1.
Qed.
End turns.

(** ** Some samples *)

Module Demo.
Definition digest (s : pystr) : pystr := map (fun c => 48 + c mod 10)%N s.
Lemma digest_calm s : calm_text (digest s).
Proof.
  unfold digest. apply Forall_forall. intros c (d & -> & _)%list_elem_of_fmap. pose proof (N.mod_upper_bound d 10 ltac:(lia)) as Hm.
  revert Hm. generalize (d mod 10)%N. intros r Hr. rewrite !elem_of_cons, elem_of_nil. lia.
Qed.
Definition no_repr (_ : json) : pystr := [].
Definition written (_ : pystr) : option exn := None.
Definition evals : text_files := [(u "rag.jsonl", u "{}" ++ NL)].

Definition miss (query : pystr) : row := miss_case (u "demo") query query (u "rag_empty") (u "t1") [].
Definition samples (i : nat) (query : pystr) : harvest_system -> option (res exn bool * harvest_system) :=
  at_process i (append_pending true digest no_floats some_float no_repr written (miss query) Rag).
Definition then_ {A} (sys : harvest_system) (f : harvest_system -> option (res exn A * harvest_system)) : harvest_system :=
  match f sys with Some (_, sys') => sys' | None => sys end.
Definition answer {A} (sys : harvest_system) (f : harvest_system -> option (res exn A * harvest_system)) : option (res exn A) := fst <$> f sys.
Definition restart (i : nat) (sys : harvest_system) : harvest_system :=
  {| hs_pending := hs_pending sys; hs_evals := hs_evals sys; hs_processes := <[i := {| hp_cache := []; hp_seen := [] |}]> (hs_processes sys) |}.
Definition merge (sys : harvest_system) : harvest_system :=
  let w := (merge_pending (u "evals") true {| hw_process := {| hp_cache := []; hp_seen := [] |}; hw_pending := hs_pending sys; hw_evals := hs_evals sys |}).2 in
  {| hs_pending := hw_pending w; hs_evals := hw_evals w; hs_processes := hs_processes sys |}.

Definition opened : harvest_system := {| hs_pending := []; hs_evals := evals; hs_processes := replicate 2 {| hp_cache := []; hp_seen := [] |} |}.
Definition q : pystr := u "退款 13800138000".
Definition first : harvest_system := then_ opened (samples 0 q).
Definition second : harvest_system := then_ first (samples 1 q).
Definition third : harvest_system := merge (restart 0 second).

(** Two processes, one sample, a restart and a merge; the question is kept as it was asked,
    with the telephone number in it. *)
Example one_sample : answer opened (samples 0 q) = Some (Ok true) /\ answer first (samples 1 q) = Some (Ok false) /\
  answer (restart 0 second) (samples 0 q) = Some (Ok false) /\
  length (splitlines (file_text (u "rag.jsonl") (hs_pending second))) = 1 /\ contains (u "13800138000") (file_text (u "rag.jsonl") (hs_pending second)) = true /\
  length (splitlines (file_text (u "rag.jsonl") (hs_evals third))) = 2 /\ file_text (u "rag.jsonl") (hs_pending third) = [].
Proof. vm_compute. split_and!; reflexivity. Qed.

(** A process that has not seen the sample takes it up again behind a merge: it comes twice
    into the evaluation set. *)
Example merged_again : answer third (samples 0 q) = Some (Ok true) /\
  length (splitlines (file_text (u "rag.jsonl") (hs_evals (merge (then_ third (samples 0 q)))))) = 3.
Proof. vm_compute. split; reflexivity. Qed.

(** A line break that JSON leaves as it is, as text from word processors has it, breaks
    the line into pieces: the sample is not found again, and merging writes lines that are no
    JSON. *)
Definition broken : pystr := u "退款" ++ [8232%N] ++ u "多久".
Example broken_line : answer (restart 0 (then_ opened (samples 0 broken))) (samples 0 broken) = Some (Ok true) /\
  let text := file_text (u "rag.jsonl") (hs_evals (merge (then_ opened (samples 0 broken)))) in
  map (fun line => bool_decide (json_loads some_float line = None)) (splitlines text) = [false; true; true; true].
Proof. vm_compute. split; reflexivity. Qed.

(** A line of JSON that is no object makes every later sample of the file an error. *)
Example foreign_row_raises :
  answer {| hs_pending := [(u "rag.jsonl", u "[]" ++ NL)]; hs_evals := []; hs_processes := hs_processes opened |} (samples 0 q) =
  Some (Raise (OtherExc (u "AttributeError") [])).
Proof. vm_compute. reflexivity. Qed.

Lemma q_calm : case_ok (miss q).
Proof. apply miss_case_ok; [|reflexivity]. repeat (apply Forall_cons; split; [apply (bool_decide_unpack _); vm_compute; exact I|]). constructor. Qed.

Lemma third_sampled : sampled digest no_floats some_float no_repr written (u "evals") evals [(Rag, miss q); (Rag, miss q)] third.
Proof.
  unfold third, merge. eapply Merged; [|apply surjective_pairing].
  unfold restart. apply Restarted. eapply (Sampled _ _ _ _ _ _ _ _ first 1); [|exact q_calm|vm_compute; reflexivity].
  eapply (Sampled _ _ _ _ _ _ _ _ opened 0); [|exact q_calm|vm_compute; reflexivity].
  unfold opened. apply Opened. by repeat constructor.
Qed.

Definition turn (trace query : pystr) : TurnSnapshot :=
  {| ts_trace_id := trace; ts_tenant_id := u "demo"; ts_original_query := query; ts_search_query := query; ts_intent := u "rag"; ts_rag_empty := true; ts_sources := [];
     ts_course_name := []; ts_rewrite_reason := []; ts_answer_preview := []; ts_session_id := []; ts_request_id := [] |}.
End Demo.


Lemma turn_is_recalled_witness :
  (get_turn_snapshot 3600 (f_of_int 20) (u " t1 ")
     (foldl (turn_step 3600) (cache_turn_snapshot 3600 f_one (Demo.turn (u "t1") (u "ab")) []) [CacheTurn (f_of_int 5) (Demo.turn (u "t2") (u "cd")); Recall (f_of_int 7) (u "t1")])).1
  = Some (Demo.turn (u "t1") (u "ab")).
Proof.
  destruct (turn_is_recalled 3600 [] f_one (f_of_int 20) (Demo.turn (u "t1") (u "ab")) (u " t1 ")
    [CacheTurn (f_of_int 5) (Demo.turn (u "t2") (u "cd")); Recall (f_of_int 7) (u "t1")]) as [H _].
  - vm_compute; reflexivity.
  - vm_compute; reflexivity.
  - repeat constructor. vm_compute. discriminate.
  - vm_compute. lia.
  - repeat constructor.
  - rewrite H. reflexivity.
Defined.
