(* ===== verification/Middleware.v ===== *)
(** * The agent's middleware ([app/security/middleware.py], [app/security/callback.py])

    What LangChain's agent loop calls around its steps: before it starts, around each
    question to the model, behind it, and around each tool call.  The loop itself is
    LangChain's; [handler] is what it hands over. *)

From stdpp Require Import base list gmap strings.
From S2P Require Import Prelude PyText PyRe Errors Json Filters Window Escalation ToolCache Capability Documents.
Open Scope py_scope.

(** ** The audit log ([SecurityCallbackHandler]) *)

Abbreviation audit_event := (list (pystr * json)).

Section callback.
Context (repr : json -> pystr) (user_id tenant_id request_id : pystr).

Definition _record (event : pystr) (fields : list (pystr * json)) (events : list audit_event) : list audit_event :=
  events ++ [[(u "event", JStr event); (u "request_id", JStr request_id); (u "tenant_id", JStr tenant_id);
              (u "user_id", JStr user_id)] ++ fields].

(** [messages], the contents of each list of messages; [None] when it is empty or its first
    list is. *)
Definition on_chat_model_start (name id : json) (messages : list (list json)) (run_id : pystr) : list audit_event -> list audit_event :=
  let preview := match messages with
                 | batch :: _ => match last batch with Some content => take 200 (py_str repr content) | None => [] end
                 | [] => []
                 end in
  _record (u "llm_start") [(u "run_id", JStr run_id); (u "model", if jtruthy name then name else id); (u "preview", JStr preview)].

(** [llm_output], a dictionary or nothing. *)
Definition on_llm_end (llm_output : list (pystr * json)) (run_id : pystr) : list audit_event -> list audit_event :=
  let token_usage := match llm_output with
                     | [] => JObj []
                     | _ => if jtruthy (obj_get (u "token_usage") llm_output) then obj_get (u "token_usage") llm_output else JObj []
                     end in
  _record (u "llm_end") [(u "run_id", JStr run_id); (u "token_usage", token_usage)].

Definition on_llm_error (error : exn) (run_id : pystr) : list audit_event -> list audit_event :=
  _record (u "llm_error") [(u "run_id", JStr run_id); (u "error", JStr (exn_message error))].
Definition on_tool_start (name : json) (input_str run_id : pystr) : list audit_event -> list audit_event :=
  _record (u "tool_start") [(u "run_id", JStr run_id); (u "tool", name); (u "input_preview", JStr (take 300 input_str))].
Definition on_tool_end (output run_id : pystr) : list audit_event -> list audit_event :=
  _record (u "tool_end") [(u "run_id", JStr run_id); (u "output_preview", JStr (take 300 output))].
Definition on_tool_error (error : exn) (run_id : pystr) : list audit_event -> list audit_event :=
  _record (u "tool_error") [(u "run_id", JStr run_id); (u "error", JStr (exn_message error))].
Definition on_chain_error (error : exn) (run_id : pystr) : list audit_event -> list audit_event :=
  _record (u "chain_error") [(u "run_id", JStr run_id); (u "error", JStr (exn_message error))].
End callback.

(** ** Messages and requests *)

(** A message of the agent's state, its content a text or a list of parts. *)
Record agent_message := {
  am_role : role;
  am_content : json;
  am_tool_calls : list json;
}.
(** What a hook changes of the state: messages to add, and where to go on. *)
Record state_update := { su_messages : list agent_message; su_jump_to : option pystr }.

(** The request of a tool call: its [tool_call], and the attributes read when that is no
    dictionary. *)
Record tool_request := { tr_tool_call : json; tr_name : json; tr_id : json }.
Inductive tool_result : Type :=
| ToolMessage (content : json) (name : option pystr) (tool_call_id status : pystr)
| Command (v : json).

Definition _MAX_TRANSIENT_ATTEMPTS : nat := 2.

Definition _is_transient_error (exc : exn) : bool :=
  if is_os_error exc then true
  else
    let name := lower (exn_name exc) in
    let message := lower (exn_message exc) in
    contains (u "timeout") name || contains (u "timeout") message || contains (u "connection") name.

Section middleware.
Context (repr : json -> pystr) (esettings : escalation_settings) (user_id tenant_id request_id : pystr).
(** [isinstance(exc, GraphBubbleUp)]. *)
Context (is_bubble_up : exn -> bool).

Definition or_empty_dict (v : json) : json := if jtruthy v then v else JObj [].

Definition _tool_resource_key (request : tool_request) (tool_name : pystr) : pystr :=
  let fallback := str_or tool_name (u "default") in
  match or_empty_dict (tr_tool_call request) with
  | JObj tool_call =>
    match or_empty_dict (obj_get (u "args") tool_call) with
    | JObj args =>
      let order_no := obj_get (u "order_no") args in
      let question := if jtruthy (obj_get (u "question") args) then obj_get (u "question") args else obj_get (u "query") args in
      if jtruthy order_no then py_str repr order_no
      else if jtruthy question then take 120 (py_str repr question)
      else fallback
    | _ => fallback
    end
  | _ => fallback
  end.

Definition _tool_call_meta (request : tool_request) : pystr * pystr :=
  match or_empty_dict (tr_tool_call request) with
  | JObj tool_call => (str_or_empty repr (obj_get (u "name") tool_call), str_or_empty repr (obj_get (u "id") tool_call))
  | _ => (str_or_empty repr (tr_name request), str_or_empty repr (tr_id request))
  end.

(** Equal content is not written anew: the same message either way. *)
Definition _sanitize_tool_result (result : tool_result) : tool_result :=
  match result with
  | ToolMessage (JStr content) name tool_call_id status => ToolMessage (JStr (mask_pii content).1) name tool_call_id status
  | _ => result
  end.

Definition error_detail (exc : exn) : pystr :=
  (mask_pii (take 200 (strip (replace_char 10 32 (exn_message exc))))).1.
Definition _error_tool_message (name call_id : pystr) (exc : exn) : tool_result :=
  ToolMessage (JStr (u "工具 " ++ str_or name (u "unknown") ++ u " 执行失败：" ++ str_or (error_detail exc) (exn_name exc) ++ u "。" ++
                     u "请根据错误修正参数后重试；若是业务错误请向用户说明，不要用相同参数反复调用。"))
    (str_or_none name) (str_or call_id (u "unknown")) (u "error").

Definition before_agent (messages : list agent_message) : option state_update :=
  match last messages with
  | None => None
  | Some message =>
    let verdict := inspect_input (py_str repr (am_content message)) in
    if negb (sv_allowed verdict) then
      Some {| su_messages := [{| am_role := AIMessage; am_content := JStr (u "请求已被安全中间件拦截：" ++ sv_reason verdict); am_tool_calls := [] |}];
              su_jump_to := Some (u "end") |}
    else None
  end.

Definition after_model (messages : list agent_message) : option state_update :=
  match last messages with
  | Some {| am_content := JStr content |} =>
    let masked := inspect_output content in
    if bool_decide (masked = content) then None
    else Some {| su_messages := [{| am_role := AIMessage; am_content := JStr masked; am_tool_calls := [] |}]; su_jump_to := None |}
  | _ => None
  end.

Definition sanitized_message (message : agent_message) : agent_message :=
  match am_content message with
  | JStr content => {| am_role := am_role message; am_content := JStr (mask_pii content).1; am_tool_calls := am_tool_calls message |}
  | _ => message
  end.

(** What the hooks see: the state of the tools, and the middleware's own log. *)
Record hook_world (T : Type) := { hw_tools : tool_world T; hw_events : list audit_event }.
Arguments hw_tools {T}.
Arguments hw_events {T}.
Arguments Build_hook_world {T}.

Section calls.
Context {T : Type}.
Abbreviation hook := (ST (hook_world T) exn).
Abbreviation tool := (ST (tool_world T) exn).

(** The model called on the messages, through [request.override]. *)
Definition awrap_model_call {A} (messages : list agent_message) (handler : list agent_message -> tool A) : tool A :=
  handler (map sanitized_message messages).
Definition wrap_model_call {A} := @awrap_model_call A.

Definition record_event (event : pystr) (fields : list (pystr * json)) : hook unit :=
  st_modify (fun w => Build_hook_world (hw_tools w) (_record user_id tenant_id request_id event fields (hw_events w))).
(** [escalation_for_transient], its decision dropped. *)
Definition count_transient (tool_id resource_key : pystr) : hook unit :=
  st_modify (fun w => Build_hook_world
    (with_tracker (escalation_for_transient esettings tool_id resource_key (tw_tracker (hw_tools w))).2 (hw_tools w)) (hw_events w)).

(** Errors that are not for the model. *)
Definition passes (e : exn) : bool :=
  is_bubble_up e || match e with ToolEscalationError _ => true | _ => false end || negb (is_Exception e).

(** The loop, [remaining] attempts before its end. *)
Fixpoint tool_attempts (request : tool_request) (handler : tool tool_result) (name call_id : pystr) (attempt remaining : nat) : hook tool_result :=
  match remaining with
  | O => st_raise (OtherExc (u "AssertionError") [])
  | Datatypes.S remaining => fun w =>
    match handler (hw_tools w) with
    | (Ok result, t) => (Ok (_sanitize_tool_result result), Build_hook_world t (hw_events w))
    | (Raise exc, t) =>
      let w := Build_hook_world t (hw_events w) in
      if passes exc then (Raise exc, w)
      else
        (do! record_event (u "middleware_tool_error")
              [(u "tool", JStr name); (u "attempt", JInt (Z.of_nat attempt + 1)); (u "error", JStr (take 200 (exn_message exc)))] in
         if (0 <? remaining) && _is_transient_error exc then tool_attempts request handler name call_id (attempt + 1) remaining
         else
           do! (if is_transient_tool_failure (Some exc) None
                then count_transient (str_or name (u "unknown")) (_tool_resource_key request name)
                else st_ret tt) in
           st_ret (_error_tool_message name call_id exc)) w
    end
  end.

Definition awrap_tool_call (request : tool_request) (handler : tool tool_result) : hook tool_result :=
  let '(name, call_id) := _tool_call_meta request in
  do! record_event (u "middleware_tool_call") [(u "tool", JStr name)] in
  tool_attempts request handler name call_id 0 _MAX_TRANSIENT_ATTEMPTS.
Definition wrap_tool_call := awrap_tool_call.

(** ** Properties *)

(** A tool tried [n] times in a row: how the last attempt ended. *)
Fixpoint tried (n : nat) (handler : tool tool_result) : tool tool_result := fun t =>
  match n with
  | O | Datatypes.S O => handler t
  | Datatypes.S n => tried n handler (handler t).2
  end.

(** How the middleware answers for the last attempt. *)
Definition answered_for (request : tool_request) (last : res exn tool_result * tool_world T) : res exn tool_result * tool_world T :=
  match last with
  | (Ok result, t) => (Ok (_sanitize_tool_result result), t)
  | (Raise e, t) =>
    if passes e then (Raise e, t)
    else (Ok (_error_tool_message (_tool_call_meta request).1 (_tool_call_meta request).2 e),
          if is_transient_tool_failure (Some e) None
          then with_tracker ((fun c => (record_transient (str_or (_tool_call_meta request).1 (u "unknown"))
                                          (_tool_resource_key request (_tool_call_meta request).1) c).2) <$> tw_tracker t) t
          else t)
  end.

Lemma counted (tool_id key : pystr) (c : option counts) :
  (escalation_for_transient esettings tool_id key c).2 = (fun c => (record_transient tool_id key c).2) <$> c.
Proof.
  destruct c as [c|]; [|done]. cbn [escalation_for_transient fmap option_fmap option_map]. destruct (record_transient tool_id key c) as [n c'].
  destruct (tool_escalation_enabled esettings); cbn [negb]; [|done]. by destruct (_ <? _)%Z.
Qed.

Lemma last_attempt request handler w r w' attempt remaining :
  let e := (handler (hw_tools w)).1 in
  (forall exc, e = Raise exc -> passes exc = false -> (0 <? remaining) && _is_transient_error exc = false) ->
  tool_attempts request handler (_tool_call_meta request).1 (_tool_call_meta request).2 attempt (Datatypes.S remaining) w = (r, w') ->
  (r, hw_tools w') = answered_for request (handler (hw_tools w)) /\
  length (hw_events w') = length (hw_events w) + (match e with Raise exc => if passes exc then 0 else 1 | Ok _ => 0 end).
Proof.
  cbv zeta. intros Hlast Ha. cbn [tool_attempts] in Ha. destruct (handler (hw_tools w)) as [[result|exc] t]; cbn [fst answered_for] in *.
  - injection Ha as <- <-. split; [done|]. cbn. lia.
  - destruct (passes exc) eqn:Ep; [injection Ha as <- <-; split; [done|cbn; lia]|]. unfold st_bind at 1, record_event, st_modify in Ha.
    rewrite (Hlast exc eq_refl Ep) in Ha. destruct (is_transient_tool_failure (Some exc) None); injection Ha as <- <-;
      (split; [|cbn [hw_events]; unfold _record; rewrite length_app; done]); [|done].
    cbn [hw_tools hw_events]. by rewrite counted.
Qed.

Lemma tried_again request handler w name call_id e t : handler (hw_tools w) = (Raise e, t) -> passes e = false -> _is_transient_error e = true ->
  exists events, length events = length (hw_events w) + 1 /\
    tool_attempts request handler name call_id 0 2 w = tool_attempts request handler name call_id 1 1 (Build_hook_world t events).
Proof.
  intros Hh Hp Ht. eexists. split; [|cbn [tool_attempts]; rewrite Hh, Hp; unfold st_bind at 1, record_event at 1, st_modify at 1; rewrite Ht; reflexivity].
  unfold _record. by rewrite length_app.
Qed.


Definition text_of (m : agent_message) : option pystr := match am_content m with JStr c => Some c | _ => None end.

End calls.
End middleware.
Arguments hw_tools {T}.
Arguments hw_events {T}.
Arguments Build_hook_world {T}.

(** ** Examples *)

Module Demo.
Definition esettings : escalation_settings := {| tool_escalation_enabled := true; tool_escalation_transient_threshold := 1 |}.
Definition order_call : tool_request :=
  {| tr_tool_call := JObj [(u "name", JStr (u "tool_order_query")); (u "id", JStr (u "call_1"));
                           (u "args", JObj [(u "order_no", JStr (u "20251114001"))])]; tr_name := JNull; tr_id := JNull |}.
Definition world : hook_world unit := {| hw_tools := Build_tool_world tt (Some ∅); hw_events := [] |}.
Definition call (handler : ST (tool_world unit) exn tool_result) : res exn tool_result * hook_world unit :=
  awrap_tool_call (fun _ => []) esettings (u "alice") (u "demo") (u "r1") (fun _ => false) order_call handler world.
Definition too_slow : ST (tool_world unit) exn tool_result := st_raise (TimeoutError (u "手机13812345678超时")).

(** The failure that reaches the threshold: the decision to hand over is dropped, the model
    reads that the tool failed. *)
Example counted_not_escalated :
  match call too_slow with
  | (Ok (ToolMessage (JStr text) (Some name) _ status), w) =>
    (is_prefix (u "工具 tool_order_query 执行失败：手机[PHONE_MASKED]超时。") text, status,
     (fun c => (count_of (u "tool_order_query") (u "20251114001") c, should_escalate esettings (u "tool_order_query") (u "20251114001") c)) <$> tw_tracker (hw_tools w),
     length (hw_events w)) = (true, u "error", Some (1%Z, true), 3)
  | _ => False
  end.
Proof. vm_compute. reflexivity. Qed.
End Demo.


