(* ===== verification/Supervisor.v ===== *)
(** * The supervisor ([app/agents/supervisor.py])

    Runs the plan of the routing policy: asks, runs the registered capabilities group
    by group, or falls back to the ReACT agent (a parameter here). *)

From stdpp Require Import base list gmap sorting strings.
From S2P Require Import Prelude PyText Errors Json Schemas Policy Window OrderAccess Orders Escalation ToolCache Capability OrderCapability CourseCapability.

Open Scope py_scope.

Definition _is_auto_handoff_answer (answer : option pystr) : bool :=
  let text := strip (opt_str answer) in
  contains (u "转接人工客服") text && contains (u "演示环境") text.

(** ** Groups *)

(** [groups] and [sorted(groups)]: the group numbers of the steps, ascending, each with
    its steps in plan order. *)
Definition group_ids (steps : list PlanStep) : list nat :=
  merge_sort le (remove_dups (map ps_parallel_group steps)).
Definition group_steps (steps : list PlanStep) (g : nat) : list PlanStep :=
  filter (fun s => ps_parallel_group s = g) steps.

(** ** [asyncio.gather]

    The calls share the state and run in some order, an atomic step each; every call
    runs, the results come back in the order of the arguments, and the first
    exception raised, in time, is what the caller sees. *)
Section gather.
Context {W A : Type}.

Fixpoint run_order_of (sched : list nat) (calls : list (ST W exn A)) (w : W)
    : list (nat * res exn A) * W :=
  match sched with
  | [] => ([], w)
  | i :: sched =>
    match nth_error calls i with
    | None => run_order_of sched calls w
    | Some call =>
      let (r, w) := call w in
      let (rs, w) := run_order_of sched calls w in
      ((i, r) :: rs, w)
    end
  end.

Definition first_error (rs : list (nat * res exn A)) : option exn :=
  head (omap (fun r => match r.2 with Raise e => Some e | Ok _ => None end) rs).

(** The result of the [i]-th call. *)
Definition result_of (rs : list (nat * res exn A)) (i : nat) : option A :=
  head (omap (fun r => if decide (r.1 = i) then match r.2 with Ok a => Some a | Raise _ => None end
                       else None) rs).

Definition gather (sched : list nat) (calls : list (ST W exn A)) : ST W exn (list A) := fun w =>
  let (rs, w) := run_order_of sched calls w in
  match first_error rs with
  | Some e => (Raise e, w)
  | None => (Ok (omap (result_of rs) (seq 0 (length calls))), w)
  end.
End gather.

(** ** Running a plan *)

Section supervisor.
Context {W : Type} (registry : registry W) (esettings : escalation_settings).
(** The order in which the steps of a group run. *)
Context (schedule : list PlanStep -> list nat).

Definition _extract_cache_updates (observations : dict) : dict :=
  mkdict (default [] (get_obj (u "_cache_state_updates") observations)).

Definition _execution_context (query user_id tenant_id : pystr) (history : list message)
    (order_no course_query last_course_name session_summary bound_course_name : option pystr)
    : ExecutionContext :=
  {| ctx_query := query; ctx_tenant_id := tenant_id; ctx_user_id := user_id; ctx_history := history;
     ctx_session_summary := session_summary; ctx_order_no := order_no; ctx_last_order_no := order_no;
     ctx_course_query := course_query; ctx_last_course_query := course_query;
     ctx_last_course_name := ostr_or last_course_name bound_course_name;
     ctx_bound_course_name := bound_course_name; ctx_persist := true |}.

Definition _run_step (step : PlanStep) (ctx : ExecutionContext) (observations : dict)
    : ST W exn (option pystr * dict * bool) := fun w =>
  match get_capability (ps_capability step) registry with
  | Raise e => (Raise e, w)
  | Ok cap =>
    match bind cap step ctx observations with
    | Raise e => (Raise e, w)
    | Ok None => (Ok (None, observations, false), w)
    | Ok (Some kwargs) =>
      (let! result := ainvoke cap ctx kwargs in
       st_ret (cap_text result, dmerge observations (cap_observations result), cap_escalated result)) w
    end
  end.

(** The loop's variables. *)
Record progress := {
  pr_parts : list pystr;
  pr_observations : dict;
  pr_cache_updates : dict;
  pr_bound_course : option pystr;
}.

(** [str(observations["course_name"]) if observations.get("course_name") else bound_course]. *)
Definition rebind_course (observations : dict) (bound_course : option pystr) : option pystr :=
  ostr_or (get_raw_ostr (u "course_name") observations) bound_course.

Definition add_part (text : option pystr) (parts : list pystr) : list pystr :=
  if otruthy text then parts ++ [opt_str text] else parts.

Definition handoff_text (text : option pystr) : pystr :=
  opt_str (ostr_or text (Some (build_handoff_answer true None))).

(** The results of a group, taken in plan order; [inl] is the early return of an
    escalated step. *)
Fixpoint take_results (results : list (option pystr * dict * bool)) (p : progress)
    : (pystr * option pystr * dict * bool) + progress :=
  match results with
  | [] => inr {| pr_parts := pr_parts p; pr_observations := pr_observations p;
                 pr_cache_updates := pr_cache_updates p;
                 pr_bound_course := rebind_course (pr_observations p) (pr_bound_course p) |}
  | (text, obs, escalated) :: results =>
    let observations := dmerge (pr_observations p) obs in
    let cache_updates := dmerge (pr_cache_updates p) (_extract_cache_updates obs) in
    if (escalated : bool) then inl (handoff_text text, pr_bound_course p, cache_updates, true)
    else take_results results
           {| pr_parts := add_part text (pr_parts p); pr_observations := observations;
              pr_cache_updates := cache_updates; pr_bound_course := pr_bound_course p |}
  end.

(** A group of one step, whose merged observations replace the old ones. *)
Definition take_single (result : option pystr * dict * bool) (p : progress)
    : (pystr * option pystr * dict * bool) + progress :=
  let '(text, observations, escalated) := result in
  let cache_updates := dmerge (pr_cache_updates p) (_extract_cache_updates observations) in
  if (escalated : bool) then inl (handoff_text text, pr_bound_course p, cache_updates, true)
  else inr {| pr_parts := add_part text (pr_parts p); pr_observations := observations;
              pr_cache_updates := cache_updates;
              pr_bound_course := rebind_course observations (pr_bound_course p) |}.

Definition run_group (ctx : ExecutionContext) (steps : list PlanStep) (p : progress)
    : ST W exn ((pystr * option pystr * dict * bool) + progress) :=
  match steps with
  | [step] =>
    let! result := _run_step step ctx (pr_observations p) in
    st_ret (take_single result p)
  | _ =>
    let! results := gather (schedule steps) (map (fun s => _run_step s ctx (pr_observations p)) steps) in
    st_ret (take_results results p)
  end.

Definition NO_ANSWER : pystr := u "暂时无法处理该问题。".

Section execute_plan.
Context (plan : SupervisorPlan) (query user_id tenant_id : pystr) (history : list message).
Context (order_no course_query last_course_name session_summary : option pystr).

Definition group_context (bound_course : option pystr) : ExecutionContext :=
  _execution_context query user_id tenant_id history order_no course_query
    (ostr_or last_course_name bound_course) session_summary bound_course.

Fixpoint run_groups (groups : list nat) (p : progress) : ST W exn (pystr * option pystr * dict * bool) :=
  match groups with
  | [] => st_ret (str_or (join (newline ++ newline) (pr_parts p)) NO_ANSWER, pr_bound_course p,
                  pr_cache_updates p, false)
  | g :: groups =>
    let! r := run_group (group_context (pr_bound_course p)) (group_steps (sp_steps plan) g) p in
    match r with
    | inl early => st_ret early
    | inr p => run_groups groups p
    end
  end.

Definition start : progress :=
  {| pr_parts := []; pr_observations := ∅; pr_cache_updates := ∅;
     pr_bound_course := sp_bound_course_name plan |}.

Definition _execute_plan : ST W exn (pystr * option pystr * dict * bool) :=
  run_groups (group_ids (sp_steps plan)) start.
End execute_plan.

(** [stream_react]. *)
Context (stream_react : ST W exn pystr).

Definition tool_name (id : pystr) : pystr := tool_name_for id registry.

Definition run_supervisor (query user_id tenant_id : pystr) (history : list message)
    (order_no course_query last_course_name session_summary intent : option pystr)
    (needs_clarification : bool) (clarification_question : option pystr)
    : ST W exn (SupervisorDecision json) :=
  let plan := plan_supervisor intent needs_clarification clarification_question (Some query) order_no
                course_query last_course_name in
  match sp_action plan with
  | ask_user =>
    st_ret (to_supervisor_decision tool_name plan None order_no
              (ostr_or course_query (sp_bound_course_name plan)) ∅ false None)
  | react =>
    let! answer := stream_react in
    let escalated := _is_auto_handoff_answer (Some answer) in
    st_ret (to_supervisor_decision tool_name plan (Some answer) order_no
              (ostr_or course_query (sp_bound_course_name plan)) ∅ escalated
              (if escalated then Some (u "react_limit") else None))
  | execute =>
    let! r := _execute_plan plan query user_id tenant_id history order_no course_query last_course_name
                session_summary in
    let '(answer, bound_course, cache_updates, escalated) := r in
    st_ret (to_supervisor_decision tool_name plan (Some answer) order_no
              (ostr_or (ostr_or bound_course course_query) (sp_bound_course_name plan))
              cache_updates escalated (if (escalated : bool) then Some (u "transient_exhausted") else None))
  end.

Definition arun_supervisor := run_supervisor.
End supervisor.

(** ** Properties *)

(** What a plan with this reason is. *)
Lemma serial_plan intent needs question query order_no course_query last_name :
  let p := plan_supervisor intent needs question query order_no course_query last_name in
  sp_reason p = u "serial-order-then-course" ->
  sp_action p = execute /\ sp_final_intent p = mixed /\ sp_bound_course_name p = None /\
  sp_steps p =
    [{| ps_capability := ORDER_QUERY; ps_parallel_group := 0; ps_course_source := None |};
     {| ps_capability := COURSE_RETRIEVE; ps_parallel_group := 1;
        ps_course_source := Some from_order_product |}].
Proof.
  cbn zeta. unfold plan_supervisor. cbn zeta. destruct (_ && _); [intros H; exfalso; revert H; key_ne|].
  destruct (_ && _); [intros H; exfalso; revert H; key_ne|].
  destruct (_ && _); [done|].
  destruct (_ && _); [intros H; exfalso; revert H; key_ne|].
  destruct (_ && _); intros H; exfalso; revert H; key_ne.
Qed.

Section escalation.
Context {W : Type} (registry : registry W) (schedule : list PlanStep -> list nat).

(** A group of steps, run from [w], in which a step escalates; [text] is that step's. *)
Definition escalates (ctx : ExecutionContext) (steps : list PlanStep) (observations : dict)
    (w : W) (text : option pystr) (w1 : W) : Prop :=
  match steps with
  | [step] => exists obs, _run_step registry step ctx observations w = (Ok (text, obs, true), w1)
  | _ => exists pre obs post,
      gather (schedule steps) (map (fun s => _run_step registry s ctx observations) steps) w =
        (Ok (pre ++ (text, obs, true) :: post), w1) /\
      Forall (fun r => r.2 = false) pre
  end.

Lemma take_results_escalated pre text obs post p :
  Forall (fun r => r.2 = false) pre ->
  exists cache_updates, take_results (pre ++ (text, obs, true) :: post) p =
    inl (handoff_text text, pr_bound_course p, cache_updates, true).
Proof.
  intros Hpre. revert p. induction Hpre as [|[[t o] e] pre He _ IH]; intros p; cbn [app take_results].
  - eauto.
  - cbn in He. subst e. apply (IH {| pr_parts := _; pr_observations := _; pr_cache_updates := _;
                                     pr_bound_course := _ |}).
Qed.

Lemma run_group_escalated ctx steps p w text w1 :
  escalates ctx steps (pr_observations p) w text w1 ->
  exists cache_updates, run_group registry schedule ctx steps p w =
    (Ok (inl (handoff_text text, pr_bound_course p, cache_updates, true)), w1).
Proof using.
  intros H. assert (Hmany : forall pre obs post,
      gather (schedule steps) (map (fun s => _run_step registry s ctx (pr_observations p)) steps) w =
        (Ok (pre ++ (text, obs, true) :: post), w1) -> Forall (fun r => r.2 = false) pre ->
      exists cache_updates,
        st_bind (gather (schedule steps) (map (fun s => _run_step registry s ctx (pr_observations p)) steps))
          (fun results => st_ret (take_results results p)) w =
        (Ok (inl (handoff_text text, pr_bound_course p, cache_updates, true)), w1)).
  { intros pre obs post Hg Hpre. destruct (take_results_escalated pre text obs post p Hpre) as [c Hc].
    exists c. rewrite (st_bind_ok _ _ _ _ _ Hg). by rewrite Hc. }
  unfold run_group. destruct steps as [|step [|step2 steps]].
  - destruct H as (pre & obs & post & Hg & Hpre). by apply (Hmany pre obs post).
  - destruct H as [obs Hs]. rewrite (st_bind_ok _ _ _ _ _ Hs). cbn. eauto.
  - destruct H as (pre & obs & post & Hg & Hpre). by apply (Hmany pre obs post).
Qed.

(** An escalated step ends the turn: the customer is handed over with that step's
    message, whatever else the plan wanted, and no step of a later group is run. *)
Theorem escalation_hands_over react query user tenant history order_no course_query last_name summary
    intent needs question w g groups text w1 :
  let plan := plan_supervisor intent needs question (Some query) order_no course_query last_name in
  sp_action plan = execute -> group_ids (sp_steps plan) = g :: groups ->
  escalates (group_context query user tenant history order_no course_query last_name summary
               (sp_bound_course_name plan)) (group_steps (sp_steps plan) g) ∅ w text w1 ->
  exists d, run_supervisor registry schedule react query user tenant history order_no course_query last_name
              summary intent needs question w = (Ok d, w1) /\
    sd_final_intent d = handoff /\ sd_answer d = Some (handoff_text text) /\
    sd_reason d = Some (u "transient_exhausted").
Proof using.
  cbn zeta. set (plan := plan_supervisor _ _ _ _ _ _ _). intros Hact Hg Hesc.
  destruct (run_group_escalated _ _ (start plan) w text w1 Hesc) as [c Hc].
  assert (Hplan : _execute_plan registry schedule plan query user tenant history order_no course_query
      last_name summary w = (Ok (handoff_text text, sp_bound_course_name plan, c, true), w1)).
  { unfold _execute_plan. rewrite Hg. cbn [run_groups]. by rewrite (st_bind_ok _ _ _ _ _ Hc). }
  unfold run_supervisor. fold plan. cbn zeta. rewrite Hact, (st_bind_ok _ _ _ _ _ Hplan).
  eexists. split; [reflexivity|]. cbn. split; [done|]. split; [done|].
  apply ostr_or_true. vm_compute. reflexivity.
Qed.
End escalation.

(** ** Order, then course *)

Section serial.
Context {T S : Type} `{JsonText T} `{Validators} `{ToolCacheStore T S}.
Context (settings : cache_settings) (esettings : escalation_settings).
Context (ct cu : pystr) (courses : option (list Course)).
Context (consult_course : pystr -> pystr -> list message -> option pystr -> option pystr ->
  option pystr -> option pystr -> res exn CourseConsultResult).
Context (cenv : course_env).
Context (registry : registry (tool_world S)) (schedule : list PlanStep -> list nat).

Abbreviation course_cap := (CourseCapability (T := T) settings esettings ct cu courses consult_course cenv).

Definition order_step : PlanStep :=
  {| ps_capability := ORDER_QUERY; ps_parallel_group := 0; ps_course_source := None |}.
Definition course_step : PlanStep :=
  {| ps_capability := COURSE_RETRIEVE; ps_parallel_group := 1;
     ps_course_source := Some from_order_product |}.

Lemma serial_groups : group_ids [order_step; course_step] = [0; 1] /\
  group_steps [order_step; course_step] 0 = [order_step] /\
  group_steps [order_step; course_step] 1 = [course_step].
Proof using. done. Qed.

(** Without a product or a course code observed, the course step does not run. *)
Lemma course_step_skipped ctx (observations : dict) (w : tool_world S) :
  lookup_capability COURSE_RETRIEVE registry = Some course_cap ->
  get_raw_ostr (u "product_name") observations = None ->
  get_raw_ostr (u "course_code") observations = None ->
  _run_step registry course_step ctx observations w = (Ok (None, observations, false), w).
Proof using.
  intros Hc Hp Hcode.
  assert (Hs : forall k, get_raw_ostr k observations = None -> get_str k observations = []).
  { intros k. unfold get_raw_ostr, get_str. by destruct (get k observations). }
  unfold _run_step, get_capability. cbn [ps_capability course_step]. rewrite Hc.
  cbn [bind CourseCapability]. unfold course_bind, _bound_course_code, _course_search_query.
  rewrite !Hs, Hp by done. reflexivity.
Qed.

(** The order capability, if an order cannot be used: what its result observes. *)
Definition observes_no_course (r : CapabilityResult) : Prop :=
  get_raw_ostr (u "product_name") (cap_observations r) = None /\
  get_raw_ostr (u "course_code") (cap_observations r) = None.

(** A serial plan whose order step observes no product and no code. *)
Lemma serial_skips_course react order_cap query user tenant history order_no course_query last_name
    summary intent needs question w kwargs r w1 :
  let plan := plan_supervisor intent needs question (Some query) order_no course_query last_name in
  let ctx := group_context query user tenant history order_no course_query last_name summary None in
  sp_reason plan = u "serial-order-then-course" ->
  lookup_capability ORDER_QUERY registry = Some order_cap ->
  lookup_capability COURSE_RETRIEVE registry = Some course_cap ->
  bind order_cap order_step ctx ∅ = Ok (Some kwargs) ->
  ainvoke order_cap ctx kwargs w = (Ok r, w1) ->
  observes_no_course r -> cap_escalated r = false ->
  exists d, run_supervisor registry schedule react query user tenant history order_no course_query last_name
              summary intent needs question w = (Ok d, w1) /\
    sd_final_intent d = mixed /\
    sd_answer d = Some (if otruthy (cap_text r) then opt_str (cap_text r) else NO_ANSWER).
Proof using.
  cbn zeta. set (plan := plan_supervisor _ _ _ _ _ _ _). set (ctx := group_context _ _ _ _ _ _ _ _ _).
  intros Hplan Ho Hc Hbind Hinv [Hp Hcode] Hesc.
  destruct (serial_plan _ _ _ _ _ _ _ Hplan) as (Hact & Hint & Hbound & Hsteps).
  fold plan in Hact, Hint, Hbound, Hsteps. fold order_step course_step in Hsteps.
  assert (Hobs : forall k, get_raw_ostr k (cap_observations r) = None ->
      get_raw_ostr k (dmerge ∅ (cap_observations r)) = None).
  { intros k. unfold get_raw_ostr. rewrite get_dmerge. unfold get.
    by destruct (cap_observations r !! k). }
  assert (Hstep1 : _run_step registry order_step ctx ∅ w =
      (Ok (cap_text r, dmerge ∅ (cap_observations r), false), w1)).
  { unfold _run_step, get_capability. change (ps_capability order_step) with ORDER_QUERY. rewrite Ho, Hbind.
    rewrite (st_bind_ok _ _ _ _ _ Hinv). by rewrite Hesc. }
  destruct serial_groups as (Hg & Hg0 & Hg1).
  assert (Hrun : exists b c, _execute_plan registry schedule plan query user tenant history order_no course_query
      last_name summary w = (Ok (if otruthy (cap_text r) then opt_str (cap_text r) else NO_ANSWER,
                                 b, c, false), w1)).
  { unfold _execute_plan. rewrite Hsteps, Hg. cbn [run_groups]. rewrite Hsteps, Hg0.
    unfold run_group at 1. change (pr_observations (start plan)) with (∅ : dict).
    replace (group_context query user tenant history order_no course_query last_name summary
      (pr_bound_course (start plan))) with ctx by (unfold ctx; cbn; by rewrite Hbound).
    eexists _, _. erewrite st_bind_ok; [|by rewrite (st_bind_ok _ _ _ _ _ Hstep1)].
    cbn [take_single]. cbn iota beta. rewrite Hg1. unfold run_group at 1.
    erewrite st_bind_ok; [|erewrite st_bind_ok;
      [reflexivity|apply course_step_skipped; [exact Hc|by apply Hobs|by apply Hobs]]].
    cbn [take_single pr_parts add_part otruthy]. unfold st_ret. do 4 f_equal.
    unfold add_part. destruct (otruthy (cap_text r)) eqn:Et; [|done].
    cbn [start pr_parts app join]. unfold str_or.
    destruct (cap_text r) as [t|]; [|done]. cbn in Et |- *. by rewrite Et. }
  destruct Hrun as (b & c & Hrun).
  unfold run_supervisor. fold plan. cbn zeta. rewrite Hact, (st_bind_ok _ _ _ _ _ Hrun).
  eexists. split; [reflexivity|]. unfold to_supervisor_decision.
  rewrite decide_False by (rewrite Hact; discriminate). done.
Qed.

(** The order tool. *)
Context (db : OrderDB) (put_text : pystr -> pystr -> pystr -> res exn pystr) (oenv : call_env).
Abbreviation order_cap := (OrderCapability (T := T) settings esettings db ct cu put_text oenv).

Lemma unusable_observes_nothing report : unusable_status report = true ->
  observes_no_course (order_result oenv report).
Proof using.
  intros Hu. unfold observes_no_course, order_result, order_observations. cbn [cap_observations].
  assert (Hp : usable_product_name report = None).
  { unfold usable_product_name. cbn zeta. rewrite Hu. by destruct (_ || _). }
  assert (Hc : usable_course_code report = None).
  { unfold usable_course_code. cbn zeta. rewrite Hu. by destruct (negb _). }
  rewrite Hp, Hc. unfold get_raw_ostr, get, mkdict.
  destruct (truthy (or_order_no report)); cbn [app foldl];
    rewrite !lookup_insert_ne, !lookup_empty by key_ne; done.
Qed.

Lemma order_failure_observes_nothing ctx kwargs w r w1 :
  ainvoke order_cap ctx kwargs w = (Ok r, w1) -> cap_ok r = false -> observes_no_course r.
Proof using.
  cbn [ainvoke OrderCapability]. unfold order_ainvoke.
  intros [(a & Hq & [= <-])|(e & s1 & _ & Hh)]%st_except_inv Hok.
  - apply st_bind_inv in Hq as [(report & w2 & _ & [= <- <-])|(e & _ & [=])].
    apply unusable_observes_nothing. cbn in Hok. by apply negb_false_iff.
  - destruct e; try (by destruct Hh as [[=] _]); by injection Hh as <- _.
Qed.

(** When the order lookup does not succeed (it failed, was busy, or found nothing), the
    supervisor answers with the order step's message alone; the course step is not
    run, so nothing is retrieved by guesswork. *)
Theorem no_blind_retrieval react query user tenant history order_no course_query last_name
    summary intent needs question w kwargs r w1 :
  let plan := plan_supervisor intent needs question (Some query) order_no course_query last_name in
  let ctx := group_context query user tenant history order_no course_query last_name summary None in
  sp_reason plan = u "serial-order-then-course" ->
  lookup_capability ORDER_QUERY registry = Some order_cap ->
  lookup_capability COURSE_RETRIEVE registry = Some course_cap ->
  bind order_cap order_step ctx ∅ = Ok (Some kwargs) ->
  ainvoke order_cap ctx kwargs w = (Ok r, w1) -> cap_ok r = false -> cap_escalated r = false ->
  exists d, run_supervisor registry schedule react query user tenant history order_no course_query last_name
              summary intent needs question w = (Ok d, w1) /\
    sd_final_intent d = mixed /\
    sd_answer d = Some (if otruthy (cap_text r) then opt_str (cap_text r) else NO_ANSWER).
Proof using.
  cbn zeta. intros Hplan Ho Hc Hbind Hinv Hok Hesc.
  eapply serial_skips_course; [exact Hplan|exact Ho|exact Hc|exact Hbind|exact Hinv| |exact Hesc].
  by eapply order_failure_observes_nothing.
Qed.
End serial.

(** ** Order and course together *)

Section together.
Context {W A : Type}.

(** A call whose result does not depend on the shared state. *)
Definition steady (call : ST W exn A) (a : A) : Prop := forall w, (call w).1 = Ok a.

Lemma run_order_steady sched (calls : list (ST W exn A)) xs w :
  Forall2 steady calls xs ->
  (run_order_of sched calls w).1 = omap (fun i => (fun a => (i, Ok a)) <$> nth_error xs i) sched.
Proof.
  intros Hs. revert w. induction sched as [|i sched IH]; intros w; cbn [run_order_of omap list_omap]; [done|].
  rewrite !nth_error_lookup. destruct (calls !! i) as [call|] eqn:Ec.
  - destruct (Forall2_lookup_l _ _ _ _ _ Hs Ec) as (a & Ea & Ha). rewrite Ea.
    specialize (Ha w). destruct (call w) as [r w1]. cbn in Ha. subst r. specialize (IH w1).
    destruct (run_order_of sched calls w1) as [rs w2]. cbn in IH |- *. by rewrite IH.
  - assert (xs !! i = None) as -> by (apply lookup_ge_None; apply lookup_ge_None in Ec;
      by rewrite <-(Forall2_length _ _ _ Hs)). apply IH.
Qed.

(** [asyncio.gather] hides the schedule: whatever order the calls complete in, if their
    results do not depend on each other, the results come back in the order of the
    calls. *)
Theorem gather_in_call_order sched (calls : list (ST W exn A)) xs w :
  Permutation sched (seq 0 (length calls)) -> Forall2 steady calls xs ->
  (gather sched calls w).1 = Ok xs.
Proof.
  intros Hsched Hs. unfold gather.
  pose proof (run_order_steady sched calls xs w Hs) as Hrun.
  destruct (run_order_of sched calls w) as [rs w']. cbn [fst] in Hrun.
  assert (Herr : first_error rs = None).
  { unfold first_error. rewrite Hrun. clear. induction sched as [|i sched IH]; cbn; [done|].
    destruct (nth_error xs i); cbn; exact IH. }
  rewrite Herr. cbn [fst]. f_equal.
  assert (Hres : forall i, i < length calls -> result_of rs i = xs !! i).
  { intros i Hi. unfold result_of. rewrite Hrun.
    assert (Hin : i ∈ sched) by (rewrite Hsched; apply elem_of_seq; lia).
    clear Hsched Hrun Herr. induction sched as [|j sched IH]; [by apply elem_of_nil in Hin|].
    cbn [omap list_omap]. rewrite nth_error_lookup.
    destruct (decide (j = i)) as [->|Hne].
    - rewrite (Forall2_length _ _ _ Hs) in Hi. apply lookup_lt_is_Some in Hi as [x Hx]. rewrite Hx.
      cbn. by rewrite decide_True.
    - apply elem_of_cons in Hin as [?|Hin]; [done|]. rewrite <-(IH Hin).
      destruct (xs !! j); cbn; [by rewrite decide_False|done]. }
  rewrite (Forall2_length _ _ _ Hs). rewrite (Forall2_length _ _ _ Hs) in Hres. clear -Hres.
  assert (Hext : forall n m, m + n = length xs -> omap (result_of rs) (seq m n) = drop m xs).
  { induction n as [|n IH]; intros m Hm; cbn [seq omap list_omap].
    - by rewrite drop_ge by lia.
    - rewrite Hres by lia. destruct (lookup_lt_is_Some_2 xs m) as [x Hx]; [lia|]. rewrite Hx.
      rewrite (IH (S m)) by lia. by rewrite (drop_S _ _ _ Hx). }
  by rewrite (Hext (length xs) 0).
Qed.
End together.

(** ** Examples *)

Module Demo.
Abbreviation world := (tool_world ToolCache.Demo.store).
Definition at_ (n : Z) : clock := ToolCache.Demo.at_ n.
Definition cenv : course_env :=
  {| ce_lookup := at_ 1300; ce_age := at_ 1300; ce_end := at_ 1301; ce_session := _EMPTY_SESSION |}.
Definition consult (query tenant : pystr) (history : list message)
    (last_query last_name summary code : option pystr) : res exn CourseConsultResult :=
  Ok ToolCache.Demo.course.
Definition order_cap (p : pool_outcome) : Capability world :=
  OrderCapability (T := json) ToolCache.Demo.settings OrderCapability.Demo.esettings demo_db (u "demo")
    (u "alice") OrderCapability.Demo.put_text (OrderCapability.Demo.env p).
Definition course_cap : Capability world :=
  CourseCapability (T := json) ToolCache.Demo.settings OrderCapability.Demo.esettings (u "demo")
    (u "alice") None consult cenv.
Definition registry (p : pool_outcome) : registry world :=
  [(ORDER_QUERY, order_cap p); (COURSE_RETRIEVE, course_cap)].
Definition schedule (steps : list PlanStep) : list nat := seq 0 (length steps).
Definition react : ST world exn pystr := st_ret (u "转人工").
(** One failure of this order has been counted already. *)
Definition failed_once : world :=
  Build_tool_world ToolCache.Demo.after
    (Some (record_transient TOOL_ORDER (u "20251114003") ∅).2).
Definition missing : option pystr := Some (u "20251114003").
Definition ctx : ExecutionContext :=
  group_context (u "到哪了") (u "alice") (u "demo") [] missing None None None None.
Definition kwargs : dict :=
  mkdict [(u "order_no", jopt missing); (u "last_order_no", jopt missing);
          (u "query", JStr (u "到哪了")); (u "persist", JBool true)].
End Demo.

(** An order that does not exist: its message is the whole answer. *)
Lemma no_blind_retrieval_witness :
  match ainvoke (Demo.order_cap PoolRan) Demo.ctx Demo.kwargs Demo.failed_once with
  | (Ok r, w1) =>
    exists d, run_supervisor (Demo.registry PoolRan) Demo.schedule Demo.react (u "到哪了") (u "alice") (u "demo") []
                Demo.missing None None None (Some (u "mixed")) false None Demo.failed_once = (Ok d, w1) /\
      sd_final_intent d = mixed /\
      sd_answer d = Some (if otruthy (cap_text r) then opt_str (cap_text r) else NO_ANSWER)
  | (Raise _, _) => False
  end.
Proof.
  assert (Hok : match ainvoke (Demo.order_cap PoolRan) Demo.ctx Demo.kwargs Demo.failed_once with
                | (Ok r, _) => negb (cap_ok r) && negb (cap_escalated r) | _ => false end = true)
    by (vm_compute; reflexivity).
  pose proof (fun r w1 => no_blind_retrieval (T := json) ToolCache.Demo.settings
    OrderCapability.Demo.esettings (u "demo") (u "alice") None Demo.consult Demo.cenv
    (Demo.registry PoolRan) Demo.schedule demo_db OrderCapability.Demo.put_text
    (OrderCapability.Demo.env PoolRan) Demo.react (u "到哪了") (u "alice") (u "demo") [] Demo.missing None None
    None (Some (u "mixed")) false None Demo.failed_once Demo.kwargs r w1
    ltac:(vm_compute; reflexivity) eq_refl eq_refl eq_refl) as H.
  fold (Demo.order_cap PoolRan) in H. fold Demo.ctx in H. revert Hok H.
  generalize (ainvoke (Demo.order_cap PoolRan) Demo.ctx Demo.kwargs Demo.failed_once).
  intros [[r|e] w1] Hok H; [|discriminate Hok].
  apply andb_true_iff in Hok as [Ho He].
  exact (H r w1 eq_refl (proj1 (negb_true_iff _) Ho) (proj1 (negb_true_iff _) He)).
Defined.

(** A second timeout on the same order hands the customer over. *)
Lemma escalation_hands_over_witness :
  match _run_step (Demo.registry (PoolTimeout [])) order_step Demo.ctx ∅ Demo.failed_once with
  | (Ok (text, _, _), w1) =>
    exists d, run_supervisor (Demo.registry (PoolTimeout [])) Demo.schedule Demo.react (u "到哪了") (u "alice")
                (u "demo") [] Demo.missing None None None (Some (u "order")) false None Demo.failed_once
              = (Ok d, w1) /\
      sd_final_intent d = handoff /\ sd_answer d = Some (handoff_text text) /\
      sd_reason d = Some (u "transient_exhausted")
  | (Raise _, _) => False
  end.
Proof.
  assert (Hok : match _run_step (Demo.registry (PoolTimeout [])) order_step Demo.ctx ∅ Demo.failed_once with
                | (Ok (_, _, b), _) => b | _ => false end = true) by (vm_compute; reflexivity).
  pose proof (fun text w1 => escalation_hands_over (Demo.registry (PoolTimeout [])) Demo.schedule Demo.react
    (u "到哪了") (u "alice") (u "demo") [] Demo.missing None None None (Some (u "order")) false None
    Demo.failed_once 0 [] text w1 eq_refl eq_refl) as H.
  destruct (_run_step (Demo.registry (PoolTimeout [])) order_step Demo.ctx ∅ Demo.failed_once)
    as [[[[text obs] b]|e] w1] eqn:E; [|discriminate Hok].
  subst b. exact (H text w1 (ex_intro _ obs E)).
Defined.

Lemma gather_in_call_order_witness :
  (gather [1; 0] [st_ret (u "订单"); st_ret (u "课程")] tt).1 = Ok [u "订单"; u "课程"].
Proof.
  apply (gather_in_call_order [1; 0] [st_ret (u "订单"); st_ret (u "课程")] [u "订单"; u "课程"] tt).
  - apply perm_swap.
  - repeat constructor.
Defined.
