(* ===== verification/React.v ===== *)
(** * The ReACT agent ([app/agents/react.py])

    A question no plan covers goes to the agent: the model reasons and calls the tools
    through LangChain's loop, and what it says is streamed.  Without the model, or when it
    fails, an order lookup and a course search answer. *)

From stdpp Require Import base list gmap strings.
From S2P Require Import Prelude PyText PyFloat PyRe Errors Json Tenancy OrderNo Filters Schemas Policy Window OrderAccess Orders Escalation ToolCache Capability OrderCapability CourseCapability Query Documents CourseAgent Middleware Supervisor.
Open Scope py_scope.

(** ** The state of a turn *)

(** The context variables (identity, cached results of the conversation, the tools'
    context), the tools' state, and what was streamed. *)
Record react_world (S : Type) := {
  rw_identity : identity;
  rw_tools : tool_world S;
  rw_session : SessionToolCacheState;
  rw_context : ToolContext;
  rw_sent : list json;
}.
Arguments rw_identity {S}.
Arguments rw_tools {S}.
Arguments rw_session {S}.
Arguments rw_context {S}.
Arguments rw_sent {S}.
Arguments Build_react_world {S}.

Definition rw_set_tools {S} (t : tool_world S) (w : react_world S) : react_world S :=
  Build_react_world (rw_identity w) t (rw_session w) (rw_context w) (rw_sent w).

(** A message of the stream: whether it is the model's, its three places for tool calls,
    and its content ([None] without the attribute). *)
Record stream_message := {
  sm_is_ai : bool;
  sm_tool_calls : list json;
  sm_additional_kwargs : json;
  sm_tool_call_chunks : list json;
  sm_content : option json;
}.

(** LangChain's agent with these tools and this middleware: what [ainvoke] returns, the
    contents of the messages; and what [astream] yields, and how it ends. *)
Record react_agent (S : Type) := {
  ra_invoke : identity -> SessionToolCacheState -> ToolContext -> pystr -> ST (tool_world S) exn (list json);
  ra_stream : identity -> SessionToolCacheState -> ToolContext -> pystr -> tool_world S -> list stream_message * option exn * tool_world S;
}.
Arguments ra_invoke {S}.
Arguments ra_stream {S}.

(** What the agent is asked. *)
Record react_question := {
  rq_query : pystr;
  rq_user_id : pystr;
  rq_tenant_id : pystr;
  rq_history : list message;
  rq_order_no : option pystr;
  rq_course_query : option pystr;
  rq_last_course_name : option pystr;
  rq_session_summary : option pystr;
  rq_session_cache_state : dict;
}.

(** ** [ObservingToolCallLimitMiddleware] *)

Definition _on_limit_hit (escalates_on_limit : bool) (result : option state_update) : option state_update :=
  match result with
  | None => None
  | Some result =>
    match su_messages result with
    | [] => Some result
    | _ =>
      if negb escalates_on_limit then Some result
      else Some {| su_messages := [{| am_role := AIMessage; am_content := JStr (opt_str (ed_message escalation_for_react_limit)); am_tool_calls := [] |}];
                   su_jump_to := Some (u "end") |}
    end
  end.

Definition NO_REACT_ANSWER : pystr := u "暂时无法处理该问题。".
Definition HANDED_OVER : pystr := u "已为您转接人工客服。".

Definition _message_has_tool_calls (message : stream_message) : bool :=
  match sm_tool_calls message with
  | _ :: _ => true
  | [] =>
    match sm_additional_kwargs message with
    | JObj additional => if jtruthy (obj_get (u "tool_calls") additional) then true
                         else match sm_tool_call_chunks message with _ :: _ => true | [] => false end
    | _ => match sm_tool_call_chunks message with _ :: _ => true | [] => false end
    end
  end.

(** The two hints that follow the question. *)
Definition with_order_hint (resolved_order : option pystr) (user_content : pystr) : pystr :=
  match resolved_order with
  | Some number => if truthy number && negb (contains number user_content) then user_content ++ newline ++ u "（关联订单号：" ++ number ++ u "）" else user_content
  | None => user_content
  end.
Definition with_course_hint (last_course_name course_query : option pystr) (user_content : pystr) : pystr :=
  let course_hint := strip (opt_str (ostr_or last_course_name course_query)) in
  if truthy course_hint && negb (contains course_hint user_content) then user_content ++ newline ++ u "（关联课程：" ++ course_hint ++ u "）"
  else user_content.

Section react.
Context {T S : Type} `{JsonText T} `{Validators} `{ToolCacheStore T S}.
Context (repr : json -> pystr) (tk : tokenizer) (window : option (Z * Z)) (default_tenant : pystr).
Context (settings : cache_settings) (esettings : escalation_settings) (db : OrderDB).
Context (put_text : pystr -> pystr -> pystr -> res exn pystr) (oenv : call_env) (cenv : course_env).
Context (consult_course : pystr -> pystr -> list message -> option pystr -> option pystr -> option pystr -> option pystr -> res exn CourseConsultResult).
(** The agent, when a model is configured; whether the graph streams, and the caller's own
    way to stream, if any. *)
Context (agent : option (react_agent S)) (streaming : bool) (emit_token : option (pystr -> list json -> list json)).
Abbreviation act := (ST (react_world S) exn).

Definition lift_res {A} (r : res exn A) : act A := fun w => (r, w).
Definition in_tools {A} (m : react_world S -> ST (tool_world S) exn A) : act A := fun w =>
  let (r, t) := m w (rw_tools w) in (r, rw_set_tools t w).
Definition in_identity (m : ST identity exn unit) : act unit := fun w =>
  let (r, i) := m (rw_identity w) in (r, Build_react_world i (rw_tools w) (rw_session w) (rw_context w) (rw_sent w)).

(** ** Scopes: set, run, and set back in the end *)

Definition in_failure_tracker {A} (body : act A) : act A := fun w =>
  let (r, w') := body (rw_set_tools (with_tracker (Some ∅) (rw_tools w)) w) in
  (r, rw_set_tools (with_tracker (tw_tracker (rw_tools w)) (rw_tools w')) w').
Definition in_session_cache {A} (state : dict) (body : act A) : act A := fun w =>
  let (r, w') := body (Build_react_world (rw_identity w) (rw_tools w) (session_tool_cache_scope (rw_session w) state) (rw_context w) (rw_sent w)) in
  (r, Build_react_world (rw_identity w') (rw_tools w') (rw_session w) (rw_context w') (rw_sent w')).
Definition in_tool_context {A} (ctx : ToolContext) (body : act A) : act A := fun w =>
  let (r, w') := body (Build_react_world (rw_identity w) (rw_tools w) (rw_session w) ctx (rw_sent w)) in
  (r, Build_react_world (rw_identity w') (rw_tools w') (rw_session w') (rw_context w) (rw_sent w')).

(** ** Without the model *)

Definition env_of (w : react_world S) : call_env :=
  {| at_lookup := at_lookup oenv; at_age := at_age oenv; at_end := at_end oenv; pool := pool oenv; stamp := stamp oenv;
     session_cache := rw_session w |}.
Definition course_env_of (w : react_world S) : course_env :=
  {| ce_lookup := ce_lookup cenv; ce_age := ce_age cenv; ce_end := ce_end cenv; ce_session := rw_session w |}.

Definition resolved_order (q : react_question) : option pystr :=
  ostr_or (ostr_or (rq_order_no q) (extract_order_no (rq_query q))) (order_no_from_history (rq_history q)).
Definition search_query (q : react_question) : pystr :=
  str_or (opt_str (ostr_or (rq_course_query q) (rq_last_course_name q))) (rq_query q).

Definition offline_order (q : react_question) : act (list pystr) :=
  st_except
    (let! report := in_tools (fun w => query_order settings esettings db (current_tenant (rw_identity w)) (current_user (rw_identity w)) put_text
       (env_of w) (rq_query q) (resolved_order q) (rq_tenant_id q) (rq_user_id q) (ostr_or (rq_order_no q) (resolved_order q)) false false false) in
     st_ret [format_order_answer report])
    (fun e => match e with ValueError _ => Some (st_ret []) | _ => None end).

Definition _offline_react (q : react_question) : act json :=
  let! parts := offline_order q in
  let! course := in_tools (fun w => retrieve_course settings esettings (current_tenant (rw_identity w)) (current_user (rw_identity w))
    consult_course (course_env_of w) (search_query q) (Some (rq_tenant_id q)) (rq_history q) (rq_course_query q) (rq_last_course_name q)
    (rq_session_summary q) None None) in
  let parts := if bool_decide (cr_course_name course = NOT_FOUND_COURSE) then parts else parts ++ [format_course_answer course] in
  st_ret (JStr (str_or (join (newline ++ newline) parts) NO_REACT_ANSWER)).

Definition _react_or_offline (q : react_question) (runner : react_agent S -> act json) : act json :=
  match agent with
  | None => _offline_react q
  | Some agent =>
    st_except (runner agent) (fun e =>
      match e with
      | ToolEscalationError d => Some (st_ret (JStr (str_or (opt_str (ed_message d)) HANDED_OVER)))
      | e => if negb (is_Exception e) then None else if negb (is_llm_degradable e) then Some (st_raise e) else Some (_offline_react q)
      end)
  end.

(** ** With the model *)

Definition _build_react_user_content (q : react_question) : res exn pystr :=
  let? history_text := format_history_for_prompt tk window (rq_history q) None None (rq_session_summary q) in
  let user_content := if truthy history_text then u "对话历史：" ++ newline ++ history_text ++ newline ++ newline ++ u "当前用户问题：" ++ rq_query q
                      else rq_query q in
  Ok (with_course_hint (rq_last_course_name q) (rq_course_query q) (with_order_hint (resolved_order q) user_content)).

Definition _emit_token (content : pystr) : act unit := st_modify (fun w =>
  let masked := (mask_pii content).1 in
  if streaming && truthy content && truthy masked then
    Build_react_world (rw_identity w) (rw_tools w) (rw_session w) (rw_context w)
      (rw_sent w ++ [JObj [(u "event", JStr (u "token")); (u "content", JStr masked)]])
  else w).
Definition emit (delta : pystr) : act unit :=
  match emit_token with
  | Some f => st_modify (fun w => Build_react_world (rw_identity w) (rw_tools w) (rw_session w) (rw_context w) (f delta (rw_sent w)))
  | None => _emit_token delta
  end.

Definition _ainvoke (q : react_question) (a : react_agent S) : act json :=
  let! user_content := lift_res (_build_react_user_content q) in
  let! messages := in_tools (fun w => ra_invoke a (rw_identity w) (rw_session w) (rw_context w) user_content) in
  match last messages with
  | Some content => st_ret content
  | None => st_raise (OtherExc (u "IndexError") (u "list index out of range"))
  end.

(** The scopes around the agent. *)
Definition in_turn {A} (q : react_question) (body : act A) : act A :=
  in_failure_tracker (in_session_cache (rq_session_cache_state q)
    (in_tool_context (tool_context_scope (rq_history q) (rq_course_query q) (rq_last_course_name q) (rq_session_summary q) None) body)).

Definition _run_react_inner (q : react_question) : act json :=
  do! in_identity (set_current_tenant default_tenant (rq_tenant_id q)) in
  do! in_identity (set_current_user (Some (rq_user_id q))) in
  in_turn q (_react_or_offline q (_ainvoke q)).
Definition run_react := _run_react_inner.

Definition _chunk_text (content : option json) : pystr :=
  match content with
  | Some (JStr s) => s
  | Some (JList items) =>
    concat (map (fun item => match item with
                             | JStr s => s
                             | JObj fields =>
                               match obj_get (u "type") fields with
                               | JStr t => if bool_decide (t = u "text") then str_or_empty repr (obj_get (u "text") fields) else []
                               | _ => []
                               end
                             | _ => []
                             end) items)
  | _ => []
  end.

(** What a message of the stream shows. *)
Definition delta_of (message : stream_message) : pystr :=
  if sm_is_ai message && negb (_message_has_tool_calls message) then _chunk_text (sm_content message) else [].

Fixpoint read_stream (parts : list pystr) (items : list stream_message) : act (list pystr) :=
  match items with
  | [] => st_ret parts
  | message :: items =>
    let delta := delta_of message in
    if negb (truthy delta) then read_stream parts items
    else do! emit delta in read_stream (parts ++ [delta]) items
  end.

Definition _astream (q : react_question) (a : react_agent S) : act json :=
  let! user_content := lift_res (_build_react_user_content q) in
  let! stream := (fun w => let '(items, ended, t) := ra_stream a (rw_identity w) (rw_session w) (rw_context w) user_content (rw_tools w) in
                           (Ok (items, ended), rw_set_tools t w)) in
  let '(items, ended) := stream in
  let! parts := read_stream [] items in
  match ended with
  | Some e => st_raise e
  | None =>
    let answer := strip (concat parts) in
    if truthy answer then st_ret (JStr answer)
    else match last items with
         | Some {| sm_content := Some (JStr content) |} => if truthy (strip content) then st_ret (JStr content) else _run_react_inner q
         | _ => _run_react_inner q
         end
  end.

Definition _stream_react_inner (q : react_question) : act json :=
  do! in_identity (set_current_tenant default_tenant (rq_tenant_id q)) in
  do! in_identity (set_current_user (Some (rq_user_id q))) in
  in_turn q (_react_or_offline q (_astream q)).
Definition stream_react := _stream_react_inner.
End react.

(** ** What a turn leaves behind *)

(** What the customer was sent: masked texts. *)
Definition masked_token (t : json) : Prop :=
  exists text, truthy (mask_pii text).1 = true /\ t = JObj [(u "event", JStr (u "token")); (u "content", JStr (mask_pii text).1)].

(** The context variables are as they were; what was streamed was added to, masked. *)
Record inside {S} (w w' : react_world S) : Prop := {
  in_session : rw_session w' = rw_session w;
  in_context : rw_context w' = rw_context w;
  in_sent : exists tokens, rw_sent w' = rw_sent w ++ tokens /\ Forall masked_token tokens;
}.

#[export] Instance inside_preorder {S} : PreOrder (@inside S).
Proof.
  split.
  - intros w. split; [done|done|]. exists []. by rewrite app_nil_r.
  - intros w1 w2 w3 [Hs1 Hc1 (t1 & Ht1 & Hm1)] [Hs2 Hc2 (t2 & Ht2 & Hm2)]. split; [congruence..|].
    exists (t1 ++ t2). rewrite Ht2, Ht1, <- app_assoc. split; [done|by apply Forall_app].
Qed.

(** Computations that stay inside; and that restore the failures counted, too. *)
Definition keeps {S A} (m : ST (react_world S) exn A) : Prop := forall w r w', m w = (r, w') -> inside w w'.
Definition restores {S A} (m : ST (react_world S) exn A) : Prop :=
  forall w r w', m w = (r, w') -> inside w w' /\ tw_tracker (rw_tools w') = tw_tracker (rw_tools w).

Create HintDb keeps discriminated.

Section keeps.
Context {S : Type}.
Abbreviation act := (ST (react_world S) exn).

Lemma keeps_ret {A} (a : A) : keeps (st_ret a : act A).
Proof. by intros w r w' [= _ <-]. Qed.
Lemma keeps_raise {A} e : keeps (st_raise e : act A).
Proof. by intros w r w' [= _ <-]. Qed.
Lemma keeps_lift {A} (m : res exn A) : keeps (lift_res (S := S) m).
Proof. by intros w r w' [= _ <-]. Qed.
Lemma keeps_tools {A} (m : react_world S -> ST (tool_world S) exn A) : keeps (in_tools m).
Proof.
  intros w r w'. unfold in_tools. destruct (m w (rw_tools w)) as [r' t]. intros [= _ <-]. split; [done|done|]. exists []. by rewrite app_nil_r.
Qed.
Lemma keeps_identity m : keeps (S := S) (in_identity m).
Proof.
  intros w r w'. unfold in_identity. destruct (m (rw_identity w)) as [r' t]. intros [= _ <-]. split; [done|done|]. exists []. by rewrite app_nil_r.
Qed.
Lemma keeps_bind {A B} (m : act A) (k : A -> act B) : keeps m -> (forall a, keeps (k a)) -> keeps (st_bind m k).
Proof.
  intros Hm Hk w r w' [(a & w1 & H1 & H2)|(e & H1 & _)]%st_bind_inv; [|by eapply Hm].
  transitivity w1; [by eapply Hm|by eapply Hk].
Qed.
Lemma keeps_except {A} (m : act A) h : keeps m -> (forall e k, h e = Some k -> keeps k) -> keeps (st_except m h).
Proof.
  intros Hm Hh w r w' [(a & H1 & _)|(e & w1 & H1 & H2)]%st_except_inv; [by eapply Hm|].
  transitivity w1; [by eapply Hm|]. destruct (h e) as [k|] eqn:E; [by eapply Hh|]. destruct H2 as [_ ->]. done.
Qed.
Lemma restores_keeps {A} (m : act A) : restores m -> keeps m.
Proof. intros Hm w r w' H. by apply Hm in H as [? _]. Qed.

(** The scopes of a turn give everything back. *)
Lemma turn_restores {A} q (body : act A) : keeps body -> restores (in_turn q body).
Proof.
  intros Hb w r w'. unfold in_turn, in_failure_tracker, in_session_cache, in_tool_context.
  destruct (body _) as [r' w1] eqn:E. intros [= _ <-]. apply Hb in E as [_ _ (tokens & Ht & Hm)]. split; [|done].
  split; [done|done|]. by exists tokens.
Qed.
End keeps.
#[export] Hint Resolve keeps_ret keeps_raise keeps_lift keeps_tools keeps_identity : keeps.

Section turn.
Context {T S : Type} `{JsonText T} `{Validators} `{ToolCacheStore T S}.
Context (repr : json -> pystr) (tk : tokenizer) (window : option (Z * Z)) (default_tenant : pystr).
Context (settings : cache_settings) (esettings : escalation_settings) (db : OrderDB).
Context (put_text : pystr -> pystr -> pystr -> res exn pystr) (oenv : call_env) (cenv : course_env).
Context (consult_course : pystr -> pystr -> list message -> option pystr -> option pystr -> option pystr -> option pystr -> res exn CourseConsultResult).
Context (agent : option (react_agent S)) (streaming : bool).
Abbreviation act := (ST (react_world S) exn).
Abbreviation emits := (emit (S := S) streaming None).
Abbreviation read := (read_stream (S := S) repr streaming None).
Abbreviation offline := (_offline_react settings esettings db put_text oenv cenv consult_course).
Abbreviation or_offline := (_react_or_offline settings esettings db put_text oenv cenv consult_course agent).
Abbreviation content := (_build_react_user_content tk window).
Abbreviation run := (run_react tk window default_tenant settings esettings db put_text oenv cenv consult_course agent).
Abbreviation stream := (stream_react repr tk window default_tenant settings esettings db put_text oenv cenv consult_course agent streaming None).
Abbreviation asks := (_astream repr tk window default_tenant settings esettings db put_text oenv cenv consult_course agent streaming None).

Lemma keeps_emit delta : keeps (emits delta).
Proof.
  intros w r w' [= _ <-]. split; [by destruct (_ && _)..|]. destruct (_ && _) eqn:E; [|exists []; by rewrite app_nil_r].
  apply andb_true_iff in E as [_ E]. eexists. split; [done|]. constructor; [|constructor]. by exists delta.
Qed.
Hint Resolve keeps_emit : keeps.

Lemma keeps_read parts items : keeps (read parts items).
Proof.
  revert parts. induction items as [|m items IH]; intros parts; cbn [read_stream]; [auto with keeps|]. cbv zeta.
  destruct (negb _); [apply IH|]. apply keeps_bind; auto with keeps.
Qed.

Lemma keeps_offline q : keeps (offline q).
Proof.
  unfold _offline_react, offline_order. apply keeps_bind; [|intros parts; apply keeps_bind; auto with keeps].
  apply keeps_except; [apply keeps_bind; auto with keeps|]. intros e k. destruct e; try done. intros [= <-]. auto with keeps.
Qed.

Lemma keeps_or_offline q (runner : react_agent S -> act json) : (forall a, keeps (runner a)) -> keeps (or_offline q runner).
Proof.
  intros Hr. unfold _react_or_offline. destruct agent as [a|]; [|apply keeps_offline]. apply keeps_except; [apply Hr|].
  intros e k He. pose proof (keeps_offline q). destruct e; cbn [is_Exception is_llm_degradable negb] in He; try discriminate He; injection He as <-; auto with keeps.
Qed.

Lemma keeps_ainvoke q a : keeps (_ainvoke (S := S) tk window q a).
Proof.
  unfold _ainvoke. apply keeps_bind; [auto with keeps|]. intros c. apply keeps_bind; [auto with keeps|]. intros ms. destruct (last ms); auto with keeps.
Qed.

Lemma inside_identity (w : react_world S) i : inside w (Build_react_world i (rw_tools w) (rw_session w) (rw_context w) (rw_sent w)).
Proof. split; [done|done|]. exists []. by rewrite app_nil_r. Qed.

(** Setting the identity is no part of the turn's scopes. *)
Lemma identified {A} (f g : ST identity exn unit) (body : act A) : restores body ->
  restores (do! in_identity f in do! in_identity g in body).
Proof.
  intros Hb w r w'. unfold st_bind, in_identity. destruct (f _) as [[[]|e] i]; [|intros [= _ <-]; by split; [apply inside_identity|]].
  cbn [rw_identity]. destruct (g i) as [[[]|e] i']; [|intros [= _ <-]; by split; [apply inside_identity|]]. intros Hw. apply Hb in Hw as [[Hs Hc Hm] Ht].
  split; [|exact Ht]. split; [exact Hs|exact Hc|exact Hm].
Qed.

Lemma run_restores q : restores (run q).
Proof. apply identified, turn_restores, keeps_or_offline, keeps_ainvoke. Qed.

Lemma keeps_asks q a : keeps (asks q a).
Proof.
  unfold _astream. apply keeps_bind; [auto with keeps|]. intros c. apply keeps_bind.
  { intros w r w'. destruct (ra_stream _ _ _ _ _ _) as [[items ended] t]. intros [= _ <-]. split; [done|done|]. exists []. by rewrite app_nil_r. }
  intros [items ended]. apply keeps_bind; [apply keeps_read|]. intros parts. destruct ended; [auto with keeps|].
  cbv zeta. destruct (truthy _); [auto with keeps|].
  pose proof (restores_keeps _ (run_restores q)) as Hrun. destruct (last items) as [[? ? ? ? [[]|]]|]; try exact Hrun. destruct (truthy _); [auto with keeps|exact Hrun].
Qed.

Lemma stream_restores q : restores (stream q).
Proof. apply identified, turn_restores, keeps_or_offline, keeps_asks. Qed.

(** A ReACT turn gives back what it takes.  However it ends, with an answer or an error,
    the failures counted, the cached results and the tools' context are what they were
    before it; and all the customer was sent on the way are pieces of text with personal
    data masked. *)
Theorem react_gives_back (q : react_question) (w w' : react_world S) (r : res exn json) :
  stream q w = (r, w') \/ run q w = (r, w') ->
  tw_tracker (rw_tools w') = tw_tracker (rw_tools w) /\ rw_session w' = rw_session w /\ rw_context w' = rw_context w /\
  exists tokens, rw_sent w' = rw_sent w ++ tokens /\ Forall masked_token tokens.
Proof. intros [Hr|Hr]; [apply stream_restores in Hr as [[] ?]|apply run_restores in Hr as [[] ?]]; auto. Qed.

(** ** How a turn ends *)

(** The pieces of text of a stream, and the tokens that go to the customer. *)
Definition shown (items : list stream_message) : list pystr := filter (fun t => truthy t = true) (map (delta_of repr) items).
Definition token (text : pystr) : json := JObj [(u "event", JStr (u "token")); (u "content", JStr text)].
Definition tokens (items : list stream_message) : list json :=
  if streaming then map token (filter (fun t => truthy t = true) (map (fun t => (mask_pii t).1) (shown items))) else [].

Definition with_sent (sent : list json) (w : react_world S) : react_world S :=
  Build_react_world (rw_identity w) (rw_tools w) (rw_session w) (rw_context w) sent.

Lemma read_spec parts items (w : react_world S) : read parts items w = (Ok (parts ++ shown items), with_sent (rw_sent w ++ tokens items) w).
Proof.
  revert parts w. unfold shown, tokens, shown. induction items as [|m items IH]; intros parts w; cbn [read_stream map].
  { rewrite !filter_nil. cbn [map]. destruct w. unfold with_sent. cbn. by destruct streaming; rewrite !app_nil_r. }
  cbv zeta. rewrite filter_cons. destruct (truthy (delta_of repr m)) eqn:Ed; cbn [negb]; [|by rewrite decide_False by done; apply IH].
  rewrite decide_True by done. unfold st_bind, emit, _emit_token, st_modify. cbv zeta. rewrite Ed, IH, <- app_assoc. f_equal. unfold with_sent.
  cbn [map]. rewrite filter_cons. destruct streaming; cbn [andb]; [|done].
  destruct (truthy (mask_pii (delta_of repr m)).1) eqn:Em; [rewrite decide_True by done|by rewrite decide_False by done].
  cbn [rw_identity rw_tools rw_session rw_context rw_sent map]. by rewrite <- app_assoc.
Qed.

(** Where the agent runs: who asks, and what the tools may read. *)
Definition asker (q : react_question) (tenant : pystr) : identity :=
  {| current_tenant := tenant; current_user := str_or (strip (rq_user_id q)) ANONYMOUS |}.
Definition tools_of (w : react_world S) : tool_world S := with_tracker (Some ∅) (rw_tools w).
Definition turn_context (q : react_question) : ToolContext :=
  tool_context_scope (rq_history q) (rq_course_query q) (rq_last_course_name q) (rq_session_summary q) None.
Definition turn_session (q : react_question) (w : react_world S) : SessionToolCacheState :=
  session_tool_cache_scope (rw_session w) (rq_session_cache_state q).
(** A turn whose agent streams [items] and ends as [ended] says. *)
Definition streams (q : react_question) (w : react_world S) (items : list stream_message) (ended : option exn) (t : tool_world S) : Prop :=
  exists a tenant c, agent = Some a /\ normalize_tenant_id default_tenant (Some (rq_tenant_id q)) = Ok tenant /\ content q = Ok c /\
    ra_stream a (asker q tenant) (turn_session q w) (turn_context q) c (tools_of w) = (items, ended, t).

Lemma stream_turn q w items ended t : streams q w items ended t ->
  forall r, (match ended with
   | None => truthy (strip (concat (shown items))) = true /\ r = JStr (strip (concat (shown items)))
   | Some (ToolEscalationError d) => r = JStr (str_or (opt_str (ed_message d)) HANDED_OVER)
   | Some _ => False
   end) ->
  exists w', stream q w = (Ok r, w') /\ rw_sent w' = rw_sent w ++ tokens items /\ tw_store (rw_tools w') = tw_store t.
Proof.
  intros (a & tenant & c & Ha & Ht & Hc & Hs) r Hr.
  unfold stream_react, _stream_react_inner, in_identity, st_bind at 1 2. unfold set_current_tenant, set_current_user. rewrite Ht.
  cbn [rw_identity rw_tools rw_session rw_context rw_sent current_tenant current_user].
  unfold in_turn, in_failure_tracker, in_session_cache, in_tool_context. unfold rw_set_tools at 1.
  cbn [rw_identity rw_tools rw_session rw_context rw_sent]. unfold _react_or_offline. rewrite Ha.
  unfold st_except, _astream. unfold st_bind at 1, lift_res. rewrite Hc. unfold st_bind at 1.
  match goal with |- context [ra_stream a ?i ?s ?x c ?t0] =>
    change (ra_stream a i s x c t0) with (ra_stream a (asker q tenant) (turn_session q w) (turn_context q) c (tools_of w)) end.
  rewrite Hs.
  unfold st_bind at 1. rewrite read_spec. destruct ended as [e|].
  - destruct e; try done. subst r. eexists. split; [reflexivity|]. split; reflexivity.
  - destruct Hr as [Hv ->]. cbn [app]. rewrite Hv. eexists. split; [reflexivity|]. split; reflexivity.
Qed.


(** A hand-over decided while the agent runs reaches the customer, and the supervisor sees
    that it is one: the answer is its message. *)
Theorem handover_is_answered (q : react_question) (w : react_world S) (items : list stream_message) (d : EscalationDecision) (t : tool_world S)
    (reason : EscalationReason) :
  streams q w items (Some (ToolEscalationError d)) t -> ed_message d = Some (build_handoff_answer true (Some reason)) ->
  exists w' : react_world S, stream q w = (Ok (JStr (build_handoff_answer true (Some reason))), w') /\
    _is_auto_handoff_answer (Some (build_handoff_answer true (Some reason))) = true /\ tw_store (rw_tools w') = tw_store t.
Proof.
  intros Hs Hd. destruct (stream_turn q w items _ t Hs _ eq_refl) as (w' & Hr & _ & Ht). exists w'. rewrite Hd in Hr. cbn [opt_str] in Hr.
  assert (Hm : truthy (build_handoff_answer true (Some reason)) = true) by (destruct reason; vm_compute; reflexivity).
  assert (Ha : _is_auto_handoff_answer (Some (build_handoff_answer true (Some reason))) = true) by (destruct reason; vm_compute; reflexivity).
  generalize dependent (build_handoff_answer true (Some reason)). intros m _ Hr Hm Ha. destruct m as [|c m]; [done|]. by split_and!.
Qed.

(** Errors the agent's turn does not answer itself. *)
Definition not_answered (q : react_question) (e : exn) : Prop :=
  normalize_tenant_id default_tenant (Some (rq_tenant_id q)) = Raise e \/
  (agent <> None /\ (is_Exception e = false \/ is_quota e = true)) \/
  exists w, (offline q w).1 = Raise e.

Lemma in_turn_outcome {A} q (body : act A) w r w' : in_turn q body w = (r, w') -> exists w0, (body w0).1 = r.
Proof.
  unfold in_turn, in_failure_tracker, in_session_cache, in_tool_context.
  match goal with |- context [body ?w0] => exists w0; destruct (body w0) as [r' w1] end. match goal with H : _ = (r, w') |- _ => by injection H as -> _ end.
Qed.

Lemma or_offline_fails q runner w e : (or_offline q runner w).1 = Raise e -> not_answered q e.
Proof.
  unfold _react_or_offline. destruct agent as [a|] eqn:Ea; [|intros Hr; right; right; by exists w].
  unfold st_except. destruct (runner a w) as [[v|exc] w1]; [done|].
  destruct exc; cbn [is_Exception is_llm_degradable negb]; try done; intros Hr;
    try (right; right; by exists w1); right; left; rewrite Ea; cbn in Hr; injection Hr as <-; auto.
Qed.

Lemma identified_fails {A} q (body : act A) w e w' :
  (do! in_identity (set_current_tenant default_tenant (rq_tenant_id q)) in do! in_identity (set_current_user (Some (rq_user_id q))) in body) w = (Raise e, w') ->
  normalize_tenant_id default_tenant (Some (rq_tenant_id q)) = Raise e \/ exists w0, body w0 = (Raise e, w').
Proof.
  unfold st_bind, in_identity, set_current_tenant, set_current_user. destruct (normalize_tenant_id _ _) as [tenant|exc].
  - intros Hb. right. by eexists.
  - intros [= -> _]. by left.
Qed.

(** C16.  A ReACT turn fails only for a tenant that is none, on a cancellation, on an exhausted
    quota, or when the answer without the model fails: every other failure of the agent,
    of the prompt, or of the stream is answered, and so is every hand-over decided while
    the agent runs. *)
Theorem react_fails_only (q : react_question) (w w' : react_world S) (e : exn) :
  stream q w = (Raise e, w') \/ run q w = (Raise e, w') ->
  normalize_tenant_id default_tenant (Some (rq_tenant_id q)) = Raise e \/
  (agent <> None /\ (is_Exception e = false \/ is_quota e = true)) \/
  exists w0 : react_world S, (offline q w0).1 = Raise e.
Proof.
  intros Hr. assert (Hc : normalize_tenant_id default_tenant (Some (rq_tenant_id q)) = Raise e \/
    exists runner w0, (or_offline q runner w0).1 = Raise e).
  { destruct Hr as [Hr|Hr]; (apply identified_fails in Hr as [Hn|(w0 & Hb)]; [by left|right]);
      apply in_turn_outcome in Hb as (w1 & Hb); eexists _, w1; exact Hb. }
  destruct Hc as [Hn|(runner & w0 & Ho)]; [by left|exact (or_offline_fails q runner w0 e Ho)].
Qed.

Lemma order_hint_keeps n c t : contains t c = true -> contains t (with_order_hint n c) = true.
Proof.
  intros Ht. unfold with_order_hint. destruct n; [|done]. destruct (_ && _); [|done]. eapply contains_trans; [exact Ht|apply contains_after].
Qed.
Lemma order_hint_tells n c : contains n (with_order_hint (Some n) c) = true.
Proof.
  unfold with_order_hint. destruct n as [|d n]; [apply contains_nil|]. cbn [truthy andb]. destruct (contains (d :: n) c) eqn:E; cbn [negb]; [done|].
  apply contains_spec. exists (c ++ newline ++ u "（关联订单号："), (u "）"). by rewrite <- !app_assoc.
Qed.
Lemma course_hint_keeps a b c t : contains t c = true -> contains t (with_course_hint a b c) = true.
Proof.
  intros Ht. unfold with_course_hint. cbv zeta. destruct (_ && _); [|done]. eapply contains_trans; [exact Ht|apply contains_after].
Qed.
Lemma course_hint_tells a b c : contains (strip (opt_str (ostr_or a b))) (with_course_hint a b c) = true.
Proof.
  unfold with_course_hint. cbv zeta. set (hint := strip _). clearbody hint. destruct hint as [|d n]; [apply contains_nil|]. cbn [truthy andb].
  destruct (contains (d :: n) c) eqn:E; cbn [negb]; [done|]. apply contains_spec. exists (c ++ newline ++ u "（关联课程："), (u "）"). by rewrite <- !app_assoc.
Qed.

(** Nothing is lost on the way to the agent: what it is asked holds the question, what the
    window keeps of the conversation, the order number the turn is about (given, in the
    question, or in the history, in this order), and the course, when there is one. *)
Theorem prompt_is_complete (q : react_question) (history_text c : pystr) :
  format_history_for_prompt tk window (rq_history q) None None (rq_session_summary q) = Ok history_text -> content q = Ok c ->
  contains (rq_query q) c = true /\ contains history_text c = true /\
  (forall number : pystr, resolved_order q = Some number -> contains number c = true) /\
  contains (strip (opt_str (ostr_or (rq_last_course_name q) (rq_course_query q)))) c = true.
Proof.
  unfold _build_react_user_content. intros -> [= <-]. set (user := if truthy history_text then _ else _).
  assert (Hu : contains (rq_query q) user = true /\ contains history_text user = true).
  { unfold user. destruct history_text as [|d h]; cbn [truthy]; [split; [apply contains_refl|apply contains_nil]|]. split; apply contains_spec.
    - exists (u "对话历史：" ++ newline ++ (d :: h) ++ newline ++ newline ++ u "当前用户问题："), []. by rewrite app_nil_r, <- !app_assoc.
    - exists (u "对话历史：" ++ newline), (newline ++ newline ++ u "当前用户问题：" ++ rq_query q). by rewrite <- !app_assoc. }
  destruct Hu as [Hq Hh]. split_and!; [by apply course_hint_keeps, order_hint_keeps|by apply course_hint_keeps, order_hint_keeps| |apply course_hint_tells].
  intros n ->. apply course_hint_keeps, order_hint_tells.
Qed.
End turn.

(** ** Examples *)

Module Demo.
Abbreviation store := ToolCache.Demo.store.
Definition question (query : pystr) : react_question :=
  {| rq_query := query; rq_user_id := u "alice"; rq_tenant_id := u "demo"; rq_history := []; rq_order_no := None; rq_course_query := None;
     rq_last_course_name := None; rq_session_summary := None; rq_session_cache_state := ∅ |}.
Definition world : react_world store :=
  Build_react_world default_identity OrderCapability.Demo.world _EMPTY_SESSION (tool_context_scope [] None None None None) [].

Definition says (calls : list json) (text : pystr) : stream_message :=
  {| sm_is_ai := true; sm_tool_calls := calls; sm_additional_kwargs := JNull; sm_tool_call_chunks := []; sm_content := Some (JStr text) |}.
Definition observed (text : pystr) : stream_message :=
  {| sm_is_ai := false; sm_tool_calls := []; sm_additional_kwargs := JNull; sm_tool_call_chunks := []; sm_content := Some (JStr text) |}.
(** An agent that streams these messages. *)
Definition streaming_agent (items : list stream_message) (ended : option exn) : react_agent store :=
  {| ra_invoke _ _ _ _ := st_ret [JStr (u "好的")]; ra_stream _ _ _ _ t := (items, ended, t) |}.

Section turns.
Context (consult : pystr -> pystr -> list message -> option pystr -> option pystr -> option pystr -> option pystr -> res exn CourseConsultResult).
Definition turn (agent : option (react_agent store)) (q : react_question) : res exn json * react_world store :=
  stream_react (T := json) (fun _ => []) char_tokenizer None (u "demo") ToolCache.Demo.settings OrderCapability.Demo.esettings demo_db
    OrderCapability.Demo.put_text (OrderCapability.Demo.env PoolRan) Supervisor.Demo.cenv consult agent true None q world.
End turns.

Definition call : json := JObj [(u "name", JStr (u "tool_order_query"))].
Definition spoken : list stream_message := [says [call] (u "我查一下"); observed (u "{}"); says [] (u "已支付，电话"); says [] (u "13812345678 ")].

Definition asked : react_question := question (u "订单20251114001到哪了").

Example streams_the_answer :
  let (r, w) := turn Supervisor.Demo.consult (Some (streaming_agent spoken None)) asked in
  r = Ok (JStr (u "已支付，电话13812345678")) /\ rw_sent w = map token [u "已支付，电话"; u "[PHONE_MASKED] "].
Proof. vm_compute. split; reflexivity. Qed.

(** Without visible text of the model's the last message is the answer, whatever it is:
    here what the tool returned to the model. *)
Example tool_output_shown :
  (turn Supervisor.Demo.consult (Some (streaming_agent [says [call] []; observed (_tool_json MISSING_ORDER_NO (u "请向用户确认完整订单编号，不要编造"))] None))
     (question (u "订单到哪了"))).1 = Ok (JStr (_tool_json MISSING_ORDER_NO (u "请向用户确认完整订单编号，不要编造"))).
Proof. vm_compute. reflexivity. Qed.

(** A course search that times out hands the question over to a person, as a tool; without
    the model the same decision is an error of the turn. *)
Definition slow_course (_ _ : pystr) (_ : list message) (_ _ _ _ : option pystr) : res exn CourseConsultResult :=
  Raise (TimeoutError (u "timeout")).
Definition failing_agent : react_agent store :=
  {| ra_invoke _ _ _ _ := st_raise (ConnectionError []);
     ra_stream _ _ _ _ t := ([], Some (ConnectionError []), with_tracker ((fun c => (record_transient TOOL_COURSE (normalize_course_cache_key (u "前端课程") None) c).2) <$> tw_tracker t) t) |}.
Example offline_handover_is_an_error :
  match (turn slow_course (Some failing_agent) (question (u "前端课程"))).1 with Raise (ToolEscalationError d) => escalate d | _ => false end = true.
Proof. vm_compute. reflexivity. Qed.
End Demo.

(** The parameters of the examples. *)
Abbreviation demo_turn consult agent q :=
  (stream_react (T := json) (fun _ => []) char_tokenizer None (u "demo") ToolCache.Demo.settings OrderCapability.Demo.esettings demo_db
    OrderCapability.Demo.put_text (OrderCapability.Demo.env PoolRan) Supervisor.Demo.cenv consult agent true None q Demo.world).

Lemma demo_streams ended : format_history_for_prompt char_tokenizer None [] None None None = Ok [] ->
  streams char_tokenizer None (u "demo") (Some (Demo.streaming_agent Demo.spoken ended)) Demo.asked Demo.world Demo.spoken ended
    (tools_of Demo.world).
Proof.
  intros Hf. exists (Demo.streaming_agent Demo.spoken ended), (u "demo"). eexists. split; [reflexivity|]. split; [vm_compute; reflexivity|].
  split; [unfold _build_react_user_content; cbn [rq_history rq_session_summary Demo.asked Demo.question]; rewrite Hf; reflexivity|reflexivity].
Qed.


Lemma handover_is_answered_witness :
  exists w', Demo.turn Supervisor.Demo.consult (Some (Demo.streaming_agent Demo.spoken (Some (ToolEscalationError escalation_for_react_limit))))
      Demo.asked = (Ok (JStr (build_handoff_answer true (Some react_limit))), w').
Proof.
  destruct (handover_is_answered (T := json) (fun _ => []) char_tokenizer None (u "demo") ToolCache.Demo.settings OrderCapability.Demo.esettings demo_db
    OrderCapability.Demo.put_text (OrderCapability.Demo.env PoolRan) Supervisor.Demo.cenv Supervisor.Demo.consult
    (Some (Demo.streaming_agent Demo.spoken (Some (ToolEscalationError escalation_for_react_limit)))) true
    Demo.asked Demo.world Demo.spoken escalation_for_react_limit (tools_of Demo.world) react_limit
    (demo_streams _ ltac:(vm_compute; reflexivity)) eq_refl) as (w' & Hr & _).
  exists w'. exact Hr.
Defined.

Lemma react_gives_back_witness :
  tw_tracker (rw_tools (Demo.turn Supervisor.Demo.consult (Some (Demo.streaming_agent Demo.spoken None)) Demo.asked).2) =
  tw_tracker (rw_tools Demo.world).
Proof.
  destruct (react_gives_back (T := json) (fun _ => []) char_tokenizer None (u "demo") ToolCache.Demo.settings OrderCapability.Demo.esettings demo_db
    OrderCapability.Demo.put_text (OrderCapability.Demo.env PoolRan) Supervisor.Demo.cenv Supervisor.Demo.consult
    (Some (Demo.streaming_agent Demo.spoken None)) true Demo.asked Demo.world
    (Demo.turn Supervisor.Demo.consult (Some (Demo.streaming_agent Demo.spoken None)) Demo.asked).2
    (Demo.turn Supervisor.Demo.consult (Some (Demo.streaming_agent Demo.spoken None)) Demo.asked).1)
    as [Ht _]; [left; apply surjective_pairing|exact Ht].
Defined.

Lemma react_fails_only_witness :
  match (Demo.turn Demo.slow_course (Some Demo.failing_agent) (Demo.question (u "前端课程"))).1 with
  | Raise e => exists w, (_offline_react (T := json) ToolCache.Demo.settings OrderCapability.Demo.esettings demo_db OrderCapability.Demo.put_text
      (OrderCapability.Demo.env PoolRan) Supervisor.Demo.cenv Demo.slow_course (Demo.question (u "前端课程")) w).1 = Raise e
  | Ok _ => False
  end.
Proof.
  pose proof (fun e w' => react_fails_only (T := json) (fun _ => []) char_tokenizer None (u "demo") ToolCache.Demo.settings OrderCapability.Demo.esettings
    demo_db OrderCapability.Demo.put_text (OrderCapability.Demo.env PoolRan) Supervisor.Demo.cenv Demo.slow_course (Some Demo.failing_agent) true
    (Demo.question (u "前端课程")) Demo.world w' e) as Hf.
  assert (Hr : match (Demo.turn Demo.slow_course (Some Demo.failing_agent) (Demo.question (u "前端课程"))).1 with
    | Raise e => is_Exception e && negb (is_quota e) | Ok _ => false end = true) by (vm_compute; reflexivity).
  unfold Demo.turn in *. revert Hf Hr.
  generalize (demo_turn Demo.slow_course (Some Demo.failing_agent) (Demo.question (u "前端课程"))).
  intros [[v|e] w'] Hf Hr; [discriminate Hr|]. cbn [fst] in *. apply andb_true_iff in Hr as [H1 H2]. apply negb_true_iff in H2.
  destruct (Hf e w' (or_introl eq_refl)) as [Hn|[[_ [Hx|Hx]]|Hoff]]; [|congruence|congruence|exact Hoff].
  vm_compute in Hn. discriminate Hn.
Defined.

Lemma prompt_is_complete_witness :
  match _build_react_user_content char_tokenizer None Demo.asked with
  | Ok c => contains (rq_query Demo.asked) c = true
  | Raise _ => False
  end.
Proof.
  destruct (_build_react_user_content char_tokenizer None Demo.asked) as [c|e] eqn:E.
  - destruct (prompt_is_complete char_tokenizer None Demo.asked [] c ltac:(vm_compute; reflexivity) E) as [Hq _].
    exact Hq.
  - vm_compute in E. discriminate E.
Defined.
