(* ===== verification/CacheUpdates.v ===== *)
(** * What tools write into a conversation

    A capability hands cached results to the conversation's state under
    "_cache_state_updates"; the supervisor collects them and its node writes them back.
    The registered capabilities write the cache's own keys and no others, and the
    supervisor passes on nothing else, whatever the plan. *)

From stdpp Require Import base list gmap strings.
From S2P Require Import Prelude PyText Errors Json Schemas Policy Window State OrderAccess Orders Escalation ToolCache Capability OrderCapability CourseCapability Supervisor.

Open Scope py_scope.

(** The keys of the session's tool cache ([SessionToolCacheState]). *)
Definition CACHE_KEYS : list pystr :=
  map u ["last_order_structured"; "last_course_structured"; "last_course_structured_key"]%string.

Definition cache_only (d : dict) : Prop := forall k : pystr, d !! k <> None -> k ∈ CACHE_KEYS.
Definition observes_cache (observations : dict) : Prop := cache_only (_extract_cache_updates observations).

(** What a capability promises. *)
Definition tidy {W} (cap : Capability W) : Prop := forall ctx kwargs w result w',
  ainvoke cap ctx kwargs w = (Ok result, w') -> observes_cache (cap_observations result).

Lemma cache_only_empty : cache_only ∅.
Proof. intros k. by rewrite lookup_empty. Qed.

Lemma cache_only_merge d e : cache_only d -> cache_only e -> cache_only (dmerge d e).
Proof.
  intros Hd He k. rewrite dmerge_lookup. destruct (e !! k) eqn:E; [intros _; apply He; congruence|apply Hd].
Qed.

Lemma cache_only_mkdict l : forallb (fun kv => bool_decide (kv.1 ∈ CACHE_KEYS)) l = true -> cache_only (mkdict l).
Proof.
  intros Hl. induction l as [|[k v] l IH] using rev_ind; [apply cache_only_empty|].
  rewrite forallb_app in Hl. apply andb_true_iff in Hl as [Hl Hk]. cbn in Hk. rewrite andb_true_r in Hk.
  apply bool_decide_eq_true in Hk. intros j. rewrite (mkdict_if true). case_bool_decide as Hj; [by subst|].
  by apply IH.
Qed.

Lemma observes_empty : observes_cache ∅.
Proof. unfold observes_cache, _extract_cache_updates, get_obj, get. rewrite lookup_empty. apply cache_only_empty. Qed.

Lemma observes_merge d e : observes_cache d -> observes_cache e -> observes_cache (dmerge d e).
Proof.
  unfold observes_cache, _extract_cache_updates, get_obj. rewrite get_dmerge. intros Hd He.
  unfold get in He. destruct (e !! _); [exact He|exact Hd].
Qed.

(** A key that is no cache key is not written. *)
Lemma cache_only_other d k : cache_only d -> k ∉ CACHE_KEYS -> d !! k = None.
Proof. intros Hd Hk. destruct (d !! k) eqn:E; [|done]. exfalso. apply Hk, Hd. by rewrite E. Qed.

Lemma st_ret_inv {W A} (a b : A) (w w' : W) : @st_ret W exn A a w = (Ok b, w') -> a = b.
Proof. by intros [= ? _]. Qed.

(** ** The supervisor passes on what was observed *)
Section passed_on.
Context {W : Type} (registry : registry W) (schedule : list PlanStep -> list nat).
Context (Htidy : Forall (fun kv => tidy kv.2) registry).

Lemma step_tidy step ctx observations w text obs escalated w' : observes_cache observations ->
  _run_step registry step ctx observations w = (Ok (text, obs, escalated), w') -> observes_cache obs.
Proof using Htidy.
  intros Ho. unfold _run_step, get_capability.
  destruct (lookup_capability (ps_capability step) registry) as [cap|] eqn:Ec; [|done].
  assert (Hcap : tidy cap).
  { unfold lookup_capability in Ec. apply fmap_Some in Ec as ([k c] & Hf & ->). apply List.find_some in Hf as [Hin _].
    apply list_elem_of_In in Hin. rewrite Forall_forall in Htidy. exact (Htidy _ Hin). }
  destruct (bind cap step ctx observations) as [[kwargs|]|e]; [|by intros [= _ <- _ _]|done].
  intros [(result & w1 & Hi & [= _ <- _ _])|(e & _ & [=])]%st_bind_inv.
  apply observes_merge; [done|]. by eapply Hcap.
Qed.

Lemma run_order_in {A} sched (calls : list (ST W exn A)) w i r : (i, r) ∈ (run_order_of sched calls w).1 ->
  exists call w1 w2, call ∈ calls /\ call w1 = (r, w2).
Proof using.
  revert w. induction sched as [|j sched IH]; intros w; cbn [run_order_of]; [intros H; by apply elem_of_nil in H|].
  rewrite nth_error_lookup. destruct (calls !! j) as [call|] eqn:Ej; [|apply IH].
  destruct (call w) as [x w1] eqn:Ex. destruct (run_order_of sched calls w1) as [rs w2] eqn:Er. cbn [fst].
  intros [[= -> ->]|Hin]%elem_of_cons.
  - exists call, w, w1. split; [by eapply list_elem_of_lookup_2|done].
  - apply (IH w1). by rewrite Er.
Qed.

Lemma gather_in {A} sched (calls : list (ST W exn A)) w rs w' r : gather sched calls w = (Ok rs, w') ->
  r ∈ rs -> exists call w1 w2, call ∈ calls /\ call w1 = (Ok r, w2).
Proof using.
  unfold gather. pose proof (run_order_in sched calls w) as Hin. destruct (run_order_of sched calls w) as [rs0 w0].
  destruct (first_error rs0); [done|]. intros [= <- _] Hr. apply list_elem_of_omap in Hr as (i & _ & Hi).
  unfold result_of in Hi. apply head_Some_elem_of in Hi. apply list_elem_of_omap in Hi as ([j x] & Hx & Hj).
  cbn in Hj. case_decide; [|done]. destruct x; simplify_eq/=. by eapply Hin.
Qed.

Definition progress_tidy (p : progress) : Prop := observes_cache (pr_observations p) /\ cache_only (pr_cache_updates p).
Definition outcome_tidy (r : (pystr * option pystr * dict * bool) + progress) : Prop :=
  match r with inl (_, _, updates, _) => cache_only updates | inr p => progress_tidy p end.

Lemma take_results_tidy results p : Forall (fun r => observes_cache r.1.2) results -> progress_tidy p ->
  outcome_tidy (take_results results p).
Proof using.
  intros Hr. revert p. induction Hr as [|[[text obs] esc] results Ho _ IH]; intros p [Hp1 Hp2]; cbn [take_results]; [done|].
  cbn in Ho. assert (Hc : cache_only (dmerge (pr_cache_updates p) (_extract_cache_updates obs))) by by apply cache_only_merge.
  destruct esc; [exact Hc|]. apply IH. split; [by apply observes_merge|done].
Qed.

Lemma group_tidy ctx steps p w r w' : progress_tidy p ->
  run_group registry schedule ctx steps p w = (Ok r, w') -> outcome_tidy r.
Proof using Htidy.
  intros [Hp1 Hp2]. assert (Hmany : st_bind (gather (schedule steps) (map (fun s => _run_step registry s ctx (pr_observations p)) steps))
      (fun results => st_ret (take_results results p)) w = (Ok r, w') -> outcome_tidy r).
  { intros [(results & w1 & Hg & [= <- _])|(e & _ & [=])]%st_bind_inv. apply take_results_tidy; [|done].
    apply Forall_forall. intros [[text obs] esc] Hin. cbn.
    destruct (gather_in _ _ _ _ _ _ Hg Hin) as (call & w2 & w3 & (s & -> & _)%list_elem_of_fmap & Hs).
    by eapply step_tidy. }
  unfold run_group. destruct steps as [|step [|step2 steps]]; [exact Hmany| |exact Hmany].
  intros [([[text obs] esc] & w1 & Hs & [= <- _])|(e & _ & [=])]%st_bind_inv.
  apply step_tidy in Hs; [|done]. cbn [take_single].
  assert (Hc : cache_only (dmerge (pr_cache_updates p) (_extract_cache_updates obs))) by by apply cache_only_merge.
  by destruct esc.
Qed.

Lemma groups_tidy plan query user tenant history order_no course_query last_name summary groups p w r w' :
  progress_tidy p ->
  run_groups registry schedule query user tenant history order_no course_query last_name summary plan groups p w = (Ok r, w') ->
  cache_only r.1.2.
Proof using Htidy.
  revert p w. induction groups as [|g groups IH]; intros p w Hp; cbn [run_groups].
  - intros [= <- _]. by destruct Hp.
  - intros [(x & w1 & Hg & Hx)|(e & _ & [=])]%st_bind_inv. apply group_tidy in Hg; [|done].
    destruct x as [[[[? ?] ?] ?]|p']; [by injection Hx as <- _|by eapply IH].
Qed.

(** Whatever the plan: a decision's updates are cache entries. *)
Lemma supervisor_tidy react query user tenant history order_no course_query last_name summary intent needs question w d w' :
  run_supervisor registry schedule react query user tenant history order_no course_query last_name summary intent needs
    question w = (Ok d, w') ->
  cache_only (sd_cache_state_updates d).
Proof using Htidy.
  assert (Hto : forall plan answer order_no course_query (updates : dict) escalated reason, cache_only updates ->
    cache_only (sd_cache_state_updates (to_supervisor_decision (tool_name registry) plan answer order_no course_query
      updates escalated reason))).
  { intros. unfold to_supervisor_decision. destruct escalated; [done|]. case_decide; [apply cache_only_empty|done]. }
  unfold run_supervisor. cbn zeta. set (plan := plan_supervisor _ _ _ _ _ _ _). destruct (sp_action plan).
  - intros <-%st_ret_inv. apply Hto, cache_only_empty.
  - intros [([[[answer bound] updates] esc] & w1 & Hp & <-%st_ret_inv)|(e & _ & [=])]%st_bind_inv. apply Hto.
    apply groups_tidy in Hp; [exact Hp|]. split; [apply observes_empty|apply cache_only_empty].
  - intros [(answer & w1 & Hp & <-%st_ret_inv)|(e & _ & [=])]%st_bind_inv. apply Hto, cache_only_empty.
Qed.
End passed_on.

(** ** The registered capabilities *)

Section registered.
Context {T S : Type} `{JsonText T} `{Validators} `{ToolCacheStore T S}.
Context (settings : cache_settings) (esettings : escalation_settings) (ct cu : pystr).

Lemma order_tidy db put_text env : tidy (OrderCapability (T := T) settings esettings db ct cu put_text env).
Proof using.
  intros ctx kwargs w result w'. cbn [ainvoke OrderCapability]. unfold order_ainvoke.
  intros [(a & [(report & w1 & _ & <-%st_ret_inv)|(e & _ & [=])]%st_bind_inv & [= ->])|(e & w1 & _ & He)]%st_except_inv.
  - cbn [order_result cap_observations]. unfold observes_cache, _extract_cache_updates, get_obj, get, order_observations.
    rewrite !app_assoc, lookup_mkdict_app, mkdict_one, bool_decide_eq_true_2 by done. cbn [default from_option id].
    unfold session_updates_for_order. destruct (negb _); apply cache_only_mkdict; vm_compute; reflexivity.
  - destruct e; try (by destruct He); apply st_ret_inv in He as <-; apply observes_empty.
Qed.

Lemma course_tidy courses consult env : tidy (CourseCapability (T := T) settings esettings ct cu courses consult env).
Proof using.
  intros ctx kwargs w result w'. cbn [ainvoke CourseCapability]. unfold course_ainvoke.
  intros [(a & [(course & w1 & _ & <-%st_ret_inv)|(e & _ & [=])]%st_bind_inv & [= ->])|(e & w1 & _ & He)]%st_except_inv.
  - unfold course_result. case_bool_decide; cbn [cap_observations];
      unfold observes_cache, _extract_cache_updates, get_obj, get; read_display; cbn [default from_option id].
    + apply cache_only_empty.
    + unfold session_updates_for_course. destruct (negb _); apply cache_only_mkdict; vm_compute; reflexivity.
  - destruct e; try (by destruct He); apply st_ret_inv in He as <-; apply observes_empty.
Qed.
End registered.
