(* ===== verification/TurnArchive.v ===== *)
(** * Turns leave their conversation in the archive

    What a turn promises about cold storage, as a class next to [TurnGraph]: behind a
    turn that completed, the archive holds the conversation the turn ended with.  The
    compiled graph of [Graph] keeps it. *)

From stdpp Require Import base list gmap strings.
From S2P Require Import Prelude PyText Errors PyFloat Json Schemas Policy Window Filters State Slots Archive Tenancy OrderAccess UserMemory Escalation ToolCache Capability OrderCapability CourseCapability CacheUpdates Compress Turn Graph.

Open Scope py_scope.

Class ArchivesTurns (W : Type) `{TurnGraph W} (default_tenant : pystr) : Prop := {
  tg_archives state w state' w' (tenant user session : pystr) :
    identified (cs_messages state) -> tg_astream state w = (Ok state', w') ->
    let ident := identity_from_state default_tenant (cs_fields state) in
    session_key tenant user session = session_key (iv_tenant_id ident) (iv_user_id ident) (iv_session_id ident) ->
    truthy (strip session) = true ->
    exists d, tg_load_archive true tenant user session w' = Some d /\
      memory_from_state (cs_fields (archive_to_graph_inputs d)) = memory_from_state (cs_fields state') /\
      cs_messages (archive_to_graph_inputs d) = archived_messages (cs_messages state');
  tg_identified state w state' w' :
    identified (cs_messages state) -> tg_astream state w = (Ok state', w') -> identified (cs_messages state');
}.

(** The answer is no part of what is remembered. *)
Lemma memory_answer (d : dict) (a s : json) :
  memory_from_state (dmerge d (mkdict [(u "answer", a); (u "session_summary", s)])) =
  memory_from_state (dmerge d (mkdict [(u "session_summary", s)])).
Proof.
  unfold memory_from_state, get_ostr, get_bool, get_obj, get_str. rewrite !get_dmerge.
  repeat match goal with
  | |- context [mkdict ?l !! ?k] =>
    let r := eval vm_compute in (mkdict l !! k) in
    replace (mkdict l !! k) with r by (vm_compute; reflexivity)
  end.
  done.
Qed.

Definition ID_KEYS : list pystr := map u ["tenant_id"; "user_id"; "session_id"]%string.

Section archived.
Context {T M S : Type} `{JsonTextLaws T, Validators, UserStore M, ToolCacheStore T S, MessageChannelLaws}.
Context (settings : graph_settings) (tk : tokenizer) (route_llm : pystr -> res exn (option RouteDecision)).
Context (summary_llm : pystr -> res exn pystr) (settings_max : option Z).
Context (db : OrderDB) (put_text : pystr -> pystr -> pystr -> res exn pystr).
Context (astream_course_answer : pystr -> pystr -> list message -> option pystr -> option pystr ->
  option pystr -> list json * res exn (pystr * CourseConsultResult)).
Context (registry_for : identity -> SessionToolCacheState -> registry (tool_world S)).
Context (stream_react : identity -> SessionToolCacheState -> ST (tool_world S) exn pystr).
Context (schedule : list PlanStep -> list nat) (memory_at : gnode -> memory_env) (order_env : call_env).
Context (course_clock : clock) (course_stamp : pyfloat).
Context (Htidy : forall id session, Forall (fun kv => tidy kv.2) (registry_for id session)).
Context (Hrecent : (1 <= always_keep_recent (gs_limits settings))%Z).

Abbreviation world := (graph_world T M S).
Abbreviation node := (node_of settings tk route_llm summary_llm settings_max db put_text astream_course_answer
  registry_for stream_react schedule memory_at order_env course_clock course_stamp true).
Abbreviation step := (superstep settings tk route_llm summary_llm settings_max db put_text astream_course_answer
  registry_for stream_react schedule memory_at order_env course_clock course_stamp true).
Abbreviation run := (run_from settings tk route_llm summary_llm settings_max db put_text astream_course_answer
  registry_for stream_react schedule memory_at order_env course_clock course_stamp true).
#[local] Instance graph : TurnGraph world := compiled_graph settings tk route_llm summary_llm settings_max db put_text
  astream_course_answer registry_for stream_react schedule memory_at order_env course_clock course_stamp true.

Lemma security_keeps K state : K ∈ ID_KEYS ->
  ensures (fun up => avoids K (nu_fields up)) (security_node (S := S) (M := M) (T := T) settings state).
Proof using Type.
  intros HK. unfold security_node. do 2 (apply ensures_then; intros _). cbv zeta. destruct (negb _);
    apply ensures_ret; cbn [nu_fields writes]; unfold ID_KEYS in HK; cbn [map] in HK;
    repeat (apply elem_of_cons in HK as [->|HK]; [by apply avoids_merge; apply avoids_mkdict|]); by apply elem_of_nil in HK.
Qed.

(** No node writes a key of the identity. *)
Lemma node_keeps_id K n state : K ∈ ID_KEYS -> ensures (fun up => avoids K (nu_fields up)) (node n state).
Proof using Htidy.
  intros HK. destruct (decide (n = G_security)) as [->|Hn]; [by apply security_keeps|]. apply node_keeps; [done| |done].
  assert (Hall : Forall (fun K => K ∉ NODE_KEYS) ID_KEYS).
  { apply (bool_decide_eq_true_1 (Forall (fun K => K ∉ NODE_KEYS) ID_KEYS)). vm_compute. reflexivity. }
  rewrite Forall_forall in Hall. by apply Hall.
Qed.

Lemma update_identified state update state' : identified (cs_messages state) ->
  (nu_messages update = None \/ exists m, nu_messages update = Some [PutMessage m] /\ has_id m = false) ->
  apply_update state update = Ok state' -> identified (cs_messages state').
Proof using All.
  unfold apply_update. intros Hid [->|(m & -> & Hm)]; [by intros [= <-]|]. rewrite rbind_ok.
  intros (ms & Hadd & [= <-]). cbn [cs_messages].
  destruct (add_messages_spec (cs_messages state) [PutMessage m]) as (fresh & Heq & _ & Hids); [done| |congruence].
  unfold applicable, puts. cbn. rewrite Hm. cbn. by repeat constructor.
Qed.

Lemma step_keeps n state w state' w' : step n state w = (Ok state', w') ->
  (forall K, K ∈ ID_KEYS -> get K (cs_fields state') = get K (cs_fields state)) /\
  (n <> G_node N_respond -> identified (cs_messages state) -> identified (cs_messages state')).
Proof using All.
  intros (update & w1 & Hn & Hf & Ha & _)%superstep_inv. split.
  - intros K HK. rewrite Hf. apply avoids_get. eapply node_ensures with (P := fun up => avoids K (nu_fields up)); [|exact Hn]. by apply node_keeps_id.
  - intros Hne Hid. eapply update_identified; [exact Hid| |exact Ha]. 
    pattern update. eapply node_ensures; [|exact Hn]. by apply node_messages.
Qed.

Lemma run_keeps steps n state w state' w' : run steps n state w = (Ok state', w') ->
  identified (cs_messages state) ->
  exists st w1, step (G_node N_respond) st w1 = (Ok state', w') /\ identified (cs_messages st) /\
    forall K, K ∈ ID_KEYS -> get K (cs_fields st) = get K (cs_fields state).
Proof using All.
  revert n state w. induction steps as [|steps IH]; intros n state w; cbn [run_from]; [done|].
  intros [(s1 & w1 & Hs & Hr)|(e & _ & [=])]%st_bind_inv Hid. destruct (edge n s1) as [n'|] eqn:En.
  - pose proof (step_keeps _ _ _ _ _ Hs) as [Hk Hm]. assert (Hne : n <> G_node N_respond) by by intros ->.
    destruct (IH n' s1 w1 Hr (Hm Hne Hid)) as (st & w2 & Hst & Hids & Hks). exists st, w2. split; [done|]. split; [done|].
    intros K HK. by rewrite Hks, Hk.
  - injection Hr as <- <-. exists state, w. assert (n = G_node N_respond) as -> by by destruct n as [| |[]]. by split.
Qed.

(** What the last node leaves in the state and in the archive. *)
Lemma respond_step st w state' w' : step (G_node N_respond) st w = (Ok state', w') -> identified (cs_messages st) ->
  identified (cs_messages state') /\ exists up,
    gw_sessions w' = persist_respond_turn (gs_default_tenant settings) true st up (gw_sessions w) /\
    cs_fields state' = dmerge (cs_fields st) (mkdict [(u "answer", JStr (up_answer up));
                                                      (u "session_summary", JStr (up_session_summary up))]) /\
    archived_messages (up_kept_messages up) = archived_messages (cs_messages state').
Proof using All.
  intros (update & w1 & Hn & Hf & Ha & ->)%superstep_inv Hid. unfold in_context in Hn. cbn [node_of] in Hn.
  destruct (respond_node _ _ _ _ _ _ _) as [r w2] eqn:Er. injection Hn as -> <-. revert Er. unfold respond_node.
  intros [(up & w3 & [= Hup <-] & Hr)|(e & _ & [=])]%st_bind_inv.
  apply st_bind_inv in Hr as [([] & w4 & [= <-] & [= <- <-])|(e & [=] & _)].
  unfold apply_update in Ha. cbn [nu_messages nu_fields] in Ha, Hf. apply rbind_ok in Ha as (ms & Hadd & [= <-]).
  revert Hup. unfold finalize_respond_turn. destruct (build_stored_answer _) as [full stored]. rewrite rbind_ok.
  intros (result & Hres & [= <-]). cbn [up_message_updates up_answer up_session_summary up_kept_messages] in *.
  destruct (kept_split _ _ _ _ _ _ _ _ _ _ Hres Hid Hrecent) as (k & Hk & Hks).
  destruct (responded _ _ _ _ _ _ _ _ _ _ Hres Hid Hrecent k Hk Hks) as (ai & Hadd' & Hkept & Hrole & Htext & Hids).
  rewrite Hadd' in Hadd. injection Hadd as <-. cbn [cs_messages cs_fields gw_sessions emit st_modify snd] in *. split; [done|].
  eexists. split; [reflexivity|]. split; [done|]. cbn [up_kept_messages]. rewrite Hkept. unfold archived_messages. rewrite !omap_app. cbn.
  by rewrite Hrole.
Qed.

#[export] Instance compiled_graph_archives : ArchivesTurns world (gs_default_tenant settings).
Proof using All.
  split.
  - intros state w state' w' tenant user session Hid Hrun. cbn zeta. intros Hkey Hs.
    apply run_keeps in Hrun as (st & w1 & Hst & Hids & Hks); [|done].
    destruct (respond_step _ _ _ _ Hst Hids) as (_ & up & Hsess & Hf & Hm). cbn [tg_load_archive graph compiled_graph].
    rewrite Hsess. unfold persist_respond_turn. cbv zeta.
    assert (Hident : forall k, k ∈ ID_KEYS -> get_str k (cs_fields st) = get_str k (cs_fields state)).
    { intros k Hk. unfold get_str. by rewrite Hks. }
    pose proof (Hident (u "tenant_id") ltac:(unfold ID_KEYS; cbn [map]; listed)) as Ht.
    pose proof (Hident (u "user_id") ltac:(unfold ID_KEYS; cbn [map]; listed)) as Hu.
    pose proof (Hident (u "session_id") ltac:(unfold ID_KEYS; cbn [map]; listed)) as Hse.
    unfold identity_from_state in *. cbn [iv_tenant_id iv_user_id iv_session_id] in *. rewrite Ht, Hu, Hse.
    match goal with |- context [upsert_session_archive true ?t ?us ?se ?th ?st0 ?db0] =>
      destruct (load_upserted t us se th st0 db0 tenant user session) as (d & Hload & Hmem & Hmsg) end.
    { unfold session_key in Hkey. injection Hkey as _ _ <-. exact Hs. }
    { exact Hkey. }
    exists d. split; [exact Hload|]. rewrite Hmem, Hmsg. cbn [cs_fields cs_messages]. split; [|exact Hm].
    by rewrite Hf, memory_answer.
  - intros state w state' w' Hid Hrun. apply run_keeps in Hrun as (st & w1 & Hst & Hids & _); [|done].
    by apply (respond_step _ _ _ _ Hst Hids).
Qed.
End archived.
