(* ===== verification/QuotaStore.v ===== *)
(** * The gateway's stores ([app/llm_gateway/stores.py], [types.py])

    Daily token counters per tenant and a short response cache, in process or in
    Redis.  The class [GatewayStore] is what the gateway relies on; both stores
    implement it.  [utc_day()] is an argument of the operations. *)

From stdpp Require Import base list gmap strings.
From S2P Require Import Prelude PyText Redis.
Local Open Scope Z_scope.

Definition QUOTA_PREFIX : pystr := u "cs:llm:quota:".
Definition CACHE_PREFIX : pystr := u "cs:llm:cache:".
Definition QUOTA_TTL_SECONDS : Z := 60 * 60 * 48.

(** ** Records ([types.py]) *)

Record TokenUsage := {
  prompt_tokens : Z;
  completion_tokens : Z;
  total_tokens : Z;
  cached : bool;
}.

Definition no_usage : TokenUsage :=
  {| prompt_tokens := 0; completion_tokens := 0; total_tokens := 0; cached := false |}.

(** [TokenUsage.normalized]. *)
Definition normalized (t : TokenUsage) : TokenUsage :=
  {| prompt_tokens := prompt_tokens t; completion_tokens := completion_tokens t;
     total_tokens := if (total_tokens t =? 0) then prompt_tokens t + completion_tokens t
                     else total_tokens t;
     cached := cached t |}.

(** The counters of a [QuotaSnapshot]. *)
Record QuotaSnapshot := {
  q_prompt : Z;
  q_completion : Z;
  q_total : Z;
  q_requests : Z;
  q_cache_hits : Z;
}.

#[export] Instance quota_eq_dec : EqDecision QuotaSnapshot.
Proof. solve_decision. Defined.

Definition zero_quota : QuotaSnapshot :=
  {| q_prompt := 0; q_completion := 0; q_total := 0; q_requests := 0; q_cache_hits := 0 |}.

(** One request of normalised usage [t] counted. *)
Definition count_usage (t : TokenUsage) (q : QuotaSnapshot) : QuotaSnapshot :=
  {| q_prompt := q_prompt q + prompt_tokens t; q_completion := q_completion q + completion_tokens t;
     q_total := q_total q + total_tokens t; q_requests := q_requests q + 1;
     q_cache_hits := q_cache_hits q |}.
Definition count_hit (q : QuotaSnapshot) : QuotaSnapshot :=
  {| q_prompt := q_prompt q; q_completion := q_completion q; q_total := q_total q;
     q_requests := q_requests q; q_cache_hits := q_cache_hits q + 1 |}.

(** ** The interface *)

(** [V] is the type of the cached bytes; a call takes the time it runs at. *)
Class GatewayStore (S V : Type) := {
  gs_get_quota : pystr -> pystr -> S -> QuotaSnapshot * S;
  gs_add_usage : pystr -> TokenUsage -> pystr -> S -> QuotaSnapshot * S;
  gs_add_cache_hit : pystr -> pystr -> S -> S;
  gs_get_cache : Z -> pystr -> S -> option V * S;
  gs_set_cache : Z -> pystr -> V -> Z -> S -> S;
}.

(** Days are ISO dates. *)
Definition day_ok (day : pystr) : Prop := (58%N : N) ∉ day.

(** A store holds the counters of each tenant and day, and cached values with an
    expiry; [gs_quota] and [gs_cache] are what it represents. *)
Class GatewayStoreLaws (S V : Type) `{GatewayStore S V} := {
  gs_quota : S -> pystr -> pystr -> QuotaSnapshot;
  gs_cache : S -> Z -> pystr -> option V;
  law_get_quota tenant day s : day_ok day ->
    (gs_get_quota tenant day s).1 = gs_quota s tenant day /\
    (forall t d, day_ok d -> gs_quota (gs_get_quota tenant day s).2 t d = gs_quota s t d) /\
    (forall now k, gs_cache (gs_get_quota tenant day s).2 now k = gs_cache s now k);
  law_add_usage tenant usage day s : day_ok day ->
    (gs_add_usage tenant usage day s).1 = count_usage (normalized usage) (gs_quota s tenant day) /\
    (forall t d, day_ok d -> gs_quota (gs_add_usage tenant usage day s).2 t d =
       if decide (t = tenant /\ d = day) then count_usage (normalized usage) (gs_quota s t d)
       else gs_quota s t d) /\
    (forall now k, gs_cache (gs_add_usage tenant usage day s).2 now k = gs_cache s now k);
  law_add_cache_hit tenant day s : day_ok day ->
    (forall t d, day_ok d -> gs_quota (gs_add_cache_hit tenant day s) t d =
       if decide (t = tenant /\ d = day) then count_hit (gs_quota s t d) else gs_quota s t d) /\
    (forall now k, gs_cache (gs_add_cache_hit tenant day s) now k = gs_cache s now k);
  law_get_cache now k s :
    (gs_get_cache now k s).1 = gs_cache s now k /\
    (forall t d, day_ok d -> gs_quota (gs_get_cache now k s).2 t d = gs_quota s t d) /\
    (forall now' k', now <= now' -> gs_cache (gs_get_cache now k s).2 now' k' = gs_cache s now' k');
  law_set_cache now k v ttl s : 0 <= now ->
    (forall t d, day_ok d -> gs_quota (gs_set_cache now k v ttl s) t d = gs_quota s t d) /\
    (forall now' k', now <= now' -> k' <> k ->
       gs_cache (gs_set_cache now k v ttl s) now' k' = gs_cache s now' k') /\
    (forall now', now <= now' -> 0 < ttl -> now' < now + ttl ->
       gs_cache (gs_set_cache now k v ttl s) now' k = Some v) /\
    (forall now', 0 < ttl -> now <= now' -> now + ttl < now' ->
       gs_cache (gs_set_cache now k v ttl s) now' k = None) /\
    (forall now', now <= now' -> ttl <= 0 -> gs_cache (gs_set_cache now k v ttl s) now' k = Some v);
}.

(** ** The in-process store *)

Module MemoryGateway.
Section memory.
Context {V : Type}.

Record store := {
  m_quota : gmap (pystr * pystr) QuotaSnapshot;
  m_cache : gmap pystr (V * Z);   (* 0 for no expiry *)
}.

Definition _row (tenant day : pystr) (s : store) : QuotaSnapshot * store :=
  match m_quota s !! (tenant, day) with
  | Some row => (row, s)
  | None => (zero_quota, {| m_quota := <[(tenant, day) := zero_quota]> (m_quota s);
                            m_cache := m_cache s |})
  end.

Definition put_row (tenant day : pystr) (row : QuotaSnapshot) (s : store) : store :=
  {| m_quota := <[(tenant, day) := row]> (m_quota s); m_cache := m_cache s |}.

Definition get_quota (tenant day : pystr) (s : store) : QuotaSnapshot * store := _row tenant day s.

Definition add_usage (tenant : pystr) (usage : TokenUsage) (day : pystr) (s : store)
    : QuotaSnapshot * store :=
  let usage := normalized usage in
  let '(row, s) := _row tenant day s in
  let row := count_usage usage row in
  (row, put_row tenant day row s).

Definition add_cache_hit (tenant day : pystr) (s : store) : store :=
  let '(row, s) := _row tenant day s in put_row tenant day (count_hit row) s.

Definition get_cache (now : Z) (key : pystr) (s : store) : option V * store :=
  match m_cache s !! key with
  | None => (None, s)
  | Some (value, expires) =>
    if negb (expires =? 0) && (expires <? now)
    then (None, {| m_quota := m_quota s; m_cache := delete key (m_cache s) |})
    else (Some value, s)
  end.

Definition set_cache (now : Z) (key : pystr) (value : V) (ttl : Z) (s : store) : store :=
  let expires := if 0 <? ttl then now + ttl else 0 in
  {| m_quota := m_quota s; m_cache := <[key := (value, expires)]> (m_cache s) |}.
End memory.
Arguments store : clear implicits.
End MemoryGateway.

(** ** The Redis store *)

Module RedisGateway.
Section redis.
Context {RH RK V : Type} `{!RedisHash RH} `{!RedisKV RK V}.

(** The hashes and the strings of one server. *)
Definition store : Type := RH * RK.

Definition _quota_key (tenant day : pystr) : pystr :=
  QUOTA_PREFIX ++ u "{" ++ tenant ++ u ":" ++ day ++ u "}".
Definition _cache_key (key : pystr) : pystr := CACHE_PREFIX ++ key.

(** The counters decoded from the fields of the hash. *)
Definition snapshot (h : gmap pystr Z) : QuotaSnapshot :=
  {| q_prompt := default 0 (h !! u "prompt_tokens");
     q_completion := default 0 (h !! u "completion_tokens");
     q_total := default 0 (h !! u "total_tokens");
     q_requests := default 0 (h !! u "requests");
     q_cache_hits := default 0 (h !! u "cache_hits") |}.

Definition get_quota (tenant day : pystr) (s : store) : QuotaSnapshot * store :=
  (snapshot (hgetall (_quota_key tenant day) s.1), s).

Definition add_usage (tenant : pystr) (usage : TokenUsage) (day : pystr) (s : store)
    : QuotaSnapshot * store :=
  let usage := normalized usage in
  let key := _quota_key tenant day in
  let h := hincrby key (u "prompt_tokens") (prompt_tokens usage) s.1 in
  let h := hincrby key (u "completion_tokens") (completion_tokens usage) h in
  let h := hincrby key (u "total_tokens") (total_tokens usage) h in
  let h := hincrby key (u "requests") 1 h in
  let h := hexpire key QUOTA_TTL_SECONDS h in
  (snapshot (hgetall key h), (h, s.2)).

Definition add_cache_hit (tenant day : pystr) (s : store) : store :=
  let key := _quota_key tenant day in
  (hexpire key QUOTA_TTL_SECONDS (hincrby key (u "cache_hits") 1 s.1), s.2).

Definition get_cache (now : Z) (key : pystr) (s : store) : option V * store :=
  (kv now (_cache_key key) s.2, s).

Definition set_cache (now : Z) (key : pystr) (value : V) (ttl : Z) (s : store) : store :=
  (s.1, set_ex now (_cache_key key) value (if 0 <? ttl then Some ttl else None) s.2).
End redis.
End RedisGateway.

(** ** Both stores implement the interface *)

#[export] Instance memory_gateway {V} : GatewayStore (MemoryGateway.store V) V := {
  gs_get_quota := MemoryGateway.get_quota;
  gs_add_usage := MemoryGateway.add_usage;
  gs_add_cache_hit := MemoryGateway.add_cache_hit;
  gs_get_cache := MemoryGateway.get_cache;
  gs_set_cache := MemoryGateway.set_cache;
}.

#[export] Instance redis_gateway {RH RK V} `{!RedisHash RH} `{!RedisKV RK V} :
    GatewayStore (RedisGateway.store (RH:=RH) (RK:=RK)) V := {
  gs_get_quota := RedisGateway.get_quota;
  gs_add_usage := RedisGateway.add_usage;
  gs_add_cache_hit := RedisGateway.add_cache_hit;
  gs_get_cache := RedisGateway.get_cache;
  gs_set_cache := RedisGateway.set_cache;
}.

Module MemoryGatewayFacts.
Import MemoryGateway.
Section facts.
Context {V : Type}.

Definition quota (s : store V) (tenant day : pystr) : QuotaSnapshot :=
  default zero_quota (m_quota s !! (tenant, day)).
Definition cache (s : store V) (now : Z) (k : pystr) : option V :=
  match m_cache s !! k with
  | Some (v, expires) => if negb (expires =? 0) && (expires <? now) then None else Some v
  | None => None
  end.

Lemma row_spec (tenant day : pystr) (s : store V) :
  (_row tenant day s).1 = quota s tenant day /\
  m_cache (_row tenant day s).2 = m_cache s /\
  forall t d, quota (_row tenant day s).2 t d = quota s t d.
Proof.
  unfold _row, quota. destruct (m_quota s !! (tenant, day)) eqn:E; cbn; [done|].
  split; [done|]. split; [done|]. intros t d. rewrite lookup_insert.
  case_decide; [|done]. simplify_eq. by rewrite E.
Qed.

Lemma put_row_quota (tenant day : pystr) row (s : store V) t d :
  quota (put_row tenant day row s) t d =
  if decide (t = tenant /\ d = day) then row else quota s t d.
Proof.
  unfold quota, put_row. cbn. rewrite lookup_insert.
  repeat case_decide; naive_solver.
Qed.
End facts.
End MemoryGatewayFacts.

#[export] Instance memory_gateway_laws {V} : GatewayStoreLaws (MemoryGateway.store V) V.
Proof.
  refine (Build_GatewayStoreLaws _ _ _ MemoryGatewayFacts.quota MemoryGatewayFacts.cache _ _ _ _ _).
  - intros tenant day s _. destruct (MemoryGatewayFacts.row_spec tenant day s) as (H1 & H2 & H3).
    cbn. unfold MemoryGateway.get_quota. split; [done|]. split; [auto|].
    intros. unfold MemoryGatewayFacts.cache. by rewrite H2.
  - intros tenant usage day s _.
    destruct (MemoryGatewayFacts.row_spec tenant day s) as (H1 & H2 & H3). cbn.
    unfold MemoryGateway.add_usage. destruct (MemoryGateway._row tenant day s) as [row s'].
    cbn in *. subst row. split; [done|]. split.
    + intros t d _. rewrite MemoryGatewayFacts.put_row_quota, H3.
      case_decide; [|done]. by destruct_and!; subst.
    + intros. unfold MemoryGatewayFacts.cache. cbn. by rewrite H2.
  - intros tenant day s _.
    destruct (MemoryGatewayFacts.row_spec tenant day s) as (H1 & H2 & H3). cbn.
    unfold MemoryGateway.add_cache_hit. destruct (MemoryGateway._row tenant day s) as [row s'].
    cbn in *. subst row. split.
    + intros t d _. rewrite MemoryGatewayFacts.put_row_quota, H3.
      case_decide; [|done]. by destruct_and!; subst.
    + intros. unfold MemoryGatewayFacts.cache. cbn. by rewrite H2.
  - intros now k s. cbn. unfold MemoryGateway.get_cache, MemoryGatewayFacts.cache.
    destruct (MemoryGateway.m_cache s !! k) as [[v e]|] eqn:E; [|done].
    destruct (negb (e =? 0) && (e <? now)) eqn:Ee; [|done]. cbn. split; [done|].
    split; [done|]. intros now' k' Hle. rewrite lookup_delete. case_decide; [|done]. subst.
    rewrite E. bool_to_prop. destruct (Z.eqb_spec e 0); [done|].
    destruct (Z.ltb_spec e now'); [done|lia].
  - intros now k v ttl s Hnow. cbn. unfold MemoryGateway.set_cache, MemoryGatewayFacts.cache. cbn.
    split; [done|]. split; [intros now' k' _ Hk; by rewrite lookup_insert_ne by done|].
    rewrite lookup_insert_eq.
    split; [|split]; intros now' *; destruct (Z.ltb_spec 0 ttl); intros; try lia; try done.
    + destruct (Z.eqb_spec (now + ttl) 0); [done|]. destruct (Z.ltb_spec (now + ttl) now'); [lia|done].
    + destruct (Z.eqb_spec (now + ttl) 0); [lia|]. destruct (Z.ltb_spec (now + ttl) now'); [done|lia].
Defined.

Module RedisGatewayFacts.
Import RedisGateway.

Lemma quota_key_inj (t d t' d' : pystr) :
  day_ok d -> day_ok d' -> _quota_key t d = _quota_key t' d' -> t = t' /\ d = d'.
Proof.
  unfold _quota_key, day_ok. intros Hd Hd' H. do 2 apply app_inv_head in H.
  rewrite !app_assoc in H. apply app_inv_tail in H. rewrite <-!app_assoc in H.
  apply (f_equal reverse) in H. rewrite !reverse_app, <-!app_assoc in H.
  change (reverse (u ":")) with [58%N] in H.
  apply app_sep_inj in H as [H1 H2]; [|by rewrite elem_of_reverse..].
  apply (f_equal reverse) in H1, H2. by rewrite !reverse_involutive in *.
Qed.

Section facts.
Context {RH RK V : Type} `{!RedisHash RH} `{!RedisHashLaws RH} `{!RedisKV RK V} `{!RedisKVLaws RK V}.

Definition quota (s : store (RH:=RH) (RK:=RK)) (tenant day : pystr) : QuotaSnapshot :=
  snapshot (hgetall (_quota_key tenant day) s.1).
Definition cache (s : store (RH:=RH) (RK:=RK)) (now : Z) (k : pystr) : option V :=
  kv now (_cache_key k) s.2.

Lemma quota_key_dec (t d t' d' : pystr) : day_ok d -> day_ok d' ->
  _quota_key t d = _quota_key t' d' <-> t = t' /\ d = d'.
Proof. intros Hd Hd'. split; [by apply quota_key_inj|by intros [-> ->]]. Qed.

(** The four increments of [add_usage], on the hash read back. *)
Lemma hgetall_add_usage (tenant day : pystr) (usage : TokenUsage) (s : store (RH:=RH) (RK:=RK)) (k : pystr) :
  snapshot (hgetall k (add_usage tenant usage day s).2.1) =
  if decide (k = _quota_key tenant day)
  then count_usage (normalized usage) (snapshot (hgetall k s.1))
  else snapshot (hgetall k s.1).
Proof.
  unfold add_usage. cbn [fst snd]. rewrite hgetall_hexpire by done.
  rewrite !hgetall_hincrby. case_decide as Hk; [|done].
  rewrite !decide_True by done. subst k. set (h := hgetall _ s.1).
  unfold snapshot, count_usage. cbn [q_prompt q_completion q_total q_requests q_cache_hits].
  rewrite !lookup_insert. lit_decide. cbn [default from_option]. reflexivity.
Qed.

Lemma hgetall_add_hit (tenant day : pystr) (s : store (RH:=RH) (RK:=RK)) (k : pystr) :
  snapshot (hgetall k (add_cache_hit tenant day s).1) =
  if decide (k = _quota_key tenant day) then count_hit (snapshot (hgetall k s.1))
  else snapshot (hgetall k s.1).
Proof.
  unfold add_cache_hit. cbn [fst snd]. rewrite hgetall_hexpire by done.
  rewrite hgetall_hincrby. case_decide as Hk; [|done]. subst k. set (h := hgetall _ s.1).
  unfold snapshot, count_hit. cbn [q_prompt q_completion q_total q_requests q_cache_hits].
  rewrite !lookup_insert. lit_decide. cbn [default from_option]. reflexivity.
Qed.
End facts.
End RedisGatewayFacts.

#[export] Instance redis_gateway_laws {RH RK V} `{!RedisHash RH} `{!RedisHashLaws RH}
    `{!RedisKV RK V} `{!RedisKVLaws RK V} :
  GatewayStoreLaws (RedisGateway.store (RH:=RH) (RK:=RK)) V.
Proof.
  refine (Build_GatewayStoreLaws _ _ _ RedisGatewayFacts.quota RedisGatewayFacts.cache _ _ _ _ _).
  - done.
  - intros tenant usage day s Hday.
    change (gs_add_usage tenant usage day s) with (RedisGateway.add_usage tenant usage day s).
    split; [|split; [|done]].
    + pose proof (RedisGatewayFacts.hgetall_add_usage tenant day usage s
                    (RedisGateway._quota_key tenant day)) as H.
      by rewrite decide_True in H.
    + intros t d Hd. unfold RedisGatewayFacts.quota. rewrite RedisGatewayFacts.hgetall_add_usage.
      apply decide_ext. by apply RedisGatewayFacts.quota_key_dec.
  - intros tenant day s Hday.
    change (gs_add_cache_hit tenant day s) with (RedisGateway.add_cache_hit tenant day s).
    split; [|done]. intros t d Hd.
    unfold RedisGatewayFacts.quota. rewrite RedisGatewayFacts.hgetall_add_hit.
    apply decide_ext. by apply RedisGatewayFacts.quota_key_dec.
  - done.
  - intros now k v ttl s Hnow. cbn. unfold RedisGateway.set_cache, RedisGatewayFacts.cache.
    cbn [fst snd]. assert (Hinj : forall k', RedisGateway._cache_key k' = RedisGateway._cache_key k -> k' = k)
      by (intros k' H; by apply app_inv_head in H).
    split; [done|]. split.
    { intros now' k' Hle Hk. rewrite kv_set_ex by done. rewrite decide_False; [done|]. auto. }
    split; [|split]; intros now' *; intros; rewrite kv_set_ex by lia; rewrite decide_True by done;
      destruct (Z.ltb_spec 0 ttl); try lia; cbn [fmap option_fmap option_map unexpired]; try done.
    + by rewrite (proj2 (Z.ltb_lt now' (now + ttl))).
    + by rewrite (proj2 (Z.ltb_ge now' (now + ttl))) by lia.
Defined.

(** ** Accounting over a run *)

Inductive quota_op (V : Type) : Type :=
| OpGet (tenant day : pystr)
| OpUsage (tenant : pystr) (usage : TokenUsage) (day : pystr)
| OpHit (tenant day : pystr)
| OpGetCache (now : Z) (key : pystr)
| OpSetCache (now : Z) (key : pystr) (value : V) (ttl : Z).
Arguments OpGet {V}.
Arguments OpUsage {V}.
Arguments OpHit {V}.
Arguments OpGetCache {V}.
Arguments OpSetCache {V}.

Definition op_ok {V} (op : quota_op V) : Prop :=
  match op with
  | OpGet _ day | OpUsage _ _ day | OpHit _ day => day_ok day
  | OpGetCache _ _ => True
  | OpSetCache now _ _ _ => 0 <= now
  end.

Definition do_op {S V} `{GatewayStore S V} (op : quota_op V) (s : S) : option QuotaSnapshot * S :=
  match op with
  | OpGet tenant day => let '(q, s) := gs_get_quota tenant day s in (Some q, s)
  | OpUsage tenant usage day => let '(q, s) := gs_add_usage tenant usage day s in (Some q, s)
  | OpHit tenant day => (None, gs_add_cache_hit tenant day s)
  | OpGetCache now key => (None, (gs_get_cache now key s).2)
  | OpSetCache now key value ttl => (None, gs_set_cache now key value ttl s)
  end.

Fixpoint do_ops {S V} `{GatewayStore S V} (ops : list (quota_op V)) (s : S)
    : list (option QuotaSnapshot) * S :=
  match ops with
  | [] => ([], s)
  | op :: ops => let '(o, s) := do_op op s in let '(os, s) := do_ops ops s in (o :: os, s)
  end.

(** The bookkeeping, without a store: the counters of one tenant and day. *)
Definition account {V} (t d : pystr) (op : quota_op V) (q : QuotaSnapshot) : QuotaSnapshot :=
  match op with
  | OpUsage tenant usage day =>
    if decide (t = tenant /\ d = day) then count_usage (normalized usage) q else q
  | OpHit tenant day => if decide (t = tenant /\ d = day) then count_hit q else q
  | _ => q
  end.

(** What each operation of a run reports. *)
Fixpoint reports {V} (ops : list (quota_op V)) (q : pystr -> pystr -> QuotaSnapshot)
    : list (option QuotaSnapshot) :=
  match ops with
  | [] => []
  | op :: ops =>
    let q' t d := account t d op (q t d) in
    match op with
    | OpGet tenant day | OpUsage tenant _ day => Some (q' tenant day)
    | _ => None
    end :: reports ops q'
  end.

Section accounting.
Context {S V : Type} `{!GatewayStore S V} `{!GatewayStoreLaws S V}.

Lemma do_op_spec (op : quota_op V) (s : S) : op_ok op ->
  (do_op op s).1 = head (reports [op] (gs_quota s)) ≫= id /\
  forall t d, day_ok d -> gs_quota (do_op op s).2 t d = account t d op (gs_quota s t d).
Proof.
  intros Hop. destruct op as [t0 d0|t0 u0 d0|t0 d0|now k|now k v ttl]; cbn in Hop |- *.
  - destruct (law_get_quota t0 d0 s Hop) as (H1 & H2 & _).
    destruct (gs_get_quota t0 d0 s). cbn in *. by rewrite H1.
  - destruct (law_add_usage t0 u0 d0 s Hop) as (H1 & H2 & _).
    destruct (gs_add_usage t0 u0 d0 s). cbn in *. rewrite H1, decide_True by done. done.
  - destruct (law_add_cache_hit t0 d0 s Hop) as (H1 & _). done.
  - destruct (law_get_cache now k s) as (_ & H2 & _). done.
  - destruct (law_set_cache now k v ttl s Hop) as (H1 & _). done.
Qed.

Lemma reports_ext (ops : list (quota_op V)) q q' :
  Forall op_ok ops -> (forall t d, day_ok d -> q t d = q' t d) -> reports ops q = reports ops q'.
Proof.
  intros Hops. revert q q'. induction Hops as [|op ops Hop _ IH]; intros q q' Hq; [done|].
  cbn. f_equal; [destruct op; try done; by rewrite Hq|].
  apply IH. intros t d Hd. by rewrite Hq.
Qed.
End accounting.


(** The two stores are interchangeable: started with the same counters, in process
    and in Redis, they report the same totals to every call of any sequence. *)
Theorem memory_redis_quota_agree {RH RK V : Type} `{!RedisHash RH} `{!RedisHashLaws RH}
    `{!RedisKV RK V} `{!RedisKVLaws RK V} (ops : list (quota_op V))
    (m : MemoryGateway.store V) (r : RedisGateway.store (RH:=RH) (RK:=RK)) :
  Forall op_ok ops ->
  (forall t d, day_ok d -> MemoryGatewayFacts.quota m t d = RedisGatewayFacts.quota r t d) ->
  (do_ops ops m).1 = (do_ops ops r).1.
Proof.
  intros Hops Hq.
  assert (H : forall S (HS : GatewayStore S V) (HL : GatewayStoreLaws S V) (s : S),
             (do_ops ops s).1 = reports ops (gs_quota s)).
  { clear m r Hq. intros S HS HL. induction Hops as [|op ops Hop Hops IH]; intros s; [done|].
    destruct (do_op_spec op s Hop) as [Ho Hq]. cbn [do_ops].
    destruct (do_op op s) as [o s1]. specialize (IH s1).
    destruct (do_ops ops s1) as [os s2]. cbn [fst snd] in *. cbn [reports]. f_equal.
    - rewrite Ho. by destruct op.
    - rewrite IH. by apply reports_ext. }
  rewrite (H _ _ memory_gateway_laws m), (H _ _ redis_gateway_laws r).
  by apply reports_ext.
Qed.

Definition demo_usage : TokenUsage :=
  {| prompt_tokens := 10; completion_tokens := 5; total_tokens := 0; cached := false |}.
Definition demo_ops : list (quota_op pystr) :=
  [OpUsage (u "demo") demo_usage (u "2025-11-14"); OpHit (u "demo") (u "2025-11-14");
   OpUsage (u "acme") demo_usage (u "2025-11-14"); OpGet (u "demo") (u "2025-11-14")].

Lemma demo_ops_ok : Forall op_ok demo_ops.
Proof. repeat constructor; unfold op_ok, day_ok; apply (bool_decide_unpack _); vm_compute; exact I. Qed.


Lemma memory_redis_quota_agree_witness :
  (do_ops demo_ops {| MemoryGateway.m_quota := ∅; MemoryGateway.m_cache := ∅ |}).1 =
  (do_ops demo_ops ((∅, ∅) : RedisGateway.store (RH:=Server.hstate) (RK:=Server.kvstate pystr))).1.
Proof.
  apply (memory_redis_quota_agree demo_ops {| MemoryGateway.m_quota := ∅; MemoryGateway.m_cache := ∅ |}
    ((∅, ∅) : RedisGateway.store (RH:=Server.hstate) (RK:=Server.kvstate pystr)) demo_ops_ok).
  intros t d _. reflexivity.
Defined.
