(* ===== verification/Gateway.v ===== *)
(** * The LLM gateway ([app/llm_gateway/gateway.py])

    Every model call goes through here: daily quota, response cache, circuit
    breaker, retries, and accounting.  The model behind it is a parameter: the
    outcome of the n-th call made to it.  So are the cache codec (msgpack and
    pydantic), the fingerprint hash and the tokenizer.  The store is any
    [GatewayStore]. *)

From stdpp Require Import base list gmap strings.
From Stdlib Require Import Floats.SpecFloat.
From S2P Require Import Prelude PyText Errors PyFloat PyRe OrderNo Circuit Redis QuotaStore Window.
Local Open Scope Z_scope.
Local Open Scope py_scope.

(** ** Policies and results *)

Record CallPolicy := {
  usage_tag : pystr;
  cache_enabled : bool;
  enforce_quota : bool;
  schema_name : pystr;
  temperature : pyfloat;
  model : pystr;
}.

(** What the gateway reads of a message, chunk or structured result: the two places
    that may hold token counts (empty when absent), and its text. *)
Record llm_result := {
  usage_metadata : gmap pystr Z;
  token_usage : gmap pystr Z;      (* response_metadata["token_usage"] or ["usage"] *)
  result_text : pystr;
}.

Record TurnUsageStep := {
  ts_tag : pystr;
  ts_prompt : Z;
  ts_completion : Z;
  ts_total : Z;
  ts_cached : bool;
}.

Record TurnUsage := {
  tu_prompt : Z;
  tu_completion : Z;
  tu_total : Z;
  tu_steps : list TurnUsageStep;
}.

(** [a or b] on optional counts, then [int(... or 0)]. *)
Definition or_count (a b : option Z) : Z :=
  let x := default 0 a in if x =? 0 then default 0 b else x.

(** The three counts of a metadata dictionary, under its two spellings. *)
Definition usage_from_dict (meta : gmap pystr Z) (prompt_keys completion_keys : pystr * pystr)
    : TokenUsage :=
  let prompt := or_count (meta !! prompt_keys.1) (meta !! prompt_keys.2) in
  let completion := or_count (meta !! completion_keys.1) (meta !! completion_keys.2) in
  {| prompt_tokens := prompt; completion_tokens := completion;
     total_tokens := or_count (meta !! u "total_tokens") (Some (prompt + completion));
     cached := false |}.

Definition _usage_from_message (message : option llm_result) : TokenUsage :=
  match message with
  | None => no_usage
  | Some m =>
    if negb (bool_decide (usage_metadata m = ∅)) then
      usage_from_dict (usage_metadata m) (u "input_tokens", u "prompt_tokens")
        (u "output_tokens", u "completion_tokens")
    else if negb (bool_decide (token_usage m = ∅)) then
      usage_from_dict (token_usage m) (u "prompt_tokens", u "input_tokens")
        (u "completion_tokens", u "output_tokens")
    else no_usage
  end.

Definition _is_transient (exc : exn) : bool :=
  is_os_error exc || contains (u "timeout") (lower (exn_name exc))
  || contains (u "timeout") (lower (exn_message exc))
  || contains (u "connection") (lower (exn_name exc)).

(** ** The gateway's state *)

Section gateway.
Context {S V : Type} `{!GatewayStore S V}.

Record gateway := {
  gw_store : S;
  gw_circuit : circuit;
  (** [_TURN_USAGE]. *)
  gw_turn : option (list TurnUsageStep);
  (** Calls made to the model so far. *)
  gw_calls : nat;
  (** Labels passed to [inc_llm_error]. *)
  gw_errors : list pystr;
  (** Chunks yielded by the current stream. *)
  gw_out : list llm_result;
}.

Definition with_store (s : S) (g : gateway) : gateway :=
  {| gw_store := s; gw_circuit := gw_circuit g; gw_turn := gw_turn g; gw_calls := gw_calls g;
     gw_errors := gw_errors g; gw_out := gw_out g |}.
Definition with_circuit (c : circuit) (g : gateway) : gateway :=
  {| gw_store := gw_store g; gw_circuit := c; gw_turn := gw_turn g; gw_calls := gw_calls g;
     gw_errors := gw_errors g; gw_out := gw_out g |}.
Definition with_turn (t : option (list TurnUsageStep)) (g : gateway) : gateway :=
  {| gw_store := gw_store g; gw_circuit := gw_circuit g; gw_turn := t; gw_calls := gw_calls g;
     gw_errors := gw_errors g; gw_out := gw_out g |}.
Definition count_call (g : gateway) : gateway :=
  {| gw_store := gw_store g; gw_circuit := gw_circuit g; gw_turn := gw_turn g;
     gw_calls := Datatypes.S (gw_calls g); gw_errors := gw_errors g; gw_out := gw_out g |}.
Definition inc_llm_error (name : pystr) (g : gateway) : gateway :=
  {| gw_store := gw_store g; gw_circuit := gw_circuit g; gw_turn := gw_turn g;
     gw_calls := gw_calls g; gw_errors := gw_errors g ++ [name]; gw_out := gw_out g |}.
Definition yield_chunk (c : llm_result) (g : gateway) : gateway :=
  {| gw_store := gw_store g; gw_circuit := gw_circuit g; gw_turn := gw_turn g;
     gw_calls := gw_calls g; gw_errors := gw_errors g; gw_out := gw_out g ++ [c] |}.

(** [begin_turn_usage] and [take_turn_usage]. *)
Definition begin_turn_usage : ST gateway exn unit := st_modify (with_turn (Some [])).

Definition sum_by (f : TurnUsageStep -> Z) (l : list TurnUsageStep) : Z :=
  foldr (fun s n => f s + n) 0 l.

Definition take_turn_usage : ST gateway exn TurnUsage :=
  let! g := st_get in
  let steps := default [] (gw_turn g) in
  do! st_modify (with_turn None) in
  st_ret {| tu_prompt := sum_by ts_prompt steps; tu_completion := sum_by ts_completion steps;
            tu_total := sum_by ts_total steps; tu_steps := steps |}.

Definition _record_turn_step (policy : CallPolicy) (t : TokenUsage) (is_cached : bool) (g : gateway)
    : gateway :=
  match gw_turn g with
  | None => g
  | Some steps =>
    with_turn (Some (steps ++ [{| ts_tag := usage_tag policy; ts_prompt := prompt_tokens t;
                                  ts_completion := completion_tokens t;
                                  ts_total := total_tokens t; ts_cached := is_cached |}])) g
  end.

(** A breaker operation, inside the gateway's state. *)
Definition on_circuit {A} (m : ST circuit exn A) : ST gateway exn A := fun g =>
  let (r, c) := m (gw_circuit g) in (r, with_circuit c g).
(** A store operation. *)
Definition on_store {A} (f : S -> A * S) : ST gateway exn A := fun g =>
  let (a, s) := f (gw_store g) in (Ok a, with_store s g).
(** A computation that may raise and touches nothing. *)
Definition lift {A} (r : res exn A) : ST gateway exn A := fun g => (r, g).

(** ** Settings and the outside world *)

Record gateway_settings := {
  llm_max_retries : Z;
  llm_cache_enabled : bool;
  llm_cache_max_chars : nat;
  llm_cache_ttl_seconds : Z;
  llm_daily_token_limit : Z;
  llm_circuit_threshold : Z;
  llm_circuit_cooldown : Z;
}.

(** The readings of the clocks during one call. *)
Record clock := {
  at_cache_read : Z;
  at_guard : Z;
  at_failure : Z;
  at_cache_write : Z;
}.

Context (settings : gateway_settings).
Context (tk : tokenizer).
(** The model: the outcome of its n-th call, and the chunks of its n-th stream with
    the exception that ends it, if one does. *)
Context (upstream : nat -> res exn llm_result).
Context (upstream_stream : nat -> list llm_result * option exn).
(** [encode_llm_cache], [decode_llm_cache], the truth value of the stored bytes, and
    the hash of the fingerprint's blob. *)
Context (encode : llm_result -> option V) (decode : V -> option llm_result) (nonempty : V -> bool).
Context (fingerprint : pystr -> CallPolicy -> pystr).

Section call.
Context (policy : CallPolicy) (tenant day : pystr) (clk : clock).

Definition _estimate_usage (payload : pystr) (result : option llm_result) : res exn TokenUsage :=
  let? prompt := count_tokens tk payload in
  let? completion := count_tokens tk (match result with Some r => result_text r | None => u "None" end) in
  Ok {| prompt_tokens := prompt; completion_tokens := completion;
        total_tokens := prompt + completion; cached := false |}.

Definition _assert_quota : ST gateway exn unit :=
  if negb (enforce_quota policy) then st_ret tt
  else
    let limit := llm_daily_token_limit settings in
    if limit <=? 0 then st_ret tt
    else
      let! snapshot := on_store (gs_get_quota tenant day) in
      if limit <=? q_total snapshot
      then st_raise (TenantQuotaExceededError tenant (q_total snapshot) limit)
      else st_ret tt.

Definition _commit (t : TokenUsage) : ST gateway exn QuotaSnapshot :=
  let! snapshot := on_store (gs_add_usage tenant t day) in
  do! st_modify (_record_turn_step policy t false) in
  st_ret snapshot.

(** The loop of [_retry_call], with the attempts left. *)
Fixpoint retry (remaining : nat) : ST gateway exn llm_result :=
  match remaining with
  | O => st_raise (OtherExc (u "AssertionError") [])
  | Datatypes.S remaining =>
    let! g := st_get in
    do! st_modify count_call in
    st_except (lift (upstream (gw_calls g)))
      (fun exc =>
         match exc with
         | TenantQuotaExceededError _ _ _ => None
         | _ =>
           if negb (is_Exception exc) then None
           else if (0 <? Z.of_nat remaining) && _is_transient exc then Some (retry remaining)
           else Some (do! st_modify (inc_llm_error (exn_name exc)) in st_raise exc)
         end)
  end.

Definition _retry_call (max_retries : Z) : ST gateway exn llm_result :=
  retry (Z.to_nat (Z.max 1 (max_retries + 1))).

Definition guard : ST gateway exn unit :=
  on_circuit (guard_llm_circuit (llm_circuit_threshold settings) (llm_circuit_cooldown settings)
                (at_guard clk)).
Definition record_failure : ST gateway exn unit :=
  on_circuit (record_llm_failure (llm_circuit_threshold settings) (at_failure clk)).
Definition record_success : ST gateway exn unit := on_circuit record_llm_success.

Definition _call_with_circuit (fn : ST gateway exn llm_result) : ST gateway exn llm_result :=
  do! guard in
  let! result :=
    st_except fn
      (fun exc =>
         match exc with
         | TenantQuotaExceededError _ _ _ => None
         | LlmCircuitOpenError _ _ =>
           Some (do! st_modify (inc_llm_error (u "LlmCircuitOpenError")) in st_raise exc)
         | _ => if is_Exception exc then Some (do! record_failure in st_raise exc) else None
         end) in
  do! record_success in
  st_ret result.

Definition _read_llm_cache (cache_key : pystr) : ST gateway exn (option llm_result) :=
  let! cached := on_store (gs_get_cache (at_cache_read clk) cache_key) in
  st_ret (match cached with Some v => if nonempty v then decode v else None | None => None end).

Definition _write_llm_cache (cache_key : pystr) (result : llm_result) (ttl : Z) : ST gateway exn unit :=
  match encode result with
  | None => st_ret tt
  | Some blob => on_store (fun s => (tt, gs_set_cache (at_cache_write clk) cache_key blob ttl s))
  end.

Definition cache_key (payload : pystr) : pystr := tenant ++ u ":" ++ fingerprint payload policy.

Definition cache_on : bool := cache_enabled policy && llm_cache_enabled settings.

Definition _gated (payload : pystr) : ST gateway exn llm_result :=
  do! _assert_quota in
  let! hit := if cache_on then _read_llm_cache (cache_key payload) else st_ret None in
  match hit with
  | Some cached_result =>
    do! on_store (fun s => (tt, gs_add_cache_hit tenant day s)) in
    do! st_modify (_record_turn_step policy no_usage true) in
    st_ret cached_result
  | None =>
    let! result := _call_with_circuit (_retry_call (llm_max_retries settings)) in
    let t := _usage_from_message (Some result) in
    let! t := if total_tokens t =? 0 then lift (_estimate_usage payload (Some result)) else st_ret t in
    do! _commit (normalized t) in
    do! if cache_on && (length (result_text result) <=? llm_cache_max_chars settings)%nat
        then _write_llm_cache (cache_key payload) result (llm_cache_ttl_seconds settings)
        else st_ret tt in
    st_ret result
  end.

(** [_agated]: the same code with [await] on the model. *)
Definition _agated : pystr -> ST gateway exn llm_result := _gated.

(** ** Streams *)

(** The chunks up to where the consumer stops: to the end, or [closes_after + 1] of
    them; closing the generator raises [GeneratorExit] at the [yield] it is parked
    on. *)
Fixpoint stream_loop (chunks : list llm_result) (ends : option exn) (closes_after : option nat)
    (last : option llm_result) (best : TokenUsage)
    : ST gateway exn (option llm_result * TokenUsage) :=
  match chunks with
  | [] => match ends with Some e => st_raise e | None => st_ret (last, best) end
  | chunk :: chunks =>
    let chunk_usage := _usage_from_message (Some chunk) in
    let best := if total_tokens chunk_usage =? 0 then best else chunk_usage in
    do! st_modify (yield_chunk chunk) in
    match closes_after with
    | Some O => st_raise GeneratorExit
    | Some (Datatypes.S n) => stream_loop chunks ends (Some n) (Some chunk) best
    | None => stream_loop chunks ends None (Some chunk) best
    end
  end.

(** [stream] and [astream], for a consumer that reads to the end or closes early. *)
Definition stream (payload : pystr) (closes_after : option nat) : ST gateway exn unit :=
  do! _assert_quota in
  let! lb :=
    st_except
      (do! guard in
       let! g := st_get in
       do! st_modify count_call in
       let '(chunks, ends) := upstream_stream (gw_calls g) in
       stream_loop chunks ends closes_after None no_usage)
      (fun exc =>
         match exc with
         | TenantQuotaExceededError _ _ _ => None
         | LlmCircuitOpenError _ _ =>
           Some (do! st_modify (inc_llm_error (u "LlmCircuitOpenError")) in st_raise exc)
         | _ => if is_Exception exc
                then Some (do! record_failure in
                           do! st_modify (inc_llm_error (exn_name exc)) in st_raise exc)
                else None
         end) in
  do! record_success in
  let '(last, best) := lb in
  let t := if total_tokens best =? 0 then _usage_from_message last else best in
  let! t := if total_tokens t =? 0 then lift (_estimate_usage payload last) else st_ret t in
  do! _commit (normalized t) in
  st_ret tt.

Definition astream : pystr -> option nat -> ST gateway exn unit := stream.
End call.
End gateway.
Arguments gateway : clear implicits.

(** ** What a call changes *)

Lemma normalized_idemp t : normalized (normalized t) = normalized t.
Proof.
  unfold normalized. cbn. f_equal. destruct (Z.eqb_spec (total_tokens t) 0); [|].
  - by case_match.
  - by rewrite (proj2 (Z.eqb_neq _ _)).
Qed.

Section facts.
Context {S V : Type} `{!GatewayStore S V} `{!GatewayStoreLaws S V}.
Context (settings : gateway_settings) (tk : tokenizer).
Context (upstream : nat -> res exn llm_result).
Context (upstream_stream : nat -> list llm_result * option exn).
Context (encode : llm_result -> option V) (decode : V -> option llm_result) (nonempty : V -> bool).
Context (fingerprint : pystr -> CallPolicy -> pystr).

(** Same accounts: every counter, and the turn's record. *)
Definition same_accounts (g g' : gateway S) : Prop :=
  (forall t d, day_ok d -> gs_quota (gw_store g') t d = gs_quota (gw_store g) t d) /\
  gw_turn g' = gw_turn g.

#[export] Instance same_accounts_preorder : PreOrder same_accounts.
Proof.
  split; [done|]. intros a b c [H1 H2] [H3 H4]. split; [|congruence].
  intros t d Hd. by rewrite H3, H1.
Qed.

Section call.
Context (policy : CallPolicy) (tenant day : pystr) (clk : clock).
Hypothesis day_is_date : day_ok day.

Lemma assert_quota_frame g r g' :
  _assert_quota settings policy tenant day g = (r, g') ->
  same_accounts g g' /\ gw_calls g' = gw_calls g /\ gw_circuit g' = gw_circuit g /\ gw_out g' = gw_out g /\
  r = if enforce_quota policy && (0 <? llm_daily_token_limit settings)
         && (llm_daily_token_limit settings <=? q_total (gs_quota (gw_store g) tenant day))
      then Raise (TenantQuotaExceededError tenant (q_total (gs_quota (gw_store g) tenant day))
                    (llm_daily_token_limit settings))
      else Ok tt.
Proof using day_is_date.
  unfold _assert_quota. destruct (enforce_quota policy); cbn [negb andb];
    [|intros [= <- <-]; by repeat split].
  destruct (Z.leb_spec (llm_daily_token_limit settings) 0);
    destruct (Z.ltb_spec 0 (llm_daily_token_limit settings)); try lia; cbn [andb];
    [intros [= <- <-]; by repeat split|].
  unfold st_bind, on_store. destruct (law_get_quota tenant day (gw_store g) day_is_date) as (Hq & Hs & _).
  destruct (gs_get_quota tenant day (gw_store g)) as [q s]. cbn in Hq, Hs. subst q.
  destruct (_ <=? _); intros [= <- <-]; by repeat split.
Qed.

Lemma read_cache_frame k g r g' :
  _read_llm_cache decode nonempty clk k g = (r, g') ->
  same_accounts g g' /\ gw_calls g' = gw_calls g /\ gw_circuit g' = gw_circuit g.
Proof using Type.
  unfold _read_llm_cache, st_bind, on_store.
  destruct (law_get_cache (at_cache_read clk) k (gw_store g)) as (_ & Hs & _).
  destruct (gs_get_cache _ k (gw_store g)) as [q s]. intros [= <- <-]. cbn in Hs. by repeat split.
Qed.

Lemma write_cache_frame k x ttl g r g' : 0 <= at_cache_write clk ->
  _write_llm_cache encode clk k x ttl g = (r, g') ->
  r = Ok tt /\ same_accounts g g' /\ gw_calls g' = gw_calls g /\ gw_circuit g' = gw_circuit g.
Proof using Type.
  intros Hclk. unfold _write_llm_cache. destruct (encode x) as [blob|];
    [|intros [= <- <-]; by repeat split].
  unfold on_store. intros [= <- <-]. cbn.
  destruct (law_set_cache (at_cache_write clk) k blob ttl (gw_store g) Hclk) as (Hs & _).
  by repeat split.
Qed.

(** The attempts from call [a] to call [b]: all but the last failed transiently. *)
Definition attempts (a b : nat) (r : res exn llm_result) : Prop :=
  (a < b)%nat /\ upstream (b - 1) = r /\
  forall k, (a <= k < b - 1)%nat ->
    exists e, upstream k = Raise e /\ is_Exception e = true /\ _is_transient e = true /\
              is_quota e = false.

Lemma attempts_one (g : gateway S) r :
  upstream (gw_calls g) = r -> attempts (gw_calls g) (gw_calls (count_call g)) r.
Proof using Type.
  intros Hr. cbn. split; [lia|].
  replace (Datatypes.S (gw_calls g) - 1)%nat with (gw_calls g) by lia. split; [done|].
  intros k Hk. lia.
Qed.

Lemma raise_with_error {A} name e (g : gateway S) (r : res exn A) g' :
  (do! st_modify (inc_llm_error name) in st_raise e) g = (r, g') ->
  r = Raise e /\ g' = inc_llm_error name g.
Proof using Type. intros [= <- <-]. done. Qed.

Lemma retry_effect n (g : gateway S) r (g' : gateway S) :
  retry upstream (Datatypes.S n) g = (r, g') ->
  gw_store g' = gw_store g /\ gw_turn g' = gw_turn g /\ gw_circuit g' = gw_circuit g /\
  attempts (gw_calls g) (gw_calls g') r /\ (gw_calls g' <= gw_calls g + Datatypes.S n)%nat /\
  (forall e, r = Raise e -> is_Exception e = true -> _is_transient e = true ->
     is_quota e = false -> gw_calls g' = (gw_calls g + Datatypes.S n)%nat).
Proof using Type.
  revert g. induction n as [|n IH]; intros g H;
    cbn [retry] in H; apply st_bind_inv in H as [(? & ? & [= <- <-] & H)|(? & [=] & _)];
    apply st_bind_inv in H as [([] & g1 & [= <-] & H)|(? & [=] & _)];
    apply st_except_inv in H as [(a & [= Hup <-] & ->)|(e & g2 & [= Hup <-] & H)].
  1,3: cbn; repeat (split; [done|]); split; [|split; [lia|done]]; by apply attempts_one.
  1,2: rewrite quota_case in H; destruct (is_quota e) eqn:Eq;
    [destruct H as [-> ->]; cbn; repeat (split; [done|]); split; [by apply attempts_one|];
     split; [lia|intros ? [= <-]; congruence]|];
    destruct (is_Exception e) eqn:Ee; cbn [negb] in H;
    [|destruct H as [-> ->]; cbn; repeat (split; [done|]); split; [by apply attempts_one|];
      split; [lia|intros ? [= <-]; congruence]].
  - change (0 <? Z.of_nat 0) with false in H. cbn [andb] in H. apply raise_with_error in H as [-> ->].
    cbn. repeat (split; [done|]). split; [by apply attempts_one|]. split; [lia|intros; lia].
  - rewrite (proj2 (Z.ltb_lt 0 (Z.of_nat (Datatypes.S n)))) in H by lia. cbn [andb] in H.
    destruct (_is_transient e) eqn:Et; cbv iota in H.
    + apply IH in H as (H1 & H2 & H3 & (H4 & H5 & H6) & H7 & H8). cbn in *.
      repeat (split; [done|]). split; [|split; [lia|]].
      * split; [lia|]. split; [done|]. intros k Hk.
        destruct (decide (k = gw_calls g)) as [->|]; [eauto|]. apply H6. lia.
      * intros e' He' Hx Ht Hq. rewrite (H8 e' He' Hx Ht Hq). lia.
    + apply raise_with_error in H as [-> ->].
      cbn. repeat (split; [done|]). split; [by apply attempts_one|].
      split; [lia|]. intros ? [= <-]. congruence.
Qed.

(** The breaker after a call the guard let through. *)
Definition breaker_after {A} (r : res exn A) (c : circuit) : circuit :=
  match r with
  | Ok _ => (record_llm_success c).2
  | Raise e =>
    if is_quota e || is_circuit_open e || negb (is_Exception e) then c
    else (record_llm_failure (llm_circuit_threshold settings) (at_failure clk) c).2
  end.

Lemma record_failure_ok (g : gateway S) :
  record_failure settings clk g =
  (Ok tt, with_circuit (record_llm_failure (llm_circuit_threshold settings) (at_failure clk)
                          (gw_circuit g)).2 g).
Proof using Type.
  unfold record_failure, on_circuit.
  assert (H : forall th now c, (record_llm_failure th now c).1 = Ok tt).
  { intros th now c. unfold record_llm_failure, st_bind, st_get, st_modify, st_ret.
    by repeat case_match. }
  pose proof (H (llm_circuit_threshold settings) (at_failure clk) (gw_circuit g)) as Hok.
  by destruct (record_llm_failure _ _ _) as [[[]|] ?].
Qed.

(** What the [except] clauses of the breaker do with the outcome of [fn]. *)
Lemma circuit_except_effect (fn : ST (gateway S) exn llm_result) g r g' :
  st_except fn
    (fun exc =>
       match exc with
       | TenantQuotaExceededError _ _ _ => None
       | LlmCircuitOpenError _ _ =>
         Some (do! st_modify (inc_llm_error (u "LlmCircuitOpenError")) in st_raise exc)
       | _ => if is_Exception exc then Some (do! record_failure settings clk in st_raise exc) else None
       end) g = (r, g') ->
  exists g1, fn g = (r, g1) /\ gw_store g' = gw_store g1 /\ gw_turn g' = gw_turn g1 /\
    gw_calls g' = gw_calls g1 /\
    gw_circuit g' = match r with Ok _ => gw_circuit g1 | Raise _ => breaker_after r (gw_circuit g1) end.
Proof using Type.
  intros H. apply st_except_inv in H as [(a & H & ->)|(e & g1 & H & Hh)]; [by exists g'|].
  rewrite circuit_case in Hh. exists g1.
  destruct (is_quota e) eqn:Eq; [destruct Hh as [-> ->]; cbn; by rewrite Eq|].
  destruct (is_circuit_open e) eqn:Eo;
    [apply raise_with_error in Hh as [-> ->]; cbn; by rewrite Eq, Eo|].
  destruct (is_Exception e) eqn:Ee; [|destruct Hh as [-> ->]; cbn; by rewrite Eq, Eo, Ee].
  unfold st_bind in Hh. rewrite record_failure_ok in Hh. injection Hh as <- <-.
  cbn. by rewrite Eq, Eo, Ee.
Qed.

Lemma call_effect n (g : gateway S) r g' :
  _call_with_circuit settings clk (retry upstream (Datatypes.S n)) g = (r, g') ->
  gw_store g' = gw_store g /\ gw_turn g' = gw_turn g /\
  match guard_llm_circuit (llm_circuit_threshold settings) (llm_circuit_cooldown settings)
          (at_guard clk) (gw_circuit g) with
  | (Raise e, c) => r = Raise e /\ gw_calls g' = gw_calls g /\ gw_circuit g' = c
  | (Ok _, c) => attempts (gw_calls g) (gw_calls g') r /\ gw_circuit g' = breaker_after r c /\
                 (gw_calls g' <= gw_calls g + Datatypes.S n)%nat
  end.
Proof using Type.
  unfold _call_with_circuit. intros H. unfold guard, on_circuit in H.
  apply st_bind_inv in H as [([] & g1 & Hg & H)|(e & Hg & ->)].
  2:{ destruct (guard_llm_circuit _ _ _ _) as [r0 c]. by injection Hg as -> <-. }
  destruct (guard_llm_circuit _ _ _ _) as [r0 c]. injection Hg as -> <-.
  apply st_bind_inv in H as [(a & g2 & H & Hs)|(e & H & ->)].
  - apply circuit_except_effect in H as (g3 & H & H1 & H2 & H3 & H4).
    apply retry_effect in H as (H5 & H6 & H7 & H8 & H9 & _).
    unfold st_bind, record_success, on_circuit, record_llm_success, st_modify, st_ret in Hs.
    injection Hs as <- <-. cbn in *. rewrite H3. split; [congruence|]. split; [congruence|].
    split; [done|]. split; [|lia]. by rewrite H4, H7.
  - apply circuit_except_effect in H as (g3 & H & H1 & H2 & H3 & H4).
    apply retry_effect in H as (H5 & H6 & H7 & H8 & H9 & _). cbn in *. rewrite H3.
    split; [congruence|]. split; [congruence|]. split; [done|]. split; [|lia]. by rewrite H4, H7.
Qed.

(** The usage billed for a result: what it reports, or an estimate. *)
Definition billed (payload : pystr) (x : llm_result) : res exn TokenUsage :=
  let t := _usage_from_message (Some x) in
  let? t := if total_tokens t =? 0 then _estimate_usage tk payload (Some x) else Ok t in
  Ok (normalized t).

Definition turn_step (t : TokenUsage) (is_cached : bool) : TurnUsageStep :=
  {| ts_tag := usage_tag policy; ts_prompt := prompt_tokens t; ts_completion := completion_tokens t;
     ts_total := total_tokens t; ts_cached := is_cached |}.

(** The accounts after one request is counted. *)
Definition accounts_after (f : QuotaSnapshot -> QuotaSnapshot) (step : TurnUsageStep)
    (g g' : gateway S) : Prop :=
  (forall t d, day_ok d -> gs_quota (gw_store g') t d =
     if decide (t = tenant /\ d = day) then f (gs_quota (gw_store g) t d)
     else gs_quota (gw_store g) t d) /\
  gw_turn g' = (fun l => l ++ [step]) <$> gw_turn g.

Lemma accounts_after_same f step g g1 g2 g3 :
  same_accounts g g1 -> accounts_after f step g1 g2 -> same_accounts g2 g3 ->
  accounts_after f step g g3.
Proof using Type.
  intros [H1 H2] [H3 H4] [H5 H6]. split; [|congruence].
  intros t d Hd. rewrite H5, H3, H1 by done. done.
Qed.

Lemma commit_effect t (g : gateway S) r g' :
  _commit policy tenant day (normalized t) g = (r, g') ->
  (exists q, r = Ok q) /\ accounts_after (count_usage (normalized t)) (turn_step (normalized t) false) g g' /\
  gw_calls g' = gw_calls g /\ gw_circuit g' = gw_circuit g.
Proof using day_is_date.
  unfold _commit, st_bind, on_store, st_modify, st_ret.
  destruct (law_add_usage tenant (normalized t) day (gw_store g) day_is_date) as (_ & H2 & _).
  destruct (gs_add_usage tenant (normalized t) day (gw_store g)) as [q s].
  intros [= <- <-]. unfold _record_turn_step, accounts_after. cbn in *.
  rewrite normalized_idemp in H2.
  destruct (gw_turn g) eqn:Et; cbn; (split; [by eexists|]); (split; [split; [intros; by apply H2|]|]); cbn; by rewrite ?Et.
Qed.

Lemma hit_effect (g : gateway S) :
  accounts_after count_hit (turn_step no_usage true) g
    (_record_turn_step policy no_usage true
       (with_store (gs_add_cache_hit tenant day (gw_store g)) g)).
Proof using day_is_date.
  destruct (law_add_cache_hit tenant day (gw_store g) day_is_date) as (H & _).
  unfold _record_turn_step, accounts_after. cbn. destruct (gw_turn g) eqn:Et; (split; [exact H|]); cbn; by rewrite ?Et.
Qed.

(** One gated call, whatever happens in it. *)
Inductive gated_outcome (payload : pystr) (g : gateway S) : res exn llm_result -> gateway S -> Prop :=
| gated_hit x g' : accounts_after count_hit (turn_step no_usage true) g g' ->
    gw_calls g' = gw_calls g -> gated_outcome payload g (Ok x) g'
| gated_billed x t g' : upstream (gw_calls g' - 1) = Ok x -> (gw_calls g < gw_calls g')%nat ->
    billed payload x = Ok t -> accounts_after (count_usage t) (turn_step t false) g g' ->
    gated_outcome payload g (Ok x) g'
| gated_raise e g' : same_accounts g g' -> gated_outcome payload g (Raise e) g'.

Lemma gated_effect payload (g : gateway S) r g' : 0 <= at_cache_write clk ->
  _gated settings tk upstream encode decode nonempty fingerprint policy tenant day clk payload g
  = (r, g') ->
  gated_outcome payload g r g' /\ (gw_calls g' <= gw_calls g + Z.to_nat (Z.max 1 (llm_max_retries settings + 1)))%nat.
Proof using day_is_date GatewayStoreLaws0.
  intros Hclk. unfold _gated. intros H.
  apply st_bind_inv in H as [([] & g1 & Hq & H)|(e & Hq & ->)].
  2:{ apply assert_quota_frame in Hq as (Hs & Hc & _). split; [by constructor|lia]. }
  apply assert_quota_frame in Hq as (Hs1 & Hc1 & _).
  apply st_bind_inv in H as [(hit & g2 & Hr & H)|(e & Hr & ->)].
  2:{ destruct (cache_on _ _); [|done]. assert (Hok := Hr).
      apply read_cache_frame in Hr as (Hs2 & Hc2 & _).
      split; [constructor; by etrans|lia]. }
  assert (Hs2 : same_accounts g g2 /\ gw_calls g2 = gw_calls g).
  { destruct (cache_on _ _); [|injection Hr as <- <-; done].
    apply read_cache_frame in Hr as (Hs2 & Hc2 & _). split; [by etrans|congruence]. }
  clear Hr. destruct Hs2 as [Hs2 Hc2]. destruct hit as [x|].
  - unfold st_bind, on_store, st_modify, st_ret in H. injection H as <- <-.
    split; [|cbn; unfold _record_turn_step; case_match; cbn; lia].
    constructor; [|unfold _record_turn_step; case_match; cbn; lia].
    eapply accounts_after_same; [exact Hs2|apply hit_effect|reflexivity].
  - destruct (Z.to_nat (Z.max 1 (llm_max_retries settings + 1))) as [|n] eqn:En; [lia|].
    unfold _retry_call in H. rewrite En in H.
    apply st_bind_inv in H as [(x & g3 & Hcall & H)|(e & Hcall & ->)].
    2:{ apply call_effect in Hcall as (H1 & H2 & H3). split.
        - constructor. etrans; [exact Hs2|]. split; [|done]. intros. by rewrite H1.
        - destruct (guard_llm_circuit _ _ _ _) as [[] ?]; [|lia]. lia. }
    apply call_effect in Hcall as (H1 & H2 & H3).
    destruct (guard_llm_circuit _ _ _ _) as [[|] c]; [|by destruct H3].
    destruct H3 as ((Hlt & Hup & _) & _ & Hle).
    assert (Hs3 : same_accounts g g3).
    { etrans; [exact Hs2|]. split; [|done]. intros. by rewrite H1. }
    apply st_bind_inv in H as [(t & g4 & Hest & H)|(e & Hest & ->)].
    2:{ destruct (_ =? _); [|done]. unfold lift in Hest. injection Hest as Hest <-.
        split; [by constructor|lia]. }
    assert (Hb : billed payload x = Ok (normalized t) /\ g4 = g3).
    { unfold billed. destruct (_ =? _).
      - unfold lift in Hest. injection Hest as -> <-. done.
      - by injection Hest as <- <-. }
    destruct Hb as [Hb ->]. clear Hest.
    apply st_bind_inv in H as [(q & g4 & Hcm & H)|(e & Hcm & ->)].
    2:{ apply commit_effect in Hcm as ([q Hq] & _). done. }
    apply commit_effect in Hcm as (_ & Hacc & Hc4 & _).
    apply st_bind_inv in H as [([] & g5 & Hw & H)|(e & Hw & ->)].
    2:{ destruct (_ && _); [|done]. apply write_cache_frame in Hw as [? _]; done. }
    unfold st_ret in H. injection H as <- <-.
    assert (Hs5 : same_accounts g4 g5 /\ gw_calls g5 = gw_calls g4).
    { destruct (_ && _); [|injection Hw as <-; done].
      apply write_cache_frame in Hw as (_ & Hs5 & Hc5 & _); done. }
    destruct Hs5 as [Hs5 Hc5]. split; [|lia].
    eapply gated_billed; [rewrite Hc5, Hc4; exact Hup|lia|exact Hb|].
    eapply accounts_after_same; eauto.
Qed.
End call.
End facts.

(** ** Properties *)

Section properties.
Context {S V : Type} `{!GatewayStore S V} `{!GatewayStoreLaws S V}.
Context (settings : gateway_settings) (tk : tokenizer).
Context (upstream : nat -> res exn llm_result).
Context (upstream_stream : nat -> list llm_result * option exn).
Context (encode : llm_result -> option V) (decode : V -> option llm_result) (nonempty : V -> bool).
Context (fingerprint : pystr -> CallPolicy -> pystr).

(** C4.  Billing: a call that returns has been counted once, with the usage of the very
    result it returns, for the caller's tenant and day and in the turn's record; a
    cached one counts one cache hit, no tokens and no model call; a call that raises
    bills nothing to anybody. *)
Theorem gated_billing policy tenant day clk payload (g : gateway S) r g' :
  day_ok day -> 0 <= at_cache_write clk ->
  _gated settings tk upstream encode decode nonempty fingerprint policy tenant day clk payload g
  = (r, g') ->
  match r with
  | Raise _ => same_accounts g g'
  | Ok x =>
    (gw_calls g' = gw_calls g /\
     accounts_after tenant day count_hit (turn_step policy no_usage true) g g') \/
    (upstream (gw_calls g' - 1) = Ok x /\ (gw_calls g < gw_calls g')%nat /\
     exists t, billed tk payload x = Ok t /\
       accounts_after tenant day (count_usage t) (turn_step policy t false) g g')
  end.
Proof using GatewayStoreLaws0.
  intros Hday Hclk H. apply gated_effect in H as [H _]; [|done|done].
  destruct H as [x g' Ha Hc|x t g' Hup Hlt Hb Ha|e g' Hs]; eauto 10.
Qed.

(** An exhausted tenant is turned away before anything else: no model call, no
    cache, no breaker, no bill, for a plain call and for a stream alike. *)
Theorem quota_exhausted_blocks policy tenant day clk payload closes_after (g : gateway S) r g' :
  day_ok day -> enforce_quota policy = true -> 0 < llm_daily_token_limit settings ->
  llm_daily_token_limit settings <= q_total (gs_quota (gw_store g) tenant day) ->
  let e := TenantQuotaExceededError tenant (q_total (gs_quota (gw_store g) tenant day))
             (llm_daily_token_limit settings) in
  (_gated settings tk upstream encode decode nonempty fingerprint policy tenant day clk payload g
     = (r, g') ->
   r = Raise e /\ same_accounts g g' /\ gw_calls g' = gw_calls g /\ gw_circuit g' = gw_circuit g) /\
  forall r',
  (stream settings tk upstream_stream policy tenant day clk payload closes_after g = (r', g') ->
   r' = Raise e /\ same_accounts g g' /\ gw_calls g' = gw_calls g /\ gw_circuit g' = gw_circuit g /\
   gw_out g' = gw_out g).
Proof using GatewayStoreLaws0.
  intros Hday Hen Hpos Hle e.
  assert (Hq : forall r1 g1, _assert_quota settings policy tenant day g = (r1, g1) ->
    r1 = Raise e /\ same_accounts g g1 /\ gw_calls g1 = gw_calls g /\ gw_circuit g1 = gw_circuit g /\
    gw_out g1 = gw_out g).
  { intros r1 g1 H. apply assert_quota_frame in H as (Hs & Hc & Hb & Ho & ->); [|done].
    rewrite Hen, (proj2 (Z.ltb_lt _ _) Hpos), (proj2 (Z.leb_le _ _) Hle). done. }
  destruct (_assert_quota settings policy tenant day g) as [r1 g1] eqn:E.
  destruct (Hq _ _ eq_refl) as (-> & Hs & Hc & Hb & Ho). clear Hq.
  split; [|intros r']; unfold _gated, stream, st_bind; rewrite E; intros [= <- <-]; done.
Qed.

(** Retrying: at most [max_retries + 1] attempts; every attempt but the last failed
    transiently; the outcome is the last attempt's; and a transient failure is only
    given up on when the attempts are spent. *)
Theorem retry_spec max_retries (g : gateway S) r g' :
  _retry_call upstream max_retries g = (r, g') ->
  let budget := Z.to_nat (Z.max 1 (max_retries + 1)) in
  let used := (gw_calls g' - gw_calls g)%nat in
  (1 <= used <= budget)%nat /\ upstream (gw_calls g' - 1) = r /\
  (forall k, (gw_calls g <= k < gw_calls g' - 1)%nat ->
     exists e, upstream k = Raise e /\ is_Exception e = true /\ _is_transient e = true /\
               is_quota e = false) /\
  (forall e, r = Raise e -> is_Exception e = true -> _is_transient e = true -> is_quota e = false ->
     used = budget) /\
  gw_store g' = gw_store g /\ gw_circuit g' = gw_circuit g.
Proof using Type.
  unfold _retry_call. intros H. cbn zeta.
  destruct (Z.to_nat (Z.max 1 (max_retries + 1))) as [|n] eqn:En; [lia|].
  apply retry_effect in H as (H1 & H2 & H3 & (H4 & H5 & H6) & H7 & H8).
  split; [lia|]. split; [done|]. split; [done|]. split; [|done].
  intros e He Hx Ht Hq. rewrite (H8 e He Hx Ht Hq). lia.
Qed.

(** The breaker counts calls, not attempts: when it admits a call, a success closes
    it and a failure counts once however many attempts were made, while an exhausted
    quota, an open inner breaker or a cancellation count nothing; when it refuses,
    the model is not called. *)
Theorem breaker_counts_calls clk max_retries (g : gateway S) r g' :
  _call_with_circuit settings clk (_retry_call upstream max_retries) g = (r, g') ->
  match guard_llm_circuit (llm_circuit_threshold settings) (llm_circuit_cooldown settings)
          (at_guard clk) (gw_circuit g) with
  | (Raise e, c) => r = Raise e /\ gw_calls g' = gw_calls g /\ gw_circuit g' = c
  | (Ok _, c) =>
    (gw_calls g < gw_calls g')%nat /\
    gw_circuit g' =
      match r with
      | Ok _ => (record_llm_success c).2
      | Raise e => if is_quota e || is_circuit_open e || negb (is_Exception e) then c
                   else (record_llm_failure (llm_circuit_threshold settings) (at_failure clk) c).2
      end
  end.
Proof using Type.
  unfold _retry_call. intros H.
  destruct (Z.to_nat (Z.max 1 (max_retries + 1))) as [|n] eqn:En; [lia|].
  apply call_effect in H as (_ & _ & H).
  destruct (guard_llm_circuit _ _ _ _) as [[|] c]; [|done].
  destruct H as ((Hlt & _) & Hc & _). done.
Qed.

(** A sequence of gated calls of one turn, going on after a call that raises. *)
Fixpoint turn_calls (tenant day : pystr) (calls : list (CallPolicy * clock * pystr)) (g : gateway S)
    : gateway S :=
  match calls with
  | [] => g
  | (policy, clk, payload) :: calls =>
    turn_calls tenant day calls
      (_gated settings tk upstream encode decode nonempty fingerprint policy tenant day clk payload g).2
  end.

Lemma sum_by_app f (l1 l2 : list TurnUsageStep) : sum_by f (l1 ++ l2) = sum_by f l1 + sum_by f l2.
Proof using Type.
  unfold sum_by. rewrite foldr_app. induction l1 as [|s l1 IH]; cbn; [done|]. rewrite IH. lia.
Qed.

Lemma turn_calls_sum tenant day calls (g : gateway S) steps :
  day_ok day -> Forall (fun '(_, clk, _) => 0 <= at_cache_write clk) calls ->
  gw_turn g = Some steps ->
  exists steps', gw_turn (turn_calls tenant day calls g) = Some steps' /\
    let q := gs_quota (gw_store g) tenant day in
    let q' := gs_quota (gw_store (turn_calls tenant day calls g)) tenant day in
    sum_by ts_prompt steps' - sum_by ts_prompt steps = q_prompt q' - q_prompt q /\
    sum_by ts_completion steps' - sum_by ts_completion steps = q_completion q' - q_completion q /\
    sum_by ts_total steps' - sum_by ts_total steps = q_total q' - q_total q /\
    Z.of_nat (length steps') - Z.of_nat (length steps) =
      q_requests q' - q_requests q + (q_cache_hits q' - q_cache_hits q).
Proof using GatewayStoreLaws0.
  intros Hday Hclk. revert g steps.
  induction Hclk as [|[[policy clk] payload] calls Hw _ IH]; intros g steps Hst.
  - exists steps. cbn. split; [done|]. lia.
  - cbn [turn_calls]. destruct (_gated _ _ _ _ _ _ _ _ _ _ _ _ g) as [r g1] eqn:E. cbn [snd].
    apply gated_effect in E as [Ho _]; [|done|done].
    assert (Hstep : exists steps1, gw_turn g1 = Some steps1 /\
      let q := gs_quota (gw_store g) tenant day in
      let q' := gs_quota (gw_store g1) tenant day in
      sum_by ts_prompt steps1 - sum_by ts_prompt steps = q_prompt q' - q_prompt q /\
      sum_by ts_completion steps1 - sum_by ts_completion steps = q_completion q' - q_completion q /\
      sum_by ts_total steps1 - sum_by ts_total steps = q_total q' - q_total q /\
      Z.of_nat (length steps1) - Z.of_nat (length steps) =
        q_requests q' - q_requests q + (q_cache_hits q' - q_cache_hits q)).
    { destruct Ho as [x g1 [Hq Ht] _|x t g1 _ _ _ [Hq Ht]|e g1 [Hq Ht]];
        rewrite Hst in Ht; cbn in Ht; (eexists; split; [exact Ht|]);
        rewrite (Hq tenant day Hday); rewrite ?decide_True by done; cbn zeta;
        rewrite ?sum_by_app, ?length_app; cbn; lia. }
    destruct Hstep as (steps1 & Hst1 & H1). destruct (IH g1 steps1 Hst1) as (steps2 & Hst2 & H2).
    exists steps2. split; [done|]. cbn zeta in *. lia.
Qed.

(** The usage reported at the end of a turn is what the day's account grew by: over
    any sequence of calls, cached, billed or failed, the totals handed to the
    customer equal the increase of the tenant's counters, and its steps the requests
    and cache hits. *)
Theorem turn_usage_matches_quota tenant day calls (g : gateway S) :
  day_ok day -> Forall (fun '(_, clk, _) => 0 <= at_cache_write clk) calls ->
  let g1 := (begin_turn_usage g).2 in
  let g2 := turn_calls tenant day calls g1 in
  exists total, (take_turn_usage g2).1 = Ok total /\
    let q := gs_quota (gw_store g) tenant day in
    let q' := gs_quota (gw_store g2) tenant day in
    tu_prompt total = q_prompt q' - q_prompt q /\
    tu_completion total = q_completion q' - q_completion q /\
    tu_total total = q_total q' - q_total q /\
    Z.of_nat (length (tu_steps total)) = q_requests q' - q_requests q + (q_cache_hits q' - q_cache_hits q).
Proof using GatewayStoreLaws0.
  intros Hday Hclk g1 g2.
  destruct (turn_calls_sum tenant day calls g1 [] Hday Hclk eq_refl) as (steps & Hst & Hsum).
  fold g2 in Hst, Hsum. eexists. split; [reflexivity|]. rewrite Hst.
  change (gw_store g1) with (gw_store g) in Hsum. cbn zeta in Hsum |- *.
  set (q := gs_quota (gw_store g) tenant day) in *.
  set (q' := gs_quota (gw_store g2) tenant day) in *. clearbody q q'.
  cbn [tu_prompt tu_completion tu_total tu_steps default from_option].
  change (sum_by _ []) with 0 in Hsum. cbn [length] in Hsum. unfold id. lia.
Qed.

Lemma stream_loop_closed chunks ends n last best (g : gateway S) :
  (n < length chunks)%nat ->
  exists g', stream_loop chunks ends (Some n) last best g = (Raise GeneratorExit, g') /\
    same_accounts g g' /\ gw_circuit g' = gw_circuit g /\
    gw_out g' = gw_out g ++ take (Datatypes.S n) chunks.
Proof using Type.
  revert n last best g. induction chunks as [|c chunks IH]; intros n last best g Hn; [cbn in Hn; lia|].
  cbn [stream_loop]. unfold st_bind at 1. cbn [st_modify]. destruct n as [|n].
  - eexists. split; [reflexivity|]. by repeat split.
  - destruct (IH n (Some c) (if total_tokens (_usage_from_message (Some c)) =? 0 then best
                             else _usage_from_message (Some c)) (yield_chunk c g)) as (g' & H1 & H2 & H3 & H4);
      [cbn in Hn; lia|].
    exists g'. split; [done|]. split; [by etrans; [|exact H2]|]. split; [done|].
    rewrite H4. cbn. by rewrite <-app_assoc.
Qed.

(** A stream the client closes early is never billed: the customer has received
    [n + 1] chunks, and yet no counter moves, no turn step is recorded, and the
    breaker hears of neither success nor failure. *)
Theorem abandoned_stream_unbilled policy tenant day clk payload n (g : gateway S) r g' chunks ends :
  day_ok day ->
  stream settings tk upstream_stream policy tenant day clk payload (Some n) g = (r, g') ->
  upstream_stream (gw_calls g) = (chunks, ends) -> (n < length chunks)%nat ->
  (_assert_quota settings policy tenant day g).1 = Ok tt ->
  (guard_llm_circuit (llm_circuit_threshold settings) (llm_circuit_cooldown settings)
     (at_guard clk) (gw_circuit g)).1 = Ok tt ->
  r = Raise GeneratorExit /\ gw_out g' = gw_out g ++ take (Datatypes.S n) chunks /\
  same_accounts g g' /\
  gw_circuit g' = (guard_llm_circuit (llm_circuit_threshold settings)
                     (llm_circuit_cooldown settings) (at_guard clk) (gw_circuit g)).2.
Proof using GatewayStoreLaws0.
  intros Hday H Hup Hn Hq Hg. unfold stream, st_bind at 1 in H.
  destruct (_assert_quota settings policy tenant day g) as [rq g1] eqn:Eq. cbn in Hq. subst rq.
  apply assert_quota_frame in Eq as (Hs & Hc & Hb & Hout & _); [|done].
  destruct (guard_llm_circuit _ _ (at_guard clk) (gw_circuit g)) as [rg c] eqn:Eg. cbn in Hg. subst rg.
  set (g2 := count_call (with_circuit c g1)).
  destruct (stream_loop_closed chunks ends n None no_usage g2 Hn) as (g3 & Hl & Hs3 & Hc3 & Ho3).
  assert (Hbody : forall (h : exn -> option (ST (gateway S) exn (option llm_result * TokenUsage))),
    h GeneratorExit = None ->
    st_except
      (do! guard settings clk in
       let! g := st_get in
       do! st_modify count_call in
       let '(chunks, ends) := upstream_stream (gw_calls g) in
       stream_loop chunks ends (Some n) None no_usage) h g1 = (Raise GeneratorExit, g3)).
  { intros h Hh. unfold st_except, st_bind, guard, on_circuit. rewrite Hb, Eg. cbn [st_get st_modify].
    change (gw_calls (with_circuit c g1)) with (gw_calls g1). rewrite Hc, Hup.
    fold g2. rewrite Hl. by rewrite Hh. }
  unfold st_bind at 1 in H. rewrite Hbody in H by done. injection H as <- <-.
  split; [done|]. split; [rewrite Ho3; subst g2; cbn; by rewrite Hout|]. split.
  - etrans; [exact Hs|]. etrans; [|exact Hs3]. done.
  - rewrite Hc3. done.
Qed.
End properties.

(** ** A concrete gateway *)

Module Demo.
Definition settings : gateway_settings :=
  {| llm_max_retries := 2; llm_cache_enabled := true; llm_cache_max_chars := 100;
     llm_cache_ttl_seconds := 60; llm_daily_token_limit := 1000;
     llm_circuit_threshold := 3; llm_circuit_cooldown := 30 |}.
Definition policy : CallPolicy :=
  {| usage_tag := u "intent"; cache_enabled := true; enforce_quota := true; schema_name := [];
     temperature := f_zero; model := u "m" |}.
Definition clk : clock :=
  {| at_cache_read := 1; at_guard := 2; at_failure := 3; at_cache_write := 4 |}.
Definition answer : llm_result :=
  {| usage_metadata := ∅; token_usage := {[u "prompt_tokens" := 10; u "completion_tokens" := 5]};
     result_text := u "ok" |}.
(** The first attempt times out, the others answer. *)
Definition upstream (n : nat) : res exn llm_result :=
  match n with O => Raise (TimeoutError []) | _ => Ok answer end.
Definition upstream_stream (_ : nat) : list llm_result * option exn := ([answer; answer; answer], None).
Definition encode (r : llm_result) : option pystr := Some (result_text r).
Definition decode (_ : pystr) : option llm_result := Some answer.
Definition fingerprint (payload : pystr) (_ : CallPolicy) : pystr := payload.
Definition day : pystr := u "2025-11-14".
Definition tenant : pystr := u "demo".
Definition start (used : Z) : gateway (MemoryGateway.store pystr) :=
  {| gw_store := {| MemoryGateway.m_quota :=
                      {[(tenant, day) := {| q_prompt := used; q_completion := 0; q_total := used;
                                            q_requests := 1; q_cache_hits := 0 |}]};
                    MemoryGateway.m_cache := ∅ |};
     gw_circuit := empty_circuit; gw_turn := Some []; gw_calls := 0; gw_errors := []; gw_out := [] |}.
Definition gated (g : gateway (MemoryGateway.store pystr)) :=
  _gated settings char_tokenizer upstream encode decode truthy fingerprint policy tenant day clk
    (u "question") g.
Lemma day_is_date : day_ok day.
Proof. unfold day_ok. apply (bool_decide_unpack _). vm_compute. exact I. Qed.
End Demo.

Lemma gated_billing_witness : Demo.upstream (gw_calls (Demo.gated (Demo.start 0)).2 - 1) = Ok Demo.answer.
Proof.
  destruct (gated_billing Demo.settings char_tokenizer Demo.upstream Demo.encode Demo.decode truthy
              Demo.fingerprint Demo.policy Demo.tenant Demo.day Demo.clk (u "question") (Demo.start 0)
              (Ok Demo.answer) (Demo.gated (Demo.start 0)).2 Demo.day_is_date) as [[Hc _]|(Hup & _)].
  - vm_compute. discriminate.
  - vm_compute. reflexivity.
  - vm_compute in Hc. discriminate Hc.
  - exact Hup.
Defined.

Lemma quota_exhausted_blocks_witness :
  gw_calls (Demo.gated (Demo.start 1000)).2 = 0%nat.
Proof.
  apply (quota_exhausted_blocks Demo.settings char_tokenizer Demo.upstream Demo.upstream_stream
           Demo.encode Demo.decode truthy Demo.fingerprint Demo.policy Demo.tenant Demo.day Demo.clk
           (u "question") None (Demo.start 1000) (Demo.gated (Demo.start 1000)).1
           (Demo.gated (Demo.start 1000)).2 Demo.day_is_date);
    [reflexivity|reflexivity|vm_compute; discriminate|apply surjective_pairing].
Defined.

Lemma retry_spec_witness :
  (1 <= gw_calls (_retry_call Demo.upstream 2 (Demo.start 0)).2 <= 3)%nat.
Proof.
  pose proof (retry_spec Demo.upstream 2 (Demo.start 0) (_retry_call Demo.upstream 2 (Demo.start 0)).1
                (_retry_call Demo.upstream 2 (Demo.start 0)).2 (surjective_pairing _)) as [H _].
  rewrite Nat.sub_0_r in H. exact H.
Defined.

Lemma breaker_counts_calls_witness :
  (0 < gw_calls (_call_with_circuit Demo.settings Demo.clk (_retry_call Demo.upstream 2) (Demo.start 0)).2)%nat.
Proof.
  exact (proj1 (breaker_counts_calls Demo.settings Demo.upstream Demo.clk 2 (Demo.start 0)
    (_call_with_circuit Demo.settings Demo.clk (_retry_call Demo.upstream 2) (Demo.start 0)).1
    (_call_with_circuit Demo.settings Demo.clk (_retry_call Demo.upstream 2) (Demo.start 0)).2
    (surjective_pairing _))).
Defined.

Lemma turn_usage_matches_quota_witness :
  exists total,
    (take_turn_usage (turn_calls Demo.settings char_tokenizer Demo.upstream Demo.encode Demo.decode
       truthy Demo.fingerprint Demo.tenant Demo.day
       [(Demo.policy, Demo.clk, u "a"); (Demo.policy, Demo.clk, u "a")]
       (begin_turn_usage (Demo.start 7)).2)).1 = Ok total.
Proof.
  destruct (turn_usage_matches_quota Demo.settings char_tokenizer Demo.upstream Demo.encode Demo.decode
       truthy Demo.fingerprint Demo.tenant Demo.day
       [(Demo.policy, Demo.clk, u "a"); (Demo.policy, Demo.clk, u "a")] (Demo.start 7)
       Demo.day_is_date) as (total & H & _).
  - repeat constructor; vm_compute; discriminate.
  - exists total. exact H.
Defined.

Lemma abandoned_stream_unbilled_witness :
  same_accounts (Demo.start 0)
    (stream Demo.settings char_tokenizer Demo.upstream_stream Demo.policy Demo.tenant Demo.day Demo.clk
       (u "question") (Some 1%nat) (Demo.start 0)).2.
Proof.
  refine (proj1 (proj2 (proj2 (abandoned_stream_unbilled Demo.settings char_tokenizer
    Demo.upstream_stream Demo.policy Demo.tenant Demo.day Demo.clk (u "question") 1 (Demo.start 0)
    _ _ [Demo.answer; Demo.answer; Demo.answer] None Demo.day_is_date (surjective_pairing _) eq_refl
    _ _ _)))).
  - cbn. lia.
  - vm_compute. reflexivity.
  - vm_compute. reflexivity.
Defined.
