(* ===== verification/CacheCodec.v ===== *)
(** * The codec of cached answers ([app/llm_gateway/cache_codec.py])

    What the gateway keeps of an answer of the model: an envelope, a version, and data that
    says what it is.  Pydantic and msgpack are parameters. *)

From stdpp Require Import base list strings.
From S2P Require Import Prelude PyText PyFloat PyDict Json PyJson.
Open Scope py_scope.

Definition bytes : Type := list N.
(** [b"LLK1"]. *)
Definition ENVELOPE_MAGIC : bytes := [76; 76; 75; 49]%N.
Definition _SCHEMA_VERSION : Z := 1.

Section codec.
(** Messages of the model, objects of pydantic classes, and the classes that are no messages. *)
Context {M P C : Type}.
(** [model_dump(mode="json")] and [model_validate]; nothing, where it raises. *)
Context (dump_message : M -> list (pystr * json)) (validate_message : list (pystr * json) -> option M).
Context (dump_model : P -> list (pystr * json)) (validate_model : C -> list (pystr * json) -> option P).
(** [ormsgpack]; nothing, where it raises. *)
Context (packb : json -> option bytes) (unpackb : bytes -> option json).

(** What a call returns; [Data JNull] is [None], and [Foreign] any other object. *)
Inductive result : Type := Message (m : M) | Model (p : P) | Data (v : json) | Foreign.
(** A type to validate against: none, a class of models, a class of messages, or no class. *)
Inductive schema_type : Type := NoSchema | ModelClass (c : C) | MessageClass | NoClass.
Definition _pydantic_schema (s : schema_type) : option C := match s with ModelClass c => Some c | _ => None end.

Definition envelope (kind : string) (data : json) : json :=
  JObj [(u "v", JInt _SCHEMA_VERSION); (u "kind", JStr (u kind)); (u "data", data)].
Definition _payload_from_result (r : result) : option json :=
  match r with
  | Message m => Some (envelope "ai_message" (JObj (dump_message m)))
  | Model p => Some (envelope "pydantic" (JObj (dump_model p)))
  | Data v => Some (envelope "json" v)
  | Foreign => None
  end.
Definition encode_llm_cache (r : result) : option bytes :=
  match _payload_from_result r with
  | None => None
  | Some payload => match packb payload with Some b => Some (ENVELOPE_MAGIC ++ b) | None => None end
  end.

(** [v == 1]: also of [True] and [1.0]. *)
Definition is_one (v : json) : bool :=
  match v with JInt n => (n =? 1)%Z | JBool b => b | JFloat x => f_le x f_one && f_le f_one x | _ => false end.
Definition miss : result := Data JNull.
Definition entry (k : string) (d : list (pystr * json)) : json := default JNull (dget (u k) d).
Definition kind_is (k : string) (d : list (pystr * json)) : bool := match entry "kind" d with JStr s => bool_decide (s = u k) | _ => false end.
Definition decode_llm_cache (raw : bytes) (schema : schema_type) : result :=
  if negb (is_prefix ENVELOPE_MAGIC raw) then miss
  else match unpackb (drop (length ENVELOPE_MAGIC) raw) with
  | Some (JObj loaded) =>
    if negb (is_one (entry "v" loaded)) then miss
    else if kind_is "ai_message" loaded then
      match entry "data" loaded with JObj d => from_option Message miss (validate_message d) | _ => miss end
    else if kind_is "pydantic" loaded then
      match _pydantic_schema schema, entry "data" loaded with
      | Some c, JObj d => from_option Model miss (validate_model c d)
      | _, _ => miss
      end
    else if kind_is "json" loaded then Data (entry "data" loaded)
    else miss
  | _ => miss
  end.

(** What [msgpack] packed it unpacks, and what pydantic dumped it validates. *)
Context (unpack_pack : forall v b, packb v = Some b -> unpackb b = Some v).
Context (validate_dump : forall m, validate_message (dump_message m) = Some m).

Lemma decode_envelope kind data b schema : packb (envelope kind data) = Some b ->
  decode_llm_cache (ENVELOPE_MAGIC ++ b) schema =
  if bool_decide (u kind = u "ai_message") then match data with JObj d => from_option Message miss (validate_message d) | _ => miss end
  else if bool_decide (u kind = u "pydantic") then
    match _pydantic_schema schema, data with Some c, JObj d => from_option Model miss (validate_model c d) | _, _ => miss end
  else if bool_decide (u kind = u "json") then Data data else miss.
Proof using unpack_pack.
  intros Hb. unfold decode_llm_cache. change (is_prefix ENVELOPE_MAGIC (ENVELOPE_MAGIC ++ b)) with true. cbn [negb].
  rewrite drop_app_length, (unpack_pack _ _ Hb). unfold envelope, kind_is.
  assert (E : forall x y z, entry "v" [(u "v", x); (u "kind", y); (u "data", z)] = x /\ entry "kind" [(u "v", x); (u "kind", y); (u "data", z)] = y /\
    entry "data" [(u "v", x); (u "kind", y); (u "data", z)] = z) by (intros; vm_compute; done).
  destruct (E (JInt _SCHEMA_VERSION) (JStr (u kind)) data) as (-> & -> & ->). done.
Qed.

(** What was kept comes back: a message as that message, data as it is, an object when it is
    asked for under its own class, and never as an object of another class's making. *)
Lemma kept_comes_back (r : result) (b : bytes) (schema : schema_type) : encode_llm_cache r = Some b ->
  decode_llm_cache b schema =
  match r with
  | Model p => match _pydantic_schema schema with Some c => from_option Model miss (validate_model c (dump_model p)) | None => miss end
  | _ => r
  end.
Proof using unpack_pack validate_dump.
  unfold encode_llm_cache. destruct r as [m|p|v|]; cbn [_payload_from_result]; [| | |done].
  all: destruct (packb _) as [b'|] eqn:Eb; [|done]; intros E; assert (Ebs : b = ENVELOPE_MAGIC ++ b') by congruence; rewrite Ebs, (decode_envelope _ _ _ schema Eb).
  - rewrite bool_decide_eq_true_2 by done. by rewrite validate_dump.
  - rewrite bool_decide_eq_false_2 by (by intros [=]). rewrite bool_decide_eq_true_2 by done. by destruct (_pydantic_schema schema).
  - rewrite 2!bool_decide_eq_false_2 by (by intros [=]). by rewrite bool_decide_eq_true_2.
Qed.
(** Bytes without the envelope, as pickles of older versions are, are a miss. *)
Lemma foreign_is_a_miss (raw : bytes) (schema : schema_type) : is_prefix ENVELOPE_MAGIC raw = false -> decode_llm_cache raw schema = miss.
Proof. intros E. unfold decode_llm_cache. by rewrite E. Qed.
End codec.

(** ** With JSON text for msgpack *)

Module Demo.
Definition message : Type := pystr.
Definition packb (v : json) : option bytes := Some (json_dumps no_floats v).
Definition unpackb (b : bytes) : option json := json_loads some_float b.
Definition dump (m : message) : list (pystr * json) := [(u "content", JStr m)].
Definition validate (d : list (pystr * json)) : option message := match dget (u "content") d with Some (JStr s) => Some s | _ => None end.
(** A class of models is the field that it demands. *)
Definition validate_as (c : pystr) (d : list (pystr * json)) : option message :=
  match dget c d with Some (JStr s) => Some s | _ => None end.
Definition again (r : result (M := message) (P := message)) (s : schema_type (C := pystr)) : option (result (M := message) (P := message)) :=
  b ← encode_llm_cache dump dump packb r; Some (decode_llm_cache validate validate_as unpackb b s).
End Demo.

(** A message; an object under its class, under another, and under none; [None], which is a
    miss when it is read; and a pickle. *)
Example codec_reads :
  Demo.again (Message (u "你好")) NoSchema = Some (Message (u "你好")) /\
  Demo.again (Model (u "x")) (ModelClass (u "content")) = Some (Model (u "x")) /\
  Demo.again (Model (u "x")) (ModelClass (u "intent")) = Some miss /\ Demo.again (Model (u "x")) NoSchema = Some miss /\
  Demo.again (Data JNull) NoSchema = Some miss /\ Demo.again Foreign NoSchema = None /\
  decode_llm_cache (P := Demo.message) (C := pystr) Demo.validate Demo.validate_as Demo.unpackb [128; 4; 149]%N NoSchema = miss.
Proof. vm_compute. split_and!; reflexivity. Qed.
