(* ===== verification/SessionLock.v ===== *)
(** * Session locks ([app/session_cache.py], the lock classes)

    One turn at a time per thread id.  [LockStore] is what a lock promises about one
    attempt and one release; the Redis lock ([SET NX PX] and a compare-and-delete
    script) and the in-process lock implement it.  [System] is the interleaving of
    any number of workers, over either. *)

From stdpp Require Import base list gmap sets strings.
From S2P Require Import Prelude PyText Errors Redis.
Local Open Scope Z_scope.

Definition LOCK_PREFIX : pystr := u "cs:session:lock:".

(** [_lock_settings], times in milliseconds: the time to live, how long to wait, and
    how often to retry. *)
Record lock_settings := { ls_ttl : Z; ls_wait : Z; ls_interval : Z }.
Definition _lock_settings (ttl_seconds wait_ms interval_ms : Z) : lock_settings :=
  {| ls_ttl := Z.max 1 ttl_seconds * 1000; ls_wait := Z.max 0 wait_ms;
     ls_interval := Z.max 10 interval_ms |}.

(** ** The interface *)

(** One attempt ([now], thread, token) and one release; [lk_token] says which tokens
    the lock hands out. *)
Class LockStore (L : Type) := {
  lk_token : pystr -> Prop;
  lk_try : Z -> pystr -> pystr -> L -> bool * L;
  lk_release : Z -> pystr -> pystr -> L -> L;
}.

(** Until when a lock taken at [since] is held; for ever without a lease. *)
Definition lease_valid (lease : option Z) (since t : Z) : bool :=
  match lease with Some ttl => t <? since + ttl | None => true end.

(** [lk_locked l t th]: the token that holds [th] at time [t]. *)
Class LockLaws (L : Type) `{LockStore L} (lease : option Z) := {
  lk_locked : L -> Z -> pystr -> option pystr;
  lk_mono l now t th : now <= t -> lk_locked l now th = None -> lk_locked l t th = None;
  lk_try_ok now th tok l : (lk_try now th tok l).1 = bool_decide (lk_locked l now th = None);
  lk_try_locked now th tok l t th' : lk_token tok -> now <= t ->
    lk_locked (lk_try now th tok l).2 t th' =
    if decide (th' = th /\ lk_locked l now th = None)
    then (if lease_valid lease now t then Some tok else None) else lk_locked l t th';
  lk_release_locked now th tok l t th' : lk_token tok -> now <= t ->
    lk_locked (lk_release now th tok l) t th' =
    if decide (th' = th /\ lk_locked l now th = Some tok) then None else lk_locked l t th';
}.

(** ** The Redis lock *)

Module RedisLock.
Section redis.
Context {R : Type} `{!RedisKV R pystr} (ttl_ms : Z).

Definition _key (thread_id : pystr) : pystr := LOCK_PREFIX ++ u "{" ++ thread_id ++ u "}".

(** The body of [_UNLOCK_LUA]. *)
Definition unlock_lua (now : Z) (key token : pystr) (r : R) : R :=
  if bool_decide (kv now key r = Some token) then del key r else r.

(** One pass of the [while] loop of [acquire]. *)
Definition try_acquire (now : Z) (thread_id token : pystr) (r : R) : bool * R :=
  set_nx_px now (_key thread_id) token ttl_ms r.

Definition release (now : Z) (thread_id token : pystr) (r : R) : R :=
  unlock_lua now (_key thread_id) token r.

#[export] Instance redis_lock : LockStore R :=
  { lk_token _ := True; lk_try := try_acquire; lk_release := release }.

Lemma key_inj th th' : _key th = _key th' -> th = th'.
Proof using Type. unfold _key. intros H. do 2 apply app_inv_head in H. by apply app_inv_tail in H. Qed.

Context `{!RedisKVLaws R pystr} (ttl_pos : 0 < ttl_ms).

#[export] Instance redis_lock_laws : LockLaws R (Some ttl_ms).
Proof using ttl_pos RedisKVLaws0.
  refine (Build_LockLaws _ _ _ (fun r t th => kv t (_key th) r) _ _ _ _).
  - intros r now t th. apply kv_mono.
  - intros now th tok r. by apply set_nx_px_ok.
  - intros now th tok r t th' _ Ht. cbn. unfold try_acquire. rewrite kv_set_nx_px by done.
    apply decide_ext. split; intros [H1 H2]; (split; [|done]); [by apply key_inj|by subst].
  - intros now th tok r t th' _ Ht. cbn. unfold release, unlock_lua.
    case_bool_decide as Hk.
    + rewrite kv_del. apply decide_ext.
      split; [intros Hkey%key_inj; by subst|by intros [-> _]].
    + rewrite decide_False; [done|]. by intros [_ ?].
Defined.
End redis.
End RedisLock.

(** ** The in-process lock ([AsyncDictSessionLock]) *)

Module DictLock.
(** [_held]. *)
Abbreviation store := (gset pystr).

(** One pass of the loop of [aacquire]; the token is always "local". *)
Definition try_acquire (thread_id : pystr) (held : store) : bool * store :=
  if bool_decide (thread_id ∈ held) then (false, held) else (true, {[thread_id]} ∪ held).

(** [arelease]: the token is ignored. *)
Definition release (thread_id : pystr) (held : store) : store := held ∖ {[thread_id]}.

Definition LOCAL : pystr := u "local".

#[export] Instance dict_lock : LockStore store := {
  lk_token tok := tok = LOCAL;
  lk_try _ thread_id _ held := try_acquire thread_id held;
  lk_release _ thread_id _ held := release thread_id held;
}.

Definition locked (held : store) (_ : Z) (th : pystr) : option pystr :=
  if bool_decide (th ∈ held) then Some LOCAL else None.

#[export] Instance dict_lock_laws : LockLaws store None.
Proof.
  refine (Build_LockLaws _ _ _ locked _ _ _ _); unfold locked; cbn.
  - done.
  - intros now th tok held. unfold try_acquire.
    destruct (decide (th ∈ held)) as [Hin|Hin].
    + by rewrite (bool_decide_eq_true_2 _ Hin).
    + by rewrite (bool_decide_eq_false_2 _ Hin).
  - intros now th tok held t th' -> _. unfold try_acquire.
    destruct (decide (th ∈ held)) as [Hin|Hin].
    + rewrite decide_False by (by rewrite (bool_decide_eq_true_2 _ Hin); intros [_ ?]).
      by rewrite (bool_decide_eq_true_2 _ Hin).
    + destruct (decide (th' = th)) as [->|Hne].
      * rewrite decide_True by (by rewrite (bool_decide_eq_false_2 _ Hin)).
        rewrite (bool_decide_eq_false_2 _ Hin). cbn [snd].
        by rewrite bool_decide_eq_true_2 by set_solver.
      * rewrite decide_False by tauto. rewrite (bool_decide_eq_false_2 _ Hin). cbn [snd].
        by rewrite (bool_decide_ext _ (th' ∈ held)) by set_solver.
  - intros now th tok held t th' -> _. unfold release.
    destruct (decide (th' = th)) as [->|Hne].
    + rewrite bool_decide_eq_false_2 by set_solver.
      destruct (decide (th ∈ held)) as [Hin|Hin].
      * by rewrite decide_True by (by rewrite (bool_decide_eq_true_2 _ Hin)).
      * rewrite decide_False by (by rewrite (bool_decide_eq_false_2 _ Hin); intros [_ ?]).
        by rewrite (bool_decide_eq_false_2 _ Hin).
    + rewrite decide_False by tauto. by rewrite (bool_decide_ext _ (th' ∈ held)) by set_solver.
Defined.
End DictLock.

(** ** The lock of threads ([DictSessionLock]) *)

(** A [threading.Lock] per thread id, made on first use: [true] when locked. *)
Module ThreadLock.
Abbreviation store := (gmap pystr bool).

Definition _lock_for (thread_id : pystr) (locks : store) : bool * store :=
  match locks !! thread_id with
  | Some b => (b, locks)
  | None => (false, <[thread_id := false]> locks)
  end.

(** One non-blocking attempt, as in [aacquire]. *)
Definition try_acquire (thread_id : pystr) (locks : store) : bool * store :=
  let '(b, locks) := _lock_for thread_id locks in
  if b then (false, locks) else (true, <[thread_id := true]> locks).

(** Releasing an unlocked [threading.Lock] raises. *)
Definition release (thread_id : pystr) (locks : store) : res exn unit * store :=
  let '(b, locks) := _lock_for thread_id locks in
  if b then (Ok tt, <[thread_id := false]> locks)
  else (Raise (RuntimeError (u "release unlocked lock")), locks).

(** It behaves as the in-process set of held ids; the holder's release succeeds. *)
Definition represents (locks : store) (held : gset pystr) : Prop :=
  forall th, default false (locks !! th) = bool_decide (th ∈ held).

Lemma lock_for_spec (th : pystr) (locks : store) (held : gset pystr) :
  represents locks held ->
  (_lock_for th locks).1 = bool_decide (th ∈ held) /\ represents (_lock_for th locks).2 held.
Proof.
  intros Hr. pose proof (Hr th) as Hth. unfold _lock_for.
  destruct (locks !! th) as [b|] eqn:E; [done|]. split; [done|]. intros th'.
  cbn [snd]. rewrite lookup_insert. destruct (decide (th = th')) as [<-|]; [done|]. apply Hr.
Qed.

(** The thread lock and the set of held ids agree: same answer to every attempt,
    same locks afterwards; and the [finally] of a holder never raises. *)
Theorem thread_lock_refines (th : pystr) (locks : store) (held : gset pystr) :
  represents locks held ->
  (try_acquire th locks).1 = (DictLock.try_acquire th held).1 /\
  represents (try_acquire th locks).2 (DictLock.try_acquire th held).2 /\
  (th ∈ held -> (release th locks).1 = Ok tt /\
                represents (release th locks).2 (DictLock.release th held)).
Proof.
  intros Hr. destruct (lock_for_spec th locks held Hr) as [Hb Hr'].
  unfold try_acquire, release, DictLock.try_acquire, DictLock.release.
  destruct (_lock_for th locks) as [b l]. cbn [fst snd] in *. subst b.
  assert (Hset : forall b : bool, represents (<[th := b]> l)
                   (if b then ({[th]} ∪ held : gset pystr) else held ∖ {[th]})).
  { intros b th'. rewrite lookup_insert. destruct (decide (th = th')) as [<-|].
    - destruct b; cbn; symmetry; [apply bool_decide_eq_true_2|apply bool_decide_eq_false_2]; set_solver.
    - rewrite Hr'. apply bool_decide_ext. destruct b; set_solver. }
  split; [by destruct (bool_decide (th ∈ held))|]. split.
  - destruct (bool_decide (th ∈ held)); [done|]. exact (Hset true).
  - intros Hin. rewrite bool_decide_eq_true_2 by done. split; [done|]. exact (Hset false).
Qed.

Lemma thread_lock_refines_witness :
  (try_acquire (u "t") ∅).1 = true /\ represents (try_acquire (u "t") ∅).2 ({[u "t"]} ∪ ∅).
Proof.
  destruct (thread_lock_refines (u "t") ∅ ∅) as (H1 & H2 & _); [by intros th|].
  split; [exact H1|exact H2].
Defined.
End ThreadLock.

(** The [redis.asyncio] copies of the Redis lock's methods. *)
Module AsyncRedisLock.
Section async.
Context {R : Type} `{!RedisKV R pystr} (ttl_ms : Z).
Definition _key : pystr -> pystr := RedisLock._key.
Definition try_acquire : Z -> pystr -> pystr -> R -> bool * R := RedisLock.try_acquire ttl_ms.
Definition arelease : Z -> pystr -> pystr -> R -> R := RedisLock.release.
End async.
End AsyncRedisLock.

(** ** Waiting *)

(** The loop of [acquire], attempts every [interval]: [free k] tells whether the k-th
    attempt finds the lock free. *)
Fixpoint acquire_loop (fuel : nat) (free : nat -> bool) (k : nat) (now deadline interval : Z)
    : option (res exn nat) :=
  match fuel with
  | O => None
  | S fuel =>
    if free k then Some (Ok k)
    else if deadline <=? now then Some (Raise (SessionBusyError []))
    else acquire_loop fuel free (S k) (now + interval) deadline interval
  end.

(** ** Workers *)

Inductive worker : Type :=
| Idle
| Waiting (thread token : pystr) (deadline : Z)
| Holding (thread token : pystr) (since : Z).

Section system.
Context {L : Type} `{!LockStore L} (lease : option Z) (wait : Z).

Record sys := {
  sy_now : Z;
  sy_lock : L;
  sy_workers : gmap nat worker;
  (** Every token handed out so far. *)
  sy_tokens : gset pystr;
}.

Definition put_worker (i : nat) (w : worker) (l : L) (s : sys) : sys :=
  {| sy_now := sy_now s; sy_lock := l; sy_workers := <[i := w]> (sy_workers s);
     sy_tokens := sy_tokens s |}.

Inductive label : Type :=
| Tick (t : Z)
| Start (i : nat) (thread token : pystr)
| Attempt (i : nat)
| Release (i : nat)
| Drop (i : nat).

(** [Start] draws a token, fresh where the lock has a lease ([uuid4]); [Attempt] is a
    pass of the loop, which ends in [SessionBusyError] after the deadline; [Release]
    is the [finally]; [Drop] a worker that dies, or whose release fails. *)
Inductive step : sys -> label -> sys -> Prop :=
| step_tick s t : sy_now s <= t ->
    step s (Tick t) {| sy_now := t; sy_lock := sy_lock s; sy_workers := sy_workers s;
                       sy_tokens := sy_tokens s |}
| step_start s i th tok :
    sy_workers s !! i = Some Idle -> lk_token tok ->
    (lease <> None -> tok ∉ sy_tokens s) ->
    step s (Start i th tok)
      {| sy_now := sy_now s; sy_lock := sy_lock s;
         sy_workers := <[i := Waiting th tok (sy_now s + wait)]> (sy_workers s);
         sy_tokens := {[tok]} ∪ sy_tokens s |}
| step_acquired s i th tok d l :
    sy_workers s !! i = Some (Waiting th tok d) ->
    lk_try (sy_now s) th tok (sy_lock s) = (true, l) ->
    step s (Attempt i) (put_worker i (Holding th tok (sy_now s)) l s)
| step_refused s i th tok d l :
    sy_workers s !! i = Some (Waiting th tok d) ->
    lk_try (sy_now s) th tok (sy_lock s) = (false, l) ->
    step s (Attempt i)
      (put_worker i (if d <=? sy_now s then Idle else Waiting th tok d) l s)
| step_release s i th tok since :
    sy_workers s !! i = Some (Holding th tok since) ->
    step s (Release i) (put_worker i Idle (lk_release (sy_now s) th tok (sy_lock s)) s)
| step_drop s i th tok since :
    lease <> None ->
    sy_workers s !! i = Some (Holding th tok since) ->
    step s (Drop i) (put_worker i Idle (sy_lock s) s).

Definition initial (n : nat) (now : Z) (l : L) : sys :=
  {| sy_now := now; sy_lock := l; sy_workers := gset_to_gmap Idle (set_seq 0 n);
     sy_tokens := ∅ |}.
End system.
Arguments sys : clear implicits.

(** ** Mutual exclusion *)

Lemma lease_valid_mono lease since t t' :
  t <= t' -> lease_valid lease since t' = true -> lease_valid lease since t = true.
Proof.
  unfold lease_valid. destruct lease; [|done]. intros. apply Z.ltb_lt. bool_to_prop. lia.
Qed.

Section exclusion.
Context {L : Type} `{!LockStore L} (lease : option Z) `{!LockLaws L lease} (wait : Z).

(** Worker [i] holds [th], with a lease that has not run out. *)
Definition holds (s : sys L) (i : nat) (th : pystr) : Prop :=
  exists tok since, sy_workers s !! i = Some (Holding th tok since) /\
    lease_valid lease since (sy_now s) = true.

Definition token_of (w : worker) : option pystr :=
  match w with Idle => None | Waiting _ tok _ | Holding _ tok _ => Some tok end.

Record sys_ok (s : sys L) : Prop := {
  ok_locked : forall i th tok since t, sy_workers s !! i = Some (Holding th tok since) ->
    sy_now s <= t -> lease_valid lease since t = true -> lk_locked (sy_lock s) t th = Some tok;
  ok_unique : forall i j th, holds s i th -> holds s j th -> i = j;
  ok_known : forall i w tok, lease <> None -> sy_workers s !! i = Some w -> token_of w = Some tok ->
    tok ∈ sy_tokens s;
  ok_distinct : forall i j w w' tok, lease <> None ->
    sy_workers s !! i = Some w -> sy_workers s !! j = Some w' ->
    token_of w = Some tok -> token_of w' = Some tok -> i = j;
  ok_tokens : forall i w tok, sy_workers s !! i = Some w -> token_of w = Some tok -> lk_token tok;
}.

(** One worker moves on, keeping its token or dropping it; the lock keeps the leases of
    the others, and records the worker's own if it now holds one. *)
Lemma put_ok (s : sys L) i w0 w l :
  sys_ok s -> sy_workers s !! i = Some w0 ->
  (token_of w = token_of w0 \/ token_of w = None) ->
  (forall j th tok since t, j <> i -> sy_workers s !! j = Some (Holding th tok since) ->
     sy_now s <= t -> lease_valid lease since t = true -> lk_locked l t th = Some tok) ->
  (forall th tok since, w = Holding th tok since ->
     (forall t, sy_now s <= t -> lease_valid lease since t = true -> lk_locked l t th = Some tok) /\
     (forall j, j <> i -> ~ holds s j th)) ->
  sys_ok (put_worker i w l s).
Proof using Type.
  intros [Hlock Huniq Hk Hd Ht] Hi Hw Hothers Hown.
  assert (Hback : forall k w1 tok, <[i := w]> (sy_workers s) !! k = Some w1 -> token_of w1 = Some tok ->
    exists w2, sy_workers s !! k = Some w2 /\ token_of w2 = Some tok).
  { intros k w1 tok [[-> <-]|[Hne Hk1]]%lookup_insert_Some Ht1; [|by eauto].
    exists w0. split; [done|]. destruct Hw; congruence. }
  split; cbn.
  - intros j th tok since t [[-> ->]|[Hne Hj]]%lookup_insert_Some Hle Hv; [|by eapply Hothers].
    by apply (Hown th tok since eq_refl).
  - unfold holds. cbn. intros j k th (tk & si & [[-> ->]|[Hj H1]]%lookup_insert_Some & H2)
      (tk' & sk & [[-> Hw']|[Hk' H3]]%lookup_insert_Some & H4); cbn in *; [done|..].
    + destruct (proj2 (Hown _ _ _ eq_refl) k ltac:(done)). by exists tk', sk.
    + destruct (proj2 (Hown _ _ _ Hw') j ltac:(done)). by exists tk, si.
    + apply (Huniq j k th); [by exists tk, si|by exists tk', sk].
  - intros k w1 tok Hl H1 H2. destruct (Hback _ _ _ H1 H2) as (w2 & H3 & H4). eauto.
  - intros k j w1 w2 tok Hl H1 H2 H3 H4.
    destruct (Hback _ _ _ H1 H3) as (w3 & H5 & H6), (Hback _ _ _ H2 H4) as (w4 & H7 & H8). eauto.
  - intros k w1 tok H1 H2. destruct (Hback _ _ _ H1 H2) as (w2 & H3 & H4). eauto.
Qed.

Lemma tick_ok (s : sys L) t : sys_ok s -> sy_now s <= t ->
  sys_ok {| sy_now := t; sy_lock := sy_lock s; sy_workers := sy_workers s; sy_tokens := sy_tokens s |}.
Proof using Type.
  intros [Hlock Huniq Hk Hd Htk] Ht. split; cbn; [|..|done|done|done].
  - intros. apply (Hlock i th tok since); [done|lia|done].
  - intros i j th (tk & si & H1 & H2) (tk' & sj & H3 & H4). cbn in *.
    apply (Huniq i j th); eexists _, _; (split; [done|]); by eapply lease_valid_mono.
Qed.

Lemma start_ok (s : sys L) i th tok d : sys_ok s -> sy_workers s !! i = Some Idle -> lk_token tok ->
  (lease <> None -> tok ∉ sy_tokens s) ->
  sys_ok {| sy_now := sy_now s; sy_lock := sy_lock s;
            sy_workers := <[i := Waiting th tok d]> (sy_workers s);
            sy_tokens := {[tok]} ∪ sy_tokens s |}.
Proof using Type.
  intros [Hlock Huniq Hknown Hdist Htok] Hi Htk Hfresh.
  assert (Hk : forall j w tok', lease <> None -> <[i := Waiting th tok d]> (sy_workers s) !! j = Some w ->
    token_of w = Some tok' -> (j = i /\ tok' = tok) \/ (j <> i /\ tok' <> tok /\ sy_workers s !! j = Some w)).
  { intros j w tok' Hl [[-> <-]|[Hne Hj]]%lookup_insert_Some Hw; [by injection Hw as <-; left|].
    right. split; [done|]. split; [|done]. intros ->. by destruct (Hfresh Hl); eapply Hknown. }
  split; cbn.
  - intros j th' tok' since t [[-> ?]|[Hne Hj]]%lookup_insert_Some; [done|eauto].
  - unfold holds. cbn. intros j k th' (tk & si & [[-> ?]|[Hj H1]]%lookup_insert_Some & H2)
      (tk' & sk & [[-> ?]|[Hk' H3]]%lookup_insert_Some & H4); try done.
    apply (Huniq j k th'); [by exists tk, si|by exists tk', sk].
  - intros j w tok' Hl Hj Hw. destruct (Hk _ _ _ Hl Hj Hw) as [[_ ->]|(_ & _ & Hj')]; [set_solver|].
    apply elem_of_union_r. eauto.
  - intros j k w w' tok' Hl H1 H2 H3 H4.
    destruct (Hk _ _ _ Hl H1 H3) as [[-> ->]|(_ & Hn & H5)], (Hk _ _ _ Hl H2 H4) as [[-> ?]|(_ & Hn' & H6)];
      [done|done|done|eauto].
  - intros j w tok' [[-> <-]|[Hne Hj]]%lookup_insert_Some Hw; [by injection Hw as <-|eauto].
Qed.

Lemma attempt_ok (s : sys L) i th tok d b l : sys_ok s ->
  sy_workers s !! i = Some (Waiting th tok d) ->
  lk_try (sy_now s) th tok (sy_lock s) = (b, l) ->
  sys_ok (put_worker i (if b then Holding th tok (sy_now s)
                        else if d <=? sy_now s then Idle else Waiting th tok d) l s).
Proof using Type.
  intros Hok Hi Htry. assert (Htk : lk_token tok) by (by eapply (ok_tokens s Hok)).
  pose proof (lk_try_ok (sy_now s) th tok (sy_lock s)) as Hfree.
  pose proof (fun t th' => lk_try_locked (sy_now s) th tok (sy_lock s) t th' Htk) as Hafter.
  rewrite Htry in Hfree, Hafter. cbn [fst snd] in *.
  assert (Hheld : forall j, holds s j th -> lk_locked (sy_lock s) (sy_now s) th <> None).
  { intros j (tk & si & H1 & H2). by rewrite (ok_locked s Hok j th tk si) by done. }
  apply (put_ok s i (Waiting th tok d)); [done|done|..].
  - destruct b; [by left|]. destruct (d <=? _); [by right|by left].
  - intros j th' tok' since t Hne Hj Hle Hv. rewrite Hafter by done. rewrite decide_False.
    { by eapply (ok_locked s Hok). }
    intros [-> Hnone]. eapply (Hheld j); [|done]. exists tok', since.
    split; [done|]. by eapply lease_valid_mono.
  - intros th' tok' since Hw. destruct b; [|by destruct (d <=? _)]. injection Hw as <- <- <-.
    symmetry in Hfree. apply bool_decide_eq_true in Hfree. split.
    + intros t Hle Hv. rewrite Hafter, decide_True by done. by rewrite Hv.
    + intros j Hne Hh. by apply (Hheld j Hh).
Qed.

Lemma release_ok (s : sys L) i th tok since : sys_ok s ->
  sy_workers s !! i = Some (Holding th tok since) ->
  sys_ok (put_worker i Idle (lk_release (sy_now s) th tok (sy_lock s)) s).
Proof using Type.
  intros Hok Hi. assert (Htk : lk_token tok) by (by eapply (ok_tokens s Hok)).
  apply (put_ok s i (Holding th tok since)); [done|done|by right| |done].
  intros j th' tok' since' t Hne Hj Hle Hv.
  assert (Hv0 : lease_valid lease since' (sy_now s) = true) by (by eapply lease_valid_mono).
  rewrite lk_release_locked by done. rewrite decide_False; [by eapply (ok_locked s Hok)|].
  intros [-> Hl]. rewrite (ok_locked s Hok j th tok' since') in Hl by done. injection Hl as ->.
  apply Hne. destruct (decide (lease = None)) as [El|El]; cycle 1.
  - by eapply (ok_distinct s Hok j i _ _ tok).
  - assert (Hvi : lease_valid lease since (sy_now s) = true) by (unfold lease_valid; by rewrite El).
    apply (ok_unique s Hok j i th); [by exists tok, since'|by exists tok, since].
Qed.

Lemma lock_step_ok s l s' : sys_ok s -> step lease wait s l s' -> sys_ok s'.
Proof using Type.
  intros Hok Hstep.
  destruct Hstep as [s t Ht|s i th tok Hi Htk Hf|s i th tok d l Hi Htry|s i th tok d l Hi Htry
                    |s i th tok since Hi|s i th tok since Hl Hi].
  - by apply tick_ok.
  - by apply start_ok.
  - by apply (attempt_ok s i th tok d true).
  - by apply (attempt_ok s i th tok d false).
  - by eapply release_ok.
  - eapply put_ok; [done|done|by right| |done]. intros. by eapply (ok_locked s Hok).
Qed.

Lemma initial_ok n now (l : L) : sys_ok (initial n now l).
Proof using Type.
  assert (H : forall i w, sy_workers (initial n now l) !! i = Some w -> w = Idle).
  { intros i w Hi. apply lookup_gset_to_gmap_Some in Hi as [_ <-]. done. }
  split; cbn in *.
  - intros i th tok since t Hi. by apply H in Hi.
  - intros i j th (tk & si & Hi & _). by apply H in Hi.
  - intros i w tok _ Hi Hw. by apply H in Hi as ->.
  - intros i j w w' tok _ Hi _ Hw. by apply H in Hi as ->.
  - intros i w tok Hi Hw. by apply H in Hi as ->.
Qed.
End exclusion.

(** C6.  Mutual exclusion: however attempts, releases, failures and time interleave, no
    two workers are ever inside the same conversation while their leases run, and the
    lock refuses everybody else; over Redis a lease is the lock's time to live, in
    process it never ends. *)
Theorem session_mutual_exclusion {L : Type} `{!LockStore L} lease `{!LockLaws L lease}
    wait n now (l : L) labels s i j th :
  trace (step lease wait) (initial n now l) labels s ->
  holds lease s i th -> holds lease s j th ->
  i = j /\ is_Some (lk_locked (sy_lock s) (sy_now s) th).
Proof.
  intros Ht Hi Hj.
  assert (Hok : sys_ok lease s).
  { eapply (trace_inv _ (sys_ok lease)); [|exact Ht|apply initial_ok]. intros. by eapply lock_step_ok. }
  split; [by apply (ok_unique lease s Hok i j th)|].
  destruct Hi as (tok & since & Hw & Hv). exists tok. by eapply (ok_locked lease s Hok).
Qed.

Abbreviation redis_state := (Server.kvstate pystr).

(** The steps of workers over the executable Redis, with a lease of one second. *)
Definition redis_step : sys redis_state -> label -> sys redis_state -> Prop :=
  step (LockStore0 := RedisLock.redis_lock 1000) (Some 1000) 0.

Ltac fresh_token := intros _; apply (bool_decide_unpack _); vm_compute; exact I.

Definition one_inside : sys redis_state :=
  {| sy_now := 0; sy_lock := {[RedisLock._key (u "t") := (u "a", Some 1000)]};
     sy_workers := {[0%nat := Holding (u "t") (u "a") 0; 1%nat := Idle]};
     sy_tokens := {[u "a"]} |}.

Lemma one_inside_reached :
  trace redis_step (initial 2 0 ∅) [Start 0 (u "t") (u "a"); Attempt 0] one_inside.
Proof.
  eapply trace_cons; [apply step_start; [reflexivity|exact I|fresh_token]|].
  eapply trace_cons; [eapply step_acquired; reflexivity|].
  match goal with |- trace _ ?s _ _ => replace s with one_inside by (vm_compute; reflexivity) end.
  constructor.
Qed.

Lemma session_mutual_exclusion_witness :
  (0 = 0 /\ is_Some (kv 0 (RedisLock._key (u "t")) (sy_lock one_inside)))%nat.
Proof.
  assert (Hh : holds (Some 1000) one_inside 0 (u "t")) by (exists (u "a"), 0; done).
  exact (session_mutual_exclusion (Some 1000) (LockLaws0 := RedisLock.redis_lock_laws 1000 eq_refl)
    0 2 0 ∅ _ one_inside 0 0 (u "t") one_inside_reached Hh Hh).
Defined.

(** The lease is not renewed: a turn that outlives it shares its conversation.  Two
    workers are inside the same one, the first past its lease and still running. *)
Theorem lease_overrun_overlaps :
  exists labels s, trace redis_step (initial 2 0 ∅) labels s /\
    sy_workers s !! 0%nat = Some (Holding (u "t") (u "a") 0) /\
    sy_workers s !! 1%nat = Some (Holding (u "t") (u "b") 1000).
Proof.
  eexists _, _. split.
  - eapply trace_app; [exact one_inside_reached|].
    eapply trace_cons; [apply (step_tick _ _ _ 1000); vm_compute; discriminate|].
    eapply trace_cons; [apply (step_start _ _ _ 1 (u "t") (u "b")); [reflexivity|exact I|fresh_token]|].
    eapply trace_cons; [eapply (step_acquired _ _ _ 1 (u "t") (u "b") 1000); reflexivity|]. constructor.
  - split; reflexivity.
Qed.

(** ** Waiting ends *)

(** Acquiring always ends: with the interval it sleeps for, the loop makes at most
    [wait / interval + 2] attempts; it succeeds at the first that finds the lock free,
    and reports a busy session only after every attempt up to the deadline failed. *)
Theorem acquire_terminates (free : nat -> bool) wait interval now :
  0 <= wait -> 0 < interval ->
  exists r, acquire_loop (Z.to_nat (wait / interval) + 2) free 0 now (now + wait) interval = Some r /\
  match r with
  | Ok k => free k = true /\ (forall j, (j < k)%nat -> free j = false) /\
            Z.of_nat k <= wait / interval + 1
  | Raise e => e = SessionBusyError [] /\
               forall j, (Z.of_nat j * interval <= wait) -> free j = false
  end.
Proof.
  intros Hw Hi. set (last := Z.to_nat (wait / interval)).
  assert (Hlast : Z.of_nat last = wait / interval) by (subst last; pose proof (Z.div_pos wait interval); lia).
  assert (Hdm := Z.div_mod wait interval ltac:(lia)).
  assert (Hmod := Z.mod_pos_bound wait interval Hi).
  assert (H : forall fuel k, (fuel + k = last + 2)%nat -> (1 <= fuel)%nat ->
    (forall j, (j < k)%nat -> free j = false) ->
    exists r, acquire_loop fuel free k (now + Z.of_nat k * interval) (now + wait) interval = Some r /\
    match r with
    | Ok k => free k = true /\ (forall j, (j < k)%nat -> free j = false) /\
              Z.of_nat k <= wait / interval + 1
    | Raise e => e = SessionBusyError [] /\ forall j, Z.of_nat j * interval <= wait -> free j = false
    end).
  { induction fuel as [|fuel IH]; intros k Hk Hf Hpre; [lia|]. cbn [acquire_loop].
    destruct (free k) eqn:Ek; [eexists; split; [reflexivity|]; split; [done|]; split; [done|lia]|].
    destruct (Z.leb_spec (now + wait) (now + Z.of_nat k * interval)) as [Hd|Hd].
    - eexists. split; [reflexivity|]. split; [done|]. intros j Hj.
      destruct (decide (j = k)) as [->|]; [done|]. apply Hpre. nia.
    - assert (Hkl : (k <= last)%nat) by nia.
      replace (now + Z.of_nat k * interval + interval) with (now + Z.of_nat (S k) * interval) by lia.
      apply IH; [lia|lia|]. intros j Hj. destruct (decide (j = k)) as [->|]; [done|]. apply Hpre. lia. }
  destruct (H (last + 2)%nat 0%nat) as (r & Hr & Hspec); [lia|lia|lia|].
  exists r. split; [|done]. by rewrite Z.mul_0_l, Z.add_0_r in Hr.
Qed.

Lemma acquire_terminates_witness :
  exists r, acquire_loop 4 (fun k => (3 <=? k)%nat) 0 100 350 100 = Some r.
Proof.
  destruct (acquire_terminates (fun k => (3 <=? k)%nat) 250 100 100) as (r & H & _); [lia|lia|].
  exists r. exact H.
Defined.
