(* ===== verification/CheckpointCache.v ===== *)
(** * The shared checkpointer ([app/session_cache.py], [CachedInMemorySaver])

    LangGraph keeps a conversation in three dictionaries of its [InMemorySaver]; the program
    shares them between workers through a byte cache.  Every operation loads the thread
    from the cache, works on its own copy, prunes it, writes it back and forgets it.  Here:
    the blob codec, the pruning, the caches, and the operations. *)

From stdpp Require Import base list gmap sets fin_maps strings.
From S2P Require Import Prelude PyText Errors Redis.
Local Open Scope Z_scope.

Definition KEY_PREFIX : pystr := u "cs:session:".
Abbreviation bytes := (list N).
(** [b"CSK1"]. *)
Definition ENVELOPE_MAGIC : bytes := u "CSK1".

(** ** Data *)

(** A serialised value: its type tag and its bytes. *)
Definition typed : Type := pystr * bytes.
(** A checkpoint of a thread and namespace: the checkpoint, its metadata, its parent. *)
Record saved := { sa_checkpoint : typed; sa_metadata : typed; sa_parent : option pystr }.
Record write := { wr_task_id : pystr; wr_channel : pystr; wr_value : typed; wr_task_path : pystr }.

(** Keys: (thread, namespace, checkpoint) and (thread, namespace, channel, version). *)
Abbreviation writes_key := (pystr * pystr * pystr)%type.
Abbreviation blob_key := (pystr * pystr * pystr * pystr)%type.
Abbreviation namespaces := (gmap pystr (gmap pystr saved)).
Abbreviation writes_map := (gmap writes_key (gmap (pystr * Z) write)).
Abbreviation blobs_map := (gmap blob_key typed).

(** [self.storage], [self.writes], [self.blobs]. *)
Record saver := {
  storage : gmap pystr namespaces;
  writes : writes_map;
  blobs : blobs_map;
}.

(** What is cached of a thread. *)
Record payload := {
  pl_storage : namespaces;
  pl_writes : writes_map;
  pl_blobs : blobs_map;
}.
Definition no_payload : payload := {| pl_storage := ∅; pl_writes := ∅; pl_blobs := ∅ |}.

(** ** The codec *)

(** The value that is packed: dictionaries with string keys stay dictionaries, the tuple
    keys of the others are written out as lists of entries. *)
Record wire := {
  wi_version : Z;
  wi_storage : list (pystr * list (pystr * (typed * typed * option pystr)));
  wi_writes : list (writes_key * list ((pystr * Z) * (pystr * pystr * typed * pystr)));
  wi_blobs : list (blob_key * typed);
}.

(** What unpacking gives: such a value; something that is no dictionary; or a dictionary
    whose entries do not come apart as these do, on which the decoder's [except] runs. *)
Inductive unpacked : Type :=
| Wire (w : wire)
| NoDict
| Foreign.

(** [ormsgpack] and [pickle]. *)
Class Codecs := {
  packb : wire -> bytes;
  unpackb : bytes -> res exn unpacked;
  pickle_loads : bytes -> res exn (option payload);
}.
Class CodecsLaws `{Codecs} : Prop := { unpackb_packb w : unpackb (packb w) = Ok (Wire w) }.

(** A dictionary filled entry by entry. *)
Definition fill {K V} `{EqDecision K, Countable K} (l : list (K * V)) : gmap K V :=
  foldl (fun m '(k, v) => <[k := v]> m) ∅ l.

Section codec.
Context `{Codecs}.

Definition encode_saved (s : saved) : typed * typed * option pystr := (sa_checkpoint s, sa_metadata s, sa_parent s).
Definition encode_write (w : write) : pystr * pystr * typed * pystr :=
  (wr_task_id w, wr_channel w, wr_value w, wr_task_path w).

Definition encode_wire (p : payload) : wire :=
  {| wi_version := 1;
     wi_storage := map (fun '(ns, cps) => (ns, map (fun '(i, s) => (i, encode_saved s)) (map_to_list cps)))
                     (map_to_list (pl_storage p));
     wi_writes := map (fun '(k, inner) => (k, map (fun '(i, w) => (i, encode_write w)) (map_to_list inner)))
                    (map_to_list (pl_writes p));
     wi_blobs := map_to_list (pl_blobs p) |}.

Definition encode_checkpoint_blob (p : payload) : bytes := ENVELOPE_MAGIC ++ packb (encode_wire p).

Definition decode_saved (s : typed * typed * option pystr) : saved :=
  let '(c, m, p) := s in {| sa_checkpoint := c; sa_metadata := m; sa_parent := p |}.
Definition decode_write (w : pystr * pystr * typed * pystr) : write :=
  let '(t, c, v, p) := w in {| wr_task_id := t; wr_channel := c; wr_value := v; wr_task_path := p |}.

Definition _payload_from_msgpack (w : wire) : payload :=
  {| pl_storage := fill (map (fun '(ns, cps) => (ns, fill (map (fun '(i, s) => (i, decode_saved s)) cps))) (wi_storage w));
     pl_writes := fill (map (fun '(k, items) => (k, fill (map (fun '(i, v) => (i, decode_write v)) items))) (wi_writes w));
     pl_blobs := fill (wi_blobs w) |}.

Definition decode_checkpoint_blob (raw : bytes) : option payload :=
  match raw with
  | [] => None
  | _ =>
    if bool_decide (take (length ENVELOPE_MAGIC) raw = ENVELOPE_MAGIC) then
      match unpackb (drop (length ENVELOPE_MAGIC) raw) with
      | Ok (Wire w) => Some (_payload_from_msgpack w)
      | _ => None
      end
    else match pickle_loads raw with Ok (Some p) => Some p | _ => None end
  end.
End codec.

(** ** The byte caches *)

(** [SessionCache]: the time in seconds, the key, and for a write the value and its time to
    live in seconds ([0]: none). *)
Class SessionCache (C : Type) := {
  sc_get : Z -> pystr -> C -> option bytes;
  sc_set : Z -> pystr -> bytes -> Z -> C -> C;
  sc_delete : pystr -> C -> C;
  sc_touch : Z -> pystr -> Z -> C -> C;
}.

(** An entry last used at [since] with this time to live is kept at [t]. *)
Definition fresh (since ttl t : Z) : Prop := ttl <= 0 \/ t < since + ttl.

Class SessionCacheLaws (C : Type) `{SessionCache C} : Prop := {
  sc_get_set now k v ttl c t : now <= t -> fresh now ttl t -> sc_get t k (sc_set now k v ttl c) = Some v;
  sc_get_set_other now k v ttl c t k' : now <= t -> k' <> k -> sc_get t k' (sc_set now k v ttl c) = sc_get t k' c;
  sc_get_delete k c t k' : sc_get t k' (sc_delete k c) = if decide (k' = k) then None else sc_get t k' c;
  sc_touch_forever now k ttl c : ttl <= 0 -> sc_touch now k ttl c = c;
  sc_get_touch now k v ttl c t : 0 < ttl -> now <= t -> fresh now ttl t -> sc_get now k c = Some v ->
    sc_get t k (sc_touch now k ttl c) = Some v;
  sc_get_touch_other now k ttl c t k' : now <= t -> k' <> k -> sc_get t k' (sc_touch now k ttl c) = sc_get t k' c;
}.

(** [DictSessionCache]: nothing expires. *)
Module DictSessionCache.
Abbreviation store := (gmap pystr bytes).
#[export] Instance dict_cache : SessionCache store := {
  sc_get _ k c := c !! k;
  sc_set _ k v _ c := <[k := v]> c;
  sc_delete k c := delete k c;
  sc_touch _ _ _ c := c;
}.
#[export] Instance dict_cache_laws : SessionCacheLaws store.
Proof.
  split; intros; cbn.
  - apply lookup_insert_eq.
  - by apply lookup_insert_ne.
  - case_decide; [subst; apply lookup_delete_eq|by apply lookup_delete_ne].
  - done.
  - done.
  - done.
Qed.
End DictSessionCache.

(** [RedisSessionCache], and its [redis.asyncio] copy. *)
Module RedisSessionCache.
Section redis.
Context {R : Type} `{!RedisKV R bytes}.
Definition get (now : Z) (key : pystr) (r : R) : option bytes := kv now key r.
Definition set (now : Z) (key : pystr) (value : bytes) (ttl : Z) (r : R) : R :=
  set_ex now key value (if 0 <? ttl then Some ttl else None) r.
Definition delete (key : pystr) (r : R) : R := del key r.
Definition touch (now : Z) (key : pystr) (ttl : Z) (r : R) : R :=
  if 0 <? ttl then expire now key ttl r else r.
#[export] Instance redis_cache : SessionCache R :=
  { sc_get := get; sc_set := set; sc_delete := delete; sc_touch := touch }.

#[export] Instance redis_cache_laws `{!RedisKVLaws R bytes} : SessionCacheLaws R.
Proof.
  split; cbn; unfold get, set, delete, touch, fresh.
  - intros now k v ttl r t Ht Hf. rewrite kv_set_ex, decide_True by done.
    destruct (Z.ltb_spec 0 ttl); cbn; [|done]. destruct (Z.ltb_spec t (now + ttl)); [done|lia].
  - intros now k v ttl r t k' Ht Hk. by rewrite kv_set_ex, decide_False.
  - intros. apply kv_del.
  - intros now k ttl r Ht. by destruct (Z.ltb_spec 0 ttl); [lia|].
  - intros now k v ttl r t Hp Ht Hf Hg. destruct (Z.ltb_spec 0 ttl); [|lia].
    rewrite kv_expire, decide_True by done. destruct (Z.ltb_spec t (now + ttl)); [done|lia].
  - intros now k ttl r t k' Ht Hk. destruct (0 <? ttl); [|done]. by rewrite kv_expire, decide_False.
Qed.
End redis.
End RedisSessionCache.

(** ** The saver *)

(** The greatest key of a namespace; checkpoint ids grow with time. *)
Definition later (i : pystr) (j : option pystr) : option pystr :=
  match j with Some j => Some (if str_ltb i j then j else i) | None => Some i end.
Definition latest (cps : gmap pystr saved) : option pystr := foldr later None (map_to_list cps).*1.

(** A thread's entries. *)
Definition of_thread_write (t : pystr) (e : writes_key * gmap (pystr * Z) write) : Prop := e.1.1.1 = t.
Definition of_thread_blob (t : pystr) (e : blob_key * typed) : Prop := e.1.1.1.1 = t.
#[global] Instance of_thread_write_dec t e : Decision (of_thread_write t e) := ltac:(unfold of_thread_write; apply _).
#[global] Instance of_thread_blob_dec t e : Decision (of_thread_blob t e) := ltac:(unfold of_thread_blob; apply _).

(** The payload [_persist] encodes. *)
Definition payload_of (t : pystr) (s : saver) : payload :=
  {| pl_storage := default ∅ (storage s !! t);
     pl_writes := filter (of_thread_write t) (writes s);
     pl_blobs := filter (of_thread_blob t) (blobs s) |}.

Definition _evict_thread (t : pystr) (s : saver) : saver :=
  {| storage := delete t (storage s);
     writes := filter (fun e => ~ of_thread_write t e) (writes s);
     blobs := filter (fun e => ~ of_thread_blob t e) (blobs s) |}.

(** [a] updated with [b]. *)
Definition update_with {K V} `{Countable K} (a b : gmap K V) : gmap K V := b ∪ a.
Definition update_inner {K K' V} `{Countable K, Countable K'} (a b : gmap K (gmap K' V)) : gmap K (gmap K' V) :=
  union_with (fun old new => Some (update_with old new)) a b.

(** The end of [_load]: the payload into the working copy. *)
Definition put_payload (t : pystr) (p : payload) (s : saver) : saver :=
  {| storage := if decide (pl_storage p = ∅) then storage s
                else <[t := update_inner (default ∅ (storage s !! t)) (pl_storage p)]> (storage s);
     writes := update_inner (writes s) (pl_writes p);
     blobs := update_with (blobs s) (pl_blobs p) |}.

(** The key of a thread: its braces are the cluster's hash tag. *)
Definition _cache_key (t : pystr) : pystr := KEY_PREFIX ++ u "{" ++ t ++ u "}".

Section saver.
(** [self.serde.loads_typed(...).get("channel_versions")]; [None] when it raises. *)
Context (channel_versions : typed -> option (gmap pystr pystr)).

(** The checkpoint kept of a namespace. *)
Definition kept (cps : gmap pystr saved) : option (pystr * saved) :=
  i ← latest cps; s ← cps !! i; Some (i, s).
Definition prune_namespace (cps : gmap pystr saved) : option (gmap pystr saved) :=
  '(i, s) ← kept cps; Some {[i := s]}.

(** [(ns, checkpoint_id) in keep_cps] and [key in keep_blobs]. *)
Definition keeps_writes (ns_map : namespaces) (t : pystr) (e : writes_key * gmap (pystr * Z) write) : Prop :=
  of_thread_write t e -> (fst <$> (ns_map !! e.1.1.2 ≫= kept)) = Some e.1.2.
Definition keeps_blob (ns_map : namespaces) (t : pystr) (e : blob_key * typed) : Prop :=
  of_thread_blob t e ->
  ('(_, s) ← (ns_map !! e.1.1.1.2 ≫= kept); vs ← channel_versions (sa_checkpoint s); (vs : gmap pystr pystr) !! e.1.1.2)
  = Some e.1.2.
#[local] Instance keeps_writes_dec ns_map t e : Decision (keeps_writes ns_map t e) :=
  ltac:(unfold keeps_writes; apply _).
#[local] Instance keeps_blob_dec ns_map t e : Decision (keeps_blob ns_map t e) :=
  ltac:(unfold keeps_blob; apply _).

Definition _prune_thread (t : pystr) (s : saver) : saver :=
  let ns_map := default ∅ (storage s !! t) in
  if decide (ns_map = ∅) then s
  else
    {| storage := <[t := omap prune_namespace ns_map]> (storage s);
       writes := filter (keeps_writes ns_map t) (writes s);
       blobs := filter (keeps_blob ns_map t) (blobs s) |}.

Context {C : Type} `{!SessionCache C, !Codecs} (_ttl : Z).

(** The rest of [_load] once the cache has answered. *)
Definition refill (t : pystr) (raw : bytes) (s : saver) : saver :=
  let s' := _evict_thread t s in
  match decode_checkpoint_blob raw with Some p => put_payload t p s' | None => s' end.

(** [_load] and [_aload], with the client each uses. *)
Definition _load (now : Z) (t : pystr) (sc : saver * C) : saver * C :=
  let '(s, c) := sc in
  let cache_key := _cache_key t in
  let raw := default [] (sc_get now cache_key c) in
  let payload := decode_checkpoint_blob raw in
  let c' := match raw, payload with
            | [], _ => c
            | _, None => sc_delete cache_key c
            | _, Some _ => sc_touch now cache_key _ttl c
            end in
  (refill t raw s, c').

(** [_persist] and [_apersist]. *)
Definition _persist (now : Z) (t : pystr) (sc : saver * C) : saver * C :=
  let '(s, c) := sc in
  let s' := _prune_thread t s in
  if decide (default ∅ (storage s' !! t) = ∅) then (s', sc_delete (_cache_key t) c)
  else (s', sc_set now (_cache_key t) (encode_checkpoint_blob (payload_of t s')) _ttl c).
End saver.

(** [langgraph.checkpoint.memory.InMemorySaver]: the inherited operations, which may raise
    and may change the working copy. *)
Class InMemorySaver := {
  RunnableConfig : Type;
  CheckpointTuple : Type;
  DeltaHistory : Type;
  Checkpoint : Type;
  CheckpointMetadata : Type;
  ChannelVersions : Type;
  Writes : Type;
  thread_id : RunnableConfig -> pystr;
  channel_versions : typed -> option (gmap pystr pystr);
  mem_get_tuple : RunnableConfig -> saver -> res exn (option CheckpointTuple) * saver;
  mem_get_delta_channel_history : RunnableConfig -> list pystr -> saver -> res exn DeltaHistory * saver;
  mem_list : RunnableConfig -> saver -> res exn (list CheckpointTuple) * saver;
  mem_put : RunnableConfig -> Checkpoint -> CheckpointMetadata -> ChannelVersions -> saver -> res exn RunnableConfig * saver;
  mem_put_writes : RunnableConfig -> Writes -> pystr -> pystr -> saver -> res exn unit * saver;
  mem_delete_thread : pystr -> saver -> saver;
}.

(** An operation on a thread reads and writes the entries of that thread. *)
Definition local_to {A} (t : pystr) (f : saver -> res exn A * saver) : Prop :=
  forall s s', payload_of t s = payload_of t s' ->
    (f s).1 = (f s').1 /\ payload_of t (f s).2 = payload_of t (f s').2.

Class InMemorySaverLaws `{InMemorySaver} : Prop := {
  mem_get_tuple_local cfg : local_to (thread_id cfg) (mem_get_tuple cfg);
  mem_history_local cfg chs : local_to (thread_id cfg) (mem_get_delta_channel_history cfg chs);
  mem_list_local cfg : local_to (thread_id cfg) (mem_list cfg);
  mem_put_local cfg c m v : local_to (thread_id cfg) (mem_put cfg c m v);
  mem_put_writes_local cfg ws i p : local_to (thread_id cfg) (mem_put_writes cfg ws i p);
}.

(** ** [CachedInMemorySaver] *)
Module CachedInMemorySaver.
Section cached.
Context `{!InMemorySaver, !Codecs} {C : Type} `{!SessionCache C} (_ttl : Z).
Abbreviation load := (_load _ttl).
Abbreviation persist := (_persist channel_versions _ttl).

(** The body of the reading operations, and of the writing ones. *)
Definition reading {A} (f : saver -> res exn A * saver) (now : Z) (t : pystr) (sc : saver * C) : res exn A * (saver * C) :=
  let '(s, c) := load now t sc in
  let '(r, s') := f s in
  (r, (s', c)).
Definition writing {A} (f : saver -> res exn A * saver) (now : Z) (t : pystr) (sc : saver * C) : res exn A * (saver * C) :=
  let '(s, c) := load now t sc in
  match f s with
  | (Ok result, s') =>
    let '(s'', c') := persist now t (s', c) in
    (Ok result, (_evict_thread t s'', c'))
  | (Raise e, s') => (Raise e, (s', c))
  end.

Definition get_tuple (now : Z) (config : RunnableConfig) := reading (mem_get_tuple config) now (thread_id config).
Definition get_delta_channel_history (now : Z) (config : RunnableConfig) (channels : list pystr) :=
  reading (mem_get_delta_channel_history config channels) now (thread_id config).
Definition list_tuples (now : Z) (config : RunnableConfig) := reading (mem_list config) now (thread_id config).
Definition put (now : Z) (config : RunnableConfig) (checkpoint : Checkpoint) (metadata : CheckpointMetadata)
    (new_versions : ChannelVersions) :=
  writing (mem_put config checkpoint metadata new_versions) now (thread_id config).
Definition put_writes (now : Z) (config : RunnableConfig) (ws : Writes) (task_id task_path : pystr) :=
  writing (mem_put_writes config ws task_id task_path) now (thread_id config).
(** Two asynchronous writers of one thread on one worker, which hold no lock: the second is
    answered by the cache before the first has written back. *)
Definition overlapping {A B} (f : saver -> res exn A * saver) (g : saver -> res exn B * saver) (now : Z) (t : pystr)
    (sc : saver * C) : saver * C :=
  let '(s, c) := sc in
  let raw := default [] (sc_get now (_cache_key t) c) in
  let resume {A} (f : saver -> res exn A * saver) (sc : saver * C) :=
    let '(s', c') := persist now t ((f (refill t raw sc.1)).2, sc.2) in
    (_evict_thread t s', c') in
  resume g (resume f (s, c)).
Definition delete_thread (t : pystr) (sc : saver * C) : saver * C :=
  (mem_delete_thread t sc.1, sc_delete (_cache_key t) sc.2).

(** ** Workers over one cache *)

Inductive call : Type :=
| GetTuple (config : RunnableConfig)
| GetHistory (config : RunnableConfig) (channels : list pystr)
| ListTuples (config : RunnableConfig)
| Put (config : RunnableConfig) (checkpoint : Checkpoint) (metadata : CheckpointMetadata) (new_versions : ChannelVersions)
| PutWrites (config : RunnableConfig) (ws : Writes) (task_id task_path : pystr)
| DeleteThread (t : pystr).

Inductive answer : Type :=
| ATuple (r : res exn (option CheckpointTuple))
| AHistory (r : res exn DeltaHistory)
| AList (r : res exn (list CheckpointTuple))
| APut (r : res exn RunnableConfig)
| AWrites (r : res exn unit)
| ADeleted.

Definition thread_of (o : call) : pystr :=
  match o with
  | GetTuple cfg | GetHistory cfg _ | ListTuples cfg | Put cfg _ _ _ | PutWrites cfg _ _ _ => thread_id cfg
  | DeleteThread t => t
  end.

Definition answering {A S} (k : A -> answer) (rs : A * S) : answer * S := (k rs.1, rs.2).
Definition perform (now : Z) (o : call) (sc : saver * C) : answer * (saver * C) :=
  match o with
  | GetTuple cfg => answering ATuple (get_tuple now cfg sc)
  | GetHistory cfg chs => answering AHistory (get_delta_channel_history now cfg chs sc)
  | ListTuples cfg => answering AList (list_tuples now cfg sc)
  | Put cfg c m v => answering APut (put now cfg c m v sc)
  | PutWrites cfg ws i p => answering AWrites (put_writes now cfg ws i p sc)
  | DeleteThread t => (ADeleted, delete_thread t sc)
  end.

(** The workers, each with its own working copy, and their calls in the order they ran. *)
Fixpoint cluster (ops : list (Z * nat * call)) (ws : nat -> saver) (c : C) : list answer * C :=
  match ops with
  | [] => ([], c)
  | (now, w, o) :: ops' =>
    let '(a, (s, c')) := perform now o (ws w, c) in
    let '(rest, c'') := cluster ops' (fun w' => if decide (w' = w) then s else ws w') c' in
    (a :: rest, c'')
  end.
End cached.

(** ** The specification: a map from threads to what is remembered of them *)
Section spec.
Context `{!InMemorySaver}.
Abbreviation sessions := (gmap pystr payload).

(** A working copy that holds the thread and nothing else. *)
Definition copy_of (t : pystr) (m : sessions) : saver :=
  put_payload t (default no_payload (m !! t)) {| storage := ∅; writes := ∅; blobs := ∅ |}.
Definition remember (t : pystr) (s : saver) (m : sessions) : sessions :=
  let s' := _prune_thread channel_versions t s in
  if decide (default ∅ (storage s' !! t) = ∅) then delete t m else <[t := payload_of t s']> m.
Definition spec_writing {A} (f : saver -> res exn A * saver) (t : pystr) (m : sessions) : res exn A * sessions :=
  let '(r, s) := f (copy_of t m) in
  (r, if is_ok r then remember t s m else m).

Definition spec_perform (o : call) (m : sessions) : answer * sessions :=
  match o with
  | GetTuple cfg => (ATuple (mem_get_tuple cfg (copy_of (thread_id cfg) m)).1, m)
  | GetHistory cfg chs => (AHistory (mem_get_delta_channel_history cfg chs (copy_of (thread_id cfg) m)).1, m)
  | ListTuples cfg => (AList (mem_list cfg (copy_of (thread_id cfg) m)).1, m)
  | Put cfg c md v => answering APut (spec_writing (mem_put cfg c md v) (thread_id cfg) m)
  | PutWrites cfg ws i p => answering AWrites (spec_writing (mem_put_writes cfg ws i p) (thread_id cfg) m)
  | DeleteThread t => (ADeleted, delete t m)
  end.
Fixpoint one_saver (ops : list (Z * nat * call)) (m : sessions) : list answer * sessions :=
  match ops with
  | [] => ([], m)
  | (_, _, o) :: ops' =>
    let '(a, m') := spec_perform o m in
    let '(rest, m'') := one_saver ops' m' in
    (a :: rest, m'')
  end.

(** The calls come in the order of their times, and no thread is left alone for longer
    than the time to live. *)
Fixpoint paced (_ttl now : Z) (last : gmap pystr Z) (ops : list (Z * nat * call)) : Prop :=
  match ops with
  | [] => True
  | (t, _, o) :: ops' =>
    now <= t /\ match last !! thread_of o with Some since => fresh since _ttl t | None => True end /\
    paced _ttl t (<[thread_of o := t]> last) ops'
  end.
End spec.
End CachedInMemorySaver.

(** ** The codec loses nothing *)

#[local] Arguments fill : simpl never.

Lemma fill_list {K V} `{Countable K} (l : list (K * V)) : NoDup l.*1 -> fill l = list_to_map l.
Proof.
  intros Hnd. unfold fill. rewrite <- (reverse_involutive l) at 1.
  assert (Hr : forall l' : list (K * V), foldl (fun m '(k, v) => <[k := v]> m) ∅ (reverse l') = (list_to_map l' : gmap K V)).
  { induction l' as [|[k v] l' IH]; [done|]. rewrite reverse_cons, foldl_snoc, IH. done. }
  rewrite Hr. apply list_to_map_proper; [by rewrite fmap_reverse, reverse_Permutation|apply reverse_Permutation].
Qed.

Lemma fill_recoded {K V W} `{Countable K} (f : V -> W) (g : W -> V) (m : gmap K V) : (forall v, g (f v) = v) ->
  fill (map (fun '(k, w) => (k, g w)) (map (fun '(k, v) => (k, f v)) (map_to_list m))) = m.
Proof.
  intros Hgf. rewrite map_map.
  assert (He : map (fun x : K * V => let '(k, w) := let '(k, v) := x in (k, f v) in (k, g w)) (map_to_list m) = map_to_list m).
  { rewrite <- (map_id (map_to_list m)) at 2. apply map_ext. intros [k v]. by rewrite Hgf. }
  rewrite He, fill_list by apply NoDup_fst_map_to_list. apply list_to_map_to_list.
Qed.

Lemma blob_decodes `{CodecsLaws} p : decode_checkpoint_blob (encode_checkpoint_blob p) = Some p.
Proof.
  unfold decode_checkpoint_blob, encode_checkpoint_blob.
  destruct (ENVELOPE_MAGIC ++ packb (encode_wire p)) as [|b raw] eqn:E; [by vm_compute in E|].
  rewrite <- E, take_app_length, bool_decide_eq_true_2, drop_app_length, unpackb_packb by done. f_equal.
  destruct p as [st wr bl]. unfold _payload_from_msgpack, encode_wire; cbn. f_equal.
  - apply (fill_recoded (fun cps => map (fun '(i, s) => (i, encode_saved s)) (map_to_list cps))
             (fun l => fill (map (fun '(i, s) => (i, decode_saved s)) l))).
    intros cps. apply fill_recoded. by intros [].
  - apply (fill_recoded (fun inner => map (fun '(i, w) => (i, encode_write w)) (map_to_list inner))
             (fun l => fill (map (fun '(i, w) => (i, decode_write w)) l))).
    intros inner. apply fill_recoded. by intros [].
  - rewrite fill_list by apply NoDup_fst_map_to_list. apply list_to_map_to_list.
Qed.

(** ** Threads are separate *)

Definition owned (t : pystr) (p : payload) : Prop :=
  filter (of_thread_write t) (pl_writes p) = pl_writes p /\ filter (of_thread_blob t) (pl_blobs p) = pl_blobs p.

Lemma owned_payload_of t s : owned t (payload_of t s).
Proof. split; cbn; apply map_filter_filter_l; done. Qed.
Lemma owned_none t : owned t no_payload.
Proof. split; apply map_filter_empty. Qed.

Lemma update_inner_empty {K K' V} `{Countable K, Countable K'} (b : gmap K (gmap K' V)) : update_inner ∅ b = b.
Proof. unfold update_inner. apply (left_id_L ∅ (union_with _)). Qed.

Lemma payload_of_loaded t p s : owned t p -> payload_of t (put_payload t p (_evict_thread t s)) = p.
Proof.
  intros [Hw Hb]. destruct p as [st wr bl]; cbn in *. unfold payload_of, put_payload, _evict_thread; cbn. f_equal.
  - case_decide; subst; rewrite ?lookup_insert_eq, lookup_delete_eq; cbn; [done|apply update_inner_empty].
  - rewrite <- Hw at 2. apply map_eq. intros k. apply option_eq. intros v.
    unfold update_inner. rewrite !map_lookup_filter_Some, lookup_union_with.
    split; intros [Hv Hk]; split; try done.
    + destruct (filter _ (writes s) !! k) as [o|] eqn:E.
      * apply map_lookup_filter_Some in E as [_ E]. by destruct E.
      * by destruct (wr !! k).
    + destruct (filter _ (writes s) !! k) as [o|] eqn:E.
      * apply map_lookup_filter_Some in E as [_ E]. by destruct E.
      * by rewrite Hv.
  - rewrite <- Hb at 2. unfold update_with. apply map_eq. intros k. apply option_eq. intros v.
    rewrite !map_lookup_filter_Some, lookup_union_Some_raw, map_lookup_filter_Some.
    split; [intros [[Hv|(_ & Hv & Hno)] Hk]; [done|by destruct Hno]|intros [Hv Hk]; split; [by left|done]].
Qed.

Lemma payload_of_evicted t s : payload_of t (_evict_thread t s) = no_payload.
Proof.
  unfold payload_of, _evict_thread, no_payload; cbn. rewrite lookup_delete_eq. cbn. f_equal;
    apply map_empty; intros k; apply eq_None_not_Some; intros [v Hv];
    apply map_lookup_filter_Some in Hv as [Hv Hk]; apply map_lookup_filter_Some in Hv as [_ []]; exact Hk.
Qed.

Lemma cache_key_inj t t' : _cache_key t = _cache_key t' -> t = t'.
Proof. unfold _cache_key. intros H. by do 2 apply app_inv_head in H; apply app_inv_tail in H. Qed.

(** ** Pruning *)

Lemma latest_spec (cps : gmap pystr saved) i : latest cps = Some i ->
  is_Some (cps !! i) /\ forall j s, cps !! j = Some s -> str_ltb i j = false.
Proof.
  unfold latest.
  assert (Hin : forall l i, foldr later None l = Some i -> i ∈ l /\ forall j, j ∈ l -> str_ltb i j = false).
  { induction l as [|k l IH]; intros j; cbn [foldr]; [done|]. unfold later at 1.
    destruct (foldr later None l) as [m|] eqn:E.
    - destruct (IH m eq_refl) as [Hm Hle]. destruct (str_ltb k m) eqn:Hk; intros [= <-].
      + split; [by right|]. intros k' [->|Hk']%elem_of_cons; [|by apply Hle].
        destruct (str_ltb m k) eqn:Hmk; [|done]. by rewrite <- (str_ltb_irrefl k), (str_ltb_trans k m k).
      + split; [by left|]. intros k' [->|Hk']%elem_of_cons; [apply str_ltb_irrefl|].
        destruct (str_ltb k k') eqn:Hkk; [|done]. destruct (str_ltb k' m) eqn:Hkm.
        * by rewrite <- Hk, (str_ltb_trans k k' m).
        * by rewrite <- Hkk, (str_ltb_total k' m Hkm (Hle k' Hk')), Hk.
    - intros [= <-]. destruct l as [|k' l]; [|exfalso; cbn in E; by destruct (foldr later None l)].
      split; [by left|]. intros k' ->%list_elem_of_singleton. apply str_ltb_irrefl. }
  intros H. destruct (Hin _ _ H) as [Hi Hle]. split.
  - apply list_elem_of_fmap in Hi as ([k v] & -> & Hkv). apply elem_of_map_to_list in Hkv. eauto.
  - intros j s Hj. apply Hle. apply list_elem_of_fmap. exists (j, s). split; [done|]. by apply elem_of_map_to_list.
Qed.

Lemma latest_is_Some (cps : gmap pystr saved) : cps <> ∅ -> is_Some (latest cps).
Proof.
  intros Hne. unfold latest. destruct (map_to_list cps) as [|[k v] l] eqn:E; [by apply map_to_list_empty_iff in E|].
  cbn. unfold later. by destruct (foldr _ _ _).
Qed.

(** The greatest entry of a namespace. *)
Definition greatest (cps : gmap pystr saved) (i : pystr) (s : saved) : Prop :=
  cps !! i = Some s /\ forall j s', cps !! j = Some s' -> str_ltb i j = false.

Lemma kept_greatest cps i s : kept cps = Some (i, s) <-> greatest cps i s.
Proof.
  unfold kept, greatest. split.
  - destruct (latest cps) as [i'|] eqn:E; [|done]. cbn. destruct (cps !! i') as [s'|] eqn:E'; [|done]. intros [= <- <-].
    split; [done|]. apply (latest_spec _ _ E).
  - intros [Hi Hle]. destruct (latest_is_Some cps) as [i' E]; [intros ->; by rewrite lookup_empty in Hi|].
    destruct (latest_spec _ _ E) as [[s' Hs'] Hle']. rewrite E; cbn.
    assert (i' = i) as -> by (apply str_ltb_total; [by apply (Hle' _ s)|by apply (Hle _ s')]). by rewrite Hi.
Qed.

Section prune.
Context (channel_versions : typed -> option (gmap pystr pystr)).

Lemma payload_of_pruned t s :
  payload_of t (_prune_thread channel_versions t s) =
  let p := payload_of t s in
  let ns_map := pl_storage p in
  if decide (ns_map = ∅) then p
  else {| pl_storage := omap prune_namespace ns_map;
          pl_writes := filter (keeps_writes ns_map t) (pl_writes p);
          pl_blobs := filter (keeps_blob channel_versions ns_map t) (pl_blobs p) |}.
Proof.
  unfold payload_of, _prune_thread; cbn. case_decide; [done|]. cbn. f_equal.
  - by rewrite lookup_insert_eq.
  - apply map_filter_comm.
  - apply map_filter_comm.
Qed.

Lemma prune_local t s s' : payload_of t s = payload_of t s' ->
  payload_of t (_prune_thread channel_versions t s) = payload_of t (_prune_thread channel_versions t s').
Proof. intros H. by rewrite !payload_of_pruned, H. Qed.

Lemma storage_payload t s : default ∅ (storage s !! t) = pl_storage (payload_of t s).
Proof. done. Qed.
End prune.

(** The checkpoint a thread's namespace ends on. *)
Definition ends_on (s : saver) (t ns i : pystr) (sv : saved) : Prop :=
  exists cps, default ∅ (storage s !! t) !! ns = Some cps /\ greatest cps i sv.

Lemma ends_on_kept s t ns i sv : ends_on s t ns i sv <-> default ∅ (storage s !! t) !! ns ≫= kept = Some (i, sv).
Proof.
  unfold ends_on. setoid_rewrite <- kept_greatest. destruct (default ∅ (storage s !! t) !! ns) as [cps|]; cbn.
  - split; [by intros (? & [= <-] & ?)|by exists cps].
  - split; [by intros (? & ? & ?)|done].
Qed.

(** C38.  Pruning a thread ([_prune_thread]) leaves of each namespace exactly its greatest
    checkpoint, of the pending writes exactly those of a checkpoint that is kept, of the
    channel blobs exactly the versions such a checkpoint refers to, and of every other thread
    everything. *)
Theorem prune_keeps_the_latest (cv : typed -> option (gmap pystr pystr)) (t : pystr) (s : saver) :
  pl_storage (payload_of t s) <> ∅ ->
  let s' := _prune_thread cv t s in
  (forall (ns i : pystr) (sv : saved),
    (exists cps, default ∅ (storage s' !! t) !! ns = Some cps /\ cps !! i = Some sv) <-> ends_on s t ns i sv) /\
  (forall (ns i : pystr) (w : gmap (pystr * Z) write),
    writes s' !! (t, ns, i) = Some w <-> writes s !! (t, ns, i) = Some w /\ exists sv, ends_on s t ns i sv) /\
  (forall (ns ch v : pystr) (b : typed),
    blobs s' !! (t, ns, ch, v) = Some b <->
    blobs s !! (t, ns, ch, v) = Some b /\
    exists i sv vs, ends_on s t ns i sv /\ cv (sa_checkpoint sv) = Some vs /\ vs !! ch = Some v) /\
  (forall t', t' <> t -> payload_of t' s' = payload_of t' s).
Proof.
  intros Hne s'. subst s'. unfold _prune_thread. rewrite <- storage_payload in Hne. rewrite decide_False by done. cbn.
  split; [|split; [|split]].
  - intros ns i sv. rewrite lookup_insert_eq, ends_on_kept. cbn. setoid_rewrite lookup_omap.
    destruct (default ∅ (storage s !! t) !! ns) as [cps|]; cbn; [|naive_solver].
    unfold prune_namespace. destruct (kept cps) as [[i' sv']|]; cbn; [|naive_solver].
    split; [intros (? & [= <-] & Hi); apply lookup_singleton_Some in Hi as [-> ->]; done|].
    intros [= -> ->]. eexists. split; [done|]. apply lookup_singleton_eq.
  - intros ns i w. rewrite map_lookup_filter_Some. apply and_iff_compat_l.
    setoid_rewrite ends_on_kept. unfold keeps_writes, of_thread_write; cbn.
    destruct (default ∅ (storage s !! t) !! ns ≫= kept) as [[i' sv']|]; cbn; naive_solver.
  - intros ns ch v b. rewrite map_lookup_filter_Some. apply and_iff_compat_l.
    setoid_rewrite ends_on_kept. unfold keeps_blob, of_thread_blob; cbn.
    destruct (default ∅ (storage s !! t) !! ns ≫= kept) as [[i' sv']|]; cbn; [|naive_solver].
    split.
    + intros Hk. destruct (cv (sa_checkpoint sv')) as [vs|] eqn:E; [|by specialize (Hk eq_refl)]. exists i', sv', vs. auto.
    + intros (i & sv & vs & [= <- <-] & Hvs & Hv) _. by rewrite Hvs.
  - intros t' Ht. unfold payload_of; cbn. rewrite lookup_insert_ne by done. f_equal; apply map_filter_strong_ext; intros k x;
      rewrite map_lookup_filter_Some; unfold keeps_writes, keeps_blob, of_thread_write, of_thread_blob; cbn; naive_solver.
Qed.

(** ** The workers behave as one saver *)
Section refinement.
Import CachedInMemorySaver.
Context `{!InMemorySaver, !InMemorySaverLaws, !Codecs, !CodecsLaws} {C : Type} `{!SessionCache C, !SessionCacheLaws C}.
Context (_ttl : Z).
Abbreviation sessions := (gmap pystr payload).

(** At [now] the cache holds what the specification remembers, for as long as the times of
    last use allow. *)
Record agrees (now : Z) (last : gmap pystr Z) (m : sessions) (c : C) : Prop := {
  ag_none t (th : pystr) : now <= t -> m !! th = None -> sc_get t (_cache_key th) c = None;
  ag_owned (th : pystr) (p : payload) : m !! th = Some p -> owned th p;
  ag_some t (th : pystr) (p : payload) : now <= t -> m !! th = Some p ->
    match last !! th with Some since => fresh since _ttl t | None => False end ->
    sc_get t (_cache_key th) c = Some (encode_checkpoint_blob p);
  ag_last (th : pystr) (p : payload) : m !! th = Some p -> is_Some (last !! th);
}.

Lemma agrees_later now now' last m c : now <= now' -> agrees now last m c -> agrees now' last m c.
Proof. intros Hle [Hn Ho Hs Hl]. split; eauto with lia. Qed.

Lemma payload_of_copy (th : pystr) (m : sessions) : (forall p : payload, m !! th = Some p -> owned th p) ->
  payload_of th (copy_of th m) = default no_payload (m !! th).
Proof.
  intros Ho. unfold copy_of.
  assert (He : {| storage := ∅; writes := ∅; blobs := ∅ |} = _evict_thread th {| storage := ∅; writes := ∅; blobs := ∅ |}).
  { unfold _evict_thread; cbn. by rewrite delete_empty, !map_filter_empty. }
  rewrite He. apply payload_of_loaded. destruct (m !! th) as [p|] eqn:E; [by apply Ho|apply owned_none].
Qed.

Lemma encoded_nonempty p : encode_checkpoint_blob p <> [].
Proof. unfold encode_checkpoint_blob. intros [He _]%app_eq_nil. by vm_compute in He. Qed.

Lemma payload_of_refill t p s : owned t p -> payload_of t (refill t (encode_checkpoint_blob p) s) = p.
Proof. intros Ho. unfold refill. rewrite blob_decodes. by apply payload_of_loaded. Qed.

Lemma load_agrees now now' last m c (th : pystr) s : now <= now' -> agrees now last m c ->
  match last !! th with Some since => fresh since _ttl now' | None => True end ->
  let '(s', c') := _load _ttl now' th (s, c) in
  payload_of th s' = payload_of th (copy_of th m) /\ agrees now' (<[th := now']> last) m c'.
Proof.
  intros Hle Hag Hf. pose proof (agrees_later _ _ _ _ _ Hle Hag) as [Hn Ho Hs Hl]. cbn -[decode_checkpoint_blob refill].
  rewrite payload_of_copy by eauto.
  assert (Hother : forall c', (forall t k, now' <= t -> k <> _cache_key th -> sc_get t k c' = sc_get t k c) ->
    (forall t, now' <= t -> m !! th = None -> sc_get t (_cache_key th) c' = None) ->
    (forall t p, now' <= t -> m !! th = Some p -> fresh now' _ttl t ->
      sc_get t (_cache_key th) c' = Some (encode_checkpoint_blob p)) ->
    agrees now' (<[th := now']> last) m c').
  { intros c' Ho' Hn' Hs'. split.
    - intros t th' Ht Hm. destruct (decide (th' = th)) as [->|Hne]; [auto|]. rewrite Ho'; auto using cache_key_inj.
    - done.
    - intros t th' p Ht Hm. destruct (decide (th' = th)) as [->|Hne].
      + rewrite lookup_insert_eq. auto.
      + rewrite lookup_insert_ne, Ho' by (try done; auto using cache_key_inj). auto.
    - intros th' p Hm. rewrite lookup_insert_is_Some. destruct (decide (th = th')); eauto. }
  destruct (m !! th) as [p|] eqn:E; cbn -[decode_checkpoint_blob refill].
  - destruct (Hl th p E) as [since Hsince]. rewrite Hsince in Hf.
    rewrite (Hs now' th p) by (try done; rewrite ?Hsince; done). cbn -[decode_checkpoint_blob refill].
    rewrite blob_decodes. destruct (encode_checkpoint_blob p) as [|b raw] eqn:Eb; [by destruct (encoded_nonempty p)|].
    split; [rewrite <- Eb; by apply payload_of_refill, Ho|]. apply Hother.
    + intros t k Ht Hk. by apply sc_get_touch_other.
    + done.
    + intros t p' Ht [= <-] Hft. destruct (Z.le_gt_cases _ttl 0).
      * rewrite sc_touch_forever by done. apply Hs; [done|done|]. rewrite Hsince. by left.
      * apply sc_get_touch; [lia|done|done|]. apply Hs; [lia|done|by rewrite Hsince].
  - rewrite (Hn now' th) by done. cbn. split; [apply payload_of_evicted|]. apply Hother; auto. done.
Qed.

Lemma persist_agrees now last m c (th : pystr) s s2 : agrees now last m c -> last !! th = Some now ->
  payload_of th s = payload_of th s2 ->
  agrees now last (remember th s2 m) (_persist channel_versions _ttl now th (s, c)).2.
Proof.
  intros [Hn Ho Hs Hl] Hlast Hp. unfold _persist, remember.
  apply (prune_local channel_versions) in Hp. rewrite !storage_payload, Hp. case_decide; cbn.
  - split.
    + intros t th' Ht Hm. rewrite sc_get_delete. case_decide; [done|]. apply Hn; [done|].
      rewrite lookup_delete_ne in Hm; [done|congruence].
    + intros th' p Hm. apply lookup_delete_Some in Hm as [_ Hm]. eauto.
    + intros t th' p Ht Hm. apply lookup_delete_Some in Hm as [Hne Hm]. rewrite sc_get_delete, decide_False; [by apply Hs|].
      intros ?%cache_key_inj. congruence.
    + intros th' p Hm. apply lookup_delete_Some in Hm as [_ Hm]. eauto.
  - split.
    + intros t th' Ht Hm. apply lookup_insert_None in Hm as [Hm Hne]. rewrite sc_get_set_other; [by apply Hn|done|].
      intros ?%cache_key_inj. congruence.
    + intros th' p Hm. apply lookup_insert_Some in Hm as [[<- <-]|[_ Hm]]; [apply owned_payload_of|eauto].
    + intros t th' p Ht Hm. apply lookup_insert_Some in Hm as [[<- <-]|[Hne Hm]].
      * rewrite Hlast. intros Hf. by apply sc_get_set.
      * rewrite sc_get_set_other; [by apply Hs|done|]. intros ?%cache_key_inj. congruence.
    + intros th' p Hm. apply lookup_insert_Some in Hm as [[<- <-]|[_ Hm]]; eauto.
Qed.

Lemma reading_agrees {A} (f : saver -> res exn A * saver) now now' last m c (th : pystr) s : local_to th f ->
  now <= now' -> agrees now last m c -> match last !! th with Some since => fresh since _ttl now' | None => True end ->
  let '(r, (s', c')) := reading _ttl f now' th (s, c) in
  r = (f (copy_of th m)).1 /\ agrees now' (<[th := now']> last) m c'.
Proof.
  intros Hloc Hle Hag Hf. unfold reading. pose proof (load_agrees _ _ _ _ _ _ s Hle Hag Hf) as Hl.
  destruct (_load _ _ _ _) as [s0 c0]. destruct Hl as [Hp Hag']. destruct (Hloc _ _ Hp) as [Hr _].
  by destruct (f s0) as [r s'].
Qed.

Lemma writing_agrees {A} (f : saver -> res exn A * saver) now now' last m c (th : pystr) s : local_to th f ->
  now <= now' -> agrees now last m c -> match last !! th with Some since => fresh since _ttl now' | None => True end ->
  let '(r, (s', c')) := writing _ttl f now' th (s, c) in
  r = (spec_writing f th m).1 /\ agrees now' (<[th := now']> last) (spec_writing f th m).2 c'.
Proof.
  intros Hloc Hle Hag Hf. unfold writing, spec_writing. pose proof (load_agrees _ _ _ _ _ _ s Hle Hag Hf) as Hl.
  destruct (_load _ _ _ _) as [s0 c0]. destruct Hl as [Hp Hag']. destruct (Hloc _ _ Hp) as [Hr Hs].
  destruct (f s0) as [r s1], (f (copy_of th m)) as [r' s2]. cbn in Hr, Hs. subst r'. destruct r as [a|e]; cbn [is_ok fst snd]; [|done].
  pose proof (persist_agrees _ _ _ _ _ _ _ Hag' (lookup_insert_eq _ _ _) Hs) as Hpa.
  destruct (_persist _ _ _ _ _) as [s3 c3]. cbn in Hpa. by split.
Qed.

Lemma perform_agrees now now' last m c o s : now <= now' -> agrees now last m c ->
  match last !! thread_of o with Some since => fresh since _ttl now' | None => True end ->
  let '(a, (s', c')) := perform _ttl now' o (s, c) in
  a = (spec_perform o m).1 /\ agrees now' (<[thread_of o := now']> last) (spec_perform o m).2 c'.
Proof.
  intros Hle Hag Hf. destruct o as [cfg|cfg chs|cfg|cfg ck md v|cfg w i p|th]; cbn [thread_of] in Hf; cbn [perform thread_of spec_perform]; unfold answering.
  1-3: unfold get_tuple, get_delta_channel_history, list_tuples;
    match goal with |- context [reading _ ?f _ _ _] =>
      pose proof (fun Hloc => reading_agrees f _ _ _ _ _ _ s Hloc Hle Hag Hf) as Hr;
      destruct (reading _ f _ _ _) as [r [s' c']]
    end; destruct Hr as [-> ?]; [auto using mem_get_tuple_local, mem_history_local, mem_list_local|done].
  1-2: unfold put, put_writes;
    match goal with |- context [writing _ ?f _ _ _] =>
      pose proof (fun Hloc => writing_agrees f _ _ _ _ _ _ s Hloc Hle Hag Hf) as Hr;
      destruct (writing _ f _ _ _) as [r [s' c']]
    end; destruct Hr as [-> ?]; [auto using mem_put_local, mem_put_writes_local|done].
  cbn [fst snd delete_thread]. split; [done|]. destruct (agrees_later _ _ _ _ _ Hle Hag) as [Hn Ho Hs Hl]. split.
  - intros t th' Ht Hm. rewrite sc_get_delete. case_decide; [done|]. apply Hn; [done|].
    rewrite lookup_delete_ne in Hm; [done|congruence].
  - intros th' p Hm. apply lookup_delete_Some in Hm as [_ Hm]. eauto.
  - intros t th' p Ht Hm. apply lookup_delete_Some in Hm as [Hne Hm]. rewrite lookup_insert_ne by done.
    rewrite sc_get_delete, decide_False; [by apply Hs|]. intros ?%cache_key_inj. congruence.
  - intros th' p Hm. apply lookup_delete_Some in Hm as [Hne Hm]. rewrite lookup_insert_ne by done. eauto.
Qed.

Lemma cluster_agrees ops now last m ws c : agrees now last m c -> paced _ttl now last ops ->
  (cluster _ttl ops ws c).1 = (one_saver ops m).1.
Proof.
  revert now last m ws c. induction ops as [|[[now' w] o] ops IH]; intros now last m ws c Hag; [done|].
  cbn [paced cluster one_saver]. intros (Hle & Hf & Hp).
  pose proof (perform_agrees now now' last m c o (ws w) Hle Hag Hf) as Hstep.
  destruct (perform _ _ _ _) as [a [s' c']]. destruct (spec_perform o m) as [a' m']. cbn in Hstep. destruct Hstep as [-> Hag'].
  specialize (IH now' _ _ (fun w' => if decide (w' = w) then s' else ws w') c' Hag' Hp).
  destruct (cluster _ _ _ _), (one_saver _ _). cbn in *. by subst.
Qed.

End refinement.

(** ** A checkpointer to run *)
Module Demo.
Import CachedInMemorySaver RedisSessionCache.

(** A codec: a value as a list of tokens, each list after its length. *)
Class Tokens (A : Type) := {
  ser : A -> bytes;
  de : bytes -> option (A * bytes);
  de_ser a rest : de (ser a ++ rest) = Some (a, rest);
}.
#[local, refine] Instance tokens_N : Tokens N := { ser n := [n]; de l := match l with n :: rest => Some (n, rest) | [] => None end }.
Proof. done. Defined.
#[local, refine] Instance tokens_Z : Tokens Z := {
  ser z := [if 0 <=? z then 0%N else 1%N; Z.abs_N z];
  de l := match l with sign :: n :: rest => Some (if decide (sign = 0%N) then Z.of_N n else - Z.of_N n, rest) | _ => None end
}.
Proof. intros z rest. cbn. rewrite N2Z.inj_abs_N. destruct (Z.leb_spec 0 z); [rewrite decide_True by done|rewrite decide_False by done]; do 2 f_equal; lia. Defined.
#[local, refine] Instance tokens_pair {A B} `{Tokens A, Tokens B} : Tokens (A * B) := {
  ser ab := ser ab.1 ++ ser ab.2;
  de l := '(a, rest) ← de l; '(b, rest') ← de rest; Some ((a, b), rest')
}.
Proof. intros [a b] rest. cbn. rewrite <- app_assoc, de_ser. cbn. by rewrite de_ser. Defined.
#[local, refine] Instance tokens_option {A} `{Tokens A} : Tokens (option A) := {
  ser o := match o with Some a => 1%N :: ser a | None => [0%N] end;
  de l := match l with 0%N :: rest => Some (None, rest) | _ :: rest => '(a, rest') ← de rest; Some (Some a, rest') | [] => None end
}.
Proof. intros [a|] rest; cbn; [|done]. by rewrite de_ser. Defined.
Fixpoint de_list {A} `{Tokens A} (n : nat) (l : bytes) : option (list A * bytes) :=
  match n with
  | O => Some ([], l)
  | S n => '(a, rest) ← de l; '(more, rest') ← de_list n rest; Some (a :: more, rest')
  end.
#[local, refine] Instance tokens_list {A} `{Tokens A} : Tokens (list A) := {
  ser l := N.of_nat (length l) :: (l ≫= ser);
  de l := match l with n :: rest => de_list (N.to_nat n) rest | [] => None end
}.
Proof.
  intros l rest. cbn. rewrite Nat2N.id. induction l as [|a l IH]; cbn; [done|].
  rewrite <- app_assoc, de_ser. cbn. by rewrite IH.
Defined.

Definition wire_value : Type :=
  Z * list (pystr * list (pystr * (typed * typed * option pystr))) *
  list (writes_key * list ((pystr * Z) * (pystr * pystr * typed * pystr))) * list (blob_key * typed).
#[local] Instance tokens_wire : Tokens wire_value := _.
#[export] Instance codecs : Codecs := {
  packb w := ser ((wi_version w, wi_storage w, wi_writes w, wi_blobs w) : wire_value);
  unpackb raw :=
    match (de raw : option (wire_value * bytes)) with
    | Some ((v, st, wr, bl), []) => Ok (Wire {| wi_version := v; wi_storage := st; wi_writes := wr; wi_blobs := bl |})
    | _ => Ok NoDict
    end;
  pickle_loads _ := Ok None;
}.
#[export] Instance codecs_laws : CodecsLaws.
Proof. split. intros [v st wr bl]. cbn -[ser de]. rewrite <- (app_nil_r (ser _)). by rewrite de_ser. Qed.

(** A saver of one channel, ["messages"]: a checkpoint is its id, a version its text. *)
Definition messages : pystr := u "messages".
Definition shown (t ns : pystr) (s : saver) : option (pystr * typed) :=
  '(i, sv) ← default ∅ (storage s !! t) !! ns ≫= kept; b ← blobs s !! (t, ns, messages, (sa_checkpoint sv).2); Some (i, b).
#[export] Instance memory : InMemorySaver := {
  RunnableConfig := pystr * pystr;
  CheckpointTuple := pystr * typed;
  DeltaHistory := list (pystr * typed);
  Checkpoint := pystr;
  CheckpointMetadata := unit;
  ChannelVersions := pystr;
  Writes := pystr;
  thread_id := fst;
  channel_versions c := Some {[messages := c.2]};
  mem_get_tuple cfg s := (Ok (shown cfg.1 cfg.2 s), s);
  mem_get_delta_channel_history cfg _ s := (Ok (option_list (shown cfg.1 cfg.2 s)), s);
  mem_list cfg s := (Ok (option_list (shown cfg.1 cfg.2 s)), s);
  mem_put cfg i _ v s :=
    (Ok cfg,
     {| storage := <[cfg.1 := <[cfg.2 := <[i := {| sa_checkpoint := (u "ck", v); sa_metadata := (u "md", []); sa_parent := None |}]>
                       (default ∅ (default ∅ (storage s !! cfg.1) !! cfg.2))]> (default ∅ (storage s !! cfg.1))]> (storage s);
        writes := writes s;
        blobs := <[(cfg.1, cfg.2, messages, v) := (u "text", i)]> (blobs s) |});
  mem_put_writes cfg w task path s :=
    (Ok tt,
     {| storage := storage s;
        writes :=
          <[(cfg.1, cfg.2, default [] (fst <$> shown cfg.1 cfg.2 s)) :=
            {[(task, 0) := {| wr_task_id := task; wr_channel := messages; wr_value := (u "w", w); wr_task_path := path |}]}]>
          (writes s);
        blobs := blobs s |});
  mem_delete_thread t s := _evict_thread t s;
}.

Lemma blobs_payload t ns ch v s : blobs s !! (t, ns, ch, v) = pl_blobs (payload_of t s) !! (t, ns, ch, v).
Proof.
  cbn. apply option_eq. intros b. rewrite map_lookup_filter_Some. unfold of_thread_blob; cbn. naive_solver.
Qed.
Lemma shown_local t ns s s' : payload_of t s = payload_of t s' -> shown t ns s = shown t ns s'.
Proof.
  intros Hp. unfold shown. rewrite !storage_payload, Hp. destruct (_ ≫= kept) as [[i sv]|]; cbn; [|done].
  by rewrite !blobs_payload, Hp.
Qed.
#[export] Instance memory_laws : InMemorySaverLaws.
Proof.
  split; intros; intros s s' Hp; cbn in *; rewrite ?(shown_local _ _ _ _ Hp); split; try done.
  - injection Hp as Hst Hw Hb. unfold payload_of; cbn. rewrite !lookup_insert_eq, Hst, Hw. f_equal.
    by rewrite !map_filter_insert_True, Hb by done.
  - injection Hp as Hst Hw Hb. unfold payload_of; cbn. rewrite Hst, Hb. f_equal.
    by rewrite !map_filter_insert_True, Hw by done.
Qed.

Definition server := Server.kvstate bytes.
Definition empty_copy : saver := {| storage := ∅; writes := ∅; blobs := ∅ |}.
Definition alice : pystr * pystr := (u "acme:alice:s1", []).
Definition bob : pystr * pystr := (u "acme:bob:s1", []).


(** Three workers, a week of sixty seconds: alice's conversation moves between the workers,
    bob's is deleted, and an old checkpoint of alice is not asked for again. *)
Definition calls : list (Z * nat * call) :=
  [(0, 0%nat, Put alice (u "001") tt (u "v1"));
   (10, 1%nat, GetTuple alice);
   (20, 2%nat, Put bob (u "009") tt (u "w1"));
   (30, 1%nat, Put alice (u "002") tt (u "v2"));
   (40, 0%nat, GetTuple alice);
   (50, 0%nat, PutWrites alice (u "half an answer") (u "task") []);
   (60, 1%nat, DeleteThread bob.1);
   (70, 2%nat, GetTuple bob);
   (80, 2%nat, ListTuples alice)].

(** What a call shows its caller. *)
Definition told (a : answer) : list (pystr * typed) :=
  match a with ATuple (Ok o) => option_list o | AList (Ok l) => l | AHistory (Ok l) => l | _ => [] end.

Example demo_cluster :
  map told (cluster (C := server) 60 calls (fun _ => empty_copy) ∅).1 =
  [[]; [(u "001", (u "text", u "001"))]; []; []; [(u "002", (u "text", u "002"))]; []; []; [];
   [(u "002", (u "text", u "002"))]].
Proof. vm_compute. reflexivity. Qed.

(** Two writers of one worker whose cache calls overlap: the checkpoint the first has saved
    is gone, the second one's writes hang on the checkpoint before. *)
Definition saved_first : saver * server := (put 60 0 alice (u "001") tt (u "v1") (empty_copy, ∅)).2.
Example overlapping_calls_lose :
  let after := overlapping 60 (mem_put alice (u "002") tt (u "v2")) (mem_put_writes alice (u "x") (u "task") []) 1 alice.1 saved_first in
  let one_by_one := (put_writes 60 1 alice (u "x") (u "task") [] (put 60 1 alice (u "002") tt (u "v2") saved_first).2).2 in
  (get_tuple 60 2 alice one_by_one).1 = Ok (Some (u "002", (u "text", u "002"))) /\
  (get_tuple 60 2 alice after).1 = Ok (Some (u "001", (u "text", u "001"))).
Proof. vm_compute. split; reflexivity. Qed.


(** Two checkpoints with a blob each, and writes of both. *)
Definition two_checkpoints : saver :=
  (mem_put alice (u "002") tt (u "v2") (mem_put alice (u "001") tt (u "v1") (mem_put bob (u "009") tt (u "w1") empty_copy).2).2).2.
Lemma prune_keeps_the_latest_witness :
  let s' := _prune_thread channel_versions alice.1 two_checkpoints in
  (map_to_list (blobs s')).*1 = [(alice.1, [], messages, u "v2"); (bob.1, [], messages, u "w1")] /\
  payload_of bob.1 s' = payload_of bob.1 two_checkpoints.
Proof.
  assert (Hne : pl_storage (payload_of alice.1 two_checkpoints) <> ∅).
  { intros He. apply (f_equal size) in He. vm_compute in He. done. }
  pose proof (prune_keeps_the_latest channel_versions alice.1 two_checkpoints Hne) as (_ & _ & _ & Hother).
  split; [vm_compute; reflexivity|]. apply Hother. intros He. vm_compute in He. done.
Defined.
End Demo.
