(* ===== verification/Runner.v ===== *)
(** * A turn, from outside ([app/graph/runner.py], [stream.py], [hydrate.py])

    What a client sees of a turn: a stream of events.  The runner holds the conversation's
    lock, restores the conversation from the archive when its checkpoint is gone, runs the
    graph through the interface [TurnGraph], turns frames into events, and closes with the
    answer.  The client is taken to read the stream to its end. *)

From stdpp Require Import base list gmap strings.
From S2P Require Import Prelude PyText Errors PyFloat Json Window Filters State Archive Tenancy OrderAccess UserMemory ToolCache Capability OrderCapability CourseCapability Supervisor Compress Turn Gateway Policy SessionLock Graph TurnArchive.

Open Scope py_scope.

(** ** Events *)

(** [ChatResponse] ([app/schemas.py]); [usage] is [TurnUsage.to_dict]. *)
Record ChatResponse := {
  resp_answer : pystr;
  resp_intent : pystr;
  resp_blocked : bool;
  resp_structured : option (list (pystr * json));
  resp_visualization : option pystr;
  resp_oss_url : option pystr;
  resp_session_id : option pystr;
  resp_usage : option (list (pystr * json));
  resp_request_id : option pystr;
  resp_trace_id : option pystr;
}.

Inductive event : Type :=
| Meta (session_id user_id tenant_id request_id : pystr) (trace_id : option pystr)
| Status (node message : pystr)
| Token (content : pystr)
| Answer (answer intent : json) (blocked : bool)
| Done (response : ChatResponse).

Definition node_name (n : gnode) : pystr :=
  match n with
  | G_security => u "security"
  | G_router => u "router"
  | G_node N_rag => u "rag"
  | G_node N_tool => u "tool"
  | G_node N_supervisor => u "supervisor"
  | G_node N_chitchat => u "chitchat"
  | G_node N_handoff => u "handoff"
  | G_node N_respond => u "respond"
  end.

Definition NODE_STATUS : list (pystr * pystr) :=
  [(u "security", u "正在做安全检查…"); (u "router", u "正在识别意图…"); (u "rag", u "正在检索课程知识库…");
   (u "tool", u "正在查询订单…"); (u "supervisor", u "正在综合处理问题…"); (u "chitchat", u "正在整理回复…");
   (u "handoff", u "正在转接人工…"); (u "respond", u "正在生成回复…")].

Definition node_status (name : pystr) : pystr :=
  match find (fun kv => bool_decide (kv.1 = name)) NODE_STATUS with Some kv => kv.2 | None => name end.

(** [d.get(k) or default]. *)
Definition get_or (k : pystr) (d : dict) (v : json) : json := if jtruthy (get k d) then get k d else v.

Definition events_from_custom (payload : json) : list event :=
  match payload with
  | JObj d =>
    if bool_decide (as_text (entry_get (u "event") d) = u "token") then
      match entry_get (u "content") d with
      | JStr content => if truthy content then [Token content] else []
      | _ => []
      end
    else []
  | _ => []
  end.

(** What the stream has shown so far: the public fields, the nodes, and the events. *)
Record seen := {
  sn_accumulated : dict;
  sn_nodes : list pystr;
  sn_events : list event;
}.
Definition nothing_seen : seen := {| sn_accumulated := ∅; sn_nodes := []; sn_events := [] |}.

Definition events_from_updates (n : gnode) (update : node_update) (s : seen) : seen :=
  let accumulated := merge_public (sn_accumulated s) (Updates n update) in
  let answer := get (u "answer") (nu_fields update) in
  {| sn_accumulated := accumulated;
     sn_nodes := sn_nodes s ++ [node_name n];
     sn_events := sn_events s ++ Status (node_name n) (node_status (node_name n)) ::
       (if jtruthy answer
        then [Answer answer (get_or (u "intent") accumulated (JStr (u "chitchat"))) (get_bool (u "blocked") accumulated)]
        else []) |}.

Definition events_from_stream_item (s : seen) (item : frame) : seen :=
  match item with
  | Custom payload =>
    {| sn_accumulated := sn_accumulated s; sn_nodes := sn_nodes s;
       sn_events := sn_events s ++ events_from_custom payload |}
  | Updates n update => events_from_updates n update s
  end.

(** ** Closing a turn *)

Definition QUOTA_ANSWER : pystr := u "今日大模型额度已用完，请明日再试或联系管理员。".

(** pydantic's check of a field that must be a string, a dictionary, or one of them or
    [None]. *)
Definition ValidationError : exn := OtherExc (u "ValidationError") [].
Definition str_field (v : json) : res exn pystr := match v with JStr s => Ok s | _ => Raise ValidationError end.
Definition ostr_field (v : json) : res exn (option pystr) :=
  match v with JStr s => Ok (Some s) | JNull => Ok None | _ => Raise ValidationError end.
Definition odict_field (v : json) : res exn (option (list (pystr * json))) :=
  match v with JObj d => Ok (Some d) | JNull => Ok None | _ => Raise ValidationError end.

Definition short_response (answer session_id : pystr) : ChatResponse :=
  {| resp_answer := answer; resp_intent := u "chitchat"; resp_blocked := false; resp_structured := None;
     resp_visualization := None; resp_oss_url := None; resp_session_id := Some session_id; resp_usage := None;
     resp_request_id := None; resp_trace_id := None |}.
Definition _quota_done (session_id : pystr) : ChatResponse := short_response QUOTA_ANSWER session_id.
Definition _unavailable_done (session_id : pystr) : ChatResponse := short_response LLM_UNAVAILABLE_ANSWER session_id.

(** [TurnUsage.to_dict], and when it is reported. *)
Definition usage_to_dict (usage : TurnUsage) : list (pystr * json) :=
  [(u "prompt_tokens", JInt (tu_prompt usage)); (u "completion_tokens", JInt (tu_completion usage));
   (u "total_tokens", JInt (tu_total usage)); (u "steps", JInt (Z.of_nat (length (tu_steps usage))))].
Definition reported_usage (usage : TurnUsage) : option (list (pystr * json)) :=
  match tu_steps usage with
  | [] => if (tu_total usage =? 0)%Z then None else Some (usage_to_dict usage)
  | _ => Some (usage_to_dict usage)
  end.
Definition no_usage : TurnUsage := {| tu_prompt := 0; tu_completion := 0; tu_total := 0; tu_steps := [] |}.

(** Of a string or empty value, whether it is blank; any other value prints as something. *)
Definition blank (v : json) : bool := match v with JStr s => negb (truthy (strip s)) | _ => false end.

(** [request_id], [trace_id]: [get_request_id] and [current_trace_ids], [""] when unset. *)
Definition _done_payload (request_id trace_id : pystr) (accumulated : dict) (session_id : pystr) (usage : TurnUsage)
    : res exn ChatResponse :=
  let answer := get_or (u "answer") accumulated (JStr []) in
  let answer := if blank answer && negb (get_bool (u "blocked") accumulated)
                then JStr LLM_UNAVAILABLE_ANSWER else answer in
  let? answer := str_field answer in
  let? intent := str_field (get_or (u "intent") accumulated (JStr (u "chitchat"))) in
  let? structured := odict_field (get (u "structured") accumulated) in
  let? visualization := ostr_field (get (u "visualization") accumulated) in
  let? oss_url := ostr_field (get (u "oss_url") accumulated) in
  Ok {| resp_answer := answer; resp_intent := intent; resp_blocked := get_bool (u "blocked") accumulated;
        resp_structured := structured; resp_visualization := visualization; resp_oss_url := oss_url;
        resp_session_id := Some session_id; resp_usage := reported_usage usage;
        resp_request_id := str_or_none request_id; resp_trace_id := str_or_none trace_id |}.

(** On the canned responses, which have neither id yet. *)
Definition _attach_trace_ids (request_id trace_id : pystr) (r : ChatResponse) : ChatResponse :=
  {| resp_answer := resp_answer r; resp_intent := resp_intent r; resp_blocked := resp_blocked r;
     resp_structured := resp_structured r; resp_visualization := resp_visualization r; resp_oss_url := resp_oss_url r;
     resp_session_id := resp_session_id r; resp_usage := resp_usage r;
     resp_request_id := if otruthy (resp_request_id r) then resp_request_id r else ostr_or (str_or_none request_id) (resp_request_id r);
     resp_trace_id := if otruthy (resp_trace_id r) then resp_trace_id r else ostr_or (str_or_none trace_id) (resp_trace_id r) |}.

(** ** The conversation *)

Record ChatTurn := {
  ct_tenant : pystr;
  ct_uid : pystr;
  ct_sid : pystr;
  ct_thread_id : pystr;
  ct_inputs : node_update;
}.

(** What [_record_turn] logs. *)
Record turn_record := {
  tr_tenant : pystr;
  tr_session_id : pystr;
  tr_thread_id : pystr;
  tr_intent : json;
  tr_blocked : bool;
  tr_nodes : list pystr;
  tr_outcome : pystr;
  tr_query : pystr;
  tr_query_chars : nat;
  tr_llm_calls : nat;
  tr_rag_empty : bool;
}.

(** The per-turn accounting of the gateway ([begin_turn_usage], [take_turn_usage]), in the
    world of the graph. *)
Class TurnAccounting (W : Type) := {
  ta_begin : W -> W;
  ta_take : W -> TurnUsage * W;
}.
(** It has nothing to do with the archive. *)
Class TurnAccountingLaws (W : Type) `{TurnGraph W, TurnAccounting W} : Prop := {
  ta_take_archive g up tenant user session :
    tg_load_archive up tenant user session (ta_take g).2 = tg_load_archive up tenant user session g;
}.

(** The graph's world, the session lock, the checkpointer's threads, and what was sent to
    the client and logged. *)
Record runner_world (W L : Type) := {
  rw_graph : W;
  rw_lock : L;
  rw_checkpoints : gmap pystr CSState;
  rw_events : list event;
  rw_turns : list turn_record;
}.
Arguments rw_graph {W L}.
Arguments rw_lock {W L}.
Arguments rw_checkpoints {W L}.
Arguments rw_events {W L}.
Arguments rw_turns {W L}.
Arguments Build_runner_world {W L}.

(** Reading a display of checkpoint writes: the state a frame's update leaves. *)
Definition saved_by `{MessageChannel} (state : CSState) (f : frame) : CSState :=
  match f with
  | Updates _ update => match apply_update state update with Ok state => state | Raise _ => state end
  | Custom _ => state
  end.

Section runner.
Context {W L : Type} `{TurnGraph W, TurnAccounting W, LockStore L, MessageChannel}.
(** The default tenant; the lock's settings; [uuid4] for a new session. *)
Context (default_tenant : pystr) (locks : lock_settings) (new_sid : pystr).
(** The token of the lock; when the turn asks for the lock and gives it back; what other
    turns do to the locks before each attempt. *)
Context (token : pystr) (start_at end_at : Z) (others : Z -> L -> L).
(** Whether the probe of the checkpointer, and the archive's database, answer. *)
Context (probe_ok archive_up : bool).
(** [get_request_id] and [current_trace_ids]. *)
Context (request_id trace_id : pystr).

Abbreviation rworld := (runner_world W L).
Abbreviation act := (ST rworld exn).

Definition on_graph {A} (m : ST W exn A) : act A := fun w =>
  let (r, g) := m (rw_graph w) in
  (r, Build_runner_world g (rw_lock w) (rw_checkpoints w) (rw_events w) (rw_turns w)).
Definition on_locks (f : L -> L) : act unit :=
  st_modify (fun w => Build_runner_world (rw_graph w) (f (rw_lock w)) (rw_checkpoints w) (rw_events w) (rw_turns w)).
Definition send (es : list event) : act unit :=
  st_modify (fun w => Build_runner_world (rw_graph w) (rw_lock w) (rw_checkpoints w) (rw_events w ++ es) (rw_turns w)).
Definition in_request {A} (m : ST identity exn A) : ST W exn A := fun g =>
  let (r, id) := m (tg_identity g) in (r, tg_with_identity id g).

(** [ChatTurn.__init__], without hydration. *)
Definition chat_turn (message user_id : pystr) (tenant_id session_id : option pystr) : ST W exn ChatTurn :=
  let tenant := str_or (opt_str tenant_id) default_tenant in
  do! in_request (set_current_tenant default_tenant tenant) in
  let uid := str_or (strip user_id) (u "anonymous") in
  do! in_request (set_current_user (Some uid)) in
  let sid := str_or (strip (opt_str session_id)) new_sid in
  st_ret {| ct_tenant := tenant; ct_uid := uid; ct_sid := sid; ct_thread_id := make_thread_id tenant sid uid;
            ct_inputs := writes (mkdict [(u "query", JStr message); (u "user_id", JStr uid);
                                         (u "tenant_id", JStr tenant); (u "session_id", JStr sid)]) |}.

Definition acheckpoint_exists (thread_id : pystr) (w : rworld) : bool :=
  probe_ok && bool_decide (is_Some (rw_checkpoints w !! thread_id)).

(** [_merge_archive]: the archived messages come without ids. *)
Definition _merge_archive (inputs : node_update) (archived : option (list (pystr * json))) : node_update :=
  match archived with
  | None | Some [] => inputs
  | Some d =>
    let a := archive_to_graph_inputs d in
    {| nu_fields := dmerge (nu_fields inputs) (cs_fields a); nu_messages := Some (map PutMessage (cs_messages a)) |}
  end.

Definition ahydrate (turn : ChatTurn) (w : rworld) : ChatTurn :=
  if acheckpoint_exists (ct_thread_id turn) w then turn
  else {| ct_tenant := ct_tenant turn; ct_uid := ct_uid turn; ct_sid := ct_sid turn; ct_thread_id := ct_thread_id turn;
          ct_inputs := _merge_archive (ct_inputs turn)
            (tg_load_archive archive_up (ct_tenant turn) (ct_uid turn) (ct_sid turn) (rw_graph w)) |}.

(** [ctx.graph.astream(inputs, thread_id)]: the inputs are written to the thread's state, the
    graph runs on it, and the checkpointer keeps the state of every step that was made. *)
Definition start_state (turn : ChatTurn) (w : rworld) : res exn CSState :=
  apply_update (default {| cs_fields := ∅; cs_messages := [] |} (rw_checkpoints w !! ct_thread_id turn)) (ct_inputs turn).

(** The outcome, and the frames, which the client sees as they come. *)
Definition graph_astream (turn : ChatTurn) : ST rworld exn (res exn unit * list frame) := fun w =>
  match start_state turn w with
  | Raise e => (Ok (Raise e, []), w)
  | Ok state =>
    let (r, g) := tg_astream state (rw_graph w) in
    let frames := drop (length (tg_frames (rw_graph w))) (tg_frames g) in
    let final := match r with Ok state' => state' | Raise _ => foldl saved_by state frames end in
    (Ok (match r with Ok _ => Ok tt | Raise e => Raise e end, frames),
     Build_runner_world g (rw_lock w) (<[ct_thread_id turn := final]> (rw_checkpoints w)) (rw_events w) (rw_turns w))
  end.

(** The local variables of [_chat_turn_stream]. *)
Record locals := {
  lo_seen : seen;
  lo_outcome : pystr;
  lo_usage : TurnUsage;
}.
Definition ended (s : seen) (outcome : pystr) (usage : TurnUsage) : locals :=
  {| lo_seen := s; lo_outcome := outcome; lo_usage := usage |}.

Definition take_turn_usage : act TurnUsage := on_graph (fun g => let (t, g) := ta_take g in (Ok t, g)).

(** What runs while the lock is held: the locals it leaves, and how it ends. *)
Definition in_session (turn : ChatTurn) : act (locals * res exn unit) :=
  do! send [Meta (ct_sid turn) (ct_uid turn) (ct_tenant turn) request_id (str_or_none trace_id)] in
  let! run := graph_astream turn in
  let s := foldl events_from_stream_item nothing_seen run.2 in
  do! send (sn_events s) in
  match run.1 with
  | Raise (TenantQuotaExceededError _ _ _) =>
    let! usage := take_turn_usage in
    do! send [Done (_attach_trace_ids request_id trace_id (_quota_done (ct_sid turn)))] in
    st_ret (ended s (u "quota") usage, Ok tt)
  | Raise (LlmCircuitOpenError _ _) =>
    let! usage := take_turn_usage in
    do! send [Done (_attach_trace_ids request_id trace_id (_unavailable_done (ct_sid turn)))] in
    st_ret (ended s (u "llm_unavailable") usage, Ok tt)
  | Raise e => st_ret (ended s (u "ok") no_usage, Raise e)
  | Ok _ =>
    let! usage := take_turn_usage in
    match _done_payload request_id trace_id (sn_accumulated s) (ct_sid turn) usage with
    | Ok response => do! send [Done response] in st_ret (ended s (u "ok") usage, Ok tt)
    | Raise e => st_ret (ended s (u "ok") usage, Raise e)
    end
  end.

(** [aacquire]: attempts every [interval] until one succeeds or the wait is over. *)
Fixpoint aacquire (fuel : nat) (thread_id : pystr) (now deadline : Z) : act (res exn unit) := fun w =>
  let (ok, l) := lk_try now thread_id token (others now (rw_lock w)) in
  let w := Build_runner_world (rw_graph w) l (rw_checkpoints w) (rw_events w) (rw_turns w) in
  if (ok : bool) then (Ok (Ok tt), w)
  else if (deadline <=? now)%Z then (Ok (Raise (SessionBusyError thread_id)), w)
  else match fuel with
       | O => (Ok (Raise (SessionBusyError thread_id)), w)
       | S fuel => aacquire fuel thread_id (now + ls_interval locks)%Z deadline w
       end.
Definition attempts : nat := Z.to_nat (ls_wait locks / ls_interval locks) + 1.

(** [async with ahold_session(...)]. *)
Definition ahold_session (turn : ChatTurn) : act (locals * res exn unit) :=
  let! held := aacquire attempts (ct_thread_id turn) start_at (start_at + ls_wait locks) in
  match held with
  | Raise e => st_ret (ended nothing_seen (u "ok") no_usage, Raise e)
  | Ok _ =>
    let! r := in_session turn in
    do! on_locks (lk_release end_at (ct_thread_id turn) token) in
    st_ret r
  end.

(** The [except] clauses: what the outcome is called. *)
Definition outcome_of (outcome : pystr) (r : res exn unit) : pystr :=
  match r with
  | Raise (SessionBusyError _) => u "session_busy"
  | Raise e => if is_Exception e && bool_decide (outcome = u "ok") then u "error" else outcome
  | Ok _ => outcome
  end.

Definition _record_turn (turn : ChatTurn) (s : seen) (outcome : pystr) (usage : TurnUsage) : turn_record :=
  let accumulated := sn_accumulated s in
  let raw_query := get_str (u "query") (nu_fields (ct_inputs turn)) in
  let intent := get_or (u "intent") accumulated (JStr (u "chitchat")) in
  {| tr_tenant := ct_tenant turn; tr_session_id := ct_sid turn; tr_thread_id := ct_thread_id turn;
     tr_intent := intent; tr_blocked := get_bool (u "blocked") accumulated; tr_nodes := sn_nodes s; tr_outcome := outcome;
     tr_query := (mask_pii (take 200 raw_query)).1; tr_query_chars := length raw_query;
     tr_llm_calls := length (tu_steps usage);
     tr_rag_empty := bool_decide (as_text intent = u "course_consult") &&
       match get (u "structured") accumulated with
       | JObj d => bool_decide (as_text (entry_get (u "course_name") d) = u "未找到课程")
       | _ => false
       end |}.

(** The [finally] clause. *)
Definition settle (turn : ChatTurn) (r : locals * res exn unit) : act unit :=
  let outcome := outcome_of (lo_outcome r.1) r.2 in
  let! usage := (if bool_decide (outcome ∈ [u "ok"; u "quota"; u "llm_unavailable"]) then st_ret (lo_usage r.1)
                 else take_turn_usage) in
  do! st_modify (fun w => Build_runner_world (rw_graph w) (rw_lock w) (rw_checkpoints w) (rw_events w)
                            (rw_turns w ++ [_record_turn turn (lo_seen r.1) outcome usage])) in
  do! on_graph (in_request (set_current_user (Some (u "anonymous")))) in
  match r.2 with Ok _ => st_ret tt | Raise e => st_raise e end.

Definition _chat_turn_stream (message user_id : pystr) (tenant_id session_id : option pystr) : act unit :=
  do! on_graph (fun g => (Ok tt, ta_begin g)) in
  let! turn := on_graph (chat_turn message user_id tenant_id session_id) in
  let! turn := (fun w => (Ok (ahydrate turn w), w)) in
  let! r := ahold_session turn in
  settle turn r.

Definition chat_astream := _chat_turn_stream.
End runner.

(** ** Properties *)

(** An event between the first and the last. *)
Definition inner (e : event) : bool := match e with Meta _ _ _ _ _ | Done _ => false | _ => true end.

Lemma inner_custom payload : Forall (fun e => inner e = true) (events_from_custom payload).
Proof. unfold events_from_custom. repeat case_match; by repeat constructor. Qed.

Lemma stream_item (s : seen) (item : frame) :
  sn_accumulated (events_from_stream_item s item) = merge_public (sn_accumulated s) item /\
  sn_nodes (events_from_stream_item s item) = sn_nodes s ++ map node_name (visited [item]) /\
  exists es, sn_events (events_from_stream_item s item) = sn_events s ++ es /\ Forall (fun e => inner e = true) es.
Proof.
  destruct item as [n update|payload]; cbn; (split; [done|]).
  - split; [done|]. eexists. split; [reflexivity|]. constructor; [done|]. by case_match; repeat constructor.
  - split; [by rewrite app_nil_r|]. eexists. split; [reflexivity|]. apply inner_custom.
Qed.

(** What is accumulated is what the frames write; what is sent is inner events. *)
Lemma stream_items fs (s : seen) :
  sn_accumulated (foldl events_from_stream_item s fs) = foldl merge_public (sn_accumulated s) fs /\
  sn_nodes (foldl events_from_stream_item s fs) = sn_nodes s ++ map node_name (visited fs) /\
  exists es, sn_events (foldl events_from_stream_item s fs) = sn_events s ++ es /\ Forall (fun e => inner e = true) es.
Proof.
  revert s. induction fs as [|f fs IH]; intros s; cbn [foldl].
  - split; [done|]. split; [by rewrite app_nil_r|]. exists []. by rewrite app_nil_r.
  - destruct (stream_item s f) as (Ha & Hn & es & He & Hi), (IH (events_from_stream_item s f)) as (-> & -> & es' & -> & Hi').
    rewrite Ha, Hn, He. split; [done|]. split.
    + rewrite <-app_assoc, <-map_app. do 2 f_equal. by destruct f.
    + exists (es ++ es'). split; [by rewrite app_assoc|by apply Forall_app].
Qed.

(** The last frame of a completed turn shows its answer. *)
Lemma last_answer fs (update : node_update) (answer : pystr) :
  nu_fields update !! u "answer" = Some (JStr answer) -> truthy answer = true ->
  exists es intent blocked,
    sn_events (foldl events_from_stream_item nothing_seen (fs ++ [Updates (G_node N_respond) update])) =
      es ++ [Answer (JStr answer) intent blocked] /\
    get (u "answer") (sn_accumulated (foldl events_from_stream_item nothing_seen (fs ++ [Updates (G_node N_respond) update])))
      = JStr answer.
Proof.
  intros Ha Ht. assert (Hg : get (u "answer") (nu_fields update) = JStr answer) by (unfold get; by rewrite Ha).
  rewrite foldl_app. cbn [foldl events_from_stream_item]. unfold events_from_updates.
  cbn [sn_events sn_accumulated merge_public]. rewrite Hg, get_dmerge, Ha. cbn [jtruthy]. rewrite Ht.
  eexists (_ ++ [_]), _, _. split; [|done]. rewrite <-app_assoc. cbn [app]. reflexivity.
Qed.

Lemma visible_answer s : truthy (strip s) = true -> truthy s = true.
Proof. by destruct s. Qed.

Section contract.
Context {W L : Type} `{TurnGraphLaws W, TurnAccounting W, !TurnAccountingLaws W, LockLaws L lease, MessageChannel}.
Context (default_tenant : pystr) (locks : lock_settings) (new_sid token : pystr) (start_at end_at : Z).
Context (others : Z -> L -> L) (probe_ok archive_up : bool) (request_id trace_id : pystr).

Abbreviation rworld := (runner_world W L).
Abbreviation session := (in_session (W := W) (L := L) request_id trace_id).

(** The client's view of a turn that got the lock. *)
Definition closed (sid : pystr) (tail : list event) (lo : locals) (r : res exn unit) : Prop :=
  match r with
  | Ok _ => lo_outcome lo ∈ [u "ok"; u "quota"; u "llm_unavailable"] /\ exists response,
      tail = [Done response] /\ resp_session_id response = Some sid /\ truthy (strip (resp_answer response)) = true
  | Raise _ => tail = [] /\ lo_outcome lo = u "ok"
  end.

Lemma done_answer acc sid usage response :
  _done_payload request_id trace_id acc sid usage = Ok response ->
  resp_session_id response = Some sid /\
  forall answer, get (u "answer") acc = JStr answer -> truthy (strip answer) = true -> resp_answer response = answer.
Proof using Type.
  unfold _done_payload. set (a := get_or (u "answer") acc (JStr [])). cbv zeta. rewrite rbind_ok.
  intros (answer & Ha & Hr). apply rbind_ok in Hr as (intent & _ & Hr). apply rbind_ok in Hr as (st & _ & Hr).
  apply rbind_ok in Hr as (vis & _ & Hr). apply rbind_ok in Hr as (oss & _ & [= <-]). cbn. split; [done|].
  intros answer' Hg Hv. assert (a = JStr answer') as Ea.
  { unfold a, get_or. rewrite Hg. cbn [jtruthy]. by rewrite visible_answer. }
  rewrite Ea in Ha. cbn [blank] in Ha. rewrite Hv in Ha. by injection Ha.
Qed.

Lemma st_bind_run {S A B} (m : ST S exn A) (k : A -> ST S exn B) s r s' : m s = (r, s') ->
  st_bind m k s = match r with Ok a => k a s' | Raise e => (Raise e, s') end.
Proof using Type. unfold st_bind. by intros ->. Qed.

(** What a completed run has streamed. *)
Lemma completed_frames state (g : W) state' g' : tg_astream state g = (Ok state', g') ->
  exists fs update answer,
    drop (length (tg_frames g)) (tg_frames g') = fs ++ [Updates (G_node N_respond) update] /\
    nu_fields update !! u "answer" = Some (JStr answer) /\
    answer = res_answer (result_from_state (cs_fields state')) /\ truthy (strip answer) = true.
Proof using All.
  intros Hrun. destruct (tg_streams state g) as [fs Hfs]. rewrite Hrun in Hfs. cbn in Hfs.
  destruct (tg_ends _ _ _ _ _ Hrun Hfs) as (fs' & update & answer & -> & Ha).
  exists fs', update, answer. rewrite Hfs, drop_app_length. split; [done|]. split; [done|].
  assert (Heq : answer = res_answer (result_from_state (cs_fields state'))).
  { rewrite (tg_public _ _ _ _ _ Hrun Hfs). unfold result_from_state. cbn [res_answer]. unfold get_str, get.
    rewrite dmerge_lookup, foldl_app. cbn [foldl merge_public]. by rewrite dmerge_lookup, Ha. }
  split; [done|]. rewrite Heq. by eapply tg_answers.
Qed.

Lemma graph_astream_spec turn (w : rworld) : exists r fs w',
  graph_astream turn w = (Ok (r, fs), w') /\
  rw_events w' = rw_events w /\ rw_lock w' = rw_lock w /\ rw_turns w' = rw_turns w /\
  match r with
  | Ok _ => exists state g state', start_state turn w = Ok state /\ tg_astream state (rw_graph w) = (Ok state', g) /\
      rw_graph w' = g /\ rw_checkpoints w' = <[ct_thread_id turn := state']> (rw_checkpoints w) /\
      fs = drop (length (tg_frames (rw_graph w))) (tg_frames g)
  | Raise _ => True
  end.
Proof using Type.
  unfold graph_astream. destruct (start_state turn w) as [state|e] eqn:Es; [|by eexists _, _, _].
  destruct (tg_astream state (rw_graph w)) as [[state'|e] g] eqn:Er.
  - eexists _, _, _. split; [reflexivity|]. cbn. repeat (split; [done|]). by exists state, g, state'.
  - by eexists _, _, _.
Qed.

(** The "ok" turn: its response, its last answer event and the checkpoint agree. *)
Definition agrees (turn : ChatTurn) (mid tail : list event) (w w' : rworld) : Prop :=
  exists state g state' response es intent blocked,
    start_state turn w = Ok state /\ tg_astream state (rw_graph w) = (Ok state', g) /\
    rw_checkpoints w' = <[ct_thread_id turn := state']> (rw_checkpoints w) /\
    tail = [Done response] /\ resp_answer response = res_answer (result_from_state (cs_fields state')) /\
    mid = es ++ [Answer (JStr (resp_answer response)) intent blocked] /\
    forall up tenant user session,
      tg_load_archive up tenant user session (rw_graph w') = tg_load_archive up tenant user session g.

Lemma in_session_spec turn (w : rworld) : exists lo r w' mid tail,
  session turn w = (Ok (lo, r), w') /\
  rw_events w' = rw_events w ++ Meta (ct_sid turn) (ct_uid turn) (ct_tenant turn) request_id (str_or_none trace_id) :: mid ++ tail /\
  Forall (fun e => inner e = true) mid /\ closed (ct_sid turn) tail lo r /\
  rw_lock w' = rw_lock w /\ rw_turns w' = rw_turns w /\
  (r = Ok tt -> lo_outcome lo = u "ok" -> agrees turn mid tail w w').
Proof using All.
  unfold in_session. unfold st_bind at 1. cbn [send st_modify].
  set (w1 := Build_runner_world _ _ _ (rw_events w ++ _) _).
  destruct (graph_astream_spec turn w1) as (r & fs & w2 & Hg & He & Hl & Ht & Hrun).
  unfold st_bind at 1. rewrite Hg. cbn [fst snd]. set (s := foldl _ _ fs).
  destruct (stream_items fs nothing_seen) as (_ & _ & es & Hes & Hin). cbn in Hes. fold s in Hes.
  unfold st_bind at 1. cbn [send st_modify]. set (w3 := Build_runner_world _ _ _ (rw_events w2 ++ _) _).
  assert (Hev : forall tail, (rw_events w2 ++ sn_events s) ++ tail =
    rw_events w ++ Meta (ct_sid turn) (ct_uid turn) (ct_tenant turn) request_id (str_or_none trace_id) :: es ++ tail).
  { intros tail. rewrite He, Hes. cbn. by rewrite <-!app_assoc. }
  assert (Hnil : rw_events w2 ++ sn_events s =
    rw_events w ++ Meta (ct_sid turn) (ct_uid turn) (ct_tenant turn) request_id (str_or_none trace_id) :: es ++ [])
    by (rewrite <-Hev; by rewrite app_nil_r).
  assert (Htake : forall v : rworld, exists usage g, take_turn_usage v =
    (Ok usage, Build_runner_world g (rw_lock v) (rw_checkpoints v) (rw_events v) (rw_turns v))).
  { intros v. unfold take_turn_usage, on_graph. destruct (ta_take (rw_graph v)). by eexists _, _. }
  destruct (Htake w3) as (usage & g3 & Hu).
  destruct r as [[]|e].
  - unfold st_bind at 1. rewrite Hu.
    destruct Hrun as (state & g & state' & Hst & Hrun & Hgr & Hcp & Hfs).
    destruct (completed_frames _ _ _ _ Hrun) as (fs0 & update & answer & Hfr & Hupd & Hans & Hvis). rewrite <-Hfs in Hfr.
    destruct (last_answer fs0 update answer Hupd (visible_answer _ Hvis)) as (es0 & intent & blocked & Hlast & Hacc).
    rewrite <-Hfr in Hlast, Hacc. fold s in Hlast, Hacc.
    destruct (_done_payload _ _ _ _ _) as [response|e] eqn:Ed.
    + destruct (done_answer _ _ _ _ Ed) as [Hsid Hresp]. specialize (Hresp _ Hacc Hvis).
      eexists _, _, _, es, [Done response]. split; [reflexivity|]. cbn [rw_events rw_lock rw_turns st_modify send snd w3].
      split; [apply Hev|]. split; [done|]. split.
      { split; [by left|]. exists response. by rewrite Hresp. }
      split; [done|]. split; [done|]. intros _ _.
      exists state, g, state', response, es0, intent, blocked. rewrite Hresp. cbn [rw_checkpoints rw_graph]. rewrite <-Hes.
      do 6 (split; [done|]). intros up t us sid. rewrite <-Hgr. 
      assert (Hg3 : g3 = (ta_take (rw_graph w2)).2).
      { revert Hu. unfold take_turn_usage, on_graph. cbn [rw_graph w3]. destruct (ta_take (rw_graph w2)). cbn. by intros [= _ <-]. }
      rewrite Hg3. apply ta_take_archive.
    + eexists _, _, _, es, []. split; [reflexivity|]. cbn. by repeat (split; [done|]).
  - destruct e.
    all: try (eexists _, _, _, es, []; split; [reflexivity|]; cbn; repeat (split; [done|]); discriminate).
    all: unfold st_bind at 1; rewrite Hu; eexists _, _, _, es, [Done _]; (split; [reflexivity|]); cbn [rw_events rw_lock rw_turns send st_modify snd];
      (split; [apply Hev|]); (split; [done|]); (split; [|by repeat (split; [done|])]).
    all: (split; [cbn; set_solver|]); eexists; (split; [reflexivity|]); (split; [reflexivity|]); vm_compute; reflexivity.
Qed.

(** Waiting for the lock changes nothing else; once taken, it is this turn's. *)
Lemma aacquire_spec fuel thread now deadline (w : rworld) :
  lk_token token -> (0 <= ls_interval locks)%Z -> exists r w',
  aacquire locks token others fuel thread now deadline w = (Ok r, w') /\
  rw_graph w' = rw_graph w /\ rw_checkpoints w' = rw_checkpoints w /\ rw_events w' = rw_events w /\
  rw_turns w' = rw_turns w /\
  match r with
  | Ok _ => exists at_, (at_ <= now + Z.of_nat fuel * ls_interval locks)%Z /\
      forall t, (at_ <= t)%Z -> lk_locked (rw_lock w') t thread = if lease_valid lease at_ t then Some token else None
  | Raise e => e = SessionBusyError thread
  end.
Proof using All.
  intros Htok Hint. revert now w. induction fuel as [|fuel IH]; intros now w; cbn [aacquire].
  all: pose proof (lk_try_ok now thread token (others now (rw_lock w))) as Hok;
    pose proof (fun t => lk_try_locked now thread token (others now (rw_lock w)) t thread Htok) as Hlk;
    destruct (lk_try now thread token (others now (rw_lock w))) as [[] l]; cbn [fst snd] in Hok, Hlk.
  all: try (symmetry in Hok; apply bool_decide_eq_true in Hok; eexists _, _; split; [reflexivity|]; cbn;
    do 4 (split; [done|]); exists now; split; [lia|]; intros t Ht; rewrite Hlk by done; by rewrite decide_True).
  all: destruct (deadline <=? now)%Z; [eexists _, _; split; [reflexivity|]; by repeat (split; [done|])|].
  - eexists _, _; split; [reflexivity|]; by repeat (split; [done|]).
  - destruct (IH (now + ls_interval locks)%Z (Build_runner_world (rw_graph w) l (rw_checkpoints w) (rw_events w) (rw_turns w)))
      as (r & w' & Hr & Hg & Hc & He & Ht & Hres). rewrite Hr. eexists _, _. split; [reflexivity|].
    cbn in *. do 4 (split; [done|]). destruct r as [[]|e]; [|done]. destruct Hres as (at_ & Hat & Hall). exists at_.
    split; [lia|done].
Qed.

(** The request's turn. *)
Definition request_tenant (tenant_id : option pystr) : pystr := str_or (opt_str tenant_id) default_tenant.
Definition request_uid (user_id : pystr) : pystr := str_or (strip user_id) (u "anonymous").
Definition request_sid (session_id : option pystr) : pystr := str_or (strip (opt_str session_id)) new_sid.

Definition request_turn (message user_id : pystr) (tenant_id session_id : option pystr) : ChatTurn :=
  {| ct_tenant := request_tenant tenant_id; ct_uid := request_uid user_id; ct_sid := request_sid session_id;
     ct_thread_id := make_thread_id (request_tenant tenant_id) (request_sid session_id) (request_uid user_id);
     ct_inputs := writes (mkdict [(u "query", JStr message); (u "user_id", JStr (request_uid user_id));
       (u "tenant_id", JStr (request_tenant tenant_id)); (u "session_id", JStr (request_sid session_id))]) |}.

Lemma chat_turn_spec message user_id tenant_id session_id (g : W) :
  match normalize_tenant_id default_tenant (Some (request_tenant tenant_id)) with
  | Raise e => (chat_turn default_tenant new_sid message user_id tenant_id session_id g).1 = Raise e
  | Ok _ => exists g', chat_turn default_tenant new_sid message user_id tenant_id session_id g =
      (Ok (request_turn message user_id tenant_id session_id), g')
  end.
Proof using Type.
  unfold chat_turn. fold (request_tenant tenant_id) (request_uid user_id) (request_sid session_id).
  unfold st_bind, in_request, set_current_tenant. destruct (normalize_tenant_id _ _) as [t|e]; [|done]. by eexists.
Qed.

Lemma ahydrate_same turn (w : rworld) :
  let turn' := ahydrate probe_ok archive_up turn w in
  ct_tenant turn' = ct_tenant turn /\ ct_uid turn' = ct_uid turn /\ ct_sid turn' = ct_sid turn /\
  ct_thread_id turn' = ct_thread_id turn.
Proof using Type. cbn. unfold ahydrate. by destruct (acheckpoint_exists _ _ _). Qed.

(** What [settle] leaves. *)
Lemma settle_spec turn lo r (w : rworld) : exists w' tr,
  settle turn (lo, r) w = (r, w') /\ rw_events w' = rw_events w /\ rw_lock w' = rw_lock w /\
  rw_checkpoints w' = rw_checkpoints w /\ rw_turns w' = rw_turns w ++ [tr] /\
  tr_thread_id tr = ct_thread_id turn /\ tr_outcome tr = outcome_of (lo_outcome lo) r /\
  current_user (tg_identity (rw_graph w')) = u "anonymous" /\
  forall up tenant user session,
    tg_load_archive up tenant user session (rw_graph w') = tg_load_archive up tenant user session (rw_graph w).
Proof using All.
  unfold settle. cbn [fst snd]. set (outcome := outcome_of _ _). case_bool_decide.
  all: unfold take_turn_usage, on_graph, in_request, set_current_user, st_bind, st_ret, st_modify, st_raise.
  2: cbn [rw_graph]; destruct (ta_take (rw_graph w)) as [usage g] eqn:Etake.
  all: destruct r as [[]|e]; eexists _, _; (split; [reflexivity|]); cbn [rw_events rw_lock rw_checkpoints rw_turns rw_graph];
    rewrite tg_identity_set; do 7 (split; [reflexivity|]); intros; rewrite tg_archive_identity; try done.
  all: pose proof (ta_take_archive (rw_graph w)) as Hta; rewrite Etake in Hta; apply Hta.
Qed.

Abbreviation stream := (_chat_turn_stream (W := W) (L := L) default_tenant locks new_sid token start_at end_at others
  probe_ok archive_up request_id trace_id).

(** The stream of a request that names a tenant: whether the lock was given or not. *)
Lemma stream_cases message user_id tenant_id session_id (w : rworld) :
  lk_token token -> (0 <= ls_interval locks)%Z ->
  let thread := make_thread_id (request_tenant tenant_id) (request_sid session_id) (request_uid user_id) in
  match normalize_tenant_id default_tenant (Some (request_tenant tenant_id)) with
  | Raise e => exists w', stream message user_id tenant_id session_id w = (Raise e, w') /\
      rw_events w' = rw_events w /\ rw_turns w' = rw_turns w /\ rw_lock w' = rw_lock w /\
      rw_checkpoints w' = rw_checkpoints w
  | Ok _ => exists turn (w0 : rworld) r w' tr, stream message user_id tenant_id session_id w = (r, w') /\
      rw_turns w' = rw_turns w ++ [tr] /\ tr_thread_id tr = thread /\
      current_user (tg_identity (rw_graph w')) = u "anonymous" /\
      turn = ahydrate probe_ok archive_up (request_turn message user_id tenant_id session_id) w0 /\
      rw_checkpoints w0 = rw_checkpoints w /\
      ((rw_events w' = rw_events w /\ rw_checkpoints w' = rw_checkpoints w /\
        r = Raise (SessionBusyError thread) /\ tr_outcome tr = u "session_busy") \/
       exists lo mid tail at_ (w1 : rworld),
         rw_events w' = rw_events w ++
           Meta (request_sid session_id) (request_uid user_id) (request_tenant tenant_id) request_id (str_or_none trace_id)
             :: mid ++ tail /\
         Forall (fun e => inner e = true) mid /\ closed (request_sid session_id) tail lo r /\
         tr_outcome tr = outcome_of (lo_outcome lo) r /\
         rw_checkpoints w1 = rw_checkpoints w /\ (r = Ok tt -> lo_outcome lo = u "ok" -> agrees turn mid tail w1 w') /\
         (at_ <= start_at + Z.of_nat (attempts locks) * ls_interval locks)%Z /\
         exists l, rw_lock w' = lk_release end_at thread token l /\
           forall t, (at_ <= t)%Z -> lk_locked l t thread = if lease_valid lease at_ t then Some token else None)
  end.
Proof using All.
  intros Htok Hint thread. unfold _chat_turn_stream.
  set (wb := Build_runner_world (ta_begin (rw_graph w)) (rw_lock w) (rw_checkpoints w) (rw_events w) (rw_turns w)).
  rewrite (st_bind_run _ _ w (Ok tt) wb) by done.
  pose proof (chat_turn_spec message user_id tenant_id session_id (rw_graph wb)) as Hct.
  destruct (chat_turn default_tenant new_sid message user_id tenant_id session_id (rw_graph wb)) as [rc g] eqn:Ec.
  rewrite (st_bind_run _ _ wb rc (Build_runner_world g (rw_lock w) (rw_checkpoints w) (rw_events w) (rw_turns w)))
    by (unfold on_graph; by rewrite Ec).
  destruct (normalize_tenant_id _ _) as [tn|e].
  2: { cbn [fst] in Hct. subst rc. by eexists. }
  destruct Hct as (g' & [= -> ->]). set (w0 := Build_runner_world g' _ _ _ _). set (turn0 := request_turn _ _ _ _).
  rewrite (st_bind_run _ _ w0 (Ok (ahydrate probe_ok archive_up turn0 w0)) w0) by done.
  pose proof (ahydrate_same turn0 w0) as (Hten & Huid & Hsid & Hth). cbn [turn0 request_turn ct_tenant ct_uid ct_sid ct_thread_id] in Hten, Huid, Hsid, Hth. fold thread in Hth.
  set (turn := ahydrate probe_ok archive_up turn0 w0) in *.
  destruct (aacquire_spec (attempts locks) thread start_at (start_at + ls_wait locks) w0 Htok Hint)
    as (ra & wa & Ha & Hag & Hac & Hae & Hat & Hres).
  unfold ahold_session. rewrite Hth. unfold st_bind at 1. rewrite (st_bind_run _ _ _ _ _ Ha).
  destruct ra as [[]|e].
  - destruct Hres as (at_ & Hat_ & Hl).
    destruct (in_session_spec turn wa) as (lo & r & w2 & mid & tail & Hs & Hev & Hin & Hcl & Hlk & Htu & Hag2).
    rewrite (st_bind_run _ _ _ _ _ Hs). unfold st_bind at 1, on_locks, st_modify, st_ret.
    set (w3 := Build_runner_world _ (lk_release _ _ _ _) _ _ _).
    destruct (settle_spec turn lo r w3) as (w4 & tr & Hset & Hev4 & Hlk4 & Hcp4 & Htu4 & Htr & Hout & Hus & Harch).
    exists turn, w0, r, w4, tr. split; [exact Hset|]. split; [by rewrite Htu4; cbn; rewrite Htu, Hat|].
    split; [by rewrite Htr|]. split; [done|]. split; [done|]. split; [done|]. right.
    exists lo, mid, tail, at_, wa. rewrite Hev4. cbn [w3 rw_events]. rewrite Hev, Hae, Hsid, Huid, Hten.
    split; [done|]. split; [done|]. split; [by rewrite <-Hsid|]. split; [done|]. split; [done|]. split.
    + intros Hr Ho. destruct (Hag2 Hr Ho) as (s1 & g1 & s2 & resp & es & i & b & ? & ? & Hcp & ? & ? & ? & Hload).
      exists s1, g1, s2, resp, es, i, b. rewrite Hcp4. cbn [w3 rw_checkpoints]. rewrite Hcp. do 6 (split; [done|]).
      intros. rewrite Harch. cbn [w3 rw_graph]. apply Hload.
    + split; [done|]. exists (rw_lock wa). split; [|done]. rewrite Hlk4. cbn [w3 rw_lock]. by rewrite Hlk.
  - subst e. unfold st_ret.
    destruct (settle_spec turn (ended nothing_seen (u "ok") no_usage) (Raise (SessionBusyError thread)) wa)
      as (w4 & tr & Hset & Hev4 & Hlk4 & Hcp4 & Htu4 & Htr & Hout & Hus & Harch).
    exists turn, w0, (Raise (SessionBusyError thread)), w4, tr. split; [exact Hset|].
    split; [by rewrite Htu4, Hat|]. split; [by rewrite Htr|]. split; [done|]. split; [done|]. split; [done|]. left.
    by rewrite Hev4, Hae, Hcp4, Hac.
Qed.


(** The three places an answer shows up in agree.  When a turn ends well, the answer of
    [Done] is the one in the conversation's checkpoint, and the last [Answer] event, right
    before it, carries the same. *)
Theorem done_is_the_answer message user_id tenant_id session_id (w w' : rworld) :
  lk_token token -> (0 <= ls_interval locks)%Z ->
  is_ok (normalize_tenant_id default_tenant (Some (request_tenant tenant_id))) = true ->
  stream message user_id tenant_id session_id w = (Ok tt, w') ->
  let thread := make_thread_id (request_tenant tenant_id) (request_sid session_id) (request_uid user_id) in
  exists tr, rw_turns w' = rw_turns w ++ [tr] /\ (tr_outcome tr = u "ok" ->
    exists state' response es intent blocked,
      rw_checkpoints w' = <[thread := state']> (rw_checkpoints w) /\
      rw_events w' = rw_events w ++ es ++ [Answer (JStr (resp_answer response)) intent blocked; Done response] /\
      resp_answer response = res_answer (result_from_state (cs_fields state'))).
Proof using All.
  intros Htok Hint Hten Hrun thread. pose proof (stream_cases message user_id tenant_id session_id w Htok Hint) as Hc.
  cbn zeta in Hc. destruct (normalize_tenant_id _ _) as [tn|]; [|done].
  destruct Hc as (turn & w0 & r' & w'' & tr & Hrun' & Htu & Htr & Hus & Hturn & _ & Hc).
  rewrite Hrun in Hrun'. injection Hrun' as <- <-. exists tr. split; [done|]. intros Hok.
  destruct Hc as [(_ & _ & [=] & _)|(lo & mid & tail & at_ & w1 & Hev & Hin & Hcl & Hout & Hcp & Hag & _)].
  cbn [outcome_of] in Hout. rewrite Hout in Hok.
  destruct (Hag eq_refl Hok) as (st & g & state' & response & es & intent & blocked & _ & _ & Hcp' & -> & Hans & -> & _).
  pose proof (ahydrate_same (request_turn message user_id tenant_id session_id) w0) as (_ & _ & _ & Hth).
  rewrite <-Hturn in Hth. cbn [request_turn ct_thread_id] in Hth. fold thread in Hth. rewrite Hth, Hcp in Hcp'.
  exists state', response, (Meta (request_sid session_id) (request_uid user_id) (request_tenant tenant_id) request_id (str_or_none trace_id) :: es),
    intent, blocked. split; [done|]. split; [|done]. rewrite Hev. by rewrite <-!app_assoc.
Qed.

(** ** From turn to turn *)

Lemma put_all (l ms : list message) `{!MessageChannelLaws} : identified l -> Forall (fun m => msg_id m = None) ms ->
  exists fresh, add_messages l (map PutMessage ms) = Ok (l ++ fresh) /\ Forall2 same_but_id ms fresh /\ identified (l ++ fresh).
Proof using Type.
  intros Hid Hms.
  assert (Hr : removed (map PutMessage ms) = []) by (clear; by induction ms).
  assert (Hp : puts true (map PutMessage ms) = [] /\ puts false (map PutMessage ms) = ms).
  { clear Hr. induction Hms as [|m ms Hm Hms IH]; [done|]. destruct IH as [IH1 IH2].
    assert (Hh : has_id m = false) by (unfold has_id; by rewrite Hm).
    unfold puts in *. cbn [map omap list_omap]. rewrite Hh. cbn. split; [exact IH1|by f_equal]. }
  destruct Hp as [Hp1 Hp2]. destruct (add_messages_spec l (map PutMessage ms)) as (fresh & Hadd & Hf & Hids); [done| |].
  { unfold applicable. rewrite Hr, Hp1. by split; constructor. }
  assert (Hl : filter (fun m => msg_id m ∉ map Some (removed (map PutMessage ms))) (map (replaced_by (map PutMessage ms)) l) = l).
  { rewrite Hr. cbn [map]. rewrite (map_ext _ id); [|intros m; unfold replaced_by; by rewrite Hp1]. rewrite map_id.
    clear. induction l as [|m l IH]; [done|]. rewrite filter_cons, decide_True by apply not_elem_of_nil. by rewrite IH. }
  rewrite Hl in Hadd, Hids. rewrite Hp2 in Hf. by exists fresh.
Qed.

Lemma decoded_new j : Forall (fun m => msg_id m = None) (decode_messages j).
Proof using Type.
  unfold decode_messages. destruct j; try done. induction l as [|v l IH]; [done|]. cbn.
  assert (Hv : forall m, decode_message v = Some m -> msg_id m = None).
  { intros m. unfold decode_message, new_message. repeat case_match; by intros [= <-]. }
  destruct (decode_message v) eqn:E; [constructor; [by apply Hv|]|]; exact IH.
Qed.

(** A request's inputs say nothing of the memory. *)
Lemma memory_inputs (a b c d : json) :
  memory_from_state (dmerge ∅ (mkdict [(u "query", a); (u "user_id", b); (u "tenant_id", c); (u "session_id", d)])) =
  memory_from_state ∅.
Proof using Type.
  unfold memory_from_state, get_ostr, get_bool, get_obj, get_str. rewrite !get_dmerge.
  repeat match goal with
  | |- context [mkdict ?l !! ?k] =>
    let r := eval vm_compute in (mkdict l !! k) in
    replace (mkdict l !! k) with r by (vm_compute; reflexivity)
  end.
  done.
Qed.

(** What a turn starts on, from an archived conversation. *)
Lemma memory_overlay (x : dict) (m : MemoryView) :
  memory_from_state (dmerge x (mkdict (memory_as_state m))) = memory_from_state (mkdict (memory_as_state m)).
Proof using Type.
  unfold memory_from_state at 1 2, get_ostr, get_bool, get_obj, get_str. rewrite !get_dmerge. unfold get.
  repeat match goal with
  | |- context [mkdict (memory_as_state m) !! ?k] =>
    let H := fresh in assert (H : exists v, mkdict (memory_as_state m) !! k = Some v)
      by (unfold memory_as_state; read_display; by eexists);
    let v := fresh in destruct H as [v ->]
  end.
  done.
Qed.

Context `{!ArchivesTurns W default_tenant, !MessageChannelLaws}.

Lemma archive_keeps_id K (d : list (pystr * json)) : K ∈ ID_KEYS -> avoids K (cs_fields (archive_to_graph_inputs d)).
Proof using Type.
  unfold ID_KEYS. cbn [map]. intros HK.
  repeat (apply elem_of_cons in HK as [->|HK]; [by apply avoids_mkdict|]). by apply elem_of_nil in HK.
Qed.

(** The inputs after hydration: the request's identity, and messages without ids. *)
Lemma hydrated_inputs probe up turn (w : rworld) : nu_messages (ct_inputs turn) = None ->
  let inputs := ct_inputs (ahydrate probe up turn w) in
  (forall K, K ∈ ID_KEYS -> nu_fields inputs !! K = nu_fields (ct_inputs turn) !! K) /\
  (nu_messages inputs = None \/ exists ms, nu_messages inputs = Some (map PutMessage ms) /\ Forall (fun m => msg_id m = None) ms).
Proof using Type.
  intros Hn. cbn zeta. unfold ahydrate. destruct (acheckpoint_exists _ _ _); [by split; [|left]|]. cbn [ct_inputs].
  unfold _merge_archive. destruct (tg_load_archive _ _ _ _ _) as [[|kv d]|]; [by split; [|left]| |by split; [|left]].
  cbn [nu_fields nu_messages]. split.
  - intros K HK. rewrite dmerge_lookup. by rewrite (archive_keeps_id K _ HK).
  - right. eexists. split; [reflexivity|]. apply decoded_new.
Qed.

(** The state a turn starts on. *)
Lemma start_state_spec turn (w : rworld) st :
  start_state turn w = Ok st ->
  (nu_messages (ct_inputs turn) = None \/
   exists ms, nu_messages (ct_inputs turn) = Some (map PutMessage ms) /\ Forall (fun m => msg_id m = None) ms) ->
  (forall s, rw_checkpoints w !! ct_thread_id turn = Some s -> identified (cs_messages s)) ->
  identified (cs_messages st) /\
  forall K v, nu_fields (ct_inputs turn) !! K = Some v -> get K (cs_fields st) = v.
Proof using All.
  unfold start_state. set (s0 := default _ _). intros Hst Hms Hcp.
  assert (Hid : identified (cs_messages s0)).
  { unfold s0. destruct (rw_checkpoints w !! _) as [s|]; [by apply Hcp|]. by split; constructor. }
  unfold apply_update in Hst. destruct Hms as [Hm|(ms & Hm & Hnew)]; rewrite Hm in Hst.
  - injection Hst as <-. split; [done|]. intros K v HK. cbn [cs_fields]. by rewrite get_dmerge, HK.
  - apply rbind_ok in Hst as (messages & Hadd & [= <-]). cbn [cs_messages cs_fields].
    destruct (put_all _ ms Hid Hnew) as (fresh & Hadd' & _ & Hid'). rewrite Hadd in Hadd'. injection Hadd' as ->.
    split; [done|]. intros K v HK. by rewrite get_dmerge, HK.
Qed.

(** The archive's key of a request is the one its turn is filed under. *)
Lemma request_key tenant_id user_id session_id (st : CSState) :
  truthy (strip (request_tenant tenant_id)) = true ->
  get (u "tenant_id") (cs_fields st) = JStr (request_tenant tenant_id) ->
  get (u "user_id") (cs_fields st) = JStr (request_uid user_id) ->
  get (u "session_id") (cs_fields st) = JStr (request_sid session_id) ->
  let ident := identity_from_state default_tenant (cs_fields st) in
  session_key (request_tenant tenant_id) (request_uid user_id) (request_sid session_id) =
  session_key (iv_tenant_id ident) (iv_user_id ident) (iv_session_id ident).
Proof using Type.
  intros Ht Hgt Hgu Hgs. unfold identity_from_state. cbn [iv_tenant_id iv_user_id iv_session_id]. unfold get_str.
  rewrite Hgt, Hgu, Hgs. unfold session_key. rewrite strip_idemp.
  assert (Hten : strip (str_or (strip (request_tenant tenant_id)) default_tenant) = strip (request_tenant tenant_id))
    by (unfold str_or; by rewrite Ht, strip_idemp).
  rewrite Hten. do 2 f_equal. unfold str_or at 3.
  destruct (truthy (strip (request_uid user_id))) eqn:Eu; [by rewrite strip_idemp|]. exfalso. revert Eu. unfold request_uid, str_or. destruct (truthy (strip user_id)) eqn:Es.
  - by rewrite strip_idemp, Es.
  - by vm_compute.
Qed.

(** Starting with the checkpoint, and without it. *)
Lemma resume_hit up turn (w : rworld) s :
  rw_checkpoints w !! ct_thread_id turn = Some s -> nu_messages (ct_inputs turn) = None ->
  start_state (ahydrate true up turn w) w =
    Ok {| cs_fields := dmerge (cs_fields s) (nu_fields (ct_inputs turn)); cs_messages := cs_messages s |}.
Proof using Type.
  intros Hs Hm. unfold ahydrate, acheckpoint_exists. rewrite Hs. cbn [andb].
  rewrite bool_decide_eq_true_2 by by eexists. unfold start_state, apply_update. rewrite Hs, Hm. done.
Qed.

Lemma resume_miss probe message user_id tenant_id session_id (w : rworld) d :
  let turn := request_turn message user_id tenant_id session_id in
  let a := archive_to_graph_inputs d in
  rw_checkpoints w !! ct_thread_id turn = None ->
  tg_load_archive true (ct_tenant turn) (ct_uid turn) (ct_sid turn) (rw_graph w) = Some d ->
  exists st, start_state (ahydrate probe true turn w) w = Ok st /\
    memory_from_state (cs_fields st) = memory_from_state (cs_fields a) /\
    Forall2 same_but_id (cs_messages a) (cs_messages st) /\ identified (cs_messages st).
Proof using All.
  cbn zeta. set (turn := request_turn _ _ _ _). intros Hn Hd. unfold ahydrate, acheckpoint_exists, start_state.
  rewrite Hn, bool_decide_eq_false_2, andb_false_r by (by intros [? [=]]). cbn [ct_thread_id ct_inputs].
  rewrite Hn, Hd. cbn [default from_option id]. unfold apply_update, _merge_archive. destruct d as [|kv d].
  - cbn [turn request_turn nu_messages writes ct_inputs]. eexists. split; [reflexivity|]. cbn [cs_fields cs_messages nu_fields].
    split; [|by split; [|split; constructor]]. etransitivity; [apply memory_inputs|]. vm_compute. reflexivity.
  - cbn [nu_messages nu_fields]. set (a := archive_to_graph_inputs (kv :: d)).
    destruct (put_all [] (cs_messages a)) as (fresh & Hadd & Hf & Hid); [by split; constructor|apply decoded_new|].
    cbn [cs_messages]. rewrite Hadd. cbn [rbind]. eexists. split; [reflexivity|]. cbn [cs_fields cs_messages].
    split; [|split; [exact Hf|exact Hid]]. unfold dmerge at 1. rewrite (right_id_L (∅ : dict) union).
    unfold a, archive_to_graph_inputs. cbn [cs_fields]. apply memory_overlay.
Qed.

(** C8.  A conversation goes on.  Behind a turn that ended well, the next request of the same
    conversation starts where it stopped: from the checkpoint, exactly there, with the new
    question; and when the checkpoint is lost, from the archive, with the same slots and
    summary and the same messages in the same order, under fresh ids. *)
Theorem conversation_survives message user_id tenant_id session_id message2 (w w' w2 : rworld) (probe : bool) :
  lk_token token -> (0 <= ls_interval locks)%Z ->
  is_ok (normalize_tenant_id default_tenant (Some (request_tenant tenant_id))) = true ->
  truthy (strip (request_tenant tenant_id)) = true -> truthy (strip (request_sid session_id)) = true ->
  let thread := make_thread_id (request_tenant tenant_id) (request_sid session_id) (request_uid user_id) in
  (forall s, rw_checkpoints w !! thread = Some s -> identified (cs_messages s)) ->
  stream message user_id tenant_id session_id w = (Ok tt, w') ->
  (forall tr, rw_turns w' = rw_turns w ++ [tr] -> tr_outcome tr = u "ok") ->
  rw_graph w2 = rw_graph w' ->
  let next := request_turn message2 user_id tenant_id session_id in
  exists state', rw_checkpoints w' !! thread = Some state' /\ identified (cs_messages state') /\
    (rw_checkpoints w2 !! thread = Some state' ->
     start_state (ahydrate true archive_up next w2) w2 =
       Ok {| cs_fields := dmerge (cs_fields state') (nu_fields (ct_inputs next)); cs_messages := cs_messages state' |}) /\
    (rw_checkpoints w2 !! thread = None -> exists st,
     start_state (ahydrate probe true next w2) w2 = Ok st /\
     memory_from_state (cs_fields st) = memory_from_state (cs_fields state') /\
     Forall2 same_but_id (archived_messages (cs_messages state')) (cs_messages st) /\ identified (cs_messages st)).
Proof using All.
  intros Htok Hint Hten Htt Hss thread Hcps Hrun Hok Hg2 next.
  pose proof (stream_cases message user_id tenant_id session_id w Htok Hint) as Hc.
  cbn zeta in Hc. destruct (normalize_tenant_id _ _) as [tn|]; [|done].
  destruct Hc as (turn & w0 & r' & w'' & tr & Hrun' & Htu & Htr & Hus & Hturn & Hcp0 & Hc).
  rewrite Hrun in Hrun'. injection Hrun' as <- <-. specialize (Hok _ Htu).
  destruct Hc as [(_ & _ & [=] & _)|(lo & mid & tail & at_ & w1 & Hev & Hin & Hcl & Hout & Hcp & Hag & _)].
  cbn [outcome_of] in Hout. rewrite Hout in Hok.
  destruct (Hag eq_refl Hok) as (st & g & state' & response & es & intent & blocked & Hst & Hast & Hcp' & _ & _ & _ & Hload).
  pose proof (ahydrate_same (request_turn message user_id tenant_id session_id) w0) as (_ & _ & _ & Hth).
  rewrite <-Hturn in Hth. cbn [request_turn ct_thread_id] in Hth. fold thread in Hth. rewrite Hth in Hcp'.
  destruct (hydrated_inputs probe_ok archive_up (request_turn message user_id tenant_id session_id) w0 eq_refl) as [Hids Hms].
  rewrite <-Hturn in Hids, Hms.
  destruct (start_state_spec turn w1 st Hst Hms) as [Hidst Hget].
  { rewrite Hth, Hcp. exact Hcps. }
  assert (Hin_ : forall K v, K ∈ ID_KEYS -> nu_fields (ct_inputs next) !! K = Some v -> get K (cs_fields st) = v).
  { intros K v HK Hv. apply Hget. rewrite Hids by done. unfold next in Hv. cbn [request_turn ct_inputs writes nu_fields] in Hv |- *.
    destruct (decide (K = u "query")) as [->|Hq].
    - exfalso. revert HK. apply (bool_decide_eq_true_1 (u "query" ∉ ID_KEYS)). vm_compute. reflexivity.
    - revert Hv. rewrite !lookup_mkdict_cons. by rewrite (bool_decide_eq_false_2 (u "query" = K)) by done. }
  assert (Hkey : let ident := identity_from_state default_tenant (cs_fields st) in
    session_key (request_tenant tenant_id) (request_uid user_id) (request_sid session_id) =
    session_key (iv_tenant_id ident) (iv_user_id ident) (iv_session_id ident)).
  { apply request_key; [done|..]; apply Hin_; [unfold ID_KEYS; cbn [map]; listed| |unfold ID_KEYS; cbn [map]; listed| |
      unfold ID_KEYS; cbn [map]; listed|]; unfold next; cbn [request_turn ct_inputs writes nu_fields]; by read_display. }
  destruct (tg_archives st (rw_graph w1) state' g (request_tenant tenant_id) (request_uid user_id) (request_sid session_id)
    Hidst Hast Hkey Hss) as (d & Hd & Hmem & Hmsg).
  exists state'. split; [by rewrite Hcp', lookup_insert_eq|]. split; [by eapply tg_identified|]. split.
  - intros Hc2. by apply resume_hit.
  - intros Hc2. rewrite <-Hmem, <-Hmsg. apply resume_miss; [exact Hc2|]. rewrite Hg2, Hload. exact Hd.
Qed.
End contract.

(** ** A service *)

(** No model is called through the gateway here, so nothing is billed. *)
#[export] Instance no_accounting {W} : TurnAccounting W := { ta_begin g := g; ta_take g := (no_usage, g) }.
#[export] Instance no_accounting_laws {W} `{TurnGraph W} : TurnAccountingLaws W.
Proof. by split. Qed.

Module Demo.
Import ReferenceChannel.
#[export] Existing Instance UserMemory.Demo.store.
#[export] Existing Instances DictLock.dict_lock DictLock.dict_lock_laws.
Abbreviation gworld := Graph.Demo.world.

(** The graph of [Graph.Demo], with a course agent. *)
Section service.
Context (agent : pystr -> pystr -> list message -> option pystr -> option pystr -> option pystr ->
  list json * res exn (pystr * CourseConsultResult)).
Definition graph : TurnGraph gworld :=
  compiled_graph Graph.Demo.settings Compress.Demo.tk Graph.Demo.no_route Compress.Demo.llm None demo_db
    OrderCapability.Demo.put_text agent Graph.Demo.tools (fun _ _ => Supervisor.Demo.react) Supervisor.Demo.schedule
    (fun _ => UserMemory.Demo.env 0) (OrderCapability.Demo.env PoolRan) (ToolCache.Demo.at_ 1301) f_zero true.
Lemma graph_laws : TurnGraphLaws gworld (H := graph).
Proof. apply compiled_graph_laws, Graph.Demo.tools_tidy. Qed.
Lemma graph_archives : ArchivesTurns gworld (H := graph) (u "demo").
Proof. apply (compiled_graph_archives Graph.Demo.settings); [apply Graph.Demo.tools_tidy|by vm_compute]. Qed.
End service.

Definition locks : lock_settings := _lock_settings 180 1000 100.
Abbreviation rworld := (runner_world gworld DictLock.store).
Definition idle : rworld := Build_runner_world Graph.Demo.start ∅ ∅ [] [].

Definition chat (probe : bool) (agent : pystr -> pystr -> list message -> option pystr -> option pystr -> option pystr ->
    list json * res exn (pystr * CourseConsultResult)) (query : string) (w : rworld) : res exn unit * rworld :=
  _chat_turn_stream (H := graph agent) (u "demo") locks (u "new") DictLock.LOCAL 0 10000 (fun _ l => l) probe true (u "r1") []
    (u query) (u "alice") (Some (u "demo")) (Some (u "s1")) w.
End Demo.

(** A turn, event by event. *)
Definition shape (e : event) : string :=
  match e with Meta _ _ _ _ _ => "meta" | Status _ _ => "status" | Token _ => "token" | Answer _ _ _ => "answer" | Done _ => "done" end.

Example demo_stream :
  let w := (Demo.chat true Graph.Demo.agent "Python入门课包含哪些内容" Demo.idle).2 in
  map shape (rw_events w) = ["meta"; "status"; "status"; "token"; "status"; "answer"; "status"; "answer"; "done"]%string /\
  map tr_outcome (rw_turns w) = [u "ok"].
Proof. split; vm_compute; reflexivity. Qed.

Module Leaks.
(** A course answer that carries a telephone number. *)
Definition agent (query tenant : pystr) (history : list message) (last_query last_name summary : option pystr)
    : list json * res exn (pystr * CourseConsultResult) :=
  ([], Ok (u "班主任电话13812345678", ToolCache.Demo.course)).
Definition answers (es : list event) : list pystr :=
  omap (fun e => match e with Answer (JStr s) _ _ => Some s | Done r => Some (resp_answer r) | _ => None end) es.
End Leaks.

(** The mask of [respond] comes after the event of the node before it: the stream shows the
    answer as the course node wrote it, and then again, masked. *)
Example streamed_before_masked :
  Leaks.answers (rw_events (Demo.chat true Leaks.agent "Python入门课包含哪些内容" Demo.idle).2) =
  [u "班主任电话13812345678"; u "班主任电话[PHONE_MASKED]"; u "班主任电话[PHONE_MASKED]"].
Proof. vm_compute. reflexivity. Qed.

Import ReferenceChannel.
#[local] Existing Instances UserMemory.Demo.store DictLock.dict_lock DictLock.dict_lock_laws.

(** A probe of the checkpointer that fails is taken for a missing checkpoint: the archive is
    merged into a conversation that is there, and its messages are in the history twice. *)
Example hydrated_twice :
  let w := (Demo.chat true Graph.Demo.agent "Python入门课包含哪些内容" Demo.idle).2 in
  let next := request_turn (u "demo") (u "new") (u "你好") (u "alice") (Some (u "demo")) (Some (u "s1")) in
  let found (probe : bool) :=
    match start_state (ahydrate (H := Demo.graph Graph.Demo.agent) probe true next w) w with
    | Ok st => map msg_role (cs_messages st)
    | Raise _ => []
    end in
  found true = [HumanMessage; AIMessage] /\ found false = [HumanMessage; AIMessage; HumanMessage; AIMessage].
Proof. split; vm_compute; reflexivity. Qed.

(** ** Witnesses *)


(** The turn of the witnesses ends well. *)
Lemma demo_ok : is_ok (Demo.chat true Graph.Demo.agent "Python入门课包含哪些内容" Demo.idle).1 = true /\
  map tr_outcome (rw_turns (Demo.chat true Graph.Demo.agent "Python入门课包含哪些内容" Demo.idle).2) = [u "ok"].
Proof. split; vm_compute; reflexivity. Qed.

Lemma done_is_the_answer_witness :
  exists w' state' response, Demo.chat true Graph.Demo.agent "Python入门课包含哪些内容" Demo.idle = (Ok tt, w') /\
    rw_checkpoints w' = <[make_thread_id (u "demo") (u "s1") (u "alice") := state']> ∅ /\
    resp_answer response = res_answer (result_from_state (cs_fields state')).
Proof.
  pose proof demo_ok as [Hok Hout].
  destruct (Demo.chat true Graph.Demo.agent "Python入门课包含哪些内容" Demo.idle) as [[[]|e] w'] eqn:Er; [|discriminate].
  destruct (done_is_the_answer (H := Demo.graph Graph.Demo.agent) (H0 := Demo.graph_laws Graph.Demo.agent) (lease := None) (u "demo") Demo.locks (u "new") DictLock.LOCAL 0 10000
    (fun _ l => l) true true (u "r1") [] (u "Python入门课包含哪些内容") (u "alice") (Some (u "demo")) (Some (u "s1")) Demo.idle w')
    as (tr & Ht & Hall); [reflexivity|vm_compute; discriminate|vm_compute; reflexivity|exact Er|].
  destruct Hall as (state' & response & es & intent & blocked & Hcp & _ & Hans).
  { cbn [snd] in Hout. rewrite Ht in Hout. by injection Hout. }
  exists w', state', response. split; [reflexivity|]. split; [exact Hcp|exact Hans].
Defined.

Lemma conversation_survives_witness :
  exists w' state', Demo.chat true Graph.Demo.agent "Python入门课包含哪些内容" Demo.idle = (Ok tt, w') /\
    rw_checkpoints w' !! make_thread_id (u "demo") (u "s1") (u "alice") = Some state' /\ identified (cs_messages state').
Proof.
  pose proof demo_ok as [Hok Hout].
  destruct (Demo.chat true Graph.Demo.agent "Python入门课包含哪些内容" Demo.idle) as [[[]|e] w'] eqn:Er; [|discriminate].
  destruct (conversation_survives (H := Demo.graph Graph.Demo.agent) (H0 := Demo.graph_laws Graph.Demo.agent) (lease := None) (u "demo") Demo.locks (u "new") DictLock.LOCAL 0 10000
    (fun _ l => l) true true (u "r1") [] (ArchivesTurns0 := Demo.graph_archives Graph.Demo.agent) (u "Python入门课包含哪些内容") (u "alice") (Some (u "demo")) (Some (u "s1")) (u "你好") Demo.idle w' w' true)
    as (state' & Hst & Hid & _);
    [reflexivity|vm_compute; discriminate|vm_compute; reflexivity|vm_compute; reflexivity|vm_compute; reflexivity| |exact Er| |reflexivity|].
  - intros s Hs. discriminate.
  - intros tr Ht. cbn [snd] in Hout. rewrite Ht in Hout. by injection Hout.
  - exists w', state'. split; [reflexivity|]. split; [exact Hst|exact Hid].
Defined.
