(* ===== verification/Concurrency.v ===== *)
(** * Requests ([app/concurrency.py], the chat endpoints of [app/app.py])

    Around a turn: who is asking, a conversation slot for as long as the turn runs, and
    what the client is told when there is none, when the conversation is busy or when the
    turn fails.  The slots are any [SlotStore], the turn is [Runner]'s. *)

From stdpp Require Import base list gmap strings.
From S2P Require Import Prelude PyText Errors Json Window State Archive Tenancy ChatSlots Compress Turn SessionLock Graph TurnArchive Runner.

Open Scope py_scope.

(** The settings of the slots; [None]: a tenant limit that is no number. *)
Record slot_settings := {
  chat_concurrency : Z;
  chat_tenant_concurrency : option Z;
  chat_slot_ttl_seconds : Z;
}.

Definition int_or (n d : Z) : Z := if (n =? 0)%Z then d else n.

Definition _slot_limits (settings : slot_settings) : Z * Z * Z :=
  let global_limit := Z.max 1 (int_or (chat_concurrency settings) 8) in
  let tenant_limit := default 4%Z (chat_tenant_concurrency settings) in
  let tenant_limit := if (tenant_limit <=? 0)%Z then global_limit else tenant_limit in
  let tenant_limit := Z.max 1 (Z.min tenant_limit global_limit) in
  let ttl := Z.max 1 (int_or (chat_slot_ttl_seconds settings) 180) in
  (global_limit, tenant_limit, ttl).

Definition _resolve_tenant (default_tenant : pystr) (tenant_id : option pystr) : pystr :=
  match normalize_tenant_id default_tenant tenant_id with
  | Ok t => t
  | Raise _ => default_tenant
  end.

(** The turns' world and the slots. *)
Record service_world (W L S : Type) := {
  sv_turns : runner_world W L;
  sv_slots : S;
}.
Arguments sv_turns {W L S}.
Arguments sv_slots {W L S}.
Arguments Build_service_world {W L S}.

(** What a client gets: a status, or a stream of named events, or a JSON body; [Broken] is
    an exception that leaves the endpoint. *)
Inductive sse : Type :=
| SseEvent (e : event)
| SseError.
Inductive http : Type :=
| Status_ (code : Z) (detail : pystr)
| Stream (frames : list sse)
| Body (response : ChatResponse)
| Broken (e : exn).

Section service.
Context {W L S : Type} `{TurnGraph W, TurnAccounting W, LockStore L, MessageChannel, SlotStore S}.
Context (default_tenant : pystr) (locks : lock_settings) (new_sid token : pystr) (start_at end_at : Z).
Context (others : Z -> L -> L) (probe_ok archive_up : bool) (request_id trace_id : pystr).
(** The slots' settings, clock and token ([uuid4]). *)
Context (slots : slot_settings) (slot_at : Z) (slot_token : pystr).

Abbreviation world := (service_world W L S).
Abbreviation act := (ST world exn).

Definition on_slots {A} (m : ST S exn A) : act A := fun w =>
  let (r, s) := m (sv_slots w) in (r, Build_service_world (sv_turns w) s).
Definition on_turns {A} (m : ST (runner_world W L) exn A) : act A := fun w =>
  let (r, t) := m (sv_turns w) in (r, Build_service_world t (sv_slots w)).

Definition _occupy (tenant_id : pystr) : act pystr :=
  let '(global_limit, tenant_limit, ttl) := _slot_limits slots in
  st_except (on_slots (acquire tenant_id global_limit tenant_limit ttl slot_at slot_token))
    (fun e => match e with ChatSlotBusy reason => Some (st_raise (ChatBusyError reason)) | _ => None end).

Definition _vacate (tenant_id token : pystr) : act unit :=
  if negb (truthy token) then st_ret tt else on_slots (release tenant_id token).

Definition _acquire_chat_slot : pystr -> act pystr := _occupy.
Definition _release_chat_slot : pystr -> pystr -> act unit := _vacate.

(** One turn, and the events it streams. *)
Definition chat_events (message user_id : pystr) (tenant_id session_id : option pystr) : act (res exn unit * list event) :=
  on_turns (fun w =>
    let (r, w') := chat_astream default_tenant locks new_sid token start_at end_at others probe_ok archive_up
                     request_id trace_id message user_id tenant_id session_id w in
    (Ok (r, drop (length (rw_events w)) (rw_events w')), w')).

Definition last_done (es : list event) : option ChatResponse :=
  last (omap (fun e => match e with Done r => Some r | _ => None end) es).

(** The body of [achat]'s [try]. *)
Definition collected (run : res exn unit * list event) : res exn ChatResponse :=
  match run.1 with
  | Raise e => Raise e
  | Ok _ => match last_done run.2 with
            | None => Raise (RuntimeError (u "图执行未产生结果"))
            | Some r => Ok r
            end
  end.

Definition achat (message user_id : pystr) (tenant_id session_id : option pystr) : act ChatResponse :=
  let tenant := _resolve_tenant default_tenant tenant_id in
  let! slot := _acquire_chat_slot tenant in
  st_finally
    (let! run := chat_events message user_id tenant_id session_id in
     fun w => (collected run, w))
    (_release_chat_slot tenant slot).

(** The events, and how the stream ends. *)
Definition achat_stream (message user_id : pystr) (tenant_id session_id : option pystr)
    : act (res exn unit * list event) :=
  let tenant := _resolve_tenant default_tenant tenant_id in
  let! slot := _acquire_chat_slot tenant in
  st_finally (chat_events message user_id tenant_id session_id) (_release_chat_slot tenant slot).

(** ** Endpoints *)

Definition in_context {A} (m : ST identity exn A) : act A := on_turns (on_graph (in_request m)).

(** [Depends(get_tenant_id)] and [_chat_user_id]. *)
Definition request_identity (x_tenant_id x_user_id : option pystr) (user_id : pystr) : act (pystr * pystr) :=
  let! tenant := in_context (get_tenant_id default_tenant x_tenant_id) in
  let! user := in_context (resolve_request_user [x_user_id; Some user_id]) in
  st_ret (tenant, user).

Definition BUSY : pystr := u "对话繁忙，请稍后重试".
Definition SESSION_BUSY : pystr := u "同一会话正在处理，请稍后重试".
Definition QUOTA : pystr := u "今日大模型额度已用完，请明日再试".

(** The [except] clauses of the endpoints. *)
Definition http_error (e : exn) : http :=
  match e with
  | ChatBusyError _ => Status_ 429 BUSY
  | SessionBusyError _ => Status_ 409 SESSION_BUSY
  | TenantQuotaExceededError _ _ _ => Status_ 429 QUOTA
  | e => Broken e
  end.

(** A bad tenant header. *)
Definition tenant_error (e : exn) : http := Status_ 400 [].

(** [_body]: after the first event, a failure ends the stream with an error event. *)
Definition stream_body (run : res exn unit * list event) : list sse :=
  map SseEvent run.2 ++ match run.1 with Raise e => if is_Exception e then [SseError] else [] | Ok _ => [] end.

Definition chat_api (message user_id : pystr) (x_tenant_id x_user_id session_id : option pystr) : world -> http * world :=
  fun w => match request_identity x_tenant_id x_user_id user_id w with
  | (Raise e, w) => (tenant_error e, w)
  | (Ok (tenant, user), w) =>
    match achat_stream message user (Some tenant) session_id w with
    | (Raise e, w) => (http_error e, w)
    | (Ok (r, es), w) =>
      match r, es with
      | Raise e, [] => (http_error e, w)
      | Ok _, [] => (Broken (OtherExc (u "StopAsyncIteration") []), w)
      | _, _ => (Stream (stream_body (r, es)), w)
      end
    end
  end.

Definition chat_api_compat (message user_id : pystr) (x_tenant_id x_user_id session_id : option pystr)
    : world -> http * world :=
  fun w => match request_identity x_tenant_id x_user_id user_id w with
  | (Raise e, w) => (tenant_error e, w)
  | (Ok (tenant, user), w) =>
    match achat message user (Some tenant) session_id w with
    | (Raise e, w) => (http_error e, w)
    | (Ok response, w) => (Body response, w)
    end
  end.
End service.

(** ** Properties *)

Section requests.
Context {W L S : Type} `{TurnGraphLaws W, TurnAccounting W, !TurnAccountingLaws W, LockLaws L lease, MessageChannel, SlotStoreLaws S}.
Context (default_tenant : pystr) (locks : lock_settings) (new_sid token : pystr) (start_at end_at : Z).
Context (others : Z -> L -> L) (probe_ok archive_up : bool) (request_id trace_id : pystr).
Context (slots : slot_settings) (slot_at : Z) (slot_token : pystr).

Abbreviation world := (service_world W L S).
Abbreviation turn := (chat_events (W := W) (L := L) (S := S) default_tenant locks new_sid token start_at end_at others
  probe_ok archive_up request_id trace_id).
Abbreviation stream := (achat_stream (W := W) (L := L) (S := S) default_tenant locks new_sid token start_at end_at others
  probe_ok archive_up request_id trace_id slots slot_at slot_token).
Abbreviation chat := (achat (W := W) (L := L) (S := S) default_tenant locks new_sid token start_at end_at others
  probe_ok archive_up request_id trace_id slots slot_at slot_token).

(** What the slots decide for a tenant. *)
Definition slot_decision (tenant : pystr) (leases : ChatSlots.leases) : res exn pystr :=
  let '(global_limit, tenant_limit, ttl) := _slot_limits slots in
  (spec_acquire tenant global_limit tenant_limit ttl slot_at slot_token leases).1.

(** A call that runs in a slot: refused without one; else it runs, and the slots are
    afterwards as they were found. *)
Lemma in_slot {A} (body : ST world exn A) (m : ST (runner_world W L) exn A) (tenant : pystr) (w : world)
    (leases : ChatSlots.leases) :
  truthy slot_token = true -> leases !! slot_token = None -> rep slot_at (sv_slots w) leases ->
  (forall v, body v = on_turns m v) ->
  exists s, rep slot_at s leases /\
  (let! slot := _acquire_chat_slot slots slot_at slot_token tenant in st_finally body (_release_chat_slot tenant slot)) w =
  match slot_decision tenant leases with
  | Raise (ChatSlotBusy reason) => (Raise (ChatBusyError reason), Build_service_world (sv_turns w) s)
  | Raise e => (Raise e, Build_service_world (sv_turns w) s)
  | Ok _ => ((m (sv_turns w)).1, Build_service_world (m (sv_turns w)).2 s)
  end.
Proof using All.
  intros Htok Hnew Hrep Hbody. unfold _acquire_chat_slot, _occupy, slot_decision.
  destruct (_slot_limits slots) as [[gl tl] ttl].
  pose proof (acquire_refines tenant gl tl ttl slot_at slot_token (sv_slots w) leases Hrep Hnew) as Hacq.
  destruct (acquire tenant gl tl ttl slot_at slot_token (sv_slots w)) as [r s1] eqn:Ea. destruct Hacq as [Hr Hs1].
  unfold st_bind at 1, st_except, on_slots at 1. rewrite Ea.
  revert Hr Hs1. unfold spec_acquire. destruct (gl <=? _)%Z; [cbn; intros -> Hs1; by exists s1|].
  destruct (tl <=? _)%Z; [cbn; intros -> Hs1; by exists s1|]. cbn [fst snd]. intros -> Hs1.
  unfold st_finally. rewrite Hbody. unfold on_turns. cbn [sv_turns].
  destruct (m (sv_turns w)) as [ra t]. unfold _release_chat_slot, _vacate. rewrite Htok. cbn [negb]. unfold on_slots. cbn [sv_slots].
  pose proof (release_refines slot_at tenant slot_token s1 _ Hs1) as Hrel.
  destruct (release tenant slot_token s1) as [rr s2]. destruct Hrel as [-> Hs2].
  { intros tn e. rewrite lookup_insert_eq. by intros [= <- _]. }
  rewrite delete_insert_id in Hs2 by done. exists s2. by split.
Qed.

(** A request that got past its header: the tenant is legal and the one the turn is for. *)
Lemma request_identity_legal x_tenant_id x_user_id user_id (w w0 : world) r :
  request_identity default_tenant x_tenant_id x_user_id user_id w = (r, w0) ->
  sv_slots w0 = sv_slots w /\ rw_events (sv_turns w0) = rw_events (sv_turns w) /\
  match r with
  | Ok (tenant, _) => is_ok (normalize_tenant_id default_tenant (Some (request_tenant default_tenant (Some tenant)))) = true
  | Raise _ => True
  end.
Proof using Type.
  unfold request_identity, in_context, on_turns, on_graph, in_request, get_tenant_id, st_bind, st_ret.
  destruct (normalize_tenant_id default_tenant x_tenant_id) as [t|e] eqn:En; [|by intros [= <- <-]].
  apply normalize_tenant_id_ok in En as (_ & _ & Hne & Hn & _). unfold set_current_tenant. rewrite Hn. cbn [fst snd].
  destruct (resolve_request_user _ _) as [[user|e] id]; intros [= <- <-]; [|done]. split; [done|]. split; [done|].
  unfold request_tenant, str_or. cbn [opt_str]. change (opt_str (Some t)) with t. assert (Ht : truthy t = true) by by destruct t. by rewrite Ht, Hn.
Qed.

Lemma slot_decision_busy tenant leases e : slot_decision tenant leases = Raise e -> exists reason, e = ChatSlotBusy reason.
Proof using Type.
  unfold slot_decision. destruct (_slot_limits slots) as [[gl tl] ttl]. unfold spec_acquire.
  repeat case_match; intros [= <-]; by eexists.
Qed.

Lemma turn_on_turns message user tenant session_id : forall v, turn message user tenant session_id v = on_turns (fun w =>
  let (r, w') := chat_astream default_tenant locks new_sid token start_at end_at others probe_ok archive_up
                   request_id trace_id message user tenant session_id w in
  (Ok (r, drop (length (rw_events w)) (rw_events w')), w')) v.
Proof using Type. done. Qed.

(** The frames of a stream the client is given. *)
Definition well_streamed (frames : list sse) : Prop :=
  exists session_id user_id tenant_id request_id trace_id mid tail,
    frames = SseEvent (Meta session_id user_id tenant_id request_id trace_id) :: map SseEvent mid ++ tail /\
    Forall (fun e => inner e = true) mid /\
    (tail = [] \/ tail = [SseError] \/
     exists response, tail = [SseEvent (Done response)] /\ truthy (strip (resp_answer response)) = true).


Lemma last_done_spec meta mid tail : inner meta = false -> (forall r, meta <> Done r) ->
  Forall (fun e => inner e = true) mid ->
  last_done (meta :: mid ++ tail) = last_done tail.
Proof using Type.
  intros _ Hm Hin. unfold last_done. 
  assert (Hmid : omap (fun e => match e with Done r => Some r | _ => None end) mid = []).
  { induction Hin as [|e mid He Hin IH]; [done|]. by destruct e. }
  transitivity (last (omap (fun e => match e with Done r => Some r | _ => None end) (mid ++ tail))).
  - destruct meta; try done. by destruct (Hm response).
  - by rewrite omap_app, Hmid.
Qed.

Lemma chat_on_turns message user tenant session_id : forall v,
  (let! run := turn message user tenant session_id in fun w : world => (collected run, w)) v = on_turns (fun w =>
  let (r, w') := chat_astream default_tenant locks new_sid token start_at end_at others probe_ok archive_up
                   request_id trace_id message user tenant session_id w in
  (collected (r, drop (length (rw_events w)) (rw_events w')), w')) v.
Proof using Type. intros v. unfold st_bind, chat_events, on_turns. by destruct (chat_astream _ _ _ _ _ _ _ _ _ _ _ _ _ _ _ _). Qed.

(** The two chat endpoints are one service.  For the same request in the same situation the
    JSON endpoint answers with exactly the response that closes the event stream; where it
    answers with a status, the stream endpoint gives the same status, or has begun a stream
    that is never closed by a response; and they leave the same conversations, events and
    log, and the same leases. *)
Theorem endpoints_agree (message user_id : pystr) (x_tenant_id x_user_id session_id : option pystr) (w : world)
    (leases : ChatSlots.leases) :
  lk_token token -> (0 <= ls_interval locks)%Z ->
  truthy slot_token = true -> leases !! slot_token = None -> rep slot_at (sv_slots w) leases ->
  let '(h, w1) := chat_api default_tenant locks new_sid token start_at end_at others probe_ok archive_up request_id trace_id
    slots slot_at slot_token message user_id x_tenant_id x_user_id session_id w in
  let '(h', w2) := chat_api_compat default_tenant locks new_sid token start_at end_at others probe_ok archive_up request_id trace_id
    slots slot_at slot_token message user_id x_tenant_id x_user_id session_id w in
  sv_turns w1 = sv_turns w2 /\ rep slot_at (sv_slots w1) leases /\ rep slot_at (sv_slots w2) leases /\
  match h' with
  | Body response => exists frames, h = Stream (frames ++ [SseEvent (Done response)])
  | _ => h = h' \/ exists frames, h = Stream frames /\ forall response, SseEvent (Done response) ∉ frames
  end.
Proof using All.
  intros Htok Hint Hst Hnew Hrep. unfold chat_api, chat_api_compat.
  destruct (request_identity _ _ _ _ _) as [ri w0] eqn:Eid.
  destruct (request_identity_legal _ _ _ _ _ _ Eid) as (Hsl & Hev0 & Hten).
  destruct ri as [[tenant user]|e]; [|rewrite Hsl; by repeat (split; [done|]); left]. unfold achat_stream, achat. cbv zeta.
  destruct (in_slot (turn message user (Some tenant) session_id) _ (_resolve_tenant default_tenant (Some tenant)) w0 leases
    Hst Hnew ltac:(by rewrite Hsl) (turn_on_turns _ _ _ _)) as (s & Hs & ->).
  destruct (in_slot _ _ (_resolve_tenant default_tenant (Some tenant)) w0 leases
    Hst Hnew ltac:(by rewrite Hsl) (chat_on_turns message user (Some tenant) session_id)) as (s' & Hs' & ->).
  destruct (slot_decision _ leases) as [slot|e] eqn:Ed.
  2: { destruct (slot_decision_busy _ _ _ Ed) as [reason ->]. cbn. by repeat (split; [done|]); left. }
  pose proof (stream_cases (lease := lease) default_tenant locks new_sid token start_at end_at others probe_ok archive_up request_id trace_id
    message user (Some tenant) session_id (sv_turns w0) Htok Hint) as Hc. cbn zeta in Hc.
  destruct (normalize_tenant_id _ _) as [tn|]; [|done].
  destruct Hc as (tu & w1 & r & w2 & tr & Hrun & _ & _ & _ & _ & _ & Hc). unfold chat_astream. rewrite Hrun. cbn [fst snd].
  destruct Hc as [(Hev & _ & -> & _)|(lo & mid & tail & at_ & w3 & Hev & Hin & Hcl & _)].
  - rewrite Hev, drop_all. cbn. by repeat (split; [done|]); left.
  - rewrite Hev, drop_app_length. unfold collected. cbn [fst snd]. rewrite last_done_spec by done. destruct r as [[]|e]; cbn [closed] in Hcl.
    + destruct Hcl as (_ & response & -> & _ & _). cbn [last_done omap list_omap last sv_turns sv_slots]. do 3 (split; [done|]).
      unfold stream_body. cbn [fst snd]. rewrite app_nil_r, map_cons, map_app. eexists (_ :: _). reflexivity.
    + destruct Hcl as [-> _]. 
      assert (Hnot : forall response, SseEvent (Done response) ∉ stream_body (Raise e, Meta (request_sid new_sid session_id)
        (request_uid user) (request_tenant default_tenant (Some tenant)) request_id (str_or_none trace_id) :: mid ++ [])).
      { intros response. unfold stream_body. cbn [fst snd]. rewrite app_nil_r, map_cons. cbn [app]. intros [[=]|Hin_]%elem_of_cons.
        apply elem_of_app in Hin_ as [(x & [= <-] & Hx)%list_elem_of_fmap|Hx].
        - rewrite Forall_forall in Hin. by specialize (Hin _ Hx).
        - destruct (is_Exception e); [by apply list_elem_of_singleton in Hx|by apply elem_of_nil in Hx]. }
      destruct e; cbn [http_error]; do 3 (split; [done|]); right; by eexists.
Qed.
End requests.

(** ** A service *)

Import ReferenceChannel.
#[local] Existing Instances UserMemory.Demo.store DictLock.dict_lock DictLock.dict_lock_laws.

Module Demo.
Definition slots : slot_settings :=
  {| chat_concurrency := 2; chat_tenant_concurrency := Some 0%Z; chat_slot_ttl_seconds := 180 |}.
Abbreviation sworld := (service_world Runner.Demo.gworld DictLock.store Memory.store).
Definition idle (held : Memory.store) : sworld := Build_service_world Runner.Demo.idle held.
(** The stores of one conversation in flight, and of two. *)
Definition taken (n : nat) : Memory.store :=
  foldr (fun i s => (Memory.acquire (u "demo") 9 9 100 0 [N.of_nat i] s).2) Memory.init (seq 1 n).

Definition post (query : string) (tenant : string) (w : sworld) : http * sworld :=
  chat_api (H := Runner.Demo.graph Graph.Demo.agent) (u "demo") Runner.Demo.locks (u "new") DictLock.LOCAL 0 10000 (fun _ l => l) true true (u "r1") []
    slots 50 (u "slot") (u query) (u "alice") (Some (u tenant)) None (Some (u "s1")) w.
Definition post_json (query : string) (tenant : string) (w : sworld) : http * sworld :=
  chat_api_compat (H := Runner.Demo.graph Graph.Demo.agent) (u "demo") Runner.Demo.locks (u "new") DictLock.LOCAL 0 10000 (fun _ l => l) true true (u "r1") []
    slots 50 (u "slot") (u query) (u "alice") (Some (u tenant)) None (Some (u "s1")) w.

(** What kind of answer it was. *)
Definition code (h : http) : Z :=
  match h with Status_ c _ => c | Stream _ => 200 | Body _ => 200 | Broken _ => 500 end.
End Demo.

(** A free slot, no free slot, a bad tenant, a conversation somebody else is in. *)
Example demo_codes :
  let busy := Build_service_world (Build_runner_world (rw_graph Runner.Demo.idle)
    {[make_thread_id (u "demo") (u "s1") (u "alice")]} ∅ [] []) (Demo.taken 0) in
  map Demo.code [(Demo.post "你好" "demo" (Demo.idle (Demo.taken 1))).1; (Demo.post "你好" "demo" (Demo.idle (Demo.taken 2))).1;
                 (Demo.post "你好" "a:b" (Demo.idle (Demo.taken 0))).1; (Demo.post "你好" "demo" busy).1] =
  [200; 429; 400; 409]%Z.
Proof. vm_compute. reflexivity. Qed.


Lemma endpoints_agree_witness :
  exists response w2 frames, Demo.post_json "你好" "demo" (Demo.idle Memory.init) = (Body response, w2) /\
    (Demo.post "你好" "demo" (Demo.idle Memory.init)).1 = Stream (frames ++ [SseEvent (Done response)]) /\ rep 50%Z (sv_slots w2) ∅.
Proof.
  assert (Hbody : match (Demo.post_json "你好" "demo" (Demo.idle Memory.init)).1 with Body _ => true | _ => false end = true)
    by (vm_compute; reflexivity).
  pose proof (endpoints_agree (H := Runner.Demo.graph Graph.Demo.agent) (H0 := Runner.Demo.graph_laws Graph.Demo.agent) (lease := None)
    (u "demo") Runner.Demo.locks (u "new") DictLock.LOCAL 0 10000 (fun _ l => l) true true (u "r1") [] Demo.slots 50 (u "slot")
    (u "你好") (u "alice") (Some (u "demo")) None (Some (u "s1")) (Demo.idle Memory.init) ∅
    eq_refl ltac:(by vm_compute) eq_refl eq_refl (memory_rep_init 50)) as Hall.
  revert Hbody Hall. unfold Demo.post, Demo.post_json.
  generalize (chat_api (H := Runner.Demo.graph Graph.Demo.agent) (u "demo") Runner.Demo.locks (u "new") DictLock.LOCAL 0 10000
    (fun _ l => l) true true (u "r1") [] Demo.slots 50 (u "slot") (u "你好") (u "alice") (Some (u "demo")) None (Some (u "s1"))
    (Demo.idle Memory.init)) as run.
  generalize (chat_api_compat (H := Runner.Demo.graph Graph.Demo.agent) (u "demo") Runner.Demo.locks (u "new") DictLock.LOCAL 0 10000
    (fun _ l => l) true true (u "r1") [] Demo.slots 50 (u "slot") (u "你好") (u "alice") (Some (u "demo")) None (Some (u "s1"))
    (Demo.idle Memory.init)) as run'.
  intros [h' w2] [h w1] Hbody (Ht & Hr1 & Hr2 & Hall). cbn [fst] in *. destruct h'; try discriminate.
  destruct Hall as (frames & ->). exists response, w2, frames. split; [reflexivity|]. split; [reflexivity|exact Hr2].
Defined.
