(* ===== verification/Sse.v ===== *)
(** * The stream of a conversation ([app/app.py], [app/static/index.html])

    What goes over the wire: the events of a turn as the text of a stream, and the page of
    the repository that reads it.  The page gets the text in pieces, cut anywhere. *)

From stdpp Require Import base list strings.
From S2P Require Import Prelude PyText PyFloat PySort PyDict Json PyJson Runner Concurrency.
Open Scope py_scope.

(** ** Events as data ([runner.py], [stream.py]) *)

Definition jopt (s : option pystr) : json := match s with Some s => JStr s | None => JNull end.
Definition jdict (d : option (list (pystr * json))) : json := match d with Some d => JObj d | None => JNull end.

(** [ChatResponse.model_dump]. *)
Definition response_dump (r : ChatResponse) : list (pystr * json) :=
  [(u "answer", JStr (resp_answer r)); (u "intent", JStr (resp_intent r)); (u "blocked", JBool (resp_blocked r));
   (u "structured", jdict (resp_structured r)); (u "visualization", jopt (resp_visualization r)); (u "oss_url", jopt (resp_oss_url r));
   (u "session_id", jopt (resp_session_id r)); (u "usage", jdict (resp_usage r)); (u "request_id", jopt (resp_request_id r));
   (u "trace_id", jopt (resp_trace_id r))].

Definition event_data (e : event) : pystr * list (pystr * json) :=
  match e with
  | Meta session_id user_id tenant_id request_id trace_id =>
    (u "meta", [(u "session_id", JStr session_id); (u "user_id", JStr user_id); (u "tenant_id", JStr tenant_id); (u "request_id", JStr request_id)] ++
               match trace_id with Some t => [(u "trace_id", JStr t)] | None => [] end)
  | Status node message => (u "status", [(u "node", JStr node); (u "message", JStr message)])
  | Token content => (u "token", [(u "content", JStr content)])
  | Answer answer intent blocked => (u "answer", [(u "answer", answer); (u "intent", intent); (u "blocked", JBool blocked)])
  | Done response => (u "done", response_dump response)
  end.

Definition SERVICE_ERROR : pystr := u "服务内部错误".
(** What [_body] yields for a frame. *)
Definition sse_data (f : sse) : pystr * list (pystr * json) :=
  match f with SseEvent e => event_data e | SseError => (u "error", [(u "detail", JStr SERVICE_ERROR)]) end.

Section wire.
Context (float_repr : pyfloat -> pystr).
Definition _sse (event : pystr) (data : list (pystr * json)) : pystr :=
  u "event: " ++ event ++ [10%N] ++ u "data: " ++ json_dumps float_repr (JObj data) ++ [10; 10]%N.
Definition stream_text (frames : list sse) : pystr := concat (map (fun f => _sse (sse_data f).1 (sse_data f).2) frames).
End wire.

(** ** The page ([index.html], [ask]) *)

(** [text.split("\n\n")]: the blocks that are closed, and what is behind them, reversed. *)
Definition block_step (st : list pystr * pystr) (c : N) : list pystr * pystr :=
  match st.2 with
  | d :: cur => if ((c =? 10) && (d =? 10))%N then (st.1 ++ [reverse cur], []) else (st.1, c :: st.2)
  | [] => (st.1, [c])
  end.
Definition split_blocks (s : pystr) : list pystr * pystr := let (blocks, cur) := foldl block_step ([], []) s in (blocks, reverse cur).

(** [block.split("\n")]. *)
Fixpoint split_lines (s : pystr) : pystr * list pystr :=
  match s with
  | [] => ([], [])
  | c :: s => let (l, ls) := split_lines s in if (c =? 10)%N then ([], l :: ls) else (c :: l, ls)
  end.

(** White space and line ends of ECMAScript. *)
Definition js_space (c : N) : bool :=
  bool_decide (c ∈ [9; 10; 11; 12; 13; 32; 160; 5760; 8192; 8193; 8194; 8195; 8196; 8197; 8198; 8199; 8200; 8201; 8202; 8232; 8233; 8239; 8287; 12288; 65279]%N).
Fixpoint trim_start (s : pystr) : pystr := match s with c :: s' => if js_space c then trim_start s' else s | [] => [] end.
Definition js_trim (s : pystr) : pystr := reverse (trim_start (reverse (trim_start s))).

(** The lines of a block: the event's name, and the lines of its data. *)
Definition read_line (st : pystr * list pystr) (line : pystr) : pystr * list pystr :=
  if is_prefix (u "event:") line then (js_trim (drop 6 line), st.2)
  else if is_prefix (u "data:") line then (st.1, st.2 ++ [trim_start (drop 5 line)])
  else st.
Definition read_block (block : pystr) : pystr * list pystr :=
  let (l, ls) := split_lines block in foldl read_line (u "message", []) (l :: ls).

(** What is on show: plain text, being streamed or not, Markdown, or an error.  The page
    shows a text and keeps a class for it. *)
Inductive css : Type := Streaming | Rendered | Failed | Settled.
Record shell := {
  sh_status : pystr; sh_class : css; sh_msg : pystr; sh_buffer : pystr; sh_got_token : bool;
  sh_request_id : pystr; sh_trace_id : pystr; sh_session_id : pystr; sh_feedback : bool;
  (** [sessionStorage]'s [cs_session_id]. *)
  sh_stored : option pystr;
}.
Definition addBotShell (stored : option pystr) : shell :=
  {| sh_status := u "正在处理…"; sh_class := Streaming; sh_msg := []; sh_buffer := []; sh_got_token := false; sh_request_id := []; sh_trace_id := [];
     sh_session_id := []; sh_feedback := false; sh_stored := stored |}.

(** ECMAScript's truth values. *)
Definition js_truthy (v : json) : bool :=
  match v with
  | JNull => false | JBool b => b | JInt n => negb (n =? 0)%Z | JFloat x => f_truthy x && negb (f_nan x) | JStr s => truthy s
  | JList _ | JObj _ => true
  end.

Section page.
(** [JSON.parse]'s numbers, [String] of a value that is no string, and whether a text
    renders as Markdown. *)
Context (float_of : pystr -> pyfloat) (js_string : json -> pystr) (renders : pystr -> bool).

Definition js_text (v : json) : pystr := match v with JStr s => s | _ => js_string v end.
Definition field (k : string) (data : json) : json := match data with JObj d => default JNull (dget (u k) d) | _ => JNull end.
(** [if (data.k) x = data.k]. *)
Definition update (k : string) (data : json) (x : pystr) : pystr := if js_truthy (field k data) then js_text (field k data) else x.

Definition with_msg (c : css) (msg buffer : pystr) (sh : shell) : shell :=
  {| sh_status := sh_status sh; sh_class := c; sh_msg := msg; sh_buffer := buffer; sh_got_token := sh_got_token sh; sh_request_id := sh_request_id sh;
     sh_trace_id := sh_trace_id sh; sh_session_id := sh_session_id sh; sh_feedback := sh_feedback sh; sh_stored := sh_stored sh |}.
Definition with_status (status : pystr) (sh : shell) : shell :=
  {| sh_status := status; sh_class := sh_class sh; sh_msg := sh_msg sh; sh_buffer := sh_buffer sh; sh_got_token := sh_got_token sh;
     sh_request_id := sh_request_id sh; sh_trace_id := sh_trace_id sh; sh_session_id := sh_session_id sh; sh_feedback := sh_feedback sh; sh_stored := sh_stored sh |}.
Definition with_ids (data : json) (sh : shell) : shell :=
  {| sh_status := sh_status sh; sh_class := sh_class sh; sh_msg := sh_msg sh; sh_buffer := sh_buffer sh; sh_got_token := sh_got_token sh;
     sh_request_id := update "request_id" data (sh_request_id sh); sh_trace_id := update "trace_id" data (sh_trace_id sh);
     sh_session_id := update "session_id" data (sh_session_id sh); sh_feedback := sh_feedback sh;
     sh_stored := if js_truthy (field "session_id" data) then Some (js_text (field "session_id" data)) else sh_stored sh |}.

Definition setBotPlain (text : pystr) (sh : shell) : shell := with_msg Streaming text text sh.
Definition appendBotToken (piece : pystr) (sh : shell) : shell :=
  if negb (truthy piece) then sh
  else
    let buffer := (if sh_got_token sh then sh_buffer sh else []) ++ piece in
    {| sh_status := sh_status sh; sh_class := Streaming; sh_msg := buffer; sh_buffer := buffer; sh_got_token := true; sh_request_id := sh_request_id sh;
       sh_trace_id := sh_trace_id sh; sh_session_id := sh_session_id sh; sh_feedback := sh_feedback sh; sh_stored := sh_stored sh |}.
Definition finalizeBot (text : pystr) (isError : bool) (sh : shell) : shell :=
  let sh := with_status [] sh in
  if isError then with_msg Failed (str_or text SERVICE_ERROR) text sh
  else with_msg (if renders text then Rendered else Settled) text text sh.
Definition attachFeedback (sh : shell) : shell :=
  if negb (truthy (sh_trace_id sh)) && negb (truthy (sh_request_id sh)) && negb (truthy (sh_session_id sh)) then sh
  else {| sh_status := sh_status sh; sh_class := sh_class sh; sh_msg := sh_msg sh; sh_buffer := sh_buffer sh; sh_got_token := sh_got_token sh;
          sh_request_id := sh_request_id sh; sh_trace_id := sh_trace_id sh; sh_session_id := sh_session_id sh; sh_feedback := true; sh_stored := sh_stored sh |}.

(** One event. *)
Definition handle (sh : shell) (event : pystr) (data : json) : shell :=
  if bool_decide (event = u "meta") then (if js_truthy (field "session_id" data) then with_ids data sh else sh)
  else if bool_decide (event = u "status") then (if js_truthy (field "message" data) then with_status (js_text (field "message" data)) sh else sh)
  else if bool_decide (event = u "token") then (if js_truthy (field "content" data) then appendBotToken (js_text (field "content" data)) sh else sh)
  else if bool_decide (event = u "answer") then
    if js_truthy (field "answer" data) then
      let answer := js_text (field "answer" data) in
      if negb (sh_got_token sh) then setBotPlain answer sh else with_msg (sh_class sh) answer answer sh
    else sh
  else if bool_decide (event = u "done") then
    let sh := with_ids data sh in
    attachFeedback (finalizeBot (update "answer" data (sh_buffer sh)) false sh)
  else if bool_decide (event = u "error") then finalizeBot (update "detail" data SERVICE_ERROR) true sh
  else sh.
(** Reading a property of [null] throws; the shell is then as it was. *)
Definition EVENTS : list pystr := map u ["meta"; "status"; "token"; "answer"; "done"; "error"]%string.
Definition on_event (sh : shell) (event : pystr) (data : json) : res shell shell :=
  if bool_decide (event ∈ EVENTS) && match data with JNull => true | _ => false end then Raise sh else Ok (handle sh event data).

Definition on_block (sh : shell) (block : pystr) : res shell shell :=
  let (event, lines) := read_block block in
  match lines with
  | [] => Ok sh
  | _ => match json_loads float_of (join [10%N] lines) with
         | None => Ok sh
         | Some data => on_event sh event data
         end
  end.
Fixpoint on_blocks (sh : shell) (blocks : list pystr) : res shell shell :=
  match blocks with [] => Ok sh | b :: blocks => let? sh := on_block sh b in on_blocks sh blocks end.

(** The loop over what [reader.read()] gives; [broken]: the connection fails behind it. *)
Fixpoint read_loop (broken : bool) (buf : pystr) (sh : shell) (chunks : list pystr) : res shell shell :=
  match chunks with
  | [] => if broken then Raise sh else Ok sh
  | chunk :: chunks =>
    let (blocks, buf) := split_blocks (buf ++ chunk) in
    let? sh := on_blocks sh blocks in
    read_loop broken buf sh chunks
  end.

Definition NO_ANSWER : pystr := u "（无回复）".
Definition NETWORK_ERROR : pystr := u "网络异常，请稍后重试".
(** What [ask] does with the response's body, given in chunks. *)
Definition ask_body (stored : option pystr) (broken : bool) (chunks : list pystr) : shell :=
  match read_loop broken [] (addBotShell stored) chunks with
  | Raise sh => finalizeBot NETWORK_ERROR true sh
  | Ok sh => match sh_class sh with
             | Rendered | Failed => sh
             | _ => finalizeBot (str_or (sh_buffer sh) NO_ANSWER) (negb (truthy (sh_buffer sh))) sh
             end
  end.
End page.

(** ** Blocks *)

Lemma step_shift bl cur c : block_step (bl, cur) c = let (b, c') := block_step ([], cur) c in (bl ++ b, c').
Proof. unfold block_step. cbn [fst snd]. destruct cur as [|d cur]; [by rewrite app_nil_r|]. destruct (_ && _); [done|by rewrite app_nil_r]. Qed.
Lemma blocks_shift s : forall bl cur, foldl block_step (bl, cur) s = let (b, c) := foldl block_step ([], cur) s in (bl ++ b, c).
Proof.
  induction s as [|c s IH]; intros bl cur; cbn [foldl]; [by rewrite app_nil_r|]. rewrite step_shift.
  destruct (block_step ([], cur) c) as [b c'] eqn:E. rewrite (IH (bl ++ b)), (IH b). destruct (foldl block_step ([], c') s). by rewrite app_assoc.
Qed.

(** What is kept for the next chunk holds no closed block. *)
Definition open_block (cur : pystr) : Prop := foldl block_step ([], []) (reverse cur) = ([], cur).
Lemma step_cases cur c : (exists bl, block_step ([], cur) c = (bl, [])) \/ block_step ([], cur) c = ([], c :: cur).
Proof. unfold block_step. cbn [fst snd]. destruct cur as [|d cur]; [by right|]. destruct (_ && _); [left; by eexists|by right]. Qed.
Lemma open_step cur c bl cur' : open_block cur -> block_step ([], cur) c = (bl, cur') -> open_block cur'.
Proof.
  intros Ho Hs. destruct (step_cases cur c) as [[bl' E]|E]; rewrite E in Hs; injection Hs as <- <-; [done|].
  unfold open_block in *. rewrite reverse_cons, foldl_app, Ho. exact E.
Qed.
Lemma open_steps s : forall bl cur, open_block cur -> open_block (foldl block_step (bl, cur) s).2.
Proof.
  induction s as [|c s IH]; intros bl cur Ho; [done|]. cbn [foldl]. rewrite step_shift.
  destruct (block_step ([], cur) c) as [b c'] eqn:E. apply IH. by apply (open_step cur c b c').
Qed.

Lemma unfeed_steps s : forall bl cur, unfeed s -> foldl block_step (bl, cur) s = (bl, reverse s ++ cur).
Proof.
  induction s as [|c s IH]; intros bl cur Hs; [done|]. apply Forall_cons in Hs as [Hc Hs]. cbn [foldl]. apply N.eqb_neq in Hc.
  assert (E : block_step (bl, cur) c = (bl, c :: cur)) by (unfold block_step; cbn [fst snd]; destruct cur; [done|]; by rewrite Hc).
  rewrite E, IH by done. by rewrite reverse_cons, <- app_assoc.
Qed.

(** The block of two lines. *)
Lemma two_lines bl l l' : unfeed l -> unfeed l' -> l <> [] -> l' <> [] ->
  foldl block_step (bl, []) (l ++ [10%N] ++ l' ++ [10; 10]%N) = (bl ++ [l ++ [10%N] ++ l'], []).
Proof.
  intros Hl Hl' Hne Hne'. rewrite foldl_app, (unfeed_steps l) by done. cbn [app foldl]. rewrite app_nil_r.
  assert (Hstep : forall cur s, unfeed s -> s <> [] -> block_step (bl, reverse s ++ cur) 10 = (bl, 10%N :: reverse s ++ cur)).
  { intros cur s Hs Hn. unfold block_step. cbn [fst snd]. assert (Hr : Forall (fun c => c <> 10%N) (reverse s)) by (by apply Forall_reverse).
    assert (Hrn : reverse s <> []) by (intros E; apply Hn; by rewrite <- (reverse_involutive s), E).
    destruct (reverse s) as [|d r]; [done|]. cbn [app]. apply Forall_cons in Hr as [Hd _]. apply N.eqb_neq in Hd. by rewrite Hd, andb_false_r. }
  pose proof (Hstep [] l Hl Hne) as E. rewrite app_nil_r in E. rewrite E, foldl_app, (unfeed_steps l') by done. cbn [foldl].
  rewrite (Hstep (10%N :: reverse l) l' Hl' Hne'). unfold block_step. cbn [fst snd]. change ((10 =? 10) && (10 =? 10))%N with true. cbv iota.
  by rewrite reverse_app, reverse_cons, !reverse_involutive, <- app_assoc.
Qed.

Lemma split_unfeed l rest : unfeed l -> split_lines (l ++ 10%N :: rest) = (l, let (a, b) := split_lines rest in a :: b).
Proof.
  induction 1 as [|c l Hc Hl IH]; cbn [app split_lines].
  - by destruct (split_lines rest).
  - rewrite IH. apply N.eqb_neq in Hc. by rewrite Hc.
Qed.
Lemma split_one l : unfeed l -> split_lines l = (l, []).
Proof. induction 1 as [|c l Hc Hl IH]; [done|]. cbn [split_lines]. rewrite IH. apply N.eqb_neq in Hc. by rewrite Hc. Qed.

(** ** What a frame becomes *)

Section frames.
Context (float_repr : pyfloat -> pystr) (float_of : pystr -> pyfloat) (js_string : json -> pystr) (renders : pystr -> bool).
Context (fine : pyfloat -> Prop) (float_texts : forall x, fine x -> float_text float_repr float_of x).
Abbreviation dumps := (json_dumps float_repr).
Abbreviation text_of := (stream_text float_repr).
Abbreviation on_blocks := (on_blocks float_of js_string renders).
Abbreviation handle := (handle js_string renders).

(** ** What the page reads *)

Lemma name_good f : js_trim (32%N :: (sse_data f).1) = (sse_data f).1 /\ unfeed (sse_data f).1.
Proof. destruct f as [[]|]; cbn [sse_data event_data fst]; (split; [vm_compute; reflexivity|apply unfeed_lit; vm_compute; reflexivity]). Qed.

Definition frame_block (f : sse) : pystr := u "event: " ++ (sse_data f).1 ++ [10%N] ++ u "data: " ++ dumps (JObj (sse_data f).2).
Definition frame_ok (f : sse) : Prop := json_over fine (JObj (sse_data f).2).

Lemma event_line E : unfeed E -> unfeed (u "event: " ++ E) /\ u "event: " ++ E <> [].
Proof. intros H. split; [|by intros [? _]%app_eq_nil]. apply Forall_app. split; [apply unfeed_lit; vm_compute; reflexivity|done]. Qed.
Lemma data_line P : unfeed P -> unfeed (u "data: " ++ P) /\ u "data: " ++ P <> [].
Proof. intros H. split; [|by intros [? _]%app_eq_nil]. apply Forall_app. split; [apply unfeed_lit; vm_compute; reflexivity|done]. Qed.

Lemma text_blocks frames : forall bl, Forall frame_ok frames -> foldl block_step (bl, []) (text_of frames) = (bl ++ map frame_block frames, []).
Proof.
  induction frames as [|f frames IH]; intros bl Hf; [cbn; by rewrite app_nil_r|]. apply Forall_cons in Hf as [Hf Hfs].
  change (text_of (f :: frames)) with (_sse float_repr (sse_data f).1 (sse_data f).2 ++ text_of frames). rewrite foldl_app. unfold _sse.
  destruct (name_good f) as [_ Hn]. destruct (event_line _ Hn) as [He He']. destruct (data_line _ (dumps_unfeed float_repr float_of fine float_texts _ Hf)) as [Hd Hd'].
  rewrite (app_assoc (u "event: ")), (app_assoc (u "data: ")), (two_lines bl _ _ He Hd He' Hd'), IH by done.
  cbn [map]. unfold frame_block. by rewrite <- !app_assoc.
Qed.

Lemma read_frame f : frame_ok f -> read_block (frame_block f) = ((sse_data f).1, [dumps (JObj (sse_data f).2)]).
Proof.
  intros Hf. destruct (name_good f) as [Ht Hn]. destruct (event_line _ Hn) as [He _]. destruct (data_line _ (dumps_unfeed float_repr float_of fine float_texts _ Hf)) as [Hd _].
  unfold read_block, frame_block. rewrite (app_assoc (u "event: ")). change ([10%N] ++ ?x) with (10%N :: x). rewrite (split_unfeed _ _ He), (split_one _ Hd).
  cbn [foldl]. set (E := (sse_data f).1) in *.
  assert (E1 : forall st, read_line st (u "event: " ++ E) = (js_trim (32%N :: E), st.2)) by (clear; intros st; generalize E; intros e; vm_compute; reflexivity).
  assert (E2 : forall st t, read_line st (u "data: " ++ 123%N :: t) = (st.1, st.2 ++ [123%N :: t])) by (clear; intros st t; vm_compute; reflexivity).
  rewrite E1, Ht. cbn [json_dumps]. rewrite E2. reflexivity.
Qed.

Definition on_frame (sh : shell) (f : sse) : shell := handle sh (sse_data f).1 (JObj (sse_data f).2).
Lemma frames_read frames : forall sh, Forall frame_ok frames -> on_blocks sh (map frame_block frames) = Ok (foldl on_frame sh frames).
Proof.
  induction frames as [|f frames IH]; intros sh Hf; [done|]. apply Forall_cons in Hf as [Hf Hfs]. cbn [map Sse.on_blocks foldl]. unfold on_block.
  rewrite (read_frame f Hf). change (join [10%N] [?x]) with x. rewrite (json_loads_over float_repr float_of fine float_texts _ Hf). unfold on_event.
  rewrite andb_false_r. cbn [rbind]. by apply IH.
Qed.

Lemma on_blocks_app bl bl' sh : on_blocks sh (bl ++ bl') = (let? sh := on_blocks sh bl in on_blocks sh bl').
Proof. revert sh. induction bl as [|b bl IH]; intros sh; [done|]. cbn [app Sse.on_blocks]. destruct (on_block _ _ _ sh b); cbn [rbind]; [apply IH|done]. Qed.

(** However the text is cut, the same blocks are read. *)
Lemma loop_blocks chunks : forall buf sh, open_block (reverse buf) ->
  read_loop float_of js_string renders false buf sh chunks = on_blocks sh (foldl block_step ([], reverse buf) (concat chunks)).1.
Proof.
  induction chunks as [|chunk chunks IH]; intros buf sh Ho; [done|]. cbn [read_loop concat].
  assert (Hs : split_blocks (buf ++ chunk) = let (bl, cur) := foldl block_step ([], reverse buf) chunk in (bl, reverse cur)).
  { unfold split_blocks. rewrite foldl_app. unfold open_block in Ho. rewrite reverse_involutive in Ho. by rewrite Ho. }
  pose proof (open_steps chunk [] (reverse buf) Ho) as Ho'. rewrite Hs, foldl_app. destruct (foldl block_step ([], reverse buf) chunk) as [bl cur].
  rewrite (blocks_shift _ bl). destruct (foldl block_step ([], cur) (concat chunks)) as [b c] eqn:E. cbn [fst snd] in *. rewrite on_blocks_app.
  destruct (on_blocks sh bl) as [sh'|sh']; [|done]. cbn [rbind]. rewrite IH by (by rewrite reverse_involutive). by rewrite reverse_involutive, E.
Qed.

Lemma page_reads frames chunks sh : Forall frame_ok frames -> concat chunks = text_of frames ->
  read_loop float_of js_string renders false [] sh chunks = Ok (foldl on_frame sh frames).
Proof. intros Hf E. rewrite loop_blocks by done. change (reverse (@nil N)) with (@nil N). rewrite E, (text_blocks frames []) by done. by apply frames_read. Qed.

(** ** What it shows *)

(** The text streamed so far, and whether a token was among it. *)
Definition said_step (st : bool * pystr) (e : event) : bool * pystr :=
  match e with
  | Token content => if truthy content then (true, (if st.1 then st.2 else []) ++ content) else st
  | Answer answer _ _ => if js_truthy answer then (st.1, js_text js_string answer) else st
  | _ => st
  end.
Definition said (es : list event) : pystr := (foldl said_step (false, []) es).2.

Lemma inner_shown sh e : inner e = true -> sh_class sh = Streaming ->
  sh_class (on_frame sh (SseEvent e)) = Streaming /\ sh_stored (on_frame sh (SseEvent e)) = sh_stored sh /\
  (sh_got_token (on_frame sh (SseEvent e)), sh_buffer (on_frame sh (SseEvent e))) = said_step (sh_got_token sh, sh_buffer sh) e.
Proof.
  intros Hi Hc. unfold on_frame. destruct e as [| |content|answer intent blocked|]; try done; cbn [sse_data event_data fst snd said_step].
  - assert (E : forall node message, handle sh (u "status") (JObj [(u "node", JStr node); (u "message", JStr message)]) = if truthy message then with_status message sh else sh)
      by (intros; vm_compute; reflexivity).
    rewrite E. by destruct (truthy message).
  - assert (E : handle sh (u "token") (JObj [(u "content", JStr content)]) = if truthy content then appendBotToken content sh else sh) by (vm_compute; reflexivity).
    rewrite E. destruct (truthy content) eqn:Et; [|done]. unfold appendBotToken. rewrite Et. cbn [negb]. by destruct (sh_got_token sh).
  - assert (E : handle sh (u "answer") (JObj [(u "answer", answer); (u "intent", intent); (u "blocked", JBool blocked)]) =
      if js_truthy answer then if negb (sh_got_token sh) then setBotPlain (js_text js_string answer) sh
                               else with_msg (sh_class sh) (js_text js_string answer) (js_text js_string answer) sh else sh) by (vm_compute; reflexivity).
    rewrite E. destruct (js_truthy answer); [|done]. unfold setBotPlain, with_msg. by destruct (sh_got_token sh); cbn.
Qed.
Lemma inners_shown es : forall sh, Forall (fun e => inner e = true) es -> sh_class sh = Streaming ->
  let sh' := foldl on_frame sh (map SseEvent es) in
  sh_class sh' = Streaming /\ sh_stored sh' = sh_stored sh /\ (sh_got_token sh', sh_buffer sh') = foldl said_step (sh_got_token sh, sh_buffer sh) es.
Proof.
  induction es as [|e es IH]; intros sh Hes Hc; [done|]. apply Forall_cons in Hes as [He Hes]. cbn [map foldl].
  destruct (inner_shown sh e He Hc) as (Hc' & Hs & Hg). destruct (IH _ Hes Hc') as (H1 & H2 & H3). split_and!; [done|by rewrite H2|]. by rewrite H3, Hg.
Qed.

Lemma meta_shown sh session_id user_id tenant_id request_id trace_id :
  let sh' := on_frame sh (SseEvent (Meta session_id user_id tenant_id request_id trace_id)) in
  sh_class sh' = sh_class sh /\ sh_got_token sh' = sh_got_token sh /\ sh_buffer sh' = sh_buffer sh /\
  sh_stored sh' = if truthy session_id then Some session_id else sh_stored sh.
Proof.
  unfold on_frame. cbn [sse_data event_data fst snd]. set (data := JObj _).
  assert (E : handle sh (u "meta") data = if truthy session_id then with_ids js_string data sh else sh) by (vm_compute; reflexivity).
  rewrite E. destruct (truthy session_id) eqn:Et; [|done]. split_and!; [done..|]. cbn [with_ids sh_stored].
  assert (Ef : field "session_id" data = JStr session_id) by (vm_compute; reflexivity). rewrite Ef. cbn [js_truthy js_text]. by rewrite Et.
Qed.

(** A response with an answer closes the page on that answer. *)
Lemma done_shown sh response : truthy (resp_answer response) = true ->
  let sh' := on_frame sh (SseEvent (Done response)) in
  sh_status sh' = [] /\ sh_msg sh' = resp_answer response /\ sh_buffer sh' = resp_answer response /\
  sh_class sh' = (if renders (resp_answer response) then Rendered else Settled) /\
  (forall id, resp_session_id response = Some id -> truthy id = true -> sh_stored sh' = Some id).
Proof.
  intros Ht. unfold on_frame. cbn [sse_data event_data fst snd]. set (data := JObj _).
  assert (Ea : field "answer" data = JStr (resp_answer response)) by (vm_compute; reflexivity).
  assert (Es : field "session_id" data = jopt (resp_session_id response)) by (vm_compute; reflexivity).
  assert (E : handle sh (u "done") data = attachFeedback (finalizeBot renders (update js_string "answer" data (sh_buffer sh)) false (with_ids js_string data sh)))
    by (vm_compute; reflexivity).
  assert (Eu : forall x, update js_string "answer" data x = resp_answer response) by (intros x; unfold update; rewrite Ea; cbn [js_truthy js_text]; by rewrite Ht).
  rewrite E, Eu.
  assert (Hids : forall id, resp_session_id response = Some id -> truthy id = true -> sh_stored (with_ids js_string data sh) = Some id).
  { intros id Hid Hi. cbn [with_ids sh_stored]. rewrite Es, Hid. cbn [jopt js_truthy js_text]. by rewrite Hi. }
  revert Hids. generalize (with_ids js_string data sh). intros sh1 Hids. set (f := finalizeBot _ _ _ _). cbv zeta.
  assert (Hf : sh_status f = [] /\ sh_msg f = resp_answer response /\ sh_buffer f = resp_answer response /\
    sh_class f = (if renders (resp_answer response) then Rendered else Settled) /\ sh_stored f = sh_stored sh1) by done.
  destruct Hf as (H1 & H2 & H3 & H4 & H5). rewrite <- H5 in Hids. revert H1 H2 H3 H4 Hids. clear. generalize f. clear f. intros f H1 H2 H3 H4 Hids. unfold attachFeedback.
  destruct (negb (truthy (sh_trace_id f)) && negb (truthy (sh_request_id f)) && negb (truthy (sh_session_id f))); split_and!; assumption.
Qed.

Lemma error_shown sh : let sh' := on_frame sh SseError in sh_status sh' = [] /\ sh_class sh' = Failed /\ sh_msg sh' = SERVICE_ERROR.
Proof. vm_compute. done. Qed.

(** C11.  The chat page shows what the server answered.  However the text of a stream is cut on its
    way, the page that reads a whole stream of the chat endpoint ends without a status line;
    when the stream ends with a response it shows the response's answer, and keeps the
    response's conversation for the next question; when it ends with an error event it shows
    the error; and when it just ends, what had been streamed, or, as an error, that there was
    no answer. *)
Theorem page_shows_the_answer (frames : list sse) (stored : option pystr) (chunks : list pystr) :
  well_streamed frames -> Forall frame_ok frames -> concat chunks = stream_text float_repr frames ->
  let sh := ask_body float_of js_string renders stored false chunks in
  sh_status sh = [] /\
  exists (session_id user_id tenant_id request_id : pystr) (trace_id : option pystr) (mid : list event) (tail : list sse),
    frames = SseEvent (Meta session_id user_id tenant_id request_id trace_id) :: map SseEvent mid ++ tail /\
    Forall (fun e => inner e = true) mid /\
    ((exists response : ChatResponse, tail = [SseEvent (Done response)] /\ sh_msg sh = resp_answer response /\
        sh_class sh = (if renders (resp_answer response) then Rendered else Settled) /\
        (forall id, resp_session_id response = Some id -> truthy id = true -> sh_stored sh = Some id)) \/
     (tail = [SseError] /\ sh_msg sh = SERVICE_ERROR /\ sh_class sh = Failed) \/
     (tail = [] /\ sh_msg sh = str_or (said mid) NO_ANSWER /\
        sh_class sh = (if truthy (said mid) then if renders (said mid) then Rendered else Settled else Failed))).
Proof using All.
  intros (session_id & user_id & tenant_id & request_id & trace_id & mid & tail & E & Hmid & Htail) Hok Htext. cbv zeta.
  unfold ask_body. rewrite (page_reads frames chunks _ Hok Htext). rewrite E. cbn [foldl]. rewrite foldl_app.
  destruct (meta_shown (addBotShell stored) session_id user_id tenant_id request_id trace_id) as (Hc & Hg & Hb & _).
  destruct (inners_shown mid _ Hmid Hc) as (Hc2 & _ & Hg2). rewrite Hg, Hb in Hg2. clear Hc Hg Hb.
  change (sh_got_token (addBotShell stored), sh_buffer (addBotShell stored)) with (false, [] : pystr) in Hg2. fold (said mid) in Hg2.
  revert Hc2 Hg2. generalize (foldl on_frame (on_frame (addBotShell stored) (SseEvent (Meta session_id user_id tenant_id request_id trace_id))) (map SseEvent mid)).
  intros sh Hc Hg. apply (f_equal snd) in Hg. cbn [snd] in Hg. change (foldl said_step (false, []) mid).2 with (said mid) in Hg.
  destruct Htail as [->|[->|(response & -> & Ha)]]; cbn [foldl].
  - rewrite Hc, Hg. split; [by destruct (truthy (said mid))|]. do 7 eexists. split; [reflexivity|]. split; [exact Hmid|]. right. right. split; [done|].
    unfold str_or. by destruct (truthy (said mid)).
  - destruct (error_shown sh) as (Hs & Hcl & Hm). rewrite Hcl. split; [done|]. do 7 eexists. split; [reflexivity|]. split; [exact Hmid|]. right. by left.
  - assert (Ht : truthy (resp_answer response) = true) by (by destruct (resp_answer response)).
    destruct (done_shown sh response Ht) as (Hs & Hm & Hbuf & Hcl & Hid). revert Hs Hm Hbuf Hcl Hid. generalize (on_frame sh (SseEvent (Done response))). intros sh2 Hs Hm Hbuf Hcl Hid.
    destruct (renders (resp_answer response)) eqn:Er.
    + rewrite Hcl. split; [done|]. do 7 eexists. split; [reflexivity|]. split; [exact Hmid|]. left. exists response. by rewrite Er.
    + rewrite Hcl, Hbuf, Ht. unfold str_or. rewrite Ht. cbn [negb finalizeBot]. rewrite Er. split; [done|]. do 7 eexists. split; [reflexivity|]. split; [exact Hmid|].
      left. exists response. by rewrite Er.
Qed.
End frames.

Module Demo.
Definition half_or_one (x : pyfloat) : Prop := x = f_half \/ x = f_one.
Definition repr (x : pyfloat) : pystr := if f_lt x f_one then u "0.5" else u "1.0".
Definition value (s : pystr) : pyfloat := if bool_decide (s = u "0.5") then f_half else f_one.
Lemma half_texts x : half_or_one x -> float_text repr value x.
Proof.
  intros [->| ->].
  - split; [|vm_compute; reflexivity]. refine (float_literal_ false [48%N] 0 [46; 53]%N [] _ _ _ _); [|right; exists [53%N]|by left|done].
    + split; [done|by repeat constructor|done|by left].
    + by repeat constructor.
  - split; [|vm_compute; reflexivity]. refine (float_literal_ false [49%N] 1 [46; 48]%N [] _ _ _ _); [|right; exists [48%N]|by left|done].
    + split; [done|by repeat constructor|done|by right].
    + by repeat constructor.
Qed.
Definition js_string (_ : json) : pystr := u "[object Object]".
Definition renders (s : pystr) : bool := is_prefix (u "# ") s.

(** A text that is cut after every [n] characters. *)
Fixpoint cut (fuel n : nat) (s : pystr) : list pystr :=
  match fuel, s with
  | Datatypes.S fuel, _ :: _ => take n s :: cut fuel n (drop n s)
  | _, _ => []
  end.
Definition answer : pystr := u "# 订单" ++ [10; 10]%N ++ u "data: 已退款".
Definition sid : pystr := u "s1".
Definition response : ChatResponse :=
  {| resp_answer := answer; resp_intent := u "order"; resp_blocked := false; resp_structured := Some [(u "amount", JFloat f_half)]; resp_visualization := None;
     resp_oss_url := None; resp_session_id := Some sid; resp_usage := None; resp_request_id := Some (u "r1"); resp_trace_id := None |}.
Definition meta : event := Meta sid (u "alice") (u "demo") (u "r1") None.
Definition mid : list event := [Status (u "router") (u "正在识别意图…"); Token (u "订"); Token (u "单")].
Definition frames : list sse := SseEvent meta :: map SseEvent mid ++ [SseEvent (Done response)].
Definition chunks : list pystr := cut 1000 7 (stream_text repr frames).
Definition page (frames : list sse) (broken : bool) (n : nat) : shell :=
  ask_body value js_string renders None broken (cut 1000 n (stream_text repr frames)).
Definition on_show (sh : shell) : css * pystr * option pystr := (sh_class sh, sh_msg sh, sh_stored sh).
End Demo.

(** The answer holds an empty line, which would close a block; the pieces are of seven
    characters.  A connection that breaks is an error, and no answer too. *)
Example page_shows :
  Demo.on_show (Demo.page Demo.frames false 7) = (Rendered, Demo.answer, Some (u "s1")) /\
  Demo.on_show (Demo.page Demo.frames true 7) = (Failed, NETWORK_ERROR, Some (u "s1")) /\
  Demo.on_show (Demo.page [SseEvent Demo.meta] false 1) = (Failed, NO_ANSWER, Some (u "s1")) /\
  Demo.on_show (Demo.page [SseEvent Demo.meta; SseEvent (Token (u "订")); SseError] false 2) = (Failed, SERVICE_ERROR, Some (u "s1")).
Proof. vm_compute. split_and!; reflexivity. Qed.

(** A conversation of the service, as the page shows it. *)
Example service_shows :
  match (Concurrency.Demo.post "你好" "demo" (Concurrency.Demo.idle ChatSlots.Memory.init)).1 with
  | Stream frames => match last frames with
                     | Some (SseEvent (Done response)) => Demo.on_show (Demo.page frames false 5) = (Settled, resp_answer response, Some (u "s1"))
                     | _ => False
                     end
  | _ => False
  end.
Proof. vm_compute. reflexivity. Qed.

Lemma page_shows_the_answer_witness :
  well_streamed Demo.frames /\ concat Demo.chunks = stream_text Demo.repr Demo.frames /\
  sh_status (ask_body Demo.value Demo.js_string Demo.renders None false Demo.chunks) = [].
Proof.
  assert (Hw : well_streamed Demo.frames).
  { exists Demo.sid, (u "alice"), (u "demo"), (u "r1"), None, Demo.mid, [SseEvent (Done Demo.response)]. split; [reflexivity|]. split; [by repeat constructor|].
    right. right. exists Demo.response. split; [reflexivity|vm_compute; reflexivity]. }
  assert (Hc : concat Demo.chunks = stream_text Demo.repr Demo.frames) by (vm_compute; reflexivity).
  assert (Hok : Forall (frame_ok Demo.half_or_one) Demo.frames).
  { repeat apply Forall_cons_2; try apply Forall_nil_2; unfold frame_ok; cbn -[u Demo.half_or_one];
      repeat match goal with
             | |- _ /\ _ => split
             | |- True => exact I
             | |- NoDup _ => apply (bool_decide_unpack _); vm_compute; exact I
             | |- Demo.half_or_one _ => by left
             end. }
  split; [exact Hw|]. split; [exact Hc|].
  exact (proj1 (page_shows_the_answer Demo.repr Demo.value Demo.js_string Demo.renders Demo.half_or_one Demo.half_texts Demo.frames None Demo.chunks Hw Hok Hc)).
Defined.
