(* ===== verification/Metrics.v ===== *)
(** * Metrics ([app/observability/metrics/])

    Each worker counts in its own memory and leaves a snapshot in a shared directory; a
    scrape of any worker adds up the snapshots of those that live, and prints them.  A
    snapshot file is the value [json.loads] gives back of what [json.dumps] wrote, or
    nothing, when it cannot be read. *)

From stdpp Require Import base list strings.
From Stdlib Require Import Floats.SpecFloat.
From S2P Require Import Prelude PyText PyFloat PySort PyDict Errors PyJson Orders Documents CourseAgent.
Open Scope py_scope.

(** ** Names ([names.py]) *)

Definition METRIC_HELP : list (pystr * pystr) := [
  (u "cs_http_requests_total", u "HTTP 请求数");
  (u "cs_http_duration_seconds", u "HTTP 处理耗时（SSE 为到首包，非首 token）");
  (u "cs_chat_requests_total", u "对话轮次数");
  (u "cs_chat_duration_seconds", u "整轮对话图耗时");
  (u "cs_chat_busy_total", u "对话并发打满次数（HTTP 429；reason=cluster|tenant）");
  (u "cs_session_busy_total", u "同一会话锁冲突次数（HTTP 409）");
  (u "cs_llm_requests_total", u "LLM Gateway 调用次数");
  (u "cs_llm_tokens_total", u "LLM token 累计（按 direction=prompt|completion 分列）");
  (u "cs_llm_cost_yuan_total", u "LLM 估算成本累计（元，按配置单价）");
  (u "cs_llm_duration_seconds", u "LLM 调用耗时");
  (u "cs_llm_errors_total", u "LLM 调用失败次数");
  (u "cs_llm_circuit_total", u "LLM 熔断事件（event=open|reject）");
  (u "cs_rag_empty_total", u "课程检索空召回次数（含低分拒答）");
  (u "cs_rag_route_upgrade_total", u "RAG 空召回且问句含订单信号、升级到 ReACT 的次数");
  (u "cs_order_access_deny_total", u "订单权限拒绝次数（按原因+上下文+租户分桶）");
  (u "cs_tool_calls_total", u "工具调用次数（按 tool+outcome；order_query / course_retrieve；outcome=ok|not_found|deny|timeout|busy|error）");
  (u "cs_tool_pool_rejected_total", u "工具线程池背压拒绝次数（pool=order|course）");
  (u "cs_tool_pool_queue_seconds", u "工具线程池 submit 前的排队等待耗时（pool=order|course）");
  (u "cs_tool_pool_in_flight", u "工具线程池当前占用 + 排队槽数（pool=order|course）");
  (u "cs_agent_runaway_total", u "Agent 跑飞次数（high_llm_calls / react_limit）");
  (u "cs_chat_in_flight", u "当前占用的对话并发槽（有 Redis 时为集群合计）");
  (u "cs_node_duration_seconds", u "LangGraph 节点耗时");
  (u "cs_ttft_seconds", u "对话开始到首条 SSE token 的等待");
  (u "cs_llm_calls_per_turn", u "每轮对话 LLM 调用次数（含 cache hit）");
  (u "cs_react_limit_hit_total", u "ReACT 工具调用撞 run_limit 次数");
  (u "cs_tool_cache_hit_total", u "工具失败缓存回退次数（tool+source=session|redis）");
  (u "cs_tool_escalation_total", u "工具失败自动转人工次数（reason=transient_exhausted|react_limit）");
  (u "cs_user_feedback_total", u "用户赞踩次数（value=up|down）")].

Definition TOOL_ORDER_OUTCOMES : list pystr := map u ["ok"; "not_found"; "deny"; "timeout"; "busy"; "error"]%string.
Definition RUNAWAY_REASONS : list pystr := map u ["high_llm_calls"; "react_limit"]%string.
Definition ESCALATION_REASONS : list pystr := map u ["transient_exhausted"; "react_limit"]%string.
Definition TOOL_CACHE_SOURCES : list pystr := map u ["session"; "redis"]%string.
Definition CHAT_BUSY_REASONS : list pystr := map u ["cluster"; "tenant"]%string.
Definition TOOL_POOL_LABELS : list pystr := map u ["course"; "order"]%string.

Definition f_inf : pyfloat := S754_infinity false.
Definition DURATION_BUCKETS : list pyfloat :=
  [f_div_int 5 100; f_div_int 1 10; f_div_int 1 4; f_half; f_one; f_div_int 5 2; f_of_int 5; f_of_int 10; f_of_int 30; f_inf].
Definition LLM_CALLS_BUCKETS : list pyfloat := map f_of_int [1; 2; 3; 4; 5; 8; 12; 20]%Z ++ [f_inf].
Definition QUEUE_BUCKETS : list pyfloat :=
  [f_div_int 1 1000; f_div_int 5 1000; f_div_int 1 100; f_div_int 5 100; f_div_int 1 10; f_div_int 1 4; f_half; f_one; f_div_int 5 2; f_inf].
Definition FLUSH_INTERVAL_SECONDS : pyfloat := f_div_int 5 100.

(** ** The store of a process ([store.py]) *)

Abbreviation labels := (list (pystr * pystr)).

Record Hist := { h_bounds : list pyfloat; h_buckets : list Z; h_count : Z; h_sum : pyfloat }.
Definition new_hist (bounds : list pyfloat) : Hist :=
  {| h_bounds := bounds; h_buckets := replicate (length bounds) 0%Z; h_count := 0; h_sum := f_zero |}.

(** Pairs, and tuples of them, in Python's order. *)
Definition pair_ltb (a b : pystr * pystr) : bool := str_ltb a.1 b.1 || (bool_decide (a.1 = b.1) && str_ltb a.2 b.2).
Fixpoint labels_ltb (a b : labels) : bool :=
  match a, b with
  | _, [] => false
  | [], _ :: _ => true
  | x :: a, y :: b => pair_ltb x y || (bool_decide (x = y) && labels_ltb a b)
  end.

(** The labels of a call, as written, without repetition. *)
Definition label_key (l : labels) : labels := py_sorted pair_ltb l.

Record metric_store := {
  ms_counters : list (pystr * list (labels * pyfloat));
  ms_histograms : list (pystr * list (labels * Hist));
  ms_dirty : bool;
  ms_last_flush : pyfloat;
}.

Definition series_of {V} (name : pystr) (d : list (pystr * list (labels * V))) : list (labels * V) := default [] (dget name d).

(** The write of [inc]; the snapshot is flushed behind it. *)
Definition inc (name : pystr) (amount : pyfloat) (l : labels) (s : metric_store) : metric_store :=
  let key := label_key l in
  let series := series_of name (ms_counters s) in
  {| ms_counters := dset name (dset key (f_add (default f_zero (dget key series)) amount) series) (ms_counters s);
     ms_histograms := ms_histograms s; ms_dirty := true; ms_last_flush := ms_last_flush s |}.

Definition observed (value : pyfloat) (h : Hist) : Hist :=
  {| h_bounds := h_bounds h;
     h_buckets := zip_with (fun bound n => if f_le value bound then (n + 1)%Z else n) (h_bounds h) (h_buckets h);
     h_count := h_count h + 1; h_sum := f_add (h_sum h) value |}.
Definition observe (name : pystr) (value : pyfloat) (buckets : list pyfloat) (l : labels) (s : metric_store) : metric_store :=
  let key := label_key l in
  let series := series_of name (ms_histograms s) in
  let hist := default (new_hist buckets) (dget key series) in
  {| ms_counters := ms_counters s;
     ms_histograms := dset name (dset key (observed value hist) series) (ms_histograms s); ms_dirty := true; ms_last_flush := ms_last_flush s |}.

(** ** Snapshots ([multiproc.py]) *)

Record tool_pool_gauges := { tp_order : Z; tp_course : Z }.
Definition empty_tool_pool_gauges : tool_pool_gauges := {| tp_order := 0; tp_course := 0 |}.
Definition merge_tool_pool_gauges (dest raw : tool_pool_gauges) : tool_pool_gauges :=
  {| tp_order := tp_order dest + tp_order raw; tp_course := tp_course dest + tp_course raw |}.

(** A bound of infinity is [null] there. *)
Record hist_row := { hr_bounds : list (option pyfloat); hr_buckets : list Z; hr_count : Z; hr_sum : pyfloat }.
Definition hist_to_json (h : Hist) : hist_row :=
  {| hr_bounds := map (fun bound => if SFeqb bound f_inf then None else Some bound) (h_bounds h);
     hr_buckets := h_buckets h; hr_count := h_count h; hr_sum := h_sum h |}.
(** [float(v or 0)]. *)
Definition or_zero (x : pyfloat) : pyfloat := if f_truthy x then x else f_zero.
Definition hist_from_json (r : hist_row) : option Hist :=
  let bounds := map (default f_inf) (hr_bounds r) in
  match bounds with
  | [] => None
  | _ => if negb (length (hr_buckets r) =? length bounds) then None
         else Some {| h_bounds := bounds; h_buckets := hr_buckets r; h_count := hr_count r; h_sum := or_zero (hr_sum r) |}
  end.

Record snapshot := {
  sn_pid : Z;
  sn_counters : list (pystr * list (labels * pyfloat));
  sn_histograms : list (pystr * list (labels * hist_row));
  sn_in_flight : Z;
  sn_tool_pool : tool_pool_gauges;
}.
Record gauges := { ga_in_flight : Z; ga_tool_pool : tool_pool_gauges }.

Definition _snapshot_payload_unlocked (pid : Z) (g : gauges) (s : metric_store) : snapshot :=
  {| sn_pid := pid; sn_counters := ms_counters s;
     sn_histograms := map (fun ns => (ns.1, map (fun lh => (lh.1, hist_to_json lh.2)) ns.2)) (ms_histograms s);
     sn_in_flight := ga_in_flight g; sn_tool_pool := ga_tool_pool g |}.

(** The directory's files by name, in the order they are listed. *)
Abbreviation directory := (list (pystr * option snapshot)).

Definition snapshot_path (pid : Z) : pystr := u "cs-" ++ dec pid ++ u ".json".
Definition pid_from_name (name : pystr) : option Z :=
  if negb (is_prefix (u "cs-") name) || negb (is_suffix (u ".json") name) then None
  else
    let raw := take (length name - 8) (drop 3 name) in
    if truthy raw && forallb is_digit raw then int_of_str raw else None.

Record metrics_world := { mx_store : metric_store; mx_dir : option directory }.

(** [write_fails]: the file cannot be written, and is left as it was. *)
Definition flush_snapshot (force write_fails : bool) (now : pyfloat) (pid : Z) (g : gauges) (w : metrics_world) : metrics_world :=
  match mx_dir w with
  | None => w
  | Some dir =>
    let s := mx_store w in
    if negb force && negb (ms_dirty s) then w
    else if negb force && f_lt (f_sub now (ms_last_flush s)) FLUSH_INTERVAL_SECONDS then w
    else
      {| mx_store := {| ms_counters := ms_counters s; ms_histograms := ms_histograms s; ms_dirty := false; ms_last_flush := now |};
         mx_dir := Some (if write_fails then dir else dset (snapshot_path pid) (Some (_snapshot_payload_unlocked pid g s)) dir) |}
  end.

Definition remove_pid_file (pid : Z) (w : metrics_world) : metrics_world :=
  {| mx_store := mx_store w; mx_dir := (fun dir => filter (fun f => f.1 <> snapshot_path pid) dir) <$> mx_dir w |}.
Definition mark_metrics_process_dead := remove_pid_file.
Definition reset_metrics (pid : Z) (w : metrics_world) : metrics_world :=
  remove_pid_file pid {| mx_store := {| ms_counters := []; ms_histograms := []; ms_dirty := false; ms_last_flush := ms_last_flush (mx_store w) |};
                         mx_dir := mx_dir w |}.

(** A file of a snapshot: of a process, or of none that lives. *)
Definition is_snapshot_name (name : pystr) : bool := is_prefix (u "cs-") name && is_suffix (u ".json") name && (8 <=? length name).
Definition lives (pid_alive : Z -> bool) (name : pystr) : bool := match pid_from_name name with Some pid => pid_alive pid | None => false end.
Definition scraped (pid_alive : Z -> bool) (f : pystr * option snapshot) : Prop := is_snapshot_name f.1 = true /\ lives pid_alive f.1 = true.
#[export] Instance scraped_dec pid_alive f : Decision (scraped pid_alive f).
Proof. unfold scraped. apply _. Defined.
Definition _cleanup_dead_pid_files (pid_alive : Z -> bool) (dir : directory) : directory :=
  filter (fun f => is_snapshot_name f.1 = true -> lives pid_alive f.1 = true) dir.

(** ** Merging *)

Definition add_counter (name : pystr) (l : labels) (value : pyfloat) (dest : list (pystr * list (labels * pyfloat))) :=
  let key := label_key l in
  let series := series_of name dest in
  dset name (dset key (f_add (default f_zero (dget key series)) value) series) dest.

(** Tuples of bounds are compared by their numbers. *)
Definition bounds_eqb (a b : list pyfloat) : bool := (length a =? length b) && forallb (fun xy => SFeqb xy.1 xy.2) (zip a b).
Definition joined (existing hist : Hist) : Hist :=
  if negb (bounds_eqb (h_bounds existing) (h_bounds hist)) then existing
  else {| h_bounds := h_bounds existing; h_buckets := zip_with Z.add (h_buckets existing) (h_buckets hist);
          h_count := h_count existing + h_count hist; h_sum := f_add (h_sum existing) (h_sum hist) |}.
Definition add_histogram (name : pystr) (l : labels) (hist : Hist) (dest : list (pystr * list (labels * Hist))) :=
  let key := label_key l in
  let series := series_of name dest in
  dset name (dset key (match dget key series with None => hist | Some existing => joined existing hist end) series) dest.

Record merged := {
  mg_counters : list (pystr * list (labels * pyfloat));
  mg_histograms : list (pystr * list (labels * Hist));
  mg_in_flight : Z;
  mg_tool_pool : tool_pool_gauges;
}.
Definition nothing_merged : merged := {| mg_counters := []; mg_histograms := []; mg_in_flight := 0; mg_tool_pool := empty_tool_pool_gauges |}.

Definition merge_one (m : merged) (file : option snapshot) : merged :=
  match file with
  | None => m
  | Some sn =>
    {| mg_counters := foldl (fun d '(name, rows) => foldl (fun d '(l, value) => add_counter name l (or_zero value) d) d rows)
                        (mg_counters m) (sn_counters sn);
       mg_histograms := foldl (fun d '(name, rows) => foldl (fun d '(l, row) =>
                          match hist_from_json row with None => d | Some hist => add_histogram name l hist d end) d rows)
                        (mg_histograms m) (sn_histograms sn);
       mg_in_flight := mg_in_flight m + sn_in_flight sn;
       mg_tool_pool := merge_tool_pool_gauges (mg_tool_pool m) (sn_tool_pool sn) |}
  end.
Definition merge_snapshots (files : list (option snapshot)) : merged := foldl merge_one nothing_merged files.

Definition collect_multiprocess (pid_alive : Z -> bool) (write_fails : bool) (now : pyfloat) (pid : Z) (g : gauges) (w : metrics_world)
    : option merged * metrics_world :=
  match mx_dir w with
  | None => (None, w)
  | Some _ =>
    let w := flush_snapshot true write_fails now pid g w in
    let dir := default [] (mx_dir w) in
    let files := filter (scraped pid_alive) dir in
    (match files with [] => None | _ => Some (merge_snapshots (map snd files)) end,
     {| mx_store := mx_store w; mx_dir := Some (_cleanup_dead_pid_files pid_alive dir) |})
  end.

(** ** Printing ([render.py]) *)

(** [s.replace(a, w)] for a character [a]. *)
Definition replace_with (a : N) (w s : pystr) : pystr := s ≫= (fun c => if (c =? a)%N then w else [c]).
(** A backslash, a line break and a quote are written behind a backslash. *)
Definition _esc (value : pystr) : pystr := replace_with 34 [92; 34]%N (replace_with 10 [92; 110]%N (replace_with 92 [92; 92]%N value)).

Definition QUOTE : pystr := [34%N].
Definition _format_labels (l : labels) : pystr :=
  match l with
  | [] => []
  | _ => u "{" ++ join (u ",") (map (fun kv => kv.1 ++ u "=" ++ QUOTE ++ _esc kv.2 ++ QUOTE) l) ++ u "}"
  end.

(** [format(x, ".6f")]: the exact value rounded to six places, ties to even. *)
Definition pad6 (s : pystr) : pystr := replicate (6 - length s) 48%N ++ s.
Definition fmt_f6 (x : pyfloat) : pystr :=
  match x with
  | S754_zero s => (if s then u "-" else []) ++ u "0.000000"
  | S754_infinity s => if s then u "-inf" else u "inf"
  | S754_nan => u "nan"
  | S754_finite s m e =>
    let q := if (0 <=? e)%Z then (Z.pos m * 2 ^ e * 1000000)%Z else div_even (Z.pos m * 1000000) (2 ^ (- e)) in
    (if s then u "-" else []) ++ dec (q / 1000000) ++ u "." ++ pad6 (dec (q mod 1000000))
  end.

(** [1e-9]. *)
Definition f_nano : pyfloat := fl 4835703278458517 (-82).
Definition _format_counter_value (value : pyfloat) : res exn pystr :=
  let? n := py_round value in
  Ok (if f_lt (SFabs (f_sub value (f_of_int n))) f_nano then dec n else fmt_f6 value).

Definition help_line (name : pystr) : pystr := u "# HELP " ++ name ++ u " " ++ default name (dget name METRIC_HELP).
Definition by_labels {V} (a b : labels * V) : bool := labels_ltb a.1 b.1.

Definition _counter_lines (name : pystr) (series : list (labels * pyfloat)) : res exn (list pystr) :=
  let? lines := map_res (fun lv => let? value := _format_counter_value lv.2 in Ok (name ++ _format_labels lv.1 ++ u " " ++ value)) (py_sorted by_labels series) in
  Ok ([help_line name; u "# TYPE " ++ name ++ u " counter"] ++ lines).

Definition bucket_line (name : pystr) (l : labels) (bound : pyfloat) (count : Z) : pystr :=
  let le := if SFeqb bound f_inf then u "+Inf" else fmt_g bound in
  name ++ u "_bucket" ++ _format_labels (label_key (dset (u "le") le l)) ++ u " " ++ dec count.
Definition _hist_lines (name : pystr) (series : list (labels * Hist)) : list pystr :=
  [help_line name; u "# TYPE " ++ name ++ u " histogram"] ++
  (lh ← py_sorted by_labels series;
   zip_with (bucket_line name lh.1) (h_bounds lh.2) (h_buckets lh.2) ++
   [name ++ u "_sum" ++ _format_labels lh.1 ++ u " " ++ fmt_f6 (h_sum lh.2); name ++ u "_count" ++ _format_labels lh.1 ++ u " " ++ dec (h_count lh.2)]).

Definition _tool_pool_gauge_lines (counts : tool_pool_gauges) : list pystr :=
  [help_line (u "cs_tool_pool_in_flight"); u "# TYPE cs_tool_pool_in_flight gauge";
   u "cs_tool_pool_in_flight{pool=" ++ QUOTE ++ u "course" ++ QUOTE ++ u "} " ++ dec (tp_course counts);
   u "cs_tool_pool_in_flight{pool=" ++ QUOTE ++ u "order" ++ QUOTE ++ u "} " ++ dec (tp_order counts)].

Definition by_name {V} (a b : pystr * V) : bool := str_ltb a.1 b.1.
(** [cluster]: the slots the shared store counts, when it answers and is not degraded. *)
Definition render_prometheus (pid_alive : Z -> bool) (write_fails : bool) (now : pyfloat) (pid : Z) (g : gauges) (cluster : option Z) (w : metrics_world)
    : res exn pystr * metrics_world :=
  let (m, w) := collect_multiprocess pid_alive write_fails now pid g w in
  let m := default {| mg_counters := ms_counters (mx_store w); mg_histograms := ms_histograms (mx_store w);
                      mg_in_flight := ga_in_flight g; mg_tool_pool := ga_tool_pool g |} m in
  (let? counters := map_res (fun ns => _counter_lines ns.1 ns.2) (py_sorted by_name (mg_counters m)) in
   Ok (join newline
     (concat counters ++ (ns ← py_sorted by_name (mg_histograms m); _hist_lines ns.1 ns.2) ++
      [help_line (u "cs_chat_in_flight"); u "# TYPE cs_chat_in_flight gauge"; u "cs_chat_in_flight " ++ dec (default (mg_in_flight m) cluster)] ++
      _tool_pool_gauge_lines (mg_tool_pool m) ++ [[]])), w).

(** ** What is counted ([instruments.py]) *)

Inductive metric_op : Type :=
| Inc (name : pystr) (amount : pyfloat) (l : labels)
| Observe (name : pystr) (value : pyfloat) (buckets : list pyfloat) (l : labels).

Definition apply_op (op : metric_op) (s : metric_store) : metric_store :=
  match op with Inc name amount l => inc name amount l s | Observe name value buckets l => observe name value buckets l s end.
(** One call: the write, and the flush behind it. *)
Definition record_op (write_fails : bool) (now : pyfloat) (pid : Z) (g : gauges) (w : metrics_world) (op : metric_op) : metrics_world :=
  flush_snapshot false write_fails now pid g {| mx_store := apply_op op (mx_store w); mx_dir := mx_dir w |}.

Definition inc1 (name : string) (l : labels) : list metric_op := [Inc (u name) f_one l].
Definition or_unknown (s : pystr) : pystr := str_or s (u "unknown").
Definition safe (value : pystr) (allowed : list pystr) (other : pystr) : pystr := if bool_decide (value ∈ allowed) then value else other.
Definition true_false (b : bool) : pystr := u (if b then "true" else "false").

Definition inc_http (method path : pystr) (status : Z) : list metric_op :=
  inc1 "cs_http_requests_total" [(u "method", method); (u "path", path); (u "status", dec status)].
Definition observe_http (method path : pystr) (status : Z) (elapsed_seconds : pyfloat) : list metric_op :=
  [Observe (u "cs_http_duration_seconds") elapsed_seconds DURATION_BUCKETS [(u "method", method); (u "path", path); (u "status", dec status)]].
Definition inc_chat (tenant intent : pystr) (blocked : bool) (outcome : pystr) : list metric_op :=
  inc1 "cs_chat_requests_total" [(u "tenant", tenant); (u "intent", or_unknown intent); (u "blocked", true_false blocked); (u "outcome", outcome)].
Definition observe_chat (intent : pystr) (elapsed_seconds : pyfloat) : list metric_op :=
  [Observe (u "cs_chat_duration_seconds") elapsed_seconds DURATION_BUCKETS [(u "intent", or_unknown intent)]].
Definition observe_node (node : pystr) (elapsed_seconds : pyfloat) : list metric_op :=
  [Observe (u "cs_node_duration_seconds") elapsed_seconds DURATION_BUCKETS [(u "node", or_unknown node)]].
Definition observe_ttft (intent : pystr) (elapsed_seconds : pyfloat) : list metric_op :=
  [Observe (u "cs_ttft_seconds") elapsed_seconds DURATION_BUCKETS [(u "intent", or_unknown intent)]].
Definition observe_llm_calls (intent : pystr) (calls : Z) : list metric_op :=
  [Observe (u "cs_llm_calls_per_turn") (f_of_int (Z.max 0 calls)) LLM_CALLS_BUCKETS [(u "intent", or_unknown intent)]].
Definition inc_react_limit_hit : list metric_op := inc1 "cs_react_limit_hit_total" [].
Definition inc_tool_cache_hit (tool source : pystr) : list metric_op :=
  inc1 "cs_tool_cache_hit_total" [(u "tool", or_unknown tool); (u "source", safe source TOOL_CACHE_SOURCES (u "redis"))].
Definition inc_tool_escalation (reason : pystr) : list metric_op :=
  inc1 "cs_tool_escalation_total" [(u "reason", safe reason ESCALATION_REASONS (u "transient_exhausted"))].
Definition inc_user_feedback (value : pystr) : list metric_op :=
  inc1 "cs_user_feedback_total" [(u "value", safe value [u "up"; u "down"] (u "down"))].
Definition inc_tool_call (tool outcome tenant : pystr) : list metric_op :=
  inc1 "cs_tool_calls_total" [(u "tool", or_unknown tool); (u "outcome", safe outcome TOOL_ORDER_OUTCOMES (u "error")); (u "tenant", str_or tenant (u "demo"))].
Definition inc_agent_runaway (reason : pystr) : list metric_op :=
  inc1 "cs_agent_runaway_total" [(u "reason", safe reason RUNAWAY_REASONS (u "high_llm_calls"))].
Definition maybe_inc_runaway_llm_calls (threshold calls : Z) : list metric_op :=
  if (0 <? threshold)%Z && (threshold <? calls)%Z then inc_agent_runaway (u "high_llm_calls") else [].
Definition inc_chat_busy (reason : pystr) : list metric_op :=
  inc1 "cs_chat_busy_total" [(u "reason", safe reason CHAT_BUSY_REASONS (u "cluster"))].
Definition inc_session_busy : list metric_op := inc1 "cs_session_busy_total" [].
Definition inc_tool_pool_rejected (pool : pystr) : list metric_op :=
  inc1 "cs_tool_pool_rejected_total" [(u "pool", safe pool TOOL_POOL_LABELS (u "unknown"))].
Definition observe_tool_pool_queue (pool : pystr) (duration : pyfloat) : list metric_op :=
  [Observe (u "cs_tool_pool_queue_seconds") (f_max f_zero duration) QUEUE_BUCKETS [(u "pool", safe pool TOOL_POOL_LABELS (u "unknown"))]].

(** The prices are given, or the settings'. *)
Definition estimate_llm_cost_yuan (prompt_tokens completion_tokens : Z) (prompt_price completion_price : pyfloat) : pyfloat :=
  f_add (f_div (f_mul_int (Z.max 0 prompt_tokens) prompt_price) (f_of_int 1000000))
        (f_div (f_mul_int (Z.max 0 completion_tokens) completion_price) (f_of_int 1000000)).
Definition token_op (tenant tag : pystr) (direction : string) (n : Z) : list metric_op :=
  if (n =? 0)%Z then [] else [Inc (u "cs_llm_tokens_total") (f_of_int n) [(u "tenant", tenant); (u "tag", tag); (u "direction", u direction)]].
Definition inc_llm (prompt_price completion_price : pyfloat) (tenant tag : pystr) (cache_hit : bool) (tokens prompt_tokens completion_tokens : Z)
    (elapsed_seconds : pyfloat) : list metric_op :=
  let hit := true_false cache_hit in
  let completion := Z.max 0 completion_tokens in
  let prompt := if negb cache_hit && (Z.max 0 prompt_tokens =? 0)%Z && (completion =? 0)%Z && negb (tokens =? 0)%Z then Z.max 0 tokens else Z.max 0 prompt_tokens in
  let cost := estimate_llm_cost_yuan prompt completion prompt_price completion_price in
  inc1 "cs_llm_requests_total" [(u "tenant", tenant); (u "tag", tag); (u "cache_hit", hit)] ++
  (if cache_hit then []
   else token_op tenant tag "prompt" prompt ++ token_op tenant tag "completion" completion ++
        (if f_lt f_zero cost then [Inc (u "cs_llm_cost_yuan_total") cost [(u "tenant", tenant); (u "tag", tag)]] else [])) ++
  [Observe (u "cs_llm_duration_seconds") elapsed_seconds DURATION_BUCKETS [(u "tag", tag); (u "cache_hit", hit)]].
Definition inc_llm_error (tag error_class : pystr) : list metric_op := inc1 "cs_llm_errors_total" [(u "tag", tag); (u "error_class", error_class)].
Definition inc_llm_circuit (event : pystr) : list metric_op :=
  inc1 "cs_llm_circuit_total" [(u "event", safe event [u "open"; u "reject"] (u "reject"))].
Definition inc_rag_empty (tenant reason : pystr) : list metric_op := inc1 "cs_rag_empty_total" [(u "tenant", tenant); (u "reason", reason)].
Definition inc_rag_route_upgrade (tenant : pystr) : list metric_op := inc1 "cs_rag_route_upgrade_total" [(u "tenant", tenant)].
Definition inc_order_access_deny (tenant reason context : pystr) : list metric_op :=
  inc1 "cs_order_access_deny_total" [(u "tenant", tenant); (u "reason", reason); (u "context", context)].

(** ** What is there, and what is added *)

Definition at_labels {V} (name : pystr) (key : labels) (d : list (pystr * list (labels * V))) : option V := dget key (series_of name d).

Lemma at_dset {V} name key (v : V) d n k :
  at_labels n k (dset name (dset key v (series_of name d)) d) = if bool_decide (n = name /\ k = key) then Some v else at_labels n k d.
Proof.
  unfold at_labels. assert (series_of n (dset name (dset key v (series_of name d)) d) = if decide (name = n) then dset key v (series_of name d) else series_of n d) as ->.
  { unfold series_of. rewrite dget_dset. by destruct (decide (name = n)). }
  case_bool_decide as Hc.
  - destruct Hc as [-> ->]. rewrite decide_True by done. by rewrite dget_dset, decide_True.
  - destruct (decide (name = n)) as [<-|]; [|done]. rewrite dget_dset. destruct (decide (key = k)) as [<-|]; [|done]. by destruct Hc.
Qed.

Lemma add_counter_at name l v d n k :
  at_labels n k (add_counter name l v d) =
  if bool_decide (n = name /\ k = label_key l) then Some (f_add (default f_zero (at_labels n k d)) v) else at_labels n k d.
Proof. unfold add_counter. rewrite at_dset. case_bool_decide as Hc; [|done]. by destruct Hc as [-> ->]. Qed.

Lemma add_histogram_at name l h d n k :
  at_labels n k (add_histogram name l h d) =
  if bool_decide (n = name /\ k = label_key l)
  then Some (match at_labels n k d with None => h | Some existing => joined existing h end) else at_labels n k d.
Proof. unfold add_histogram. rewrite at_dset. case_bool_decide as Hc; [|done]. by destruct Hc as [-> ->]. Qed.

(** A sum, and a histogram of all, over those that are there. *)
Definition add_to (acc : option pyfloat) (v : pyfloat) : option pyfloat := Some (f_add (default f_zero acc) v).
Definition join_to (acc : option Hist) (h : Hist) : option Hist := Some (match acc with None => h | Some existing => joined existing h end).

(** The rows of a table that are of a name and labels. *)
Definition rows_at {V} (n : pystr) (k : labels) (d : list (pystr * list (labels * V))) : list V :=
  map snd (filter (fun lv => label_key lv.1 = k) (nr ← filter (fun nr => nr.1 = n) d; nr.2)).

Section folds.
Context {V A B : Type} (f : pystr -> labels -> A -> list (pystr * list (labels * B)) -> list (pystr * list (labels * B)))
  (g : option B -> A -> option B) (read : V -> option A).
Context (Hf : forall name l a d n k, at_labels n k (f name l a d) = if bool_decide (n = name /\ k = label_key l) then g (at_labels n k d) a else at_labels n k d).
Definition put (name : pystr) (d : list (pystr * list (labels * B))) '((l, v) : labels * V) : list (pystr * list (labels * B)) :=
  match read v with None => d | Some a => f name l a d end.

Lemma fold_series name rows d n k :
  at_labels n k (foldl (put name) d rows) =
  if bool_decide (n = name) then foldl g (at_labels n k d) (omap read (map snd (filter (fun lv => label_key lv.1 = k) rows))) else at_labels n k d.
Proof.
  revert d. induction rows as [|[l v] rows IH]; intros d; cbn [foldl]; [by case_bool_decide|]. rewrite IH. unfold put. cbn [fst snd].
  rewrite filter_cons. cbn [fst]. case_bool_decide as Hn.
  - destruct (read v) as [a|] eqn:Er.
    + rewrite Hf. destruct (decide (label_key l = k)) as [Hk|Hk].
      * rewrite bool_decide_true by done. cbn [map omap list_omap snd]. by rewrite Er.
      * by rewrite bool_decide_false by (intros [? ?]; congruence).
    + destruct (decide (label_key l = k)); [cbn [map omap list_omap snd]; by rewrite Er|done].
  - destruct (read v); [|done]. rewrite Hf. by rewrite bool_decide_false by (intros [? ?]; congruence).
Qed.

Lemma fold_table (table : list (pystr * list (labels * V))) d n k :
  at_labels n k (foldl (fun d '(name, rows) => foldl (put name) d rows) d table) = foldl g (at_labels n k d) (omap read (rows_at n k table)).
Proof.
  unfold rows_at. revert d. induction table as [|[name rows] table IH]; intros d; cbn [foldl]; [done|]. rewrite IH, fold_series, filter_cons. cbn [fst].
  case_bool_decide as Hn.
  - rewrite decide_True by done. rewrite bind_cons, filter_app, map_app, omap_app, foldl_app. done.
  - by rewrite decide_False by done.
Qed.
End folds.

(** ** What a process has counted *)

Definition empty_store : metric_store := {| ms_counters := []; ms_histograms := []; ms_dirty := false; ms_last_flush := f_zero |}.
Definition counted (ops : list metric_op) (s : metric_store) : metric_store := foldl (fun s op => apply_op op s) s ops.

(** The amounts, and the values, that the calls give to a name and labels. *)
Definition amount_of (n : pystr) (k : labels) (op : metric_op) : option pyfloat :=
  match op with Inc name amount l => if bool_decide (n = name /\ k = label_key l) then Some amount else None | _ => None end.
Definition value_of (n : pystr) (k : labels) (op : metric_op) : option pyfloat :=
  match op with Observe name value _ l => if bool_decide (n = name /\ k = label_key l) then Some value else None | _ => None end.
Definition amounts_at (n : pystr) (k : labels) (ops : list metric_op) : list pyfloat := omap (amount_of n k) ops.
Definition values_at (n : pystr) (k : labels) (ops : list metric_op) : list pyfloat := omap (value_of n k) ops.

(** A name is always observed with the same bounds. *)
Definition bounds_of (n : pystr) (bounds : list pyfloat) (op : metric_op) : Prop :=
  match op with Observe name _ buckets _ => name = n -> buckets = bounds | _ => True end.

Definition total (amounts : list pyfloat) : option pyfloat := foldl add_to None amounts.
Definition summary (bounds values : list pyfloat) : option Hist :=
  foldl (fun h v => Some (observed v (default (new_hist bounds) h))) None values.

Lemma counters_at n k ops s : at_labels n k (ms_counters (counted ops s)) = foldl add_to (at_labels n k (ms_counters s)) (amounts_at n k ops).
Proof.
  unfold counted. revert s. induction ops as [|op ops IH]; intros s; [done|]. cbn [foldl]. rewrite IH. unfold amounts_at. cbn [omap list_omap].
  destruct op as [name a l|name v b l]; [|done]. cbn [apply_op inc ms_counters amount_of]. rewrite at_dset. case_bool_decide as Hc; [|done].
  destruct Hc as [-> ->]. done.
Qed.

Lemma histograms_at n k bounds ops s : Forall (bounds_of n bounds) ops ->
  at_labels n k (ms_histograms (counted ops s)) =
  foldl (fun h v => Some (observed v (default (new_hist bounds) h))) (at_labels n k (ms_histograms s)) (values_at n k ops).
Proof.
  unfold counted. revert s. induction ops as [|op ops IH]; intros s Hb; [done|]. apply Forall_cons in Hb as [Hb Hbs]. cbn [foldl]. rewrite IH by done.
  unfold values_at. cbn [omap list_omap]. destruct op as [name a l|name v b l]; [done|]. cbn [apply_op observe ms_histograms value_of]. rewrite at_dset.
  case_bool_decide as Hc; [|done]. destruct Hc as [-> ->]. cbn in Hb. by rewrite Hb.
Qed.

(** How many of the values are within each bound. *)
Definition within (values : list pyfloat) (bound : pyfloat) : Z := Z.of_nat (length (filter (fun v => f_le v bound = true) values)).
Definition tally (values bounds : list pyfloat) : list Z := map (within values) bounds.

Lemma tally_nil bounds : tally [] bounds = replicate (length bounds) 0%Z.
Proof. induction bounds as [|b bounds IH]; [done|]. cbn [tally map length replicate]. f_equal. done. Qed.
Lemma tally_app vs vs' bounds : zip_with Z.add (tally vs bounds) (tally vs' bounds) = tally (vs ++ vs') bounds.
Proof.
  induction bounds as [|b bounds IH]; [done|]. cbn [tally map zip_with]. f_equal; [|done]. unfold within. rewrite filter_app, length_app. lia.
Qed.
Lemma tally_snoc vs v bounds :
  zip_with (fun bound n => if f_le v bound then (n + 1)%Z else n) bounds (tally vs bounds) = tally (vs ++ [v]) bounds.
Proof.
  induction bounds as [|b bounds IH]; [done|]. cbn [tally map zip_with]. f_equal; [|done]. unfold within. rewrite filter_app, length_app, filter_cons.
  destruct (f_le v b); [rewrite decide_True by done|rewrite decide_False by done]; cbn [length filter list_filter]; lia.
Qed.

(** The histogram of some values. *)
Definition counts (bounds values : list pyfloat) (h : Hist) : Prop :=
  h_bounds h = bounds /\ h_buckets h = tally values bounds /\ h_count h = Z.of_nat (length values).

Lemma counts_new bounds : counts bounds [] (new_hist bounds).
Proof. repeat split. cbn. by rewrite tally_nil. Qed.
Lemma counts_observed bounds vs v h : counts bounds vs h -> counts bounds (vs ++ [v]) (observed v h).
Proof.
  intros (Hb & Hk & Hc). unfold counts, observed. cbn. rewrite Hb, Hk, Hc, tally_snoc, length_app. repeat split. cbn. lia.
Qed.

Lemma summary_counts bounds values : match summary bounds values with None => values = [] | Some h => values <> [] /\ counts bounds values h end.
Proof.
  induction values as [|v values IH] using rev_ind; [done|]. unfold summary in *. rewrite foldl_app. cbn [foldl]. split; [by destruct values|].
  apply counts_observed. destruct (foldl _ None values) as [h|]; [by destruct IH|]. subst values. apply counts_new.
Qed.


(** ** Rows and keys *)

Section strict.
Context {A : Type} (lt : A -> A -> bool).
Context (irrefl : forall a, lt a a = false) (trans : forall a b c, lt a b = true -> lt b c = true -> lt a c = true)
  (total_order : forall a b, lt a b = false -> lt b a = false -> a = b).

Lemma strict_asym a b : lt a b = true -> lt b a = false.
Proof. intros Hab. apply not_true_iff_false. intros Hba. generalize (irrefl a). by rewrite (trans a b a Hab Hba). Qed.
Lemma strict_negtrans a b c : lt b a = false -> lt c b = false -> lt c a = false.
Proof.
  intros Hba Hcb. destruct (lt a b) eqn:Hab.
  - apply not_true_iff_false. intros Hca. by rewrite (trans c a b Hca Hab) in Hcb.
  - by rewrite (total_order a b Hab Hba).
Qed.
Lemma sorted_twice l : py_sorted lt (py_sorted lt l) = py_sorted lt l.
Proof.
  apply py_sorted_id, (py_sorted_order lt (fun _ => True)); [intros a b _ _; apply strict_asym|intros a b c _ _ _; apply strict_negtrans|by apply Forall_true].
Qed.
End strict.

Lemma pair_ltb_irrefl a : pair_ltb a a = false.
Proof. unfold pair_ltb. by rewrite !str_ltb_irrefl, andb_false_r. Qed.
Lemma pair_ltb_spec a b : pair_ltb a b = true <-> str_ltb a.1 b.1 = true \/ a.1 = b.1 /\ str_ltb a.2 b.2 = true.
Proof. unfold pair_ltb. by rewrite orb_true_iff, andb_true_iff, bool_decide_eq_true. Qed.
Lemma pair_ltb_trans a b c : pair_ltb a b = true -> pair_ltb b c = true -> pair_ltb a c = true.
Proof.
  rewrite !pair_ltb_spec. intros [H|[H H']] [K|[K K']].
  - left. by eapply str_ltb_trans.
  - left. by rewrite <- K.
  - left. by rewrite H.
  - right. split; [by rewrite H|by eapply str_ltb_trans].
Qed.
Lemma pair_ltb_total a b : pair_ltb a b = false -> pair_ltb b a = false -> a = b.
Proof.
  rewrite <- !not_true_iff_false, !pair_ltb_spec. destruct a as [a1 a2], b as [b1 b2]. cbn [fst snd]. intros H K.
  assert (a1 = b1) as -> by (apply str_ltb_total; apply not_true_iff_false; tauto).
  f_equal. apply str_ltb_total; apply not_true_iff_false; tauto.
Qed.
Lemma label_key_twice l : label_key (label_key l) = label_key l.
Proof. apply sorted_twice; eauto using pair_ltb_irrefl, pair_ltb_trans, pair_ltb_total. Qed.

(** A table in which nothing is twice, as the writes leave it. *)
Definition one_row_each {V} (d : list (pystr * list (labels * V))) : Prop :=
  NoDup d.*1 /\ Forall (fun nr => NoDup nr.2.*1 /\ Forall (fun lv => label_key lv.1 = lv.1) nr.2) d.

Lemma one_row_write {V} name l (v : V) d : one_row_each d -> one_row_each (dset name (dset (label_key l) v (series_of name d)) d).
Proof.
  intros [Hd Hr]. split; [by apply NoDup_dset|]. apply Forall_dset; [|done]. cbn [snd].
  assert (NoDup (series_of name d).*1 /\ Forall (fun lv : labels * V => label_key lv.1 = lv.1) (series_of name d)) as [H1 H2].
  { unfold series_of. destruct (dget name d) as [rows|] eqn:E; [|by repeat constructor]. apply dget_Some_elem in E. rewrite Forall_forall in Hr. by apply Hr in E. }
  split; [by apply NoDup_dset|]. apply Forall_dset; [apply label_key_twice|done].
Qed.

Lemma one_row_counted ops s : one_row_each (ms_counters s) /\ one_row_each (ms_histograms s) ->
  one_row_each (ms_counters (counted ops s)) /\ one_row_each (ms_histograms (counted ops s)).
Proof.
  unfold counted. revert s. induction ops as [|op ops IH]; intros s Hs; [done|]. apply IH. destruct Hs, op; cbn; eauto using one_row_write.
Qed.
Lemma one_row_all ops : one_row_each (ms_counters (counted ops empty_store)) /\ one_row_each (ms_histograms (counted ops empty_store)).
Proof. apply one_row_counted. split; split; constructor. Qed.

Definition listed {A} (o : option A) : list A := match o with Some a => [a] | None => [] end.

Lemma filter_key {K V} `{EqDecision K} (n : K) (d : list (K * V)) : NoDup d.*1 ->
  filter (fun nr => nr.1 = n) d = match dget n d with Some v => [(n, v)] | None => [] end.
Proof.
  induction d as [|[m v] d IH]; [done|]. intros [Hm Hd]%NoDup_cons. rewrite filter_cons. cbn [dget fst]. rewrite IH by done.
  destruct (decide (m = n)) as [->|]; [|done]. destruct (dget n d) as [v'|] eqn:E; [|done]. destruct Hm. apply dget_Some_elem in E.
  apply list_elem_of_fmap. by exists (n, v').
Qed.

Lemma filter_label {V} k (rows : list (labels * V)) : Forall (fun lv => label_key lv.1 = lv.1) rows ->
  filter (fun lv => label_key lv.1 = k) rows = filter (fun lv => lv.1 = k) rows.
Proof.
  induction rows as [|lv rows IH]; intros Hr; [done|]. apply Forall_cons in Hr as [Hk Hr]. rewrite !filter_cons, IH by done.
  destruct (decide (label_key lv.1 = k)), (decide (lv.1 = k)); congruence || done.
Qed.

Lemma rows_at_one {V} n k (d : list (pystr * list (labels * V))) : one_row_each d -> rows_at n k d = listed (at_labels n k d).
Proof.
  intros [Hd Hr]. unfold rows_at, at_labels, series_of. rewrite filter_key by done. destruct (dget n d) as [rows|] eqn:E; [|done].
  apply dget_Some_elem in E. rewrite Forall_forall in Hr. apply Hr in E as [Hn Hk]. cbn [snd] in Hn, Hk. cbn [mbind list_bind snd default]. rewrite app_nil_r.
  rewrite filter_label, filter_key by done. unfold id. by destruct (dget k rows).
Qed.

Lemma rows_at_map {V W} (f : V -> W) n k (d : list (pystr * list (labels * V))) :
  rows_at n k (map (fun ns => (ns.1, map (fun lh => (lh.1, f lh.2)) ns.2)) d) = map f (rows_at n k d).
Proof.
  unfold rows_at. induction d as [|[m rows] d IH]; [done|]. cbn [map fst snd]. rewrite !filter_cons. cbn [fst]. destruct (decide (m = n)); [|done].
  rewrite !bind_cons. cbn [snd]. rewrite !filter_app, !map_app, IH. f_equal. induction rows as [|[l v] rows IHr]; [done|]. cbn [map fst snd]. rewrite !filter_cons.
  cbn [fst]. destruct (decide (label_key l = k)); cbn [map snd]; by rewrite IHr.
Qed.

(** ** A snapshot, written and read *)

Definition hist_back (h : Hist) : Hist := {| h_bounds := h_bounds h; h_buckets := h_buckets h; h_count := h_count h; h_sum := or_zero (h_sum h) |}.
Lemma SFeqb_inf x : SFeqb x f_inf = true -> x = f_inf.
Proof. destruct x as [[]|[]| |[] ? ?]; cbn; (done || by intros). Qed.

Lemma hist_round h : h_bounds h <> [] -> length (h_buckets h) = length (h_bounds h) -> hist_from_json (hist_to_json h) = Some (hist_back h).
Proof.
  intros Hb Hl. unfold hist_from_json, hist_to_json. cbn [hr_bounds hr_buckets hr_count hr_sum].
  assert (map (default f_inf) (map (fun bound => if SFeqb bound f_inf then None else Some bound) (h_bounds h)) = h_bounds h) as ->.
  { clear. induction (h_bounds h) as [|b l IH]; [done|]. cbn [map]. rewrite IH. f_equal. destruct (SFeqb b f_inf) eqn:E; [|done]. by apply SFeqb_inf in E as ->. }
  destruct h as [[|b bs] ks c s]; [done|]. cbn in *. by rewrite Hl, Nat.eqb_refl.
Qed.

Lemma SFeqb_refl x : f_nan x = false -> SFeqb x x = true.
Proof.
  unfold SFeqb. destruct x as [[]|[]| |[] m e]; try done; intros _; cbn; rewrite Z.compare_refl;
    change (Pos.compare_cont Eq m m) with (Pos.compare m m); by rewrite Pos.compare_refl.
Qed.
Lemma bounds_eqb_refl bounds : Forall (fun b => f_nan b = false) bounds -> bounds_eqb bounds bounds = true.
Proof.
  intros Hb. unfold bounds_eqb. rewrite Nat.eqb_refl. cbn [andb]. induction Hb as [|b bounds Hb _ IH]; [done|]. cbn. by rewrite SFeqb_refl.
Qed.

(** A histogram of all the values, if there are any. *)
Definition tallied (bounds values : list pyfloat) (o : option Hist) : Prop :=
  match o with None => values = [] | Some h => values <> [] /\ counts bounds values h end.

Lemma tallied_join bounds vs vs' o h : Forall (fun b => f_nan b = false) bounds -> tallied bounds vs o -> vs' <> [] -> counts bounds vs' h ->
  tallied bounds (vs ++ vs') (join_to o h).
Proof.
  intros Hn Ho Hvs' Hh. assert (Hne : vs ++ vs' <> []) by (destruct vs, vs'; done). split; [done|]. destruct o as [e|]; [|by rewrite Ho].
  destruct Ho as [_ (Hb & Hk & Hc)], Hh as (Hb' & Hk' & Hc'). unfold joined. rewrite Hb, Hb', bounds_eqb_refl by done. cbn [negb]. unfold counts. cbn.
  rewrite Hk, Hk', tally_app, Hc, Hc', length_app. repeat split. lia.
Qed.

(** ** The number in a file's name *)

Lemma ascii_digit_value c : is_ascii_digit c = true -> digit_value c = Some (Z.of_N (c - 48)).
Proof.
  unfold is_ascii_digit, digit_value. intros [H1 H2]%andb_true_iff. apply N.leb_le in H1, H2. cbn [find digit_zeros].
  replace ((48 <=? c)%N && (c <? 48 + 10)%N) with true; [done|]. symmetry. apply andb_true_iff. split; [by apply N.leb_le|apply N.ltb_lt; lia].
Qed.
Lemma int_digits_decimal ds : forall b acc, Forall (fun c => is_ascii_digit c = true) ds -> b = true \/ ds <> [] ->
  int_digits b acc ds = Some (digits_value acc ds).
Proof.
  induction ds as [|c ds IH]; intros b acc Hd Hb; [by destruct Hb as [->|]|]. apply Forall_cons in Hd as [Hc Hd]. cbn [int_digits].
  destruct (N.eqb_spec c 95) as [->|]; [done|]. rewrite ascii_digit_value by done. cbn [mbind option_bind]. apply IH; [done|by left].
Qed.

Lemma ascii_digit_nonspace c : is_ascii_digit c = true -> is_space c = false.
Proof.
  unfold is_ascii_digit. intros [H1 H2]%andb_true_iff. apply N.leb_le in H1, H2.
  assert (exists i, i < 10 /\ c = (48 + N.of_nat i)%N) as (i & Hi & ->) by (exists (N.to_nat (c - 48)); lia).
  do 10 (destruct i as [|i]; [vm_compute; reflexivity|]). lia.
Qed.

Lemma int_of_decimal ds n : decimal ds n -> int_of_str ds = Some n.
Proof.
  intros [Hne Hd Hv _]. unfold int_of_str. rewrite strip_id by (eapply Forall_impl; [exact Hd|apply ascii_digit_nonspace]).
  assert (H : int_digits false 0 ds = Some n) by (rewrite int_digits_decimal by (done || by right); by rewrite Hv).
  destruct ds as [|c ds]; [done|]. apply Forall_cons in Hd as [Hc _].
  assert (c <> 43%N /\ c <> 45%N) as [H1 H2] by (split; intros ->; vm_compute in Hc; discriminate).
  destruct c as [|p]; [done|]. repeat (destruct p as [p|p|]; try done).
Qed.

Lemma is_prefix_app (p s : pystr) : is_prefix p (p ++ s) = true.
Proof. induction p as [|c p IH]; cbn; [done|]. by rewrite N.eqb_refl. Qed.

Lemma pid_of_path pid : (0 <= pid)%Z -> pid_from_name (snapshot_path pid) = Some pid.
Proof.
  intros Hp. pose proof (dec_decimal pid Hp) as Hd. unfold pid_from_name, snapshot_path. rewrite is_prefix_app.
  assert (is_suffix (u ".json") (u "cs-" ++ dec pid ++ u ".json") = true) as ->.
  { rewrite app_assoc. unfold is_suffix. rewrite reverse_app. apply is_prefix_app. }
  cbn [negb orb]. rewrite drop_app_length' by reflexivity. rewrite !length_app.
  rewrite take_app_length' by (change (length (u "cs-")) with 3; change (length (u ".json")) with 5; lia).
  pose proof Hd as [Hne Hall _ _]. assert (truthy (dec pid) = true) as -> by (by destruct (dec pid)).
  assert (forallb is_digit (dec pid) = true) as ->.
  { apply forallb_forall. intros c Hc. apply is_ascii_digit_digit. rewrite Forall_forall in Hall. apply Hall. by apply list_elem_of_In. }
  by apply int_of_decimal.
Qed.
Lemma path_is_snapshot pid : is_snapshot_name (snapshot_path pid) = true.
Proof.
  unfold is_snapshot_name, snapshot_path. rewrite is_prefix_app. rewrite app_assoc. unfold is_suffix at 1. rewrite reverse_app, is_prefix_app.
  rewrite !length_app. apply Nat.leb_le. change (length (u "cs-")) with 3. change (length (u ".json")) with 5. lia.
Qed.

(** ** A scrape *)

(** A process that lives: its number, its gauges and all the calls it has made; and the
    file it leaves. *)
Record worker := { wk_pid : Z; wk_gauges : gauges; wk_ops : list metric_op }.
Definition file_of (w : worker) : pystr * option snapshot :=
  (snapshot_path (wk_pid w), Some (_snapshot_payload_unlocked (wk_pid w) (wk_gauges w) (counted (wk_ops w) empty_store))).

Lemma merge_counters n k m w :
  at_labels n k (mg_counters (merge_one m (file_of w).2)) =
  foldl add_to (at_labels n k (mg_counters m)) (map or_zero (listed (total (amounts_at n k (wk_ops w))))).
Proof.
  cbn [file_of snd merge_one mg_counters _snapshot_payload_unlocked sn_counters].
  etrans; [exact (fold_table add_counter add_to (fun v => Some (or_zero v)) add_counter_at _ _ n k)|].
  rewrite rows_at_one by apply one_row_all. rewrite counters_at.
  unfold total. cbn [empty_store ms_counters]. change (at_labels n k []) with (@None pyfloat). by destruct (foldl add_to None _).
Qed.

Lemma merge_histograms bounds n k m w vs : Forall (bounds_of n bounds) (wk_ops w) -> bounds <> [] -> Forall (fun b => f_nan b = false) bounds ->
  tallied bounds vs (at_labels n k (mg_histograms m)) ->
  tallied bounds (vs ++ values_at n k (wk_ops w)) (at_labels n k (mg_histograms (merge_one m (file_of w).2))).
Proof.
  intros Hw Hne Hn Hm. cbn [file_of snd merge_one mg_histograms _snapshot_payload_unlocked sn_histograms].
  lazymatch goal with |- tallied _ _ ?o => assert (o = foldl join_to (at_labels n k (mg_histograms m)) (omap hist_from_json (map hist_to_json
    (rows_at n k (ms_histograms (counted (wk_ops w) empty_store)))))) as -> end.
  { etrans; [exact (fold_table add_histogram join_to hist_from_json add_histogram_at _ _ n k)|]. by rewrite (rows_at_map hist_to_json). }
  rewrite rows_at_one by apply one_row_all. rewrite (histograms_at n k bounds) by done. cbn [empty_store ms_histograms].
  change (at_labels n k []) with (@None Hist). fold (summary bounds (values_at n k (wk_ops w))).
  pose proof (summary_counts bounds (values_at n k (wk_ops w))) as Hs. destruct (summary _ _) as [h|]; cbn [listed map omap list_omap foldl].
  - destruct Hs as [Hvs Hc]. destruct Hc as (Hb & Hk & Hcount). rewrite hist_round; [|by rewrite Hb|by rewrite Hb, Hk; unfold tally; rewrite length_map].
    cbn [foldl]. apply tallied_join; [done..|]. by repeat split.
  - by rewrite Hs, app_nil_r.
Qed.

Definition sum_of (f : worker -> Z) (ws : list worker) : Z := foldr Z.add 0%Z (map f ws).

Lemma sum_snoc f ws w : sum_of f (ws ++ [w]) = (sum_of f ws + f w)%Z.
Proof. unfold sum_of. rewrite map_app, foldr_app. cbn. induction ws as [|w' ws IH]; cbn; lia. Qed.

(** What is merged of the files of some workers. *)
Lemma merged_all bounds n k ws : Forall (fun w => Forall (bounds_of n bounds) (wk_ops w)) ws -> bounds <> [] -> Forall (fun b => f_nan b = false) bounds ->
  let m := merge_snapshots (map snd (map file_of ws)) in
  at_labels n k (mg_counters m) = total (map or_zero (omap (fun w => total (amounts_at n k (wk_ops w))) ws)) /\
  tallied bounds (w ← ws; values_at n k (wk_ops w)) (at_labels n k (mg_histograms m)) /\
  mg_in_flight m = sum_of (fun w => ga_in_flight (wk_gauges w)) ws /\
  tp_order (mg_tool_pool m) = sum_of (fun w => tp_order (ga_tool_pool (wk_gauges w))) ws /\
  tp_course (mg_tool_pool m) = sum_of (fun w => tp_course (ga_tool_pool (wk_gauges w))) ws.
Proof.
  intros Hw Hne Hn. cbn zeta. unfold merge_snapshots. induction ws as [|w ws IH] using rev_ind; [by repeat split|].
  apply Forall_app in Hw as [Hws Hw]. apply Forall_cons in Hw as [Hw _]. specialize (IH Hws) as (IH1 & IH2 & IH3 & IH4 & IH5).
  rewrite !map_app, !foldl_app, !sum_snoc. cbn [map foldl]. split_and!.
  - rewrite merge_counters, IH1. unfold total. rewrite omap_app, map_app, foldl_app. cbn. by destruct (foldl add_to None _).
  - rewrite bind_app. cbn [mbind list_bind]. rewrite app_nil_r. apply merge_histograms; [exact Hw|exact Hne|exact Hn|exact IH2].
  - cbn. by rewrite IH3.
  - cbn. by rewrite IH4.
  - cbn. by rewrite IH5.
Qed.

Lemma lives_file pid_alive w : (0 <= wk_pid w)%Z -> lives pid_alive (file_of w).1 = pid_alive (wk_pid w).
Proof. intros Hp. unfold lives, file_of. cbn [fst]. by rewrite pid_of_path. Qed.
Lemma live_files pid_alive (all : list worker) (dir : directory) : Forall (fun w => (0 <= wk_pid w)%Z) all ->
  filter (fun f => is_snapshot_name f.1 = true) dir = map file_of all ->
  filter (scraped pid_alive) dir = map file_of (filter (fun w => pid_alive (wk_pid w) = true) all).
Proof.
  intros Hp Hd. transitivity (filter (fun f => lives pid_alive f.1 = true) (filter (fun f => is_snapshot_name f.1 = true) dir)).
  { rewrite list_filter_filter. apply list_filter_iff. intros f. unfold scraped. tauto. }
  rewrite Hd. clear Hd. induction Hp as [|w all Hw _ IH]; [done|]. cbn [map]. rewrite !filter_cons, lives_file, IH by done.
  by destruct (decide (pid_alive (wk_pid w) = true)).
Qed.


Definition demo_gauges (n : Z) : gauges := {| ga_in_flight := n; ga_tool_pool := {| tp_order := n; tp_course := 1 |} |}.
Definition demo_workers : list worker :=
  [{| wk_pid := 7; wk_gauges := demo_gauges 2; wk_ops := inc_chat (u "demo") [] false (u "ok") ++ observe_node (u "rag") f_half |};
   {| wk_pid := 12; wk_gauges := demo_gauges 5; wk_ops := inc_chat (u "demo") [] false (u "ok") ++ observe_node (u "rag") f_one |};
   {| wk_pid := 30; wk_gauges := demo_gauges 1; wk_ops := observe_node (u "rag") (f_of_int 7) ++ inc_chat (u "demo") (u "unknown") false (u "ok") |}].
Definition demo_me : worker := {| wk_pid := 30; wk_gauges := demo_gauges 1; wk_ops := observe_node (u "rag") (f_of_int 7) ++ inc_chat (u "demo") (u "unknown") false (u "ok") |}.
(** The second process is dead; its file, and an older one of the scraping process, are there. *)
Definition demo_alive (pid : Z) : bool := negb (pid =? 12)%Z.
Definition demo_dir : directory := map file_of (take 2 demo_workers) ++ [((file_of demo_me).1, None)].
Definition node_labels : labels := [(u "node", u "rag")].


(** ** Labels, printed and read *)

(** What a reader of the text makes of a value, up to the quote that ends it, and of a
    sample's labels. *)
Fixpoint read_label_value (s : pystr) : option (pystr * pystr) :=
  match s with
  | [] => None
  | c :: s1 =>
    if (c =? 34)%N then Some ([], s1)
    else if (c =? 92)%N then
      match s1 with
      | [] => None
      | e :: s2 =>
        c ← (if (e =? 92)%N then Some 92%N else if (e =? 110)%N then Some 10%N else if (e =? 34)%N then Some 34%N else None);
        vr ← read_label_value s2; Some (c :: vr.1, vr.2)
      end
    else vr ← read_label_value s1; Some (c :: vr.1, vr.2)
  end.
Fixpoint read_key (s : pystr) : option (pystr * pystr) :=
  match s with
  | [] => None
  | c :: s => if (c =? 61)%N then Some ([], s) else kr ← read_key s; Some (c :: kr.1, kr.2)
  end.
Fixpoint read_pairs (fuel : nat) (s : pystr) : option labels :=
  match fuel with
  | O => None
  | S fuel =>
    kr ← read_key s;
    match kr.2 with
    | 34%N :: s =>
      vr ← read_label_value s;
      match vr.2 with
      | [125%N] => Some [(kr.1, vr.1)]
      | 44%N :: s => l ← read_pairs fuel s; Some ((kr.1, vr.1) :: l)
      | _ => None
      end
    | _ => None
    end
  end.
Definition read_labels (s : pystr) : option labels :=
  match s with [] => Some [] | 123%N :: s => read_pairs (length s) s | _ => None end.

Definition esc_char (c : N) : pystr :=
  if (c =? 92)%N then [92; 92]%N else if (c =? 10)%N then [92; 110]%N else if (c =? 34)%N then [92; 34]%N else [c].
Lemma esc_at_once v : _esc v = v ≫= esc_char.
Proof.
  unfold _esc, replace_with. induction v as [|c v IH]; [done|]. rewrite !bind_cons. rewrite !bind_app, IH. f_equal. unfold esc_char.
  destruct (N.eqb_spec c 92) as [->|]; [done|]. cbn. destruct (N.eqb_spec c 10) as [->|]; [done|]. cbn. by destruct (N.eqb_spec c 34) as [->|].
Qed.

Lemma label_value_read_back v rest : read_label_value (_esc v ++ 34%N :: rest) = Some (v, rest).
Proof.
  rewrite esc_at_once. induction v as [|c v IH]; [done|]. rewrite bind_cons, <- app_assoc. unfold esc_char at 1.
  destruct (N.eqb_spec c 92) as [->|H92]; [cbn -[mbind]; rewrite IH; done|].
  destruct (N.eqb_spec c 10) as [->|H10]; [cbn -[mbind]; rewrite IH; done|].
  destruct (N.eqb_spec c 34) as [->|H34]; [cbn -[mbind]; rewrite IH; done|].
  cbn [app read_label_value]. apply N.eqb_neq in H34, H92. rewrite H34, H92, IH. done.
Qed.
Lemma key_read_back k rest : 61%N ∉ k -> read_key (k ++ 61%N :: rest) = Some (k, rest).
Proof.
  induction k as [|c k IH]; intros Hk; [done|]. apply not_elem_of_cons in Hk as [Hc Hk]. cbn [app read_key].
  destruct (N.eqb_spec c 61); [by subst|]. by rewrite IH.
Qed.

Definition pair_text (kv : pystr * pystr) : pystr := kv.1 ++ u "=" ++ QUOTE ++ _esc kv.2 ++ QUOTE.
Lemma pairs_read_back l : forall fuel, Forall (fun kv : pystr * pystr => 61%N ∉ kv.1) l -> l <> [] -> length l <= fuel ->
  read_pairs fuel (join (u ",") (map pair_text l) ++ u "}") = Some l.
Proof.
  assert (H1 : forall kv rest, pair_text kv ++ rest = kv.1 ++ 61%N :: 34%N :: _esc kv.2 ++ 34%N :: rest).
  { intros kv rest. unfold pair_text. change (u "=") with [61%N]. unfold QUOTE. by rewrite <- !app_assoc. }
  induction l as [|kv l IH]; intros [|fuel] Hl Hne Hf; try done; [cbn in Hf; lia|]. apply Forall_cons in Hl as [Hk Hl]. cbn [map]. destruct l as [|kv' l].
  - change (join (u ",") (pair_text kv :: map pair_text [])) with (pair_text kv). rewrite H1. cbn [read_pairs]. rewrite key_read_back by done. cbn [mbind option_bind fst snd].
    change (u "}") with [125%N]. rewrite label_value_read_back. by destruct kv.
  - change (join (u ",") (pair_text kv :: map pair_text (kv' :: l))) with (pair_text kv ++ u "," ++ join (u ",") (map pair_text (kv' :: l))).
    rewrite <- !app_assoc, H1. cbn [read_pairs]. rewrite key_read_back by done. cbn [mbind option_bind fst snd].
    change (u ",") with [44%N] at 1. rewrite label_value_read_back. cbn [mbind option_bind fst snd app].
    rewrite IH by (done || (cbn in *; lia)). by destruct kv.
Qed.

Lemma join_long (l : labels) : length l <= length (join (u ",") (map pair_text l)).
Proof.
  assert (H : forall kv, 1 <= length (pair_text kv)).
  { intros kv. unfold pair_text. rewrite !length_app. change (length (u "=")) with 1. lia. }
  induction l as [|kv [|kv' l] IH]; [done|apply H|].
  change (join (u ",") (map pair_text (kv :: kv' :: l))) with (pair_text kv ++ u "," ++ join (u ",") (map pair_text (kv' :: l))).
  rewrite !length_app. specialize (H kv). cbn [length] in *. lia.
Qed.

(** Labels are printed so that a reader gets them back, whatever their values hold:
    line breaks, quotes and backslashes too. *)
Theorem labels_read_back (l : labels) : Forall (fun kv : pystr * pystr => 61%N ∉ kv.1) l -> read_labels (_format_labels l) = Some l.
Proof.
  intros Hl. unfold _format_labels.
  assert (H : l <> [] -> read_labels (u "{" ++ join (u ",") (map pair_text l) ++ u "}") = Some l).
  { intros Hne. change (u "{") with [123%N]. cbn [app read_labels]. apply pairs_read_back; [done..|]. rewrite length_app. pose proof (join_long l). lia. }
  destruct l as [|kv l]; [done|]. by apply H.
Qed.

Definition odd_labels : labels := [(u "path", [34; 10; 92; 110; 44; 125]%N); (u "tenant", u "课程")].
Lemma labels_read_back_witness : read_labels (_format_labels odd_labels) = Some odd_labels.
Proof.
  apply labels_read_back. repeat constructor; apply (bool_decide_unpack _); vm_compute; exact I.
Defined.

(** What is printed where nothing is shared: one chat turn, and a queue that was waited in. *)
Definition shown_metrics : res exn pystr :=
  (render_prometheus demo_alive false f_one 7 (demo_gauges 2) None
    {| mx_store := counted (inc_chat (u "demo") [] false (u "ok") ++ observe_tool_pool_queue (u "pdf") (f_div_int 3 1000)) empty_store; mx_dir := None |}).1.
Example renders_the_buckets : exists text, shown_metrics = Ok text /\
  take 3 (drop 2 (splitlines text)) = [u "cs_chat_requests_total{blocked=" ++ QUOTE ++ u "false" ++ QUOTE ++ u ",intent=" ++ QUOTE ++ u "unknown" ++ QUOTE ++ u ",outcome=" ++
    QUOTE ++ u "ok" ++ QUOTE ++ u ",tenant=" ++ QUOTE ++ u "demo" ++ QUOTE ++ u "} 1"; help_line (u "cs_tool_pool_queue_seconds"); u "# TYPE cs_tool_pool_queue_seconds histogram"] /\
  take 2 (drop 5 (splitlines text)) = [u "cs_tool_pool_queue_seconds_bucket{le=" ++ QUOTE ++ u "0.001" ++ QUOTE ++ u ",pool=" ++ QUOTE ++ u "unknown" ++ QUOTE ++ u "} 0";
    u "cs_tool_pool_queue_seconds_bucket{le=" ++ QUOTE ++ u "0.005" ++ QUOTE ++ u ",pool=" ++ QUOTE ++ u "unknown" ++ QUOTE ++ u "} 1"].
Proof. eexists. split; [vm_compute; reflexivity|]. split; vm_compute; reflexivity. Qed.
