(* ===== verification/Web.v ===== *)
(** * Around the endpoints ([app/app.py], [app/observability/])

    What every request passes: its id, what is counted and logged of it, the headers of its
    response; and the endpoints besides the conversation: readiness, feedback, and the order
    report. *)

From stdpp Require Import base list gmap strings.
From Stdlib Require Import Floats.SpecFloat.
From S2P Require Import Prelude PyText PyFloat PySort PyDict Errors Json PyJson Tenancy OrderNo OrderAccess Orders Escalation ToolCache Capability OrderCapability Documents Ingest Harvest Metrics.
Open Scope py_scope.

(** ** Request ids ([context.py]) *)

Definition REQUEST_ID_HEADER : pystr := u "X-Request-Id".
(** [fresh] is [uuid4().hex]. *)
Definition new_request_id (fresh : pystr) (raw : option pystr) : pystr := str_or (strip (opt_str raw)) fresh.
(** What [set_request_id] puts into the context variable. *)
Definition request_context (request_id : pystr) : pystr := strip request_id.

(** ** The middleware *)

Definition _SKIP_HTTP_LOG : list pystr := [u "/health"; u "/ready"; u "/metrics"].
Definition ORDERS_PREFIX : pystr := u "/api/v1/orders/".
Definition _metric_path (path : pystr) : pystr :=
  if is_prefix ORDERS_PREFIX path then u "/api/v1/orders/{order_no}"
  else if is_prefix (u "/static/") path then u "/static"
  else str_or path (u "/").

(** Headers, with the assignment of [MutableHeaders] and the lookup of [Headers]. *)
Class HeaderMap (H : Type) := {
  h_get : pystr -> H -> option pystr;
  h_set : pystr -> pystr -> H -> H;
}.
(** Names are compared without regard to case. *)
Class HeaderMapLaws (H : Type) `{HeaderMap H} : Prop := {
  h_get_set k k' v h : h_get k (h_set k' v h) = if bool_decide (lower k = lower k') then Some v else h_get k h;
}.

(** The messages an application sends. *)
Inductive message (H : Type) : Type :=
| Start (status : option Z) (headers : H)
| Other (content : pystr).
Arguments Start {H}.
Arguments Other {H}.

(** What an application does with a request: it sends messages, and sees whether sending
    failed; it ends, or raises. *)
Inductive application (H : Type) : Type :=
| Finish
| Throw (e : exn)
| Send (m : message H) (k : res exn unit -> application H).
Arguments Finish {H}.
Arguments Throw {H}.
Arguments Send {H}.

Fixpoint run_app {H W} (send : message H -> ST W exn unit) (app : application H) : ST W exn unit :=
  match app with
  | Finish => st_ret tt
  | Throw e => st_raise e
  | Send m k => fun w => let (r, w) := send m w in run_app send (k r) w
  end.

(** [log_event(logger, "http_request", ...)]. *)
Record http_log := { hl_method : pystr; hl_path : pystr; hl_status : Z; hl_elapsed_ms : Z }.
(** [int] of a finite number. *)
Definition f_trunc (x : pyfloat) : Z :=
  match x with
  | S754_finite s m e => let n := if (0 <=? e)%Z then (Z.pos m * 2 ^ e)%Z else (Z.pos m / 2 ^ (- e))%Z in if s then (- n)%Z else n
  | _ => 0%Z
  end.

(** The context variable, the calls to the metrics, the log, and what the server was given. *)
Record server (H : Type) := {
  sv_context : pystr;
  sv_ops : list metric_op;
  sv_log : list http_log;
  sv_sent : list (message H);
}.
Arguments sv_context {H}.
Arguments sv_ops {H}.
Arguments sv_log {H}.
Arguments sv_sent {H}.
Arguments Build_server {H}.
(** With the middleware's [status] and [recorded]. *)
Record watched (H : Type) := { wa_server : server H; wa_status : Z; wa_recorded : bool }.
Arguments wa_server {H}.
Arguments wa_status {H}.
Arguments wa_recorded {H}.
Arguments Build_watched {H}.

Record http_scope (H : Type) := { sc_http : bool; sc_path : option pystr; sc_method : option pystr; sc_headers : H }.
Arguments sc_http {H}.
Arguments sc_path {H}.
Arguments sc_method {H}.
Arguments sc_headers {H}.
Arguments Build_http_scope {H}.

Section middleware.
Context {H : Type} `{HeaderMap H}.
(** How a message fares, behind those sent before; the time since the request began, when so
    many messages had been sent; [uuid4]; whether a tracer is set up, and the headers of
    [propagate.inject], or its exception. *)
Context (deliver : list (message H) -> message H -> res exn unit) (elapsed : nat -> pyfloat) (fresh : pystr).
Context (tracing : bool) (carrier : res exn (list (pystr * pystr))).

Definition inject_trace_context (headers : H) : H :=
  if negb tracing then headers
  else match carrier with
       | Raise _ => headers
       | Ok pairs => foldl (fun h '(k, v) => if truthy v then h_set k v h else h) headers pairs
       end.

Definition on_server (f : server H -> server H) (w : watched H) : watched H := Build_watched (f (wa_server w)) (wa_status w) (wa_recorded w).
Definition set_context (c : pystr) (s : server H) : server H := Build_server c (sv_ops s) (sv_log s) (sv_sent s).

(** The server's [send]. *)
Definition send_message (m : message H) : ST (server H) exn unit := fun s =>
  (deliver (sv_sent s) m, Build_server (sv_context s) (sv_ops s) (sv_log s) (sv_sent s ++ [m])).

(** [inc_http], [observe_http], and the log unless the path is skipped. *)
Definition http_ops (method path : pystr) (status : Z) (t : pyfloat) : list metric_op :=
  inc_http method (_metric_path path) status ++ observe_http method (_metric_path path) status t.
Definition http_logs (method path : pystr) (status : Z) (t : pyfloat) : list http_log :=
  if bool_decide (path ∈ _SKIP_HTTP_LOG) then []
  else [{| hl_method := method; hl_path := _metric_path path; hl_status := status; hl_elapsed_ms := f_trunc (f_mul t (f_of_int 1000)) |}].
Definition record_http (method path : pystr) (status : Z) (s : server H) : server H :=
  let t := elapsed (length (sv_sent s)) in
  Build_server (sv_context s) (sv_ops s ++ http_ops method path status t) (sv_log s ++ http_logs method path status t) (sv_sent s).

Definition marked (request_id : pystr) (m : message H) : message H :=
  match m with
  | Start status headers => Start status (inject_trace_context (h_set REQUEST_ID_HEADER request_id headers))
  | Other _ => m
  end.

Definition send_wrapper (request_id method path : pystr) (m : message H) : ST (watched H) exn unit := fun w =>
  let w := match m with
           | Start status _ =>
             let status := default 500%Z status in
             let w := Build_watched (wa_server w) status (wa_recorded w) in
             if wa_recorded w then w else Build_watched (record_http method path status (wa_server w)) status true
           | Other _ => w
           end in
  let (r, s) := send_message (marked request_id m) (wa_server w) in
  (r, Build_watched s (wa_status w) (wa_recorded w)).

(** [__call__].  The application is what it does with the request under a request id. *)
Definition observability_middleware (app : pystr -> application H) (scope : http_scope H) : ST (server H) exn unit := fun s =>
  if negb (sc_http scope) then run_app send_message (app (sv_context s)) s
  else
    let request_id := new_request_id fresh (h_get REQUEST_ID_HEADER (sc_headers scope)) in
    let context := sv_context s in
    let path := str_or (opt_str (sc_path scope)) (u "/") in
    let method := str_or (opt_str (sc_method scope)) (u "GET") in
    let w := Build_watched (set_context (request_context request_id) s) 500%Z false in
    let (r, w) := run_app (send_wrapper request_id method path) (app (sv_context (wa_server w))) w in
    let s := if wa_recorded w then wa_server w else record_http method path (wa_status w) (wa_server w) in
    (r, set_context context s).
End middleware.

Section watching.
Context {H : Type} `{HeaderMapLaws H}.
Context (deliver : list (message H) -> message H -> res exn unit) (elapsed : nat -> pyfloat) (fresh : pystr).
Context (tracing : bool) (carrier : res exn (list (pystr * pystr))).
(** The tracer writes its own headers. *)
Context (carrier_other : forall pairs, carrier = Ok pairs -> Forall (fun kv => lower kv.1 <> lower REQUEST_ID_HEADER) pairs).
Abbreviation marked := (marked tracing carrier).
Abbreviation sender := (send_wrapper deliver elapsed tracing carrier).

(** How an application ends and what it tries to send, when each message is passed on by [f]. *)
Fixpoint attempted (f : message H -> message H) (sent : list (message H)) (app : application H) : res exn unit * list (message H) :=
  match app with
  | Finish => (Ok tt, [])
  | Throw e => (Raise e, [])
  | Send m k => let (r, ms) := attempted f (sent ++ [f m]) (k (deliver sent (f m))) in (r, m :: ms)
  end.
(** The status of the first start of a response. *)
Definition first_status (ms : list (message H)) : option Z :=
  head (omap (fun m => match m with Start status _ => Some (default 500%Z status) | Other _ => None end) ms).

Lemma marked_id request_id status headers status' headers' :
  marked request_id (Start status headers) = Start status' headers' -> status' = status /\ h_get REQUEST_ID_HEADER headers' = Some request_id.
Proof using All.
  unfold Web.marked. intros [= <- <-]. split; [done|]. unfold inject_trace_context.
  assert (Hset : h_get REQUEST_ID_HEADER (h_set REQUEST_ID_HEADER request_id headers) = Some request_id) by (rewrite h_get_set; by rewrite bool_decide_eq_true_2).
  destruct (negb tracing); [done|]. destruct carrier as [pairs|e] eqn:Ec; [|done]. specialize (carrier_other pairs eq_refl). clear Ec.
  revert Hset. generalize (h_set REQUEST_ID_HEADER request_id headers). induction pairs as [|[k v] pairs IH]; intros h Hset; [done|].
  apply Forall_cons in carrier_other as [Hk Hks]. cbn [foldl]. apply IH; [done|]. destruct (truthy v); [|done].
  rewrite h_get_set, bool_decide_eq_false_2; [done|]. intros E. by apply Hk.
Qed.

(** A run under the middleware: what was recorded stays; else the first start is. *)
Lemma watched_run request_id method path (app : application H) : forall w,
  let '(r, ms) := attempted (marked request_id) (sv_sent (wa_server w)) app in
  let '(r', w') := run_app (sender request_id method path) app w in
  r' = r /\ sv_context (wa_server w') = sv_context (wa_server w) /\ sv_sent (wa_server w') = sv_sent (wa_server w) ++ map (marked request_id) ms /\
  wa_recorded w' = (wa_recorded w || bool_decide (is_Some (first_status ms))) /\ (wa_recorded w' = false -> wa_status w' = wa_status w) /\
  exists t, sv_ops (wa_server w') = sv_ops (wa_server w) ++ from_option (fun status => if wa_recorded w then [] else http_ops method path status t) [] (first_status ms) /\
            sv_log (wa_server w') = sv_log (wa_server w) ++ from_option (fun status => if wa_recorded w then [] else http_logs method path status t) [] (first_status ms).
Proof using Type.
  induction app as [|e|m k IH]; intros w; cbn [attempted run_app]; unfold st_ret, st_raise.
  1, 2: cbn [map first_status omap list_omap head from_option]; rewrite !app_nil_r, orb_false_r; (repeat (split; [done|])); exists f_zero; by rewrite ?app_nil_r.
  set (sent := sv_sent (wa_server w)). set (r1 := deliver sent (marked request_id m)).
  destruct (attempted (marked request_id) (sent ++ [marked request_id m]) (k r1)) as [r ms] eqn:Ea.
  destruct m as [status headers|content]; unfold send_wrapper, send_message; cbn [wa_server wa_status wa_recorded].
  - destruct (wa_recorded w) eqn:Er; cbn [wa_server wa_status wa_recorded].
    + match goal with |- context [run_app _ _ ?w1] => specialize (IH r1 w1) end. cbn [wa_server wa_status wa_recorded sv_sent sv_context sv_ops sv_log] in IH.
      fold sent in IH. fold r1. rewrite Ea in IH. destruct (run_app _ _ _) as [r' w']. destruct IH as (-> & Hc & Hs & Hr & Hst & t & Ho & Hl).
      split; [done|]. split; [exact Hc|]. split; [by rewrite Hs, <- app_assoc|]. split; [done|]. rewrite Hr. split; [done|]. exists t. rewrite Ho, Hl.
      by destruct (first_status ms).
    + match goal with |- context [run_app _ _ ?w1] => specialize (IH r1 w1) end. cbn [wa_server wa_status wa_recorded sv_sent sv_context sv_ops sv_log record_http] in IH.
      fold sent in IH. unfold record_http. cbn [wa_server sv_sent sv_context sv_ops sv_log]. fold sent. fold r1. rewrite Ea in IH. destruct (run_app _ _ _) as [r' w'].
      destruct IH as (-> & Hc & Hs & Hr & Hst & t & Ho & Hl).
      split; [done|]. split; [exact Hc|]. split; [by rewrite Hs, <- app_assoc|]. split; [done|]. rewrite Hr. split; [done|]. exists (elapsed (length sent)).
      rewrite Ho, Hl. destruct (first_status ms); cbn [from_option]; by rewrite !app_nil_r.
  - match goal with |- context [run_app _ _ ?w1] => specialize (IH r1 w1) end. cbn [wa_server wa_status wa_recorded sv_sent sv_context sv_ops sv_log] in IH.
    fold sent in IH. fold r1. rewrite Ea in IH. destruct (run_app _ _ _) as [r' w']. destruct IH as (-> & Hc & Hs & Hr & Hst & t & Ho & Hl).
    split; [done|]. split; [exact Hc|]. split; [by rewrite Hs, <- app_assoc|]. split; [exact Hr|]. split; [exact Hst|]. by exists t.
Qed.

End watching.

(** The labels are not bounded: a path that is neither an order's nor a static file's is a label of its own. *)
Lemma unknown_paths_are_labels (path : pystr) : is_prefix ORDERS_PREFIX path = false -> is_prefix (u "/static/") path = false -> truthy path = true ->
  _metric_path path = path.
Proof. intros H1 H2 H3. unfold _metric_path, str_or. by rewrite H1, H2, H3. Qed.

(** ** Readiness ([health.py], [/ready]) *)

Definition check_liveness : list (pystr * pystr) := [(u "status", u "ok")].

Section health.
Context `{Retrieval.RetrievalServices} (spec : EmbeddingSpec).
(** How the probe of the database ends; [settings.redis_url]; how [get_redis_client] ends,
    and whether it gives a client. *)
Context (db_probe : res exn unit) (redis_url : pystr) (redis_client : res exn bool).

Definition probe {A} (r : res exn A) (state : A -> pystr) : res exn pystr :=
  match r with
  | Ok a => Ok (state a)
  | Raise e => if is_Exception e then Ok (u "error:" ++ exn_message e) else Raise e
  end.
Definition client_state (present : bool) : pystr := if present then u "ok" else u "error:client_missing".
Definition check_readiness (d : disk) : res exn (pystr * list (pystr * pystr)) :=
  let? db := probe db_probe (fun _ => u "ok") in
  let? redis_state := (if truthy (strip redis_url) then probe redis_client client_state
                 else Ok (u "skipped")) in
  let? faiss_state := faiss_index_status spec d in
  let checks := [(u "db", db); (u "redis_state", redis_state); (u "faiss", if bool_decide (faiss_state = u "ok") then u "ok" else u "error:index_" ++ faiss_state)] in
  let ready := forallb (fun kv => bool_decide (kv.2 = u "ok") || bool_decide (kv.2 = u "skipped")) checks in
  Ok (if ready then u "ok" else u "not_ready", checks).
Definition ready (d : disk) : res exn (Z * (pystr * list (pystr * pystr))) :=
  let? payload := check_readiness d in
  Ok (if bool_decide (payload.1 = u "ok") then 200 else 503, payload)%Z.

Lemma error_text (t : pystr) : u "error:" ++ t <> u "ok" /\ u "error:" ++ t <> u "skipped".
Proof. split; by intros [=]. Qed.
Lemma probe_good {A} (r : res exn A) (state : A -> pystr) (good : A -> bool) p :
  (forall a, bool_decide (state a = u "ok") || bool_decide (state a = u "skipped") = good a) -> probe r state = Ok p ->
  bool_decide (p = u "ok") || bool_decide (p = u "skipped") = match r with Ok a => good a | Raise _ => false end.
Proof.
  intros Hg. unfold probe. destruct r as [a|e]; [intros [= <-]; apply Hg|]. destruct (is_Exception e); [|done]. intros [= <-].
  destruct (error_text (exn_message e)). by rewrite !bool_decide_eq_false_2.
Qed.

Lemma ok_fst {A B} (a c : A) (b d : B) : @Ok exn _ (a, b) = Ok (c, d) -> c = a.
Proof. congruence. Qed.
(** A worker says that it is ready exactly when the database answers, Redis does where it is
    configured, and the indexes pass the check at start-up. *)
Lemma ready_spec (d : disk) status payload : ready d = Ok (status, payload) ->
  status = (if is_ok db_probe && (negb (truthy (strip redis_url)) || bool_decide (redis_client = Ok true)) && is_ok (require_index_for_serve spec d)
            then 200 else 503)%Z.
Proof.
  unfold ready, check_readiness, require_index_for_serve.
  destruct (probe db_probe _) as [db|e] eqn:Edb; cbn [rbind]; [|done].
  pose proof (probe_good db_probe (fun _ => u "ok") (fun _ => true) db ltac:(by intros []) Edb) as Hdb.
  set (r := if truthy (strip redis_url) then _ else _). destruct r as [redis_state|e] eqn:Er; cbn [rbind]; [|done].
  assert (Hredis : bool_decide (redis_state = u "ok") || bool_decide (redis_state = u "skipped") = negb (truthy (strip redis_url)) || bool_decide (redis_client = Ok true)).
  { unfold r in Er. destruct (truthy (strip redis_url)); [|by injection Er as <-].
    rewrite (probe_good redis_client client_state (fun b => b) redis_state ltac:(intros []; vm_compute; reflexivity) Er). cbn [negb orb].
    destruct redis_client as [[]|e]; [by rewrite bool_decide_eq_true_2|by rewrite bool_decide_eq_false_2..]. }
  clear r Er. destruct (faiss_index_status spec d) as [state|e]; cbn [rbind]; [|done]. cbn [forallb snd]. rewrite Hdb, Hredis. intros E%ok_fst. rewrite E. clear E.
  assert (Hd : match db_probe with Ok _ => true | Raise _ => false end = is_ok db_probe) by by destruct db_probe.
  rewrite Hd. clear Hdb Hredis Edb.
  generalize (is_ok db_probe) (negb (truthy (strip redis_url)) || bool_decide (redis_client = Ok true)). intros db_ok redis_ok.
  destruct (bool_decide_reflect (state = u "ok")) as [Hs|Hs]; cbn [rbind is_ok].
  - change (bool_decide (u "ok" = u "ok") || bool_decide (u "ok" = u "skipped")) with true. cbn [fst]. by destruct db_ok, redis_ok; vm_compute.
  - assert (Hx : bool_decide (u "error:index_" ++ state = u "ok") || bool_decide (u "error:index_" ++ state = u "skipped") = false).
    { rewrite !bool_decide_eq_false_2; [done|by intros [=]..]. }
    rewrite Hx. cbn [fst].
    destruct (bool_decide (state = u "missing")), db_ok, redis_ok; vm_compute; reflexivity.
Qed.
End health.

(** A worker that is ready, and has read no index, gets the indexes when it needs them. *)
Theorem ready_worker_serves `{Retrieval.RetrievalServices} (default_tenant : pystr) (spec : EmbeddingSpec) (embed_fails : list Document -> option exn)
    (db_probe : res exn unit) (redis_url : pystr) (redis_client : res exn bool) (w : index_world) payload :
  (forall docs, embed_fails docs = None) -> pr_indexes (iw_process w) = None ->
  ready spec db_probe redis_url redis_client (iw_disk w) = Ok (200%Z, payload) ->
  db_probe = Ok tt /\ (truthy (strip redis_url) = true -> redis_client = Ok true) /\
  exists s w', get_indexes default_tenant spec embed_fails w = (Ok s, w').
Proof.
  intros Hf Hi Hr. pose proof (ready_spec _ _ _ _ _ _ _ Hr) as Hs.
  destruct (is_ok db_probe && (negb (truthy (strip redis_url)) || bool_decide (redis_client = Ok true)) && is_ok (require_index_for_serve spec (iw_disk w))) eqn:E; [|done].
  clear Hs Hr. apply andb_true_iff in E as [E Hq]. apply andb_true_iff in E as [Hdb Hred].
  split; [by destruct db_probe as [[]|]|]. split; [intros Ht; rewrite Ht in Hred; by apply bool_decide_eq_true in Hred|].
  rewrite (get_unread default_tenant spec embed_fails w Hi). unfold require_index_for_serve in Hq.
  destruct (read_indexes_status default_tenant spec embed_fails w Hf) as [(Hst & Hread)|[(Hst & s & w' & Hread)|(e & Hread & Hst)]]; rewrite Hst in Hq; cbn [rbind] in Hq.
  - rewrite bool_decide_eq_false_2 in Hq by (by intros [=]). by destruct (bool_decide _) in Hq.
  - rewrite Hread. exists s. by eexists.
  - destruct (is_mismatch e); cbn [rbind is_ok] in Hq; [|done]. rewrite bool_decide_eq_false_2 in Hq by (by intros [=]). by destruct (bool_decide _) in Hq.
Qed.

(** ** Feedback ([/feedback], [langfuse.py]) *)

(** [FeedbackRequest], [FeedbackResponse]. *)
Record FeedbackRequest := {
  fr_trace_id : pystr; fr_value : Z; fr_comment : option pystr; fr_request_id : option pystr; fr_session_id : option pystr;
}.
Record FeedbackResponse := { fb_status : pystr; fb_recorded : bool; fb_langfuse : bool; fb_reason : option pystr }.
(** The arguments of [create_score]. *)
Record score := {
  sc_value : pyfloat; sc_comment : option pystr; sc_metadata : list (pystr * pystr); sc_trace_id : option pystr; sc_session_id : option pystr;
}.
(** The samples of the worker, the calls to the metrics, and the scores Langfuse has taken. *)
Record feedback_world := { fw_harvest : harvest_world; fw_metrics : list metric_op; fw_scores : list score }.
Inductive feedback_answer : Type := Accepted (r : FeedbackResponse) | BadValue | FeedbackBroken (e : exn).

Section feedback.
(** [_ensure_env()], and how the client's [create_score] ends. *)
Context (langfuse : bool) (create_score : score -> res exn unit).
(** [record_feedback_down]. *)
Context (record_down : pystr -> option pystr -> ST harvest_world exn bool).

(** [if s: ... s.strip()]. *)
Definition stripped (s : option pystr) : option pystr := if otruthy s then Some (strip (opt_str s)) else None.
Definition score_of (r : FeedbackRequest) (value : pyfloat) : score :=
  let tid := strip (fr_trace_id r) in
  {| sc_value := value; sc_comment := str_or_none (strip (opt_str (fr_comment r)));
     sc_metadata := from_option (fun s => [(u "request_id", s)]) [] (stripped (fr_request_id r)) ++
                    from_option (fun s => [(u "session_id", s)]) [] (stripped (fr_session_id r));
     sc_trace_id := str_or_none tid; sc_session_id := stripped (fr_session_id r) |}.

Definition recorded (langfuse : bool) (reason : option string) : FeedbackResponse :=
  {| fb_status := u "ok"; fb_recorded := true; fb_langfuse := langfuse; fb_reason := u <$> reason |}.

Definition score_user_feedback (r : FeedbackRequest) : ST feedback_world exn FeedbackResponse := fun w =>
  let tid := strip (fr_trace_id r) in
  let value := if f_le f_half (f_of_int (fr_value r)) then f_one else f_zero in
  let label := if f_le f_half value then u "up" else u "down" in
  let w := {| fw_harvest := fw_harvest w; fw_metrics := fw_metrics w ++ inc_user_feedback label; fw_scores := fw_scores w |} in
  if negb (truthy tid) && negb (truthy (strip (opt_str (fr_session_id r)))) then (Ok (recorded false (Some "missing_trace_id"%string)), w)
  else if negb langfuse then (Ok (recorded false (Some "langfuse_disabled"%string)), w)
  else match create_score (score_of r value) with
       | Ok _ => (Ok (recorded true None), {| fw_harvest := fw_harvest w; fw_metrics := fw_metrics w; fw_scores := fw_scores w ++ [score_of r value] |})
       | Raise e => if is_Exception e then (Ok (recorded false (Some "langfuse_error"%string)), w) else (Raise e, w)
       end.

Definition feedback_api (r : FeedbackRequest) : feedback_world -> feedback_answer * feedback_world := fun w =>
  if negb (bool_decide (fr_value r ∈ [0; 1]%Z)) then (BadValue, w)
  else
    let (e, w) := if (fr_value r =? 0)%Z
                  then let (d, h) := record_down (fr_trace_id r) (fr_comment r) (fw_harvest w) in
                       (match d with Ok _ => None | Raise e => Some e end, {| fw_harvest := h; fw_metrics := fw_metrics w; fw_scores := fw_scores w |})
                  else (None, w) in
    match e with
    | Some e => (FeedbackBroken e, w)
    | None => match score_user_feedback r w with
              | (Ok response, w) => (Accepted response, w)
              | (Raise e, w) => (FeedbackBroken e, w)
              end
    end.

(** A mark is counted once, as what it is, exactly when it is accepted; it is a score at
    Langfuse exactly when the response says so; only a thumb down is looked up among the
    samples.  An illegal value changes nothing. *)
Lemma feedback_accepted (r : FeedbackRequest) (w : feedback_world) : (forall s e, create_score s = Raise e -> is_Exception e = true) ->
  let (a, w') := feedback_api r w in
  match a with
  | Accepted response =>
    (fr_value r = 0 \/ fr_value r = 1)%Z /\ fb_recorded response = true /\
    fw_metrics w' = fw_metrics w ++ inc_user_feedback (if (fr_value r =? 0)%Z then u "down" else u "up") /\
    fw_scores w' = fw_scores w ++ (if fb_langfuse response then [score_of r (f_of_int (fr_value r))] else []) /\
    fw_harvest w' = if (fr_value r =? 0)%Z then (record_down (fr_trace_id r) (fr_comment r) (fw_harvest w)).2 else fw_harvest w
  | BadValue => fr_value r <> 0%Z /\ fr_value r <> 1%Z /\ w' = w
  | FeedbackBroken e => fr_value r = 0%Z /\ (record_down (fr_trace_id r) (fr_comment r) (fw_harvest w)).1 = Raise e /\
    fw_metrics w' = fw_metrics w /\ fw_scores w' = fw_scores w
  end.
Proof.
  intros Hc. unfold feedback_api. destruct (bool_decide_reflect (fr_value r ∈ [0; 1]%Z)) as [Hv|Hv]; cbn [negb].
  2: { split_and!; [intros E; apply Hv; rewrite E; left|intros E; apply Hv; rewrite E; right; left|done]. }
  assert (Hscore : forall w1, (if (fr_value r =? 0)%Z then fr_value r = 0%Z else fr_value r = 1%Z) ->
    exists response, let w2 := (score_user_feedback r w1).2 in (score_user_feedback r w1).1 = Ok response /\ fb_recorded response = true /\
      fw_metrics w2 = fw_metrics w1 ++ inc_user_feedback (if (fr_value r =? 0)%Z then u "down" else u "up") /\
      fw_scores w2 = fw_scores w1 ++ (if fb_langfuse response then [score_of r (f_of_int (fr_value r))] else []) /\ fw_harvest w2 = fw_harvest w1).
  { intros w1 Hval. unfold score_user_feedback.
    assert (Ef : (if f_le f_half (f_of_int (fr_value r)) then f_one else f_zero) = f_of_int (fr_value r))
      by (destruct (fr_value r =? 0)%Z; rewrite Hval; vm_compute; reflexivity).
    assert (El : (if f_le f_half (f_of_int (fr_value r)) then u "up" else u "down") = (if (fr_value r =? 0)%Z then u "down" else u "up"))
      by (destruct (fr_value r =? 0)%Z; rewrite Hval; vm_compute; reflexivity).
    rewrite !Ef, El. destruct (_ && _); [eexists; split; [reflexivity|]; cbn; by rewrite app_nil_r|]. destruct (negb langfuse); [eexists; split; [reflexivity|]; cbn; by rewrite app_nil_r|].
    destruct (create_score _) as [[]|e] eqn:Ec; [eexists; split; [reflexivity|]; done|]. rewrite (Hc _ _ Ec). eexists. split; [reflexivity|]. cbn. by rewrite app_nil_r. }
  assert (Hval : if (fr_value r =? 0)%Z then fr_value r = 0%Z else fr_value r = 1%Z).
  { apply list_elem_of_In in Hv as [<-|[<-|[]]]; done. }
  destruct (Z.eqb_spec (fr_value r) 0) as [E0|E0].
  - destruct (record_down (fr_trace_id r) (fr_comment r) (fw_harvest w)) as [[d|e] h] eqn:Ed; [|done].
    match goal with |- context [score_user_feedback r ?w1] => destruct (Hscore w1) as (response & H1 & H2 & H3 & H4 & H5); [done|]; destruct (score_user_feedback r w1) as [a w2] end.
    cbn [fst snd] in *. subst a. split_and!; [by left|done..].
  - destruct (Hscore w Hval) as (response & H1 & H2 & H3 & H4 & H5). destruct (score_user_feedback r w) as [a w2].
    cbn [fst snd] in *. subst a. split_and!; [by right|done..].
Qed.
End feedback.

(** ** The order report ([/api/v1/orders/{order_no}]) *)

(** What the client gets; [OrderBroken]: an exception that leaves the endpoint. *)
Inductive order_answer : Type := OrderOk (r : OrderReport) | Refused (code : Z) (detail : pystr) | OrderBroken (e : exn).
(** [isinstance(exc, ValueError)]; pydantic's and the decoders' errors are. *)
Definition is_value_error (e : exn) : bool :=
  match e with
  | ValueError _ => true
  | OtherExc name _ => bool_decide (name ∈ [u "ValidationError"; u "JSONDecodeError"; u "UnicodeDecodeError"; u "UnicodeEncodeError"])
  | _ => false
  end.

Section order_api.
Context {T S : Type} `{JsonText T} `{Validators} `{ToolCacheStore T S}.
Context (settings : cache_settings) (esettings : escalation_settings).
(** The identity that the endpoint's context holds: its dependencies ran in threads of their
    own, and what they set there may not be seen here. *)
Context (current_tenant current_user : pystr).
Context (put_text : pystr -> pystr -> pystr -> res exn pystr) (env : call_env).
Context (default_tenant : pystr).

Definition order_status (r : res exn OrderReport) : order_answer :=
  match r with
  | Ok report => OrderOk report
  | Raise (TimeoutError _) => Refused 504 (u "订单查询超时")
  | Raise e => if is_value_error e then Refused 404 (exn_message e) else OrderBroken e
  end.
(** [query_order("", order_no, ...)]. *)
Definition asked_order (db : OrderDB) (order_no : pystr) (persist : bool) (tenant user : pystr) : ST (tool_world S) exn OrderReport :=
  query_order settings esettings db current_tenant current_user put_text env [] (Some order_no) tenant user None persist true true.
Definition api_order (db : OrderDB) (order_no : pystr) (persist : bool) (x_tenant_id x_user_id : option pystr) (id : identity)
    : tool_world S -> order_answer * tool_world S := fun w =>
  match get_tenant_id default_tenant x_tenant_id id with
  | (Raise e, _) => (Refused 400 (exn_message e), w)
  | (Ok tenant, id) =>
    match get_user_id x_user_id id with
    | (Raise e, _) => (OrderBroken e, w)
    | (Ok user, _) => let (r, w) := asked_order db order_no persist tenant user w in (order_status r, w)
    end
  end.

(** No orders at all. *)
Definition no_orders : OrderDB := table_db [].

(** The user whom the header names. *)
Definition header_user (x_user_id : option pystr) : pystr := str_or (strip (opt_str x_user_id)) ANONYMOUS.
Lemma get_user_value x_user_id id : exists id', get_user_id x_user_id id = (Ok (header_user x_user_id), id').
Proof.
  unfold get_user_id, header_user, str_or. cbn [resolve_request_user]. destruct (truthy (strip (opt_str x_user_id))); by eexists.
Qed.

(** An order that nobody with this identity may read is not allowed, under any spelling. *)
Lemma denied (db : OrderDB) (n n' : pystr) (tenant user user' : pystr) : strip n' = strip n -> _normalize_user_id (Some user') = _normalize_user_id (Some user) ->
  (forall o, ~ may_read db n (opt_str (ostr_or (Some tenant) (Some current_tenant))) (_normalize_user_id (Some user)) DIRECT_QUERY [] o) ->
  truthy user' = true -> allowed (authorize db current_tenant current_user n' DIRECT_QUERY (Some tenant) (Some user') None).1 = false.
Proof.
  intros Hn Hu Hno Ht.
  destruct (allowed (authorize db current_tenant current_user n' DIRECT_QUERY (Some tenant) (Some user') None).1) eqn:E; [exfalso|done].
  pose proof (fun o => authorize_correct db current_tenant current_user n' DIRECT_QUERY (Some tenant) (Some user') None o) as H'.
  cbv zeta in H'. change (strip (opt_str None)) with (@nil N) in H'. rewrite (ostr_or_true (Some user')) in H' by done.
  destruct (authorize db current_tenant current_user n' DIRECT_QUERY (Some tenant) (Some user') None) as [d audit]. cbn [fst] in E.
  destruct (decision_order d) as [o|] eqn:Eo.
  - destruct (H' o) as (Hm & _ & _). pose proof (proj1 Hm eq_refl) as Hmay. apply (Hno o). rewrite Hu in Hmay. destruct Hmay as [M1 M2 M3 M4 M5]. rewrite Hn in *. by split.
  - destruct (H' (demo_order 0 "" "" "")) as (_ & Hs & _). destruct (proj1 Hs E) as [x [=]].
Qed.

Lemma nothing_there (n tenant uid : pystr) (o : Order) : ~ may_read no_orders n tenant uid DIRECT_QUERY [] o.
Proof. by intros [_ Hf _ _ _]. Qed.
Lemma normal_user (user : pystr) : truthy user = true -> truthy (_normalize_user_id (Some user)) = true /\
  _normalize_user_id (Some (_normalize_user_id (Some user))) = _normalize_user_id (Some user).
Proof. intros _. split; [apply normalize_truthy|apply normalize_user_idem]. Qed.

Section hidden.
Context (db : OrderDB) (n tenant user : pystr).
Context (Huser : truthy user = true).
Context (Hno : forall o, ~ may_read db n (opt_str (ostr_or (Some tenant) (Some current_tenant))) (_normalize_user_id (Some user)) DIRECT_QUERY [] o).

Lemma fetch_hidden query : fetch_order_report db current_tenant current_user n tenant query (Some user) = Raise (ValueError (_user_visible_deny n)).
Proof using All.
  destruct (normal_user user Huser) as [Ht Hi]. unfold fetch_order_report. by rewrite (denied db n n tenant user _ eq_refl Hi Hno Ht).
Qed.
Lemma cache_hidden c sess n' (s : S) : strip n' = strip n -> get_cached_order settings db current_tenant current_user c sess n' tenant user s = (None, s).
Proof using All.
  intros Hn. unfold get_cached_order, can_access_order. destruct (negb (tool_cache_enabled settings)); [done|]. cbv zeta. destruct (negb (truthy (strip n'))); [done|].
  rewrite (denied db n (strip n') tenant user user); [done|by rewrite strip_idemp, Hn|done|done|done].
Qed.
End hidden.

(** A call about a hidden order, with its number [n] or without a number. *)
Section asked.
Context (db : OrderDB) (order_no tenant user : pystr) (persist : bool).
Context (Huser : truthy user = true).
Abbreviation tid := (opt_str (ostr_or (Some tenant) (Some current_tenant))).
Abbreviation uid := (_normalize_user_id (Some user)).
Abbreviation n := (opt_str (explicit_number (Some order_no))).
Context (Hno : forall o, ~ may_read db n tid uid DIRECT_QUERY [] o).

Definition refused_order : res exn OrderReport :=
  Raise (ValueError (match explicit_number (Some order_no) with Some n => _user_visible_deny n | None => MISSING_ORDER_NO end)).
Lemma inner_hidden : _query_order_inner db current_tenant current_user put_text env [] (Some order_no) tenant user None persist true = refused_order.
Proof using All.
  unfold _query_order_inner, refused_order. revert Hno. destruct (explicit_number (Some order_no)) as [m|]; cbn [rbind opt_str default]; [|done]. intros Hm.
  by rewrite (fetch_hidden db m tenant user Huser Hm).
Qed.

(** The key of a call in the caches: the number, or a word that is none. *)
Definition asked_key : pystr := str_or (strip (opt_str (ostr_or (ostr_or (explicit_number (Some order_no)) (Some order_no)) None))) (u "unknown").
Lemma key_hidden c sess (s : S) : get_cached_order settings db current_tenant current_user c sess asked_key tenant user s = (None, s).
Proof using H H0 H1 Hno Huser db env esettings put_text default_tenant settings order_no tenant user current_tenant current_user S T.
  assert (Hkey : asked_key = u "unknown" \/ strip asked_key = strip n).
  { unfold asked_key, explicit_number. set (m := opt_str (ostr_or (extract_order_no _) _)). unfold str_or_none. destruct (truthy m) eqn:E.
    - rewrite (ostr_or_true (Some m)) by done. rewrite ostr_or_true by done. change (opt_str (Some m)) with m. unfold str_or. destruct (truthy (strip m)); [right; exact (strip_idemp m)|by left].
    - left. assert (Hs : strip order_no = []).
      { unfold m, ostr_or in E. change (opt_str (Some order_no)) with order_no in E.
        destruct (extract_order_no order_no) as [[|a l]|]; cbn in E; try discriminate E; by destruct (strip order_no). }
      change (ostr_or None (Some order_no)) with (Some order_no). unfold ostr_or. cbn [otruthy]. destruct (truthy order_no); [|done].
      change (opt_str (Some order_no)) with order_no. by rewrite Hs. }
  destruct Hkey as [->|Hkey].
  - refine (cache_hidden db (u "unknown") tenant user Huser _ c sess (u "unknown") s eq_refl). intros o [Hf _ _ _ _]. vm_compute in Hf. discriminate Hf.
  - by apply (cache_hidden db n tenant user Huser Hno).
Qed.
End asked.

Lemma asked_hidden (db : OrderDB) (order_no tenant user : pystr) (persist : bool) (w : tool_world S) : truthy user = true ->
  (forall o, ~ may_read db (opt_str (explicit_number (Some order_no))) (opt_str (ostr_or (Some tenant) (Some current_tenant)))
               (_normalize_user_id (Some user)) DIRECT_QUERY [] o) ->
  asked_order db order_no persist tenant user w = asked_order no_orders order_no persist tenant user w /\
  (forall n, pool env = PoolRan -> explicit_number (Some order_no) = Some n ->
     asked_order db order_no persist tenant user w = (Raise (ValueError (_user_visible_deny n)), w)).
Proof.
  intros Hu Hno. pose proof (inner_hidden db order_no tenant user persist Hu Hno) as Ei.
  pose proof (inner_hidden no_orders order_no tenant user persist Hu (nothing_there _ _ _)) as Ei'.
  assert (Eh : forall busy, _handle_order_transient_failure settings esettings db current_tenant current_user env
      (ostr_or (ostr_or (explicit_number (Some order_no)) (Some order_no)) None) tenant user busy w =
    _handle_order_transient_failure settings esettings no_orders current_tenant current_user env
      (ostr_or (ostr_or (explicit_number (Some order_no)) (Some order_no)) None) tenant user busy w).
  { intros busy. pose proof (key_hidden db order_no tenant user Hu Hno (at_lookup env) (session_cache env) (tw_store w)) as E.
    pose proof (key_hidden no_orders order_no tenant user Hu (nothing_there _ _ _) (at_lookup env) (session_cache env) (tw_store w)) as E'.
    unfold _handle_order_transient_failure, lookup_cached_order, st_bind. fold (asked_key order_no). by rewrite E, E'. }
  unfold asked_order, query_order, _resolve_order_number, lift, st_bind. cbv zeta. rewrite Ei, Ei'. unfold refused_order. split.
  - destruct (pool env); cbn [run_order]; [done|by rewrite Eh..].
  - intros n Hp Hn. rewrite Hp, Hn. done.
Qed.

(** C26.  An order that its caller may not read is, to the caller, an order that does not exist.  The
    endpoint answers a request for it, whatever the state of the pool, of the caches and of
    the failure counts, as it would with no orders in the table, and leaves the same state;
    when the pool runs the call, that is a 404 that says the order was not found. *)
Theorem hidden_orders_are_absent (db : OrderDB) (order_no : pystr) (persist : bool) (x_tenant_id x_user_id : option pystr) (id : identity) (w : tool_world S) :
  (forall tenant o, normalize_tenant_id default_tenant x_tenant_id = Ok tenant ->
     ~ may_read db (opt_str (explicit_number (Some order_no))) tenant (header_user x_user_id) DIRECT_QUERY [] o) ->
  api_order db order_no persist x_tenant_id x_user_id id w = api_order no_orders order_no persist x_tenant_id x_user_id id w /\
  (forall n, is_ok (normalize_tenant_id default_tenant x_tenant_id) = true -> pool env = PoolRan -> explicit_number (Some order_no) = Some n ->
     api_order db order_no persist x_tenant_id x_user_id id w = (Refused 404 (_user_visible_deny n), w)).
Proof.
  intros Hno. unfold api_order, get_tenant_id.
  destruct (normalize_tenant_id default_tenant x_tenant_id) as [tenant|e] eqn:En; [|by split].
  pose proof (normalize_tenant_id_ok _ _ _ En) as (_ & _ & Hne & Hn & _). unfold set_current_tenant, st_bind, st_ret. rewrite Hn. cbv beta iota.
  match goal with |- context [get_user_id x_user_id ?i] => destruct (get_user_value x_user_id i) as [id' Eu] end. rewrite Eu. cbv beta iota.
  assert (Hu : truthy (header_user x_user_id) = true /\ _normalize_user_id (Some (header_user x_user_id)) = header_user x_user_id).
  { unfold header_user, _normalize_user_id, str_or. rewrite opt_str_Some. destruct (truthy (strip (opt_str x_user_id))) eqn:Et; [by rewrite strip_idemp, Et|].
    split; vm_compute; reflexivity. }
  destruct Hu as [Hu Hid].
  destruct (asked_hidden db order_no tenant (header_user x_user_id) persist w Hu) as [E1 E2].
  { rewrite Hid. rewrite ostr_or_true by by destruct tenant. intros o. rewrite opt_str_Some. by apply Hno. }
  split; [by rewrite E1|]. intros n _ Hp Hx. by rewrite (E2 n Hp Hx).
Qed.
End order_api.

(** ** Log lines ([logging.py]) *)

(** A record with what [RequestContextFilter] put on it; [lr_cs] is [record.cs], with values
    that are no JSON as [default=str] prints them; [lr_exc] the formatted exception. *)
Record log_record := {
  lr_level : pystr; lr_logger : pystr; lr_message : pystr;
  lr_request_id : pystr; lr_tenant_id : pystr; lr_user_id : pystr; lr_trace_id : pystr; lr_span_id : pystr;
  lr_cs : option (list (pystr * json)); lr_exc : option pystr;
}.

Section log_lines.
Context (float_repr : pyfloat -> pystr) (ts : pystr).
Definition present (k : string) (v : pystr) : list (pystr * json) := if truthy v then [(u k, JStr v)] else [].
Definition log_base (r : log_record) : list (pystr * json) :=
  [(u "ts", JStr ts); (u "level", JStr (lr_level r)); (u "logger", JStr (lr_logger r)); (u "msg", JStr (lr_message r))] ++
  present "request_id" (lr_request_id r) ++ present "tenant_id" (lr_tenant_id r) ++ present "user_id" (lr_user_id r) ++
  present "trace_id" (lr_trace_id r) ++ present "span_id" (lr_span_id r).
Definition add_extra (payload : list (pystr * json)) (kv : pystr * json) : list (pystr * json) :=
  match dget kv.1 payload, kv.2 with
  | Some _, _ | _, JNull => payload
  | None, v => dset kv.1 v payload
  end.
Definition log_payload (r : log_record) : list (pystr * json) :=
  let payload := foldl add_extra (log_base r) (default [] (lr_cs r)) in
  match lr_exc r with Some e => dset (u "exc") (JStr e) payload | None => payload end.
(** [JsonFormatter.format]. *)
Definition format_record (r : log_record) : pystr := json_dumps float_repr (JObj (log_payload r)).
End log_lines.

Section log_back.
Context (float_repr : pyfloat -> pystr) (float_of : pystr -> pyfloat) (ts : pystr).
Context (fine : pyfloat -> Prop) (float_texts : forall x, fine x -> float_text float_repr float_of x).

(** What an extra field may not touch. *)
Lemma extras_keep (extras payload : list (pystr * json)) k v : dget k payload = Some v -> dget k (foldl add_extra payload extras) = Some v.
Proof.
  revert payload. induction extras as [|[k' w] extras IH]; intros payload Hk; [done|]. cbn [foldl]. apply IH. unfold add_extra. cbn [fst snd].
  destruct (dget k' payload) eqn:E; [done|]. destruct w; try done; rewrite dget_dset; (destruct (decide (k' = k)) as [->|]; [by rewrite Hk in E|done]).
Qed.
Lemma extras_over (extras payload : list (pystr * json)) : Forall (fun kv => json_over fine kv.2) extras -> json_over fine (JObj payload) ->
  json_over fine (JObj (foldl add_extra payload extras)).
Proof.
  revert payload. induction extras as [|[k w] extras IH]; intros payload He Hp; [done|]. apply Forall_cons in He as [Hw He]. cbn [foldl]. apply IH; [done|].
  unfold add_extra. cbn [fst snd] in *. destruct (dget k payload) eqn:E; [done|]. apply over_obj in Hp as [Hn Hp].
  destruct w; try (apply over_obj; split; done); apply over_obj; (split; [by apply NoDup_dset|by apply Forall_dset]).
Qed.
Lemma base_over r : json_over fine (JObj (log_base ts r)).
Proof.
  apply over_obj. unfold log_base, present.
  split; [|by destruct (truthy (lr_request_id r)), (truthy (lr_tenant_id r)), (truthy (lr_user_id r)), (truthy (lr_trace_id r)), (truthy (lr_span_id r)); repeat constructor].
  destruct (truthy (lr_request_id r)), (truthy (lr_tenant_id r)), (truthy (lr_user_id r)), (truthy (lr_trace_id r)), (truthy (lr_span_id r));
    apply (bool_decide_unpack _); vm_compute; exact I.
Qed.

(** A record is one line of JSON that reads back as it was meant: the message, the level, the
    logger and the ids are the record's, whatever the extra fields are called. *)
Lemma record_reads_back (r : log_record) : Forall (fun kv => json_over fine kv.2) (default [] (lr_cs r)) ->
  unfeed (format_record float_repr ts r) /\
  exists d, json_loads float_of (format_record float_repr ts r) = Some (JObj d) /\
    Forall (fun kv => kv.1 <> u "exc" -> dget kv.1 d = Some kv.2) (log_base ts r) /\
    (forall e, lr_exc r = Some e -> dget (u "exc") d = Some (JStr e)).
Proof using float_texts.
  intros He. pose proof (extras_over (default [] (lr_cs r)) (log_base ts r) He (base_over r)) as Ho.
  assert (Hover : json_over fine (JObj (log_payload ts r))).
  { unfold log_payload. cbv zeta. destruct (lr_exc r) as [e|]; [|done]. apply over_obj in Ho as [Hn Hf]. apply over_obj. split; [by apply NoDup_dset|by apply Forall_dset]. }
  split; [by apply (dumps_unfeed float_repr float_of fine float_texts)|]. exists (log_payload ts r). unfold format_record.
  rewrite (json_loads_over float_repr float_of fine float_texts) by done. split; [done|].
  pose proof (base_over r) as [Hn _]%over_obj. split.
  - apply Forall_forall. intros [k v] Hin Hk. cbn [fst snd] in *. assert (Hb : dget k (log_base ts r) = Some v) by by apply elem_dget.
    pose proof (extras_keep (default [] (lr_cs r)) _ k v Hb) as Hx. unfold log_payload. cbv zeta. destruct (lr_exc r) as [e|]; [|done].
    rewrite dget_dset, decide_False; [done|]. intros Ek. by apply Hk.
  - intros e E. unfold log_payload. rewrite E. rewrite dget_dset. by rewrite decide_True.
Qed.
End log_back.

(** ** Headers as a list *)

Module Wire.
Abbreviation headers := (list (pystr * pystr)).
Definition same_name (k : pystr) (kv : pystr * pystr) : Prop := lower kv.1 = lower k.
#[global] Instance same_name_dec k kv : Decision (same_name k kv) := decide (lower kv.1 = lower k).
Fixpoint first (k : pystr) (h : headers) : option pystr :=
  match h with [] => None | kv :: h => if decide (same_name k kv) then Some kv.2 else first k h end.
#[global] Instance header_list : HeaderMap headers := {
  h_get := first;
  h_set k v h := filter (fun kv => ~ same_name k kv) h ++ [(k, v)];
}.
#[global] Instance header_list_laws : HeaderMapLaws headers.
Proof.
  split. intros k k' v h. unfold h_get, h_set, header_list.
  assert (Hnew : first k [(k', v)] = if bool_decide (lower k = lower k') then Some v else None).
  { cbn [first]. unfold same_name. cbn [fst snd]. destruct (decide (lower k' = lower k)) as [E|E]; [by rewrite bool_decide_eq_true_2|by rewrite bool_decide_eq_false_2 by congruence]. }
  induction h as [|kv h IH]; [exact Hnew|]. rewrite filter_cons. destruct (decide (same_name k' kv)) as [Hs|Hs].
  - rewrite decide_False by (by intros Hn; apply Hn). rewrite IH. case_bool_decide as Hk; [done|]. cbn [first]. rewrite decide_False; [done|].
    unfold same_name in *. congruence.
  - rewrite decide_True by done. cbn [app first]. destruct (decide (same_name k kv)) as [Hk|Hk]; [|exact IH].
    rewrite bool_decide_eq_false_2; [done|]. unfold same_name in *. congruence.
Qed.
End Wire.

(** ** Some requests *)

Module Demo.
(** The server loses the connection once two messages are sent. *)
Definition deliver (sent : list (message Wire.headers)) (m : message Wire.headers) : res exn unit :=
  if length sent <? 2 then Ok tt else Raise (OSError (u "gone")).
Definition elapsed (n : nat) : pyfloat := f_of_int (Z.of_nat n).
Definition fresh : pystr := u "0f0e0d0c0b0a09080706050403020100".
Definition carrier : res exn (list (pystr * pystr)) := Ok [(u "traceparent", u "00-1-2-01")].
Definition content_type : Wire.headers := [(u "content-type", u "application/json")].
(** Sends a response in two pieces; ends when sending fails. *)
Definition responds (status : option Z) (_ : pystr) : application Wire.headers :=
  Send (Start status content_type) (fun _ => Send (Other (u "a")) (fun _ => Send (Other (u "b")) (fun r =>
    match r with Ok _ => Finish | Raise e => Throw e end))).
Definition crashes (_ : pystr) : application Wire.headers := Throw (RuntimeError (u "x")).
Definition scope (path : string) (hs : Wire.headers) : http_scope Wire.headers := Build_http_scope true (Some (u path)) (Some (u "GET")) hs.
Definition start : server Wire.headers := Build_server [] [] [] [].
Definition serve (app : pystr -> application Wire.headers) (sc : http_scope Wire.headers) : res exn unit * server Wire.headers :=
  observability_middleware deliver elapsed fresh true carrier app sc start.
Definition counted_as (s : server Wire.headers) : list (list (pystr * pystr)) :=
  omap (fun op => match op with Inc _ _ l => Some l | _ => None end) (sv_ops s).
Definition label (path : string) (status : Z) : list (pystr * pystr) := [(u "method", u "GET"); (u "path", u path); (u "status", dec status)].
Definition order_scope : http_scope Wire.headers := scope "/api/v1/orders/20251114001" [(u "x-request-id", u " r9 ")].
Definition denied_scope : http_scope Wire.headers := scope "/wp-admin/7.php" [].
End Demo.

(** An order, a probe of an attacker, and a failing readiness check. *)
Example watched_requests :
  let (r1, s1) := Demo.serve (Demo.responds (Some 200%Z)) Demo.order_scope in
  let (r2, s2) := Demo.serve (Demo.responds (Some 404%Z)) Demo.denied_scope in
  let (r3, s3) := Demo.serve Demo.crashes (Demo.scope "/ready" []) in
  r1 = Raise (OSError (u "gone")) /\ Demo.counted_as s1 = [Demo.label "/api/v1/orders/{order_no}" 200] /\
  map (fun m => match m with Start _ h => h_get (u "X-REQUEST-ID") h | Other _ => None end) (sv_sent s1) = [Some (u "r9"); None; None] /\
  map (fun m => match m with Start _ h => h_get (u "Traceparent") h | Other _ => None end) (sv_sent s1) = [Some (u "00-1-2-01"); None; None] /\
  Demo.counted_as s2 = [Demo.label "/wp-admin/7.php" 404] /\ length (sv_log s2) = 1 /\
  r3 = Raise (RuntimeError (u "x")) /\ Demo.counted_as s3 = [Demo.label "/ready" 500] /\ sv_log s3 = [] /\ sv_context s3 = [].
Proof. vm_compute. split_and!; reflexivity. Qed.


Module OrderDemo.
Abbreviation tools := (tool_world ToolCache.Demo.store).
Definition ask (db : OrderDB) (p : pool_outcome) (order_no : string) (user : string) (w : tools) : order_answer * tools :=
  api_order (T := json) (S := ToolCache.Demo.store) ToolCache.Demo.settings OrderCapability.Demo.esettings (u "demo") (u "anonymous")
    OrderCapability.Demo.put_text (OrderCapability.Demo.env p) (u "demo") db (u order_no) false (Some (u "demo")) (Some (u user))
    {| Tenancy.current_tenant := u "demo"; Tenancy.current_user := u "anonymous" |} w.
Definition world : tools := OrderCapability.Demo.world.
Definition code (a : order_answer) : Z := match a with OrderOk _ => 200 | Refused c _ => c | OrderBroken _ => 500 end.
End OrderDemo.

(** The owner gets the report; another user, another tenant's order and a number that is none
    are 404s; a timeout on an order that was never cached is a 504, and the second one, where
    a conversation would be handed over to a person, an error of the server. *)
Example order_codes :
  let hers := "20251114001"%string in
  map (fun x => OrderDemo.code (OrderDemo.ask demo_db PoolRan x.1 x.2 OrderDemo.world).1)
    [(hers, "alice"); (hers, "mallory"); ("20251114002", "bob"); ("nope", "alice")]%string = [200; 404; 404; 404]%Z /\
  let (a1, w1) := OrderDemo.ask demo_db (PoolTimeout []) "20251114003" "alice" OrderDemo.world in
  let (a2, w2) := OrderDemo.ask demo_db (PoolTimeout []) "20251114003" "alice" w1 in
  OrderDemo.code a1 = 504%Z /\ exists d, a2 = OrderBroken (ToolEscalationError d).
Proof.
  split; [vm_compute; reflexivity|]. destruct (OrderDemo.ask demo_db (PoolTimeout []) "20251114003" "alice" OrderDemo.world) as [a1 w1] eqn:E1.
  destruct (OrderDemo.ask demo_db (PoolTimeout []) "20251114003" "alice" w1) as [a2 w2] eqn:E2.
  split; [apply (f_equal (fun x => OrderDemo.code x.1)) in E1; cbn [fst] in E1; rewrite <- E1; vm_compute; reflexivity|].
  exists {| escalate := true; ed_reason := Some transient_exhausted; ed_message := Some (build_handoff_answer true (Some transient_exhausted)) |}.
  apply (f_equal snd) in E1. cbn [snd] in E1. rewrite <- E1 in E2. apply (f_equal fst) in E2. cbn [fst] in E2. rewrite <- E2. vm_compute. reflexivity.
Qed.

(** Mallory asks for an order of Alice's while the pool is busy. *)
Lemma hidden_orders_are_absent_witness :
  OrderDemo.ask demo_db (PoolBusy []) "20251114001" "mallory" OrderDemo.world = OrderDemo.ask no_orders (PoolBusy []) "20251114001" "mallory" OrderDemo.world.
Proof.
  assert (Hno : forall tenant o, normalize_tenant_id (u "demo") (Some (u "demo")) = Ok tenant ->
    ~ may_read demo_db (opt_str (explicit_number (Some (u "20251114001")))) tenant (header_user (Some (u "mallory"))) DIRECT_QUERY [] o).
  { intros tenant o Et [_ Hf Ho _ _]. assert (Ht : tenant = u "demo").
    { apply (f_equal (fun r => match r with Ok t => t | Raise _ => [] end)) in Et. rewrite <- Et. vm_compute. reflexivity. }
    rewrite Ht in Hf. assert (Hs : (order_user_id <$> db_order demo_db (strip (opt_str (explicit_number (Some (u "20251114001"))))) (u "demo")) = Some (u "alice"))
      by (vm_compute; reflexivity).
    rewrite Hf in Hs. specialize (Ho ltac:(vm_compute; reflexivity)). apply (f_equal (default [])) in Hs. cbn in Hs. rewrite Ho in Hs.
    assert (Hne : bool_decide (header_user (Some (u "mallory")) = u "alice") = false) by (vm_compute; reflexivity).
    rewrite bool_decide_eq_true_2 in Hne by exact Hs. discriminate Hne. }
  exact (proj1 (hidden_orders_are_absent (T := json) (S := ToolCache.Demo.store) ToolCache.Demo.settings OrderCapability.Demo.esettings (u "demo") (u "anonymous")
    OrderCapability.Demo.put_text (OrderCapability.Demo.env (PoolBusy [])) (u "demo") demo_db (u "20251114001") false (Some (u "demo")) (Some (u "mallory"))
    {| Tenancy.current_tenant := u "demo"; Tenancy.current_user := u "anonymous" |} OrderDemo.world Hno)).
Defined.

(** A mark: down for a turn the worker remembers, and for one it does not. *)
Example a_thumb_down :
  let w := {| fw_harvest := {| hw_process := {| hp_cache := []; hp_seen := [] |}; hw_pending := []; hw_evals := [] |}; fw_metrics := []; fw_scores := [] |} in
  let mark v := {| fr_trace_id := u " t1 "; fr_value := v; fr_comment := None; fr_request_id := None; fr_session_id := None |} in
  let record_down := record_feedback_down true 3600 Harvest.Demo.digest no_floats some_float Harvest.Demo.no_repr Harvest.Demo.written f_zero in
  let run v := feedback_api true (fun _ => Ok tt) record_down (mark v) w in
  (run 2%Z).1 = BadValue /\ (run 0%Z).1 = Accepted (recorded true None) /\ fw_metrics (run 0%Z).2 = inc_user_feedback (u "down") /\
  map sc_trace_id (fw_scores (run 1%Z).2) = [Some (u "t1")].
Proof. vm_compute. split_and!; reflexivity. Qed.
